(* ===== verification/_CoqProject ===== *)
-Q . S2P
Prelude.v
KDefs.v
Mmu.v
MmuSpec.v
MmuTree.v
MmuMap.v
MmuCorrect.v
MmuProps.v
Vmm.v
Lock.v
Bytes.v
Cpio.v
CpioProps.v
Vfs.v
CpioFs.v
VfsProps.v
KernelFs.v
KMain.v
Fdt.v
FdtRo.v
FdtSafe.v
FdtRoSafe.v
FdtProps.v
FdtHelper.v
FdtCheck.v
FdtTree.v
FdtPath.v
FdtWalk.v
FdtReg.v
FdtSw.v
FdtSwProps.v
FdtSeg.v
FdtNames.v
FdtRsv.v
FdtSwTree.v
FdtSwRound.v
FdtMove.v
FdtEdit.v
FdtRw.v
FdtSplice.v
FdtRwProps.v
FdtRwNodes.v
FdtScript.v
FdtWhole.v
FdtOverlay.v
FdtMerge.v
FdtInplace.v
FdtOverlayProps.v
FdtRefs.v
FdtFixups.v
FdtSymbols.v
FdtApply.v
FdtPrint.v
Elf.v
ElfProps.v
LowerEnv.v
DrvMgr.v
Sched.v
Uart.v
SysDrv.v
SysProps.v
KernelDev.v
RootProps.v
Sbi.v
Boot.v
BootSample.v
Harts.v
Traps.v
UMode.v
CxxAbi.v
Entry.v
EntryBoot.v
EntryC.v
EntrySample.v
