(* ===== verification/Prelude.v ===== *)
(** * AbydOS: a verification library for the kernel and its parsers

    AbydOS is a RISC-V 64 kernel (src/kernel, C++ and C) that boots from a
    flattened device tree, builds its page tables, probes drivers, mounts the
    initial CPIO archive as its root file system and starts the other harts. It
    brings three C libraries with it (src/deps): libfdt reads the device tree,
    libcpio the archive, libelf program images. The library models these parts
    as executable functions over explicit states and proves what the rest of
    the kernel relies on.

    ** Conventions

    Machine integers are [Z] with the wrap-around written out ([uw], [sw] and
    the abbreviations [u32], [s32], [u64]...); bit fields are read and written
    with [getf] and [setf]. A computation that may go wrong returns an [option]
    or lives in the state monad [M]; [None] is an access the code must not make
    (outside a buffer, through a bad pointer) or a loop that did not end within
    its fuel. So a theorem that says a function returns [Some] states memory
    safety and termination at once. Memory a parser reads is a [region]: the
    bytes and the address of the first.

    ** Files and what they model

    - Prelude.v: integers, bit fields, the monad, tactics, shared lemmas.
    - KDefs.v: status codes and layout constants (kernel/inc/k_defs.h,
      kernel/inc/sbi/sbi_ecall_interface.h).
    - Mmu.v: the page-table manager [RV64MMU<sz>] (kernel/inc/k_mmu.h) and
      kernel/inc/k_mem.hpp: bit fields of [pte_t] and [satp_t], [_createPTE],
      [_getPTE], [_removePTE], [_map], [_unmap], [map], [unmap], construction,
      [fork], [enable]. The state is physical memory in 64-bit words, satp and
      the C library's allocator, which is a parameter.
    - MmuSpec.v, MmuTree.v, MmuMap.v, MmuCorrect.v, MmuProps.v: the hardware's
      page walk ([walk], [translate]) as the specification, the invariant
      [pt_wf] of the tree of tables, what [_createPTE] does to it, one block,
      a range, and the theorems. The contract of the allocator is the class
      [MemalignSpec]; [Bump] is an instance.
    - Vmm.v: [VMemoryMgr] (kernel/inc/k_vmmgr.hpp) against the class [MMUSpec],
      which [RV64MMU] implements, and the set-up of the address space in
      [k_boot_sysdev] (kernel/main/k_boot.cpp).
    - Lock.v: [struct __lock] (kernel/inc/k_lock.h), the lock functions newlib
      calls and its allocator lock (kernel/main/libc_hooks.cpp), as a step
      relation of interleaved harts, each with its thread-local [hartid].
    - LowerEnv.v: [_sbrk] and the order of [k_boot] (kernel/main/lowerenv.c).
    - Bytes.v: buffers, big-endian reads, C strings.
    - Cpio.v, CpioProps.v: libcpio, and what it does on an archive that holds a
      list of files ([encode]: the newc format, with hexadecimal digits of either
      case and a trailer with any header fields, as cpio -o -H newc writes it).
    - Vfs.v, VfsProps.v: [VirtualFS] and its console (kernel/inc/k_vfs.h,
      kernel/main/k_vfs.cpp) over any file system of the class [FsSpec], which
      also says when a file system may report that no descriptor is left.
    - CpioFs.v, KernelFs.v: the file systems (kernel/driver/fs/cpiofs.cpp,
      devfs.cpp); CPIOFS is an instance of [FsSpec]; the kernel's mount table
      with both of them. KMain.v: [k_main] (kernel/main/k_main.cpp), which prints
      a file through [std::ifstream], on top of them.
    - Fdt.v, FdtRo.v: libfdt's fdt.c, fdt_ro.c and the cell counts of
      fdt_addresses.c. FdtSafe.v, FdtRoSafe.v: safety and termination on blobs
      of arbitrary content. FdtProps.v: concrete trees.
    - FdtCheck.v: fdt_check.c, fdt_strerror.c, fdt_wip.c.
    - FdtTree.v, FdtPath.v: the specification of reading: the tree [dt] a blob
      holds, and that the walks, searches, properties, parents and paths of
      libfdt are those of the tree. FdtWalk.v: the walk over all nodes and the
      searches. FdtReg.v: register entries of nodes. FdtRsv.v: reservations.
      FdtNames.v: the paths of nodes and [fdt_get_path].
    - FdtSw.v: libfdt's fdt_sw.c and the header setters and property helpers of
      libfdt.h. FdtSwProps.v, FdtSwTree.v, FdtSwRound.v: the buffer as a list of
      tokens and strings, [fdt_finish], and the round trip of a whole tree.
    - FdtRw.v: libfdt's fdt_rw.c, fdt_empty_tree.c and the writing half of
      fdt_addresses.c. FdtSeg.v, FdtMove.v, FdtEdit.v: what a blob says about a
      part of its tree moves with the bytes, and the tree of a blob in which a
      stretch of the structure block was replaced. FdtSplice.v, FdtRwProps.v,
      FdtRwNodes.v: each function of fdt_rw.c as an operation on the tree.
      FdtScript.v: programs of such changes. FdtWhole.v: reservations, opening
      and packing a blob, the empty tree.
    - FdtOverlay.v: libfdt's fdt_overlay.c, on the memories of the two blobs.
      FdtMerge.v: the merge of two trees. FdtInplace.v: values replaced in
      place. FdtOverlayProps.v: phandles, targets and fragments. FdtRefs.v,
      FdtFixups.v: "__local_fixups__" and "__fixups__". FdtSymbols.v:
      "__symbols__". FdtApply.v: [fdt_overlay_apply] as a whole.
    - FdtHelper.v: the kernel's own helpers (kernel/main/fdt_helper.c), and
      FdtPrint.v: their printer of DEBUG builds.
    - Elf.v, ElfProps.v: libelf (elf.c, elf32.c, elf64.c and their headers).
    - DrvMgr.v: [DriverManager] (kernel/inc/k_drvif.h, kernel/main/k_drvif.cpp)
      over any set of drivers; the interface is the record [DriverBase], what
      probing needs of it the class [DriverSpec].
    - SysDrv.v, SysProps.v, RootProps.v: the drivers of the memory, the
      processors and the root node (kernel/driver/sysmem.cpp, syscpu.cpp,
      sysroot.cpp, kernel/inc/k_sysdev.h).
    - Sched.v: the round-robin scheduler (kernel/driver/scheduler).
    - Uart.v: the serial port driver (kernel/driver/virt/uart8250.cpp) on a
      device given by the effect of its loads and stores; what the hardware
      promises, at the bus addresses of its registers, is the class [Uart16550].
    - KernelDev.v: all drivers together; they are an instance of [DriverSpec].
    - Sbi.v: the wrappers of firmware calls (kernel/inc/k_sbif.hpp).
    - Boot.v: [k_boot_sysdev] and [k_boot_perip] (kernel/main/k_boot.cpp) on
      top of the drivers, page tables and file systems. BootSample.v: a board,
      booted.
    - Harts.v: the start and the end of the other harts: [k_boot_harts],
      [k_before_cleanup] (k_boot.cpp), [k_pre_main], [k_after_main]
      (kernel/main/k_main.cpp) as a step relation of interleaved harts; which
      harts the firmware starts and which timers it sets are parameters.
    - Traps.v: the assembly of kernel/main/k_isr.cpp on a small RISC-V machine,
      its dispatch tables and handlers. UMode.v: the floating-point context of
      kernel/inc/k_umode.h.
    - CxxAbi.v: the table of destructors (kernel/main/k_cxxabi.cpp).
    - Entry.v: the code before and between the C functions, preloader.S and
      prepC.S (kernel/main), instruction by instruction on a RISC-V machine whose
      fetches, loads and stores go through the page table in satp; the symbols
      of kernel.ldS, the firmware and the C functions are parameters. EntryBoot.v:
      the preloader. EntryC.v: the boot hart from [_start] to the end, and the
      entry of the other harts. EntrySample.v: a machine on which both run.

    ** What the theorems show

    Address spaces: [map] refines the hardware's translation, on every request
    it accepts and with every other address untouched; rejected requests change
    nothing; [unmap] undoes [map] while the boot identity map is active, and
    faults on a page afterwards; [confirm] carries out all requests.

    Boot: [k_boot_sysdev] uses each driver it finds as the class it has,
    reports what is missing, and otherwise ends with exactly the direct map;
    probing is the pre-order traversal of the device tree, ends on every blob,
    and installs every device it reaches; the drivers store what the tree says
    about memory, processors and the root, and the string that names the
    initial archive reads back as its address and size.

    Concurrency: mutual exclusion of the lock for every interleaving and every
    mix of calls, in the stage K_MULTICORE and between harts with distinct
    values of [hartid]; the kernel is not torn down while another hart runs
    (hart 0 apart, when the timer of another boot hart could not be set), unless
    a wait runs out of time, and from every reachable state the harts can reach
    the end.

    Files: libcpio finds the entries of an archive; [open], [read], [lseek] and
    [close] of the virtual file system implement files with positions, for any
    file system that keeps the contract; after mounting an archive its files
    can be opened; [k_main] prints the lines of the file it reads, for any size
    of the stream's buffer, and leaves no descriptor open.

    Device trees: the read functions that [fdt_read_safe], [fdt_walk_safe] and
    [fdt_getprop_safe] name do not leave a blob whose [totalsize] fits its
    buffer, whatever it contains, and their loops end; a blob that
    [fdt_check_full] accepts holds a tree; on a blob that holds a tree,
    properties, sub-nodes, parents, paths and register entries are those of the
    tree, and the path [fdt_get_path] gives for a node leads back to it when names
    have no slash. A tree written with the sequential-write functions (property
    names of at most 47 bytes, reservations that are not empty) is the tree the
    finished blob holds, reservations included, or the buffer was too small and
    the caller is told; a buffer that became too small can be enlarged.

    Changing device trees: every program of calls that set, extend and delete
    properties, add, rename and delete nodes does to the blob what it does to
    the tree, or runs out of room and leaves a blob with the tree it had
    reached; what was set is what is read. Reservations can be added and removed,
    a blob can be packed, and an empty tree made. An overlay that applies leaves
    the base tree with the overlay's fragments merged into their targets, with
    phandles that are distinct from those of the base tree, references inside
    the overlay raised with them and references to labels of the base tree
    filled in, and with the overlay's symbols under the paths their nodes have in
    the merged tree, provided that its fixups name offsets inside it, target paths
    are absolute and names plain; an overlay that fails leaves a base tree no function accepts.

    Entry: of all harts one goes on as boot hart; the table the preloader builds
    maps the low four gigabytes to themselves and into the kernel's window, and
    the code goes on there; the BSS is cleared, thread-local data copied, and the
    C functions are called in order, each with its stack and arguments; another
    hart enters with its own stack, and with the thread pointer the trap entries
    recompute.

    Devices and traps: the serial port sends what it is given and receives as a
    queue; interrupts with a normal context leave the interrupted program
    unchanged; exceptions other than system calls stop the hart, unless a
    debugger continues a breakpoint; saved floating-point registers are
    restored. Program images: every byte string is decided safely, and loading
    builds the described image. Destructors run once each, last registered
    first.

    A further group of theorems states behaviour that is probably not meant: it
    is recorded where it was found, with the input that shows it.

    ** Fuel

    Loops over a blob or an archive carry a fuel that exceeds the number of
    bytes ([blob_fuel], [cpio_fuel]); each iteration consumes at least one byte
    (a tag takes four), which the safety theorems prove to be enough. [map] and
    [unmap] advance by a page at least, hence [map_fuel]. The recursion of
    probing is bounded by the same [blob_fuel]: a child starts behind its
    parent. Waiting for the serial port carries a fuel that the device's
    promise bounds. Recursion through device-tree aliases has no bound in the
    code; its depth is an explicit argument, and [alias_cycle_diverges] shows
    that none is enough.

    ** The hardware

    The page walk is that of the privileged architecture with a hart that sets
    the A and D bits itself, without a check of the reserved bits from 54 on,
    which [map] uses for the memory attributes of the T-Head C906. Accesses of
    different harts interleave one after the other (sequential consistency).

    ** Not modelled

    CSR and barrier macros and the encodings behind them; the vector context of
    k_umode.h, which has no operations; console output other than
    [_write_stdout], the console driver, the dump of an exception and the
    printer of device trees. What the kernel calls in newlib and libstdc++
    beyond the parts named above, and the firmware, are parameters.

    Modelled, but without theorems of their own: [fdt_open_into] with a second
    buffer, and [fdt_appendprop_addrrange]. *)
From stdpp Require Export base numbers list option gmap strings.
From Stdlib Require Export ZArith Lia.
#[global] Open Scope Z_scope.

(** ** Machine integers

    A w-bit unsigned value is a [Z] in [0, 2^w); the C conversions and the
    wrap-around of unsigned arithmetic are written out with [uw]. *)
Definition uw (w x : Z) : Z := x mod 2 ^ w.
Abbreviation u8 := (uw 8).
Abbreviation u16 := (uw 16).
Abbreviation u32 := (uw 32).
Abbreviation u64 := (uw 64).

(** Two's complement reading of a w-bit pattern: the C conversion to a signed
    type of width w (implementation-defined in C, modulo 2^w on this target). *)
Definition sw (w x : Z) : Z :=
  let y := uw w x in if y <? 2 ^ (w - 1) then y else y - 2 ^ w.
Abbreviation s8 := (sw 8).
Abbreviation s32 := (sw 32).
Abbreviation s64 := (sw 64).

Definition is_uw (w x : Z) : Prop := 0 <= x < 2 ^ w.
Definition is_sw (w x : Z) : Prop := - 2 ^ (w - 1) <= x < 2 ^ (w - 1).

(** C truth values. *)
Definition b2z (b : bool) : Z := if b then 1 else 0.

(** ** Bit fields

    [getf w lo n] reads the n-bit field at bit [lo] of the word [w] and
    [setf w lo n v] stores the low n bits of [v] there: the load and the store
    of a C bit field (little-endian layout, lowest field first). *)
Definition getf (w lo n : Z) : Z := Z.land (Z.shiftr w lo) (Z.ones n).
Definition setf (w lo n v : Z) : Z :=
  Z.lor (Z.land w (Z.lnot (Z.shiftl (Z.ones n) lo)))
        (Z.shiftl (Z.land v (Z.ones n)) lo).

(** ** State with faults

    [M S A] is a computation over the state [S]; [None] is an access the code
    must not make (an invalid pointer, an index out of range: undefined
    behaviour of C, an access fault on the machine). *)
Definition M (S A : Type) : Type := S -> option (A * S).

#[global] Instance M_ret {S} : MRet (M S) := fun A a s => Some (a, s).
#[global] Instance M_bind {S} : MBind (M S) :=
  fun A B f m s => match m s with Some (a, s') => f a s' | None => None end.

Definition fault {S A} : M S A := fun _ => None.
Definition get {S} : M S S := fun s => Some (s, s).
Definition put {S} (s : S) : M S unit := fun _ => Some (tt, s).
Definition modify {S} (f : S -> S) : M S unit := fun s => Some (tt, f s).
Definition lift {S A} (o : option A) : M S A :=
  fun s => match o with Some a => Some (a, s) | None => None end.

(** ** Tactics *)

(** Case analysis on the boolean comparisons of the goal and the context. *)
Ltac zcase :=
  repeat match goal with
  | |- context [?a =? ?b] => destruct (Z.eqb_spec a b)
  | |- context [?a <? ?b] => destruct (Z.ltb_spec a b)
  | |- context [?a <=? ?b] => destruct (Z.leb_spec a b)
  | H : context [?a =? ?b] |- _ => destruct (Z.eqb_spec a b)
  | H : context [?a <? ?b] |- _ => destruct (Z.ltb_spec a b)
  | H : context [?a <=? ?b] |- _ => destruct (Z.leb_spec a b)
  end.

(** Reads off the outcome of a monadic step that is known to succeed. *)
Ltac m_inv H :=
  repeat (cbn [mbind mret M_bind M_ret] in H;
    match type of H with
    | Some _ = Some _ => injection H as H; subst
    | None = Some _ => discriminate H
    | context [match ?x with Some _ => _ | None => _ end] =>
        let E := fresh "E" in destruct x as [[??]|] eqn:E; [|discriminate H]
    end).

Create HintDb word.

(** ** Bit-level reasoning *)

Lemma testbit_shiftl_nn w lo i :
  0 <= lo -> 0 <= i -> Z.testbit (Z.shiftl w lo) i = (lo <=? i) && Z.testbit w (i - lo).
Proof.
  intros. rewrite Z.shiftl_spec by lia. destruct (Z.leb_spec lo i); [done|].
  by rewrite Z.testbit_neg_r by lia.
Qed.

Lemma testbit_high w n i : 0 <= w < 2 ^ n -> n <= i -> Z.testbit w i = false.
Proof.
  intros Hw Hi. destruct (Z.leb_spec 0 n).
  - rewrite <- (Z.mod_small w (2 ^ n)) by lia. by apply Z.mod_pow2_bits_high.
  - rewrite (Z.pow_neg_r 2 n) in Hw by lia. lia.
Qed.

Lemma land_ones_is_mod w n : 0 <= n -> Z.land w (Z.ones n) = w mod 2 ^ n.
Proof. apply Z.land_ones. Qed.

Create Rewrite HintDb bits.
#[export] Hint Rewrite Z.land_spec Z.lor_spec Z.lxor_spec Z.bits_0 : bits.
#[export] Hint Rewrite Z.lnot_spec Z.shiftr_spec testbit_shiftl_nn Z.testbit_ones_nonneg
  Z.testbit_mod_pow2 using lia : bits.

(** Two words are equal when they agree on every bit. *)
Ltac bitwise :=
  apply Z.bits_inj'; intros ?i ?Hi; autorewrite with bits;
  zcase; try lia;
  rewrite ?andb_true_r, ?andb_false_r, ?orb_false_r, ?andb_true_l, ?andb_false_l,
    ?orb_false_l, ?andb_negb_r; try done.

Lemma testbit_getf w lo n i :
  0 <= lo -> 0 <= n -> 0 <= i ->
  Z.testbit (getf w lo n) i = (i <? n) && Z.testbit w (i + lo).
Proof. intros. unfold getf. autorewrite with bits. apply andb_comm. Qed.

Lemma testbit_setf w lo n v i :
  0 <= lo -> 0 <= n -> 0 <= i ->
  Z.testbit (setf w lo n v) i =
    if (lo <=? i) && (i <? lo + n) then Z.testbit v (i - lo) else Z.testbit w i.
Proof.
  intros. unfold setf. autorewrite with bits.
  destruct (Z.leb_spec lo i); cbn.
  - autorewrite with bits. zcase; try lia; cbn;
      rewrite ?andb_true_r, ?andb_false_r, ?orb_false_r; done.
  - by rewrite andb_true_r, orb_false_r.
Qed.
#[export] Hint Rewrite testbit_getf testbit_setf using lia : bits.

Lemma getf_alt w lo n : 0 <= lo -> 0 <= n -> getf w lo n = (w / 2 ^ lo) mod 2 ^ n.
Proof. intros. unfold getf. by rewrite Z.land_ones, Z.shiftr_div_pow2. Qed.

Lemma getf_range w lo n : 0 <= n -> 0 <= getf w lo n < 2 ^ n.
Proof. intros. unfold getf. rewrite Z.land_ones by lia. apply Z.mod_pos_bound. lia. Qed.
#[export] Hint Resolve getf_range : word.

Lemma getf_setf_same w lo n v :
  0 <= lo -> 0 <= n -> getf (setf w lo n v) lo n = v mod 2 ^ n.
Proof.
  intros. bitwise. cbn. f_equal. lia.
Qed.

Lemma getf_setf_other w lo n v lo' n' :
  0 <= lo -> 0 <= n -> 0 <= lo' -> 0 <= n' -> (lo + n <= lo' \/ lo' + n' <= lo) ->
  getf (setf w lo n v) lo' n' = getf w lo' n'.
Proof. intros. bitwise. Qed.

Lemma is_uw_of_bits w n :
  0 <= n -> (forall i, n <= i -> Z.testbit w i = false) -> is_uw n w.
Proof.
  intros Hn Hb. assert (w = w mod 2 ^ n) as E by (bitwise; apply Hb; lia).
  unfold is_uw. rewrite E. apply Z.mod_pos_bound. lia.
Qed.

Lemma setf_range w lo n v sz :
  0 <= lo -> 0 <= n -> lo + n <= sz -> is_uw sz w -> is_uw sz (setf w lo n v).
Proof.
  intros. apply is_uw_of_bits; [lia|]. intros i Hi.
  rewrite testbit_setf by lia. zcase; try lia. cbn. by apply (testbit_high w sz).
Qed.

Lemma uw_range w x : 0 <= w -> is_uw w (uw w x).
Proof. intros. apply Z.mod_pos_bound. lia. Qed.

Lemma uw_small w x : is_uw w x -> uw w x = x.
Proof. apply Z.mod_small. Qed.

Lemma sw_range w x : 0 < w -> is_sw w (sw w x).
Proof.
  intros Hw. unfold sw, is_sw.
  pose proof (uw_range w x ltac:(lia)) as [? ?].
  assert (2 ^ w = 2 * 2 ^ (w - 1)) as E.
  { rewrite <- Z.pow_succ_r by lia. f_equal. lia. }
  zcase; lia.
Qed.

Lemma sw_small w x : 0 < w -> is_sw w x -> sw w x = x.
Proof.
  intros Hw [? ?]. unfold sw, uw.
  assert (2 ^ w = 2 * 2 ^ (w - 1)) as E.
  { rewrite <- Z.pow_succ_r by lia. f_equal. lia. }
  destruct (Z.leb_spec 0 x).
  - rewrite Z.mod_small by lia. zcase; lia.
  - rewrite <- (Z.mod_add x 1) by lia. rewrite Z.mod_small by lia. zcase; lia.
Qed.
#[export] Hint Resolve uw_range sw_range : word.
