(* ===== verification/KDefs.v ===== *)
(** Kernel-wide constants: the configuration and the error codes of
    src/kernel/inc/k_defs.h, with the SBI codes of
    src/kernel/inc/sbi/sbi_ecall_interface.h they expand to. *)
From S2P Require Import Prelude.

(** ** Error codes *)
Definition SBI_SUCCESS : Z := 0.
Definition SBI_ERR_FAILED : Z := -1.
Definition SBI_ERR_NOT_SUPPORTED : Z := -2.
Definition SBI_ERR_INVALID_PARAM : Z := -3.
Definition SBI_ERR_DENIED : Z := -4.
Definition SBI_ERR_INVALID_ADDRESS : Z := -5.
Definition SBI_ERR_ALREADY_AVAILABLE : Z := -6.
Definition SBI_ERR_ALREADY_STARTED : Z := -7.
Definition SBI_ERR_ALREADY_STOPPED : Z := -8.
Definition SBI_ERR_NO_SHMEM : Z := -9.

(** The extension id of the debug console. *)
Definition SBI_EXT_DBCN : Z := 0x4442434E.

Definition K_OK : Z := 0.
Definition K_EFAIL : Z := SBI_ERR_FAILED.
Definition K_ENOTSUPP : Z := SBI_ERR_NOT_SUPPORTED.
Definition K_EINVAL : Z := SBI_ERR_INVALID_PARAM.
Definition K_EDENIED : Z := SBI_ERR_DENIED.
Definition K_EINVALID_ADDR : Z := SBI_ERR_INVALID_ADDRESS.
Definition K_EALREADY : Z := SBI_ERR_ALREADY_AVAILABLE.
Definition K_EALREADY_STARTED : Z := SBI_ERR_ALREADY_STARTED.
Definition K_EALREADY_STOPPED : Z := SBI_ERR_ALREADY_STOPPED.
Definition K_ENO_SHMEM : Z := SBI_ERR_NO_SHMEM.
Definition K_ENODEV : Z := -1000.
Definition K_ENOSYS : Z := -1001.
Definition K_ETIMEDOUT : Z := -1002.
Definition K_EIO : Z := -1003.
Definition K_EILL : Z := -1004.
Definition K_ENOSPC : Z := -1005.
Definition K_ENOMEM : Z := -1006.
Definition K_EUNKNOWN : Z := -1007.
Definition K_ENOENT : Z := -1008.

(** ** Configuration and the kernel address layout *)
Definition K_CONFIG_MAX_PROCESSORS : Z := 64.
Definition K_CONFIG_STACK_SIZE_N : Z := 13.
Definition K_CONFIG_STACK_SIZE : Z := Z.shiftl 1 K_CONFIG_STACK_SIZE_N.
Definition K_CONFIG_KERNEL_STACK_SIZE : Z := K_CONFIG_MAX_PROCESSORS * K_CONFIG_STACK_SIZE.
Definition K_CONFIG_CPU_DEFAULT_CLOCK : Z := 10000000.
Definition K_VADDR_BASE : Z := Z.shiftl 0xFFFFFFC0 32.
Definition K_PADDR_BASE : Z := 0x80000000.
Definition K_PADDR_OFFSET : Z := 0x200000.
Definition K_START_PADDR : Z := K_PADDR_BASE + K_PADDR_OFFSET.
Definition K_START_VADDR : Z := K_VADDR_BASE + K_START_PADDR.
Definition K_START_STACK_ADDR : Z := K_START_VADDR.
