(* ===== verification/Mmu.v ===== *)
(** The RISC-V page-table manager: src/kernel/inc/k_mmu.h ([RV64MMU<sz>] for
    Sv39, Sv48 and Sv57) and the helpers of src/kernel/inc/k_mem.hpp it uses.

    The store is physical memory in 64-bit words. The code runs on virtual
    addresses: [resolve] is the kernel's own address space, the direct map of
    the low 4 GiB at [K_VADDR_BASE] and, while the page table of preloader.S is
    still active ([ms_low]), its identity map of the low 4 GiB. A pointer into
    neither faults. The allocator ([memalign], [free] of the C library) is a
    parameter. *)
From S2P Require Import Prelude KDefs.

(** ** Protection bits and variants *)
Definition PROT_NONE : Z := 0.
Definition PROT_R : Z := 1.
Definition PROT_W : Z := 2.
Definition PROT_X : Z := 4.
Definition PROT_U : Z := 8.
Definition PROT_G : Z := 16.
Definition PROT_IO : Z := 32.
Definition VARIANT_THEAD_C906 : Z := 1.

(** ** Memory helpers (k_mem.hpp) *)
Definition isAligned (data alignment : Z) : bool := Z.land data (alignment - 1) =? 0.
Definition addr2page4K (addr : Z) : Z := Z.shiftr addr 12.
Definition addr2page2M (addr : Z) : Z := Z.shiftr addr 21.
Definition addr2page1G (addr : Z) : Z := Z.shiftr addr 30.

(** ** Virtual addresses *)
Definition getVPN (sz : Z) (level : nat) (vaddr : Z) : Z :=
  let vpn k := getf vaddr (12 + 9 * k) 9 in
  match level with
  | 0%nat => if sz =? 39 then vpn 2 else if sz =? 48 then vpn 3
             else if sz =? 57 then vpn 4 else 0
  | 1%nat => if sz =? 39 then vpn 1 else if sz =? 48 then vpn 2
             else if sz =? 57 then vpn 3 else 0
  | 2%nat => if sz =? 39 then vpn 0 else if sz =? 48 then vpn 1
             else if sz =? 57 then vpn 2 else 0
  | 3%nat => if sz =? 39 then 0 else if sz =? 48 then vpn 0
             else if sz =? 57 then vpn 1 else 0
  | 4%nat => if sz =? 39 then 0 else if sz =? 48 then 0
             else if sz =? 57 then vpn 0 else 0
  | _ => 0
  end.

(** ** Page-table entries: the bit fields of [pte_t] in a 64-bit word *)
Definition pte_v (w : Z) : Z := getf w 0 1.
Definition pte_r (w : Z) : Z := getf w 1 1.
Definition pte_w (w : Z) : Z := getf w 2 1.
Definition pte_x (w : Z) : Z := getf w 3 1.
Definition pte_u (w : Z) : Z := getf w 4 1.
Definition pte_g (w : Z) : Z := getf w 5 1.
Definition pte_a (w : Z) : Z := getf w 6 1.
Definition pte_d (w : Z) : Z := getf w 7 1.
Definition set_v (b w : Z) : Z := setf w 0 1 b.
Definition set_r (b w : Z) : Z := setf w 1 1 b.
Definition set_w (b w : Z) : Z := setf w 2 1 b.
Definition set_x (b w : Z) : Z := setf w 3 1 b.
Definition set_u (b w : Z) : Z := setf w 4 1 b.
Definition set_g (b w : Z) : Z := setf w 5 1 b.
Definition set_a (b w : Z) : Z := setf w 6 1 b.
Definition set_d (b w : Z) : Z := setf w 7 1 b.
Definition set_reserved (v w : Z) : Z := setf w 54 10 v.

Definition pte_fit (w : Z) : Z := set_reserved 0 w.

(** [pte_t::ppn]: copies the five page-number fields of a [paddr_t]. *)
Definition pte_ppn (addr w : Z) : Z :=
  let w := setf w 10 9 (getf addr 12 9) in
  let w := setf w 19 9 (getf addr 21 9) in
  let w := setf w 28 9 (getf addr 30 9) in
  let w := setf w 37 9 (getf addr 39 9) in
  setf w 46 8 (getf addr 48 8).

Definition pte_vaddr (w : Z) : Z :=
  let ret := Z.land (u64 (Z.shiftl w 2)) (u64 (Z.lnot 0xFFF)) in
  if negb (Z.land ret (Z.shiftl 1 55) =? 0) then Z.lor ret 0xff00000000000000 else ret.

Definition pte_paddr (w : Z) : Z :=
  Z.land (Z.land (u64 (Z.shiftl w 2)) (u64 (Z.lnot 0xFFF))) (u64 (Z.lnot 0xFFFFFFC000000000)).

(** ** [satp_t] *)
Definition satp_set_ppn (v w : Z) : Z := setf w 0 44 v.
Definition satp_set_asid (v w : Z) : Z := setf w 44 16 v.
Definition satp_set_mode (v w : Z) : Z := setf w 60 4 v.

Definition mmutype (sz : Z) : Z :=
  if sz =? 39 then 8 else if sz =? 48 then 9 else if sz =? 57 then 10
  else if sz =? 64 then 11 else 0.

(** ** State *)
Record mstate (heap : Type) := MState {
  ms_mem : gmap Z Z;      (** physical memory, one entry per 8-byte word *)
  ms_low : bool;          (** the identity map of preloader.S is active *)
  ms_satp : Z;            (** the satp CSR *)
  ms_heap : heap;         (** the C library's allocator *)
}.
Arguments MState {heap}.
Arguments ms_mem {heap}.
Arguments ms_low {heap}.
Arguments ms_satp {heap}.
Arguments ms_heap {heap}.

(** An [RV64MMU] object. *)
Record rv64mmu := RV64MMU {
  mmu_ptes : Z;       (** [_ptes]: pointer to the root table *)
  mmu_variant : Z;    (** [_variant] *)
  mmu_satp : Z;       (** [_satp] *)
}.

(** The kernel's view of memory. *)
Definition K_WINDOW : Z := 2 ^ 32.
Definition resolve (low : bool) (va : Z) : option Z :=
  if (K_VADDR_BASE <=? va) && (va <? K_VADDR_BASE + K_WINDOW) then Some (va - K_VADDR_BASE)
  else if low && (0 <=? va) && (va <? K_WINDOW) then Some va
  else None.

Section RV64MMU.
  Context {heap : Type}.
  Variable memalign : Z -> Z -> heap -> Z * heap.   (** alignment, size; 0 is NULL *)
  Variable free : Z -> heap -> heap.
  Implicit Types (o : rv64mmu) (sz vaddr paddr size prot : Z).

Definition upd_mem (f : gmap Z Z -> gmap Z Z) (s : mstate heap) : mstate heap :=
  MState (f (ms_mem s)) (ms_low s) (ms_satp s) (ms_heap s).

Definition load64 (va : Z) : M (mstate heap) Z := fun s =>
  match resolve (ms_low s) va with
  | Some pa => match ms_mem s !! pa with Some w => Some (w, s) | None => None end
  | None => None
  end.

Definition store64 (va w : Z) : M (mstate heap) unit := fun s =>
  match resolve (ms_low s) va with
  | Some pa => Some (tt, upd_mem <[pa := w]> s)
  | None => None
  end.

(** [memset(p, 0, 8 * n)] on a word-aligned pointer. *)
Fixpoint memset0 (n : nat) (p : Z) : M (mstate heap) unit :=
  match n with
  | O => mret tt
  | S n => store64 p 0 ≫= fun _ => memset0 n (u64 (p + 8))
  end.

Definition alignedMalloc (size alignment : Z) : M (mstate heap) Z := fun s =>
  let '(p, h) := memalign alignment size (ms_heap s) in
  Some (p, MState (ms_mem s) (ms_low s) (ms_satp s) h).

Definition alignedFree (p : Z) : M (mstate heap) unit := fun s =>
  Some (tt, MState (ms_mem s) (ms_low s) (ms_satp s) (free p (ms_heap s))).

(** ** Construction, ASID and SATP *)

(** [RV64MMUBase]: [_satp.ppn] is not initialised, [junk] is its content. *)
Definition RV64MMUBase_new (junk mode asid : Z) : Z :=
  satp_set_mode mode (satp_set_asid asid junk).

Definition setPPN (satp addr : Z) : bool * Z :=
  if negb (Z.land addr 4095 =? 0) then (false, satp)
  else (true, satp_set_ppn (addr2page4K addr) satp).

Definition RV64MMU_new (sz junk asid variant : Z) : M (mstate heap) rv64mmu :=
  p ← alignedMalloc (512 * 8) 4096;
  memset0 512 p ≫= fun _ =>
  let satp := RV64MMUBase_new junk (mmutype sz) (u16 asid) in
  mret (RV64MMU p variant
          (snd (setPPN satp (Z.land p (u64 (Z.lnot 0xFFFFFFC000000000)))))).

Definition RV64MMU_delete o : M (mstate heap) unit := alignedFree (mmu_ptes o).

Definition fork (sz junk asid : Z) o : M (mstate heap) rv64mmu :=
  RV64MMU_new sz junk asid (mmu_variant o).

Definition getSATP o : Z := mmu_satp o.

(** The satp register is WARL: [warl old new] is what it holds after a write.
    The page table of preloader.S is active as long as satp is not changed. *)
Definition csr_write_satp (warl : Z -> Z -> Z) (v : Z) : M (mstate heap) unit := fun s =>
  let satp := warl (ms_satp s) v in
  Some (tt, MState (ms_mem s) (ms_low s && (satp =? ms_satp s)) satp (ms_heap s)).

Definition enable (warl : Z -> Z -> Z) (on : bool) o : M (mstate heap) bool :=
  if on then
    csr_write_satp warl (mmu_satp o) ≫= fun _ =>
    s ← get;
    if negb (ms_satp s =? mmu_satp o) then
      csr_write_satp warl 0 ≫= fun _ => mret false
    else mret true
  else csr_write_satp warl 0 ≫= fun _ => mret true.

Definition switchASID (warl : Z -> Z -> Z) o : M (mstate heap) unit :=
  csr_write_satp warl (mmu_satp o).

Definition getVMALowerTop sz : Z :=
  if sz =? 39 then Z.shiftl 1 38 else if sz =? 48 then Z.shiftl 1 47
  else if sz =? 57 then Z.shiftl 1 56 else 0.

Definition getVMAUpperBottom sz : Z :=
  if sz =? 39 then u64 (u64 (-1) - Z.shiftl 1 38 + 1)
  else if sz =? 48 then u64 (u64 (-1) - Z.shiftl 1 47 + 1)
  else if sz =? 57 then u64 (u64 (-1) - Z.shiftl 1 56 + 1) else 0.

(** ** Levels *)
Definition getMaxLevel sz : Z :=
  if sz =? 39 then 2 else if sz =? 48 then 3 else if sz =? 57 then 4 else K_EINVAL.

Definition calcLevel sz (blocksz : Z) : Z :=
  let with_base level :=
    let level := level + getMaxLevel sz in if level <? 0 then K_EINVAL else level in
  if blocksz =? 12 then with_base 0
  else if blocksz =? 21 then with_base (-1)
  else if blocksz =? 30 then with_base (-2)
  else if blocksz =? 39 then with_base (-3)
  else if blocksz =? 48 then with_base (-4)
  else K_EINVAL.

(** ** Walking and building the tree *)

Fixpoint createPTE sz o (level : nat) vaddr : M (mstate heap) Z :=
  let poff := getVPN sz level vaddr in
  match level with
  | O => mret (u64 (mmu_ptes o + 8 * poff))
  | S l =>
      parent ← createPTE sz o l vaddr;
      pw ← load64 parent;
      thisPTE ←
        (if negb (pte_paddr pw =? 0) then mret (u64 (pte_paddr pw + 0xFFFFFFC000000000))
         else
           p ← alignedMalloc (512 * 8) 4096;
           memset0 512 p ≫= fun _ =>
           pw ← load64 parent;
           let pw := pte_ppn (Z.land p (u64 (Z.lnot 0xFFFFFFC000000000))) pw in
           let pw := set_x 0 (set_w 0 (set_r 0 (set_v 1 pw))) in
           store64 parent (pte_fit pw) ≫= fun _ =>
           mret p);
      mret (u64 (thisPTE + 8 * poff))
  end.

Fixpoint getPTE sz o (level : nat) vaddr : M (mstate heap) Z :=
  let poff := getVPN sz level vaddr in
  match level with
  | O => mret (u64 (mmu_ptes o + 8 * poff))
  | S l =>
      parent ← getPTE sz o l vaddr;
      pw ← load64 parent;
      mret (u64 (pte_paddr pw + 8 * poff))
  end.

Fixpoint removePTE sz o (level : nat) vaddr : M (mstate heap) Z :=
  pte ← getPTE sz o level vaddr;
  w ← load64 pte;
  if pte_v w =? 0 then mret K_EALREADY
  else
    let w := pte_fit (pte_ppn 0 (set_v 0 w)) in
    store64 pte w ≫= fun _ =>
    (if negb (Z.of_nat level =? getMaxLevel sz) then
       w ← load64 pte; alignedFree (pte_paddr w)
     else mret tt) ≫= fun _ =>
    match level with
    | O => mret 0
    | S l => removePTE sz o l vaddr
    end.

(** The entry [_map] writes over the word [w]. *)
Definition leaf_pte (variant prot paddr w : Z) : Z :=
  let bit p := if negb (Z.land prot p =? 0) then 1 else 0 in
  let w := set_v 1 w in
  let w := set_r (bit PROT_R) w in
  let w := set_w (bit PROT_W) w in
  let w := set_x (bit PROT_X) w in
  let w := set_u (bit PROT_U) w in
  let w := set_g (bit PROT_G) w in
  let w := set_d (pte_w w) w in
  let w := set_a (pte_r w) w in
  let w := pte_ppn paddr w in
  let w := pte_fit w in
  if variant =? VARIANT_THEAD_C906 then
    (if Z.land prot PROT_IO =? 0 then set_reserved 0x180 w else w)
  else w.

Definition map_block sz o (blocksz : Z) vaddr paddr prot : M (mstate heap) Z :=
  let level := calcLevel sz blocksz in
  if level <? 0 then mret level
  else
    pte ← createPTE sz o (Z.to_nat level) vaddr;
    w ← load64 pte;
    if negb (pte_v w =? 0) then mret K_EALREADY
    else
      store64 pte (leaf_pte (mmu_variant o) prot paddr w) ≫= fun _ =>
      mret 0.

Definition unmap_block sz o (blocksz : Z) vaddr : M (mstate heap) Z :=
  let level := calcLevel sz blocksz in
  if level <? 0 then mret level
  else
    pte ← getPTE sz o (Z.to_nat level) vaddr;
    w ← load64 pte;
    if pte_v w =? 0 then mret K_EALREADY
    else
      store64 pte (pte_fit (pte_ppn 0 (set_v 0 w))) ≫= fun _ =>
      mret 0.

(** ** Mapping a range: one block of the largest size that fits per step *)
Definition fits (vaddr size : Z) (bits : Z) (vcaddr : Z) : bool :=
  (Z.land vcaddr (Z.ones bits) =? 0) && (Z.shiftl 1 bits <=? u64 (size - (vcaddr - vaddr))).

Definition pick_map sz vaddr size (vcaddr pcaddr : Z) : option Z :=
  let ok bits := fits vaddr size bits vcaddr && (Z.land pcaddr (Z.ones bits) =? 0) in
  if (57 <=? sz) && ok 48 then Some 48
  else if (48 <=? sz) && ok 39 then Some 39
  else if ok 30 then Some 30
  else if ok 21 then Some 21
  else if ok 12 then Some 12
  else None.

(** The [for] loop of [map]; [rc] is the status of the previous block. *)
Fixpoint map_loop (fuel : nat) sz o vaddr size prot (vcaddr pcaddr rc : Z)
    : M (mstate heap) Z :=
  match fuel with
  | O => fault
  | S fuel =>
      if vcaddr <? u64 (vaddr + size) then
        if negb (rc =? 0) then mret rc
        else match pick_map sz vaddr size vcaddr pcaddr with
        | Some bits =>
            rc ← map_block sz o bits vcaddr pcaddr prot;
            map_loop fuel sz o vaddr size prot
              (u64 (vcaddr + Z.shiftl 1 bits)) (u64 (pcaddr + Z.shiftl 1 bits)) rc
        | None => mret K_EINVALID_ADDR
        end
      else mret rc
  end.

(** Every step advances by at least one 4 KiB page. *)
Definition map_fuel size : nat := S (Z.to_nat (size / 4096)).

Definition prot_rejected prot : bool :=
  let prott := Z.land prot (Z.lor (Z.lor PROT_R PROT_W) PROT_X) in
  (prott =? 0) || (prott =? 2) || (prott =? 6).

Definition map sz o vaddr paddr size prot : M (mstate heap) Z :=
  if negb (Z.land vaddr 0xFFF =? 0) || negb (Z.land paddr 0xFFF =? 0)
     || negb (Z.land size 0xFFF =? 0) then mret K_EINVAL
  else if size =? 0 then mret 0
  else if (u64 (vaddr + size) <? vaddr) || (u64 (paddr + size) <? paddr)
  then mret K_EINVALID_ADDR
  else if prot_rejected prot then mret K_ENOSPC
  else map_loop (map_fuel size) sz o vaddr size prot vaddr paddr 0.

Definition pick_unmap sz vaddr size (vcaddr : Z) : option Z :=
  let ok bits := fits vaddr size bits vcaddr in
  if (57 <=? sz) && ok 48 then Some 48
  else if (48 <=? sz) && ok 39 then Some 39
  else if ok 30 then Some 30
  else if ok 21 then Some 21
  else if ok 12 then Some 12
  else None.

Fixpoint unmap_loop (fuel : nat) sz o vaddr size (vcaddr rc : Z) : M (mstate heap) Z :=
  match fuel with
  | O => fault
  | S fuel =>
      if vcaddr <? u64 (vaddr + size) then
        if negb (rc =? 0) then mret rc
        else match pick_unmap sz vaddr size vcaddr with
        | Some bits =>
            rc ← unmap_block sz o bits vcaddr;
            unmap_loop fuel sz o vaddr size (u64 (vcaddr + Z.shiftl 1 bits)) rc
        | None => mret K_EINVALID_ADDR
        end
      else mret rc
  end.

Definition unmap sz o vaddr size : M (mstate heap) Z :=
  if negb (Z.land vaddr 0xFFF =? 0) || negb (Z.land size 0xFFF =? 0) then mret K_EINVAL
  else if size =? 0 then mret 0
  else if u64 (vaddr + size) <? vaddr then mret K_EINVALID_ADDR
  else unmap_loop (map_fuel size) sz o vaddr size vaddr 0.

End RV64MMU.
