(* ===== verification/MmuSpec.v ===== *)
(** What the page tables built by [Mmu] mean: the address translation the
    hardware performs on them (the walk of the RISC-V privileged architecture),
    the well-formedness of the tree in memory, and the lemmas on the two ways
    the code changes it: hanging a fresh table under an empty entry, and
    overwriting an entry that ends a walk. *)
From S2P Require Import Prelude KDefs Mmu.

(** ** The hardware *)

(** Page number field used at depth [k] above the last level. *)
Definition vshift (k : nat) : Z := 12 + 9 * Z.of_nat k.
Definition vpn (k : nat) (va : Z) : Z := getf va (vshift k) 9.

(** The next table, or the page, an entry designates. *)
Definition hw_pa (w : Z) : Z := 4096 * getf w 10 44.

Definition is_ptr (w : Z) : bool :=
  (pte_v w =? 1) && (pte_r w =? 0) && (pte_w w =? 0) && (pte_x w =? 0).

(** The entry that ends the walk of [va] in a table of depth [k]: its depth, its
    physical address and its value. *)
Fixpoint walk (m : gmap Z Z) (k : nat) (t va : Z) : option (nat * Z * Z) :=
  match m !! (t + 8 * vpn k va) with
  | None => None
  | Some w =>
      if is_ptr w then
        match k with
        | O => Some (O, t + 8 * vpn O va, w)
        | S k' => walk m k' (hw_pa w) va
        end
      else Some (k, t + 8 * vpn k va, w)
  end.

(** Decoding of the final entry: a leaf needs V, a legal R/W/X combination and,
    for a superpage, an aligned page number; the result is the physical address
    and the R, W, X, U, G bits. The A and D bits and the bits from 54 on are not
    looked at: the hart is one that sets A and D itself, and one that gives the
    upper bits the meaning [map] gives them (the T-Head memory attributes). On a
    hart that faults when A is clear instead, reads and writes behave as here,
    since [map] sets A with R and D with W ([leaf_pte_fields]), and fetches from a
    page that is not readable fault ([exec_only_not_accessed]). *)
Definition decode (k : nat) (w va : Z) : option (Z * Z) :=
  if (pte_v w =? 0) || ((pte_r w =? 0) && (pte_w w =? 1)) then None
  else if (pte_r w =? 0) && (pte_x w =? 0) then None
  else if negb (getf w 10 (9 * Z.of_nat k) =? 0) then None
  else Some (hw_pa w + va mod 2 ^ vshift k, getf w 1 5).

Definition max_level (sz : Z) : nat := Z.to_nat (getMaxLevel sz).

Definition canonical (sz va : Z) : bool :=
  ((0 <=? va) && (va <? 2 ^ (sz - 1))) || ((2 ^ 64 - 2 ^ (sz - 1) <=? va) && (va <? 2 ^ 64)).

Definition translate (sz : Z) (m : gmap Z Z) (root va : Z) : option (Z * Z) :=
  if canonical sz va then
    match walk m (max_level sz) root va with
    | Some (k, _, w) => decode k w va
    | None => None
    end
  else None.

(** The virtual-address widths the kernel instantiates. *)
Definition valid_sz (sz : Z) : Prop := sz = 39 \/ sz = 48 \/ sz = 57.

(** ** Well-formed trees *)

Definition is_empty (w : Z) : Prop := pte_v w = 0 /\ getf w 10 44 = 0.
Definition is_leaf (w : Z) : Prop := pte_v w = 1 /\ is_ptr w = false.

Section Wf.
  Context {heap : Type} (owns : heap -> Z -> Prop).

(** [T] gives the tables of the tree (physical address) and their depth. *)
Record pt_wf (sz : Z) (s : mstate heap) (root : Z) (T : gmap Z nat) : Prop := {
  wf_root : T !! root = Some (max_level sz);
  wf_tbl t k : T !! t = Some k ->
    (k <= max_level sz)%nat /\ t mod 4096 = 0 /\ 0 < t /\ t + 4096 <= K_WINDOW;
  wf_words t k i : T !! t = Some k -> 0 <= i < 512 ->
    exists w, ms_mem s !! (t + 8 * i) = Some w /\ is_uw 64 w;
  wf_ent t k i w : T !! t = Some k -> 0 <= i < 512 -> ms_mem s !! (t + 8 * i) = Some w ->
    is_empty w \/ is_leaf w \/
    (is_ptr w = true /\ exists k', k = S k' /\ T !! hw_pa w = Some k');
  wf_inj t1 k1 i1 w1 t2 k2 i2 w2 :
    T !! t1 = Some k1 -> 0 <= i1 < 512 -> ms_mem s !! (t1 + 8 * i1) = Some w1 ->
    T !! t2 = Some k2 -> 0 <= i2 < 512 -> ms_mem s !! (t2 + 8 * i2) = Some w2 ->
    is_ptr w1 = true -> is_ptr w2 = true -> hw_pa w1 = hw_pa w2 ->
    t1 = t2 /\ i1 = i2;
  wf_owns t k a : T !! t = Some k -> t <= a < t + 4096 -> owns (ms_heap s) (K_VADDR_BASE + a);
}.

End Wf.

(** The contract of the C library's [memalign] for page-table pages, as long as
    [room] says that many more pages are available: the block is aligned, lies
    in the direct map, overlaps no live block and stays allocated. *)
Class MemalignSpec {heap : Type} (memalign : Z -> Z -> heap -> Z * heap)
    (owns : heap -> Z -> Prop) (room : heap -> nat -> Prop) : Prop := {
  memalign_page h n p h' :
    room h (S n) -> memalign 4096 4096 h = (p, h') ->
    p mod 4096 = 0 /\ K_VADDR_BASE < p /\ p + 4096 <= K_VADDR_BASE + K_WINDOW /\
    (forall a, p <= a < p + 4096 -> ~ owns h a /\ owns h' a) /\
    (forall a, owns h a -> owns h' a) /\ room h' n;
  room_less h n : room h (S n) -> room h n;
}.

(** ** Page numbers *)

Lemma vpn_range k va : 0 <= vpn k va < 512.
Proof. apply getf_range. lia. Qed.

Lemma max_level_cases sz : valid_sz sz ->
  (sz = 39 /\ max_level sz = 2%nat) \/ (sz = 48 /\ max_level sz = 3%nat) \/
  (sz = 57 /\ max_level sz = 4%nat).
Proof. intros [->|[->| ->]]; vm_compute; auto. Qed.

Lemma sz_vshift sz : valid_sz sz -> sz = vshift (S (max_level sz)).
Proof. intros H. destruct (max_level_cases sz H) as [[-> ->]|[[-> ->]|[-> ->]]]; reflexivity. Qed.

Lemma getVPN_vpn sz l va : valid_sz sz -> (l <= max_level sz)%nat ->
  getVPN sz l va = vpn (max_level sz - l) va.
Proof.
  intros H. destruct (max_level_cases sz H) as [[-> ->]|[[-> ->]|[-> ->]]]; intros Hl;
    repeat (destruct l as [|l]; [reflexivity|]); lia.
Qed.

(** Agreement on the page numbers from depth [k] up to [n] is agreement on that
    range of bits. *)
Definition agree (k n : nat) (va va' : Z) : Prop :=
  forall j, (k <= j <= n)%nat -> vpn j va = vpn j va'.

#[global] Instance agree_dec k n va va' : Decision (agree k n va va').
Proof.
  destruct (decide (Forall (fun j => vpn j va = vpn j va') (seq k (S n - k)))) as [H|H].
  - left. intros j Hj. rewrite Forall_forall in H. apply H, elem_of_seq. lia.
  - right. intros Ha. apply H. apply Forall_forall. intros j Hj%elem_of_seq. apply Ha. lia.
Defined.

Lemma agree_sym k n va va' : agree k n va va' -> agree k n va' va.
Proof. intros H j Hj. symmetry. auto. Qed.

Lemma agree_weaken k k' n va va' : (k <= k')%nat -> agree k n va va' -> agree k' n va va'.
Proof. intros ? H j Hj. apply H. lia. Qed.

Lemma vshift_S k : vshift (S k) = vshift k + 9.
Proof. unfold vshift. lia. Qed.

Lemma vshift_pos k : 0 < vshift k.
Proof. unfold vshift. lia. Qed.

Lemma pow_vshift_S k : 2 ^ vshift (S k) = 512 * 2 ^ vshift k.
Proof.
  pose proof (vshift_pos k). rewrite vshift_S, Z.pow_add_r by lia.
  change (2 ^ 9) with 512. lia.
Qed.

Lemma vpn_alt k va : vpn k va = (va / 2 ^ vshift k) mod 512.
Proof. unfold vpn. rewrite getf_alt by (pose proof (vshift_pos k); lia). done. Qed.

(** The bits of [va] from depth [k] to [n], assembled from the page numbers. *)
Lemma agree_mod k n va va' : (k <= n)%nat -> agree k n va va' ->
  (va / 2 ^ vshift k) mod 2 ^ (vshift (S n) - vshift k)
  = (va' / 2 ^ vshift k) mod 2 ^ (vshift (S n) - vshift k).
Proof.
  intros Hkn Ha. pose proof (vshift_pos k).
  apply Z.bits_inj'. intros i Hi. rewrite !Z.testbit_mod_pow2, <- !Z.shiftr_div_pow2,
    !Z.shiftr_spec by (unfold vshift; lia).
  destruct (Z.ltb_spec i (vshift (S n) - vshift k)); [|done]. cbn.
  set (j := Z.to_nat ((i + vshift k - 12) / 9)).
  assert (Hj : Z.of_nat j = (i + vshift k - 12) / 9).
  { unfold j. apply Z2Nat.id. apply Z.div_pos; unfold vshift; lia. }
  assert (Hb : vshift j <= i + vshift k < vshift j + 9).
  { assert (vshift j = 12 + 9 * ((i + vshift k - 12) / 9)) by (unfold vshift in *; lia).
    pose proof (Z.div_mod (i + vshift k - 12) 9). pose proof (Z.mod_pos_bound (i + vshift k - 12) 9).
    lia. }
  assert (Hjr : (k <= j <= n)%nat) by (unfold vshift in *; lia).
  specialize (Ha j Hjr). unfold vpn in Ha.
  assert (Hv := f_equal (fun z => Z.testbit z (i + vshift k - vshift j)) Ha). cbn beta in Hv.
  pose proof (vshift_pos j).
  rewrite !testbit_getf in Hv by lia.
  replace (i + vshift k - vshift j + vshift j) with (i + vshift k) in Hv by lia.
  destruct (Z.ltb_spec (i + vshift k - vshift j) 9); [|lia]. done.
Qed.

(** ** Entries *)

Ltac fields := repeat first [rewrite getf_setf_same by lia | rewrite getf_setf_other by lia].

Lemma bit_cases w lo : getf w lo 1 = 0 \/ getf w lo 1 = 1.
Proof. pose proof (getf_range w lo 1 ltac:(lia)). change (2 ^ 1) with 2 in *. lia. Qed.

Lemma kvbase_val : K_VADDR_BASE = 0xFFFFFFC000000000.
Proof. reflexivity. Qed.

(** Masking off the direct-map base, as the code does for every new table. *)
Lemma mask_direct p : K_VADDR_BASE <= p < K_VADDR_BASE + K_WINDOW ->
  Z.land p (u64 (Z.lnot 0xFFFFFFC000000000)) = p - K_VADDR_BASE.
Proof.
  intros Hp. change (u64 (Z.lnot 0xFFFFFFC000000000)) with (Z.ones 38).
  rewrite Z.land_ones by lia. rewrite kvbase_val in *. unfold K_WINDOW in *.
  change (2 ^ 32) with 4294967296 in *. change (2 ^ 38) with 274877906944.
  symmetry. apply (Z.mod_unique _ _ 67108863); lia.
Qed.

Lemma testbit_paddr w i : 0 <= i ->
  Z.testbit (pte_paddr w) i = (12 <=? i) && (i <? 38) && Z.testbit w (i - 2).
Proof.
  intros Hi. unfold pte_paddr.
  change (u64 (Z.lnot 0xFFF)) with (Z.shiftl (Z.ones 52) 12).
  change (u64 (Z.lnot 0xFFFFFFC000000000)) with (Z.ones 38). unfold uw.
  autorewrite with bits. zcase; cbn; try lia;
    autorewrite with bits; zcase; try lia; cbn; by rewrite ?andb_true_r, ?andb_false_r.
Qed.

Lemma testbit_mul_pow2 a n i : 0 <= n -> 0 <= i ->
  Z.testbit (2 ^ n * a) i = (n <=? i) && Z.testbit a (i - n).
Proof.
  intros. rewrite Z.mul_comm, <- Z.shiftl_mul_pow2 by lia. by apply testbit_shiftl_nn.
Qed.

Lemma testbit_hw_pa w i : 0 <= i ->
  Z.testbit (hw_pa w) i = (12 <=? i) && (i <? 56) && Z.testbit w (i - 2).
Proof.
  intros Hi. unfold hw_pa. change 4096 with (2 ^ 12). rewrite testbit_mul_pow2 by lia.
  destruct (Z.leb_spec 12 i); [|done]. cbn. rewrite testbit_getf by lia.
  replace (i - 12 + 10) with (i - 2) by lia. zcase; try lia; done.
Qed.

Lemma pte_paddr_hw w : 0 <= hw_pa w < 2 ^ 38 -> pte_paddr w = hw_pa w.
Proof.
  intros H. bitwise. rewrite testbit_paddr, testbit_hw_pa by lia.
  destruct (Z.ltb_spec i 38).
  - zcase; try lia; done.
  - rewrite andb_false_r. cbn. symmetry. rewrite <- testbit_hw_pa by lia.
    by apply (testbit_high _ 38).
Qed.

Lemma pte_paddr_empty w : is_empty w -> pte_paddr w = 0.
Proof.
  intros [_ H]. rewrite pte_paddr_hw; unfold hw_pa; rewrite H; lia.
Qed.

Lemma getf_ppn addr w : getf (pte_ppn addr w) 10 44 = getf addr 12 44.
Proof.
  unfold pte_ppn. bitwise; rewrite !testbit_getf by lia; zcase; try lia; cbn; f_equal; lia.
Qed.

Lemma getf_ppn_other addr w lo n :
  0 <= lo -> 0 <= n -> (lo + n <= 10 \/ 54 <= lo) -> getf (pte_ppn addr w) lo n = getf w lo n.
Proof. intros. unfold pte_ppn. fields. done. Qed.

Lemma pte_ppn_range addr w : is_uw 64 w -> is_uw 64 (pte_ppn addr w).
Proof. intros. unfold pte_ppn. repeat apply setf_range; try lia. done. Qed.

(** The pointer entry [_createPTE] stores for a new table at [pa]. *)
Definition table_pte (pa w : Z) : Z :=
  pte_fit (set_x 0 (set_w 0 (set_r 0 (set_v 1 (pte_ppn pa w))))).

Lemma page_number pa : 0 <= pa < 2 ^ 56 -> pa mod 4096 = 0 -> 4096 * getf pa 12 44 = pa.
Proof.
  intros Hp Hm. rewrite getf_alt by lia. change (2 ^ 12) with 4096.
  rewrite Z.mod_small.
  - pose proof (Z.div_mod pa 4096). lia.
  - split; [apply Z.div_pos; lia|]. apply Z.div_lt_upper_bound; [lia|].
    change (2 ^ 56) with (4096 * 2 ^ 44) in Hp. lia.
Qed.

Lemma table_pte_ok pa w : 0 <= pa < 2 ^ 56 -> pa mod 4096 = 0 ->
  is_ptr (table_pte pa w) = true /\ hw_pa (table_pte pa w) = pa.
Proof.
  intros Hp Hm. unfold is_ptr, hw_pa, table_pte, pte_fit, set_reserved, set_x, set_w, set_r,
    set_v, pte_v, pte_r, pte_w, pte_x. fields. rewrite getf_ppn, page_number by done. done.
Qed.

Lemma table_pte_range pa w : is_uw 64 w -> is_uw 64 (table_pte pa w).
Proof.
  intros. unfold table_pte, pte_fit, set_reserved, set_x, set_w, set_r, set_v.
  repeat apply setf_range; try lia; done.
Qed.

Lemma is_ptr_pte w : is_ptr w = true -> pte_v w = 1 /\ pte_r w = 0 /\ pte_w w = 0 /\ pte_x w = 0.
Proof. unfold is_ptr. rewrite !andb_true_iff, !Z.eqb_eq. tauto. Qed.

Lemma not_ptr_v0 w : pte_v w = 0 -> is_ptr w = false.
Proof. unfold is_ptr. intros ->. done. Qed.

Lemma decode_empty k w va : pte_v w = 0 -> decode k w va = None.
Proof. intros H. unfold decode. by rewrite H. Qed.

(** The fields of a leaf entry. *)
Lemma leaf_pte_fields variant prot pa w :
  let l := leaf_pte variant prot pa w in
  pte_v l = 1 /\ getf l 10 44 = getf pa 12 44 /\
  pte_r l = Z.b2z (Z.testbit prot 0) /\ pte_w l = Z.b2z (Z.testbit prot 1) /\
  pte_x l = Z.b2z (Z.testbit prot 2) /\ pte_u l = Z.b2z (Z.testbit prot 3) /\
  pte_g l = Z.b2z (Z.testbit prot 4) /\ pte_d l = pte_w l /\ pte_a l = pte_r l.
Proof.
  assert (B : forall n, 0 <= n ->
    (if negb (Z.land prot (2 ^ n) =? 0) then 1 else 0) = Z.b2z (Z.testbit prot n)).
  { intros n Hn. destruct (Z.eqb_spec (Z.land prot (2 ^ n)) 0) as [E|E]; cbn.
    - assert (E' := f_equal (fun z => Z.testbit z n) E). cbn beta in E'.
      rewrite Z.land_spec, Z.pow2_bits_true, Z.bits_0, andb_true_r in E' by lia. by rewrite E'.
    - destruct (Z.testbit prot n) eqn:Eb; [done|]. contradict E.
      apply Z.bits_inj'. intros i Hi. rewrite Z.land_spec, Z.bits_0.
      destruct (Z.eq_dec n i) as [<-|]; [by rewrite Eb|].
      by rewrite Z.pow2_bits_false, andb_false_r by lia. }
  pose proof (B 0 ltac:(lia)) as B0. pose proof (B 1 ltac:(lia)) as B1.
  pose proof (B 2 ltac:(lia)) as B2. pose proof (B 3 ltac:(lia)) as B3.
  pose proof (B 4 ltac:(lia)) as B4. clear B.
  assert (D : forall b, Z.b2z b mod 2 ^ 1 = Z.b2z b) by (intros []; done).
  unfold leaf_pte, PROT_R, PROT_W, PROT_X, PROT_U, PROT_G, PROT_IO, pte_fit, set_reserved,
    set_v, set_r, set_w, set_x, set_u, set_g, set_a, set_d, pte_v, pte_r, pte_w, pte_x, pte_u,
    pte_g, pte_a, pte_d. cbn zeta.
  change (2 ^ 0) with 1 in B0. change (2 ^ 1) with 2 in B1. change (2 ^ 2) with 4 in B2.
  change (2 ^ 3) with 8 in B3. change (2 ^ 4) with 16 in B4. rewrite B0, B1, B2, B3, B4.
  destruct (variant =? VARIANT_THEAD_C906), (Z.land prot 32 =? 0);
    repeat split; fields; rewrite ?getf_ppn, ?getf_ppn_other by lia; fields;
    rewrite ?D; done.
Qed.

Lemma getf1_testbit w lo : 0 <= lo -> getf w lo 1 = Z.b2z (Z.testbit w lo).
Proof.
  intros. unfold getf. change (Z.ones 1) with (1). rewrite Z.land_comm.
  bitwise. destruct (Z.eq_dec i 0) as [->|].
  - rewrite Z.b2z_bit0. cbn. done.
  - rewrite (testbit_high 1 1) by lia. cbn. symmetry. apply (testbit_high _ 1); [|lia].
    destruct (Z.testbit w lo); cbn; lia.
Qed.

Lemma leaf_pte_perms variant prot pa w :
  getf (leaf_pte variant prot pa w) 1 5 = Z.land prot 31.
Proof.
  destruct (leaf_pte_fields variant prot pa w) as (_ & _ & Hr & Hw & Hx & Hu & Hg & _).
  unfold pte_r, pte_w, pte_x, pte_u, pte_g in *.
  rewrite getf1_testbit in Hr, Hw, Hx, Hu, Hg by lia.
  apply Z.b2z_inj in Hr, Hw, Hx, Hu, Hg.
  change 31 with (Z.ones 5). bitwise; cbn; try lia.
  assert (i = 0 \/ i = 1 \/ i = 2 \/ i = 3 \/ i = 4) as [->|[->|[->|[->| ->]]]] by lia; done.
Qed.

Lemma leaf_pte_range variant prot pa w : is_uw 64 w -> is_uw 64 (leaf_pte variant prot pa w).
Proof.
  intros. unfold leaf_pte, pte_fit, set_reserved, set_v, set_r, set_w, set_x, set_u, set_g, set_a,
    set_d. cbn zeta.
  destruct (variant =? _), (Z.land prot _ =? 0); repeat apply setf_range; try lia; done.
Qed.

Lemma prot_ok prot : prot_rejected prot = false ->
  Z.testbit prot 0 = true \/ (Z.testbit prot 1 = false /\ Z.testbit prot 2 = true).
Proof.
  unfold prot_rejected. change (Z.lor (Z.lor PROT_R PROT_W) PROT_X) with 7. cbn zeta.
  intros H.
  assert (E : Z.land prot 7 = Z.b2z (Z.testbit prot 0) + 2 * Z.b2z (Z.testbit prot 1)
                              + 4 * Z.b2z (Z.testbit prot 2)).
  { change 7 with (Z.ones 3). rewrite Z.land_ones by lia.
    rewrite !Z.testbit_spec' by lia. change (2 ^ 0) with 1. change (2 ^ 1) with 2.
    change (2 ^ 2) with 4. change (2 ^ 3) with 8. rewrite Z.div_1_r.
    Z.div_mod_to_equations. lia. }
  rewrite E in H. destruct (Z.testbit prot 0), (Z.testbit prot 1), (Z.testbit prot 2);
    cbn in H; try discriminate; auto.
Qed.

Lemma pow_vshift_pos k : 0 < 2 ^ vshift k.
Proof. pose proof (vshift_pos k). lia. Qed.

Lemma vshift_page k pa : pa mod 2 ^ vshift k = 0 -> pa mod 4096 = 0.
Proof.
  pose proof (pow_vshift_pos k). intros Hal. apply Z.mod_divide in Hal; [|lia].
  destruct Hal as [c ->]. unfold vshift. rewrite Z.pow_add_r by lia.
  change (2 ^ 12) with 4096.
  replace (c * (4096 * 2 ^ (9 * Z.of_nat k))) with (c * 2 ^ (9 * Z.of_nat k) * 4096) by lia.
  apply Z.mod_mul. lia.
Qed.

(** A leaf written by [_map] translates as intended. *)
Lemma decode_leaf k variant prot pa w va :
  prot_rejected prot = false -> (k <= 4)%nat ->
  0 <= pa < 2 ^ 56 -> pa mod 2 ^ vshift k = 0 ->
  decode k (leaf_pte variant prot pa w) va = Some (pa + va mod 2 ^ vshift k, Z.land prot 31).
Proof.
  intros Hprot Hk Hpa Hal. pose proof (leaf_pte_perms variant prot pa w) as Hpm.
  destruct (leaf_pte_fields variant prot pa w) as (Hv & Hp & Hr & Hw & Hx & _).
  unfold decode. rewrite Hv, Hr, Hw, Hx, Hpm. unfold hw_pa. rewrite Hp, page_number by eauto using vshift_page.
  assert (getf (leaf_pte variant prot pa w) 10 (9 * Z.of_nat k) = 0) as ->.
  { bitwise. cbn.
    assert (E := f_equal (fun z => Z.testbit z i) Hp). cbn beta in E.
    rewrite !testbit_getf in E by lia. destruct (Z.ltb_spec i 44); [|lia]. cbn in E. rewrite E.
    pose proof (pow_vshift_pos k). apply Z.mod_divide in Hal; [|lia]. destruct Hal as [c ->].
    rewrite Z.mul_comm, testbit_mul_pow2 by (unfold vshift; lia).
    unfold vshift. zcase; lia. }
  destruct (prot_ok prot Hprot) as [E|[E1 E2]]; [rewrite E | rewrite E1, E2];
    destruct (Z.testbit prot 0); done.
Qed.
