(* ===== verification/MmuTree.v ===== *)
(** The tree of page tables in memory: every walk ends, two walks end in the
    same entry exactly when the addresses agree down to its depth, and the
    effect on all walks of the two updates the code makes. *)
From S2P Require Import Prelude KDefs Mmu MmuSpec.

Section Tree.
  Context {heap : Type} {owns : heap -> Z -> Prop}.
  Context {sz : Z} {s : mstate heap} {root : Z} {T : gmap Z nat}.
  Hypothesis Hwf : pt_wf owns sz s root T.
  Implicit Types (t a w va : Z) (k n : nat).

Lemma slot_word t n va : T !! t = Some n ->
  exists w, ms_mem s !! (t + 8 * vpn n va) = Some w /\ is_uw 64 w.
Proof. intros H. apply (wf_words _ _ _ _ _ Hwf _ _ _ H (vpn_range n va)). Qed.

(** What an entry can be, by the outcome of the pointer test. *)
Lemma slot_ptr t n va w : T !! t = Some n -> ms_mem s !! (t + 8 * vpn n va) = Some w ->
  is_ptr w = true -> exists k, n = S k /\ T !! hw_pa w = Some k.
Proof.
  intros Ht Hw Ep.
  destruct (wf_ent _ _ _ _ _ Hwf _ _ _ _ Ht (vpn_range n va) Hw) as [[Hv _]|[[_ Hl]|(_ & H)]].
  - rewrite (not_ptr_v0 _ Hv) in Ep. discriminate.
  - congruence.
  - done.
Qed.

Lemma walk_total n t va : T !! t = Some n ->
  exists k a w tt, walk (ms_mem s) n t va = Some (k, a, w) /\ (k <= n)%nat /\
    T !! tt = Some k /\ a = tt + 8 * vpn k va /\ ms_mem s !! a = Some w /\ is_ptr w = false.
Proof.
  revert t. induction n as [|n IH]; intros t Ht;
    destruct (slot_word _ _ va Ht) as (w & Hw & _); cbn;
    rewrite Hw; destruct (is_ptr w) eqn:Ep.
  - destruct (slot_ptr _ _ _ _ Ht Hw Ep) as (? & ? & _). discriminate.
  - repeat eexists; eauto.
  - destruct (slot_ptr _ _ _ _ Ht Hw Ep) as (k' & ? & Hc).
    simplify_eq. destruct (IH _ Hc) as (k & a & w' & tt & ? & ? & ?).
    exists k, a, w', tt. split; [done|]. split; [lia|done].
  - repeat eexists; eauto.
Qed.

Lemma walk_agree n t va va' k a w :
  walk (ms_mem s) n t va = Some (k, a, w) -> agree k n va va' ->
  walk (ms_mem s) n t va' = Some (k, a, w).
Proof.
  revert t. induction n as [|n IH]; intros t; cbn.
  - intros H Ha. destruct (ms_mem s !! _) as [w0|] eqn:Hw; [|discriminate].
    assert (k = 0%nat) as -> by (destruct (is_ptr w0); congruence).
    rewrite <- (Ha 0%nat) by lia. rewrite Hw. done.
  - intros H Ha. destruct (ms_mem s !! _) as [w0|] eqn:Hw; [|discriminate].
    destruct (is_ptr w0) eqn:Ep.
    + assert (k <= n)%nat as Hk.
      { clear IH Hw. revert H. generalize (hw_pa w0). clear.
        induction n as [|n IH]; intros t; cbn; destruct (ms_mem s !! _) as [w1|]; try done;
          destruct (is_ptr w1); intros; simplify_eq; try lia.
        specialize (IH _ H). lia. }
      rewrite <- (Ha (S n)) by lia. rewrite Hw, Ep. apply IH; [done|].
      intros j Hj. apply Ha. lia.
    + simplify_eq. rewrite <- (Ha (S n)) by lia. by rewrite Hw, Ep.
Qed.

(** The table reached after [j] pointers on the path of [va]. *)
Fixpoint desc (va : Z) (j : nat) : option Z :=
  match j with
  | O => Some root
  | S j =>
      match desc va j with
      | Some t =>
          match ms_mem s !! (t + 8 * vpn (max_level sz - j) va) with
          | Some w => if is_ptr w then Some (hw_pa w) else None
          | None => None
          end
      | None => None
      end
  end.

Lemma desc_T va j t : desc va j = Some t -> (j <= max_level sz)%nat /\ T !! t = Some (max_level sz - j)%nat.
Proof.
  revert t. induction j as [|j IH]; intros t; cbn.
  - intros [= <-]. split; [lia|]. rewrite Nat.sub_0_r. apply (wf_root _ _ _ _ _ Hwf).
  - destruct (desc va j) as [t0|]; [|done]. destruct (IH _ eq_refl) as [Hj Ht].
    destruct (ms_mem s !! _) as [w|] eqn:Hw; [|done]. destruct (is_ptr w) eqn:Ep; [|done].
    intros [= <-].
    destruct (slot_ptr _ _ _ _ Ht Hw Ep) as (k' & Hk & Hc).
    split; [lia|]. rewrite Hc. f_equal. lia.
Qed.

Lemma walk_desc va n t k a w : (n <= max_level sz)%nat -> desc va (max_level sz - n) = Some t ->
  walk (ms_mem s) n t va = Some (k, a, w) ->
  exists tt, (k <= n)%nat /\ desc va (max_level sz - k) = Some tt /\ a = tt + 8 * vpn k va.
Proof.
  revert t. induction n as [|n IH]; intros t Hn Hd; cbn;
    destruct (ms_mem s !! _) as [w0|] eqn:Hw; try done; destruct (is_ptr w0) eqn:Ep;
    intros H; try (simplify_eq; eexists; split; [|split]; [lia|eassumption|done]).
  destruct (IH (hw_pa w0)) as (tt & ? & ? & ?); [lia| |done|].
  - replace (max_level sz - n)%nat with (S (max_level sz - S n)) by lia. cbn. rewrite Hd.
    replace (max_level sz - (max_level sz - S n))%nat with (S n) by lia. by rewrite Hw, Ep.
  - exists tt. split; [lia|done].
Qed.

Lemma desc_inj va va' j t : desc va j = Some t -> desc va' j = Some t ->
  forall i, (i < j)%nat -> vpn (max_level sz - i) va = vpn (max_level sz - i) va'.
Proof.
  revert t. induction j as [|j IH]; intros t H1 H2 i Hi; [lia|]. cbn in H1, H2.
  destruct (desc va j) as [t1|] eqn:E1; [|done]. destruct (desc va' j) as [t2|] eqn:E2; [|done].
  destruct (desc_T _ _ _ E1) as [_ HT1]. destruct (desc_T _ _ _ E2) as [_ HT2].
  destruct (ms_mem s !! (t1 + _)) as [w1|] eqn:Hw1; [|done].
  destruct (ms_mem s !! (t2 + _)) as [w2|] eqn:Hw2; [|done].
  destruct (is_ptr w1) eqn:P1; [|done]. destruct (is_ptr w2) eqn:P2; [|done].
  destruct (wf_inj _ _ _ _ _ Hwf _ _ _ _ _ _ _ _ HT1 (vpn_range _ va) Hw1 HT2 (vpn_range _ va') Hw2)
    as [-> Hv]; [done|done|congruence|].
  destruct (decide (i = j)) as [->|]; [done|]. apply (IH t2); [done|done|lia].
Qed.

(** A slot lies in one table only. *)
Lemma slot_inj t1 k1 i1 t2 k2 i2 : T !! t1 = Some k1 -> T !! t2 = Some k2 ->
  0 <= i1 < 512 -> 0 <= i2 < 512 -> t1 + 8 * i1 = t2 + 8 * i2 -> t1 = t2 /\ i1 = i2.
Proof.
  intros H1 H2 ? ? E. destruct (wf_tbl _ _ _ _ _ Hwf _ _ H1) as (_ & M1 & _).
  destruct (wf_tbl _ _ _ _ _ Hwf _ _ H2) as (_ & M2 & _).
  apply Z.mod_divide in M1; [|lia]. apply Z.mod_divide in M2; [|lia].
  destruct M1 as [c1 ->], M2 as [c2 ->]. assert (c1 = c2) by lia. subst. lia.
Qed.

Lemma walk_inj va va' k k' a w w' :
  walk (ms_mem s) (max_level sz) root va = Some (k, a, w) ->
  walk (ms_mem s) (max_level sz) root va' = Some (k', a, w') ->
  k = k' /\ agree k (max_level sz) va va'.
Proof.
  intros H1 H2.
  destruct (walk_desc va (max_level sz) root k a w) as (t1 & Hk1 & D1 & E1);
    [lia|by rewrite Nat.sub_diag|done|].
  destruct (walk_desc va' (max_level sz) root k' a w') as (t2 & Hk2 & D2 & E2);
    [lia|by rewrite Nat.sub_diag|done|].
  destruct (desc_T _ _ _ D1) as [_ T1]. destruct (desc_T _ _ _ D2) as [_ T2].
  destruct (slot_inj _ _ _ _ _ _ T1 T2 (vpn_range k va) (vpn_range k' va')) as [-> Hv]; [lia|].
  assert (k = k') as <- by (simplify_eq; lia). split; [done|].
  intros j Hj. destruct (decide (j = k)) as [->|]; [done|].
  assert (j = max_level sz - (max_level sz - j))%nat as -> by lia.
  apply (desc_inj _ _ _ _ D1 D2). lia.
Qed.

(** Updating one entry [a0] that ends walks, and memory outside the tables. *)
Lemma walk_update m' a0 w0 va n t k a w :
  ms_mem s !! a0 = Some w0 -> is_ptr w0 = false ->
  (forall t k i, T !! t = Some k -> 0 <= i < 512 -> t + 8 * i <> a0 ->
    m' !! (t + 8 * i) = ms_mem s !! (t + 8 * i)) ->
  T !! t = Some n -> walk (ms_mem s) n t va = Some (k, a, w) ->
  (a <> a0 -> walk m' n t va = Some (k, a, w)) /\
  (a = a0 -> forall w', m' !! a0 = Some w' ->
    walk m' n t va = (if is_ptr w' then match k with O => Some (O, a0, w') | S k' => walk m' k' (hw_pa w') va end
                      else Some (k, a0, w'))).
Proof.
  intros H0 Hp Hm. revert t. induction n as [|n IH]; intros t Ht H; cbn in H |- *;
    (match goal with |- context [m' !! ?x] => destruct (Z.eq_dec x a0) as [E|E] end;
      [rewrite E, H0, Hp in H; injection H as <- <- <-; split; [done|]; intros _ w' Hw'; by rewrite E, Hw'|]);
    rewrite (Hm _ _ _ Ht (vpn_range _ va) E);
    destruct (ms_mem s !! (t + _)) as [w1|] eqn:Hw; try done.
  - destruct (is_ptr w1); simplify_eq; done.
  - destruct (is_ptr w1) eqn:Ep; [|simplify_eq; done].
    destruct (slot_ptr _ _ _ _ Ht Hw Ep) as (k' & ? & Hc).
    simplify_eq. by apply IH.
Qed.

End Tree.
