(* ===== verification/MmuMap.v ===== *)
(** Correctness of [RV64MMU::map]: the code builds exactly the translation it
    was asked for and leaves every other address alone. *)
From S2P Require Import Prelude KDefs Mmu MmuSpec MmuTree.

(** ** Memory accesses through the direct map *)

Lemma resolve_direct low pa : 0 <= pa < K_WINDOW -> resolve low (K_VADDR_BASE + pa) = Some pa.
Proof.
  intros. unfold resolve.
  destruct (Z.leb_spec K_VADDR_BASE (K_VADDR_BASE + pa)); [|lia].
  destruct (Z.ltb_spec (K_VADDR_BASE + pa) (K_VADDR_BASE + K_WINDOW)); [|lia].
  cbn [andb]. f_equal. lia.
Qed.

Lemma u64_direct pa : 0 <= pa <= K_WINDOW -> u64 (K_VADDR_BASE + pa) = K_VADDR_BASE + pa.
Proof.
  intros. apply Z.mod_small. rewrite kvbase_val. unfold K_WINDOW in *.
  change (2 ^ 32) with 4294967296 in *. change (2 ^ 64) with 18446744073709551616. lia.
Qed.

Fixpoint zero_words (n : nat) (pa : Z) (m : gmap Z Z) : gmap Z Z :=
  match n with
  | O => m
  | S n => zero_words n (pa + 8) (<[pa := 0]> m)
  end.

Lemma zero_words_out n pa m x :
  (forall i, 0 <= i < Z.of_nat n -> x <> pa + 8 * i) -> zero_words n pa m !! x = m !! x.
Proof.
  revert pa m. induction n as [|n IH]; intros pa m H; [done|]. cbn [zero_words]. rewrite IH.
  - apply lookup_insert_ne. specialize (H 0 ltac:(lia)). lia.
  - intros i Hi. specialize (H (i + 1) ltac:(lia)). lia.
Qed.

Lemma zero_words_in n pa m i : 0 <= i < Z.of_nat n -> zero_words n pa m !! (pa + 8 * i) = Some 0.
Proof.
  revert pa m i. induction n as [|n IH]; intros pa m i Hi; [lia|]. cbn [zero_words].
  destruct (Z.eq_dec i 0) as [->|].
  - rewrite zero_words_out by lia. rewrite Z.mul_0_r, Z.add_0_r. apply lookup_insert_eq.
  - replace (pa + 8 * i) with (pa + 8 + 8 * (i - 1)) by lia. apply IH. lia.
Qed.

Arguments zero_words : simpl never.

Section Accesses.
  Context {heap : Type}.
  Implicit Types (s : mstate heap).

Lemma load64_direct s pa w : 0 <= pa < K_WINDOW -> ms_mem s !! pa = Some w ->
  load64 (K_VADDR_BASE + pa) s = Some (w, s).
Proof. intros H Hw. unfold load64. by rewrite resolve_direct, Hw by done. Qed.

Lemma store64_direct s pa w : 0 <= pa < K_WINDOW ->
  store64 (K_VADDR_BASE + pa) w s = Some (tt, upd_mem <[pa := w]> s).
Proof. intros H. unfold store64. by rewrite resolve_direct by done. Qed.

Lemma memset0_direct n s pa : 0 <= pa -> pa + 8 * Z.of_nat n <= K_WINDOW ->
  memset0 n (K_VADDR_BASE + pa) s = Some (tt, upd_mem (zero_words n pa) s).
Proof.
  revert s pa. induction n as [|n IH]; intros s pa H1 H2; [by destruct s|].
  cbn [memset0]. unfold mbind, M_bind. rewrite store64_direct by lia.
  replace (K_VADDR_BASE + pa + 8) with (K_VADDR_BASE + (pa + 8)) by lia.
  rewrite u64_direct by lia. rewrite IH by lia. done.
Qed.
End Accesses.

#[global] Opaque zero_words.

Lemma walk_zero m k p va : m !! (p + 8 * vpn k va) = Some 0 ->
  walk m k p va = Some (k, p + 8 * vpn k va, 0).
Proof. intros H. destruct k; cbn [walk]; by rewrite H. Qed.

(** ** Hanging a fresh, zeroed table under an empty entry *)

Section Install.
  Context {heap : Type} {owns : heap -> Z -> Prop}.
  Context {sz : Z} {s : mstate heap} {root : Z} {T : gmap Z nat}.
  Hypothesis Hwf : pt_wf owns sz s root T.
  Variables (tt0 i0 w0 p : Z) (k0 : nat) (h' : heap).
  Hypothesis Ht0 : T !! tt0 = Some (S k0).
  Hypothesis Hi0 : 0 <= i0 < 512.
  Hypothesis Hw0 : ms_mem s !! (tt0 + 8 * i0) = Some w0.
  Hypothesis He0 : is_empty w0.
  Hypothesis Hpal : p mod 4096 = 0.
  Hypothesis Hp0 : 0 < p.
  Hypothesis Hp1 : p + 4096 <= K_WINDOW.
  Hypothesis Hfresh : forall a, p <= a < p + 4096 ->
    ~ owns (ms_heap s) (K_VADDR_BASE + a) /\ owns h' (K_VADDR_BASE + a).
  Hypothesis Hkeep : forall a, owns (ms_heap s) a -> owns h' a.

  #[local] Abbreviation a0 := (tt0 + 8 * i0).
Definition installed : mstate heap :=
  MState (<[tt0 + 8 * i0 := table_pte p w0]> (zero_words 512 p (ms_mem s)))
    (ms_low s) (ms_satp s) h'.

Lemma p_not_table k : T !! p <> Some k.
Proof.
  intros H. destruct (Hfresh p) as [Hn _]; [lia|]. apply Hn.
  apply (wf_owns _ _ _ _ _ Hwf _ _ _ H). lia.
Qed.

(** The slots of the existing tables lie outside the new page. *)
Lemma old_slot_not_new t k i j : T !! t = Some k -> 0 <= i < 512 -> 0 <= j < 512 ->
  t + 8 * i <> p + 8 * j.
Proof.
  intros Ht Hi Hj E. destruct (Hfresh (p + 8 * j)) as [Hn _]; [lia|]. apply Hn.
  rewrite <- E. apply (wf_owns _ _ _ _ _ Hwf _ _ _ Ht). lia.
Qed.

Lemma p_lt_56 : 0 <= p < 2 ^ 56.
Proof. unfold K_WINDOW in *. change (2 ^ 32) with 4294967296 in *. lia. Qed.

Lemma installed_old t k i : T !! t = Some k -> 0 <= i < 512 -> t + 8 * i <> a0 ->
  ms_mem installed !! (t + 8 * i) = ms_mem s !! (t + 8 * i).
Proof.
  intros Ht Hi Hne. cbn [installed ms_mem]. rewrite lookup_insert_ne by done. apply zero_words_out.
  intros j Hj. apply (old_slot_not_new t k); lia || done.
Qed.

Lemma installed_a0 : ms_mem installed !! a0 = Some (table_pte p w0).
Proof. apply lookup_insert_eq. Qed.

Lemma installed_new j : 0 <= j < 512 -> ms_mem installed !! (p + 8 * j) = Some 0.
Proof.
  intros Hj. cbn [installed ms_mem]. rewrite lookup_insert_ne by (apply (old_slot_not_new _ _ _ _ Ht0); lia).
  by apply zero_words_in.
Qed.

Lemma p_other t k : T !! t = Some k -> p <> t.
Proof. intros H E. rewrite <- E in H. by apply p_not_table in H. Qed.

(** An entry of an old table after the installation: the new pointer, or what it was. *)
Lemma installed_entry t k i w : T !! t = Some k -> 0 <= i < 512 ->
  ms_mem installed !! (t + 8 * i) = Some w ->
  (t = tt0 /\ i = i0 /\ w = table_pte p w0) \/
  ((t + 8 * i <> a0) /\ ms_mem s !! (t + 8 * i) = Some w).
Proof.
  intros Ht Hi Hw. destruct (Z.eq_dec (t + 8 * i) a0) as [E|E].
  - destruct (slot_inj Hwf _ _ _ _ _ _ Ht Ht0 Hi Hi0 E) as [-> ->].
    rewrite installed_a0 in Hw. left. by simplify_eq.
  - right. split; [done|]. by rewrite <- (installed_old t k i).
Qed.

(** No old entry points at the new table. *)
Lemma old_not_p t k i w : T !! t = Some k -> 0 <= i < 512 ->
  ms_mem s !! (t + 8 * i) = Some w -> is_ptr w = true -> hw_pa w <> p.
Proof.
  intros Ht Hi Hw Hp. destruct (wf_ent _ _ _ _ _ Hwf _ _ _ _ Ht Hi Hw)
    as [[Hv _]|[[_ Hl]|(_ & k' & _ & Hch)]];
    [by rewrite (not_ptr_v0 _ Hv) in Hp|congruence|]. symmetry. by apply (p_other _ _ Hch).
Qed.

Lemma installed_wf : pt_wf owns sz installed root (<[p := k0]> T).
Proof.
  destruct (table_pte_ok p w0 p_lt_56 Hpal) as [Hptr Hpa].
  split.
  - rewrite lookup_insert_ne; [apply (wf_root _ _ _ _ _ Hwf)|].
    apply (p_other _ _ (wf_root _ _ _ _ _ Hwf)).
  - intros t k. rewrite lookup_insert. case_decide as E; [|apply (wf_tbl _ _ _ _ _ Hwf)].
    intros [= <-]. subst t. destruct (wf_tbl _ _ _ _ _ Hwf _ _ Ht0) as [? _]. repeat split; lia.
  - intros t k i. rewrite lookup_insert. case_decide as E.
    + intros _ Hi. subst t. exists 0. by rewrite installed_new.
    + intros Ht Hi. destruct (Z.eq_dec (t + 8 * i) a0) as [E'|E'].
      * rewrite E', installed_a0. eexists. split; [done|]. apply table_pte_range.
        destruct (wf_words _ _ _ _ _ Hwf _ _ _ Ht0 Hi0) as (w & Hw & ?). congruence.
      * rewrite (installed_old _ _ _ Ht Hi E'). by apply (wf_words _ _ _ _ _ Hwf t k).
  - intros t k i w. rewrite lookup_insert. case_decide as E.
    + intros _ Hi. subst t. rewrite installed_new by done. intros [= <-]. by left.
    + intros Ht Hi Hw. destruct (installed_entry _ _ _ _ Ht Hi Hw) as [(-> & -> & ->)|[_ Hold]].
      * right; right. split; [done|]. exists k0. rewrite Ht0 in Ht. split; [congruence|].
        rewrite Hpa. apply lookup_insert_eq.
      * destruct (wf_ent _ _ _ _ _ Hwf _ _ _ _ Ht Hi Hold) as [?|[?|(? & k' & ? & Hc)]];
          [by left|by right; left|]. right; right. split; [done|]. exists k'. split; [done|].
        rewrite lookup_insert_ne; [done|]. by apply (p_other _ _ Hc).
  - intros t1 k1 i1 w1 t2 k2 i2 w2 H1 Hi1 Hw1 H2 Hi2 Hw2 P1 P2 E.
    rewrite lookup_insert in H1, H2. case_decide as D1; case_decide as D2; subst;
      try (rewrite installed_new in Hw1 by lia; injection Hw1 as <-; discriminate P1);
      try (rewrite installed_new in Hw2 by lia; injection Hw2 as <-; discriminate P2).
    destruct (installed_entry _ _ _ _ H1 Hi1 Hw1) as [(-> & -> & ->)|[N1 O1]];
      destruct (installed_entry _ _ _ _ H2 Hi2 Hw2) as [(-> & -> & ->)|[N2 O2]].
    + split; reflexivity.
    + rewrite Hpa in E. by destruct (old_not_p _ _ _ _ H2 Hi2 O2 P2).
    + rewrite Hpa in E. by destruct (old_not_p _ _ _ _ H1 Hi1 O1 P1).
    + apply (wf_inj _ _ _ _ _ Hwf t1 k1 i1 w1 t2 k2 i2 w2); done.
  - intros t k a. rewrite lookup_insert. case_decide as E.
    + intros _ Ha. subst t. by apply Hfresh.
    + intros Ht Ha. apply Hkeep. by apply (wf_owns _ _ _ _ _ Hwf t k).
Qed.

Lemma installed_walk va k a w :
  walk (ms_mem s) (max_level sz) root va = Some (k, a, w) ->
  (a <> a0 -> walk (ms_mem installed) (max_level sz) root va = Some (k, a, w)) /\
  (a = a0 -> k = S k0 ->
    walk (ms_mem installed) (max_level sz) root va = Some (k0, p + 8 * vpn k0 va, 0)).
Proof.
  intros H. destruct (table_pte_ok p w0 p_lt_56 Hpal) as [Hptr Hpa].
  destruct (walk_update Hwf (ms_mem installed) a0 w0 va (max_level sz) root k a w) as [Hn He];
    [done|by apply not_ptr_v0, He0|intros; by eapply installed_old|apply (wf_root _ _ _ _ _ Hwf)|done|].
  split; [done|]. intros -> ->. rewrite (He eq_refl _ installed_a0), Hptr, Hpa.
  apply walk_zero, installed_new, vpn_range.
Qed.
End Install.

(** ** Free slots and translation-preserving growth *)

Section Map.
  Context {heap : Type} {memalign : Z -> Z -> heap -> Z * heap}.
  Context {owns : heap -> Z -> Prop} {room : heap -> nat -> Prop}.
  Context `{Halloc : !MemalignSpec memalign owns room}.
  Context {sz : Z} (Hsz : valid_sz sz) (o : rv64mmu) (root : Z).
  Hypothesis Hroot : mmu_ptes o = K_VADDR_BASE + root.
  Implicit Types (s : mstate heap) (T : gmap Z nat).

  #[local] Abbreviation wf := (pt_wf owns sz).
  #[local] Abbreviation top := (max_level sz).

(** No table or page hangs at depth [kb] of the path of [va], or above. *)
Definition slot_free s (kb : nat) (va : Z) : Prop :=
  exists k a w, walk (ms_mem s) top root va = Some (k, a, w) /\ pte_v w = 0 /\ (kb <= k)%nat.

(** What building the path of [va0] may change: no translation, and no free slot
    except those [va0] goes through. *)
Record grows (va0 : Z) s s' : Prop := {
  g_low : ms_low s' = ms_low s;
  g_trans va : translate sz (ms_mem s') root va = translate sz (ms_mem s) root va;
  g_free kb va : slot_free s kb va -> ~ agree kb top va va0 -> slot_free s' kb va;
}.

Lemma grows_refl va0 s : grows va0 s s.
Proof. split; auto. Qed.

Lemma grows_trans va0 s1 s2 s3 : grows va0 s1 s2 -> grows va0 s2 s3 -> grows va0 s1 s3.
Proof.
  intros [L1 T1 F1] [L2 T2 F2]. split; [congruence| |auto].
  intros va. by rewrite T2, T1.
Qed.

Lemma translate_walk s s' va k a w k' a' w' :
  walk (ms_mem s) top root va = Some (k, a, w) ->
  walk (ms_mem s') top root va = Some (k', a', w') ->
  decode k' w' va = decode k w va ->
  translate sz (ms_mem s') root va = translate sz (ms_mem s) root va.
Proof. intros H H' E. unfold translate. by rewrite H, H', E. Qed.

Lemma installed_grows s T tt0 i0 w0 p k0 h' va0 :
  wf s root T -> T !! tt0 = Some (S k0) -> 0 <= i0 < 512 ->
  ms_mem s !! (tt0 + 8 * i0) = Some w0 -> is_empty w0 ->
  p mod 4096 = 0 -> 0 < p -> p + 4096 <= K_WINDOW ->
  (forall a, p <= a < p + 4096 ->
     ~ owns (ms_heap s) (K_VADDR_BASE + a) /\ owns h' (K_VADDR_BASE + a)) ->
  walk (ms_mem s) top root va0 = Some (S k0, tt0 + 8 * i0, w0) ->
  grows va0 s (installed (s := s) tt0 i0 w0 p h').
Proof.
  intros Hwf Ht0 Hi0 Hw0 He0 Hal Hp0 Hp1 Hfr Hwalk.
  assert (Hst : forall va k a w, walk (ms_mem s) top root va = Some (k, a, w) ->
    exists k' a' w', walk (ms_mem (installed (s := s) tt0 i0 w0 p h')) top root va = Some (k', a', w') /\
      ((k', a', w') = (k, a, w) \/
       (k = S k0 /\ w = w0 /\ k' = k0 /\ w' = 0 /\ agree (S k0) top va va0))).
  { intros va k a w H.
    destruct (installed_walk Hwf tt0 i0 w0 p k0 h' Ht0 Hi0 Hw0 He0 Hal Hp0 Hp1 Hfr va k a w H) as [Hn He].
    destruct (Z.eq_dec a (tt0 + 8 * i0)) as [->|E]; [|eauto 10].
    destruct (walk_inj Hwf va va0 k (S k0) _ w w0 H Hwalk) as [-> Hag].
    rewrite (He eq_refl eq_refl). do 3 eexists. split; [done|]. right. split_and!; try done.
    destruct (walk_total Hwf _ _ va (wf_root _ _ _ _ _ Hwf)) as (? & ? & ? & ? & H' & _ & _ & _ & Hm & _).
    rewrite H in H'. simplify_eq. congruence. }
  split; [done| |].
  - intros va. destruct (walk_total Hwf _ _ va (wf_root _ _ _ _ _ Hwf)) as (k & a & w & _ & H & _).
    destruct (Hst _ _ _ _ H) as (k' & a' & w' & H' & [[= -> -> ->]|(-> & -> & -> & -> & _)]);
      (eapply translate_walk; [done|done|]); [done|].
    by rewrite !decode_empty by (done || apply He0).
  - intros kb va (k & a & w & H & Hv & Hk) Hag.
    destruct (Hst _ _ _ _ H) as (k' & a' & w' & H' & [[= -> -> ->]|(-> & -> & -> & -> & Hag')]).
    + exists k, a, w. auto.
    + exists k0, a', 0. split_and!; [done|done|]. destruct (decide (kb = S k0)) as [->|]; [done|lia].
Qed.

(** ** [_createPTE] *)

Lemma desc_prefix s va j j' t : (j' <= j)%nat -> desc (sz := sz) (s := s) (root := root) va j = Some t ->
  exists t', desc (sz := sz) (s := s) (root := root) va j' = Some t'.
Proof.
  intros Hle. revert t. induction j as [|j IH]; intros t H.
  - assert (j' = 0%nat) as -> by lia. eauto.
  - destruct (decide (j' = S j)) as [->|]; [eauto|]. cbn [desc] in H.
    destruct (desc va j) as [t0|] eqn:E; [|done]. apply (IH ltac:(lia) t0). done.
Qed.

(** The allocation branch, from the entry that ends the walk of [va0]. *)
Lemma createPTE_alloc s T k0 tt0 w0 n va0 :
  wf s root T -> T !! tt0 = Some (S k0) ->
  walk (ms_mem s) top root va0 = Some (S k0, tt0 + 8 * vpn (S k0) va0, w0) ->
  pte_v w0 = 0 -> room (ms_heap s) (S n) ->
  exists s' p,
    (p ← alignedMalloc memalign (512 * 8) 4096;
     memset0 512 p ≫= fun _ =>
     pw ← load64 (K_VADDR_BASE + (tt0 + 8 * vpn (S k0) va0));
     let pw := pte_ppn (Z.land p (u64 (Z.lnot 0xFFFFFFC000000000))) pw in
     let pw := set_x 0 (set_w 0 (set_r 0 (set_v 1 pw))) in
     store64 (K_VADDR_BASE + (tt0 + 8 * vpn (S k0) va0)) (pte_fit pw) ≫= fun _ =>
     mret p) s = Some (K_VADDR_BASE + p, s') /\
    wf s' root (<[p := k0]> T) /\ grows va0 s s' /\ room (ms_heap s') n /\
    0 < p /\ p + 4096 <= K_WINDOW /\
    walk (ms_mem s') top root va0 = Some (k0, p + 8 * vpn k0 va0, 0).
Proof.
  intros Hwf Ht0 Hwalk Hv Hroom.
  destruct (memalign 4096 4096 (ms_heap s)) as [q h'] eqn:Eq.
  destruct (memalign_page _ _ _ _ Hroom Eq) as (Hqal & Hq0 & Hq1 & Hfr & Hkeep & Hroom').
  assert (exists p, q = K_VADDR_BASE + p) as [p ->] by (exists (q - K_VADDR_BASE); lia).
  set (i0 := vpn (S k0) va0) in *. pose proof (vpn_range (S k0) va0 : 0 <= i0 < 512) as Hi0.
  destruct (wf_tbl _ _ _ _ _ Hwf _ _ Ht0) as (Hk0 & Hal0 & Ht00 & Ht01).
  assert (Hw0 : ms_mem s !! (tt0 + 8 * i0) = Some w0).
  { destruct (walk_total Hwf _ _ va0 (wf_root _ _ _ _ _ Hwf)) as (? & ? & ? & ? & H' & _ & _ & _ & Hm & _).
    rewrite Hwalk in H'. by simplify_eq. }
  assert (He0 : is_empty w0).
  { destruct (wf_ent _ _ _ _ _ Hwf _ _ _ _ Ht0 Hi0 Hw0) as [?|[[? _]|(Hp & _)]]; [done|congruence|].
    apply is_ptr_pte in Hp. destruct Hp. congruence. }
  assert (Hpal : p mod 4096 = 0).
  { rewrite kvbase_val in Hqal.
    replace (0xFFFFFFC000000000 + p) with (p + 0xFFFFFFC000000 * 4096) in Hqal by lia.
    by rewrite Z.mod_add in Hqal by lia. }
  assert (Hfr' : forall a, p <= a < p + 4096 ->
     ~ owns (ms_heap s) (K_VADDR_BASE + a) /\ owns h' (K_VADDR_BASE + a)).
  { intros a Ha. apply Hfr. lia. }
  exists (installed (s := s) tt0 i0 w0 p h'), p. split.
  - unfold mbind, M_bind, mret, M_ret, alignedMalloc. change (512 * 8) with 4096. rewrite Eq.
    rewrite memset0_direct by (cbn; lia).
    rewrite (load64_direct _ _ w0); [|lia|].
    2:{ cbn [ms_mem upd_mem]. rewrite zero_words_out; [done|]. intros j Hj.
        by apply (old_slot_not_new Hwf p h' Hfr' tt0 (S k0)). }
    rewrite mask_direct by lia. replace (K_VADDR_BASE + p - K_VADDR_BASE) with p by lia.
    cbn zeta. rewrite store64_direct by lia. done.
  - split_and!; [|eapply installed_grows; eauto; lia|done|lia|lia|].
    + eapply installed_wf; eauto; lia.
    + eapply (installed_walk Hwf tt0 i0 w0 p k0 h'); eauto; lia.
Qed.

Lemma slot_bounds s T t k i : wf s root T -> T !! t = Some k -> 0 <= i < 512 ->
  0 <= t + 8 * i < K_WINDOW.
Proof. intros H Ht Hi. destruct (wf_tbl _ _ _ _ _ H _ _ Ht) as (_ & _ & ? & ?). lia. Qed.

Lemma walk_slot s T va k a w : wf s root T ->
  walk (ms_mem s) top root va = Some (k, a, w) ->
  exists t, T !! t = Some k /\ a = t + 8 * vpn k va /\ ms_mem s !! a = Some w /\
    desc (sz := sz) (s := s) (root := root) va (top - k) = Some t /\ (k <= top)%nat.
Proof.
  intros Hwf H.
  destruct (walk_desc (sz := sz) (s := s) (root := root) va top root k a w) as (t & Hk & Hd & ->); [lia|by rewrite Nat.sub_diag|done|].
  destruct (desc_T Hwf _ _ _ Hd) as [_ Ht].
  destruct (walk_total Hwf _ _ va (wf_root _ _ _ _ _ Hwf)) as (? & ? & ? & ? & H' & _ & _ & _ & Hm & _).
  rewrite H in H'. simplify_eq. exists t. split_and!; try done. rewrite Ht. f_equal. lia.
Qed.

(** The existing-table branch: the pointer stored at [parent] is followed. *)
Lemma follow_ptr s T va l t w t' : wf s root T ->
  desc (sz := sz) (s := s) (root := root) va l = Some t ->
  ms_mem s !! (t + 8 * vpn (top - l) va) = Some w ->
  desc (sz := sz) (s := s) (root := root) va (S l) = Some t' ->
  pte_paddr w = t' /\ t' <> 0 /\ 0 < t' /\ t' + 4096 <= K_WINDOW.
Proof.
  intros Hwf Hd Hw Hd'. destruct (desc_T Hwf _ _ _ Hd') as [_ Ht'].
  destruct (wf_tbl _ _ _ _ _ Hwf _ _ Ht') as (_ & _ & H0 & H1).
  cbn [desc] in Hd'. rewrite Hd, Hw in Hd'. destruct (is_ptr w); [|done]. simplify_eq.
  split_and!; [|lia|lia|lia]. apply pte_paddr_hw. unfold K_WINDOW in *.
  change (2 ^ 32) with 4294967296 in *. change (2 ^ 38) with 274877906944. lia.
Qed.

Lemma slot_invalid_empty s T t k va w : wf s root T -> T !! t = Some k ->
  ms_mem s !! (t + 8 * vpn k va) = Some w -> pte_v w = 0 -> is_empty w.
Proof.
  intros Hwf Ht Hm Hv. destruct (wf_ent _ _ _ _ _ Hwf _ _ _ _ Ht (vpn_range k va) Hm) as [?|[[? _]|(Hp & _)]];
    [done|congruence|]. apply is_ptr_pte in Hp. destruct Hp. congruence.
Qed.

(** The walk that ended at level [k] without a mapping ends at the slot the
    descent of [l] levels has reached. *)
Lemma walk_open_slot s T va0 l k a w t : wf s root T -> k = (top - l)%nat -> (l <= top)%nat ->
  walk (ms_mem s) top root va0 = Some (k, a, w) ->
  desc (sz := sz) (s := s) (root := root) va0 l = Some t ->
  walk (ms_mem s) top root va0 = Some ((top - l)%nat, t + 8 * vpn (top - l) va0, w).
Proof.
  intros Hwf -> Hl Hwalk Hd. destruct (walk_slot _ _ _ _ _ _ Hwf Hwalk) as (t' & _ & -> & _ & Hdk & _).
  replace (top - (top - l))%nat with l in Hdk by lia. rewrite Hd in Hdk. by simplify_eq.
Qed.

Lemma createPTE_spec va0 l : forall s T n k a w,
  wf s root T -> (l <= top)%nat -> room (ms_heap s) (l + n) ->
  walk (ms_mem s) top root va0 = Some (k, a, w) ->
  (pte_v w = 0 \/ (k <= top - l)%nat) ->
  exists s' T' t,
    createPTE memalign sz o l va0 s = Some (K_VADDR_BASE + (t + 8 * vpn (top - l) va0), s') /\
    wf s' root T' /\ T' !! t = Some (top - l)%nat /\ grows va0 s s' /\ room (ms_heap s') n /\
    (if decide (k <= top - l)%nat
     then s' = s /\ desc (sz := sz) (s := s) (root := root) va0 l = Some t
     else walk (ms_mem s') top root va0 = Some ((top - l)%nat, t + 8 * vpn (top - l) va0, 0)).
Proof.
  induction l as [|l IH]; intros s T n k a w Hwf Hl Hroom Hwalk Hopen.
  - destruct (walk_slot _ _ _ _ _ _ Hwf Hwalk) as (t & _ & _ & _ & _ & Hk).
    exists s, T, root. cbn [createPTE]. rewrite getVPN_vpn by (done || lia).
    pose proof (wf_root _ _ _ _ _ Hwf) as Hr.
    pose proof (slot_bounds _ _ _ _ _ Hwf Hr (vpn_range (top - 0) va0)).
    rewrite Hroot, <- Z.add_assoc, u64_direct by lia. rewrite Nat.sub_0_r in *.
    split_and!; first [done | apply grows_refl | destruct (decide _); [done|lia]].
  - destruct (IH s T (S n) k a w) as (s1 & T1 & t1 & E1 & Hwf1 & Ht1 & Hg1 & Hroom1 & Hcase);
      [done|lia|by replace (l + S n)%nat with (S l + n)%nat by lia|done|lia|].
    pose proof (slot_bounds _ _ _ _ _ Hwf1 Ht1 (vpn_range (top - l) va0)) as Hb.
    cbn [createPTE]. unfold mbind, M_bind at 1. rewrite E1. cbn beta iota.
    rewrite getVPN_vpn by (done || lia).
    destruct (decide (k <= top - S l)%nat) as [Hk|Hk].
    + destruct (decide (k <= top - l)%nat) as [_|]; [|lia]. destruct Hcase as [-> Hd].
      destruct (walk_slot _ _ _ _ _ _ Hwf Hwalk) as (t & _ & _ & _ & Hdk & _).
      destruct (desc_prefix s va0 (top - k) (S l) t ltac:(lia) Hdk) as [t' Hd'].
      destruct (slot_word Hwf1 t1 _ va0 Ht1) as (pw & Hpw & _).
      destruct (follow_ptr _ _ _ _ _ _ _ Hwf Hd Hpw Hd') as (Epa & Hnz & H0 & H1).
      exists s, T, t'. destruct (desc_T Hwf _ _ _ Hd') as [_ Ht'].
      pose proof (slot_bounds _ _ _ _ _ Hwf Ht' (vpn_range (top - S l) va0)).
      unfold M_bind. rewrite (load64_direct _ _ pw) by (done || lia). rewrite Epa.
      destruct (Z.eqb_spec t' 0); [lia|]. cbn [negb]. unfold mret, M_ret.
      change 0xFFFFFFC000000000 with K_VADDR_BASE. rewrite (Z.add_comm t'), u64_direct by lia.
      rewrite <- Z.add_assoc, u64_direct by lia. split_and!; try done. by apply room_less.
    + assert (exists w1, pte_v w1 = 0 /\
        walk (ms_mem s1) top root va0 = Some ((top - l)%nat, t1 + 8 * vpn (top - l) va0, w1)) as (w1 & Hv1 & Hw1).
      { destruct (decide (k <= top - l)%nat) as [Hk'|Hk'].
        - destruct Hcase as [-> Hd]. exists w. split; [destruct Hopen; [done|lia]|].
          apply (walk_open_slot s T1 va0 l k a w t1); (done || lia).
        - exists 0. done. }
      replace (top - l)%nat with (S (top - S l)) in * by lia.
      destruct (createPTE_alloc s1 T1 (top - S l) t1 w1 n va0 Hwf1 Ht1 Hw1 Hv1 Hroom1)
        as (s2 & p & E2 & Hwf2 & Hg2 & Hroom2 & Hp0 & Hp1 & Hwalk2).
      destruct (walk_slot _ _ _ _ _ _ Hwf1 Hw1) as (t' & Ht' & _ & Hm1 & _).
      pose proof (slot_invalid_empty _ _ _ _ _ _ Hwf1 Ht1 Hm1 Hv1) as He1.
      exists s2, (<[p := (top - S l)%nat]> T1), p.
      unfold M_bind at 1. rewrite (load64_direct _ _ w1) by (done || lia).
      rewrite (pte_paddr_empty _ He1). cbn [negb Z.eqb].
      unfold M_bind at 1. unfold mbind in E2. rewrite E2. unfold mret, M_ret.
      pose proof (vpn_range (top - S l) va0).
      rewrite <- Z.add_assoc, u64_direct by lia.
      split_and!; first [done | apply lookup_insert_eq | by eapply grows_trans
                        | by destruct (decide _); [lia|]].
Qed.
End Map.
