(* ===== verification/MmuCorrect.v ===== *)
(** The contract of the page-table manager: [map] installs exactly the requested
    translation, [unmap] removes one, and the ways both refuse or misbehave. *)
From S2P Require Import Prelude KDefs Mmu MmuSpec MmuTree MmuMap.

(** ** Overwriting the entry that ends a walk *)

Section Overwrite.
  Context {heap : Type} {owns : heap -> Z -> Prop}.
  Context {sz : Z} {s : mstate heap} {root : Z} {T : gmap Z nat}.
  Hypothesis Hwf : pt_wf owns sz s root T.
  Variables (va0 a0 w0 w1 : Z) (k0 : nat).
  Hypothesis Hwalk : walk (ms_mem s) (max_level sz) root va0 = Some (k0, a0, w0).
  Hypothesis Hw1 : is_uw 64 w1.
  Hypothesis Hk1 : is_empty w1 \/ is_leaf w1.

  #[local] Abbreviation s1 := (upd_mem <[a0 := w1]> s).

Lemma final_not_ptr : ms_mem s !! a0 = Some w0 /\ is_ptr w0 = false.
Proof.
  destruct (walk_total Hwf _ _ va0 (wf_root _ _ _ _ _ Hwf)) as (? & ? & ? & ? & H' & _ & _ & _ & Hm & ?).
  rewrite Hwalk in H'. by simplify_eq.
Qed.

Lemma new_not_ptr : is_ptr w1 = false.
Proof. destruct Hk1 as [[H _]|[_ H]]; [by apply not_ptr_v0|done]. Qed.

Lemma overwrite_wf : pt_wf owns sz s1 root T.
Proof.
  destruct final_not_ptr as [Hm0 Hp0]. pose proof new_not_ptr as Hp1.
  assert (Hl : forall x w, ms_mem s1 !! x = Some w ->
    (x = a0 /\ w = w1) \/ (x <> a0 /\ ms_mem s !! x = Some w)).
  { intros x w. cbn [upd_mem ms_mem]. rewrite lookup_insert. case_decide as E; intros H.
    - left. by simplify_eq.
    - right. split; [congruence|done]. }
  split.
  - apply (wf_root _ _ _ _ _ Hwf).
  - apply (wf_tbl _ _ _ _ _ Hwf).
  - intros t k i Ht Hi. cbn [upd_mem ms_mem]. rewrite lookup_insert. case_decide; [by eauto|].
    by apply (wf_words _ _ _ _ _ Hwf t k).
  - intros t k i w Ht Hi Hw. destruct (Hl _ _ Hw) as [[_ ->]|[_ Hold]]; [tauto|].
    by apply (wf_ent _ _ _ _ _ Hwf t k i w).
  - intros t1 k1 i1 v1 t2 k2 i2 v2 H1 Hi1 E1 H2 Hi2 E2 P1 P2.
    destruct (Hl _ _ E1) as [[_ ->]|[_ O1]]; [congruence|].
    destruct (Hl _ _ E2) as [[_ ->]|[_ O2]]; [congruence|].
    by apply (wf_inj _ _ _ _ _ Hwf t1 k1 i1 v1 t2 k2 i2 v2).
  - apply (wf_owns _ _ _ _ _ Hwf).
Qed.

Lemma overwrite_walk va k a w : walk (ms_mem s) (max_level sz) root va = Some (k, a, w) ->
  walk (ms_mem s1) (max_level sz) root va =
    if decide (agree k0 (max_level sz) va va0) then Some (k0, a0, w1) else Some (k, a, w).
Proof.
  intros H. destruct final_not_ptr as [Hm0 Hp0].
  destruct (walk_update Hwf (ms_mem s1) a0 w0 va (max_level sz) root k a w) as [Hn He];
    [done|done| |apply (wf_root _ _ _ _ _ Hwf)|done|].
  { intros t j i _ _ Hne. cbn [upd_mem ms_mem]. by rewrite lookup_insert_ne. }
  case_decide as Hag.
  - pose proof (walk_agree _ _ _ _ _ _ _ Hwalk (agree_sym _ _ _ _ Hag)) as H'.
    rewrite H in H'. simplify_eq.
    rewrite (He eq_refl w1 (lookup_insert_eq _ _ _)). by rewrite new_not_ptr.
  - apply Hn. intros ->. destruct (walk_inj Hwf va va0 k k0 a0 w w0 H Hwalk) as [-> ?]. done.
Qed.
End Overwrite.

(** ** Blocks as address ranges *)

Lemma vpn_of_div k j va va' : (k <= j)%nat ->
  va / 2 ^ vshift k = va' / 2 ^ vshift k -> vpn j va = vpn j va'.
Proof.
  intros Hkj E. rewrite !vpn_alt. f_equal.
  assert (2 ^ vshift j = 2 ^ vshift k * 2 ^ (vshift j - vshift k)) as ->.
  { rewrite <- Z.pow_add_r by (unfold vshift; lia). f_equal. lia. }
  assert (0 < 2 ^ (vshift j - vshift k)) by (apply Z.pow_pos_nonneg; unfold vshift; lia).
  pose proof (pow_vshift_pos k). rewrite <- !Z.div_div by lia. by rewrite E.
Qed.

(** The part of a canonical address above depth [k], from its page numbers. *)
Lemma canonical_div sz k va : valid_sz sz -> (k <= max_level sz)%nat -> canonical sz va = true ->
  let m := 2 ^ (sz - vshift k) in let r := (va / 2 ^ vshift k) mod m in
  va / 2 ^ vshift k = if r <? m / 2 then r else r + 2 ^ (64 - vshift k) - m.
Proof.
  intros Hsz Hk Hc. cbn zeta.
  assert (Hs : vshift k + 9 <= sz <= 57).
  { destruct (max_level_cases sz Hsz) as [[E Em]|[[E Em]|[E Em]]]; rewrite Em in Hk;
      unfold vshift; lia. }
  pose proof (vshift_pos k).
  assert (E1 : 2 ^ (sz - vshift k) / 2 = 2 ^ (sz - 1 - vshift k)).
  { replace (sz - vshift k) with (Z.succ (sz - 1 - vshift k)) by lia.
    rewrite Z.pow_succ_r, Z.mul_comm, Z.div_mul by lia. done. }
  rewrite E1. set (b := 2 ^ vshift k). assert (Hb : 0 < b) by (apply pow_vshift_pos).
  assert (F : forall n, vshift k <= n -> 2 ^ n = b * 2 ^ (n - vshift k)).
  { intros n Hn. unfold b. rewrite <- Z.pow_add_r by lia. f_equal. lia. }
  assert (G : 2 ^ (sz - vshift k) = 2 * 2 ^ (sz - 1 - vshift k)).
  { rewrite <- Z.pow_succ_r by lia. f_equal. lia. }
  assert (K : 2 ^ (64 - vshift k) = 2 ^ (sz - vshift k) * 2 ^ (64 - sz)).
  { rewrite <- Z.pow_add_r by lia. f_equal. lia. }
  assert (0 < 2 ^ (sz - 1 - vshift k)) by lia. assert (1 <= 2 ^ (64 - sz)) by lia.
  unfold canonical in Hc. apply orb_true_iff in Hc. rewrite !andb_true_iff, !Z.leb_le, !Z.ltb_lt in Hc.
  rewrite (F (sz - 1)), (F 64) in Hc by lia.
  replace (sz - 1 - vshift k) with (sz - vshift k - 1) in * by lia.
  pose proof (Z.div_mod va b ltac:(lia)). pose proof (Z.mod_pos_bound va b Hb).
  set (h := 2 ^ (sz - vshift k - 1)) in *. set (q := va / b) in *.
  destruct Hc as [[? ?]|[? ?]].
  - assert (0 <= q < h) by nia. rewrite (Z.mod_small q) by lia. destruct (Z.ltb_spec q h); lia.
  - assert (2 ^ (64 - vshift k) - h <= q < 2 ^ (64 - vshift k)) by nia.
    assert (q mod 2 ^ (sz - vshift k) = q - (2 ^ (64 - vshift k) - 2 ^ (sz - vshift k))) as ->.
    { symmetry. apply (Z.mod_unique _ _ (2 ^ (64 - sz) - 1)); lia. }
    destruct (Z.ltb_spec (q - (2 ^ (64 - vshift k) - 2 ^ (sz - vshift k))) h); lia.
Qed.

Lemma agree_block sz k va va0 : valid_sz sz -> (k <= max_level sz)%nat ->
  canonical sz va = true -> canonical sz va0 = true -> va0 mod 2 ^ vshift k = 0 ->
  agree k (max_level sz) va va0 <-> va0 <= va < va0 + 2 ^ vshift k.
Proof.
  intros Hsz Hk Hc Hc0 Hal. pose proof (pow_vshift_pos k) as Hb.
  pose proof (Z.div_mod va (2 ^ vshift k) ltac:(lia)). pose proof (Z.mod_pos_bound va _ Hb).
  pose proof (Z.div_mod va0 (2 ^ vshift k) ltac:(lia)).
  split.
  - intros Ha. apply (agree_mod k (max_level sz)) in Ha; [|done]. rewrite <- sz_vshift in Ha by done.
    pose proof (canonical_div sz k va Hsz Hk Hc) as E. pose proof (canonical_div sz k va0 Hsz Hk Hc0) as E0.
    cbn zeta in E, E0. rewrite Ha in E. rewrite <- E0 in E. nia.
  - intros Hr j Hj. apply (vpn_of_div k); [lia|].
    symmetry. apply (Z.div_unique va (2 ^ vshift k) (va0 / 2 ^ vshift k) (va - va0)); lia.
Qed.

(** ** One block *)

Lemma calcLevel_ok sz k : valid_sz sz -> (k <= max_level sz)%nat ->
  calcLevel sz (vshift k) = Z.of_nat (max_level sz - k).
Proof.
  intros H. destruct (max_level_cases sz H) as [[-> ->]|[[-> ->]|[-> ->]]]; intros Hk;
    repeat (destruct k as [|k]; [reflexivity|]); lia.
Qed.

Section Block.
  Context {heap : Type} {memalign : Z -> Z -> heap -> Z * heap}.
  Context {owns : heap -> Z -> Prop} {room : heap -> nat -> Prop}.
  Context `{Halloc : !MemalignSpec memalign owns room}.
  Context {sz : Z} (Hsz : valid_sz sz) (o : rv64mmu) (root : Z).
  Hypothesis Hroot : mmu_ptes o = K_VADDR_BASE + root.
  Implicit Types (s : mstate heap) (T : gmap Z nat).
  #[local] Abbreviation top := (max_level sz).

Lemma room_drop h k n : room h (k + n) -> room h n.
Proof. induction k; [done|]. intros H. apply IHk. by apply room_less. Qed.

Lemma leaf_pte_leaf prot pa w : prot_rejected prot = false -> is_leaf (leaf_pte (mmu_variant o) prot pa w).
Proof.
  intros Hprot. destruct (leaf_pte_fields (mmu_variant o) prot pa w) as (Hlv & _ & Hr & Hw & Hx & _).
  split; [done|]. unfold is_ptr. rewrite Hlv, Hr, Hw, Hx.
  destruct (prot_ok _ Hprot) as [->|[-> ->]]; [done|by destruct (Z.testbit prot 0)].
Qed.

Lemma map_block_spec s T n kb va0 pa prot :
  pt_wf owns sz s root T -> (kb <= top)%nat -> room (ms_heap s) (top + n) ->
  slot_free (sz := sz) root s kb va0 -> prot_rejected prot = false ->
  0 <= pa < 2 ^ 56 -> pa mod 2 ^ vshift kb = 0 ->
  exists s' T',
    map_block memalign sz o (vshift kb) va0 pa prot s = Some (0, s') /\
    pt_wf owns sz s' root T' /\ room (ms_heap s') n /\ ms_low s' = ms_low s /\
    (exists a w, walk (ms_mem s') top root va0 = Some (kb, a, w) /\ pte_v w = 1) /\
    (forall va, agree kb top va va0 -> canonical sz va = true ->
       translate sz (ms_mem s') root va = Some (pa + va mod 2 ^ vshift kb, Z.land prot 31)) /\
    (forall va, ~ agree kb top va va0 ->
       translate sz (ms_mem s') root va = translate sz (ms_mem s) root va) /\
    (forall kb' va, slot_free (sz := sz) root s kb' va -> ~ agree kb' top va va0 ->
       ~ agree kb top va va0 -> slot_free (sz := sz) root s' kb' va).
Proof.
  intros Hwf Hkb Hroom (k & a & w & Hwalk & Hv & Hk) Hprot Hpa Hal.
  assert (room (ms_heap s) ((top - kb) + n)) as Hroom'.
  { apply (room_drop _ kb). by replace (kb + (top - kb + n))%nat with (top + n)%nat by lia. }
  destruct (createPTE_spec Hsz o root Hroot va0 (top - kb) s T n k a w Hwf ltac:(lia) Hroom' Hwalk
              ltac:(by left)) as (s1 & T1 & t & E1 & Hwf1 & Ht & Hg & Hroom1 & Hcase).
  replace (top - (top - kb))%nat with kb in * by lia.
  set (a1 := t + 8 * vpn kb va0) in *.
  assert (exists w1, walk (ms_mem s1) top root va0 = Some (kb, a1, w1) /\ pte_v w1 = 0) as (w1 & Hwalk1 & Hv1).
  { destruct (decide (k <= kb)%nat); [|eauto]. destruct Hcase as [-> Hd].
    assert (k = kb) as -> by lia. exists w. split; [|done].
    destruct (walk_slot root s T va0 kb a w Hwf Hwalk) as (t' & _ & -> & _ & Hd' & _).
    unfold a1. congruence. }
  destruct (final_not_ptr Hwf1 va0 a1 w1 kb Hwalk1) as [Hm1 _].
  pose proof (slot_bounds root s1 T1 t kb _ Hwf1 Ht (vpn_range kb va0)) as Hb. fold a1 in Hb.
  destruct (slot_word Hwf1 t kb va0 Ht) as (w1' & Hm1' & Huw). fold a1 in Hm1'.
  assert (w1' = w1) as -> by congruence.
  set (lf := leaf_pte (mmu_variant o) prot pa w1).
  assert (Hlf : is_leaf lf) by (by apply leaf_pte_leaf).
  assert (Hlu : is_uw 64 lf) by (by apply leaf_pte_range).
  exists (upd_mem <[a1 := lf]> s1), T1.
  assert (Hw' : forall va, exists k' a' w',
    walk (ms_mem s1) top root va = Some (k', a', w') /\
    walk (ms_mem (upd_mem <[a1 := lf]> s1)) top root va =
      if decide (agree kb top va va0) then Some (kb, a1, lf) else Some (k', a', w')).
  { intros va. destruct (walk_total Hwf1 _ _ va (wf_root _ _ _ _ _ Hwf1)) as (k' & a' & w' & _ & H & _).
    exists k', a', w'. split; [done|].
    by apply (overwrite_walk Hwf1 va0 a1 w1 lf kb Hwalk1 ltac:(by right)). }
  split_and!; [|by apply (overwrite_wf Hwf1 va0 a1 w1 lf kb Hwalk1 Hlu); right|done|apply (g_low _ _ _ _ Hg)|..].
  - unfold map_block. rewrite calcLevel_ok by done.
    destruct (Z.ltb_spec (Z.of_nat (top - kb)) 0); [lia|]. rewrite Nat2Z.id.
    unfold mbind, M_bind. rewrite E1, (load64_direct _ _ w1) by done. rewrite Hv1. cbn [negb Z.eqb].
    by rewrite store64_direct by done.
  - destruct (Hw' va0) as (k' & a' & w' & _ & H2). rewrite decide_True in H2 by done.
    exists a1, lf. split; [done|]. apply Hlf.
  - intros va Hag Hc. destruct (Hw' va) as (k' & a' & w' & _ & H2).
    unfold translate. rewrite Hc, H2, decide_True by done. apply decode_leaf; try done.
    pose proof (max_level_cases sz Hsz). lia.
  - intros va Hag. destruct (Hw' va) as (k' & a' & w' & H1 & H2). rewrite <- (g_trans _ _ _ _ Hg).
    unfold translate. by rewrite H1, H2, decide_False by done.
  - intros kb' va Hf Hag' Hag. destruct (g_free _ _ _ _ Hg kb' va Hf Hag') as (k1 & b1 & v1 & H1 & Hz & Hle).
    destruct (Hw' va) as (k' & a' & w' & H1' & H2). rewrite decide_False in H2 by done.
    exists k1, b1, v1. split; [congruence|done].
Qed.
End Block.

(** ** Ranges *)

(** A range of addresses the hardware can translate: one half of the space. *)
Definition canonical_range (sz vaddr size : Z) : Prop :=
  (0 <= vaddr /\ vaddr + size <= 2 ^ (sz - 1)) \/
  (2 ^ 64 - 2 ^ (sz - 1) <= vaddr /\ vaddr + size < 2 ^ 64).

Lemma canonical_in sz vaddr size va : canonical_range sz vaddr size ->
  vaddr <= va < vaddr + size -> canonical sz va = true.
Proof.
  intros H Hv. unfold canonical. apply orb_true_iff. rewrite !andb_true_iff, !Z.leb_le, !Z.ltb_lt.
  destruct H; [left|right]; lia.
Qed.

Lemma fits_spec vaddr size bits vc : 0 <= bits -> vaddr <= vc -> vc < vaddr + size -> size < 2 ^ 64 ->
  fits vaddr size bits vc = true <-> vc mod 2 ^ bits = 0 /\ vc + 2 ^ bits <= vaddr + size.
Proof.
  intros. unfold fits. rewrite Z.land_ones, Z.shiftl_1_l by lia.
  unfold uw. rewrite (Z.mod_small (size - (vc - vaddr))) by lia.
  rewrite andb_true_iff, Z.eqb_eq, Z.leb_le. lia.
Qed.

Lemma aligned_add a b bits : 0 <= bits -> a mod 2 ^ bits = 0 -> b mod 2 ^ bits = 0 ->
  (a + b) mod 2 ^ bits = 0.
Proof. intros. rewrite Z.add_mod, H0, H1 by lia. apply Z.mod_0_l. lia. Qed.

(** Each step of the loop finds a block: it is aligned on both sides, fits in
    what remains, and its size is one the paging mode has. *)
Lemma pick_map_spec sz vaddr size vc pc : valid_sz sz ->
  vaddr <= vc -> vc + 4096 <= vaddr + size -> size < 2 ^ 64 ->
  vc mod 4096 = 0 -> pc mod 4096 = 0 ->
  exists kb, pick_map sz vaddr size vc pc = Some (vshift kb) /\ (kb <= max_level sz)%nat /\
    vc mod 2 ^ vshift kb = 0 /\ pc mod 2 ^ vshift kb = 0 /\ vc + 2 ^ vshift kb <= vaddr + size.
Proof.
  intros Hsz H1 H2 H3 H4 H5.
  assert (F : forall kb, fits vaddr size (vshift kb) vc && (Z.land pc (Z.ones (vshift kb)) =? 0) = true ->
     vc mod 2 ^ vshift kb = 0 /\ pc mod 2 ^ vshift kb = 0 /\ vc + 2 ^ vshift kb <= vaddr + size).
  { intros kb H. pose proof (vshift_pos kb).
    rewrite Z.land_ones, andb_true_iff, fits_spec, Z.eqb_eq in H by lia. tauto. }
  assert (F0 : fits vaddr size 12 vc && (Z.land pc (Z.ones 12) =? 0) = true).
  { rewrite Z.land_ones, andb_true_iff, fits_spec, Z.eqb_eq by lia. done. }
  unfold pick_map. rewrite F0.
  pose proof (max_level_cases sz Hsz) as Hm.
  repeat match goal with |- context [if ?c then _ else _] => destruct c eqn:? end.
  - apply andb_true_iff in Heqb as [Hz%Z.leb_le Hf]. exists 4%nat. split; [done|]. split; [lia|by apply F].
  - apply andb_true_iff in Heqb0 as [Hz%Z.leb_le Hf]. exists 3%nat. split; [done|]. split; [lia|by apply F].
  - exists 2%nat. split; [done|]. split; [lia|by apply F].
  - exists 1%nat. split; [done|]. split; [lia|by apply F].
  - exists 0%nat. split; [done|]. split; [lia|by apply F].
Qed.

(** The number of blocks the loop of [map] goes through. *)
Fixpoint map_blocks (fuel : nat) (sz vaddr size vc pc : Z) : nat :=
  match fuel with
  | O => O
  | S fuel =>
      if vc <? u64 (vaddr + size) then
        match pick_map sz vaddr size vc pc with
        | Some bits =>
            S (map_blocks fuel sz vaddr size (u64 (vc + Z.shiftl 1 bits)) (u64 (pc + Z.shiftl 1 bits)))
        | None => O
        end
      else O
  end.

Section Range.
  Context {heap : Type} {memalign : Z -> Z -> heap -> Z * heap}.
  Context {owns : heap -> Z -> Prop} {room : heap -> nat -> Prop}.
  Context `{Halloc : !MemalignSpec memalign owns room}.
  Context {sz : Z} (Hsz : valid_sz sz) (o : rv64mmu) (root : Z).
  Hypothesis Hroot : mmu_ptes o = K_VADDR_BASE + root.
  Implicit Types (s : mstate heap) (T : gmap Z nat).
  #[local] Abbreviation top := (max_level sz).

(** Nothing hangs at the slot of any naturally aligned block inside the range. *)
Definition range_free s (vaddr size : Z) : Prop :=
  forall kb va, (kb <= top)%nat -> va mod 2 ^ vshift kb = 0 ->
    vaddr <= va -> va + 2 ^ vshift kb <= vaddr + size -> slot_free (sz := sz) root s kb va.

(** A block in terms of addresses: it maps exactly [vc, vc + block) and leaves
    every other canonical range as free as it was. *)
Lemma map_block_range s T n kb vc pc prot :
  pt_wf owns sz s root T -> (kb <= top)%nat -> room (ms_heap s) (top + n) ->
  canonical_range sz vc (2 ^ vshift kb) -> range_free s vc (2 ^ vshift kb) ->
  vc mod 2 ^ vshift kb = 0 -> prot_rejected prot = false ->
  0 <= pc < 2 ^ 56 -> pc mod 2 ^ vshift kb = 0 ->
  exists s' T',
    map_block memalign sz o (vshift kb) vc pc prot s = Some (0, s') /\
    pt_wf owns sz s' root T' /\ ms_low s' = ms_low s /\ room (ms_heap s') n /\
    (forall v2 size2, canonical_range sz v2 size2 -> v2 + size2 <= vc \/ vc + 2 ^ vshift kb <= v2 ->
       range_free s v2 size2 -> range_free s' v2 size2) /\
    (forall va, vc <= va < vc + 2 ^ vshift kb ->
       translate sz (ms_mem s') root va = Some (pc + (va - vc), Z.land prot 31)) /\
    (forall va, ~ vc <= va < vc + 2 ^ vshift kb ->
       translate sz (ms_mem s') root va = translate sz (ms_mem s) root va).
Proof.
  intros Hwf Hkb Hroom Hcr Hfree Hvb Hprot Hpc Hpb. pose proof (pow_vshift_pos kb) as Hbpos.
  destruct (map_block_spec Hsz o root Hroot s T n kb vc pc prot)
    as (s1 & T1 & E1 & Hwf1 & Hroom1 & Hlow1 & _ & Hin & Hout & Hfr1); try done.
  { apply Hfree; try done; lia. }
  assert (Hcv : canonical sz vc = true) by (apply (canonical_in sz vc (2 ^ vshift kb)); [done|lia]).
  exists s1, T1. split_and!; try done.
  - intros v2 size2 Hc2 Hd Hf2 kb' va Hk' Hm Hge Hle. pose proof (pow_vshift_pos kb').
    assert (canonical sz va = true) by (apply (canonical_in sz v2 size2); [done|lia]).
    apply Hfr1; [by apply Hf2|..]; intros Hag.
    + apply agree_sym, agree_block in Hag; try done. lia.
    + apply agree_block in Hag; try done. lia.
  - intros va Hv. assert (canonical sz va = true) by (by apply (canonical_in sz vc (2 ^ vshift kb))).
    rewrite Hin; [|by apply agree_block|done].
    do 2 f_equal. f_equal. symmetry. apply Z.mod_divide in Hvb; [|lia]. destruct Hvb as [c ->].
    apply (Z.mod_unique va (2 ^ vshift kb) c); lia.
  - intros va Hv. destruct (canonical sz va) eqn:Hc; [|unfold translate; by rewrite Hc].
    apply Hout. intros Hag. by apply agree_block in Hag.
Qed.

Lemma canonical_sub v size v' size' : canonical_range sz v size ->
  v <= v' -> v' + size' <= v + size -> canonical_range sz v' size'.
Proof. intros [?|?] ? ?; [left|right]; lia. Qed.

Lemma range_free_sub s v size v' size' : range_free s v size ->
  v <= v' -> v' + size' <= v + size -> range_free s v' size'.
Proof. intros Hf ? ? kb va ? ? ? ?. apply Hf; try done; lia. Qed.

(** The progress of one step: at least a page. *)
Lemma block_pages kb rest : let b := 2 ^ vshift kb in
  4096 <= b /\ b mod 4096 = 0 /\ (rest - b) / 4096 < rest / 4096.
Proof.
  intros b. pose proof (pow_vshift_pos kb).
  assert (b mod 4096 = 0) as Hm by (apply (vshift_page kb); apply Z.mod_same; lia).
  apply Z.mod_divide in Hm as Hd; [|lia]. destruct Hd as [c Hc]. subst b.
  split; [lia|]. split; [done|].
  replace (rest - 2 ^ vshift kb) with (rest + (- c) * 4096) by lia. rewrite Z.div_add by lia. lia.
Qed.

Lemma map_loop_spec n fuel : forall s T vaddr size prot vc pc,
  pt_wf owns sz s root T -> canonical_range sz vaddr size -> size < 2 ^ 64 ->
  vaddr <= vc <= vaddr + size -> vc mod 4096 = 0 -> (vaddr + size) mod 4096 = 0 ->
  0 <= pc -> pc mod 4096 = 0 -> pc + (vaddr + size - vc) <= 2 ^ 56 ->
  prot_rejected prot = false -> range_free s vc (vaddr + size - vc) ->
  (vaddr + size - vc) / 4096 < Z.of_nat fuel -> room (ms_heap s) (map_blocks fuel sz vaddr size vc pc * top + n) ->
  exists s' T',
    map_loop memalign fuel sz o vaddr size prot vc pc 0 s = Some (0, s') /\
    pt_wf owns sz s' root T' /\ ms_low s' = ms_low s /\ room (ms_heap s') n /\
    (forall v2 size2, canonical_range sz v2 size2 -> v2 + size2 <= vc \/ vaddr + size <= v2 ->
       range_free s v2 size2 -> range_free s' v2 size2) /\
    (forall va, vc <= va < vaddr + size ->
       translate sz (ms_mem s') root va = Some (pc + (va - vc), Z.land prot 31)) /\
    (forall va, ~ vc <= va < vaddr + size ->
       translate sz (ms_mem s') root va = translate sz (ms_mem s) root va).
Proof.
  induction fuel as [|fuel IH];
    intros s T vaddr size prot vc pc Hwf Hcr Hsize Hvc Hva Hend Hpc Hpa Hpe Hprot Hfree Hfuel Hroom.
  { pose proof (Z.div_pos (vaddr + size - vc) 4096). lia. }
  assert (0 <= vaddr /\ vaddr + size < 2 ^ 64) as Hr.
  { assert (2 ^ (sz - 1) <= 2 ^ 63) by (apply Z.pow_le_mono_r; destruct Hsz as [->|[->| ->]]; lia).
    destruct Hcr; lia. }
  assert (u64 (vaddr + size) = vaddr + size) as Hu by (apply Z.mod_small; lia).
  cbn [map_loop map_blocks] in *. rewrite Hu in *. destruct (Z.ltb_spec vc (vaddr + size)) as [Hlt|Hge].
  2:{ exists s, T. split_and!; try done. intros va Hv. lia. }
  assert (vc + 4096 <= vaddr + size) as Hroom4.
  { apply Z.mod_divide in Hva, Hend; [|lia..]. destruct Hva as [c ->], Hend as [d Hd]. rewrite Hd in *. lia. }
  destruct (pick_map_spec sz vaddr size vc pc Hsz) as (kb & Epick & Hkb & Hvb & Hpb & Hfit); [lia|lia|lia|done|done|].
  rewrite Epick in *. cbn [negb Z.eqb]. pose proof (vshift_pos kb). rewrite Z.shiftl_1_l in * by lia.
  destruct (block_pages kb (vaddr + size - vc)) as (Hb4 & Hbm & Hless). set (b := 2 ^ vshift kb) in *.
  assert (u64 (vc + b) = vc + b) as E64 by (apply Z.mod_small; lia). rewrite E64 in *.
  assert (u64 (pc + b) = pc + b) as Ep64 by (apply Z.mod_small; change (2 ^ 64) with (256 * 2 ^ 56); lia).
  rewrite Ep64 in *.
  destruct (map_block_range s T (map_blocks fuel sz vaddr size (vc + b) (pc + b) * top + n) kb vc pc prot)
    as (s1 & T1 & E1 & Hwf1 & Hlow1 & Hroom1 & Hfr1 & Hin & Hout); try done; [| | |lia|].
  { by rewrite Nat.mul_succ_l, <- Nat.add_assoc, Nat.add_comm, <- Nat.add_assoc, (Nat.add_comm n) in Hroom. }
  { apply (canonical_sub vaddr size); [done|lia..]. }
  { eapply range_free_sub; [done|lia..]. }
  fold b in Hfr1, Hin, Hout. unfold mbind, M_bind. rewrite E1.
  destruct (IH s1 T1 vaddr size prot (vc + b) (pc + b)) as (s2 & T2 & E2 & Hwf2 & Hlow2 & Hroom2 & Hfr2 & Hin2 & Hout2);
    try done; try lia.
  { rewrite Z.add_mod, Hva, Hbm by lia. done. }
  { rewrite Z.add_mod, Hpa, Hbm by lia. done. }
  { apply Hfr1; [apply (canonical_sub vaddr size); [done|lia..]|lia|]. eapply range_free_sub; [done|lia..]. }
  { replace (vaddr + size - (vc + b)) with (vaddr + size - vc - b) by lia. lia. }
  exists s2, T2. split_and!; try done; [congruence| | |].
  - intros v2 size2 Hc2 Hd Hf2. apply Hfr2; [done|lia|]. apply Hfr1; [done|lia|done].
  - intros va Hv. destruct (Z.ltb_spec va (vc + b)) as [Hvb'|Hvb'].
    + rewrite Hout2 by lia. by rewrite Hin by lia.
    + rewrite Hin2 by lia. do 2 f_equal. lia.
  - intros va Hv. rewrite Hout2 by lia. apply Hout. lia.
Qed.
End Range.
