(* ===== verification/MmuProps.v ===== *)
(** The theorems about the page-table manager, with the concrete allocator and
    the boot-time mapping of k_boot.cpp as witnesses. *)
From S2P Require Import Prelude KDefs Mmu MmuSpec MmuTree MmuMap MmuCorrect.

(** ** A concrete allocator: pages handed out upwards in the direct map *)
Module Bump.
Definition heap_start : Z := 0x80300000.
Definition memalign (alignment size : Z) (h : Z) : Z * Z := (K_VADDR_BASE + h, h + 4096).
Definition free (p : Z) (h : Z) : Z := h.
Definition owns (h a : Z) : Prop := K_VADDR_BASE + heap_start <= a < K_VADDR_BASE + h.
Definition room (h : Z) (n : nat) : Prop :=
  heap_start <= h /\ h mod 4096 = 0 /\ h + 4096 * Z.of_nat n <= K_WINDOW.
Definition init : mstate Z := MState ∅ true 0 heap_start.
End Bump.

#[global] Instance bump_spec : MemalignSpec Bump.memalign Bump.owns Bump.room.
Proof.
  split.
  - intros h n p h' (H0 & H1 & H2) [= <- <-]. unfold Bump.owns, Bump.room, Bump.heap_start, K_WINDOW in *.
    change (2 ^ 32) with 4294967296 in *. rewrite kvbase_val. split_and!; try lia.
    + replace (0xFFFFFFC000000000 + h) with (h + 0xFFFFFFC000000 * 4096) by lia.
      by rewrite Z.mod_add by lia.
    + replace (h + 4096) with (h + 1 * 4096) by lia. by rewrite Z.mod_add by lia.
  - intros h n (H0 & H1 & H2). split_and!; [done|done|lia].
Qed.

(** ** Construction *)

Section New.
  Context {heap : Type} {memalign : Z -> Z -> heap -> Z * heap}.
  Context {owns : heap -> Z -> Prop} {room : heap -> nat -> Prop}.
  Context `{Halloc : !MemalignSpec memalign owns room}.

Lemma new_root_wf sz (s : mstate heap) p h' : valid_sz sz ->
  p mod 4096 = 0 -> 0 < p -> p + 4096 <= K_WINDOW ->
  (forall a, p <= a < p + 4096 -> owns h' (K_VADDR_BASE + a)) ->
  let s' := MState (zero_words 512 p (ms_mem s)) (ms_low s) (ms_satp s) h' in
  pt_wf owns sz s' p {[p := max_level sz]} /\
  (forall va, walk (ms_mem s') (max_level sz) p va = Some (max_level sz, p + 8 * vpn (max_level sz) va, 0)).
Proof.
  intros Hsz Hal H0 H1 Hown s'. split.
  - split.
    + apply lookup_singleton_eq.
    + intros t k [<- <-]%lookup_singleton_Some. split_and!; lia || done.
    + intros t k i [<- <-]%lookup_singleton_Some Hi. exists 0. split; [by apply zero_words_in|done].
    + intros t k i w [<- <-]%lookup_singleton_Some Hi Hw. left.
      cbn [s' ms_mem] in Hw. rewrite zero_words_in in Hw by done. by simplify_eq.
    + intros t1 k1 i1 w1 t2 k2 i2 w2 [<- <-]%lookup_singleton_Some Hi Hw _ _ _ Hp.
      cbn [s' ms_mem] in Hw. rewrite zero_words_in in Hw by done. by simplify_eq.
    + intros t k a [<- <-]%lookup_singleton_Some. auto.
  - intros va. apply walk_zero. cbn [s' ms_mem]. apply zero_words_in, vpn_range.
Qed.

Lemma new_spec sz (s : mstate heap) n junk asid variant :
  valid_sz sz -> room (ms_heap s) (S n) -> is_uw 64 junk ->
  exists o s' root,
    RV64MMU_new memalign sz junk asid variant s = Some (o, s') /\
    mmu_ptes o = K_VADDR_BASE + root /\
    pt_wf owns sz s' root {[root := max_level sz]} /\
    (forall va, translate sz (ms_mem s') root va = None) /\
    (forall vaddr size, range_free (sz := sz) root s' vaddr size) /\
    mmu_variant o = variant /\ getf (mmu_satp o) 0 44 = root / 4096 /\
    getf (mmu_satp o) 44 16 = u16 asid /\ getf (mmu_satp o) 60 4 = mmutype sz /\
    ms_low s' = ms_low s /\ room (ms_heap s') n.
Proof.
  intros Hsz Hroom Hj. unfold RV64MMU_new, mbind, M_bind, mret, M_ret, alignedMalloc.
  change (512 * 8) with 4096. destruct (memalign 4096 4096 (ms_heap s)) as [q h'] eqn:Eq.
  destruct (memalign_page _ _ _ _ Hroom Eq) as (Hqal & Hq0 & Hq1 & Hfr & _ & Hroom').
  assert (exists p, q = K_VADDR_BASE + p) as [p ->] by (exists (q - K_VADDR_BASE); lia).
  assert (Hpal : p mod 4096 = 0).
  { rewrite kvbase_val in Hqal.
    replace (0xFFFFFFC000000000 + p) with (p + 0xFFFFFFC000000 * 4096) in Hqal by lia.
    by rewrite Z.mod_add in Hqal by lia. }
  rewrite memset0_direct by (cbn; lia). rewrite mask_direct by lia.
  replace (K_VADDR_BASE + p - K_VADDR_BASE) with p by lia.
  destruct (new_root_wf sz s p h' Hsz Hpal) as [Hwf Hw]; [lia|lia|intros a Ha; apply Hfr; lia|].
  do 2 eexists. exists p. split; [reflexivity|]. cbn [mmu_ptes mmu_variant mmu_satp].
  split_and!; try done.
  - intros va. unfold translate. destruct (canonical sz va); [|done].
    cbn [upd_mem ms_mem] in *. by rewrite Hw, decode_empty.
  - intros vaddr size kb va Hkb _ _ _. do 3 eexists. split; [apply Hw|]. done.
  - unfold setPPN. change 4095 with (Z.ones 12). rewrite Z.land_ones by lia.
    change (2 ^ 12) with 4096. rewrite Hpal. cbn [negb Z.eqb snd].
    unfold satp_set_ppn, addr2page4K. fields. rewrite Z.shiftr_div_pow2 by lia.
    apply Z.mod_small. change (2 ^ 12) with 4096. unfold K_WINDOW in *.
    change (2 ^ 32) with 4294967296 in *. split; [apply Z.div_pos; lia|].
    apply Z.div_lt_upper_bound; lia.
  - unfold setPPN. destruct (negb _); cbn [snd]; unfold satp_set_ppn, RV64MMUBase_new, satp_set_mode, satp_set_asid;
      fields; apply Z.mod_small, uw_range; lia.
  - unfold setPPN. destruct (negb _); cbn [snd]; unfold satp_set_ppn, RV64MMUBase_new, satp_set_mode, satp_set_asid;
      fields; destruct Hsz as [->|[->| ->]]; done.
Qed.
(** Constructing an [RV64MMU], directly or by [fork] of an object of the same
    variant, succeeds when the
    allocator has a page left, yields a well-formed page table that translates
    nothing and on which every range is free, and prepares the satp value with
    the root page number, the paging mode and the ASID. *)
Theorem RV64MMU_new_correct sz (s : mstate heap) n junk asid o0 :
  valid_sz sz -> room (ms_heap s) (S n) -> is_uw 64 junk ->
  exists o s' root,
    RV64MMU_new memalign sz junk asid (mmu_variant o0) s = Some (o, s') /\
    fork memalign sz junk asid o0 s = Some (o, s') /\
    mmu_ptes o = K_VADDR_BASE + root /\
    pt_wf owns sz s' root {[root := max_level sz]} /\
    (forall va, translate sz (ms_mem s') root va = None) /\
    (forall vaddr size, range_free (sz := sz) root s' vaddr size) /\
    mmu_variant o = mmu_variant o0 /\ getf (mmu_satp o) 0 44 = root / 4096 /\
    getf (mmu_satp o) 44 16 = u16 asid /\ getf (mmu_satp o) 60 4 = mmutype sz /\
    ms_low s' = ms_low s /\ room (ms_heap s') n.
Proof.
  intros Hsz Hroom Hj.
  destruct (new_spec sz s n junk asid (mmu_variant o0) Hsz Hroom Hj) as (o & s' & root & E & H).
  exists o, s', root. split; [exact E|]. split; [exact E|exact H].
Qed.
End New.

Lemma RV64MMU_new_witness :
  exists o s' root,
    RV64MMU_new Bump.memalign 39 0 (-1) 0 Bump.init = Some (o, s') /\
    translate 39 (ms_mem s') root K_VADDR_BASE = None.
Proof.
  destruct (RV64MMU_new_correct (memalign := Bump.memalign) (owns := Bump.owns) (room := Bump.room)
              39 Bump.init 100 0 (-1) (RV64MMU 0 0 0)) as (o & s' & root & E & _ & _ & _ & H & _).
  - by left.
  - vm_compute. split; [discriminate|]. split; [reflexivity|discriminate].
  - vm_compute. split; [discriminate|reflexivity].
  - exists o, s', root. split; [exact E|apply H].
Defined.

(** ** Mapping *)

Section MapProps.
  Context {heap : Type} {memalign : Z -> Z -> heap -> Z * heap}.
  Context {owns : heap -> Z -> Prop} {room : heap -> nat -> Prop}.
  Context `{Halloc : !MemalignSpec memalign owns room}.

Lemma aligned12 x : (Z.land x 0xFFF =? 0) = (x mod 4096 =? 0).
Proof. change 0xFFF with (Z.ones 12). by rewrite Z.land_ones by lia. Qed.

(** [map] on a free range, with room for [n] more tables left afterwards. *)
Lemma map_spec sz o root (s : mstate heap) T n vaddr paddr size prot :
  valid_sz sz -> mmu_ptes o = K_VADDR_BASE + root -> pt_wf owns sz s root T ->
  vaddr mod 4096 = 0 -> paddr mod 4096 = 0 -> size mod 4096 = 0 -> 0 < size < 2 ^ 64 ->
  canonical_range sz vaddr size -> 0 <= paddr -> paddr + size <= 2 ^ 56 ->
  prot_rejected prot = false -> range_free (sz := sz) root s vaddr size ->
  room (ms_heap s) (map_blocks (map_fuel size) sz vaddr size vaddr paddr * max_level sz + n) ->
  exists s' T',
    map memalign sz o vaddr paddr size prot s = Some (0, s') /\
    pt_wf owns sz s' root T' /\ ms_low s' = ms_low s /\ room (ms_heap s') n /\
    (forall v2 size2, canonical_range sz v2 size2 -> v2 + size2 <= vaddr \/ vaddr + size <= v2 ->
       range_free (sz := sz) root s v2 size2 -> range_free (sz := sz) root s' v2 size2) /\
    (forall va, vaddr <= va < vaddr + size ->
       translate sz (ms_mem s') root va = Some (paddr + (va - vaddr), Z.land prot 31)) /\
    (forall va, ~ vaddr <= va < vaddr + size ->
       translate sz (ms_mem s') root va = translate sz (ms_mem s) root va).
Proof.
  intros Hsz Hroot Hwf Hva Hpa Hsa Hs Hcr Hp0 Hp1 Hprot Hfree Hroom.
  assert (0 <= vaddr /\ vaddr + size < 2 ^ 64) as Hr.
  { assert (2 ^ (sz - 1) <= 2 ^ 63) by (apply Z.pow_le_mono_r; destruct Hsz as [->|[->| ->]]; lia).
    destruct Hcr; lia. }
  unfold map. rewrite !aligned12, Hva, Hpa, Hsa. cbn [negb Z.eqb orb].
  destruct (Z.eqb_spec size 0); [lia|].
  rewrite !(uw_small 64) by (unfold is_uw; lia).
  destruct (Z.ltb_spec (vaddr + size) vaddr); [lia|].
  destruct (Z.ltb_spec (paddr + size) paddr); [lia|]. cbn [orb]. rewrite Hprot.
  apply (map_loop_spec Hsz o root Hroot n (map_fuel size) s T vaddr size prot vaddr paddr); try done; try lia.
  - rewrite Z.add_mod, Hva, Hsa by lia. done.
  - by replace (vaddr + size - vaddr) with size by lia.
  - unfold map_fuel. rewrite Nat2Z.inj_succ, Z2Nat.id by (apply Z.div_pos; lia).
    replace (vaddr + size - vaddr) with size by lia. lia.
Qed.

(** C1: [map] refines address translation. On a well-formed page table, for a
    page-aligned, non-empty, canonical range whose slots are free, a legal
    protection and enough memory for tables, [map] returns 0 and afterwards the
    hardware translates every address of the range to the corresponding
    physical address with exactly the requested R/W/X/U/G rights, while the
    translation of every other address is what it was; the table stays
    well-formed. *)
Theorem map_correct sz o root (s : mstate heap) T vaddr paddr size prot :
  valid_sz sz -> mmu_ptes o = K_VADDR_BASE + root -> pt_wf owns sz s root T ->
  vaddr mod 4096 = 0 -> paddr mod 4096 = 0 -> size mod 4096 = 0 -> 0 < size < 2 ^ 64 ->
  canonical_range sz vaddr size -> 0 <= paddr -> paddr + size <= 2 ^ 56 ->
  prot_rejected prot = false -> range_free (sz := sz) root s vaddr size ->
  room (ms_heap s) (map_blocks (map_fuel size) sz vaddr size vaddr paddr * max_level sz) ->
  exists s' T',
    map memalign sz o vaddr paddr size prot s = Some (0, s') /\
    pt_wf owns sz s' root T' /\ ms_low s' = ms_low s /\
    (forall va, vaddr <= va < vaddr + size ->
       translate sz (ms_mem s') root va = Some (paddr + (va - vaddr), Z.land prot 31)) /\
    (forall va, ~ vaddr <= va < vaddr + size ->
       translate sz (ms_mem s') root va = translate sz (ms_mem s) root va).
Proof.
  intros Hsz Hroot Hwf Hva Hpa Hsa Hs Hcr Hp0 Hp1 Hprot Hfree Hroom.
  destruct (map_spec sz o root s T 0 vaddr paddr size prot) as (s' & T' & E & Hwf' & Hlow & _ & _ & Hin & Hout);
    try done; [by rewrite Nat.add_0_r|]. by exists s', T'.
Qed.

(** C40: The requests [map] turns down are rejected before anything is touched:
    K_EINVAL for a misaligned address or size, 0 for an empty range,
    K_EINVALID_ADDR when either range wraps around (or ends at) 2^64, and
    K_ENOSPC for a protection that is empty or writable without being readable. *)
Theorem map_rejects sz o (s : mstate heap) vaddr paddr size prot :
  is_uw 64 vaddr -> is_uw 64 paddr -> is_uw 64 size ->
  (vaddr mod 4096 <> 0 \/ paddr mod 4096 <> 0 \/ size mod 4096 <> 0 ->
     map memalign sz o vaddr paddr size prot s = Some (K_EINVAL, s)) /\
  (vaddr mod 4096 = 0 -> paddr mod 4096 = 0 -> size mod 4096 = 0 ->
     (size = 0 -> map memalign sz o vaddr paddr size prot s = Some (0, s)) /\
     (size <> 0 -> 2 ^ 64 <= vaddr + size \/ 2 ^ 64 <= paddr + size ->
        map memalign sz o vaddr paddr size prot s = Some (K_EINVALID_ADDR, s)) /\
     (size <> 0 -> vaddr + size < 2 ^ 64 -> paddr + size < 2 ^ 64 ->
        (Z.testbit prot 0 = false -> Z.testbit prot 1 = true \/ Z.testbit prot 2 = false ->
         map memalign sz o vaddr paddr size prot s = Some (K_ENOSPC, s)))).
Proof.
  intros Hv Hp Hs. unfold is_uw in *. unfold map. rewrite !aligned12. split.
  - intros H. destruct (Z.eqb_spec (vaddr mod 4096) 0); [|done].
    destruct (Z.eqb_spec (paddr mod 4096) 0); [|done].
    destruct (Z.eqb_spec (size mod 4096) 0); [|done]. tauto.
  - intros -> -> ->. cbn [negb Z.eqb orb].
    assert (W : forall a, 0 <= a < 2 ^ 64 -> 2 ^ 64 <= a + size -> size <> 0 -> (u64 (a + size) <? a) = true).
    { intros a Ha Hw Hn. apply Z.ltb_lt. unfold uw.
      rewrite <- (Z.mod_add _ (-1)) by lia. rewrite Z.mod_small by lia. lia. }
    split_and!.
    + intros ->. done.
    + intros Hn Hw. destruct (Z.eqb_spec size 0); [done|].
      destruct Hw as [Hw|Hw]; [rewrite (W vaddr) by lia; done|].
      rewrite (W paddr) by lia. by rewrite orb_true_r.
    + intros Hn Hw1 Hw2 Hr Hwx. destruct (Z.eqb_spec size 0); [done|].
      rewrite !(uw_small 64) by (unfold is_uw; lia).
      destruct (Z.ltb_spec (vaddr + size) vaddr); [lia|].
      destruct (Z.ltb_spec (paddr + size) paddr); [lia|]. cbn [orb].
      destruct (prot_rejected prot) eqn:E; [done|].
      destruct (prot_ok _ E) as [?|[? ?]]; destruct Hwx; congruence.
Qed.

(** A block whose slot is already taken, by a page of that size or by a
    table of smaller pages, is refused with K_EALREADY and leaves memory as it was. *)
Theorem map_block_taken sz o root (s : mstate heap) T n kb k a w va0 pa prot :
  valid_sz sz -> mmu_ptes o = K_VADDR_BASE + root -> pt_wf owns sz s root T ->
  (kb <= max_level sz)%nat -> room (ms_heap s) (max_level sz - kb + n) ->
  walk (ms_mem s) (max_level sz) root va0 = Some (k, a, w) ->
  (k < kb)%nat \/ (k = kb /\ pte_v w = 1) ->
  map_block memalign sz o (vshift kb) va0 pa prot s = Some (K_EALREADY, s).
Proof.
  intros Hsz Hroot Hwf Hkb Hroom Hwalk Hk.
  destruct (createPTE_spec Hsz o root Hroot va0 (max_level sz - kb) s T n k a w Hwf ltac:(lia) Hroom Hwalk)
    as (s1 & T1 & t & E1 & _ & _ & _ & _ & Hcase); [right; lia|].
  replace (max_level sz - (max_level sz - kb))%nat with kb in * by lia.
  destruct (decide (k <= kb)%nat); [|lia]. destruct Hcase as [-> Hd].
  destruct (desc_T Hwf _ _ _ Hd) as [_ Ht]. replace (max_level sz - (max_level sz - kb))%nat with kb in Ht by lia.
  pose proof (slot_bounds root s T t kb _ Hwf Ht (vpn_range kb va0)) as Hb.
  destruct (slot_word Hwf t kb va0 Ht) as (w1 & Hw1 & _).
  assert (pte_v w1 = 1) as Hv1.
  { destruct (walk_slot root s T va0 k a w Hwf Hwalk) as (t' & _ & -> & Hm & Hd' & Hkt).
    destruct Hk as [Hk|[-> Hv]].
    - destruct (desc_prefix (sz := sz) root s va0 (max_level sz - k) (S (max_level sz - kb)) t') as [t2 Hd2]; [lia|done|].
      cbn [desc] in Hd2. rewrite Hd in Hd2.
      replace (max_level sz - (max_level sz - kb))%nat with kb in Hd2 by lia. rewrite Hw1 in Hd2.
      destruct (is_ptr w1) eqn:Ep; [|done]. by apply is_ptr_pte in Ep as [? _].
    - rewrite Hd in Hd'. simplify_eq. congruence. }
  unfold map_block. rewrite calcLevel_ok by done.
  destruct (Z.ltb_spec (Z.of_nat (max_level sz - kb)) 0); [lia|]. rewrite Nat2Z.id.
  unfold mbind, M_bind. rewrite E1, (load64_direct _ _ w1) by done. by rewrite Hv1.
Qed.
End MapProps.

(** The table k_boot_sysdev builds: an Sv39 object and its first two mappings. *)
Definition boot_mmu : option (rv64mmu * mstate Z) :=
  RV64MMU_new Bump.memalign 39 0 (-1) 0 Bump.init.

Definition boot_prot_io : Z :=
  Z.lor (Z.lor (Z.lor (Z.lor PROT_R PROT_W) PROT_X) PROT_G) PROT_IO.
Definition boot_prot : Z := Z.lor (Z.lor (Z.lor PROT_R PROT_W) PROT_X) PROT_G.

(** The lower 2 GiB are mapped at [K_VADDR_BASE], as k_boot_sysdev asks. *)
Lemma map_correct_witness :
  exists o s s' root,
    boot_mmu = Some (o, s) /\
    map Bump.memalign 39 o 0xFFFFFFC000000000 0 (2 * 1024 * 1048576) boot_prot_io s = Some (0, s') /\
    translate 39 (ms_mem s') root 0xFFFFFFC000123456 = Some (0x123456, 23).
Proof.
  destruct (new_spec (memalign := Bump.memalign) (owns := Bump.owns) (room := Bump.room)
              39 Bump.init 4 0 (-1) 0) as (o & s & root & E & Hr & Hwf & _ & Hf & _ & _ & _ & _ & Hlow & Hroom).
  - by left.
  - split; [vm_compute; discriminate|]. split; [vm_compute; reflexivity|].
    unfold K_WINDOW, Bump.init, Bump.heap_start, ms_heap. lia.
  - vm_compute. split; [discriminate|reflexivity].
  - destruct (map_correct (memalign := Bump.memalign) (owns := Bump.owns) (room := Bump.room)
                39 o root s {[root := max_level 39]} 0xFFFFFFC000000000 0 (2 * 1024 * 1048576) boot_prot_io)
      as (s' & T' & E' & _ & _ & Ht & _); [by left|done|done|done|done|done|lia|right; lia|lia|lia|done|apply Hf| |].
    + exact Hroom.
    + exists o, s, s', root. split; [exact E|]. split; [exact E'|].
      rewrite Ht by lia. reflexivity.
Defined.

Lemma map_rejects_witness :
  map Bump.memalign 39 (RV64MMU 0 0 0) 1 0 4096 7 Bump.init = Some (K_EINVAL, Bump.init).
Proof.
  apply (map_rejects 39 (RV64MMU 0 0 0) Bump.init 1 0 4096 7).
  - unfold is_uw. lia.
  - unfold is_uw. lia.
  - unfold is_uw. lia.
  - left. discriminate.
Defined.

(** ** Unmapping *)

Section UnmapProps.
  Context {heap : Type} {owns : heap -> Z -> Prop}.

Lemma getPTE_low sz o root (s : mstate heap) T l va t :
  valid_sz sz -> mmu_ptes o = K_VADDR_BASE + root -> pt_wf owns sz s root T -> ms_low s = true ->
  (l <= max_level sz)%nat -> desc (sz := sz) (s := s) (root := root) va l = Some t ->
  exists p, getPTE sz o l va s = Some (p, s) /\ resolve true p = Some (t + 8 * vpn (max_level sz - l) va).
Proof.
  intros Hsz Hroot Hwf Hlow. revert t. induction l as [|l IH]; intros t Hl Hd.
  - destruct (desc_T Hwf _ _ _ Hd) as [_ Ht]. pose proof (slot_bounds root s T t _ _ Hwf Ht (vpn_range (max_level sz - 0) va)).
    cbn [desc] in Hd. simplify_eq. cbn [getPTE]. rewrite getVPN_vpn by (done || lia).
    rewrite Hroot, <- Z.add_assoc, u64_direct by lia. eexists. split; [done|]. by rewrite resolve_direct.
  - destruct (desc_prefix (sz := sz) root s va (S l) l t) as [t1 Hd1]; [lia|done|].
    destruct (IH t1) as (p & E & Hp); [lia|done|]. cbn [getPTE]. unfold mbind, M_bind. rewrite E.
    destruct (desc_T Hwf _ _ _ Hd1) as [_ Ht1]. destruct (slot_word Hwf t1 _ va Ht1) as (w & Hw & _).
    destruct (follow_ptr root s T va l t1 w t Hwf Hd1 Hw Hd) as (Epa & _ & H0 & H1).
    unfold load64. rewrite Hlow, Hp, Hw, Epa, getVPN_vpn by (done || lia).
    pose proof (vpn_range (max_level sz - S l) va). eexists. split; [done|].
    unfold K_WINDOW in *. change (2 ^ 32) with 4294967296 in *.
    rewrite uw_small by (unfold is_uw; lia). unfold resolve, K_WINDOW. rewrite kvbase_val.
    change (2 ^ 32) with 4294967296.
    destruct (Z.leb_spec 0xFFFFFFC000000000 (t + 8 * vpn (max_level sz - S l) va)); [lia|].
    cbn [andb]. destruct (Z.leb_spec 0 (t + 8 * vpn (max_level sz - S l) va)); [|lia].
    destruct (Z.ltb_spec (t + 8 * vpn (max_level sz - S l) va) 4294967296); [done|lia].
Qed.

Lemma cleared_pte w : is_uw 64 w -> is_uw 64 (pte_fit (pte_ppn 0 (set_v 0 w))) /\
  is_empty (pte_fit (pte_ppn 0 (set_v 0 w))).
Proof.
  intros Hw. split.
  - unfold pte_fit, set_reserved. apply setf_range; try lia. apply pte_ppn_range.
    unfold set_v. by apply setf_range.
  - unfold is_empty, pte_v, pte_fit, set_reserved. fields. rewrite getf_ppn, getf_ppn_other by lia.
    unfold set_v. fields. done.
Qed.

Lemma unmap_leaf sz o root (s : mstate heap) T kb va0 a w :
  valid_sz sz -> mmu_ptes o = K_VADDR_BASE + root -> pt_wf owns sz s root T -> ms_low s = true ->
  walk (ms_mem s) (max_level sz) root va0 = Some (kb, a, w) -> pte_v w = 1 ->
  exists s', unmap_block sz o (vshift kb) va0 s = Some (0, s') /\ pt_wf owns sz s' root T /\
    (forall va, agree kb (max_level sz) va va0 -> translate sz (ms_mem s') root va = None) /\
    (forall va, ~ agree kb (max_level sz) va va0 ->
       translate sz (ms_mem s') root va = translate sz (ms_mem s) root va).
Proof.
  intros Hsz Hroot Hwf Hlow Hwalk Hv.
  destruct (walk_slot root s T va0 kb a w Hwf Hwalk) as (t & Ht & -> & Hm & Hd & Hk).
  destruct (getPTE_low sz o root s T (max_level sz - kb)%nat va0 t Hsz Hroot Hwf Hlow ltac:(lia) Hd) as (p & E & Hp).
  replace (max_level sz - (max_level sz - kb))%nat with kb in Hp by lia.
  destruct (slot_word Hwf t kb va0 Ht) as (w' & Hm' & Hu). assert (w' = w) as -> by congruence.
  destruct (cleared_pte w Hu) as [Hcu Hce].
  eexists. split; [|split; [by apply (overwrite_wf Hwf va0 _ w _ kb Hwalk Hcu); left|]].
  - unfold unmap_block. rewrite calcLevel_ok by done.
    destruct (Z.ltb_spec (Z.of_nat (max_level sz - kb)) 0); [lia|]. rewrite Nat2Z.id.
    unfold mbind, M_bind, load64, store64. rewrite E, Hlow, Hp, Hm, Hv. cbn [Z.eqb].
    rewrite Hlow, Hp. reflexivity.
  - assert (Hw : forall va, exists k' a' w1, walk (ms_mem s) (max_level sz) root va = Some (k', a', w1) /\
      walk (ms_mem (upd_mem <[t + 8 * vpn kb va0 := pte_fit (pte_ppn 0 (set_v 0 w))]> s)) (max_level sz) root va
      = if decide (agree kb (max_level sz) va va0)
        then Some (kb, t + 8 * vpn kb va0, pte_fit (pte_ppn 0 (set_v 0 w))) else Some (k', a', w1)).
    { intros va. destruct (walk_total Hwf _ _ va (wf_root _ _ _ _ _ Hwf)) as (k' & a' & w1 & _ & H & _).
      exists k', a', w1. split; [done|]. by apply (overwrite_walk Hwf va0 _ w _ kb Hwalk ltac:(by left)). }
    split; intros va Hag; destruct (Hw va) as (k' & a' & w1 & H1 & H2); unfold translate.
    + rewrite H2, decide_True by done. destruct (canonical sz va); [|done]. by apply decode_empty, Hce.
    + by rewrite H1, H2, decide_False by done.
Qed.


(** Once the kernel's own table is enabled and the identity map is gone,
    [unmap] of a page faults: [_getPTE] follows table pointers by physical
    address, without the direct-map offset [_createPTE] adds. *)
Theorem unmap_page_faults sz o (s : mstate heap) vaddr :
  valid_sz sz -> ms_low s = false -> 0 <= vaddr -> vaddr + 4096 < 2 ^ 64 -> vaddr mod 4096 = 0 ->
  unmap sz o vaddr 4096 s = None.
Proof.
  intros Hsz Hlow Hv0 Hv1 Hal.
  assert (G : forall l va, getPTE sz o (S l) va s = None \/
    exists p, getPTE sz o (S l) va s = Some (p, s) /\ resolve false p = None).
  { intros l va. cut (forall l, getPTE sz o l va s = None \/ exists p, getPTE sz o l va s = Some (p, s)).
    - intros Hl. cbn [getPTE]. unfold mbind, M_bind. destruct (Hl l) as [->|[p ->]]; [by left|].
      unfold load64. destruct (resolve _ p) as [pa|]; [|by left]. destruct (ms_mem s !! pa) as [w|]; [|by left].
      right. eexists. split; [done|].
      assert (0 <= pte_paddr w < 2 ^ 38).
      { apply is_uw_of_bits; [lia|]. intros i Hi. rewrite testbit_paddr by lia. zcase; try lia; by rewrite ?andb_false_r. }
      assert (0 <= getVPN sz (S l) va < 512).
      { destruct (decide (S l <= max_level sz)%nat).
        - rewrite getVPN_vpn by done. apply vpn_range.
        - pose proof (max_level_cases sz Hsz) as Hm. unfold getVPN.
          do 5 (destruct l as [|l]; [destruct Hm as [[-> ?]|[[-> ?]|[-> ?]]]; cbn; try lia; apply getf_range; lia|]).
          lia. }
      rewrite uw_small by (unfold is_uw; change (2 ^ 38) with 274877906944 in *; lia).
      unfold resolve. rewrite kvbase_val. change (2 ^ 38) with 274877906944 in *.
      by destruct (Z.leb_spec 0xFFFFFFC000000000 (pte_paddr w + 8 * getVPN sz (S l) va)); [lia|].
    - clear l. induction l as [|l IH]; cbn [getPTE]; [right; by eexists|]. unfold mbind, M_bind.
      destruct IH as [->|[p ->]]; [by left|]. unfold load64.
      destruct (resolve _ p) as [pa|]; [|by left]. destruct (ms_mem s !! pa) as [w|]; [|by left]. right. by eexists. }
  unfold unmap. rewrite !aligned12, Hal. cbn [negb Z.eqb orb Z.modulo].
  change (4096 mod 4096) with 0. cbn [negb Z.eqb orb].
  rewrite uw_small by (unfold is_uw; lia).
  destruct (Z.ltb_spec (vaddr + 4096) vaddr); [lia|]. change (map_fuel 4096) with 2%nat.
  cbn [unmap_loop]. rewrite uw_small by (unfold is_uw; lia).
  destruct (Z.ltb_spec vaddr (vaddr + 4096)); [|lia]. cbn [negb Z.eqb].
  assert (pick_unmap sz vaddr 4096 vaddr = Some (vshift 0)) as ->.
  { unfold pick_unmap, fits. rewrite Z.sub_diag, Z.sub_0_r. change (u64 4096) with 4096.
    cbn [Z.shiftl Z.leb Z.compare Pos.iter]. rewrite !andb_false_r.
    change (Z.ones 12) with 0xFFF. rewrite aligned12, Hal. done. }
  unfold mbind, M_bind, unmap_block. rewrite calcLevel_ok by (done || lia).
  destruct (Z.ltb_spec (Z.of_nat (max_level sz - 0)) 0); [lia|]. rewrite Nat2Z.id.
  destruct (max_level sz - 0)%nat as [|l] eqn:El; [pose proof (max_level_cases sz Hsz); lia|].
  unfold mbind, M_bind. destruct (G l vaddr) as [->|(p & -> & Hp)]; [done|].
  unfold load64. by rewrite Hlow, Hp.
Qed.
End UnmapProps.

(** ** Concrete runs *)

(** The freshly made table of [boot_mmu], ready for the witnesses below. *)
Lemma boot_ready : exists o s root,
  boot_mmu = Some (o, s) /\ mmu_ptes o = K_VADDR_BASE + root /\
  pt_wf Bump.owns 39 s root {[root := max_level 39]} /\ Bump.room (ms_heap s) 4 /\
  ms_low s = true /\ slot_free (sz := 39) root s 0 0x1000.
Proof.
  destruct (new_spec (memalign := Bump.memalign) (owns := Bump.owns) (room := Bump.room)
              39 Bump.init 4 0 (-1) 0) as (o & s & root & E & Hr & Hwf & _ & Hf & _ & _ & _ & _ & Hlow & Hroom).
  - by left.
  - split; [vm_compute; discriminate|]. split; [vm_compute; reflexivity|].
    unfold K_WINDOW, Bump.init, Bump.heap_start, ms_heap. lia.
  - vm_compute. split; [discriminate|reflexivity].
  - exists o, s, root. split; [exact E|]. split; [exact Hr|]. split; [exact Hwf|].
    split; [exact Hroom|]. split; [exact Hlow|]. apply (Hf 0x1000 4096 0%nat 0x1000); [lia|reflexivity|lia|reflexivity].
Qed.


Lemma map_block_taken_witness :
  exists o s s1, boot_mmu = Some (o, s) /\
    map_block Bump.memalign 39 o 12 0x1000 0x5000 boot_prot s = Some (0, s1) /\
    map_block Bump.memalign 39 o 12 0x1000 0x6000 boot_prot s1 = Some (K_EALREADY, s1).
Proof.
  destruct boot_ready as (o & s & root & E & Hr & Hwf & Hroom & Hlow & Hf).
  destruct (map_block_spec (memalign := Bump.memalign) (owns := Bump.owns) (room := Bump.room) (sz := 39)
              ltac:(by left) o root Hr s {[root := max_level 39]} 2 0 0x1000 0x5000 boot_prot)
    as (s1 & T1 & E1 & Hwf1 & Hroom1 & _ & (a1 & w1 & Hw1 & Hv1) & _);
    [done|lia|exact Hroom|exact Hf|done|lia|done|].
  exists o, s, s1. split; [exact E|]. split; [exact E1|].
  apply (map_block_taken (memalign := Bump.memalign) (owns := Bump.owns) (room := Bump.room)
           39 o root s1 T1 0 0 0 a1 w1 0x1000 0x6000 boot_prot); [by left|done|done|lia|exact Hroom1|exact Hw1|].
  right. split; [reflexivity|exact Hv1].
Defined.

Lemma unmap_page_faults_witness :
  unmap 39 (RV64MMU K_VADDR_BASE 0 0) 0x1000 4096 (MState ∅ false 0 tt) = None.
Proof.
  apply (unmap_page_faults 39 (RV64MMU K_VADDR_BASE 0 0) (MState ∅ false 0 tt) 0x1000);
    [by left|done|lia|lia|done].
Defined.

(** The boot sequence followed by one more 4 KiB mapping inside the first
    gigapage: return codes, and one address' translation before and after. *)
Definition gigapage_overlap : option (Z * Z * option (Z * Z) * option (Z * Z)) :=
  match boot_mmu with
  | Some (o, s) =>
      match map Bump.memalign 39 o 0xFFFFFFC000000000 0 (2 * 1024 * 1048576) boot_prot_io s with
      | Some (rc1, s1) =>
          match map Bump.memalign 39 o 0xFFFFFFC000001000 0x1000 4096 boot_prot s1 with
          | Some (rc2, s2) =>
              Some (rc1, rc2, translate 39 (ms_mem s1) Bump.heap_start 0xFFFFFFC000200000,
                    translate 39 (ms_mem s2) Bump.heap_start 0xFFFFFFC000200000)
          | None => None
          end
      | None => None
      end
  | None => None
  end.

(** [_createPTE] tells a free slot from a table only by its page number, so
    mapping a page inside the gigapage at physical address 0 that the boot code
    installs returns success and silently drops the rest of the gigapage. *)
Theorem map_drops_gigapage :
  gigapage_overlap = Some (0, 0, Some (0x200000, 23), None).
Proof. vm_compute. reflexivity. Qed.

(** [map] sets the A bit of a page exactly when it is readable: an entry for
    execution only is a valid leaf with A clear, and a hart that does not set the
    bit itself faults on every fetch through it. *)
Example exec_only_not_accessed :
  let w := leaf_pte 0 PROT_X 0x80000000 0 in
  prot_rejected PROT_X = false /\ pte_v w = 1 /\ pte_x w = 1 /\ pte_a w = 0.
Proof. vm_compute. split_and!; reflexivity. Qed.
