(* ===== verification/Vmm.v ===== *)
(** The virtual-memory manager, src/kernel/inc/k_vmmgr.hpp, against the interface
    of an MMU ([MMUBase]), and the set-up of the kernel's address space in
    [k_boot_sysdev] (src/kernel/main/k_boot.cpp). *)
From S2P Require Import Prelude KDefs Mmu MmuSpec MmuTree MmuMap MmuCorrect MmuProps.

(** ** The manager *)

Inductive pending_t := NONE | MAP | UNMAP.
#[global] Instance pending_eq_dec : EqDecision pending_t.
Proof. solve_decision. Defined.

Record map_t := Map {
  m_vaddr : Z;
  m_paddr : Z;
  m_size : Z;
  m_prot : Z;
  m_pending : pending_t;
}.
Definition set_pending (p : pending_t) (m : map_t) : map_t :=
  Map (m_vaddr m) (m_paddr m) (m_size m) (m_prot m) p.

(** The virtual functions of [MMUBase] the manager calls. *)
Record MMUBase (S : Type) := {
  mb_map : Z -> Z -> Z -> Z -> M S Z;
  mb_unmap : Z -> Z -> M S Z;
}.
Arguments mb_map {S}.
Arguments mb_unmap {S}.

(** [_maps] of one object beside the static [_global_maps]. *)
Record vmm := VMM { vm_global_maps : list map_t; vm_maps : list map_t }.

Definition VMemoryMgr_new (global_maps : list map_t) : vmm := VMM global_maps global_maps.

Definition addMap (vaddr paddr size prot : Z) (v : vmm) : vmm :=
  let m := Map vaddr paddr size prot MAP in
  VMM (if negb (Z.land prot PROT_G =? 0) then vm_global_maps v ++ [m] else vm_global_maps v) (vm_maps v ++ [m]).

(** Marks the first entry with this address and size. *)
Fixpoint mark_unmap (vaddr size : Z) (mm : list map_t) : list map_t :=
  match mm with
  | [] => []
  | m :: mm =>
      if (m_vaddr m =? vaddr) && (m_size m =? size) then set_pending UNMAP m :: mm
      else m :: mark_unmap vaddr size mm
  end.

Definition removeMap (vaddr size prot : Z) (v : vmm) : vmm :=
  if negb (Z.land prot PROT_G =? 0) then VMM (mark_unmap vaddr size (vm_global_maps v)) (vm_maps v)
  else VMM (vm_global_maps v) (mark_unmap vaddr size (vm_maps v)).

Section Confirm.
  Context {S : Type} (mmu : MMUBase S).

(** The loop of [confirm]: the status and the entries as it leaves them. *)
Fixpoint confirm_loop (maps : list map_t) (rc : Z) : M S (Z * list map_t) :=
  match maps with
  | [] => mret (rc, [])
  | m :: maps =>
      let next rc := '(r, l) ← confirm_loop maps rc; mret (r, set_pending NONE m :: l) in
      match m_pending m with
      | MAP =>
          rc ← mb_map mmu (m_vaddr m) (m_paddr m) (m_size m) (m_prot m);
          if rc <? 0 then mret (rc, m :: maps) else next rc
      | UNMAP =>
          rc ← mb_unmap mmu (m_vaddr m) (m_size m);
          if rc <? 0 then mret (rc, m :: maps) else next rc
      | NONE => '(r, l) ← confirm_loop maps rc; mret (r, m :: l)
      end
  end.

Definition confirm (v : vmm) : M S (Z * vmm) :=
  '(rc, l) ← confirm_loop (vm_maps v) 0; mret (rc, VMM (vm_global_maps v) l).
End Confirm.

(** ** The kernel's own address space *)

Section Boot.
  Context {heap : Type}.
  Variable memalign : Z -> Z -> heap -> Z * heap.

(** An [RV64MMU<sz>] as an [MMUBase]. *)
Definition rv64_mmu (sz : Z) (o : rv64mmu) : MMUBase (mstate heap) :=
  {| mb_map := map memalign sz o; mb_unmap := unmap sz o |}.

(** The smallest MMU type of the CPUs, 0xFF when there is none below. *)
Definition smallest_mmu (cpus : list Z) : Z := foldl (fun t x => if x <? t then x else t) 0xFF cpus.

Definition boot_maps (v : vmm) : vmm :=
  addMap (0xFFFFFFC000000000 + 2 * 1024 * 1048576) (2 * 1024 * 1048576) (2 * 1024 * 1048576)
    (Z.lor (Z.lor (Z.lor PROT_R PROT_W) PROT_X) PROT_G)
    (addMap 0xFFFFFFC000000000 0 (2 * 1024 * 1048576)
       (Z.lor (Z.lor (Z.lor (Z.lor PROT_R PROT_W) PROT_X) PROT_G) PROT_IO) v).

(** The "Setup MMU" part of [k_boot_sysdev]: [cpus] are the MMU types of the
    CPUs, [vid] the vendor id the SBI reports, [junk] what the uninitialised
    field of the new object holds. *)
Definition setup_mmu (warl : Z -> Z -> Z) (cpus : list Z) (vid junk : Z)
    : M (mstate heap) (Z * option (rv64mmu * vmm)) :=
  let mmu_type := smallest_mmu cpus in
  if (mmu_type =? 0xFF) || (mmu_type =? 32) then mret (K_EINVAL, None)
  else
    let mmu_variant := if vid =? 0x5B7 then VARIANT_THEAD_C906 else 0 in
    if (mmu_type =? 39) || (mmu_type =? 48) || (mmu_type =? 57) then
      sysmmu ← RV64MMU_new memalign mmu_type junk (-1) mmu_variant;
      let sysvmm := boot_maps (VMemoryMgr_new []) in
      '(rc, sysvmm) ← confirm (rv64_mmu mmu_type sysmmu) sysvmm;
      if rc <? 0 then mret (K_EFAIL, Some (sysmmu, sysvmm))
      else
        ok ← enable warl true sysmmu;
        mret (if negb ok then K_EFAIL else 0, Some (sysmmu, sysvmm))
    else mret (K_ENOTSUPP, None).
End Boot.

(** ** The manager against the contract of an MMU *)

Definition in_map (m : map_t) (va : Z) : bool := (m_vaddr m <=? va) && (va <? m_vaddr m + m_size m).

(** The requests [confirm] has to map. *)
Definition to_map (maps : list map_t) : list map_t := filter (fun m => m_pending m = MAP) maps.

(** What a list of requests makes of a translation. *)
Definition overlay (maps : list map_t) (t : Z -> option (Z * Z)) (va : Z) : option (Z * Z) :=
  match list_find (fun m => in_map m va) maps with
  | Some (_, m) => Some (m_paddr m + (va - m_vaddr m), Z.land (m_prot m) 31)
  | None => t va
  end.

(** The promise of an MMU: when it is [ready] for a list of requests, mapping
    the first one succeeds and changes the translation of its range only, it is
    ready for the others, and none of these overlaps it. *)
Class MMUSpec {S} (mmu : MMUBase S) (ready : S -> list map_t -> Prop) (trans : S -> Z -> option (Z * Z)) : Prop := {
  ms_map s m l : ready s (m :: l) ->
    exists s', mb_map mmu (m_vaddr m) (m_paddr m) (m_size m) (m_prot m) s = Some (0, s') /\ ready s' l /\
      (forall va, trans s' va = overlay [m] (trans s) va);
  ms_disj s m l m' va : ready s (m :: l) -> m' ∈ l -> in_map m va = true -> in_map m' va = false;
}.

Section Client.
  Context {S : Type} {mmu : MMUBase S} {ready : S -> list map_t -> Prop} {trans : S -> Z -> option (Z * Z)}.
  Context `{Hmmu : !MMUSpec mmu ready trans}.

Lemma overlay_nil t va : overlay [] t va = t va.
Proof. done. Qed.

Lemma overlay_cons m l t va :
  overlay (m :: l) t va = if in_map m va then Some (m_paddr m + (va - m_vaddr m), Z.land (m_prot m) 31) else overlay l t va.
Proof.
  unfold overlay. cbn. destruct (in_map m va); cbn; [done|]. by destruct (list_find _ l) as [[]|].
Qed.

Lemma overlay_miss l t va : (forall m, m ∈ l -> in_map m va = false) -> overlay l t va = t va.
Proof.
  induction l as [|m l IH]; intros H; [done|]. rewrite overlay_cons, H by set_solver. apply IH. set_solver.
Qed.

Lemma overlay_ext l t t' va : t va = t' va -> overlay l t va = overlay l t' va.
Proof. unfold overlay. by destruct (list_find _ l) as [[]|]. Qed.

Lemma confirm_loop_spec maps : forall s, Forall (fun m => m_pending m <> UNMAP) maps -> ready s (to_map maps) ->
  exists s', confirm_loop mmu maps 0 s = Some ((0, set_pending NONE <$> maps), s') /\ ready s' [] /\
    forall va, trans s' va = overlay (to_map maps) (trans s) va.
Proof.
  induction maps as [|m maps IH]; intros s Hp Hr.
  { exists s. split; [done|]. split; [exact Hr|]. done. }
  apply Forall_cons in Hp as [Hm Hp]. unfold to_map in Hr |- *. cbn [confirm_loop].
  destruct (m_pending m) eqn:Em; [| |done].
  - rewrite filter_cons_False in Hr |- * by (rewrite Em; done). destruct (IH s Hp Hr) as (s' & E & Hr' & Ht).
    exists s'. unfold mbind, M_bind. rewrite E. split; [|done]. cbn. destruct m. cbn in *. by subst.
  - rewrite filter_cons_True in Hr |- * by done. destruct (ms_map _ _ _ Hr) as (s1 & E1 & Hr1 & Ht1).
    destruct (IH s1 Hp Hr1) as (s' & E & Hr' & Ht). exists s'. unfold mbind, M_bind. rewrite E1. cbn [Z.ltb Z.compare].
    unfold mbind, M_bind. rewrite E. split; [done|]. split; [done|]. intros va. rewrite Ht, overlay_cons.
    specialize (Ht1 va). rewrite overlay_cons, overlay_nil in Ht1. destruct (in_map m va) eqn:Ei.
    + rewrite overlay_miss by (intros m' Hm'; exact (ms_disj _ _ _ _ _ Hr Hm' Ei)). done.
    + by apply overlay_ext.
Qed.
End Client.

(** ** [RV64MMU] keeps the contract *)

Section Rv64.
  Context {heap : Type} {memalign : Z -> Z -> heap -> Z * heap}.
  Context {owns : heap -> Z -> Prop} {room : heap -> nat -> Prop}.
  Context `{Halloc : !MemalignSpec memalign owns room}.
  Context (sz : Z) (Hsz : valid_sz sz) (o : rv64mmu) (root : Z) (Hroot : mmu_ptes o = K_VADDR_BASE + root).

(** A request [map] accepts. *)
Record good_map (m : map_t) : Prop := {
  gm_vaddr : m_vaddr m mod 4096 = 0;
  gm_paddr : m_paddr m mod 4096 = 0;
  gm_size : m_size m mod 4096 = 0;
  gm_pos : 0 < m_size m < 2 ^ 64;
  gm_canon : canonical_range sz (m_vaddr m) (m_size m);
  gm_low : 0 <= m_paddr m;
  gm_high : m_paddr m + m_size m <= 2 ^ 56;
  gm_prot : prot_rejected (m_prot m) = false;
}.

Definition apart (m m' : map_t) : Prop :=
  m_vaddr m' + m_size m' <= m_vaddr m \/ m_vaddr m + m_size m <= m_vaddr m'.

(** The tables a list of requests can need. *)
Definition tables_for (l : list map_t) : nat :=
  sum_list ((fun m => map_blocks (map_fuel (m_size m)) sz (m_vaddr m) (m_size m) (m_vaddr m) (m_paddr m) * max_level sz)%nat <$> l).

Record rv64_ready (s : mstate heap) (l : list map_t) : Prop := {
  rr_wf : exists T, pt_wf owns sz s root T;
  rr_good : Forall good_map l;
  rr_apart : ForallOrdPairs apart l;
  rr_free : Forall (fun m => range_free (sz := sz) root s (m_vaddr m) (m_size m)) l;
  rr_room : room (ms_heap s) (tables_for l);
}.

Definition rv64_trans (s : mstate heap) (va : Z) : option (Z * Z) := translate sz (ms_mem s) root va.

#[global] Instance rv64_spec : MMUSpec (rv64_mmu memalign sz o) rv64_ready rv64_trans.
Proof.
  split.
  - intros s m l [[T Hwf] Hg Ha Hf Hr]. apply Forall_cons in Hg as [[] Hgl]. apply Forall_cons in Hf as [Hfm Hfl].
    inversion Ha as [|? ? Ham Hal]; subst.
    destruct (map_spec sz o root s T (tables_for l) (m_vaddr m) (m_paddr m) (m_size m) (m_prot m))
      as (s' & T' & E & Hwf' & _ & Hr' & Hfr & Hin & Hout); try done.
    exists s'. split; [exact E|]. split.
    + split; [by exists T'|done|done| |done]. rewrite Forall_forall in Hfl |- *. intros m' Hm'.
      rewrite Forall_forall in Hgl, Ham. apply Hfr; [by apply gm_canon, Hgl|by apply Ham|by apply Hfl].
    + intros va. unfold rv64_trans. rewrite overlay_cons, overlay_nil. unfold in_map.
      destruct (Z.leb_spec (m_vaddr m) va), (Z.ltb_spec va (m_vaddr m + m_size m)); cbn;
        [apply Hin; lia|apply Hout; lia..].
  - intros s m l m' va [_ _ Ha _ _] Hm'. inversion Ha as [|? ? Ham _]; subst. rewrite Forall_forall in Ham.
    destruct (Ham _ Hm'); unfold in_map; rewrite andb_true_iff, andb_false_iff, !Z.leb_le, !Z.ltb_lt, !Z.leb_gt, !Z.ltb_ge; lia.
Qed.
End Rv64.

(** C39: [VMemoryMgr::confirm] carries out what was requested. On an MMU that is
    ready for the pending requests, none of them an unmapping, it returns 0 and
    leaves nothing pending; every requested range is then translated as
    requested and every other address as before; a second [confirm] does
    nothing. *)
Theorem vmm_confirm_correct {S} (mmu : MMUBase S) ready trans `{!MMUSpec mmu ready trans} (v : vmm) s :
  Forall (fun m => m_pending m <> UNMAP) (vm_maps v) -> ready s (to_map (vm_maps v)) ->
  exists s', let v' := VMM (vm_global_maps v) (set_pending NONE <$> vm_maps v) in
    confirm mmu v s = Some ((0, v'), s') /\
    (forall va, trans s' va = overlay (to_map (vm_maps v)) (trans s) va) /\
    confirm mmu v' s' = Some ((0, v'), s').
Proof.
  intros Hp Hr. destruct (confirm_loop_spec (vm_maps v) s Hp Hr) as (s' & E & _ & Ht). exists s'. cbn zeta.
  split_and!; [|exact Ht|].
  - unfold confirm, mbind, M_bind. by rewrite E.
  - unfold confirm, mbind, M_bind. cbn [vm_maps].
    assert (forall l, confirm_loop mmu (set_pending NONE <$> l) 0 s' = Some ((0, set_pending NONE <$> l), s')) as ->; [|done].
    induction l as [|m l IH]; [done|]. cbn. unfold mbind, M_bind. by rewrite IH.
Qed.

(** A global mapping cannot be removed: [removeMap] with PROT_G marks the
    entry in the list copied by future managers, while [confirm] goes through
    the manager's own list; after [addMap], [confirm], [removeMap], [confirm],
    all of them successful, the range is still translated. *)
Theorem removeMap_global_ineffective {S} (mmu : MMUBase S) ready trans `{!MMUSpec mmu ready trans} s vaddr paddr size prot :
  Z.land prot PROT_G <> 0 -> ready s [Map vaddr paddr size prot MAP] ->
  exists s' v', confirm mmu (addMap vaddr paddr size prot (VMemoryMgr_new [])) s = Some ((0, v'), s') /\
    (fun r => (r.1.1, r.2)) <$> confirm mmu (removeMap vaddr size prot v') s' = Some (0, s') /\
    forall va, vaddr <= va < vaddr + size -> trans s' va = Some (paddr + (va - vaddr), Z.land prot 31).
Proof.
  intros Hp Hr. unfold confirm, mbind, M_bind. cbn [vm_maps addMap VMemoryMgr_new app].
  destruct (confirm_loop_spec [Map vaddr paddr size prot MAP] s) as (s' & E & _ & Ht); [by repeat constructor|exact Hr|].
  rewrite E. eexists s', _. split; [reflexivity|]. unfold removeMap. destruct (Z.eqb_spec (Z.land prot PROT_G) 0); [done|].
  cbn [negb vm_maps vm_global_maps]. split; [reflexivity|]. intros va Hva. rewrite Ht.
  change (to_map _) with [Map vaddr paddr size prot MAP]. rewrite overlay_cons. unfold in_map. cbn. destruct (Z.leb_spec vaddr va), (Z.ltb_spec va (vaddr + size)); cbn; done || lia.
Qed.

(** ** The boot-time address space *)

Lemma boot_blocks sz : valid_sz sz ->
  (tables_for sz (to_map (vm_maps (boot_maps (VMemoryMgr_new [])))) <= 16)%nat.
Proof. intros [->|[->| ->]]; apply Nat.leb_le; by vm_compute. Qed.

Lemma boot_good sz : valid_sz sz -> Forall (good_map sz) (to_map (vm_maps (boot_maps (VMemoryMgr_new [])))).
Proof.
  intros Hsz. assert (2 ^ 38 <= 2 ^ (sz - 1)) by (apply Z.pow_le_mono_r; destruct Hsz as [->|[->| ->]]; lia).
  repeat constructor; cbn [m_vaddr m_paddr m_size m_prot]; try lia; try done; right; lia.
Qed.

Lemma room_le {heap} {memalign : Z -> Z -> heap -> Z * heap} {owns room} `{!MemalignSpec memalign owns room} h n k :
  room h (k + n)%nat -> room h n.
Proof. induction k; [done|]. intros H. apply IHk. by apply room_less. Qed.

(** The address space [k_boot_sysdev] sets up is the direct map. When the
    smallest MMU type of the CPUs is Sv39, Sv48 or Sv57, the harts implement
    it and there is memory for the tables, the set-up returns 0 and, in the
    table satp then points to, [K_VADDR_BASE + pa] is translated to [pa] with
    rights R, W, X and G for all of the low 4 GiB and nothing else is
    translated. *)
Theorem boot_direct_map {heap} (memalign : Z -> Z -> heap -> Z * heap) owns room `{!MemalignSpec memalign owns room}
    warl cpus vid junk s :
  let sz := smallest_mmu cpus in
  valid_sz sz -> is_uw 64 junk -> room (ms_heap s) 17%nat ->
  (forall old v, getf v 60 4 = mmutype sz -> warl old v = v) ->
  exists o v s', setup_mmu memalign warl cpus vid junk s = Some ((0, Some (o, v)), s') /\
    ms_satp s' = mmu_satp o /\ getf (ms_satp s') 60 4 = mmutype sz /\
    forall va, translate sz (ms_mem s') (4096 * getf (ms_satp s') 0 44) va =
      if (K_VADDR_BASE <=? va) && (va <? K_VADDR_BASE + 2 ^ 32) then Some (va - K_VADDR_BASE, 23) else None.
Proof.
  intros sz Hsz Hj Hroom Hwarl. unfold setup_mmu. fold sz.
  set (variant := if vid =? 0x5B7 then VARIANT_THEAD_C906 else 0).
  destruct (new_spec sz s 16 junk (-1) variant Hsz Hroom Hj)
    as (o & s1 & root & E1 & Ho & Hwf & Htr & Hfree & _ & Hppn & _ & Hmode & _ & Hroom1).
  pose proof (boot_blocks sz Hsz) as Hb. pose proof (boot_good sz Hsz) as Hg.
  set (maps := vm_maps (boot_maps (VMemoryMgr_new []))) in *.
  destruct (confirm_loop_spec (mmu := rv64_mmu memalign sz o) (Hmmu := rv64_spec sz Hsz o root Ho) maps s1)
    as (s2 & E2 & [[T Hwf2] _ _ _ _] & Ht).
  { by repeat constructor. }
  { split; [by eexists|exact Hg| | |].
    - change (to_map maps) with maps. repeat (apply FOP_cons || apply FOP_nil || apply Forall_cons_2 || apply Forall_nil_2). right. cbn. lia.
    - rewrite Forall_forall. intros m _. apply Hfree.
    - replace 16%nat with (16 - tables_for sz (to_map maps) + tables_for sz (to_map maps))%nat in Hroom1 by lia.
      by eapply room_le. }
  assert ((sz =? 0xFF) || (sz =? 32) = false /\ (sz =? 39) || (sz =? 48) || (sz =? 57) = true) as [-> ->]
    by (clear -Hsz; destruct Hsz as [->|[->| ->]]; done).
  unfold confirm, mbind, M_bind, mret, M_ret. rewrite E1. change (vm_maps _) with maps. rewrite E2. cbn [Z.ltb Z.compare].
  unfold enable, csr_write_satp, get, mbind, M_bind, mret, M_ret. rewrite Hwarl by exact Hmode. cbn [ms_satp].
  rewrite Z.eqb_refl. cbn [negb]. do 3 eexists. split; [reflexivity|]. cbn [ms_satp ms_mem]. split; [done|]. split; [done|].
  assert (4096 * getf (mmu_satp o) 0 44 = root) as ->.
  { rewrite Hppn. destruct (wf_tbl _ _ _ _ _ Hwf2 _ _ (wf_root _ _ _ _ _ Hwf2)) as (_ & Hal & _).
    symmetry. by apply Z_div_exact_full_2. }
  intros va. specialize (Ht va). unfold rv64_trans at 1 in Ht. rewrite Ht, kvbase_val.
  change (to_map maps) with maps. unfold maps. cbn [vm_maps boot_maps addMap VMemoryMgr_new app].
  rewrite !overlay_cons, overlay_nil. unfold rv64_trans, in_map. rewrite Htr. clear. cbn [m_vaddr m_size m_paddr m_prot].
  change (2 ^ 32) with 4294967296. change (Z.land _ 31) with 23.
  zcase; cbn [andb]; try lia; try done; do 2 f_equal; lia.
Qed.

Lemma boot_direct_map_witness : exists o v s',
  setup_mmu Bump.memalign (fun _ v => v) [39; 48] 0 0 Bump.init = Some ((0, Some (o, v)), s') /\
  translate 39 (ms_mem s') (4096 * getf (ms_satp s') 0 44) (K_VADDR_BASE + 0x80200000) = Some (0x80200000, 23) /\
  translate 39 (ms_mem s') (4096 * getf (ms_satp s') 0 44) 0x80200000 = None.
Proof.
  destruct (boot_direct_map Bump.memalign Bump.owns Bump.room (fun _ v => v) [39; 48] 0 0 Bump.init)
    as (o & v & s' & E & _ & _ & Ht).
  - by left.
  - vm_compute. split; [discriminate|reflexivity].
  - vm_compute. split; [discriminate|]. split; [reflexivity|discriminate].
  - reflexivity.
  - exists o, v, s'. split; [exact E|]. split; [exact (Ht (K_VADDR_BASE + 0x80200000))|exact (Ht 0x80200000)].
Defined.

(** An Sv39 MMU that is ready for one global mapping. *)
Lemma one_map_ready : exists o s root, mmu_ptes o = K_VADDR_BASE + root /\
  rv64_ready (owns := Bump.owns) (room := Bump.room) 39 root s [Map 0x4000 0x5000 0x1000 (Z.lor PROT_R PROT_G) MAP].
Proof.
  destruct (new_spec (memalign := Bump.memalign) (owns := Bump.owns) (room := Bump.room) 39 Bump.init 2 0 0 0)
    as (o & s & root & _ & Ho & Hwf & _ & Hfree & _ & _ & _ & _ & _ & Hroom); [by left|by vm_compute|by vm_compute|].
  exists o, s, root. split; [done|]. split; [by eexists| |by repeat constructor|by constructor|exact Hroom].
  repeat constructor; cbn; lia || done.
Qed.

Lemma vmm_confirm_witness : exists (o : rv64mmu) (s s' : mstate Z) v' root,
  confirm (rv64_mmu Bump.memalign 39 o) (addMap 0x4000 0x5000 0x1000 (Z.lor PROT_R PROT_G) (VMemoryMgr_new [])) s = Some ((0, v'), s') /\
  translate 39 (ms_mem s') root 0x4010 = Some (0x5010, 17).
Proof.
  destruct one_map_ready as (o & s & root & Ho & Hr).
  destruct (vmm_confirm_correct (rv64_mmu Bump.memalign 39 o) (rv64_ready (owns := Bump.owns) (room := Bump.room) 39 root)
    (rv64_trans 39 root) (MMUSpec0 := rv64_spec 39 (or_introl eq_refl) o root Ho)
    (addMap 0x4000 0x5000 0x1000 (Z.lor PROT_R PROT_G) (VMemoryMgr_new [])) s) as (s' & E & Ht & _).
  - repeat constructor. discriminate.
  - exact Hr.
  - exists o, s, s'. eexists. exists root. split; [exact E|exact (Ht 0x4010)].
Defined.

Lemma removeMap_global_witness : exists (s' : mstate Z) root, translate 39 (ms_mem s') root 0x4010 = Some (0x5010, 17).
Proof.
  destruct one_map_ready as (o & s & root & Ho & Hr).
  destruct (removeMap_global_ineffective (rv64_mmu Bump.memalign 39 o)
    (rv64_ready (owns := Bump.owns) (room := Bump.room) 39 root) (rv64_trans 39 root)
    (MMUSpec0 := rv64_spec 39 (or_introl eq_refl) o root Ho) s 0x4000 0x5000 0x1000 (Z.lor PROT_R PROT_G)) as (s' & v' & _ & _ & Ht).
  - discriminate.
  - exact Hr.
  - exists s', root. exact (Ht 0x4010 ltac:(lia)).
Defined.
