(* ===== verification/Lock.v ===== *)
(** The spin lock of src/kernel/inc/k_lock.h, the lock entry points newlib calls
    (src/kernel/main/libc_hooks.cpp) and its allocator lock, as interleaved
    steps of the harts: one step per access to a shared atomic. *)
From stdpp Require Import relations functions.
From S2P Require Import Prelude KDefs.

(** ** [k_stage_t] (k_main.h) *)
Definition K_BEFORE_BOOT : Z := 0.
Definition K_BOOT : Z := 1.
Definition K_BOOT_PERIP : Z := 2.
Definition K_BOOT_HARTS : Z := 3.
Definition K_MULTICORE : Z := 4.
Definition K_CLEARUP : Z := 5.

(** The reentrancy structure [__getreent] (libc_hooks.cpp) gives the C library:
    the hart's own one once all harts run. *)
Inductive reent := ReentHart | ReentGlobal.
Definition __getreent (k_stage : Z) : reent :=
  if k_stage =? K_MULTICORE then ReentHart else ReentGlobal.

Module SpinLock.

(** Where a hart is inside [lock], [try_acquire] or [unlock]. [spin] is false
    in [__retarget_lock_try_acquire], which gives up after one attempt. *)
Inductive pc :=
  | Idle                  (** in none of them *)
  | LTest (spin : bool)   (** about to test [owner == hartid] *)
  | LInc                  (** about to increment [recursive_count] *)
  | LCas (spin : bool)    (** about to [compare_exchange_weak] *)
  | LSet                  (** about to store [recursive_count = 1] *)
  | UTest (rec : bool)    (** about to test [owner == hartid] *)
  | UDec                  (** about to decrement [recursive_count] *)
  | UClear.               (** about to store [owner = -1] *)

(** The functions newlib calls (and, as [lock] and [unlock] of [struct __lock], the
    kernel), and where each starts. *)
Inductive retarget :=
  | lock_acquire | lock_acquire_recursive | lock_try_acquire | lock_try_acquire_recursive
  | lock_release | lock_release_recursive.
Definition acquires (c : retarget) : bool := match c with lock_release | lock_release_recursive => false | _ => true end.
Definition enter (c : retarget) : pc :=
  match c with
  | lock_acquire => LCas true
  | lock_acquire_recursive => LTest true
  | lock_try_acquire => LCas false
  | lock_try_acquire_recursive => LTest false
  | lock_release => UTest false
  | lock_release_recursive => UTest true
  end.

(** [h_depth] counts the acquisitions of the hart that it has not released: it
    is in its critical section when that is positive. *)
Record hart := Hart { h_pc : pc; h_depth : Z }.

(** [struct __lock] and the harts that use it. *)
Record state := State {
  owner : Z;
  recursive_count : Z;
  harts : Z -> hart;
}.

Definition init : state := State (-1) 0 (fun _ => Hart Idle 0).

Section Step.
  (** The stage, the harts that run, and the value of the thread-local [hartid] on each:
      0 until [k_pre_main] sets it. *)
  Variable k_stage : Z.
  Variable running : gset Z.
  Variable hartid : Z -> Z.
  Local Abbreviation upd s o c h t := (State o c (<[h := t]> (harts s))).

Inductive step (s : state) : state -> Prop :=
  (** Before the other harts run the lock does nothing. *)
  | s_lock_early h d : k_stage <> K_MULTICORE -> h ∈ running -> harts s h = Hart Idle d ->
      step s (upd s (owner s) (recursive_count s) h (Hart Idle (d + 1)))
  | s_unlock_early h d : k_stage <> K_MULTICORE -> h ∈ running -> harts s h = Hart Idle d -> 0 < d ->
      step s (upd s (owner s) (recursive_count s) h (Hart Idle (d - 1)))
  (** The functions that acquire; the nesting of a hart stays below the range of
      [int]. *)
  | s_lock h d c : k_stage = K_MULTICORE -> h ∈ running -> harts s h = Hart Idle d -> acquires c = true -> d < 2 ^ 31 - 1 ->
      step s (upd s (owner s) (recursive_count s) h (Hart (enter c) d))
  | s_ltest h d spin : harts s h = Hart (LTest spin) d ->
      step s (upd s (owner s) (recursive_count s) h (Hart (if owner s =? hartid h then LInc else LCas spin) d))
  | s_linc h d : harts s h = Hart LInc d ->
      step s (upd s (owner s) (s32 (recursive_count s + 1)) h (Hart Idle (d + 1)))
  | s_cas_ok h d spin : harts s h = Hart (LCas spin) d -> owner s = -1 ->
      step s (upd s (hartid h) (recursive_count s) h (Hart LSet d))
  (** The weak exchange may also fail when [owner] is -1. *)
  | s_cas_fail h d spin : harts s h = Hart (LCas spin) d ->
      step s (upd s (owner s) (recursive_count s) h (Hart (if spin then LCas spin else Idle) d))
  | s_lset h d : harts s h = Hart LSet d ->
      step s (upd s (owner s) 1 h (Hart Idle (d + 1)))
  (** The functions that release; the plain one gives up every nested acquisition. *)
  | s_unlock h d c : k_stage = K_MULTICORE -> h ∈ running -> harts s h = Hart Idle d -> acquires c = false ->
      step s (upd s (owner s) (recursive_count s) h (Hart (enter c) d))
  | s_utest h d recursive : harts s h = Hart (UTest recursive) d ->
      step s (upd s (owner s) (recursive_count s) h
        (Hart (if owner s =? hartid h then (if recursive then UDec else UClear) else Idle) d))
  | s_udec h d : harts s h = Hart UDec d ->
      step s (let c := s32 (recursive_count s - 1) in
        upd s (owner s) c h (if c =? 0 then Hart UClear d else Hart Idle (d - 1)))
  | s_uclear h d : harts s h = Hart UClear d ->
      step s (upd s (-1) (recursive_count s) h (Hart Idle 0)).
End Step.

(** ** Invariant *)

(** The code positions of a hart that does not own the lock. *)
Definition outside (p : pc) : bool :=
  match p with Idle | LTest _ | LCas _ | UTest _ => true | _ => false end.

(** What the owner's nesting says about [recursive_count]. *)
Definition owner_ok (c : Z) (t : hart) : Prop :=
  match h_pc t with
  | LSet => h_depth t = 0
  | UClear => 1 <= h_depth t
  | LTest _ | LInc => 1 <= h_depth t < 2 ^ 31 - 1 /\ c = h_depth t
  | _ => 1 <= h_depth t <= 2 ^ 31 - 1 /\ c = h_depth t
  end.

Section Props.
  (** The harts that run have set their numbers: they are distinct. *)
  Context (running : gset Z) (hartid : Z -> Z).
  Context (Hid : forall h, h ∈ running -> 0 <= hartid h).
  Context (Hinj : forall h1 h2, h1 ∈ running -> h2 ∈ running -> hartid h1 = hartid h2 -> h1 = h2).
  Local Abbreviation mstep := (step K_MULTICORE running hartid).

Record inv (s : state) : Prop := {
  i_owner : owner s = -1 \/ exists h, h ∈ running /\ owner s = hartid h;
  i_harts : forall h, h ∉ running -> harts s h = Hart Idle 0;
  i_outside : forall h, h ∈ running -> hartid h <> owner s -> outside (h_pc (harts s h)) = true /\ h_depth (harts s h) = 0;
  i_held : forall h, h ∈ running -> hartid h = owner s -> owner_ok (recursive_count s) (harts s h);
}.

Lemma inv_init : inv init.
Proof. split; cbn; [by left|done|done|]. intros h Hh E. specialize (Hid h Hh). lia. Qed.

(** A step of hart [h] that keeps the owner. *)
Lemma inv_keep s h c t : inv s -> h ∈ running ->
  (hartid h <> owner s -> c = recursive_count s /\ outside (h_pc t) = true /\ h_depth t = 0) ->
  (hartid h = owner s -> owner_ok c t) ->
  inv (State (owner s) c (<[h := t]> (harts s))).
Proof.
  intros [Ho Hneg Hout Hheld] H0 Ht Hown. split; cbn; [done| | |].
  - intros h' Hh'. rewrite fn_lookup_insert_ne by (by intros ->). auto.
  - intros h' Hr Hh'. destruct (decide (h' = h)) as [->|Hne].
    + rewrite fn_lookup_insert. by apply Ht.
    + rewrite fn_lookup_insert_ne by done. auto.
  - intros h' Hr E. destruct (decide (h' = h)) as [->|Hne]; [rewrite fn_lookup_insert; auto|].
    rewrite fn_lookup_insert_ne by done. destruct Ht as [-> _]; [|auto]. intros E'. apply Hne, Hinj; congruence.
Qed.

(** What the invariant says about a hart whose position is known. *)
Lemma hart_facts s h p d : inv s -> harts s h = Hart p d -> h ∈ running \/ p <> Idle ->
  h ∈ running /\ 0 <= hartid h /\ (hartid h <> owner s -> outside p = true /\ d = 0) /\ (hartid h = owner s -> owner_ok (recursive_count s) (Hart p d)).
Proof.
  intros Hi E Hp. assert (h ∈ running) as H0.
  { destruct (decide (h ∈ running)); [done|]. rewrite (i_harts _ Hi) in E by done. destruct Hp; [done|congruence]. }
  split; [done|]. split; [auto|]. split.
  - intros Hh. pose proof (i_outside _ Hi h H0 Hh) as Ho. by rewrite E in Ho.
  - intros Hh. rewrite <- E. by apply (i_held _ Hi).
Qed.

Lemma s32_id x : - 2 ^ 31 <= x < 2 ^ 31 -> s32 x = x.
Proof.
  intros Hx. unfold sw, uw. change (32 - 1) with 31. change (2 ^ 32) with 4294967296.
  change (2 ^ 31) with 2147483648 in *. destruct (Z.ltb_spec (x mod 4294967296) 2147483648);
  Z.to_euclidean_division_equations; lia.
Qed.

Ltac hart_case Hi E :=
  let Hout := fresh "Hout" in let Hown := fresh "Hown" in let H0 := fresh "Hh" in let Hn := fresh "Hn" in
  destruct (hart_facts _ _ _ _ Hi E ltac:(first [by left | by right])) as (H0 & Hn & Hout & Hown);
  cbn in Hout, Hown.

(** Every step that keeps the owner is an instance of [inv_keep]. *)
Ltac keep Hi E :=
  hart_case Hi E; apply inv_keep; [done|done| |]; cbn; intros;
  repeat case_match; cbn in *; try (rewrite s32_id by lia); intuition (done || lia).

Lemma inv_step s s' : inv s -> mstep s s' -> inv s'.
Proof.
  intros Hi Hs. destruct Hs as
    [h d Hst|h d Hst|h d c _ H0 E Hc Hd|h d sp E|h d E|h d sp E Ho|h d sp E|h d E|h d c _ H0 E Hc|h d r E|h d E|h d E];
    try done.
  - destruct c; try done; keep Hi E.
  - keep Hi E.
  - keep Hi E.
  - hart_case Hi E. destruct Hout as [_ ->]; [lia|]. split; cbn.
    + right. by exists h.
    + intros h' Hh'. rewrite fn_lookup_insert_ne by (by intros ->). by apply (i_harts _ Hi).
    + intros h' Hr Hh'. rewrite fn_lookup_insert_ne by (by intros ->). apply (i_outside _ Hi); [done|]. specialize (Hid h' Hr). lia.
    + intros h' Hr E'. apply Hinj in E' as ->; [|done|done]. by rewrite fn_lookup_insert.
  - keep Hi E.
  - keep Hi E.
  - destruct c; try done; keep Hi E.
  - keep Hi E.
  - hart_case Hi E. apply inv_keep; [done|done| |]; cbn; intros Ho.
    + by destruct (Hout Ho).
    + rewrite s32_id by (destruct (Hown Ho); lia). destruct (Z.eqb_spec (recursive_count s - 1) 0); cbn;
      destruct (Hown Ho); lia.
  - hart_case Hi E. split; cbn; [by left| | |].
    + intros h' Hh'. rewrite fn_lookup_insert_ne by (by intros ->). by apply (i_harts _ Hi).
    + intros h' Hr _. destruct (decide (h' = h)) as [->|Hne]; [by rewrite fn_lookup_insert|].
      rewrite fn_lookup_insert_ne by done. apply (i_outside _ Hi); [done|]. destruct (decide (hartid h = owner s)) as [E'|E'].
      * intros E2. apply Hne, Hinj; congruence.
      * by destruct (Hout E').
    + intros h' Hr E'. specialize (Hid h' Hr). lia.
Qed.

Lemma inv_reach s : rtc mstep init s -> inv s.
Proof.
  assert (forall x y, rtc mstep x y -> inv x -> inv y) as H.
  { induction 1; eauto using inv_step. }
  intros Hr. eapply H; [exact Hr|exact inv_init].
Qed.

Lemma depth_owner s h : inv s -> 0 < h_depth (harts s h) -> h ∈ running /\ owner s = hartid h.
Proof.
  intros Hi Hd. destruct (decide (h ∈ running)) as [Hr|Hr]; [|rewrite (i_harts _ Hi) in Hd by done; cbn in Hd; lia].
  split; [done|]. destruct (decide (hartid h = owner s)) as [|Hne]; [done|]. destruct (i_outside _ Hi h Hr Hne). lia.
Qed.
End Props.

(** C3: The lock excludes. Once the stage is K_MULTICORE (before, the functions
    return at once) and as long as the harts that run have distinct values of the
    thread-local [hartid], which [k_pre_main] gives them: whatever sequence of
    (recursive or plain) [lock], [try_acquire] and [unlock] calls the harts
    interleave from then on, the wrong ones included, at most one of them has an
    acquisition it has not released; that hart is [owner], and outside of the
    lock functions [recursive_count] is its nesting; a hart with no acquisition
    left is not [owner]. No hart acquires when its nesting is 2 ^ 31 - 1 already. *)
Theorem lock_mutual_exclusion running hartid s :
  (forall h, h ∈ running -> 0 <= hartid h) ->
  (forall h1 h2, h1 ∈ running -> h2 ∈ running -> hartid h1 = hartid h2 -> h1 = h2) ->
  rtc (step K_MULTICORE running hartid) init s ->
  (forall h1 h2, 0 < h_depth (harts s h1) -> 0 < h_depth (harts s h2) -> h1 = h2) /\
  (forall h, h ∈ running -> h_pc (harts s h) = Idle ->
     (owner s = hartid h <-> 0 < h_depth (harts s h)) /\
     (0 < h_depth (harts s h) -> recursive_count s = h_depth (harts s h))).
Proof.
  intros Hid Hinj Hr. pose proof (inv_reach _ _ Hid Hinj _ Hr) as Hi. split.
  - intros h1 h2 H1 H2. destruct (depth_owner _ _ _ _ Hi H1), (depth_owner _ _ _ _ Hi H2). apply Hinj; congruence.
  - intros h H0 Hp. destruct (decide (hartid h = owner s)) as [E|Hne].
    + pose proof (i_held _ _ _ Hi h H0 E) as Hok. unfold owner_ok in Hok. rewrite Hp in Hok. split; [split|]; intros; (done || lia).
    + destruct (i_outside _ _ _ Hi h H0 Hne). split; [split|]; intros; (congruence || lia).
Qed.

(** Two harts with their own numbers. *)
Definition two : gset Z := {[0; 1]}.
Lemma two_ids h : h ∈ two -> 0 <= id h.
Proof. unfold two, id. rewrite elem_of_union, !elem_of_singleton. lia. Qed.
Abbreviation step2 := (step K_MULTICORE two id).

(** Hart 1 takes the lock twice, recursively, while hart 0 is spinning. *)
Definition nested : state :=
  State 1 2 (<[1 := Hart Idle 2]> (<[1 := Hart LInc 1]> (<[1 := Hart (LTest true) 1]> (<[1 := Hart Idle 1]>
    (<[1 := Hart LSet 0]> (<[1 := Hart (LCas true) 0]> (<[0 := Hart (LCas true) 0]> (harts init)))))))).

Lemma lock_mutual_exclusion_witness : rtc step2 init nested /\
  recursive_count nested = h_depth (harts nested 1) /\ owner nested <> 0.
Proof.
  assert (Hr : rtc step2 init nested).
  { eapply rtc_l. { by apply (s_lock _ _ _ _ 0 0 lock_acquire). }
    eapply rtc_l. { by apply (s_lock _ _ _ _ 1 0 lock_acquire). }
    eapply rtc_l. { by apply (s_cas_ok _ _ _ _ 1 0 true). }
    eapply rtc_l. { by apply (s_lset _ _ _ _ 1 0). }
    eapply rtc_l. { by apply (s_lock _ _ _ _ 1 1 lock_acquire_recursive). }
    eapply rtc_l. { by apply (s_ltest _ _ _ _ 1 1 true). }
    eapply rtc_l. { by apply (s_linc _ _ _ _ 1 1). }
    apply rtc_refl. }
  destruct (lock_mutual_exclusion two id nested) as [_ Hc].
  - exact two_ids.
  - intros h1 h2 _ _ E. exact E.
  - exact Hr.
  - split; [exact Hr|]. split; [by apply (Hc 1)|discriminate].
Defined.

(** A hart that has not set its number counts as hart 0: while hart 0 holds the
    lock, a recursive [lock] of such a hart succeeds too. *)
Theorem unset_hartid_shares : exists s, rtc (step K_MULTICORE {[0; 1]} (fun _ => 0)) init s /\
  0 < h_depth (harts s 0) /\ 0 < h_depth (harts s 1).
Proof.
  eexists. split.
  - eapply rtc_l. { by apply (s_lock _ _ _ _ 0 0 lock_acquire). }
    eapply rtc_l. { by apply (s_cas_ok _ _ _ _ 0 0 true). }
    eapply rtc_l. { by apply (s_lset _ _ _ _ 0 0). }
    eapply rtc_l. { by apply (s_lock _ _ _ _ 1 0 lock_acquire_recursive). }
    eapply rtc_l. { by apply (s_ltest _ _ _ _ 1 0 true). }
    eapply rtc_l. { by apply (s_linc _ _ _ _ 1 0). }
    apply rtc_refl.
  - split; reflexivity.
Qed.

(** No hart is locked out: while the owner is outside the lock functions, or
    there is none, a hart that waits for the lock can be scheduled to get it. *)
Theorem lock_obtainable running hartid s h :
  (forall h, h ∈ running -> 0 <= hartid h) ->
  (forall h1 h2, h1 ∈ running -> h2 ∈ running -> hartid h1 = hartid h2 -> h1 = h2) ->
  rtc (step K_MULTICORE running hartid) init s ->
  h_pc (harts s h) = LCas true -> owner s <> hartid h ->
  owner s = -1 \/ (exists g, g ∈ running /\ owner s = hartid g /\ h_pc (harts s g) = Idle) ->
  exists s', rtc (step K_MULTICORE running hartid) s s' /\ owner s' = hartid h /\ recursive_count s' = 1 /\ harts s' h = Hart Idle 1.
Proof.
  intros Hid Hinj Hr Hp Hne Hown. pose proof (inv_reach _ _ Hid Hinj _ Hr) as Hi.
  destruct (harts s h) as [p d] eqn:E. cbn in Hp. subst p.
  destruct (hart_facts _ _ Hid _ _ _ _ Hi E ltac:(by right)) as (Hrun & _ & Hout & _). destruct (Hout ltac:(congruence)) as [_ ->].
  assert (forall t, owner t = -1 -> harts t h = Hart (LCas true) 0 -> exists t', rtc (step K_MULTICORE running hartid) t t' /\
    owner t' = hartid h /\ recursive_count t' = 1 /\ harts t' h = Hart Idle 1) as Hget.
  { intros t Ho Et. eexists. split.
    - eapply rtc_l; [by eapply s_cas_ok|]. eapply rtc_l; [eapply s_lset; cbn; by rewrite fn_lookup_insert|]. apply rtc_refl.
    - cbn. by rewrite fn_lookup_insert. }
  destruct Hown as [Ho|(g & Hg & Ho & Hidle)]; [by apply Hget|].
  destruct (harts s g) as [p d] eqn:Eo. cbn in Hidle. subst p. assert (h <> g) as Hhg by congruence.
  edestruct (Hget (State (-1) (recursive_count s) (<[g := Hart Idle 0]> (<[g := Hart UClear d]>
    (<[g := Hart (UTest false) d]> (harts s)))))) as (t' & Ht & Hres); [done| |].
  { cbn. by rewrite !fn_lookup_insert_ne by done. }
  exists t'. split; [|exact Hres].
  eapply rtc_l; [apply (s_unlock _ _ _ _ g d lock_release); done|].
  eapply rtc_l; [apply (s_utest _ _ _ _ g d false); cbn; by rewrite fn_lookup_insert|].
  cbn. rewrite Ho, Z.eqb_refl. eapply rtc_l; [apply (s_uclear _ _ _ _ g d); cbn; by rewrite fn_lookup_insert|].
  exact Ht.
Qed.

Lemma lock_obtainable_witness : exists s', rtc step2 (State (-1) 0 (<[0 := Hart (LCas true) 0]> (harts init))) s' /\ owner s' = 0.
Proof.
  destruct (lock_obtainable two id (State (-1) 0 (<[0 := Hart (LCas true) 0]> (harts init))) 0) as (s' & Hs & Ho & _).
  - exact two_ids.
  - intros h1 h2 _ _ E. exact E.
  - eapply rtc_l; [by apply (s_lock _ _ _ _ 0 0 lock_acquire)|]. apply rtc_refl.
  - reflexivity.
  - discriminate.
  - by left.
  - exists s'. split; [exact Hs|exact Ho].
Defined.

End SpinLock.

(** ** The allocator lock of libc_hooks.cpp *)
Module MallocLock.

Inductive pc := MOut | MTest | MCas | MIn.

(** [k_malloc_lock], and where each hart is in [__malloc_lock]: [MIn] is between
    its return and [__malloc_unlock], where the allocator works on the heap. *)
Record state := State { k_malloc_lock : Z; pcs : Z -> pc }.
Definition init : state := State 0 (fun _ => MOut).

Section Step.
  Variable reent : Z -> Z.     (** the address of [hl_reent] on each hart *)
  Local Abbreviation upd s l h p := (State l (<[h := p]> (pcs s))).

Inductive step (s : state) : state -> Prop :=
  | m_call h : pcs s h = MOut -> step s (upd s (k_malloc_lock s) h MTest)
  | m_test h : pcs s h = MTest ->
      step s (upd s (k_malloc_lock s) h (if k_malloc_lock s =? reent h then MIn else MCas))
  (** [while (compare_exchange_weak(...)) tmp = 0]: success repeats the loop,
      failure leaves it. *)
  | m_cas_ok h : pcs s h = MCas -> k_malloc_lock s = 0 -> step s (upd s (reent h) h MCas)
  | m_cas_fail h : pcs s h = MCas -> step s (upd s (k_malloc_lock s) h MIn)
  | m_unlock h : pcs s h = MIn -> step s (upd s 0 h MOut).
End Step.

(** The allocator lock excludes nobody: its loop is left when the exchange
    fails, so a second hart enters while the first holds the lock; this happens
    for every choice of the two harts and without spurious failures. *)
Theorem malloc_lock_admits_both reent h1 h2 :
  h1 <> h2 -> reent h1 <> 0 -> reent h2 <> 0 -> reent h1 <> reent h2 ->
  exists s, rtc (step reent) init s /\ k_malloc_lock s = reent h1 /\ pcs s h1 = MIn /\ pcs s h2 = MIn.
Proof.
  intros Hh H1 H2 Hr. exists (State (reent h1)
    (<[h2 := MIn]> (<[h2 := MCas]> (<[h2 := MTest]> (<[h1 := MIn]> (<[h1 := MCas]> (<[h1 := MCas]> (<[h1 := MTest]> (pcs init))))))))).
  split; [|cbn [k_malloc_lock pcs init]; by rewrite ?fn_lookup_insert, ?fn_lookup_insert_ne, ?fn_lookup_insert by done].
  eapply rtc_l. { apply (m_call _ _ h1). done. }
  eapply rtc_l. { apply (m_test _ _ h1). cbn [k_malloc_lock pcs init]. by rewrite fn_lookup_insert. }
  cbn [k_malloc_lock pcs init]. destruct (Z.eqb_spec 0 (reent h1)); [congruence|].
  eapply rtc_l. { apply (m_cas_ok _ _ h1); cbn [k_malloc_lock pcs init]; [by rewrite fn_lookup_insert|done]. }
  cbn [k_malloc_lock pcs init]. eapply rtc_l. { apply (m_cas_fail _ _ h1). cbn [k_malloc_lock pcs init]. by rewrite fn_lookup_insert. }
  cbn [k_malloc_lock pcs init]. eapply rtc_l. { apply (m_call _ _ h2). cbn [k_malloc_lock pcs init]. by rewrite !fn_lookup_insert_ne by done. }
  cbn [k_malloc_lock pcs init]. eapply rtc_l. { apply (m_test _ _ h2). cbn [k_malloc_lock pcs init]. by rewrite fn_lookup_insert. }
  cbn [k_malloc_lock pcs init]. destruct (Z.eqb_spec (reent h1) (reent h2)); [congruence|].
  eapply rtc_l. { apply (m_cas_fail _ _ h2). cbn [k_malloc_lock pcs init]. by rewrite fn_lookup_insert. }
  cbn [k_malloc_lock pcs init]. apply rtc_refl.
Qed.

Lemma malloc_lock_admits_both_witness : exists s,
  rtc (step (fun h => 0x1000 + h)) init s /\ pcs s 0 = MIn /\ pcs s 1 = MIn.
Proof.
  destruct (malloc_lock_admits_both (fun h => 0x1000 + h) 0 1) as (s & Hs & _ & Hp); [discriminate..|].
  exists s. split; [exact Hs|exact Hp].
Defined.

End MallocLock.
