(* ===== verification/Bytes.v ===== *)
(** Byte memory as the parsers of the kernel see it: a buffer is the list of
    its bytes, a pointer into it an offset, and an access outside the buffer is
    undefined behaviour ([None]).  The string functions of the C library the
    sources call are written over it. *)
From S2P Require Import Prelude.

(** A buffer and the address it lies at. *)
Record region := Region { r_base : Z; r_bytes : list Z }.

Definition is_byte (b : Z) : Prop := 0 <= b < 256.
Definition zlen {A} (l : list A) : Z := Z.of_nat (length l).

Definition rd8 (m : list Z) (p : Z) : option Z :=
  if p <? 0 then None else m !! Z.to_nat p.

(** [n] bytes at [p]. *)
Definition rdn (m : list Z) (p n : Z) : option (list Z) :=
  if (0 <=? p) && (0 <=? n) && (p + n <=? zlen m)
  then Some (take (Z.to_nat n) (drop (Z.to_nat p) m)) else None.

(** Overwrites [length l] bytes at [p]. *)
Definition wrn (m : list Z) (p : Z) (l : list Z) : option (list Z) :=
  if (0 <=? p) && (p + zlen l <=? zlen m)
  then Some (take (Z.to_nat p) m ++ l ++ drop (Z.to_nat p + length l) m) else None.

(** Big- and little-endian values. *)
Definition be (l : list Z) : Z := fold_left (fun acc b => acc * 256 + b) l 0.
Definition le (l : list Z) : Z := fold_right (fun b acc => b + 256 * acc) 0 l.
Fixpoint to_le (n : nat) (v : Z) : list Z :=
  match n with O => [] | S n => v mod 256 :: to_le n (v / 256) end.
Definition to_be (n : nat) (v : Z) : list Z := rev (to_le n v).

Definition rd_be (k : Z) (m : list Z) (p : Z) : option Z := be <$> rdn m p k.
Definition rd_le (k : Z) (m : list Z) (p : Z) : option Z := le <$> rdn m p k.

(** ** C strings *)

(** Bytes up to the first NUL; [None] when there is none. *)
Fixpoint to_nul (l : list Z) : option (list Z) :=
  match l with
  | [] => None
  | b :: l => if b =? 0 then Some [] else cons b <$> to_nul l
  end.

Definition cstr (m : list Z) (p : Z) : option (list Z) :=
  if p <? 0 then None else to_nul (drop (Z.to_nat p) m).

Definition strlen (m : list Z) (p : Z) : option Z := zlen <$> cstr m p.

(** First position of [c] among the first [n] bytes; stops at the match. *)
Fixpoint find_byte (c : Z) (n : nat) (l : list Z) : option (option Z) :=
  match n with
  | O => Some None
  | S n => match l with
           | [] => None
           | b :: l => if b =? c then Some (Some 0)
                       else option_map Z.succ <$> find_byte c n l
           end
  end.

(** [memchr(p, c, n)] as an offset into the buffer. *)
Definition memchr (m : list Z) (p c n : Z) : option (option Z) :=
  if p <? 0 then None
  else option_map (Z.add p) <$> find_byte c (Z.to_nat n) (drop (Z.to_nat p) m).

Definition strnlen (m : list Z) (p n : Z) : option Z :=
  r ← memchr m p 0 n;
  Some (match r with Some q => q - p | None => n end).

(** Last occurrence of [c] in a string, as an index. *)
Fixpoint rindex (c : Z) (l : list Z) : option Z :=
  match l with
  | [] => None
  | b :: l => match rindex c l with
              | Some i => Some (i + 1)
              | None => if b =? c then Some 0 else None
              end
  end.

(** [memcmp(p, s, n) == 0] where [s] holds [n] bytes; both blocks are read in full. *)
Definition memeq (m : list Z) (p : Z) (s : list Z) : option bool :=
  l ← rdn m p (zlen s); Some (bool_decide (l = s)).

(** [strcmp(str, p) == 0]: reads memory up to the first difference. *)
Fixpoint strcmp_eq (str : list Z) (m : list Z) (p : Z) : option bool :=
  c ← rd8 m p;
  match str with
  | [] => Some (c =? 0)
  | x :: str => if c =? x then strcmp_eq str m (p + 1) else Some false
  end.

(** [strncmp(p, str, strlen(str)) == 0]: whether the bytes start with [str]. *)
Fixpoint strncmp_eq (str : list Z) (m : list Z) (p : Z) : option bool :=
  match str with
  | [] => Some true
  | x :: str => c ← rd8 m p; if c =? x then strncmp_eq str m (p + 1) else Some false
  end.

Definition byte_list (s : string) : list Z :=
  (fix go s := match s with
   | EmptyString => []
   | String a s => Z.of_N (Ascii.N_of_ascii a) :: go s end) s.
#[global] Arguments byte_list s%_string.

(** ** Reading inside the buffer *)

Lemma zlen_nonneg {A} (l : list A) : 0 <= zlen l.
Proof. unfold zlen. lia. Qed.
Lemma zlen_app {A} (l1 l2 : list A) : zlen (l1 ++ l2) = zlen l1 + zlen l2.
Proof. unfold zlen. rewrite length_app. lia. Qed.
Lemma zlen_cons {A} (x : A) l : zlen (x :: l) = 1 + zlen l.
Proof. unfold zlen. cbn. lia. Qed.
Lemma zlen_nil {A} : zlen (@nil A) = 0.
Proof. done. Qed.
#[export] Hint Resolve zlen_nonneg : word.

Lemma rd8_is_Some m p : is_Some (rd8 m p) <-> 0 <= p < zlen m.
Proof.
  unfold rd8, zlen. zcase; [split; [by intros []|lia]|].
  rewrite lookup_lt_is_Some. lia.
Qed.

Lemma rdn_Some m p n : 0 <= p -> 0 <= n -> p + n <= zlen m ->
  rdn m p n = Some (take (Z.to_nat n) (drop (Z.to_nat p) m)).
Proof. intros. unfold rdn. zcase; try lia. done. Qed.

Lemma rdn_inv m p n l : rdn m p n = Some l ->
  0 <= p /\ 0 <= n /\ p + n <= zlen m /\ zlen l = n /\ l = take (Z.to_nat n) (drop (Z.to_nat p) m).
Proof.
  unfold rdn. intros H. zcase; cbn in H; simplify_eq. split_and!; try lia; try done.
  unfold zlen in *. rewrite length_take, length_drop. lia.
Qed.

Lemma rd_be_is_Some k m p : 0 <= k -> 0 <= p -> p + k <= zlen m -> is_Some (rd_be k m p).
Proof. intros. unfold rd_be. rewrite rdn_Some by lia. by eexists. Qed.

Lemma be_from l : forall a, fold_left (fun acc b => acc * 256 + b) l a = a * 256 ^ zlen l + be l.
Proof.
  unfold be. induction l as [|x l IH]; intros a; cbn [fold_left]; [change (zlen (@nil Z)) with 0; lia|].
  rewrite IH, (IH (0 * 256 + x)), zlen_cons, Z.pow_add_r by (pose proof (zlen_nonneg l); lia). lia.
Qed.

Lemma be_app l1 l2 : be (l1 ++ l2) = be l1 * 256 ^ zlen l2 + be l2.
Proof. unfold be at 1. rewrite fold_left_app. apply be_from. Qed.

Lemma be_range l : Forall is_byte l -> 0 <= be l < 256 ^ zlen l.
Proof.
  unfold be. assert (G : forall acc, 0 <= acc -> Forall is_byte l ->
    0 <= fold_left (fun acc b => acc * 256 + b) l acc < (acc + 1) * 256 ^ zlen l).
  { induction l as [|b l IH]; intros acc Ha Hl; cbn [fold_left].
    - unfold zlen. cbn. lia.
    - apply Forall_cons in Hl as [Hb Hl]. unfold is_byte in Hb.
      destruct (IH (acc * 256 + b)) as [? ?]; [lia|done|]. split; [done|].
      rewrite zlen_cons, Z.pow_add_r by (pose proof (zlen_nonneg l); lia).
      change (256 ^ 1) with 256. assert (0 < 256 ^ zlen l) by (apply Z.pow_pos_nonneg; auto with word; lia). nia. }
  intros Hl. destruct (G 0); [lia|done|lia].
Qed.

Lemma Forall_rdn P m p n l : Forall P m -> rdn m p n = Some l -> Forall P l.
Proof.
  intros Hm H. apply rdn_inv in H as (_ & _ & _ & _ & ->). by apply Forall_take, Forall_drop.
Qed.

Lemma rd_be_range k m p v : 0 <= k -> Forall is_byte m -> rd_be k m p = Some v -> 0 <= v < 256 ^ k.
Proof.
  intros Hk Hm. unfold rd_be. destruct (rdn m p k) as [l|] eqn:E; cbn; [|done]. intros [= <-].
  pose proof (Forall_rdn _ _ _ _ _ Hm E). apply rdn_inv in E as (_ & _ & _ & <- & _). by apply be_range.
Qed.

Lemma to_nul_app s l : 0 ∉ s -> to_nul (s ++ 0 :: l) = Some s.
Proof.
  induction s as [|b s IH]; intros H; cbn; [done|].
  rewrite not_elem_of_cons in H. destruct H as [Hb Hs].
  destruct (Z.eqb_spec b 0); [congruence|]. by rewrite IH.
Qed.

Lemma to_nul_inv l s : to_nul l = Some s -> (0 ∉ s) /\ exists l', l = s ++ 0 :: l'.
Proof.
  revert s. induction l as [|b l IH]; intros s; cbn; [done|].
  destruct (Z.eqb_spec b 0) as [->|Hb].
  - intros [= <-]. split; [apply not_elem_of_nil|]. by exists l.
  - destruct (to_nul l) as [s'|] eqn:E; cbn; [|done]. intros [= <-].
    destruct (IH s' eq_refl) as [H [l' ->]]. split; [set_solver|]. by exists l'.
Qed.

Lemma find_byte_spec c n l :
  match find_byte c n l with
  | Some (Some i) => 0 <= i < Z.of_nat n /\ l !! Z.to_nat i = Some c /\
                     forall j, 0 <= j < i -> l !! Z.to_nat j <> Some c
  | Some None => (n <= length l)%nat /\ forall j, 0 <= j < Z.of_nat n -> l !! Z.to_nat j <> Some c
  | None => (length l < n)%nat
  end.
Proof.
  revert l. induction n as [|n IH]; intros l; cbn [find_byte].
  - split; [lia|]. intros; lia.
  - destruct l as [|b l]; [cbn; lia|]. destruct (Z.eqb_spec b c) as [->|Hb].
    + split; [lia|]. split; [done|]. intros; lia.
    + specialize (IH l). destruct (find_byte c n l) as [[i|]|]; cbn.
      * destruct IH as (Hi & Hl & Hj). split; [lia|]. rewrite Z2Nat.inj_succ by lia. split; [done|].
        intros j Hj'. destruct (Z.eq_dec j 0) as [->|]; [by intros [=]|].
        replace (Z.to_nat j) with (S (Z.to_nat (j - 1))) by lia. cbn. apply Hj. lia.
      * destruct IH as [? Hj]. split; [lia|].
        intros j Hj'. destruct (Z.eq_dec j 0) as [->|]; [by intros [=]|].
        replace (Z.to_nat j) with (S (Z.to_nat (j - 1))) by lia. cbn. apply Hj. lia.
      * lia.
Qed.

(** ** Reading a buffer whose content is known from some offset on *)
Definition from (m : list Z) (p : Z) (l : list Z) : Prop :=
  0 <= p <= zlen m /\ drop (Z.to_nat p) m = l.

Lemma from_app m p s l : from m p (s ++ l) -> from m (p + zlen s) l.
Proof.
  intros [Hp H]. pose proof (f_equal length H) as HL. rewrite length_drop, length_app in HL.
  unfold from, zlen in *. split; [lia|].
  replace (Z.to_nat (p + Z.of_nat (length s))) with (Z.to_nat p + length s)%nat by lia.
  by rewrite <- drop_drop, H, drop_app_length.
Qed.

Lemma from_len m p l : from m p l -> zlen m = p + zlen l.
Proof. intros [Hp <-]. unfold zlen in *. rewrite length_drop. lia. Qed.

Lemma from_rdn m p s l : from m p (s ++ l) -> rdn m p (zlen s) = Some s.
Proof.
  intros H. pose proof (from_len _ _ _ H) as HL. destruct H as [Hp H]. rewrite zlen_app in HL.
  pose proof (zlen_nonneg s). pose proof (zlen_nonneg l).
  rewrite rdn_Some by lia. rewrite H. unfold zlen. by rewrite Nat2Z.id, take_app_length.
Qed.

Lemma from_rd8 m p i l : from m p l -> 0 <= i -> rd8 m (p + i) = l !! Z.to_nat i.
Proof.
  intros [Hp <-] Hi. unfold rd8. zcase; [lia|]. rewrite lookup_drop. f_equal. lia.
Qed.

Lemma from_cstr m p s l : 0 ∉ s -> from m p (s ++ 0 :: l) -> cstr m p = Some s.
Proof.
  intros Hs [Hp H]. unfold cstr. zcase; [lia|]. rewrite H. by apply to_nul_app.
Qed.
