(* ===== verification/Cpio.v ===== *)
(** The "newc" CPIO reader, src/deps/libcpio/libcpio.c.

    The archive is a [region]; pointers are absolute addresses, because the
    code aligns addresses.  [None] is a read outside the region, or fuel
    running out. *)
From S2P Require Import Prelude Bytes.

Definition CPIO_HEADER_MAGIC : list Z := byte_list "070701".
Definition CPIO_FOOTER_MAGIC : list Z := byte_list "TRAILER!!!".
Definition CPIO_ALIGNMENT : Z := 4.

(** Offsets of the fields of [struct cpio_header], and its size. *)
Definition c_magic_off : Z := 0.
Definition c_filesize_off : Z := 54.
Definition c_namesize_off : Z := 94.
Definition sizeof_cpio_header : Z := 110.

Record cpio_header_info := HeaderInfo {
  hi_filename : Z;
  hi_filesize : Z;
  hi_data : Z;
  hi_next : Z;
}.

Record cpio_info_t := CpioInfo {
  file_count : Z;
  max_path_sz : Z;
}.

(** The byte at an address. *)
Definition ld (r : region) (a : Z) : option Z := rd8 (r_bytes r) (a - r_base r).

Definition align_up (n align : Z) : Z :=
  Z.land (u64 (n + align - 1)) (u64 (Z.lnot (align - 1))).

Definition hex_digit (c : Z) : option Z :=
  if (48 <=? c) && (c <=? 57) then Some (c - 48)
  else if (97 <=? c) && (c <=? 102) then Some (c - 97 + 10)
  else if (65 <=? c) && (c <=? 70) then Some (c - 65 + 10)
  else None.

Fixpoint parse_hex_loop (r : region) (s : Z) (n : nat) (acc : Z) : option Z :=
  match n with
  | O => Some acc
  | S n =>
      c ← ld r s;
      let acc := u64 (acc * 16) in
      match hex_digit c with
      | Some d => parse_hex_loop r (s + 1) n (u64 (acc + d))
      | None => Some acc
      end
  end.
Definition parse_hex_str (r : region) (s : Z) (max_len : nat) : option Z :=
  parse_hex_loop r s max_len 0.

(** Compares the string at [a] with the buffer [b]; at most [n] characters. *)
Fixpoint cpio_strncmp (r : region) (a : Z) (b : list Z) (n : nat) {struct n} : option Z :=
  match n with
  | O => Some 0
  | S n =>
      x ← ld r a;
      match b with
      | [] => None
      | y :: b => if negb (x =? y) then Some (x - y)
                  else if x =? 0 then Some 0
                  else cpio_strncmp r (a + 1) b n
      end
  end.

(** [n = (unsigned long)-1]: the buffer [b] ends the comparison first. *)
Definition cpio_strncmp_max (r : region) (a : Z) (b : list Z) : option Z :=
  cpio_strncmp r a b (length b).

Definition cpio_strlen (r : region) (str : Z) : option Z :=
  u32 <$> strlen (r_bytes r) (str - r_base r).

(** The characters [cpio_strcpy] stores: those before the NUL, which is not stored. *)
Definition cpio_strcpy (r : region) (to : list Z) (from : Z) : option (list Z) :=
  s ← cstr (r_bytes r) (from - r_base r);
  wrn to 0 s.

Definition cpio_len_next (len prev next : Z) : Z :=
  let diff := u64 (next - prev) in
  if len <? diff then 0 else len.

Definition cpio_parse_header (r : region) (archive len : Z) : option (Z * option cpio_header_info) :=
  if len <? sizeof_cpio_header then Some (-1, None)
  else
    c ← cpio_strncmp r (archive + c_magic_off) (CPIO_HEADER_MAGIC ++ [0]) 6;
    if negb (c =? 0) then Some (-1, None)
    else
      filesize ← parse_hex_str r (archive + c_filesize_off) 8;
      filename_length ← parse_hex_str r (archive + c_namesize_off) 8;
      if len <? u64 (sizeof_cpio_header + filename_length + filesize) then Some (-1, None)
      else
        let filename := archive + sizeof_cpio_header in
        last ← ld r (u64 (filename + u64 (filename_length - 1)));
        if negb (last =? 0) then Some (-1, None)
        else
          footer ← (if 11 <=? filename_length
                    then c ← cpio_strncmp r filename (CPIO_FOOTER_MAGIC ++ [0]) 11; Some (c =? 0)
                    else Some false);
          if (footer : bool) then Some (1, None)
          else
            let data := align_up (archive + sizeof_cpio_header + filename_length) CPIO_ALIGNMENT in
            let next := align_up (data + filesize) CPIO_ALIGNMENT in
            Some (0, Some (HeaderInfo filename filesize data next)).

(** The loop of [cpio_get_entry]: [n + 1] headers; the last one is the result. *)
Fixpoint get_entry_loop (r : region) (header len : Z) (n : nat) : option (option cpio_header_info) :=
  h ← cpio_parse_header r header len;
  match h with
  | (_, None) => Some None
  | (_, Some info) =>
      match n with
      | O => Some (Some info)
      | S n => get_entry_loop r (hi_next info) (cpio_len_next len header (hi_next info)) n
      end
  end.
Definition cpio_get_entry (r : region) (archive len n : Z) : option (option cpio_header_info) :=
  if n <? 0 then None (* header_info is read uninitialised *)
  else get_entry_loop r archive len (Z.to_nat n).

Fixpoint get_file_loop (fuel : nat) (r : region) (header len : Z) (name : list Z)
    : option (option cpio_header_info) :=
  match fuel with
  | O => None
  | S fuel =>
      h ← cpio_parse_header r header len;
      match h with
      | (_, None) => Some None
      | (_, Some info) =>
          c ← cpio_strncmp_max r (hi_filename info) name;
          if c =? 0 then Some (Some info)
          else get_file_loop fuel r (hi_next info) (cpio_len_next len header (hi_next info)) name
      end
  end.

(** Every header is at least 110 bytes past the one before it. *)
Definition cpio_fuel (r : region) : nat := S (length (r_bytes r)).

(** The file's data address and size; [Some None] is NULL.  [name] is the
    caller's buffer, NUL included. *)
Definition cpio_get_file (r : region) (archive len : Z) (name : list Z) : option (option (Z * Z)) :=
  h ← get_file_loop (cpio_fuel r) r archive len name;
  Some (option_map (fun i => (hi_data i, hi_filesize i)) h).

Fixpoint cpio_info_loop (fuel : nat) (r : region) (header len : Z) (info : cpio_info_t)
    : option (Z * cpio_info_t) :=
  match fuel with
  | O => None
  | S fuel =>
      h ← cpio_parse_header r header len;
      match h with
      | (e, None) => Some (if e =? -1 then e else 0, info)
      | (_, Some i) =>
          sz ← cpio_strlen r (hi_filename i);
          let info := CpioInfo (u32 (file_count info + 1))
                        (if max_path_sz info <? sz then sz else max_path_sz info) in
          cpio_info_loop fuel r (hi_next i) (cpio_len_next len header (hi_next i)) info
      end
  end.

(** [info = None] is the NULL pointer; the counters are the caller's structure. *)
Definition cpio_info (r : region) (archive len : Z) (info : option cpio_info_t)
    : option (Z * option cpio_info_t) :=
  match info with
  | None => Some (1, None)
  | Some _ =>
      res ← cpio_info_loop (cpio_fuel r) r archive len (CpioInfo 0 0);
      Some (fst res, Some (snd res))
  end.

(** [cpio_ls] fills the caller's buffers one after the other. *)
Fixpoint cpio_ls (r : region) (header len : Z) (buf : list (list Z)) : option (list (list Z)) :=
  match buf with
  | [] => Some []
  | b :: bs =>
      h ← cpio_parse_header r header len;
      match h with
      | (_, None) => Some (b :: bs)
      | (_, Some i) =>
          b' ← cpio_strcpy r b (hi_filename i);
          bs' ← cpio_ls r (hi_next i) (cpio_len_next len header (hi_next i)) bs;
          Some (b' :: bs')
      end
  end.
