(* ===== verification/CpioProps.v ===== *)
(** The CPIO reader against the "newc" format: an encoder of archives, with
    every spelling of the numbers and of the skipped fields, and the proofs that
    the reader finds exactly what was encoded. *)
From S2P Require Import Prelude Bytes Cpio.

(** ** The format *)

(** An entry; the metadata fields the reader skips are arbitrary, and each of the
    sixteen hexadecimal digits of the two sizes may be in upper or lower case. *)
Record cpio_file := CpioFile {
  cf_meta1 : list Z;   (** inode .. mtime, 48 bytes *)
  cf_meta2 : list Z;   (** device numbers, 32 bytes *)
  cf_check : list Z;   (** checksum, 8 bytes *)
  cf_upper : nat -> bool;   (** which digits of the sizes are in upper case *)
  cf_name : list Z;
  cf_data : list Z;
}.

Definition hex_char (upper : bool) (d : Z) : Z := if d <? 10 then 48 + d else (if upper then 55 else 87) + d.
Fixpoint hex (upper : nat -> bool) (k : nat) (n : Z) : list Z :=
  match k with
  | O => []
  | S k => hex_char (upper k) ((n / 16 ^ Z.of_nat k) mod 16) :: hex upper k n
  end.

(** Zero bytes up to the next multiple of four. *)
Definition pad4 (n : Z) : list Z := replicate (Z.to_nat ((- n) mod 4)) 0.

Definition enc_file (f : cpio_file) : list Z :=
  CPIO_HEADER_MAGIC ++ cf_meta1 f ++ hex (cf_upper f) 8 (zlen (cf_data f)) ++ cf_meta2 f ++
  hex (fun i => cf_upper f (8 + i)%nat) 8 (zlen (cf_name f) + 1) ++ cf_check f ++
  cf_name f ++ [0] ++ pad4 (111 + zlen (cf_name f)) ++
  cf_data f ++ pad4 (zlen (cf_data f)).

Record wf_file (f : cpio_file) : Prop := {
  wf_meta1 : zlen (cf_meta1 f) = 48;
  wf_meta2 : zlen (cf_meta2 f) = 32;
  wf_check : zlen (cf_check f) = 8;
  wf_name : 0 ∉ cf_name f;
  wf_name_len : zlen (cf_name f) + 1 < 2 ^ 32;
  wf_data_len : zlen (cf_data f) < 2 ^ 32;
}.

(** The files, and the entry with the name that ends an archive. *)
Definition encode (t : cpio_file) (fs : list cpio_file) : list Z := concat (enc_file <$> fs) ++ enc_file t.
Definition is_trailer (t : cpio_file) : Prop := wf_file t /\ cf_name t = CPIO_FOOTER_MAGIC.

Definition not_trailer (f : cpio_file) : Prop := cf_name f <> CPIO_FOOTER_MAGIC.

(** ** Numbers and alignment *)

Lemma align_up_4 n : 0 <= n -> n + 4 < 2 ^ 64 -> align_up n 4 = (n + 3) / 4 * 4.
Proof.
  intros H0 H1. unfold align_up. rewrite (uw_small 64) by (unfold is_uw; lia).
  replace (n + 4 - 1) with (n + 3) by lia.
  change (u64 (Z.lnot (4 - 1))) with (Z.shiftl (Z.ones 62) 2).
  replace ((n + 3) / 4 * 4) with (Z.shiftl (Z.shiftr (n + 3) 2) 2)
    by (rewrite Z.shiftl_mul_pow2, Z.shiftr_div_pow2 by lia; done).
  apply Z.bits_inj'. intros i Hi. rewrite Z.land_spec, !testbit_shiftl_nn by lia.
  destruct (Z.leb_spec 2 i); [|by rewrite andb_false_r]. cbn [andb].
  rewrite Z.testbit_ones_nonneg, Z.shiftr_spec by lia. replace (i - 2 + 2) with i by lia.
  destruct (Z.ltb_spec (i - 2) 62); [by rewrite andb_true_r|].
  rewrite andb_false_r. symmetry. apply (testbit_high _ 64); lia.
Qed.

Lemma zlen_hex u k n : zlen (hex u k n) = Z.of_nat k.
Proof. induction k as [|k IH]; [done|]. cbn [hex]. rewrite zlen_cons, IH. lia. Qed.

Lemma hex_digit_char u d : 0 <= d < 16 -> hex_digit (hex_char u d) = Some d.
Proof. intros H. destruct u; unfold hex_digit, hex_char; zcase; cbn; try lia; f_equal; lia. Qed.

Lemma zlen_pad4 n : zlen (pad4 n) = (- n) mod 4.
Proof.
  unfold pad4, zlen. rewrite length_replicate. pose proof (Z.mod_pos_bound (- n) 4). lia.
Qed.

(** ** Reading an encoded entry *)
Section Reader.
  Context (r : region).
  Local Abbreviation m := (r_bytes r).

(** The bytes from address [a] on. *)
Definition at_addr (a : Z) (l : list Z) : Prop := from m (a - r_base r) l.

Lemma at_app a s l : at_addr a (s ++ l) -> at_addr (a + zlen s) l.
Proof.
  unfold at_addr. intros H. replace (a + zlen s - r_base r) with (a - r_base r + zlen s) by lia.
  by apply from_app.
Qed.

Lemma at_ld a l i : at_addr a l -> 0 <= i -> ld r (a + i) = l !! Z.to_nat i.
Proof.
  intros H Hi. unfold ld. replace (a + i - r_base r) with (a - r_base r + i) by lia.
  by apply from_rd8.
Qed.

Lemma at_cons a b l : at_addr a (b :: l) -> ld r a = Some b /\ at_addr (a + 1) l.
Proof.
  intros H. split; [|exact (at_app a [b] l H)]. rewrite <- (Z.add_0_r a). by rewrite (at_ld a _ 0 H).
Qed.

Lemma parse_hex_loop_ok u k n l : forall a acc,
  at_addr a (hex u k n ++ l) -> 0 <= acc -> (acc + 1) * 16 ^ Z.of_nat k <= 2 ^ 64 -> 0 <= n ->
  parse_hex_loop r a k acc = Some (acc * 16 ^ Z.of_nat k + n mod 16 ^ Z.of_nat k).
Proof.
  induction k as [|k IH]; intros a acc Hat Ha Hb Hn.
  - cbn. f_equal. rewrite Z.mod_1_r. lia.
  - cbn [hex parse_hex_loop app] in *. destruct (at_cons _ _ _ Hat) as [-> Hat']. cbn [mbind option_bind].
    pose proof (Z.mod_pos_bound (n / 16 ^ Z.of_nat k) 16 ltac:(lia)) as Hd.
    rewrite hex_digit_char by lia.
    assert (0 < 16 ^ Z.of_nat k) by lia.
    rewrite Nat2Z.inj_succ, Z.pow_succ_r in Hb |- * by lia.
    rewrite (uw_small 64 (acc * 16)) by (unfold is_uw; nia).
    rewrite uw_small by (unfold is_uw; nia).
    rewrite IH by (done || nia). f_equal.
    rewrite (Z.mul_comm 16 (16 ^ _)), (Z.rem_mul_r n (16 ^ Z.of_nat k) 16) by lia. lia.
Qed.

Lemma parse_hex_ok u a n l : at_addr a (hex u 8 n ++ l) -> 0 <= n < 2 ^ 32 -> parse_hex_str r a 8 = Some n.
Proof.
  intros H Hn. unfold parse_hex_str. rewrite (parse_hex_loop_ok u 8 n l) by (done || lia).
  f_equal. apply Z.mod_small. done.
Qed.

(** Comparing with a NUL-terminated string. *)
Lemma strncmp_ok x y l : forall a n, 0 ∉ x -> 0 ∉ y -> at_addr a (x ++ 0 :: l) ->
  (length y < n)%nat ->
  exists c, cpio_strncmp r a (y ++ [0]) n = Some c /\ (c = 0 <-> x = y).
Proof.
  revert y. induction x as [|b x IH]; intros y a n Hx Hy Hat Hn; cbn [app] in Hat;
    destruct (at_cons _ _ _ Hat) as [Hb Hat']; (destruct n as [|n]; [lia|]);
    cbn [cpio_strncmp]; rewrite Hb; cbn [mbind option_bind];
    (destruct y as [|c y]; cbn [app]; [|rewrite not_elem_of_cons in Hy; destruct Hy as [Hc Hy]]).
  - exists 0. split; [done|]. done.
  - destruct (Z.eqb_spec 0 c); [congruence|]. cbn. exists (0 - c). split; [done|]. split; [lia|done].
  - rewrite not_elem_of_cons in Hx. destruct Hx as [Hb0 _].
    destruct (Z.eqb_spec b 0); [congruence|]. cbn. exists (b - 0). split; [done|]. split; [lia|done].
  - rewrite not_elem_of_cons in Hx. destruct Hx as [Hb0 Hx].
    destruct (Z.eqb_spec b c) as [->|Hbc]; cbn [negb].
    + destruct (Z.eqb_spec c 0); [congruence|].
      destruct (IH y (a + 1) n Hx Hy Hat') as (d & E & Hd); [cbn in Hn; lia|].
      exists d. split; [done|]. rewrite Hd. split; [by intros ->|by intros [=]].
    + exists (b - c). split; [done|]. split; [lia|by intros [=]].
Qed.

Lemma magic_ok a l : at_addr a (CPIO_HEADER_MAGIC ++ l) ->
  cpio_strncmp r a (CPIO_HEADER_MAGIC ++ [0]) 6 = Some 0.
Proof.
  intros H. change CPIO_HEADER_MAGIC with [48; 55; 48; 55; 48; 49] in *. cbn [app] in *.
  do 6 (destruct (at_cons _ _ _ H) as [E H']; clear H; rename H' into H;
        cbn [cpio_strncmp]; rewrite E; clear E; cbn [mbind option_bind Z.eqb Pos.eqb negb]).
  done.
Qed.

(** Where the pieces of an encoded entry lie. *)
Lemma entry_at h f l : wf_file f -> at_addr h (enc_file f ++ l) ->
  at_addr h (CPIO_HEADER_MAGIC ++ drop 6 (enc_file f ++ l)) /\
  (exists l1, at_addr (h + 54) (hex (cf_upper f) 8 (zlen (cf_data f)) ++ l1)) /\
  (exists l2, at_addr (h + 94) (hex (fun i => cf_upper f (8 + i)%nat) 8 (zlen (cf_name f) + 1) ++ l2)) /\
  (exists l3, at_addr (h + 110) (cf_name f ++ 0 :: l3)) /\
  (exists l4, at_addr (h + (111 + zlen (cf_name f) + (- (111 + zlen (cf_name f))) mod 4)) (cf_data f ++ l4)) /\
  at_addr (h + zlen (enc_file f)) l.
Proof.
  intros [W1 W2 W3 _ _ _] H. pose proof (at_app h (enc_file f) l H) as Hend.
  assert (zlen CPIO_HEADER_MAGIC = 6) as W0 by done.
  assert (H6 : at_addr h (CPIO_HEADER_MAGIC ++ drop 6 (enc_file f ++ l))) by exact H.
  split; [exact H6|]. clear H6. unfold enc_file in H. rewrite <- !app_assoc in H.
  apply at_app in H. rewrite W0 in H. apply at_app in H. rewrite W1, <- Z.add_assoc in H.
  split; [by eexists|]. apply at_app in H. rewrite zlen_hex, <- Z.add_assoc in H.
  apply at_app in H. rewrite W2, <- Z.add_assoc in H. split; [by eexists|].
  apply at_app in H. rewrite zlen_hex, <- Z.add_assoc in H.
  apply at_app in H. rewrite W3, <- Z.add_assoc in H. split; [by eexists|]. split; [|exact Hend].
  apply at_app in H. apply at_app in H. apply at_app in H. rewrite zlen_pad4 in H.
  eexists. replace (h + (111 + _ + _)) with (h + (6 + 48 + Z.of_nat 8 + 32 + Z.of_nat 8 + 8) + zlen (cf_name f) +
    zlen [0] + (- (111 + zlen (cf_name f))) mod 4); [exact H|]. unfold zlen at 2. cbn. lia.
Qed.

Lemma zlen_enc_file f : wf_file f ->
  zlen (enc_file f) = 111 + zlen (cf_name f) + (- (111 + zlen (cf_name f))) mod 4 +
    zlen (cf_data f) + (- zlen (cf_data f)) mod 4.
Proof.
  intros [W1 W2 W3 _ _ _]. unfold enc_file. rewrite !zlen_app, !zlen_hex, !zlen_pad4, W1, W2, W3.
  change (zlen CPIO_HEADER_MAGIC) with 6. change (zlen [0]) with 1. lia.
Qed.

Lemma footer_no_nul : 0 ∉ CPIO_FOOTER_MAGIC.
Proof. apply (bool_decide_unpack (0 ∉ CPIO_FOOTER_MAGIC)). by vm_compute. Qed.

Lemma round4 n : (n + 3) / 4 * 4 = n + (- n) mod 4.
Proof. Z.to_euclidean_division_equations. lia. Qed.

Lemma parse_header_ok h f l len : wf_file f -> at_addr h (enc_file f ++ l) ->
  0 <= h -> h mod 4 = 0 -> h + zlen (enc_file f) + 4 < 2 ^ 64 -> zlen (enc_file f) <= len ->
  cpio_parse_header r h len =
    if decide (cf_name f = CPIO_FOOTER_MAGIC) then Some (1, None)
    else Some (0, Some (HeaderInfo (h + 110) (zlen (cf_data f))
                (h + (111 + zlen (cf_name f) + (- (111 + zlen (cf_name f))) mod 4))
                (h + zlen (enc_file f)))).
Proof.
  intros Hwf Hat H0 H4 Hh Hlen. pose proof (zlen_enc_file f Hwf) as EL.
  destruct (entry_at h f l Hwf Hat) as (A1 & (l1 & A2) & (l2 & A3) & (l3 & A4) & _).
  pose proof (zlen_nonneg (cf_name f)). pose proof (zlen_nonneg (cf_data f)).
  pose proof (Z.mod_pos_bound (- (111 + zlen (cf_name f))) 4 ltac:(lia)).
  pose proof (Z.mod_pos_bound (- zlen (cf_data f)) 4 ltac:(lia)).
  destruct Hwf as [_ _ _ Hname Hnl Hdl].
  unfold cpio_parse_header, sizeof_cpio_header, c_magic_off, c_filesize_off, c_namesize_off.
  destruct (Z.ltb_spec len 110); [lia|]. rewrite Z.add_0_r, (magic_ok _ _ A1). cbn [mbind option_bind Z.eqb negb].
  rewrite (parse_hex_ok _ _ _ _ A2) by lia. cbn [mbind option_bind].
  rewrite (parse_hex_ok _ _ _ _ A3) by lia. cbn [mbind option_bind].
  rewrite uw_small by (unfold is_uw; lia).
  destruct (Z.ltb_spec len (110 + (zlen (cf_name f) + 1) + zlen (cf_data f))); [lia|].
  rewrite (uw_small 64 (_ - 1)) by (unfold is_uw; lia). rewrite uw_small by (unfold is_uw; lia).
  replace (zlen (cf_name f) + 1 - 1) with (zlen (cf_name f)) by lia.
  rewrite (at_ld _ _ _ A4) by lia.
  rewrite (list_lookup_middle (cf_name f) l3 0) by (unfold zlen; lia).
  cbn [mbind option_bind Z.eqb negb].
  assert (F : (if 11 <=? zlen (cf_name f) + 1
      then c ← cpio_strncmp r (h + 110) (CPIO_FOOTER_MAGIC ++ [0]) 11; Some (c =? 0) else Some false)
      = Some (bool_decide (cf_name f = CPIO_FOOTER_MAGIC))).
  { destruct (Z.leb_spec 11 (zlen (cf_name f) + 1)).
    - destruct (strncmp_ok (cf_name f) CPIO_FOOTER_MAGIC l3 (h + 110) 11 Hname) as (c & -> & Hc); [|done|cbn; lia|].
      + apply footer_no_nul.
      + cbn. f_equal. destruct (Z.eqb_spec c 0); case_bool_decide; tauto.
    - rewrite bool_decide_eq_false_2; [done|]. intros E.
      assert (zlen (cf_name f) = 10) by (by rewrite E). lia. }
  rewrite F. cbn [mbind option_bind]. case_bool_decide as E; [by rewrite decide_True|rewrite decide_False by done].
  unfold CPIO_ALIGNMENT. rewrite !align_up_4, !round4 by lia.
  assert (EM : forall x, (- (h + x)) mod 4 = (- x) mod 4).
  { intros x. Z.to_euclidean_division_equations. lia. }
  rewrite EL. set (x := 111 + zlen (cf_name f)) in *.
  replace (h + 110 + (zlen (cf_name f) + 1)) with (h + x) by lia. rewrite EM.
  replace (h + x + (- x) mod 4 + zlen (cf_data f)) with (h + (x + (- x) mod 4 + zlen (cf_data f))) by lia.
  rewrite (align_up_4 (h + _)), round4, EM by lia. replace ((- (x + (- x) mod 4 + zlen (cf_data f))) mod 4) with ((- zlen (cf_data f)) mod 4)
    by (clearbody x; Z.to_euclidean_division_equations; lia).
  do 4 f_equal; lia.
Qed.

(** ** Walking the archive *)

(** The archive holding [fs] starts at [h] and the code's [len] covers it. *)
Record archive_at (h len : Z) (t : cpio_file) (fs : list cpio_file) (l : list Z) : Prop := {
  ar_wf : Forall wf_file fs;
  ar_names : Forall not_trailer fs;
  ar_trailer : is_trailer t;
  ar_at : at_addr h (encode t fs ++ l);
  ar_pos : 0 <= h /\ h mod 4 = 0 /\ h + zlen (encode t fs) + 4 < 2 ^ 64;
  ar_len : zlen (encode t fs) <= len;
}.

Lemma encode_cons t f fs : encode t (f :: fs) = enc_file f ++ encode t fs.
Proof. unfold encode. rewrite fmap_cons. cbn [concat]. by rewrite <- app_assoc. Qed.

Definition info_of (h : Z) (f : cpio_file) : cpio_header_info :=
  HeaderInfo (h + 110) (zlen (cf_data f))
    (h + (111 + zlen (cf_name f) + (- (111 + zlen (cf_name f))) mod 4)) (h + zlen (enc_file f)).

Lemma archive_nil h len t l : archive_at h len t [] l -> cpio_parse_header r h len = Some (1, None).
Proof.
  intros [_ _ [Ht Hn] Hat (H0 & H4 & Hh) Hlen]. change (encode t []) with (enc_file t) in *.
  by rewrite (parse_header_ok h t l len Ht Hat), decide_True.
Qed.

Lemma archive_cons h len t f fs l : archive_at h len t (f :: fs) l ->
  cpio_parse_header r h len = Some (0, Some (info_of h f)) /\
  (exists l', at_addr (h + 110) (cf_name f ++ 0 :: l')) /\ (0 ∉ cf_name f) /\
  zlen (cf_name f) + 1 < 2 ^ 32 /\
  (exists l', at_addr (hi_data (info_of h f)) (cf_data f ++ l')) /\
  archive_at (h + zlen (enc_file f)) (cpio_len_next len h (h + zlen (enc_file f))) t fs l.
Proof.
  intros [Hwf Hnt Ht Hat (H0 & H4 & Hh) Hlen]. rewrite encode_cons in Hat, Hlen, Hh.
  rewrite zlen_app in Hlen, Hh. rewrite <- app_assoc in Hat.
  apply Forall_cons in Hwf as [Hf Hfs]. apply Forall_cons in Hnt as [Hn Hns].
  pose proof (zlen_nonneg (encode t fs)). pose proof (zlen_nonneg (enc_file f)).
  rewrite (parse_header_ok h f (encode t fs ++ l) len) by (done || lia). rewrite decide_False by done.
  destruct (entry_at h f _ Hf Hat) as (_ & _ & _ & A4 & A5 & A6).
  pose proof (zlen_enc_file f Hf) as EL. pose proof (zlen_nonneg (cf_name f)). pose proof (zlen_nonneg (cf_data f)).
  pose proof (wf_name _ Hf). pose proof (wf_name_len _ Hf). split_and!; try done.
  split; try done.
  - split_and!; [lia| |lia]. rewrite EL. Z.to_euclidean_division_equations. lia.
  - unfold cpio_len_next. replace (h + zlen (enc_file f) - h) with (zlen (enc_file f)) by lia.
    rewrite uw_small by (unfold is_uw; lia). zcase; lia.
Qed.

(** The first entry called [name] is found, with its content. *)
Lemma get_file_loop_ok name t l : 0 ∉ name -> forall fs h len fuel,
  archive_at h len t fs l -> (length fs < fuel)%nat ->
  match list_find (fun f => cf_name f = name) fs with
  | Some (_, f) => exists i l', get_file_loop fuel r h len (name ++ [0]) = Some (Some i) /\
      hi_filesize i = zlen (cf_data f) /\ at_addr (hi_data i) (cf_data f ++ l')
  | None => get_file_loop fuel r h len (name ++ [0]) = Some None
  end.
Proof.
  intros Hname. induction fs as [|f fs IH]; intros h len fuel Har Hfuel; (destruct fuel as [|fuel]; [cbn in Hfuel; lia|]);
    cbn [get_file_loop list_find].
  - by rewrite (archive_nil _ _ _ _ Har).
  - destruct (archive_cons _ _ _ _ _ _ Har) as (-> & (l1 & A1) & Hf & _ & (l2 & A2) & Har').
    cbn [mbind option_bind hi_filename info_of].
    destruct (strncmp_ok (cf_name f) name l1 (h + 110) (length (name ++ [0])) Hf Hname A1) as (c & E & Hc);
      [rewrite length_app; cbn; lia|].
    unfold cpio_strncmp_max. rewrite E. cbn [mbind option_bind].
    destruct (Z.eqb_spec c 0) as [Hc0|Hc0]; destruct (decide (cf_name f = name)) as [Hn|Hn]; try tauto.
    + by exists (info_of h f), l2.
    + cbn [hi_next]. specialize (IH _ _ fuel Har' ltac:(cbn in Hfuel; lia)).
      destruct (list_find (fun f => cf_name f = name) fs) as [[k g]|]; cbn; [|exact IH]. exact IH.
Qed.

Lemma get_entry_loop_ok t l n : forall fs h len, archive_at h len t fs l ->
  match fs !! n with
  | Some f => exists i l1 l2, get_entry_loop r h len n = Some (Some i) /\
      hi_filesize i = zlen (cf_data f) /\ at_addr (hi_data i) (cf_data f ++ l1) /\
      at_addr (hi_filename i) (cf_name f ++ 0 :: l2)
  | None => get_entry_loop r h len n = Some None
  end.
Proof.
  induction n as [|n IH]; intros [|f fs] h len Har; cbn [get_entry_loop lookup list_lookup].
  1, 3: by rewrite (archive_nil _ _ _ _ Har).
  all: destruct (archive_cons _ _ _ _ _ _ Har) as (-> & (l1 & A1) & _ & _ & (l2 & A2) & Har');
    cbn [mbind option_bind].
  - by exists (info_of h f), l2, l1.
  - cbn [hi_next info_of]. exact (IH fs _ _ Har').
Qed.

Definition info_add (i : cpio_info_t) (f : cpio_file) : cpio_info_t :=
  CpioInfo (u32 (file_count i + 1)) (Z.max (max_path_sz i) (zlen (cf_name f))).

Lemma info_loop_ok t l : forall fs h len fuel i,
  archive_at h len t fs l -> (length fs < fuel)%nat ->
  cpio_info_loop fuel r h len i = Some (0, fold_left info_add fs i).
Proof.
  induction fs as [|f fs IH]; intros h len fuel i Har Hfuel; (destruct fuel as [|fuel]; [cbn in Hfuel; lia|]);
    cbn [cpio_info_loop fold_left].
  - by rewrite (archive_nil _ _ _ _ Har).
  - destruct (archive_cons _ _ _ _ _ _ Har) as (-> & (l1 & A1) & Hf & Hn & _ & Har').
    cbn [mbind option_bind hi_filename hi_next info_of]. unfold cpio_strlen, strlen.
    rewrite (from_cstr _ _ _ _ Hf A1). cbn. pose proof (zlen_nonneg (cf_name f)).
    rewrite (uw_small 32 (zlen (cf_name f))) by (unfold is_uw; lia). rewrite IH by (done || (cbn in Hfuel; lia)).
    do 3 f_equal. unfold info_add. f_equal. zcase; lia.
Qed.

Lemma ls_ok t l : forall fs bufs h len, archive_at h len t fs l ->
  Forall2 (fun f b => zlen (cf_name f) <= zlen b) (take (length bufs) fs) (take (length fs) bufs) ->
  cpio_ls r h len bufs =
    Some (zip_with (fun f b => cf_name f ++ drop (length (cf_name f)) b) fs bufs ++ drop (length fs) bufs).
Proof.
  induction fs as [|f fs IH]; intros [|b bufs] h len Har Hb; cbn [cpio_ls zip_with length drop app]; try done.
  - by rewrite (archive_nil _ _ _ _ Har).
  - destruct (archive_cons _ _ _ _ _ _ Har) as (-> & (l1 & A1) & Hf & Hn & _ & Har').
    cbn [length take] in Hb. apply Forall2_cons in Hb as [Hb Hbs].
    cbn [mbind option_bind hi_filename hi_next info_of]. unfold cpio_strcpy.
    rewrite (from_cstr _ _ _ _ Hf A1). cbn [mbind option_bind]. unfold wrn.
    pose proof (zlen_nonneg (cf_name f)). zcase; try lia. cbn [andb].
    cbn [mbind option_bind]. rewrite (IH bufs _ _ Har' Hbs). done.
Qed.
End Reader.

(** ** A loaded archive *)

(** The initial RAM disk holding [fs], at a 4-aligned address, with anything behind it. *)
Record loaded (r : region) (t : cpio_file) (fs : list cpio_file) (l : list Z) : Prop := {
  ld_bytes : r_bytes r = encode t fs ++ l;
  ld_wf : Forall wf_file fs;
  ld_names : Forall not_trailer fs;
  ld_trailer : is_trailer t;
  ld_base : 0 <= r_base r /\ r_base r mod 4 = 0 /\ r_base r + zlen (r_bytes r) + 4 < 2 ^ 64;
}.

Lemma loaded_archive r t fs l len : loaded r t fs l -> zlen (encode t fs) <= len ->
  archive_at r (r_base r) len t fs l.
Proof.
  intros [Eb Hwf Hn Ht (H0 & H4 & H1)] Hlen. rewrite Eb, zlen_app in H1. pose proof (zlen_nonneg l).
  split; try done.
  - unfold at_addr, from. rewrite Z.sub_diag, Eb. pose proof (zlen_nonneg (encode t fs ++ l)). split; [lia|done].
  - split_and!; lia.
Qed.

Lemma encode_length t fs : (length fs <= length (encode t fs))%nat.
Proof.
  induction fs as [|f fs IH]; [cbn; lia|]. rewrite encode_cons, length_app.
  assert (0 < length (enc_file f))%nat; [|cbn; lia]. unfold enc_file. rewrite length_app. cbn. lia.
Qed.

Lemma loaded_fuel r t fs l : loaded r t fs l -> (length fs < cpio_fuel r)%nat.
Proof.
  intros [Eb _ _ _ _]. unfold cpio_fuel. rewrite Eb, length_app. pose proof (encode_length t fs). lia.
Qed.

(** ** Properties *)

Lemma get_file_spec r t fs l len name : loaded r t fs l -> zlen (encode t fs) <= len -> 0 ∉ name ->
  match list_find (fun f => cf_name f = name) fs with
  | Some (_, f) => exists a,
      cpio_get_file r (r_base r) len (name ++ [0]) = Some (Some (a, zlen (cf_data f))) /\
      rdn (r_bytes r) (a - r_base r) (zlen (cf_data f)) = Some (cf_data f)
  | None => cpio_get_file r (r_base r) len (name ++ [0]) = Some None
  end.
Proof.
  intros Hl Hlen Hname. pose proof (get_file_loop_ok r name t l Hname fs _ _ _ (loaded_archive _ _ _ _ _ Hl Hlen) (loaded_fuel _ _ _ _ Hl)) as H.
  unfold cpio_get_file. destruct (list_find _ fs) as [[k f]|].
  - destruct H as (i & l' & E & Hs & Hat). exists (hi_data i). rewrite E. cbn. rewrite Hs.
    split; [done|]. exact (from_rdn _ _ _ _ Hat).
  - by rewrite H.
Qed.

(** C8: A "newc" archive with the files [fs] (hexadecimal digits in either case,
    any trailer entry, anything behind it) lies at an address divisible by 4 and
    at least 4 bytes below 2 ^ 64, and [len] covers it: then for a name without
    NUL [cpio_get_file] terminates and returns the address and the size of the
    first entry with that name, the bytes there being the entry's content; when
    there is none it returns NULL. *)
Theorem cpio_get_file_correct r t fs l len name : loaded r t fs l -> zlen (encode t fs) <= len -> 0 ∉ name ->
  match list_find (fun f => cf_name f = name) fs with
  | Some (_, f) => exists a,
      cpio_get_file r (r_base r) len (name ++ [0]) = Some (Some (a, zlen (cf_data f))) /\
      rdn (r_bytes r) (a - r_base r) (zlen (cf_data f)) = Some (cf_data f)
  | None => cpio_get_file r (r_base r) len (name ++ [0]) = Some None
  end.
Proof. apply get_file_spec. Qed.

(** [cpio_get_entry] returns name, size and content of the n-th entry, and
    NULL past the last one. *)
Theorem cpio_get_entry_correct r t fs l len n : loaded r t fs l -> zlen (encode t fs) <= len -> 0 <= n ->
  match fs !! Z.to_nat n with
  | Some f => exists i,
      cpio_get_entry r (r_base r) len n = Some (Some i) /\
      hi_filesize i = zlen (cf_data f) /\ cstr (r_bytes r) (hi_filename i - r_base r) = Some (cf_name f) /\
      rdn (r_bytes r) (hi_data i - r_base r) (hi_filesize i) = Some (cf_data f)
  | None => cpio_get_entry r (r_base r) len n = Some None
  end.
Proof.
  intros Hl Hlen Hn. pose proof (get_entry_loop_ok r t l (Z.to_nat n) fs _ _ (loaded_archive _ _ _ _ _ Hl Hlen)) as H.
  unfold cpio_get_entry. destruct (Z.ltb_spec n 0); [lia|]. destruct (fs !! Z.to_nat n) as [f|] eqn:Ef; [|done].
  destruct H as (i & l1 & l2 & E & Hs & Hd & Hf). exists i. rewrite Hs. split_and!; try done.
  - apply (from_cstr _ _ _ l2); [|done]. apply wf_name.
    apply (Forall_lookup_1 wf_file fs (Z.to_nat n)); [exact (ld_wf _ _ _ _ Hl)|done].
  - exact (from_rdn _ _ _ _ Hd).
Qed.

Lemma info_spec r t fs l len i : loaded r t fs l -> zlen (encode t fs) <= len -> zlen fs < 2 ^ 32 ->
  cpio_info r (r_base r) len (Some i) =
    Some (0, Some (CpioInfo (zlen fs) (foldr (fun f => Z.max (zlen (cf_name f))) 0 fs))).
Proof.
  intros Hl Hlen Hn. unfold cpio_info. rewrite (info_loop_ok r t l fs _ _ _ _ (loaded_archive _ _ _ _ _ Hl Hlen) (loaded_fuel _ _ _ _ Hl)).
  cbn. do 3 f_equal. clear i Hl Hlen. cut (forall c m, 0 <= c -> 0 <= m -> c + zlen fs < 2 ^ 32 ->
    fold_left info_add fs (CpioInfo c m) = CpioInfo (c + zlen fs) (Z.max m (foldr (fun f => Z.max (zlen (cf_name f))) 0 fs))).
  { intros H. rewrite H by lia. f_equal. apply Z.max_r. clear. induction fs as [|f fs IH]; cbn; lia. }
  induction fs as [|f fs IH]; intros c m Hc Hm Hb; cbn [fold_left foldr].
  - f_equal; rewrite ?zlen_nil; lia.
  - rewrite zlen_cons in *. pose proof (zlen_nonneg fs). pose proof (zlen_nonneg (cf_name f)).
    unfold info_add at 2. cbn [file_count max_path_sz]. rewrite uw_small by (unfold is_uw; lia).
    rewrite IH by lia. f_equal; lia.
Qed.

(** [cpio_info] accepts every well-formed archive and reports its number of
    entries and the length of its longest name. *)
Theorem cpio_info_correct r t fs l len i : loaded r t fs l -> zlen (encode t fs) <= len -> zlen fs < 2 ^ 32 ->
  cpio_info r (r_base r) len (Some i) =
    Some (0, Some (CpioInfo (zlen fs) (foldr (fun f => Z.max (zlen (cf_name f))) 0 fs))).
Proof. apply info_spec. Qed.

(** [cpio_ls] copies the names of the entries, in order, over the start of
    the caller's buffers (without a terminating NUL) and leaves the buffers past
    the last entry alone. *)
Theorem cpio_ls_correct r t fs l len bufs : loaded r t fs l -> zlen (encode t fs) <= len ->
  Forall2 (fun f b => zlen (cf_name f) <= zlen b) (take (length bufs) fs) (take (length fs) bufs) ->
  cpio_ls r (r_base r) len bufs =
    Some (zip_with (fun f b => cf_name f ++ drop (length (cf_name f)) b) fs bufs ++ drop (length fs) bufs).
Proof. intros Hl Hlen. apply (ls_ok r t l). by apply loaded_archive. Qed.

(** The reader does not shrink the remaining length ([cpio_len_next] returns
    [len], not [len - diff]): on an archive cut off behind its first entry it
    reads the next header outside the buffer. *)
Theorem cpio_get_file_overread r f name : wf_file f -> not_trailer f -> 0 ∉ name -> name <> cf_name f ->
  r_bytes r = enc_file f -> 0 <= r_base r -> r_base r mod 4 = 0 -> r_base r + zlen (r_bytes r) + 4 < 2 ^ 64 ->
  cpio_get_file r (r_base r) (zlen (r_bytes r)) (name ++ [0]) = None.
Proof.
  intros Hwf Hnt Hname Hne Eb H0 H4 H1. rewrite Eb in *.
  assert (Hat : at_addr r (r_base r) (enc_file f ++ [])).
  { unfold at_addr, from. rewrite Z.sub_diag, Eb, app_nil_r. pose proof (zlen_nonneg (enc_file f)). split; [lia|done]. }
  unfold cpio_get_file, cpio_fuel. cbn [get_file_loop].
  rewrite (parse_header_ok r (r_base r) f [] (zlen (enc_file f))) by (done || lia).
  rewrite decide_False by done. cbn [mbind option_bind hi_filename hi_next].
  destruct (entry_at r (r_base r) f [] Hwf Hat) as (_ & _ & _ & (l1 & A1) & _ & A2).
  destruct (strncmp_ok r (cf_name f) name l1 (r_base r + 110) (length (name ++ [0])) (wf_name _ Hwf) Hname A1)
    as (c & E & Hc); [rewrite length_app; cbn; lia|].
  unfold cpio_strncmp_max. rewrite E. cbn [mbind option_bind].
  destruct (Z.eqb_spec c 0) as [Hc0|]; [by apply Hc in Hc0|].
  assert (Hlong : 110 < zlen (enc_file f)).
  { rewrite zlen_enc_file by done. pose proof (zlen_nonneg (cf_name f)). pose proof (zlen_nonneg (cf_data f)).
    Z.to_euclidean_division_equations. lia. }
  rewrite Eb. destruct (length (enc_file f)) as [|n'] eqn:EL; [unfold zlen in Hlong; lia|]. cbn [get_file_loop].
  unfold cpio_len_next. rewrite uw_small by (unfold is_uw; lia).
  destruct (Z.ltb_spec (zlen (enc_file f)) (r_base r + zlen (enc_file f) - r_base r)); [lia|].
  unfold cpio_parse_header at 1, sizeof_cpio_header, c_magic_off.
  destruct (Z.ltb_spec (zlen (enc_file f)) 110); [lia|]. rewrite Z.add_0_r. cbn [cpio_strncmp].
  rewrite <- (Z.add_0_r (r_base r + zlen (enc_file f))). by rewrite (at_ld r _ _ 0 A2).
Qed.

(** ** A small archive *)

(** The entries as cpio writes them: digits in upper case, and one link. *)
Definition plain_file (name : string) (data : list Z) : cpio_file :=
  CpioFile (replicate 48 48) (replicate 32 48) (replicate 8 48) (fun _ => true) (byte_list name) data.
Definition trailer : cpio_file :=
  CpioFile (replicate 31 48 ++ [49] ++ replicate 16 48) (replicate 32 48) (replicate 8 48) (fun _ => true) CPIO_FOOTER_MAGIC [].
Lemma trailer_ok : is_trailer trailer.
Proof. split; [|done]. split; [reflexivity..|apply footer_no_nul|reflexivity|reflexivity]. Qed.

Definition sample_fs : list cpio_file := [plain_file "init" [1; 2; 3]; plain_file "etc/rc" [7]].
Definition sample_region : region := Region 0x84000000 (encode trailer sample_fs).

Lemma sample_loaded : loaded sample_region trailer sample_fs [].
Proof.
  split.
  - by rewrite app_nil_r.
  - repeat constructor; apply (bool_decide_unpack (0 ∉ _)); by vm_compute.
  - repeat constructor; by vm_compute.
  - apply trailer_ok.
  - vm_compute. split_and!; done.
Qed.

Lemma cpio_get_file_witness : exists a,
  cpio_get_file sample_region 0x84000000 (zlen (encode trailer sample_fs)) (byte_list "etc/rc" ++ [0]) = Some (Some (a, 1)) /\
  rdn (r_bytes sample_region) (a - 0x84000000) 1 = Some [7].
Proof.
  refine (cpio_get_file_correct sample_region trailer sample_fs [] (zlen (encode trailer sample_fs)) (byte_list "etc/rc") sample_loaded ltac:(lia) _).
  apply (bool_decide_unpack (0 ∉ _)). by vm_compute.
Defined.

Lemma cpio_get_entry_witness : exists i,
  cpio_get_entry sample_region 0x84000000 (zlen (encode trailer sample_fs)) 0 = Some (Some i) /\ hi_filesize i = 3.
Proof.
  destruct (cpio_get_entry_correct sample_region trailer sample_fs [] (zlen (encode trailer sample_fs)) 0 sample_loaded ltac:(lia) ltac:(lia)) as (i & E & H & _).
  exists i. split; [exact E|exact H].
Defined.

Lemma cpio_info_witness :
  cpio_info sample_region 0x84000000 (zlen (encode trailer sample_fs)) (Some (CpioInfo 0 0)) = Some (0, Some (CpioInfo 2 6)).
Proof. apply (cpio_info_correct sample_region trailer sample_fs [] (zlen (encode trailer sample_fs)) (CpioInfo 0 0) sample_loaded ltac:(lia)). by vm_compute. Defined.

Lemma cpio_ls_witness :
  cpio_ls sample_region 0x84000000 (zlen (encode trailer sample_fs)) [replicate 6 9; replicate 6 9; [9]] =
    Some [byte_list "init" ++ [9; 9]; byte_list "etc/rc"; [9]].
Proof.
  etransitivity; [apply (cpio_ls_correct sample_region trailer sample_fs [] (zlen (encode trailer sample_fs)) [replicate 6 9; replicate 6 9; [9]] sample_loaded ltac:(lia))|].
  - repeat constructor; by vm_compute.
  - reflexivity.
Defined.

Lemma cpio_get_file_overread_witness :
  cpio_get_file (Region 0x84000000 (enc_file (plain_file "init" [1; 2; 3]))) 0x84000000
    (zlen (enc_file (plain_file "init" [1; 2; 3]))) (byte_list "sh" ++ [0]) = None.
Proof.
  apply (cpio_get_file_overread (Region 0x84000000 (enc_file (plain_file "init" [1; 2; 3])))
           (plain_file "init" [1; 2; 3]) (byte_list "sh")).
  - repeat constructor; apply (bool_decide_unpack (0 ∉ _)); by vm_compute.
  - by vm_compute.
  - apply (bool_decide_unpack (0 ∉ _)). by vm_compute.
  - by vm_compute.
  - reflexivity.
  - by vm_compute.
  - reflexivity.
  - by vm_compute.
Defined.
