(* ===== verification/Vfs.v ===== *)
(** The virtual file system, src/kernel/inc/k_vfs.h and src/kernel/main/k_vfs.cpp.

    [BasicFS] is the interface a file system implements; [VirtualFS] keeps the
    registered factories, the mount table and the table of open descriptors.
    Objects live in a heap of instances, so that a pointer to a deleted instance
    dangles.  The model is sequential: [mount], [umount], [open] and [close] hold [_fs_lock]
    throughout, [read], [write] and [lseek] only while they look the descriptor up; the lock
    is the subject of Lock.v. *)
From S2P Require Import Prelude KDefs Bytes.

Definition FILE_STDIN : Z := 0.
Definition FILE_STDOUT : Z := 1.
Definition FILE_STDERR : Z := 2.
Definition SEEK_SET : Z := 0.
Definition SEEK_CUR : Z := 1.
Definition SEEK_END : Z := 2.

(** The virtual methods of [BasicFS] over an instance state [T]; a path is the
    string without its NUL, a buffer the list of its bytes. *)
Record BasicFS (T : Type) := {
  fs_open : list Z -> Z -> Z -> T -> option (Z * T);
  fs_close : Z -> T -> option (Z * T);
  fs_read : Z -> list Z -> Z -> T -> option (Z * list Z * T);
  fs_write : Z -> list Z -> Z -> T -> option (Z * T);
  fs_lseek : Z -> Z -> Z -> T -> option (Z * T);
  fs_fstat : Z -> T -> option (Z * T);
}.
Arguments fs_open {T}.
Arguments fs_close {T}.
Arguments fs_read {T}.
Arguments fs_write {T}.
Arguments fs_lseek {T}.
Arguments fs_fstat {T}.

(** ** The console behind descriptor 1

    [c_dbcn] is the static [support_dbcn] (-1 until probed), [c_switched] is
    [k_stdout_switched]; the firmware calls made are recorded. *)
Inductive ecall :=
  | ProbeExt (ext : Z)
  | ConsoleWrite (size addr : Z)
  | ConsolePutchar (c : Z).

Record console := Console {
  c_dbcn : Z;
  c_switched : bool;
  c_trace : list ecall;
}.

Definition emit (e : ecall) (c : console) : console :=
  Console (c_dbcn c) (c_switched c) (c_trace c ++ [e]).

(** [probe]: the value the firmware returns for the probe call;
    [stdout_func]: [k_stdout_func], which a driver installs. *)
Section Console.
  Variable probe : Z.
  Variable stdout_func : list Z -> Z -> Z.

Definition write_stdout (addr : Z) (buf : list Z) (size : Z) : M console Z := fun c =>
  let c := if c_dbcn c <? 0 then Console (s32 probe) (c_switched c) (c_trace c ++ [ProbeExt SBI_EXT_DBCN]) else c in
  if c_switched c then Some (stdout_func buf size, c)
  else if 0 <? c_dbcn c then Some (size, emit (ConsoleWrite size (Z.land addr 0xffffffff)) c)
  else
    match rdn buf 0 (Z.max 0 size) with
    | Some l => Some (size, fold_left (fun c b => emit (ConsolePutchar b) c) l c)
    | None => None
    end.
End Console.

Section VirtualFS.
  Context {T : Type} (F : BasicFS T).

(** The instances, by address. *)
Local Abbreviation fs_heap := (gmap Z T).

(** A registered file system: the functions that make and delete an instance.
    A new instance is a return code and a pointer. *)
Record factory := Factory {
  fc_name : list Z;
  fc_new : option (list Z -> fs_heap -> option (Z * Z * fs_heap));
  fc_delete : option (Z -> fs_heap -> option (Z * fs_heap));
}.

Record vfs := Vfs {
  v_map : gmap (list Z) (Z * (Z -> fs_heap -> option (Z * fs_heap)));  (** [_fs_map] *)
  v_factories : list factory;                                          (** [_fs_factories] *)
  v_fds : gmap Z (Z * Z);                                              (** [_global_fd_map] *)
  v_counter : Z;                                                       (** [_global_fd_counter] *)
  v_heap : fs_heap;
  v_con : console;
}.

Definition vfs_init : vfs := Vfs ∅ [] ∅ 3 ∅ (Console (-1) false []).

Definition set_map m s := Vfs m (v_factories s) (v_fds s) (v_counter s) (v_heap s) (v_con s).
Definition set_factories f s := Vfs (v_map s) f (v_fds s) (v_counter s) (v_heap s) (v_con s).
Definition set_fds f s := Vfs (v_map s) (v_factories s) f (v_counter s) (v_heap s) (v_con s).
Definition set_counter c s := Vfs (v_map s) (v_factories s) (v_fds s) c (v_heap s) (v_con s).
Definition set_heap h s := Vfs (v_map s) (v_factories s) (v_fds s) (v_counter s) h (v_con s).
Definition set_con c s := Vfs (v_map s) (v_factories s) (v_fds s) (v_counter s) (v_heap s) c.

(** A virtual call on the object at [p]; undefined on a dangling pointer. *)
Definition vcall {R} (p : Z) (f : T -> option (R * T)) : M vfs R := fun s =>
  match v_heap s !! p with
  | None => None
  | Some t => match f t with
              | None => None
              | Some (r, t') => Some (r, set_heap (<[p := t']> (v_heap s)) s)
              end
  end.

Definition registerFS (fs_name : list Z) nf df : M vfs Z := fun s =>
  match nf, df with
  | Some _, Some _ => Some (0, set_factories (v_factories s ++ [Factory fs_name nf df]) s)
  | _, _ => Some (K_EINVAL, s)
  end.

(** Erases the first factory of that name. *)
Fixpoint erase_factory (fs_name : list Z) (l : list factory) : option (list factory) :=
  match l with
  | [] => None
  | f :: l => if bool_decide (fc_name f = fs_name) then Some l
              else cons f <$> erase_factory fs_name l
  end.
Definition unregisterFS (fs_name : list Z) : M vfs Z := fun s =>
  match erase_factory fs_name (v_factories s) with
  | Some l => Some (0, set_factories l s)
  | None => Some (K_ENOENT, s)
  end.

(** The loop of [open] over the mount table: the longest mount point that is a
    prefix of the path, with its length. *)
Definition pick_mount (path : list Z) (acc : Z * option Z) (x : list Z * Z) : Z * option Z :=
  let '(max_len, fs) := acc in
  if bool_decide (x.1 `prefix_of` path) then
    if max_len <? zlen x.1 then (zlen x.1, Some x.2) else (max_len, fs)
  else (max_len, fs).
Definition lookup_mount (path : list Z) (s : vfs) : Z * option Z :=
  fold_left (pick_mount path) (prod_map id fst <$> map_to_list (v_map s)) (0, None).

(** [std::map::insert]: an existing key keeps its value. *)
Definition map_insert {K A} `{Countable K} (k : K) (v : A) (m : gmap K A) : gmap K A :=
  match m !! k with Some _ => m | None => <[k := v]> m end.

Definition open (path : list Z) (flags mode : Z) : M vfs Z := fun s =>
  let '(max_len, fs) := lookup_mount path s in
  match fs with
  | Some fs =>
      (ret ← vcall fs (fs_open F (drop (Z.to_nat max_len) path) flags mode);
       if 0 <=? ret then
         s ← get;
         let fd := v_counter s in
         modify (set_counter (s32 (fd + 1))) ≫= fun _ =>
         modify (fun s => set_fds (map_insert fd (fs, ret) (v_fds s)) s) ≫= fun _ =>
         mret fd
       else mret ret) s
  | None => Some (K_ENOENT, s)
  end.

Definition close (fd : Z) : M vfs Z := fun s =>
  match v_fds s !! fd with
  | Some (fs, lfd) =>
      (ret ← vcall fs (fs_close F lfd);
       if ret =? K_OK then modify (fun s => set_fds (delete fd (v_fds s)) s) ≫= fun _ => mret ret
       else mret ret) s
  | None => Some (K_ENOENT, s)
  end.

(** [count] is an [int]; the method takes a [size_t]. *)
Definition read (fd : Z) (buf : list Z) (count : Z) : M vfs (Z * list Z) := fun s =>
  if fd =? FILE_STDIN then Some ((0, buf), s)
  else match v_fds s !! fd with
       | Some (fs, lfd) => vcall fs (fs_read F lfd buf (u64 count)) s
       | None => Some ((K_ENOENT, buf), s)
       end.

Definition write (probe : Z) (stdout_func : list Z -> Z -> Z) (fd addr : Z) (buf : list Z) (count : Z)
    : M vfs Z := fun s =>
  if fd =? FILE_STDOUT then
    match write_stdout probe stdout_func addr buf count (v_con s) with
    | Some (r, c) => Some (r, set_con c s)
    | None => None
    end
  else match v_fds s !! fd with
       | Some (fs, lfd) => vcall fs (fs_write F lfd buf (u64 count)) s
       | None => Some (K_ENOENT, s)
       end.

Definition lseek (fd offset whence : Z) : M vfs Z := fun s =>
  if (fd =? FILE_STDIN) || (fd =? FILE_STDOUT) || (fd =? FILE_STDERR) then Some (K_ENOTSUPP, s)
  else match v_fds s !! fd with
       | Some (fs, lfd) => vcall fs (fs_lseek F lfd offset whence) s
       | None => Some (K_ENOENT, s)
       end.

Definition fstat (fd : Z) : M vfs Z := mret (-1).

(** The loop of [mount] over the factories. *)
Fixpoint mount_loop (path devicePath : list Z) (fs_name : option (list Z)) (l : list factory) : M vfs Z := fun s =>
  match l with
  | [] => Some (K_ENOTSUPP, s)
  | f :: l =>
      if bool_decide (fs_name = None \/ fs_name = Some (fc_name f)) then
        match fc_new f, fc_delete f with
        | Some nf, Some df =>
            match nf devicePath (v_heap s) with
            | None => None
            | Some (ret, p, h) =>
                let s := set_heap h s in
                if ret =? K_OK then Some (0, set_map (map_insert path (p, df) (v_map s)) s)
                else if negb (ret =? K_ENOTSUPP) then Some (ret, s)
                else mount_loop path devicePath fs_name l s
            end
        | _, _ => None  (* an empty std::function throws *)
        end
      else mount_loop path devicePath fs_name l s
  end.
Definition mount (path devicePath : list Z) (flags mode : Z) (fs_name : option (list Z)) : M vfs Z := fun s =>
  mount_loop path devicePath fs_name (v_factories s) s.

Definition umount (path : list Z) : M vfs Z := fun s =>
  match v_map s !! path with
  | Some (p, df) =>
      match df p (v_heap s) with
      | None => None
      | Some (_, h) => Some (0, set_map (delete path (v_map s)) (set_heap h s))
      end
  | None => Some (K_ENOTSUPP, s)
  end.

(** The system calls of the C library (libc_hooks.cpp), which hand their
    arguments on. *)
Definition _write probe stdout_func (fd addr : Z) (buf : list Z) (size : Z) : M vfs Z :=
  write probe stdout_func fd addr buf size.
Definition _read (fd : Z) (buf : list Z) (size : Z) : M vfs (Z * list Z) := read fd buf size.
Definition _close (fd : Z) : M vfs Z := close fd.
Definition _open (path : list Z) (flags mode : Z) : M vfs Z := open path flags mode.
Definition _lseek (fd offset whence : Z) : M vfs Z := lseek fd offset whence.
Definition _fstat (fd : Z) : M vfs Z := fstat fd.
End VirtualFS.

(** ** What a file system promises

    [files] is the content a path names, [view] the open descriptors with the
    content they read and their position, [cap] how many there can be. *)
Class FsSpec {T} (F : BasicFS T) (inv : T -> Prop) (files : T -> list Z -> option (list Z))
    (view : T -> gmap Z (list Z * Z)) (cap : T -> Z) : Prop := {
  spec_pos t fd c pos : inv t -> view t !! fd = Some (c, pos) -> 0 <= pos <= zlen c;
  spec_open t path flags mode : inv t -> 0 ∉ path ->
    exists ret t', fs_open F path flags mode t = Some (ret, t') /\ inv t' /\ files t' = files t /\
      match files t path with
      | Some c => (0 <= ret < 2 ^ 31 /\ view t !! ret = None /\ view t' = <[ret := (c, 0)]> (view t)) \/
                  (ret = K_ENOMEM /\ view t' = view t /\ forall fd, 0 <= fd < cap t -> is_Some (view t !! fd))
      | None => - 2 ^ 31 <= ret < 0 /\ view t' = view t
      end;
  spec_close t fd c pos : inv t -> view t !! fd = Some (c, pos) ->
    exists t', fs_close F fd t = Some (K_OK, t') /\ inv t' /\ files t' = files t /\
      view t' = delete fd (view t);
  spec_read t fd c pos buf count : inv t -> view t !! fd = Some (c, pos) ->
    0 <= count < 2 ^ 31 -> count <= zlen buf ->
    let n := Z.min count (zlen c - pos) in
    exists t', fs_read F fd buf count t =
        Some (n, take (Z.to_nat n) (drop (Z.to_nat pos) c) ++ drop (Z.to_nat n) buf, t') /\
      inv t' /\ files t' = files t /\ view t' = <[fd := (c, pos + n)]> (view t);
  spec_lseek t fd c pos offset whence : inv t -> view t !! fd = Some (c, pos) -> is_sw 64 offset ->
    let target := if whence =? SEEK_SET then Some offset
                  else if whence =? SEEK_CUR then Some (pos + offset)
                  else if whence =? SEEK_END then Some (zlen c + offset) else None in
    exists t' ret, fs_lseek F fd offset whence t = Some (ret, t') /\ inv t' /\ files t' = files t /\
      match target with
      | Some p => if (0 <=? p) && (p <=? zlen c)
                  then ret = K_OK /\ view t' = <[fd := (c, p)]> (view t)
                  else ret = K_EINVAL /\ view t' = view t
      | None => ret = K_EINVAL /\ view t' = view t
      end;
}.
