(* ===== verification/CpioFs.v ===== *)
(** The read-only file system on a CPIO archive, src/kernel/driver/fs/cpiofs.cpp,
    and the stub src/kernel/driver/fs/devfs.cpp; CPIOFS is shown to keep the
    promises [FsSpec] of the file-system interface. *)
From S2P Require Import Prelude KDefs Bytes Cpio CpioProps Vfs.

Module CPIOFS.

Record fcb_t := Fcb {
  fcb_used : bool;
  fcb_file : Z;
  fcb_size : Z;
  fcb_lpos : Z;
}.

Definition MAX_FILES : Z := 1024.
Definition fcb_free : fcb_t := Fcb false 0 0 0.

Record t := CPIOFS {
  archive : region;       (** [_archive], the private copy *)
  archive_len : Z;        (** [_archive_len] *)
  info : option cpio_info_t;
  fcb : list fcb_t;
}.

(** The constructor; [p] is the address of the private copy, [Some None] is the
    exception it throws. *)
Definition new (r : region) (addr len p : Z) : option (option t) :=
  res ← cpio_info r addr len (Some (CpioInfo 0 0));
  if negb (fst res =? 0) then Some None
  else
    bytes ← rdn (r_bytes r) (addr - r_base r) len;
    Some (Some (CPIOFS (Region p bytes) len (snd res) (replicate (Z.to_nat MAX_FILES) fcb_free))).

(** The first control block that is not used. *)
Fixpoint first_free (l : list fcb_t) : option nat :=
  match l with
  | [] => None
  | f :: l => if negb (fcb_used f) then Some O else S <$> first_free l
  end.

Definition set_fcb (i : nat) (f : fcb_t) (s : t) : t :=
  CPIOFS (archive s) (archive_len s) (info s) (<[i := f]> (fcb s)).

Definition open (path : list Z) (flags mode : Z) (s : t) : option (Z * t) :=
  file ← cpio_get_file (archive s) (r_base (archive s)) (archive_len s) (path ++ [0]);
  match file with
  | None => Some (K_ENOENT, s)
  | Some (file, size) =>
      match first_free (fcb s) with
      | Some i => Some (Z.of_nat i, set_fcb i (Fcb true file size 0) s)
      | None => Some (K_ENOMEM, s)
      end
  end.

(** The control block of an open descriptor. *)
Definition get_fcb (fd : Z) (s : t) : option fcb_t :=
  if (MAX_FILES <=? fd) || (fd <? 0) then None
  else match fcb s !! Z.to_nat fd with
       | Some f => if negb (fcb_used f) then None else Some f
       | None => None
       end.

Definition close (fd : Z) (s : t) : option (Z * t) :=
  match get_fcb fd s with
  | None => Some (K_ENOENT, s)
  | Some _ => Some (K_OK, set_fcb (Z.to_nat fd) fcb_free s)
  end.

Definition read (fd : Z) (buf : list Z) (count : Z) (s : t) : option (Z * list Z * t) :=
  match get_fcb fd s with
  | None => Some (K_ENOENT, buf, s)
  | Some f =>
      let count := if fcb_size f <? u64 (fcb_lpos f + count) then u64 (fcb_size f - fcb_lpos f) else count in
      bytes ← rdn (r_bytes (archive s)) (fcb_file f + fcb_lpos f - r_base (archive s)) count;
      buf ← wrn buf 0 bytes;
      Some (s32 count, buf,
            set_fcb (Z.to_nat fd) (Fcb true (fcb_file f) (fcb_size f) (u64 (fcb_lpos f + count))) s)
  end.

Definition write (fd : Z) (buf : list Z) (count : Z) (s : t) : option (Z * t) := Some (-1, s).

Definition lseek (fd offset whence : Z) (s : t) : option (Z * t) :=
  match get_fcb fd s with
  | None => Some (K_ENOENT, s)
  | Some f =>
      let seek lpos := Some (K_OK, set_fcb (Z.to_nat fd) (Fcb true (fcb_file f) (fcb_size f) lpos) s) in
      if whence =? SEEK_SET then
        if offset <? 0 then Some (K_EINVAL, s)
        else if s64 (fcb_size f) <? offset then Some (K_EINVAL, s)
        else seek (u64 offset)
      else if whence =? SEEK_CUR then
        if u64 (fcb_lpos f + offset) <? 0 then Some (K_EINVAL, s)
        else if fcb_size f <? u64 (fcb_lpos f + offset) then Some (K_EINVAL, s)
        else seek (u64 (fcb_lpos f + offset))
      else if whence =? SEEK_END then
        if 0 <? offset then Some (K_EINVAL, s)
        else if offset <? - s64 (fcb_size f) then Some (K_EINVAL, s)
        else seek (u64 (fcb_size f + offset))
      else Some (K_EINVAL, s)
  end.

Definition fstat (fd : Z) (s : t) : option (Z * t) := Some (-1, s).

Definition ops : BasicFS t := {|
  fs_open := open; fs_close := close; fs_read := read;
  fs_write := write; fs_lseek := lseek; fs_fstat := fstat;
|}.

(** ** The invariant and the abstract view *)

Definition content (s : t) (f : fcb_t) : option (list Z) :=
  rdn (r_bytes (archive s)) (fcb_file f - r_base (archive s)) (fcb_size f).

Definition fcb_view (s : t) (f : fcb_t) : option (list Z * Z) :=
  if fcb_used f then (fun c => (c, fcb_lpos f)) <$> content s f else None.

Definition view (s : t) : gmap Z (list Z * Z) := omap (fcb_view s) (map_seqZ 0 (fcb s)).

Definition files (s : t) (path : list Z) : option (list Z) :=
  match cpio_get_file (archive s) (r_base (archive s)) (archive_len s) (path ++ [0]) with
  | Some (Some (a, size)) => rdn (r_bytes (archive s)) (a - r_base (archive s)) size
  | _ => None
  end.

Record inv (s : t) : Prop := {
  inv_archive : exists tr fs l, loaded (archive s) tr fs l /\ zlen (encode tr fs) <= archive_len s;
  inv_len : length (fcb s) = Z.to_nat MAX_FILES;
  inv_fcb i f : fcb s !! i = Some f -> fcb_used f = true ->
    is_Some (content s f) /\ 0 <= fcb_lpos f <= fcb_size f /\ fcb_size f < 2 ^ 32;
}.

Lemma lookup_view s fd : view s !! fd =
  if 0 <=? fd then fcb s !! Z.to_nat fd ≫= fcb_view s else None.
Proof.
  unfold view. rewrite lookup_omap, lookup_map_seqZ. destruct (Z.leb_spec 0 fd).
  - rewrite option_guard_True by lia. by rewrite Z.sub_0_r.
  - by rewrite option_guard_False by lia.
Qed.

(** An open descriptor, as the code sees it. *)
Lemma view_fcb s fd c pos : inv s -> view s !! fd = Some (c, pos) ->
  exists f, get_fcb fd s = Some f /\ fcb s !! Z.to_nat fd = Some f /\ content s f = Some c /\
    fcb_lpos f = pos /\ fcb_size f = zlen c /\ 0 <= pos <= zlen c /\ zlen c < 2 ^ 32 /\ 0 <= fd /\
    0 <= fcb_file f - r_base (archive s) /\ fcb_file f - r_base (archive s) + zlen c <= zlen (r_bytes (archive s)).
Proof.
  intros Hinv. rewrite lookup_view. destruct (Z.leb_spec 0 fd) as [H0|]; [|done].
  destruct (fcb s !! Z.to_nat fd) as [f|] eqn:Ef; cbn; [|done]. unfold fcb_view.
  destruct (fcb_used f) eqn:Eu; [|done]. destruct (content s f) as [c'|] eqn:Ec; cbn; [|done].
  intros [= -> <-]. exists f. destruct (inv_fcb _ Hinv _ _ Ef Eu) as (_ & Hp & Hs).
  pose proof Ec as Ec'. apply rdn_inv in Ec' as (? & ? & ? & Hlen & _). rewrite Hlen.
  apply lookup_lt_Some in Ef as Hlt. rewrite (inv_len _ Hinv) in Hlt.
  split_and!; try done; try lia. unfold get_fcb. rewrite Ef, Eu.
  destruct (Z.leb_spec MAX_FILES fd); [unfold MAX_FILES in *; lia|]. destruct (Z.ltb_spec fd 0); [lia|]. done.
Qed.

(** Replacing a control block by one that is free or open on the archive. *)
Lemma set_fcb_ok s i f : inv s -> (i < Z.to_nat MAX_FILES)%nat ->
  (fcb_used f = true -> is_Some (content s f) /\ 0 <= fcb_lpos f <= fcb_size f /\ fcb_size f < 2 ^ 32) ->
  inv (set_fcb i f s) /\ files (set_fcb i f s) = files s /\
  view (set_fcb i f s) = match fcb_view s f with
                         | Some v => <[Z.of_nat i := v]> (view s)
                         | None => delete (Z.of_nat i) (view s)
                         end.
Proof.
  intros [Ha Hl Hf] Hi Hok. split_and!.
  - split; [done|cbn; by rewrite length_insert|]. intros j g Hj Hu. cbn in Hj.
    apply list_lookup_insert_Some in Hj as [(-> & -> & _)|[_ Hj]]; [by apply Hok|by apply (Hf j)].
  - done.
  - assert (V : forall fd, view (set_fcb i f s) !! fd =
      if decide (fd = Z.of_nat i) then fcb_view s f else view s !! fd).
    { intros fd. rewrite !lookup_view. cbn [fcb set_fcb]. destruct (Z.leb_spec 0 fd).
      - destruct (decide (fd = Z.of_nat i)) as [->|Hne].
        + rewrite Nat2Z.id, list_lookup_insert_eq by lia. done.
        + rewrite list_lookup_insert_ne by lia. done.
      - by rewrite decide_False by lia. }
    apply map_eq. intros fd. rewrite V. destruct (decide (fd = Z.of_nat i)) as [->|Hne].
    + destruct (fcb_view s f); [by rewrite lookup_insert_eq|by rewrite lookup_delete_eq].
    + destruct (fcb_view s f); [by rewrite lookup_insert_ne|by rewrite lookup_delete_ne].
Qed.

Lemma first_free_spec l :
  match first_free l with
  | Some i => exists f, l !! i = Some f /\ fcb_used f = false
  | None => Forall (fun f => fcb_used f = true) l
  end.
Proof.
  induction l as [|f l IH]; cbn; [done|]. destruct (fcb_used f) eqn:Eu; cbn.
  - destruct (first_free l); cbn; [done|]. by constructor.
  - by exists f.
Qed.

Lemma open_ok s path flags mode : inv s -> 0 ∉ path ->
  exists ret s', open path flags mode s = Some (ret, s') /\ inv s' /\ files s' = files s /\
    match files s path with
    | Some c => (0 <= ret < 2 ^ 31 /\ view s !! ret = None /\ view s' = <[ret := (c, 0)]> (view s)) \/
                (ret = K_ENOMEM /\ view s' = view s /\ forall fd, 0 <= fd < MAX_FILES -> is_Some (view s !! fd))
    | None => ret = K_ENOENT /\ view s' = view s
    end.
Proof.
  intros Hinv Hp. destruct (inv_archive _ Hinv) as (tr & fs & l & Hl & Hlen). unfold open, files.
  pose proof (get_file_spec _ _ _ _ _ path Hl Hlen Hp) as Hg.
  destruct (list_find _ fs) as [[k f]|] eqn:Ek.
  - destruct Hg as (a & -> & Hd). cbn [mbind option_bind]. rewrite Hd.
    pose proof (first_free_spec (fcb s)) as Hff. destruct (first_free (fcb s)) as [i|].
    + destruct Hff as (g & Eg & Hu). apply lookup_lt_Some in Eg as Hi. rewrite (inv_len _ Hinv) in Hi.
      assert (zlen (cf_data f) < 2 ^ 32).
      { apply list_find_Some in Ek as (Hk & _ & _). apply wf_data_len.
        exact (Forall_lookup_1 _ _ _ _ (ld_wf _ _ _ _ Hl) Hk). }
      destruct (set_fcb_ok s i (Fcb true a (zlen (cf_data f)) 0) Hinv Hi) as (I1 & I2 & I3).
      { intros _. cbn. split; [by exists (cf_data f)|]. pose proof (zlen_nonneg (cf_data f)). lia. }
      do 2 eexists. split; [done|]. split; [done|]. split; [done|]. left.
      split; [unfold MAX_FILES in Hi; lia|]. split.
      * rewrite lookup_view, Nat2Z.id, Eg. destruct (0 <=? Z.of_nat i); [|done]. cbn. unfold fcb_view. by rewrite Hu.
      * rewrite I3. unfold fcb_view, content. cbn. by rewrite Hd.
    + do 2 eexists. split; [done|]. split_and!; [done|done|]. right. split_and!; [done|done|]. intros fd Hfd.
      destruct (lookup_lt_is_Some_2 (fcb s) (Z.to_nat fd)) as [g Eg]; [rewrite (inv_len _ Hinv); lia|].
      pose proof (Forall_lookup_1 _ _ _ _ Hff Eg) as Hu. cbn in Hu. destruct (inv_fcb _ Hinv _ _ Eg Hu) as [[c Ec] _].
      rewrite lookup_view, Eg. destruct (Z.leb_spec 0 fd); [|lia]. cbn. unfold fcb_view. rewrite Hu, Ec. by eexists.
  - rewrite Hg. cbn. do 2 eexists. split; [done|]. auto.
Qed.

Lemma read_ok s fd c pos buf count : inv s -> view s !! fd = Some (c, pos) ->
  0 <= count < 2 ^ 31 -> count <= zlen buf ->
  let n := Z.min count (zlen c - pos) in
  exists s', read fd buf count s =
      Some (n, take (Z.to_nat n) (drop (Z.to_nat pos) c) ++ drop (Z.to_nat n) buf, s') /\
    inv s' /\ files s' = files s /\ view s' = <[fd := (c, pos + n)]> (view s).
Proof.
  intros Hinv Hv Hc Hb n. destruct (view_fcb _ _ _ _ Hinv Hv) as
    (f & Eg & Ef & Ec & Ep & Es & Hpos & Hc32 & Hfd & Hlo & Hhi).
  unfold read. rewrite Eg, Ep, Es.
  assert (EC : (if zlen c <? u64 (pos + count) then u64 (zlen c - pos) else count) = n).
  { rewrite !uw_small by (unfold is_uw; lia). subst n. zcase; lia. }
  rewrite EC. assert (0 <= n <= count /\ n <= zlen c - pos) as [Hn Hn'] by (subst n; lia).
  assert (ER : rdn (r_bytes (archive s)) (fcb_file f + pos - r_base (archive s)) n =
               Some (take (Z.to_nat n) (drop (Z.to_nat pos) c))).
  { unfold content in Ec. apply rdn_inv in Ec as (_ & _ & _ & _ & ->). rewrite rdn_Some by lia.
    rewrite Es. f_equal. rewrite skipn_firstn_comm, take_take, drop_drop. f_equal; [lia|]. f_equal. lia. }
  rewrite ER. cbn [mbind option_bind]. set (bytes := take _ _).
  assert (zlen bytes = n) as HB by (apply rdn_inv in ER; tauto).
  clear EC. unfold wrn. rewrite HB. zcase; try lia. cbn [andb mbind option_bind].
  apply lookup_lt_Some in Ef as Hlt. rewrite (inv_len _ Hinv) in Hlt.
  rewrite (sw_small 32) by (unfold is_sw; lia). rewrite (uw_small 64 (pos + n)) by (unfold is_uw; lia).
  assert (EC2 : content s (Fcb true (fcb_file f) (zlen c) (pos + n)) = Some c) by (unfold content in *; cbn; congruence).
  destruct (set_fcb_ok s (Z.to_nat fd) (Fcb true (fcb_file f) (zlen c) (pos + n)) Hinv Hlt) as (I1 & I2 & I3).
  { intros _. split; [by exists c|]. cbn. lia. }
  eexists. split.
  - change (take (Z.to_nat 0) buf) with (@nil Z). change (Z.to_nat 0 + length bytes)%nat with (length bytes).
    replace (length bytes) with (Z.to_nat n) by (unfold zlen in HB; lia). reflexivity.
  - split; [done|]. split; [done|]. rewrite I3. unfold fcb_view. cbn [fcb_used fcb_lpos]. rewrite EC2. cbn.
    by rewrite Z2Nat.id.
Qed.

Lemma close_ok s fd c pos : inv s -> view s !! fd = Some (c, pos) ->
  exists s', close fd s = Some (K_OK, s') /\ inv s' /\ files s' = files s /\ view s' = delete fd (view s).
Proof.
  intros Hinv Hv. destruct (view_fcb _ _ _ _ Hinv Hv) as (f & Eg & Ef & _ & _ & _ & _ & _ & Hfd & _).
  unfold close. rewrite Eg. apply lookup_lt_Some in Ef as Hlt. rewrite (inv_len _ Hinv) in Hlt.
  destruct (set_fcb_ok s (Z.to_nat fd) fcb_free Hinv Hlt) as (I1 & I2 & I3); [done|].
  eexists. split; [done|]. split; [done|]. split; [done|]. rewrite I3. cbn. by rewrite Z2Nat.id.
Qed.

Lemma seek_ok s fd c pos f p : inv s -> view s !! fd = Some (c, pos) -> get_fcb fd s = Some f ->
  0 <= p <= zlen c ->
  let s' := set_fcb (Z.to_nat fd) (Fcb true (fcb_file f) (fcb_size f) p) s in
  inv s' /\ files s' = files s /\ view s' = <[fd := (c, p)]> (view s).
Proof.
  intros Hinv Hv Eg' Hp s'. destruct (view_fcb _ _ _ _ Hinv Hv) as (f' & Eg & Ef & Ec & _ & Es & _ & Hc & Hfd & _).
  rewrite Eg in Eg'. injection Eg' as <-. apply lookup_lt_Some in Ef as Hlt. rewrite (inv_len _ Hinv) in Hlt.
  destruct (set_fcb_ok s (Z.to_nat fd) (Fcb true (fcb_file f') (fcb_size f') p) Hinv Hlt) as (I1 & I2 & I3).
  { intros _. cbn. split; [by exists c|]. lia. }
  split; [done|]. split; [done|]. unfold s'. rewrite I3. unfold fcb_view, content in *. cbn. rewrite Ec. cbn.
  by rewrite Z2Nat.id.
Qed.

Lemma lseek_ok s fd c pos offset whence : inv s -> view s !! fd = Some (c, pos) -> is_sw 64 offset ->
  let target := if whence =? SEEK_SET then Some offset
                else if whence =? SEEK_CUR then Some (pos + offset)
                else if whence =? SEEK_END then Some (zlen c + offset) else None in
  exists s' ret, lseek fd offset whence s = Some (ret, s') /\ inv s' /\ files s' = files s /\
    match target with
    | Some p => if (0 <=? p) && (p <=? zlen c)
                then ret = K_OK /\ view s' = <[fd := (c, p)]> (view s)
                else ret = K_EINVAL /\ view s' = view s
    | None => ret = K_EINVAL /\ view s' = view s
    end.
Proof.
  intros Hinv Hv Ho target. unfold is_sw in Ho. change (64 - 1) with 63 in Ho.
  destruct (view_fcb _ _ _ _ Hinv Hv) as (f & Eg & _ & _ & Ep & Es & Hpos & Hc & _).
  pose proof (fun p => seek_ok s fd c pos f p Hinv Hv Eg) as Hseek.
  pose proof (zlen_nonneg c).
  unfold lseek. rewrite Eg. cbn zeta. rewrite Ep, Es, (sw_small 64 (zlen c)) by (unfold is_sw; lia).
  assert (REJ : forall P : Prop, P -> exists s' ret, Some (K_EINVAL, s) = Some (ret, s') /\ inv s' /\
    files s' = files s /\ (ret = K_EINVAL /\ view s' = view s)) by (intros; do 2 eexists; eauto).
  assert (ACC : forall p q, q = p -> 0 <= p <= zlen c ->
    exists s' ret, Some (K_OK, set_fcb (Z.to_nat fd) (Fcb true (fcb_file f) (fcb_size f) q) s) = Some (ret, s') /\
      inv s' /\ files s' = files s /\ (ret = K_OK /\ view s' = <[fd := (c, p)]> (view s))).
  { intros p q -> Hp. destruct (Hseek p Hp) as (? & ? & ?). do 2 eexists. eauto. }
  rewrite Es in ACC. subst target. unfold SEEK_SET, SEEK_CUR, SEEK_END. 
  destruct (Z.eqb_spec whence 0); [|destruct (Z.eqb_spec whence 1); [|destruct (Z.eqb_spec whence 2)]].
  - destruct (Z.ltb_spec offset 0); [destruct (Z.leb_spec 0 offset); [lia|]; by apply (REJ True)|].
    destruct (Z.leb_spec 0 offset); [|lia]. cbn [andb].
    destruct (Z.ltb_spec (zlen c) offset); destruct (Z.leb_spec offset (zlen c)); try lia; [by apply (REJ True)|].
    apply ACC; [|lia]. apply uw_small. unfold is_uw. lia.
  - assert (E : u64 (pos + offset) = if 0 <=? pos + offset then pos + offset else pos + offset + 2 ^ 64).
    { destruct (Z.leb_spec 0 (pos + offset)).
      - apply uw_small. unfold is_uw. lia.
      - unfold uw. rewrite <- (Z.mod_add _ 1) by lia. rewrite Z.mod_small; lia. }
    rewrite E. clear E.
    destruct (Z.leb_spec 0 (pos + offset)); cbn [andb].
    + destruct (Z.ltb_spec (pos + offset) 0); [lia|].
      destruct (Z.ltb_spec (zlen c) (pos + offset)); destruct (Z.leb_spec (pos + offset) (zlen c)); try lia;
        [by apply (REJ True)|]. apply ACC; [done|lia].
    + destruct (Z.ltb_spec (pos + offset + 2 ^ 64) 0); [lia|].
      destruct (Z.ltb_spec (zlen c) (pos + offset + 2 ^ 64)); [by apply (REJ True)|lia].
  - destruct (Z.ltb_spec 0 offset).
    + destruct (Z.leb_spec (zlen c + offset) (zlen c)); [lia|]. rewrite andb_false_r. by apply (REJ True).
    + destruct (Z.leb_spec (zlen c + offset) (zlen c)); [|lia]. rewrite andb_true_r.
      destruct (Z.ltb_spec offset (- zlen c)); destruct (Z.leb_spec 0 (zlen c + offset)); try lia; [by apply (REJ True)|].
      apply ACC; [|lia]. apply uw_small. unfold is_uw. lia.
  - by apply (REJ True).
Qed.

#[global] Instance cpiofs_spec : FsSpec ops inv files view (fun _ => MAX_FILES).
Proof.
  split.
  - intros s fd c pos Hinv Hv. destruct (view_fcb _ _ _ _ Hinv Hv) as (f & _ & _ & _ & _ & _ & H & _). exact H.
  - intros s path flags mode Hinv Hp. destruct (open_ok s path flags mode Hinv Hp) as (ret & s' & E & Hi & Hf & Hm).
    exists ret, s'. split; [exact E|]. split; [exact Hi|]. split; [exact Hf|].
    destruct (files s path); [exact Hm|]. destruct Hm as [-> Hv]. split; [done|exact Hv].
  - exact close_ok.
  - exact read_ok.
  - exact lseek_ok.
Qed.

(** A file system made from a well-formed archive serves its files. *)
Lemma new_ok r tr fs l p len : loaded r tr fs l -> zlen fs < 2 ^ 32 -> zlen (encode tr fs) <= len <= zlen (r_bytes r) ->
  0 <= p -> p mod 4 = 0 -> p + len + 4 < 2 ^ 64 ->
  exists s, new r (r_base r) len p = Some (Some s) /\ inv s /\ view s = ∅ /\
    (forall path, 0 ∉ path ->
       files s path = (fun x => cf_data x.2) <$> list_find (fun f => cf_name f = path) fs).
Proof.
  intros Hl Hn Hlen Hp0 Hp4 Hp1. unfold new. rewrite (info_spec r tr fs l len) by (done || lia).
  cbn [mbind option_bind fst snd Z.eqb negb]. rewrite Z.sub_diag.
  assert (0 <= len) by (pose proof (zlen_nonneg (encode tr fs)); lia).
  rewrite rdn_Some by lia. cbn [mbind option_bind drop].
  assert (Hl' : loaded (Region p (take (Z.to_nat len) (r_bytes r))) tr fs (take (Z.to_nat len - length (encode tr fs)) l)).
  { destruct Hl as [Eb Hwf Hns Htr _]. split; try done; cbn.
    - rewrite Eb. rewrite take_app. f_equal. apply take_ge. unfold zlen in Hlen. lia.
    - split_and!; try done. unfold zlen in *. rewrite length_take. lia. }
  eexists. split; [done|]. split_and!.
  - split.
    + cbn. exists tr, fs, (take (Z.to_nat len - length (encode tr fs)) l). split; [exact Hl'|lia].
    + cbn. apply length_replicate.
    + cbn. intros i f [-> _]%lookup_replicate. done.
  - apply map_eq. intros fd. rewrite lookup_view, lookup_empty. cbn [fcb]. destruct (0 <=? fd); [|done].
    destruct (replicate _ _ !! _) as [f|] eqn:E; [|done]. apply lookup_replicate in E as [-> _]. done.
  - intros path Hpath. unfold files. cbn [archive archive_len].
    pose proof (get_file_spec _ _ _ _ len path Hl' ltac:(lia) Hpath) as Hg. cbn [r_base] in Hg |- *.
    change (drop (Z.to_nat 0) (r_bytes r)) with (r_bytes r). destruct (list_find _ fs) as [[k f]|].
    + destruct Hg as (a & E & Hd). rewrite E. exact Hd.
    + by rewrite Hg.
Qed.

(** ** The registered factory *)

(** [sscanf]'s [%lu] and [%lx]: white space, an optional sign, an optional 0x
    for base 16, at least one digit; the value saturates. *)
Definition digit_of (base c : Z) : option Z :=
  match hex_digit c with Some d => if d <? base then Some d else None | None => None end.
Fixpoint scan_digits (base acc : Z) (l : list Z) : Z * list Z :=
  match l with
  | [] => (acc, [])
  | c :: l' => match digit_of base c with
               | Some d => scan_digits base (Z.min (2 ^ 64 - 1) (acc * base + d)) l'
               | None => (acc, l)
               end
  end.
Fixpoint skip_space (l : list Z) : list Z :=
  match l with
  | c :: l' => if (c =? 32) || ((9 <=? c) && (c <=? 13)) then skip_space l' else l
  | [] => []
  end.
Definition scan_number (base : Z) (l : list Z) : option (Z * list Z) :=
  let digits l := match l with
    | c :: _ => if bool_decide (is_Some (digit_of base c)) then Some (scan_digits base 0 l) else None
    | [] => None end in
  let body l := match l with
    | z :: x :: c :: _ =>
        if (base =? 16) && (z =? 48) && ((x =? 120) || (x =? 88)) && bool_decide (is_Some (digit_of 16 c))
        then digits (drop 2 l) else digits l
    | _ => digits l
    end in
  match skip_space l with
  | 45 :: l => (fun x => (u64 (- x.1), x.2)) <$> body l
  | 43 :: l => body l
  | l => body l
  end.
Definition scan_pair (base : Z) (l : list Z) : option (Z * Z) :=
  x ← scan_number base l;
  match snd x with
  | 44 :: l => y ← scan_number base l; Some (fst x, fst y)
  | _ => None
  end.

(** The address and the length named by the device path. *)
Definition parse_device (l : list Z) : option (Z * Z) :=
  match scan_pair 10 l with Some x => Some x | None => scan_pair 16 l end.

(** The factory function: the archive is read from [mem]; [p] is where the
    private copy and [obj] where the object itself is allocated.  An exception
    becomes the return code -1. *)
Definition new_instance (mem : region) (p : Z) (devicePath : list Z) : option (Z * option t) :=
  match parse_device devicePath with
  | None => Some (-1, None)
  | Some (addr, len) =>
      res ← new mem addr len p;
      match res with
      | None => Some (-1, None)
      | Some s => Some (0, Some s)
      end
  end.
End CPIOFS.

(** The device file system is a stub: every method fails and every mount succeeds. *)
Module DEVFS.
Definition t : Type := unit.
Definition open (path : list Z) (flags mode : Z) (s : t) : option (Z * t) := Some (-1, s).
Definition close (fd : Z) (s : t) : option (Z * t) := Some (-1, s).
Definition read (fd : Z) (buf : list Z) (count : Z) (s : t) : option (Z * list Z * t) := Some (-1, buf, s).
Definition write (fd : Z) (buf : list Z) (count : Z) (s : t) : option (Z * t) := Some (-1, s).
Definition lseek (fd offset whence : Z) (s : t) : option (Z * t) := Some (-1, s).
Definition fstat (fd : Z) (s : t) : option (Z * t) := Some (-1, s).
Definition ops : BasicFS t := {|
  fs_open := open; fs_close := close; fs_read := read;
  fs_write := write; fs_lseek := lseek; fs_fstat := fstat;
|}.
End DEVFS.
