(* ===== verification/VfsProps.v ===== *)
(** The virtual file system refines a table of open files: every descriptor
    stands for a content and a position of its own.  The proofs use only the
    promises [FsSpec] of the file systems that are mounted. *)
From S2P Require Import Prelude KDefs Bytes Vfs.

(** ** Choosing the mount point *)
Section Mount.
  Context {T : Type}.
  Implicit Types s : vfs (T := T).

Lemma pick_mount_spec path l : forall acc,
  let best := fold_left (pick_mount path) l acc in
  acc.1 <= best.1 /\
  (best = acc \/ exists mp p, (mp, p) ∈ l /\ best = (zlen mp, Some p) /\ mp `prefix_of` path /\ acc.1 < zlen mp) /\
  (forall mp p, (mp, p) ∈ l -> mp `prefix_of` path -> zlen mp <= best.1).
Proof.
  induction l as [|[mp p] l IH]; intros [ml fs]; cbn [fold_left].
  - split; [lia|]. split; [by left|]. intros ? ? H. by apply elem_of_nil in H.
  - destruct (IH (pick_mount path (ml, fs) (mp, p))) as (H1 & H2 & H3).
    unfold pick_mount in H1, H2, H3 |- *. cbn [fst snd] in *.
    set (best := fold_left _ l _) in *. clearbody best.
    case_bool_decide as Hp; [destruct (Z.ltb_spec ml (zlen mp)) as [Hlt|Hge]|]; cbn [fst] in *.
    + split; [lia|]. split.
      * destruct H2 as [->|(mp' & p' & Hin & -> & Hp' & Hl')]; right.
        -- exists mp, p. rewrite elem_of_cons. auto.
        -- exists mp', p'. rewrite elem_of_cons. split; [by right|]. split_and!; try done. lia.
      * intros mp' p' [[= -> ->]|Hin]%elem_of_cons Hp'; [lia|]. by apply (H3 mp' p').
    + split; [lia|]. split.
      * destruct H2 as [->|(mp' & p' & Hin & -> & Hp' & Hl')]; [by left|right].
        exists mp', p'. rewrite elem_of_cons. auto.
      * intros mp' p' [[= -> ->]|Hin]%elem_of_cons Hp'; [lia|]. by apply (H3 mp' p').
    + split; [lia|]. split.
      * destruct H2 as [->|(mp' & p' & Hin & -> & Hp' & Hl')]; [by left|right].
        exists mp', p'. rewrite elem_of_cons. auto.
      * intros mp' p' [[= -> ->]|Hin]%elem_of_cons Hp'; [done|]. by apply (H3 mp' p').
Qed.

Lemma elem_of_mounts s mp p :
  (mp, p) ∈ prod_map id fst <$> map_to_list (v_map s) <-> exists df, v_map s !! mp = Some (p, df).
Proof.
  rewrite list_elem_of_fmap. split.
  - intros ([mp' [p' df]] & [= -> ->] & H%elem_of_map_to_list). by exists df.
  - intros [df H]. exists (mp, (p, df)). split; [done|]. by apply elem_of_map_to_list.
Qed.

Lemma lookup_mount_spec s path n o : lookup_mount path s = (n, o) ->
  (forall mp p df, v_map s !! mp = Some (p, df) -> mp `prefix_of` path -> zlen mp <= n) /\
  match o with
  | Some p => exists mp df, v_map s !! mp = Some (p, df) /\ mp `prefix_of` path /\ n = zlen mp /\ mp <> []
  | None => n = 0
  end.
Proof.
  unfold lookup_mount. intros E.
  destruct (pick_mount_spec path (prod_map id fst <$> map_to_list (v_map s)) (0, None)) as (_ & H2 & H3).
  rewrite E in H2, H3. cbn in H2, H3. split.
  - intros mp p df Hmp Hp. apply (H3 mp p); [|done]. apply elem_of_mounts. by exists df.
  - destruct H2 as [[= -> ->]|(mp & p & Hin & [= -> ->] & Hp & Hl)]; [done|].
    apply elem_of_mounts in Hin as [df Hin]. exists mp, df. split_and!; try done. by intros ->.
Qed.

(** [open] hands a path to the file system mounted at the longest mount
    point that is a prefix of it, whatever the order of the mount table, with
    that prefix removed; only if no non-empty mount point is a prefix does it
    find none. *)
Theorem lookup_mount_longest s path mp p df :
  v_map s !! mp = Some (p, df) -> mp `prefix_of` path -> mp <> [] ->
  (forall mp' p' df', v_map s !! mp' = Some (p', df') -> mp' `prefix_of` path -> zlen mp' <= zlen mp) ->
  lookup_mount path s = (zlen mp, Some p) /\
  path = mp ++ drop (Z.to_nat (fst (lookup_mount path s))) path.
Proof.
  intros Hmp Hp Hne Hmax. destruct (lookup_mount path s) as [n o] eqn:E.
  destruct (lookup_mount_spec _ _ _ _ E) as [H1 H2]. pose proof (H1 _ _ _ Hmp Hp) as Hle.
  assert (0 < zlen mp) by (unfold zlen; destruct mp; [done|cbn; lia]).
  destruct o as [q|]; [|lia]. destruct H2 as (mp' & df' & Hmp' & Hp' & -> & _).
  pose proof (Hmax _ _ _ Hmp' Hp').
  assert (mp' = mp) as ->.
  { destruct (prefix_weak_total mp mp' path Hp Hp') as [Hx|Hx];
      [symmetry|]; apply prefix_length_eq; try done; unfold zlen in *; lia. }
  simplify_eq. split; [done|]. cbn [fst]. destruct Hp as [k ->]. f_equal.
  unfold zlen. rewrite Nat2Z.id. by rewrite drop_app_length.
Qed.
End Mount.

(** ** The table of open files *)
Section Refine.
  Context {T : Type} {F : BasicFS T} {inv : T -> Prop} {files : T -> list Z -> option (list Z)}
    {view : T -> gmap Z (list Z * Z)} {cap : T -> Z} `{HF : !FsSpec F inv files view cap}.
  Implicit Types s : vfs (T := T).

(** Every instance is sound, every mount point and every descriptor refers to a
    live one, and no two descriptors share a file position. *)
Record vfs_inv s : Prop := {
  vi_heap p t : v_heap s !! p = Some t -> inv t;
  vi_map mp p df : v_map s !! mp = Some (p, df) -> is_Some (v_heap s !! p);
  vi_fds fd p lfd : v_fds s !! fd = Some (p, lfd) ->
    3 <= fd < v_counter s /\ exists t, v_heap s !! p = Some t /\ is_Some (view t !! lfd);
  vi_inj fd1 fd2 x : v_fds s !! fd1 = Some x -> v_fds s !! fd2 = Some x -> fd1 = fd2;
  vi_counter : 3 <= v_counter s;
}.

Definition fd_view s (x : Z * Z) : option (list Z * Z) :=
  v_heap s !! x.1 ≫= fun t => view t !! x.2.
(** The abstract state: content and position of every open descriptor. *)
Definition gview s : gmap Z (list Z * Z) := omap (fd_view s) (v_fds s).

(** What a path names: looked up in the file system at its mount point. *)
Definition gfiles s (path : list Z) : option (list Z) :=
  match lookup_mount path s with
  | (n, Some p) => v_heap s !! p ≫= fun t => files t (drop (Z.to_nat n) path)
  | (_, None) => None
  end.

(** The file system at the mount point of a path has all its descriptors in use. *)
Definition gfull s (path : list Z) : Prop :=
  exists n p t, lookup_mount path s = (n, Some p) /\ v_heap s !! p = Some t /\ forall fd, 0 <= fd < cap t -> is_Some (view t !! fd).

Lemma lookup_gview s fd : gview s !! fd = v_fds s !! fd ≫= fd_view s.
Proof. unfold gview. by rewrite lookup_omap. Qed.

Lemma gview_fd s fd v : gview s !! fd = Some v ->
  exists p lfd t, v_fds s !! fd = Some (p, lfd) /\ v_heap s !! p = Some t /\ view t !! lfd = Some v.
Proof.
  rewrite lookup_gview. destruct (v_fds s !! fd) as [[p lfd]|] eqn:E; cbn; [|done].
  unfold fd_view. cbn. destruct (v_heap s !! p) as [t|] eqn:Et; cbn; [|done]. eauto 10.
Qed.

(** The instance at [p] moves its own descriptor [lfd] to [v]. *)
Lemma move_ok s fd p lfd t t' v : vfs_inv s -> v_fds s !! fd = Some (p, lfd) -> v_heap s !! p = Some t ->
  inv t' -> files t' = files t -> view t' = <[lfd := v]> (view t) ->
  let s' := set_heap (<[p := t']> (v_heap s)) s in
  vfs_inv s' /\ gview s' = <[fd := v]> (gview s) /\ (forall path, gfiles s' path = gfiles s path).
Proof.
  intros Hs Hfd Ht Hinv Hfiles Hview s'. destruct Hs as [H1 H2 H3 H4 H5].
  assert (HL : forall q, v_heap s' !! q = if decide (q = p) then Some t' else v_heap s !! q).
  { intros q. cbn. destruct (decide (q = p)) as [->|]; [by rewrite lookup_insert_eq|by rewrite lookup_insert_ne]. }
  split_and!.
  - split; try done.
    + intros q u. rewrite HL. destruct (decide (q = p)); [by intros [= <-]|by apply H1].
    + intros mp q df Hmp. rewrite HL. destruct (decide (q = p)); [done|by apply (H2 mp q df)].
    + intros fd' q lfd' Hfd'. destruct (H3 _ _ _ Hfd') as (Hb & u & Hu & Hv). split; [exact Hb|].
      rewrite HL. destruct (decide (q = p)) as [->|]; [|by exists u].
      exists t'. split; [done|]. rewrite Ht in Hu. injection Hu as <-. rewrite Hview.
      destruct (decide (lfd' = lfd)) as [->|]; [by rewrite lookup_insert_eq|by rewrite lookup_insert_ne].
  - apply map_eq. intros fd'. destruct (decide (fd' = fd)) as [->|Hne].
    + rewrite lookup_insert_eq, lookup_gview. change (v_fds s') with (v_fds s). rewrite Hfd.
      unfold fd_view. cbn [mbind option_bind fst snd]. rewrite HL, decide_True by done. cbn.
      by rewrite Hview, lookup_insert_eq.
    + rewrite lookup_insert_ne, !lookup_gview by done. change (v_fds s') with (v_fds s).
      destruct (v_fds s !! fd') as [[q lfd']|] eqn:E; [|done]. cbn. unfold fd_view. cbn [fst snd]. rewrite HL.
      destruct (decide (q = p)) as [->|]; [|done]. rewrite Ht. cbn. rewrite Hview, lookup_insert_ne; [done|].
      intros <-. apply Hne. by apply (H4 _ _ (p, lfd)).
  - intros path. unfold gfiles. change (lookup_mount path s') with (lookup_mount path s).
    destruct (lookup_mount path s) as [n [q|]]; [|done]. rewrite HL. destruct (decide (q = p)) as [->|]; [|done].
    rewrite Ht. cbn. by rewrite Hfiles.
Qed.

Lemma read_spec s fd c pos buf count : vfs_inv s -> gview s !! fd = Some (c, pos) ->
  0 <= count < 2 ^ 31 -> count <= zlen buf ->
  let n := Z.min count (zlen c - pos) in
  exists s', read F fd buf count s =
      Some ((n, take (Z.to_nat n) (drop (Z.to_nat pos) c) ++ drop (Z.to_nat n) buf), s') /\
    vfs_inv s' /\ gview s' = <[fd := (c, pos + n)]> (gview s) /\ (forall path, gfiles s' path = gfiles s path).
Proof.
  intros Hs Hv Hc Hb n. destruct (gview_fd _ _ _ Hv) as (p & lfd & t & Hfd & Ht & Hl).
  destruct (vi_fds _ Hs _ _ _ Hfd) as [Hr _]. unfold read, FILE_STDIN. destruct (Z.eqb_spec fd 0); [lia|].
  rewrite Hfd. unfold vcall. rewrite Ht, uw_small by (unfold is_uw; lia).
  destruct (spec_read t lfd c pos buf count (vi_heap _ Hs _ _ Ht) Hl Hc Hb) as (t' & -> & Hi' & Hf' & Hv').
  eexists. split; [done|]. by apply (move_ok s fd p lfd t).
Qed.

(** C5: [read] on an open descriptor copies the next bytes of its file into the
    buffer, as many as asked for or left, advances that descriptor by as much,
    and changes neither another descriptor nor what any path names. *)
Theorem vfs_read_correct s fd c pos buf count : vfs_inv s -> gview s !! fd = Some (c, pos) ->
  0 <= count < 2 ^ 31 -> count <= zlen buf ->
  let n := Z.min count (zlen c - pos) in
  exists s', read F fd buf count s =
      Some ((n, take (Z.to_nat n) (drop (Z.to_nat pos) c) ++ drop (Z.to_nat n) buf), s') /\
    vfs_inv s' /\ gview s' = <[fd := (c, pos + n)]> (gview s) /\ (forall path, gfiles s' path = gfiles s path).
Proof. apply read_spec. Qed.

(** [lseek] on an open descriptor moves it to the requested position if
    that lies within the file, and refuses with K_EINVAL otherwise (also for an
    unknown [whence]), for every 64-bit offset. *)
Theorem vfs_lseek_correct s fd c pos offset whence : vfs_inv s -> gview s !! fd = Some (c, pos) ->
  is_sw 64 offset ->
  let target := if whence =? SEEK_SET then Some offset
                else if whence =? SEEK_CUR then Some (pos + offset)
                else if whence =? SEEK_END then Some (zlen c + offset) else None in
  exists ret s', lseek F fd offset whence s = Some (ret, s') /\ vfs_inv s' /\
    match target with
    | Some q => if (0 <=? q) && (q <=? zlen c)
                then ret = K_OK /\ gview s' = <[fd := (c, q)]> (gview s)
                else ret = K_EINVAL /\ gview s' = gview s
    | None => ret = K_EINVAL /\ gview s' = gview s
    end.
Proof.
  intros Hs Hv Ho target. destruct (gview_fd _ _ _ Hv) as (p & lfd & t & Hfd & Ht & Hl).
  destruct (vi_fds _ Hs _ _ _ Hfd) as [Hr _]. unfold lseek, FILE_STDIN, FILE_STDOUT, FILE_STDERR.
  destruct (Z.eqb_spec fd 0); [lia|]. destruct (Z.eqb_spec fd 1); [lia|]. destruct (Z.eqb_spec fd 2); [lia|].
  cbn [orb]. rewrite Hfd. unfold vcall. rewrite Ht.
  destruct (spec_lseek t lfd c pos offset whence (vi_heap _ Hs _ _ Ht) Hl Ho) as (t' & ret & -> & Hi' & Hf' & Hm).
  exists ret. eexists. split; [done|].
  assert (K : forall q, view t' = <[lfd := (c, q)]> (view t) ->
    vfs_inv (set_heap (<[p := t']> (v_heap s)) s) /\
    gview (set_heap (<[p := t']> (v_heap s)) s) = <[fd := (c, q)]> (gview s)).
  { intros q Hq. destruct (move_ok s fd p lfd t t' (c, q) Hs Hfd Ht Hi' Hf' Hq) as (? & ? & _). done. }
  assert (KS : view t' = view t ->
    vfs_inv (set_heap (<[p := t']> (v_heap s)) s) /\
    gview (set_heap (<[p := t']> (v_heap s)) s) = gview s).
  { intros Hq. destruct (K pos) as [? HG]; [by rewrite Hq, insert_id|]. split; [done|]. rewrite HG. by apply insert_id. }
  fold target in Hm. destruct target as [q|].
  - destruct ((0 <=? q) && (q <=? zlen c)); destruct Hm as [-> Hm]; [destruct (K q Hm)|destruct (KS Hm)]; done.
  - destruct Hm as [-> Hm]. destruct (KS Hm). done.
Qed.

(** An instance whose open descriptors did not change. *)
Lemma same_ok s p t t' : vfs_inv s -> v_heap s !! p = Some t -> inv t' -> files t' = files t -> view t' = view t ->
  let s' := set_heap (<[p := t']> (v_heap s)) s in
  vfs_inv s' /\ gview s' = gview s /\ (forall path, gfiles s' path = gfiles s path).
Proof.
  intros [H1 H2 H3 H4 H5] Ht Hinv Hfiles Hview s'.
  assert (HL : forall q, v_heap s' !! q = if decide (q = p) then Some t' else v_heap s !! q).
  { intros q. cbn. destruct (decide (q = p)) as [->|]; [by rewrite lookup_insert_eq|by rewrite lookup_insert_ne]. }
  split_and!.
  - split; try done.
    + intros q u. rewrite HL. destruct (decide (q = p)); [by intros [= <-]|by apply H1].
    + intros mp q df Hmp. rewrite HL. destruct (decide (q = p)); [done|by apply (H2 mp q df)].
    + intros fd' q lfd' Hfd'. destruct (H3 _ _ _ Hfd') as (Hb & u & Hu & Hv). split; [exact Hb|].
      rewrite HL. destruct (decide (q = p)) as [->|]; [|by exists u]. exists t'. split; [done|]. congruence.
  - apply map_eq. intros fd'. rewrite !lookup_gview. change (v_fds s') with (v_fds s).
    destruct (v_fds s !! fd') as [[q lfd']|]; [|done]. cbn. unfold fd_view. cbn [fst snd]. rewrite HL.
    destruct (decide (q = p)) as [->|]; [|done]. rewrite Ht. cbn. congruence.
  - intros path. unfold gfiles. change (lookup_mount path s') with (lookup_mount path s).
    destruct (lookup_mount path s) as [n [q|]]; [|done]. rewrite HL. destruct (decide (q = p)) as [->|]; [|done].
    rewrite Ht. cbn. congruence.
Qed.

(** The instance at [p] opened [lfd]; it becomes the next global descriptor. *)
Lemma new_fd_ok s p t t' lfd v : vfs_inv s -> v_heap s !! p = Some t -> v_counter s < 2 ^ 31 - 1 ->
  inv t' -> files t' = files t -> view t !! lfd = None -> view t' = <[lfd := v]> (view t) ->
  let s' := set_fds (map_insert (v_counter s) (p, lfd) (v_fds s))
              (set_counter (s32 (v_counter s + 1)) (set_heap (<[p := t']> (v_heap s)) s)) in
  vfs_inv s' /\ gview s' = <[v_counter s := v]> (gview s) /\ (forall path, gfiles s' path = gfiles s path).
Proof.
  intros [H1 H2 H3 H4 H5] Ht Hcnt Hinv Hfiles Hnone Hview s'.
  assert (HL : forall q, v_heap s' !! q = if decide (q = p) then Some t' else v_heap s !! q).
  { intros q. cbn. destruct (decide (q = p)) as [->|]; [by rewrite lookup_insert_eq|by rewrite lookup_insert_ne]. }
  assert (HC : v_fds s !! v_counter s = None).
  { destruct (v_fds s !! v_counter s) as [[q l]|] eqn:E; [|done]. apply H3 in E. lia. }
  assert (HD : v_fds s' = <[v_counter s := (p, lfd)]> (v_fds s)) by (cbn; unfold map_insert; by rewrite HC).
  assert (HN : v_counter s' = v_counter s + 1) by (cbn; rewrite sw_small; unfold is_sw; lia).
  assert (HV : forall q u l, v_heap s !! q = Some u -> is_Some (view u !! l) ->
    exists u', v_heap s' !! q = Some u' /\ view u' !! l = view u !! l).
  { intros q u l Hu Hl. rewrite HL. destruct (decide (q = p)) as [->|]; [|by exists u].
    exists t'. split; [done|]. rewrite Ht in Hu. injection Hu as <-. rewrite Hview, lookup_insert_ne; [done|].
    intros <-. rewrite Hnone in Hl. by destruct Hl. }
  split_and!.
  - split.
    + intros q u. rewrite HL. destruct (decide (q = p)); [by intros [= <-]|by apply H1].
    + intros mp q df Hmp. rewrite HL. destruct (decide (q = p)); [done|by apply (H2 mp q df)].
    + intros fd q l. rewrite HD, HN, lookup_insert_Some. intros [[<- [= <- <-]]|[Hne Hfd]].
      * split; [lia|]. exists t'. rewrite HL, decide_True by done. split; [done|]. by rewrite Hview, lookup_insert_eq.
      * destruct (H3 _ _ _ Hfd) as (Hb & u & Hu & Hl). split; [lia|].
        destruct (HV q u l Hu Hl) as (u' & E' & Ev). exists u'. by rewrite Ev.
    + intros fd1 fd2 x. rewrite HD, !lookup_insert_Some.
      intros [[<- <-]|[Hne1 Hf1]] [[<- E]|[Hne2 Hf2]]; try done.
      * destruct (H3 _ _ _ Hf2) as (_ & u & Hu & Hl). rewrite Ht in Hu. injection Hu as <-. rewrite Hnone in Hl. by destruct Hl.
      * subst x. destruct (H3 _ _ _ Hf1) as (_ & u & Hu & Hl). rewrite Ht in Hu. injection Hu as <-. rewrite Hnone in Hl. by destruct Hl.
      * by apply (H4 _ _ x).
    + rewrite HN. lia.
  - apply map_eq. intros fd. rewrite lookup_gview, HD. destruct (decide (fd = v_counter s)) as [->|Hne].
    + rewrite !lookup_insert_eq. cbn. unfold fd_view. cbn [fst snd]. rewrite HL, decide_True by done. cbn.
      by rewrite Hview, lookup_insert_eq.
    + rewrite !lookup_insert_ne, lookup_gview by done. destruct (v_fds s !! fd) as [[q l]|] eqn:E; [|done].
      cbn. destruct (H3 _ _ _ E) as (_ & u & Hu & Hl). destruct (HV q u l Hu Hl) as (u' & E' & Ev).
      unfold fd_view. cbn [fst snd]. rewrite E', Hu. cbn. done.
  - intros path. unfold gfiles. change (lookup_mount path s') with (lookup_mount path s).
    destruct (lookup_mount path s) as [n [q|]]; [|done]. rewrite HL. destruct (decide (q = p)) as [->|]; [|done].
    rewrite Ht. cbn. congruence.
Qed.

Lemma open_spec s path flags mode : vfs_inv s -> 0 ∉ path -> v_counter s < 2 ^ 31 - 1 ->
  exists ret s', open F path flags mode s = Some (ret, s') /\ vfs_inv s' /\
    (forall path', gfiles s' path' = gfiles s path') /\
    match gfiles s path with
    | Some c => (ret = v_counter s /\ gview s' = <[ret := (c, 0)]> (gview s)) \/
                (ret = K_ENOMEM /\ gview s' = gview s /\ gfull s path)
    | None => ret < 0 /\ gview s' = gview s
    end.
Proof.
  intros Hs Hp Hc. unfold open, gfiles at 3. destruct (lookup_mount path s) as [n [p|]] eqn:El.
  - destruct (lookup_mount_spec _ _ _ _ El) as [_ (mp & df & Hmp & _)].
    destruct (vi_map _ Hs _ _ _ Hmp) as [t Ht]. rewrite Ht. cbn [mbind option_bind].
    assert (Hp' : 0 ∉ drop (Z.to_nat n) path).
    { intros Hin. apply Hp. rewrite <- (take_drop (Z.to_nat n) path). apply elem_of_app. by right. }
    destruct (spec_open t (drop (Z.to_nat n) path) flags mode (vi_heap _ Hs _ _ Ht) Hp')
      as (ret & t' & Eo & Hi' & Hf' & Hm).
    unfold mbind, M_bind, vcall. rewrite Ht, Eo.
    assert (KS : ret < 0 -> view t' = view t -> exists s', (if 0 <=? ret then
         s0 ← get; let fd := v_counter s0 in
         modify (set_counter (s32 (fd + 1))) ≫= fun _ =>
         modify (fun s => set_fds (map_insert fd (p, ret) (v_fds s)) s) ≫= fun _ => mret fd
       else mret ret) (set_heap (<[p := t']> (v_heap s)) s) = Some (ret, s') /\ vfs_inv s' /\
       (forall path', gfiles s' path' = gfiles s path') /\ gview s' = gview s).
    { intros Hr Hv. destruct (same_ok s p t t' Hs Ht Hi' Hf' Hv) as (? & ? & ?).
      destruct (Z.leb_spec 0 ret); [lia|]. eexists. split; [done|]. done. }
    destruct (files t (drop (Z.to_nat n) path)) as [c|].
    + destruct Hm as [(Hr & Hnone & Hv)|(Hr & Hv & Hfull)].
      * destruct (new_fd_ok s p t t' ret (c, 0) Hs Ht Hc Hi' Hf' Hnone Hv) as (? & ? & ?).
        destruct (Z.leb_spec 0 ret); [|lia]. do 2 eexists. split; [done|]. split; [done|]. split; [done|]. by left.
      * destruct (KS ltac:(rewrite Hr; done) Hv) as (s' & E & ? & ? & ?).
        exists ret, s'. split; [exact E|]. split; [done|]. split; [done|]. right. split_and!; [done|done|]. by exists n, p, t.
    + destruct Hm as [Hr Hv]. destruct (KS ltac:(lia) Hv) as (s' & E & ? & ? & ?).
      exists ret, s'. split; [exact E|]. split_and!; try done. lia.
  - do 2 eexists. split; [done|]. done.
Qed.

(** C6: As long as fewer than 2 ^ 31 - 4 descriptors have been handed out, [open]
    of a path that names a file returns the next descriptor, open on that file's
    content at position 0, or, only if every descriptor of the file system at
    the path's mount point is in use, K_ENOMEM; for any other path it returns an
    error. Other descriptors and what paths name are not affected. *)
Theorem vfs_open_correct s path flags mode : vfs_inv s -> 0 ∉ path -> v_counter s < 2 ^ 31 - 1 ->
  exists ret s', open F path flags mode s = Some (ret, s') /\ vfs_inv s' /\
    (forall path', gfiles s' path' = gfiles s path') /\
    match gfiles s path with
    | Some c => (ret = v_counter s /\ gview s' = <[ret := (c, 0)]> (gview s)) \/
                (ret = K_ENOMEM /\ gview s' = gview s /\ gfull s path)
    | None => ret < 0 /\ gview s' = gview s
    end.
Proof. apply open_spec. Qed.

(** [close] of an open descriptor succeeds and removes exactly that
    descriptor; closing, reading or seeking a descriptor that is not open
    returns K_ENOENT and changes nothing. *)
Theorem vfs_close_correct s fd c pos : vfs_inv s -> gview s !! fd = Some (c, pos) ->
  exists s', close F fd s = Some (K_OK, s') /\ vfs_inv s' /\ gview s' = delete fd (gview s) /\
    (forall path, gfiles s' path = gfiles s path) /\
    (forall buf count offset whence,
       close F fd s' = Some (K_ENOENT, s') /\ read F fd buf count s' = Some ((K_ENOENT, buf), s') /\
       lseek F fd offset whence s' = Some (K_ENOENT, s')).
Proof.
  intros Hs Hv. destruct (gview_fd _ _ _ Hv) as (p & lfd & t & Hfd & Ht & Hl).
  destruct (vi_fds _ Hs _ _ _ Hfd) as [Hr _]. destruct Hs as [H1 H2 H3 H4 H5].
  destruct (spec_close t lfd c pos (H1 _ _ Ht) Hl) as (t' & Ec & Hi' & Hf' & Hv').
  unfold close at 1, mbind, M_bind, vcall. rewrite Hfd, Ht, Ec. cbn [Z.eqb K_OK].
  eexists. split; [done|].
  set (s' := set_fds _ _).
  assert (HL : forall q, v_heap s' !! q = if decide (q = p) then Some t' else v_heap s !! q).
  { intros q. cbn. destruct (decide (q = p)) as [->|]; [by rewrite lookup_insert_eq|by rewrite lookup_insert_ne]. }
  assert (HV : forall fd' q l u, fd' <> fd -> v_fds s !! fd' = Some (q, l) -> v_heap s !! q = Some u ->
    exists u', v_heap s' !! q = Some u' /\ view u' !! l = view u !! l).
  { intros fd' q l u Hne Hq Hu. rewrite HL. destruct (decide (q = p)) as [->|]; [|by exists u].
    exists t'. split; [done|]. rewrite Ht in Hu. injection Hu as <-. rewrite Hv', lookup_delete_ne; [done|].
    intros <-. apply Hne. by apply (H4 _ _ (p, lfd)). }
  split_and!.
  - split; try done.
    + intros q u. rewrite HL. destruct (decide (q = p)); [by intros [= <-]|by apply H1].
    + intros mp q df Hmp. rewrite HL. destruct (decide (q = p)); [done|by apply (H2 mp q df)].
    + intros fd' q l Hq. cbn in Hq. apply lookup_delete_Some in Hq as [Hne Hq].
      destruct (H3 _ _ _ Hq) as (Hb & u & Hu & Hl'). split; [exact Hb|].
      destruct (HV fd' q l u) as (u' & E' & Ev); try done. exists u'. by rewrite Ev.
    + intros fd1 fd2 x Hx1 Hx2. cbn in Hx1, Hx2. apply lookup_delete_Some in Hx1 as [_ Hx1].
      apply lookup_delete_Some in Hx2 as [_ Hx2]. by apply (H4 _ _ x).
  - apply map_eq. intros fd'. rewrite lookup_gview. cbn [v_fds s' set_fds set_heap].
    destruct (decide (fd' = fd)) as [->|Hne]; [by rewrite !lookup_delete_eq|].
    rewrite !lookup_delete_ne, lookup_gview by done. destruct (v_fds s !! fd') as [[q l]|] eqn:E; [|done]. cbn.
    destruct (H3 _ _ _ E) as (_ & u & Hu & _). destruct (HV fd' q l u) as (u' & E' & Ev); try done.
    unfold fd_view. cbn [fst snd]. rewrite E', Hu. done.
  - intros path. unfold gfiles. change (lookup_mount path s') with (lookup_mount path s).
    destruct (lookup_mount path s) as [n [q|]]; [|done]. rewrite HL. destruct (decide (q = p)) as [->|]; [|done].
    rewrite Ht. cbn. congruence.
  - intros buf count offset whence.
    assert (HD : v_fds s' !! fd = None) by (cbn; by rewrite lookup_delete_eq).
    unfold close, read, lseek, FILE_STDIN, FILE_STDOUT, FILE_STDERR. rewrite HD.
    destruct (Z.eqb_spec fd 0); [lia|]. destruct (Z.eqb_spec fd 1); [lia|]. destruct (Z.eqb_spec fd 2); [lia|]. done.
Qed.
End Refine.
