(* ===== verification/KernelFs.v ===== *)
(** The file systems of the kernel put together: CPIOFS and DEVFS objects behind
    [VirtualFS], the factories their constructors register, and the root mount
    of k_boot_sysdev (src/kernel/main/k_boot.cpp). *)
From S2P Require Import Prelude KDefs Bytes Cpio CpioProps Vfs CpioFs VfsProps.

(** A [BasicFS] object is one of the two classes; calls are dispatched. *)
Inductive fsobj := Cpio (s : CPIOFS.t) | Dev (s : DEVFS.t).

Definition on_cpio {R} (x : option (R * CPIOFS.t)) : option (R * fsobj) := prod_map id Cpio <$> x.
Definition on_dev {R} (x : option (R * DEVFS.t)) : option (R * fsobj) := prod_map id Dev <$> x.

Definition kernel_ops : BasicFS fsobj := {|
  fs_open path flags mode o := match o with
    | Cpio s => on_cpio (CPIOFS.open path flags mode s) | Dev s => on_dev (DEVFS.open path flags mode s) end;
  fs_close fd o := match o with Cpio s => on_cpio (CPIOFS.close fd s) | Dev s => on_dev (DEVFS.close fd s) end;
  fs_read fd buf count o := match o with
    | Cpio s => on_cpio (CPIOFS.read fd buf count s) | Dev s => on_dev (DEVFS.read fd buf count s) end;
  fs_write fd buf count o := match o with
    | Cpio s => on_cpio (CPIOFS.write fd buf count s) | Dev s => on_dev (DEVFS.write fd buf count s) end;
  fs_lseek fd offset whence o := match o with
    | Cpio s => on_cpio (CPIOFS.lseek fd offset whence s) | Dev s => on_dev (DEVFS.lseek fd offset whence s) end;
  fs_fstat fd o := match o with Cpio s => on_cpio (CPIOFS.fstat fd s) | Dev s => on_dev (DEVFS.fstat fd s) end;
|}.

Definition kinv (o : fsobj) : Prop := match o with Cpio s => CPIOFS.inv s | Dev _ => True end.
Definition kfiles (o : fsobj) : list Z -> option (list Z) :=
  match o with Cpio s => CPIOFS.files s | Dev _ => fun _ => None end.
Definition kview (o : fsobj) : gmap Z (list Z * Z) := match o with Cpio s => CPIOFS.view s | Dev _ => ∅ end.

Definition kcap (o : fsobj) : Z := match o with Cpio _ => CPIOFS.MAX_FILES | Dev _ => 0 end.

#[global] Instance kernel_spec : FsSpec kernel_ops kinv kfiles kview kcap.
Proof.
  split; intros [s|s]; cbn -[Z.pow]; try done.
  - apply spec_pos.
  - intros path flags mode Hi Hp. destruct (spec_open (F := CPIOFS.ops) s path flags mode Hi Hp) as (ret & s' & E & H).
    cbn in E. rewrite E. exists ret, (Cpio s'). done.
  - intros path flags mode _ _. exists (-1), (Dev s). split_and!; done.
  - intros fd c pos Hi Hv. destruct (spec_close (F := CPIOFS.ops) s fd c pos Hi Hv) as (s' & E & H).
    cbn in E. rewrite E. exists (Cpio s'). done.
  - intros fd c pos buf count Hi Hv Hc Hb.
    destruct (spec_read (F := CPIOFS.ops) s fd c pos buf count Hi Hv Hc Hb) as (s' & E & H).
    cbn in E. rewrite E. exists (Cpio s'). done.
  - intros fd c pos offset whence Hi Hv Ho.
    destruct (spec_lseek (F := CPIOFS.ops) s fd c pos offset whence Hi Hv Ho) as (s' & ret & E & H).
    cbn in E. rewrite E. exists (Cpio s'), ret. done.
Qed.

(** ** Factories

    [alloc] chooses the address of a new object, which the heap must not hold
    yet; [mem] is physical memory with the boot archive, [p] the address of
    CPIOFS's private copy. *)
Section Factories.
  Variable alloc : gmap Z fsobj -> Z.
  Variable mem : region.
  Variable p : Z.

Definition cpiofs_new (devicePath : list Z) (h : gmap Z fsobj) : option (Z * Z * gmap Z fsobj) :=
  res ← CPIOFS.new_instance mem p devicePath;
  match res with
  | (rc, Some s) => Some (rc, alloc h, <[alloc h := Cpio s]> h)
  | (rc, None) => Some (rc, 0, h)
  end.

Definition devfs_new (devicePath : list Z) (h : gmap Z fsobj) : option (Z * Z * gmap Z fsobj) :=
  Some (0, alloc h, <[alloc h := Dev tt]> h).

(** [delete fs]; deleting what is not there is undefined. *)
Definition fs_delete (q : Z) (h : gmap Z fsobj) : option (Z * gmap Z fsobj) :=
  match h !! q with Some _ => Some (0, delete q h) | None => None end.

Definition cpiofs_register : M (vfs (T := fsobj)) Z :=
  registerFS (byte_list "cpiofs") (Some cpiofs_new) (Some fs_delete).
Definition devfs_register : M (vfs (T := fsobj)) Z :=
  registerFS (byte_list "cpio") (Some devfs_new) (Some fs_delete).

(** k_boot_sysdev: mount the initial RAM disk at the root. *)
Definition mount_rootfs (initrd : list Z) : M (vfs (T := fsobj)) Z :=
  mount (byte_list "/") initrd 0 0 None.

Lemma root_mount_spec s0 t fs l initrd len :
  loaded mem t fs l -> zlen fs < 2 ^ 32 -> CPIOFS.parse_device initrd = Some (r_base mem, len) ->
  zlen (encode t fs) <= len <= zlen (r_bytes mem) -> 0 <= p -> p mod 4 = 0 -> p + len + 4 < 2 ^ 64 ->
  cpiofs_register vfs_init = Some (0, s0) ->
  exists s1 s2, devfs_register s0 = Some (0, s1) /\ mount_rootfs initrd s1 = Some (0, s2) /\
    vfs_inv (inv := kinv) (view := kview) s2 /\ gview (view := kview) s2 = ∅ /\ v_counter s2 = 3 /\
    (forall path, ~ gfull (view := kview) (cap := kcap) s2 path) /\
    (forall name, 0 ∉ name ->
       gfiles (files := kfiles) s2 (byte_list "/" ++ name) =
         (fun x => cf_data x.2) <$> list_find (fun f => cf_name f = name) fs).
Proof.
  intros Hl Hn Hdev Hlen Hp0 Hp4 Hp1 [= <-].
  destruct (CPIOFS.new_ok mem t fs l p len) as (o & Enew & Hinv & Hview & Hfiles); try done.
  do 2 eexists. split; [reflexivity|].
  assert (Enf : cpiofs_new initrd ∅ = Some (0, alloc ∅, <[alloc ∅ := Cpio o]> ∅)).
  { unfold cpiofs_new, CPIOFS.new_instance. rewrite Hdev, Enew. done. }
  split.
  - unfold mount_rootfs, mount, mount_loop. cbn [v_factories set_factories vfs_init app fc_new fc_delete v_heap].
    rewrite bool_decide_eq_true_2 by (by left). rewrite Enf. cbn [Z.eqb K_OK]. reflexivity.
  - split; [|split; [|split; [|split]]].
    + split; cbn.
      * intros q u [[<- <-]|[_ H]]%lookup_insert_Some; [exact Hinv|]. by rewrite lookup_empty in H.
      * intros mp q df H. unfold map_insert in H. rewrite lookup_empty in H.
        apply lookup_insert_Some in H as [[_ [= <- _]]|[_ H]]; [by rewrite lookup_insert_eq|by rewrite lookup_empty in H].
      * intros fd q lfd H. by rewrite lookup_empty in H.
      * intros fd1 fd2 x H. by rewrite lookup_empty in H.
      * done.
    + apply map_eq. intros fd. by rewrite lookup_gview, lookup_empty.
    + reflexivity.
    + intros path (n & q & x & El & Eq & Hfull). destruct (lookup_mount_spec _ _ _ _ El) as [_ (mp & df & Hmp & _)].
      cbn in Hmp. unfold map_insert in Hmp. rewrite lookup_empty in Hmp. apply lookup_insert_Some in Hmp as [[_ [= <- _]]|[_ H]]; [|by rewrite lookup_empty in H].
      cbn in Eq. rewrite lookup_insert_eq in Eq. injection Eq as <-. cbn in Hfull. rewrite Hview in Hfull.
      destruct (Hfull 0 ltac:(split; vm_compute; congruence)) as [v Hv]. by rewrite lookup_empty in Hv.
    + intros name Hname. unfold gfiles.
      match goal with |- context [lookup_mount ?x ?s] =>
        assert (lookup_mount x s = (1, Some (alloc ∅))) as EL end.
      { unfold lookup_mount. cbn [v_map set_map set_heap set_factories vfs_init]. unfold map_insert. rewrite lookup_empty.
        rewrite insert_empty, map_to_list_singleton. cbn [fmap list_fmap fold_left].
        unfold pick_mount. cbn [fst snd prod_map]. rewrite bool_decide_eq_true_2 by (by exists name). done. }
      rewrite EL. cbn [v_heap set_map set_heap]. rewrite lookup_insert_eq. cbn. by apply Hfiles.
Qed.

(** C7: With CPIOFS registered first, mounting a "newc" archive (see
    [loaded]: hexadecimal digits in either case, any trailer entry, anything
    behind it, at an address divisible by 4) at the root succeeds, and
    afterwards every path below "/" names exactly the content of the archive's
    first entry of that name, with all descriptors free. The initial-disk string
    must be the archive's address and a length that covers it, CPIOFS's copy of
    it must be at an address divisible by 4, both end 4 bytes below 2 ^ 64, and
    there are fewer than 2 ^ 32 entries. *)
Theorem root_mount_correct s0 t fs l initrd len :
  loaded mem t fs l -> zlen fs < 2 ^ 32 -> CPIOFS.parse_device initrd = Some (r_base mem, len) ->
  zlen (encode t fs) <= len <= zlen (r_bytes mem) -> 0 <= p -> p mod 4 = 0 -> p + len + 4 < 2 ^ 64 ->
  cpiofs_register vfs_init = Some (0, s0) ->
  exists s1 s2, devfs_register s0 = Some (0, s1) /\ mount_rootfs initrd s1 = Some (0, s2) /\
    vfs_inv (inv := kinv) (view := kview) s2 /\ gview (view := kview) s2 = ∅ /\ v_counter s2 = 3 /\
    (forall path, ~ gfull (view := kview) (cap := kcap) s2 path) /\
    (forall name, 0 ∉ name ->
       gfiles (files := kfiles) s2 (byte_list "/" ++ name) =
         (fun x => cf_data x.2) <$> list_find (fun f => cf_name f = name) fs).
Proof. apply root_mount_spec. Qed.

Lemma dev_open (s : vfs (T := fsobj)) q path flags mode :
  (forall mp x, v_map s !! mp = Some x -> x.1 = q) -> v_heap s !! q = Some (Dev tt) ->
  exists ret, open kernel_ops path flags mode s = Some (ret, s) /\ ret < 0.
Proof.
  intros Hm Hq. unfold open. destruct (lookup_mount path s) as [n o] eqn:E.
  destruct (lookup_mount_spec _ _ _ _ E) as [_ H]. destruct o as [q'|]; [|by exists K_ENOENT].
  destruct H as (mp & df & Hmp & _). apply Hm in Hmp. cbn in Hmp. subst q'.
  exists (-1). unfold mbind, M_bind, vcall. rewrite Hq.
  cbn [fs_open kernel_ops on_dev DEVFS.open fmap option_fmap option_map prod_map fst snd id Z.leb Z.compare].
  rewrite insert_id by done. by destruct s.
Qed.

(** [mount] with no file-system name takes the first factory that succeeds,
    and the DEVFS stub accepts everything: registered before CPIOFS it becomes
    the root, and no file can be opened. *)
Theorem devfs_first_shadows s0 s1 initrd path flags mode :
  devfs_register vfs_init = Some (0, s0) -> cpiofs_register s0 = Some (0, s1) ->
  exists s2, mount_rootfs initrd s1 = Some (0, s2) /\
    exists ret, open kernel_ops path flags mode s2 = Some (ret, s2) /\ ret < 0.
Proof.
  intros [= <-] [= <-]. eexists. split; [reflexivity|]. apply (dev_open _ (alloc ∅)).
  - intros mp x Hx. cbn [v_map set_map] in Hx. unfold map_insert in Hx. cbn [v_map set_heap set_factories vfs_init] in Hx.
    rewrite lookup_empty in Hx. apply lookup_insert_Some in Hx as [[_ <-]|[_ H]]; [done|by rewrite lookup_empty in H].
  - apply lookup_insert_eq.
Qed.
End Factories.

(** [umount] deletes the file-system object but leaves the descriptors open
    on it in the table: the next [read] through such a descriptor uses a
    dangling pointer. *)
Theorem umount_leaves_dangling_fds (s : vfs (T := fsobj)) mp q fd lfd buf count :
  v_map s !! mp = Some (q, fs_delete) -> is_Some (v_heap s !! q) -> v_fds s !! fd = Some (q, lfd) -> fd <> 0 ->
  exists s', umount mp s = Some (0, s') /\ read kernel_ops fd buf count s' = None.
Proof.
  intros Hm [o Ho] Hfd Hne. unfold umount. rewrite Hm. unfold fs_delete. rewrite Ho. eexists. split; [done|].
  unfold read, FILE_STDIN. destruct (Z.eqb_spec fd 0); [done|]. cbn [v_fds set_map set_heap]. rewrite Hfd.
  unfold vcall. cbn. by rewrite lookup_delete_eq.
Qed.

(** Mounting over a path that is already a mount point makes the new object,
    reports success and changes nothing else: the object is unreachable. *)
Theorem mount_over_is_lost (s : vfs (T := fsobj)) mp q df dev flags mode alloc l :
  v_map s !! mp = Some (q, df) ->
  v_factories s = Factory (byte_list "cpio") (Some (devfs_new alloc)) (Some fs_delete) :: l ->
  exists s', mount mp dev flags mode (Some (byte_list "cpio")) s = Some (0, s') /\
    v_map s' = v_map s /\ v_fds s' = v_fds s /\ v_heap s' = <[alloc (v_heap s) := Dev tt]> (v_heap s).
Proof.
  intros Hm Hf. unfold mount. rewrite Hf. cbn [mount_loop fc_new fc_delete fc_name].
  rewrite bool_decide_eq_true_2 by (by right). cbn [devfs_new Z.eqb K_OK]. eexists. split; [reflexivity|].
  cbn. unfold map_insert. by rewrite Hm.
Qed.

(** ** A booted system with the sample archive *)
Definition sample_initrd : list Z := byte_list "0x84000000,0x170".
Definition sample_alloc (h : gmap Z fsobj) : Z := 0x1000 + 16 * Z.of_nat (size h).

Lemma sample_root : exists s0 s1 s2,
  cpiofs_register sample_alloc sample_region 0x2000 vfs_init = Some (0, s0) /\
  devfs_register sample_alloc s0 = Some (0, s1) /\ mount_rootfs sample_initrd s1 = Some (0, s2) /\
  vfs_inv (inv := kinv) (view := kview) s2 /\ gview (view := kview) s2 = ∅ /\ v_counter s2 = 3 /\
  (forall path, ~ gfull (view := kview) (cap := kcap) s2 path) /\ gfiles (files := kfiles) s2 (byte_list "/init") = Some [1; 2; 3].
Proof.
  destruct (root_mount_spec sample_alloc sample_region 0x2000
    (set_factories [Factory (byte_list "cpiofs") (Some (cpiofs_new sample_alloc sample_region 0x2000)) (Some fs_delete)] vfs_init)
    trailer sample_fs [] sample_initrd 368 sample_loaded) as (s1 & s2 & E1 & E2 & Hinv & Hv & Hc & Hroom & Hf);
    [reflexivity|by vm_compute|by vm_compute|lia|done|lia|reflexivity|].
  eexists _, s1, s2. split; [reflexivity|]. split; [exact E1|]. split; [exact E2|]. split; [exact Hinv|].
  split; [exact Hv|]. split; [exact Hc|]. split.
  - exact Hroom.
  - change (byte_list "/init") with (byte_list "/" ++ byte_list "init"). rewrite Hf; [reflexivity|].
    apply (bool_decide_unpack (0 ∉ _)). by vm_compute.
Qed.

(** The same system with /init open as descriptor 3. *)
Lemma sample_open : exists s2 s3,
  open kernel_ops (byte_list "/init") 0 0 s2 = Some (3, s3) /\
  vfs_inv (inv := kinv) (view := kview) s3 /\ gview (view := kview) s3 !! 3 = Some ([1; 2; 3], 0).
Proof.
  destruct sample_root as (s0 & s1 & s2 & E0 & E1 & E2 & Hinv & Hv & Hc & Hroom & Hf).
  destruct (open_spec (F := kernel_ops) (files := kfiles) s2 (byte_list "/init") 0 0 Hinv) as (ret & s3 & E & Hi & _ & Hm);
    [apply (bool_decide_unpack (0 ∉ _)); by vm_compute|lia|].
  rewrite Hf, Hc in Hm. destruct Hm as [[-> Hg]|(_ & _ & Hfull)]; [|by apply Hroom in Hfull].
  exists s2, s3. split; [exact E|]. split; [exact Hi|]. rewrite Hg. apply lookup_insert_eq.
Qed.

Lemma root_mount_witness : exists s1 s2,
  devfs_register sample_alloc (set_factories
    [Factory (byte_list "cpiofs") (Some (cpiofs_new sample_alloc sample_region 0x2000)) (Some fs_delete)] vfs_init)
    = Some (0, s1) /\ mount_rootfs sample_initrd s1 = Some (0, s2).
Proof.
  destruct (root_mount_correct sample_alloc sample_region 0x2000
    (set_factories [Factory (byte_list "cpiofs") (Some (cpiofs_new sample_alloc sample_region 0x2000)) (Some fs_delete)] vfs_init)
    trailer sample_fs [] sample_initrd 368 sample_loaded) as (s1 & s2 & E1 & E2 & _);
    [reflexivity|by vm_compute|by vm_compute|lia|done|lia|reflexivity|].
  exists s1, s2. split; [exact E1|exact E2].
Defined.

Lemma vfs_open_witness : exists s s', open kernel_ops (byte_list "/init") 0 0 s = Some (3, s') /\ gview (view := kview) s' = {[3 := ([1; 2; 3], 0)]}.
Proof.
  destruct sample_root as (s0 & s1 & s2 & E0 & E1 & E2 & Hinv & Hv & Hc & Hroom & Hf).
  destruct (vfs_open_correct (F := kernel_ops) (files := kfiles) s2 (byte_list "/init") 0 0 Hinv) as (ret & s3 & E & _ & _ & Hm);
    [apply (bool_decide_unpack (0 ∉ _)); by vm_compute|lia|].
  rewrite Hf, Hc, Hv in Hm. destruct Hm as [[-> Hg]|(_ & _ & Hfull)]; [|by apply Hroom in Hfull].
  exists s2, s3. split; [exact E|exact Hg].
Defined.

Lemma vfs_read_witness : exists s s', read kernel_ops 3 [9; 9; 9; 9; 9] 5 s = Some ((3, [1; 2; 3; 9; 9]), s').
Proof.
  destruct sample_open as (s2 & s3 & _ & Hi & Hg).
  destruct (vfs_read_correct (F := kernel_ops) (files := kfiles) s3 3 [1; 2; 3] 0 [9; 9; 9; 9; 9] 5 Hi Hg) as (s' & E & _);
    [lia|by vm_compute|].
  exists s3, s'. exact E.
Defined.

Lemma vfs_lseek_witness : exists s s', lseek kernel_ops 3 (-1) SEEK_END s = Some (K_OK, s').
Proof.
  destruct sample_open as (s2 & s3 & _ & Hi & Hg).
  destruct (vfs_lseek_correct (F := kernel_ops) (files := kfiles) s3 3 [1; 2; 3] 0 (-1) SEEK_END Hi Hg) as (ret & s' & E & _ & Hm);
    [by vm_compute|].
  destruct Hm as [Hr _]. exists s3, s'. rewrite <- Hr. exact E.
Defined.

Lemma vfs_close_witness : exists s s', close kernel_ops 3 s = Some (K_OK, s').
Proof.
  destruct sample_open as (s2 & s3 & _ & Hi & Hg).
  destruct (vfs_close_correct (F := kernel_ops) (files := kfiles) s3 3 [1; 2; 3] 0 Hi Hg) as (s' & E & _).
  exists s3, s'. exact E.
Defined.

Definition two_mounts : vfs (T := fsobj) :=
  set_map (<[byte_list "/dev" := (2, fs_delete)]> {[byte_list "/" := (1, fs_delete)]}) vfs_init.

Lemma lookup_mount_witness : lookup_mount (byte_list "/dev/tty") two_mounts = (4, Some 2).
Proof.
  destruct (lookup_mount_longest two_mounts (byte_list "/dev/tty") (byte_list "/dev") 2 fs_delete) as [E _].
  - apply lookup_insert_eq.
  - by exists (byte_list "/tty").
  - by vm_compute.
  - intros mp' p' df' H Hp. cbn [v_map two_mounts set_map] in H.
    apply lookup_insert_Some in H as [[<- _]|[_ H]]; [done|]. apply lookup_singleton_Some in H as [<- _]. by vm_compute.
  - exact E.
Defined.

Lemma devfs_first_witness : exists s0 s1 s2,
  devfs_register sample_alloc vfs_init = Some (0, s0) /\
  cpiofs_register sample_alloc sample_region 0x2000 s0 = Some (0, s1) /\
  mount_rootfs sample_initrd s1 = Some (0, s2).
Proof.
  destruct (devfs_first_shadows sample_alloc sample_region 0x2000 _ _ sample_initrd (byte_list "/init") 0 0 eq_refl eq_refl)
    as (s2 & E & _).
  eexists _, _, s2. split; [reflexivity|]. split; [reflexivity|]. exact E.
Defined.

Definition dev_open_vfs : vfs (T := fsobj) :=
  set_fds {[3 := (1, 0)]} (set_map {[byte_list "/" := (1, fs_delete)]} (set_heap {[1 := Dev tt]} vfs_init)).

Lemma umount_dangling_witness : exists s',
  umount (byte_list "/") dev_open_vfs = Some (0, s') /\ read kernel_ops 3 [] 0 s' = None.
Proof.
  apply (umount_leaves_dangling_fds dev_open_vfs (byte_list "/") 1 3 0 [] 0).
  - apply lookup_singleton_eq.
  - by exists (Dev tt).
  - reflexivity.
  - done.
Defined.

Lemma mount_over_witness : exists s',
  mount (byte_list "/") [] 0 0 (Some (byte_list "cpio"))
    (set_factories [Factory (byte_list "cpio") (Some (devfs_new sample_alloc)) (Some fs_delete)] dev_open_vfs)
    = Some (0, s') /\ v_map s' = v_map dev_open_vfs.
Proof.
  destruct (mount_over_is_lost
    (set_factories [Factory (byte_list "cpio") (Some (devfs_new sample_alloc)) (Some fs_delete)] dev_open_vfs)
    (byte_list "/") 1 fs_delete [] 0 0 sample_alloc [] ) as (s' & E & Hm & _).
  - apply lookup_singleton_eq.
  - reflexivity.
  - exists s'. split; [exact E|exact Hm].
Defined.
