(* ===== verification/KMain.v ===== *)
(** The main function of a hart, [k_main] of src/kernel/main/k_main.cpp: it prints
    the lines of the file "/2.txt", read through an [std::ifstream], and with it
    through the system calls of libc_hooks.cpp and the virtual file system. *)
From S2P Require Import Prelude KDefs Bytes Cpio CpioProps Vfs CpioFs VfsProps KernelFs.

(** ** The program *)

(** The calls of [printf], in order. *)
Inductive message :=
  | Hello (hartid : Z)
  | Reading (text : list Z)
  | FailedToOpen.

(** A string as [%s] prints it: up to the first NUL. *)
Fixpoint c_str (l : list Z) : list Z := match l with [] => [] | c :: l => if c =? 0 then [] else c :: c_str l end.

(** [std::ifstream]: its descriptor, what is left in its buffer, and [good()]. *)
Record ifstream := IFStream { i_fd : Z; i_buf : list Z; i_good : bool }.

Definition O_RDONLY : Z := 0.
Definition S_666 : Z := 438.

Section KMain.
  Context {T : Type} (F : BasicFS T).
  (** How many bytes the stream reads at a time. *)
  Context (buflen : Z).

Abbreviation VFS := (vfs (T := T)).

(** [std::getline]: characters up to a newline, which is dropped, or up to the
    end of the file; [None] is a stream that is false afterwards. The end of the
    file is an empty read; a failed read sets badbit. *)
Fixpoint getline_loop (fuel : nat) (line : list Z) (f : ifstream) : M VFS (option (list Z) * ifstream) :=
  match fuel with
  | O => fun _ => None
  | S fuel =>
      match i_buf f with
      | c :: b => if c =? 10 then mret (Some line, IFStream (i_fd f) b true) else getline_loop fuel (line ++ [c]) (IFStream (i_fd f) b true)
      | [] =>
          '(n, b) ← _read F (i_fd f) (replicate (Z.to_nat buflen) 0) buflen;
          if n <? 0 then mret (None, IFStream (i_fd f) [] false)
          else if n =? 0 then mret (match line with [] => None | _ => Some line end, IFStream (i_fd f) [] false)
          else getline_loop fuel line (IFStream (i_fd f) (take (Z.to_nat n) b) true)
      end
  end.
Definition getline (fuel : nat) (f : ifstream) : M VFS (option (list Z) * ifstream) :=
  if i_good f then getline_loop fuel [] f else mret (None, f).

(** [while(getline(f, line)) printf(...)]. *)
Fixpoint print_lines (fuel : nat) (f : ifstream) : M VFS (list message * ifstream) :=
  match fuel with
  | O => fun _ => None
  | S n =>
      '(o, f) ← getline fuel f;
      match o with
      | None => mret ([], f)
      | Some line => '(out, f) ← print_lines n f; mret (Reading (c_str line) :: out, f)
      end
  end.

(** The return value and the messages. *)
Definition k_main (fuel : nat) (hartid : Z) : M VFS (Z * list message) :=
  fd ← _open F (byte_list "/2.txt") O_RDONLY S_666;
  if 0 <=? fd then
    '(out, f) ← print_lines fuel (IFStream fd [] true);
    _ ← _close F (i_fd f);
    mret (0, Hello hartid :: out)
  else mret (0, [Hello hartid; FailedToOpen]).
End KMain.

(** ** The lines of a file *)
Fixpoint lines_from (line l : list Z) : list (list Z) :=
  match l with
  | [] => match line with [] => [] | _ => [line] end
  | c :: l => if c =? 10 then line :: lines_from [] l else lines_from (line ++ [c]) l
  end.
Definition lines : list Z -> list (list Z) := lines_from [].

(** The lines hold no newline, and put together again, each with its newline,
    they are the file, but for a newline its last line may lack. *)
Lemma lines_from_join l : forall line, 10 ∉ line ->
  Forall (fun x => 10 ∉ x) (lines_from line l) /\
  (concat ((fun x => x ++ [10]) <$> lines_from line l) = line ++ l \/ concat ((fun x => x ++ [10]) <$> lines_from line l) = line ++ l ++ [10]).
Proof.
  induction l as [|c l IH]; intros line Hn; cbn [lines_from].
  - destruct line as [|x line]; [split; [constructor|by left]|]. split; [by constructor|]. right. cbn. by rewrite app_nil_r.
  - destruct (Z.eqb_spec c 10) as [->|Hc].
    + destruct (IH [] ltac:(apply not_elem_of_nil)) as [H1 H2]. split; [by constructor|]. cbn [fmap list_fmap concat].
      destruct H2 as [H2|H2]; rewrite H2; [left|right]; by rewrite <- !app_assoc.
    + destruct (IH (line ++ [c])) as [H1 H2]; [|split; [done|]; destruct H2 as [H2|H2]; rewrite H2; [left|right]; by rewrite <- !app_assoc].
      rewrite not_elem_of_app, list_elem_of_singleton. split; [done|congruence].
Qed.

(** What is left of the file behind the first newline. *)
Fixpoint after_line (l : list Z) : list Z := match l with [] => [] | c :: l => if c =? 10 then l else after_line l end.
Fixpoint first_line (l : list Z) : list Z := match l with [] => [] | c :: l => if c =? 10 then [] else c :: first_line l end.
Definition has_newline (l : list Z) : bool := existsb (Z.eqb 10) l.

Lemma after_line_lt l : has_newline l = true -> (length (after_line l) < length l)%nat.
Proof.
  unfold has_newline. induction l as [|c l IH]; [done|]. cbn [existsb after_line length]. rewrite (Z.eqb_sym 10 c).
  destruct (c =? 10); cbn [orb]; [lia|]. intros H. specialize (IH H). lia.
Qed.

Lemma lines_from_first l : forall line, lines_from line l =
  if has_newline l then (line ++ first_line l) :: lines_from [] (after_line l) else match line ++ l with [] => [] | x => [x] end.
Proof.
  induction l as [|c l IH]; intros line; cbn [lines_from has_newline existsb first_line after_line]; [by rewrite app_nil_r; destruct line|].
  rewrite (Z.eqb_sym 10 c). destruct (c =? 10); cbn [orb]; [by rewrite app_nil_r|]. rewrite IH. unfold has_newline.
  destruct (existsb (Z.eqb 10) l); by rewrite <- app_assoc.
Qed.

Section Props.
  Context {T : Type} {F : BasicFS T} {inv : T -> Prop} {files : T -> list Z -> option (list Z)}
    {view : T -> gmap Z (list Z * Z)} {cap : T -> Z} `{HF : !FsSpec F inv files view cap}.
  Context (buflen : Z) (Hbuf : 0 < buflen < 2 ^ 31).
  Implicit Types s : vfs (T := T).

Abbreviation Inv := (vfs_inv (inv := inv) (view := view)).
Abbreviation View := (gview (view := view)).
Abbreviation Files := (gfiles (files := files)).

(** A stream with [rest] left to read of the file [c], open as [i_fd f] while the
    other descriptors are [V] and the paths name [P]. *)
Record reading (V : gmap Z (list Z * Z)) (P : list Z -> option (list Z)) (c : list Z) (f : ifstream) (rest : list Z) s : Prop := {
  rd_inv : Inv s;
  rd_view : exists pos, View s = <[i_fd f := (c, pos)]> V /\ rest = i_buf f ++ drop (Z.to_nat pos) c;
  rd_files : forall path, Files s path = P path;
}.

Lemma view_pos s fd c pos : Inv s -> View s !! fd = Some (c, pos) -> 0 <= pos <= zlen c.
Proof. intros Hs Hv. destruct (gview_fd _ _ _ Hv) as (p & lfd & t & _ & Ht & Hl). eapply spec_pos; [|done]. by apply (vi_heap _ Hs p). Qed.

(** Filling the empty buffer. *)
Lemma refill V P c f rest s : reading V P c f rest s -> i_buf f = [] ->
  exists n b s', _read F (i_fd f) (replicate (Z.to_nat buflen) 0) buflen s = Some ((n, b), s') /\ 0 <= n /\ (n = 0 <-> rest = []) /\
    reading V P c (IFStream (i_fd f) (take (Z.to_nat n) b) (negb (n =? 0))) rest s' /\ (n <> 0 -> take (Z.to_nat n) b <> []).
Proof.
  intros [Hi (pos & Hv & Hr) Hf] Hb. rewrite Hb in Hr. cbn [app] in Hr.
  assert (View s !! i_fd f = Some (c, pos)) as Hl by (rewrite Hv; apply lookup_insert_eq). pose proof (view_pos _ _ _ _ Hi Hl) as Hp.
  destruct (read_spec (F := F) (files := files) s (i_fd f) c pos (replicate (Z.to_nat buflen) 0) buflen Hi Hl ltac:(lia)) as (s' & E & Hi' & Hv' & Hf').
  { unfold zlen. rewrite length_replicate. lia. }
  set (n := Z.min buflen (zlen c - pos)) in *. eexists n, _, s'. split; [exact E|].
  assert (length rest = Z.to_nat (zlen c - pos)) as Hlen by (rewrite Hr, length_drop; unfold zlen in *; lia).
  assert (n = 0 <-> rest = []) as Hn by (rewrite <- length_zero_iff_nil, Hlen; lia).
  assert (take (Z.to_nat n) (take (Z.to_nat n) (drop (Z.to_nat pos) c) ++ drop (Z.to_nat n) (replicate (Z.to_nat buflen) 0)) = take (Z.to_nat n) rest) as Et.
  { rewrite <- Hr. rewrite take_app_le, take_take, Nat.min_id; [done|]. rewrite length_take. lia. }
  rewrite Et. split_and!; [lia|done..| |].
  - split; cbn [i_fd i_buf]; [done| |by intros; rewrite Hf', Hf]. exists (pos + n). rewrite Hv', Hv, insert_insert_eq. split; [done|].
    replace (Z.to_nat (pos + n)) with (Z.to_nat pos + Z.to_nat n)%nat by lia. rewrite <- drop_drop, <- Hr. by rewrite take_drop.
  - intros Hn0 Ht. apply Hn0, Hn. apply length_zero_iff_nil. apply (f_equal length) in Ht. rewrite length_take in Ht. cbn in Ht. lia.
Qed.

(** One call of [getline] takes the first line of what is left, or, at the end of
    the file, what there is. *)
Definition line_read (V : gmap Z (list Z * Z)) P c fd (line rest : list Z) (o : option (list Z)) (f : ifstream) s : Prop :=
  i_fd f = fd /\
  (if has_newline rest then o = Some (line ++ first_line rest) /\ i_good f = true /\ reading V P c f (after_line rest) s
  else o = match line ++ rest with [] => None | x => Some x end /\ i_good f = false /\ reading V P c f [] s).

Lemma reading_next V P c fd x b g rest s : reading V P c (IFStream fd (x :: b) g) rest s ->
  exists rest', rest = x :: rest' /\ reading V P c (IFStream fd b true) rest' s.
Proof. intros [Hi (pos & Hv & ->) Hf]. eexists. split; [done|]. split; [done|by exists pos|done]. Qed.

Lemma line_read_next V P c fd line x rest o f s : x <> 10 -> line_read V P c fd (line ++ [x]) rest o f s -> line_read V P c fd line (x :: rest) o f s.
Proof.
  unfold line_read, has_newline. intros Hx. cbn [existsb first_line after_line]. destruct (Z.eqb_spec 10 x); [congruence|]. destruct (Z.eqb_spec x 10); [done|].
  cbn [orb]. by rewrite <- !app_assoc.
Qed.

Lemma getline_loop_spec V P c : forall fuel line f rest s, reading V P c f rest s ->
  (2 * length rest + match i_buf f with [] => 1 | _ => 0 end < fuel)%nat ->
  exists o f' s', getline_loop F buflen fuel line f s = Some ((o, f'), s') /\ line_read V P c (i_fd f) line rest o f' s'.
Proof.
  induction fuel as [|fuel IH]; intros line [fd b g] rest s Hr Hfuel; [lia|]. cbn [getline_loop i_buf i_fd]. destruct b as [|x b].
  - destruct (refill _ _ _ _ _ _ Hr eq_refl) as (n & b & s1 & E & Hn & Hz & Hr1 & Hne). cbn [i_fd] in E, Hr1. unfold mbind, M_bind. rewrite E.
    destruct (Z.ltb_spec n 0); [lia|]. destruct (Z.eqb_spec n 0) as [E0|E0].
    + rewrite (proj1 Hz E0) in *. do 3 eexists. split; [reflexivity|]. split; [done|]. cbn. rewrite app_nil_r.
      split_and!; [by destruct line|done|]. rewrite E0 in Hr1. destruct Hr1 as [? (pos & ? & ?) ?]. split; [done|by exists pos|done].
    + cbn [negb] in Hr1. destruct (take (Z.to_nat n) b) as [|y b'] eqn:Eb; [by specialize (Hne E0)|].
      destruct (IH line _ _ _ Hr1) as (o & f' & s' & E2 & Hl); [cbn in Hfuel |- *; lia|]. by exists o, f', s'.
  - destruct (reading_next _ _ _ _ _ _ _ _ _ Hr) as (rest' & -> & Hr'). destruct (Z.eqb_spec x 10) as [->|Hx].
    + do 3 eexists. split; [reflexivity|]. split; [done|]. cbn. by rewrite app_nil_r.
    + destruct (IH (line ++ [x]) _ _ _ Hr') as (o & f' & s' & E & Hl); [cbn in Hfuel |- *; destruct b; lia|].
      exists o, f', s'. split; [exact E|]. by apply line_read_next.
Qed.

(** The loop prints every line, and leaves the file's descriptor open. *)
Lemma print_lines_spec V P c : forall fuel f rest s, reading V P c f rest s -> i_good f = true -> (2 * length rest + 3 < fuel)%nat ->
  exists f' s', print_lines F buflen fuel f s = Some (((Reading ∘ c_str) <$> lines rest, f'), s') /\ i_fd f' = i_fd f /\ reading V P c f' [] s'.
Proof.
  intros fuel. induction fuel as [fuel IH] using lt_wf_ind. intros f rest s Hr Hg Hfuel. destruct fuel as [|n]; [lia|]. cbn [print_lines].
  unfold getline. rewrite Hg. destruct (getline_loop_spec V P c (S n) [] f rest s Hr) as (o & f1 & s1 & E & Hfd & Hl); [destruct (i_buf f); lia|].
  unfold mbind, M_bind. rewrite E. unfold lines. rewrite lines_from_first. destruct (has_newline rest) eqn:En.
  - destruct Hl as (-> & Hg1 & Hr1). pose proof (after_line_lt _ En).
    destruct (IH n ltac:(lia) _ _ _ Hr1 Hg1 ltac:(lia)) as (f2 & s2 & E2 & Hfd2 & Hr2). rewrite E2.
    exists f2, s2. split_and!; [done|congruence|done].
  - destruct Hl as (-> & Hg1 & Hr1). cbn [app]. destruct rest as [|x rest]; [by exists f1, s1|].
    destruct n as [|n]; [lia|]. cbn [print_lines]. unfold getline. rewrite Hg1. by exists f1, s1.
Qed.

Lemma fresh_fd s : Inv s -> View s !! v_counter s = None.
Proof.
  intros Hs. rewrite lookup_gview. destruct (v_fds s !! v_counter s) as [[p l]|] eqn:E; [|done]. destruct (vi_fds _ Hs _ _ _ E) as [? _]. lia.
Qed.

Lemma k_main_spec s hartid fuel : Inv s -> v_counter s < 2 ^ 31 - 1 ->
  (2 * length (default [] (Files s (byte_list "/2.txt"))) + 3 < fuel)%nat ->
  exists out s', k_main F buflen fuel hartid s = Some ((0, Hello hartid :: out), s') /\ Inv s' /\ View s' = View s /\
    (forall path, Files s' path = Files s path) /\
    match Files s (byte_list "/2.txt") with
    | Some c => out = (Reading ∘ c_str) <$> lines c \/ (out = [FailedToOpen] /\ gfull (view := view) (cap := cap) s (byte_list "/2.txt"))
    | None => out = [FailedToOpen]
    end.
Proof.
  intros Hs Hc Hfuel. unfold k_main, _open. unfold mbind, M_bind.
  destruct (open_spec (F := F) (files := files) s (byte_list "/2.txt") O_RDONLY S_666 Hs) as (ret & s1 & E & Hi & Hf & Hm); [|done|].
  { apply (bool_decide_unpack (0 ∉ _)). by vm_compute. }
  rewrite E. destruct (Files s (byte_list "/2.txt")) as [c|]; [destruct Hm as [[Hret Hv]|(Hret & Hv & Hfull)]|destruct Hm as [Hret Hv]].
  - pose proof (vi_counter _ Hs). destruct (Z.leb_spec 0 ret); [|lia]. pose proof (fresh_fd s Hs) as Hfr. rewrite <- Hret in Hfr.
    destruct (print_lines_spec (View s) (Files s) c fuel (IFStream ret [] true) c s1) as (f2 & s2 & E2 & Hfd & [Hi2 (pos & Hv2 & _) Hf2]); [|done|done|].
    { split; [done| |done]. by exists 0. }
    rewrite E2. cbn [i_fd] in Hfd. rewrite Hfd in Hv2 |- *.
    destruct (vfs_close_correct (F := F) (files := files) s2 ret c pos Hi2) as (s3 & E3 & Hi3 & Hv3 & Hf3 & _); [rewrite Hv2; apply lookup_insert_eq|].
    unfold _close. rewrite E3. do 2 eexists. split; [reflexivity|]. split_and!; [done| |by intros; rewrite Hf3|by left].
    by rewrite Hv3, Hv2, delete_insert_id.
  - rewrite Hret. exists [FailedToOpen], s1. split_and!; [reflexivity|done|done|done|]. right. split; done.
  - destruct (Z.leb_spec 0 ret); [lia|]. exists [FailedToOpen], s1. split_and!; done.
Qed.

(** C12: As long as fewer than 2 ^ 31 - 4 descriptors have been handed out, and
    whatever the size of the stream's buffer (below 2 ^ 31), [k_main] ends within
    a number of steps linear in the size of "/2.txt" and returns 0. When the path
    names a file it prints, behind its greeting, exactly the lines of that file
    in their order, each up to its first NUL, or, only if every descriptor of
    the file system at the path's mount point is in use, that the file could not
    be opened; when the path names none, that it could not be opened. It closes
    what it opened, and changes neither what other descriptors stand for nor
    what any path names. *)
Theorem k_main_correct s hartid fuel : Inv s -> v_counter s < 2 ^ 31 - 1 ->
  (2 * length (default [] (Files s (byte_list "/2.txt"))) + 3 < fuel)%nat ->
  exists out s', k_main F buflen fuel hartid s = Some ((0, Hello hartid :: out), s') /\ Inv s' /\ View s' = View s /\
    (forall path, Files s' path = Files s path) /\
    match Files s (byte_list "/2.txt") with
    | Some c => out = (Reading ∘ c_str) <$> lines c \/ (out = [FailedToOpen] /\ gfull (view := view) (cap := cap) s (byte_list "/2.txt"))
    | None => out = [FailedToOpen]
    end.
Proof. by apply k_main_spec. Qed.
End Props.

(** ** With the archive mounted at the root

    Behind the mount of k_boot_sysdev, the file printed is the archive's first
    entry named "2.txt". *)
Theorem archive_printed alloc mem p s0 t fs l initrd len buflen hartid fuel :
  loaded mem t fs l -> zlen fs < 2 ^ 32 -> CPIOFS.parse_device initrd = Some (r_base mem, len) ->
  zlen (encode t fs) <= len <= zlen (r_bytes mem) -> 0 <= p -> p mod 4 = 0 -> p + len + 4 < 2 ^ 64 ->
  cpiofs_register alloc mem p vfs_init = Some (0, s0) -> 0 < buflen < 2 ^ 31 ->
  let file := (fun x => cf_data x.2) <$> list_find (fun f => cf_name f = byte_list "2.txt") fs in
  (2 * length (default [] file) + 3 < fuel)%nat ->
  exists s1 s2 s3, devfs_register alloc s0 = Some (0, s1) /\ mount_rootfs initrd s1 = Some (0, s2) /\
    k_main kernel_ops buflen fuel hartid s2 =
      Some ((0, Hello hartid :: match file with Some c => (Reading ∘ c_str) <$> lines c | None => [FailedToOpen] end), s3).
Proof.
  intros Hl Hn Hdev Hlen Hp0 Hp4 Hp1 H0 Hb file Hfuel.
  destruct (root_mount_spec alloc mem p s0 t fs l initrd len Hl Hn Hdev Hlen Hp0 Hp4 Hp1 H0) as (s1 & s2 & E1 & E2 & Hi & _ & Hc & Hroom & Hf).
  specialize (Hf (byte_list "2.txt") ltac:(apply (bool_decide_unpack (0 ∉ _)); by vm_compute)). fold file in Hf.
  change (byte_list "/" ++ byte_list "2.txt") with (byte_list "/2.txt") in Hf.
  destruct (k_main_spec (F := kernel_ops) (files := kfiles) buflen Hb s2 hartid fuel Hi ltac:(lia) ltac:(by rewrite Hf)) as (out & s3 & E3 & _ & _ & _ & Ho).
  exists s1, s2, s3. split_and!; [done..|]. rewrite Hf in Ho. destruct file as [c|]; [|by rewrite <- Ho]. destruct Ho as [<-|[_ Hfull]]; [done|by apply Hroom in Hfull].
Qed.

(** An archive with the file. *)
Definition main_fs : list cpio_file := [plain_file "2.txt" [72; 105; 10; 10; 121; 0; 111]].
Definition main_region : region := Region 0x84000000 (encode trailer main_fs).
Definition main_initrd : list Z := byte_list "0x84000000,0xF8".

Lemma main_loaded : loaded main_region trailer main_fs [].
Proof.
  split.
  - by rewrite app_nil_r.
  - repeat constructor; apply (bool_decide_unpack (0 ∉ _)); by vm_compute.
  - repeat constructor; by vm_compute.
  - apply trailer_ok.
  - vm_compute. split_and!; done.
Qed.

(** "Hi", an empty line, and "y" up to the NUL. *)
Lemma k_main_witness : exists s s', k_main kernel_ops 2 18 5 s = Some ((0, [Hello 5; Reading [72; 105]; Reading []; Reading [121]]), s').
Proof.
  destruct (root_mount_spec sample_alloc main_region 0x2000
    (set_factories [Factory (byte_list "cpiofs") (Some (cpiofs_new sample_alloc main_region 0x2000)) (Some fs_delete)] vfs_init)
    trailer main_fs [] main_initrd 248 main_loaded) as (s1 & s2 & E1 & E2 & Hinv & _ & Hc & Hroom & Hf);
    [reflexivity|by vm_compute|by vm_compute|lia|done|lia|reflexivity|].
  specialize (Hf (byte_list "2.txt") ltac:(apply (bool_decide_unpack (0 ∉ _)); by vm_compute)).
  change (byte_list "/" ++ byte_list "2.txt") with (byte_list "/2.txt") in Hf.
  destruct (k_main_correct (F := kernel_ops) (files := kfiles) 2 ltac:(lia) s2 5 18 Hinv ltac:(lia)) as (out & s3 & E3 & _ & _ & _ & Ho).
  { rewrite Hf. apply (bool_decide_unpack _). by vm_compute. }
  rewrite Hf in Ho. destruct Ho as [->|[_ Hfull]]; [|by apply Hroom in Hfull].
  exists s2, s3. exact E3.
Defined.
