(* ===== verification/Fdt.v ===== *)
(** Flattened device trees: src/deps/libfdt/fdt.c with the constants and inline
    helpers of fdt.h, libfdt.h, libfdt_env.h and libfdt_internal.h.

    The blob is a [region]; a pointer into it is an offset from its start and
    [None] inside the option of a pointer is NULL.  The outer [option] is
    undefined behaviour: a read outside the region, or fuel running out.
    [int] arithmetic wraps (the kernel is built with -O0), [FDT_ASSUME_MASK] is
    0 so that every [can_assume] is false. *)
From S2P Require Import Prelude Bytes.

(** ** Constants *)
Definition FDT_MAGIC : Z := 0xd00dfeed.
Definition FDT_SW_MAGIC : Z := u32 (Z.lnot FDT_MAGIC).
Definition FDT_TAGSIZE : Z := 4.
Definition FDT_BEGIN_NODE : Z := 1.
Definition FDT_END_NODE : Z := 2.
Definition FDT_PROP : Z := 3.
Definition FDT_NOP : Z := 4.
Definition FDT_END : Z := 9.
Definition FDT_V1_SIZE : Z := 28.
Definition FDT_V2_SIZE : Z := FDT_V1_SIZE + 4.
Definition FDT_V3_SIZE : Z := FDT_V2_SIZE + 4.
Definition FDT_V16_SIZE : Z := FDT_V3_SIZE.
Definition FDT_V17_SIZE : Z := FDT_V16_SIZE + 4.
Definition FDT_FIRST_SUPPORTED_VERSION : Z := 0x02.
Definition FDT_LAST_COMPATIBLE_VERSION : Z := 0x10.
Definition FDT_LAST_SUPPORTED_VERSION : Z := 0x11.
Definition FDT_MAX_PHANDLE : Z := 0xfffffffe.
Definition INT_MAX : Z := 2 ^ 31 - 1.

Definition FDT_ERR_NOTFOUND : Z := 1.
Definition FDT_ERR_EXISTS : Z := 2.
Definition FDT_ERR_NOSPACE : Z := 3.
Definition FDT_ERR_BADOFFSET : Z := 4.
Definition FDT_ERR_BADPATH : Z := 5.
Definition FDT_ERR_BADPHANDLE : Z := 6.
Definition FDT_ERR_BADSTATE : Z := 7.
Definition FDT_ERR_TRUNCATED : Z := 8.
Definition FDT_ERR_BADMAGIC : Z := 9.
Definition FDT_ERR_BADVERSION : Z := 10.
Definition FDT_ERR_BADSTRUCTURE : Z := 11.
Definition FDT_ERR_BADLAYOUT : Z := 12.
Definition FDT_ERR_INTERNAL : Z := 13.
Definition FDT_ERR_BADNCELLS : Z := 14.
Definition FDT_ERR_BADVALUE : Z := 15.
Definition FDT_ERR_BADOVERLAY : Z := 16.
Definition FDT_ERR_NOPHANDLES : Z := 17.
Definition FDT_ERR_BADFLAGS : Z := 18.
Definition FDT_ERR_ALIGNMENT : Z := 19.

(** ** Words of the blob *)
Definition fdt32_ld (m : list Z) (p : Z) : option Z := rd_be 4 m p.
Definition fdt64_ld (m : list Z) (p : Z) : option Z := rd_be 8 m p.
Definition fdt32_st (m : list Z) (p v : Z) : option (list Z) := wrn m p (to_be 4 v).
Definition fdt64_st (m : list Z) (p v : Z) : option (list Z) := wrn m p (to_be 8 v).

Section Blob.
  Variable b : region.
  Local Abbreviation m := (r_bytes b).

(** The header fields. *)
Definition fdt_magic : option Z := fdt32_ld m 0.
Definition fdt_totalsize : option Z := fdt32_ld m 4.
Definition fdt_off_dt_struct : option Z := fdt32_ld m 8.
Definition fdt_off_dt_strings : option Z := fdt32_ld m 12.
Definition fdt_off_mem_rsvmap : option Z := fdt32_ld m 16.
Definition fdt_version : option Z := fdt32_ld m 20.
Definition fdt_last_comp_version : option Z := fdt32_ld m 24.
Definition fdt_boot_cpuid_phys : option Z := fdt32_ld m 28.
Definition fdt_size_dt_strings : option Z := fdt32_ld m 32.
Definition fdt_size_dt_struct : option Z := fdt32_ld m 36.

Definition fdt_ro_probe_ : option Z :=
  totalsize ← fdt_totalsize;
  if negb (Z.land (r_base b) 7 =? 0) then Some (- FDT_ERR_ALIGNMENT)
  else
    let finish := Some (if totalsize <? INT_MAX then totalsize else - FDT_ERR_TRUNCATED) in
    magic ← fdt_magic;
    if magic =? FDT_MAGIC then
      version ← fdt_version;
      if version <? FDT_FIRST_SUPPORTED_VERSION then Some (- FDT_ERR_BADVERSION)
      else
        lcv ← fdt_last_comp_version;
        if FDT_LAST_SUPPORTED_VERSION <? lcv then Some (- FDT_ERR_BADVERSION) else finish
    else if magic =? FDT_SW_MAGIC then
      size ← fdt_size_dt_struct;
      if size =? 0 then Some (- FDT_ERR_BADSTATE) else finish
    else Some (- FDT_ERR_BADMAGIC).

Definition check_off_ (hdrsize totalsize off : Z) : bool := (hdrsize <=? off) && (off <=? totalsize).

Definition check_block_ (hdrsize totalsize base size : Z) : bool :=
  if negb (check_off_ hdrsize totalsize base) then false
  else if u32 (base + size) <? base then false
  else if negb (check_off_ hdrsize totalsize (u32 (base + size))) then false
  else true.

Definition fdt_header_size_ (version : Z) : Z :=
  if version <=? 1 then FDT_V1_SIZE
  else if version <=? 2 then FDT_V2_SIZE
  else if version <=? 3 then FDT_V3_SIZE
  else if version <=? 16 then FDT_V16_SIZE
  else FDT_V17_SIZE.

Definition fdt_header_size : option Z := fdt_header_size_ <$> fdt_version.

Definition fdt_check_header : option Z :=
  if negb (Z.land (r_base b) 7 =? 0) then Some (- FDT_ERR_ALIGNMENT)
  else
    magic ← fdt_magic;
    if negb (magic =? FDT_MAGIC) then Some (- FDT_ERR_BADMAGIC)
    else
      version ← fdt_version;
      lcv ← fdt_last_comp_version;
      if (version <? FDT_FIRST_SUPPORTED_VERSION) || (FDT_LAST_SUPPORTED_VERSION <? lcv)
      then Some (- FDT_ERR_BADVERSION)
      else if version <? lcv then Some (- FDT_ERR_BADVERSION)
      else
        hdrsize ← fdt_header_size;
        totalsize ← fdt_totalsize;
        if (totalsize <? hdrsize) || (INT_MAX <? totalsize) then Some (- FDT_ERR_TRUNCATED)
        else
          rsv ← fdt_off_mem_rsvmap;
          if negb (check_off_ hdrsize totalsize rsv) then Some (- FDT_ERR_TRUNCATED)
          else
            off ← fdt_off_dt_struct;
            struct_ok ← (if version <? 17 then Some (check_off_ hdrsize totalsize off)
                         else size ← fdt_size_dt_struct; Some (check_block_ hdrsize totalsize off size));
            if negb struct_ok then Some (- FDT_ERR_TRUNCATED)
            else
              soff ← fdt_off_dt_strings;
              ssize ← fdt_size_dt_strings;
              if negb (check_block_ hdrsize totalsize soff ssize) then Some (- FDT_ERR_TRUNCATED)
              else Some 0.

(** Pointers into the structure block, with and without the bounds check. *)
Definition fdt_offset_ptr_ (offset : Z) : option Z :=
  off ← fdt_off_dt_struct; Some (off + offset).

Definition fdt_offset_ptr (offset len : Z) : option (option Z) :=
  off ← fdt_off_dt_struct;
  let uoffset := u32 offset in
  let absoffset := u32 (offset + off) in
  if offset <? 0 then Some None
  else
    totalsize ← fdt_totalsize;
    if (absoffset <? uoffset) || (u32 (absoffset + len) <? absoffset) || (totalsize <? u32 (absoffset + len))
    then Some None
    else
      version ← fdt_version;
      bad ← (if 0x11 <=? version then
               size ← fdt_size_dt_struct;
               Some ((u32 (uoffset + len) <? uoffset) || (size <? u32 (offset + len)))
             else Some false);
      if (bad : bool) then Some None else Some <$> fdt_offset_ptr_ offset.

Definition FDT_ALIGN (x a : Z) : Z := Z.land (x + a - 1) (Z.lnot (a - 1)).
Definition FDT_TAGALIGN (x : Z) : Z := FDT_ALIGN x FDT_TAGSIZE.

(** The [do .. while] over a node's name: the offset past its NUL. *)
Fixpoint skip_name (fuel : nat) (offset : Z) : option (option Z) :=
  match fuel with
  | O => None
  | S fuel =>
      p ← fdt_offset_ptr offset 1;
      match p with
      | None => Some None
      | Some p =>
          c ← rd8 m p;
          if negb (c =? 0) then skip_name fuel (s32 (offset + 1)) else Some (Some (s32 (offset + 1)))
      end
  end.

(** Enough for any walk over the blob, one byte at a time. *)
Definition blob_fuel : nat := S (length m).

(** Tag and next offset; a tag FDT_END with a negative offset is an error. *)
Definition fdt_next_tag (startoffset : Z) : option (Z * Z) :=
  tagp ← fdt_offset_ptr startoffset FDT_TAGSIZE;
  match tagp with
  | None => Some (FDT_END, - FDT_ERR_TRUNCATED)
  | Some tagp =>
      tag ← fdt32_ld m tagp;
      let offset := s32 (startoffset + FDT_TAGSIZE) in
      let premature := Some (FDT_END, - FDT_ERR_BADSTRUCTURE) in
      let finish offset :=
        p ← fdt_offset_ptr startoffset (u32 (offset - startoffset));
        match p with
        | None => premature
        | Some _ => Some (tag, s32 (FDT_TAGALIGN offset))
        end in
      if tag =? FDT_BEGIN_NODE then
        e ← skip_name blob_fuel offset;
        match e with None => premature | Some offset => finish offset end
      else if tag =? FDT_PROP then
        lenp ← fdt_offset_ptr offset 4;
        match lenp with
        | None => premature
        | Some lenp =>
            len ← fdt32_ld m lenp;
            let sum := u32 (len + offset) in
            if (INT_MAX <=? sum) || (sum <? u32 offset) then premature
            else
              let offset := s32 (offset + (12 - FDT_TAGSIZE + len)) in
              version ← fdt_version;
              let offset := if (version <? 0x10) && (8 <=? len) && negb (u32 (offset - len) mod 8 =? 0)
                            then s32 (offset + 4) else offset in
              finish offset
        end
      else if (tag =? FDT_END) || (tag =? FDT_END_NODE) || (tag =? FDT_NOP) then finish offset
      else premature
  end.

Definition fdt_check_node_offset_ (offset : Z) : option Z :=
  if (offset <? 0) || negb (offset mod FDT_TAGSIZE =? 0) then Some (- FDT_ERR_BADOFFSET)
  else
    t ← fdt_next_tag offset;
    if negb (t.1 =? FDT_BEGIN_NODE) then Some (- FDT_ERR_BADOFFSET) else Some t.2.

Definition fdt_check_prop_offset_ (offset : Z) : option Z :=
  if (offset <? 0) || negb (offset mod FDT_TAGSIZE =? 0) then Some (- FDT_ERR_BADOFFSET)
  else
    t ← fdt_next_tag offset;
    if negb (t.1 =? FDT_PROP) then Some (- FDT_ERR_BADOFFSET) else Some t.2.

(** The loop of [fdt_next_node] from [offset]; [depth] is [*depth], or [None]
    for a NULL pointer. *)
Fixpoint next_node_loop (fuel : nat) (offset : Z) (depth : option Z) : option (Z * option Z) :=
  match fuel with
  | O => None
  | S fuel =>
      t ← fdt_next_tag offset;
      let '(tag, nextoffset) := t in
      if tag =? FDT_BEGIN_NODE then Some (offset, (fun d => s32 (d + 1)) <$> depth)
      else if tag =? FDT_END_NODE then
        match depth with
        | Some d => let d := s32 (d - 1) in
                    if d <? 0 then Some (nextoffset, Some d) else next_node_loop fuel nextoffset (Some d)
        | None => next_node_loop fuel nextoffset None
        end
      else if tag =? FDT_END then
        Some (if (0 <=? nextoffset) ||
                 ((nextoffset =? - FDT_ERR_TRUNCATED) && match depth with None => true | Some _ => false end)
              then - FDT_ERR_NOTFOUND else nextoffset, depth)
      else next_node_loop fuel nextoffset depth
  end.

Definition fdt_next_node (offset : Z) (depth : option Z) : option (Z * option Z) :=
  if 0 <=? offset then
    nextoffset ← fdt_check_node_offset_ offset;
    if nextoffset <? 0 then Some (nextoffset, depth) else next_node_loop blob_fuel nextoffset depth
  else next_node_loop blob_fuel 0 depth.

Definition fdt_first_subnode (offset : Z) : option Z :=
  r ← fdt_next_node offset (Some 0);
  let '(offset, depth) := r in
  if (offset <? 0) || negb (bool_decide (depth = Some 1)) then Some (- FDT_ERR_NOTFOUND) else Some offset.

Fixpoint next_subnode_loop (fuel : nat) (offset depth : Z) : option Z :=
  match fuel with
  | O => None
  | S fuel =>
      r ← fdt_next_node offset (Some depth);
      let '(offset, d) := r in
      let depth := default depth d in
      if (offset <? 0) || (depth <? 1) then Some (- FDT_ERR_NOTFOUND)
      else if 1 <? depth then next_subnode_loop fuel offset depth
      else Some offset
  end.
Definition fdt_next_subnode (offset : Z) : option Z := next_subnode_loop blob_fuel offset 1.

(** Copies the blob to [buf]; the buffer's new content and the return value. *)
Definition fdt_move (buf : list Z) (bufsize : Z) : option (Z * list Z) :=
  if bufsize <? 0 then Some (- FDT_ERR_NOSPACE, buf)
  else
    err ← fdt_ro_probe_;
    if err <? 0 then Some (err, buf)
    else
      totalsize ← fdt_totalsize;
      if u32 bufsize <? totalsize then Some (- FDT_ERR_NOSPACE, buf)
      else
        bytes ← rdn m 0 totalsize;
        buf ← wrn buf 0 bytes;
        Some (0, buf).
End Blob.

(** First occurrence of the string [s] (NUL included) in a string table. *)
Fixpoint find_string_loop (n : nat) (m : list Z) (p : Z) (s : list Z) : option (option Z) :=
  match n with
  | O => Some None
  | S n =>
      e ← memeq m p (s ++ [0]);
      if (e : bool) then Some (Some p) else find_string_loop n m (p + 1) s
  end.
Definition fdt_find_string_ (m : list Z) (strtab tabsize : Z) (s : list Z) : option (option Z) :=
  find_string_loop (Z.to_nat (tabsize - (zlen s + 1) + 1)) m strtab s.
