(* ===== verification/FdtRo.v ===== *)
(** Reading a flattened device tree: src/deps/libfdt/fdt_ro.c and the read-only
    part of fdt_addresses.c.  Functions that return a pointer and store a length
    or an error through [lenp] return the pair.  Strings given by the caller are
    lists of characters without the NUL. *)
From S2P Require Import Prelude Bytes Fdt.

Definition FDT_MAX_NCELLS : Z := 4.

Section Ro.
  Variable b : region.
  Local Abbreviation m := (r_bytes b).
  Local Abbreviation fuel0 := (blob_fuel b).

(** ** Strings *)

Definition fdt_get_string (stroffset : Z) : option (option Z * Z) :=
  totalsize ← fdt_ro_probe_ b;
  if totalsize <? 0 then Some (None, totalsize)
  else
    soff ← fdt_off_dt_strings b;
    let absoffset := u32 (stroffset + soff) in
    if u32 totalsize <=? absoffset then Some (None, - FDT_ERR_BADOFFSET)
    else
      let len := u32 (totalsize - absoffset) in
      magic ← fdt_magic b;
      limit ← (if magic =? FDT_MAGIC then
                 if stroffset <? 0 then Some (inr (- FDT_ERR_BADOFFSET))
                 else
                   version ← fdt_version b;
                   if 17 <=? version then
                     size ← fdt_size_dt_strings b;
                     if size <=? u32 stroffset then Some (inr (- FDT_ERR_BADOFFSET))
                     else Some (inl (if u32 (size - stroffset) <? len then u32 (size - stroffset) else len))
                   else Some (inl len)
               else if magic =? FDT_SW_MAGIC then
                 let sw_stroffset := u32 (- stroffset) in
                 size ← fdt_size_dt_strings b;
                 if (0 <=? stroffset) || (size <? sw_stroffset) then Some (inr (- FDT_ERR_BADOFFSET))
                 else Some (inl (if sw_stroffset <? len then sw_stroffset else len))
               else Some (inr (- FDT_ERR_INTERNAL)));
      match limit with
      | inr err => Some (None, err)
      | inl len =>
          n ← memchr m absoffset 0 len;
          match n with
          | None => Some (None, - FDT_ERR_TRUNCATED)
          | Some n => Some (Some absoffset, n - absoffset)
          end
      end.

Definition fdt_string (stroffset : Z) : option (option Z) := fst <$> fdt_get_string stroffset.

Definition fdt_string_eq_ (stroffset : Z) (s : list Z) : option bool :=
  r ← fdt_get_string stroffset;
  match r with
  | (None, _) => Some false
  | (Some p, slen) => if negb (slen =? zlen s) then Some false else memeq m p s
  end.

(** ** Memory reservations *)

Definition fdt_mem_rsv (n : Z) : option (option Z) :=
  rsvmap ← fdt_off_mem_rsvmap b;
  let offset := u32 (n * 16) in
  let absoffset := u32 (rsvmap + offset) in
  if absoffset <? rsvmap then Some None
  else
    totalsize ← fdt_totalsize b;
    if u64 (totalsize - 16) <? absoffset then Some None else Some (Some (rsvmap + 16 * n)).

(** Return code, address and size. *)
Definition fdt_get_mem_rsv (n : Z) : option (Z * option (Z * Z)) :=
  err ← fdt_ro_probe_ b;
  if err <? 0 then Some (err, None)
  else
    re ← fdt_mem_rsv n;
    match re with
    | None => Some (- FDT_ERR_BADOFFSET, None)
    | Some re =>
        address ← fdt64_ld m re;
        size ← fdt64_ld m (re + 8);
        Some (0, Some (address, size))
    end.

Fixpoint num_mem_rsv_loop (fuel : nat) (i : Z) : option Z :=
  match fuel with
  | O => None
  | S fuel =>
      re ← fdt_mem_rsv i;
      match re with
      | None => Some (- FDT_ERR_TRUNCATED)
      | Some re =>
          size ← fdt64_ld m (re + 8);
          if size =? 0 then Some i else num_mem_rsv_loop fuel (s32 (i + 1))
      end
  end.
Definition fdt_num_mem_rsv : option Z := num_mem_rsv_loop fuel0 0.

(** ** Properties *)

Fixpoint nextprop_ (fuel : nat) (offset : Z) : option Z :=
  match fuel with
  | O => None
  | S fuel =>
      t ← fdt_next_tag b offset;
      let '(tag, nextoffset) := t in
      if tag =? FDT_END then Some (if 0 <=? nextoffset then - FDT_ERR_BADSTRUCTURE else nextoffset)
      else if tag =? FDT_PROP then Some offset
      else if tag =? FDT_NOP then nextprop_ fuel nextoffset
      else Some (- FDT_ERR_NOTFOUND)
  end.

Definition fdt_first_property_offset (nodeoffset : Z) : option Z :=
  offset ← fdt_check_node_offset_ b nodeoffset;
  if offset <? 0 then Some offset else nextprop_ fuel0 offset.

Definition fdt_next_property_offset (offset : Z) : option Z :=
  offset ← fdt_check_prop_offset_ b offset;
  if offset <? 0 then Some offset else nextprop_ fuel0 offset.

(** The property structure and its length. *)
Definition fdt_get_property_by_offset_ (offset : Z) : option (option Z * Z) :=
  err ← fdt_check_prop_offset_ b offset;
  if err <? 0 then Some (None, err)
  else
    prop ← fdt_offset_ptr_ b offset;
    len ← fdt32_ld m (prop + 4);
    Some (Some prop, s32 len).

Definition fdt_get_property_by_offset (offset : Z) : option (option Z * Z) :=
  version ← fdt_version b;
  if version <? 0x10 then Some (None, - FDT_ERR_BADVERSION) else fdt_get_property_by_offset_ offset.

(** The property [name] from [offset] on: pointer, length and offset. *)
Fixpoint get_property_loop (fuel : nat) (offset : Z) (name : list Z) : option (option Z * Z * Z) :=
  match fuel with
  | O => None
  | S fuel =>
      if offset <? 0 then Some (None, offset, offset)
      else
        r ← fdt_get_property_by_offset_ offset;
        match r with
        | (None, _) => Some (None, - FDT_ERR_INTERNAL, - FDT_ERR_INTERNAL)
        | (Some prop, len) =>
            nameoff ← fdt32_ld m (prop + 8);
            e ← fdt_string_eq_ (s32 nameoff) name;
            if (e : bool) then Some (Some prop, len, offset)
            else
              offset ← fdt_next_property_offset offset;
              get_property_loop fuel offset name
        end
  end.
Definition fdt_get_property_namelen_ (offset : Z) (name : list Z) : option (option Z * Z * Z) :=
  offset ← fdt_first_property_offset offset;
  get_property_loop fuel0 offset name.

Definition fdt_get_property_namelen (offset : Z) (name : list Z) : option (option Z * Z) :=
  version ← fdt_version b;
  if version <? 0x10 then Some (None, - FDT_ERR_BADVERSION)
  else fst <$> fdt_get_property_namelen_ offset name.

Definition fdt_get_property (nodeoffset : Z) (name : list Z) : option (option Z * Z) :=
  fdt_get_property_namelen nodeoffset name.

(** The data of the property at [prop], found at [poffset]: versions before 16
    align longer values to eight bytes. *)
Definition prop_data (prop poffset : Z) : option Z :=
  version ← fdt_version b;
  if (version <? 0x10) && negb ((poffset + 12) mod 8 =? 0) then
    len ← fdt32_ld m (prop + 4);
    Some (if 8 <=? len then prop + 12 + 4 else prop + 12)
  else Some (prop + 12).

Definition fdt_getprop_namelen (nodeoffset : Z) (name : list Z) : option (option Z * Z) :=
  r ← fdt_get_property_namelen_ nodeoffset name;
  match r with
  | (None, len, _) => Some (None, len)
  | (Some prop, len, poffset) => d ← prop_data prop poffset; Some (Some d, len)
  end.

(** Value, name and length of the property at [offset]; [want_name] says whether
    the caller asks for the name. *)
Definition fdt_getprop_by_offset (offset : Z) (want_name : bool) : option (option Z * option Z * Z) :=
  r ← fdt_get_property_by_offset_ offset;
  match r with
  | (None, len) => Some (None, None, len)
  | (Some prop, len) =>
      nm ← (if want_name then
              nameoff ← fdt32_ld m (prop + 8);
              fdt_get_string (s32 nameoff)
            else Some (Some 0, 0));
      match nm with
      | (None, namelen) => Some (None, None, namelen)
      | (Some name, _) => d ← prop_data prop offset; Some (Some d, Some name, len)
      end
  end.

Definition fdt_getprop (nodeoffset : Z) (name : list Z) : option (option Z * Z) :=
  fdt_getprop_namelen nodeoffset name.

(** ** Phandles *)

Definition fdt_get_phandle (nodeoffset : Z) : option Z :=
  r ← fdt_getprop nodeoffset (byte_list "phandle");
  match r with
  | (Some php, 4) => fdt32_ld m php
  | _ =>
      r ← fdt_getprop nodeoffset (byte_list "linux,phandle");
      match r with
      | (Some php, 4) => fdt32_ld m php
      | _ => Some 0
      end
  end.

(** Return code and the largest phandle. *)
Fixpoint max_phandle_loop (fuel : nat) (offset max : Z) : option (Z * Z) :=
  match fuel with
  | O => None
  | S fuel =>
      r ← fdt_next_node b offset None;
      let offset := r.1 in
      if offset <? 0 then
        Some (if offset =? - FDT_ERR_NOTFOUND then (0, max) else (offset, max))
      else
        value ← fdt_get_phandle offset;
        max_phandle_loop fuel offset (if max <? value then value else max)
  end.
Definition fdt_find_max_phandle : option (Z * Z) := max_phandle_loop fuel0 (-1) 0.

Definition fdt_generate_phandle : option (Z * Z) :=
  r ← fdt_find_max_phandle;
  let '(err, max) := r in
  if err <? 0 then Some (err, 0)
  else if max =? FDT_MAX_PHANDLE then Some (- FDT_ERR_NOPHANDLES, 0)
  else Some (0, u32 (max + 1)).

Definition fdt_get_max_phandle : option Z :=
  r ← fdt_find_max_phandle;
  Some (if fst r <? 0 then u32 (-1) else snd r).

(** ** Names and paths *)

Definition fdt_get_name (nodeoffset : Z) : option (option Z * Z) :=
  nh ← fdt_offset_ptr_ b nodeoffset;
  err ← fdt_ro_probe_ b;
  if err <? 0 then Some (None, err)
  else
    err ← fdt_check_node_offset_ b nodeoffset;
    if err <? 0 then Some (None, err)
    else
      let nameptr := nh + 4 in
      version ← fdt_version b;
      s ← cstr m nameptr;
      if version <? 0x10 then
        match rindex 47 s with
        | None => Some (None, - FDT_ERR_BADSTRUCTURE)
        | Some i => Some (Some (nameptr + i + 1), zlen s - (i + 1))
        end
      else Some (Some nameptr, zlen s).

Definition fdt_nodename_eq_ (offset : Z) (s : list Z) : option bool :=
  r ← fdt_get_name offset;
  match r with
  | (None, _) => Some false
  | (Some p, olen) =>
      if olen <? zlen s then Some false
      else
        e ← memeq m p s;
        if negb e then Some false
        else
          c ← rd8 m (p + zlen s);
          if c =? 0 then Some true
          else Some (negb (bool_decide (64 ∈ s)) && (c =? 64))
  end.

Fixpoint subnode_loop (fuel : nat) (offset : Z) (depth : Z) (name : list Z) : option Z :=
  match fuel with
  | O => None
  | S fuel =>
      if (0 <=? offset) && (0 <=? depth) then
        found ← (if depth =? 1 then fdt_nodename_eq_ offset name else Some false);
        if (found : bool) then Some offset
        else
          r ← fdt_next_node b offset (Some depth);
          let '(offset, d) := r in
          subnode_loop fuel offset (default depth d) name
      else if depth <? 0 then Some (- FDT_ERR_NOTFOUND)
      else Some offset
  end.
Definition fdt_subnode_offset_namelen (offset : Z) (name : list Z) : option Z :=
  err ← fdt_ro_probe_ b;
  if err <? 0 then Some err else subnode_loop fuel0 offset 0 name.

Definition fdt_subnode_offset (parentoffset : Z) (name : list Z) : option Z :=
  fdt_subnode_offset_namelen parentoffset name.

Fixpoint skip_slashes (l : list Z) : list Z :=
  match l with
  | c :: l' => if c =? 47 then skip_slashes l' else l
  | [] => []
  end.
(** The characters before the next slash, and the rest. *)
Fixpoint path_component (l : list Z) : list Z * list Z :=
  match l with
  | [] => ([], [])
  | c :: l' => if c =? 47 then ([], l) else let '(x, r) := path_component l' in (c :: x, r)
  end.

(** The [while (p < end)] loop on the rest of the path. *)
Fixpoint path_loop (fuel : nat) (offset : Z) (rest : list Z) : option Z :=
  match fuel with
  | O => None
  | S fuel =>
      match rest with
      | [] => Some offset
      | _ =>
          let p := skip_slashes rest in
          match p with
          | [] => Some offset
          | _ =>
              let '(name, rest) := path_component p in
              offset ← fdt_subnode_offset_namelen offset name;
              if offset <? 0 then Some offset else path_loop fuel offset rest
          end
      end
  end.

(** [path] is the caller's buffer, of which [namelen] characters are used;
    [fuel] bounds the recursion through aliases. *)
Fixpoint fdt_path_offset_namelen (fuel : nat) (path : list Z) (namelen : Z) : option Z :=
  match fuel with
  | O => None
  | S fuel =>
      err ← fdt_ro_probe_ b;
      if err <? 0 then Some err
      else
        let used := take (Z.to_nat namelen) path in
        c ← rd8 path 0;
        if negb (c =? 47) then
          let '(name, rest) := path_component used in
          aliasoffset ← fdt_path_offset_namelen fuel (byte_list "/aliases" ++ [0]) 8;
          alias ← (if aliasoffset <? 0 then Some None else fst <$> fdt_getprop_namelen aliasoffset name);
          match alias with
          | None => Some (- FDT_ERR_BADPATH)
          | Some p =>
              s ← cstr m p;
              offset ← fdt_path_offset_namelen fuel (s ++ [0]) (zlen s);
              path_loop (S (length rest)) offset rest
          end
        else path_loop (S (length used)) 0 used
  end.

Definition fdt_path_offset (fuel : nat) (path : list Z) : option Z :=
  fdt_path_offset_namelen fuel (path ++ [0]) (zlen path).

Definition fdt_get_alias_namelen (fuel : nat) (name : list Z) : option (option Z) :=
  aliasoffset ← fdt_path_offset fuel (byte_list "/aliases");
  if aliasoffset <? 0 then Some None else fst <$> fdt_getprop_namelen aliasoffset name.

Definition fdt_get_alias (fuel : nat) (name : list Z) : option (option Z) := fdt_get_alias_namelen fuel name.

(** [fdt_get_path]: drops path components until [pdepth] is [depth]. *)
Fixpoint pop_component (fuel : nat) (buf : list Z) (p : Z) : option Z :=
  match fuel with
  | O => None
  | S fuel =>
      let p := p - 1 in
      c ← rd8 buf (p - 1);
      if negb (c =? 47) then pop_component fuel buf p else Some p
  end.
Fixpoint pop_to (n : nat) (buf : list Z) (p : Z) : option Z :=
  match n with
  | O => Some p
  | S n => p ← pop_component (S (length buf)) buf p; pop_to n buf p
  end.

Fixpoint get_path_loop (fuel : nat) (nodeoffset buflen offset depth pdepth p : Z) (buf : list Z)
    : option (Z * list Z) :=
  match fuel with
  | O => None
  | S fuel =>
      if (0 <=? offset) && (offset <=? nodeoffset) then
        p ← pop_to (Z.to_nat (pdepth - depth)) buf p;
        let pdepth := Z.min pdepth depth in
        step ← (if depth <=? pdepth then
                  r ← fdt_get_name offset;
                  match r with
                  | (None, namelen) => Some (inr namelen)
                  | (Some name, namelen) =>
                      if p + namelen + 1 <=? buflen then
                        bytes ← rdn m name namelen;
                        buf ← wrn buf p (bytes ++ [47]);
                        Some (inl (p + namelen + 1, pdepth + 1, buf))
                      else Some (inl (p, pdepth, buf))
                  end
                else Some (inl (p, pdepth, buf)));
        match step with
        | inr err => Some (err, buf)
        | inl (p, pdepth, buf) =>
            if offset =? nodeoffset then
              if pdepth <? depth + 1 then Some (- FDT_ERR_NOSPACE, buf)
              else
                let p := if 1 <? p then p - 1 else p in
                buf ← wrn buf p [0];
                Some (0, buf)
            else
              r ← fdt_next_node b offset (Some depth);
              let '(offset, d) := r in
              get_path_loop fuel nodeoffset buflen offset (default depth d) pdepth p buf
        end
      else
        Some (if (offset =? - FDT_ERR_NOTFOUND) || (0 <=? offset) then - FDT_ERR_BADOFFSET
              else if offset =? - FDT_ERR_BADOFFSET then - FDT_ERR_BADSTRUCTURE
              else offset, buf)
  end.
Definition fdt_get_path (nodeoffset : Z) (buf : list Z) (buflen : Z) : option (Z * list Z) :=
  err ← fdt_ro_probe_ b;
  if err <? 0 then Some (err, buf)
  else if buflen <? 2 then Some (- FDT_ERR_NOSPACE, buf)
  else get_path_loop fuel0 nodeoffset buflen 0 0 0 0 buf.

(** ** Ancestors *)

(** Offset of the ancestor and [*nodedepth]. *)
Fixpoint supernode_loop (fuel : nat) (nodeoffset supernodedepth offset depth supernodeoffset : Z)
    : option (Z * option Z) :=
  match fuel with
  | O => None
  | S fuel =>
      if (0 <=? offset) && (offset <=? nodeoffset) then
        let supernodeoffset := if depth =? supernodedepth then offset else supernodeoffset in
        if offset =? nodeoffset then
          Some (if depth <? supernodedepth then - FDT_ERR_NOTFOUND else supernodeoffset, Some depth)
        else
          r ← fdt_next_node b offset (Some depth);
          let '(offset, d) := r in
          supernode_loop fuel nodeoffset supernodedepth offset (default depth d) supernodeoffset
      else
        Some (if (offset =? - FDT_ERR_NOTFOUND) || (0 <=? offset) then - FDT_ERR_BADOFFSET
              else if offset =? - FDT_ERR_BADOFFSET then - FDT_ERR_BADSTRUCTURE
              else offset, None)
  end.
Definition fdt_supernode_atdepth_offset (nodeoffset supernodedepth : Z) : option (Z * option Z) :=
  err ← fdt_ro_probe_ b;
  if err <? 0 then Some (err, None)
  else if supernodedepth <? 0 then Some (- FDT_ERR_NOTFOUND, None)
  else supernode_loop fuel0 nodeoffset supernodedepth 0 0 (- FDT_ERR_INTERNAL).

Definition fdt_node_depth (nodeoffset : Z) : option Z :=
  r ← fdt_supernode_atdepth_offset nodeoffset 0;
  let '(err, nodedepth) := r in
  if negb (err =? 0) then Some (if err <? 0 then err else - FDT_ERR_INTERNAL)
  else match nodedepth with Some d => Some d | None => None end.

Definition fdt_parent_offset (nodeoffset : Z) : option Z :=
  nodedepth ← fdt_node_depth nodeoffset;
  if nodedepth <? 0 then Some nodedepth
  else fst <$> fdt_supernode_atdepth_offset nodeoffset (nodedepth - 1).

(** ** Searching the tree *)

Section Search.
  (** Whether the node at an offset matches, or an error to return. *)
  Variable matches : Z -> option (bool + Z).

Fixpoint search_loop (fuel : nat) (offset : Z) : option Z :=
  match fuel with
  | O => None
  | S fuel =>
      if 0 <=? offset then
        r ← matches offset;
        match r with
        | inr err => Some err
        | inl true => Some offset
        | inl false => r ← fdt_next_node b offset None; search_loop fuel r.1
        end
      else Some offset
  end.
Definition search_from (startoffset : Z) : option Z :=
  r ← fdt_next_node b startoffset None; search_loop fuel0 r.1.
End Search.

Definition fdt_node_offset_by_prop_value (startoffset : Z) (propname propval : list Z) : option Z :=
  err ← fdt_ro_probe_ b;
  if err <? 0 then Some err
  else search_from (fun offset =>
         r ← fdt_getprop offset propname;
         match r with
         | (Some val, len) => if len =? zlen propval then inl <$> memeq m val propval else Some (inl false)
         | (None, _) => Some (inl false)
         end) startoffset.

Definition fdt_node_offset_by_phandle (phandle : Z) : option Z :=
  if (phandle =? 0) || (phandle =? u32 (-1)) then Some (- FDT_ERR_BADPHANDLE)
  else
    err ← fdt_ro_probe_ b;
    if err <? 0 then Some err
    else search_from (fun offset => v ← fdt_get_phandle offset; Some (inl (v =? phandle))) (-1).

(** ** String lists *)

Fixpoint stringlist_contains_loop (fuel : nat) (strlist listlen : Z) (str : list Z) : option bool :=
  match fuel with
  | O => None
  | S fuel =>
      if listlen <? zlen str then Some false
      else
        e ← memeq m strlist (str ++ [0]);
        if (e : bool) then Some true
        else
          p ← memchr m strlist 0 listlen;
          match p with
          | None => Some false
          | Some p => stringlist_contains_loop fuel (p + 1) (listlen - (p - strlist + 1)) str
          end
  end.
Definition fdt_stringlist_contains (strlist listlen : Z) (str : list Z) : option bool :=
  stringlist_contains_loop fuel0 strlist listlen str.

Fixpoint stringlist_count_loop (fuel : nat) (lst fin count : Z) : option Z :=
  match fuel with
  | O => None
  | S fuel =>
      if lst <? fin then
        n ← strnlen m lst (fin - lst);
        let length := n + 1 in
        if fin <? lst + length then Some (- FDT_ERR_BADVALUE)
        else stringlist_count_loop fuel (lst + length) fin (s32 (count + 1))
      else Some count
  end.
Definition fdt_stringlist_count (nodeoffset : Z) (property : list Z) : option Z :=
  r ← fdt_getprop nodeoffset property;
  match r with
  | (None, length) => Some length
  | (Some lst, length) => stringlist_count_loop fuel0 lst (lst + length) 0
  end.

Fixpoint stringlist_search_loop (fuel : nat) (lst fin idx : Z) (string : list Z) : option Z :=
  match fuel with
  | O => None
  | S fuel =>
      if lst <? fin then
        n ← strnlen m lst (fin - lst);
        let length := n + 1 in
        if fin <? lst + length then Some (- FDT_ERR_BADVALUE)
        else
          e ← (if length =? zlen string + 1 then memeq m lst (string ++ [0]) else Some false);
          if (e : bool) then Some idx
          else stringlist_search_loop fuel (lst + length) fin (s32 (idx + 1)) string
      else Some (- FDT_ERR_NOTFOUND)
  end.
Definition fdt_stringlist_search (nodeoffset : Z) (property string : list Z) : option Z :=
  r ← fdt_getprop nodeoffset property;
  match r with
  | (None, length) => Some length
  | (Some lst, length) => stringlist_search_loop fuel0 lst (lst + length) 0 string
  end.

Fixpoint stringlist_get_loop (fuel : nat) (lst fin idx : Z) : option (option Z * Z) :=
  match fuel with
  | O => None
  | S fuel =>
      if lst <? fin then
        n ← strnlen m lst (fin - lst);
        let length := n + 1 in
        if fin <? lst + length then Some (None, - FDT_ERR_BADVALUE)
        else if idx =? 0 then Some (Some lst, length - 1)
        else stringlist_get_loop fuel (lst + length) fin (s32 (idx - 1))
      else Some (None, - FDT_ERR_NOTFOUND)
  end.
Definition fdt_stringlist_get (nodeoffset : Z) (property : list Z) (idx : Z) : option (option Z * Z) :=
  r ← fdt_getprop nodeoffset property;
  match r with
  | (None, length) => Some (None, length)
  | (Some lst, length) => stringlist_get_loop fuel0 lst (lst + length) idx
  end.

(** 0 when the node is compatible, 1 when it is not, negative on error. *)
Definition fdt_node_check_compatible (nodeoffset : Z) (compatible : list Z) : option Z :=
  r ← fdt_getprop nodeoffset (byte_list "compatible");
  match r with
  | (None, len) => Some len
  | (Some prop, len) => c ← fdt_stringlist_contains prop len compatible; Some (b2z (negb c))
  end.

Definition fdt_node_offset_by_compatible (startoffset : Z) (compatible : list Z) : option Z :=
  err ← fdt_ro_probe_ b;
  if err <? 0 then Some err
  else search_from (fun offset =>
         err ← fdt_node_check_compatible offset compatible;
         Some (if (err <? 0) && negb (err =? - FDT_ERR_NOTFOUND) then inr err else inl (err =? 0))) startoffset.

(** ** Cells (fdt_addresses.c) *)

Definition fdt_cells (nodeoffset : Z) (name : list Z) : option Z :=
  r ← fdt_getprop nodeoffset name;
  match r with
  | (None, len) => Some len
  | (Some c, len) =>
      if negb (len =? 4) then Some (- FDT_ERR_BADNCELLS)
      else
        val ← fdt32_ld m c;
        if FDT_MAX_NCELLS <? val then Some (- FDT_ERR_BADNCELLS) else Some val
  end.

Definition fdt_address_cells (nodeoffset : Z) : option Z :=
  val ← fdt_cells nodeoffset (byte_list "#address-cells");
  Some (if val =? 0 then - FDT_ERR_BADNCELLS
        else if val =? - FDT_ERR_NOTFOUND then 2 else val).

Definition fdt_size_cells (nodeoffset : Z) : option Z :=
  val ← fdt_cells nodeoffset (byte_list "#size-cells");
  Some (if val =? - FDT_ERR_NOTFOUND then 1 else val).
End Ro.
