(* ===== verification/FdtSafe.v ===== *)
(** Memory safety and termination of the device-tree reader: on any bytes at all
    behind a header whose [totalsize] is not larger than the buffer, no function
    reads outside the buffer and every loop ends. *)
From S2P Require Import Prelude Bytes Fdt FdtRo.

(** The word at offset [k] of a blob. *)
Definition hv (b : region) (k : Z) : Z := be (take 4 (drop (Z.to_nat k) (r_bytes b))).

(** What the callers must establish: the buffer holds a header and [totalsize]
    bytes, and [totalsize] is a positive [int]; the content is arbitrary. *)
Record blob_ok (b : region) : Prop := {
  bo_bytes : Forall is_byte (r_bytes b);
  bo_hdr : 40 <= zlen (r_bytes b);
  bo_size : hv b 4 <= zlen (r_bytes b);
  bo_int : hv b 4 < INT_MAX;
}.

Lemma tagalign_eq x : FDT_TAGALIGN x = x + (- x) mod 4.
Proof.
  unfold FDT_TAGALIGN, FDT_ALIGN, FDT_TAGSIZE. replace (x + 4 - 1) with (x + 3) by lia.
  change (Z.lnot (4 - 1)) with (Z.lnot (Z.ones 2)). rewrite <- Z.ldiff_land, Z.ldiff_ones_r by lia.
  rewrite Z.shiftl_mul_pow2, Z.shiftr_div_pow2 by lia. change (2 ^ 2) with 4.
  Z.to_euclidean_division_equations. lia.
Qed.

Lemma uw_sw_sub w x y : 0 < w -> uw w (sw w x - y) = uw w (x - y).
Proof.
  intros Hw. unfold sw. assert (uw w (uw w x - y) = uw w (x - y)) as E.
  { unfold uw. by rewrite Zminus_mod_idemp_l. }
  destruct (uw w x <? 2 ^ (w - 1)); [exact E|]. rewrite <- E. unfold uw at 1 3.
  replace (uw w x - 2 ^ w - y) with (uw w x - y + (-1) * 2 ^ w) by lia. by rewrite Z.mod_add by lia.
Qed.

Lemma sw_sw_add w x y : 0 < w -> sw w (sw w x + y) = sw w (x + y).
Proof.
  intros Hw. unfold sw at 1. replace (sw w x + y) with (sw w x - - y) by lia. rewrite uw_sw_sub by lia.
  by replace (x - - y) with (x + y) by lia.
Qed.

Lemma cstr_step m p c : rd8 m p = Some c ->
  cstr m p = if c =? 0 then Some [] else cons c <$> cstr m (p + 1).
Proof.
  unfold rd8, cstr. destruct (Z.ltb_spec p 0); [done|]. intros Hc. destruct (Z.ltb_spec (p + 1) 0); [lia|].
  rewrite (drop_S _ c) by done. cbn. destruct (c =? 0); [done|].
  by replace (Z.to_nat (p + 1)) with (S (Z.to_nat p)) by lia.
Qed.

Section Safe.
  Context (b : region) (Hok : blob_ok b).
  Local Abbreviation m := (r_bytes b).
  Local Abbreviation tot := (hv b 4).
  Local Abbreviation st := (hv b 8).
  Local Abbreviation ver := (hv b 20).
  Local Abbreviation ssize := (hv b 36).

Lemma ld_ok p : 0 <= p -> p + 4 <= zlen m -> fdt32_ld m p = Some (hv b p) /\ 0 <= hv b p < 2 ^ 32.
Proof.
  intros H0 H1. assert (fdt32_ld m p = Some (hv b p)) as E.
  { unfold fdt32_ld, rd_be. rewrite rdn_Some by lia. done. }
  split; [exact E|]. apply (rd_be_range 4 m p); [lia|apply bo_bytes, Hok|exact E].
Qed.

Lemma field_ok p : 0 <= p <= 36 -> fdt32_ld m p = Some (hv b p).
Proof. intros. pose proof (bo_hdr _ Hok). by apply ld_ok; lia. Qed.

Lemma field_range p : 0 <= p <= 36 -> 0 <= hv b p < 2 ^ 32.
Proof. intros. pose proof (bo_hdr _ Hok). by apply ld_ok; lia. Qed.

Ltac fields := unfold fdt_magic, fdt_totalsize, fdt_off_dt_struct, fdt_off_dt_strings, fdt_off_mem_rsvmap,
  fdt_version, fdt_last_comp_version, fdt_size_dt_strings, fdt_size_dt_struct;
  rewrite ?(field_ok 0), ?(field_ok 4), ?(field_ok 8), ?(field_ok 12), ?(field_ok 16), ?(field_ok 20),
    ?(field_ok 24), ?(field_ok 32), ?(field_ok 36) by lia; cbn [mbind option_bind].

(** Whether [fdt_offset_ptr] accepts [len] bytes at [offset]. *)
Definition ptr_ok (offset len : Z) : bool :=
  (0 <=? offset) && (st + offset + len <=? tot) && (negb (0x11 <=? ver) || (offset + len <=? ssize)).

Lemma offset_ptr_eq offset len : is_sw 32 offset -> is_uw 32 len ->
  fdt_offset_ptr b offset len = Some (if ptr_ok offset len then Some (st + offset) else None).
Proof.
  intros Ho Hl. unfold is_sw, is_uw in *. change (2 ^ (32 - 1)) with 2147483648 in Ho. change (2 ^ 32) with 4294967296 in *.
  unfold fdt_offset_ptr, fdt_offset_ptr_, ptr_ok. fields.
  pose proof (field_range 8 ltac:(lia)) as Hst. pose proof (field_range 4 ltac:(lia)) as Htot.
  pose proof (field_range 36 ltac:(lia)) as Hss. pose proof (bo_int _ Hok) as Hint. unfold INT_MAX in Hint.
  change (2 ^ 32) with 4294967296 in *. change (2 ^ 31 - 1) with 2147483647 in Hint.
  destruct (Z.ltb_spec offset 0) as [Hneg|Hpos]; destruct (Z.leb_spec 0 offset); try lia; [done|]. cbn [andb].
  assert (U : forall x y, 0 <= x < 4294967296 -> 0 <= y < 4294967296 -> 4294967296 <= x + y -> u32 (x + y) = x + y - 4294967296).
  { intros x y Hx Hy Hw. unfold uw. change (2 ^ 32) with 4294967296. rewrite <- (Z.mod_add _ (-1)) by lia.
    apply Z.mod_small. lia. }
  assert (V : forall x, 0 <= x < 4294967296 -> u32 x = x) by (intros; by apply uw_small).
  rewrite (V offset) by lia.
  destruct (Z.leb_spec 4294967296 (offset + st)) as [Hw|Hw].
  { rewrite (U offset st) by lia. destruct (Z.ltb_spec (offset + st - 4294967296) offset); [|lia]. cbn [orb].
    destruct (Z.leb_spec (st + offset + len) tot); [lia|]. done. }
  rewrite (V (offset + st)) by lia. destruct (Z.ltb_spec (offset + st) offset); [lia|]. cbn [orb].
  destruct (Z.leb_spec 4294967296 (offset + st + len)) as [Hw2|Hw2].
  { rewrite (U (offset + st) len) by lia. destruct (Z.ltb_spec (offset + st + len - 4294967296) (offset + st)); [|lia].
    cbn [orb]. destruct (Z.leb_spec (st + offset + len) tot); [lia|]. done. }
  rewrite (V (offset + st + len)) by lia. destruct (Z.ltb_spec (offset + st + len) (offset + st)); [lia|]. cbn [orb].
  destruct (Z.ltb_spec tot (offset + st + len)); destruct (Z.leb_spec (st + offset + len) tot); try lia; [done|]. cbn [andb].
  destruct (Z.leb_spec 17 ver); cbn [mbind option_bind negb orb]; [|done]. fields.
  rewrite (V (offset + len)) by lia. destruct (Z.ltb_spec (offset + len) offset); [lia|]. cbn [orb mbind option_bind].
  destruct (Z.ltb_spec ssize (offset + len)); destruct (Z.leb_spec (offset + len) ssize); try lia; done.
Qed.

Lemma ptr_ok_bounds offset len : ptr_ok offset len = true -> 0 <= len ->
  0 <= offset /\ 0 <= st /\ st + offset + len <= tot /\ tot <= zlen m /\ tot < INT_MAX.
Proof.
  unfold ptr_ok. intros H Hl. pose proof (field_range 8 ltac:(lia)). pose proof (bo_size _ Hok). pose proof (bo_int _ Hok).
  apply andb_prop in H as [H _]. apply andb_prop in H as [I1 I2].
  apply Z.leb_le in I1. apply Z.leb_le in I2. split_and!; lia.
Qed.

(** A shorter prefix of an accepted block is accepted. *)
Lemma ptr_ok_sub offset len d : ptr_ok offset len = true -> 0 <= d <= len -> ptr_ok offset d = true.
Proof.
  unfold ptr_ok. intros H Hd. zcase; try lia; cbn in *; try done; by rewrite ?orb_true_r in *.
Qed.

Lemma skip_name_ok fuel : forall offset, is_sw 32 offset -> 0 <= offset ->
  Z.max 0 (tot - (st + offset)) < Z.of_nat fuel ->
  exists r, skip_name b fuel offset = Some r /\
    match r with
    | None => True
    | Some e => exists s, cstr m (st + offset) = Some s /\ e = offset + zlen s + 1 /\ st + e <= tot
    end.
Proof.
  induction fuel as [|fuel IH]; intros offset Ho H0 Hf; [lia|]. cbn [skip_name].
  rewrite offset_ptr_eq by (unfold is_uw; done || lia). destruct (ptr_ok offset 1) eqn:Ep; cbn [mbind option_bind]; [|by exists None].
  destruct (ptr_ok_bounds _ _ Ep) as (_ & Hst & Hb & Hm & Hi); [lia|]. unfold INT_MAX in Hi.
  destruct (proj2 (rd8_is_Some m (st + offset)) ltac:(lia)) as [c Ec]. rewrite Ec. cbn [mbind option_bind].
  rewrite sw_small by (unfold is_sw; lia). pose proof (cstr_step _ _ _ Ec) as Ecs.
  destruct (Z.eqb_spec c 0) as [->|Hc]; cbn [negb].
  - exists (Some (offset + 1)). split; [done|]. exists []. rewrite Ecs, zlen_nil. split; [done|]. lia.
  - destruct (IH (offset + 1)) as (r & -> & Hr); [unfold is_sw; lia|lia|lia|]. exists r. split; [done|].
    destruct r as [e|]; [|done]. destruct Hr as (s & Es & -> & Hle). exists (c :: s).
    rewrite Ecs. replace (st + offset + 1) with (st + (offset + 1)) by lia. rewrite Es, zlen_cons. split; [done|]. lia.
Qed.

(** What is known of a tag other than FDT_END found at [start]. *)
Record tag_at (start tag next : Z) : Prop := {
  ta_start : 0 <= start;
  ta_bound : 0 <= st /\ st + start + 4 <= tot;
  ta_tag : hv b (st + start) = tag;
  ta_kind : tag = FDT_BEGIN_NODE \/ tag = FDT_PROP \/ tag = FDT_END_NODE \/ tag = FDT_NOP;
  ta_next : next < 0 \/ (start + 4 <= next <= tot + 3 /\ next mod 4 = 0);
  ta_name : tag = FDT_BEGIN_NODE -> is_Some (cstr m (st + start + 4));
  ta_prop : tag = FDT_PROP -> let len := hv b (st + start + 4) in
    0 <= len < INT_MAX /\ st + start + 12 + len <= tot /\
    (ver < 0x10 -> 8 <= len -> (start + 12) mod 8 <> 0 -> st + start + 16 + len <= tot);
}.

(** The common end of [fdt_next_tag]: the tag extends over [k] bytes. *)
Lemma tag_finish start tag k : is_sw 32 start -> 0 <= k < 2 ^ 32 ->
  (p ← fdt_offset_ptr b start (u32 (s32 (start + k) - start));
   match p with
   | None => Some (FDT_END, - FDT_ERR_BADSTRUCTURE)
   | Some _ => Some (tag, s32 (FDT_TAGALIGN (s32 (start + k))))
   end) =
  if ptr_ok start k then Some (tag, s32 (start + k + (- (start + k)) mod 4))
  else Some (FDT_END, - FDT_ERR_BADSTRUCTURE).
Proof.
  intros Hs Hk. rewrite uw_sw_sub by lia. replace (start + k - start) with k by lia.
  rewrite uw_small by done. rewrite offset_ptr_eq by done. destruct (ptr_ok start k) eqn:Ep; [|done].
  cbn [mbind option_bind]. destruct (ptr_ok_bounds _ _ Ep) as (? & ? & ? & ? & Hi); [lia|]. unfold INT_MAX in Hi.
  rewrite (sw_small 32 (start + k)) by (unfold is_sw; lia). by rewrite tagalign_eq.
Qed.

Lemma align_next start k : ptr_ok start k = true -> 4 <= k ->
  let next := s32 (start + k + (- (start + k)) mod 4) in
  next < 0 \/ (start + 4 <= next <= tot + 3 /\ next mod 4 = 0).
Proof.
  intros Ep Hk next. destruct (ptr_ok_bounds _ _ Ep) as (? & ? & ? & ? & Hi); [lia|]. unfold INT_MAX in Hi.
  pose proof (Z.mod_pos_bound (- (start + k)) 4 ltac:(lia)).
  destruct (Z.ltb_spec (start + k + (- (start + k)) mod 4) (2 ^ 31)).
  - right. subst next. rewrite sw_small by (unfold is_sw; lia). split; [lia|].
    Z.to_euclidean_division_equations. lia.
  - left. subst next. unfold sw. rewrite uw_small by (unfold is_uw; lia). zcase; lia.
Qed.

(** What a caller gets from [fdt_next_tag]: a tag with its extent, or the end
    marker that also reports an error. *)
Definition tag_result start (res : option (Z * Z)) : Prop :=
  exists tag next, res = Some (tag, next) /\ is_sw 32 next /\ (tag = FDT_END \/ tag_at start tag next).

Lemma tag_bad start : tag_result start (Some (FDT_END, - FDT_ERR_BADSTRUCTURE)).
Proof. do 2 eexists. split; [done|]. split; [done|by left]. Qed.

Lemma tag_finish_ok start tag k : is_sw 32 start -> 4 <= k < 2 ^ 32 ->
  hv b (st + start) = tag ->
  (tag = FDT_END \/ tag = FDT_BEGIN_NODE \/ tag = FDT_PROP \/ tag = FDT_END_NODE \/ tag = FDT_NOP) ->
  (tag = FDT_BEGIN_NODE -> is_Some (cstr m (st + start + 4))) ->
  (tag = FDT_PROP -> 0 <= hv b (st + start + 4) < INT_MAX /\ 12 + hv b (st + start + 4) <= k /\
     (ver < 0x10 -> 8 <= hv b (st + start + 4) -> (start + 12) mod 8 <> 0 -> 16 + hv b (st + start + 4) <= k)) ->
  tag_result start (p ← fdt_offset_ptr b start (u32 (s32 (start + k) - start));
    match p with
    | None => Some (FDT_END, - FDT_ERR_BADSTRUCTURE)
    | Some _ => Some (tag, s32 (FDT_TAGALIGN (s32 (start + k))))
    end).
Proof.
  intros Hs Hk Htag Hkind Hname Hprop. rewrite tag_finish by (done || lia).
  destruct (ptr_ok start k) eqn:Epk; [|apply tag_bad].
  destruct (ptr_ok_bounds _ _ Epk) as (? & ? & Hbk & ? & ?); [lia|].
  do 2 eexists. split; [done|]. split; [apply sw_range; lia|].
  destruct Hkind as [Hkind|Hkind]; [by left|right]. split; try (done || lia).
  apply align_next; [done|lia].
Qed.

(** The unsigned overflow test on the end of a property. *)
Lemma prop_sum_ok len off : is_uw 32 len -> 0 <= off < 2 ^ 31 ->
  (INT_MAX <=? u32 (len + off)) || (u32 (len + off) <? off) = false -> len + off < INT_MAX.
Proof.
  intros Hl Ho [Es1 Es2]%orb_false_iff. apply Z.leb_gt in Es1. apply Z.ltb_ge in Es2.
  unfold is_uw in Hl. destruct (Z.ltb_spec (len + off) (2 ^ 32)).
  - by rewrite uw_small in Es1 by (unfold is_uw; lia).
  - exfalso. unfold uw in Es2. rewrite <- (Z.mod_add _ (-1)) in Es2 by lia.
    rewrite Z.mod_small in Es2 by lia. lia.
Qed.

(** Every outcome of [fdt_next_tag]. *)
Lemma next_tag_ok start : is_sw 32 start -> tag_result start (fdt_next_tag b start).
Proof.
  intros Hs. unfold fdt_next_tag, FDT_TAGSIZE. rewrite (offset_ptr_eq start 4) by (done || (unfold is_uw; lia)).
  destruct (ptr_ok start 4) eqn:Ep; cbn [mbind option_bind]; [|exists FDT_END, (- FDT_ERR_TRUNCATED); split; [done|]; split; [done|by left]].
  destruct (ptr_ok_bounds _ _ Ep) as (H0 & Hst & Hb & Hm & Hi); [lia|]. pose proof Hi as Hi'. unfold INT_MAX in Hi'.
  destruct (ld_ok (st + start)) as [Eld Hr]; [lia|lia|]. rewrite Eld. cbn [mbind option_bind].
  set (tag := hv b (st + start)) in *. pose proof (fun k => tag_finish_ok start tag k Hs) as FIN.
  rewrite (sw_small 32 (start + 4)) by (unfold is_sw; lia).
  unfold FDT_BEGIN_NODE, FDT_PROP, FDT_END, FDT_END_NODE, FDT_NOP in *.
  destruct (Z.eqb_spec tag 1) as [Et|Hn1].
  { destruct (skip_name_ok (blob_fuel b) (start + 4)) as (r & -> & Hr'); [unfold is_sw; lia|lia|unfold blob_fuel, zlen in *; lia|].
    cbn [mbind option_bind]. destruct r as [e|]; [|apply tag_bad]. destruct Hr' as (s & Es & -> & Hle).
    pose proof (zlen_nonneg s).
    replace (start + 4 + zlen s + 1) with (s32 (start + (5 + zlen s))) by (rewrite sw_small; unfold is_sw; lia).
    apply FIN; try (done || lia). intros _. rewrite <- Z.add_assoc. by eexists. }
  destruct (Z.eqb_spec tag 3) as [Et|Hn3].
  { rewrite offset_ptr_eq by (unfold is_sw, is_uw; lia). destruct (ptr_ok (start + 4) 4) eqn:Ep4; cbn [mbind option_bind]; [|apply tag_bad].
    destruct (ptr_ok_bounds _ _ Ep4) as (_ & _ & Hb4 & _ & _); [lia|].
    destruct (ld_ok (st + (start + 4))) as [Eld4 Hr4]; [lia|lia|]. rewrite Eld4. cbn [mbind option_bind].
    rewrite (Z.add_assoc st start 4) in *. set (len := hv b (st + start + 4)) in *.
    rewrite (uw_small 32 (start + 4)) by (unfold is_uw; lia).
    destruct ((INT_MAX <=? u32 (len + (start + 4))) || (u32 (len + (start + 4)) <? start + 4)) eqn:Es; [apply tag_bad|].
    pose proof (prop_sum_ok len (start + 4) Hr4 ltac:(lia) Es) as Hsum. unfold INT_MAX in Hsum. fields.
    replace (start + 4 + (12 - 4 + len)) with (start + (12 + len)) by lia.
    assert (EA : u32 (s32 (start + (12 + len)) - len) mod 8 = (start + 12) mod 8).
    { rewrite uw_sw_sub by lia. rewrite uw_small by (unfold is_uw; lia). f_equal. lia. }
    rewrite EA. destruct ((ver <? 16) && (8 <=? len) && negb ((start + 12) mod 8 =? 0)) eqn:Ea.
    - rewrite sw_sw_add by lia. replace (start + (12 + len) + 4) with (start + (16 + len)) by lia.
      apply FIN; try (done || lia). intros _. unfold INT_MAX. lia.
    - apply FIN; try (done || lia). intros _. unfold INT_MAX. split; [lia|]. split; [lia|]. intros Hv H8 Hmod. exfalso.
      destruct (Z.ltb_spec ver 16); [|lia]. destruct (Z.leb_spec 8 len); [|lia].
      destruct (Z.eqb_spec ((start + 12) mod 8) 0); [lia|]. done. }
  destruct ((tag =? 9) || (tag =? 2) || (tag =? 4)) eqn:Ek; [|apply tag_bad].
  replace (start + 4) with (s32 (start + 4)) by (apply sw_small; unfold is_sw; lia).
  apply FIN; try (done || lia).
Qed.

(** ** Node and property offsets *)

Lemma check_node_ok offset : is_sw 32 offset ->
  exists r, fdt_check_node_offset_ b offset = Some r /\ is_sw 32 r /\
    (0 <= r -> tag_at offset FDT_BEGIN_NODE r).
Proof.
  intros Ho. unfold fdt_check_node_offset_. destruct (_ || _); [by exists (- FDT_ERR_BADOFFSET)|].
  destruct (next_tag_ok offset Ho) as (tag & next & -> & Hn & Ht). cbn [mbind option_bind fst snd].
  destruct (Z.eqb_spec tag FDT_BEGIN_NODE) as [->|]; cbn [negb]; [|by exists (- FDT_ERR_BADOFFSET)].
  exists next. split; [done|]. split; [done|]. intros _. by destruct Ht.
Qed.

Lemma check_prop_ok offset : is_sw 32 offset ->
  exists r, fdt_check_prop_offset_ b offset = Some r /\ is_sw 32 r /\ (0 <= r -> tag_at offset FDT_PROP r).
Proof.
  intros Ho. unfold fdt_check_prop_offset_. destruct (_ || _); [by exists (- FDT_ERR_BADOFFSET)|].
  destruct (next_tag_ok offset Ho) as (tag & next & -> & Hn & Ht). cbn [mbind option_bind fst snd].
  destruct (Z.eqb_spec tag FDT_PROP) as [->|]; cbn [negb]; [|by exists (- FDT_ERR_BADOFFSET)].
  exists next. split; [done|]. split; [done|]. intros _. by destruct Ht.
Qed.

(** Fuel left at [offset]: a tag is four bytes or more. *)
Definition fuel_at (offset : Z) (fuel : nat) : Prop :=
  (0 < fuel)%nat /\ (0 <= offset -> tot + 8 - offset < 4 * Z.of_nat fuel).

Lemma fuel_step offset tag next fuel : tag_at offset tag next -> fuel_at offset (S fuel) -> fuel_at next fuel.
Proof.
  intros [H0 Hb _ _ Hn _ _] [_ Hf]. specialize (Hf H0). unfold fuel_at. lia.
Qed.

Lemma fuel_start offset : 0 <= offset \/ offset < 0 -> fuel_at offset (blob_fuel b).
Proof.
  intros _. unfold fuel_at, blob_fuel. pose proof (bo_size _ Hok). pose proof (bo_hdr _ Hok). unfold zlen in *. lia.
Qed.

Lemma next_node_loop_ok fuel : forall offset depth, is_sw 32 offset -> fuel_at offset fuel ->
  exists r d, next_node_loop b fuel offset depth = Some (r, d) /\ is_sw 32 r /\
    (is_Some depth -> is_Some d) /\ (0 <= r -> 0 <= offset <= r /\ r <= tot + 3).
Proof.
  induction fuel as [|fuel IH]; intros offset depth Ho Hf; [destruct Hf; lia|]. cbn [next_node_loop].
  destruct (next_tag_ok offset Ho) as (tag & next & -> & Hn & Ht). cbn [mbind option_bind].
  assert (REC : forall dp, (is_Some depth -> is_Some dp) -> tag_at offset tag next ->
    exists r d, next_node_loop b fuel next dp = Some (r, d) /\ is_sw 32 r /\
      (is_Some depth -> is_Some d) /\ (0 <= r -> 0 <= offset <= r /\ r <= tot + 3)).
  { intros dp Hdp Hta. destruct (IH next dp Hn (fuel_step _ _ _ _ Hta Hf)) as (r & d & -> & Hr & Hd & Hb).
    exists r, d. split; [done|]. split; [done|]. split; [auto|]. intros Hr0. specialize (Hb Hr0).
    destruct Hta as [H0 Hbd _ _ Hnx _ _]. lia. }
  destruct (Z.eqb_spec tag FDT_BEGIN_NODE) as [->|].
  { destruct Ht as [|Hta]; [done|]. do 2 eexists. split; [done|]. split; [done|]. split.
    - intros [d ->]. by eexists.
    - destruct Hta as [H0 Hbd _ _ _ _ _]. lia. }
  destruct (Z.eqb_spec tag FDT_END_NODE) as [->|].
  { destruct Ht as [|Hta]; [done|]. destruct depth as [d|].
    - destruct (s32 (d - 1) <? 0); [|by apply REC].
      do 2 eexists. split; [done|]. split; [done|]. split; [by eexists|]. destruct Hta as [H0 Hbd _ _ Hnx _ _]. lia.
    - by apply REC. }
  destruct (Z.eqb_spec tag FDT_END) as [->|].
  { do 2 eexists. split; [done|]. split; [|split; [done|]].
    - destruct (_ || _); done.
    - destruct (Z.leb_spec 0 next); cbn [orb]; [done|]. destruct (_ && _); [done|lia]. }
  destruct Ht as [|Hta]; [done|]. by apply REC.
Qed.

Lemma next_node_ok offset depth : is_sw 32 offset ->
  exists r d, fdt_next_node b offset depth = Some (r, d) /\ is_sw 32 r /\
    (is_Some depth -> is_Some d) /\ (0 <= r -> r <= tot + 3 /\ (0 <= offset -> offset + 4 <= r)).
Proof.
  intros Ho. unfold fdt_next_node. destruct (Z.leb_spec 0 offset).
  - destruct (check_node_ok offset Ho) as (n & -> & Hn & Hta). cbn [mbind option_bind].
    destruct (Z.ltb_spec n 0); [do 2 eexists; split; [done|]; split; [done|]; split; [done|lia]|].
    destruct (next_node_loop_ok (blob_fuel b) n depth Hn) as (r & d & -> & Hr & Hd & Hb); [apply fuel_start; lia|].
    exists r, d. split; [done|]. split; [done|]. split; [done|]. intros Hr0. specialize (Hb Hr0).
    destruct (Hta ltac:(lia)) as [_ _ _ _ Hnx _ _]. lia.
  - destruct (next_node_loop_ok (blob_fuel b) 0 depth) as (r & d & -> & Hr & Hd & Hb); [done|apply fuel_start; lia|].
    exists r, d. split; [done|]. split; [done|]. split; [done|]. intros Hr0. specialize (Hb Hr0). lia.
Qed.

(** One more step of a loop over nodes. *)
Lemma fuel_node offset r fuel : 0 <= offset -> offset <= tot + 3 ->
  (0 <= r -> r <= tot + 3 /\ (0 <= offset -> offset + 4 <= r)) ->
  fuel_at offset (S fuel) -> fuel_at r fuel.
Proof. intros H0 H1 Hr [_ Hf]. specialize (Hf H0). unfold fuel_at. lia. Qed.

Lemma first_subnode_ok offset : is_sw 32 offset -> is_Some (fdt_first_subnode b offset).
Proof.
  intros Ho. unfold fdt_first_subnode. destruct (next_node_ok offset (Some 0) Ho) as (r & d & -> & _).
  cbn [mbind option_bind]. destruct (_ || _); by eexists.
Qed.

Lemma next_subnode_loop_ok fuel : forall offset depth, is_sw 32 offset -> 0 <= offset <= tot + 3 -> fuel_at offset fuel ->
  is_Some (next_subnode_loop b fuel offset depth).
Proof.
  induction fuel as [|fuel IH]; intros offset depth Ho H0 Hf; [destruct Hf; lia|]. cbn [next_subnode_loop].
  destruct (next_node_ok offset (Some depth) Ho) as (r & d & -> & Hr & Hd & Hb). cbn [mbind option_bind].
  destruct (Z.ltb_spec r 0); cbn [orb]; [by eexists|]. destruct (_ <? 1); [by eexists|].
  destruct (1 <? _); [|by eexists]. apply IH; [done|lia|]. apply (fuel_node offset); [lia|lia|done|done].
Qed.

Lemma next_subnode_ok offset : is_sw 32 offset -> is_Some (fdt_next_subnode b offset).
Proof.
  intros Ho. unfold fdt_next_subnode. destruct (decide (0 <= offset <= tot + 3)) as [H|H].
  - apply next_subnode_loop_ok; [done|done|]. apply fuel_start. lia.
  - unfold blob_fuel. cbn [next_subnode_loop].
    destruct (next_node_ok offset (Some 1) Ho) as (r & d & -> & Hr & Hd & Hb). cbn [mbind option_bind].
    destruct (Z.ltb_spec r 0); cbn [orb]; [by eexists|]. destruct (_ <? 1); [by eexists|].
    destruct (1 <? _); [|by eexists]. apply next_subnode_loop_ok; [done|lia|].
    pose proof (bo_size _ Hok). pose proof (bo_hdr _ Hok). unfold fuel_at, zlen in *. lia.
Qed.

(** ** Strings and properties *)

Lemma probe_ok : exists r, fdt_ro_probe_ b = Some r /\ is_sw 32 r /\ (0 <= r -> r = tot).
Proof.
  pose proof (bo_int _ Hok) as Hi. pose proof (field_range 4 ltac:(lia)). unfold INT_MAX in Hi.
  unfold fdt_ro_probe_. fields. unfold INT_MAX. destruct (Z.ltb_spec tot (2 ^ 31 - 1)); [|lia].
  assert (is_sw 32 tot) by (unfold is_sw; lia).
  destruct (negb (Z.land (r_base b) 7 =? 0)); [by eexists|].
  destruct (hv b 0 =? FDT_MAGIC).
  - destruct (ver <? FDT_FIRST_SUPPORTED_VERSION); [by eexists|]. fields.
    destruct (FDT_LAST_SUPPORTED_VERSION <? hv b 24); by eexists.
  - destruct (hv b 0 =? FDT_SW_MAGIC); [|by eexists]. fields. destruct (hv b 36 =? 0); by eexists.
Qed.

Lemma memchr_ok p n : 0 <= p -> 0 <= n -> p + n <= zlen m ->
  exists r, memchr m p 0 n = Some r /\
    match r with
    | None => True
    | Some q => p <= q < p + n /\ exists s, cstr m p = Some s /\ zlen s = q - p
    end.
Proof.
  intros Hp Hn Hb. unfold memchr. destruct (Z.ltb_spec p 0); [lia|].
  pose proof (find_byte_spec 0 (Z.to_nat n) (drop (Z.to_nat p) m)) as Hf. rewrite length_drop in Hf.
  destruct (find_byte 0 (Z.to_nat n) (drop (Z.to_nat p) m)) as [[i|]|]; cbn.
  - destruct Hf as (Hi & Hz & Hj). eexists. split; [done|]. split; [lia|].
    exists (take (Z.to_nat i) (drop (Z.to_nat p) m)). split.
    + unfold cstr. destruct (Z.ltb_spec p 0); [lia|].
      rewrite <- (take_drop_middle (drop (Z.to_nat p) m) (Z.to_nat i) 0 Hz) at 1. apply to_nul_app.
      intros Hin. apply list_elem_of_lookup in Hin as [j Hl]. apply lookup_take_Some in Hl as [Hl Hlt].
      apply (Hj (Z.of_nat j)); [lia|]. by rewrite Nat2Z.id.
    + unfold zlen. rewrite length_take. apply lookup_lt_Some in Hz. lia.
  - by eexists.
  - unfold zlen in Hb. lia.
Qed.

Lemma get_string_ok stroffset : is_sw 32 stroffset ->
  exists p n, fdt_get_string b stroffset = Some (p, n) /\
    match p with Some p => exists s, 0 <= p /\ cstr m p = Some s /\ zlen s = n /\ p + n < tot | None => True end.
Proof.
  intros Ho. unfold is_sw in Ho. change (2 ^ (32 - 1)) with 2147483648 in Ho.
  pose proof (bo_int _ Hok) as Hi. unfold INT_MAX in Hi. pose proof (bo_size _ Hok).
  unfold fdt_get_string. destruct probe_ok as (r & -> & _ & Hr). cbn [mbind option_bind].
  destruct (Z.ltb_spec r 0) as [|Hr0]; [by do 2 eexists|]. rewrite (Hr Hr0). clear r Hr Hr0. fields.
  pose proof (field_range 4 ltac:(lia)) as Ht. pose proof (field_range 32 ltac:(lia)) as Hss.
  rewrite (uw_small 32 tot) by (unfold is_uw; lia).
  set (abs := u32 (stroffset + hv b 12)). assert (0 <= abs < 2 ^ 32) as Ha by (apply uw_range; lia).
  destruct (Z.leb_spec tot abs); [by do 2 eexists|].
  rewrite (uw_small 32 (tot - abs)) by (unfold is_uw; lia).
  assert (K : forall len, 0 <= len <= tot - abs -> exists p n,
    (n0 ← memchr m abs 0 len;
     match n0 with Some n0 => Some (Some abs, n0 - abs) | None => Some (None, - FDT_ERR_TRUNCATED) end) = Some (p, n) /\
    match p with Some p => exists s, 0 <= p /\ cstr m p = Some s /\ zlen s = n /\ p + n < tot | None => True end).
  { intros len Hl. destruct (memchr_ok abs len) as (q & -> & Hq); [lia|lia|lia|]. cbn [mbind option_bind].
    destruct q as [q|]; [|by do 2 eexists]. destruct Hq as (Hq & s & Hs & Hlen).
    do 2 eexists. split; [done|]. exists s. split_and!; try done; lia. }
  destruct (hv b 0 =? FDT_MAGIC).
  - destruct (Z.ltb_spec stroffset 0); cbn [mbind option_bind]; [by do 2 eexists|]. fields.
    destruct (17 <=? ver); cbn [mbind option_bind]; [|apply K; lia]. fields.
    rewrite (uw_small 32 stroffset) by (unfold is_uw; lia).
    destruct (Z.leb_spec (hv b 32) stroffset); cbn [mbind option_bind]; [by do 2 eexists|].
    rewrite (uw_small 32 (hv b 32 - stroffset)) by (unfold is_uw; lia).
    destruct (Z.ltb_spec (hv b 32 - stroffset) (tot - abs)); apply K; lia.
  - destruct (hv b 0 =? FDT_SW_MAGIC); cbn [mbind option_bind]; [|by do 2 eexists]. fields.
    destruct (_ || _); cbn [mbind option_bind]; [by do 2 eexists|].
    assert (0 <= u32 (- stroffset)) by (apply uw_range; lia).
    destruct (Z.ltb_spec (u32 (- stroffset)) (tot - abs)); apply K; lia.
Qed.

Lemma memeq_ok p s : 0 <= p -> p + zlen s <= zlen m -> is_Some (memeq m p s).
Proof. intros. unfold memeq. rewrite rdn_Some by (auto with word; lia). by eexists. Qed.

Lemma string_eq_ok stroffset s : is_sw 32 stroffset -> is_Some (fdt_string_eq_ b stroffset s).
Proof.
  intros Ho. unfold fdt_string_eq_. destruct (get_string_ok stroffset Ho) as (p & n & -> & Hp). cbn [mbind option_bind].
  destruct p as [p|]; [|by eexists]. destruct (Z.eqb_spec n (zlen s)); [|by eexists].
  destruct Hp as (s' & H0 & _ & _ & Hb). pose proof (bo_size _ Hok). apply memeq_ok; lia.
Qed.

Lemma nextprop_ok fuel : forall offset, is_sw 32 offset -> fuel_at offset fuel ->
  exists r, nextprop_ b fuel offset = Some r /\ is_sw 32 r /\
    (0 <= r -> 0 <= offset <= r /\ exists next, tag_at r FDT_PROP next).
Proof.
  induction fuel as [|fuel IH]; intros offset Ho Hf; [destruct Hf; lia|]. cbn [nextprop_].
  destruct (next_tag_ok offset Ho) as (tag & next & -> & Hn & Ht). cbn [mbind option_bind].
  destruct (Z.eqb_spec tag FDT_END) as [->|].
  { destruct (Z.leb_spec 0 next); eexists; (split; [done|]); (split; [done|]); [done|lia]. }
  destruct Ht as [|Hta]; [done|].
  destruct (Z.eqb_spec tag FDT_PROP) as [->|].
  { exists offset. split; [done|]. split; [done|]. intros _. split; [destruct Hta; lia|by eexists]. }
  destruct (Z.eqb_spec tag FDT_NOP) as [->|]; [|exists (- FDT_ERR_NOTFOUND); split; [done|]; split; [done|done]].
  destruct (IH next Hn (fuel_step _ _ _ _ Hta Hf)) as (r & -> & Hr & Hp).
  exists r. split; [done|]. split; [done|]. intros Hr0. destruct (Hp Hr0) as [Hle Hx]. split; [|exact Hx].
  destruct Hta as [H0 _ _ _ Hnx _ _]. lia.
Qed.

Lemma first_property_ok offset : is_sw 32 offset ->
  exists r, fdt_first_property_offset b offset = Some r /\ is_sw 32 r /\
    (0 <= r -> exists next, tag_at r FDT_PROP next).
Proof.
  intros Ho. unfold fdt_first_property_offset. destruct (check_node_ok offset Ho) as (n & -> & Hn & _).
  cbn [mbind option_bind]. destruct (Z.ltb_spec n 0); [exists n; split; [done|]; split; [done|lia]|].
  destruct (nextprop_ok (blob_fuel b) n Hn) as (r & -> & Hr & Hp); [apply fuel_start; lia|].
  exists r. split; [done|]. split; [done|]. intros H0. by destruct (Hp H0).
Qed.

Lemma next_property_ok offset : is_sw 32 offset ->
  exists r, fdt_next_property_offset b offset = Some r /\ is_sw 32 r /\
    (0 <= r -> offset + 4 <= r /\ exists next, tag_at r FDT_PROP next).
Proof.
  intros Ho. unfold fdt_next_property_offset. destruct (check_prop_ok offset Ho) as (n & -> & Hn & Ht).
  cbn [mbind option_bind]. destruct (Z.ltb_spec n 0); [exists n; split; [done|]; split; [done|lia]|].
  destruct (nextprop_ok (blob_fuel b) n Hn) as (r & -> & Hr & Hp); [apply fuel_start; lia|].
  exists r. split; [done|]. split; [done|]. intros H0. destruct (Hp H0) as [Hle Hx]. split; [|done].
  destruct (Ht ltac:(lia)) as [_ _ _ _ Hnx _ _]. lia.
Qed.

(** The property structure [get_property_by_offset_] returns lies in the blob. *)
Lemma property_at_ok offset : is_sw 32 offset ->
  exists p len, fdt_get_property_by_offset_ b offset = Some (p, len) /\
    match p with
    | Some prop => prop = st + offset /\ len = hv b (prop + 4) /\ exists next, tag_at offset FDT_PROP next
    | None => len < 0
    end.
Proof.
  intros Ho. unfold fdt_get_property_by_offset_. destruct (check_prop_ok offset Ho) as (n & -> & Hn & Ht).
  cbn [mbind option_bind]. destruct (Z.ltb_spec n 0); [by do 2 eexists|]. unfold fdt_offset_ptr_. fields.
  pose proof (Ht ltac:(lia)) as Hta. destruct (ta_prop _ _ _ Hta eq_refl) as (Hl & Hb & _).
  destruct (ta_bound _ _ _ Hta). destruct Hta as [Hs0 _ _ _ _ _ _]. pose proof (bo_size _ Hok).
  destruct (ld_ok (st + offset + 4)) as [-> _]; [lia|lia|]. cbn [mbind option_bind].
  do 2 eexists. split; [done|]. split; [done|]. split; [|exists n; by apply Ht].
  apply sw_small; [lia|]. unfold is_sw, INT_MAX in *. lia.
Qed.

Lemma get_property_loop_ok name fuel : forall offset, is_sw 32 offset -> fuel_at offset fuel ->
  (0 <= offset -> exists next, tag_at offset FDT_PROP next) ->
  exists p len po, get_property_loop b fuel offset name = Some (p, len, po) /\
    match p with
    | Some prop => prop = st + po /\ len = hv b (prop + 4) /\ exists next, tag_at po FDT_PROP next
    | None => len < 0
    end.
Proof.
  induction fuel as [|fuel IH]; intros offset Ho Hf Hta; [destruct Hf; lia|]. cbn [get_property_loop].
  destruct (Z.ltb_spec offset 0); [by do 3 eexists|].
  destruct (property_at_ok offset Ho) as (p & len & -> & Hp). cbn [mbind option_bind].
  destruct p as [prop|]; [|by do 3 eexists]. destruct Hp as (-> & -> & next & Ht).
  destruct (ta_prop _ _ _ Ht eq_refl) as (Hl & Hb & _). destruct (ta_bound _ _ _ Ht) as [Hst _].
  pose proof (ta_start _ _ _ Ht). pose proof (bo_size _ Hok).
  destruct (ld_ok (st + offset + 8)) as [-> _]; [lia|lia|]. cbn [mbind option_bind].
  destruct (string_eq_ok (s32 (hv b (st + offset + 8))) name) as [e ->]; [apply sw_range; lia|]. cbn [mbind option_bind].
  destruct e; [do 3 eexists; split; [done|]; split; [done|]; split; [done|]; by exists next|].
  destruct (next_property_ok offset Ho) as (r & -> & Hr & Hx). cbn [mbind option_bind].
  apply IH; [done| |intros Hq; by destruct (Hx Hq)].
  destruct Hf as [_ Hf]. specialize (Hf ltac:(lia)). unfold fuel_at. lia.
Qed.

Lemma get_property_namelen_ok offset name : is_sw 32 offset ->
  exists p len po, fdt_get_property_namelen_ b offset name = Some (p, len, po) /\
    match p with
    | Some prop => prop = st + po /\ len = hv b (prop + 4) /\ exists next, tag_at po FDT_PROP next
    | None => len < 0
    end.
Proof.
  intros Ho. unfold fdt_get_property_namelen_. destruct (first_property_ok offset Ho) as (r & -> & Hr & Hx).
  cbn [mbind option_bind]. apply get_property_loop_ok; [done|apply fuel_start; lia|done].
Qed.

(** A property's value lies in the blob. *)
Lemma prop_data_ok po next : tag_at po FDT_PROP next ->
  exists d, prop_data b (st + po) po = Some d /\ 0 <= d /\ d + hv b (st + po + 4) <= tot.
Proof.
  intros Hta. destruct (ta_prop _ _ _ Hta eq_refl) as (Hl & Hb & Hal). destruct (ta_bound _ _ _ Hta) as [Hst _].
  pose proof (ta_start _ _ _ Hta). pose proof (bo_size _ Hok). unfold prop_data. fields.
  destruct (Z.ltb_spec ver 16); cbn [andb]; [|eexists; split; [done|]; lia].
  destruct (Z.eqb_spec ((po + 12) mod 8) 0); cbn [negb]; [eexists; split; [done|]; lia|].
  destruct (ld_ok (st + po + 4)) as [-> _]; [lia|lia|]. cbn [mbind option_bind].
  destruct (Z.leb_spec 8 (hv b (st + po + 4))); eexists; (split; [done|]); [|lia].
  specialize (Hal ltac:(lia) ltac:(lia) ltac:(done)). lia.
Qed.

Lemma getprop_ok offset name : is_sw 32 offset ->
  exists p len, fdt_getprop_namelen b offset name = Some (p, len) /\
    match p with
    | Some d => 0 <= d /\ 0 <= len < INT_MAX /\ d + len <= tot
    | None => len < 0
    end.
Proof.
  intros Ho. unfold fdt_getprop_namelen. destruct (get_property_namelen_ok offset name Ho) as (p & len & po & -> & Hp).
  cbn [mbind option_bind]. destruct p as [prop|]; [|by do 2 eexists]. destruct Hp as (-> & -> & next & Ht).
  destruct (prop_data_ok _ _ Ht) as (d & -> & H0 & Hb). cbn [mbind option_bind].
  destruct (ta_prop _ _ _ Ht eq_refl) as (Hl & _). do 2 eexists. split; [done|]. done.
Qed.

Lemma get_phandle_ok offset : is_sw 32 offset -> is_Some (fdt_get_phandle b offset).
Proof.
  intros Ho. pose proof (bo_size _ Hok). unfold fdt_get_phandle, fdt_getprop.
  assert (K : forall name (k : option Z), is_Some k -> is_Some (r ← fdt_getprop_namelen b offset name;
    match r with (Some php, 4) => fdt32_ld m php | _ => k end)).
  { intros name k Hk. destruct (getprop_ok offset name Ho) as (p & len & -> & Hp). cbn [mbind option_bind].
    destruct p as [php|]; [|done]. destruct (Z.eq_dec len 4) as [->|Hne].
    - apply rd_be_is_Some; lia.
    - repeat (case_match; try done; try lia). }
  apply K, K. by eexists.
Qed.
End Safe.
