(* ===== verification/FdtRoSafe.v ===== *)
(** Memory safety and termination of the remaining read functions of libfdt,
    and the safety theorems. *)
From S2P Require Import Prelude Bytes Fdt FdtRo FdtSafe.

Lemma cstr_bounds m p s : cstr m p = Some s ->
  0 <= p /\ p + zlen s < zlen m /\ rd8 m (p + zlen s) = Some 0 /\ rdn m p (zlen s) = Some s.
Proof.
  unfold cstr. destruct (Z.ltb_spec p 0); [done|]. intros Hs. apply to_nul_inv in Hs as [_ [l' E]].
  assert (Hlt : p < zlen m).
  { pose proof (f_equal length E) as HL. rewrite length_drop, length_app in HL. cbn in HL. unfold zlen. lia. }
  assert (Hfrom : from m p (s ++ 0 :: l')) by (split; [lia|done]).
  pose proof (from_len _ _ _ Hfrom) as HL. rewrite zlen_app, zlen_cons in HL. pose proof (zlen_nonneg l').
  split; [lia|]. split; [lia|]. split; [|exact (from_rdn _ _ _ _ Hfrom)].
  rewrite (from_rd8 _ _ _ _ Hfrom) by apply zlen_nonneg. apply list_lookup_middle. unfold zlen. lia.
Qed.

Lemma cstr_drop m p s i : cstr m p = Some s -> 0 <= i <= zlen s -> cstr m (p + i) = Some (drop (Z.to_nat i) s).
Proof.
  unfold cstr. destruct (Z.ltb_spec p 0); [done|]. intros Hs Hi. destruct (Z.ltb_spec (p + i) 0); [lia|].
  apply to_nul_inv in Hs as [Hn [l' E]]. replace (Z.to_nat (p + i)) with (Z.to_nat p + Z.to_nat i)%nat by lia.
  rewrite <- drop_drop, E. rewrite drop_app_le by (unfold zlen in Hi; lia). apply to_nul_app.
  intros Hin. apply Hn. rewrite <- (take_drop (Z.to_nat i) s). apply elem_of_app. by right.
Qed.

Lemma rindex_range c l i : rindex c l = Some i -> 0 <= i < zlen l.
Proof.
  revert i. induction l as [|x l IH]; intros i; cbn; [done|]. rewrite zlen_cons. pose proof (zlen_nonneg l).
  destruct (rindex c l) as [j|]; [intros [= <-]; specialize (IH j eq_refl); lia|].
  destruct (x =? c); [intros [= <-]; lia|done].
Qed.

Section RoSafe.
  Context (b : region) (Hok : blob_ok b).
  Local Abbreviation m := (r_bytes b).
  Local Abbreviation tot := (hv b 4).
  Local Abbreviation st := (hv b 8).

(** ** Names *)
Lemma get_name_ok offset : is_sw 32 offset ->
  exists p n, fdt_get_name b offset = Some (p, n) /\
    match p with Some p => exists s, cstr m p = Some s /\ zlen s = n | None => True end.
Proof.
  intros Ho. unfold fdt_get_name, fdt_offset_ptr_, fdt_off_dt_struct, fdt_version.
  rewrite (field_ok b Hok 8), (field_ok b Hok 20) by lia. cbn [mbind option_bind].
  destruct (probe_ok b Hok) as (r & -> & _ & _). cbn [mbind option_bind]. destruct (r <? 0); [by do 2 eexists|].
  destruct (check_node_ok b Hok offset Ho) as (n & -> & _ & Ht). cbn [mbind option_bind].
  destruct (Z.ltb_spec n 0); [by do 2 eexists|]. destruct (ta_name _ _ _ _ (Ht ltac:(lia)) eq_refl) as [s Es].
  rewrite Es. cbn [mbind option_bind]. destruct (hv b 20 <? 16); [|do 2 eexists; split; [done|]; by exists s].
  destruct (rindex 47 s) as [i|] eqn:Ei; [|by do 2 eexists]. apply rindex_range in Ei.
  do 2 eexists. split; [done|]. exists (drop (Z.to_nat (i + 1)) s). split.
  - rewrite <- (Z.add_assoc (st + offset + 4)). apply cstr_drop; [done|lia].
  - unfold zlen in *. rewrite length_drop. lia.
Qed.

Lemma nodename_eq_ok offset s : is_sw 32 offset -> is_Some (fdt_nodename_eq_ b offset s).
Proof.
  intros Ho. unfold fdt_nodename_eq_. destruct (get_name_ok offset Ho) as (p & n & -> & Hp). cbn [mbind option_bind].
  destruct p as [p|]; [|by eexists]. destruct Hp as (s' & Es & <-).
  destruct (Z.ltb_spec (zlen s') (zlen s)); [by eexists|]. destruct (cstr_bounds _ _ _ Es) as (? & ? & _).
  pose proof (zlen_nonneg s). destruct (memeq_ok b p s) as [e ->]; [lia|lia|]. cbn [mbind option_bind].
  destruct e; cbn [negb]; [|by eexists].
  destruct (proj2 (rd8_is_Some m (p + zlen s)) ltac:(lia)) as [c ->]. cbn [mbind option_bind].
  destruct (c =? 0); by eexists.
Qed.

(** ** Subnodes and paths *)

(** A loop over nodes is entered at any offset an [int] can hold; beyond the
    blob it stops at once. *)
Definition node_fuel (offset : Z) (fuel : nat) : Prop :=
  fuel_at b offset fuel /\ (tot + 3 < offset -> (2 <= fuel)%nat).

Lemma node_fuel_start offset : node_fuel offset (blob_fuel b).
Proof.
  split; [by apply fuel_start; [done|lia]|]. intros _. unfold blob_fuel. pose proof (bo_hdr _ Hok). unfold zlen in *. lia.
Qed.

Lemma next_node_far offset depth r d : is_sw 32 offset -> tot + 3 < offset ->
  fdt_next_node b offset depth = Some (r, d) -> r < 0.
Proof.
  intros Ho Hfar E. destruct (next_node_ok b Hok offset depth Ho) as (r' & d' & E' & _ & _ & Hb).
  rewrite E in E'. injection E' as <- <-. pose proof (field_range b Hok 4 ltac:(lia)).
  destruct (Z.ltb_spec r 0); [done|]. lia.
Qed.

Lemma node_fuel_step offset depth r d fuel : is_sw 32 offset -> 0 <= offset ->
  fdt_next_node b offset depth = Some (r, d) -> node_fuel offset (S fuel) -> node_fuel r fuel.
Proof.
  intros Ho H0 E [Hf Hfar]. destruct (next_node_ok b Hok offset depth Ho) as (r' & d' & E' & _ & _ & Hb).
  rewrite E in E'. injection E' as <- <-. destruct (Z.ltb_spec (tot + 3) offset) as [Hl|Hl].
  - pose proof (next_node_far _ _ _ _ Ho Hl E). specialize (Hfar Hl).
    pose proof (field_range b Hok 4 ltac:(lia)). unfold node_fuel, fuel_at. lia.
  - split; [by apply (fuel_node b offset); [lia|lia|done|done]|]. intros Hr. destruct (Hb ltac:(pose proof (field_range b Hok 4 ltac:(lia)); lia)). lia.
Qed.

Lemma subnode_loop_ok name fuel : forall offset depth, is_sw 32 offset -> node_fuel offset fuel ->
  exists r, subnode_loop b fuel offset depth name = Some r /\ is_sw 32 r.
Proof.
  induction fuel as [|fuel IH]; intros offset depth Ho Hf; [destruct Hf as [[? _] _]; lia|]. cbn [subnode_loop].
  destruct (Z.leb_spec 0 offset); cbn [andb].
  - destruct (0 <=? depth).
    + assert (exists f, (if depth =? 1 then fdt_nodename_eq_ b offset name else Some false) = Some f) as [f ->].
      { destruct (depth =? 1); [|by eexists]. destruct (nodename_eq_ok offset name Ho) as [f ->]. by exists f. }
      cbn [mbind option_bind]. destruct f; [by exists offset|].
      destruct (next_node_ok b Hok offset (Some depth) Ho) as (r & d & E & Hr & Hd & Hb). rewrite E. cbn [mbind option_bind].
      apply IH; [done|]. by apply (node_fuel_step offset (Some depth) r d).
    + destruct (depth <? 0); [by exists (- FDT_ERR_NOTFOUND)|by exists offset].
  - destruct (depth <? 0); [by exists (- FDT_ERR_NOTFOUND)|by exists offset].
Qed.

Lemma subnode_offset_ok offset name : is_sw 32 offset ->
  exists r, fdt_subnode_offset_namelen b offset name = Some r /\ is_sw 32 r.
Proof.
  intros Ho. unfold fdt_subnode_offset_namelen. destruct (probe_ok b Hok) as (e & -> & He & _). cbn [mbind option_bind].
  destruct (e <? 0); [by exists e|]. apply subnode_loop_ok; [done|apply node_fuel_start].
Qed.

Lemma path_component_length l : l <> [] -> hd 0 l <> 47 -> (length (path_component l).2 < length l)%nat.
Proof.
  assert (G : forall l, (length (path_component l).2 <= length l)%nat).
  { clear l. induction l as [|c l IH]; cbn; [lia|]. destruct (c =? 47); cbn; [lia|].
    destruct (path_component l) as [x r]. cbn in *. lia. }
  destruct l as [|c l]; [done|]. intros _ Hc. cbn in *. destruct (Z.eqb_spec c 47); [done|].
  specialize (G l). destruct (path_component l) as [x r]. cbn in *. lia.
Qed.

Lemma skip_slashes_spec l : (length (skip_slashes l) <= length l)%nat /\ (skip_slashes l <> [] -> hd 0 (skip_slashes l) <> 47).
Proof.
  induction l as [|c l [IH1 IH2]]; cbn; [done|]. destruct (Z.eqb_spec c 47); [split; [lia|done]|]. split; [cbn; lia|done].
Qed.

Lemma path_loop_ok fuel : forall offset rest, is_sw 32 offset -> (length rest < fuel)%nat ->
  exists r, path_loop b fuel offset rest = Some r /\ is_sw 32 r.
Proof.
  induction fuel as [|fuel IH]; intros offset rest Ho Hf; [lia|]. cbn [path_loop].
  destruct rest as [|c rest']; [by exists offset|]. set (rest := c :: rest') in *.
  destruct (skip_slashes_spec rest) as [H1 H2]. destruct (skip_slashes rest) as [|x l] eqn:Es; [by exists offset|].
  pose proof (path_component_length (x :: l) ltac:(done) (H2 ltac:(done))) as H3.
  destruct (path_component (x :: l)) as [name tl]. cbn [snd] in H3.
  destruct (subnode_offset_ok offset name Ho) as (r & -> & Hr). cbn [mbind option_bind].
  destruct (r <? 0); [by exists r|]. apply IH; [done|lia].
Qed.

(** Absolute paths need no alias. *)
Lemma path_offset_abs fuel path namelen : hd 0 path = 47 ->
  exists r, fdt_path_offset_namelen b (S fuel) path namelen = Some r /\ is_sw 32 r.
Proof.
  intros Hp. cbn [fdt_path_offset_namelen]. destruct (probe_ok b Hok) as (e & -> & He & _). cbn [mbind option_bind].
  destruct (e <? 0); [by exists e|]. destruct path as [|c path]; [done|]. cbn in Hp. subst c.
  change (rd8 (47 :: path) 0) with (Some 47). cbn [mbind option_bind Z.eqb Pos.eqb negb].
  apply path_loop_ok; [done|lia].
Qed.

Lemma get_alias_ok fuel name : is_Some (fdt_get_alias_namelen b (S fuel) name).
Proof.
  unfold fdt_get_alias_namelen, fdt_path_offset.
  destruct (path_offset_abs fuel (byte_list "/aliases" ++ [0]) (zlen (byte_list "/aliases")) eq_refl) as (r & -> & Hr).
  cbn [mbind option_bind]. destruct (r <? 0); [by eexists|].
  destruct (getprop_ok b Hok r name Hr) as (p & len & -> & _). by eexists.
Qed.

(** ** Reservations and phandles *)
(** Below 16 bytes of [totalsize] the bounds check itself wraps around. *)
Lemma mem_rsv_ok n : 16 <= tot -> 0 <= n < 2 ^ 28 -> exists r, fdt_mem_rsv b n = Some r /\
  match r with
  | Some p => 0 <= p /\ p + 16 <= tot /\ p = hv b 16 + 16 * n
  | None => True
  end.
Proof.
  intros H16 Hn. change (2 ^ 28) with 268435456 in Hn.
  unfold fdt_mem_rsv, fdt_off_mem_rsvmap, fdt_totalsize. rewrite (field_ok b Hok 16), (field_ok b Hok 4) by lia.
  cbn [mbind option_bind].
  pose proof (field_range b Hok 16 ltac:(lia)). pose proof (field_range b Hok 4 ltac:(lia)).
  change (2 ^ 32) with 4294967296 in *. rewrite (uw_small 32 (n * 16)) by (unfold is_uw; lia).
  destruct (Z.leb_spec 4294967296 (hv b 16 + n * 16)) as [Hw|Hw].
  - unfold uw at 1. change (2 ^ 32) with 4294967296. rewrite <- (Z.mod_add _ (-1)) by lia. rewrite Z.mod_small by lia.
    destruct (Z.ltb_spec (hv b 16 + n * 16 + -1 * 4294967296) (hv b 16)); [by eexists|lia].
  - rewrite (uw_small 32 (hv b 16 + n * 16)) by (unfold is_uw; lia).
    destruct (Z.ltb_spec (hv b 16 + n * 16) (hv b 16)); [by eexists|].
    rewrite uw_small by (unfold is_uw; lia). destruct (Z.ltb_spec (tot - 16) (hv b 16 + n * 16)); [by eexists|].
    eexists. split; [done|]. cbn beta iota. lia.
Qed.

Lemma ld64_ok p : 0 <= p -> p + 8 <= tot -> is_Some (fdt64_ld m p).
Proof. intros. pose proof (bo_size _ Hok). apply rd_be_is_Some; lia. Qed.

Lemma get_mem_rsv_ok n : 16 <= tot -> 0 <= n < 2 ^ 28 -> is_Some (fdt_get_mem_rsv b n).
Proof.
  intros H16 Hn. unfold fdt_get_mem_rsv. destruct (probe_ok b Hok) as (e & -> & _ & _). cbn [mbind option_bind].
  destruct (e <? 0); [by eexists|]. destruct (mem_rsv_ok n H16 Hn) as (r & -> & Hr). cbn [mbind option_bind].
  destruct r as [p|]; [|by eexists]. destruct (ld64_ok p) as [x ->]; [lia|lia|]. cbn [mbind option_bind].
  destruct (ld64_ok (p + 8)) as [y ->]; [lia|lia|]. by eexists.
Qed.

Lemma num_mem_rsv_loop_ok fuel : forall i, 16 <= tot -> 0 <= i -> 16 * i <= tot -> tot - 16 * i < 16 * Z.of_nat fuel ->
  is_Some (num_mem_rsv_loop b fuel i).
Proof.
  pose proof (bo_int _ Hok) as Hi. unfold INT_MAX in Hi.
  induction fuel as [|fuel IH]; intros i H16 H0 Hi' Hf; [lia|]. cbn [num_mem_rsv_loop].
  destruct (mem_rsv_ok i H16) as (r & -> & Hr); [lia|]. cbn [mbind option_bind]. destruct r as [p|]; [|by eexists].
  pose proof (field_range b Hok 16 ltac:(lia)).
  destruct (ld64_ok (p + 8)) as [y ->]; [lia|lia|]. cbn [mbind option_bind]. destruct (y =? 0); [by eexists|].
  rewrite sw_small by (unfold is_sw; lia). apply IH; lia.
Qed.

Lemma num_mem_rsv_ok : 16 <= tot -> is_Some (fdt_num_mem_rsv b).
Proof.
  intros H16. unfold fdt_num_mem_rsv. apply num_mem_rsv_loop_ok; try lia.
  pose proof (bo_size _ Hok). unfold blob_fuel, zlen in *. lia.
Qed.

Lemma node_fuel_len r : node_fuel r (length m).
Proof.
  pose proof (bo_hdr _ Hok). pose proof (bo_size _ Hok). unfold node_fuel, fuel_at, zlen in *. lia.
Qed.

Lemma max_phandle_loop_ok fuel : forall offset max, is_sw 32 offset -> 0 <= offset -> node_fuel offset fuel ->
  is_Some (max_phandle_loop b fuel offset max).
Proof.
  induction fuel as [|fuel IH]; intros offset max Ho H0 Hf; [destruct Hf as [[? _] _]; lia|].
  cbn [max_phandle_loop]. destruct (next_node_ok b Hok offset None Ho) as (r & d & E & Hr & _ & Hb). rewrite E.
  cbn [mbind option_bind fst]. destruct (Z.ltb_spec r 0); [by eexists|].
  destruct (get_phandle_ok b Hok r Hr) as [v ->]. cbn [mbind option_bind].
  apply IH; [done|lia|]. by apply (node_fuel_step offset None r d).
Qed.

Lemma max_phandle_ok : is_Some (fdt_find_max_phandle b).
Proof.
  unfold fdt_find_max_phandle, blob_fuel. cbn [max_phandle_loop].
  destruct (next_node_ok b Hok (-1) None) as (r & d & -> & Hr & _ & Hb); [done|]. cbn [mbind option_bind fst].
  destruct (Z.ltb_spec r 0); [by eexists|]. destruct (get_phandle_ok b Hok r Hr) as [v ->]. cbn [mbind option_bind].
  apply max_phandle_loop_ok; [done|lia|apply node_fuel_len].
Qed.

(** ** Ancestors and searches *)
Lemma supernode_loop_ok nodeoffset sd fuel : forall offset depth so, is_sw 32 offset -> node_fuel offset fuel ->
  exists r d, supernode_loop b fuel nodeoffset sd offset depth so = Some (r, d) /\
    (d = None -> r < 0).
Proof.
  induction fuel as [|fuel IH]; intros offset depth so Ho Hf; [destruct Hf as [[? _] _]; lia|]. cbn [supernode_loop].
  destruct (Z.leb_spec 0 offset) as [H0|H0]; cbn [andb].
  - destruct (offset <=? nodeoffset).
    + destruct (offset =? nodeoffset); [by do 2 eexists|].
      destruct (next_node_ok b Hok offset (Some depth) Ho) as (r & d & E & Hr & _ & _). rewrite E. cbn [mbind option_bind].
      apply IH; [done|]. by apply (node_fuel_step offset (Some depth) r d).
    + destruct (Z.leb_spec 0 offset); [|lia]. rewrite orb_true_r. by do 2 eexists.
  - do 2 eexists. split; [done|]. intros _. destruct (Z.leb_spec 0 offset); [lia|]. rewrite orb_false_r.
    destruct (offset =? - FDT_ERR_NOTFOUND); [done|]. destruct (offset =? - FDT_ERR_BADOFFSET); [done|lia].
Qed.

Lemma supernode_ok nodeoffset sd : exists r d, fdt_supernode_atdepth_offset b nodeoffset sd = Some (r, d) /\ (d = None -> r < 0).
Proof.
  unfold fdt_supernode_atdepth_offset. destruct (probe_ok b Hok) as (e & -> & _ & _). cbn [mbind option_bind].
  destruct (Z.ltb_spec e 0); [by do 2 eexists|]. destruct (sd <? 0); [by do 2 eexists|].
  apply supernode_loop_ok; [done|apply node_fuel_start].
Qed.

Lemma node_depth_ok nodeoffset : is_Some (fdt_node_depth b nodeoffset).
Proof.
  unfold fdt_node_depth. destruct (supernode_ok nodeoffset 0) as (r & d & -> & Hd). cbn [mbind option_bind].
  destruct (Z.eqb_spec r 0); cbn [negb]; [|by eexists]. destruct d; [by eexists|]. specialize (Hd eq_refl). lia.
Qed.

Lemma parent_ok nodeoffset : is_Some (fdt_parent_offset b nodeoffset).
Proof.
  unfold fdt_parent_offset. destruct (node_depth_ok nodeoffset) as [d ->]. cbn [mbind option_bind].
  destruct (d <? 0); [by eexists|]. destruct (supernode_ok nodeoffset (d - 1)) as (r & e & -> & _). by eexists.
Qed.

Lemma search_ok matches start : is_sw 32 start -> (forall offset, is_sw 32 offset -> is_Some (matches offset)) ->
  is_Some (search_from b matches start).
Proof.
  intros Hs Hmatch. unfold search_from. destruct (next_node_ok b Hok start None Hs) as (r & d & -> & Hr & _ & _).
  cbn [mbind option_bind fst]. pose proof (node_fuel_start r) as Hf. revert r Hr Hf. generalize (blob_fuel b).
  induction n as [|fuel IH]; intros r Hr Hf; [destruct Hf as [[? _] _]; lia|]. cbn [search_loop].
  destruct (Z.leb_spec 0 r); [|by eexists]. destruct (Hmatch r Hr) as [x ->]. cbn [mbind option_bind].
  destruct x as [[]|]; [by eexists| |by eexists].
  destruct (next_node_ok b Hok r None Hr) as (r' & d' & E & Hr' & _ & _). rewrite E. cbn [mbind option_bind fst].
  apply IH; [done|]. by apply (node_fuel_step r None r' d').
Qed.

Lemma by_prop_value_ok start name val : is_sw 32 start -> is_Some (fdt_node_offset_by_prop_value b start name val).
Proof.
  intros Hs. unfold fdt_node_offset_by_prop_value. destruct (probe_ok b Hok) as (e & -> & _ & _). cbn [mbind option_bind].
  destruct (e <? 0); [by eexists|]. apply search_ok; [done|]. intros offset Ho. unfold fdt_getprop.
  destruct (getprop_ok b Hok offset name Ho) as (p & len & -> & Hp). cbn [mbind option_bind].
  destruct p as [d|]; [|by eexists]. destruct (Z.eqb_spec len (zlen val)); [|by eexists].
  pose proof (bo_size _ Hok). destruct (memeq_ok b d val) as [x ->]; [lia|lia|]. by eexists.
Qed.

Lemma by_phandle_ok ph : is_Some (fdt_node_offset_by_phandle b ph).
Proof.
  unfold fdt_node_offset_by_phandle. destruct (_ || _); [by eexists|].
  destruct (probe_ok b Hok) as (e & -> & _ & _). cbn [mbind option_bind]. destruct (e <? 0); [by eexists|].
  apply search_ok; [done|]. intros offset Ho. destruct (get_phandle_ok b Hok offset Ho) as [v ->]. by eexists.
Qed.

(** ** String lists *)
Lemma strnlen_ok p n : 0 <= p -> 0 <= n -> p + n <= zlen m ->
  exists r, strnlen m p n = Some r /\ 0 <= r <= n.
Proof.
  intros Hp Hn Hb. unfold strnlen. destruct (memchr_ok b p n Hp Hn Hb) as (q & -> & Hq). cbn [mbind option_bind].
  destruct q as [q|]; eexists; (split; [done|]); lia.
Qed.

(** The three list walks share their shape: each entry takes at least a byte. *)
Lemma list_fuel lst fin : 0 <= lst -> fin <= tot -> Z.max 0 (fin - lst) < Z.of_nat (blob_fuel b).
Proof. intros. pose proof (bo_size _ Hok). unfold blob_fuel, zlen in *. lia. Qed.

Lemma count_loop_ok fuel : forall lst fin count, 0 <= lst -> fin <= tot -> Z.max 0 (fin - lst) < Z.of_nat fuel ->
  is_Some (stringlist_count_loop b fuel lst fin count).
Proof.
  induction fuel as [|fuel IH]; intros lst fin count H0 H1 Hf; [lia|]. cbn [stringlist_count_loop].
  destruct (Z.ltb_spec lst fin); [|by eexists]. pose proof (bo_size _ Hok).
  destruct (strnlen_ok lst (fin - lst)) as (n & -> & Hn); [lia|lia|lia|]. cbn [mbind option_bind].
  destruct (Z.ltb_spec fin (lst + (n + 1))); [by eexists|]. apply IH; lia.
Qed.

Lemma list_search_loop_ok s fuel : forall lst fin idx, 0 <= lst -> fin <= tot -> Z.max 0 (fin - lst) < Z.of_nat fuel ->
  is_Some (stringlist_search_loop b fuel lst fin idx s).
Proof.
  induction fuel as [|fuel IH]; intros lst fin idx H0 H1 Hf; [lia|]. cbn [stringlist_search_loop].
  destruct (Z.ltb_spec lst fin); [|by eexists]. pose proof (bo_size _ Hok).
  destruct (strnlen_ok lst (fin - lst)) as (n & -> & Hn); [lia|lia|lia|]. cbn [mbind option_bind].
  destruct (Z.ltb_spec fin (lst + (n + 1))); [by eexists|].
  assert (exists e, (if n + 1 =? zlen s + 1 then memeq m lst (s ++ [0]) else Some false) = Some e) as [e ->].
  { destruct (Z.eqb_spec (n + 1) (zlen s + 1)); [|by eexists].
    destruct (memeq_ok b lst (s ++ [0])) as [x ->]; [lia|rewrite zlen_app; change (zlen [0]) with 1; lia|]. by eexists. }
  cbn [mbind option_bind]. destruct e; [by eexists|]. apply IH; lia.
Qed.

Lemma list_get_loop_ok fuel : forall lst fin idx, 0 <= lst -> fin <= tot -> Z.max 0 (fin - lst) < Z.of_nat fuel ->
  is_Some (stringlist_get_loop b fuel lst fin idx).
Proof.
  induction fuel as [|fuel IH]; intros lst fin idx H0 H1 Hf; [lia|]. cbn [stringlist_get_loop].
  destruct (Z.ltb_spec lst fin); [|by eexists]. pose proof (bo_size _ Hok).
  destruct (strnlen_ok lst (fin - lst)) as (n & -> & Hn); [lia|lia|lia|]. cbn [mbind option_bind].
  destruct (Z.ltb_spec fin (lst + (n + 1))); [by eexists|]. destruct (idx =? 0); [by eexists|]. apply IH; lia.
Qed.

(** [fdt_stringlist_contains] compares one byte more than the list holds, so
    it needs a byte behind the blob. *)
Lemma contains_loop_ok s fuel : forall lst len, tot < zlen m -> 0 <= lst -> lst + len <= tot ->
  Z.max 0 (len + 1) < Z.of_nat fuel -> is_Some (stringlist_contains_loop b fuel lst len s).
Proof.
  induction fuel as [|fuel IH]; intros lst len Hm H0 H1 Hf; [lia|]. cbn [stringlist_contains_loop].
  pose proof (zlen_nonneg s). destruct (Z.ltb_spec len (zlen s)); [by eexists|].
  destruct (memeq_ok b lst (s ++ [0])) as [e ->]; [lia|rewrite zlen_app; change (zlen [0]) with 1; lia|].
  cbn [mbind option_bind]. destruct e; [by eexists|].
  destruct (memchr_ok b lst len) as (q & -> & Hq); [lia|lia|lia|]. cbn [mbind option_bind].
  destruct q as [q|]; [|by eexists]. apply IH; lia.
Qed.

Lemma check_compatible_ok offset s : tot < zlen m -> is_sw 32 offset -> is_Some (fdt_node_check_compatible b offset s).
Proof.
  intros Hm Ho. unfold fdt_node_check_compatible, fdt_getprop.
  destruct (getprop_ok b Hok offset (byte_list "compatible") Ho) as (p & len & -> & Hp). cbn [mbind option_bind].
  destruct p as [d|]; [|by eexists]. unfold fdt_stringlist_contains.
  destruct (contains_loop_ok s (blob_fuel b) d len) as [c ->]; [done|lia|lia| |by eexists].
  unfold blob_fuel, zlen in *. lia.
Qed.

Lemma by_compatible_ok start s : tot < zlen m -> is_sw 32 start -> is_Some (fdt_node_offset_by_compatible b start s).
Proof.
  intros Hm Hs. unfold fdt_node_offset_by_compatible. destruct (probe_ok b Hok) as (e & -> & _ & _). cbn [mbind option_bind].
  destruct (e <? 0); [by eexists|]. apply search_ok; [done|]. intros offset Ho.
  destruct (check_compatible_ok offset s Hm Ho) as [x ->]. by eexists.
Qed.

Lemma cells_ok offset name : is_sw 32 offset -> is_Some (fdt_cells b offset name).
Proof.
  intros Ho. unfold fdt_cells, fdt_getprop. destruct (getprop_ok b Hok offset name Ho) as (p & len & -> & Hp).
  cbn [mbind option_bind]. destruct p as [d|]; [|by eexists]. destruct (Z.eqb_spec len 4); cbn [negb]; [|by eexists].
  pose proof (bo_size _ Hok). destruct (ld_ok b Hok d) as [-> _]; [lia|lia|]. cbn [mbind option_bind].
  destruct (_ <? _); by eexists.
Qed.

(** The list functions on the value of a property. *)
Lemma stringlist_count_ok offset name : is_sw 32 offset -> is_Some (fdt_stringlist_count b offset name).
Proof.
  intros Ho. unfold fdt_stringlist_count, fdt_getprop. destruct (getprop_ok b Hok offset name Ho) as (p & len & -> & Hx).
  cbn [mbind option_bind]. destruct p as [d|]; [|by eexists].
  apply count_loop_ok; [lia|lia|apply list_fuel; lia].
Qed.

Lemma stringlist_search_ok offset name s : is_sw 32 offset -> is_Some (fdt_stringlist_search b offset name s).
Proof.
  intros Ho. unfold fdt_stringlist_search, fdt_getprop. destruct (getprop_ok b Hok offset name Ho) as (p & len & -> & Hx).
  cbn [mbind option_bind]. destruct p as [d|]; [|by eexists].
  apply list_search_loop_ok; [lia|lia|apply list_fuel; lia].
Qed.

Lemma stringlist_get_ok offset name idx : is_sw 32 offset -> is_Some (fdt_stringlist_get b offset name idx).
Proof.
  intros Ho. unfold fdt_stringlist_get, fdt_getprop. destruct (getprop_ok b Hok offset name Ho) as (p & len & -> & Hx).
  cbn [mbind option_bind]. destruct p as [d|]; [|by eexists].
  apply list_get_loop_ok; [lia|lia|apply list_fuel; lia].
Qed.

(** Property structures, refused before version 16. *)
Lemma get_property_by_offset_ok offset : is_sw 32 offset -> is_Some (fdt_get_property_by_offset b offset).
Proof.
  intros Ho. unfold fdt_get_property_by_offset, fdt_version. rewrite (field_ok b Hok 20) by lia. cbn [mbind option_bind].
  destruct (_ <? _); [by eexists|]. destruct (property_at_ok b Hok offset Ho) as (p & len & -> & _). by eexists.
Qed.

Lemma get_property_ok offset name : is_sw 32 offset -> is_Some (fdt_get_property b offset name).
Proof.
  intros Ho. unfold fdt_get_property, fdt_get_property_namelen, fdt_version. rewrite (field_ok b Hok 20) by lia. cbn [mbind option_bind].
  destruct (_ <? _); [by eexists|]. destruct (get_property_namelen_ok b Hok offset name Ho) as (p & len & po & -> & _). by eexists.
Qed.

Lemma get_string_none o n : fdt_get_string b o = Some (None, n) -> n < 0.
Proof.
  unfold fdt_get_string. destruct (fdt_ro_probe_ b) as [t|]; [|done]. cbn [mbind option_bind].
  destruct (Z.ltb_spec t 0); [by intros [= <-]|]. destruct (fdt_off_dt_strings b); [|done]. cbn [mbind option_bind].
  destruct (_ <=? _); [by intros [= <-]|]. destruct (fdt_magic b); [|done]. cbn [mbind option_bind]. intros E.
  match type of E with ?x ≫= _ = _ => destruct x as [[l|err]|] eqn:El; [| |done] end; cbn [mbind option_bind] in E.
  - destruct (memchr _ _ _ _) as [[q|]|]; cbn [mbind option_bind] in E; [done| |done]. by injection E as <-.
  - injection E as <-. destruct (_ =? FDT_MAGIC).
    + destruct (o <? 0); [by injection El as <-|]. destruct (fdt_version b); [|done]. cbn [mbind option_bind] in El.
      destruct (_ <=? _); [|done]. destruct (fdt_size_dt_strings b); [|done]. cbn [mbind option_bind] in El.
      destruct (_ <=? _); [by injection El as <-|done].
    + destruct (_ =? FDT_SW_MAGIC); [|by injection El as <-]. destruct (fdt_size_dt_strings b); [|done].
      cbn [mbind option_bind] in El. destruct (_ || _); [by injection El as <-|done].
Qed.

Lemma getprop_by_offset_ok offset : is_sw 32 offset -> exists p n l, fdt_getprop_by_offset b offset true = Some (p, n, l) /\
  match p with Some _ => is_Some n | None => l < 0 end.
Proof.
  intros Ho. unfold fdt_getprop_by_offset. destruct (property_at_ok b Hok offset Ho) as (p & len & -> & Hx). cbn [mbind option_bind].
  destruct p as [prop|]; [|by do 3 eexists]. destruct Hx as (-> & -> & next & Ht).
  destruct (ta_prop _ _ _ _ Ht eq_refl) as (Hl & Hb & _). destruct (ta_bound _ _ _ _ Ht).
  pose proof (ta_start _ _ _ _ Ht). pose proof (bo_size _ Hok).
  destruct (ld_ok b Hok (hv b 8 + offset + 8)) as [-> _]; [lia|lia|]. cbn [mbind option_bind].
  destruct (get_string_ok b Hok (s32 (hv b (hv b 8 + offset + 8)))) as (p & n & Es & _); [apply sw_range; lia|]. rewrite Es.
  cbn [mbind option_bind]. destruct p; [|do 3 eexists; split; [done|]; by eapply get_string_none].
  destruct (prop_data_ok b Hok _ _ Ht) as (d & -> & _). do 3 eexists; (split; [done|]); by eexists.
Qed.

Lemma get_name_none offset n : fdt_get_name b offset = Some (None, n) -> n < 0.
Proof.
  unfold fdt_get_name. destruct (fdt_offset_ptr_ b offset); [|done]. cbn [mbind option_bind].
  destruct (fdt_ro_probe_ b) as [e|]; [|done]. cbn [mbind option_bind]. destruct (Z.ltb_spec e 0); [by intros [= <-]|].
  destruct (fdt_check_node_offset_ b offset) as [e'|]; [|done]. cbn [mbind option_bind]. destruct (Z.ltb_spec e' 0); [by intros [= <-]|].
  destruct (fdt_version b); [|done]. cbn [mbind option_bind]. destruct (cstr _ _); [|done]. cbn [mbind option_bind].
  destruct (_ <? _); [|done]. destruct (rindex _ _); [done|]. by intros [= <-].
Qed.
End RoSafe.

(** ** Safety *)

(** C36: Walking the structure block of an arbitrary blob never leaves it and
    always ends: [fdt_next_tag], [fdt_next_node] and the subnode functions
    return for every offset, and from a node at [offset] the next node found
    lies behind it. *)
Theorem fdt_walk_safe b offset depth : blob_ok b -> is_sw 32 offset ->
  is_Some (fdt_next_tag b offset) /\
  (exists r d, fdt_next_node b offset depth = Some (r, d) /\
     (0 <= offset -> 0 <= r -> offset < r <= hv b 4 + 3)) /\
  is_Some (fdt_first_subnode b offset) /\ is_Some (fdt_next_subnode b offset).
Proof.
  intros Hok Ho. split_and!.
  - destruct (next_tag_ok b Hok offset Ho) as (tag & next & -> & _). by eexists.
  - destruct (next_node_ok b Hok offset depth Ho) as (r & d & -> & _ & _ & Hb). do 2 eexists. split; [done|]. lia.
  - by apply first_subnode_ok.
  - by apply next_subnode_ok.
Qed.

(** C37: [fdt_getprop] on an arbitrary blob terminates without reading outside
    it; when it returns a value, all of the value lies inside the blob, and
    when it returns NULL the length is an error code. *)
Theorem fdt_getprop_safe b offset name : blob_ok b -> is_sw 32 offset ->
  exists p len, fdt_getprop b offset name = Some (p, len) /\
    match p with
    | Some d => 0 <= d /\ 0 <= len /\ d + len <= hv b 4 /\ is_Some (rdn (r_bytes b) d len)
    | None => len < 0
    end.
Proof.
  intros Hok Ho. destruct (getprop_ok b Hok offset name Ho) as (p & len & E & Hp). exists p, len. split; [exact E|].
  destruct p as [d|]; [|done]. pose proof (bo_size _ Hok). split_and!; try lia. rewrite rdn_Some by lia. by eexists.
Qed.

