(* ===== verification/FdtProps.v ===== *)
(** Concrete device trees: witnesses of the safety theorems, and the places
    where libfdt does leave the blob or does not return. *)
From S2P Require Import Prelude Bytes Fdt FdtRo FdtSafe FdtRoSafe.

(** A version 17 blob with an empty reservation map. *)
Definition mk_fdt (strct strs : list Z) : list Z :=
  to_be 4 FDT_MAGIC ++ to_be 4 (56 + zlen strct + zlen strs) ++ to_be 4 56 ++ to_be 4 (56 + zlen strct) ++
  to_be 4 40 ++ to_be 4 17 ++ to_be 4 16 ++ to_be 4 0 ++ to_be 4 (zlen strs) ++ to_be 4 (zlen strct) ++
  replicate 16 0 ++ strct ++ strs.

Definition tk_begin (name : list Z) : list Z :=
  to_be 4 FDT_BEGIN_NODE ++ name ++ [0] ++ replicate (Z.to_nat ((- (zlen name + 1)) mod 4)) 0.
Definition tk_prop (nameoff : Z) (val : list Z) : list Z :=
  to_be 4 FDT_PROP ++ to_be 4 (zlen val) ++ to_be 4 nameoff ++ val ++ replicate (Z.to_nat ((- zlen val) mod 4)) 0.
Definition tk_end_node : list Z := to_be 4 FDT_END_NODE.
Definition tk_end : list Z := to_be 4 FDT_END.

(** /aliases { a = "a"; } *)
Definition alias_blob : region := Region 0x1000 (mk_fdt
  (tk_begin [] ++ tk_begin (byte_list "aliases") ++ tk_prop 0 [97; 0] ++ tk_end_node ++ tk_end_node ++ tk_end)
  [97; 0]).

(** The strings first and the structure block last: the blob ends with the four
    bytes of compatible = "xxxx", which has no NUL. *)
Definition cut_blob : region :=
  let strs := byte_list "compatible" ++ replicate 6 0 in
  let strct := tk_begin [] ++ tk_prop 0 (byte_list "xxxx") in
  Region 0x1000 (
    to_be 4 FDT_MAGIC ++ to_be 4 (56 + zlen strs + zlen strct) ++ to_be 4 (56 + zlen strs) ++ to_be 4 56 ++
    to_be 4 40 ++ to_be 4 17 ++ to_be 4 16 ++ to_be 4 0 ++ to_be 4 (zlen strs) ++ to_be 4 (zlen strct) ++
    replicate 16 0 ++ strs ++ strct).

Ltac concrete_blob_ok := split;
  [apply (bool_decide_unpack (Forall (fun b => 0 <= b < 256) _)); by vm_compute | by vm_compute..].

Lemma alias_blob_ok : blob_ok alias_blob.
Proof. concrete_blob_ok. Qed.

Lemma cut_blob_ok : blob_ok cut_blob.
Proof. concrete_blob_ok. Qed.

Lemma fdt_walk_witness : blob_ok alias_blob /\ exists r d, fdt_next_node alias_blob 0 (Some 0) = Some (r, d) /\ 0 < r.
Proof.
  split; [exact alias_blob_ok|].
  destruct (fdt_walk_safe alias_blob 0 (Some 0) alias_blob_ok ltac:(split; vm_compute; congruence)) as (_ & (r & d & E & Hr) & _).
  exists r, d. split; [exact E|]. apply Hr; [lia|]. revert E. vm_compute. intros [= <- <-]. discriminate.
Defined.

Lemma fdt_getprop_witness : exists d, fdt_getprop alias_blob 8 (byte_list "a") = Some (Some d, 2) /\ d + 2 <= hv alias_blob 4.
Proof.
  destruct (fdt_getprop_safe alias_blob 8 (byte_list "a") alias_blob_ok ltac:(split; vm_compute; congruence))
    as (p & len & E & Hp).
  assert (E2 : fdt_getprop alias_blob 8 (byte_list "a") = Some (Some 88, 2)) by (vm_compute; reflexivity).
  rewrite E2 in E. injection E as <- <-. destruct Hp as (_ & _ & Hp & _). exists 88. split; [exact E2|exact Hp].
Defined.


(** Aliases are followed without a limit: when an alias names itself,
    [fdt_path_offset] of it never returns, whatever the recursion depth. *)
Theorem alias_cycle_diverges fuel : fdt_path_offset alias_blob fuel (byte_list "a") = None.
Proof.
  unfold fdt_path_offset. change (byte_list "a" ++ [0]) with [97; 0]. change (zlen (byte_list "a")) with 1.
  induction fuel as [|fuel IH]; [done|]. cbn [fdt_path_offset_namelen].
  assert (Ep : fdt_ro_probe_ alias_blob = Some (hv alias_blob 4)) by (by vm_compute). rewrite Ep.
  assert (Ew : (hv alias_blob 4 <? 0) = false) by (by vm_compute). cbn [mbind option_bind]. rewrite Ew.
  change (rd8 [97; 0] 0) with (Some 97). cbn [mbind option_bind Z.eqb Pos.eqb negb].
  change (path_component (take (Z.to_nat 1) [97; 0])) with ([97], @nil Z). cbn beta iota.
  destruct fuel as [|fuel]; [done|].
  assert (Ea : fdt_path_offset_namelen alias_blob (S fuel) (byte_list "/aliases" ++ [0]) 8 = Some 8)
    by (vm_compute; reflexivity).
  rewrite Ea. cbn [mbind option_bind Z.ltb Z.compare].
  assert (Eg : fdt_getprop_namelen alias_blob 8 [97] = Some (Some 88, 2)) by (by vm_compute). rewrite Eg.
  cbn [fmap option_fmap option_map fst mbind option_bind].
  assert (Ec : cstr (r_bytes alias_blob) 88 = Some [97]) by (by vm_compute). rewrite Ec.
  cbn [mbind option_bind]. change (zlen [97]) with 1. change ([97] ++ [0]) with [97; 0]. by rewrite IH.
Qed.

(** Two bounds of the read functions that do not hold. The comparison of
    [fdt_stringlist_contains] takes [strlen(str) + 1] bytes as soon as the list
    holds [strlen(str)], so on a blob that ends with such a property
    [fdt_node_check_compatible] reads one byte behind it, although [fdt_getprop]
    reported the value correctly; and [fdt_mem_rsv] multiplies the index by the
    entry size in 32 bits, so entry 2^28 is taken for entry 0, passes both
    checks, and [fdt_get_mem_rsv] reads four gigabytes behind the blob. *)
Theorem fdt_ro_unchecked :
  (fdt_getprop cut_blob 0 (byte_list "compatible") = Some (Some (zlen (r_bytes cut_blob) - 4), 4) /\
   hv cut_blob 4 = zlen (r_bytes cut_blob) /\
   fdt_node_check_compatible cut_blob 0 (byte_list "xxxx") = None) /\
  (fdt_num_mem_rsv alias_blob = Some 0 /\ fdt_get_mem_rsv alias_blob (2 ^ 28) = None).
Proof. split_and!; vm_compute; reflexivity. Qed.
