(* ===== verification/FdtHelper.v ===== *)
(** The kernel's own device-tree helpers, src/kernel/main/fdt_helper.c: phandle
    arguments, register addresses with their translation through the parent
    buses, and the status of a node. Pointer arguments are not NULL. *)
From S2P Require Import Prelude KDefs Bytes Fdt FdtRo FdtSafe FdtRoSafe FdtProps.

Definition FDT_MAX_PHANDLE_ARGS : Z := 16.
Record fdt_phandle_args := PhandleArgs { node_offset : Z; args_count : Z; args : list Z }.

Section Helper.
  Context (b : region).
  Local Abbreviation m := (r_bytes b).

(** [n] consecutive cells starting at [p]. *)
Fixpoint rd_cell_list (n : nat) (p : Z) : option (list Z) :=
  match n with
  | O => Some []
  | S n => x ← fdt32_ld m p; l ← rd_cell_list n (p + 4); Some (x :: l)
  end.

Fixpoint phandle_loop (fuel : nat) (cells_prop : list Z) (lst list_end index : Z)
    : option (Z * option fdt_phandle_args) :=
  match fuel with
  | O => None
  | S fuel =>
      if lst <? list_end then
        ph ← fdt32_ld m lst;
        pnodeoff ← fdt_node_offset_by_phandle b ph;
        if pnodeoff <? 0 then Some (pnodeoff, None)
        else
          let lst := lst + 4 in
          r ← fdt_getprop b pnodeoff cells_prop;
          match fst r with
          | None => Some (K_ENOENT, None)
          | Some val =>
              pcells ← fdt32_ld m val;
              if FDT_MAX_PHANDLE_ARGS <? pcells then Some (K_EINVAL, None)
              else if list_end <? lst + 4 * pcells then Some (K_ENOENT, None)
              else if 0 <? index then phandle_loop fuel cells_prop (lst + 4 * pcells) list_end (index - 1)
              else
                l ← rd_cell_list (Z.to_nat pcells) lst;
                Some (0, Some (PhandleArgs pnodeoff pcells l))
          end
      else Some (K_ENOENT, None)
  end.

Definition fdt_parse_phandle_with_args (nodeoff : Z) (prop cells_prop : list Z) (index : Z)
    : option (Z * option fdt_phandle_args) :=
  if nodeoff <? 0 then Some (K_EINVAL, None)
  else
    r ← fdt_getprop b nodeoff prop;
    match r with
    | (None, _) => Some (K_ENOENT, None)
    | (Some lst, len) => phandle_loop (blob_fuel b) cells_prop lst (lst + 4 * (len / 4)) index
    end.

(** [for (i = 0; i < n; i++) acc = (acc << 32) | fdt32_to_cpu( *p++ );] *)
Fixpoint rd_cells (n : nat) (p acc : Z) : option Z :=
  match n with
  | O => Some acc
  | S n => x ← fdt32_ld m p; rd_cells n (p + 4) (Z.lor (u64 (Z.shiftl acc 32)) x)
  end.

(** Return code and, when it is 0, [*addr]. *)
Definition fdt_translate_address (reg parent : Z) : option (Z * option Z) :=
  cell_addr ← fdt_address_cells b parent;
  if cell_addr <? 1 then Some (K_ENODEV, None)
  else
    cell_size ← fdt_size_cells b parent;
    if cell_size <? 0 then Some (K_ENODEV, None)
    else
      r ← fdt_getprop b parent (byte_list "ranges");
      match r with
      | (Some ranges, rlen) =>
          if 0 <? rlen then
            caddr ← rd_cells (Z.to_nat cell_addr) ranges 0;
            paddr ← rd_cells (Z.to_nat cell_addr) (ranges + 4 * cell_addr) 0;
            rsize ← rd_cells (Z.to_nat cell_size) (ranges + 8 * cell_addr) 0;
            if (reg <? caddr) || (u64 (reg + rsize) <=? caddr) then Some (K_ENODEV, None)
            else Some (0, Some (u64 (paddr + u64 (reg - caddr))))
          else Some (0, Some reg)
      | (None, _) => Some (0, Some reg)
      end.

(** The loop towards the root: [addr] is what [*addr] holds. *)
Fixpoint translate_loop (fuel : nat) (temp parent addr : Z) : option Z :=
  match fuel with
  | O => None
  | S fuel =>
      if parent <? 0 then Some addr
      else
        r ← fdt_translate_address temp parent;
        match r with
        | (_, Some addr') =>
            parent ← fdt_parent_offset b parent;
            translate_loop fuel addr' parent addr'
        | (_, None) => Some addr
        end
  end.

(** Return code, [*addr] (which held [addr0]) and [*size] (which held [size0]);
    [addr] is given, [size] if [want]. *)
Definition node_addr_size (want : bool) (node index addr0 size0 : Z) : option (Z * Z * Z) :=
  if (node <? 0) || (index <? 0) then Some (K_EINVAL, addr0, size0)
  else
    parent ← fdt_parent_offset b node;
    if parent <? 0 then Some (parent, addr0, size0)
    else
      cell_addr ← fdt_address_cells b parent;
      if cell_addr <? 1 then Some (K_ENODEV, addr0, size0)
      else
        cell_size ← fdt_size_cells b parent;
        if cell_size <? 0 then Some (K_ENODEV, addr0, size0)
        else
          r ← fdt_getprop b node (byte_list "reg");
          match r with
          | (None, _) => Some (K_ENODEV, addr0, size0)
          | (Some prop, len) =>
              let first := s32 (index * (cell_addr + cell_size)) in
              if u64 (len / 4) <=? u64 first then Some (K_EINVAL, addr0, size0)
              else
                let prop_addr := prop + 4 * first in
                let prop_size := prop_addr + 4 * cell_addr in
                temp ← rd_cells (Z.to_nat cell_addr) prop_addr 0;
                addr ← translate_loop (blob_fuel b) temp parent addr0;
                size ← (if want then rd_cells (Z.to_nat cell_size) prop_size 0 else Some size0);
                Some (0, addr, size)
          end.
(** Both pointers given; [size == NULL]. *)
Definition fdt_get_node_addr_size : Z -> Z -> Z -> Z -> option (Z * Z * Z) := node_addr_size true.
Definition fdt_get_node_addr (node index addr0 : Z) : option (Z * Z) :=
  r ← node_addr_size false node index addr0 0; Some (fst r).

Fixpoint reg_names_loop (fuel : nat) (node : Z) (name : list Z) (val count i j addr0 size0 : Z) : option (Z * Z * Z) :=
  match fuel with
  | O => None
  | S fuel =>
      if i <? count then
        e ← strcmp_eq name m (val + i);
        if (e : bool) then fdt_get_node_addr_size node j addr0 size0
        else
          l ← strlen m (val + i);
          reg_names_loop fuel node name val count (i + l + 1) (j + 1) addr0 size0
      else Some (K_ENODEV, addr0, size0)
  end.

Definition fdt_get_node_addr_size_by_name (node : Z) (name : list Z) (addr0 size0 : Z) : option (Z * Z * Z) :=
  if node <? 0 then Some (K_EINVAL, addr0, size0)
  else
    r ← fdt_getprop b node (byte_list "reg-names");
    match r with
    | (None, _) => Some (K_ENODEV, addr0, size0)
    | (Some val, count) => reg_names_loop (blob_fuel b) node name val count 0 0 addr0 size0
    end.

Definition fdt_node_is_enabled (nodeoff : Z) : option bool :=
  r ← fdt_getprop b nodeoff (byte_list "status");
  match fst r with
  | None => Some true
  | Some prop =>
      e ← strncmp_eq (byte_list "okay") m prop;
      if (e : bool) then Some true
      else
        e ← strncmp_eq (byte_list "ok") m prop;
        if (e : bool) then Some true else Some false
  end.
End Helper.

(** ** Parents lie before their children *)
Section Parents.
  Context (b : region) (Hok : blob_ok b).
  Local Abbreviation m := (r_bytes b).
  Local Abbreviation tot := (hv b 4).

(** The depth found for a node does not depend on the ancestor asked for. *)
Lemma supernode_depth nodeoffset sd1 sd2 fuel : forall offset depth so1 so2,
  snd <$> supernode_loop b fuel nodeoffset sd1 offset depth so1 =
  snd <$> supernode_loop b fuel nodeoffset sd2 offset depth so2.
Proof.
  induction fuel as [|fuel IH]; intros offset depth so1 so2; [done|]. cbn [supernode_loop].
  destruct (_ && _); [|done]. destruct (offset =? nodeoffset); [done|].
  destruct (fdt_next_node b offset (Some depth)) as [[off d]|]; [|done]. apply IH.
Qed.

Lemma supernode_before nodeoffset sd fuel : forall offset depth so r dep,
  is_sw 32 offset -> - FDT_ERR_INTERNAL <= so < nodeoffset -> dep <> sd ->
  supernode_loop b fuel nodeoffset sd offset depth so = Some (r, Some dep) -> - FDT_ERR_INTERNAL <= r < nodeoffset.
Proof.
  induction fuel as [|fuel IH]; intros offset depth so r dep Ho Hso Hne E; [done|]. cbn [supernode_loop] in E.
  destruct (Z.leb_spec 0 offset) as [H0|H0]; [|done].
  destruct (Z.leb_spec offset nodeoffset) as [H1|H1]; [|done]. cbn [andb] in E.
  destruct (Z.eqb_spec offset nodeoffset) as [->|Hn].
  - injection E as <- <-. destruct (Z.eqb_spec depth sd); [done|]. destruct (depth <? sd); [unfold FDT_ERR_NOTFOUND, FDT_ERR_INTERNAL in *; lia|done].
  - destruct (next_node_ok b Hok offset (Some depth) Ho) as (r' & d' & En & Hr' & _ & _). rewrite En in E.
    cbn [mbind option_bind] in E. eapply IH; [exact Hr'| |exact Hne|exact E].
    destruct (Z.eqb_spec depth sd); unfold FDT_ERR_INTERNAL in *; lia.
Qed.

Lemma supernode_sw nodeoffset sd fuel : forall offset depth so r d,
  is_sw 32 offset -> offset <= tot + 3 -> is_sw 32 so -> so <= tot + 3 ->
  supernode_loop b fuel nodeoffset sd offset depth so = Some (r, d) -> is_sw 32 r /\ r <= tot + 3.
Proof.
  pose proof (field_range b Hok 4 ltac:(lia)) as Htot.
  assert (C : forall e, -32 <= e < 0 -> is_sw 32 e /\ e <= tot + 3) by (intros e He; split; [split; cbn; lia|lia]).
  induction fuel as [|fuel IH]; intros offset depth so r d Ho Ho3 Hso Hs3 E; [done|]. cbn [supernode_loop] in E.
  destruct (_ && _).
  - destruct (offset =? nodeoffset).
    + injection E as <- _. destruct (depth <? sd); [by apply C|]. by destruct (depth =? sd).
    + destruct (next_node_ok b Hok offset (Some depth) Ho) as (r' & d' & En & Hr' & _ & Hb). rewrite En in E.
      eapply IH; [exact Hr'|lia| | |exact E]; by destruct (depth =? sd).
  - injection E as <- _. destruct (_ || _); [by apply C|]. destruct (_ =? _); [by apply C|done].
Qed.

Lemma supernode_shallow nodeoffset sd fuel : forall offset depth so r dep,
  supernode_loop b fuel nodeoffset sd offset depth so = Some (r, Some dep) -> dep < sd -> r = - FDT_ERR_NOTFOUND.
Proof.
  induction fuel as [|fuel IH]; intros offset depth so r dep E Hd; [done|]. cbn [supernode_loop] in E.
  destruct (_ && _); [|done]. destruct (offset =? nodeoffset).
  - injection E as <- <-. destruct (Z.ltb_spec depth sd); [done|lia].
  - destruct (fdt_next_node b offset (Some depth)) as [[off d]|]; [|done]. by eapply IH.
Qed.

(** The parent of a node is an error code or an offset before the node. *)
Lemma parent_before node : exists r, fdt_parent_offset b node = Some r /\ is_sw 32 r /\ r <= tot + 3 /\ (0 <= r -> r < node).
Proof.
  destruct (parent_ok b Hok node) as [r E]. exists r. split; [exact E|].
  pose proof (field_range b Hok 4 ltac:(lia)) as Htot.
  assert (C : forall e, -32 <= e < 0 -> is_sw 32 e /\ e <= tot + 3 /\ (0 <= e -> e < node)) by (intros e He; split; [split; cbn; lia|lia]).
  unfold fdt_parent_offset, fdt_node_depth, fdt_supernode_atdepth_offset in E.
  destruct (probe_ok b Hok) as (e & Ep & He & _). rewrite Ep in E. cbn [mbind option_bind] in E.
  destruct (Z.ltb_spec e 0) as [Hneg|Hpos].
  { cbn [mbind option_bind] in E. destruct (Z.eqb_spec e 0); [lia|]. cbn [negb] in E.
    destruct (Z.ltb_spec e 0); [|lia]. cbn [mbind option_bind] in E. destruct (Z.ltb_spec e 0); [|lia].
    injection E as <-. split; [done|lia]. }
  cbn [Z.ltb Z.compare] in E.
  destruct (supernode_loop b (blob_fuel b) node 0 0 0 (- FDT_ERR_INTERNAL)) as [[r0 d0]|] eqn:E0; [|done].
  destruct (supernode_sw node 0 _ 0 0 (- FDT_ERR_INTERNAL) r0 d0 ltac:(done) ltac:(lia) ltac:(done) ltac:(unfold FDT_ERR_INTERNAL; lia) E0) as [Hr0 Hr3].
  cbn [mbind option_bind] in E. destruct (Z.eqb_spec r0 0) as [->|Hn]; cbn [negb] in E.
  2:{ destruct (Z.ltb_spec r0 0); cbn [mbind option_bind] in E.
      - destruct (Z.ltb_spec r0 0); [|lia]. injection E as <-. split; [done|lia].
      - injection E as <-. by apply C. }
  destruct d0 as [dep|]; [|done]. cbn [mbind option_bind] in E.
  destruct (Z.ltb_spec dep 0) as [Hd|Hd].
  { pose proof (supernode_shallow node 0 _ _ _ _ _ _ E0 Hd). done. }
  destruct (Z.ltb_spec (dep - 1) 0). { injection E as <-. by apply C. }
  pose proof (supernode_depth node 0 (dep - 1) (blob_fuel b) 0 0 (- FDT_ERR_INTERNAL) (- FDT_ERR_INTERNAL)) as Es.
  rewrite E0 in Es. destruct (supernode_loop b (blob_fuel b) node (dep - 1) 0 0 (- FDT_ERR_INTERNAL)) as [[r1 d1]|] eqn:E1; [|done].
  cbn in Es, E. injection Es as <-. injection E as ->.
  destruct (supernode_sw node (dep - 1) _ 0 0 (- FDT_ERR_INTERNAL) r (Some dep) ltac:(done) ltac:(lia) ltac:(done) ltac:(unfold FDT_ERR_INTERNAL; lia) E1).
  split_and!; [done|done|].
  - intros Hr. destruct (Z.ltb_spec (- FDT_ERR_INTERNAL) node) as [Hn|Hn].
    + apply (supernode_before node (dep - 1) _ 0 0 (- FDT_ERR_INTERNAL) r dep) in E1; [lia|done|lia|lia].
    + exfalso. clear -E1 Hn Hok. unfold blob_fuel in E1. cbn [supernode_loop] in E1. change (0 <=? 0) with true in E1.
      unfold FDT_ERR_INTERNAL in *. destruct (Z.leb_spec 0 node); [lia|]. done.
Qed.

(** ** Reading stays near the blob *)
Lemma lor_cell acc x : 0 <= x < 2 ^ 32 -> Z.lor (u64 (Z.shiftl acc 32)) x = u64 (acc * 2 ^ 32 + x).
Proof.
  intros Hx. unfold uw. rewrite Z.shiftl_mul_pow2 by lia.
  assert ((acc * 2 ^ 32) mod 2 ^ 64 = acc mod 2 ^ 32 * 2 ^ 32) as E.
  { change (2 ^ 64) with (2 ^ 32 * 2 ^ 32). rewrite Z.mul_mod_distr_r by lia. done. }
  rewrite Z.add_mod, E, (Z.mod_small x) by lia. pose proof (Z.mod_pos_bound acc (2 ^ 32) ltac:(lia)).
  assert (0 <= acc mod 2 ^ 32 * 2 ^ 32 + x < 2 ^ 64) by (change (2 ^ 32) with 4294967296 in *; lia).
  rewrite (Z.mod_small (acc mod 2 ^ 32 * 2 ^ 32 + x)) by done. rewrite <- Z.lxor_lor, <- Z.add_nocarry_lxor; [done| |];
    (apply Z.bits_inj'; intros i Hi; rewrite Z.land_spec, Z.bits_0;
     destruct (Z.ltb_spec i 32); [rewrite Z.mul_pow2_bits_low by lia; done|
       rewrite (testbit_high x 32 i) by lia; apply andb_false_r]).
Qed.

(** [n] cells are read as one big-endian number, of which 64 bits are kept. *)
Lemma rd_cells_val n : forall p acc, 0 <= p -> p + 4 * Z.of_nat n <= zlen m -> 0 <= acc < 2 ^ 64 ->
  rd_cells b n p acc =
    Some (u64 (acc * 2 ^ (32 * Z.of_nat n) + be (take (4 * n) (drop (Z.to_nat p) m)))).
Proof.
  induction n as [|n IH]; intros p acc Hp Hb Ha; cbn [rd_cells].
  { change (be _) with 0. rewrite Z.mul_1_r, Z.add_0_r, uw_small by done. done. }
  destruct (ld_ok b Hok p) as [-> Hx]; [lia|lia|]. cbn [mbind option_bind]. rewrite lor_cell by done.
  rewrite IH; [|lia|lia|apply Z.mod_pos_bound; lia]. f_equal.
  replace (4 * S n)%nat with (4 + 4 * n)%nat by lia. rewrite <- take_take_drop, be_app, drop_drop.
  replace (Z.to_nat p + 4)%nat with (Z.to_nat (p + 4)) by lia. change (be (take 4 _)) with (hv b p).
  assert (zlen (take (4 * n) (drop (Z.to_nat (p + 4)) m)) = 4 * Z.of_nat n) as ->.
  { unfold zlen in *. rewrite length_take, length_drop. lia. }
  change 256 with (2 ^ 8). rewrite <- Z.pow_mul_r by lia. replace (8 * (4 * Z.of_nat n)) with (32 * Z.of_nat n) by lia.
  unfold uw. rewrite <- Z.add_mod_idemp_l, Z.mul_mod_idemp_l, Z.add_mod_idemp_l by lia. f_equal.
  replace (32 * Z.of_nat (S n)) with (32 + 32 * Z.of_nat n) by lia. rewrite Z.pow_add_r by lia. lia.
Qed.

Lemma rd_cells_ok n p : 0 <= p -> p + 4 * Z.of_nat n <= zlen m -> is_Some (rd_cells b n p 0).
Proof. intros. rewrite rd_cells_val by lia. by eexists. Qed.

Lemma cells_range node name : is_sw 32 node -> exists v, fdt_cells b node name = Some v /\ v <= 4.
Proof.
  intros Ho. unfold fdt_cells, fdt_getprop. destruct (getprop_ok b Hok node name Ho) as (p & len & -> & Hp).
  cbn [mbind option_bind]. destruct p as [d|]; [|eexists; split; [done|lia]].
  destruct (Z.eqb_spec len 4); cbn [negb]; [|by eexists].
  pose proof (bo_size _ Hok). destruct (ld_ok b Hok d) as [-> _]; [lia|lia|]. cbn [mbind option_bind].
  destruct (Z.ltb_spec FDT_MAX_NCELLS (hv b d)) as [|Hle]; [by eexists|]. eexists. split; [done|]. exact Hle.
Qed.

Lemma address_cells_ok node : is_sw 32 node -> exists v, fdt_address_cells b node = Some v /\ v <= 4.
Proof.
  intros Ho. unfold fdt_address_cells. destruct (cells_range node (byte_list "#address-cells") Ho) as (v & -> & Hv).
  cbn [mbind option_bind]. eexists. split; [done|]. destruct (v =? 0); [done|]. by destruct (v =? _).
Qed.

Lemma size_cells_ok node : is_sw 32 node -> exists v, fdt_size_cells b node = Some v /\ v <= 4.
Proof.
  intros Ho. unfold fdt_size_cells. destruct (cells_range node (byte_list "#size-cells") Ho) as (v & -> & Hv).
  cbn [mbind option_bind]. eexists. split; [done|]. by destruct (v =? _).
Qed.

Lemma translate_address_ok reg parent : tot + 48 <= zlen m -> is_sw 32 parent ->
  exists rc a, fdt_translate_address b reg parent = Some (rc, a).
Proof.
  intros Hs Ho. unfold fdt_translate_address. destruct (address_cells_ok parent Ho) as (ca & -> & Hca).
  cbn [mbind option_bind]. destruct (Z.ltb_spec ca 1); [by do 2 eexists|].
  destruct (size_cells_ok parent Ho) as (cs & -> & Hcs). cbn [mbind option_bind]. destruct (Z.ltb_spec cs 0); [by do 2 eexists|].
  unfold fdt_getprop. destruct (getprop_ok b Hok parent (byte_list "ranges") Ho) as (p & len & -> & Hp).
  cbn [mbind option_bind]. destruct p as [d|]; [|by do 2 eexists]. destruct (0 <? len); [|by do 2 eexists].
  destruct (rd_cells_ok (Z.to_nat ca) d) as [x ->]; [lia|lia|].
  destruct (rd_cells_ok (Z.to_nat ca) (d + 4 * ca)) as [y ->]; [lia|lia|].
  destruct (rd_cells_ok (Z.to_nat cs) (d + 8 * ca)) as [z ->]; [lia|lia|]. cbn [mbind option_bind].
  destruct (_ || _); by do 2 eexists.
Qed.

Lemma translate_loop_ok fuel : forall temp parent addr, tot + 48 <= zlen m -> is_sw 32 parent ->
  Z.max 0 (parent + 1) < Z.of_nat fuel -> is_Some (translate_loop b fuel temp parent addr).
Proof.
  induction fuel as [|fuel IH]; intros temp parent addr Hs Ho Hf; [lia|]. cbn [translate_loop].
  destruct (Z.ltb_spec parent 0); [by eexists|].
  destruct (translate_address_ok temp parent Hs Ho) as (rc & a & ->). cbn [mbind option_bind].
  destruct a as [a|]; [|by eexists]. destruct (parent_before parent) as (r & -> & Hr & _ & Hlt). cbn [mbind option_bind].
  apply IH; [done|done|]. lia.
Qed.

Lemma node_addr_size_ok want node index addr0 size0 : tot + 48 <= zlen m -> is_sw 32 node ->
  is_Some (node_addr_size b want node index addr0 size0).
Proof.
  intros Hs Ho. unfold node_addr_size. destruct (_ || _); [by eexists|].
  destruct (parent_before node) as (parent & -> & Hp & Hp3 & _). cbn [mbind option_bind].
  destruct (Z.ltb_spec parent 0); [by eexists|].
  destruct (address_cells_ok parent Hp) as (ca & -> & Hca). cbn [mbind option_bind]. destruct (Z.ltb_spec ca 1); [by eexists|].
  destruct (size_cells_ok parent Hp) as (cs & -> & Hcs). cbn [mbind option_bind]. destruct (Z.ltb_spec cs 0); [by eexists|].
  unfold fdt_getprop. destruct (getprop_ok b Hok node (byte_list "reg") Ho) as (p & len & -> & Hd).
  cbn [mbind option_bind]. destruct p as [d|]; [|by eexists].
  set (first := s32 (index * (ca + cs))).
  assert (0 <= len / 4 < 2 ^ 64 /\ 4 * (len / 4) <= len) as [Hl Hl4].
  { split; [split; [apply Z.div_pos; lia|apply Z.div_lt_upper_bound; unfold INT_MAX in *; lia]|].
    pose proof (Z.mul_div_le len 4 ltac:(lia)). lia. }
  destruct (Z.leb_spec (u64 (len / 4)) (u64 first)) as [Hle|Hlt]; [by eexists|].
  rewrite (uw_small 64 (len / 4)) in Hlt by done.
  assert (0 <= first < len / 4) as Hf.
  { assert (is_sw 32 first) as Hsw by (apply sw_range; lia). unfold is_sw in Hsw. change (2 ^ (32 - 1)) with 2147483648 in Hsw.
    unfold INT_MAX in *. destruct (Z.leb_spec 0 first).
    - rewrite (uw_small 64 first) in Hlt by (unfold is_uw; lia). lia.
    - exfalso. unfold uw in Hlt. rewrite <- (Z.mod_add _ 1), Z.mod_small in Hlt by lia. lia. }
  destruct (rd_cells_ok (Z.to_nat ca) (d + 4 * first)) as [x ->]; [lia|lia|]. cbn [mbind option_bind].
  destruct (translate_loop_ok (blob_fuel b) x parent addr0) as [y ->]; [done|done|unfold blob_fuel, zlen in *; lia|].
  cbn [mbind option_bind].
  destruct want; [|by eexists].
  destruct (rd_cells_ok (Z.to_nat cs) (d + 4 * first + 4 * ca)) as [z ->]; [lia|lia|]. by eexists.
Qed.
End Parents.

(** [fdt_get_node_addr_size] returns on an arbitrary blob: the walk towards
    the root ends, because a parent lies before its child, and no read goes
    further than 48 bytes behind the blob. *)
Theorem node_addr_size_total b node index addr0 size0 :
  blob_ok b -> hv b 4 + 48 <= zlen (r_bytes b) -> is_sw 32 node ->
  is_Some (fdt_get_node_addr_size b node index addr0 size0).
Proof. intros Hok Hs Ho. by apply node_addr_size_ok. Qed.

(** A tree with a memory node below the root and a device below a bus whose
    [ranges] covers 0x100 bytes only. *)
Definition cells (l : list Z) : list Z := l ≫= to_be 4.
Definition soc_blob : region := Region 0x1000 (mk_fdt
  (tk_begin [] ++ tk_prop 0 (cells [1]) ++ tk_prop 15 (cells [1]) ++
   tk_begin (byte_list "memory") ++ tk_prop 27 (cells [0x80000000; 0x8000000]) ++ tk_end_node ++
   tk_begin (byte_list "soc") ++ tk_prop 0 (cells [1]) ++ tk_prop 15 (cells [1]) ++
     tk_prop 31 (cells [0; 0x1000; 0x100]) ++
     tk_begin (byte_list "dev") ++ tk_prop 27 (cells [0x5000; 0x10]) ++ tk_end_node ++
   tk_end_node ++
   tk_end_node ++ tk_end)
  (byte_list "#address-cells" ++ [0] ++ byte_list "#size-cells" ++ [0] ++ byte_list "reg" ++ [0] ++
   byte_list "ranges" ++ [0]) ++ replicate 48 0).

Lemma soc_blob_ok : blob_ok soc_blob.
Proof. concrete_blob_ok. Qed.

Lemma node_addr_size_total_witness : is_Some (fdt_get_node_addr_size soc_blob 140 0 0 0).
Proof.
  apply (node_addr_size_total soc_blob 140 0 0 0 soc_blob_ok).
  - vm_compute. discriminate.
  - split; vm_compute; congruence.
Defined.

(** The same tree with a bus range that starts behind the device. *)
Definition off_bus_blob : region := Region 0x1000 (mk_fdt
  (tk_begin [] ++ tk_prop 0 (cells [1]) ++ tk_prop 15 (cells [1]) ++
   tk_begin (byte_list "soc") ++ tk_prop 0 (cells [1]) ++ tk_prop 15 (cells [1]) ++
     tk_prop 31 (cells [0x9000; 0x1000; 0x100]) ++
     tk_begin (byte_list "dev") ++ tk_prop 27 (cells [0x5000; 0x10]) ++ tk_end_node ++
   tk_end_node ++
   tk_end_node ++ tk_end)
  (byte_list "#address-cells" ++ [0] ++ byte_list "#size-cells" ++ [0] ++ byte_list "reg" ++ [0] ++
   byte_list "ranges" ++ [0])).

(** Two ways in which an address outside the bus is not noticed. The check
    against the end of a range has its operands exchanged, so a device at
    0x5000 of a bus that maps 0x100 bytes is translated; and when the
    translation does fail, [fdt_get_node_addr_size] still returns 0, with
    [*addr] what the caller's variable held before. *)
Theorem bus_translation_unchecked :
  fdt_path_offset soc_blob 1 (byte_list "/soc/dev") = Some 140 /\
  fdt_translate_address soc_blob 0x5000 76 = Some (0, Some 0x6000) /\
  fdt_get_node_addr_size soc_blob 140 0 0 0 = Some (0, 0x6000, 0x10) /\
  (exists node, fdt_path_offset off_bus_blob 1 (byte_list "/soc/dev") = Some node /\
     fdt_translate_address off_bus_blob 0x5000 40 = Some (K_ENODEV, None) /\
     forall addr0, fdt_get_node_addr_size off_bus_blob node 0 addr0 0 = Some (0, addr0, 0x10)).
Proof.
  split_and!; [vm_compute; reflexivity..|]. exists 104. split_and!; [vm_compute; reflexivity..|].
  intros addr0. vm_compute. reflexivity.
Qed.
