(* ===== verification/FdtCheck.v ===== *)
(** Checking and patching a device tree in place: libfdt's fdt_check.c,
    fdt_strerror.c and fdt_wip.c (src/deps/libfdt). *)
From S2P Require Import Prelude Bytes Fdt FdtRo FdtSafe FdtRoSafe FdtProps FdtHelper.

(** ** fdt_check.c *)

Section Check.
  Context (b : region).
  Local Abbreviation m := (r_bytes b).

Fixpoint check_loop (fuel : nat) (nextoffset depth : Z) (expect_end : bool) : option Z :=
  match fuel with
  | O => None
  | S fuel =>
      let offset := nextoffset in
      t ← fdt_next_tag b offset;
      let '(tag, nextoffset) := t in
      if nextoffset <? 0 then Some nextoffset
      else if expect_end && negb (tag =? FDT_END) then Some (- FDT_ERR_BADSTRUCTURE)
      else if tag =? FDT_NOP then check_loop fuel nextoffset depth expect_end
      else if tag =? FDT_END then Some (if negb (depth =? 0) then - FDT_ERR_BADSTRUCTURE else 0)
      else if tag =? FDT_BEGIN_NODE then
        let depth := u32 (depth + 1) in
        if INT_MAX <? depth then Some (- FDT_ERR_BADSTRUCTURE)
        else if depth =? 1 then
          r ← fdt_get_name b offset;
          match r with
          | (None, len) => Some len
          | (Some name, len) =>
              c ← rd8 m name;
              if negb (c =? 0) || negb (len =? 0) then Some (- FDT_ERR_BADSTRUCTURE)
              else check_loop fuel nextoffset depth expect_end
          end
        else check_loop fuel nextoffset depth expect_end
      else if tag =? FDT_END_NODE then
        if depth =? 0 then Some (- FDT_ERR_BADSTRUCTURE)
        else
          let depth := u32 (depth - 1) in
          check_loop fuel nextoffset depth (if depth =? 0 then true else expect_end)
      else if tag =? FDT_PROP then
        r ← fdt_getprop_by_offset b offset true;
        match r with
        | (None, _, err) => Some err
        | (Some _, _, _) => check_loop fuel nextoffset depth expect_end
        end
      else Some (- FDT_ERR_INTERNAL)
  end.

Definition fdt_check_full (bufsize : Z) : option Z :=
  if bufsize <? FDT_V1_SIZE then Some (- FDT_ERR_TRUNCATED)
  else
    hs ← fdt_header_size b;
    if bufsize <? hs then Some (- FDT_ERR_TRUNCATED)
    else
      err ← fdt_check_header b;
      if negb (err =? 0) then Some err
      else
        totalsize ← fdt_totalsize b;
        if bufsize <? totalsize then Some (- FDT_ERR_TRUNCATED)
        else
          num_memrsv ← fdt_num_mem_rsv b;
          if num_memrsv <? 0 then Some num_memrsv
          else check_loop (blob_fuel b) 0 0 false.
End Check.

(** ** fdt_strerror.c *)

Definition fdt_errtable (i : Z) : option (option string) :=
  if (i <? 0) || (19 <? i) then None
  else Some (nth (Z.to_nat i)
    [None; Some "FDT_ERR_NOTFOUND"; Some "FDT_ERR_EXISTS"; Some "FDT_ERR_NOSPACE"; Some "FDT_ERR_BADOFFSET";
     Some "FDT_ERR_BADPATH"; Some "FDT_ERR_BADPHANDLE"; Some "FDT_ERR_BADSTATE"; Some "FDT_ERR_TRUNCATED";
     Some "FDT_ERR_BADMAGIC"; Some "FDT_ERR_BADVERSION"; Some "FDT_ERR_BADSTRUCTURE"; Some "FDT_ERR_BADLAYOUT";
     Some "FDT_ERR_INTERNAL"; Some "FDT_ERR_BADNCELLS"; Some "FDT_ERR_BADVALUE"; Some "FDT_ERR_BADOVERLAY";
     Some "FDT_ERR_NOPHANDLES"; Some "FDT_ERR_BADFLAGS"; Some "FDT_ERR_ALIGNMENT"]%string None).
Definition FDT_ERRTABSIZE : Z := 20.

Definition fdt_strerror (errval : Z) : option string :=
  if 0 <? errval then Some "<valid offset/length>"%string
  else if errval =? 0 then Some "<no error>"%string
  else if s32 (- errval) <? FDT_ERRTABSIZE then
    s ← fdt_errtable (s32 (- errval));
    Some (match s with Some s => s | None => "<unknown error>"%string end)
  else Some "<unknown error>"%string.

(** ** fdt_wip.c *)

Section Wip.
  Context (b : region).
  Local Abbreviation m := (r_bytes b).

(** The return code and the blob's bytes afterwards. [val] holds [len] bytes. *)
Definition fdt_setprop_inplace_namelen_partial (nodeoffset : Z) (name : list Z) (idx : Z) (val : list Z)
    : option (Z * list Z) :=
  let len := zlen val in
  r ← fdt_getprop_namelen b nodeoffset name;
  match r with
  | (None, proplen) => Some (proplen, m)
  | (Some propval, proplen) =>
      if u32 proplen <? u32 (len + idx) then Some (- FDT_ERR_NOSPACE, m)
      else m' ← wrn m (propval + idx) val; Some (0, m')
  end.

Definition fdt_setprop_inplace (nodeoffset : Z) (name val : list Z) : option (Z * list Z) :=
  r ← fdt_getprop b nodeoffset name;
  match r with
  | (None, proplen) => Some (proplen, m)
  | (Some _, proplen) =>
      if negb (proplen =? zlen val) then Some (- FDT_ERR_NOSPACE, m)
      else fdt_setprop_inplace_namelen_partial nodeoffset name 0 val
  end.

Definition fdt_setprop_inplace_u32 (nodeoffset : Z) (name : list Z) (val : Z) : option (Z * list Z) :=
  fdt_setprop_inplace nodeoffset name (to_be 4 val).
Definition fdt_setprop_inplace_u64 (nodeoffset : Z) (name : list Z) (val : Z) : option (Z * list Z) :=
  fdt_setprop_inplace nodeoffset name (to_be 8 val).

(** Whole words from [p] until [fin]. *)
Fixpoint nop_region_loop (n : nat) (l : list Z) (p fin : Z) : option (list Z) :=
  match n with
  | O => None
  | S n => if p <? fin then l ← wrn l p (to_be 4 FDT_NOP); nop_region_loop n l (p + 4) fin else Some l
  end.
Definition fdt_nop_region_ (start len : Z) : option (list Z) := nop_region_loop (S (Z.to_nat len)) m start (start + len).

Definition fdt_nop_property (nodeoffset : Z) (name : list Z) : option (Z * list Z) :=
  r ← fdt_get_property b nodeoffset name;
  match r with
  | (None, len) => Some (len, m)
  | (Some prop, len) => m' ← fdt_nop_region_ prop (len + 12); Some (0, m')
  end.

Fixpoint node_end_loop (fuel : nat) (offset depth : Z) : option Z :=
  match fuel with
  | O => None
  | S fuel =>
      if (0 <=? offset) && (0 <=? depth) then
        r ← fdt_next_node b offset (Some depth);
        node_end_loop fuel (fst r) (default depth (snd r))
      else Some offset
  end.
Definition fdt_node_end_offset_ (offset : Z) : option Z := node_end_loop (blob_fuel b) offset 0.

Definition fdt_nop_node (nodeoffset : Z) : option (Z * list Z) :=
  endoffset ← fdt_node_end_offset_ nodeoffset;
  if endoffset <? 0 then Some (endoffset, m)
  else
    start ← fdt_offset_ptr b nodeoffset 0;
    match start with
    | None => None
    | Some start => m' ← fdt_nop_region_ start (endoffset - nodeoffset); Some (0, m')
    end.
End Wip.

(** ** [fdt_check_full] on an arbitrary buffer *)

Section CheckSafe.
  Context (b : region).
  Local Abbreviation m := (r_bytes b).
  Local Abbreviation tot := (hv b 4).

Lemma check_loop_ok fuel : forall offset depth e, blob_ok b -> is_sw 32 offset -> fuel_at b offset fuel ->
  is_Some (check_loop b fuel offset depth e).
Proof.
  induction fuel as [|fuel IH]; intros offset depth e Hok Ho Hf; [destruct Hf; lia|]. cbn [check_loop].
  destruct (next_tag_ok b Hok offset Ho) as (tag & next & -> & Hn & Ht). cbn [mbind option_bind].
  destruct (next <? 0); [by eexists|]. destruct (_ && _); [by eexists|].
  destruct (Z.eqb_spec tag FDT_END) as [->|Hne]; [by eexists|]. destruct Ht as [|Hta]; [done|].
  assert (REC : forall d x, is_Some (check_loop b fuel next d x)) by (intros; apply IH; [done..|by eapply fuel_step]).
  destruct (tag =? FDT_NOP); [apply REC|]. destruct (tag =? FDT_BEGIN_NODE).
  { destruct (_ <? _); [by eexists|]. destruct (_ =? 1); [|apply REC].
    destruct (get_name_ok b Hok offset Ho) as (p & n & -> & Hp). cbn [mbind option_bind].
    destruct p as [p|]; [|by eexists]. destruct Hp as (s & Es & _).
    destruct (cstr_bounds _ _ _ Es) as (? & ?). destruct (proj2 (rd8_is_Some m p) ltac:(pose proof (zlen_nonneg s); lia)) as [c ->].
    cbn [mbind option_bind]. destruct (_ || _); [by eexists|apply REC]. }
  destruct (tag =? FDT_END_NODE). { destruct (depth =? 0); [by eexists|apply REC]. }
  destruct (tag =? FDT_PROP); [|by eexists].
  destruct (getprop_by_offset_ok b Hok offset Ho) as (p & n & l & -> & _).
  cbn [mbind option_bind]. destruct p; [apply REC|by eexists].
Qed.

(** What the header check establishes. *)
Lemma check_header_ok : Forall is_byte m -> 40 <= zlen m ->
  exists r, fdt_check_header b = Some r /\ (r = 0 -> 28 <= tot <= INT_MAX).
Proof.
  intros Hb H40. assert (F : forall p, 0 <= p <= 36 -> fdt32_ld m p = Some (hv b p)).
  { intros p Hp. unfold fdt32_ld, rd_be. rewrite rdn_Some by lia. done. }
  unfold fdt_check_header, fdt_header_size, fdt_magic, fdt_version, fdt_last_comp_version, fdt_totalsize,
    fdt_off_mem_rsvmap, fdt_off_dt_struct, fdt_size_dt_struct, fdt_off_dt_strings, fdt_size_dt_strings.
  rewrite !F by lia. cbn [mbind option_bind fmap option_fmap option_map].
  destruct (negb _); [by eexists|]. destruct (negb _); [by eexists|]. destruct (_ || _); [by eexists|].
  destruct (_ <? _); [by eexists|].
  destruct (Z.ltb_spec tot (fdt_header_size_ (hv b 20))) as [|Hhs]; cbn [orb]; [by eexists|].
  destruct (Z.ltb_spec INT_MAX tot) as [|Hi]; [by eexists|]. destruct (negb _); [by eexists|].
  assert (28 <= fdt_header_size_ (hv b 20)) by (unfold fdt_header_size_; repeat destruct (_ <=? _); by vm_compute).
  destruct (hv b 20 <? 17); cbn [mbind option_bind]; (destruct (negb _); [by eexists|]);
    (destruct (negb _); eexists; (split; [done|]); [done|lia]).
Qed.
End CheckSafe.

(** ** The grammar of a checked tree *)

Section Grammar.
  Context (b : region).

Definition token (o tag next : Z) : Prop := fdt_next_tag b o = Some (tag, next) /\ 0 <= next.

(** The property at [o] has a value and a name inside the blob. *)
Definition prop_ok (o : Z) : Prop :=
  exists d name len, fdt_getprop_by_offset b o true = Some (Some d, Some name, len).

(** What follows FDT_BEGIN_NODE up to and including the matching FDT_END_NODE. *)
Inductive body : Z -> Z -> Prop :=
  | body_end o o' : token o FDT_END_NODE o' -> body o o'
  | body_nop o o1 o' : token o FDT_NOP o1 -> body o1 o' -> body o o'
  | body_prop o o1 o' : token o FDT_PROP o1 -> prop_ok o -> body o1 o' -> body o o'
  | body_node o o1 o2 o' : token o FDT_BEGIN_NODE o1 -> body o1 o2 -> body o2 o' -> body o o'.

(** The structure block: at most one root, with an empty name, then FDT_END. *)
Inductive top : Z -> Prop :=
  | top_end o o' : token o FDT_END o' -> top o
  | top_nop o o1 : token o FDT_NOP o1 -> top o1 -> top o
  | top_prop o o1 : token o FDT_PROP o1 -> prop_ok o -> top o1 -> top o
  | top_root o o1 o2 o3 p : token o FDT_BEGIN_NODE o1 ->
      fdt_get_name b o = Some (Some p, 0) -> rd8 (r_bytes b) p = Some 0 ->
      body o1 o2 -> token o2 FDT_END o3 -> top o.

Context (Hok : blob_ok b).

(** One step of the loop that does not fail: the token, and what follows it. *)
Lemma check_step fuel o d e : is_sw 32 o -> 0 <= d <= INT_MAX -> check_loop b (S fuel) o d e = Some 0 ->
  exists tag next, token o tag next /\ is_sw 32 next /\ (e = true -> tag = FDT_END) /\
    ((tag = FDT_END /\ d = 0) \/
     (tag = FDT_NOP /\ check_loop b fuel next d e = Some 0) \/
     (tag = FDT_PROP /\ prop_ok o /\ check_loop b fuel next d e = Some 0) \/
     (tag = FDT_END_NODE /\ 1 <= d /\ check_loop b fuel next (d - 1) (if d - 1 =? 0 then true else e) = Some 0) \/
     (tag = FDT_BEGIN_NODE /\ d + 1 <= INT_MAX /\ check_loop b fuel next (d + 1) e = Some 0 /\
       (d = 0 -> exists p, fdt_get_name b o = Some (Some p, 0) /\ rd8 (r_bytes b) p = Some 0))).
Proof.
  intros Ho Hd E. cbn [check_loop] in E. unfold INT_MAX in *. change (2 ^ 31 - 1) with 2147483647 in *.
  destruct (next_tag_ok b Hok o Ho) as (tag & next & Et & Hn & _). rewrite Et in E. cbn [mbind option_bind] in E.
  destruct (Z.ltb_spec next 0); [injection E as ->; lia|].
  destruct (e && negb (tag =? FDT_END)) eqn:Ee; [done|].
  exists tag, next. split; [done|]. split; [done|]. split.
  { intros ->. cbn in Ee. apply negb_false_iff, Z.eqb_eq in Ee. done. }
  destruct (Z.eqb_spec tag FDT_NOP); [right; left; done|].
  destruct (Z.eqb_spec tag FDT_END).
  { left. destruct (Z.eqb_spec d 0); [done|]. done. }
  destruct (Z.eqb_spec tag FDT_BEGIN_NODE).
  { do 4 right. rewrite (uw_small 32 (d + 1)) in E by (unfold is_uw; change (2 ^ 32) with 4294967296; lia).
    destruct (Z.ltb_spec 2147483647 (d + 1)); [done|]. split; [done|]. split; [lia|].
    destruct (Z.eqb_spec (d + 1) 1); [|split; [done|lia]].
    destruct (fdt_get_name b o) as [[[p|] nl]|] eqn:En; [| |done]; cbn [mbind option_bind] in E.
    - destruct (rd8 (r_bytes b) p) as [c|] eqn:Ec; [|done]. cbn [mbind option_bind] in E.
      destruct (Z.eqb_spec c 0) as [->|]; [|done]. destruct (Z.eqb_spec nl 0) as [->|]; [|done]. cbn [negb orb] in E.
      split; [done|]. intros _. by exists p.
    - injection E as ->. apply get_name_none in En. lia. }
  destruct (Z.eqb_spec tag FDT_END_NODE).
  { do 3 right. left. destruct (Z.eqb_spec d 0); [done|].
    rewrite (uw_small 32 (d - 1)) in E by (unfold is_uw; change (2 ^ 32) with 4294967296; lia). split; [done|]. split; [lia|done]. }
  destruct (Z.eqb_spec tag FDT_PROP); [|done]. right. right. left.
  destruct (getprop_by_offset_ok b Hok o Ho) as (p & nm & l & Ep & Hp). rewrite Ep in E. cbn [mbind option_bind] in E.
  destruct p as [p|]; [|injection E as ->; lia]. destruct Hp as [x ->]. split; [done|]. split; [by do 3 eexists|done].
Qed.

(** Inside a node the loop consumes the node's body and goes on one level up. *)
Lemma check_body fuel : forall o d, is_sw 32 o -> 1 <= d <= INT_MAX -> check_loop b fuel o d false = Some 0 ->
  exists o' fuel', (fuel' < fuel)%nat /\ is_sw 32 o' /\ body o o' /\
    check_loop b fuel' o' (d - 1) (if d - 1 =? 0 then true else false) = Some 0.
Proof.
  induction fuel as [fuel IH] using lt_wf_ind. intros o d Ho Hd E. destruct fuel as [|fuel]; [done|].
  destruct (check_step fuel o d false Ho ltac:(lia) E) as (tag & next & Ht & Hn & _ & [H|[H|[H|[H|H]]]]).
  - lia.
  - destruct H as [-> E1]. destruct (IH fuel ltac:(lia) next d Hn Hd E1) as (o' & f' & Hf & Ho' & Hb & E2).
    exists o', f'. split_and!; [lia|done|by eapply body_nop|done].
  - destruct H as (-> & Hp & E1). destruct (IH fuel ltac:(lia) next d Hn Hd E1) as (o' & f' & Hf & Ho' & Hb & E2).
    exists o', f'. split_and!; [lia|done|by eapply body_prop|done].
  - destruct H as (-> & _ & E1). exists next, fuel. split_and!; [lia|done|by apply body_end|done].
  - destruct H as (-> & Hd1 & E1 & _).
    destruct (IH fuel ltac:(lia) next (d + 1) Hn ltac:(lia) E1) as (o2 & f2 & Hf2 & Ho2 & Hb2 & E2).
    replace (d + 1 - 1) with d in E2 by lia. destruct (Z.eqb_spec d 0); [lia|].
    destruct (IH f2 ltac:(lia) o2 d Ho2 Hd E2) as (o' & f' & Hf & Ho' & Hb & E3).
    exists o', f'. split_and!; [lia|done|by eapply body_node|done].
Qed.

Lemma check_top fuel : forall o, is_sw 32 o -> check_loop b fuel o 0 false = Some 0 -> top o.
Proof.
  induction fuel as [|fuel IH]; intros o Ho E; [done|].
  destruct (check_step fuel o 0 false Ho ltac:(done) E) as (tag & next & Ht & Hn & _ & [H|[H|[H|[H|H]]]]).
  - destruct H as [-> _]. by eapply top_end.
  - destruct H as [-> E1]. eapply top_nop; [done|]. by apply IH.
  - destruct H as (-> & Hp & E1). eapply top_prop; [done|done|]. by apply IH.
  - lia.
  - destruct H as (-> & _ & E1 & Hname). destruct (Hname eq_refl) as (p & Hp1 & Hp2).
    destruct (check_body fuel next 1 Hn ltac:(done) E1) as (o2 & f2 & _ & Ho2 & Hb & E2). destruct f2 as [|f2]; [done|].
    destruct (check_step f2 o2 0 true Ho2 ltac:(done) E2) as (tag & o3 & Ht3 & _ & He & _). rewrite (He eq_refl) in Ht3.
    by eapply top_root.
Qed.
End Grammar.

(** [fdt_check_full] is a validator for untrusted buffers. On a buffer with
    any content it returns without reading outside it, and when it returns 0
    the buffer is a device tree every read function of libfdt is safe on: the
    header is consistent, the blob lies within [bufsize], and its structure
    block is properly nested, with one root of empty name at most, and only
    properties whose name and value lie inside the blob. *)
Theorem fdt_check_full_sound b bufsize :
  Forall is_byte (r_bytes b) -> 40 <= zlen (r_bytes b) < INT_MAX -> bufsize <= zlen (r_bytes b) ->
  exists r, fdt_check_full b bufsize = Some r /\
    (r = 0 -> fdt_check_header b = Some 0 /\ blob_ok b /\ hv b 4 <= bufsize /\ top b 0).
Proof.
  intros Hb Hz Hs. unfold fdt_check_full. destruct (bufsize <? FDT_V1_SIZE); [by eexists|].
  assert (F : forall p, 0 <= p <= 36 -> fdt32_ld (r_bytes b) p = Some (hv b p)).
  { intros p Hp. unfold fdt32_ld, rd_be. rewrite rdn_Some by lia. done. }
  unfold fdt_header_size, fdt_version, fdt_totalsize. rewrite !F by lia. cbn [mbind option_bind fmap option_fmap option_map].
  destruct (_ <? fdt_header_size_ _); [by eexists|].
  destruct (check_header_ok b Hb ltac:(lia)) as (e & Eh & He). rewrite Eh. cbn [mbind option_bind].
  destruct (Z.eqb_spec e 0) as [->|]; cbn [negb]; [|eexists; split; [done|lia]]. specialize (He eq_refl).
  destruct (Z.ltb_spec bufsize (hv b 4)); [by eexists|].
  assert (Hok : blob_ok b) by (split; [done|lia|lia|lia]).
  destruct (num_mem_rsv_ok b Hok ltac:(lia)) as [n ->]. cbn [mbind option_bind].
  destruct (Z.ltb_spec n 0); [eexists; split; [done|lia]|].
  destruct (check_loop_ok b (blob_fuel b) 0 0 false Hok ltac:(done) (fuel_start b Hok 0 ltac:(lia))) as [r Er].
  exists r. split; [done|]. intros ->. split_and!; [done|done|lia|]. by eapply check_top.
Qed.

Lemma fdt_check_full_witness : fdt_check_full soc_blob (zlen (r_bytes soc_blob)) = Some 0 /\ top soc_blob 0.
Proof.
  assert (E : fdt_check_full soc_blob (zlen (r_bytes soc_blob)) = Some 0) by (vm_compute; reflexivity).
  split; [exact E|].
  destruct (fdt_check_full_sound soc_blob (zlen (r_bytes soc_blob))) as (r & Er & H).
  - exact (bo_bytes _ soc_blob_ok).
  - vm_compute. split; [discriminate|reflexivity].
  - lia.
  - rewrite E in Er. injection Er as <-. apply (H eq_refl).
Defined.

(** ** Changing a value in place *)

Lemma wrn_Some m p l : 0 <= p -> p + zlen l <= zlen m ->
  wrn m p l = Some (take (Z.to_nat p) m ++ l ++ drop (Z.to_nat (p + zlen l)) m).
Proof.
  intros Hp Hl. unfold wrn. pose proof (zlen_nonneg l).
  destruct (Z.leb_spec 0 p); [|lia]. destruct (Z.leb_spec (p + zlen l) (zlen m)); [|lia]. cbn [andb].
  replace (Z.to_nat (p + zlen l)) with (Z.to_nat p + length l)%nat by (unfold zlen; lia). done.
Qed.

(** [fdt_setprop_inplace] changes exactly the value. On an arbitrary blob it
    returns; when the property is found and its length is that of the new
    value it returns 0 and the blob differs in the bytes of the value only,
    which are the new ones; otherwise it returns the error of the lookup, or
    -FDT_ERR_NOSPACE, and the blob is untouched. *)
Theorem fdt_setprop_inplace_correct b offset name val : blob_ok b -> is_sw 32 offset ->
  exists p len, fdt_getprop b offset name = Some (p, len) /\
    fdt_setprop_inplace b offset name val =
      match p with
      | Some d =>
          if len =? zlen val
          then Some (0, take (Z.to_nat d) (r_bytes b) ++ val ++ drop (Z.to_nat (d + len)) (r_bytes b))
          else Some (- FDT_ERR_NOSPACE, r_bytes b)
      | None => Some (len, r_bytes b)
      end.
Proof.
  intros Hok Ho. unfold fdt_setprop_inplace, fdt_setprop_inplace_namelen_partial, fdt_getprop.
  destruct (getprop_ok b Hok offset name Ho) as (p & len & E & Hp). exists p, len. rewrite E. cbn [mbind option_bind].
  split; [done|]. destruct p as [d|]; [|done]. destruct (Z.eqb_spec len (zlen val)) as [->|]; [|done]. cbn [negb mbind option_bind].
  unfold INT_MAX in Hp. rewrite Z.add_0_r, !(uw_small 32) by (unfold is_uw; lia).
  destruct (Z.ltb_spec (zlen val) (zlen val)); [lia|]. pose proof (bo_size _ Hok).
  rewrite Z.add_0_r, wrn_Some by lia. done.
Qed.

Lemma fdt_setprop_inplace_witness : exists m', fdt_setprop_inplace soc_blob 40 (byte_list "reg") (cells [1; 2]) = Some (0, m') /\
  rdn m' 120 8 = Some (cells [1; 2]).
Proof.
  destruct (fdt_setprop_inplace_correct soc_blob 40 (byte_list "reg") (cells [1; 2]) soc_blob_ok) as (p & len & E & Es).
  - split; vm_compute; congruence.
  - assert (E' : fdt_getprop soc_blob 40 (byte_list "reg") = Some (Some 120, 8)) by (vm_compute; reflexivity).
    rewrite E' in E. injection E as <- <-. eexists. split; [exact Es|]. vm_compute. reflexivity.
Defined.

(** [fdt_strerror] names every error libfdt returns. *)
Lemma fdt_strerror_ok errval : - INT_MAX <= errval <= INT_MAX -> is_Some (fdt_strerror errval).
Proof.
  intros He. unfold INT_MAX in He. change (2 ^ 31 - 1) with 2147483647 in He. unfold fdt_strerror.
  destruct (Z.ltb_spec 0 errval); [by eexists|]. destruct (Z.eqb_spec errval 0); [by eexists|].
  rewrite sw_small by (unfold is_sw; change (2 ^ (32 - 1)) with 2147483648; lia).
  destruct (Z.ltb_spec (- errval) FDT_ERRTABSIZE) as [Hlt|]; [|by eexists]. unfold FDT_ERRTABSIZE in Hlt. unfold fdt_errtable.
  destruct (Z.ltb_spec (- errval) 0); [lia|]. destruct (Z.ltb_spec 19 (- errval)); [lia|]. by eexists.
Qed.

(** Three checks of fdt_wip.c and fdt_strerror.c that do not hold. The
    space check of [fdt_setprop_inplace_namelen_partial] adds length and index
    in 32 bits, so an index near 2^32 passes and the value is written four
    gigabytes behind the property; [fdt_nop_property] overwrites whole words
    and leaves a blob that ends with an unpadded value; and [fdt_strerror] of
    INT_MIN indexes its table with INT_MIN. *)
Theorem fdt_wip_unchecked :
  fdt_setprop_inplace_namelen_partial soc_blob 40 (byte_list "reg") (2 ^ 32 - 4) (cells [1]) = None /\
  (exists b, fdt_getprop b 0 (byte_list "p") = Some (Some (zlen (r_bytes b) - 1), 1) /\
     hv b 4 = zlen (r_bytes b) /\ fdt_nop_property b 0 (byte_list "p") = None) /\
  fdt_strerror (- 2 ^ 31) = None.
Proof.
  split_and!; [vm_compute; reflexivity| |vm_compute; reflexivity].
  exists (Region 0x1000 (
    to_be 4 FDT_MAGIC ++ to_be 4 81 ++ to_be 4 60 ++ to_be 4 56 ++ to_be 4 40 ++ to_be 4 17 ++ to_be 4 16 ++ to_be 4 0 ++
    to_be 4 4 ++ to_be 4 21 ++ replicate 16 0 ++ [112; 0; 0; 0] ++ tk_begin [] ++ to_be 4 FDT_PROP ++ to_be 4 1 ++ to_be 4 0 ++ [120])).
  split_and!; vm_compute; reflexivity.
Qed.
