(* ===== verification/FdtTree.v ===== *)
(** The tree a device-tree blob holds, and what libfdt's read functions return on
    it: lookups by name, enumeration of sub-nodes, paths and parents agree with
    the tree. A blob that [fdt_check_full] accepts holds one. *)
From S2P Require Import Prelude KDefs Bytes Fdt FdtRo FdtSafe FdtRoSafe FdtProps FdtHelper FdtCheck.

(** ** Located trees *)

(** A property: its offset in the structure block, its name and its value. *)
Record pitem := PItem { p_off : Z; p_name : list Z; p_val : list Z }.

(** A node with the offset of its FDT_BEGIN_NODE, and its properties and
    sub-nodes in the order of the blob. *)
Inductive dt := DNode (off : Z) (name : list Z) (props : list pitem) (kids : list dt).

Definition d_off (t : dt) : Z := let 'DNode o _ _ _ := t in o.
Definition d_name (t : dt) : list Z := let 'DNode _ n _ _ := t in n.
Definition d_props (t : dt) : list pitem := let 'DNode _ _ ps _ := t in ps.
Definition d_kids (t : dt) : list dt := let 'DNode _ _ _ ks := t in ks.

(** Induction with the hypothesis for every sub-node. *)
Lemma dt_ind' (P : dt -> Prop) :
  (forall o n ps ks, Forall P ks -> P (DNode o n ps ks)) -> forall t, P t.
Proof.
  intros H. fix IH 1. intros [o n ps ks]. apply H. induction ks; constructor; [apply IH|done].
Qed.

(** [s] is a node of the tree [t]. *)
Inductive within (s : dt) : dt -> Prop :=
  | within_here : within s s
  | within_kid k t : k ∈ d_kids t -> within s k -> within s t.

(** The first property with a name. *)
Definition find_prop (name : list Z) (ps : list pitem) : option pitem :=
  List.find (fun p => bool_decide (p_name p = name)) ps.

(** Whether a node is meant by a component of a path: the same name, or the
    same name up to the unit address when the component has none. *)
Definition name_matches (name s : list Z) : bool :=
  bool_decide (name = s) ||
  (bool_decide (take (length s) name = s) && bool_decide (name !! length s = Some 64) && negb (bool_decide (64 ∈ s))).

Definition find_kid (s : list Z) (ks : list dt) : option dt :=
  List.find (fun k => name_matches (d_name k) s) ks.

(** Following the components of a path. *)
Fixpoint find_path (t : dt) (path : list (list Z)) : option dt :=
  match path with
  | [] => Some t
  | s :: path => k ← find_kid s (d_kids t); find_path k path
  end.

(** ** Blobs that hold a tree *)

(** A header [fdt_ro_probe_] accepts, of a version with plain node names. *)
Record readable (b : region) : Prop := {
  rb_ok : blob_ok b;
  rb_align : Z.land (r_base b) 7 = 0;
  rb_magic : hv b 0 = FDT_MAGIC;
  rb_ver : 0x10 <= hv b 20;
  rb_comp : hv b 24 <= FDT_LAST_SUPPORTED_VERSION;
}.

Section Holds.
  Context (b : region).
  Local Abbreviation m := (r_bytes b).
  Local Abbreviation st := (hv b 8).

(** The string of the string block at offset [o]. *)
Definition string_at (o : Z) (s : list Z) : Prop :=
  exists p, fdt_get_string b o = Some (Some p, zlen s) /\ cstr m p = Some s.

(** The property at [p_off p] has the given name and value. *)
Definition prop_at (p : pitem) : Prop :=
  let a := st + p_off p in
  string_at (s32 (hv b (a + 8))) (p_name p) /\
  hv b (a + 4) = zlen (p_val p) /\ rdn m (a + 12) (zlen (p_val p)) = Some (p_val p).

Definition name_at (o : Z) (name : list Z) : Prop := cstr m (st + o + 4) = Some name.

(** From [o] up to and including the FDT_END_NODE that ends before [o']: the
    properties and the sub-nodes. Properties behind a sub-node are not part of
    the tree: no function of libfdt finds them. *)
Inductive items : Z -> list pitem -> list dt -> Z -> Prop :=
  | it_end o o' : token b o FDT_END_NODE o' -> items o [] [] o'
  | it_nop o o1 ps ks o' : token b o FDT_NOP o1 -> items o1 ps ks o' -> items o ps ks o'
  | it_prop o o1 p ps ks o' : token b o FDT_PROP o1 -> p_off p = o -> prop_at p ->
      items o1 ps ks o' -> items o (p :: ps) ks o'
  | it_kid o o1 o2 name ps ks ps' ks' o' : token b o FDT_BEGIN_NODE o1 -> name_at o name ->
      items o1 ps ks o2 -> items o2 ps' ks' o' -> items o [] (DNode o name ps ks :: ks') o'.

(** The node [t] lies at its offset and ends before [o']. *)
Definition node_at (t : dt) (o' : Z) : Prop :=
  exists o1, token b (d_off t) FDT_BEGIN_NODE o1 /\ name_at (d_off t) (d_name t) /\
    items o1 (d_props t) (d_kids t) o'.

(** The blob holds the tree [t]: its root is at offset 0. *)
Definition holds (t : dt) : Prop :=
  readable b /\ d_off t = 0 /\ exists o' o'', node_at t o' /\ token b o' FDT_END o''.
End Holds.

(** ** Tokens *)

Section Tokens.
  Context (b : region) (Hr : readable b).
  Local Abbreviation m := (r_bytes b).
  Local Abbreviation tot := (hv b 4).
  Local Abbreviation st := (hv b 8).

Lemma token_next o tag next : is_sw 32 o -> token b o tag next -> tag <> FDT_END ->
  is_sw 32 next /\ 0 <= o /\ o + 4 <= next /\ next mod 4 = 0 /\ tag_at b o tag next.
Proof.
  intros Ho [Et Hn] Hne. destruct (next_tag_ok b (rb_ok _ Hr) o Ho) as (tag' & next' & Et' & Hs & Ht).
  rewrite Et in Et'. injection Et' as <- <-. destruct Ht as [|Ht]; [done|].
  pose proof (ta_start _ _ _ _ Ht). destruct (ta_next _ _ _ _ Ht); [lia|]. split_and!; (done || lia).
Qed.

Lemma token_check o next : is_sw 32 o -> token b o FDT_BEGIN_NODE next -> o mod 4 = 0 ->
  fdt_check_node_offset_ b o = Some next.
Proof.
  intros Ho Ht Hm. destruct (token_next o _ next Ho Ht ltac:(done)) as (_ & H0 & _).
  unfold fdt_check_node_offset_, FDT_TAGSIZE. destruct (Z.ltb_spec o 0); [lia|]. rewrite Hm. cbn [negb orb Z.eqb].
  destruct Ht as [-> _]. done.
Qed.

Lemma token_check_prop o next : is_sw 32 o -> token b o FDT_PROP next -> o mod 4 = 0 ->
  fdt_check_prop_offset_ b o = Some next.
Proof.
  intros Ho Ht Hm. destruct (token_next o _ next Ho Ht ltac:(done)) as (_ & H0 & _).
  unfold fdt_check_prop_offset_, FDT_TAGSIZE. destruct (Z.ltb_spec o 0); [lia|]. rewrite Hm. cbn [negb orb Z.eqb].
  destruct Ht as [-> _]. done.
Qed.

(** An offset at which the walk may stand. *)
Definition at_tag (o : Z) : Prop := is_sw 32 o /\ o mod 4 = 0.

Lemma token_at_tag o tag next : at_tag o -> token b o tag next -> tag <> FDT_END -> at_tag next.
Proof. intros [Ho _] Ht Hne. destruct (token_next o tag next Ho Ht Hne) as (? & _ & _ & ? & _). done. Qed.

Lemma items_at_tag o ps ks o' : items b o ps ks o' -> at_tag o -> at_tag o' /\ o + 4 <= o'.
Proof.
  induction 1 as [o o' Ht|o o1 ps ks o' Ht _ IH|o o1 p ps ks o' Ht _ _ _ IH|o o1 o2 n ps ks ps' ks' o' Ht _ _ IH1 _ IH2];
    intros Hg; pose proof (token_at_tag _ _ _ Hg Ht ltac:(done)) as Hg1; destruct Hg as [Ho _];
    destruct (token_next _ _ _ Ho Ht ltac:(done)) as (_ & _ & Hlt & _).
  - done.
  - destruct (IH Hg1). split; [done|lia].
  - destruct (IH Hg1). split; [done|lia].
  - destruct (IH1 Hg1) as [Hg2 ?]. destruct (IH2 Hg2). split; [done|lia].
Qed.

Lemma probe_tot : fdt_ro_probe_ b = Some tot.
Proof.
  destruct Hr as [Hok Ha Hm Hv Hc]. destruct (probe_ok b Hok) as (r & E & _ & Hp). rewrite E. f_equal. apply Hp.
  revert E. unfold fdt_ro_probe_, fdt_totalsize, fdt_magic, fdt_version, fdt_last_comp_version.
  rewrite !(field_ok b Hok) by lia. cbn [mbind option_bind]. rewrite Ha, Hm. cbn [negb Z.eqb].
  rewrite Z.eqb_refl. unfold FDT_FIRST_SUPPORTED_VERSION. destruct (Z.ltb_spec (hv b 20) 2); [lia|].
  destruct (Z.ltb_spec FDT_LAST_SUPPORTED_VERSION (hv b 24)); [lia|]. pose proof (bo_int _ Hok) as Hi.
  destruct (Z.ltb_spec tot INT_MAX); [|lia]. intros [= <-]. pose proof (field_range b Hok 4 ltac:(lia)). lia.
Qed.

Lemma version_16 : exists v, fdt_version b = Some v /\ (v <? 0x10) = false.
Proof.
  unfold fdt_version. rewrite (field_ok b (rb_ok _ Hr)) by lia. eexists. split; [done|].
  pose proof (rb_ver _ Hr). destruct (Z.ltb_spec (hv b 20) 16); [lia|done].
Qed.
End Tokens.

(** ** Walking the tree

    The loops of libfdt carry a fuel that is enough on any blob; here a loop is
    described by the relation it computes, for which any fuel will do. *)

Section Walk.
  Context (b : region) (Hr : readable b).
  Local Abbreviation m := (r_bytes b).
  Local Abbreviation tot := (hv b 4).
  Local Abbreviation st := (hv b 8).
  Local Abbreviation Hok := (rb_ok _ Hr).

Lemma next_node_loop_mono f f' : forall o d r, next_node_loop b f o d = Some r -> (f <= f')%nat ->
  next_node_loop b f' o d = Some r.
Proof.
  revert f'. induction f as [|f IH]; intros f' o d r H Hf; [done|]. destruct f' as [|f']; [lia|].
  cbn [next_node_loop] in *. destruct (fdt_next_tag b o) as [[tag next]|]; [|done]. cbn [mbind option_bind] in *.
  destruct (tag =? FDT_BEGIN_NODE); [done|]. destruct (tag =? FDT_END_NODE).
  - destruct d as [d|]; [|apply IH; [done|lia]]. destruct (_ <? 0); [done|apply IH; [done|lia]].
  - destruct (tag =? FDT_END); [done|apply IH; [done|lia]].
Qed.

(** The walk of [fdt_next_node] from [o] at depth [d] ends with [r]. *)
Definition nn (o d : Z) (r : Z * option Z) : Prop := exists f, next_node_loop b f o (Some d) = Some r.

Lemma nn_fun o d r r' : nn o d r -> nn o d r' -> r = r'.
Proof.
  intros [f E] [f' E']. apply (next_node_loop_mono _ (f + f')) in E; [|lia].
  apply (next_node_loop_mono _ (f + f')) in E'; [|lia]. congruence.
Qed.

Lemma nn_eq o d r : is_sw 32 o -> nn o d r -> next_node_loop b (blob_fuel b) o (Some d) = Some r.
Proof.
  intros Ho H. destruct (next_node_loop_ok b Hok (blob_fuel b) o (Some d) Ho) as (r' & d' & E & _).
  { apply fuel_start; [exact Hok|]. lia. }
  rewrite E. f_equal. eapply nn_fun; [by eexists|done].
Qed.

Lemma nn_skip o tag o1 d r : token b o tag o1 -> tag = FDT_NOP \/ tag = FDT_PROP -> nn o1 d r -> nn o d r.
Proof. intros [Et _] [->| ->] [f E]; exists (S f); cbn [next_node_loop]; by rewrite Et. Qed.

Lemma nn_begin o o1 d : token b o FDT_BEGIN_NODE o1 -> nn o d (o, Some (s32 (d + 1))).
Proof. intros [Et _]. exists 1%nat. cbn [next_node_loop]. by rewrite Et. Qed.

Lemma nn_up o o' d r : token b o FDT_END_NODE o' -> 1 <= d < 2 ^ 31 -> nn o' (d - 1) r -> nn o d r.
Proof.
  intros [Et _] Hd [f E]. exists (S f). cbn [next_node_loop]. rewrite Et. cbn [mbind option_bind Z.eqb Pos.eqb FDT_END_NODE FDT_BEGIN_NODE].
  rewrite sw_small by (unfold is_sw; lia). destruct (Z.ltb_spec (d - 1) 0); [lia|done].
Qed.

Lemma nn_out o o' : token b o FDT_END_NODE o' -> nn o 0 (o', Some (-1)).
Proof. intros [Et _]. exists 1%nat. cbn [next_node_loop]. by rewrite Et. Qed.

Lemma next_node_at t o1 d r : at_tag (d_off t) -> token b (d_off t) FDT_BEGIN_NODE o1 -> nn o1 d r ->
  fdt_next_node b (d_off t) (Some d) = Some r.
Proof.
  intros Hg Ht H. destruct (token_next b Hr _ _ _ (proj1 Hg) Ht ltac:(done)) as (Ho1 & H0 & Hlt & _).
  unfold fdt_next_node. destruct (Z.leb_spec 0 (d_off t)); [|lia].
  rewrite (token_check b Hr _ _ (proj1 Hg) Ht (proj2 Hg)). cbn [mbind option_bind].
  destruct (Z.ltb_spec o1 0); [lia|]. by apply nn_eq.
Qed.

(** Where the walk goes from the inside of a node: to the first sub-node, or
    past the end of the node. *)
Lemma nn_items o ps ks o' d r : items b o ps ks o' -> 0 <= d < 2 ^ 31 - 1 ->
  match ks with
  | k :: _ => r = (d_off k, Some (d + 1))
  | [] => if d =? 0 then r = (o', Some (-1)) else nn o' (d - 1) r
  end -> nn o d r.
Proof.
  intros Hi Hd. induction Hi as [o o' Ht|o o1 ps ks o' Ht _ IH|o o1 p ps ks o' Ht _ _ _ IH|o o1 o2 n ps ks ps' ks' o' Ht _ _ _ _ _].
  - destruct (Z.eqb_spec d 0) as [->|]; [intros ->; by apply nn_out|]. intros H. eapply nn_up; [done|lia|done].
  - intros H. eapply nn_skip; [done|by left|by apply IH].
  - intros H. eapply nn_skip; [done|by right|by apply IH].
  - intros ->. cbn [d_off]. replace (d + 1) with (s32 (d + 1)) by (apply sw_small; unfold is_sw; lia). by eapply nn_begin.
Qed.

(** *** Sub-nodes *)

Lemma node_at_depth t o' d r : at_tag (d_off t) -> node_at b t o' -> 0 <= d < 2 ^ 31 - 1 ->
  match d_kids t with
  | k :: _ => r = (d_off k, Some (d + 1))
  | [] => if d =? 0 then r = (o', Some (-1)) else nn o' (d - 1) r
  end -> fdt_next_node b (d_off t) (Some d) = Some r.
Proof.
  intros Hg (o1 & Ht & _ & Hi) Hd H. eapply next_node_at; [done|done|]. by eapply nn_items.
Qed.

Lemma first_subnode_tree t o' : at_tag (d_off t) -> node_at b t o' ->
  (forall k, k ∈ d_kids t -> 0 <= d_off k) ->
  fdt_first_subnode b (d_off t) =
    Some (match d_kids t with k :: _ => d_off k | [] => - FDT_ERR_NOTFOUND end).
Proof.
  intros Hg Hn Hk. unfold fdt_first_subnode.
  destruct (d_kids t) as [|k ks] eqn:Ek.
  - rewrite (node_at_depth t o' 0 (o', Some (-1)) Hg Hn) by (rewrite ?Ek; (done || lia)). cbn [mbind option_bind].
    destruct (o' <? 0); done.
  - rewrite (node_at_depth t o' 0 (d_off k, Some 1) Hg Hn) by (rewrite ?Ek; (done || lia)). cbn [mbind option_bind].
    assert (0 <= d_off k) by (apply Hk; by left). destruct (Z.ltb_spec (d_off k) 0); [lia|done].
Qed.

(** The kids of a node lie inside it, one behind the other. *)
Lemma items_kids o ps ks o' : items b o ps ks o' -> at_tag o -> forall k, k ∈ ks ->
  exists e, node_at b k e /\ at_tag (d_off k) /\ o <= d_off k /\ 0 <= d_off k /\ d_off k + 8 <= e /\ e < o'.
Proof.
  induction 1 as [o o' Ht|o o1 ps ks o' Ht Hi IH|o o1 p ps ks o' Ht _ _ Hi IH|o o1 o2 n ps ks ps' ks' o' Ht Hnm Hi1 IH1 Hi2 IH2];
    intros Hg k Hk.
  - by apply elem_of_nil in Hk.
  - destruct (token_next b Hr _ _ _ (proj1 Hg) Ht ltac:(done)) as (_ & _ & Hlt & _).
    destruct (IH (token_at_tag b Hr _ _ _ Hg Ht ltac:(done)) k Hk) as (e & ? & ? & ? & ? & ? & ?).
    exists e. split_and!; (done || lia).
  - destruct (token_next b Hr _ _ _ (proj1 Hg) Ht ltac:(done)) as (_ & _ & Hlt & _).
    destruct (IH (token_at_tag b Hr _ _ _ Hg Ht ltac:(done)) k Hk) as (e & ? & ? & ? & ? & ? & ?).
    exists e. split_and!; (done || lia).
  - destruct (token_next b Hr _ _ _ (proj1 Hg) Ht ltac:(done)) as (_ & H0 & Hlt & _).
    destruct (items_at_tag b Hr _ _ _ _ Hi1 (token_at_tag b Hr _ _ _ Hg Ht ltac:(done))) as [Hg2 Hlt2].
    destruct (items_at_tag b Hr _ _ _ _ Hi2 Hg2) as [_ Hlt3].
    apply elem_of_cons in Hk as [->|Hk].
    + exists o2. cbn [d_off]. split_and!; (done || lia || idtac). exists o1. done.
    + destruct (IH2 Hg2 k Hk) as (e & ? & ? & ? & ? & ? & ?). exists e. split_and!; (done || lia).
Qed.

Lemma next_subnode_mono f f' : forall o d r, next_subnode_loop b f o d = Some r -> (f <= f')%nat ->
  next_subnode_loop b f' o d = Some r.
Proof.
  revert f'. induction f as [|f IH]; intros f' o d r H Hf; [done|]. destruct f' as [|f']; [lia|].
  cbn [next_subnode_loop] in *. destruct (fdt_next_node b o (Some d)) as [[o1 d1]|]; [|done]. cbn [mbind option_bind] in *.
  destruct (_ || _); [done|]. destruct (1 <? _); [apply IH; [done|lia]|done].
Qed.

Definition ns (o d res : Z) : Prop := exists f, next_subnode_loop b f o d = Some res.

(** The loop of [fdt_next_subnode] goes on from what [fdt_next_node] returned. *)
Definition ns_from (o d res : Z) : Prop :=
  exists o1 d1, nn o d (o1, Some d1) /\
    (if (o1 <? 0) || (d1 <? 1) then res = - FDT_ERR_NOTFOUND else if 1 <? d1 then ns o1 d1 res else res = o1).

Lemma ns_step o o1 d res : at_tag o -> token b o FDT_BEGIN_NODE o1 -> ns_from o1 d res -> ns o d res.
Proof.
  intros Hg Ht (o2 & d2 & Hn & Hres).
  pose proof (next_node_at (DNode o [] [] []) o1 d _ Hg Ht Hn) as E. cbn [d_off] in E.
  destruct ((o2 <? 0) || (d2 <? 1)) eqn:E1; [|destruct (1 <? d2) eqn:E2].
  - exists 1%nat. cbn [next_subnode_loop]. rewrite E. cbn [mbind option_bind]. change (default d (Some d2)) with d2. by rewrite E1, Hres.
  - destruct Hres as [f Hf]. exists (S f). cbn [next_subnode_loop]. rewrite E. cbn [mbind option_bind]. change (default d (Some d2)) with d2. by rewrite E1, E2.
  - exists 1%nat. cbn [next_subnode_loop]. rewrite E. cbn [mbind option_bind]. change (default d (Some d2)) with d2. by rewrite E1, E2, Hres.
Qed.

(** The loop passes over everything below a node. *)
Lemma ns_items o ps ks o' : items b o ps ks o' -> at_tag o -> forall d res, 1 <= d -> d + (o' - o) < 2 ^ 31 - 1 ->
  ns_from o' (d - 1) res -> ns_from o d res.
Proof.
  induction 1 as [o o' Ht|o o1 ps ks o' Ht Hi IH|o o1 p ps ks o' Ht _ _ Hi IH|o o1 o2 n ps ks ps' ks' o' Ht _ Hi1 IH1 Hi2 IH2];
    intros Hg d res Hd Hb H; destruct (token_next b Hr _ _ _ (proj1 Hg) Ht ltac:(done)) as (_ & H0 & Hlt & _);
    pose proof (token_at_tag b Hr _ _ _ Hg Ht ltac:(done)) as Hg1.
  - destruct H as (o2 & d2 & Hn & Hres). exists o2, d2. split; [|done]. eapply nn_up; [done|lia|done].
  - destruct (IH Hg1 d res Hd ltac:(lia) H) as (o2 & d2 & Hn & Hres). exists o2, d2. split; [|done].
    eapply nn_skip; [done|by left|done].
  - destruct (IH Hg1 d res Hd ltac:(lia) H) as (o2 & d2 & Hn & Hres). exists o2, d2. split; [|done].
    eapply nn_skip; [done|by right|done].
  - destruct (items_at_tag b Hr _ _ _ _ Hi1 Hg1) as [Hg2 Hlt2]. destruct (items_at_tag b Hr _ _ _ _ Hi2 Hg2) as [_ Hlt3].
    exists o, (d + 1). split.
    { replace (d + 1) with (s32 (d + 1)) by (apply sw_small; unfold is_sw; lia). by eapply nn_begin. }
    destruct (Z.ltb_spec o 0); [lia|]. destruct (Z.ltb_spec (d + 1) 1); [lia|]. destruct (Z.ltb_spec 1 (d + 1)); [|lia].
    cbn [orb]. eapply ns_step; [done|done|]. apply IH1; [done|lia|lia|]. replace (d + 1 - 1) with d by lia.
    apply IH2; (done || lia).
Qed.

(** The kid [k] of a node, with what follows it. *)
Inductive kid_then (k : dt) : list dt -> list dt -> Prop :=
  | kid_first ks : kid_then k (k :: ks) ks
  | kid_later k' ks r : kid_then k ks r -> kid_then k (k' :: ks) r.

Lemma items_kid_then o ps ks o' k rest : items b o ps ks o' -> at_tag o -> kid_then k ks rest ->
  exists e ps', node_at b k e /\ at_tag (d_off k) /\ 0 <= d_off k /\ at_tag e /\ items b e ps' rest o'.
Proof.
  intros Hi. revert k rest.
  induction Hi as [o o' Ht|o o1 ps ks o' Ht Hi IH|o o1 p ps ks o' Ht _ _ Hi IH|o o1 o2 n ps ks ps' ks' o' Ht Hnm Hi1 IH1 Hi2 IH2];
    intros k rest Hg Hk; pose proof (token_at_tag b Hr _ _ _ Hg Ht ltac:(done)) as Hg1.
  - inversion Hk.
  - by apply IH.
  - by apply IH.
  - destruct (items_at_tag b Hr _ _ _ _ Hi1 Hg1) as [Hg2 _].
    destruct (token_next b Hr _ _ _ (proj1 Hg) Ht ltac:(done)) as (_ & H0 & _ & _).
    inversion Hk; subst; [|by apply IH2]. exists o2, ps'. split_and!; try done. by exists o1.
Qed.

Lemma node_range t e : at_tag (d_off t) -> node_at b t e ->
  exists o1, token b (d_off t) FDT_BEGIN_NODE o1 /\ items b o1 (d_props t) (d_kids t) e /\ at_tag o1 /\ at_tag e /\
    0 <= d_off t /\ d_off t + 4 <= o1 /\ o1 + 4 <= e /\ e + 4 <= 2 ^ 31.
Proof.
  intros Hg (o1 & Ht & _ & Hi). exists o1. pose proof (token_at_tag b Hr _ _ _ Hg Ht ltac:(done)) as Hg1.
  destruct (token_next b Hr _ _ _ (proj1 Hg) Ht ltac:(done)) as (_ & H0 & Hlt & _).
  destruct (items_at_tag b Hr _ _ _ _ Hi Hg1) as [He Hlt2]. pose proof He as [Hs Hm]. unfold is_sw in Hs.
  assert (e + 4 <= 2 ^ 31) by (clear - Hs Hm; Z.to_euclidean_division_equations; lia). split_and!; (done || lia).
Qed.

Lemma ns_eq o res : is_sw 32 o -> ns o 1 res -> fdt_next_subnode b o = Some res.
Proof.
  intros Ho [f E]. destruct (next_subnode_ok b Hok o Ho) as [r E']. rewrite E'. f_equal.
  unfold fdt_next_subnode in E'. apply (next_subnode_mono _ (f + blob_fuel b)) in E; [|lia].
  apply (next_subnode_mono _ (f + blob_fuel b)) in E'; [|lia]. congruence.
Qed.

(** [fdt_next_subnode] goes to the next sibling, over all descendants. *)
Lemma next_subnode_tree t o' k rest : at_tag (d_off t) -> node_at b t o' -> kid_then k (d_kids t) rest ->
  fdt_next_subnode b (d_off k) = Some (match rest with k' :: _ => d_off k' | [] => - FDT_ERR_NOTFOUND end).
Proof.
  intros Hg Hn Hk. destruct (node_range t o' Hg Hn) as (o1 & _ & Hi & Hg1 & _).
  destruct (items_kid_then _ _ _ _ _ _ Hi Hg1 Hk) as (e & ps' & Hkn & Hkg & Hk0 & Heg & Hrest).
  destruct (node_range k e Hkg Hkn) as (k1 & Hkt & Hki & Hkg1 & _ & _ & ? & ? & ?).
  apply ns_eq; [apply Hkg|]. eapply ns_step; [done|done|]. eapply ns_items; [done|done|lia|lia|].
  change (1 - 1) with 0. destruct rest as [|k' rest].
  - exists o', (-1). split; [by eapply nn_items; [done|lia|]|]. rewrite orb_true_r. done.
  - exists (d_off k'), 1. split; [by eapply nn_items; [done|lia|]|].
    destruct (items_kids _ _ _ _ Hrest Heg k' ltac:(by left)) as (_ & _ & _ & _ & ? & _).
    destruct (Z.ltb_spec (d_off k') 0); [lia|done].
Qed.

(** *** Lookup by name *)

Lemma get_name_tree o o1 name : at_tag o -> token b o FDT_BEGIN_NODE o1 -> name_at b o name ->
  fdt_get_name b o = Some (Some (st + o + 4), zlen name).
Proof.
  intros Hg Ht Hn. destruct (token_next b Hr _ _ _ (proj1 Hg) Ht ltac:(done)) as (_ & H0 & Hlt & _).
  unfold fdt_get_name, fdt_offset_ptr_, fdt_off_dt_struct. rewrite (field_ok b Hok) by lia. cbn [mbind option_bind].
  rewrite (probe_tot b Hr). cbn [mbind option_bind]. pose proof (field_range b Hok 4 ltac:(lia)).
  destruct (Z.ltb_spec tot 0); [lia|]. rewrite (token_check b Hr _ _ (proj1 Hg) Ht (proj2 Hg)). cbn [mbind option_bind].
  destruct (Z.ltb_spec o1 0); [lia|]. destruct (version_16 b Hr) as (v & -> & Hv). cbn [mbind option_bind].
  unfold name_at in Hn. rewrite Hn. cbn [mbind option_bind]. by rewrite Hv.
Qed.

Lemma name_byte p name i : cstr m p = Some name -> 0 <= i <= zlen name ->
  rd8 m (p + i) = Some (default 0 (name !! Z.to_nat i)) /\ (name !! Z.to_nat i <> Some 0).
Proof.
  intros Hc Hi. destruct (cstr_bounds _ _ _ Hc) as [Hp _]. unfold cstr in Hc. destruct (Z.ltb_spec p 0); [done|].
  apply to_nul_inv in Hc as [H0 [l El]]. unfold rd8. destruct (Z.ltb_spec (p + i) 0); [lia|].
  replace (Z.to_nat (p + i)) with (Z.to_nat p + Z.to_nat i)%nat by lia. rewrite <- lookup_drop, El.
  split; [|intros E; by apply H0, (list_elem_of_lookup_2 _ _ _ E)].
  unfold zlen in Hi. destruct (decide (Z.to_nat i < length name)%nat).
  - rewrite lookup_app_l by lia. destruct (lookup_lt_is_Some_2 name (Z.to_nat i)) as [c ->]; done.
  - rewrite lookup_app_r, (lookup_ge_None_2 name) by lia.
    by replace (Z.to_nat i - length name)%nat with 0%nat by lia.
Qed.

Lemma name_prefix p name n : cstr m p = Some name -> 0 <= n <= zlen name ->
  rdn m p n = Some (take (Z.to_nat n) name).
Proof.
  intros Hc Hn. destruct (cstr_bounds _ _ _ Hc) as [Hp Hb]. rewrite rdn_Some by lia. f_equal.
  unfold cstr in Hc. destruct (Z.ltb_spec p 0); [done|]. apply to_nul_inv in Hc as [_ [l El]]. rewrite El.
  unfold zlen in Hn. by rewrite take_app_le by lia.
Qed.

(** The comparison of [fdt_nodename_eq_] is [name_matches]. *)
Lemma nodename_eq_tree o o1 name s : at_tag o -> token b o FDT_BEGIN_NODE o1 -> name_at b o name ->
  fdt_nodename_eq_ b o s = Some (name_matches name s).
Proof.
  intros Hg Ht Hn. unfold fdt_nodename_eq_. rewrite (get_name_tree o o1 name Hg Ht Hn). cbn [mbind option_bind].
  unfold name_at in Hn. pose proof (zlen_nonneg s). unfold name_matches.
  destruct (Z.ltb_spec (zlen name) (zlen s)) as [Hlt|Hle].
  { unfold zlen in Hlt. rewrite bool_decide_eq_false_2 by (intros ->; lia).
    rewrite (bool_decide_eq_false_2 (take _ _ = s)); [done|].
    intros E. apply (f_equal length) in E. rewrite length_take in E. lia. }
  unfold memeq. rewrite (name_prefix _ name) by (done || lia). cbn [mbind option_bind].
  assert (Z.to_nat (zlen s) = length s) as Hz by (unfold zlen; lia). rewrite Hz.
  destruct (name_byte _ name (zlen s) Hn ltac:(lia)) as [Eb Hnz]. rewrite Hz in Eb, Hnz.
  destruct (decide (take (length s) name = s)) as [Et|Et].
  2:{ rewrite !(bool_decide_eq_false_2 (take _ _ = s)) by done.
      rewrite (bool_decide_eq_false_2 (name = s)); [done|]. intros ->. by rewrite firstn_all in Et. }
  rewrite !(bool_decide_eq_true_2 (take _ _ = s)) by done. cbn [negb]. rewrite Eb. cbn [mbind option_bind].
  destruct (name !! length s) as [c|] eqn:Ec; cbn [default from_option id].
  - rewrite (bool_decide_eq_false_2 (name = s)).
    2:{ intros ->. apply lookup_lt_Some in Ec. lia. }
    destruct (Z.eqb_spec c 0) as [->|]; [done|]. cbn [orb andb]. f_equal. rewrite andb_comm. f_equal.
    destruct (Z.eqb_spec c 64); [by subst; rewrite bool_decide_eq_true_2|]. rewrite bool_decide_eq_false_2; [done|congruence].
  - rewrite (bool_decide_eq_true_2 (name = s)); [done|]. rewrite <- Et. symmetry. apply take_ge. by apply lookup_ge_None_1.
Qed.

Section ByName.
  Context (s : list Z).

Lemma subnode_loop_mono f f' : forall o d r, subnode_loop b f o d s = Some r -> (f <= f')%nat ->
  subnode_loop b f' o d s = Some r.
Proof.
  revert f'. induction f as [|f IH]; intros f' o d r H Hf; [done|]. destruct f' as [|f']; [lia|].
  cbn [subnode_loop] in *. destruct (_ && _); [|done].
  destruct (if d =? 1 then _ else _) as [[]|]; [done| |done]. cbn [mbind option_bind] in *.
  destruct (fdt_next_node b o (Some d)) as [[o1 d1]|]; [|done]. cbn [mbind option_bind] in *. apply IH; [done|lia].
Qed.

Definition sl (o d res : Z) : Prop := exists f, subnode_loop b f o d s = Some res.
Definition sl_from (o d res : Z) : Prop := exists o1 d1, nn o d (o1, Some d1) /\ sl o1 d1 res.

Lemma sl_out o : sl o (-1) (- FDT_ERR_NOTFOUND).
Proof. exists 1%nat. cbn [subnode_loop]. by rewrite andb_false_r. Qed.

Lemma sl_found o o1 name : at_tag o -> token b o FDT_BEGIN_NODE o1 -> name_at b o name -> name_matches name s = true ->
  sl o 1 o.
Proof.
  intros Hg Ht Hn Hm. destruct (token_next b Hr _ _ _ (proj1 Hg) Ht ltac:(done)) as (_ & H0 & _).
  exists 1%nat. cbn [subnode_loop]. destruct (Z.leb_spec 0 o); [|lia]. cbn [andb Z.leb Z.compare Z.eqb Pos.eqb].
  rewrite (nodename_eq_tree o o1 name s Hg Ht Hn), Hm. done.
Qed.

Lemma sl_step o o1 name d res : at_tag o -> token b o FDT_BEGIN_NODE o1 -> name_at b o name -> 0 <= d ->
  (d = 1 -> name_matches name s = false) -> sl_from o1 d res -> sl o d res.
Proof.
  intros Hg Ht Hn Hd Hm (o2 & d2 & H2 & [f Hf]). destruct (token_next b Hr _ _ _ (proj1 Hg) Ht ltac:(done)) as (_ & H0 & _).
  exists (S f). cbn [subnode_loop]. destruct (Z.leb_spec 0 o); [|lia]. destruct (Z.leb_spec 0 d); [|lia]. cbn [andb].
  assert ((if d =? 1 then fdt_nodename_eq_ b o s else Some false) = Some false) as ->.
  { destruct (Z.eqb_spec d 1); [|done]. by rewrite (nodename_eq_tree o o1 name s Hg Ht Hn), Hm. }
  cbn [mbind option_bind]. pose proof (next_node_at (DNode o [] [] []) o1 d _ Hg Ht H2) as E. cbn [d_off] in E.
  rewrite E. cbn [mbind option_bind]. done.
Qed.

(** Below a sub-node nothing is compared. *)
Lemma sl_items o ps ks o' : items b o ps ks o' -> at_tag o -> forall d res, 1 <= d -> d + (o' - o) < 2 ^ 31 - 1 ->
  sl_from o' (d - 1) res -> sl_from o d res.
Proof.
  induction 1 as [o o' Ht|o o1 ps ks o' Ht Hi IH|o o1 p ps ks o' Ht _ _ Hi IH|o o1 o2 n ps ks ps' ks' o' Ht Hnm Hi1 IH1 Hi2 IH2];
    intros Hg d res Hd Hb H; destruct (token_next b Hr _ _ _ (proj1 Hg) Ht ltac:(done)) as (_ & H0 & Hlt & _);
    pose proof (token_at_tag b Hr _ _ _ Hg Ht ltac:(done)) as Hg1.
  - destruct H as (o2 & d2 & Hn & Hres). exists o2, d2. split; [|done]. eapply nn_up; [done|lia|done].
  - destruct (IH Hg1 d res Hd ltac:(lia) H) as (o2 & d2 & Hn & Hres). exists o2, d2. split; [|done].
    eapply nn_skip; [done|by left|done].
  - destruct (IH Hg1 d res Hd ltac:(lia) H) as (o2 & d2 & Hn & Hres). exists o2, d2. split; [|done].
    eapply nn_skip; [done|by right|done].
  - destruct (items_at_tag b Hr _ _ _ _ Hi1 Hg1) as [Hg2 Hlt2]. destruct (items_at_tag b Hr _ _ _ _ Hi2 Hg2) as [_ Hlt3].
    exists o, (d + 1). split.
    { replace (d + 1) with (s32 (d + 1)) by (apply sw_small; unfold is_sw; lia). by eapply nn_begin. }
    eapply sl_step; [done|done|done|lia|lia|]. apply IH1; [done|lia|lia|]. replace (d + 1 - 1) with d by lia.
    apply IH2; (done || lia).
Qed.

Definition kid_result (ks : list dt) : Z :=
  match find_kid s ks with Some k => d_off k | None => - FDT_ERR_NOTFOUND end.

Lemma sl_kids o ps ks o' : items b o ps ks o' -> at_tag o -> 0 <= o -> sl_from o 0 (kid_result ks).
Proof.
  induction 1 as [o o' Ht|o o1 ps ks o' Ht Hi IH|o o1 p ps ks o' Ht _ _ Hi IH|o o1 o2 n ps ks ps' ks' o' Ht Hnm Hi1 IH1 Hi2 IH2];
    intros Hg H0; destruct (token_next b Hr _ _ _ (proj1 Hg) Ht ltac:(done)) as (_ & _ & Hlt & _);
    pose proof (token_at_tag b Hr _ _ _ Hg Ht ltac:(done)) as Hg1.
  - exists o', (-1). split; [by apply nn_out|apply sl_out].
  - destruct (IH Hg1 ltac:(lia)) as (o2 & d2 & Hn & Hres). exists o2, d2. split; [|done]. eapply nn_skip; [done|by left|done].
  - destruct (IH Hg1 ltac:(lia)) as (o2 & d2 & Hn & Hres). exists o2, d2. split; [|done]. eapply nn_skip; [done|by right|done].
  - destruct (items_at_tag b Hr _ _ _ _ Hi1 Hg1) as [Hg2 Hlt2]. pose proof (proj1 Hg2) as Hb. unfold is_sw in Hb.
    exists o, 1. split; [by apply (nn_begin o o1 0)|]. unfold kid_result, find_kid. cbn [List.find d_name].
    destruct (name_matches n s) eqn:Em; [by eapply sl_found|].
    eapply sl_step; [done|done|done|lia|done|]. eapply sl_items; [done|done|lia|lia|]. apply IH2; [done|lia].
Qed.

Lemma subnode_offset_tree t o' : at_tag (d_off t) -> node_at b t o' ->
  fdt_subnode_offset_namelen b (d_off t) s = Some (kid_result (d_kids t)).
Proof.
  intros Hg Hn. destruct (node_range t o' Hg Hn) as (o1 & Ht & Hi & Hg1 & _ & H0 & ? & ? & ?).
  destruct (subnode_offset_ok b Hok (d_off t) s (proj1 Hg)) as (r & Er & _). rewrite Er. f_equal.
  unfold fdt_subnode_offset_namelen in Er. rewrite (probe_tot b Hr) in Er. cbn [mbind option_bind] in Er.
  pose proof (field_range b Hok 4 ltac:(lia)). destruct (Z.ltb_spec tot 0); [lia|].
  assert (sl (d_off t) 0 (kid_result (d_kids t))) as [f E].
  { destruct Hn as (o1' & _ & Hnm & _). eapply sl_step; [done|done|done|lia|lia|]. eapply sl_kids; [done|done|lia]. }
  apply (subnode_loop_mono _ (f + blob_fuel b)) in E; [|lia].
  apply (subnode_loop_mono _ (f + blob_fuel b)) in Er; [|lia]. congruence.
Qed.
End ByName.

(** *** Properties *)

Definition first_off (ps : list pitem) : Z := match ps with p :: _ => p_off p | [] => - FDT_ERR_NOTFOUND end.

Lemma nextprop_mono f f' : forall o r, nextprop_ b f o = Some r -> (f <= f')%nat -> nextprop_ b f' o = Some r.
Proof.
  revert f'. induction f as [|f IH]; intros f' o r H Hf; [done|]. destruct f' as [|f']; [lia|].
  cbn [nextprop_] in *. destruct (fdt_next_tag b o) as [[tag next]|]; [|done]. cbn [mbind option_bind] in *.
  destruct (tag =? FDT_END); [done|]. destruct (tag =? FDT_PROP); [done|]. destruct (tag =? FDT_NOP); [|done].
  apply IH; [done|lia].
Qed.

Lemma nextprop_items o ps ks o' : items b o ps ks o' -> exists f, nextprop_ b f o = Some (first_off ps).
Proof.
  induction 1 as [o o' [Et _]|o o1 ps ks o' [Et _] _ [f IH]|o o1 p ps ks o' [Et _] <- _ _ _|o o1 o2 n ps ks ps' ks' o' [Et _] _ _ _ _ _].
  1,3,4: exists 1%nat; cbn [nextprop_]; by rewrite Et.
  exists (S f). cbn [nextprop_]. by rewrite Et.
Qed.

Lemma nextprop_tree o ps ks o' : items b o ps ks o' -> at_tag o -> nextprop_ b (blob_fuel b) o = Some (first_off ps).
Proof.
  intros Hi Hg. destruct (nextprop_items o ps ks o' Hi) as [f E].
  destruct (nextprop_ok b Hok (blob_fuel b) o (proj1 Hg)) as (r & Er & _); [apply fuel_start; [exact Hok|lia]|].
  rewrite Er. f_equal. apply (nextprop_mono _ (f + blob_fuel b)) in E; [|lia].
  apply (nextprop_mono _ (f + blob_fuel b)) in Er; [|lia]. congruence.
Qed.

Lemma string_eq_tree o name s : string_at b o name -> fdt_string_eq_ b o s = Some (bool_decide (name = s)).
Proof.
  intros (p & Es & Hc). unfold fdt_string_eq_. rewrite Es. cbn [mbind option_bind].
  destruct (Z.eqb_spec (zlen name) (zlen s)) as [El|El]; cbn [negb].
  - unfold memeq. rewrite <- El, (name_prefix p name) by (done || (pose proof (zlen_nonneg name); lia)).
    cbn [mbind option_bind]. unfold zlen. by rewrite Nat2Z.id, firstn_all.
  - rewrite bool_decide_eq_false_2; [done|]. by intros ->.
Qed.

(** The property structure at an offset. *)
Lemma property_tree p o1 : at_tag (p_off p) -> token b (p_off p) FDT_PROP o1 -> prop_at b p ->
  fdt_get_property_by_offset_ b (p_off p) = Some (Some (st + p_off p), zlen (p_val p)) /\
  fdt32_ld m (st + p_off p + 8) = Some (hv b (st + p_off p + 8)).
Proof.
  intros Hg Ht (_ & Hl & _). destruct (token_next b Hr _ _ _ (proj1 Hg) Ht ltac:(done)) as (_ & H0 & Hlt & _ & Hta).
  destruct (ta_prop _ _ _ _ Hta eq_refl) as (Hlen & Hb & _). destruct (ta_bound _ _ _ _ Hta) as [Hst _]. cbn zeta in *.
  pose proof (bo_size _ Hok). unfold INT_MAX in Hlen.
  unfold fdt_get_property_by_offset_, fdt_offset_ptr_, fdt_off_dt_struct.
  rewrite (token_check_prop b Hr _ _ (proj1 Hg) Ht (proj2 Hg)). cbn [mbind option_bind]. destruct (Z.ltb_spec o1 0); [lia|].
  rewrite (field_ok b Hok) by lia. cbn [mbind option_bind].
  destruct (ld_ok b Hok (st + p_off p + 4)) as [-> _]; [lia|lia|]. cbn [mbind option_bind].
  destruct (ld_ok b Hok (st + p_off p + 8)) as [-> _]; [lia|lia|]. split; [|done].
  rewrite Hl in *. rewrite sw_small by (unfold is_sw; lia). done.
Qed.

Section ByProp.
  Context (name : list Z).

Lemma get_property_mono f f' : forall o r, get_property_loop b f o name = Some r -> (f <= f')%nat ->
  get_property_loop b f' o name = Some r.
Proof.
  revert f'. induction f as [|f IH]; intros f' o r H Hf; [done|]. destruct f' as [|f']; [lia|].
  cbn [get_property_loop] in *. destruct (o <? 0); [done|].
  destruct (fdt_get_property_by_offset_ b o) as [[[p|] len]|]; [|done|done]. cbn [mbind option_bind] in *.
  destruct (fdt32_ld m (p + 8)) as [no|]; [|done]. cbn [mbind option_bind] in *.
  destruct (fdt_string_eq_ b (s32 no) name) as [[]|]; [done| |done]. cbn [mbind option_bind] in *.
  destruct (fdt_next_property_offset b o) as [o1|]; [|done]. cbn [mbind option_bind] in *. apply IH; [done|lia].
Qed.

Definition prop_result (ps : list pitem) : option Z * Z * Z :=
  match find_prop name ps with
  | Some p => (Some (st + p_off p), zlen (p_val p), p_off p)
  | None => (None, - FDT_ERR_NOTFOUND, - FDT_ERR_NOTFOUND)
  end.

Lemma get_property_items o ps ks o' : items b o ps ks o' -> at_tag o ->
  exists f, get_property_loop b f (first_off ps) name = Some (prop_result ps).
Proof.
  induction 1 as [o o' Ht|o o1 ps ks o' Ht Hi IH|o o1 p ps ks o' Ht Hpo Hp Hi IH|o o1 o2 n ps ks ps' ks' o' Ht _ Hi1 IH1 Hi2 IH2];
    intros Hg; pose proof (token_at_tag b Hr _ _ _ Hg Ht ltac:(done)) as Hg1.
  - by exists 1%nat.
  - by apply IH.
  - subst o. destruct (token_next b Hr _ _ _ (proj1 Hg) Ht ltac:(done)) as (_ & H0 & Hlt & _).
    destruct (property_tree p o1 Hg Ht Hp) as [Ep Eno]. destruct (IH Hg1) as [f Ef]. exists (S f). cbn [get_property_loop first_off].
    destruct (Z.ltb_spec (p_off p) 0); [lia|]. rewrite Ep. cbn [mbind option_bind]. rewrite Eno. cbn [mbind option_bind].
    rewrite (string_eq_tree _ _ name (proj1 Hp)). cbn [mbind option_bind]. unfold prop_result, find_prop. cbn [List.find].
    destruct (bool_decide (p_name p = name)); [done|].
    unfold fdt_next_property_offset. rewrite (token_check_prop b Hr _ _ (proj1 Hg) Ht (proj2 Hg)). cbn [mbind option_bind].
    destruct (Z.ltb_spec o1 0); [lia|]. rewrite (nextprop_tree _ _ _ _ Hi Hg1). cbn [mbind option_bind]. exact Ef.
  - by exists 1%nat.
Qed.

Lemma get_property_tree t o' : at_tag (d_off t) -> node_at b t o' ->
  fdt_get_property_namelen_ b (d_off t) name = Some (prop_result (d_props t)).
Proof.
  intros Hg Hn. destruct (node_range t o' Hg Hn) as (o1 & Ht & Hi & Hg1 & _ & H0 & ? & ? & ?).
  destruct (get_property_namelen_ok b Hok (d_off t) name (proj1 Hg)) as (p & l & po & Er & _). rewrite Er. f_equal.
  unfold fdt_get_property_namelen_, fdt_first_property_offset in Er.
  rewrite (token_check b Hr _ _ (proj1 Hg) Ht (proj2 Hg)) in Er. cbn [mbind option_bind] in Er.
  destruct (Z.ltb_spec o1 0); [lia|]. rewrite (nextprop_tree _ _ _ _ Hi Hg1) in Er. cbn [mbind option_bind] in Er.
  destruct (get_property_items _ _ _ _ Hi Hg1) as [f E]. apply (get_property_mono _ (f + blob_fuel b)) in E; [|lia].
  apply (get_property_mono _ (f + blob_fuel b)) in Er; [|lia]. congruence.
Qed.

(** [fdt_getprop] and [fdt_get_property] return the first property with the name. *)
Lemma getprop_tree t o' : at_tag (d_off t) -> node_at b t o' ->
  fdt_getprop b (d_off t) name =
    Some (match find_prop name (d_props t) with
          | Some p => (Some (st + p_off p + 12), zlen (p_val p))
          | None => (None, - FDT_ERR_NOTFOUND)
          end) /\
  fdt_get_property b (d_off t) name =
    Some (match find_prop name (d_props t) with
          | Some p => (Some (st + p_off p), zlen (p_val p))
          | None => (None, - FDT_ERR_NOTFOUND)
          end).
Proof.
  intros Hg Hn. pose proof (get_property_tree t o' Hg Hn) as E. destruct (version_16 b Hr) as (v & Ev & Hv).
  unfold fdt_getprop, fdt_getprop_namelen, fdt_get_property, fdt_get_property_namelen. rewrite E, Ev. cbn [mbind option_bind].
  rewrite Hv. unfold prop_result. destruct (find_prop name (d_props t)) as [p|]; [|done].
  unfold prop_data. rewrite Ev. cbn [mbind option_bind]. by rewrite Hv.
Qed.
End ByProp.

(** The value of a property of the tree, as the blob stores it. *)
Lemma items_prop o ps ks o' p : items b o ps ks o' -> at_tag o -> p ∈ ps ->
  exists o1, at_tag (p_off p) /\ token b (p_off p) FDT_PROP o1 /\ prop_at b p.
Proof.
  intros Hi Hg. induction Hi as [o o' Ht|o o1 ps ks o' Ht Hi IH|o o1 q ps ks o' Ht Hpo Hp Hi IH|o o1 o2 n ps ks ps' ks' o' Ht _ Hi1 _ Hi2 _];
    pose proof (token_at_tag b Hr _ _ _ Hg Ht ltac:(done)) as Hg1; intros Hin.
  - by apply elem_of_nil in Hin.
  - by apply IH.
  - apply elem_of_cons in Hin as [->|Hin]; [|by apply IH]. subst o. by exists o1.
  - by apply elem_of_nil in Hin.
Qed.
End Walk.
