(* ===== verification/FdtPath.v ===== *)
(** Parents and paths in a device tree, and the theorems on what a blob's tree
    determines: libfdt's lookups return it, and [fdt_check_full] guarantees it. *)
From S2P Require Import Prelude KDefs Bytes Fdt FdtRo FdtSafe FdtRoSafe FdtProps FdtHelper FdtCheck FdtTree.

(** ** Parents *)

(** [s] is a sub-node of [p], which lies [n] levels below [t]. *)
Inductive under (s p : dt) : Z -> dt -> Prop :=
  | under_here : s ∈ d_kids p -> under s p 0 p
  | under_kid k t n : k ∈ d_kids t -> under s p n k -> under s p (n + 1) t.

Section Parent.
  Context (b : region) (Hr : readable b).
  Local Abbreviation m := (r_bytes b).
  Local Abbreviation tot := (hv b 4).
  Local Abbreviation Hok := (rb_ok _ Hr).
  Context (target sd : Z).

Lemma supernode_mono f f' : forall o d so r, supernode_loop b f target sd o d so = Some r -> (f <= f')%nat ->
  supernode_loop b f' target sd o d so = Some r.
Proof.
  revert f'. induction f as [|f IH]; intros f' o d so r H Hf; [done|]. destruct f' as [|f']; [lia|].
  cbn [supernode_loop] in *. destruct (_ && _); [|done]. destruct (o =? target); [done|].
  destruct (fdt_next_node b o (Some d)) as [[o1 d1]|]; [|done]. cbn [mbind option_bind] in *. apply IH; [done|lia].
Qed.

(** [fdt_supernode_atdepth_offset] at the node [o] of depth [d] with the
    ancestor [so] noted so far, and inside a node of depth [d]. *)
Definition sup (o d so : Z) (r : Z * option Z) : Prop := exists f, supernode_loop b f target sd o d so = Some r.
Definition sup_from (o d so : Z) (r : Z * option Z) : Prop :=
  exists o1 d1, nn b o d (o1, Some d1) /\ sup o1 d1 so r.

Lemma sup_target d so : 0 <= target ->
  sup target d so (if d <? sd then - FDT_ERR_NOTFOUND else if d =? sd then target else so, Some d).
Proof.
  intros H. exists 1%nat. cbn [supernode_loop]. destruct (Z.leb_spec 0 target); [|lia]. rewrite Z.leb_refl. cbn [andb].
  by rewrite Z.eqb_refl.
Qed.

Lemma sup_step o o1 d so r : at_tag o -> token b o FDT_BEGIN_NODE o1 -> o < target ->
  sup_from o1 d (if d =? sd then o else so) r -> sup o d so r.
Proof.
  intros Hg Ht Hlt (o2 & d2 & Hn & [f Hf]). destruct (token_next b Hr _ _ _ (proj1 Hg) Ht ltac:(done)) as (_ & H0 & _).
  exists (S f). cbn [supernode_loop]. destruct (Z.leb_spec 0 o); [|lia]. destruct (Z.leb_spec o target); [|lia].
  destruct (Z.eqb_spec o target); [lia|]. cbn [andb].
  pose proof (next_node_at b Hr (DNode o [] [] []) o1 d _ Hg Ht Hn) as E. cbn [d_off] in E.
  rewrite E. cbn [mbind option_bind]. done.
Qed.

(** Passing over a node that ends before the target: the ancestor noted so far
    can change only if it is asked for below this node. *)
Lemma sup_items o ps ks o' : items b o ps ks o' -> at_tag o -> o' <= target -> forall d so r, 1 <= d -> d + (o' - o) < 2 ^ 31 - 1 ->
  (forall so', (sd <= d -> so' = so) -> sup_from o' (d - 1) so' r) -> sup_from o d so r.
Proof.
  induction 1 as [o o' Ht|o o1 ps ks o' Ht Hi IH|o o1 p ps ks o' Ht _ _ Hi IH|o o1 o2 n ps ks ps' ks' o' Ht _ Hi1 IH1 Hi2 IH2];
    intros Hg Htg d so r Hd Hb H; destruct (token_next b Hr _ _ _ (proj1 Hg) Ht ltac:(done)) as (_ & H0 & Hlt & _);
    pose proof (token_at_tag b Hr _ _ _ Hg Ht ltac:(done)) as Hg1.
  - destruct (H so ltac:(done)) as (o2 & d2 & Hn & Hres). exists o2, d2. split; [|done]. eapply nn_up; [done|lia|done].
  - destruct (IH Hg1 Htg d so r Hd ltac:(lia) H) as (o2 & d2 & Hn & Hres). exists o2, d2. split; [|done].
    eapply nn_skip; [done|by left|done].
  - destruct (IH Hg1 Htg d so r Hd ltac:(lia) H) as (o2 & d2 & Hn & Hres). exists o2, d2. split; [|done].
    eapply nn_skip; [done|by right|done].
  - destruct (items_at_tag b Hr _ _ _ _ Hi1 Hg1) as [Hg2 Hlt2]. destruct (items_at_tag b Hr _ _ _ _ Hi2 Hg2) as [_ Hlt3].
    exists o, (d + 1). split.
    { replace (d + 1) with (s32 (d + 1)) by (apply sw_small; unfold is_sw; lia). by eapply nn_begin. }
    eapply sup_step; [done|done|lia|]. apply IH1; [done|lia|lia|lia|]. replace (d + 1 - 1) with d by lia.
    intros so1 Hso1. apply IH2; [done|lia|lia|lia|]. intros so2 Hso2. apply H. intros Hsd.
    rewrite Hso2, Hso1 by lia. destruct (Z.eqb_spec (d + 1) sd); [lia|done].
Qed.

(** Inside a node of depth [d] the loop reaches the sub-node that holds the target. *)
Lemma sup_reach o ps ks o' k e : items b o ps ks o' -> at_tag o -> k ∈ ks -> node_at b k e -> d_off k <= target < e ->
  forall d so r, 0 <= d -> d + (o' - o) < 2 ^ 31 - 1 ->
  (forall so', (sd <= d -> so' = so) -> sup (d_off k) (d + 1) so' r) -> sup_from o d so r.
Proof.
  intros Hi. induction Hi as [o o' Ht|o o1 ps ks o' Ht Hi IH|o o1 p ps ks o' Ht _ _ Hi IH|o o1 o2 n ps ks ps' ks' o' Ht Hnm Hi1 IH1 Hi2 IH2];
    intros Hg Hk Hkn Htg d so r Hd Hb H; destruct (token_next b Hr _ _ _ (proj1 Hg) Ht ltac:(done)) as (_ & H0 & Hlt & _);
    pose proof (token_at_tag b Hr _ _ _ Hg Ht ltac:(done)) as Hg1.
  - by apply elem_of_nil in Hk.
  - destruct (IH Hg1 Hk Hkn Htg d so r Hd ltac:(lia) H) as (o2 & d2 & Hn & Hres). exists o2, d2. split; [|done].
    eapply nn_skip; [done|by left|done].
  - destruct (IH Hg1 Hk Hkn Htg d so r Hd ltac:(lia) H) as (o2 & d2 & Hn & Hres). exists o2, d2. split; [|done].
    eapply nn_skip; [done|by right|done].
  - destruct (items_at_tag b Hr _ _ _ _ Hi1 Hg1) as [Hg2 Hlt2]. destruct (items_at_tag b Hr _ _ _ _ Hi2 Hg2) as [_ Hlt3].
    exists o, (d + 1). split.
    { replace (d + 1) with (s32 (d + 1)) by (apply sw_small; unfold is_sw; lia). by eapply nn_begin. }
    apply elem_of_cons in Hk as [->|Hk]; [by apply H|].
    destruct (items_kids b Hr _ _ _ _ Hi2 Hg2 k Hk) as (e' & _ & _ & Hle & _).
    eapply sup_step; [done|done|lia|]. eapply sup_items; [exact Hi1|done|lia|lia|lia|]. replace (d + 1 - 1) with d by lia.
    intros so1 Hso1. apply IH2; [done|done|done|done|lia|lia|]. intros so2 Hso2. apply H. intros Hsd.
    rewrite Hso2, Hso1 by lia. destruct (Z.eqb_spec (d + 1) sd); [lia|done].
Qed.
End Parent.

Section Tree.
  Context (b : region) (Hr : readable b).
  Local Abbreviation m := (r_bytes b).
  Local Abbreviation tot := (hv b 4).
  Local Abbreviation st := (hv b 8).
  Local Abbreviation Hok := (rb_ok _ Hr).

Lemma kid_at t e k : at_tag (d_off t) -> node_at b t e -> k ∈ d_kids t ->
  exists e', node_at b k e' /\ at_tag (d_off k) /\ d_off t + 4 <= d_off k /\ 0 <= d_off k /\ d_off k < e' /\ e' < e.
Proof.
  intros Hg Hn Hk. destruct (node_range b Hr t e Hg Hn) as (o1 & _ & Hi & Hg1 & _ & ? & ? & _).
  destruct (items_kids b Hr _ _ _ _ Hi Hg1 k Hk) as (e' & ? & ? & ? & ? & ? & ?). exists e'. split_and!; (done || lia).
Qed.

Lemma under_range s p n t : under s p n t -> forall e, at_tag (d_off t) -> node_at b t e ->
  d_off t < d_off s < e /\ 0 <= n.
Proof.
  induction 1 as [Hs|k t n Hk _ IH]; intros e Hg Hn.
  - destruct (kid_at _ _ _ Hg Hn Hs) as (e' & ? & ? & ? & ? & ? & ?). lia.
  - destruct (kid_at _ _ _ Hg Hn Hk) as (e' & Hkn & Hkg & ? & ? & ? & ?). destruct (IH e' Hkg Hkn). lia.
Qed.

(** The walk from [t] at depth [d] to a node below it, and the ancestor of depth
    [sd] it reports. *)
Lemma sup_under s p n t : under s p n t -> forall sd e d so res, at_tag (d_off t) -> node_at b t e -> 0 <= d ->
  d + (e - d_off t) < 2 ^ 31 - 1 ->
  (sd < d /\ res = so \/ sd = d /\ res = d_off t \/ sd = d + n /\ res = d_off p) ->
  sup b (d_off s) sd (d_off t) d so (res, Some (d + n + 1)).
Proof.
  induction 1 as [Hs|k t n Hk Hu IH]; intros sd e d so res Hg Hn Hd Hb Hcase;
    (destruct (node_range b Hr _ e Hg Hn) as (o1 & Ht & Hi & Hg1 & _ & H0 & ? & ? & ?)).
  - destruct (kid_at _ _ _ Hg Hn Hs) as (e' & Hsn & Hsg & ? & ? & ? & ?).
    eapply sup_step; [done|done|done|lia|]. eapply sup_reach; [done|done|done|exact Hs|done|lia|lia|lia|].
    intros so' Hso'. replace (d + 0 + 1) with (d + 1) by lia.
    assert (res = so' /\ sd <= d) as [-> Hle].
    { destruct Hcase as [[Hc ->]|[[Hc ->]|[Hc ->]]]; (split; [|lia]); rewrite Hso' by lia; destruct (Z.eqb_spec d sd); (done || lia). }
    pose proof (sup_target b (d_off s) sd (d + 1) so' ltac:(lia)) as HT.
    destruct (Z.ltb_spec (d + 1) sd); [lia|]. destruct (Z.eqb_spec (d + 1) sd); [lia|]. exact HT.
  - destruct (kid_at _ _ _ Hg Hn Hk) as (e' & Hkn & Hkg & ? & ? & ? & ?).
    destruct (under_range _ _ _ _ Hu e' Hkg Hkn) as [Hrg Hn0].
    eapply sup_step; [done|done|done|lia|]. eapply sup_reach; [done|done|done|exact Hk|done|lia|lia|lia|].
    intros so' Hso'. replace (d + (n + 1) + 1) with (d + 1 + n + 1) by lia.
    eapply IH; [done|done|lia|lia|].
    destruct Hcase as [[Hc ->]|[[Hc ->]|[Hc ->]]].
    + left. split; [lia|]. rewrite Hso' by lia. destruct (Z.eqb_spec d sd); (done || lia).
    + left. split; [lia|]. rewrite Hso' by lia. destruct (Z.eqb_spec d sd); (done || lia).
    + right. right. split; [lia|done].
Qed.

Lemma supernode_tree t e s p n sd res : d_off t = 0 -> node_at b t e -> under s p n t -> 0 <= sd ->
  (sd = 0 /\ res = 0 \/ sd = n /\ res = d_off p) ->
  fdt_supernode_atdepth_offset b (d_off s) sd = Some (res, Some (n + 1)).
Proof.
  intros H0 Hn Hu Hsd Hcase. assert (at_tag (d_off t)) as Hg by (rewrite H0; done).
  destruct (node_range b Hr t e Hg Hn) as (o1 & _ & _ & _ & _ & _ & ? & ? & ?).
  destruct (supernode_ok b Hok (d_off s) sd) as (r & d & E & _). rewrite E. f_equal.
  assert (sup b (d_off s) sd (d_off t) 0 (- FDT_ERR_INTERNAL) (res, Some (0 + n + 1))) as [f Ef].
  { eapply sup_under; [done|done|done|lia|lia|]. destruct Hcase as [[-> ->]|[-> ->]]; right; [left|right]; split; lia. }
  rewrite H0 in Ef. replace (0 + n + 1) with (n + 1) in Ef by lia. unfold fdt_supernode_atdepth_offset in E.
  rewrite (probe_tot b Hr) in E. cbn [mbind option_bind] in E. pose proof (field_range b Hok 4 ltac:(lia)).
  destruct (Z.ltb_spec tot 0); [lia|]. destruct (Z.ltb_spec sd 0); [lia|].
  apply (supernode_mono b _ _ _ (f + blob_fuel b)) in E; [|lia]. apply (supernode_mono b _ _ _ (f + blob_fuel b)) in Ef; [|lia].
  congruence.
Qed.

(** [fdt_parent_offset] returns the parent. *)
Lemma parent_tree t e s p n : d_off t = 0 -> node_at b t e -> under s p n t ->
  fdt_parent_offset b (d_off s) = Some (d_off p).
Proof.
  intros H0 Hn Hu. assert (at_tag (d_off t)) as Hg by (rewrite H0; done).
  destruct (under_range _ _ _ _ Hu e Hg Hn) as [_ Hn0]. unfold fdt_parent_offset, fdt_node_depth.
  rewrite (supernode_tree t e s p n 0 0 H0 Hn Hu) by (lia || (left; done)). cbn [mbind option_bind Z.eqb negb].
  destruct (Z.ltb_spec (n + 1) 0); [lia|]. replace (n + 1 - 1) with n by lia.
  by rewrite (supernode_tree t e s p n n (d_off p) H0 Hn Hu) by (lia || (right; done)).
Qed.

(** ** Paths *)

Lemma within_at t e s : at_tag (d_off t) -> node_at b t e -> within s t -> exists e', at_tag (d_off s) /\ node_at b s e'.
Proof.
  intros Hg Hn Hw. revert e Hg Hn. induction Hw as [|k t Hk Hw IH]; intros e Hg Hn; [by exists e|].
  destruct (kid_at _ _ _ Hg Hn Hk) as (e' & Hkn & Hkg & _). by eapply IH.
Qed.
End Tree.

(** The components of a path: the pieces between slashes that are not empty. *)
Fixpoint split_path (acc l : list Z) : list (list Z) :=
  match l with
  | [] => match acc with [] => [] | _ => [rev acc] end
  | c :: l =>
      if c =? 47 then match acc with [] => split_path [] l | _ => rev acc :: split_path [] l end
      else split_path (c :: acc) l
  end.

Lemma split_skip l : split_path [] (skip_slashes l) = split_path [] l.
Proof. induction l as [|c l IH]; cbn; [done|]. destruct (c =? 47) eqn:E; [done|]. cbn. by rewrite E. Qed.

Lemma split_component l : forall acc, acc <> [] \/ (path_component l).1 <> [] ->
  split_path acc l = (rev acc ++ (path_component l).1) :: split_path [] (path_component l).2.
Proof.
  induction l as [|c l IH]; intros acc Hne; cbn in *.
  - rewrite app_nil_r. destruct acc; [by destruct Hne|done].
  - destruct (c =? 47) eqn:E; cbn in *.
    + rewrite app_nil_r, E. destruct acc; [by destruct Hne|done].
    + destruct (path_component l) as [x r] eqn:Ep. cbn in *. rewrite (IH (c :: acc)) by (left; done). cbn. by rewrite <- app_assoc.
Qed.

Section Paths.
  Context (b : region) (Hr : readable b).

Lemma find_kid_in s ks k : find_kid s ks = Some k -> k ∈ ks.
Proof. intros H. apply List.find_some in H as [H _]. by apply list_elem_of_In. Qed.

Definition path_result (t : dt) (path : list (list Z)) : Z :=
  match find_path t path with Some k => d_off k | None => - FDT_ERR_NOTFOUND end.

Lemma path_loop_tree fuel : forall t e rest, at_tag (d_off t) -> node_at b t e -> (length rest < fuel)%nat ->
  path_loop b fuel (d_off t) rest = Some (path_result t (split_path [] rest)).
Proof.
  induction fuel as [|fuel IH]; intros t e rest Hg Hn Hf; [lia|]. cbn [path_loop].
  destruct rest as [|c0 rest']; [done|]. set (rest := c0 :: rest') in *. rewrite <- (split_skip rest).
  destruct (skip_slashes_spec rest) as [H1 H2]. destruct (skip_slashes rest) as [|x l] eqn:Es; [done|].
  pose proof (path_component_length (x :: l) ltac:(done) (H2 ltac:(done))) as H3.
  assert (Hne : (path_component (x :: l)).1 <> []).
  { specialize (H2 ltac:(done)). cbn in *. destruct (Z.eqb_spec x 47); [done|]. by destruct (path_component l). }
  rewrite (split_component (x :: l) []) by (by right). destruct (path_component (x :: l)) as [name tl]. cbn [fst snd rev app] in *.
  rewrite (subnode_offset_tree b Hr name t e Hg Hn). cbn [mbind option_bind].
  unfold kid_result, path_result. cbn [find_path]. destruct (find_kid name (d_kids t)) as [k|] eqn:Ek; [|done]. cbn [mbind option_bind].
  destruct (kid_at b Hr _ _ _ Hg Hn (find_kid_in _ _ _ Ek)) as (e' & Hkn & Hkg & _ & Hk0 & _).
  destruct (Z.ltb_spec (d_off k) 0); [lia|]. eapply IH; [done|done|lia].
Qed.

(** A path given by its length in memory. *)
Lemma path_offset_namelen_tree t path rest fuel : holds b t -> hd 0 path = 47 ->
  fdt_path_offset_namelen b (S fuel) (path ++ rest) (zlen path) = Some (path_result t (split_path [] path)).
Proof.
  intros (_ & H0 & o' & o'' & Hn & _) Hp. cbn [fdt_path_offset_namelen].
  rewrite (probe_tot b Hr). cbn [mbind option_bind]. pose proof (field_range b (rb_ok _ Hr) 4 ltac:(lia)).
  destruct (Z.ltb_spec (hv b 4) 0); [lia|]. destruct path as [|c path]; [done|]. cbn in Hp. subst c.
  change (rd8 ((47 :: path) ++ rest) 0) with (Some 47). cbn [mbind option_bind Z.eqb Pos.eqb negb].
  assert (take (Z.to_nat (zlen (47 :: path))) ((47 :: path) ++ rest) = 47 :: path) as ->.
  { unfold zlen. rewrite Nat2Z.id. apply take_app_length. }
  assert (at_tag (d_off t)) as Hg by (rewrite H0; done). pose proof (path_loop_tree (S (length (47 :: path))) t o' (47 :: path) Hg Hn ltac:(lia)) as E.
  by rewrite H0 in E.
Qed.

Lemma path_offset_tree t path fuel : holds b t -> hd 0 path = 47 ->
  fdt_path_offset b (S fuel) path = Some (path_result t (split_path [] path)).
Proof. apply path_offset_namelen_tree. Qed.
End Paths.

(** ** Enumerating the sub-nodes of a node *)

(** The offsets the loop [fdt_for_each_subnode(child, fdt, parent)] goes through. *)
Fixpoint subnodes_from (b : region) (fuel : nat) (node : Z) : option (list Z) :=
  match fuel with
  | O => None
  | S fuel =>
      if 0 <=? node then
        next ← fdt_next_subnode b node;
        l ← subnodes_from b fuel next;
        Some (node :: l)
      else Some []
  end.
Definition fdt_for_each_subnode (b : region) (parent : Z) : option (list Z) :=
  node ← fdt_first_subnode b parent; subnodes_from b (blob_fuel b) node.

Section ForEach.
  Context (b : region) (Hr : readable b).
  Local Abbreviation Hok := (rb_ok _ Hr).

Lemma kid_then_in k ks r : kid_then k ks r -> k ∈ ks.
Proof. induction 1; [by left|by right]. Qed.

Lemma kid_then_next k k' ks r : kid_then k ks (k' :: r) -> kid_then k' ks r.
Proof. intros H. remember (k' :: r) as l eqn:E. induction H; subst; constructor; [constructor|by apply IHkid_then]. Qed.

Lemma kids_increase o ps ks o' : items b o ps ks o' -> at_tag o -> 4 * zlen ks <= o' - o.
Proof.
  induction 1 as [o o' Ht|o o1 ps ks o' Ht Hi IH|o o1 p ps ks o' Ht _ _ Hi IH|o o1 o2 n ps ks ps' ks' o' Ht Hnm Hi1 IH1 Hi2 IH2];
    intros Hg; destruct (token_next b Hr _ _ _ (proj1 Hg) Ht ltac:(done)) as (_ & H0 & Hlt & _);
    pose proof (token_at_tag b Hr _ _ _ Hg Ht ltac:(done)) as Hg1.
  - change (zlen (@nil dt)) with 0. lia.
  - specialize (IH Hg1). lia.
  - specialize (IH Hg1). lia.
  - destruct (items_at_tag b Hr _ _ _ _ Hi1 Hg1) as [Hg2 Hlt2]. specialize (IH2 Hg2). rewrite zlen_cons. lia.
Qed.

Lemma node_end_bound t e : at_tag (d_off t) -> node_at b t e -> e <= hv b 4 + 3.
Proof.
  intros Hg (o1 & Ht & _ & Hi). pose proof (token_at_tag b Hr _ _ _ Hg Ht ltac:(done)) as Hg1. clear Ht Hg.
  induction Hi as [o o' Ht|o o1 ps ks o' Ht Hi IH|o o1 p ps ks o' Ht _ _ Hi IH|o o1 o2 n ps ks ps' ks' o' Ht Hnm Hi1 IH1 Hi2 IH2].
  - destruct (token_next b Hr _ _ _ (proj1 Hg1) Ht ltac:(done)) as (_ & H0 & Hlt & _ & Hta). destruct (ta_next _ _ _ _ Hta); lia.
  - apply IH. by eapply token_at_tag.
  - apply IH. by eapply token_at_tag.
  - apply IH2. eapply items_at_tag; [done|done|]. by eapply token_at_tag.
Qed.

Lemma subnodes_from_tree t e : at_tag (d_off t) -> node_at b t e -> forall rest k fuel, kid_then k (d_kids t) rest ->
  (length rest + 1 < fuel)%nat -> subnodes_from b fuel (d_off k) = Some (d_off k :: map d_off rest).
Proof.
  intros Hg Hn. induction rest as [|k' rest IH]; intros k fuel Hk Hf; (destruct fuel as [|fuel]; [lia|]); cbn [subnodes_from];
    destruct (kid_at b Hr _ _ _ Hg Hn (kid_then_in _ _ _ Hk)) as (e' & _ & _ & _ & H0 & _);
    (destruct (Z.leb_spec 0 (d_off k)); [|lia]);
    rewrite (next_subnode_tree b Hr t e k _ Hg Hn Hk); cbn [mbind option_bind].
  - destruct fuel as [|fuel]; [lia|]. done.
  - cbn [length] in Hf. rewrite (IH k' fuel (kid_then_next _ _ _ _ Hk) ltac:(lia)). done.
Qed.

Lemma for_each_subnode_tree t e : at_tag (d_off t) -> node_at b t e ->
  fdt_for_each_subnode b (d_off t) = Some (map d_off (d_kids t)).
Proof.
  intros Hg Hn. unfold fdt_for_each_subnode.
  rewrite (first_subnode_tree b Hr t e Hg Hn).
  2:{ intros k Hk. by destruct (kid_at b Hr _ _ _ Hg Hn Hk) as (? & _ & _ & _ & ? & _). }
  cbn [mbind option_bind]. destruct (d_kids t) as [|k ks] eqn:Ek; [done|].
  apply (subnodes_from_tree t e Hg Hn); [rewrite Ek; constructor|].
  destruct (node_range b Hr t e Hg Hn) as (o1 & _ & Hi & Hg1 & _ & ? & ? & ? & _).
  pose proof (kids_increase _ _ _ _ Hi Hg1) as Hlen. rewrite Ek, zlen_cons in Hlen. pose proof (node_end_bound t e Hg Hn).
  pose proof (bo_size _ Hok). unfold blob_fuel, zlen in *. lia.
Qed.
End ForEach.

(** ** A checked blob holds a tree *)

Section Checked.
  Context (b : region) (Hr : readable b).
  Local Abbreviation m := (r_bytes b).
  Local Abbreviation st := (hv b 8).
  Local Abbreviation Hok := (rb_ok _ Hr).

Lemma prop_ok_at o o1 : at_tag o -> token b o FDT_PROP o1 -> prop_ok b o -> exists p, p_off p = o /\ prop_at b p.
Proof.
  intros Hg Ht (d & nm & len & E). destruct (token_next b Hr _ _ _ (proj1 Hg) Ht ltac:(done)) as (_ & H0 & Hlt & _ & Hta).
  destruct (ta_prop _ _ _ _ Hta eq_refl) as (Hlen & Hb & _). destruct (ta_bound _ _ _ _ Hta) as [Hst _]. cbn zeta in *.
  pose proof (bo_size _ Hok). unfold fdt_getprop_by_offset, fdt_get_property_by_offset_, fdt_offset_ptr_, fdt_off_dt_struct in E.
  rewrite (token_check_prop b Hr _ _ (proj1 Hg) Ht (proj2 Hg)) in E. cbn [mbind option_bind] in E.
  destruct (Z.ltb_spec o1 0); [lia|]. rewrite (field_ok b Hok) in E by lia. cbn [mbind option_bind] in E.
  destruct (ld_ok b Hok (st + o + 4)) as [El _]; [lia|lia|]. rewrite El in E. cbn [mbind option_bind] in E.
  destruct (ld_ok b Hok (st + o + 8)) as [En _]; [lia|lia|]. rewrite En in E. cbn [mbind option_bind] in E.
  destruct (get_string_ok b Hok (s32 (hv b (st + o + 8))) (sw_range 32 _ ltac:(lia))) as (sp & sn & Es & Hs).
  rewrite Es in E. cbn [mbind option_bind] in E. destruct sp as [sp|]; [|done]. destruct Hs as (s & _ & Hc & <- & _).
  exists (PItem o s (take (Z.to_nat (hv b (st + o + 4))) (drop (Z.to_nat (st + o + 12)) m))). split; [done|].
  split; [by exists sp|]. unfold INT_MAX in Hlen.
  assert (zlen (take (Z.to_nat (hv b (st + o + 4))) (drop (Z.to_nat (st + o + 12)) m)) = hv b (st + o + 4)) as Ez.
  { unfold zlen in *. rewrite length_take, length_drop. lia. }
  cbn [p_off p_val]. rewrite Ez. split; [done|]. by rewrite rdn_Some by lia.
Qed.

Lemma body_items o o' : body b o o' -> at_tag o -> exists ps ks, items b o ps ks o'.
Proof.
  induction 1 as [o o' Ht|o o1 o' Ht _ IH|o o1 o' Ht Hp _ IH|o o1 o2 o' Ht _ IH1 _ IH2]; intros Hg;
    pose proof (token_at_tag b Hr _ _ _ Hg Ht ltac:(done)) as Hg1.
  - exists [], []. by apply it_end.
  - destruct (IH Hg1) as (ps & ks & Hi). exists ps, ks. by eapply it_nop.
  - destruct (IH Hg1) as (ps & ks & Hi). destruct (prop_ok_at o o1 Hg Ht Hp) as (p & Hpo & Hpa).
    exists (p :: ps), ks. by eapply it_prop.
  - destruct (IH1 Hg1) as (ps & ks & Hi). destruct (items_at_tag b Hr _ _ _ _ Hi Hg1) as [Hg2 _].
    destruct (IH2 Hg2) as (ps' & ks' & Hi'). destruct (token_next b Hr _ _ _ (proj1 Hg) Ht ltac:(done)) as (_ & _ & _ & _ & Hta).
    destruct (ta_name _ _ _ _ Hta eq_refl) as [nm Hnm]. exists [], (DNode o nm ps ks :: ks'). by eapply it_kid.
Qed.

Lemma top_holds o1 : token b 0 FDT_BEGIN_NODE o1 -> top b 0 -> exists t, holds b t /\ d_name t = [].
Proof.
  intros [Et _] Htop. inversion Htop as [o o' [E _]|o o' [E _] _|o o' [E _] _ _|o o1' o2 o3 p Ht Hname _ Hb Hend]; subst;
    try (rewrite Et in E; discriminate).
  assert (at_tag 0) as Hg by done. pose proof (token_at_tag b Hr _ _ _ Hg Ht ltac:(done)) as Hg1.
  destruct (body_items _ _ Hb Hg1) as (ps & ks & Hi).
  destruct (token_next b Hr _ _ _ (proj1 Hg) Ht ltac:(done)) as (_ & _ & _ & _ & Hta).
  destruct (ta_name _ _ _ _ Hta eq_refl) as [nm Hnm]. exists (DNode 0 nm ps ks).
  rewrite (get_name_tree b Hr 0 o1' nm Hg Ht Hnm) in Hname. injection Hname as _ Hz.
  split; [split_and!; [done|done|]; exists o2, o3; split; [|done]; by exists o1'|].
  cbn [d_name]. destruct nm; [done|]. rewrite zlen_cons in Hz. pose proof (zlen_nonneg nm). lia.
Qed.
End Checked.

(** ** Computing the tree of a blob *)

Section Parse.
  Context (b : region).
  Local Abbreviation m := (r_bytes b).
  Local Abbreviation st := (hv b 8).

Definition parse_prop (o : Z) : option pitem :=
  r ← fdt_get_string b (s32 (hv b (st + o + 8)));
  sp ← fst r;
  name ← cstr m sp;
  if snd r =? zlen name then
    val ← rdn m (st + o + 12) (hv b (st + o + 4));
    Some (PItem o name val)
  else None.

Fixpoint parse_items (fuel : nat) (o : Z) : option (list pitem * list dt * Z) :=
  match fuel with
  | O => None
  | S fuel =>
      t ← fdt_next_tag b o;
      let '(tag, next) := t in
      if next <? 0 then None
      else if tag =? FDT_END_NODE then Some ([], [], next)
      else if tag =? FDT_NOP then parse_items fuel next
      else if tag =? FDT_PROP then
        p ← parse_prop o;
        r ← parse_items fuel next;
        let '(ps, ks, o') := r in Some (p :: ps, ks, o')
      else if tag =? FDT_BEGIN_NODE then
        name ← cstr m (st + o + 4);
        r ← parse_items fuel next;
        let '(ps, ks, o2) := r in
        r ← parse_items fuel o2;
        let '(_, ks', o') := r in Some ([], DNode o name ps ks :: ks', o')
      else None
  end.

(** The root node, when the structure block starts with it and ends behind it. *)
Definition the_tree : option dt :=
  t ← fdt_next_tag b 0;
  if negb (t.1 =? FDT_BEGIN_NODE) || (t.2 <? 0) then None
  else
    name ← cstr m (st + 0 + 4);
    r ← parse_items (blob_fuel b) t.2;
    let '(ps, ks, o') := r in
    e ← fdt_next_tag b o';
    if negb (e.1 =? FDT_END) || (e.2 <? 0) then None else Some (DNode 0 name ps ks).

Lemma parse_prop_sound o p : parse_prop o = Some p -> p_off p = o /\ prop_at b p.
Proof.
  unfold parse_prop. destruct (fdt_get_string b _) as [[[sp|] n]|] eqn:Es; [|done|done]. cbn [mbind option_bind fst snd].
  destruct (cstr m sp) as [nm|] eqn:Ec; [|done]. cbn [mbind option_bind]. destruct (Z.eqb_spec n (zlen nm)) as [->|]; [|done].
  destruct (rdn m _ _) as [v|] eqn:Ev; [|done]. cbn [mbind option_bind]. intros [= <-]. split; [done|].
  apply rdn_inv in Ev as Hv. destruct Hv as (_ & _ & _ & Hl & _). split; [by exists sp|]. cbn [p_off p_val]. by rewrite Hl.
Qed.

Lemma parse_items_sound fuel : forall o ps ks o', parse_items fuel o = Some (ps, ks, o') -> items b o ps ks o'.
Proof.
  induction fuel as [|fuel IH]; intros o ps ks o' E; [done|]. cbn [parse_items] in E.
  destruct (fdt_next_tag b o) as [[tag next]|] eqn:Et; [|done]. cbn [mbind option_bind] in E.
  destruct (Z.ltb_spec next 0); [done|]. assert (token b o tag next) as Ht by (split; [done|lia]).
  destruct (Z.eqb_spec tag FDT_END_NODE) as [->|]; [injection E as <- <- <-; by apply it_end|].
  destruct (Z.eqb_spec tag FDT_NOP) as [->|]; [eapply it_nop; [done|by apply IH]|].
  destruct (Z.eqb_spec tag FDT_PROP) as [->|].
  { destruct (parse_prop o) as [p|] eqn:Ep; [|done]. cbn [mbind option_bind] in E.
    destruct (parse_items fuel next) as [[[ps1 ks1] o1]|] eqn:E1; [|done]. cbn [mbind option_bind] in E. injection E as <- <- <-.
    destruct (parse_prop_sound _ _ Ep). eapply it_prop; [done|done|done|by apply IH]. }
  destruct (Z.eqb_spec tag FDT_BEGIN_NODE) as [->|]; [|done].
  destruct (cstr m _) as [nm|] eqn:Ec; [|done]. cbn [mbind option_bind] in E.
  destruct (parse_items fuel next) as [[[ps1 ks1] o1]|] eqn:E1; [|done]. cbn [mbind option_bind] in E.
  destruct (parse_items fuel o1) as [[[ps2 ks2] o2]|] eqn:E2; [|done]. cbn [mbind option_bind] in E. injection E as <- <- <-.
  eapply it_kid; [done|done|by apply IH|by apply IH].
Qed.

Lemma the_tree_holds t : readable b -> the_tree = Some t -> holds b t.
Proof.
  intros Hr. unfold the_tree. destruct (fdt_next_tag b 0) as [[tag next]|] eqn:Et; [|done]. cbn [mbind option_bind fst snd].
  destruct (Z.eqb_spec tag FDT_BEGIN_NODE) as [->|]; [|done]. destruct (Z.ltb_spec next 0); [done|]. cbn [negb orb].
  destruct (cstr m _) as [nm|] eqn:Ec; [|done]. cbn [mbind option_bind].
  destruct (parse_items _ next) as [[[ps ks] o']|] eqn:E1; [|done]. cbn [mbind option_bind].
  destruct (fdt_next_tag b o') as [[tag' e]|] eqn:E2; [|done]. cbn [mbind option_bind fst snd].
  destruct (Z.eqb_spec tag' FDT_END) as [->|]; [|done]. destruct (Z.ltb_spec e 0); [done|]. cbn [negb orb].
  intros [= <-]. split_and!; [done|done|]. exists o', e. split; [|done]. exists next. split; [done|].
  split; [done|]. by eapply parse_items_sound.
Qed.
End Parse.

Lemma header_readable b : blob_ok b -> fdt_check_header b = Some 0 -> 0x10 <= hv b 20 -> readable b.
Proof.
  intros Hok Hh Hv. revert Hh. unfold fdt_check_header, fdt_magic, fdt_version, fdt_last_comp_version.
  destruct (Z.eqb_spec (Z.land (r_base b) 7) 0) as [Ha|]; [|done]. cbn [negb]. rewrite !(field_ok b Hok) by lia. cbn [mbind option_bind].
  destruct (Z.eqb_spec (hv b 0) FDT_MAGIC) as [Hm|]; [|done]. cbn [negb].
  destruct (Z.ltb_spec FDT_LAST_SUPPORTED_VERSION (hv b 24)) as [|Hc]; [by rewrite orb_true_r|]. intros _. by split.
Qed.

(** ** The theorems *)


(** The lookups on a tree, for use in the clients. *)
Lemma getprop_in b t s name : holds b t -> within s t ->
  match find_prop name (d_props s) with
  | Some p => exists d, fdt_getprop b (d_off s) name = Some (Some (d + 12), zlen (p_val p)) /\
      fdt_get_property b (d_off s) name = Some (Some d, zlen (p_val p)) /\
      rdn (r_bytes b) (d + 12) (zlen (p_val p)) = Some (p_val p)
  | None => fdt_getprop b (d_off s) name = Some (None, - FDT_ERR_NOTFOUND) /\
      fdt_get_property b (d_off s) name = Some (None, - FDT_ERR_NOTFOUND)
  end.
Proof.
  intros (Hr & H0 & o' & _ & Hn & _) Hw. assert (at_tag (d_off t)) as Hg by (rewrite H0; done).
  destruct (within_at b Hr t o' s Hg Hn Hw) as (e & Hsg & Hsn). destruct (getprop_tree b Hr name s e Hsg Hsn) as [E1 E2].
  rewrite E1, E2. destruct (find_prop name (d_props s)) as [p|] eqn:Ep; [|done].
  destruct (node_range b Hr s e Hsg Hsn) as (o1 & _ & Hi & Hg1 & _). apply List.find_some in Ep as [Hin _].
  destruct (items_prop b Hr _ _ _ _ p Hi Hg1) as (_ & _ & _ & _ & _ & Hv); [by apply list_elem_of_In|].
  exists (hv b 8 + p_off p). done.
Qed.

Lemma nodes_in b t s name : holds b t -> within s t ->
  (exists p, fdt_get_name b (d_off s) = Some (Some p, zlen (d_name s)) /\ cstr (r_bytes b) p = Some (d_name s)) /\
  fdt_for_each_subnode b (d_off s) = Some (map d_off (d_kids s)) /\
  fdt_subnode_offset b (d_off s) name =
    Some (match find_kid name (d_kids s) with Some k => d_off k | None => - FDT_ERR_NOTFOUND end) /\
  (forall k, k ∈ d_kids s -> fdt_parent_offset b (d_off k) = Some (d_off s)).
Proof.
  intros (Hr & H0 & o' & _ & Hn & _) Hw. assert (at_tag (d_off t)) as Hg by (rewrite H0; done).
  destruct (within_at b Hr t o' s Hg Hn Hw) as (e & Hsg & Hsn). pose proof Hsn as (o1 & Ht & Hnm & _). split_and!.
  - exists (hv b 8 + d_off s + 4). split; [|done]. by eapply get_name_tree.
  - by eapply for_each_subnode_tree.
  - by eapply subnode_offset_tree.
  - intros k Hk. assert (exists n, under k s n t) as [n Hu]; [|by eapply parent_tree].
    clear -Hw Hk. induction Hw as [|k' t Hk' _ [n IH]]; [exists 0; by constructor|]. exists (n + 1). by eapply under_kid.
Qed.

(** C20: [fdt_getprop] and [fdt_get_property] find the first property with the
    name among those of the node, and the value they point at is the
    property's. *)
Theorem fdt_getprop_correct b t s name : holds b t -> within s t ->
  match find_prop name (d_props s) with
  | Some p => exists d, fdt_getprop b (d_off s) name = Some (Some (d + 12), zlen (p_val p)) /\
      fdt_get_property b (d_off s) name = Some (Some d, zlen (p_val p)) /\
      rdn (r_bytes b) (d + 12) (zlen (p_val p)) = Some (p_val p)
  | None => fdt_getprop b (d_off s) name = Some (None, - FDT_ERR_NOTFOUND) /\
      fdt_get_property b (d_off s) name = Some (None, - FDT_ERR_NOTFOUND)
  end.
Proof. apply getprop_in. Qed.

(** C21: Names, sub-nodes and parents are those of the tree: [fdt_get_name]
    returns the node's name, [fdt_for_each_subnode] goes through its sub-nodes in
    order, [fdt_subnode_offset] finds the first of them that a path component
    means, and [fdt_parent_offset] of each of them is the node. *)
Theorem fdt_nodes_correct b t s name : holds b t -> within s t ->
  (exists p, fdt_get_name b (d_off s) = Some (Some p, zlen (d_name s)) /\ cstr (r_bytes b) p = Some (d_name s)) /\
  fdt_for_each_subnode b (d_off s) = Some (map d_off (d_kids s)) /\
  fdt_subnode_offset b (d_off s) name =
    Some (match find_kid name (d_kids s) with Some k => d_off k | None => - FDT_ERR_NOTFOUND end) /\
  (forall k, k ∈ d_kids s -> fdt_parent_offset b (d_off k) = Some (d_off s)).
Proof. apply nodes_in. Qed.

(** C19: [fdt_path_offset] of an absolute path follows the components of the path from
    the root, whatever the number and position of the slashes. *)
Theorem fdt_path_correct b t path fuel : holds b t -> hd 0 path = 47 ->
  fdt_path_offset b (S fuel) path =
    Some (match find_path t (split_path [] path) with Some k => d_off k | None => - FDT_ERR_NOTFOUND end).
Proof. intros H Hp. by apply path_offset_tree; [apply H|..]. Qed.

(** *** The sample tree *)

Lemma soc_readable : readable soc_blob.
Proof. split; [exact soc_blob_ok|vm_compute; congruence..]. Qed.

Definition soc_tree : dt := Eval vm_compute in default (DNode 0 [] [] []) (the_tree soc_blob).
Definition soc_memory : dt := Eval vm_compute in default soc_tree (find_path soc_tree [byte_list "memory"]).

Lemma soc_holds : holds soc_blob soc_tree.
Proof. apply the_tree_holds; [exact soc_readable|vm_compute; reflexivity]. Qed.

Lemma soc_memory_within : within soc_memory soc_tree.
Proof. eapply within_kid; [|apply within_here]. left. Qed.


Lemma fdt_getprop_tree_witness : exists d, fdt_getprop soc_blob 40 (byte_list "reg") = Some (Some (d + 12), 8).
Proof.
  destruct (fdt_getprop_correct soc_blob soc_tree soc_memory (byte_list "reg") soc_holds soc_memory_within) as (d & E & _).
  exists d. exact E.
Defined.

Lemma fdt_nodes_witness : fdt_for_each_subnode soc_blob 0 = Some [40; 76].
Proof. apply (fdt_nodes_correct soc_blob soc_tree soc_tree [] soc_holds (within_here _)). Defined.

Lemma fdt_path_witness : fdt_path_offset soc_blob 1 (byte_list "//soc///dev/") = Some 140.
Proof. apply (fdt_path_correct soc_blob soc_tree (byte_list "//soc///dev/") 0 soc_holds). reflexivity. Defined.
