(* ===== verification/FdtWalk.v ===== *)
(** The walk over all nodes of a tree: [fdt_next_node] without a depth goes through
    them in preorder, so that the search functions find the first node of the
    preorder that matches. *)
From S2P Require Import Prelude KDefs Bytes Fdt FdtRo FdtSafe FdtRoSafe FdtProps FdtHelper FdtCheck FdtTree FdtPath.

Fixpoint preorder (t : dt) : list dt := let 'DNode _ _ _ ks := t in t :: (ks ≫= preorder).

Lemma preorder_within s t : s ∈ preorder t -> within s t.
Proof.
  induction t as [o n ps ks IH] using dt_ind'. cbn [preorder]. rewrite elem_of_cons. intros [->|(k & Hk & Hin)%list_elem_of_bind]; [constructor|].
  rewrite Forall_forall in IH. eapply within_kid; [exact Hin|by apply IH].
Qed.

Lemma within_preorder s t : within s t -> s ∈ preorder t.
Proof.
  induction 1 as [|k t Hk _ IH]; [destruct s; left|]. destruct t as [o n ps ks]. cbn [preorder d_kids] in *. right. apply list_elem_of_bind. by exists k.
Qed.

Lemma within_trans x y z : within x y -> within y z -> within x z.
Proof. intros Hxy Hyz. induction Hyz; [done|]. by eapply within_kid; [|eauto]. Qed.

Lemma find_path_within path : forall t s, find_path t path = Some s -> within s t.
Proof.
  induction path as [|name path IH]; intros t s; cbn [find_path]; [intros [= ->]; constructor|]. destruct (find_kid name (d_kids t)) as [k|] eqn:Ek; [|done]. cbn [mbind option_bind]. intros H.
  eapply within_kid; [by apply (find_kid_in name)|by apply IH].
Qed.

(** The phandle of a node: the property "phandle" or, when it is not there or not
    a cell, "linux,phandle". *)
Definition cell_prop (name : list Z) (t : dt) : option Z :=
  p ← find_prop name (d_props t); if zlen (p_val p) =? 4 then Some (be (p_val p)) else None.
Definition node_phandle (t : dt) : Z :=
  match cell_prop (byte_list "phandle") t with
  | Some v => v
  | None => default 0 (cell_prop (byte_list "linux,phandle") t)
  end.

Section Walk.
  Context (b : region) (Hr : readable b).
  Local Abbreviation Hok := (rb_ok _ Hr).

(** Where the walk goes from [o]. *)
Definition nxt (o r : Z) : Prop := exists f, next_node_loop b f o None = Some (r, None).

Lemma nxt_eq o r : is_sw 32 o -> nxt o r -> next_node_loop b (blob_fuel b) o None = Some (r, None).
Proof.
  intros Ho [f E]. destruct (next_node_loop_ok b Hok (blob_fuel b) o None Ho) as (r' & d' & E' & _); [apply fuel_start; [exact Hok|lia]|].
  rewrite E'. apply (next_node_loop_mono b _ (f + blob_fuel b)) in E; [|lia]. apply (next_node_loop_mono b _ (f + blob_fuel b)) in E'; [|lia]. congruence.
Qed.

Lemma nxt_skip o tag o1 r : token b o tag o1 -> tag = FDT_NOP \/ tag = FDT_PROP \/ tag = FDT_END_NODE -> nxt o1 r -> nxt o r.
Proof. intros [Et _] [->|[->| ->]] [f E]; exists (S f); cbn [next_node_loop]; by rewrite Et. Qed.

(** The nodes the walk meets from [o] on, up to the end of the tree. *)
Inductive chain : Z -> list dt -> Prop :=
  | chain_end o : nxt o (- FDT_ERR_NOTFOUND) -> chain o []
  | chain_node o k o1 e l : nxt o (d_off k) -> at_tag (d_off k) -> node_at b k e -> token b (d_off k) FDT_BEGIN_NODE o1 -> chain o1 l -> chain o (k :: l).

Lemma chain_skip o tag o1 l : token b o tag o1 -> tag = FDT_NOP \/ tag = FDT_PROP \/ tag = FDT_END_NODE -> chain o1 l -> chain o l.
Proof. intros Ht Hg H. inversion H; subst; econstructor; try done; by eapply nxt_skip. Qed.

Lemma items_chain o ps ks e : items b o ps ks e -> at_tag o -> forall l, chain e l -> chain o ((ks ≫= preorder) ++ l).
Proof.
  induction 1 as [o e Ht|o o1 ps ks e Ht Hi IH|o o1 p ps ks e Ht _ _ Hi IH|o o1 o2 n ps ks ps' ks' e Ht Hn Hi1 IH1 Hi2 IH2];
    intros Hg l Hl; pose proof (token_at_tag b Hr _ _ _ Hg Ht ltac:(done)) as Hg1.
  - eapply chain_skip; [done|by right; right|done].
  - eapply chain_skip; [done|by left|by apply IH].
  - eapply chain_skip; [done|by right; left|by apply IH].
  - destruct (items_at_tag b Hr _ _ _ _ Hi1 Hg1) as [Hg2 _]. rewrite bind_cons. cbn [preorder app]. rewrite <- app_assoc.
    eapply (chain_node _ (DNode o n ps ks) o1 o2); [exists 1%nat; cbn [next_node_loop d_off]; destruct Ht as [-> _]; done|done|by exists o1|done|]. apply IH1; [done|]. by apply IH2.
Qed.

Lemma tree_chain t : holds b t -> chain 0 (preorder t).
Proof.
  intros (_ & H0 & e & e2 & Hn & Hend). assert (at_tag (d_off t)) as Hg by (by rewrite H0). pose proof Hn as (o1 & Ht & _ & Hi). pose proof (token_at_tag b Hr _ _ _ Hg Ht ltac:(done)) as Hg1.
  assert (chain e []) as Hc.
  { constructor. exists 1%nat. cbn [next_node_loop]. destruct Hend as [-> He]. cbn [mbind option_bind]. destruct (Z.leb_spec 0 e2); [done|lia]. }
  pose proof (items_chain _ _ _ _ Hi Hg1 [] Hc) as H. rewrite app_nil_r in H. destruct t as [o n ps ks]. cbn [d_off d_kids preorder] in *. subst o.
  eapply (chain_node _ (DNode 0 n ps ks) o1 e); [exists 1%nat; cbn [next_node_loop d_off]; destruct Ht as [-> _]; done|done|done|done|done].
Qed.

(** Where a search starts: before the root, or at a node. *)
Inductive starts (t : dt) : Z -> list dt -> Prop :=
  | starts_all : starts t (-1) (preorder t)
  | starts_after l1 n l2 : preorder t = l1 ++ n :: l2 -> starts t (d_off n) l2.

Definition off_or_end (l : list dt) : Z := match l with k :: _ => d_off k | [] => - FDT_ERR_NOTFOUND end.

Lemma chain_step k o1 e l : at_tag (d_off k) -> node_at b k e -> token b (d_off k) FDT_BEGIN_NODE o1 -> chain o1 l -> fdt_next_node b (d_off k) None = Some (off_or_end l, None).
Proof.
  intros Hg Hn Ht Hc. destruct (token_next b Hr _ _ _ (proj1 Hg) Ht ltac:(done)) as (Ho1 & H0 & Hlt & _). unfold fdt_next_node. destruct (Z.leb_spec 0 (d_off k)); [|lia].
  rewrite (token_check b Hr _ _ (proj1 Hg) Ht (proj2 Hg)). cbn [mbind option_bind]. destruct (Z.ltb_spec o1 0); [lia|]. apply nxt_eq; [done|]. by inversion Hc; subst.
Qed.

(** A node of the chain and what follows it. *)
Lemma chain_split o l1 k l2 : chain o (l1 ++ k :: l2) -> exists o1 e, at_tag (d_off k) /\ node_at b k e /\ token b (d_off k) FDT_BEGIN_NODE o1 /\ chain o1 l2.
Proof. revert o. induction l1 as [|x l1 IH]; intros o H; cbn [app] in H; inversion H; subst; [by do 2 eexists|by eapply IH]. Qed.

Lemma start_next t start l : holds b t -> starts t start l -> is_sw 32 start /\ fdt_next_node b start None = Some (off_or_end l, None).
Proof.
  intros Ht Hs. pose proof (tree_chain t Ht) as Hc. destruct Hs as [|l1 n l2 E].
  - split; [done|]. unfold fdt_next_node. cbn [Z.leb Z.compare]. apply nxt_eq; [done|]. by inversion Hc; subst.
  - rewrite E in Hc. apply chain_split in Hc as (o1 & e & Hg & Hn & Ht1 & Hc). split; [apply Hg|by eapply chain_step].
Qed.

Lemma starts_split t start l1 k l2 : starts t start (l1 ++ k :: l2) -> starts t (d_off k) l2 /\ k ∈ preorder t.
Proof.
  intros H. remember (l1 ++ k :: l2) as l eqn:E. destruct H as [|l3 n l4 E4]; subst.
  - split; [by eapply (starts_after t l1)|rewrite E, elem_of_app, elem_of_cons; auto].
  - split; [eapply (starts_after t (l3 ++ n :: l1)); by rewrite E4, <- app_assoc|rewrite E4, elem_of_app, elem_of_cons, elem_of_app, elem_of_cons; auto].
Qed.

Lemma node_off_pos t k : holds b t -> k ∈ preorder t -> 0 <= d_off k.
Proof.
  intros Ht Hk. apply list_elem_of_split in Hk as (l1 & l2 & E). pose proof (tree_chain t Ht) as Hc. rewrite E in Hc. apply chain_split in Hc as (o1 & e & Hg & Hn & _). by destruct (node_range b Hr k e Hg Hn) as (? & _ & _ & _ & _ & ? & _).
Qed.

(** ** Searches *)
Section Search.
  Context (t : dt) (Ht : holds b t) (matches : Z -> option (bool + Z)) (P : dt -> bool).
  Context (Hm : forall k, k ∈ preorder t -> matches (d_off k) = Some (inl (P k))).

Lemma search_mono f f' : forall o r, search_loop b matches f o = Some r -> (f <= f')%nat -> search_loop b matches f' o = Some r.
Proof.
  revert f'. induction f as [|f IH]; intros f' o r H Hf; [done|]. destruct f' as [|f']; [lia|]. cbn [search_loop] in *. destruct (0 <=? o); [|done].
  destruct (matches o) as [[[]|]|]; cbn [mbind option_bind] in *; try done. destruct (fdt_next_node b o None) as [[o1 d1]|]; [|done]. cbn [mbind option_bind] in *. apply IH; [done|lia].
Qed.

Definition found (l : list dt) : Z := match List.find P l with Some k => d_off k | None => - FDT_ERR_NOTFOUND end.

Lemma search_list l : forall l1 start, starts t start (l1 ++ l) -> exists f, search_loop b matches f (off_or_end l) = Some (found l).
Proof.
  induction l as [|k l IH]; intros l1 start Hs; [by exists 1%nat|]. destruct (starts_split t start l1 k l Hs) as [Hs2 Hin]. pose proof (node_off_pos t k Ht Hin).
  unfold found. cbn [List.find off_or_end]. destruct (P k) eqn:Ep.
  - exists 1%nat. cbn [search_loop]. destruct (Z.leb_spec 0 (d_off k)); [|lia]. rewrite (Hm k Hin), Ep. done.
  - destruct (IH [] _ Hs2) as [f Ef]. exists (S f). cbn [search_loop]. destruct (Z.leb_spec 0 (d_off k)); [|lia]. rewrite (Hm k Hin), Ep. cbn [mbind option_bind].
    destruct (start_next t _ _ Ht Hs2) as [_ ->]. exact Ef.
Qed.

Lemma search_tree start l : starts t start l -> is_Some (search_from b matches start) -> search_from b matches start = Some (found l).
Proof.
  intros Hs [r E]. rewrite E. f_equal. unfold search_from in E. destruct (start_next t _ _ Ht Hs) as [_ En]. rewrite En in E. cbn [mbind option_bind fst] in E.
  destruct (search_list l [] start Hs) as [f Ef]. apply (search_mono _ (f + blob_fuel b)) in E; [|lia]. apply (search_mono _ (f + blob_fuel b)) in Ef; [|lia]. congruence.
Qed.
End Search.

(** ** What the searches look at *)

Lemma cell_prop_tree t k name : holds b t -> within k t -> exists r, fdt_getprop b (d_off k) name = Some r /\
  match r with (Some php, 4) => exists v, fdt32_ld (r_bytes b) php = Some v /\ cell_prop name k = Some v | _ => cell_prop name k = None end.
Proof.
  intros Ht Hk. pose proof (getprop_in b t k name Ht Hk) as Hg. unfold cell_prop. destruct (find_prop name (d_props k)) as [p|]; cbn [mbind option_bind].
  - destruct Hg as (d & -> & _ & Ev). eexists. split; [done|]. destruct (Z.eqb_spec (zlen (p_val p)) 4) as [E4|N4].
    + rewrite E4 in *. exists (be (p_val p)). split; [|done]. unfold fdt32_ld, rd_be. by rewrite Ev.
    + destruct (zlen (p_val p)) as [|q|q]; try done. do 3 (destruct q as [q|q|]; try done).
  - destruct Hg as [-> _]. by eexists.
Qed.

Lemma get_phandle_tree t k : holds b t -> within k t -> fdt_get_phandle b (d_off k) = Some (node_phandle k).
Proof.
  intros Ht Hk. unfold fdt_get_phandle, node_phandle. destruct (cell_prop_tree t k (byte_list "phandle") Ht Hk) as (r & -> & H1). destruct (cell_prop_tree t k (byte_list "linux,phandle") Ht Hk) as (r2 & E2 & H2).
  cbn [mbind option_bind]. rewrite E2. cbn [mbind option_bind].
  assert (forall (r : option Z * Z) name A (f : Z -> A) (g : A), match r with (Some php, 4) => exists v, fdt32_ld (r_bytes b) php = Some v /\ cell_prop name k = Some v | _ => cell_prop name k = None end ->
    (exists php v, r = (Some php, 4) /\ fdt32_ld (r_bytes b) php = Some v /\ cell_prop name k = Some v) \/ (cell_prop name k = None /\ match r with (Some php, 4) => f php | _ => g end = g)) as Hcase.
  { intros [[php|] len] name A f g H; [|by right]. destruct len as [|q|q]; [by right| |by right]. do 3 (destruct q as [q|q|]; try by right). left. destruct H as (v & ? & ?). by exists php, v. }
  destruct (Hcase _ _ _ (fdt32_ld (r_bytes b)) (match r2 with (Some php, 4) => fdt32_ld (r_bytes b) php | _ => Some 0 end) H1) as [(php & v & -> & Ev & ->)|[-> Er]]; [exact Ev|]. etransitivity; [exact Er|].
  by destruct (Hcase _ _ _ (fdt32_ld (r_bytes b)) (Some 0) H2) as [(php & v & -> & Ev & ->)|[-> ->]].
Qed.

Lemma by_phandle_tree t ph : holds b t -> ph <> 0 -> ph <> u32 (-1) -> fdt_node_offset_by_phandle b ph = Some (found (fun k => node_phandle k =? ph) (preorder t)).
Proof.
  intros Ht H0 H1. pose proof (by_phandle_ok b Hok ph) as Hsome. unfold fdt_node_offset_by_phandle in *. destruct (Z.eqb_spec ph 0); [done|]. destruct (Z.eqb_spec ph (u32 (-1))); [done|]. cbn [orb] in *.
  rewrite (probe_tot b Hr) in *. cbn [mbind option_bind] in *. pose proof (field_range b Hok 4 ltac:(lia)). destruct (Z.ltb_spec (hv b 4) 0); [lia|].
  apply (search_tree t Ht); [|constructor|done]. intros k Hk. by rewrite (get_phandle_tree t k Ht (preorder_within _ _ Hk)).
Qed.

Lemma by_prop_value_tree t start l name val : holds b t -> starts t start l ->
  fdt_node_offset_by_prop_value b start name val = Some (found (fun k => bool_decide (p_val <$> find_prop name (d_props k) = Some val)) l).
Proof.
  intros Ht Hs. destruct (start_next t start l Ht Hs) as [Hsw _]. pose proof (by_prop_value_ok b Hok start name val Hsw) as Hsome. unfold fdt_node_offset_by_prop_value in *.
  rewrite (probe_tot b Hr) in *. cbn [mbind option_bind] in *. pose proof (field_range b Hok 4 ltac:(lia)). destruct (Z.ltb_spec (hv b 4) 0); [lia|].
  apply (search_tree t Ht); [|done|done]. intros k Hk. pose proof (getprop_in b t k name Ht (preorder_within _ _ Hk)) as Hg. destruct (find_prop name (d_props k)) as [p|]; cbn [fmap option_fmap option_map].
  - destruct Hg as (d & -> & _ & Ev). cbn [mbind option_bind]. destruct (Z.eqb_spec (zlen (p_val p)) (zlen val)) as [E|N].
    + unfold memeq. rewrite <- E, Ev. cbn [mbind option_bind fmap option_fmap option_map]. do 2 f_equal. apply bool_decide_ext. split; congruence.
    + rewrite bool_decide_eq_false_2; [done|]. congruence.
  - destruct Hg as [-> _]. by rewrite bool_decide_eq_false_2.
Qed.

(** The largest phandle of the tree. *)
Lemma max_phandle_mono f f' : forall o mx r, max_phandle_loop b f o mx = Some r -> (f <= f')%nat -> max_phandle_loop b f' o mx = Some r.
Proof.
  revert f'. induction f as [|f IH]; intros f' o mx r H Hf; [done|]. destruct f' as [|f']; [lia|]. cbn [max_phandle_loop] in *. destruct (fdt_next_node b o None) as [[o1 d1]|]; [|done].
  cbn [mbind option_bind fst] in *. destruct (o1 <? 0); [done|]. destruct (fdt_get_phandle b o1); [|done]. cbn [mbind option_bind] in *. apply IH; [done|lia].
Qed.

Definition max_phandle (l : list dt) (mx : Z) : Z := fold_left (fun mx k => Z.max mx (node_phandle k)) l mx.

Lemma max_phandle_list t l : holds b t -> forall start mx, starts t start l -> exists f, max_phandle_loop b f start mx = Some (0, max_phandle l mx).
Proof.
  intros Ht. induction l as [|k l IH]; intros start mx Hs; destruct (start_next t start _ Ht Hs) as [_ En].
  - exists 1%nat. cbn [max_phandle_loop]. by rewrite En.
  - destruct (starts_split t start [] k l Hs) as [Hs2 Hin]. pose proof (node_off_pos t k Ht Hin). destruct (IH _ (Z.max mx (node_phandle k)) Hs2) as [f Ef]. exists (S f). cbn [max_phandle_loop]. rewrite En.
    cbn [mbind option_bind fst off_or_end]. destruct (Z.ltb_spec (d_off k) 0); [lia|]. rewrite (get_phandle_tree t k Ht (preorder_within _ _ Hin)). cbn [mbind option_bind].
    replace (if mx <? node_phandle k then node_phandle k else mx) with (Z.max mx (node_phandle k)) by (destruct (Z.ltb_spec mx (node_phandle k)); lia). exact Ef.
Qed.

Lemma find_max_phandle_tree t : holds b t -> fdt_find_max_phandle b = Some (0, max_phandle (preorder t) 0).
Proof.
  intros Ht. destruct (max_phandle_ok b Hok) as [r E]. rewrite E. f_equal. unfold fdt_find_max_phandle in E. destruct (max_phandle_list t _ Ht (-1) 0 (starts_all t)) as [f Ef].
  apply (max_phandle_mono _ (f + blob_fuel b)) in E; [|lia]. apply (max_phandle_mono _ (f + blob_fuel b)) in Ef; [|lia]. congruence.
Qed.
End Walk.

(** C25: The searches over the whole tree find the first node of the preorder that
    matches, from the start or behind a node: [fdt_node_offset_by_phandle] the one
    with the phandle, [fdt_node_offset_by_prop_value] the one whose first property
    of the name has the value; [fdt_find_max_phandle] returns the largest phandle. *)
Theorem fdt_search_correct b t start l name val ph : holds b t -> starts t start l -> ph <> 0 -> ph <> u32 (-1) ->
  fdt_node_offset_by_prop_value b start name val = Some (found (fun k => bool_decide (p_val <$> find_prop name (d_props k) = Some val)) l) /\
  fdt_node_offset_by_phandle b ph = Some (found (fun k => node_phandle k =? ph) (preorder t)) /\
  fdt_find_max_phandle b = Some (0, max_phandle (preorder t) 0).
Proof.
  intros Ht Hs H0 H1. pose proof (proj1 Ht) as Hr. split_and!; [by apply by_prop_value_tree with (t := t)|by apply by_phandle_tree|by apply find_max_phandle_tree].
Qed.

Lemma fdt_search_witness : fdt_node_offset_by_prop_value soc_blob 40 (byte_list "reg") [0; 0; 0; 1] = Some (- FDT_ERR_NOTFOUND).
Proof. apply (fdt_search_correct soc_blob soc_tree 40 (tail (tail (preorder soc_tree))) (byte_list "reg") [0; 0; 0; 1] 1 soc_holds); [apply (starts_after soc_tree [soc_tree] soc_memory); reflexivity|done|done]. Defined.
