(* ===== verification/FdtReg.v ===== *)
(** Register addresses over a device tree: what [fdt_get_node_addr_size]
    (src/kernel/main/fdt_helper.c) and the cell counts of
    src/deps/libfdt/fdt_addresses.c return for a blob that holds a tree. *)
From S2P Require Import Prelude KDefs Bytes Fdt FdtRo FdtSafe FdtRoSafe FdtProps FdtHelper FdtCheck FdtTree FdtPath FdtWalk.

(** ** Cell counts of a node *)
Definition tree_cells (name : list Z) (s : dt) : Z :=
  match find_prop name (d_props s) with
  | None => - FDT_ERR_NOTFOUND
  | Some p => if (zlen (p_val p) =? 4) && (be (p_val p) <=? FDT_MAX_NCELLS) then be (p_val p) else - FDT_ERR_BADNCELLS
  end.
Definition tree_address_cells (s : dt) : Z :=
  let v := tree_cells (byte_list "#address-cells") s in
  if v =? 0 then - FDT_ERR_BADNCELLS else if v =? - FDT_ERR_NOTFOUND then 2 else v.
Definition tree_size_cells (s : dt) : Z :=
  let v := tree_cells (byte_list "#size-cells") s in if v =? - FDT_ERR_NOTFOUND then 1 else v.

(** A bus that maps addresses to themselves: it has cell counts, and no "ranges"
    or an empty one. *)
Definition identity_bus (s : dt) : Prop :=
  1 <= tree_address_cells s /\ 0 <= tree_size_cells s /\
  match find_prop (byte_list "ranges") (d_props s) with Some p => p_val p = [] | None => True end.

(** The [i]-th entry of a "reg" property with [ca] address and [cs] size cells. *)
Definition reg_addr (ca cs i : Z) (val : list Z) : Z :=
  u64 (be (take (Z.to_nat (4 * ca)) (drop (Z.to_nat (4 * i * (ca + cs))) val))).
Definition reg_size (ca cs i : Z) (val : list Z) : Z :=
  u64 (be (take (Z.to_nat (4 * cs)) (drop (Z.to_nat (4 * i * (ca + cs) + 4 * ca)) val))).

Section Reg.
  Context (b : region) (t : dt) (Ht : holds b t).
  Local Abbreviation m := (r_bytes b).
  Local Abbreviation Hr := (proj1 Ht).
  Local Abbreviation Hok := (rb_ok _ (proj1 Ht)).

Lemma fdt_cells_in s name : within s t -> fdt_cells b (d_off s) name = Some (tree_cells name s).
Proof.
  intros Hw. unfold fdt_cells, tree_cells. pose proof (getprop_in b t s name Ht Hw) as H.
  destruct (find_prop name (d_props s)) as [p|]; [|by destruct H as [-> _]].
  destruct H as (d & -> & _ & Hv). cbn [mbind option_bind]. destruct (Z.eqb_spec (zlen (p_val p)) 4) as [E|]; [|done].
  cbn [negb andb]. unfold fdt32_ld, rd_be. rewrite <- E, Hv. cbn [fmap option_fmap option_map mbind option_bind].
  unfold FDT_MAX_NCELLS. destruct (Z.ltb_spec 4 (be (p_val p))), (Z.leb_spec (be (p_val p)) 4); (done || lia).
Qed.

Lemma address_cells_in s : within s t -> fdt_address_cells b (d_off s) = Some (tree_address_cells s).
Proof. intros Hw. unfold fdt_address_cells. by rewrite fdt_cells_in. Qed.
Lemma size_cells_in s : within s t -> fdt_size_cells b (d_off s) = Some (tree_size_cells s).
Proof. intros Hw. unfold fdt_size_cells. by rewrite fdt_cells_in. Qed.

Lemma off_sw s : within s t -> is_sw 32 (d_off s) /\ 0 <= d_off s < hv b 4.
Proof.
  intros Hw. destruct Ht as (Hr' & H0 & o' & _ & Hn & _). assert (at_tag (d_off t)) as Hg by (rewrite H0; done).
  destruct (within_at b Hr' t o' s Hg Hn Hw) as (e & Hsg & Hsn).
  destruct (node_range b Hr' s e Hsg Hsn) as (o1 & _ & _ & _ & _ & ? & ? & ? & ?). pose proof (node_end_bound b Hr' s e Hsg Hsn).
  split; [apply Hsg|lia].
Qed.

(** A node is the root, or a sub-node of a node before it. *)
Lemma within_cases s : within s t -> s = t \/ exists p, within p t /\ s ∈ d_kids p /\ d_off p < d_off s.
Proof.
  intros Hw. destruct Ht as (Hr' & H0 & o' & _ & Hn & _). assert (at_tag (d_off t)) as Hg by (rewrite H0; done). clear H0 Ht.
  revert o' Hg Hn. induction Hw as [|k t' Hk Hw IH]; intros o' Hg Hn; [by left|right].
  destruct (kid_at b Hr' _ _ _ Hg Hn Hk) as (e & Hkn & Hkg & Hlt & ? & _).
  destruct (IH e Hkg Hkn) as [->|(p & Hp & Hin & Hl)].
  - exists t'. split_and!; [constructor|done|lia].
  - exists p. split_and!; [by eapply within_kid|done|done].
Qed.

Lemma translate_identity p reg : within p t -> identity_bus p -> fdt_translate_address b reg (d_off p) = Some (0, Some reg).
Proof.
  intros Hw (Ha & Hs & Hrg). unfold fdt_translate_address. rewrite address_cells_in, size_cells_in by done. cbn [mbind option_bind].
  destruct (Z.ltb_spec (tree_address_cells p) 1); [lia|]. cbn [mbind option_bind]. destruct (Z.ltb_spec (tree_size_cells p) 0); [lia|].
  pose proof (getprop_in b t p (byte_list "ranges") Ht Hw) as Hg.
  destruct (find_prop (byte_list "ranges") (d_props p)) as [q|].
  - destruct Hg as (d & -> & _). by rewrite Hrg.
  - by destruct Hg as [-> _].
Qed.

(** The walk to the root changes nothing when every bus on the way is an
    identity. *)
Lemma translate_loop_identity fuel : forall p temp addr, within p t ->
  (forall q, within p q -> within q t -> identity_bus q) -> d_off p + 1 < Z.of_nat fuel ->
  translate_loop b fuel temp (d_off p) addr = Some temp.
Proof.
  induction fuel as [|fuel IH]; intros p temp addr Hw Hid Hf; [pose proof (off_sw p Hw); lia|]. cbn [translate_loop].
  destruct (off_sw p Hw) as (Hsw & H0 & _). destruct (Z.ltb_spec (d_off p) 0); [lia|].
  rewrite translate_identity by first [done | apply Hid; [constructor|done]]. cbn [mbind option_bind].
  destruct (within_cases p Hw) as [->|(q & Hq & Hin & Hlt)].
  - destruct Ht as (_ & Ht0 & _). rewrite Ht0. destruct (parent_before b Hok 0) as (r & -> & _ & _ & Hneg). cbn [mbind option_bind].
    destruct fuel as [|fuel]; [lia|]. cbn [translate_loop]. destruct (Z.ltb_spec r 0); [done|lia].
  - pose proof (nodes_in b t q [] Ht Hq) as (_ & _ & _ & Hpar). rewrite (Hpar p Hin). cbn [mbind option_bind].
    apply IH; [done| |lia]. intros q' Hq' Hqt. apply Hid; [|done]. eapply within_trans; [|exact Hq'].
    eapply within_kid; [done|constructor].
Qed.

Lemma drop_rdn d val i : rdn m d (zlen val) = Some val -> (i <= length val)%nat -> forall n, (i + n <= length val)%nat ->
  take n (drop (Z.to_nat d + i) m) = take n (drop i val).
Proof.
  intros E Hi n Hn. apply rdn_inv in E as (H0 & _ & _ & _ & E). rewrite E. rewrite <- drop_drop.
  unfold zlen in *. rewrite Nat2Z.id in *. rewrite <- (take_drop (length val) (drop (Z.to_nat d) m)) at 1. rewrite <- E.
  rewrite drop_app_le by lia. rewrite take_app_le; [done|]. rewrite length_drop. lia.
Qed.

(** Up to the test of the index. *)
Lemma node_reg_start s p q want index addr0 size0 :
  let ca := tree_address_cells p in let cs := tree_size_cells p in
  within p t -> s ∈ d_kids p -> 1 <= ca -> 0 <= cs -> 0 <= index ->
  find_prop (byte_list "reg") (d_props s) = Some q -> index * (ca + cs) <= zlen (p_val q) / 4 ->
  exists d, rdn m d (zlen (p_val q)) = Some (p_val q) /\ 0 <= d /\ d + zlen (p_val q) <= hv b 4 /\
    node_addr_size b want (d_off s) index addr0 size0 =
      if zlen (p_val q) / 4 <=? index * (ca + cs) then Some (K_EINVAL, addr0, size0)
      else
        temp ← rd_cells b (Z.to_nat ca) (d + 4 * (index * (ca + cs))) 0;
        addr ← translate_loop b (blob_fuel b) temp (d_off p) addr0;
        size ← (if want then rd_cells b (Z.to_nat cs) (d + 4 * (index * (ca + cs)) + 4 * ca) 0 else Some size0);
        Some (0, addr, size).
Proof.
  intros ca cs Hw Hin Hca Hcs Hi Hq Hle.
  assert (within s t) as Hs by (eapply within_trans; [eapply within_kid; [exact Hin|constructor]|done]).
  destruct (off_sw s Hs) as (Hsw & H0 & _). destruct (off_sw p Hw) as (Hpsw & Hp0 & Hpt).
  unfold node_addr_size. destruct (Z.ltb_spec (d_off s) 0); [lia|]. destruct (Z.ltb_spec index 0); [lia|]. cbn [orb].
  pose proof (nodes_in b t p [] Ht Hw) as (_ & _ & _ & Hpar). rewrite (Hpar s Hin). cbn [mbind option_bind].
  destruct (Z.ltb_spec (d_off p) 0); [lia|]. rewrite address_cells_in, size_cells_in by done. fold ca cs. cbn [mbind option_bind].
  destruct (Z.ltb_spec ca 1); [lia|]. cbn [mbind option_bind]. destruct (Z.ltb_spec cs 0); [lia|].
  pose proof (getprop_in b t s (byte_list "reg") Ht Hs) as Hg. rewrite Hq in Hg. destruct Hg as (d & Eg & _ & Hv).
  rewrite Eg. cbn [mbind option_bind]. destruct (getprop_ok b Hok (d_off s) (byte_list "reg") Hsw) as (p0 & l & E & Hd).
  unfold fdt_getprop in Eg. rewrite E in Eg. injection Eg as -> ->. unfold INT_MAX in Hd. change (2 ^ 31 - 1) with 2147483647 in Hd.
  exists (d + 12). split_and!; [done|lia|lia|].
  assert (0 <= index * (ca + cs) /\ zlen (p_val q) / 4 < 2147483648) as [Hpos Hsm] by (split; [nia|apply Z.div_lt_upper_bound; lia]).
  rewrite sw_small by (unfold is_sw; change (2 ^ (32 - 1)) with 2147483648; lia).
  by rewrite !(uw_small 64) by (unfold is_uw; change (2 ^ 64) with 18446744073709551616; lia).
Qed.

(** [fdt_get_node_addr_size] decodes the entry of "reg". *)
Lemma node_addr_size_in s p q want index addr0 size0 :
  let ca := tree_address_cells p in let cs := tree_size_cells p in
  within p t -> s ∈ d_kids p -> (forall q, within p q -> within q t -> identity_bus q) ->
  find_prop (byte_list "reg") (d_props s) = Some q -> 0 <= index -> 4 * (index + 1) * (ca + cs) <= zlen (p_val q) ->
  node_addr_size b want (d_off s) index addr0 size0 =
    Some (0, reg_addr ca cs index (p_val q), if want then reg_size ca cs index (p_val q) else size0).
Proof.
  intros ca cs Hw Hin Hid Hq Hi Hlen. destruct (Hid p ltac:(constructor) Hw) as (Hca & Hcs & _). fold ca in Hca. fold cs in Hcs.
  set (len := zlen (p_val q)) in *.
  assert (index * (ca + cs) < len / 4) as Hlt.
  { assert (index * (ca + cs) + (ca + cs) <= len / 4); [|lia]. apply Z.div_le_lower_bound; nia. }
  destruct (node_reg_start s p q want index addr0 size0 Hw Hin Hca Hcs Hi Hq ltac:(fold ca cs len; lia)) as (d & Hv & Hd0 & Hd & ->).
  fold ca cs len in Hv, Hd |- *. destruct (Z.leb_spec (len / 4) (index * (ca + cs))); [lia|].
  pose proof (bo_size _ Hok) as Hbs. assert (4 * (index * (ca + cs)) + 4 * ca + 4 * cs <= len /\ 0 <= index * (ca + cs)) as [Hfit ?] by nia.
  rewrite (rd_cells_val b Hok (Z.to_nat ca)) by lia. cbn [mbind option_bind]. destruct (off_sw p Hw) as (Hpsw & Hp0 & Hpt).
  rewrite translate_loop_identity by (try done; unfold blob_fuel, zlen in *; lia). cbn [mbind option_bind].
  assert (G : forall n i, 0 <= i -> i + 4 * Z.of_nat n <= len -> take (4 * n) (drop (Z.to_nat (d + i)) m) = take (4 * n) (drop (Z.to_nat i) (p_val q))).
  { intros n i Hi0 Hin'. replace (Z.to_nat (d + i)) with (Z.to_nat d + Z.to_nat i)%nat by lia.
    unfold len, zlen in Hin'. apply drop_rdn; [done|lia|lia]. }
  assert (Z.to_nat (4 * ca) = 4 * Z.to_nat ca)%nat as Eca by lia. assert (Z.to_nat (4 * cs) = 4 * Z.to_nat cs)%nat as Ecs by lia.
  unfold reg_addr, reg_size. replace (4 * index * (ca + cs)) with (4 * (index * (ca + cs))) by lia.
  rewrite Eca, Ecs, G by lia. destruct want; [|done]. rewrite (rd_cells_val b Hok) by lia. cbn [mbind option_bind].
  rewrite <- Z.add_assoc, G by lia. done.
Qed.

(** Behind the last entry it reports an error. *)
Lemma node_addr_size_end s p q want index addr0 size0 :
  let ca := tree_address_cells p in let cs := tree_size_cells p in
  within p t -> s ∈ d_kids p -> 1 <= ca -> 0 <= cs -> 0 <= index ->
  find_prop (byte_list "reg") (d_props s) = Some q -> zlen (p_val q) = 4 * index * (ca + cs) ->
  node_addr_size b want (d_off s) index addr0 size0 = Some (K_EINVAL, addr0, size0).
Proof.
  intros ca cs Hw Hin Hca Hcs Hi Hq Hlen. assert (zlen (p_val q) / 4 = index * (ca + cs)) as Ediv.
  { rewrite Hlen. replace (4 * index * (ca + cs)) with (index * (ca + cs) * 4) by lia. by rewrite Z.div_mul by lia. }
  destruct (node_reg_start s p q want index addr0 size0 Hw Hin Hca Hcs Hi Hq ltac:(fold ca cs; lia)) as (d & _ & _ & _ & ->).
  fold ca cs. by rewrite Ediv, Z.leb_refl.
Qed.
End Reg.

(** C32: The register entry of a node. For a node [s] below [p] in the tree a
    blob holds, when every bus from [p] up to the root maps addresses to
    themselves and "reg" holds the [index]-th entry completely,
    [fdt_get_node_addr_size] returns 0, the big-endian value of the entry's
    address cells as the address and that of its size cells as the size (64
    bits of each), with the cell counts [p] gives. *)
Theorem node_addr_size_tree b t s p q index addr0 size0 :
  let ca := tree_address_cells p in let cs := tree_size_cells p in
  holds b t -> within p t -> s ∈ d_kids p -> (forall q, within p q -> within q t -> identity_bus q) ->
  find_prop (byte_list "reg") (d_props s) = Some q -> 0 <= index -> 4 * (index + 1) * (ca + cs) <= zlen (p_val q) ->
  fdt_get_node_addr_size b (d_off s) index addr0 size0 =
    Some (0, reg_addr ca cs index (p_val q), reg_size ca cs index (p_val q)).
Proof. intros ca cs Ht Hw Hin Hid Hq Hi Hlen. by apply (node_addr_size_in b t Ht s p q true). Qed.

Lemma soc_root_bus q : within soc_tree q -> within q soc_tree -> identity_bus q.
Proof.
  intros H1 H2. assert (q = soc_tree) as ->; [|vm_compute; split_and!; (congruence || done)].
  destruct (within_cases soc_blob soc_tree soc_holds q H2) as [E|(p & Hp & Hq & Hlt)]; [exact E|exfalso].
  assert (G : forall x y, within x y -> within y soc_tree -> d_off y <= d_off x).
  { intros x y Hxy. induction Hxy as [|k y Hk _ IH]; intros Hy; [lia|].
    assert (within k soc_tree) as Hkt by (eapply within_trans; [eapply within_kid; [exact Hk|constructor]|done]).
    specialize (IH Hkt). destruct soc_holds as (Hr' & H0 & o' & _ & Hn & _). assert (at_tag (d_off soc_tree)) as Hg by (rewrite H0; done).
    destruct (within_at _ Hr' _ o' y Hg Hn Hy) as (e & Hyg & Hyn). destruct (kid_at _ Hr' _ _ _ Hyg Hyn Hk) as (? & _ & _ & ? & _). lia. }
  specialize (G _ _ H1 H2). destruct (off_sw soc_blob soc_tree soc_holds p Hp) as [_ ?]. change (d_off soc_tree) with 0 in G. lia.
Qed.

Lemma node_addr_size_tree_witness : fdt_get_node_addr_size soc_blob 40 0 0 0 = Some (0, 0x80000000, 0x8000000).
Proof.
  apply (node_addr_size_tree soc_blob soc_tree soc_memory soc_tree (PItem 52 (byte_list "reg") (to_be 4 0x80000000 ++ to_be 4 0x8000000)) 0 0 0 soc_holds).
  - apply within_here.
  - vm_compute. left.
  - exact soc_root_bus.
  - reflexivity.
  - lia.
  - vm_compute. congruence.
Defined.
