(* ===== verification/FdtSw.v ===== *)
(** Writing a device tree from front to back: src/deps/libfdt/fdt_sw.c, with the
    header setters and the property helpers of libfdt.h.

    The state is the buffer the tree is built in: the header and the reservation
    map, the structure block growing upwards behind them, and the strings
    growing downwards from the end. A string argument is given without its
    NUL. *)
From S2P Require Import Prelude KDefs Bytes Fdt FdtRo FdtTree.

Definition FDT_CREATE_FLAG_NO_NAME_DEDUP : Z := 0x1.
Definition FDT_CREATE_FLAGS_ALL : Z := FDT_CREATE_FLAG_NO_NAME_DEDUP.

(** ** Accesses *)
Definition rd {A} (f : region -> option A) : M region A := fun b => v ← f b; Some (v, b).
Definition wr (p : Z) (l : list Z) : M region unit := fun b =>
  m ← wrn (r_bytes b) p l; Some (tt, Region (r_base b) m).

Definition fdt_set_magic (v : Z) : M region unit := wr 0 (to_be 4 v).
Definition fdt_set_totalsize (v : Z) : M region unit := wr 4 (to_be 4 v).
Definition fdt_set_off_dt_struct (v : Z) : M region unit := wr 8 (to_be 4 v).
Definition fdt_set_off_dt_strings (v : Z) : M region unit := wr 12 (to_be 4 v).
Definition fdt_set_off_mem_rsvmap (v : Z) : M region unit := wr 16 (to_be 4 v).
Definition fdt_set_version (v : Z) : M region unit := wr 20 (to_be 4 v).
Definition fdt_set_last_comp_version (v : Z) : M region unit := wr 24 (to_be 4 v).
Definition fdt_set_size_dt_strings (v : Z) : M region unit := wr 32 (to_be 4 v).
Definition fdt_set_size_dt_struct (v : Z) : M region unit := wr 36 (to_be 4 v).

(** ** The states of a buffer *)
Definition fdt_sw_probe_ : M region Z :=
  magic ← rd fdt_magic;
  if magic =? FDT_MAGIC then mret (- FDT_ERR_BADSTATE)
  else if negb (magic =? FDT_SW_MAGIC) then mret (- FDT_ERR_BADMAGIC)
  else mret 0.

Definition fdt_sw_probe_memrsv_ : M region Z :=
  err ← fdt_sw_probe_;
  if negb (err =? 0) then mret err
  else
    off ← rd fdt_off_dt_strings;
    mret (if negb (off =? 0) then - FDT_ERR_BADSTATE else 0).

Definition fdt_sw_probe_struct_ : M region Z :=
  err ← fdt_sw_probe_;
  if negb (err =? 0) then mret err
  else
    off ← rd fdt_off_dt_strings;
    total ← rd fdt_totalsize;
    mret (if negb (off =? total) then - FDT_ERR_BADSTATE else 0).

(** The probing macros: an error is returned at once. *)
Definition probed {A} (probe : M region Z) (fail : Z -> A) (f : M region A) : M region A :=
  err ← probe; if negb (err =? 0) then mret (fail err) else f.

Definition sw_flags : M region Z := rd fdt_last_comp_version.

(** ** Space for the structure block *)

(** [len] is a [size_t]; the pointer is [None] when there is no room. *)
Definition fdt_grab_space_ (len : Z) : M region (option Z) :=
  offset ← rd fdt_size_dt_struct;
  total ← rd fdt_totalsize;
  off_struct ← rd fdt_off_dt_struct;
  size_strings ← rd fdt_size_dt_strings;
  let spaceleft := u32 (total - off_struct - size_strings) in
  if (u64 (offset + len) <? offset) || (spaceleft <? u64 (offset + len)) then mret None
  else
    fdt_set_size_dt_struct (u32 (offset + len)) ≫= fun _ =>
    p ← rd (fun b => fdt_offset_ptr_ b offset);
    mret (Some p).

(** ** Creation *)
Definition sw_hdrsize : Z := FDT_ALIGN 40 16.

Definition fdt_create_with_flags (bufsize flags : Z) : M region Z :=
  if bufsize <? sw_hdrsize then mret (- FDT_ERR_NOSPACE)
  else if negb (Z.land flags (u32 (Z.lnot FDT_CREATE_FLAGS_ALL)) =? 0) then mret (- FDT_ERR_BADFLAGS)
  else
    wr 0 (replicate (Z.to_nat bufsize) 0) ≫= fun _ =>
    fdt_set_magic FDT_SW_MAGIC ≫= fun _ =>
    fdt_set_version FDT_LAST_SUPPORTED_VERSION ≫= fun _ =>
    fdt_set_last_comp_version flags ≫= fun _ =>
    fdt_set_totalsize bufsize ≫= fun _ =>
    fdt_set_off_mem_rsvmap sw_hdrsize ≫= fun _ =>
    off ← rd fdt_off_mem_rsvmap;
    fdt_set_off_dt_struct off ≫= fun _ =>
    fdt_set_off_dt_strings 0 ≫= fun _ =>
    mret 0.

Definition fdt_create (bufsize : Z) : M region Z := fdt_create_with_flags bufsize 0.

(** A computation on the part of the memory that starts at [p]. *)
Definition at_ptr {A} (p : Z) (f : M region A) : M region A := fun b =>
  if p <? 0 then None
  else
    match f (Region (r_base b + p) (drop (Z.to_nat p) (r_bytes b))) with
    | Some (a, b') => Some (a, Region (r_base b) (take (Z.to_nat p) (r_bytes b) ++ r_bytes b'))
    | None => None
    end.

(** [memmove(dst, src, n)] *)
Definition memmove (dst src n : Z) : M region unit := fun b =>
  l ← rdn (r_bytes b) src n; wr dst l b.

(** [fdt] and [buf] are offsets into one memory; the two may overlap. *)
Definition fdt_resize (fdt buf bufsize : Z) : M region Z :=
  probed (at_ptr fdt fdt_sw_probe_) id (
    if bufsize <? 0 then mret (- FDT_ERR_NOSPACE)
    else
      off_struct ← at_ptr fdt (rd fdt_off_dt_struct);
      size_struct ← at_ptr fdt (rd fdt_size_dt_struct);
      let headsize := u32 (off_struct + size_struct) in
      tailsize ← at_ptr fdt (rd fdt_size_dt_strings);
      total ← at_ptr fdt (rd fdt_totalsize);
      if total <? headsize + tailsize then mret (- FDT_ERR_INTERNAL)
      else if bufsize <? headsize + tailsize then mret (- FDT_ERR_NOSPACE)
      else
        let oldtail := fdt + total - tailsize in
        let newtail := buf + bufsize - tailsize in
        (if buf <=? fdt then
           memmove buf fdt headsize ≫= fun _ => memmove newtail oldtail tailsize
         else
           memmove newtail oldtail tailsize ≫= fun _ => memmove buf fdt headsize) ≫= fun _ =>
        at_ptr buf (fdt_set_totalsize bufsize) ≫= fun _ =>
        off ← at_ptr buf (rd fdt_off_dt_strings);
        (if negb (off =? 0) then at_ptr buf (fdt_set_off_dt_strings bufsize) else mret tt) ≫= fun _ =>
        mret 0).

(** ** The reservation map *)
Definition fdt_add_reservemap_entry (addr size : Z) : M region Z :=
  probed fdt_sw_probe_memrsv_ id (
    off ← rd fdt_off_dt_struct;
    let offset := s32 off in
    total ← rd fdt_totalsize;
    if total <? u64 (offset + 16) then mret (- FDT_ERR_NOSPACE)
    else
      wr offset (to_be 8 addr) ≫= fun _ =>
      wr (offset + 8) (to_be 8 size) ≫= fun _ =>
      fdt_set_off_dt_struct (u32 (offset + 16)) ≫= fun _ =>
      mret 0).

Definition fdt_finish_reservemap : M region Z :=
  err ← fdt_add_reservemap_entry 0 0;
  if negb (err =? 0) then mret err
  else
    total ← rd fdt_totalsize;
    fdt_set_off_dt_strings total ≫= fun _ =>
    mret 0.

(** ** Nodes *)
Definition fdt_begin_node (name : list Z) : M region Z :=
  probed fdt_sw_probe_struct_ id (
    let namelen := s32 (zlen name + 1) in
    nh ← fdt_grab_space_ (u64 (4 + FDT_TAGALIGN namelen));
    match nh with
    | None => mret (- FDT_ERR_NOSPACE)
    | Some nh =>
        wr nh (to_be 4 FDT_BEGIN_NODE) ≫= fun _ =>
        wr (nh + 4) (name ++ [0]) ≫= fun _ =>
        mret 0
    end).

Definition fdt_end_node : M region Z :=
  probed fdt_sw_probe_struct_ id (
    en ← fdt_grab_space_ FDT_TAGSIZE;
    match en with
    | None => mret (- FDT_ERR_NOSPACE)
    | Some en => wr en (to_be 4 FDT_END_NODE) ≫= fun _ => mret 0
    end).

(** ** Strings *)

(** The offset from the end of the buffer, which is negative; 0 for no room. *)
Definition fdt_add_string_ (s : list Z) : M region Z :=
  strtab ← rd fdt_totalsize;
  strtabsize ← rd fdt_size_dt_strings;
  let len := u32 (zlen s + 1) in
  let offset := u32 (strtabsize + len) in
  off_struct ← rd fdt_off_dt_struct;
  size_struct ← rd fdt_size_dt_struct;
  let struct_top := u32 (off_struct + size_struct) in
  if u32 (strtab - offset) <? struct_top then mret 0
  else
    wr (strtab - offset) (s ++ [0]) ≫= fun _ =>
    fdt_set_size_dt_strings (u32 (strtabsize + len)) ≫= fun _ =>
    mret (s32 (- offset)).

Definition fdt_del_last_string_ (s : list Z) : M region unit :=
  strtabsize ← rd fdt_size_dt_strings;
  fdt_set_size_dt_strings (u32 (s32 strtabsize - s32 (zlen s + 1))).

(** The offset, and whether the string was added. *)
Definition fdt_find_add_string_ (s : list Z) : M region (Z * bool) :=
  strtab ← rd fdt_totalsize;
  size ← rd fdt_size_dt_strings;
  let strtabsize := s32 size in
  b ← get;
  p ← lift (fdt_find_string_ (r_bytes b) (strtab - strtabsize) strtabsize s);
  match p with
  | Some p => mret (s32 (p - strtab), false)
  | None => off ← fdt_add_string_ s; mret (off, true)
  end.

(** ** Properties *)

(** The return code and [*valp]. *)
Definition fdt_property_placeholder (name : list Z) (len : Z) : M region (Z * option Z) :=
  probed fdt_sw_probe_struct_ (fun err => (err, None)) (
    flags ← sw_flags;
    r ← (if negb (Z.land flags FDT_CREATE_FLAG_NO_NAME_DEDUP =? 0)
         then off ← fdt_add_string_ name; mret (off, true)
         else fdt_find_add_string_ name);
    let '(nameoff, allocated) := (r : Z * bool) in
    if nameoff =? 0 then mret (- FDT_ERR_NOSPACE, None)
    else
      prop ← fdt_grab_space_ (u64 (12 + FDT_TAGALIGN len));
      match prop with
      | None =>
          (if allocated then fdt_del_last_string_ name else mret tt) ≫= fun _ =>
          mret (- FDT_ERR_NOSPACE, None)
      | Some prop =>
          wr prop (to_be 4 FDT_PROP) ≫= fun _ =>
          wr (prop + 8) (to_be 4 nameoff) ≫= fun _ =>
          wr (prop + 4) (to_be 4 len) ≫= fun _ =>
          mret (0, Some (prop + 12))
      end).

(** The length is that of [val]. *)
Definition fdt_property (name val : list Z) : M region Z :=
  r ← fdt_property_placeholder name (zlen val);
  match r with
  | (0, Some ptr) => wr ptr val ≫= fun _ => mret 0
  | (ret, _) => mret ret
  end.

Definition fdt_property_u32 (name : list Z) (val : Z) : M region Z := fdt_property name (to_be 4 val).
Definition fdt_property_u64 (name : list Z) (val : Z) : M region Z := fdt_property name (to_be 8 val).
Definition fdt_property_cell (name : list Z) (val : Z) : M region Z := fdt_property_u32 name val.
Definition fdt_property_string (name str : list Z) : M region Z := fdt_property name (str ++ [0]).

(** ** The end *)

(** The walk that makes the string offsets relative to the start of the strings;
    the result is [nextoffset] at the end. *)
Fixpoint finish_loop (fuel : nat) (offset : Z) : M region Z :=
  match fuel with
  | O => fault
  | S fuel =>
      b ← get;
      t ← lift (fdt_next_tag b offset);
      let '(tag, nextoffset) := (t : Z * Z) in
      if tag =? FDT_END then mret nextoffset
      else
        (if tag =? FDT_PROP then
           prop ← rd (fun b => fdt_offset_ptr_ b offset);
           nameoff ← rd (fun b => fdt32_ld (r_bytes b) (prop + 8));
           size ← rd fdt_size_dt_strings;
           wr (prop + 8) (to_be 4 (s32 (s32 nameoff + size)))
         else mret tt) ≫= fun _ =>
        finish_loop fuel nextoffset
  end.

Definition fdt_finish : M region Z :=
  probed fdt_sw_probe_struct_ id (
    end_ ← fdt_grab_space_ 4;
    match end_ with
    | None => mret (- FDT_ERR_NOSPACE)
    | Some end_ =>
        wr end_ (to_be 4 FDT_END) ≫= fun _ =>
        total ← rd fdt_totalsize;
        size_strings ← rd fdt_size_dt_strings;
        let oldstroffset := s32 (total - size_strings) in
        off_struct ← rd fdt_off_dt_struct;
        size_struct ← rd fdt_size_dt_struct;
        let newstroffset := s32 (off_struct + size_struct) in
        memmove newstroffset oldstroffset size_strings ≫= fun _ =>
        fdt_set_off_dt_strings newstroffset ≫= fun _ =>
        b ← get;
        nextoffset ← finish_loop (blob_fuel b) 0;
        if nextoffset <? 0 then mret nextoffset
        else
          size_strings ← rd fdt_size_dt_strings;
          fdt_set_totalsize (u32 (newstroffset + size_strings)) ≫= fun _ =>
          fdt_set_last_comp_version FDT_LAST_COMPATIBLE_VERSION ≫= fun _ =>
          fdt_set_magic FDT_MAGIC ≫= fun _ =>
          mret 0
    end).

(** ** Writing a whole tree *)

(** A tree without places. *)
Inductive stree := SNode (name : list Z) (props : list (list Z * list Z)) (kids : list stree).

Fixpoint erase (t : dt) : stree :=
  let 'DNode _ name ps ks := t in SNode name ((fun p => (p_name p, p_val p)) <$> ps) (erase <$> ks).

(** The calls of a program that writes a tree, stopping at the first error. *)
Definition and_then (f g : M region Z) : M region Z := err ← f; if negb (err =? 0) then mret err else g.

Fixpoint all_of (l : list (M region Z)) : M region Z :=
  match l with [] => mret 0 | f :: l => and_then f (all_of l) end.

Fixpoint write_node (t : stree) : M region Z :=
  let 'SNode name ps ks := t in
  and_then (fdt_begin_node name)
    (and_then (all_of ((fun p => fdt_property p.1 p.2) <$> ps))
      (and_then (all_of (write_node <$> ks)) fdt_end_node)).

Definition write_tree (bufsize flags : Z) (rsv : list (Z * Z)) (t : stree) : M region Z :=
  and_then (fdt_create_with_flags bufsize flags)
    (and_then (all_of ((fun e => fdt_add_reservemap_entry e.1 e.2) <$> rsv))
      (and_then fdt_finish_reservemap
        (and_then (write_node t) fdt_finish))).
