(* ===== verification/FdtSwProps.v ===== *)
(** What the functions of fdt_sw.c do to the buffer: it is a list of tokens, free
    space and strings, and every call appends tokens or reports that there is no
    room. *)
From S2P Require Import Prelude KDefs Bytes Fdt FdtRo FdtSafe FdtRoSafe FdtProps FdtHelper FdtCheck FdtTree FdtPath FdtSw.

(** ** Words and lists *)

Lemma zlen_to_be n v : zlen (to_be n v) = Z.of_nat n.
Proof. unfold zlen, to_be. rewrite length_rev. f_equal. revert v. induction n; intros v; cbn; [done|]. by rewrite IHn. Qed.

Lemma to_be_bytes n v : Forall is_byte (to_be n v).
Proof.
  unfold to_be. apply Forall_rev. revert v. induction n; intros v; constructor; [|apply IHn].
  unfold is_byte. apply Z.mod_pos_bound. lia.
Qed.

Lemma be_to_be4 v : be (to_be 4 v) = u32 v.
Proof.
  unfold be, to_be, uw. cbn -[Z.modulo Z.div Z.mul Z.add]. change (2 ^ 32) with 4294967296.
  Z.to_euclidean_division_equations. lia.
Qed.

Lemma wrn_mid l1 l2 l3 l : zlen l = zlen l2 -> wrn (l1 ++ l2 ++ l3) (zlen l1) l = Some (l1 ++ l ++ l3).
Proof.
  intros H. rewrite wrn_Some; [|auto with word|rewrite !zlen_app, H; pose proof (zlen_nonneg l3); lia].
  unfold zlen in *. f_equal. rewrite Nat2Z.id, take_app_length. do 2 f_equal.
  replace (Z.to_nat (Z.of_nat (length l1) + Z.of_nat (length l))) with (length l1 + length l2)%nat by lia.
  by rewrite <- drop_drop, drop_app_length, drop_app_length.
Qed.

Lemma rdn_mid l1 l2 l3 : rdn (l1 ++ l2 ++ l3) (zlen l1) (zlen l2) = Some l2.
Proof.
  apply (from_rdn _ _ l2 l3). split; [rewrite zlen_app; pose proof (zlen_nonneg (l2 ++ l3)); pose proof (zlen_nonneg l1); lia|].
  unfold zlen. by rewrite Nat2Z.id, drop_app_length.
Qed.

Lemma zlen_cells ws : zlen (cells ws) = 4 * zlen ws.
Proof. induction ws; [done|]. unfold cells in *. cbn [mbind list_bind]. rewrite zlen_app, zlen_cons, IHws, zlen_to_be. lia. Qed.

Lemma cells_bytes ws : Forall is_byte (cells ws).
Proof. induction ws; [constructor|]. unfold cells. cbn [mbind list_bind]. apply Forall_app. split; [apply to_be_bytes|done]. Qed.

Lemma cells_at ws i v : ws !! i = Some v ->
  cells ws = cells (take i ws) ++ to_be 4 v ++ cells (drop (S i) ws) /\ zlen (cells (take i ws)) = 4 * Z.of_nat i.
Proof.
  intros H. split; [|rewrite zlen_cells; unfold zlen; rewrite length_take; apply lookup_lt_Some in H; lia].
  rewrite <- (take_drop_middle ws i v H) at 1. unfold cells. rewrite bind_app. done.
Qed.

Lemma zlen_nul s : zlen (s ++ [0]) = zlen s + 1.
Proof. by rewrite zlen_app. Qed.

Lemma list_cut {A} (l : list A) n : 0 <= n <= zlen l -> exists l1 l2, l = l1 ++ l2 /\ zlen l1 = n.
Proof.
  intros H. exists (take (Z.to_nat n) l), (drop (Z.to_nat n) l). split; [by rewrite take_drop|].
  unfold zlen in *. rewrite length_take. lia.
Qed.

(** ** The buffer as a list of header words and what follows them *)
Definition buf (base : Z) (ws rest : list Z) : region := Region base (cells ws ++ rest).

Lemma word_at base ws rest i v : ws !! i = Some v -> is_uw 32 v ->
  fdt32_ld (r_bytes (buf base ws rest)) (4 * Z.of_nat i) = Some v.
Proof.
  intros H Hv. destruct (cells_at ws i v H) as [E L]. cbn [buf r_bytes]. unfold fdt32_ld, rd_be. rewrite E, <- L, <- !app_assoc.
  change 4 with (Z.of_nat 4). rewrite <- (zlen_to_be 4 v), rdn_mid. change (Some (be (to_be 4 v)) = Some v). by rewrite be_to_be4, uw_small.
Qed.

Lemma rd_word f base ws rest i v : (forall b, f b = fdt32_ld (r_bytes b) (4 * Z.of_nat i)) -> ws !! i = Some v -> is_uw 32 v ->
  rd f (buf base ws rest) = Some (v, buf base ws rest).
Proof. intros Hf H Hv. unfold rd. rewrite Hf, (word_at base ws rest i v H Hv). done. Qed.

Lemma wr_word base ws rest i v w : ws !! i = Some w ->
  wr (4 * Z.of_nat i) (to_be 4 v) (buf base ws rest) = Some (tt, buf base (<[i := v]> ws) rest).
Proof.
  intros H. destruct (cells_at ws i w H) as [E L]. unfold wr. cbn [buf r_bytes r_base]. rewrite E, <- L, <- !app_assoc.
  rewrite wrn_mid by (by rewrite !zlen_to_be). cbn. unfold buf. do 3 f_equal.
  destruct (cells_at (<[i := v]> ws) i v) as [-> _]; [apply list_lookup_insert_eq; by eapply lookup_lt_Some|].
  rewrite take_insert_ge, drop_insert_lt by lia. by rewrite <- !app_assoc.
Qed.

Lemma wr_rest base ws r1 r2 r3 p l : p = zlen (cells ws) + zlen r1 -> zlen l = zlen r2 ->
  wr p l (buf base ws (r1 ++ r2 ++ r3)) = Some (tt, buf base ws (r1 ++ l ++ r3)).
Proof.
  intros -> Hl. unfold wr. cbn [buf r_bytes r_base]. rewrite app_assoc, <- zlen_app, wrn_mid by done. cbn.
  unfold buf. by rewrite <- app_assoc.
Qed.

Lemma set_word f base ws rest i v w : (forall v, f v = wr (4 * Z.of_nat i) (to_be 4 v)) -> ws !! i = Some w ->
  f v (buf base ws rest) = Some (tt, buf base (<[i := v]> ws) rest).
Proof. intros -> H. by eapply wr_word. Qed.

(** ** The buffer while a tree is written *)

Section Buffer.
  Context (base total flags : Z) (Ht : 0 <= total < INT_MAX) (Hf : is_uw 32 flags).

(** The header, given where the structure block starts, what is stored as start
    of the strings, and the sizes of the strings and of the structure block. *)
Definition W (ost ostr sstr sst : Z) : list Z := [FDT_SW_MAGIC; total; ost; ostr; 48; 17; flags; 0; sstr; sst].

Section Fields.
  Context (ost ostr sstr sst : Z) (r : list Z).
  Local Abbreviation s := (buf base (W ost ostr sstr sst) r).

Lemma rd_sw_magic : rd fdt_magic s = Some (FDT_SW_MAGIC, s).
Proof. by apply (rd_word fdt_magic _ _ _ 0). Qed.
Lemma rd_total : rd fdt_totalsize s = Some (total, s).
Proof. apply (rd_word fdt_totalsize _ _ _ 1); [done|done|]. unfold is_uw, INT_MAX in *. lia. Qed.
Lemma rd_ost : is_uw 32 ost -> rd fdt_off_dt_struct s = Some (ost, s).
Proof. by apply (rd_word fdt_off_dt_struct _ _ _ 2). Qed.
Lemma rd_ostr : is_uw 32 ostr -> rd fdt_off_dt_strings s = Some (ostr, s).
Proof. by apply (rd_word fdt_off_dt_strings _ _ _ 3). Qed.
Lemma rd_flags : rd fdt_last_comp_version s = Some (flags, s).
Proof. by apply (rd_word fdt_last_comp_version _ _ _ 6). Qed.
Lemma rd_sstr : is_uw 32 sstr -> rd fdt_size_dt_strings s = Some (sstr, s).
Proof. by apply (rd_word fdt_size_dt_strings _ _ _ 8). Qed.
Lemma rd_sst : is_uw 32 sst -> rd fdt_size_dt_struct s = Some (sst, s).
Proof. by apply (rd_word fdt_size_dt_struct _ _ _ 9). Qed.
Lemma rd_ptr o : is_uw 32 ost -> rd (fun b => fdt_offset_ptr_ b o) s = Some (ost + o, s).
Proof. intros H. unfold rd, fdt_offset_ptr_. pose proof (rd_ost H) as E. unfold rd in E. by destruct (fdt_off_dt_struct s); simplify_eq/=. Qed.

Lemma set_ost v : fdt_set_off_dt_struct v s = Some (tt, buf base (W v ostr sstr sst) r).
Proof. exact (set_word fdt_set_off_dt_struct base (W ost ostr sstr sst) r 2 v ost (fun _ => eq_refl) eq_refl). Qed.
Lemma set_ostr v : fdt_set_off_dt_strings v s = Some (tt, buf base (W ost v sstr sst) r).
Proof. exact (set_word fdt_set_off_dt_strings base (W ost ostr sstr sst) r 3 v ostr (fun _ => eq_refl) eq_refl). Qed.
Lemma set_sstr v : fdt_set_size_dt_strings v s = Some (tt, buf base (W ost ostr v sst) r).
Proof. exact (set_word fdt_set_size_dt_strings base (W ost ostr sstr sst) r 8 v sstr (fun _ => eq_refl) eq_refl). Qed.
Lemma set_sst v : fdt_set_size_dt_struct v s = Some (tt, buf base (W ost ostr sstr v) r).
Proof. exact (set_word fdt_set_size_dt_struct base (W ost ostr sstr sst) r 9 v sst (fun _ => eq_refl) eq_refl). Qed.

Lemma sw_probe : fdt_sw_probe_ s = Some (0, s).
Proof. unfold fdt_sw_probe_, mbind, M_bind. by rewrite rd_sw_magic. Qed.
End Fields.

Lemma sw_probe_struct {A} ost sstr sst r (fail : Z -> A) f :
  probed fdt_sw_probe_struct_ fail f (buf base (W ost total sstr sst) r) = f (buf base (W ost total sstr sst) r).
Proof.
  unfold probed, fdt_sw_probe_struct_, mbind, M_bind. rewrite sw_probe. cbn [negb Z.eqb].
  rewrite rd_ostr, rd_total by (unfold is_uw, INT_MAX in *; lia). by rewrite Z.eqb_refl.
Qed.

(** ** Space *)
Lemma grab ost sstr sst r len : 0 <= ost -> 0 <= sstr -> 0 <= sst -> ost + sst + sstr <= total -> 0 <= len < 2 ^ 63 ->
  fdt_grab_space_ len (buf base (W ost total sstr sst) r) =
  if ost + sst + len + sstr <=? total then Some (Some (ost + sst), buf base (W ost total sstr (sst + len)) r)
  else Some (None, buf base (W ost total sstr sst) r).
Proof.
  intros H1 H2 H3 H4 Hl. unfold INT_MAX in Ht. unfold fdt_grab_space_, mbind, M_bind.
  rewrite rd_sst, rd_total, rd_ost, rd_sstr by (unfold is_uw; lia).
  rewrite (uw_small 32 (total - ost - sstr)) by (unfold is_uw; lia).
  rewrite (uw_small 64 (sst + len)) by (unfold is_uw; lia).
  destruct (Z.ltb_spec (sst + len) sst); [lia|]. cbn [orb].
  destruct (Z.leb_spec (ost + sst + len + sstr) total); destruct (Z.ltb_spec (total - ost - sstr) (sst + len)); try lia; [|done].
  rewrite uw_small by (unfold is_uw; lia). rewrite set_sst, rd_ptr by (unfold is_uw; lia). done.
Qed.

(** ** Tokens *)

(** A token as it lies in the structure block: names and values with the bytes
    that pad them, and the offset of a property's name from the end of the
    buffer. *)
Inductive tok :=
  | KBegin (name pad : list Z)
  | KProp (name : list Z) (off : Z) (val pad : list Z)
  | KEnd
  | KNop
  | KFin.

Definition enc (k : tok) : list Z :=
  match k with
  | KBegin name pad => to_be 4 FDT_BEGIN_NODE ++ (name ++ [0]) ++ pad
  | KProp _ off val pad => to_be 4 FDT_PROP ++ to_be 4 (zlen val) ++ to_be 4 off ++ val ++ pad
  | KEnd => to_be 4 FDT_END_NODE
  | KNop => to_be 4 FDT_NOP
  | KFin => to_be 4 FDT_END
  end.
Definition encs (ks : list tok) : list Z := ks ≫= enc.

(** The string [s] starts [- off] bytes before the end of the strings. *)
Definition str_ref (strs : list Z) (off : Z) (s : list Z) : Prop :=
  exists l1 l2, strs = l1 ++ (s ++ [0]) ++ l2 /\ off = - (zlen s + 1 + zlen l2).

Definition text (s : list Z) : Prop := (0 ∉ s) /\ Forall is_byte s.

Definition tok_wf (k : tok) : Prop :=
  match k with
  | KBegin name pad => text name /\ zlen pad = (- (zlen name + 1)) mod 4 /\ Forall is_byte pad
  | KProp name _ val pad => text name /\ Forall is_byte val /\ zlen pad = (- zlen val) mod 4 /\ Forall is_byte pad
  | KEnd | KNop | KFin => True
  end.

(** The name of a property is one of the strings. *)
Definition tok_ok (strs : list Z) (k : tok) : Prop :=
  tok_wf k /\ match k with KProp name off _ _ => str_ref strs off name | _ => True end.

Lemma tok_ok_more strs new k : tok_ok strs k -> tok_ok (new ++ strs) k.
Proof.
  intros [Hw H]. split; [done|]. destruct k; try done. destruct H as (l1 & l2 & -> & ->).
  exists (new ++ l1), l2. split; [apply app_assoc|done].
Qed.

Definition tok_size (k : tok) : Z :=
  match k with
  | KBegin name _ => 4 + FDT_TAGALIGN (zlen name + 1)
  | KProp _ _ val _ => 12 + FDT_TAGALIGN (zlen val)
  | KEnd | KNop | KFin => 4
  end.
Lemma zlen_enc k : tok_wf k -> zlen (enc k) = tok_size k.
Proof.
  destruct k; cbn [enc tok_wf tok_size]; rewrite ?zlen_app; change (zlen [0]) with 1; rewrite ?zlen_to_be, ?tagalign_eq; intros H; try done.
  - destruct H as (_ & -> & _). lia.
  - destruct H as (_ & _ & -> & _). lia.
Qed.

Lemma encs_app ks1 ks2 : encs (ks1 ++ ks2) = encs ks1 ++ encs ks2.
Proof. apply bind_app. Qed.
Lemma encs_one k : encs [k] = enc k.
Proof. unfold encs. cbn. by rewrite app_nil_r. Qed.

(** What a token says. *)
Inductive stok := OBegin (name : list Z) | OProp (name val : list Z) | OEnd | ONop | OFin.
Definition strip (k : tok) : stok :=
  match k with KBegin n _ => OBegin n | KProp n _ v _ => OProp n v | KEnd => OEnd | KNop => ONop | KFin => OFin end.

(** ** The buffer with some tokens and strings *)
Context (rsv : list Z).

(** What precedes the free space, behind the header words. *)
Definition pre (ks : list tok) : list Z := replicate 8 0 ++ rsv ++ encs ks.

Definition wbuf (ks : list tok) (gap strs : list Z) : region :=
  buf base (W (48 + zlen rsv) total (zlen strs) (zlen (encs ks))) (pre ks ++ gap ++ strs).

Record rep (ks : list tok) (gap strs : list Z) : Prop := {
  rp_fit : 48 + zlen rsv + zlen (encs ks) + zlen gap + zlen strs = total;
  rp_gap : Forall is_byte gap;
  rp_strs : Forall is_byte strs;
  rp_toks : Forall (tok_ok strs) ks;
}.

(** A call that appends tokens: it returns 0, or -FDT_ERR_NOSPACE when less than
    [need] bytes are free; in both cases the buffer is one as before. *)
Definition adds (f : M region Z) (need : Z) (ss : list stok) : Prop :=
  forall ks gap strs, rep ks gap strs -> exists rc ts gap' new,
    f (wbuf ks gap strs) = Some (rc, wbuf (ks ++ ts) gap' (new ++ strs)) /\ rep (ks ++ ts) gap' (new ++ strs) /\
    ((rc = 0 /\ strip <$> ts = ss /\ zlen gap <= zlen gap' + need) \/ (rc = - FDT_ERR_NOSPACE /\ zlen gap < need)).

Lemma adds_then f g n m ss1 ss2 : adds f n ss1 -> adds g m ss2 -> 0 <= m -> adds (and_then f g) (n + m) (ss1 ++ ss2).
Proof.
  intros Hfs Hg Hm ks gap strs Hr. destruct (Hfs ks gap strs Hr) as (rc & ts & gap' & new & E & Hr' & H).
  unfold and_then, mbind, M_bind. rewrite E. destruct H as [(-> & Hs & Hn)|(-> & Hn)]; cbn [negb Z.eqb].
  - destruct (Hg _ _ _ Hr') as (rc & ts2 & gap2 & new2 & E2 & Hr2 & H2). rewrite <- !app_assoc in E2, Hr2.
    exists rc, (ts ++ ts2), gap2, (new2 ++ new). rewrite <- !app_assoc.
    split; [done|]. split; [done|].
    destruct H2 as [(-> & Hs2 & Hn2)|(-> & Hn2)]; [left|right]; [|split; [done|lia]]. split; [done|]. rewrite fmap_app, Hs, Hs2. split; [done|lia].
  - exists (- FDT_ERR_NOSPACE), ts, gap', new. split; [done|]. split; [done|]. right. split; [done|]. lia.
Qed.

Lemma zlen_pre ks : zlen (pre ks) = 8 + zlen rsv + zlen (encs ks).
Proof. unfold pre. rewrite !zlen_app. unfold zlen at 1. rewrite length_replicate. lia. Qed.

Lemma pre_snoc ks k : pre (ks ++ [k]) = pre ks ++ enc k.
Proof. unfold pre. by rewrite encs_app, encs_one, <- !app_assoc. Qed.

(** A write into the free space. *)
Lemma wr_gap ks ost sstr sst g g1 g2 g3 tl p l : g = g1 ++ g2 ++ g3 -> p = 40 + zlen (pre ks) + zlen g1 -> zlen l = zlen g2 ->
  wr p l (buf base (W ost total sstr sst) (pre ks ++ g ++ tl)) =
  Some (tt, buf base (W ost total sstr sst) (pre ks ++ (g1 ++ l ++ g3) ++ tl)).
Proof.
  intros -> -> Hl. rewrite <- !app_assoc, (app_assoc (pre ks) g1 (g2 ++ _)), (wr_rest _ _ _ g2).
  - by rewrite <- app_assoc.
  - rewrite zlen_app, zlen_cells. change (zlen (W ost total sstr sst)) with 10. lia.
  - done.
Qed.

Lemma struct_sw {A} ks gap strs (fail : Z -> A) f : probed fdt_sw_probe_struct_ fail f (wbuf ks gap strs) = f (wbuf ks gap strs).
Proof. apply sw_probe_struct. Qed.

Lemma grab_no ks gap strs len : rep ks gap strs -> zlen gap < len < 2 ^ 63 ->
  fdt_grab_space_ len (wbuf ks gap strs) = Some (None, wbuf ks gap strs).
Proof.
  intros Hr Hl. pose proof (rp_fit _ _ _ Hr) as Hfit. pose proof (zlen_nonneg rsv). pose proof (zlen_nonneg gap).
  pose proof (zlen_nonneg strs). pose proof (zlen_nonneg (encs ks)).
  unfold wbuf. rewrite grab by lia. zcase; [lia|done].
Qed.

Lemma grab_yes ks (g gap strs : list Z) len : rep ks (g ++ gap) strs -> len = zlen g ->
  fdt_grab_space_ len (wbuf ks (g ++ gap) strs) =
  Some (Some (40 + zlen (pre ks)), buf base (W (48 + zlen rsv) total (zlen strs) (zlen (encs ks) + zlen g)) (pre ks ++ (g ++ gap) ++ strs)).
Proof.
  intros Hr ->. pose proof (rp_fit _ _ _ Hr) as Hfit. rewrite zlen_app in Hfit. pose proof (zlen_nonneg rsv). pose proof (zlen_nonneg gap).
  pose proof (zlen_nonneg g). pose proof (zlen_nonneg strs). pose proof (zlen_nonneg (encs ks)). unfold INT_MAX in Ht.
  unfold wbuf. rewrite grab by lia. rewrite zlen_pre. zcase; [|lia]. do 3 f_equal. lia.
Qed.

(** The grabbed space filled with a token. *)
Lemma sw_snoc ks k (g gap strs : list Z) : zlen (enc k) = zlen g ->
  buf base (W (48 + zlen rsv) total (zlen strs) (zlen (encs ks) + zlen g)) (pre ks ++ (enc k ++ gap) ++ strs) = wbuf (ks ++ [k]) gap strs.
Proof. intros H. unfold wbuf. rewrite pre_snoc, encs_app, encs_one, zlen_app, H. by rewrite <- !app_assoc. Qed.

Lemma rep_snoc ks k g gap strs : zlen (enc k) = zlen g -> tok_ok strs k -> rep ks (g ++ gap) strs -> rep (ks ++ [k]) gap strs.
Proof.
  intros Hl Hk [H1 H2 H3 H4]. apply Forall_app in H2 as [_ H2]. split; [|done|done|apply Forall_app; split; [done|by constructor]].
  rewrite encs_app, encs_one, zlen_app, Hl. rewrite zlen_app in H1. lia.
Qed.

(** A call that appends one token of [n] bytes. *)
Lemma adds_one f n s : 0 <= n < 2 ^ 63 ->
  (forall ks gap strs, rep ks gap strs -> zlen gap < n -> f (wbuf ks gap strs) = Some (- FDT_ERR_NOSPACE, wbuf ks gap strs)) ->
  (forall ks g gap strs, rep ks (g ++ gap) strs -> zlen g = n -> exists k, strip k = s /\ tok_ok strs k /\ zlen (enc k) = n /\
    f (wbuf ks (g ++ gap) strs) = Some (0, wbuf (ks ++ [k]) gap strs)) ->
  adds f n [s].
Proof.
  intros Hn Hbad Hgood ks gap strs Hr. destruct (Z.lt_ge_cases (zlen gap) n) as [Hlt|Hge].
  - exists (- FDT_ERR_NOSPACE), [], gap, []. rewrite app_nil_r. split; [by apply Hbad|]. split; [done|]. by right.
  - destruct (list_cut gap n) as (g & gap' & -> & Hg); [lia|]. destruct (Hgood ks g gap' strs Hr Hg) as (k & <- & Hk & Hl & E).
    exists 0, [k], gap', []. split; [done|]. split; [by apply (rep_snoc _ _ g); [lia|..]|]. left. rewrite zlen_app. split_and!; [done|done|lia].
Qed.

Lemma end_node_adds : adds fdt_end_node 4 [OEnd].
Proof.
  apply adds_one; [lia|intros ks gap strs Hr Hlt|intros ks g gap strs Hr Hg]; unfold fdt_end_node; setoid_rewrite struct_sw;
    unfold mbind, M_bind, FDT_TAGSIZE.
  - by rewrite grab_no by (done || lia).
  - exists KEnd. split_and!; [done|done|done|]. rewrite grab_yes by done.
    rewrite (wr_gap _ _ _ _ _ [] g gap) by (done || rewrite ?zlen_nil; lia).
    by rewrite <- (sw_snoc ks KEnd g) by (by rewrite Hg).
Qed.

Lemma begin_node_adds name : text name -> zlen name < 2 ^ 30 ->
  adds (fdt_begin_node name) (4 + FDT_TAGALIGN (zlen name + 1)) [OBegin name].
Proof.
  intros Hn Hl. pose proof (zlen_nonneg name). set (n := zlen name + 1). rewrite tagalign_eq.
  pose proof (Z.mod_pos_bound (- n) 4 ltac:(lia)).
  apply adds_one; [lia|intros ks gap strs Hr Hlt|intros ks g gap strs Hr Hg]; unfold fdt_begin_node; setoid_rewrite struct_sw;
    rewrite (sw_small 32 (zlen name + 1)) by (unfold is_sw; lia); fold n; rewrite tagalign_eq, (uw_small 64) by (unfold is_uw; lia);
    unfold mbind, M_bind.
  - by rewrite grab_no by (done || lia).
  - destruct (list_cut g 4) as (ga & g' & -> & La); [lia|]. rewrite zlen_app in Hg.
    destruct (list_cut g' n) as (gb & pad & -> & Lb); [lia|]. rewrite zlen_app in Hg.
    assert (tok_ok strs (KBegin name pad)) as Hk.
    { split; [|done]. split_and!; [done|unfold n in *; lia|]. pose proof (rp_gap _ _ _ Hr) as Hb. rewrite !Forall_app in Hb. apply Hb. }
    pose proof (zlen_enc _ (proj1 Hk)) as Hz. cbn [tok_size] in Hz. fold n in Hz. rewrite tagalign_eq in Hz.
    exists (KBegin name pad). split_and!; [done|done|lia|]. rewrite grab_yes by (done || rewrite !zlen_app; lia).
    rewrite (wr_gap _ _ _ _ _ [] ga ((gb ++ pad) ++ gap)) by (rewrite ?zlen_nil, ?zlen_to_be, <- ?app_assoc; done || lia).
    cbn [app]. rewrite (wr_gap _ _ _ _ _ (to_be 4 FDT_BEGIN_NODE) gb (pad ++ gap)).
    2: by rewrite <- !app_assoc. 2: rewrite zlen_to_be; lia. 2: by rewrite zlen_nul.
    rewrite <- (sw_snoc ks (KBegin name pad) (ga ++ gb ++ pad)) by (rewrite !zlen_app; lia).
    cbn [enc]. by rewrite <- !app_assoc.
Qed.

(** ** Strings *)
Lemma rep_string ks (gap g strs : list Z) s : text s -> zlen g = zlen s + 1 -> rep ks (gap ++ g) strs -> rep ks gap ((s ++ [0]) ++ strs).
Proof.
  intros [_ Hs] Hg [H1 H2 H3 H4]. apply Forall_app in H2 as [H2 _]. rewrite zlen_app in H1. split.
  - rewrite zlen_app, zlen_nul. lia.
  - done.
  - rewrite !Forall_app. split_and!; [done|by repeat constructor|done].
  - eapply Forall_impl; [done|]. intros k. apply tok_ok_more.
Qed.

Lemma add_string_yes ks (gap g strs : list Z) s : rep ks (gap ++ g) strs -> zlen g = zlen s + 1 ->
  fdt_add_string_ s (wbuf ks (gap ++ g) strs) = Some (- (zlen strs + (zlen s + 1)), wbuf ks gap ((s ++ [0]) ++ strs)).
Proof.
  intros Hr Hg. pose proof (rp_fit _ _ _ Hr) as Hfit. rewrite zlen_app in Hfit. pose proof (zlen_nonneg rsv). pose proof (zlen_nonneg gap).
  pose proof (zlen_nonneg s). pose proof (zlen_nonneg strs). pose proof (zlen_nonneg (encs ks)). unfold INT_MAX in Ht.
  unfold wbuf, fdt_add_string_, mbind, M_bind. rewrite rd_total, rd_sstr, rd_ost, rd_sst by (unfold is_uw; lia).
  rewrite (uw_small 32 (zlen s + 1)), (uw_small 32 (zlen strs + (zlen s + 1))) by (unfold is_uw; lia). rewrite !(uw_small 32) by (unfold is_uw; lia). zcase; [lia|].
  rewrite <- app_assoc, (app_assoc (pre ks) gap), (wr_rest _ _ (pre ks ++ gap) g strs).
  - rewrite set_sstr. rewrite sw_small by (unfold is_sw; lia). rewrite zlen_app, zlen_nul, <- !app_assoc. unfold mret, M_ret.
    do 4 f_equal. lia.
  - rewrite zlen_cells, zlen_app, zlen_pre. change (zlen (W _ _ _ _)) with 10. lia.
  - by rewrite zlen_nul.
Qed.

Lemma add_string_no ks gap strs s : rep ks gap strs -> zlen gap < zlen s + 1 <= 48 ->
  fdt_add_string_ s (wbuf ks gap strs) = Some (0, wbuf ks gap strs).
Proof.
  intros Hr Hg. pose proof (rp_fit _ _ _ Hr) as Hfit. pose proof (zlen_nonneg rsv). pose proof (zlen_nonneg gap).
  pose proof (zlen_nonneg strs). pose proof (zlen_nonneg (encs ks)). unfold INT_MAX in Ht.
  unfold wbuf, fdt_add_string_, mbind, M_bind. rewrite rd_total, rd_sstr, rd_ost, rd_sst by (unfold is_uw; lia).
  rewrite (uw_small 32 (zlen s + 1)), (uw_small 32 (zlen strs + (zlen s + 1))) by (unfold is_uw; lia). rewrite !(uw_small 32) by (unfold is_uw; lia). zcase; [done|lia].
Qed.

(** Rolling back: the string becomes free space again. *)
Lemma del_string ks gap strs s : rep ks gap ((s ++ [0]) ++ strs) -> Forall (tok_ok strs) ks ->
  fdt_del_last_string_ s (wbuf ks gap ((s ++ [0]) ++ strs)) = Some (tt, wbuf ks (gap ++ s ++ [0]) strs) /\ rep ks (gap ++ s ++ [0]) strs.
Proof.
  intros [H1 H2 H3 H4] Hk. rewrite zlen_app, zlen_nul in H1. pose proof (zlen_nonneg rsv). pose proof (zlen_nonneg gap).
  pose proof (zlen_nonneg s). pose proof (zlen_nonneg strs). pose proof (zlen_nonneg (encs ks)). unfold INT_MAX in Ht. split.
  - unfold wbuf, fdt_del_last_string_, mbind, M_bind. rewrite zlen_app, zlen_nul, rd_sstr by (unfold is_uw; lia).
    rewrite !(sw_small 32), uw_small by (unfold is_uw, is_sw; lia). rewrite set_sstr. rewrite <- !app_assoc. do 4 f_equal. f_equal. lia.
  - apply Forall_app in H3 as [H3 H3']. split; [|by apply Forall_app|done|done]. rewrite !zlen_app. change (zlen [0]) with 1. lia.
Qed.

Lemma find_string_ok m s n : forall p, 0 <= p -> (n <> O -> p + Z.of_nat n + zlen s <= zlen m) ->
  exists r, find_string_loop n m p s = Some r /\
    match r with Some q => p <= q < p + Z.of_nat n /\ rdn m q (zlen s + 1) = Some (s ++ [0]) | None => True end.
Proof.
  induction n as [|n IH]; intros p Hp Hn; cbn [find_string_loop]; [by exists None|]. pose proof (zlen_nonneg s).
  unfold memeq. rewrite zlen_nul, rdn_Some by lia. cbn [mbind option_bind].
  case_bool_decide as E.
  - exists (Some p). split; [done|]. split; [lia|]. by rewrite rdn_Some, E by lia.
  - destruct (IH (p + 1)) as (r & -> & Hr); [lia|lia|]. exists r. split; [done|]. destruct r as [q|]; [|done]. split; [lia|apply Hr].
Qed.

Lemma find_string_sw ks gap strs s : rep ks gap strs ->
  exists r, fdt_find_string_ (r_bytes (wbuf ks gap strs)) (total - zlen strs) (zlen strs) s = Some r /\
    match r with Some q => str_ref strs (q - total) s | None => True end.
Proof.
  intros Hr. pose proof (rp_fit _ _ _ Hr) as Hfit. pose proof (zlen_nonneg rsv). pose proof (zlen_nonneg gap). pose proof (zlen_nonneg s).
  pose proof (zlen_nonneg strs). pose proof (zlen_nonneg (encs ks)).
  set (A := cells (W (48 + zlen rsv) total (zlen strs) (zlen (encs ks))) ++ pre ks ++ gap).
  assert (r_bytes (wbuf ks gap strs) = A ++ strs) as Em by (cbn [wbuf buf r_bytes]; unfold A; by rewrite <- !app_assoc).
  assert (zlen A = total - zlen strs) as LA.
  { unfold A. rewrite !zlen_app, zlen_cells, zlen_pre. change (zlen (W _ _ _ _)) with 10. lia. }
  rewrite Em. unfold fdt_find_string_.
  destruct (find_string_ok (A ++ strs) s (Z.to_nat (zlen strs - (zlen s + 1) + 1)) (total - zlen strs)) as (r & E & H'); [lia| |].
  { rewrite zlen_app. lia. }
  exists r. split; [done|]. destruct r as [q|]; [|done]. destruct H' as [Hq Hrd].
  apply rdn_inv in Hrd as (_ & _ & _ & _ & Hrd).
  assert (drop (Z.to_nat q) (A ++ strs) = drop (Z.to_nat (q - zlen A)) strs) as Ed.
  { rewrite drop_app_ge by (unfold zlen in *; lia). f_equal. unfold zlen in *. lia. }
  rewrite Ed in Hrd. set (j := Z.to_nat (q - zlen A)) in *. exists (take j strs), (drop (Z.to_nat (zlen s + 1)) (drop j strs)). split.
  - rewrite Hrd at 1. by rewrite take_drop, take_drop.
  - rewrite drop_drop. unfold zlen in *. rewrite length_drop. lia.
Qed.

(** The offset of a property's name, in the strings or added to them. *)
Definition name_part (name : list Z) : M region (Z * bool) :=
  flags ← sw_flags;
  if negb (Z.land flags FDT_CREATE_FLAG_NO_NAME_DEDUP =? 0) then off ← fdt_add_string_ name; mret (off, true)
  else fdt_find_add_string_ name.

Inductive named (ks : list tok) (gap strs name : list Z) : Z * bool -> region -> Prop :=
  | named_full : zlen gap < zlen name + 1 -> named ks gap strs name (0, true) (wbuf ks gap strs)
  | named_found off : off < 0 -> str_ref strs off name -> named ks gap strs name (off, false) (wbuf ks gap strs)
  | named_added off g gap' : gap = gap' ++ g -> zlen g = zlen name + 1 -> off < 0 -> str_ref ((name ++ [0]) ++ strs) off name ->
      named ks gap strs name (off, true) (wbuf ks gap' ((name ++ [0]) ++ strs)).

Lemma add_string_ok ks gap strs name : rep ks gap strs -> zlen name + 1 <= 48 ->
  exists off s', fdt_add_string_ name (wbuf ks gap strs) = Some (off, s') /\ named ks gap strs name (off, true) s'.
Proof.
  intros Hr Hl. pose proof (zlen_nonneg name). pose proof (zlen_nonneg strs).
  destruct (Z.lt_ge_cases (zlen gap) (zlen name + 1)) as [Hlt|Hge].
  - do 2 eexists. rewrite add_string_no by (done || lia). split; [done|]. by constructor.
  - destruct (list_cut gap (zlen gap - (zlen name + 1))) as (gap' & g & -> & Hg); [lia|]. rewrite zlen_app in Hg.
    do 2 eexists. rewrite add_string_yes by (done || lia). split; [done|]. apply (named_added _ _ _ _ _ g); [done|lia|lia|].
    exists [], strs. split; [done|lia].
Qed.

Lemma name_part_ok ks gap strs name : rep ks gap strs -> zlen name + 1 <= 48 ->
  exists r s', name_part name (wbuf ks gap strs) = Some (r, s') /\ named ks gap strs name r s'.
Proof.
  intros Hr Hl. destruct (add_string_ok ks gap strs name Hr Hl) as (off & s' & Ea & Hadd).
  pose proof (rp_fit _ _ _ Hr) as Hfit. pose proof (zlen_nonneg rsv). pose proof (zlen_nonneg gap). pose proof (zlen_nonneg name).
  pose proof (zlen_nonneg strs). pose proof (zlen_nonneg (encs ks)). unfold INT_MAX in Ht.
  unfold name_part, sw_flags, fdt_find_add_string_, mbind, M_bind. unfold wbuf at 1. rewrite rd_flags. fold (wbuf ks gap strs). case_match.
  - rewrite Ea. by do 2 eexists.
  - unfold wbuf at 1. rewrite rd_total, rd_sstr by (unfold is_uw; lia). fold (wbuf ks gap strs). rewrite sw_small by (unfold is_sw; lia).
    unfold get, lift. destruct (find_string_sw ks gap strs name Hr) as (r & -> & Hf'). destruct r as [q|].
    + do 2 eexists. split; [done|]. destruct Hf' as (l1 & l2 & E & Eo). pose proof (zlen_nonneg l1). pose proof (zlen_nonneg l2).
      pose proof (f_equal zlen E) as EL. rewrite !zlen_app in EL. change (zlen [0]) with 1 in EL.
      rewrite sw_small by (unfold is_sw; lia). apply named_found; [lia|]. by exists l1, l2.
    + rewrite Ea. by do 2 eexists.
Qed.

(** ** Properties *)

(** The property in the space grabbed for it. *)
Definition put_prop (off : Z) (val : list Z) (fail : M region (Z * option Z)) : M region Z :=
  r ← (prop ← fdt_grab_space_ (u64 (12 + FDT_TAGALIGN (zlen val)));
       match prop with
       | None => fail
       | Some prop =>
           wr prop (to_be 4 FDT_PROP) ≫= fun _ => wr (prop + 8) (to_be 4 off) ≫= fun _ =>
           wr (prop + 4) (to_be 4 (zlen val)) ≫= fun _ => mret (0, Some (prop + 12))
       end);
  match r with (0, Some ptr) => wr ptr val ≫= fun _ => mret 0 | (ret, _) => mret ret end.

Lemma put_prop_ok ks (g gap strs : list Z) name off val fail : rep ks (g ++ gap) strs -> text name -> str_ref strs off name ->
  Forall is_byte val -> zlen g = 12 + FDT_TAGALIGN (zlen val) -> zlen val < 2 ^ 30 -> exists pad,
  tok_ok strs (KProp name off val pad) /\ zlen (enc (KProp name off val pad)) = zlen g /\
  put_prop off val fail (wbuf ks (g ++ gap) strs) = Some (0, wbuf (ks ++ [KProp name off val pad]) gap strs).
Proof.
  intros Hr Hn Ho Hv Hg Hl. pose proof (zlen_nonneg val). unfold put_prop. rewrite tagalign_eq in *. pose proof (Z.mod_pos_bound (- zlen val) 4 ltac:(lia)).
  destruct (list_cut g 4) as (g1 & ga & -> & L1); [lia|]. rewrite zlen_app in Hg.
  destruct (list_cut ga 4) as (g2 & gb & -> & L2); [lia|]. rewrite zlen_app in Hg.
  destruct (list_cut gb 4) as (g3 & gc & -> & L3); [lia|]. rewrite zlen_app in Hg.
  destruct (list_cut gc (zlen val)) as (g4 & pad & -> & L4); [lia|]. rewrite zlen_app in Hg. exists pad.
  assert (tok_ok strs (KProp name off val pad)) as Hk.
  { split; [|done]. split_and!; [done|done|lia|]. pose proof (rp_gap _ _ _ Hr) as Hb. rewrite !Forall_app in Hb. apply Hb. }
  pose proof (zlen_enc _ (proj1 Hk)) as Hz. cbn [tok_size] in Hz. rewrite tagalign_eq in Hz.
  assert (zlen (enc (KProp name off val pad)) = zlen (g1 ++ g2 ++ g3 ++ g4 ++ pad)) as Hz' by (rewrite !zlen_app; lia).
  split; [done|]. split; [done|]. unfold mbind, M_bind. rewrite uw_small by (unfold is_uw; lia). rewrite grab_yes by (done || rewrite <- Hz'; lia).
  rewrite (wr_gap _ _ _ _ _ [] g1 (g2 ++ g3 ++ g4 ++ pad ++ gap)) by (rewrite ?zlen_nil, ?zlen_to_be, <- ?app_assoc; done || lia).
  rewrite (wr_gap _ _ _ _ _ (to_be 4 FDT_PROP ++ g2) g3 (g4 ++ pad ++ gap)).
  2: by rewrite <- !app_assoc. 2: rewrite zlen_app, zlen_to_be; lia. 2: by rewrite zlen_to_be.
  rewrite (wr_gap _ _ _ _ _ (to_be 4 FDT_PROP) g2 (to_be 4 off ++ g4 ++ pad ++ gap)).
  2: by rewrite <- !app_assoc. 2: rewrite zlen_to_be; lia. 2: by rewrite zlen_to_be.
  unfold mret, M_ret. rewrite (wr_gap _ _ _ _ _ (to_be 4 FDT_PROP ++ to_be 4 (zlen val) ++ to_be 4 off) g4 (pad ++ gap)).
  2: by rewrite <- !app_assoc. 2: rewrite !zlen_app, !zlen_to_be; lia. 2: done.
  rewrite <- (sw_snoc ks (KProp name off val pad) (g1 ++ g2 ++ g3 ++ g4 ++ pad)) by done. cbn [enc]. by rewrite <- !app_assoc.
Qed.

Lemma property_parts ks gap strs name val r s' : name_part name (wbuf ks gap strs) = Some (r, s') ->
  fdt_property name val (wbuf ks gap strs) =
  if r.1 =? 0 then Some (- FDT_ERR_NOSPACE, s')
  else put_prop r.1 val ((if r.2 then fdt_del_last_string_ name else mret tt) ≫= fun _ => mret (- FDT_ERR_NOSPACE, None)) s'.
Proof.
  intros E. unfold fdt_property, fdt_property_placeholder. unfold mbind at 1, M_bind at 1. rewrite struct_sw.
  unfold name_part, mbind, M_bind in E. unfold mbind, M_bind in *. destruct (sw_flags (wbuf ks gap strs)) as [[fl s1]|]; [|done].
  rewrite E. destruct r as [off alloc]. cbn [fst snd]. destruct (off =? 0); [done|]. unfold put_prop, mbind, M_bind. done.
Qed.

(** Not enough room for the property itself: the name is taken back. *)
Lemma put_prop_full ks gap strs off val fail rc s' : rep ks gap strs -> zlen gap < 12 + FDT_TAGALIGN (zlen val) < 2 ^ 63 ->
  fail (wbuf ks gap strs) = Some ((rc, None), s') -> rc <> 0 -> put_prop off val fail (wbuf ks gap strs) = Some (rc, s').
Proof.
  intros Hr Hl Ef Hrc. pose proof (zlen_nonneg gap). unfold put_prop, mbind, M_bind. rewrite uw_small by (unfold is_uw; lia). rewrite grab_no by done.
  rewrite Ef. by destruct rc.
Qed.

Lemma property_adds name val : text name -> zlen name + 1 <= 48 -> Forall is_byte val -> zlen val < 2 ^ 30 ->
  adds (fdt_property name val) (zlen name + 1 + (12 + FDT_TAGALIGN (zlen val))) [OProp name val].
Proof.
  intros Hn Hnl Hv Hvl ks gap strs Hr. pose proof (zlen_nonneg val). pose proof (zlen_nonneg name).
  set (n := 12 + FDT_TAGALIGN (zlen val)). assert (0 <= n < 2 ^ 62) as Hnn.
  { unfold n. rewrite tagalign_eq. pose proof (Z.mod_pos_bound (- zlen val) 4 ltac:(lia)). lia. }
  destruct (name_part_ok ks gap strs name Hr Hnl) as (r & s' & En & Hd). rewrite (property_parts _ _ _ _ _ _ _ En).
  destruct Hd as [Hfull|off Ho Href|off g gap1 -> Hg Ho Href]; cbn [fst snd].
  - exists (- FDT_ERR_NOSPACE), [], gap, []. rewrite app_nil_r. split; [done|]. split; [done|]. right. split; [done|lia].
  - destruct (Z.eqb_spec off 0); [lia|]. destruct (Z.lt_ge_cases (zlen gap) n) as [Hlt|Hge].
    + exists (- FDT_ERR_NOSPACE), [], gap, []. rewrite app_nil_r. split; [|split; [done|right; split; [done|lia]]].
      eapply put_prop_full; [done|fold n; lia|done|done].
    + destruct (list_cut gap n) as (g & gap' & -> & Hg); [lia|].
      destruct (put_prop_ok ks g gap' strs name off val (mret tt ≫= fun _ => mret (- FDT_ERR_NOSPACE, None)) Hr Hn Href Hv Hg Hvl) as (pad & Hk & Hz & E).
      exists 0, [KProp name off val pad], gap', []. split; [exact E|]. split; [by apply (rep_snoc _ _ g)|]. left. rewrite zlen_app. split_and!; [done|done|lia].
  - destruct (Z.eqb_spec off 0); [lia|]. pose proof (rep_string _ _ _ _ _ Hn Hg Hr) as Hr1. destruct (Z.lt_ge_cases (zlen gap1) n) as [Hlt|Hge].
    + destruct (del_string ks gap1 strs name Hr1 (rp_toks _ _ _ Hr)) as [Ed Hr2].
      exists (- FDT_ERR_NOSPACE), [], (gap1 ++ name ++ [0]), []. rewrite app_nil_r. split; [|split; [done|right; split; [done|rewrite zlen_app; lia]]].
      eapply put_prop_full; [done|fold n; lia| |done]. unfold mbind, M_bind. by rewrite Ed.
    + destruct (list_cut gap1 n) as (g' & gap' & -> & Hg'); [lia|].
      destruct (put_prop_ok ks g' gap' ((name ++ [0]) ++ strs) name off val (fdt_del_last_string_ name ≫= fun _ => mret (- FDT_ERR_NOSPACE, None)) Hr1 Hn Href Hv Hg' Hvl) as (pad & Hk & Hz & E).
      exists 0, [KProp name off val pad], gap', (name ++ [0]). split; [exact E|]. split; [by apply (rep_snoc _ _ g')|]. left.
      rewrite !zlen_app in *. split_and!; [done|done|lia].
Qed.

(** ** A whole node *)
Definition total_of {A} (f : A -> Z) (l : list A) : Z := foldr (fun x n => f x + n) 0 l.

Lemma adds_all {A} (f : A -> M region Z) need ss l : Forall (fun x => adds (f x) (need x) (ss x) /\ 0 <= need x) l ->
  adds (all_of (f <$> l)) (total_of need l) (l ≫= ss) /\ 0 <= total_of need l.
Proof.
  induction 1 as [|x l [Hx H0] _ [IH IH0]]; cbn.
  - split; [|done]. intros ks gap strs Hr. exists 0, [], gap, []. rewrite app_nil_r. split; [done|]. split; [done|]. left. split_and!; [done|done|lia].
  - split; [by apply adds_then|unfold total_of in *; lia].
Qed.

Fixpoint flat (t : stree) : list stok :=
  let 'SNode name ps ks := t in
  [OBegin name] ++ (ps ≫= fun p => [OProp p.1 p.2]) ++ (ks ≫= flat) ++ [OEnd].

Definition prop_need (p : list Z * list Z) : Z := zlen p.1 + 1 + (12 + FDT_TAGALIGN (zlen p.2)).

(** Enough room for a node: every name counted as if it were new. *)
Fixpoint tree_need (t : stree) : Z :=
  let 'SNode name ps ks := t in
  4 + FDT_TAGALIGN (zlen name + 1) + (total_of prop_need ps + (total_of tree_need ks + 4)).

(** Names are C strings, of at most 47 characters for properties, and values have
    a length an [int] can hold. *)
Definition prop_fine (p : list Z * list Z) : Prop :=
  text p.1 /\ zlen p.1 + 1 <= 48 /\ Forall is_byte p.2 /\ zlen p.2 < 2 ^ 30.
Fixpoint tree_fine (t : stree) : Prop :=
  let 'SNode name ps ks := t in
  text name /\ zlen name < 2 ^ 30 /\ Forall prop_fine ps /\ foldr (fun k P => tree_fine k /\ P) True ks.

Lemma stree_ind' (P : stree -> Prop) : (forall n ps ks, Forall P ks -> P (SNode n ps ks)) -> forall t, P t.
Proof. intros H. fix IH 1. intros [n ps ks]. apply H. induction ks; constructor; [apply IH|done]. Qed.

Lemma tagalign_nonneg x : 0 <= x -> 0 <= FDT_TAGALIGN x.
Proof. intros H. rewrite tagalign_eq. pose proof (Z.mod_pos_bound (- x) 4 ltac:(lia)). lia. Qed.

Lemma write_node_adds t : tree_fine t -> adds (write_node t) (tree_need t) (flat t) /\ 0 <= tree_need t.
Proof.
  induction t as [name ps ks IH] using stree_ind'. intros (Hn & Hl & Hps & Hks). cbn [write_node tree_need flat].
  assert (Forall (fun p => adds (fdt_property p.1 p.2) (prop_need p) [OProp p.1 p.2] /\ 0 <= prop_need p) ps) as Ap.
  { eapply Forall_impl; [exact Hps|]. intros [pn pv] (H1 & H2 & H3 & H4). unfold prop_need. cbn [fst snd] in *. split; [by apply property_adds|].
    pose proof (zlen_nonneg pn). pose proof (tagalign_nonneg (zlen pv) (zlen_nonneg pv)). lia. }
  assert (Forall (fun k => adds (write_node k) (tree_need k) (flat k) /\ 0 <= tree_need k) ks) as Ak.
  { clear -IH Hks. induction IH as [|k ks Hk _ IHk]; constructor; cbn in Hks; [apply Hk, Hks|apply IHk, Hks]. }
  destruct (adds_all (fun p => fdt_property p.1 p.2) prop_need (fun p => [OProp p.1 p.2]) ps Ap) as [B1 B2].
  destruct (adds_all write_node tree_need flat ks Ak) as [C1 C2].
  pose proof (tagalign_nonneg (zlen name + 1) ltac:(pose proof (zlen_nonneg name); lia)). split; [|lia].
  apply adds_then; [by apply begin_node_adds| |lia]. apply adds_then; [done| |lia]. apply adds_then; [done|apply end_node_adds|lia].
Qed.
End Buffer.
