(* ===== verification/FdtSeg.v ===== *)
(** Segments of the structure block: a token lies where its bytes lie, and
    everything a blob says about a part of its tree moves with the bytes. *)
From S2P Require Import Prelude KDefs Bytes Fdt FdtRo FdtSafe FdtRoSafe FdtProps FdtHelper FdtCheck FdtTree FdtPath FdtSw FdtSwProps.

(** ** Tokens and their sizes *)

Definition tag_of (k : tok) : Z :=
  match k with KBegin _ _ => FDT_BEGIN_NODE | KProp _ _ _ _ => FDT_PROP | KEnd => FDT_END_NODE | KNop => FDT_NOP | KFin => FDT_END end.

Lemma tagalign_shift o x : o mod 4 = 0 -> FDT_TAGALIGN (o + x) = o + FDT_TAGALIGN x.
Proof. intros H. rewrite !tagalign_eq. Z.to_euclidean_division_equations. lia. Qed.

Lemma tok_size_mod k : tok_size k mod 4 = 0.
Proof. destruct k; cbn [tok_size]; rewrite ?tagalign_eq; Z.to_euclidean_division_equations; lia. Qed.

Lemma tok_size_pos k : 4 <= tok_size k.
Proof.
  destruct k; cbn [tok_size]; try lia; pose proof (tagalign_nonneg (zlen name + 1)); pose proof (zlen_nonneg name).
  - lia.
  - pose proof (tagalign_nonneg _ (zlen_nonneg val)). lia.
Qed.

Lemma zlen_encs ks : Forall tok_wf ks -> zlen (encs ks) mod 4 = 0 /\ zlen (encs ks) = total_of tok_size ks.
Proof.
  induction 1 as [|k ks Hk _ [IH1 IH2]]; [done|]. change (encs (k :: ks)) with (enc k ++ encs ks). rewrite zlen_app, (zlen_enc _ Hk).
  cbn [total_of foldr]. pose proof (tok_size_mod k). split; [Z.to_euclidean_division_equations; lia|]. unfold total_of in IH2. lia.
Qed.

Lemma hv_word b k v : fdt32_ld (r_bytes b) k = Some v -> hv b k = v.
Proof.
  unfold fdt32_ld, rd_be, hv. destruct (rdn (r_bytes b) k 4) as [l|] eqn:E; cbn; [|done]. intros [= <-].
  apply rdn_inv in E as (_ & _ & _ & _ & ->). done.
Qed.

Lemma to_be_be l : zlen l = 4 -> Forall is_byte l -> to_be 4 (be l) = l.
Proof.
  intros L H. destruct l as [|a [|b [|c [|d [|? ?]]]]]; cbn in L; try (unfold zlen in L; cbn in L; lia).
  rewrite !Forall_cons in H. destruct H as (Ha & Hb & Hc & Hd & _). unfold is_byte in *. unfold be, to_be. cbn -[Z.modulo Z.div Z.mul Z.add].
  repeat f_equal; Z.to_euclidean_division_equations; lia.
Qed.

(** A read succeeds with [l] where the memory goes on with [l]. *)
Lemma rdn_from m p l : rdn m p (zlen l) = Some l <-> exists r, from m p (l ++ r).
Proof.
  split; [|intros [r H]; by eapply from_rdn]. intros E. apply rdn_inv in E as (H1 & H2 & H3 & _ & E).
  exists (drop (length l) (drop (Z.to_nat p) m)). split; [lia|]. unfold zlen in E. rewrite Nat2Z.id in E. rewrite E at 1. by rewrite take_drop.
Qed.

Lemma rdn_app m p l1 l2 : rdn m p (zlen (l1 ++ l2)) = Some (l1 ++ l2) <->
  rdn m p (zlen l1) = Some l1 /\ rdn m (p + zlen l1) (zlen l2) = Some l2.
Proof.
  rewrite !rdn_from. split.
  - intros [r H]. rewrite <- app_assoc in H. split; [by exists (l2 ++ r)|]. exists r. by apply from_app.
  - intros [[r1 H1] [r2 H2]]. exists r2. destruct (from_app _ _ _ _ H1) as [_ E1]. destruct H2 as [_ E2]. rewrite E1 in E2.
    rewrite <- app_assoc, <- E2. done.
Qed.

(** ** Segments *)

(** A blob whose structure block lies inside it. *)
Record bounded (b : region) : Prop := {
  bd_ok : blob_ok b;
  bd_ver : 17 <= hv b 20;
  bd_struct : hv b 8 + hv b 36 <= hv b 4;
}.

(** The bytes [l] lie at offset [o] of the structure block. *)
Definition seg (b : region) (o : Z) (l : list Z) : Prop :=
  0 <= o /\ o + zlen l <= hv b 36 /\ rdn (r_bytes b) (hv b 8 + o) (zlen l) = Some l.

Lemma seg_app b o l1 l2 : seg b o (l1 ++ l2) <-> seg b o l1 /\ seg b (o + zlen l1) l2.
Proof.
  unfold seg. rewrite rdn_app, zlen_app, <- (Z.add_assoc (hv b 8)). pose proof (zlen_nonneg l1). pose proof (zlen_nonneg l2).
  split; intros; destruct_and?; split_and?; done || lia.
Qed.

Lemma seg_fun b o l l' : seg b o l -> seg b o l' -> zlen l = zlen l' -> l = l'.
Proof. intros (_ & _ & E) (_ & _ & E') H. rewrite H in E. congruence. Qed.

Section Seg.
  Context (b : region) (Hb : bounded b).
  Local Abbreviation m := (r_bytes b).
  Local Abbreviation st := (hv b 8).
  Local Abbreviation size := (hv b 36).
  Local Abbreviation Hok := (bd_ok _ Hb).

Lemma bounds : 0 <= st /\ 0 <= size /\ st + size <= hv b 4 /\ hv b 4 <= zlen m /\ hv b 4 < 2 ^ 31 - 1.
Proof.
  pose proof (field_range b Hok 8 ltac:(lia)). pose proof (field_range b Hok 36 ltac:(lia)). pose proof (bd_struct _ Hb).
  pose proof (bo_size _ Hok). pose proof (bo_int _ Hok) as Hi. unfold INT_MAX in Hi. lia.
Qed.

Lemma seg_some o n : 0 <= o -> 0 <= n -> o + n <= size -> exists l, zlen l = n /\ seg b o l /\ Forall is_byte l.
Proof.
  destruct bounds as (? & ? & ? & ? & ?). intros Ho Hn Hs. destruct (rdn m (st + o) n) as [l|] eqn:E.
  - pose proof (Forall_rdn _ _ _ _ _ (bo_bytes _ Hok) E). pose proof (rdn_inv _ _ _ _ E) as (_ & _ & _ & L & _).
    exists l. unfold seg. rewrite L. done.
  - rewrite rdn_Some in E by lia. done.
Qed.

Lemma seg_bytes o l : seg b o l -> Forall is_byte l.
Proof. intros (_ & _ & E). eapply Forall_rdn; [apply (bo_bytes _ Hok)|done]. Qed.

Lemma ptr_in o len : 0 <= o -> 0 <= len -> o + len <= size -> fdt_offset_ptr b o len = Some (Some (st + o)).
Proof.
  intros Ho Hl Hs. destruct bounds as (? & ? & ? & ? & ?). pose proof (bd_ver _ Hb).
  rewrite (offset_ptr_eq b Hok) by (unfold is_sw, is_uw; lia). unfold ptr_ok. zcase; try lia. done.
Qed.

Lemma ptr_seg o len : ptr_ok b o len = true -> 0 <= o /\ o + len <= size.
Proof. intros H. pose proof (bd_ver _ Hb). unfold ptr_ok in H. zcase; try lia; done. Qed.

Lemma seg_word o v l : seg b o (to_be 4 v ++ l) -> is_uw 32 v -> fdt32_ld m (st + o) = Some v.
Proof.
  intros [(_ & _ & E) _]%seg_app Hv. rewrite zlen_to_be in E. change (Z.of_nat 4) with 4 in E. unfold fdt32_ld, rd_be. rewrite E.
  change (Some (be (to_be 4 v)) = Some v). by rewrite be_to_be4, uw_small.
Qed.

Lemma seg_cstr o s l : seg b o (s ++ 0 :: l) -> 0 ∉ s -> cstr m (st + o) = Some s.
Proof. intros (_ & _ & [r E]%rdn_from) Hs. rewrite <- app_assoc in E. by eapply from_cstr. Qed.

Lemma skip_name_in name : forall rest fuel o, 0 ∉ name -> seg b o (name ++ 0 :: rest) -> zlen name < Z.of_nat fuel ->
  skip_name b fuel o = Some (Some (o + zlen name + 1)).
Proof.
  destruct bounds as (? & ? & ? & ? & ?).
  induction name as [|c name IH]; intros rest fuel o Hn Hs Hfu; (destruct fuel as [|fuel]; [try pose proof (zlen_nonneg name); rewrite ?zlen_nil, ?zlen_cons in Hfu; lia|]);
    cbn [skip_name]; pose proof Hs as (Ho & Hl & [r Hf]%rdn_from); rewrite <- ?app_assoc in Hf; pose proof (from_rd8 _ _ 0 _ Hf ltac:(lia)) as Ec;
    rewrite Z.add_0_r in Ec; change (Z.to_nat 0) with 0%nat in Ec; cbn [app lookup list_lookup] in *; rewrite ?zlen_cons, ?zlen_app, ?zlen_cons in Hl;
    pose proof (zlen_nonneg rest).
  - rewrite ptr_in by lia. cbn [mbind option_bind]. rewrite Ec. cbn [mbind option_bind negb Z.eqb]. rewrite sw_small, zlen_nil by (unfold is_sw; lia). do 2 f_equal. lia.
  - pose proof (zlen_nonneg name). apply not_elem_of_cons in Hn as [Hc Hn]. rewrite ptr_in by lia. cbn [mbind option_bind]. rewrite Ec. cbn [mbind option_bind].
    destruct (Z.eqb_spec c 0); [congruence|]. cbn [negb]. rewrite sw_small by (unfold is_sw; lia). rewrite zlen_cons in *. rewrite (IH rest); [do 2 f_equal; lia|done| |lia].
    change (c :: name ++ 0 :: rest) with ([c] ++ (name ++ 0 :: rest)) in Hs. apply seg_app in Hs as [_ Hs]. done.
Qed.

(** The common end of [fdt_next_tag]. *)
Lemma tag_end o k x : o mod 4 = 0 -> 0 <= o -> o + tok_size k <= size -> 0 <= x <= tok_size k -> FDT_TAGALIGN x = tok_size k ->
  (p ← fdt_offset_ptr b o (u32 (o + x - o));
   match p with None => Some (FDT_END, - FDT_ERR_BADSTRUCTURE) | Some _ => Some (tag_of k, s32 (FDT_TAGALIGN (o + x))) end)
  = Some (tag_of k, o + tok_size k).
Proof.
  intros Hm Ho Hsz Hx Hxa. destruct bounds as (? & ? & ? & ? & ?). replace (o + x - o) with x by lia. rewrite uw_small by (unfold is_uw; lia).
  rewrite (ptr_in o x) by lia. cbn [mbind option_bind]. rewrite tagalign_shift, Hxa by done. by rewrite sw_small by (unfold is_sw; lia).
Qed.

Lemma seg_token o k : o mod 4 = 0 -> seg b o (enc k) -> tok_wf k -> token b o (tag_of k) (o + zlen (enc k)).
Proof.
  intros Hm Hs Hk. rewrite (zlen_enc _ Hk). pose proof (tok_size_pos k) as Hsz. destruct bounds as (? & ? & ? & ? & ?).
  pose proof Hs as (Ho & Hl & _). rewrite (zlen_enc _ Hk) in Hl. split; [|lia].
  unfold fdt_next_tag, FDT_TAGSIZE. rewrite (ptr_in o 4) by lia. cbn [mbind option_bind].
  assert (fdt32_ld m (st + o) = Some (tag_of k)) as ->.
  { destruct k; cbn [enc] in Hs; try rewrite <- (app_nil_r (to_be 4 _)) in Hs; by eapply seg_word. }
  cbn [mbind option_bind]. rewrite (sw_small 32 (o + 4)) by (unfold is_sw; lia). pose proof (fun x => tag_end o k x Hm Ho Hl) as Fin.
  destruct k as [name pad|name off val pad| | |]; cbn [tag_of tok_size enc] in *; cbn [Z.eqb orb].
  - destruct Hk as ([Hn _] & Hp & _). pose proof (zlen_nonneg name). rewrite tagalign_eq in Hl, Hsz. pose proof (Z.mod_pos_bound (- (zlen name + 1)) 4 ltac:(lia)).
    apply seg_app in Hs as [_ Hs]. rewrite zlen_to_be in Hs. rewrite <- app_assoc in Hs.
    rewrite (skip_name_in name pad (blob_fuel b) (o + 4)); [|done|done|unfold blob_fuel, zlen in *; lia].
    cbn [mbind option_bind]. replace (o + 4 + zlen name + 1) with (o + (4 + zlen name + 1)) by lia. apply Fin.
    + rewrite tagalign_eq. lia.
    + replace (4 + zlen name + 1) with (4 + (zlen name + 1)) by lia. by apply tagalign_shift.
  - destruct Hk as (_ & _ & Hp & _). pose proof (zlen_nonneg val). pose proof (Z.mod_pos_bound (- zlen val) 4 ltac:(lia)) as Hpm.
    rewrite tagalign_eq in Hl, Hsz. rewrite (ptr_in (o + 4) 4) by lia. cbn [mbind option_bind]. apply seg_app in Hs as [_ Hs]. rewrite zlen_to_be in Hs.
    change (o + Z.of_nat 4) with (o + 4) in Hs. rewrite (seg_word (o + 4) (zlen val) _ Hs) by (unfold is_uw; lia). cbn [mbind option_bind].
    rewrite !(uw_small 32) by (unfold is_uw; lia). destruct (Z.leb_spec INT_MAX (zlen val + (o + 4))); [unfold INT_MAX in *; lia|].
    destruct (Z.ltb_spec (zlen val + (o + 4)) (o + 4)); [lia|]. cbn [orb].
    unfold fdt_version. rewrite (field_ok b Hok) by lia. cbn [mbind option_bind]. pose proof (bd_ver _ Hb). destruct (Z.ltb_spec (hv b 20) 16); [lia|]. cbn [andb].
    rewrite (sw_small 32 (o + 4 + (12 - 4 + zlen val))) by (unfold is_sw; lia). replace (o + 4 + (12 - 4 + zlen val)) with (o + (12 + zlen val)) by lia. apply Fin.
    + rewrite tagalign_eq. lia.
    + by apply tagalign_shift.
  - by apply Fin.
  - by apply Fin.
  - by apply Fin.
Qed.

(** *** From a token to its bytes *)

Lemma seg_of_word o : 0 <= o -> o + 4 <= size -> seg b o (to_be 4 (hv b (st + o))) /\ is_uw 32 (hv b (st + o)).
Proof.
  destruct bounds as (? & ? & ? & ? & ?). intros Ho Hs. destruct (seg_some o 4) as (l & L & Hl & Hbs); [lia..|].
  pose proof Hl as (_ & _ & E). rewrite L in E. assert (be l = hv b (st + o)) as Eb by (symmetry; apply hv_word; unfold fdt32_ld, rd_be; by rewrite E).
  rewrite <- Eb, (to_be_be l L Hbs). split; [done|]. pose proof (be_range l Hbs) as Hr. rewrite L in Hr. exact Hr.
Qed.

Lemma seg_of_cstr o s : cstr m (st + o) = Some s -> 0 <= o -> o + zlen s + 1 <= size -> seg b o (s ++ [0]) /\ text s.
Proof.
  intros Hc Ho Hs. unfold cstr in Hc. destruct (Z.ltb_spec (st + o) 0); [done|]. apply to_nul_inv in Hc as [H0 [r Er]].
  assert (seg b o (s ++ [0])) as Hseg.
  { split; [done|]. rewrite zlen_nul. split; [lia|]. rewrite <- zlen_nul. apply rdn_from. exists r. destruct bounds as (? & ? & ? & ? & ?).
    split; [pose proof (zlen_nonneg s); lia|]. by rewrite <- app_assoc. }
  split; [done|]. split; [done|]. apply seg_bytes, Forall_app in Hseg. apply Hseg.
Qed.

Lemma next_tag_inv o tag n : is_sw 32 o -> token b o tag n -> exists x, 0 <= o /\ 4 <= x /\ o + x <= size /\ n = FDT_TAGALIGN (o + x) /\ hv b (st + o) = tag /\
  ((tag = FDT_BEGIN_NODE /\ exists s, cstr m (st + o + 4) = Some s /\ x = 5 + zlen s) \/
   (tag = FDT_PROP /\ x = 12 + hv b (st + o + 4) /\ 0 <= hv b (st + o + 4)) \/
   ((tag = FDT_END_NODE \/ tag = FDT_NOP \/ tag = FDT_END) /\ x = 4)).
Proof.
  destruct bounds as (? & ? & ? & ? & ?). intros Hsw [E Hn]. unfold fdt_next_tag, FDT_TAGSIZE in E.
  rewrite (offset_ptr_eq b Hok o 4) in E by (done || (unfold is_uw; lia)). destruct (ptr_ok b o 4) eqn:Ep; cbn [mbind option_bind] in E; [|injection E as <- <-; done].
  destruct (ptr_seg _ _ Ep) as [Ho Ho4]. destruct (ld_ok b Hok (st + o)) as [Eld _]; [lia|lia|]. rewrite Eld in E. cbn [mbind option_bind] in E.
  set (tag' := hv b (st + o)) in *. rewrite (sw_small 32 (o + 4)) in E by (unfold is_sw; lia).
  assert (FIN : forall x, 4 <= x < 2 ^ 32 -> (p ← fdt_offset_ptr b o (u32 (s32 (o + x) - o));
      match p with None => Some (FDT_END, - FDT_ERR_BADSTRUCTURE) | Some _ => Some (tag', s32 (FDT_TAGALIGN (s32 (o + x)))) end) = Some (tag, n) ->
      tag' = tag /\ o + x <= size /\ n = FDT_TAGALIGN (o + x)).
  { intros x Hx Ex. rewrite tag_finish in Ex by (done || lia || exact Hok). destruct (ptr_ok b o x) eqn:Ex2; [|injection Ex as <- <-; done].
    apply ptr_seg in Ex2 as [_ Hle]. injection Ex as Et En. rewrite <- tagalign_eq in En. split; [done|]. split; [done|]. subst n.
    pose proof (Z.mod_pos_bound (- (o + x)) 4 ltac:(lia)) as Hmod. pose proof (tagalign_eq (o + x)) as Ea.
    destruct (Z.lt_ge_cases (FDT_TAGALIGN (o + x)) (2 ^ 31)); [apply sw_small; unfold is_sw; lia|].
    exfalso. unfold sw in Hn. rewrite uw_small in Hn by (unfold is_uw; lia). destruct (Z.ltb_spec (FDT_TAGALIGN (o + x)) (2 ^ (32 - 1))); lia. }
  destruct (Z.eqb_spec tag' FDT_BEGIN_NODE) as [Et|Hn1].
  { destruct (skip_name_ok b Hok (blob_fuel b) (o + 4)) as (r & Er & Hr); [unfold is_sw; lia|lia|unfold blob_fuel, zlen in *; lia|].
    rewrite Er in E. cbn [mbind option_bind] in E. destruct r as [e|]; [|injection E as <- <-; done]. destruct Hr as (s & Es & -> & Hle). pose proof (zlen_nonneg s).
    replace (o + 4 + zlen s + 1) with (s32 (o + (5 + zlen s))) in E by (rewrite sw_small; unfold is_sw; lia).
    apply FIN in E as (<- & ? & ?); [|lia]. exists (5 + zlen s). split_and!; [lia|lia|lia|lia|done|]. left. split; [done|]. exists s. by rewrite <- Z.add_assoc. }
  destruct (Z.eqb_spec tag' FDT_PROP) as [Et|Hn3].
  { rewrite (offset_ptr_eq b Hok) in E by (unfold is_sw, is_uw; lia). destruct (ptr_ok b (o + 4) 4) eqn:Ep4; cbn [mbind option_bind] in E; [|injection E as <- <-; done].
    destruct (ptr_seg _ _ Ep4) as [_ Hb4]. destruct (ld_ok b Hok (st + (o + 4))) as [Eld4 Hr4]; [lia|lia|]. rewrite Eld4 in E. cbn [mbind option_bind] in E.
    rewrite (Z.add_assoc st o 4) in *. set (len := hv b (st + o + 4)) in *. rewrite (uw_small 32 (o + 4)) in E by (unfold is_uw; lia).
    destruct ((INT_MAX <=? u32 (len + (o + 4))) || (u32 (len + (o + 4)) <? o + 4)) eqn:Es; [injection E as <- <-; done|].
    pose proof (prop_sum_ok len (o + 4) Hr4 ltac:(lia) Es) as Hsum. unfold INT_MAX in Hsum. unfold fdt_version in E. rewrite (field_ok b Hok) in E by lia. cbn [mbind option_bind] in E.
    pose proof (bd_ver _ Hb). destruct (Z.ltb_spec (hv b 20) 16); [lia|]. cbn [andb] in E. replace (o + 4 + (12 - 4 + len)) with (o + (12 + len)) in E by lia.
    apply FIN in E as (<- & ? & ?); [|lia]. exists (12 + len). split_and!; [lia|lia|lia|lia|done|]. right. left. split_and!; (done || lia). }
  destruct ((tag' =? FDT_END) || (tag' =? FDT_END_NODE) || (tag' =? FDT_NOP)) eqn:Ek; [|injection E as <- <-; done].
  replace (o + 4) with (s32 (o + 4)) in E by (apply sw_small; unfold is_sw; lia). apply FIN in E as (<- & ? & ?); [|lia]. exists 4. split_and!; [lia|lia|lia|lia|done|].
  right. right. split; [|done]. zcase; try done; auto.
Qed.

Lemma token_seg o tag n : at_tag o -> token b o tag n -> n <= size \/ tag = FDT_END ->
  exists k, tok_wf k /\ tag_of k = tag /\ seg b o (enc k) /\ n = o + zlen (enc k).
Proof.
  intros [Hsw Hm] Ht Hn. destruct (next_tag_inv o tag n Hsw Ht) as (x & Ho & Hx & Hox & En & Etag & Hkind).
  destruct (seg_of_word o Ho ltac:(lia)) as [Hw _]. rewrite Etag in Hw.
  assert (n = o + x + (- x) mod 4) as En' by (rewrite En, tagalign_shift, tagalign_eq by done; lia).
  assert (tok_plain : forall k, tok_wf k -> tag_of k = tag -> enc k = to_be 4 tag -> x = 4 ->
    exists k, tok_wf k /\ tag_of k = tag /\ seg b o (enc k) /\ n = o + zlen (enc k)).
  { intros k Hk Et Ee ->. exists k. rewrite Ee, zlen_to_be. change (Z.opp 4 mod 4) with 0 in En'. split_and!; [done|done|done|lia]. }
  destruct Hkind as [(-> & s & Hs & ->)|[(-> & Ex & Hlen)|([-> |[-> | ->]] & Ex)]].
  - rewrite <- Z.add_assoc in Hs. destruct (seg_of_cstr (o + 4) s Hs) as [Hss Htext]; [lia|lia|]. pose proof (zlen_nonneg s).
    pose proof (Z.mod_pos_bound (- (5 + zlen s)) 4 ltac:(lia)). destruct Hn as [Hn|]; [|done].
    destruct (seg_some (o + (5 + zlen s)) ((- (5 + zlen s)) mod 4)) as (pad & Lp & Hpad & Hpb); [lia|lia|lia|].
    exists (KBegin s pad). split; [split_and!; [done| |done]; rewrite Lp; Z.to_euclidean_division_equations; lia|]. split; [done|].
    cbn [enc]. rewrite !zlen_app, zlen_to_be. change (zlen [0]) with 1. split; [|lia]. rewrite seg_app, zlen_to_be. split; [done|].
    rewrite seg_app, zlen_nul. split; [done|]. by replace (o + Z.of_nat 4 + (zlen s + 1)) with (o + (5 + zlen s)) by lia.
  - set (len := hv b (st + o + 4)) in *. subst x. pose proof (Z.mod_pos_bound (- (12 + len)) 4 ltac:(lia)). destruct Hn as [Hn|]; [|done].
    destruct (seg_of_word (o + 4)) as [Hw4 _]; [lia|lia|]. rewrite Z.add_assoc in Hw4. fold len in Hw4.
    destruct (seg_of_word (o + 8)) as [Hw8 _]; [lia|lia|]. set (off := hv b (st + (o + 8))) in *.
    destruct (seg_some (o + 12) len) as (val & Lv & Hval & Hvb); [lia|lia|lia|].
    destruct (seg_some (o + (12 + len)) ((- (12 + len)) mod 4)) as (pad & Lp & Hpad & Hpb); [lia|lia|lia|].
    exists (KProp [] off val pad). split; [split_and!; [split; [apply not_elem_of_nil|constructor]|done| |done]; rewrite Lp, Lv; Z.to_euclidean_division_equations; lia|]. split; [done|].
    cbn [enc]. rewrite !zlen_app, !zlen_to_be. split; [|lia]. rewrite seg_app, zlen_to_be. split; [done|].
    rewrite seg_app, zlen_to_be, Lv. split; [done|]. rewrite seg_app, zlen_to_be. change (Z.of_nat 4) with 4. replace (o + 4 + 4) with (o + 8) by lia. split; [done|].
    rewrite seg_app, Lv. replace (o + 8 + 4) with (o + 12) by lia. split; [done|]. by replace (o + 12 + len) with (o + (12 + len)) by lia.
  - by apply (tok_plain KEnd).
  - by apply (tok_plain KNop).
  - by apply (tok_plain KFin).
Qed.
End Seg.
