(* ===== verification/FdtNames.v ===== *)
(** The path of a node: [fdt_get_path] walks over the tree from the root, keeps the
    names of the ancestors of the node it is at in the buffer, and leaves the path
    of the node it was asked for. *)
From S2P Require Import Prelude KDefs Bytes Fdt FdtRo FdtSafe FdtRoSafe FdtProps FdtHelper FdtCheck FdtTree FdtPath FdtWalk FdtSw FdtSwProps FdtSeg.

(** The names on the way from [t] to the node [s] below it. *)
Inductive path_to (s : dt) : list (list Z) -> dt -> Prop :=
  | pt_here : path_to s [] s
  | pt_kid k t l : k ∈ d_kids t -> path_to s l k -> path_to s (d_name k :: l) t.

(** The text of a path. *)
Definition path_text (l : list (list Z)) : list Z := match l with [] => [47] | _ => l ≫= cons 47 end.

(** A name without a slash; all names below a node are such. *)
Definition plain (n : list Z) : Prop := n <> [] /\ 47 ∉ n.
Fixpoint plain_tree (t : dt) : Prop := let 'DNode _ _ _ ks := t in foldr (fun k P => (plain (d_name k) /\ plain_tree k) /\ P) True ks.

Lemma plain_kids t : plain_tree t <-> forall k, k ∈ d_kids t -> plain (d_name k) /\ plain_tree k.
Proof.
  destruct t as [o n ps ks]. cbn [plain_tree d_kids]. clear. induction ks as [|k ks IH]; cbn [foldr]; [split; [by intros _ k []%elem_of_nil|done]|]. rewrite IH. split.
  - intros [Hk H] x [->|Hx]%elem_of_cons; [done|by apply H].
  - intros H. split; [apply H; by left|]. intros x Hx. apply H. by right.
Qed.

(** Each name with the slash behind it, as in the buffer. *)
Definition pre (l : list (list Z)) : list Z := 47 :: (l ≫= fun n => n ++ [47]).

Lemma pre_app l n : pre (l ++ [n]) = pre l ++ n ++ [47].
Proof. unfold pre. rewrite bind_app. cbn [mbind list_bind]. by rewrite app_nil_r. Qed.

(** Every name ends with a slash, the text has it in front. *)
Lemma pre_text l : pre l = (l ≫= cons 47) ++ [47].
Proof. unfold pre. induction l as [|n l IH]; [done|]. rewrite !bind_cons. cbn [app]. rewrite <- !app_assoc. f_equal. f_equal. exact IH. Qed.

Lemma pre_last l : exists x, pre l = x ++ [47].
Proof. rewrite pre_text. by eexists. Qed.

Lemma pre_le l l' : zlen (pre l) <= zlen (pre (l ++ l')).
Proof. rewrite !pre_text, bind_app, !zlen_app. pose proof (zlen_nonneg (l' ≫= cons 47)). lia. Qed.

(** ** The buffer *)

(** The buffer holds the names [l] below the root. *)
Definition stored (buflen : Z) (l : list (list Z)) (buf : list Z) : Prop :=
  Forall plain l /\ zlen (pre l) <= buflen <= zlen buf /\ exists r, buf = pre l ++ r.

Lemma stored_short buflen l l' buf : stored buflen (l ++ l') buf -> stored buflen l buf.
Proof.
  intros (Hp & Hl & r & ->). apply Forall_app in Hp as [Hp _]. pose proof (pre_le l l'). split_and!; [done|lia|lia|].
  destruct l' as [|n l']; [exists r; by rewrite app_nil_r|]. exists (n ++ (l' ≫= cons 47) ++ [47] ++ r). rewrite !pre_text, bind_app, bind_cons, <- !app_assoc. cbn [app]. by rewrite <- ?app_assoc.
Qed.

Lemma rd8_app l1 c l2 : rd8 (l1 ++ c :: l2) (zlen l1) = Some c.
Proof. unfold rd8. pose proof (zlen_nonneg l1). destruct (Z.ltb_spec (zlen l1) 0); [lia|]. unfold zlen. rewrite Nat2Z.id. by rewrite lookup_app_r, Nat.sub_diag by lia. Qed.

Lemma pop_name x n r : 47 ∉ n -> forall fuel, (length n < fuel)%nat -> pop_component fuel ((x ++ [47]) ++ n ++ r) (zlen (x ++ [47]) + zlen n + 1) = Some (zlen (x ++ [47])).
Proof.
  revert r. induction n as [|c n IH] using rev_ind; intros r Hn fuel Hf; (destruct fuel as [|fuel]; [cbn in Hf; lia|]); cbn [pop_component].
  - rewrite zlen_nil, !zlen_app. change (zlen [47]) with 1. replace (zlen x + 1 + 0 + 1 - 1 - 1) with (zlen x) by lia. cbn [app]. rewrite <- app_assoc. cbn [app]. rewrite rd8_app. cbn [mbind option_bind Z.eqb Pos.eqb negb]. f_equal. lia.
  - rewrite not_elem_of_app in Hn. destruct Hn as [Hn Hc]. rewrite (zlen_app n). change (zlen [c]) with 1. replace (zlen (x ++ [47]) + (zlen n + 1) + 1 - 1 - 1) with (zlen ((x ++ [47]) ++ n)) by (rewrite (zlen_app (x ++ [47])); lia).
    replace ((x ++ [47]) ++ (n ++ [c]) ++ r) with (((x ++ [47]) ++ n) ++ c :: r) by (by rewrite <- !app_assoc). rewrite rd8_app. cbn [mbind option_bind]. destruct (Z.eqb_spec c 47) as [->|]; [exfalso; apply Hc; by left|]. cbn [negb].
    rewrite <- app_assoc. replace (zlen (x ++ [47]) + (zlen n + 1) + 1 - 1) with (zlen (x ++ [47]) + zlen n + 1) by lia. apply IH; [done|]. rewrite length_app in Hf. cbn in Hf. lia.
Qed.

Lemma pop_names buflen l l' : forall buf, stored buflen (l ++ l') buf -> pop_to (length l') buf (zlen (pre (l ++ l'))) = Some (zlen (pre l)).
Proof.
  induction l' as [|n l' IH] using rev_ind; intros buf Hb; [by rewrite app_nil_r|]. rewrite length_app. cbn [length]. rewrite Nat.add_1_r. cbn [pop_to]. rewrite app_assoc in *. rewrite pre_app.
  pose proof Hb as (Hp & Hl & r & E). apply Forall_app in Hp as [_ Hn]. apply Forall_inv in Hn as [_ Hn]. destruct (pre_last (l ++ l')) as [x Ex]. rewrite pre_app, Ex, <- !app_assoc in E. rewrite !zlen_app. change (zlen [47]) with 1. rewrite Ex, Z.add_assoc.
  replace buf with ((x ++ [47]) ++ n ++ 47 :: r) at 2 by (rewrite E; by rewrite <- app_assoc). rewrite pop_name; [|done|rewrite E, !length_app; lia]. cbn [mbind option_bind]. rewrite <- Ex. apply IH. by apply (stored_short _ _ [n]).
Qed.

(** A name is added behind the others. *)
Lemma store_name buflen l n buf : stored buflen l buf -> plain n -> zlen (pre (l ++ [n])) <= buflen -> exists buf', wrn buf (zlen (pre l)) (n ++ [47]) = Some buf' /\ stored buflen (l ++ [n]) buf' /\ zlen buf' = zlen buf.
Proof.
  intros (Hp & Hl & r & ->) Hn Hf. rewrite pre_app, zlen_app in Hf. rewrite zlen_app in Hl. pose proof (zlen_nonneg (n ++ [47])).
  assert (r = take (length (n ++ [47])) r ++ drop (length (n ++ [47])) r) as Er by (by rewrite take_drop). assert (zlen (take (length (n ++ [47])) r) = zlen (n ++ [47])) as Lr by (unfold zlen in *; rewrite length_take; lia).
  pose proof (f_equal zlen Er) as Lz. rewrite zlen_app in Lz. rewrite Er. rewrite wrn_mid by done. eexists. split; [done|]. split; [|rewrite !zlen_app in *; lia]. split_and!; [apply Forall_app; split; [done|by constructor]|rewrite pre_app, zlen_app; lia|rewrite !zlen_app in *; pose proof (zlen_nonneg (drop (length (n ++ [47])) r)); lia|].
  exists (drop (length (n ++ [47])) r). rewrite pre_app, <- !app_assoc. done.
Qed.

(** ** The walk *)
Section Walk.
  Context (b : region) (Hr : readable b) (target buflen : Z).

(** What is stored after a node [n] at depth [d] was met: names from its depth on are
    dropped, and its own is added if that of its parent is there and there is room. *)
Definition meet (d : Z) (n : list Z) (l : list (list Z)) : list (list Z) :=
  let l1 := take (Z.to_nat (d - 1)) l in
  if (zlen l1 =? d - 1) && (zlen (pre (l1 ++ [n])) <=? buflen) then l1 ++ [n] else l1.

(** The rest of the loop, from the node at [o] of depth [d]. *)
Definition gp (o d : Z) (l : list (list Z)) (Q : Z * list Z -> Prop) : Prop :=
  forall fuel buf, stored buflen l buf -> target - o < Z.of_nat fuel -> exists ret buf', get_path_loop b fuel target buflen o d (zlen l + 1) (zlen (pre l)) buf = Some (ret, buf') /\ zlen buf' = zlen buf /\ Q (ret, buf').
Definition gp_from (o d : Z) (l : list (list Z)) (Q : Z * list Z -> Prop) : Prop :=
  exists o1 d1, nn b o d (o1, Some d1) /\ o <= o1 /\ gp o1 d1 l Q.

(** The first half of an iteration. *)
Lemma meet_ok o o1 d n l buf : at_tag o -> token b o FDT_BEGIN_NODE o1 -> name_at b o n -> plain n -> 1 <= d -> stored buflen l buf ->
  exists buf', stored buflen (meet d n l) buf' /\ zlen buf' = zlen buf /\
  forall (k : Z * Z * list Z -> option (Z * list Z)),
    (p ← pop_to (Z.to_nat (zlen l + 1 - d)) buf (zlen (pre l));
     let pdepth := Z.min (zlen l + 1) d in
     step ← (if d <=? pdepth then
               r ← fdt_get_name b o;
               match r with
               | (None, namelen) => Some (inr namelen)
               | (Some name, namelen) =>
                   if p + namelen + 1 <=? buflen then
                     bytes ← rdn (r_bytes b) name namelen;
                     buf ← wrn buf p (bytes ++ [47]);
                     Some (inl (p + namelen + 1, pdepth + 1, buf))
                   else Some (inl (p, pdepth, buf))
               end
             else Some (inl (p, pdepth, buf)));
     match step with inr err => Some (err, buf) | inl x => k x end) = k (zlen (pre (meet d n l)), zlen (meet d n l) + 1, buf').
Proof.
  intros Hg Ht Hn Hp Hd Hs. set (i := Z.to_nat (d - 1)). set (l1 := take i l). assert (stored buflen (l1 ++ drop i l) buf) as Hs' by (by unfold l1; rewrite take_drop).
  assert (zlen l1 = Z.min (zlen l) (d - 1)) as L1 by (unfold l1, zlen; rewrite length_take; lia). assert (Z.to_nat (zlen l + 1 - d) = length (drop i l)) as -> by (rewrite length_drop; unfold zlen, i; lia).
  pose proof (pop_names buflen l1 (drop i l) buf Hs') as Epop. unfold l1 at 1 in Epop. rewrite take_drop in Epop. pose proof (stored_short _ _ _ _ Hs') as Hs1. unfold meet. fold i l1.
  destruct (Z.eqb_spec (zlen l1) (d - 1)) as [E|E]; cbn [andb].
  - destruct (Z.leb_spec (zlen (pre (l1 ++ [n]))) buflen) as [Hfit|Hfit].
    + destruct (store_name buflen l1 n buf Hs1 Hp Hfit) as (buf' & Ew & Hs2 & Lb). exists buf'. split_and!; [done|done|]. intros k. rewrite Epop. cbn [mbind option_bind].
      destruct (Z.leb_spec d (Z.min (zlen l + 1) d)); [|lia]. rewrite (get_name_tree b Hr _ _ _ Hg Ht Hn). cbn [mbind option_bind].
      rewrite pre_app, !zlen_app in *. change (zlen [47]) with 1 in *. change (zlen [n]) with 1. destruct (Z.leb_spec (zlen (pre l1) + zlen n + 1) buflen); [|lia].
      rewrite (name_prefix b _ _ (zlen n) Hn), take_ge by (pose proof (zlen_nonneg n); unfold zlen in *; lia). cbn [mbind option_bind]. rewrite Ew. cbn [mbind option_bind]. do 3 f_equal; lia.
    + exists buf. split_and!; [done|done|]. intros k. rewrite Epop. cbn [mbind option_bind]. destruct (Z.leb_spec d (Z.min (zlen l + 1) d)); [|lia]. rewrite (get_name_tree b Hr _ _ _ Hg Ht Hn). cbn [mbind option_bind].
      rewrite pre_app, !zlen_app in Hfit. change (zlen [47]) with 1 in Hfit. destruct (Z.leb_spec (zlen (pre l1) + zlen n + 1) buflen); [lia|]. cbn [mbind option_bind]. do 3 f_equal. lia.
  - exists buf. split_and!; [done|done|]. intros k. rewrite Epop. cbn [mbind option_bind]. destruct (Z.leb_spec d (Z.min (zlen l + 1) d)); [lia|]. cbn [mbind option_bind]. do 3 f_equal. lia.
Qed.

(** A node before the target. *)
Lemma gp_step o o1 d n l Q : at_tag o -> token b o FDT_BEGIN_NODE o1 -> name_at b o n -> plain n -> 1 <= d -> o < target -> gp_from o1 d (meet d n l) Q -> gp o d l Q.
Proof.
  intros Hg Ht Hn Hp Hd Hlt (o2 & d2 & Hnn & Hle & H) fuel buf Hs Hf. destruct (token_next b Hr _ _ _ (proj1 Hg) Ht ltac:(done)) as (_ & H0 & Ho1 & _). destruct fuel as [|fuel]; [lia|]. cbn [get_path_loop].
  destruct (Z.leb_spec 0 o); [|lia]. destruct (Z.leb_spec o target); [|lia]. cbn [andb]. destruct (meet_ok o o1 d n l buf Hg Ht Hn Hp Hd Hs) as (buf1 & Hs1 & Lb & Hk). rewrite Hk. clear Hk.
  destruct (Z.eqb_spec o target); [lia|]. pose proof (next_node_at b Hr (DNode o [] [] []) o1 d _ Hg Ht Hnn) as E. cbn [d_off] in E. rewrite E. cbn [mbind option_bind]. change (default d (Some d2)) with d2.
  destruct (H fuel buf1 Hs1 ltac:(lia)) as (ret & buf' & -> & Lb' & HQ). do 2 eexists. split; [done|]. split; [by rewrite Lb'|done].
Qed.

(** What came of the target: its path, or the buffer is too small. *)
Definition outcome (l : list (list Z)) (r : Z * list Z) : Prop :=
  if zlen (pre l) <=? buflen then r.1 = 0 /\ exists rest, r.2 = path_text l ++ 0 :: rest else r.1 = - FDT_ERR_NOSPACE.

Lemma gp_target o1 d n l l0 : at_tag target -> token b target FDT_BEGIN_NODE o1 -> name_at b target n -> plain n -> 1 <= d -> 0 <= target ->
  zlen l0 = d - 1 -> (take (Z.to_nat (d - 1)) l = l0 \/ (zlen l < d - 1 /\ buflen < zlen (pre (l0 ++ [n])))) -> gp target d l (outcome (l0 ++ [n])).
Proof.
  intros Hg Ht Hn Hp Hd H0 L0 Hl fuel buf Hs Hf. destruct fuel as [|fuel]; [lia|]. cbn [get_path_loop]. destruct (Z.leb_spec 0 target); [|lia]. rewrite Z.leb_refl. cbn [andb].
  destruct (meet_ok target o1 d n l buf Hg Ht Hn Hp Hd Hs) as (buf1 & Hs1 & Lb & Hk). rewrite Hk. clear Hk. rewrite Z.eqb_refl. unfold outcome, meet in *. destruct Hl as [El|[Hl Hbig]].
  2: { rewrite (take_ge l) in * by (unfold zlen in Hl; lia). destruct (Z.eqb_spec (zlen l) (d - 1)); [lia|]. cbn [andb] in *. destruct (Z.leb_spec (zlen (pre (l0 ++ [n]))) buflen); [lia|].
    destruct (Z.ltb_spec (zlen l + 1) (d + 1)); [|lia]. do 2 eexists. split; [done|]. by split. }
  rewrite El, L0, Z.eqb_refl in *. cbn [andb] in *.
  destruct (Z.leb_spec (zlen (pre (l0 ++ [n]))) buflen) as [Hfit|Hfit].
  - rewrite zlen_app, L0. change (zlen [n]) with 1. destruct (Z.ltb_spec (d - 1 + 1 + 1) (d + 1)); [lia|]. destruct Hs1 as (_ & Hl1 & r & ->). destruct Hp as [Hne _].
    assert (1 < zlen (pre (l0 ++ [n]))) as Hlong by (rewrite pre_text, bind_app, !zlen_app; cbn [mbind list_bind]; rewrite app_nil_r, zlen_cons; pose proof (zlen_nonneg (l0 ≫= cons 47)); pose proof (zlen_nonneg n); change (zlen [47]) with 1; lia).
    destruct (Z.ltb_spec 1 (zlen (pre (l0 ++ [n])))); [|lia]. assert (path_text (l0 ++ [n]) = (l0 ++ [n]) ≫= cons 47) as Ept by (unfold path_text; by destruct l0). rewrite pre_text, <- Ept.
    replace (zlen (path_text (l0 ++ [n]) ++ [47]) - 1) with (zlen (path_text (l0 ++ [n]))) by (rewrite zlen_app; change (zlen [47]) with 1; lia). rewrite <- app_assoc, (wrn_mid _ [47] r [0]) by done. cbn [mbind option_bind].
    do 2 eexists. split; [done|]. split; [|split; [done|by exists r]]. rewrite <- Lb, pre_text, <- Ept, !zlen_app. change (zlen [0]) with 1. change (zlen [47]) with 1. lia.
  - rewrite L0. destruct (Z.ltb_spec (d - 1 + 1) (d + 1)); [|lia]. do 2 eexists. split; [done|]. by split.
Qed.

(** Nodes inside one of depth [d] leave the names up to its own alone. *)
Definition keeps (d : Z) (l l' : list (list Z)) : Prop := take (Z.to_nat d) l' = take (Z.to_nat d) l /\ (zlen l < d -> l' = l).

Lemma keeps_refl d l : keeps d l l.
Proof. done. Qed.
Lemma keeps_trans d l1 l2 l3 : keeps d l1 l2 -> keeps d l2 l3 -> keeps d l1 l3.
Proof. intros [H1 H2] [H3 H4]. split; [congruence|]. intros H. specialize (H2 H). subst l2. by apply H4. Qed.

Lemma meet_keeps d n l : 0 <= d -> keeps d l (meet (d + 1) n l) /\ zlen (meet (d + 1) n l) <= d + 1.
Proof.
  intros Hd. unfold meet. replace (d + 1 - 1) with d by lia. assert (zlen (take (Z.to_nat d) l) = Z.min (zlen l) d) as Lt by (unfold zlen; rewrite length_take; lia). split.
  - split.
    + destruct (_ && _) eqn:E; [|by rewrite take_take, Nat.min_id]. apply andb_prop in E as [E%Z.eqb_eq _]. apply take_app_length'. unfold zlen in E. lia.
    + intros Hl. rewrite Lt. destruct (Z.eqb_spec (Z.min (zlen l) d) d); [lia|]. cbn [andb]. apply take_ge. unfold zlen in Hl. lia.
  - destruct (_ && _); [rewrite zlen_app; change (zlen [n]) with 1; lia|lia].
Qed.
Lemma meet_inside d n l l2 : 0 <= d -> keeps (d + 1) (meet (d + 1) n l) l2 -> keeps d l l2.
Proof.
  intros Hd [H1 H2]. destruct (meet_keeps d n l Hd) as [[K1 K2] K3]. apply (keeps_trans _ _ (meet (d + 1) n l)); [by split|]. split.
  - apply (f_equal (take (Z.to_nat d))) in H1. rewrite !take_take, !Nat.min_l in H1 by lia. done.
  - intros Hl. apply H2. lia.
Qed.

Lemma gp_items o ps ks o' : items b o ps ks o' -> at_tag o -> o' <= target -> (forall k, k ∈ ks -> plain (d_name k) /\ plain_tree k) -> forall d l Q, 1 <= d -> d + (o' - o) < 2 ^ 31 - 1 ->
  (forall l', keeps d l l' -> gp_from o' (d - 1) l' Q) -> gp_from o d l Q.
Proof.
  induction 1 as [o o' Ht|o o1 ps ks o' Ht Hi IH|o o1 p ps ks o' Ht _ _ Hi IH|o o1 o2 n ps ks ps' ks' o' Ht Hnm Hi1 IH1 Hi2 IH2];
    intros Hg Htg Hpl d l Q Hd Hb H; destruct (token_next b Hr _ _ _ (proj1 Hg) Ht ltac:(done)) as (_ & H0 & Hlt & _);
    pose proof (token_at_tag b Hr _ _ _ Hg Ht ltac:(done)) as Hg1.
  - destruct (H l (keeps_refl d l)) as (o2 & d2 & Hn & Hle & Hres). exists o2, d2. split; [|split; [lia|done]]. eapply nn_up; [done|lia|done].
  - destruct (IH Hg1 Htg Hpl d l Q Hd ltac:(lia) H) as (o2 & d2 & Hn & Hle & Hres). exists o2, d2. split; [|split; [lia|done]]. eapply nn_skip; [done|by left|done].
  - destruct (IH Hg1 Htg Hpl d l Q Hd ltac:(lia) H) as (o2 & d2 & Hn & Hle & Hres). exists o2, d2. split; [|split; [lia|done]]. eapply nn_skip; [done|by right|done].
  - destruct (items_at_tag b Hr _ _ _ _ Hi1 Hg1) as [Hg2 Hlt2]. destruct (items_at_tag b Hr _ _ _ _ Hi2 Hg2) as [_ Hlt3]. destruct (Hpl _ ltac:(by left)) as [Hpn Hpt]. cbn [d_name] in Hpn.
    exists o, (d + 1). split; [replace (d + 1) with (s32 (d + 1)) by (apply sw_small; unfold is_sw; lia); by eapply nn_begin|]. split; [lia|].
    eapply gp_step; [done|done|done|done|lia|lia|]. apply IH1; [done|lia|by apply (plain_kids (DNode o n ps ks))|lia|lia|]. replace (d + 1 - 1) with d by lia.
    intros l2 K2. apply IH2; [done|lia|intros k Hk; apply Hpl; by right|lia|lia|]. intros l3 K3. apply H. eapply keeps_trans; [|done]. eapply meet_inside; [lia|done].
Qed.

Lemma gp_reach o ps ks o' k e : items b o ps ks o' -> at_tag o -> (forall k, k ∈ ks -> plain (d_name k) /\ plain_tree k) -> k ∈ ks -> node_at b k e -> d_off k <= target < e -> forall d l Q, 0 <= d -> d + (o' - o) < 2 ^ 31 - 1 ->
  (forall l', keeps d l l' -> gp (d_off k) (d + 1) l' Q) -> gp_from o d l Q.
Proof.
  intros Hi. induction Hi as [o o' Ht|o o1 ps ks o' Ht Hi IH|o o1 p ps ks o' Ht _ _ Hi IH|o o1 o2 n ps ks ps' ks' o' Ht Hnm Hi1 IH1 Hi2 IH2];
    intros Hg Hpl Hk Hkn Htg d l Q Hd Hb H; destruct (token_next b Hr _ _ _ (proj1 Hg) Ht ltac:(done)) as (_ & H0 & Hlt & _);
    pose proof (token_at_tag b Hr _ _ _ Hg Ht ltac:(done)) as Hg1.
  - by apply elem_of_nil in Hk.
  - destruct (IH Hg1 Hpl Hk Hkn Htg d l Q Hd ltac:(lia) H) as (o2 & d2 & Hn & Hle & Hres). exists o2, d2. split; [|split; [lia|done]]. eapply nn_skip; [done|by left|done].
  - destruct (IH Hg1 Hpl Hk Hkn Htg d l Q Hd ltac:(lia) H) as (o2 & d2 & Hn & Hle & Hres). exists o2, d2. split; [|split; [lia|done]]. eapply nn_skip; [done|by right|done].
  - destruct (items_at_tag b Hr _ _ _ _ Hi1 Hg1) as [Hg2 Hlt2]. destruct (items_at_tag b Hr _ _ _ _ Hi2 Hg2) as [_ Hlt3]. destruct (Hpl _ ltac:(by left)) as [Hpn Hpt]. cbn [d_name] in Hpn.
    exists o, (d + 1). split; [replace (d + 1) with (s32 (d + 1)) by (apply sw_small; unfold is_sw; lia); by eapply nn_begin|]. split; [lia|].
    apply elem_of_cons in Hk as [->|Hk]; [apply H, keeps_refl|]. destruct (items_kids b Hr _ _ _ _ Hi2 Hg2 k Hk) as (e' & _ & _ & Hle & _).
    eapply gp_step; [done|done|done|done|lia|lia|]. eapply gp_items; [exact Hi1|done|lia|by apply (plain_kids (DNode o n ps ks))|lia|lia|]. replace (d + 1 - 1) with d by lia.
    intros l2 K2. apply IH2; [done|intros x Hx; apply Hpl; by right|done|done|done|lia|lia|]. intros l3 K3. apply H. eapply keeps_trans; [|done]. eapply meet_inside; [lia|done].
Qed.

Lemma path_to_range s lst t : path_to s lst t -> forall e, at_tag (d_off t) -> node_at b t e -> d_off t <= d_off s /\ d_off s + 8 <= e /\ (lst <> [] -> d_off t < d_off s).
Proof.
  induction 1 as [|k t lst Hk _ IH]; intros e Hg Hn; [destruct (node_range b Hr s e Hg Hn) as (o1 & _ & _ & _ & _ & ? & ? & ? & _); split_and!; [lia|lia|done]|].
  destruct (kid_at b Hr _ _ _ Hg Hn Hk) as (e' & Hkn & Hkg & ? & ? & ? & ?). destruct (IH e' Hkg Hkn) as (? & ? & _). split_and!; [lia|lia|]. intros _. lia.
Qed.

(** From a node of depth [d] on the way to the target. *)
Lemma gp_path s lst t : path_to s lst t -> target = d_off s -> forall e d l l0, at_tag (d_off t) -> node_at b t e -> plain (d_name t) -> plain_tree t -> 1 <= d -> d + (e - d_off t) < 2 ^ 31 - 1 ->
  zlen l0 = d - 1 -> (take (Z.to_nat (d - 1)) l = l0 \/ (zlen l < d - 1 /\ buflen < zlen (pre (l0 ++ d_name t :: lst)))) -> gp (d_off t) d l (outcome (l0 ++ d_name t :: lst)).
Proof.
  intros Hp Et. induction Hp as [|k t lst Hk Hp IH]; intros e d l l0 Hg Hn Hnm Hpl Hd Hb L0 Hl; destruct (node_range b Hr _ e Hg Hn) as (o1 & Ht & Hi & Hg1 & _ & H0 & ? & ? & ?); pose proof Hn as (_ & _ & Hna & _).
  - rewrite <- Et in Hg, Ht, Hna, H0 |- *. by eapply gp_target.
  - destruct (kid_at b Hr _ _ _ Hg Hn Hk) as (e' & Hkn & Hkg & ? & ? & ? & ?). destruct (path_to_range _ _ _ Hp e' Hkg Hkn) as (Hrg & Hrg' & _). pose proof (proj1 (plain_kids t) Hpl) as Hpk. destruct (Hpk k Hk) as [Hk1 Hk2].
    eapply gp_step; [done|done|done|done|lia|lia|]. eapply gp_reach; [exact Hi|done|done|exact Hk|exact Hkn|lia|lia|lia|]. intros l' [K1 K2]. assert (l0 ++ d_name t :: d_name k :: lst = (l0 ++ [d_name t]) ++ d_name k :: lst) as El by (by rewrite <- app_assoc). rewrite El in *.
    apply (IH e'); [done|done|done|done|lia|lia|rewrite zlen_app; change (zlen [d_name t]) with 1; lia|]. replace (d + 1 - 1) with d by lia. unfold meet in K1, K2. pose proof (pre_le (l0 ++ [d_name t]) (d_name k :: lst)) as Hle. destruct Hl as [El0|[Hl Hbig]].
    + rewrite El0, L0, Z.eqb_refl in K1, K2. cbn [andb] in K1, K2. destruct (Z.leb_spec (zlen (pre (l0 ++ [d_name t]))) buflen) as [Hfit|Hfit].
      * left. rewrite K1. apply take_ge. rewrite length_app. cbn [length]. unfold zlen in L0. lia.
      * right. rewrite (K2 ltac:(lia)). split; lia.
    + right. rewrite (take_ge l) in K1, K2 by (unfold zlen in Hl; lia). destruct (Z.eqb_spec (zlen l) (d - 1)); [lia|]. cbn [andb] in K1, K2. rewrite (K2 ltac:(lia)). split; lia.
Qed.
End Walk.

(** ** Paths and their text *)

Lemma zlen_path_text l : Forall plain l -> 2 <= zlen (path_text l) + 1 /\ (l <> [] -> zlen (pre l) = zlen (path_text l) + 1 /\ 2 <= zlen (path_text l)).
Proof.
  intros Hl. rewrite pre_text, zlen_app. change (zlen [47]) with 1. destruct l as [|n l]; [done|]. unfold path_text. rewrite bind_cons, zlen_app, zlen_cons. apply Forall_inv in Hl as [Hn _]. pose proof (zlen_nonneg (l ≫= cons 47)).
  destruct n as [|c n]; [done|]. rewrite zlen_cons. pose proof (zlen_nonneg n). split; [lia|]. intros _. lia.
Qed.

Lemma split_name n rest : 47 ∉ n -> forall acc, split_path acc (n ++ rest) = split_path (rev n ++ acc) rest.
Proof.
  induction n as [|c n IH]; intros Hn acc; [done|]. rewrite not_elem_of_cons in Hn. destruct Hn as [Hc Hn]. cbn [app split_path]. destruct (Z.eqb_spec c 47); [congruence|]. rewrite (IH Hn). cbn [rev]. by rewrite <- app_assoc.
Qed.

Lemma split_path_text l : Forall plain l -> split_path [] (path_text l) = l.
Proof.
  intros Hl. unfold path_text. destruct l as [|n l]; [done|]. revert n Hl. induction l as [|n' l IH]; intros n [Hn Hl]%Forall_cons; destruct Hn as [Hne Hn]; rewrite bind_cons; cbn [app split_path Z.eqb Pos.eqb].
  - cbn [mbind list_bind]. rewrite (split_name n [] Hn), app_nil_r. cbn [split_path]. destruct (rev n) eqn:E; [by apply (f_equal (@rev Z)) in E; rewrite rev_involutive in E|]. by rewrite <- E, rev_involutive.
  - rewrite (split_name n _ Hn), app_nil_r. rewrite bind_cons in *. cbn [app split_path Z.eqb Pos.eqb]. specialize (IH n' Hl). rewrite bind_cons in IH. cbn [app split_path Z.eqb Pos.eqb] in IH. rewrite IH.
    destruct (rev n) eqn:E; [by apply (f_equal (@rev Z)) in E; rewrite rev_involutive in E|]. by rewrite <- E, rev_involutive.
Qed.

Lemma path_to_plain s l t : path_to s l t -> plain_tree t -> Forall plain l.
Proof. induction 1 as [|k t l Hk _ IH]; intros Hp; [constructor|]. destruct (proj1 (plain_kids t) Hp k Hk). constructor; [done|by apply IH]. Qed.

Lemma path_text_text (P : Z -> Prop) l : P 47 -> Forall (Forall P) l -> Forall P (path_text l).
Proof.
  intros H47 Hl. unfold path_text. destruct l as [|n l]; [by repeat constructor|]. apply Forall_bind. eapply Forall_impl; [exact Hl|]. intros x Hx. by constructor.
Qed.

Lemma path_text_slash l : hd 0 (path_text l) = 47.
Proof. by destruct l. Qed.

(** ** [fdt_get_path] *)
Section GetPath.
  Context (b : region) (Hr : readable b) (t : dt) (Ht : holds b t) (Hroot : d_name t = []) (Hpl : plain_tree t).

Lemma get_path_ok s l buflen buf : path_to s l t -> buflen <= zlen buf -> exists ret buf', fdt_get_path b (d_off s) buf buflen = Some (ret, buf') /\ zlen buf' = zlen buf /\
  if zlen (path_text l) + 1 <=? buflen then ret = 0 /\ exists rest, buf' = path_text l ++ 0 :: rest else ret = - FDT_ERR_NOSPACE.
Proof.
  intros Hp Hb. pose proof (path_to_plain s l t Hp Hpl) as Hlp. destruct (zlen_path_text l Hlp) as [Ht1 Ht2]. destruct Ht as (_ & H0 & e & _ & Hn & _). assert (at_tag (d_off t)) as Hg by (by rewrite H0).
  unfold fdt_get_path. rewrite (probe_tot b Hr). cbn [mbind option_bind]. pose proof (field_range b (rb_ok _ Hr) 4 ltac:(lia)). destruct (Z.ltb_spec (hv b 4) 0); [lia|].
  destruct (Z.ltb_spec buflen 2); [destruct (Z.leb_spec (zlen (path_text l) + 1) buflen); [lia|]; by do 2 eexists|].
  destruct (node_range b Hr t e Hg Hn) as (o1 & Htk & Hi & Hg1 & _ & ? & ? & ? & ?). pose proof Hn as (_ & _ & Hna & _). rewrite Hroot in Hna. destruct (path_to_range b Hr s l t Hp e Hg Hn) as (Hrg & Hrg' & Hlt). pose proof (node_end_bound b Hr t e Hg Hn) as Hend. pose proof (bo_size _ (rb_ok _ Hr)) as Hsz.
  assert (exists f, blob_fuel b = S f /\ d_off s - d_off t < Z.of_nat f) as (f & -> & Hf) by (unfold blob_fuel; eexists; split; [done|unfold zlen in *; lia]). cbn [get_path_loop]. rewrite H0 in *. cbn [Z.leb Z.compare]. destruct (Z.leb_spec 0 (d_off s)); [|lia]. cbn [andb]. change (pop_to (Z.to_nat (0 - 0)) buf 0) with (Some 0). cbn [mbind option_bind]. change (Z.min 0 0) with 0. change (0 <=? 0) with true. cbv match.
  rewrite (get_name_tree b Hr _ _ _ Hg Htk Hna). cbn [mbind option_bind]. change (0 + zlen [] + 1) with 1. destruct (Z.leb_spec 1 buflen); [|lia]. rewrite (name_prefix b _ _ (zlen []) Hna) by done. cbn [mbind option_bind].
  destruct buf as [|c0 [|c1 buf]]; [rewrite zlen_nil in Hb; lia|change (zlen [c0]) with 1 in Hb; lia|].
  change (take (Z.to_nat (zlen [])) [] ++ [47]) with [47]. pose proof (wrn_mid [] [c0] (c1 :: buf) [47] eq_refl) as Ew. cbn [app] in Ew. change (zlen ([] : list Z)) with 0 in Ew. rewrite Ew. cbn [mbind option_bind app].
  assert (stored buflen [] (47 :: c1 :: buf)) as Hs by (split_and!; [constructor|change (zlen (pre [])) with 1; lia|rewrite !zlen_cons in *; lia|by exists (c1 :: buf)]).
  destruct l as [|n l].
  - inversion Hp; subst. rewrite H0. cbn [Z.eqb]. change (0 + 1 <? 0 + 1) with false. change (1 <? 1) with false. cbv match. change (wrn (47 :: c1 :: buf) 1 [0]) with (wrn ([47] ++ [c1] ++ buf) (zlen [47]) [0]). rewrite wrn_mid by done. cbn [mbind option_bind app].
    destruct (Z.leb_spec (zlen (path_text []) + 1) buflen) as [_|Hx]; [|change (zlen (path_text [])) with 1 in Hx; lia]. do 2 eexists. split; [done|]. split; [by rewrite !zlen_cons|]. split; [done|]. by exists buf.
  - specialize (Hlt ltac:(done)). destruct (Z.eqb_spec 0 (d_off s)); [lia|]. inversion Hp as [|k t' l' Hk Hp' E1 E2]; subst. destruct (kid_at b Hr _ _ _ ltac:(by rewrite H0) Hn Hk) as (e' & Hkn & Hkg & ? & ? & ? & ?). destruct (path_to_range b Hr _ _ _ Hp' e' Hkg Hkn) as (Hrk & Hrk' & _).
    destruct (proj1 (plain_kids t) Hpl k Hk) as [Hk1 Hk2].
    assert (gp_from b (d_off s) buflen o1 0 [] (outcome buflen (d_name k :: l))) as (o2 & d2 & Hnn & Hle & Hgp).
    { eapply gp_reach; [done|exact Hi|done|by apply plain_kids|exact Hk|exact Hkn|lia|lia|lia|]. intros l' [_ K2]. apply (gp_path b Hr (d_off s) buflen s l k Hp' eq_refl e' (0 + 1) l' []); [done|done|done|done|lia|lia|done|by left]. }
    pose proof (next_node_at b Hr (DNode 0 [] [] []) o1 0 _ Hg Htk Hnn) as E. cbn [d_off] in E. rewrite E. cbn [mbind option_bind]. change (default 0 (Some d2)) with d2. destruct (Hgp f _ Hs ltac:(lia)) as (ret & buf' & E' & Lb & HQ). change (zlen (pre [])) with 1 in E'. change (zlen ([] : list (list Z)) + 1) with 1 in E'.
    change (0 + 1) with 1. rewrite E'. do 2 eexists. split; [done|]. split; [by rewrite Lb, !zlen_cons|]. unfold outcome in HQ. destruct (Ht2 ltac:(done)) as [Ep _]. rewrite Ep in HQ. exact HQ.
Qed.

(** The names are C strings. *)
Lemma path_to_names s l : path_to s l t -> Forall (Forall (fun c => c <> 0 /\ is_byte c)) l.
Proof.
  intros Hp. destruct Ht as (_ & H0 & e & _ & Hn & _). assert (at_tag (d_off t)) as Hg by (by rewrite H0). clear Ht H0 Hroot Hpl. revert e Hg Hn. induction Hp as [|k t l Hk _ IH]; intros e Hg Hn; [constructor|].
  destruct (kid_at b Hr _ _ _ Hg Hn Hk) as (e' & Hkn & Hkg & _). constructor; [|by eapply IH]. destruct Hkn as (_ & _ & Hna & _). unfold name_at, cstr in Hna. destruct (_ <? 0); [done|]. apply to_nul_inv in Hna as [Hz [r Er]].
  pose proof (Forall_drop _ (Z.to_nat (hv b 8 + d_off k + 4)) _ (bo_bytes _ (rb_ok _ Hr))) as Hby. rewrite Er in Hby. apply Forall_app in Hby as [Hby _]. rewrite Forall_forall in Hby. apply Forall_forall. intros c Hc. split; [|by apply Hby]. by intros ->.
Qed.
End GetPath.

(** C24: On a blob that holds a tree whose root has the empty name and whose other
    names are not empty and have no slash, [fdt_get_path] of one of its nodes writes
    the path to the buffer, the names from the root down to it, with a NUL behind
    it, or says that the buffer is too small for it; [fdt_path_offset] leads from
    this path to the first node it stands for, so back to the same node when no name
    on the way stands for an earlier sub-node too. (Names with a slash, which
    [fdt_check_full] accepts, are excluded: [get_path_slash] shows a wrong path.) *)
Theorem fdt_get_path_correct b t s l buf buflen fuel : holds b t -> d_name t = [] -> plain_tree t -> path_to s l t -> buflen <= zlen buf ->
  exists ret buf', fdt_get_path b (d_off s) buf buflen = Some (ret, buf') /\ zlen buf' = zlen buf /\
  (if zlen (path_text l) + 1 <=? buflen then ret = 0 /\ to_nul buf' = Some (path_text l) else ret = - FDT_ERR_NOSPACE) /\
  fdt_path_offset b (S fuel) (path_text l) = Some (match find_path t l with Some s' => d_off s' | None => - FDT_ERR_NOTFOUND end).
Proof.
  intros Ht Hroot Hpl Hp Hb. pose proof (proj1 Ht) as Hr. destruct (get_path_ok b Hr t Ht Hroot Hpl s l buflen buf Hp Hb) as (ret & buf' & E & Lb & Hres). exists ret, buf'. pose proof (path_to_plain s l t Hp Hpl) as Hlp.
  split_and!; [done|done| |by rewrite (path_offset_tree b Hr t _ fuel Ht (path_text_slash l)), split_path_text].
  destruct (_ <=? _); [|done]. destruct Hres as (-> & rest & ->). split; [done|]. apply to_nul_app. intros H0. pose proof (path_text_text (fun c => c <> 0 /\ is_byte c) l ltac:(done) (path_to_names b Hr t Ht s l Hp)) as Hz. rewrite Forall_forall in Hz. by destruct (Hz 0 H0).
Qed.

(** *** A sample *)

(** The names on the way, when each stands for the sub-node of exactly that name. *)
Fixpoint exact_path (l : list (list Z)) (t : dt) : option dt :=
  match l with [] => Some t | n :: l => k ← List.find (fun k => bool_decide (d_name k = n)) (d_kids t); exact_path l k end.
Lemma exact_path_to l : forall t s, exact_path l t = Some s -> path_to s l t.
Proof.
  induction l as [|n l IH]; intros t s; cbn [exact_path]; [intros [= ->]; constructor|]. destruct (List.find _ _) as [k|] eqn:E; [|done]. cbn [mbind option_bind]. intros H. apply List.find_some in E as [Hk Hn%bool_decide_eq_true]. subst n. constructor; [by apply list_elem_of_In|by apply IH].
Qed.
Definition soc_dev : dt := Eval vm_compute in default soc_tree (exact_path [byte_list "soc"; byte_list "dev"] soc_tree).

Lemma soc_plain : plain_tree soc_tree.
Proof. vm_compute. repeat split; try done; intros H; repeat (apply elem_of_cons in H as [H|H]; [discriminate H|]); by apply elem_of_nil in H. Qed.

Lemma fdt_get_path_witness : exists buf, fdt_get_path soc_blob 140 (replicate 16 1) 16 = Some (0, buf) /\ to_nul buf = Some (byte_list "/soc/dev") /\ fdt_path_offset soc_blob 1 (byte_list "/soc/dev") = Some 140.
Proof.
  destruct (fdt_get_path_correct soc_blob soc_tree soc_dev [byte_list "soc"; byte_list "dev"] (replicate 16 1) 16 0 soc_holds eq_refl soc_plain) as (ret & buf & E & _ & (-> & Hb) & Ho).
  - apply exact_path_to. vm_compute. reflexivity.
  - vm_compute. congruence.
  - exists buf. split; [exact E|]. split; [exact Hb|exact Ho].
Defined.
