(* ===== verification/FdtRsv.v ===== *)
(** The memory reservations of a blob: a list of entries of 16 bytes, closed by one
    of zeros, and what the functions of fdt_ro.c read from it. *)
From S2P Require Import Prelude KDefs Bytes Fdt FdtRo FdtSafe FdtRoSafe FdtProps FdtHelper FdtCheck FdtTree FdtPath FdtSw FdtSwProps FdtSeg.

Definition enc_rsv (e : Z * Z) : list Z := to_be 8 e.1 ++ to_be 8 e.2.

Lemma zlen_enc_rsv l : zlen (l ≫= enc_rsv) = 16 * zlen l.
Proof. induction l as [|e l IH]; [done|]. rewrite bind_cons. unfold enc_rsv at 1. rewrite !zlen_app, !zlen_to_be, zlen_cons, IH. lia. Qed.

Lemma enc_rsv_bytes l : Forall is_byte (l ≫= enc_rsv).
Proof. induction l as [|e l IH]; [constructor|]. rewrite bind_cons. unfold enc_rsv at 1. rewrite !Forall_app. split_and!; [apply to_be_bytes..|done]. Qed.

Lemma be_to_be8 v : be (to_be 8 v) = u64 v.
Proof.
  unfold be, to_be, uw. cbn -[Z.modulo Z.div Z.mul Z.add]. change (2 ^ 64) with 18446744073709551616.
  Z.to_euclidean_division_equations. lia.
Qed.

Lemma word64_from m p v l : from m p (to_be 8 v ++ l) -> is_uw 64 v -> fdt64_ld m p = Some v.
Proof.
  intros Hf Hv. unfold fdt64_ld, rd_be. pose proof (from_rdn _ _ _ _ Hf) as E. rewrite zlen_to_be in E. change (Z.of_nat 8) with 8 in E. rewrite E.
  change (Some (be (to_be 8 v)) = Some v). by rewrite be_to_be8, uw_small.
Qed.

Definition rsv_fine (e : Z * Z) : Prop := is_uw 64 e.1 /\ 0 < e.2 < 2 ^ 64.

(** The entries [l] with the closing one. *)
Definition map_of (l : list (Z * Z)) : list Z := (l ++ [(0, 0)]) ≫= enc_rsv.

Lemma zlen_map_of l : zlen (map_of l) = 16 * (zlen l + 1).
Proof. unfold map_of. by rewrite zlen_enc_rsv, zlen_app. Qed.

Record reserves (b : region) (l : list (Z * Z)) : Prop := {
  rs_fine : Forall rsv_fine l;
  rs_bytes : rdn (r_bytes b) (hv b 16) (zlen (map_of l)) = Some (map_of l);
  rs_in : hv b 16 + zlen (map_of l) <= hv b 4;
}.

Section Read.
  Context (b : region) (Hr : readable b) (l : list (Z * Z)) (Hl : reserves b l).

(** Entry [i] of the map, its closing entry included. *)
Lemma rsv_entry i a s : (l ++ [(0, 0)]) !! i = Some (a, s) -> is_uw 64 a -> is_uw 64 s ->
  fdt_mem_rsv b (Z.of_nat i) = Some (Some (hv b 16 + 16 * Z.of_nat i)) /\
  fdt64_ld (r_bytes b) (hv b 16 + 16 * Z.of_nat i) = Some a /\ fdt64_ld (r_bytes b) (hv b 16 + 16 * Z.of_nat i + 8) = Some s.
Proof.
  intros Hi Ha Hs. destruct Hl as [_ Hb Hin]. pose proof (lookup_lt_Some _ _ _ Hi) as Hlt. pose proof (field_range b (rb_ok _ Hr) 16 ltac:(lia)). pose proof (bo_int _ (rb_ok _ Hr)) as Hint. unfold INT_MAX in Hint.
  rewrite zlen_map_of in Hin. assert (16 * Z.of_nat i + 16 <= 16 * (zlen l + 1)) as Hz by (rewrite length_app in Hlt; cbn in Hlt; unfold zlen; lia). split.
  - unfold fdt_mem_rsv, fdt_off_mem_rsvmap, fdt_totalsize. rewrite !(field_ok b (rb_ok _ Hr)) by lia. cbn [mbind option_bind]. rewrite (uw_small 32 (Z.of_nat i * 16)) by (unfold is_uw; lia).
    rewrite (uw_small 32), (uw_small 64) by (unfold is_uw; lia). zcase; try lia; done.
  - apply rdn_from in Hb as [r Hf].
    assert (map_of l = (take i (l ++ [(0, 0)]) ≫= enc_rsv) ++ to_be 8 a ++ to_be 8 s ++ (drop (S i) (l ++ [(0, 0)]) ≫= enc_rsv)) as E.
    { unfold map_of. rewrite <- (take_drop_middle _ _ _ Hi) at 1. rewrite bind_app, bind_cons. unfold enc_rsv at 2. by rewrite <- !app_assoc. }
    rewrite E, <- !app_assoc in Hf. apply from_app in Hf. rewrite zlen_enc_rsv in Hf.
    replace (zlen (take i (l ++ [(0, 0)]))) with (Z.of_nat i) in Hf by (unfold zlen; rewrite length_take; lia).
    split; [by eapply word64_from|]. apply from_app in Hf. rewrite zlen_to_be in Hf. by eapply word64_from.
Qed.

Lemma rsv_get i a s : l !! i = Some (a, s) -> fdt_get_mem_rsv b (Z.of_nat i) = Some (0, Some (a, s)).
Proof.
  intros Hi. pose proof (Forall_lookup_1 _ _ _ _ (rs_fine _ _ Hl) Hi) as [Ha Hs]. cbn [fst snd] in *.
  destruct (rsv_entry i a s) as (E1 & E2 & E3); [by apply lookup_app_l_Some|done|unfold is_uw; lia|].
  unfold fdt_get_mem_rsv. rewrite (probe_tot b Hr). cbn [mbind option_bind]. pose proof (field_range b (rb_ok _ Hr) 4 ltac:(lia)).
  destruct (Z.ltb_spec (hv b 4) 0); [lia|]. rewrite E1. cbn [mbind option_bind]. rewrite E2. cbn [mbind option_bind]. by rewrite E3.
Qed.

Lemma rsv_count_from fuel : forall i, (i <= length l)%nat -> (length l - i < fuel)%nat -> num_mem_rsv_loop b fuel (Z.of_nat i) = Some (zlen l).
Proof.
  induction fuel as [|fuel IH]; intros i Hi Hfu; [lia|]. cbn [num_mem_rsv_loop].
  pose proof (bo_int _ (rb_ok _ Hr)) as Hint. unfold INT_MAX in Hint. pose proof (rs_in _ _ Hl) as Hin. rewrite zlen_map_of in Hin. pose proof (field_range b (rb_ok _ Hr) 16 ltac:(lia)). destruct (decide (i = length l)) as [->|Hne].
  - destruct (rsv_entry (length l) 0 0) as (-> & _ & E3); [by rewrite lookup_app_r, Nat.sub_diag by lia|done|done|].
    cbn [mbind option_bind]. by rewrite E3.
  - destruct (lookup_lt_is_Some_2 l i) as [[a s] Ei]; [lia|]. pose proof (Forall_lookup_1 _ _ _ _ (rs_fine _ _ Hl) Ei) as [Ha Hs]. cbn [fst snd] in *.
    destruct (rsv_entry i a s) as (-> & _ & E3); [by apply lookup_app_l_Some|done|unfold is_uw; lia|].
    cbn [mbind option_bind]. rewrite E3. cbn [mbind option_bind]. destruct (Z.eqb_spec s 0); [lia|].
    rewrite sw_small by (unfold is_sw, zlen in *; lia). replace (Z.of_nat i + 1) with (Z.of_nat (S i)) by lia. apply IH; lia.
Qed.

Lemma rsv_count : fdt_num_mem_rsv b = Some (zlen l).
Proof.
  apply (rsv_count_from _ 0); [lia|]. pose proof (rs_in _ _ Hl) as Hin. rewrite zlen_map_of in Hin. pose proof (field_range b (rb_ok _ Hr) 16 ltac:(lia)). pose proof (bo_size _ (rb_ok _ Hr)). unfold blob_fuel, zlen in *. lia.
Qed.
End Read.
