(* ===== verification/FdtSwTree.v ===== *)
(** The end of writing: [fdt_finish] turns a buffer of tokens into a blob, and the
    blob holds the tree the tokens spell. *)
From S2P Require Import Prelude KDefs Bytes Fdt FdtRo FdtSafe FdtRoSafe FdtProps FdtHelper FdtCheck FdtTree FdtPath FdtSw FdtSwProps FdtSeg.

Lemma encs_cons k ks : encs (k :: ks) = enc k ++ encs ks.
Proof. done. Qed.

(** ** A structure block that is a list of tokens *)
Section Walk.
  Context (b : region) (Hok : blob_ok b) (ost : Z) (all : list tok) (tail : list Z).
  Local Abbreviation m := (r_bytes b).
  Context (H8 : hv b 8 = ost) (H20 : hv b 20 = 17) (H36 : hv b 36 = zlen (encs all)) (Hin : ost + zlen (encs all) <= hv b 4).
  Context (Hfrom : from m ost (encs all ++ tail)) (Hall : Forall tok_wf all).

Lemma walk_bounded : bounded b.
Proof. split; [done|by rewrite H20|by rewrite H8, H36]. Qed.

Lemma encs_seg pre k post : all = pre ++ k :: post -> seg b (zlen (encs pre)) (enc k) /\ zlen (encs pre) mod 4 = 0 /\ tok_wf k.
Proof.
  intros E. assert (Hp := Hall). rewrite E in Hp. apply Forall_app in Hp as [Hp Hk]. apply Forall_cons in Hk as [Hk _].
  assert (seg b 0 (encs all)) as Hs by (split; [done|]; rewrite H8, H36, Z.add_0_r; split; [done|]; by eapply from_rdn).
  rewrite E, encs_app, encs_cons in Hs. apply seg_app in Hs as [_ Hs]. apply seg_app in Hs as [Hs _]. split; [done|]. split; [by apply zlen_encs|done].
Qed.

Lemma tok_token pre k post : all = pre ++ k :: post -> token b (zlen (encs pre)) (tag_of k) (zlen (encs pre) + zlen (enc k)).
Proof. intros E. destruct (encs_seg pre k post E) as (Hs & Hm & Hk). by apply seg_token; [apply walk_bounded|..]. Qed.
End Walk.

Lemma word_from m p v l : from m p (to_be 4 v ++ l) -> is_uw 32 v -> fdt32_ld m p = Some v.
Proof.
  intros Hf Hv. unfold fdt32_ld, rd_be. pose proof (from_rdn _ _ _ _ Hf) as E. rewrite zlen_to_be in E. change (Z.of_nat 4) with 4 in E. rewrite E.
  change (Some (be (to_be 4 v)) = Some v). by rewrite be_to_be4, uw_small.
Qed.

Lemma encs_bytes ks : Forall tok_wf ks -> Forall is_byte (encs ks).
Proof.
  induction 1 as [|k ks Hk _ IH]; [constructor|]. change (encs (k :: ks)) with (enc k ++ encs ks). apply Forall_app. split; [|done].
  destruct k; cbn [enc tok_wf] in *; rewrite ?Forall_app; try apply to_be_bytes.
  - destruct Hk as ([_ Hn] & _ & Hp). split_and!; [apply to_be_bytes|done|by repeat constructor|done].
  - destruct Hk as (_ & Hv & _ & Hp). split_and!; [apply to_be_bytes..|done|done].
Qed.

(** ** [fdt_finish] *)

(** String offsets from the start of the strings. *)
Definition fix_tok (n : Z) (k : tok) : tok := match k with KProp name off val pad => KProp name (off + n) val pad | k => k end.

Lemma fix_wf n k : tok_wf k -> tok_wf (fix_tok n k) /\ zlen (enc (fix_tok n k)) = zlen (enc k).
Proof. intros H. destruct k; by cbn [fix_tok]. Qed.

(** [k] is not the last token. *)
Definition inner (k : tok) : Prop := k <> KFin.

Section Finish.
  Context (base total flags : Z) (Ht : 0 <= total < INT_MAX) (Hf : is_uw 32 flags).
  Context (rsv strs tail : list Z) (Hrsv : Forall is_byte rsv) (Hstrs : Forall is_byte strs) (Htail : Forall is_byte tail).
  Context (size : Z).
  Local Abbreviation ost := (48 + zlen rsv).
  Local Abbreviation ws := (W total flags ost (ost + size) (zlen strs) size).

(** The buffer while the offsets are corrected; the strings have been moved. *)
Definition fs (ks1 ks2 : list tok) : region := buf base ws (replicate 8 0 ++ rsv ++ encs ks1 ++ encs ks2 ++ strs ++ tail).

Record laid_out (ks1 ks2 : list tok) : Prop := {
  ft_size : zlen (encs (ks1 ++ ks2)) = size;
  ft_total : ost + size + zlen strs + zlen tail = total;
  ft_wf : Forall tok_wf (ks1 ++ ks2);
}.

Lemma fs_word ks1 ks2 i v : ws !! i = Some v -> is_uw 32 v -> hv (fs ks1 ks2) (4 * Z.of_nat i) = v.
Proof. intros H Hv. apply hv_word. by apply word_at. Qed.

Lemma laid_out_bounds ks1 ks2 : laid_out ks1 ks2 -> 0 <= size /\ 0 <= zlen rsv /\ 0 <= zlen strs /\ 0 <= zlen tail /\ ost + size + zlen strs <= total /\ total < 2 ^ 31 - 1.
Proof.
  intros [<- H2 _]. pose proof (zlen_nonneg rsv). pose proof (zlen_nonneg strs). pose proof (zlen_nonneg tail). pose proof (zlen_nonneg (encs (ks1 ++ ks2))).
  unfold INT_MAX in Ht. lia.
Qed.

Lemma zlen_fs ks1 ks2 : laid_out ks1 ks2 -> zlen (r_bytes (fs ks1 ks2)) = total.
Proof.
  intros [H1 H2 _]. cbn [fs buf r_bytes]. rewrite encs_app, zlen_app in H1. rewrite !zlen_app, zlen_cells. change (zlen (W _ _ _ _ _ _)) with 10.
  change (zlen (replicate 8 0)) with 8. lia.
Qed.

Lemma fs_ok ks1 ks2 : laid_out ks1 ks2 -> blob_ok (fs ks1 ks2).
Proof.
  intros H. destruct (laid_out_bounds _ _ H) as (? & ? & ? & ? & ? & ?). pose proof (zlen_fs _ _ H) as Hz.
  assert (hv (fs ks1 ks2) 4 = total) as E by (apply (fs_word ks1 ks2 1); [done|unfold is_uw; lia]). destruct H as [_ _ Hw].
  apply Forall_app in Hw as [Hw1 Hw2]. split; [|rewrite Hz; lia|by rewrite E, Hz|by rewrite E; apply Ht].
  cbn [fs buf r_bytes]. rewrite !Forall_app. split_and!; try done; [apply cells_bytes|by repeat constructor|by apply encs_bytes|by apply encs_bytes].
Qed.

Lemma fs_token ks1 k ks2 : laid_out ks1 (k :: ks2) -> token (fs ks1 (k :: ks2)) (zlen (encs ks1)) (tag_of k) (zlen (encs ks1) + zlen (enc k)).
Proof.
  intros H. destruct (laid_out_bounds _ _ H) as (? & ? & ? & ? & ? & ?). pose proof (fs_ok _ _ H) as Hok.
  apply (tok_token _ Hok ost (ks1 ++ k :: ks2) (strs ++ tail)) with (post := ks2).
  - apply (fs_word _ _ 2); [done|unfold is_uw; lia].
  - by apply (fs_word _ _ 5).
  - rewrite (ft_size _ _ H). apply (fs_word _ _ 9); [done|unfold is_uw; lia].
  - rewrite (ft_size _ _ H). rewrite (fs_word _ _ 1 total) by (done || unfold is_uw; lia). lia.
  - split; [rewrite (zlen_fs _ _ H); lia|]. cbn [fs buf r_bytes].
    replace (Z.to_nat ost) with (length (cells ws ++ replicate 8 0 ++ rsv)).
    + rewrite <- (drop_app_length (cells ws ++ replicate 8 0 ++ rsv) (encs (ks1 ++ k :: ks2) ++ strs ++ tail)). f_equal.
      by rewrite encs_app, <- !app_assoc.
    + rewrite !length_app. pose proof (zlen_cells ws) as Hc. change (zlen ws) with 10 in Hc. unfold zlen in *. cbn [length replicate]. lia.
  - apply H.
  - done.
Qed.

(** One property's name offset is corrected. *)
Lemma fix_prop ks1 name off val pad ks2 : laid_out ks1 (KProp name off val pad :: ks2) -> str_ref strs off name ->
  let s := fs ks1 (KProp name off val pad :: ks2) in
  (prop ← rd (fun b => fdt_offset_ptr_ b (zlen (encs ks1)));
   nameoff ← rd (fun b => fdt32_ld (r_bytes b) (prop + 8));
   sz ← rd fdt_size_dt_strings;
   wr (prop + 8) (to_be 4 (s32 (s32 nameoff + sz)))) s
  = Some (tt, fs (ks1 ++ [fix_tok (zlen strs) (KProp name off val pad)]) ks2).
Proof.
  intros H (l1 & l2 & El & Eo) s. destruct (laid_out_bounds _ _ H) as (? & ? & ? & ? & ? & ?).
  pose proof (zlen_nonneg name). pose proof (zlen_nonneg l1). pose proof (zlen_nonneg l2).
  assert (zlen strs = zlen l1 + (zlen name + 1) + zlen l2) as Ls by (rewrite El, !zlen_app; change (zlen [0]) with 1; lia).
  unfold mbind, M_bind, s, fs. rewrite (rd_ptr base total flags) by (unfold is_uw; lia).
  set (q := replicate 8 0 ++ rsv ++ encs ks1 ++ to_be 4 FDT_PROP ++ to_be 4 (zlen val)).
  set (q2 := val ++ pad ++ encs ks2 ++ strs ++ tail).
  assert (forall o, replicate 8 0 ++ rsv ++ encs ks1 ++ encs (KProp name o val pad :: ks2) ++ strs ++ tail = q ++ to_be 4 o ++ q2) as Eq.
  { intros o. unfold q, q2. change (encs (KProp name o val pad :: ks2)) with (enc (KProp name o val pad) ++ encs ks2). cbn [enc]. by rewrite <- !app_assoc. }
  assert (ost + zlen (encs ks1) + 8 = zlen (cells ws) + zlen q) as Ep.
  { unfold q. rewrite zlen_cells. change (zlen ws) with 10. rewrite !zlen_app, !zlen_to_be. change (zlen (replicate 8 0)) with 8. lia. }
  rewrite (Eq off), Ep. cbn [buf r_bytes]. unfold rd at 1.
  assert (fdt32_ld (r_bytes (buf base ws (q ++ to_be 4 off ++ q2))) (zlen (cells ws) + zlen q) = Some (u32 off)) as ->.
  { unfold fdt32_ld, rd_be. cbn [buf r_bytes]. rewrite app_assoc, <- zlen_app. change 4 with (Z.of_nat 4). rewrite <- (zlen_to_be 4 off), rdn_mid.
    change (Some (be (to_be 4 off)) = Some (u32 off)). by rewrite be_to_be4. }
  cbn [mbind option_bind]. rewrite (rd_sstr base total flags) by (unfold is_uw; lia).
  assert (s32 (u32 off) = off) as ->.
  { transitivity (s32 off); [|apply sw_small; unfold is_sw; lia]. unfold sw.
    assert (u32 (u32 off) = u32 off) as -> by (unfold uw; apply Z.mod_mod; lia). done. }
  rewrite sw_small by (unfold is_sw; lia). rewrite (wr_rest _ _ q (to_be 4 off)) by (done || by rewrite !zlen_to_be).
  cbn [fix_tok]. rewrite <- Eq. do 2 f_equal. rewrite encs_app, encs_one.
  change (encs (KProp name (off + zlen strs) val pad :: ks2)) with (enc (KProp name (off + zlen strs) val pad) ++ encs ks2). by rewrite <- !app_assoc.
Qed.

Lemma finish_loop_ok ts : forall fuel ks1, laid_out ks1 (ts ++ [KFin]) -> Forall inner ts -> Forall (tok_ok strs) ts -> (length ts < fuel)%nat ->
  finish_loop fuel (zlen (encs ks1)) (fs ks1 (ts ++ [KFin])) = Some (size, fs (ks1 ++ (fix_tok (zlen strs) <$> ts)) [KFin]).
Proof.
  induction ts as [|k ts IH]; intros fuel ks1 H Hin Hk Hfu; (destruct fuel as [|fuel]; [lia|]); cbn [finish_loop app fmap list_fmap] in *;
    unfold mbind, M_bind, get, lift; destruct (fs_token _ _ _ H) as [-> _].
  - rewrite app_nil_r. cbn [tag_of]. change (FDT_END =? FDT_END) with true. unfold mret, M_ret. do 2 f_equal.
    pose proof (ft_size _ _ H) as Hs. rewrite encs_app, encs_one, zlen_app in Hs. done.
  - apply Forall_cons in Hin as [Hi Hin]. apply Forall_cons in Hk as [[Hw Hr] Hk].
    assert (laid_out (ks1 ++ [fix_tok (zlen strs) k]) (ts ++ [KFin])) as H'.
    { destruct H as [F1 F2 F3]. apply Forall_app in F3 as [F3 F4]. apply Forall_cons in F4 as [_ F4]. destruct (fix_wf (zlen strs) k Hw) as [Hw' Hz].
      split; [|done|].
      - rewrite <- F1. rewrite !encs_app, encs_one. change (encs (k :: ts ++ [KFin])) with (enc k ++ encs (ts ++ [KFin])). rewrite encs_app, !zlen_app. lia.
      - rewrite !Forall_app in *. split; [split; [done|by constructor]|done]. }
    assert (zlen (encs ks1) + zlen (enc k) = zlen (encs (ks1 ++ [fix_tok (zlen strs) k]))) as Eo.
    { rewrite encs_app, encs_one, zlen_app. by rewrite (proj2 (fix_wf (zlen strs) k Hw)). }
    assert ((tag_of k =? FDT_END) = false) as -> by (destruct k; done).
    assert (forall X, X = (if tag_of k =? FDT_PROP then
           (prop ← rd (fun b => fdt_offset_ptr_ b (zlen (encs ks1)));
            nameoff ← rd (fun b => fdt32_ld (r_bytes b) (prop + 8));
            sz ← rd fdt_size_dt_strings;
            wr (prop + 8) (to_be 4 (s32 (s32 nameoff + sz))))
         else mret tt) (fs ks1 (k :: ts ++ [KFin])) -> X = Some (tt, fs (ks1 ++ [fix_tok (zlen strs) k]) (ts ++ [KFin]))) as Hstep.
    { intros X ->. destruct k as [name pad|name off val pad| | |]; cbn [tag_of]; [change (FDT_BEGIN_NODE =? FDT_PROP) with false|by apply fix_prop|change (FDT_END_NODE =? FDT_PROP) with false|change (FDT_NOP =? FDT_PROP) with false|done].
      all: unfold mret, M_ret, fs; cbn [fix_tok]; by rewrite (encs_app ks1), encs_one, (encs_cons _ (ts ++ _)), <- !app_assoc. }
    match goal with |- match ?X with _ => _ end = _ => rewrite (Hstep X eq_refl) end.
    rewrite Eo, IH by (done || cbn [length] in Hfu; lia). by rewrite <- app_assoc.
Qed.
End Finish.

(** The finished blob: [ks] with offsets from the start of the strings, FDT_END
    at the end. *)
Definition blob (base : Z) (rsv : list Z) (ks : list tok) (strs tail : list Z) : region :=
  let ost := 48 + zlen rsv in
  let size := zlen (encs ks) in
  buf base [FDT_MAGIC; ost + size + zlen strs; ost; ost + size; 48; 17; 16; 0; zlen strs; size]
    (replicate 8 0 ++ rsv ++ encs ks ++ strs ++ tail).

Lemma length_encs ks : Forall tok_wf ks -> Z.of_nat (length ks) <= zlen (encs ks).
Proof.
  induction 1 as [|k ks Hk _ IH]; [done|]. rewrite encs_cons, zlen_app, (zlen_enc _ Hk). pose proof (tok_size_pos k). cbn [length]. lia.
Qed.

Lemma fix_encs n ks : Forall tok_wf ks -> zlen (encs (fix_tok n <$> ks)) = zlen (encs ks) /\ Forall tok_wf (fix_tok n <$> ks).
Proof.
  induction 1 as [|k ks Hk _ [IH1 IH2]]; [done|]. destruct (fix_wf n k Hk) as [Hw Hz]. cbn [fmap list_fmap]. rewrite !encs_cons, !zlen_app, Hz.
  split; [|by constructor]. change (list_fmap _ _ (fix_tok n) ks) with (fix_tok n <$> ks). lia.
Qed.

Section FinishAll.
  Context (base total flags : Z) (Ht : 0 <= total < INT_MAX) (Hf : is_uw 32 flags) (rsv : list Z) (Hrsv : Forall is_byte rsv).
  Local Abbreviation ost := (48 + zlen rsv).
  Local Abbreviation wbuf := (wbuf base total flags rsv).
  Local Abbreviation rep := (rep total rsv).

(** The strings are moved behind the structure block. *)
Lemma move_strings ks gap strs : rep ks gap strs -> exists tail, Forall is_byte tail /\
  ost + zlen (encs ks) + zlen strs + zlen tail = total /\
  memmove (ost + zlen (encs ks)) (total - zlen strs) (zlen strs) (wbuf ks gap strs) =
  Some (tt, buf base (W total flags ost total (zlen strs) (zlen (encs ks))) (replicate 8 0 ++ rsv ++ encs ks ++ strs ++ tail)).
Proof.
  intros [H1 H2 H3 H4]. pose proof (zlen_nonneg gap). pose proof (zlen_nonneg strs).
  destruct (list_cut (gap ++ strs) (zlen strs)) as (x & tail & E & Lx); [rewrite zlen_app; lia|].
  assert (zlen gap + zlen strs = zlen strs + zlen tail) as L by (rewrite <- zlen_app, E, zlen_app; lia).
  exists tail. assert (Forall is_byte (x ++ tail)) as Hb by (rewrite <- E; by apply Forall_app). apply Forall_app in Hb as [_ Hb].
  split; [done|]. split; [lia|]. unfold memmove, FdtSwProps.wbuf.
  set (A := cells (W total flags ost total (zlen strs) (zlen (encs ks))) ++ pre rsv ks ++ gap).
  assert (rdn (r_bytes (buf base (W total flags ost total (zlen strs) (zlen (encs ks))) (pre rsv ks ++ gap ++ strs))) (total - zlen strs) (zlen strs) = Some strs) as ->.
  { cbn [buf r_bytes]. replace (cells _ ++ pre rsv ks ++ gap ++ strs) with (A ++ strs ++ []) by (unfold A; by rewrite app_nil_r, <- !app_assoc).
    replace (total - zlen strs) with (zlen A); [apply rdn_mid|]. unfold A. rewrite !zlen_app, zlen_cells, zlen_pre. change (zlen (W _ _ _ _ _ _)) with 10. lia. }
  cbn [mbind option_bind]. rewrite E, (wr_rest _ _ (pre rsv ks) x tail).
  - unfold pre. by rewrite <- !app_assoc.
  - rewrite zlen_cells, zlen_pre. change (zlen (W _ _ _ _ _ _)) with 10. lia.
  - done.
Qed.

Lemma finish_ok ks gap strs : rep ks gap strs -> Forall inner ks ->
  if zlen gap <? 4 then fdt_finish (wbuf ks gap strs) = Some (- FDT_ERR_NOSPACE, wbuf ks gap strs)
  else exists tail, Forall is_byte tail /\ ost + zlen (encs ks) + 4 + zlen strs + zlen tail = total /\
    fdt_finish (wbuf ks gap strs) = Some (0, blob base rsv ((fix_tok (zlen strs) <$> ks) ++ [KFin]) strs tail).
Proof.
  intros Hr Hin. destruct (Z.ltb_spec (zlen gap) 4) as [Hlt|Hge].
  { unfold fdt_finish. rewrite (struct_sw base total flags Ht). unfold mbind at 1, M_bind at 1.
    by rewrite (grab_no base total flags Ht) by (done || lia). }
  destruct (list_cut gap 4) as (g & gap' & -> & Hg); [lia|].
  assert (rep (ks ++ [KFin]) gap' strs) as Hr' by (by apply (rep_snoc total rsv _ _ g)).
  destruct (move_strings _ _ _ Hr') as (tail & Hb & Hfit & Em). pose proof (rp_toks _ _ _ _ _ Hr) as Hks.
  assert (Forall tok_wf ks) as Hwf by (eapply Forall_impl; [exact Hks|by intros k []]).
  pose proof (rp_fit _ _ _ _ _ Hr') as Hfit'. set (size := zlen (encs (ks ++ [KFin]))) in *.
  assert (size = zlen (encs ks) + 4) as Hsize by (unfold size; by rewrite encs_app, encs_one, zlen_app).
  pose proof (zlen_nonneg rsv). pose proof (zlen_nonneg gap'). pose proof (zlen_nonneg strs). pose proof (zlen_nonneg (encs ks)).
  assert (Ht2 := Ht). unfold INT_MAX in Ht2.
  assert (laid_out total rsv strs tail size [] (ks ++ [KFin])) as Hlaid.
  { split; [done|done|]. cbn [app]. apply Forall_app. split; [done|by repeat constructor]. }
  exists tail. split; [done|]. split; [lia|].
  unfold fdt_finish. rewrite (struct_sw base total flags Ht). unfold mbind at 1, M_bind at 1. rewrite (grab_yes base total flags Ht) by (done || lia).
  unfold mbind at 1, M_bind at 1. rewrite (wr_gap base total flags rsv _ _ _ _ _ [] g gap') by (done || rewrite ?zlen_nil; lia). cbn [app].
  change (to_be 4 FDT_END) with (enc KFin). rewrite (sw_snoc base total flags rsv) by (by rewrite Hg).
  unfold mbind, M_bind. unfold FdtSwProps.wbuf at 1. rewrite (rd_total base total flags Ht), (rd_sstr base total flags), (rd_ost base total flags), (rd_sst base total flags) by (unfold is_uw; lia).
  fold (wbuf (ks ++ [KFin]) gap' strs). fold size. rewrite (sw_small 32 (total - zlen strs)), (sw_small 32 (ost + size)) by (unfold is_sw; lia).
  rewrite Em, (set_ostr base total flags). unfold get.
  change (buf base (W total flags ost (ost + size) (zlen strs) size) (replicate 8 0 ++ rsv ++ encs (ks ++ [KFin]) ++ strs ++ tail))
    with (fs base total flags rsv strs tail size [] (ks ++ [KFin])).
  change 0 with (zlen (encs [])) at 1.
  rewrite (finish_loop_ok base total flags Ht rsv strs tail Hrsv (rp_strs _ _ _ _ _ Hr) Hb size ks); [|done|done|done|].
  2: { unfold blob_fuel. pose proof (zlen_fs base total flags rsv strs tail size _ _ Hlaid) as Hz. pose proof (length_encs ks Hwf). unfold zlen in *. lia. }
  destruct (Z.ltb_spec size 0); [lia|]. cbn [app]. unfold fs. rewrite (rd_sstr base total flags) by (unfold is_uw; lia).
  rewrite uw_small by (unfold is_uw; lia).
  set (rest := replicate 8 0 ++ rsv ++ encs (fix_tok (zlen strs) <$> ks) ++ encs [KFin] ++ strs ++ tail).
  rewrite (set_word fdt_set_totalsize base _ rest 1 (ost + size + zlen strs) total) by done.
  rewrite (set_word fdt_set_last_comp_version base _ rest 6 FDT_LAST_COMPATIBLE_VERSION flags) by done.
  rewrite (set_word fdt_set_magic base _ rest 0 FDT_MAGIC FDT_SW_MAGIC) by done.
  unfold blob. assert (zlen (encs ((fix_tok (zlen strs) <$> ks) ++ [KFin])) = size) as ->.
  { rewrite encs_app, encs_one, zlen_app, (proj1 (fix_encs _ _ Hwf)). change (zlen (enc KFin)) with 4. lia. }
  unfold rest. by rewrite encs_app, <- !app_assoc.
Qed.
End FinishAll.

(** ** The tree of a finished blob *)

Lemma find_byte_at c s r n : c ∉ s -> (length s < n)%nat -> find_byte c n (s ++ c :: r) = Some (Some (zlen s)).
Proof.
  revert n. induction s as [|x s IH]; intros n Hs Hn; (destruct n as [|n]; [cbn in Hn; lia|]); cbn [find_byte app]; [by rewrite Z.eqb_refl|].
  apply not_elem_of_cons in Hs as [Hc Hs]. destruct (Z.eqb_spec x c); [congruence|]. rewrite IH by (done || cbn in Hn; lia).
  cbn. rewrite zlen_cons. do 2 f_equal. lia.
Qed.

(** The name of a property lies at its offset in the strings. *)
Definition placed (strs : list Z) (k : tok) : Prop :=
  match k with KProp name off _ _ => exists l1 l2, strs = l1 ++ (name ++ [0]) ++ l2 /\ off = zlen l1 | _ => True end.

Lemma fix_placed strs k : tok_ok strs k -> placed strs (fix_tok (zlen strs) k).
Proof.
  intros [_ H]. destruct k; try done. destruct H as (l1 & l2 & E & ->). exists l1, l2. split; [done|].
  pose proof (f_equal zlen E) as L. rewrite !zlen_app in L. change (zlen [0]) with 1 in L. lia.
Qed.

Section Tree.
  Context (base : Z) (rsv : list Z) (all : list tok) (strs tail : list Z).
  Local Abbreviation b := (blob base rsv all strs tail).
  Local Abbreviation m := (r_bytes b).
  Local Abbreviation ost := (48 + zlen rsv).
  Local Abbreviation size := (zlen (encs all)).
  Context (Halign : Z.land base 7 = 0) (Hrsv : Forall is_byte rsv) (Hstrs : Forall is_byte strs) (Htail : Forall is_byte tail).
  Context (Hwf : Forall tok_wf all) (Hpl : Forall (placed strs) all) (Hint : ost + size + zlen strs < INT_MAX).

Lemma blob_bounds : 0 <= zlen rsv /\ 0 <= size /\ 0 <= zlen strs /\ 0 <= zlen tail /\ ost + size + zlen strs < 2 ^ 31 - 1.
Proof. unfold INT_MAX in Hint. split_and!; try apply zlen_nonneg. done. Qed.

Lemma blob_word i v : [FDT_MAGIC; ost + size + zlen strs; ost; ost + size; 48; 17; 16; 0; zlen strs; size] !! i = Some v -> is_uw 32 v ->
  hv b (4 * Z.of_nat i) = v.
Proof. intros H Hv. apply hv_word. by apply word_at. Qed.

Lemma blob_readable : readable b.
Proof.
  destruct blob_bounds as (? & ? & ? & ? & ?).
  assert (hv b 4 = ost + size + zlen strs) as E by (apply (blob_word 1); [done|unfold is_uw; lia]).
  assert (zlen m = ost + size + zlen strs + zlen tail) as Hz.
  { cbn [blob buf r_bytes]. rewrite !zlen_app, zlen_cells. change (zlen (FDT_MAGIC :: _)) with 10. change (zlen (replicate 8 0)) with 8. lia. }
  split; [|done|by apply (blob_word 0)| |].
  - split; [|lia|lia|by rewrite E]. cbn [blob buf r_bytes]. rewrite !Forall_app. split_and!; try done; [apply cells_bytes|by repeat constructor|by apply encs_bytes].
  - change 20 with (4 * Z.of_nat 5). by rewrite (blob_word 5 17).
  - change 24 with (4 * Z.of_nat 6). by rewrite (blob_word 6 16).
Qed.

Lemma blob_from : from m ost (encs all ++ strs ++ tail).
Proof.
  destruct blob_bounds as (? & ? & ? & ? & ?). set (ws := [FDT_MAGIC; ost + size + zlen strs; ost; ost + size; 48; 17; 16; 0; zlen strs; size]).
  assert (m = (cells ws ++ replicate 8 0 ++ rsv) ++ encs all ++ strs ++ tail) as -> by (cbn [blob buf r_bytes]; by rewrite <- !app_assoc).
  assert (zlen (cells ws ++ replicate 8 0 ++ rsv) = ost) as L.
  { rewrite !zlen_app, zlen_cells. change (zlen ws) with 10. change (zlen (replicate 8 0)) with 8. lia. }
  split; [rewrite zlen_app; pose proof (zlen_nonneg (encs all ++ strs ++ tail)); lia|]. rewrite <- L. unfold zlen. by rewrite Nat2Z.id, drop_app_length.
Qed.

Lemma blob_token ks1 k ks2 : all = ks1 ++ k :: ks2 -> token b (zlen (encs ks1)) (tag_of k) (zlen (encs ks1) + zlen (enc k)).
Proof.
  destruct blob_bounds as (? & ? & ? & ? & ?). intros E. apply (tok_token b (rb_ok _ blob_readable) ost all (strs ++ tail)) with (post := ks2); try done.
  - apply (blob_word 2); [done|unfold is_uw; lia].
  - apply (blob_word 9); [done|unfold is_uw; lia].
  - change 4 with (4 * Z.of_nat 1). rewrite (blob_word 1 (ost + size + zlen strs)) by (done || unfold is_uw; lia). lia.
  - apply blob_from.
Qed.

Lemma blob_string l1 l2 name : strs = l1 ++ (name ++ [0]) ++ l2 -> 0 ∉ name -> string_at b (zlen l1) name.
Proof.
  destruct blob_bounds as (? & ? & ? & ? & ?). intros E Hn. pose proof blob_readable as Hrd. pose proof (zlen_nonneg l1). pose proof (zlen_nonneg l2). pose proof (zlen_nonneg name).
  assert (zlen strs = zlen l1 + (zlen name + 1) + zlen l2) as Ls by (rewrite E, !zlen_app; change (zlen [0]) with 1; lia).
  assert (from m (ost + size + zlen l1) (name ++ 0 :: (l2 ++ tail))) as Hf.
  { pose proof blob_from as Hf. apply from_app in Hf. revert Hf. generalize m. intros m0 Hf. rewrite E, <- !app_assoc in Hf. by apply from_app in Hf. }
  unfold string_at, fdt_get_string. exists (ost + size + zlen l1). split; [|by eapply from_cstr].
  rewrite (probe_tot b Hrd). cbn [mbind option_bind]. unfold fdt_off_dt_strings, fdt_magic, fdt_version, fdt_size_dt_strings.
  rewrite !(field_ok b (rb_ok _ Hrd)) by lia. rewrite (rb_magic _ Hrd).
  assert (hv b 4 = ost + size + zlen strs) as -> by (apply (blob_word 1); [done|unfold is_uw; lia]).
  assert (hv b 12 = ost + size) as -> by (apply (blob_word 3); [done|unfold is_uw; lia]).
  assert (hv b 20 = 17) as -> by (by apply (blob_word 5)).
  assert (hv b 32 = zlen strs) as -> by (apply (blob_word 8); [done|unfold is_uw; lia]).
  destruct (Z.ltb_spec (ost + size + zlen strs) 0); [lia|]. cbn [mbind option_bind].
  replace (zlen l1 + (ost + size)) with (ost + size + zlen l1) by lia. rewrite (uw_small 32 (ost + size + zlen l1)), (uw_small 32 (ost + size + zlen strs)) by (unfold is_uw; lia).
  destruct (Z.leb_spec (ost + size + zlen strs) (ost + size + zlen l1)); [lia|]. rewrite Z.eqb_refl. destruct (Z.ltb_spec (zlen l1) 0); [lia|].
  change (17 <=? 17) with true. cbn [mbind option_bind]. rewrite !(uw_small 32) by (unfold is_uw; lia). destruct (Z.leb_spec (zlen strs) (zlen l1)); [lia|]. cbn [mbind option_bind].
  replace (ost + size + zlen strs - (ost + size + zlen l1)) with (zlen strs - zlen l1) by lia. rewrite Z.ltb_irrefl. cbn [mbind option_bind].
  unfold memchr. destruct (Z.ltb_spec (ost + size + zlen l1) 0); [lia|]. rewrite (proj2 Hf), find_byte_at by (done || unfold zlen in *; lia). cbn.
  do 3 f_equal. lia.
Qed.

Lemma blob_prop ks1 name off val pad ks2 : all = ks1 ++ KProp name off val pad :: ks2 -> prop_at b (PItem (zlen (encs ks1)) name val).
Proof.
  intros E. destruct blob_bounds as (? & ? & ? & ? & ?).
  assert (hv b 8 = ost) as H8 by (apply (blob_word 2); [done|unfold is_uw; lia]).
  assert (Hk := Hwf). rewrite E in Hk. apply Forall_app in Hk as [Hk1 Hk]. apply Forall_cons in Hk as [([Hn _] & _ & _ & _) _].
  assert (Hp := Hpl). rewrite E in Hp. apply Forall_app in Hp as [_ Hp]. apply Forall_cons in Hp as [(l1 & l2 & El & ->) _].
  assert (from m ost (encs ks1 ++ to_be 4 FDT_PROP ++ to_be 4 (zlen val) ++ to_be 4 (zlen l1) ++ val ++ pad ++ encs ks2 ++ strs ++ tail)) as Hf.
  { pose proof blob_from as Hf. revert Hf. generalize m. intros m0 Hf. rewrite E, encs_app, encs_cons in Hf. cbn [enc] in Hf. by rewrite <- !app_assoc in Hf. }
  assert (zlen strs = zlen l1 + (zlen name + 1) + zlen l2) as Ls by (rewrite El, !zlen_app; change (zlen [0]) with 1; lia).
  pose proof (zlen_nonneg l1). pose proof (zlen_nonneg l2). pose proof (zlen_nonneg name). pose proof (zlen_nonneg val). pose proof (zlen_nonneg (encs ks1)).
  assert (zlen (encs ks1) + 12 + zlen val <= size) as Hs.
  { rewrite E, encs_app, encs_cons, !zlen_app. cbn [enc]. rewrite !zlen_app, !zlen_to_be. pose proof (zlen_nonneg pad). pose proof (zlen_nonneg (encs ks2)). lia. }
  unfold prop_at. cbn [p_off p_name p_val]. rewrite H8.
  apply from_app in Hf. apply from_app in Hf. rewrite zlen_to_be in Hf.
  assert (hv b (ost + zlen (encs ks1) + 4) = zlen val) as ->.
  { apply hv_word. eapply word_from; [done|unfold is_uw; lia]. }
  apply from_app in Hf. rewrite zlen_to_be in Hf.
  assert (hv b (ost + zlen (encs ks1) + 8) = zlen l1) as ->.
  { apply hv_word. eapply word_from; [|unfold is_uw; lia]. replace (ost + zlen (encs ks1) + 8) with (ost + zlen (encs ks1) + Z.of_nat 4 + Z.of_nat 4) by lia. done. }
  rewrite sw_small by (unfold is_sw; lia). split; [by eapply blob_string|]. split; [done|].
  apply from_app in Hf. rewrite zlen_to_be in Hf. replace (ost + zlen (encs ks1) + 12) with (ost + zlen (encs ks1) + Z.of_nat 4 + Z.of_nat 4 + Z.of_nat 4) by lia.
  by eapply from_rdn.
Qed.

Lemma blob_name ks1 name pad ks2 : all = ks1 ++ KBegin name pad :: ks2 -> name_at b (zlen (encs ks1)) name.
Proof.
  intros E. destruct blob_bounds as (? & ? & ? & ? & ?).
  assert (hv b 8 = ost) as H8 by (apply (blob_word 2); [done|unfold is_uw; lia]).
  assert (Hk := Hwf). rewrite E in Hk. apply Forall_app in Hk as [_ Hk]. apply Forall_cons in Hk as [([Hn _] & _) _].
  assert (from m ost (encs ks1 ++ to_be 4 FDT_BEGIN_NODE ++ name ++ 0 :: (pad ++ encs ks2 ++ strs ++ tail))) as Hf.
  { pose proof blob_from as Hf. revert Hf. generalize m. intros m0 Hf. rewrite E, encs_app, encs_cons in Hf. cbn [enc] in Hf. by rewrite <- !app_assoc in Hf. }
  apply from_app in Hf. apply from_app in Hf. rewrite zlen_to_be in Hf. unfold name_at. rewrite H8. by eapply from_cstr.
Qed.

Lemma props_items ps : forall ks1 tp rest ks o, strip <$> tp = (ps ≫= fun p => [OProp p.1 p.2]) -> all = ks1 ++ tp ++ rest ->
  items b (zlen (encs (ks1 ++ tp))) [] ks o -> exists ps', (fun p => (p_name p, p_val p)) <$> ps' = ps /\ items b (zlen (encs ks1)) ps' ks o.
Proof.
  induction ps as [|[name val] ps IH]; intros ks1 tp rest ks o Hs E Hi; cbn [mbind list_bind app fst snd] in Hs.
  - apply fmap_nil_inv in Hs as ->. rewrite app_nil_r in Hi. by exists [].
  - apply fmap_cons_inv in Hs as (k & tp' & Ek & Ep & ->). destruct k as [|n off v pad| | |]; cbn in Ek; try done. injection Ek as <- <-.
    destruct (IH (ks1 ++ [KProp name off val pad]) tp' rest ks o) as (ps' & Eps & Hi'); [done|by rewrite <- app_assoc|by rewrite <- app_assoc|].
    exists (PItem (zlen (encs ks1)) name val :: ps'). split; [cbn; by rewrite <- Eps|]. rewrite encs_app, encs_one, zlen_app in Hi'.
    eapply it_prop; [exact (blob_token ks1 (KProp name off val pad) (tp' ++ rest) E)|done|by apply (blob_prop ks1 name off val pad (tp' ++ rest))|done].
Qed.

Definition reads_node (t : stree) : Prop := forall ks1 ts rest, strip <$> ts = flat t -> all = ks1 ++ ts ++ rest ->
  exists t', erase t' = t /\ d_off t' = zlen (encs ks1) /\ node_at b t' (zlen (encs (ks1 ++ ts))).

Lemma kids_items ks : Forall reads_node ks -> forall ks1 tk rest, strip <$> tk = (ks ≫= flat) -> all = ks1 ++ tk ++ KEnd :: rest ->
  exists ks', erase <$> ks' = ks /\ items b (zlen (encs ks1)) [] ks' (zlen (encs (ks1 ++ tk ++ [KEnd]))).
Proof.
  induction 1 as [|t ks Ht _ IH]; intros ks1 tk rest Hs E; cbn [mbind list_bind] in Hs.
  - apply fmap_nil_inv in Hs as ->. exists []. split; [done|]. constructor. cbn [app]. rewrite encs_app, encs_one, zlen_app.
    exact (blob_token ks1 KEnd rest E).
  - apply fmap_app_inv in Hs as (t1 & t2 & E1 & E2 & ->). rewrite <- app_assoc in E.
    destruct (Ht ks1 t1 (t2 ++ KEnd :: rest) (eq_sym E1) E) as (t' & Et & Eo & o1 & Htok & Hname & Hit).
    destruct (IH (ks1 ++ t1) t2 rest (eq_sym E2)) as (ks' & Eks & Hi); [by rewrite <- app_assoc|].
    exists (t' :: ks'). split; [cbn; by rewrite Et, Eks|]. rewrite <- !app_assoc in *. destruct t' as [o n ps kk]. cbn [d_off d_name d_props d_kids] in *. subst o.
    by eapply it_kid.
Qed.

Lemma node_reads t : reads_node t.
Proof.
  induction t as [name ps ks IH] using stree_ind'. intros ks1 ts rest Hs E. cbn [flat app] in Hs.
  apply fmap_cons_inv in Hs as (k & ts' & Ek & Hs & ->). destruct k as [n pad| | | |]; cbn in Ek; try done. injection Ek as <-.
  symmetry in Hs. apply fmap_app_inv in Hs as (tp & tr & Ep & Hs & ->). symmetry in Hs. apply fmap_app_inv in Hs as (tk & te & Ek & Hs & ->).
  symmetry in Hs. apply fmap_cons_inv in Hs as (k & tn & Ee & Hs & ->). symmetry in Hs. apply fmap_nil_inv in Hs as ->. destruct k; try done.
  cbn [app] in E. set (k1 := ks1 ++ [KBegin name pad]).
  destruct (kids_items ks IH (k1 ++ tp) tk rest) as (ks' & Eks & Hi); [done|rewrite E; unfold k1; by rewrite <- !app_assoc|].
  destruct (props_items ps k1 tp (tk ++ KEnd :: rest) ks' (zlen (encs ((k1 ++ tp) ++ tk ++ [KEnd]))) (eq_sym Ep)) as (ps' & Eps & Hi'); [rewrite E; unfold k1; by rewrite <- !app_assoc|exact Hi|].
  exists (DNode (zlen (encs ks1)) name ps' ks'). split; [cbn [erase]; by rewrite Eps, Eks|]. split; [done|].
  exists (zlen (encs k1)). cbn [d_off d_name d_props d_kids]. split; [|split].
  - unfold k1. rewrite encs_app, encs_one, zlen_app. by eapply (blob_token ks1 (KBegin name pad)).
  - by eapply blob_name.
  - replace (ks1 ++ KBegin name pad :: tp ++ tk ++ [KEnd]) with ((k1 ++ tp) ++ tk ++ [KEnd]); [done|]. unfold k1. by rewrite <- !app_assoc.
Qed.

Lemma blob_holds t ts : strip <$> ts = flat t -> all = ts ++ [KFin] -> exists t', holds b t' /\ erase t' = t.
Proof.
  intros Hs E. destruct (node_reads t [] ts [KFin] Hs E) as (t' & Et & Eo & Hn). exists t'. split; [|done].
  split; [apply blob_readable|]. split; [done|]. do 2 eexists. split; [exact Hn|]. exact (blob_token ts KFin [] E).
Qed.
End Tree.
