(* ===== verification/FdtSwRound.v ===== *)
(** Writing a tree and reading it back: creation and reservations, and the whole
    sequence of calls from [fdt_create_with_flags] to [fdt_finish]. *)
From S2P Require Import Prelude KDefs Bytes Fdt FdtRo FdtSafe FdtRoSafe FdtProps FdtHelper FdtCheck FdtTree FdtPath FdtSw FdtSwProps FdtSeg FdtSwTree FdtRsv.

(** ** The reservation map *)
Section Reserve.
  Context (base total flags : Z) (Ht : 0 <= total < INT_MAX) (Hf : is_uw 32 flags).

(** The buffer between [fdt_create] and [fdt_finish_reservemap]. *)
Definition rbuf (l : list (Z * Z)) (gap : list Z) : region :=
  buf base (W total flags (48 + 16 * zlen l) 0 0 0) (replicate 8 0 ++ (l ≫= enc_rsv) ++ gap).

Lemma sw_probe_memrsv {A} ost r (fail : Z -> A) f :
  probed fdt_sw_probe_memrsv_ fail f (buf base (W total flags ost 0 0 0) r) = f (buf base (W total flags ost 0 0 0) r).
Proof. unfold probed, fdt_sw_probe_memrsv_, mbind, M_bind. rewrite sw_probe. cbn [negb Z.eqb]. by rewrite rd_ostr. Qed.

Lemma add_reserve l gap a s : 48 + 16 * zlen l + zlen gap = total ->
  fdt_add_reservemap_entry a s (rbuf l gap) =
  if zlen gap <? 16 then Some (- FDT_ERR_NOSPACE, rbuf l gap) else Some (0, rbuf (l ++ [(a, s)]) (drop 16 gap)).
Proof.
  intros Hfit. unfold INT_MAX in Ht. pose proof (zlen_nonneg l). pose proof (zlen_nonneg gap).
  unfold fdt_add_reservemap_entry. unfold rbuf at 1. rewrite sw_probe_memrsv. unfold mbind, M_bind.
  rewrite rd_ost, (rd_total base total flags Ht) by (unfold is_uw; lia). rewrite (sw_small 32) by (unfold is_sw; lia). rewrite (uw_small 64) by (unfold is_uw; lia).
  destruct (Z.ltb_spec (zlen gap) 16) as [Hlt|Hge]; (destruct (Z.ltb_spec total (48 + 16 * zlen l + 16)); [|try lia]); try lia; [done|].
  destruct (list_cut gap 16) as (g & gap' & -> & Hg); [lia|]. destruct (list_cut g 8) as (g1 & g2 & -> & Hg1); [lia|]. rewrite zlen_app in Hg.
  assert (drop 16 ((g1 ++ g2) ++ gap') = gap') as -> by (rewrite drop_app_ge, length_app by (unfold zlen in *; rewrite length_app; lia);
    replace (16 - _)%nat with 0%nat by (unfold zlen in *; lia); done).
  set (q := replicate 8 0 ++ (l ≫= enc_rsv)). assert (zlen q = 8 + 16 * zlen l) as Lq by (unfold q; rewrite zlen_app, zlen_enc_rsv; done).
  rewrite (app_assoc (replicate 8 0)). fold q. rewrite <- !app_assoc.
  rewrite (wr_rest _ _ q g1 (g2 ++ gap')); [|rewrite zlen_cells, Lq; change (zlen (W _ _ _ _ _ _)) with 10; lia|by rewrite zlen_to_be].
  rewrite app_assoc, (wr_rest _ _ (q ++ to_be 8 a) g2 gap'); [|rewrite zlen_cells, zlen_app, Lq, zlen_to_be; change (zlen (W _ _ _ _ _ _)) with 10; lia|rewrite zlen_to_be; lia].
  rewrite uw_small by (unfold is_uw; lia). rewrite set_ost. unfold rbuf, mret, M_ret. rewrite zlen_app, bind_app. change (zlen [(a, s)]) with 1.
  do 3 f_equal; [f_equal; lia|]. unfold q, enc_rsv at 3. cbn [mbind list_bind]. rewrite app_nil_r. by rewrite <- !app_assoc.
Qed.

Lemma add_reserves es : forall l gap, 48 + 16 * zlen l + zlen gap = total -> exists rc s',
  all_of ((fun e => fdt_add_reservemap_entry e.1 e.2) <$> es) (rbuf l gap) = Some (rc, s') /\
  ((rc = 0 /\ s' = rbuf (l ++ es) (drop (Z.to_nat (16 * zlen es)) gap) /\ 16 * zlen es <= zlen gap) \/ (rc = - FDT_ERR_NOSPACE /\ zlen gap < 16 * zlen es)).
Proof.
  induction es as [|[a s] es IH]; intros l gap Hfit; cbn [fmap list_fmap all_of fst snd].
  - do 2 eexists. split; [done|]. left. rewrite app_nil_r. split_and!; [done|done|apply zlen_nonneg].
  - unfold and_then, mbind, M_bind. rewrite add_reserve by done. rewrite zlen_cons. pose proof (zlen_nonneg es). destruct (Z.ltb_spec (zlen gap) 16) as [Hlt|Hge].
    + do 2 eexists. split; [done|]. right. split; [done|lia].
    + cbn [negb Z.eqb]. assert (zlen (drop 16 gap) = zlen gap - 16) as Ld by (unfold zlen in *; rewrite length_drop; lia).
      destruct (IH (l ++ [(a, s)]) (drop 16 gap)) as (rc & s' & E & H'); [rewrite zlen_app, Ld; change (zlen [(a, s)]) with 1; lia|].
      exists rc, s'. split; [done|]. rewrite <- app_assoc, drop_drop, Ld in H'. cbn [app] in H'.
      replace (16 + Z.to_nat (16 * zlen es))%nat with (Z.to_nat (16 * (1 + zlen es))) in H' by lia. destruct H' as [(-> & -> & H')|[-> H']]; [left|right]; split_and!; try done; lia.
Qed.

(** The map is closed by an empty entry; the strings are empty at the end of the
    buffer. *)
Lemma finish_reserve l gap : 48 + 16 * zlen l + zlen gap = total ->
  fdt_finish_reservemap (rbuf l gap) =
  if zlen gap <? 16 then Some (- FDT_ERR_NOSPACE, rbuf l gap)
  else Some (0, wbuf base total flags ((l ++ [(0, 0)]) ≫= enc_rsv) [] (drop 16 gap) []).
Proof.
  intros Hfit. unfold fdt_finish_reservemap, mbind at 1, M_bind at 1. rewrite add_reserve by done. destruct (Z.ltb_spec (zlen gap) 16); [done|].
  cbn [negb Z.eqb]. unfold mbind at 1, M_bind at 1. unfold rbuf at 1. rewrite (rd_total base total flags Ht). unfold mbind at 1, M_bind at 1. rewrite set_ostr.
  unfold mret, M_ret, wbuf, pre. rewrite zlen_enc_rsv. cbn [encs mbind list_bind]. by rewrite !app_nil_r, <- app_assoc.
Qed.
End Reserve.

(** ** Creation *)
Lemma create_ok base m bufsize flags : zlen m = bufsize -> bufsize < INT_MAX -> flags = 0 \/ flags = FDT_CREATE_FLAG_NO_NAME_DEDUP ->
  fdt_create_with_flags bufsize flags (Region base m) =
  if bufsize <? 48 then Some (- FDT_ERR_NOSPACE, Region base m)
  else Some (0, rbuf base bufsize flags [] (replicate (Z.to_nat (bufsize - 48)) 0)).
Proof.
  intros Hm Hb Hfl. unfold fdt_create_with_flags. change sw_hdrsize with 48. destruct (Z.ltb_spec bufsize 48) as [|Hge]; [done|].
  assert ((Z.land flags (u32 (Z.lnot FDT_CREATE_FLAGS_ALL)) =? 0) = true) as -> by (by destruct Hfl as [-> | ->]). cbn [negb].
  unfold mbind at 1, M_bind at 1. unfold wr at 1. rewrite wrn_Some; cbn [r_bytes r_base]; [|lia|unfold zlen in *; rewrite length_replicate; lia].
  cbn [mbind option_bind]. change (Z.to_nat 0) with 0%nat. rewrite take_0. cbn [app].
  assert (drop (Z.to_nat (0 + zlen (replicate (Z.to_nat bufsize) 0))) m = []) as -> by (apply drop_ge; unfold zlen in *; rewrite length_replicate; lia).
  rewrite app_nil_r. replace (replicate (Z.to_nat bufsize) 0) with (cells (replicate 10 0) ++ replicate 8 0 ++ replicate (Z.to_nat (bufsize - 48)) 0).
  2: { change (cells (replicate 10 0)) with (replicate 40 0). rewrite <- !replicate_add. f_equal. lia. }
  set (r := replicate 8 0 ++ _). change (Region base (cells (replicate 10 0) ++ r)) with (buf base (replicate 10 0) r). cbn [replicate]. unfold mbind, M_bind.
  rewrite (set_word fdt_set_magic _ _ _ 0 _ 0) by done. rewrite (set_word fdt_set_version _ _ _ 5 _ 0) by done.
  rewrite (set_word fdt_set_last_comp_version _ _ _ 6 _ 0) by done. rewrite (set_word fdt_set_totalsize _ _ _ 1 _ 0) by done.
  rewrite (set_word fdt_set_off_mem_rsvmap _ _ _ 4 _ 0) by done. rewrite (rd_word fdt_off_mem_rsvmap _ _ _ 4 48) by done.
  rewrite (set_word fdt_set_off_dt_struct _ _ _ 2 _ 0) by done. by rewrite (set_word fdt_set_off_dt_strings _ _ _ 3 _ 0) by done.
Qed.

(** ** The layout of a finished blob *)

(** The blocks follow each other without a gap, the map behind the header and eight
    bytes. *)
Definition laid_out (b : region) (l : list (Z * Z)) : Prop :=
  hv b 20 = 17 /\ hv b 16 = 48 /\ hv b 8 = 48 + zlen (map_of l) /\ hv b 12 = hv b 8 + hv b 36 /\ hv b 4 = hv b 12 + hv b 32.

Section Layout.
  Context (base : Z) (l : list (Z * Z)) (all : list tok) (strs tail : list Z) (Hl : Forall rsv_fine l).
  Local Abbreviation rsv := (map_of l).
  Local Abbreviation b := (blob base rsv all strs tail).
  Context (Hint : 48 + zlen rsv + zlen (encs all) + zlen strs < INT_MAX).

Lemma blob_layout : laid_out b l /\ reserves b l.
Proof.
  pose proof (zlen_nonneg rsv). pose proof (zlen_nonneg (encs all)). pose proof (zlen_nonneg strs). unfold INT_MAX in Hint.
  assert (forall i v, [FDT_MAGIC; 48 + zlen rsv + zlen (encs all) + zlen strs; 48 + zlen rsv; 48 + zlen rsv + zlen (encs all); 48; 17; 16; 0; zlen strs; zlen (encs all)] !! i = Some v -> is_uw 32 v -> hv b (4 * Z.of_nat i) = v) as Hw
    by (intros i v Hi Hv; apply hv_word; by apply word_at).
  pose proof (Hw 1%nat _ eq_refl ltac:(unfold is_uw; lia)) as E4. pose proof (Hw 2%nat _ eq_refl ltac:(unfold is_uw; lia)) as E8. pose proof (Hw 3%nat _ eq_refl ltac:(unfold is_uw; lia)) as E12. pose proof (Hw 4%nat _ eq_refl ltac:(done)) as E16.
  pose proof (Hw 5%nat _ eq_refl ltac:(done)) as E20. pose proof (Hw 8%nat _ eq_refl ltac:(unfold is_uw; lia)) as E32. pose proof (Hw 9%nat _ eq_refl ltac:(unfold is_uw; lia)) as E36.
  change (4 * Z.of_nat 1) with 4 in *. change (4 * Z.of_nat 2) with 8 in *. change (4 * Z.of_nat 3) with 12 in *. change (4 * Z.of_nat 4) with 16 in *. change (4 * Z.of_nat 5) with 20 in *. change (4 * Z.of_nat 8) with 32 in *. change (4 * Z.of_nat 9) with 36 in *.
  split; [split_and!; lia|]. split; [done| |lia]. rewrite E16. cbn [blob buf r_bytes]. rewrite app_assoc. set (h := cells _ ++ replicate 8 0). change 48 with (zlen h). apply rdn_mid.
Qed.
End Layout.

(** ** The whole tree *)
Lemma flat_inner ts t : strip <$> ts = flat t -> Forall inner ts.
Proof.
  assert (OFin ∉ flat t) as H.
  { induction t as [n ps ks IH] using stree_ind'. cbn [flat app]. rewrite not_elem_of_cons, !not_elem_of_app, list_elem_of_singleton. split_and!; try done.
    - intros (p & Hp & _)%list_elem_of_bind. by apply list_elem_of_singleton in Hp.
    - intros (k & Hk & Hin)%list_elem_of_bind. rewrite Forall_forall in IH. by eapply IH. }
  intros E. rewrite Forall_forall. intros k Hk ->. apply H. rewrite <- E. by apply (list_elem_of_fmap_2 strip _ KFin).
Qed.

(** What [write_tree] may need: header, reservations, the tree and FDT_END. *)
Definition whole_need (rsv : list (Z * Z)) (t : stree) : Z := 48 + 16 * (zlen rsv + 1) + tree_need t + 4.

(** The tree and the reservations are those of the blob. *)
Definition written (b : region) (rsv : list (Z * Z)) (t : stree) : Prop :=
  (exists t', holds b t' /\ erase t' = t) /\ fdt_num_mem_rsv b = Some (zlen rsv) /\
  forall i a s, rsv !! i = Some (a, s) -> fdt_get_mem_rsv b (Z.of_nat i) = Some (0, Some (a, s)).

(** With what is known about the memory. *)
Definition finished (total : Z) (b : region) (rsv : list (Z * Z)) (t : stree) : Prop :=
  written b rsv t /\ laid_out b rsv /\ reserves b rsv /\ zlen (r_bytes b) = total.

Section Round.
  Context (base total flags : Z) (Halign : Z.land base 7 = 0) (Ht : 0 <= total < INT_MAX).
  Context (l : list (Z * Z)) (Hl : Forall rsv_fine l).
  Local Abbreviation rsv := ((l ++ [(0, 0)]) ≫= enc_rsv).

(** From the buffer with all the tokens to the blob. *)
Lemma finish_written t ks gap strs : rep total rsv ks gap strs -> strip <$> ks = flat t ->
  exists rc b', fdt_finish (wbuf base total flags rsv ks gap strs) = Some (rc, b') /\
    ((rc = 0 /\ finished total b' l t) \/ (rc = - FDT_ERR_NOSPACE /\ zlen gap < 4)).
Proof.
  intros Hr Hs. pose proof (enc_rsv_bytes (l ++ [(0, 0)])) as Hb. pose proof (flat_inner _ _ Hs) as Hin.
  pose proof (finish_ok base total flags Ht rsv Hb ks gap strs Hr Hin) as H. destruct (Z.ltb_spec (zlen gap) 4) as [Hlt|Hge].
  { do 2 eexists. split; [done|]. by right. }
  destruct H as (tail & Htail & Hfit & E). do 2 eexists. split; [exact E|]. left. split; [done|].
  pose proof (rp_toks _ _ _ _ _ Hr) as Hks. assert (Forall tok_wf ks) as Hwf by (eapply Forall_impl; [exact Hks|by intros k []]).
  destruct (fix_encs (zlen strs) ks Hwf) as [Ez Hw]. set (all := (fix_tok (zlen strs) <$> ks) ++ [KFin]).
  assert (zlen (encs all) = zlen (encs ks) + 4) as La by (unfold all; by rewrite encs_app, encs_one, zlen_app, Ez).
  pose proof (zlen_nonneg tail). assert (48 + zlen rsv + zlen (encs all) + zlen strs < INT_MAX) as Hint by lia.
  assert (Forall tok_wf all) as Hwa by (apply Forall_app; split; [done|by repeat constructor]).
  pose proof (rp_strs _ _ _ _ _ Hr) as Hstr.
  assert (Forall (placed strs) all) as Hpl.
  { apply Forall_app. split; [|by repeat constructor]. apply Forall_fmap. eapply Forall_impl; [exact Hks|]. intros k. apply fix_placed. }
  pose proof (blob_readable base rsv all strs tail Halign Hb Hstr Htail Hwa Hint) as Hrd.
  destruct (blob_layout base l all strs tail Hl Hint) as [Hlay Hrs]. split; [|split_and!; [exact Hlay|exact Hrs|cbn [blob buf r_bytes]; rewrite !zlen_app, zlen_cells; change (zlen (FDT_MAGIC :: _)) with 10; change (zlen (replicate 8 0)) with 8; lia]].
  split; [|split; [by apply (rsv_count _ Hrd)|intros i a s Hi; by apply (rsv_get _ Hrd l Hrs)]].
  apply (blob_holds base rsv all strs tail Halign Hb Hstr Htail Hwa Hpl Hint t (fix_tok (zlen strs) <$> ks)); [|done].
  rewrite <- Hs, <- list_fmap_compose. apply list_fmap_ext. intros i k _. by destruct k.
Qed.
End Round.

(** ** A larger buffer *)

Lemma at_ptr_0 {A} (f : M region A) s a s' : f s = Some (a, s') -> r_base s' = r_base s -> at_ptr 0 f s = Some (a, s').
Proof.
  intros E Hb. unfold at_ptr. cbn [Z.ltb Z.compare]. change (Z.to_nat 0) with 0%nat. rewrite Z.add_0_r, drop_0, take_0.
  replace (Region (r_base s) (r_bytes s)) with s by (by destruct s). rewrite E, <- Hb. by destruct s'.
Qed.

Lemma memmove_same p n s : 0 <= p -> 0 <= n -> p + n <= zlen (r_bytes s) -> memmove p p n s = Some (tt, s).
Proof.
  intros Hp Hn Hb. unfold memmove, wr. rewrite rdn_Some by lia. cbn [mbind option_bind]. set (l := take _ _).
  assert (zlen l = n) as Hl by (unfold l, zlen in *; rewrite length_take, length_drop; lia). rewrite wrn_Some by lia. cbn. rewrite Hl.
  destruct s as [base m]. cbn [r_base r_bytes] in *. do 3 f_equal. unfold l. replace (Z.to_nat (p + n)) with (Z.to_nat p + Z.to_nat n)%nat by lia.
  by rewrite <- drop_drop, take_drop, take_drop.
Qed.

(** [fdt_resize] in place: the buffer with more memory behind it becomes one of
    that size, with the same tokens and strings and the new memory free. *)
Theorem fdt_resize_grows base total total2 flags rsv ks gap strs extra :
  0 <= total < INT_MAX -> total2 < INT_MAX -> is_uw 32 flags -> rep total rsv ks gap strs -> Forall is_byte extra -> total + zlen extra = total2 ->
  exists gap', rep total2 rsv ks gap' strs /\ zlen gap' = zlen gap + zlen extra /\
    fdt_resize 0 0 total2 (Region base (r_bytes (wbuf base total flags rsv ks gap strs) ++ extra)) = Some (0, wbuf base total2 flags rsv ks gap' strs).
Proof.
  intros Ht Ht2 Hf [H1 H2 H3 H4] He Hx. pose proof (zlen_nonneg gap). pose proof (zlen_nonneg strs). pose proof (zlen_nonneg rsv).
  pose proof (zlen_nonneg (encs ks)). pose proof (zlen_nonneg extra). assert (Ht' := Ht). unfold INT_MAX in Ht', Ht2.
  destruct (list_cut (gap ++ strs ++ extra) (zlen gap + zlen extra)) as (g & x & E & Lg); [rewrite !zlen_app; lia|].
  assert (zlen x = zlen strs) as Lx by (pose proof (f_equal zlen E) as L; rewrite !zlen_app in L; lia).
  assert (Forall is_byte (g ++ x)) as Hb by (rewrite <- E, !Forall_app; done). apply Forall_app in Hb as [Hb _].
  exists g. split; [by split; [lia|..]|]. split; [done|]. unfold wbuf. cbn [buf r_bytes]. rewrite <- !app_assoc, E.
  set (w := W total flags (48 + zlen rsv) total (zlen strs) (zlen (encs ks))).
  change (Region base (cells w ++ ?r)) with (buf base w r). unfold w.
  unfold fdt_resize, probed, mbind, M_bind. rewrite (at_ptr_0 _ _ 0 _ (sw_probe base total flags _ _ _ _ _)) by done. cbn [negb Z.eqb].
  destruct (Z.ltb_spec total2 0); [lia|].
  rewrite (at_ptr_0 _ _ _ _ (rd_ost base total flags (48 + zlen rsv) total (zlen strs) (zlen (encs ks)) (pre rsv ks ++ g ++ x) ltac:(unfold is_uw; lia))) by done.
  rewrite (at_ptr_0 _ _ _ _ (rd_sst base total flags (48 + zlen rsv) total (zlen strs) (zlen (encs ks)) (pre rsv ks ++ g ++ x) ltac:(unfold is_uw; lia))) by done.
  rewrite (at_ptr_0 _ _ _ _ (rd_sstr base total flags (48 + zlen rsv) total (zlen strs) (zlen (encs ks)) (pre rsv ks ++ g ++ x) ltac:(unfold is_uw; lia))) by done.
  rewrite (at_ptr_0 _ _ _ _ (rd_total base total flags Ht _ _ _ _ _)) by done. fold w.
  rewrite uw_small by (unfold is_uw; lia). set (hs := 48 + zlen rsv + zlen (encs ks)).
  assert (zlen (r_bytes (buf base w (pre rsv ks ++ g ++ x))) = total2) as Lm.
  { cbn [buf r_bytes]. rewrite !zlen_app, zlen_cells, zlen_pre. change (zlen w) with 10. lia. }
  destruct (Z.ltb_spec total (hs + zlen strs)); [lia|]. destruct (Z.ltb_spec total2 (hs + zlen strs)); [lia|]. change (0 <=? 0) with true.
  cbv match beta. rewrite memmove_same by lia. unfold memmove. cbn [buf r_bytes]. rewrite <- E.
  replace (0 + total - zlen strs) with (zlen (cells w ++ pre rsv ks ++ gap)) by (rewrite !zlen_app, zlen_cells, zlen_pre; change (zlen w) with 10; lia).
  replace (cells w ++ pre rsv ks ++ gap ++ strs ++ extra) with ((cells w ++ pre rsv ks ++ gap) ++ strs ++ extra) by (by rewrite <- !app_assoc).
  rewrite rdn_mid. cbn [mbind option_bind].
  replace (buf base w (pre rsv ks ++ gap ++ strs ++ extra)) with (buf base w ((pre rsv ks ++ g) ++ x ++ [])) by (by rewrite E, app_nil_r, <- app_assoc).
  rewrite wr_rest; [|rewrite zlen_cells, zlen_app, zlen_pre; change (zlen w) with 10; lia|done]. rewrite app_nil_r.
  rewrite (at_ptr_0 _ _ _ _ (set_word fdt_set_totalsize base w _ 1 total2 total (fun _ => eq_refl) eq_refl)) by done.
  change (<[1%nat := total2]> w) with (W total2 flags (48 + zlen rsv) total (zlen strs) (zlen (encs ks))).
  rewrite (at_ptr_0 _ _ _ _ (rd_ostr base total2 flags _ total _ _ _ ltac:(unfold is_uw; lia))) by done.
  destruct (Z.eqb_spec total 0); [lia|]. cbn [negb]. rewrite (at_ptr_0 _ _ _ _ (set_ostr base total2 flags _ _ _ _ _ total2)) by done.
  by rewrite <- app_assoc.
Qed.

(** The space check of [fdt_add_string_] compares [totalsize - offset], an
    unsigned difference, with the top of the structure block: for a name longer
    than what is left of the whole buffer the difference wraps around, the check
    passes, and the name is copied to before the start of the buffer. *)
Theorem fdt_add_string_underflow base total flags rsv ks gap strs name :
  0 <= total < INT_MAX -> is_uw 32 flags -> rep total rsv ks gap strs -> total < zlen strs + (zlen name + 1) < 2 ^ 31 ->
  fdt_add_string_ name (wbuf base total flags rsv ks gap strs) = None.
Proof.
  intros Ht Hf [H1 H2 H3 H4] Hn. pose proof (zlen_nonneg gap). pose proof (zlen_nonneg strs). pose proof (zlen_nonneg rsv).
  pose proof (zlen_nonneg (encs ks)). pose proof (zlen_nonneg name). assert (Ht' := Ht). unfold INT_MAX in Ht'.
  unfold fdt_add_string_, mbind, M_bind, wbuf. rewrite (rd_total base total flags Ht), (rd_sstr base total flags), (rd_ost base total flags), (rd_sst base total flags) by (unfold is_uw; lia).
  rewrite (uw_small 32 (zlen name + 1)), (uw_small 32 (zlen strs + _)), (uw_small 32 (48 + zlen rsv + _)) by (unfold is_uw; lia).
  assert (u32 (total - (zlen strs + (zlen name + 1))) = total - (zlen strs + (zlen name + 1)) + 2 ^ 32) as ->.
  { unfold uw. symmetry. apply (Z.mod_unique_pos _ _ (-1)); lia. }
  zcase; [lia|]. unfold wr, wrn. zcase; try lia; done.
Qed.

Lemma write_tree_ok base m flags rsv t :
  Z.land base 7 = 0 -> zlen m < INT_MAX -> flags = 0 \/ flags = FDT_CREATE_FLAG_NO_NAME_DEDUP -> Forall rsv_fine rsv -> tree_fine t ->
  exists rc b', write_tree (zlen m) flags rsv t (Region base m) = Some (rc, b') /\
    ((rc = 0 /\ finished (zlen m) b' rsv t) \/ (rc = - FDT_ERR_NOSPACE /\ zlen m < whole_need rsv t)).
Proof.
  intros Ha Hm Hfl Hrsv Ht. assert (0 <= zlen m < INT_MAX) as Hmm by (pose proof (zlen_nonneg m); lia).
  assert (is_uw 32 flags) as Huf by (by destruct Hfl as [-> | ->]). unfold write_tree, whole_need.
  unfold and_then at 1, mbind at 1, M_bind at 1. pose proof (zlen_nonneg rsv). rewrite (create_ok base m (zlen m) flags) by done.
  destruct (write_node_adds base (zlen m) flags Hmm Huf ((rsv ++ [(0, 0)]) ≫= enc_rsv) t Ht) as [Hadds Hneed].
  destruct (Z.ltb_spec (zlen m) 48) as [Hlt|Hge]; [do 2 eexists; split; [done|right; split; [done|lia]]|]. cbn [negb Z.eqb].
  unfold and_then at 1, mbind at 1, M_bind at 1. set (gap := replicate (Z.to_nat (zlen m - 48)) 0).
  assert (zlen gap = zlen m - 48) as Lg by (unfold gap, zlen in *; rewrite length_replicate; lia).
  destruct (add_reserves base (zlen m) flags Hmm rsv [] gap) as (rc & s' & -> & [(-> & -> & Hr)|[-> Hr]]); [unfold zlen in *; cbn [length]; lia| |].
  2: { do 2 eexists. split; [done|]. right. split; [done|lia]. }
  cbn [negb Z.eqb app]. unfold and_then at 1, mbind at 1, M_bind at 1. set (gap1 := drop _ gap).
  assert (zlen gap1 = zlen gap - 16 * zlen rsv) as Lg1 by (unfold gap1, zlen in *; rewrite length_drop; lia).
  rewrite (finish_reserve base (zlen m) flags Hmm rsv gap1) by lia. destruct (Z.ltb_spec (zlen gap1) 16) as [Hlt|Hge2].
  { do 2 eexists. split; [done|]. right. split; [done|lia]. }
  set (R := (rsv ++ [(0, 0)]) ≫= enc_rsv) in *. cbn [negb Z.eqb]. unfold and_then, mbind, M_bind. set (gap2 := drop 16 gap1).
  assert (zlen gap2 = zlen gap1 - 16) as Lg2 by (unfold gap2, zlen in *; rewrite length_drop; lia).
  destruct (Hadds [] gap2 []) as (rc & ts & gap' & new & -> & Hrep & Hrc).
  { split; [unfold R; rewrite zlen_enc_rsv, zlen_app; change (zlen [(0, 0)]) with 1; assert (zlen (encs []) = 0) by done; assert (zlen (@nil Z) = 0) by done; lia|..|constructor|constructor].
    unfold gap2, gap1, gap. apply Forall_drop, Forall_drop, Forall_replicate. done. }
  cbn [app] in *. destruct Hrc as [(-> & Hs & Hn)|[-> Hn]]; cbn [negb Z.eqb].
  - destruct (finish_written base (zlen m) flags Ha Hmm rsv Hrsv t ts gap' (new ++ []) Hrep Hs) as (rc & b' & E & H'). fold R in E. rewrite E.
    do 2 eexists. split; [done|]. destruct H' as [H'|[-> H']]; [by left|right; split; [done|lia]].
  - do 2 eexists. split; [done|]. right. split; [done|lia].
Qed.

(** C33: Into an 8-aligned buffer of fewer than INT_MAX bytes, with names and values
    shorter than 2^30 bytes, property names of at most 47 bytes, no NUL in
    a name, and reservations of positive size, a
    program that writes a tree with the sequential-write functions always
    returns, and either everything succeeds and the finished blob holds exactly
    that tree and those reservations, as the read functions report them, or the
    buffer is too small and the first call that does not fit reports
    -FDT_ERR_NOSPACE. A buffer of [whole_need] bytes is always large enough,
    with shared property names and without. (A longer property name can be written
    before the start of the buffer: [fdt_add_string_underflow].) *)
Theorem fdt_sw_roundtrip base m flags rsv t :
  Z.land base 7 = 0 -> zlen m < INT_MAX -> flags = 0 \/ flags = FDT_CREATE_FLAG_NO_NAME_DEDUP -> Forall rsv_fine rsv -> tree_fine t ->
  exists rc b', write_tree (zlen m) flags rsv t (Region base m) = Some (rc, b') /\
    ((rc = 0 /\ written b' rsv t) \/ (rc = - FDT_ERR_NOSPACE /\ zlen m < whole_need rsv t)).
Proof.
  intros Ha Hm Hfl Hrsv Ht. destruct (write_tree_ok base m flags rsv t Ha Hm Hfl Hrsv Ht) as (rc & b' & E & H). exists rc, b'. split; [exact E|]. destruct H as [[-> [H _]]|H]; [by left|by right].
Qed.

Lemma fdt_sw_roundtrip_witness :
  let t := SNode [] [([97], [1; 2; 3])] [SNode [98] [([97], []); ([99], [7])] []] in
  let rsv := [(4096, 256)] in
  (whole_need rsv t <= 220) /\
  exists b', write_tree 220 0 rsv t (Region 0 (replicate 220 255)) = Some (0, b') /\ written b' rsv t.
Proof.
  intros t rsv. assert (whole_need rsv t <= 220) as Hneed by (by vm_compute). split; [done|].
  destruct (fdt_sw_roundtrip 0 (replicate 220 255) 0 rsv t) as (rc & b' & E & H); [done|done|by left| | |].
  - by repeat constructor.
  - assert (forall c, 0 < c < 256 -> text [c]) as Htext.
    { intros c Hc. split; [|repeat constructor; unfold is_byte; lia]. rewrite list_elem_of_singleton. lia. }
    cbn [tree_fine foldr]. unfold prop_fine, text. cbn [fst snd].
    split_and!; try done; repeat constructor; try (by apply Htext); try done; by inversion 1.
  - change (zlen (replicate 220 255)) with 220 in E, H. destruct H as [[-> H]|[_ H]]; [|lia]. exists b'. split; [exact E|exact H].
Defined.
