(* ===== verification/FdtMove.v ===== *)
(** Parts of a tree in another blob: what happens to the tree when a stretch of
    the structure block is replaced and what follows it moves. *)
From S2P Require Import Prelude KDefs Bytes Fdt FdtRo FdtSafe FdtRoSafe FdtProps FdtHelper FdtCheck FdtTree FdtPath FdtSw FdtSwProps FdtSeg.

(** ** Shifted trees *)
Definition pshift (d : Z) (p : pitem) : pitem := PItem (p_off p + d) (p_name p) (p_val p).
Fixpoint shift (d : Z) (t : dt) : dt :=
  let 'DNode o n ps ks := t in DNode (o + d) n (pshift d <$> ps) (shift d <$> ks).

Definition pv (p : pitem) : list Z * list Z := (p_name p, p_val p).

Lemma pv_shift d (ps : list pitem) : pv <$> (pshift d <$> ps) = pv <$> ps.
Proof. rewrite <- list_fmap_compose. by apply list_fmap_ext. Qed.

Lemma erase_shift d t : erase (shift d t) = erase t.
Proof.
  induction t as [o n ps ks IH] using dt_ind'. cbn [shift erase]. f_equal; [apply pv_shift|].
  rewrite <- list_fmap_compose. apply list_fmap_ext. intros i k Hk. rewrite Forall_forall in IH. apply IH. by eapply list_elem_of_lookup_2.
Qed.

Lemma erase_shift_all d (ks : list dt) : erase <$> (shift d <$> ks) = erase <$> ks.
Proof. rewrite <- list_fmap_compose. apply list_fmap_ext. intros. apply erase_shift. Qed.

Lemma pshift_0 (ps : list pitem) : pshift 0 <$> ps = ps.
Proof. induction ps as [|[o n v] ps IH]; [done|]. cbn. rewrite IH. unfold pshift. cbn. by rewrite Z.add_0_r. Qed.

Lemma shift_0 t : shift 0 t = t.
Proof.
  induction t as [o n ps ks IH] using dt_ind'. cbn [shift]. rewrite Z.add_0_r, pshift_0. f_equal.
  induction IH as [|k ks Hk _ IHk]; [done|]. cbn. by rewrite Hk, IHk.
Qed.

Lemma shift_0_all (ks : list dt) : shift 0 <$> ks = ks.
Proof. induction ks as [|k ks IH]; [done|]. cbn. by rewrite shift_0, IH. Qed.

(** ** Moving tokens and items *)

(** A blob for reading and changing: header, version and blocks are in order. *)
Record stable (b : region) : Prop := { sb_read : readable b; sb_bound : bounded b }.

(** Every string of [b] is one of [b'], at the same offset. *)
Definition strings_le (b b' : region) : Prop := forall o s, is_sw 32 o -> string_at b o s -> string_at b' o s.

Section Move.
  Context (b b' : region) (Hb : stable b) (Hb' : stable b') (Hstr : strings_le b b').
  Local Abbreviation B := (sb_bound _ Hb).
  Local Abbreviation B' := (sb_bound _ Hb').
  Local Abbreviation R := (sb_read _ Hb).

  Context (d : Z) (Hd : d mod 4 = 0).

(** The same bytes, [d] further on in [b']. *)
Definition copied (o n : Z) : Prop := exists l, zlen l = n - o /\ seg b o l /\ seg b' (o + d) l.

Lemma copied_split o x n : o <= x <= n -> copied o n -> copied o x /\ copied x n.
Proof.
  intros H (l & L & Hs & Hs'). destruct (list_cut l (x - o)) as (l1 & l2 & -> & L1); [lia|]. rewrite zlen_app in L.
  apply seg_app in Hs as [? ?]. apply seg_app in Hs' as [? ?]. rewrite L1 in *. split; [by exists l1|]. exists l2.
  replace (o + (x - o)) with x in * by lia. replace (o + d + (x - o)) with (x + d) in * by lia. split_and!; (done || lia).
Qed.

Lemma mod_d o : at_tag o -> (o + d) mod 4 = 0.
Proof. intros [_ H]. clear - H Hd. Z.to_euclidean_division_equations. lia. Qed.

Lemma token_copied o tag n : at_tag o -> token b o tag n -> tag <> FDT_END -> copied o n ->
  exists k, tok_wf k /\ tag_of k = tag /\ n = o + zlen (enc k) /\ seg b o (enc k) /\ seg b' (o + d) (enc k) /\ token b' (o + d) tag (n + d).
Proof.
  intros Hg Ht Hne (l & L & Hs & Hs'). pose proof Hs as (_ & Hl & _).
  destruct (token_seg b B o tag n Hg Ht) as (k & Hk & <- & Hsk & En); [left; lia|]. assert (l = enc k) as -> by (apply (seg_fun b o); [done|done|lia]).
  exists k. split_and!; try done. replace (n + d) with (o + d + zlen (enc k)) by lia. by apply (seg_token b' B'); [apply mod_d|..].
Qed.

Lemma begin_copied o n name : at_tag o -> token b o FDT_BEGIN_NODE n -> name_at b o name -> copied o n ->
  token b' (o + d) FDT_BEGIN_NODE (n + d) /\ name_at b' (o + d) name.
Proof.
  intros Hg Ht Hn Hc. destruct (token_copied o _ n Hg Ht ltac:(done) Hc) as (k & Hk & Et & En & Hs & Hs' & Ht'). split; [done|].
  destruct k as [nm pad| | | |]; try done. destruct Hk as ([H0 _] & _). cbn [enc] in Hs, Hs'.
  apply seg_app in Hs as [_ Hs]. apply seg_app in Hs' as [_ Hs']. rewrite zlen_to_be, <- app_assoc in *. cbn [app] in *.
  pose proof (seg_cstr b _ _ _ Hs H0) as E. pose proof (seg_cstr b' _ _ _ Hs' H0) as E'. unfold name_at in *.
  change (Z.of_nat 4) with 4 in *. rewrite Z.add_assoc in E, E'. rewrite E'. by rewrite Hn in E.
Qed.

(** What the bytes of a property say. *)
Lemma prop_bytes c (Hc : bounded c) o off val pad : seg c o (enc (KProp [] off val pad)) ->
  hv c (hv c 8 + o + 4) = zlen val /\ hv c (hv c 8 + o + 8) = u32 off /\ rdn (r_bytes c) (hv c 8 + o + 12) (zlen val) = Some val.
Proof.
  intros Hs. cbn [enc] in Hs. pose proof (bounds c Hc) as (? & ? & ? & ? & ?).
  pose proof Hs as (Ho & Hle & _). rewrite !zlen_app, !zlen_to_be in Hle. pose proof (zlen_nonneg pad). pose proof (zlen_nonneg val).
  apply seg_app in Hs as [_ Hs]. rewrite zlen_to_be in Hs. change (Z.of_nat 4) with 4 in Hs. rewrite <- !Z.add_assoc. split; [|split].
  - apply hv_word. eapply seg_word; [done|unfold is_uw; lia].
  - apply seg_app in Hs as [_ Hs]. rewrite zlen_to_be in Hs. apply seg_app in Hs as [(_ & _ & E) _]. rewrite zlen_to_be in E.
    change (Z.of_nat 4) with 4 in E. replace (o + 4 + 4) with (o + 8) in E by lia. apply hv_word. unfold fdt32_ld, rd_be. rewrite E.
    change (Some (be (to_be 4 off)) = Some (u32 off)). by rewrite be_to_be4.
  - do 2 (apply seg_app in Hs as [_ Hs]; rewrite zlen_to_be in Hs). apply seg_app in Hs as [(_ & _ & E) _].
    change (Z.of_nat 4) with 4 in E. by replace (o + 4 + 4 + 4) with (o + 12) in E by lia.
Qed.

Lemma prop_copied p n : at_tag (p_off p) -> token b (p_off p) FDT_PROP n -> prop_at b p -> copied (p_off p) n ->
  token b' (p_off p + d) FDT_PROP (n + d) /\ prop_at b' (pshift d p).
Proof.
  intros Hg Ht (Hp1 & Hp2 & Hp3) Hc. destruct (token_copied _ _ n Hg Ht ltac:(done) Hc) as (k & Hk & Et & En & Hs & Hs' & Ht'). split; [done|].
  destruct k as [|nm off val pad| | |]; try done.
  destruct (prop_bytes b B (p_off p) off val pad Hs) as (E1 & E2 & E3). destruct (prop_bytes b' B' (p_off p + d) off val pad Hs') as (F1 & F2 & F3).
  rewrite E1 in Hp2. rewrite <- Hp2, E3 in Hp3. injection Hp3 as Ev. subst val. unfold prop_at, pshift. cbn [p_off p_name p_val]. rewrite F1, F2. rewrite E2 in Hp1.
  split; [apply Hstr; [by apply sw_range|done]|done].
Qed.

(** The items of a node, at another place. *)
Lemma items_copied o ps ks e : items b o ps ks e -> at_tag o -> copied o e ->
  items b' (o + d) (pshift d <$> ps) (shift d <$> ks) (e + d).
Proof.
  induction 1 as [o e Ht|o o1 ps ks e Ht Hi IH|o o1 p ps ks e Ht Hpo Hp Hi IH|o o1 o2 n ps ks ps' ks' e Ht Hnm Hi1 IH1 Hi2 IH2]; intros Hg Hc;
    pose proof (token_at_tag b R _ _ _ Hg Ht ltac:(done)) as Hg1; pose proof (token_next b R _ _ _ (proj1 Hg) Ht ltac:(done)) as (_ & H0 & Hlt & _).
  - constructor. by destruct (token_copied o _ e Hg Ht ltac:(done) Hc) as (? & _ & _ & _ & _ & _ & ?).
  - destruct (items_at_tag b R _ _ _ _ Hi Hg1) as [_ Hlt1]. apply (copied_split _ o1) in Hc as [Hc1 Hc2]; [|lia].
    destruct (token_copied o _ o1 Hg Ht ltac:(done) Hc1) as (_ & _ & _ & _ & _ & _ & Ht'). eapply it_nop; [done|]. by apply IH.
  - subst o. destruct (items_at_tag b R _ _ _ _ Hi Hg1) as [_ Hlt1]. apply (copied_split _ o1) in Hc as [Hc1 Hc2]; [|lia].
    destruct (prop_copied p o1 Hg Ht Hp Hc1) as (Ht' & Hp'). eapply it_prop; [done|done|done|]. by apply IH.
  - destruct (items_at_tag b R _ _ _ _ Hi1 Hg1) as [Hg2 Hlt1]. destruct (items_at_tag b R _ _ _ _ Hi2 Hg2) as [_ Hlt2].
    apply (copied_split _ o1) in Hc as [Hc1 Hc]; [|lia]. apply (copied_split _ o2) in Hc as [Hc2 Hc3]; [|lia].
    destruct (begin_copied o o1 n Hg Ht Hnm Hc1) as [Ht' Hn']. eapply it_kid; [done|done|by apply IH1|by apply IH2].
Qed.
End Move.

(** ** Contexts *)

(** One ancestor: where it lies, its name and properties, and its sub-nodes
    before and behind the one the context leads to. *)
Record frame := Frame {
  f_off : Z; f_name : list Z; f_props : list (list Z * list Z); f_left : list stree; f_right : list stree
}.

(** [s] is the node of [t] at the end of a path of ancestors, the nearest first. *)
Inductive sits (s : dt) : dt -> list frame -> Prop :=
  | sits_here : sits s s []
  | sits_kid o n ps k1 k k2 F : sits s k F ->
      sits s (DNode o n ps (k1 ++ k :: k2)) (F ++ [Frame o n (pv <$> ps) (erase <$> k1) (erase <$> k2)]).

Definition plug1 (x : stree) (f : frame) : stree := SNode (f_name f) (f_props f) (f_left f ++ x :: f_right f).
Definition plug (F : list frame) (x : stree) : stree := fold_left plug1 F x.

Lemma erase_plug s t F : sits s t F -> erase t = plug F (erase s).
Proof.
  induction 1 as [|o n ps k1 k k2 F H IH]; [done|]. unfold plug in *. rewrite fold_left_app. cbn [fold_left]. rewrite <- IH.
  unfold plug1. cbn [erase f_name f_props f_left f_right]. by rewrite fmap_app.
Qed.

Lemma sits_within s t F : sits s t F -> within s t.
Proof. induction 1; [constructor|]. eapply within_kid; [|done]. cbn. by rewrite elem_of_app, elem_of_cons; auto. Qed.

Lemma within_sits s t : within s t -> exists F, sits s t F.
Proof.
  induction 1 as [|k [o n ps ks] Hk _ [F IH]]; [by exists []; constructor|]. cbn in Hk. apply list_elem_of_split in Hk as (k1 & k2 & ->).
  eexists. by constructor.
Qed.

(** The parent of the node a context leads to. *)
Lemma sits_parent s t f F : sits s t (f :: F) -> exists p k1 k2, sits p t F /\ d_off p = f_off f /\ d_name p = f_name f /\ pv <$> d_props p = f_props f /\
  d_kids p = k1 ++ s :: k2 /\ erase <$> k1 = f_left f /\ erase <$> k2 = f_right f.
Proof.
  intros H. remember (f :: F) as G eqn:E. revert f F E. induction H as [|o n ps k1 k k2 G H IH]; intros f F E; [done|].
  destruct G as [|g G]; cbn [app] in E; injection E as <- <-.
  - inversion H; subst; [|by destruct F]. exists (DNode o n ps (k1 ++ k :: k2)), k1, k2. split_and!; try done. constructor.
  - destruct (IH g G eq_refl) as (p & l1 & l2 & Hp & ?). exists p, l1, l2. split; [by constructor|done].
Qed.

Lemma sits_child s t F k1 k k2 : sits s t F -> d_kids s = k1 ++ k :: k2 ->
  sits k t (Frame (d_off s) (d_name s) (pv <$> d_props s) (erase <$> k1) (erase <$> k2) :: F).
Proof.
  intros H E. induction H as [|o n ps l1 x l2 F H IH].
  - destruct s as [o n ps ks]. cbn in E |- *. subst ks. apply (sits_kid k o n ps k1 k k2 []). constructor.
  - apply (sits_kid k o n ps l1 x l2 (_ :: F)). exact IH.
Qed.

(** ** Ends of nodes *)
Section Ends.
  Context (b : region) (Hb : stable b).
  Local Abbreviation R := (sb_read _ Hb).

Lemma token_fun o tag n tag' n' : token b o tag n -> token b o tag' n' -> tag = tag' /\ n = n'.
Proof. intros [E _] [E' _]. rewrite E in E'. by injection E' as <- <-. Qed.

Lemma items_end_fun o ps ks e : items b o ps ks e -> forall ps' ks' e', items b o ps' ks' e' -> e = e'.
Proof.
  induction 1 as [o e Ht|o o1 ps ks e Ht Hi IH|o o1 p ps ks e Ht Hpo Hp Hi IH|o o1 o2 n ps ks ps1 ks1 e Ht Hnm Hi1 IH1 Hi2 IH2]; intros qs ls e' H'; inversion H'; subst;
    match goal with H1 : token b ?o ?t _, H2 : token b ?o ?t' _ |- _ => destruct (token_fun _ _ _ _ _ H1 H2) as [Et En]; try discriminate Et; subst end; try done.
  - by eapply IH.
  - by eapply IH.
  - match goal with H1 : items b _ ps0 ks0 ?y |- _ => assert (o2 = y) as -> by (by eapply IH1) end. by eapply IH2.
Qed.

Lemma node_end_fun t e e' : node_at b t e -> node_at b t e' -> e = e'.
Proof. intros (o1 & Ht & _ & Hi) (o2 & Ht' & _ & Hi'). destruct (token_fun _ _ _ _ _ Ht Ht') as [_ ->]. by eapply items_end_fun. Qed.

Lemma items_end_in o ps ks e : items b o ps ks e -> at_tag o -> e <= hv b 36.
Proof.
  induction 1 as [o e Ht|o o1 ps ks e Ht Hi IH|o o1 p ps ks e Ht _ _ Hi IH|o o1 o2 n ps ks ps1 ks1 e Ht _ Hi1 IH1 Hi2 IH2]; intros Hg.
  - destruct (next_tag_inv b (sb_bound _ Hb) o _ e (proj1 Hg) Ht) as (x & Ho & Hx & Hox & -> & _ & [[? _]|[[? _]|[_ ->]]]); try done.
    rewrite tagalign_shift by apply Hg. exact Hox.
  - by apply IH, (token_at_tag b R _ _ _ Hg Ht).
  - by apply IH, (token_at_tag b R _ _ _ Hg Ht).
  - apply IH2. by apply (items_at_tag b R _ _ _ _ Hi1), (token_at_tag b R _ _ _ Hg Ht).
Qed.

Lemma sits_range s t F : sits s t F -> forall e, at_tag (d_off t) -> node_at b t e ->
  exists es, at_tag (d_off s) /\ node_at b s es /\ d_off t <= d_off s /\ es <= e.
Proof.
  induction 1 as [|o n ps k1 k k2 F H IH]; intros e Hg Hn; [by exists e|].
  destruct (node_range b R _ e Hg Hn) as (o1 & _ & Hi & Hg1 & _ & _ & Hlt & _). cbn [d_kids d_off] in *.
  destruct (items_kids b R _ _ _ _ Hi Hg1 k) as (ek & Hk & Hgk & Hlek & _ & _ & Hee); [rewrite elem_of_app, elem_of_cons; auto|].
  destruct (IH ek Hgk Hk) as (es & ? & ? & ? & ?). exists es. split_and!; (done || lia).
Qed.
End Ends.
