(* ===== verification/FdtEdit.v ===== *)
(** The tree of a blob in which a stretch of the structure block was replaced:
    the ancestors of the changed node keep their places, what follows it moves. *)
From S2P Require Import Prelude KDefs Bytes Fdt FdtRo FdtSafe FdtRoSafe FdtProps FdtHelper FdtCheck FdtTree FdtPath FdtSw FdtSwProps FdtSeg FdtMove.

(** Properties and NOPs from [o] on, up to [x]. *)
Inductive reach (b : region) : Z -> list pitem -> Z -> Prop :=
  | reach_here o : reach b o [] o
  | reach_nop o o1 ps x : token b o FDT_NOP o1 -> reach b o1 ps x -> reach b o ps x
  | reach_prop o o1 p ps x : token b o FDT_PROP o1 -> p_off p = o -> prop_at b p -> reach b o1 ps x -> reach b o (p :: ps) x.

Lemma reach_items b o ps x : reach b o ps x -> forall ps' ks e, items b x ps' ks e -> items b o (ps ++ ps') ks e.
Proof. induction 1; intros ps' ks e Hi; cbn [app]; [done|eapply it_nop; [done|by auto]|eapply it_prop; [done|done|done|by auto]]. Qed.

Section Split.
  Context (b : region) (Hb : stable b).
  Local Abbreviation R := (sb_read _ Hb).

Lemma reach_at_tag o ps x : reach b o ps x -> at_tag o -> at_tag x /\ o <= x.
Proof.
  induction 1 as [o|o o1 ps x Ht _ IH|o o1 p ps x Ht _ _ _ IH]; intros Hg; [done| |];
    pose proof (token_at_tag b R _ _ _ Hg Ht ltac:(done)) as Hg1; destruct (token_next b R _ _ _ (proj1 Hg) Ht ltac:(done)) as (_ & _ & Hlt & _);
    destruct (IH Hg1); (split; [done|lia]).
Qed.

(** Up to a property. *)
Lemma items_to_prop o ps1 p ps2 ks e : items b o (ps1 ++ p :: ps2) ks e ->
  reach b o ps1 (p_off p) /\ exists o1, token b (p_off p) FDT_PROP o1 /\ prop_at b p /\ items b o1 ps2 ks e.
Proof.
  intros H. remember (ps1 ++ p :: ps2) as ps eqn:E. revert ps1 E.
  induction H as [o e Ht|o o1 ps ks e Ht Hi IH|o o1 q ps ks e Ht Hpo Hp Hi IH|]; intros ps1 E; try by destruct ps1.
  - destruct (IH ps1 E) as [Hr H]. split; [by eapply reach_nop|done].
  - destruct ps1 as [|q' ps1]; cbn [app] in E; injection E as <- ->.
    + subst o. split; [constructor|]. by exists o1.
    + destruct (IH ps1 eq_refl) as [Hr H]. split; [by eapply reach_prop|done].
Qed.

(** Up to the first sub-node or the end of the node. *)
Lemma items_to_kids o ps ks e : items b o ps ks e -> exists x, reach b o ps x /\ items b x [] ks e /\
  exists tag n, token b x tag n /\ tag <> FDT_PROP /\ tag <> FDT_NOP.
Proof.
  induction 1 as [o e Ht|o o1 ps ks e Ht Hi IH|o o1 q ps ks e Ht Hpo Hp Hi IH|o o1 o2 n ps ks ps' ks' e Ht Hn Hi1 _ Hi2 _].
  - exists o. split; [constructor|]. split; [by constructor|]. by exists FDT_END_NODE, e.
  - destruct IH as (x & Hr & H). exists x. split; [by eapply reach_nop|done].
  - destruct IH as (x & Hr & H). exists x. split; [by eapply reach_prop|done].
  - exists o. split; [constructor|]. split; [by eapply it_kid|]. by exists FDT_BEGIN_NODE, o1.
Qed.
End Split.

Section Splice.
  Context (b b' : region) (Hb : stable b) (Hb' : stable b') (Hstr : strings_le b b').
  Context (p q d : Z) (Hd : d mod 4 = 0).
  (** Up to [p] nothing changes; from [q] on everything moves by [d]. *)
  Context (Hlow : forall x l, x + zlen l <= p -> seg b x l -> seg b' x l).
  Context (Hhigh : forall x l, q <= x -> seg b x l -> seg b' (x + d) l).
  Local Abbreviation R := (sb_read _ Hb).
  Local Abbreviation B := (sb_bound _ Hb).

Lemma low o n : 0 <= o <= n -> n <= p -> n <= hv b 36 -> copied b b' 0 o n.
Proof.
  intros H1 H2 H3. destruct (seg_some b B o (n - o)) as (l & L & Hs & _); [lia..|]. exists l. rewrite Z.add_0_r. split_and!; [done|done|]. apply Hlow; [lia|done].
Qed.

Lemma high o n : 0 <= o <= n -> q <= o -> n <= hv b 36 -> copied b b' d o n.
Proof. intros H1 H2 H3. destruct (seg_some b B o (n - o)) as (l & L & Hs & _); [lia..|]. exists l. split_and!; [done|done|]. by apply Hhigh. Qed.

Lemma token_low o tag n : at_tag o -> token b o tag n -> tag <> FDT_END -> n <= p -> n <= hv b 36 -> token b' o tag n.
Proof.
  intros Hg Ht Hne Hn Hs. destruct (token_next b R _ _ _ (proj1 Hg) Ht Hne) as (_ & H0 & Hlt & _).
  destruct (token_copied b b' Hb Hb' 0 eq_refl o tag n Hg Ht Hne (low o n ltac:(lia) Hn Hs)) as (_ & _ & _ & _ & _ & _ & H). by rewrite !Z.add_0_r in H.
Qed.

Lemma begin_low o n name : at_tag o -> token b o FDT_BEGIN_NODE n -> name_at b o name -> n <= p -> n <= hv b 36 -> token b' o FDT_BEGIN_NODE n /\ name_at b' o name.
Proof.
  intros Hg Ht Hnm Hn Hs. destruct (token_next b R _ _ _ (proj1 Hg) Ht ltac:(done)) as (_ & H0 & Hlt & _).
  destruct (begin_copied b b' Hb Hb' 0 eq_refl o n name Hg Ht Hnm (low o n ltac:(lia) Hn Hs)) as [Ht' Hn']. rewrite !Z.add_0_r in Ht'. by rewrite Z.add_0_r in Hn'.
Qed.

Lemma items_low o ps ks e : items b o ps ks e -> at_tag o -> 0 <= o -> e <= p -> items b' o ps ks e.
Proof.
  intros Hi Hg H0 He. pose proof (items_end_in b Hb _ _ _ _ Hi Hg). destruct (items_at_tag b R _ _ _ _ Hi Hg) as [_ Hlt].
  pose proof (items_copied b b' Hb Hb' Hstr 0 eq_refl o ps ks e Hi Hg (low o e ltac:(lia) ltac:(lia) ltac:(lia))) as H'. by rewrite !Z.add_0_r, pshift_0, shift_0_all in H'.
Qed.

Lemma items_high o ps ks e : items b o ps ks e -> at_tag o -> 0 <= o -> q <= o -> items b' (o + d) (pshift d <$> ps) (shift d <$> ks) (e + d).
Proof.
  intros Hi Hg H0 Hq. pose proof (items_end_in b Hb _ _ _ _ Hi Hg). destruct (items_at_tag b R _ _ _ _ Hi Hg) as [_ Hlt].
  apply (items_copied b b' Hb Hb' Hstr d Hd o ps ks e Hi Hg). apply high; lia.
Qed.

Lemma prop_low r n : at_tag (p_off r) -> token b (p_off r) FDT_PROP n -> prop_at b r -> n <= p -> n <= hv b 36 ->
  token b' (p_off r) FDT_PROP n /\ prop_at b' r.
Proof.
  intros Hg Ht Hp Hn Hs. destruct (token_next b R _ _ _ (proj1 Hg) Ht ltac:(done)) as (_ & H0 & Hlt & _).
  destruct (prop_copied b b' Hb Hb' Hstr 0 eq_refl r n Hg Ht Hp (low (p_off r) n ltac:(lia) Hn Hs)) as [H1 H2]. rewrite !Z.add_0_r in H1. split; [done|].
  destruct r as [o m v]. unfold pshift in H2. cbn in H2. by rewrite Z.add_0_r in H2.
Qed.

Lemma reach_low o ps x : reach b o ps x -> at_tag o -> x <= p -> x <= hv b 36 -> reach b' o ps x.
Proof.
  induction 1 as [o|o o1 ps x Ht Hr IH|o o1 r ps x Ht Hpo Hp Hr IH]; intros Hg Hx Hs; [constructor| |];
    pose proof (token_at_tag b R _ _ _ Hg Ht ltac:(done)) as Hg1; destruct (reach_at_tag b Hb _ _ _ Hr Hg1) as [_ Hle].
  - eapply reach_nop; [eapply token_low; (done || lia)|by apply IH].
  - subst o. destruct (prop_low r o1 Hg Ht Hp) as [Ht' Hp']; [lia|lia|]. eapply reach_prop; [done|done|done|by apply IH].
Qed.

(** A sub-node in which the change lies is replaced. *)
Lemma items_kid o ps k1 k k2 e ek k' : items b o ps (k1 ++ k :: k2) e -> at_tag o -> 0 <= o -> node_at b k ek -> d_off k <= p -> q <= ek ->
  d_off k' = d_off k -> node_at b' k' (ek + d) -> items b' o ps (k1 ++ k' :: (shift d <$> k2)) (e + d).
Proof.
  intros Hi. remember (k1 ++ k :: k2) as ks eqn:E. intros Hg H0 Hk Hp Hq Eo Hk'. revert k1 E Hg H0.
  induction Hi as [o e Ht|o o1 ps ks e Ht Hi IH|o o1 r ps ks e Ht Hpo Hpr Hi IH|o o1 o2 n ps ks ps' ks' e Ht Hn Hi1 _ Hi2 IH]; intros k1 E Hg H0; [by destruct k1|..];
    pose proof (token_at_tag b R _ _ _ Hg Ht ltac:(done)) as Hg1; destruct (token_next b R _ _ _ (proj1 Hg) Ht ltac:(done)) as (_ & _ & Hlt & _).
  - subst ks. destruct (items_kids b R _ _ _ _ Hi Hg1 k) as (e1 & _ & _ & Hle & _); [rewrite elem_of_app, elem_of_cons; auto|].
    pose proof (items_end_in b Hb _ _ _ _ Hi Hg1). destruct (items_at_tag b R _ _ _ _ Hi Hg1) as [_ ?].
    eapply it_nop; [eapply token_low; (done || lia)|]. apply IH; (done || lia).
  - subst ks o. destruct (items_kids b R _ _ _ _ Hi Hg1 k) as (e1 & _ & _ & Hle & _); [rewrite elem_of_app, elem_of_cons; auto|].
    pose proof (items_end_in b Hb _ _ _ _ Hi Hg1). destruct (items_at_tag b R _ _ _ _ Hi Hg1) as [_ ?].
    destruct (prop_low r o1 Hg Ht Hpr) as [Ht' Hp']; [lia|lia|]. eapply it_prop; [done|done|done|]. apply IH; (done || lia).
  - destruct (items_at_tag b R _ _ _ _ Hi1 Hg1) as [Hg2 Hlt2]. destruct k1 as [|x k1]; cbn [app] in E; injection E as E1 E2; subst.
    + assert (o2 = ek) as -> by (eapply (node_end_fun b); [|done]; by exists o1). destruct k' as [o' n' ps1 ks1]. cbn in Eo. subst o'.
      destruct Hk' as (o3 & Ht3 & Hn3 & Hi3). cbn in Ht3, Hn3, Hi3. eapply it_kid; [done|done|done|]. apply items_high; (done || lia).
    + destruct (items_kids b R _ _ _ _ Hi2 Hg2 k) as (e1 & _ & _ & Hle & _); [rewrite elem_of_app, elem_of_cons; auto|].
      pose proof (items_end_in b Hb _ _ _ _ Hi1 Hg1). destruct (begin_low o o1 n Hg Ht Hn) as [Ht' Hn']; [lia|lia|]. eapply (it_kid b' o o1 o2); [done|done|apply items_low; (done || lia)|apply IH; (done || lia)].
Qed.

(** The same for a node further down. *)
Lemma node_splice s s' es : d_off s' = d_off s -> d_off s <= p -> node_at b s es -> q <= es -> node_at b' s' (es + d) ->
  forall u F, sits s u F -> forall e, at_tag (d_off u) -> node_at b u e -> exists u', d_off u' = d_off u /\ node_at b' u' (e + d) /\ sits s' u' F.
Proof.
  intros Eo Hp Hs Hq Hs' u F H. induction H as [|o n ps k1 k k2 F H IH]; intros e Hg Hn.
  { assert (e = es) as -> by (by eapply node_end_fun). exists s'. split_and!; [done|done|constructor]. }
  destruct (node_range b R _ e Hg Hn) as (o1 & Ht & Hi & Hg1 & _ & H0 & Hlt & _ & _). destruct Hn as (_ & _ & Hnm & _). cbn [d_kids d_off d_props d_name] in *.
  destruct (items_kids b R _ _ _ _ Hi Hg1 k) as (ek & Hk & Hgk & Hle & Hk0 & Hlek & Hee); [rewrite elem_of_app, elem_of_cons; auto|].
  destruct (sits_range b Hb s k F H ek Hgk Hk) as (es' & _ & Hs2 & Hsk & Hse). assert (es' = es) as -> by (by eapply node_end_fun).
  destruct (IH ek Hgk Hk) as (k' & Eok & Hk' & Hsits). exists (DNode o n ps (k1 ++ k' :: (shift d <$> k2))). split; [done|].
  pose proof (items_end_in b Hb _ _ _ _ Hi Hg1). destruct (items_at_tag b R _ _ _ _ Hi Hg1) as [_ ?].
  destruct (begin_low o o1 n Hg Ht Hnm) as [Ht' Hn']; [lia|lia|].
  split; [exists o1; cbn; split_and!; [done|done|]; eapply items_kid; try done; lia|]. rewrite <- (erase_shift_all d k2). by constructor.
Qed.

Lemma tree_splice t s s' es F : holds b t -> sits s t F -> d_off s' = d_off s -> d_off s <= p -> node_at b s es -> q <= es -> node_at b' s' (es + d) ->
  exists t', holds b' t' /\ sits s' t' F.
Proof.
  intros (Hr & Ho & e & e2 & Hn & Hend) Hsit Eo Hp Hs Hq Hs'. assert (at_tag (d_off t)) as Hg by (by rewrite Ho).
  destruct (node_splice s s' es Eo Hp Hs Hq Hs' t F Hsit e Hg Hn) as (t' & Eo' & Hn' & Hsit'). exists t'. split; [|done].
  split; [apply Hb'|]. split; [by rewrite Eo'|]. exists (e + d), (e2 + d). split; [done|].
  destruct (sits_range b Hb s t F Hsit e Hg Hn) as (es' & _ & Hs2 & _ & Hse). assert (es' = es) as -> by (by eapply node_end_fun).
  destruct (node_range b R _ e Hg Hn) as (o1 & _ & _ & _ & Hge & H0 & ? & ? & _).
  destruct (token_seg b B e FDT_END e2 Hge Hend) as (k & Hk & Et & Hseg & ->); [by right|]. replace (e + zlen (enc k) + d) with (e + d + zlen (enc k)) by lia. rewrite <- Et.
  apply (seg_token b' (sb_bound _ Hb')); [by apply mod_d|by apply Hhigh; [lia|]|done].
Qed.
End Splice.
