(* ===== verification/FdtRw.v ===== *)
(** Changing a device tree in place: src/deps/libfdt/fdt_rw.c, with the helpers of
    libfdt.h and libfdt_internal.h it uses, fdt_empty_tree.c and the writing
    function of fdt_addresses.c.

    The state is the memory the blob lies in; a pointer is an offset from its
    start. A string argument is given without its NUL, a value with its length
    as a list of bytes. *)
From S2P Require Import Prelude KDefs Bytes Fdt FdtRo FdtCheck FdtSw.

Definition fdt_set_boot_cpuid_phys (v : Z) : M region unit := wr 28 (to_be 4 v).

(** ** Layout *)

(** [||] of two conditions that read the blob. *)
Definition or_else (c d : option bool) : option bool := x ← c; if (x : bool) then Some true else d.

Definition rw_hdrsize : Z := FDT_ALIGN 40 8.

Definition fdt_blocks_misordered_ (b : region) (mem_rsv_size struct_size : Z) : option bool :=
  or_else (rsv ← fdt_off_mem_rsvmap b; Some (rsv <? rw_hdrsize))
    (or_else (off ← fdt_off_dt_struct b; rsv ← fdt_off_mem_rsvmap b; Some (off <? u32 (rsv + mem_rsv_size)))
      (or_else (str ← fdt_off_dt_strings b; off ← fdt_off_dt_struct b; Some (str <? u32 (off + struct_size)))
        (total ← fdt_totalsize b; str ← fdt_off_dt_strings b; size ← fdt_size_dt_strings b;
         Some (total <? u32 (str + size))))).

(** [FDT_RO_PROBE]: an error is returned at once. *)
Definition ro_probed {A} (fail : Z -> A) (f : M region A) : M region A :=
  err ← rd fdt_ro_probe_; if err <? 0 then mret (fail err) else f.

Definition fdt_rw_probe_ : M region Z :=
  ro_probed id (
    version ← rd fdt_version;
    if version <? 17 then mret (- FDT_ERR_BADVERSION)
    else
      size ← rd fdt_size_dt_struct;
      bad ← rd (fun b => fdt_blocks_misordered_ b 16 (s32 size));
      if (bad : bool) then mret (- FDT_ERR_BADLAYOUT)
      else
        (if 17 <? version then fdt_set_version 17 else mret tt) ≫= fun _ =>
        mret 0).

Definition fdt_data_size_ (b : region) : option Z :=
  off ← fdt_off_dt_strings b; size ← fdt_size_dt_strings b; Some (u32 (off + size)).

(** ** Moving what follows a point of the blob *)
Definition fdt_splice_ (p oldlen newlen : Z) : M region Z :=
  dsize ← rd fdt_data_size_;
  let soff := u64 p in
  if (oldlen <? 0) || (u64 (soff + oldlen) <? soff) || (dsize <? u64 (soff + oldlen)) then mret (- FDT_ERR_BADOFFSET)
  else if (p <? 0) || (u32 (dsize + newlen) <? u32 oldlen) then mret (- FDT_ERR_BADOFFSET)
  else
    total ← rd fdt_totalsize;
    if total <? u32 (dsize - oldlen + newlen) then mret (- FDT_ERR_NOSPACE)
    else
      memmove (p + newlen) (p + oldlen) (dsize - (p + oldlen)) ≫= fun _ =>
      mret 0.

Definition fdt_splice_mem_rsv_ (p oldn newn : Z) : M region Z :=
  let delta := s32 ((newn - oldn) * 16) in
  err ← fdt_splice_ p (s32 (oldn * 16)) (s32 (newn * 16));
  if negb (err =? 0) then mret err
  else
    off ← rd fdt_off_dt_struct;
    fdt_set_off_dt_struct (u32 (off + delta)) ≫= fun _ =>
    off ← rd fdt_off_dt_strings;
    fdt_set_off_dt_strings (u32 (off + delta)) ≫= fun _ =>
    mret 0.

Definition fdt_splice_struct_ (p oldlen newlen : Z) : M region Z :=
  let delta := s32 (newlen - oldlen) in
  err ← fdt_splice_ p oldlen newlen;
  if negb (err =? 0) then mret err
  else
    size ← rd fdt_size_dt_struct;
    fdt_set_size_dt_struct (u32 (size + delta)) ≫= fun _ =>
    off ← rd fdt_off_dt_strings;
    fdt_set_off_dt_strings (u32 (off + delta)) ≫= fun _ =>
    mret 0.

(** Two functions share their names with functions of fdt_sw.c. *)
Module Rw.
Definition fdt_del_last_string_ (s : list Z) : M region unit :=
  let newlen := s32 (zlen s + 1) in
  size ← rd fdt_size_dt_strings;
  fdt_set_size_dt_strings (u32 (size - newlen)).

Definition fdt_splice_string_ (newlen : Z) : M region Z :=
  off ← rd fdt_off_dt_strings;
  size ← rd fdt_size_dt_strings;
  let p := off + size in
  err ← fdt_splice_ p 0 newlen;
  if negb (err =? 0) then mret err
  else
    size ← rd fdt_size_dt_strings;
    fdt_set_size_dt_strings (u32 (size + newlen)) ≫= fun _ =>
    mret 0.

(** The offset in the strings or an error, and whether the string was added. *)
Definition fdt_find_add_string_ (s : list Z) : M region (Z * bool) :=
  strtab ← rd fdt_off_dt_strings;
  let len := s32 (zlen s + 1) in
  size ← rd fdt_size_dt_strings;
  p ← rd (fun b => fdt_find_string_ (r_bytes b) strtab (s32 size) s);
  match p with
  | Some p => mret (s32 (p - strtab), false)
  | None =>
      let new := strtab + size in
      err ← fdt_splice_string_ len;
      if negb (err =? 0) then mret (err, false)
      else
        wr new (s ++ [0]) ≫= fun _ =>
        mret (s32 (new - strtab), true)
  end.
End Rw.

(** ** Reservations *)
Definition fdt_mem_rsv_ (b : region) (n : Z) : option Z := rsv ← fdt_off_mem_rsvmap b; Some (rsv + 16 * n).

Definition fdt_add_mem_rsv (address size : Z) : M region Z :=
  probed fdt_rw_probe_ id (
    n ← rd fdt_num_mem_rsv;
    re ← rd (fun b => fdt_mem_rsv_ b n);
    err ← fdt_splice_mem_rsv_ re 0 1;
    if negb (err =? 0) then mret err
    else
      wr re (to_be 8 address) ≫= fun _ =>
      wr (re + 8) (to_be 8 size) ≫= fun _ =>
      mret 0).

Definition fdt_del_mem_rsv (n : Z) : M region Z :=
  re ← rd (fun b => fdt_mem_rsv_ b n);
  probed fdt_rw_probe_ id (
    num ← rd fdt_num_mem_rsv;
    if num <=? n then mret (- FDT_ERR_NOTFOUND) else fdt_splice_mem_rsv_ re 1 0).

(** ** Properties *)

(** The return code and [*prop]. *)
Definition fdt_resize_property_ (nodeoffset : Z) (name : list Z) (len : Z) : M region (Z * option Z) :=
  r ← rd (fun b => fdt_get_property b nodeoffset name);
  match r with
  | (None, oldlen) => mret (oldlen, None)
  | (Some prop, oldlen) =>
      err ← fdt_splice_struct_ (prop + 12) (s32 (FDT_TAGALIGN oldlen)) (s32 (FDT_TAGALIGN len));
      if negb (err =? 0) then mret (err, Some prop)
      else wr (prop + 4) (to_be 4 len) ≫= fun _ => mret (0, Some prop)
  end.

Definition fdt_add_property_ (nodeoffset : Z) (name : list Z) (len : Z) : M region (Z * option Z) :=
  nextoffset ← rd (fun b => fdt_check_node_offset_ b nodeoffset);
  if nextoffset <? 0 then mret (nextoffset, None)
  else
    r ← Rw.fdt_find_add_string_ name;
    let '(namestroff, allocated) := (r : Z * bool) in
    if namestroff <? 0 then mret (namestroff, None)
    else
      prop ← rd (fun b => fdt_offset_ptr_ b nextoffset);
      let proplen := s32 (12 + FDT_TAGALIGN len) in
      err ← fdt_splice_struct_ prop 0 proplen;
      if negb (err =? 0) then
        (if allocated then Rw.fdt_del_last_string_ name else mret tt) ≫= fun _ =>
        mret (err, Some prop)
      else
        wr prop (to_be 4 FDT_PROP) ≫= fun _ =>
        wr (prop + 8) (to_be 4 namestroff) ≫= fun _ =>
        wr (prop + 4) (to_be 4 len) ≫= fun _ =>
        mret (0, Some prop).

Definition fdt_set_name (nodeoffset : Z) (name : list Z) : M region Z :=
  probed fdt_rw_probe_ id (
    r ← rd (fun b => fdt_get_name b nodeoffset);
    match r with
    | (None, oldlen) => mret oldlen
    | (Some namep, oldlen) =>
        let newlen := s32 (zlen name) in
        err ← fdt_splice_struct_ namep (s32 (FDT_TAGALIGN (oldlen + 1))) (s32 (FDT_TAGALIGN (newlen + 1)));
        if negb (err =? 0) then mret err
        else wr namep (name ++ [0]) ≫= fun _ => mret 0
    end).

(** The return code and [*prop_data]. *)
Definition fdt_setprop_placeholder (nodeoffset : Z) (name : list Z) (len : Z) : M region (Z * option Z) :=
  probed fdt_rw_probe_ (fun err => (err, None)) (
    r ← fdt_resize_property_ nodeoffset name len;
    r ← (if (r : Z * option Z).1 =? - FDT_ERR_NOTFOUND then fdt_add_property_ nodeoffset name len else mret r);
    match r with
    | (0, Some prop) => mret (0, Some (prop + 12))
    | (err, _) => mret (err, None)
    end).

Definition fdt_setprop (nodeoffset : Z) (name val : list Z) : M region Z :=
  r ← fdt_setprop_placeholder nodeoffset name (zlen val);
  match r with
  | (0, Some prop_data) => (if negb (zlen val =? 0) then wr prop_data val else mret tt) ≫= fun _ => mret 0
  | (err, _) => mret err
  end.

Definition fdt_appendprop (nodeoffset : Z) (name val : list Z) : M region Z :=
  probed fdt_rw_probe_ id (
    let len := zlen val in
    r ← rd (fun b => fdt_get_property b nodeoffset name);
    match r with
    | (Some prop, oldlen) =>
        let newlen := s32 (len + oldlen) in
        err ← fdt_splice_struct_ (prop + 12) (s32 (FDT_TAGALIGN oldlen)) (s32 (FDT_TAGALIGN newlen));
        if negb (err =? 0) then mret err
        else
          wr (prop + 4) (to_be 4 newlen) ≫= fun _ =>
          wr (prop + 12 + oldlen) val ≫= fun _ =>
          mret 0
    | (None, _) =>
        r ← fdt_add_property_ nodeoffset name len;
        match r with
        | (0, Some prop) => wr (prop + 12) val ≫= fun _ => mret 0
        | (err, _) => mret err
        end
    end).

Definition fdt_delprop (nodeoffset : Z) (name : list Z) : M region Z :=
  probed fdt_rw_probe_ id (
    r ← rd (fun b => fdt_get_property b nodeoffset name);
    match r with
    | (None, len) => mret len
    | (Some prop, len) => fdt_splice_struct_ prop (s32 (12 + FDT_TAGALIGN len)) 0
    end).

Definition fdt_setprop_u32 (nodeoffset : Z) (name : list Z) (val : Z) : M region Z := fdt_setprop nodeoffset name (to_be 4 val).
Definition fdt_setprop_u64 (nodeoffset : Z) (name : list Z) (val : Z) : M region Z := fdt_setprop nodeoffset name (to_be 8 val).
Definition fdt_setprop_cell (nodeoffset : Z) (name : list Z) (val : Z) : M region Z := fdt_setprop_u32 nodeoffset name val.
Definition fdt_setprop_string (nodeoffset : Z) (name str : list Z) : M region Z := fdt_setprop nodeoffset name (str ++ [0]).
Definition fdt_setprop_empty (nodeoffset : Z) (name : list Z) : M region Z := fdt_setprop nodeoffset name [].
Definition fdt_appendprop_u32 (nodeoffset : Z) (name : list Z) (val : Z) : M region Z := fdt_appendprop nodeoffset name (to_be 4 val).
Definition fdt_appendprop_u64 (nodeoffset : Z) (name : list Z) (val : Z) : M region Z := fdt_appendprop nodeoffset name (to_be 8 val).
Definition fdt_appendprop_cell (nodeoffset : Z) (name : list Z) (val : Z) : M region Z := fdt_appendprop_u32 nodeoffset name val.
Definition fdt_appendprop_string (nodeoffset : Z) (name str : list Z) : M region Z := fdt_appendprop nodeoffset name (str ++ [0]).

(** ** Nodes *)

(** The [do .. while] over properties and NOPs: the offset of the first other
    tag. *)
Fixpoint skip_props (fuel : nat) (b : region) (offset : Z) : option Z :=
  match fuel with
  | O => None
  | S fuel =>
      t ← fdt_next_tag b offset;
      let '(tag, nextoffset) := (t : Z * Z) in
      if (tag =? FDT_PROP) || (tag =? FDT_NOP) then skip_props fuel b nextoffset else Some offset
  end.

(** [name] holds the [namelen] characters. *)
Definition fdt_add_subnode_namelen (parentoffset : Z) (name : list Z) : M region Z :=
  probed fdt_rw_probe_ id (
    offset ← rd (fun b => fdt_subnode_offset_namelen b parentoffset name);
    if 0 <=? offset then mret (- FDT_ERR_EXISTS)
    else if negb (offset =? - FDT_ERR_NOTFOUND) then mret offset
    else
      t ← rd (fun b => fdt_next_tag b parentoffset);
      let '(tag, nextoffset) := (t : Z * Z) in
      if negb (tag =? FDT_BEGIN_NODE) then mret (- FDT_ERR_INTERNAL)
      else
        offset ← rd (fun b => skip_props (blob_fuel b) b nextoffset);
        nh ← rd (fun b => fdt_offset_ptr_ b offset);
        let namelen := zlen name in
        let nodelen := s32 (4 + FDT_TAGALIGN (namelen + 1) + FDT_TAGSIZE) in
        err ← fdt_splice_struct_ nh 0 nodelen;
        if negb (err =? 0) then mret err
        else
          wr nh (to_be 4 FDT_BEGIN_NODE) ≫= fun _ =>
          wr (nh + 4) (replicate (Z.to_nat (FDT_TAGALIGN (namelen + 1))) 0) ≫= fun _ =>
          wr (nh + 4) name ≫= fun _ =>
          wr (nh + nodelen - FDT_TAGSIZE) (to_be 4 FDT_END_NODE) ≫= fun _ =>
          mret offset).

Definition fdt_add_subnode (parentoffset : Z) (name : list Z) : M region Z := fdt_add_subnode_namelen parentoffset name.

Definition fdt_del_node (nodeoffset : Z) : M region Z :=
  probed fdt_rw_probe_ id (
    endoffset ← rd (fun b => fdt_node_end_offset_ b nodeoffset);
    if endoffset <? 0 then mret endoffset
    else
      p ← rd (fun b => fdt_offset_ptr_ b nodeoffset);
      fdt_splice_struct_ p (s32 (endoffset - nodeoffset)) 0).

(** ** Whole blobs *)

(** [old] and [new] are the offsets of two blobs in one memory. *)
Definition fdt_packblocks_ (old new mem_rsv_size struct_size strings_size : Z) : M region unit :=
  let mem_rsv_off := rw_hdrsize in
  let struct_off := s32 (mem_rsv_off + mem_rsv_size) in
  let strings_off := s32 (struct_off + struct_size) in
  off ← at_ptr old (rd fdt_off_mem_rsvmap);
  memmove (new + mem_rsv_off) (old + off) mem_rsv_size ≫= fun _ =>
  at_ptr new (fdt_set_off_mem_rsvmap mem_rsv_off) ≫= fun _ =>
  off ← at_ptr old (rd fdt_off_dt_struct);
  memmove (new + struct_off) (old + off) struct_size ≫= fun _ =>
  at_ptr new (fdt_set_off_dt_struct struct_off) ≫= fun _ =>
  at_ptr new (fdt_set_size_dt_struct struct_size) ≫= fun _ =>
  off ← at_ptr old (rd fdt_off_dt_strings);
  memmove (new + strings_off) (old + off) strings_size ≫= fun _ =>
  at_ptr new (fdt_set_off_dt_strings strings_off) ≫= fun _ =>
  size ← at_ptr old (rd fdt_size_dt_strings);
  at_ptr new (fdt_set_size_dt_strings size).

(** [fdt_move] when both blobs lie in one memory. *)
Definition fdt_move_within (fdt buf bufsize : Z) : M region Z :=
  if bufsize <? 0 then mret (- FDT_ERR_NOSPACE)
  else
    err ← at_ptr fdt (rd fdt_ro_probe_);
    if err <? 0 then mret err
    else
      total ← at_ptr fdt (rd fdt_totalsize);
      if u32 bufsize <? total then mret (- FDT_ERR_NOSPACE)
      else memmove buf fdt total ≫= fun _ => mret 0.

(** The walk to the end of the structure block of a version 16 blob. *)
Fixpoint struct_end (fuel : nat) (b : region) (offset : Z) : option Z :=
  match fuel with
  | O => None
  | S fuel =>
      t ← fdt_next_tag b offset;
      let '(tag, nextoffset) := (t : Z * Z) in
      if tag =? FDT_END then Some nextoffset else struct_end fuel b nextoffset
  end.

Definition fdt_open_into (fdt buf bufsize : Z) : M region Z :=
  total ← at_ptr fdt (rd fdt_totalsize);
  let fdtend := fdt + total in
  err ← at_ptr fdt (rd fdt_ro_probe_);
  if err <? 0 then mret err
  else
    num ← at_ptr fdt (rd fdt_num_mem_rsv);
    let mem_rsv_size := s32 ((num + 1) * 16) in
    version ← at_ptr fdt (rd fdt_version);
    struct_size ← (if 17 <=? version then size ← at_ptr fdt (rd fdt_size_dt_struct); mret (Some (s32 size))
                   else if version =? 16 then
                     size ← at_ptr fdt (rd (fun b => struct_end (blob_fuel b) b 0)); mret (Some size)
                   else mret None);
    match struct_size with
    | None => mret (- FDT_ERR_BADVERSION)
    | Some struct_size =>
        if (version =? 16) && (struct_size <? 0) then mret struct_size
        else
          bad ← at_ptr fdt (rd (fun b => fdt_blocks_misordered_ b mem_rsv_size struct_size));
          if negb bad then
            err ← fdt_move_within fdt buf bufsize;
            if negb (err =? 0) then mret err
            else
              at_ptr buf (fdt_set_version 17) ≫= fun _ =>
              at_ptr buf (fdt_set_size_dt_struct struct_size) ≫= fun _ =>
              at_ptr buf (fdt_set_totalsize bufsize) ≫= fun _ =>
              mret 0
          else
            size_strings ← at_ptr fdt (rd fdt_size_dt_strings);
            let newsize := s32 (rw_hdrsize + mem_rsv_size + struct_size + size_strings) in
            if bufsize <? newsize then mret (- FDT_ERR_NOSPACE)
            else
              let overlap := (fdt <? buf + newsize) && (buf <? fdtend) in
              let tmp := if overlap then fdtend else buf in
              if overlap && (buf + bufsize <? tmp + newsize) then mret (- FDT_ERR_NOSPACE)
              else
                fdt_packblocks_ fdt tmp mem_rsv_size struct_size (s32 size_strings) ≫= fun _ =>
                memmove buf tmp newsize ≫= fun _ =>
                at_ptr buf (fdt_set_magic FDT_MAGIC) ≫= fun _ =>
                at_ptr buf (fdt_set_totalsize bufsize) ≫= fun _ =>
                at_ptr buf (fdt_set_version 17) ≫= fun _ =>
                at_ptr buf (fdt_set_last_comp_version 16) ≫= fun _ =>
                cpu ← at_ptr fdt (rd fdt_boot_cpuid_phys);
                at_ptr buf (fdt_set_boot_cpuid_phys cpu) ≫= fun _ =>
                mret 0
    end.

Definition fdt_pack : M region Z :=
  probed fdt_rw_probe_ id (
    num ← rd fdt_num_mem_rsv;
    let mem_rsv_size := s32 ((num + 1) * 16) in
    size_struct ← rd fdt_size_dt_struct;
    size_strings ← rd fdt_size_dt_strings;
    fdt_packblocks_ 0 0 mem_rsv_size (s32 size_struct) (s32 size_strings) ≫= fun _ =>
    size ← rd fdt_data_size_;
    fdt_set_totalsize size ≫= fun _ =>
    mret 0).

(** ** fdt_empty_tree.c *)
Definition fdt_create_empty_tree (bufsize : Z) : M region Z :=
  and_then (fdt_create bufsize)
    (and_then fdt_finish_reservemap
      (and_then (fdt_begin_node [])
        (and_then fdt_end_node
          (and_then fdt_finish (fdt_open_into 0 0 bufsize))))).

(** ** fdt_addresses.c *)
Definition UINT32_MAX : Z := 2 ^ 32 - 1.

(** The cells of a value that takes one or two, or the error. *)
Definition addr_cells_of (addr_cells addr size : Z) : list Z + Z :=
  if addr_cells =? 1 then
    if (UINT32_MAX <? addr) || (u64 (UINT32_MAX + 1 - addr) <? size) then inr (- FDT_ERR_BADVALUE)
    else inl (to_be 4 (u32 addr))
  else if addr_cells =? 2 then inl (to_be 8 addr)
  else inr (- FDT_ERR_BADNCELLS).
Definition size_cells_of (size_cells size : Z) : list Z + Z :=
  if size_cells =? 1 then
    if UINT32_MAX <? size then inr (- FDT_ERR_BADVALUE) else inl (to_be 4 (u32 size))
  else if size_cells =? 2 then inl (to_be 8 size)
  else inr (- FDT_ERR_BADNCELLS).

Definition fdt_appendprop_addrrange (parent nodeoffset : Z) (name : list Z) (addr size : Z) : M region Z :=
  addr_cells ← rd (fun b => fdt_address_cells b parent);
  if addr_cells <? 0 then mret addr_cells
  else
    size_cells ← rd (fun b => fdt_size_cells b parent);
    if size_cells <? 0 then mret size_cells
    else
      match addr_cells_of addr_cells addr size with
      | inr err => mret err
      | inl a =>
          match size_cells_of size_cells size with
          | inr err => mret err
          | inl s => fdt_appendprop nodeoffset name (a ++ s)
          end
      end.
