(* ===== verification/FdtSplice.v ===== *)
(** Splicing a blob: what the primitives of fdt_rw.c do to its memory, in terms
    of what can be read before and after. *)
From S2P Require Import Prelude KDefs Bytes Fdt FdtRo FdtSafe FdtRoSafe FdtProps FdtHelper FdtCheck FdtTree FdtPath FdtSw FdtSwProps FdtSeg FdtMove FdtSwTree FdtRw.

(** ** Writes *)

(** [b'] is [b] with [l] written at [p]. *)
Record wrote (b b' : region) (p : Z) (l : list Z) : Prop := {
  wo_base : r_base b' = r_base b;
  wo_len : zlen (r_bytes b') = zlen (r_bytes b);
  wo_bytes : Forall is_byte l -> Forall is_byte (r_bytes b) -> Forall is_byte (r_bytes b');
  wo_new : rdn (r_bytes b') p (zlen l) = Some l;
  wo_old x n : 0 <= n -> x + n <= p \/ p + zlen l <= x -> rdn (r_bytes b') x n = rdn (r_bytes b) x n;
}.

(** The memory around a stretch of it. *)
Lemma list_around (m : list Z) p n : 0 <= p -> 0 <= n -> p + n <= zlen m -> exists l1 l2 l3, m = l1 ++ l2 ++ l3 /\ zlen l1 = p /\ zlen l2 = n.
Proof.
  intros Hp Hn Hm. destruct (list_cut m p) as (l1 & r & -> & L1); [lia|]. rewrite zlen_app in Hm.
  destruct (list_cut r n) as (l2 & l3 & -> & L2); [lia|]. by exists l1, l2, l3.
Qed.

Lemma rdn_low (l r r' : list Z) x n : 0 <= n -> x + n <= zlen l -> zlen r = zlen r' -> rdn (l ++ r) x n = rdn (l ++ r') x n.
Proof.
  intros Hn Hx L. unfold rdn. rewrite !zlen_app, L. destruct ((0 <=? x) && (0 <=? n) && (x + n <=? zlen l + zlen r')) eqn:E; [|done].
  f_equal. assert (0 <= x) by (destruct (Z.leb_spec 0 x); [done|discriminate E]). unfold zlen in *.
  rewrite !drop_app_le, !take_app_le by (rewrite ?length_drop; lia). done.
Qed.

Lemma rdn_high (l l' r : list Z) x n : zlen l <= x -> zlen l = zlen l' -> rdn (l ++ r) x n = rdn (l' ++ r) x n.
Proof.
  intros Hx L. unfold rdn. rewrite !zlen_app, L. unfold zlen in *. rewrite !drop_app_ge by lia. by replace (length l') with (length l) by lia.
Qed.

Lemma wr_wrote p l b : 0 <= p -> p + zlen l <= zlen (r_bytes b) -> exists b', wr p l b = Some (tt, b') /\ wrote b b' p l.
Proof.
  destruct b as [base m]. cbn [r_bytes]. intros Hp Hl. pose proof (zlen_nonneg l).
  destruct (list_around m p (zlen l)) as (l1 & l2 & l3 & -> & <- & L2); [lia..|].
  eexists. unfold wr. cbn [r_bytes]. rewrite wrn_mid by done. cbn [mbind option_bind]. split; [done|].
  split; cbn [r_base r_bytes]; [done|rewrite !zlen_app; lia|rewrite !Forall_app; tauto|apply rdn_mid|].
  intros x n Hn [Hx|Hx].
  - apply rdn_low; [done|done|rewrite !zlen_app; lia].
  - rewrite !app_assoc. apply rdn_high; rewrite !zlen_app; lia.
Qed.

Lemma hv_rdn b b' x y : 0 <= x -> x + 4 <= zlen (r_bytes b) -> rdn (r_bytes b') y 4 = rdn (r_bytes b) x 4 -> hv b' y = hv b x.
Proof.
  intros Hx Hl E. rewrite (rdn_Some (r_bytes b)) in E by lia. apply hv_word. unfold fdt32_ld, rd_be. by rewrite E.
Qed.

Lemma wrote_hv b b' p l x : wrote b b' p l -> 0 <= x -> x + 4 <= zlen (r_bytes b) -> x + 4 <= p \/ p + zlen l <= x -> hv b' x = hv b x.
Proof. intros H Hx Hl Hd. apply hv_rdn; [done|done|]. apply (wo_old _ _ _ _ H); [lia|done]. Qed.

Lemma wrote_word b b' p v : wrote b b' p (to_be 4 v) -> hv b' p = u32 v.
Proof. intros H. apply hv_word. unfold fdt32_ld, rd_be. pose proof (wo_new _ _ _ _ H) as E. rewrite zlen_to_be in E. change (Z.of_nat 4) with 4 in E. rewrite E. cbn -[be to_be]. by rewrite be_to_be4. Qed.

(** ** Blobs that can be changed *)

(** The blocks lie behind the header, in the order of [fdt_packblocks_], and the
    version is the one the library writes. *)
Record rw_ready (b : region) : Prop := {
  rw_read : readable b;
  rw_ver : hv b 20 = 17;
  rw_rsv : 40 <= hv b 16;
  rw_rsv_end : hv b 16 + 16 <= hv b 8;
  rw_struct : hv b 8 + hv b 36 <= hv b 12;
  rw_strs : hv b 12 + hv b 32 <= hv b 4;
}.

(** Where the used part of a blob ends. *)
Definition used (b : region) : Z := hv b 12 + hv b 32.

Section Ready.
  Context (b : region) (Hr : rw_ready b).
  Local Abbreviation m := (r_bytes b).
  Local Abbreviation Hok := (rb_ok _ (rw_read _ Hr)).

Lemma rw_bounds : 40 <= hv b 16 /\ hv b 16 + 16 <= hv b 8 /\ 0 <= hv b 36 /\ hv b 8 + hv b 36 <= hv b 12 /\ 0 <= hv b 32 /\
  hv b 12 + hv b 32 <= hv b 4 /\ hv b 4 <= zlen m /\ hv b 4 < 2 ^ 31 - 1.
Proof.
  pose proof (field_range b Hok 36 ltac:(lia)). pose proof (field_range b Hok 32 ltac:(lia)). destruct Hr as [Hrd _ ? ? ? ?].
  pose proof (bo_size _ Hok). pose proof (bo_int _ Hok) as Hi. unfold INT_MAX in Hi. split_and!; (done || lia).
Qed.

Lemma rw_stable : stable b.
Proof. pose proof rw_bounds. split; [apply Hr|]. split; [exact Hok|by rewrite (rw_ver _ Hr)|lia]. Qed.

Lemma rw_rd f k : (forall b, f b = fdt32_ld (r_bytes b) k) -> 0 <= k <= 36 -> rd f b = Some (hv b k, b).
Proof. intros E Hk. unfold rd. rewrite E, (field_ok b Hok) by lia. done. Qed.

Lemma rw_probe {A} (fail : Z -> A) f : probed fdt_rw_probe_ fail f b = f b.
Proof.
  pose proof rw_bounds.
  unfold probed, fdt_rw_probe_, ro_probed, mbind, M_bind. unfold rd at 1. rewrite (probe_tot b (rw_read _ Hr)). cbn [mbind option_bind].
  destruct (Z.ltb_spec (hv b 4) 0); [lia|]. rewrite (rw_rd fdt_version 20), (rw_ver _ Hr) by (done || lia). change (17 <? 17) with false. cbv match beta.
  rewrite (rw_rd fdt_size_dt_struct 36) by (done || lia). rewrite (sw_small 32) by (unfold is_sw; lia).
  assert (fdt_blocks_misordered_ b 16 (hv b 36) = Some false) as E.
  { unfold fdt_blocks_misordered_, or_else, fdt_off_mem_rsvmap, fdt_off_dt_struct, fdt_off_dt_strings, fdt_totalsize, fdt_size_dt_strings.
    rewrite !(field_ok b Hok) by lia. cbn [mbind option_bind]. change rw_hdrsize with 40. rewrite !(uw_small 32) by (unfold is_uw; lia).
    destruct (Z.ltb_spec (hv b 16) 40); [lia|]. destruct (Z.ltb_spec (hv b 8) (hv b 16 + 16)); [lia|].
    destruct (Z.ltb_spec (hv b 12) (hv b 8 + hv b 36)); [lia|]. destruct (Z.ltb_spec (hv b 4) (hv b 12 + hv b 32)); [lia|]. done. }
  unfold rd. rewrite E. cbn [mbind option_bind]. done.
Qed.

Lemma rw_used : rd fdt_data_size_ b = Some (used b, b).
Proof.
  pose proof rw_bounds. unfold rd, fdt_data_size_, fdt_off_dt_strings, fdt_size_dt_strings.
  rewrite !(field_ok b Hok) by lia. cbn [mbind option_bind]. by rewrite uw_small by (unfold is_uw; lia).
Qed.

(** The strings of such a blob. *)
Lemma string_at_rdn o s : is_sw 32 o -> string_at b o s <-> 0 <= o /\ o + zlen s + 1 <= hv b 32 /\ (0 ∉ s) /\ rdn m (hv b 12 + o) (zlen s + 1) = Some (s ++ [0]).
Proof.
  intros Ho. pose proof rw_bounds. pose proof (rw_read _ Hr) as Hrd. pose proof (zlen_nonneg s). unfold is_sw in Ho.
  unfold string_at, fdt_get_string. rewrite (probe_tot b Hrd). cbn [mbind option_bind]. destruct (Z.ltb_spec (hv b 4) 0); [lia|].
  unfold fdt_off_dt_strings, fdt_magic, fdt_version, fdt_size_dt_strings. rewrite !(field_ok b Hok) by lia. rewrite (rb_magic _ Hrd), (rw_ver _ Hr).
  cbn [mbind option_bind]. rewrite Z.eqb_refl. change (17 <=? 17) with true. rewrite (uw_small 32 (hv b 4)) by (unfold is_uw; lia).
  destruct (Z.ltb_spec o 0) as [Hneg|Hpos].
  { split; [|lia]. intros (p & E & _). case_match; done. }
  rewrite !(uw_small 32 o), (uw_small 32 (o + hv b 12)) by (unfold is_uw; lia). replace (o + hv b 12) with (hv b 12 + o) by lia.
  destruct (Z.leb_spec (hv b 32) o) as [Hle|Hlt].
  { split; [|lia]. intros (p & E & _). case_match; done. }
  destruct (Z.leb_spec (hv b 4) (hv b 12 + o)); [lia|]. rewrite (uw_small 32 (hv b 32 - o)), (uw_small 32 (hv b 4 - _)) by (unfold is_uw; lia).
  cbn [mbind option_bind]. set (len := if hv b 32 - o <? hv b 4 - (hv b 12 + o) then hv b 32 - o else hv b 4 - (hv b 12 + o)).
  assert (len = hv b 32 - o) as -> by (unfold len; case_match; lia). split.
  - intros (p & E & Hc). destruct (memchr_ok b (hv b 12 + o) (hv b 32 - o)) as (r & Em & Hm); [lia..|]. rewrite Em in E. cbn [mbind option_bind] in E.
    destruct r as [n|]; [|done]. injection E as <- E. destruct Hm as (Hn & _). unfold cstr in Hc. destruct (Z.ltb_spec (hv b 12 + o) 0); [lia|].
    apply to_nul_inv in Hc as [Hz [r Er]]. split_and!; [done|lia|done|]. rewrite <- zlen_nul. apply rdn_from. exists r. split; [lia|]. by rewrite <- app_assoc.
  - intros (_ & Hlen & Hs & E). rewrite <- zlen_nul in E. apply rdn_from in E as [r Hf]. rewrite <- app_assoc in Hf. cbn [app] in Hf.
    exists (hv b 12 + o). split; [|by eapply from_cstr]. unfold memchr. destruct (Z.ltb_spec (hv b 12 + o) 0); [lia|].
    rewrite (proj2 Hf), find_byte_at by (done || unfold zlen in *; lia). cbn. do 3 f_equal. lia.
Qed.
End Ready.

(** ** Edits *)

(** The header fields an edit leaves alone. *)
Definition kept_field (k : Z) : bool := existsb (Z.eqb k) [0; 4; 8; 16; 20; 24; 28].

Lemma kept_range k : kept_field k = true -> 0 <= k <= 28 /\ (k + 4 <= 12 \/ 16 <= k).
Proof. intros (x & Hx & ->%Z.eqb_eq)%existsb_exists. cbn in Hx. lia. Qed.

(** [b'] is [b] with the structure block between [p] and [q] replaced by [q + d - p]
    bytes and [g] bytes added to the strings. *)
Record edited (b b' : region) (p q d g : Z) : Prop := {
  ed_base : r_base b' = r_base b;
  ed_len : zlen (r_bytes b') = zlen (r_bytes b);
  ed_bytes : Forall is_byte (r_bytes b');
  ed_hdr k : kept_field k = true -> hv b' k = hv b k;
  ed_ostr : hv b' 12 = hv b 12 + d;
  ed_sstr : hv b' 32 = hv b 32 + g;
  ed_size : hv b' 36 = hv b 36 + d;
  ed_low x n : 40 <= x -> 0 <= n -> x + n <= hv b 8 + p -> rdn (r_bytes b') x n = rdn (r_bytes b) x n;
  ed_high x n : hv b 8 + q <= x -> 0 <= n -> x + n <= used b -> rdn (r_bytes b') (x + d) n = rdn (r_bytes b) x n;
}.

Section Edited.
  Context (b b' : region) (Hr : rw_ready b) (p q d g : Z) (He : edited b b' p q d g).
  Context (Hpq : 0 <= p <= q) (Hq : q <= hv b 36) (Hpd : p <= q + d) (Hg : 0 <= g) (Hroom : used b + d + g <= hv b 4).
  Local Abbreviation m := (r_bytes b).

Lemma edited_ready : rw_ready b'.
Proof.
  pose proof (rw_bounds b Hr). unfold used in Hroom. destruct Hr as [[Hok Ha Hm Hv Hc] ? ? ? ? ?].
  assert (forall k, kept_field k = true -> hv b' k = hv b k) as Hh by apply He. pose proof (ed_len _ _ _ _ _ _ He). pose proof (bo_hdr _ Hok).
  pose proof (ed_ostr _ _ _ _ _ _ He). pose proof (ed_sstr _ _ _ _ _ _ He). pose proof (ed_size _ _ _ _ _ _ He).
  pose proof (Hh 0 eq_refl). pose proof (Hh 4 eq_refl). pose proof (Hh 8 eq_refl). pose proof (Hh 16 eq_refl).
  pose proof (Hh 20 eq_refl). pose proof (Hh 24 eq_refl). clear Hh.
  split; [|lia..]. split; [|by rewrite (ed_base _ _ _ _ _ _ He)|lia..]. split; [apply He|lia|lia|unfold INT_MAX; lia].
Qed.

Lemma edited_seg_low x l : x + zlen l <= p -> seg b x l -> seg b' x l.
Proof.
  pose proof (rw_bounds b Hr). intros Hx (Hx0 & Hl & E). pose proof (zlen_nonneg l).
  unfold seg. rewrite (ed_size _ _ _ _ _ _ He), (ed_hdr _ _ _ _ _ _ He 8) by done. split_and!; [lia|lia|].
  by rewrite (ed_low _ _ _ _ _ _ He) by lia.
Qed.

Lemma edited_seg_high x l : q <= x -> seg b x l -> seg b' (x + d) l.
Proof.
  pose proof (rw_bounds b Hr). intros Hx (Hx0 & Hl & E). pose proof (zlen_nonneg l).
  unfold seg. rewrite (ed_size _ _ _ _ _ _ He), (ed_hdr _ _ _ _ _ _ He 8) by done. split_and!; [lia|lia|].
  rewrite Z.add_assoc, (ed_high _ _ _ _ _ _ He); [done|lia|done|unfold used; lia].
Qed.

Lemma edited_strings : strings_le b b'.
Proof.
  pose proof (rw_bounds b Hr). intros o s Ho. rewrite (string_at_rdn b Hr), (string_at_rdn b' edited_ready) by done.
  intros (Ho0 & Hl & Hs & E). pose proof (zlen_nonneg s). rewrite (ed_sstr _ _ _ _ _ _ He), (ed_ostr _ _ _ _ _ _ He). split_and!; [done|lia|done|].
  replace (hv b 12 + d + o) with (hv b 12 + o + d) by lia. rewrite (ed_high _ _ _ _ _ _ He); [done|lia|lia|unfold used; lia].
Qed.

(** A further write inside the new stretch. *)
Lemma edited_write b'' w l : wrote b' b'' w l -> Forall is_byte l -> hv b 8 + p <= w -> w + zlen l <= hv b 8 + q + d -> edited b b'' p q d g.
Proof.
  pose proof (rw_bounds b Hr). intros Hw Hl H1 H2. pose proof (zlen_nonneg l). destruct He as [? ? ? Hh ? ? ? Hlow Hhigh].
  assert (forall k, 0 <= k <= 36 -> hv b'' k = hv b' k) as Hk by (intros; apply (wrote_hv _ _ _ _ _ Hw); lia).
  split; try (rewrite Hk by lia; done).
  - by rewrite (wo_base _ _ _ _ Hw).
  - by rewrite (wo_len _ _ _ _ Hw).
  - by apply (wo_bytes _ _ _ _ Hw).
  - intros k Hin. rewrite Hk; [by apply Hh|apply kept_range in Hin; lia].
  - intros x n Hx Hn Hle. rewrite (wo_old _ _ _ _ Hw) by lia. by apply Hlow.
  - intros x n Hx Hn Hle. rewrite (wo_old _ _ _ _ Hw) by lia. by apply Hhigh.
Qed.

Lemma edited_weaken p' : 0 <= p' <= p -> edited b b' p' q d g.
Proof. intros Hp'. destruct He as [? ? ? Hh ? ? ? Hlow Hhigh]. split; try done. intros x n Hx Hn Hle. apply Hlow; lia. Qed.
End Edited.

(** ** The splicing functions *)

Section Splicing.
  Context (b : region) (Hr : rw_ready b).
  Local Abbreviation m := (r_bytes b).
  Local Abbreviation tot := (hv b 4).

(** Either there is no room and nothing happens, or everything from [p + old] on
    is moved. *)
Lemma splice_ok p old new : 40 <= p -> 0 <= old -> p + old <= used b -> 0 <= new < 2 ^ 31 ->
  (tot < used b - old + new /\ fdt_splice_ p old new b = Some (- FDT_ERR_NOSPACE, b)) \/
  (used b - old + new <= tot /\ exists l b', rdn m (p + old) (used b - (p + old)) = Some l /\ fdt_splice_ p old new b = Some (0, b') /\ wrote b b' (p + new) l).
Proof.
  intros Hp Ho Hu Hn. pose proof (rw_bounds b Hr). unfold fdt_splice_, mbind, M_bind. rewrite (rw_used b Hr). unfold used in *. set (u := hv b 12 + hv b 32) in *.
  rewrite !(uw_small 64 p), !(uw_small 64 (p + old)), (uw_small 32 (u + new)), (uw_small 32 old), (uw_small 32 (u - old + new)) by (unfold is_uw; lia).
  destruct (Z.ltb_spec old 0); [lia|]. destruct (Z.ltb_spec (p + old) p); [lia|]. destruct (Z.ltb_spec u (p + old)); [lia|]. cbn [orb].
  destruct (Z.ltb_spec p 0); [lia|]. destruct (Z.ltb_spec (u + new) old); [lia|]. cbn [orb]. rewrite (rw_rd b Hr fdt_totalsize 4) by (done || lia).
  destruct (Z.ltb_spec tot (u - old + new)); [by left|]. right. split; [done|].
  unfold memmove. destruct (rdn m (p + old) (u - (p + old))) as [l|] eqn:E; [|by rewrite rdn_Some in E by lia].
  pose proof (rdn_inv _ _ _ _ E) as (_ & _ & _ & L & _). cbn [mbind option_bind].
  destruct (wr_wrote (p + new) l b) as (b' & -> & Hw); [lia|lia|]. by exists l, b'.
Qed.

(** What the memory holds after the move. *)
Lemma moved_high p old new l b' x n : rdn m (p + old) (used b - (p + old)) = Some l -> wrote b b' (p + new) l ->
  p + old <= x -> 0 <= n -> x + n <= used b -> rdn (r_bytes b') (x + (new - old)) n = rdn m x n.
Proof.
  intros E Hw Hx Hn Hu. pose proof (rw_bounds b Hr). pose proof (rdn_inv _ _ _ _ E) as (_ & _ & _ & L & _).
  destruct (list_around l (x - (p + old)) n) as (l1 & l2 & l3 & -> & L1 & L2); [lia..|].
  pose proof (wo_new _ _ _ _ Hw) as E'. rewrite <- L in E. apply rdn_app in E as [_ E]. apply rdn_app in E as [E _]. apply rdn_app in E' as [_ E']. apply rdn_app in E' as [E' _].
  rewrite L1, L2 in *. replace (p + old + (x - (p + old))) with x in E by lia. replace (p + new + (x - (p + old))) with (x + (new - old)) in E' by lia. congruence.
Qed.

Lemma set_field f b1 k v : (forall v, f v = wr k (to_be 4 v)) -> 0 <= k -> k + 4 <= zlen (r_bytes b1) -> exists b2, f v b1 = Some (tt, b2) /\ wrote b1 b2 k (to_be 4 v) /\
  hv b2 k = u32 v /\ (forall x, 0 <= x -> x + 4 <= zlen (r_bytes b1) -> x + 4 <= k \/ k + 4 <= x -> hv b2 x = hv b1 x).
Proof.
  intros E Hk Hl. rewrite E. destruct (wr_wrote k (to_be 4 v) b1) as (b2 & E2 & Hw); [done|by rewrite zlen_to_be|]. exists b2. split_and!; [done|done|by apply (wrote_word b1)|].
  intros x H1 H2 H3. apply (wrote_hv _ _ _ _ _ Hw); [done|done|by rewrite zlen_to_be].
Qed.

Lemma rd_field f k b1 : (forall b, f b = fdt32_ld (r_bytes b) k) -> 0 <= k -> k + 4 <= zlen (r_bytes b1) -> rd f b1 = Some (hv b1 k, b1).
Proof. intros E Hk Hl. unfold rd. rewrite E. unfold fdt32_ld, rd_be. rewrite rdn_Some by lia. done. Qed.

Lemma splice_struct_ok p old new : 0 <= p -> 0 <= old -> p + old <= hv b 36 -> 0 <= new < 2 ^ 31 ->
  (tot < used b - old + new /\ fdt_splice_struct_ (hv b 8 + p) old new b = Some (- FDT_ERR_NOSPACE, b)) \/
  (used b - old + new <= tot /\ exists b', fdt_splice_struct_ (hv b 8 + p) old new b = Some (0, b') /\ edited b b' (p + Z.min old new) (p + old) (new - old) 0).
Proof.
  intros Hp Ho Hs Hn. pose proof (rw_bounds b Hr) as Hbd. assert (hv b 8 + p + old <= used b) as Hu by (unfold used; lia).
  unfold fdt_splice_struct_, mbind, M_bind. destruct (splice_ok (hv b 8 + p) old new) as [[Hlt ->]|(Hle & l & b1 & El & -> & Hw)]; [lia|lia|lia|lia|by left|].
  right. split; [done|]. cbn [negb Z.eqb]. pose proof (wo_len _ _ _ _ Hw) as L1. pose proof (bo_bytes _ (rb_ok _ (rw_read _ Hr))) as Hbs. pose proof (Forall_rdn _ _ _ _ _ Hbs El) as Hlb.
  assert (forall x, 0 <= x <= 36 -> hv b1 x = hv b x) as H1 by (intros; apply (wrote_hv _ _ _ _ _ Hw); lia).
  assert (0 <= used b) by (unfold used; lia). rewrite (rd_field _ 36) by (done || lia).
  destruct (set_field fdt_set_size_dt_struct b1 36 (u32 (hv b1 36 + s32 (new - old)))) as (b2 & -> & Hw2 & F2 & H2); [done|lia|lia|].
  pose proof (wo_len _ _ _ _ Hw2) as L2. rewrite (rd_field _ 12) by (done || lia).
  destruct (set_field fdt_set_off_dt_strings b2 12 (u32 (hv b2 12 + s32 (new - old)))) as (b3 & -> & Hw3 & F3 & H3); [done|lia|lia|].
  exists b3. split; [done|]. rewrite (H1 36), (sw_small 32 (new - old)), !(uw_small 32 (hv b 36 + _)) in F2 by (unfold is_uw, is_sw, used in *; lia).
  rewrite (H2 12), (H1 12), (sw_small 32 (new - old)), !(uw_small 32 (hv b 12 + _)) in F3 by (unfold is_uw, is_sw, used in *; lia).
  split.
  - by rewrite (wo_base _ _ _ _ Hw3), (wo_base _ _ _ _ Hw2), (wo_base _ _ _ _ Hw).
  - pose proof (wo_len _ _ _ _ Hw3). lia.
  - apply (wo_bytes _ _ _ _ Hw3), (wo_bytes _ _ _ _ Hw2), (wo_bytes _ _ _ _ Hw); try apply to_be_bytes; done.
  - intros k Hk. pose proof (kept_range k Hk). rewrite H3, H2, H1 by lia. done.
  - done.
  - rewrite H3, H2, H1 by lia. lia.
  - rewrite H3, F2 by lia. done.
  - intros x n Hx Hn' Hle'. rewrite (wo_old _ _ _ _ Hw3), (wo_old _ _ _ _ Hw2), (wo_old _ _ _ _ Hw) by (rewrite ?zlen_to_be; lia). done.
  - intros x n Hx Hn' Hle'. rewrite (wo_old _ _ _ _ Hw3), (wo_old _ _ _ _ Hw2) by (rewrite ?zlen_to_be; lia). eapply moved_high; try done; lia.
Qed.

(** *** Strings *)

(** Only the strings grow. *)
Definition grown (b' : region) (g : Z) : Prop := edited b b' (hv b 36) (hv b 36) 0 g.

Lemma splice_string_ok len : 0 <= len < 2 ^ 31 ->
  (tot < used b + len /\ Rw.fdt_splice_string_ len b = Some (- FDT_ERR_NOSPACE, b)) \/
  (used b + len <= tot /\ exists b', Rw.fdt_splice_string_ len b = Some (0, b') /\ grown b' len).
Proof.
  intros Hn. pose proof (rw_bounds b Hr) as Hbd. unfold Rw.fdt_splice_string_, mbind, M_bind. rewrite (rw_rd b Hr _ 12), (rw_rd b Hr _ 32) by (done || lia). fold (used b).
  assert (56 <= used b) as Hu by (unfold used; lia).
  destruct (splice_ok (used b) 0 len) as [[Hlt ->]|(Hle & l & b1 & El & -> & Hw)]; [lia|lia|lia|lia|left; split; [lia|done]|]. right. split; [lia|]. cbn [negb Z.eqb].
  pose proof (rdn_inv _ _ _ _ El) as (_ & _ & _ & L & _). replace (used b - (used b + 0)) with 0 in L by lia.
  assert (forall x, 0 <= x <= 36 -> hv b1 x = hv b x) as H1 by (intros; apply (wrote_hv _ _ _ _ _ Hw); lia).
  pose proof (wo_len _ _ _ _ Hw) as L1. pose proof (bo_bytes _ (rb_ok _ (rw_read _ Hr))) as Hbs. rewrite (rd_field _ 32) by (done || lia).
  destruct (set_field fdt_set_size_dt_strings b1 32 (u32 (hv b1 32 + len))) as (b2 & -> & Hw2 & F2 & H2); [done|lia|lia|].
  exists b2. split; [done|]. rewrite (H1 32), !(uw_small 32 (hv b 32 + _)) in F2 by (unfold is_uw, used in *; lia).
  assert (forall x n, 40 <= x -> 0 <= n -> x + n <= used b -> rdn (r_bytes b2) x n = rdn m x n) as Hrd.
  { intros x n Hx Hn' Hle'. rewrite (wo_old _ _ _ _ Hw2), (wo_old _ _ _ _ Hw) by (rewrite ?zlen_to_be; lia). done. }
  split; try (rewrite H2, H1 by lia; lia).
  - by rewrite (wo_base _ _ _ _ Hw2), (wo_base _ _ _ _ Hw).
  - pose proof (wo_len _ _ _ _ Hw2). lia.
  - apply (wo_bytes _ _ _ _ Hw2), (wo_bytes _ _ _ _ Hw); [apply to_be_bytes|by eapply Forall_rdn|done].
  - intros k Hk. pose proof (kept_range k Hk). rewrite H2, H1 by lia. done.
  - done.
  - intros x n Hx Hn' Hle'. apply Hrd; [done|done|unfold used; lia].
  - intros x n Hx Hn' Hle'. rewrite Z.add_0_r. apply Hrd; lia.
Qed.

(** Where the name of a property ends up. *)
Inductive added (s : list Z) : Z * bool -> region -> Prop :=
  | add_found off : 0 <= off < 2 ^ 31 -> string_at b off s -> added s (off, false) b
  | add_full : tot < used b + (zlen s + 1) -> added s (- FDT_ERR_NOSPACE, false) b
  | add_new b' : used b + (zlen s + 1) <= tot -> grown b' (zlen s + 1) -> string_at b' (hv b 32) s -> added s (hv b 32, true) b'.

Lemma grown_ready b' g : grown b' g -> 0 <= g -> used b + g <= tot -> rw_ready b'.
Proof. intros He Hg Hroom. pose proof (rw_bounds b Hr). apply (edited_ready b b' Hr _ _ _ _ He); lia. Qed.

Lemma find_add_string_ok s : text s -> zlen s < 2 ^ 30 -> exists r b', Rw.fdt_find_add_string_ s b = Some (r, b') /\ added s r b'.
Proof.
  intros [Hs Hsb] Hl. pose proof (rw_bounds b Hr) as Hbd. pose proof (zlen_nonneg s). unfold Rw.fdt_find_add_string_, mbind, M_bind.
  rewrite (rw_rd b Hr fdt_off_dt_strings 12), (rw_rd b Hr fdt_size_dt_strings 32) by (done || lia). rewrite (sw_small 32 (hv b 32)), (sw_small 32 (zlen s + 1)) by (unfold is_sw; lia).
  unfold rd, fdt_find_string_. destruct (find_string_ok m s (Z.to_nat (hv b 32 - (zlen s + 1) + 1)) (hv b 12)) as (r & -> & Hf); [lia|lia|]. cbn [mbind option_bind].
  destruct r as [q|].
  - destruct Hf as [Hq E]. do 2 eexists. split; [done|]. rewrite sw_small by (unfold is_sw; lia). apply add_found; [lia|].
    apply (string_at_rdn b Hr); [unfold is_sw; lia|]. split_and!; [lia|lia|done|]. by replace (hv b 12 + (q - hv b 12)) with q by lia.
  - destruct (splice_string_ok (zlen s + 1)) as [[Hlt ->]|(Hle & b1 & -> & Hg)]; [lia|do 2 eexists; by split; [|constructor]|]. cbn [negb Z.eqb].
    destruct (wr_wrote (hv b 12 + hv b 32) (s ++ [0]) b1) as (b2 & E2 & Hw); [lia|rewrite (ed_len _ _ _ _ _ _ Hg), zlen_nul; unfold used in *; lia|]. rewrite E2.
    do 2 eexists. split; [done|]. rewrite sw_small by (unfold is_sw; lia). replace (hv b 12 + hv b 32 - hv b 12) with (hv b 32) by lia.
    assert (grown b2 (zlen s + 1)) as Hg2.
    { destruct Hg as [? L ? Hh ? ? ? Hlow Hhigh]. assert (forall k, 0 <= k <= 36 -> hv b2 k = hv b1 k) as Hk by (intros; apply (wrote_hv _ _ _ _ _ Hw); lia).
      split; try (rewrite Hk by lia; done).
      - by rewrite (wo_base _ _ _ _ Hw).
      - by rewrite (wo_len _ _ _ _ Hw).
      - apply (wo_bytes _ _ _ _ Hw); [|done]. apply Forall_app. split; [done|]. by repeat constructor.
      - intros k Hin. rewrite Hk; [by apply Hh|apply kept_range in Hin; lia].
      - intros x n Hx Hn Hle'. rewrite (wo_old _ _ _ _ Hw) by lia. by apply Hlow.
      - intros x n Hx Hn Hle'. rewrite (wo_old _ _ _ _ Hw) by (unfold used in *; lia). by apply Hhigh. }
    constructor; [done|done|]. pose proof (grown_ready b2 _ Hg2 ltac:(lia) ltac:(lia)) as Hr2. apply (string_at_rdn b2 Hr2); [unfold is_sw; lia|].
    rewrite (ed_sstr _ _ _ _ _ _ Hg2), (ed_ostr _ _ _ _ _ _ Hg2), Z.add_0_r. split_and!; [lia|lia|done|]. rewrite <- zlen_nul. apply (wo_new _ _ _ _ Hw).
Qed.

(** Taking the added string back. *)
Lemma del_last_string_ok s b' : zlen s < 2 ^ 30 -> used b + (zlen s + 1) <= tot -> grown b' (zlen s + 1) -> exists b2, Rw.fdt_del_last_string_ s b' = Some (tt, b2) /\ grown b2 0.
Proof.
  intros Hl Hle Hg. pose proof (rw_bounds b Hr) as Hbd. pose proof (zlen_nonneg s). pose proof (ed_len _ _ _ _ _ _ Hg) as L. unfold Rw.fdt_del_last_string_, mbind, M_bind.
  rewrite (rd_field _ 32) by (done || lia). rewrite (ed_sstr _ _ _ _ _ _ Hg), (sw_small 32) by (unfold is_sw; lia).
  replace (hv b 32 + (zlen s + 1) - (zlen s + 1)) with (hv b 32) by lia. rewrite (uw_small 32) by (unfold is_uw, used in *; lia).
  destruct (set_field fdt_set_size_dt_strings b' 32 (hv b 32)) as (b2 & -> & Hw & F2 & H2); [done|lia|lia|]. exists b2. split; [done|]. rewrite uw_small in F2 by (unfold is_uw, used in *; lia).
  destruct Hg as [? _ ? Hh ? ? ? Hlow Hhigh]. split; try (rewrite H2 by lia; done).
  - by rewrite (wo_base _ _ _ _ Hw).
  - by rewrite (wo_len _ _ _ _ Hw).
  - apply (wo_bytes _ _ _ _ Hw); [apply to_be_bytes|done].
  - intros k Hin. pose proof (kept_range _ Hin). rewrite H2 by lia. by apply Hh.
  - lia.
  - intros x n Hx Hn Hle'. rewrite (wo_old _ _ _ _ Hw) by (rewrite ?zlen_to_be; lia). by apply Hlow.
  - intros x n Hx Hn Hle'. rewrite (wo_old _ _ _ _ Hw) by (rewrite ?zlen_to_be; unfold used in *; lia). by apply Hhigh.
Qed.
End Splicing.
