(* ===== verification/FdtRwProps.v ===== *)
(** The functions of fdt_rw.c on the tree of a blob: each is an operation on the
    tree the blob holds, or runs out of room and leaves the tree as it was. *)
From S2P Require Import Prelude KDefs Bytes Fdt FdtRo FdtSafe FdtRoSafe FdtProps FdtHelper FdtCheck FdtTree FdtPath FdtSw FdtSwProps FdtSeg FdtMove FdtEdit FdtSwTree FdtRw FdtSplice.

(** ** The operations on trees *)
Definition has_prop (name : list Z) (ps : list (list Z * list Z)) : bool := existsb (fun p => bool_decide (p.1 = name)) ps.

Fixpoint upd_prop (name : list Z) (f : list Z -> list Z) (ps : list (list Z * list Z)) : list (list Z * list Z) :=
  match ps with
  | [] => []
  | (n, v) :: ps => if bool_decide (n = name) then (n, f v) :: ps else (n, v) :: upd_prop name f ps
  end.

Fixpoint remove_prop (name : list Z) (ps : list (list Z * list Z)) : list (list Z * list Z) :=
  match ps with
  | [] => []
  | (n, v) :: ps => if bool_decide (n = name) then ps else (n, v) :: remove_prop name ps
  end.

(** Changes the value of the first property with the name, or adds one in front. *)
Definition change_prop (name val : list Z) (f : list Z -> list Z) (t : stree) : stree :=
  let 'SNode n ps ks := t in SNode n (if has_prop name ps then upd_prop name f ps else (name, val) :: ps) ks.

Definition set_prop (name val : list Z) : stree -> stree := change_prop name val (fun _ => val).
Definition append_prop (name val : list Z) : stree -> stree := change_prop name val (fun v => v ++ val).
Definition del_prop (name : list Z) (t : stree) : stree := let 'SNode n ps ks := t in SNode n (remove_prop name ps) ks.
Definition rename (name : list Z) (t : stree) : stree := let 'SNode _ ps ks := t in SNode name ps ks.
Definition add_kid (k : stree) (t : stree) : stree := let 'SNode n ps ks := t in SNode n ps (k :: ks).

(** The first property with a name, in the list of located properties. *)
Lemma find_prop_split name ps : match find_prop name ps with
  | Some p => exists ps1 ps2, ps = ps1 ++ p :: ps2 /\ p_name p = name /\ has_prop name (pv <$> ps) = true /\
      (forall f v, v = f (p_val p) -> upd_prop name f (pv <$> ps) = (pv <$> ps1) ++ (name, v) :: (pv <$> ps2)) /\ remove_prop name (pv <$> ps) = (pv <$> ps1) ++ (pv <$> ps2)
  | None => has_prop name (pv <$> ps) = false
  end.
Proof.
  induction ps as [|p ps IH]; [done|]. unfold find_prop in *. cbn [List.find]. change (pv <$> p :: ps) with ((p_name p, p_val p) :: (pv <$> ps)).
  cbn [has_prop existsb upd_prop remove_prop fst]. case_bool_decide as E.
  - exists [], ps. subst name. split_and!; [done|done|done| |done]. by intros f v ->.
  - destruct (List.find _ ps) as [q|]; [|exact IH]. destruct IH as (ps1 & ps2 & -> & Hn & Hh & Hu & Hd). exists (p :: ps1), ps2. split_and!; [done|done|exact Hh| |].
    + intros f v Hv. rewrite (Hu f v Hv). done.
    + by rewrite Hd.
Qed.

(** ** Trees of edited blobs *)

(** A tree depends on the structure block and the strings only. *)
Lemma same_blocks b b' (S1 : stable b) (S2 : stable b') t : strings_le b b' -> (forall x l, x + zlen l <= hv b 36 -> seg b x l -> seg b' x l) -> holds b t -> holds b' t.
Proof.
  intros Hstr Hlow (Hrd & Ho & e & e2 & Hn & Hend). assert (at_tag (d_off t)) as Hgt by (by rewrite Ho).
  destruct (node_range b Hrd t e Hgt Hn) as (o1 & Ht & Hi & Hg1 & Hge & ? & ? & ? & _). pose proof (items_end_in b S1 _ _ _ _ Hi Hg1). destruct Hn as (_ & _ & Hnm & _).
  split; [apply S2|]. split; [done|]. exists e, e2. split.
  - destruct (begin_low b b' S1 S2 _ Hlow _ o1 (d_name t) Hgt Ht Hnm) as [T1 T2]; [lia|lia|]. exists o1. split_and!; [done|done|]. apply (items_low b b' S1 S2 Hstr _ Hlow); (done || lia).
  - destruct (token_seg b (sb_bound _ S1) e FDT_END e2 Hge Hend) as (k & Hk & Et & Hseg & ->); [by right|]. rewrite <- Et. apply (seg_token b' (sb_bound _ S2)); [apply Hge| |done].
    apply Hlow; [|done]. by destruct Hseg as (_ & ? & _).
Qed.

(** More strings do not change the tree. *)
Lemma grown_tree b (Hr : rw_ready b) b' g t : grown b b' g -> 0 <= g -> used b + g <= hv b 4 -> holds b t -> holds b' t.
Proof.
  intros He Hg Hroom. pose proof (rw_bounds b Hr). pose proof (grown_ready b Hr b' g He Hg Hroom) as Hr'. apply (same_blocks b b' (rw_stable b Hr) (rw_stable b' Hr')); [apply (edited_strings b b' Hr _ _ _ _ He)|apply (edited_seg_low b b' Hr _ _ _ _ He)]; lia.
Qed.

Lemma grown_refl b : rw_ready b -> grown b b 0.
Proof.
  intros Hr. split; rewrite ?Z.add_0_r; try done; [apply Hr|]. intros. by rewrite Z.add_0_r.
Qed.

(** The words and the value of a property make it one. *)
Lemma prop_there b (Hr : rw_ready b) o off name val : at_tag o -> 0 <= o -> o + 12 + FDT_TAGALIGN (zlen val) <= hv b 36 ->
  rdn (r_bytes b) (hv b 8 + o) 4 = Some (to_be 4 FDT_PROP) -> rdn (r_bytes b) (hv b 8 + o + 4) 4 = Some (to_be 4 (zlen val)) ->
  rdn (r_bytes b) (hv b 8 + o + 8) 4 = Some (to_be 4 off) -> rdn (r_bytes b) (hv b 8 + o + 12) (zlen val) = Some val -> string_at b (s32 (u32 off)) name ->
  token b o FDT_PROP (o + 12 + FDT_TAGALIGN (zlen val)) /\ prop_at b (PItem o name val).
Proof.
  intros Hg Ho Hle E0 E4 E8 E12 Hn. pose proof (rw_bounds b Hr). pose proof (sb_bound _ (rw_stable b Hr)) as B. pose proof (zlen_nonneg val).
  pose proof (Forall_rdn _ _ _ _ _ (bo_bytes _ (bd_ok _ B)) E12) as Hv. pose proof (tagalign_eq (zlen val)) as Ea. pose proof (Z.mod_pos_bound (- zlen val) 4 ltac:(lia)).
  destruct (seg_some b B (o + 12 + zlen val) ((- zlen val) mod 4)) as (pad & Lp & Hpad & Hpb); [lia|lia|lia|]. set (k := KProp [] off val pad).
  assert (tok_wf k) as Hk by (cbn; split_and!; try done; split; [set_solver|constructor]).
  assert (seg b o (enc k)) as Hseg.
  { cbn [k enc]. rewrite !seg_app, !zlen_to_be. change (Z.of_nat 4) with 4. replace (o + 4 + 4 + 4) with (o + 12) by lia. replace (o + 4 + 4) with (o + 8) by lia.
    unfold seg at 1 2 3 4. rewrite !zlen_to_be. change (Z.of_nat 4) with 4. rewrite !Z.add_assoc. split_and!; try done; try lia. }
  pose proof (seg_token b B o k (proj2 Hg) Hseg Hk) as Htk. rewrite (zlen_enc _ Hk) in Htk. cbn [tok_size tag_of k] in Htk. rewrite Z.add_assoc in Htk. split; [done|].
  destruct (prop_bytes b B o off val pad Hseg) as (F1 & F2 & F3). unfold prop_at. cbn [p_off p_name p_val]. by rewrite F1, F2.
Qed.

(** ** Nodes in an edited blob *)

Section Node.
  Context (b : region) (Hr : rw_ready b) (t s : dt) (F : list frame) (Ht : holds b t) (Hs : sits s t F).
  Local Abbreviation m := (r_bytes b).
  Local Abbreviation st := (hv b 8).
  Local Abbreviation tot := (hv b 4).

(** Where the node lies. *)
Record lies (o1 es : Z) : Prop := {
  li_tag : at_tag (d_off s);
  li_node : node_at b s es;
  li_token : token b (d_off s) FDT_BEGIN_NODE o1;
  li_name : name_at b (d_off s) (d_name s);
  li_items : items b o1 (d_props s) (d_kids s) es;
  li_tag1 : at_tag o1;
  li_range : 0 <= d_off s /\ d_off s + 4 <= o1 /\ o1 + 4 <= es /\ es <= hv b 36;
}.

Lemma node_lies : exists o1 es, lies o1 es.
Proof.
  destruct Ht as (Hrd & Ho & e & e2 & Hn & Hend). assert (at_tag (d_off t)) as Hg by (by rewrite Ho).
  destruct (sits_range b (rw_stable b Hr) s t F Hs e Hg Hn) as (es & Hgs & Hns & _ & _).
  destruct (node_range b Hrd s es Hgs Hns) as (o1 & Ht1 & Hi & Hg1 & _ & ? & ? & ? & _). exists o1, es.
  pose proof (items_end_in b (rw_stable b Hr) _ _ _ _ Hi Hg1). destruct (Hns) as (_ & _ & Hnm & _). split; (done || lia).
Qed.

(** What an operation on the node does: it returns [ok] and the node is related by
    [f] to the new one at the same place, or there is no room for it. [need] is
    the room it takes at most. *)
Record result (need : Z) (f : dt -> dt -> Prop) (ok rc : Z) (b' : region) : Prop := {
  re_ready : rw_ready b';
  re_hdr k : kept_field k = true -> hv b' k = hv b k;
  re_head x n : 40 <= x -> 0 <= n -> x + n <= st -> rdn (r_bytes b') x n = rdn m x n;
  re_tree : (rc = ok /\ used b' <= used b + need /\ exists t' s', holds b' t' /\ sits s' t' F /\ d_off s' = d_off s /\ f s s') \/
            (rc = - FDT_ERR_NOSPACE /\ tot < used b + need /\ used b' = used b /\ holds b' t);
}.

Lemma result_full need f ok b' : grown b b' 0 -> tot < used b + need -> result need f ok (- FDT_ERR_NOSPACE) b'.
Proof.
  intros He Hn. pose proof (rw_bounds b Hr) as Hbd. assert (used b + 0 <= tot) as H0 by (unfold used; lia). split.
  - by apply (grown_ready b Hr b' 0 He).
  - apply He.
  - intros x n Hx Hn' Hle. apply (ed_low _ _ _ _ _ _ He); lia.
  - right. split_and!; [done|done|unfold used; rewrite (ed_ostr _ _ _ _ _ _ He), (ed_sstr _ _ _ _ _ _ He); lia|by apply (grown_tree b Hr b' 0 t He)].
Qed.

Section Edit.
  Context (b' : region) (p q d g : Z) (He : edited b b' p q d g) (Hd : d mod 4 = 0).
  Context (Hpq : 0 <= p <= q) (Hq : q <= hv b 36) (Hpd : p <= q + d) (Hg : 0 <= g) (Hroom : used b + d + g <= tot).
  Context (o1 es : Z) (Hl : lies o1 es).
  Local Abbreviation Hr' := (edited_ready b b' Hr p q d g He Hpq Hq Hpd Hg Hroom).
  Local Abbreviation Hlow := (edited_seg_low b b' Hr p q d g He Hq Hpd).
  Local Abbreviation Hhigh := (edited_seg_high b b' Hr p q d g He Hpq Hpd).
  Local Abbreviation Hstr := (edited_strings b b' Hr p q d g He Hpq Hq Hpd Hg Hroom).
  Local Abbreviation S1 := (rw_stable b Hr).
  Local Abbreviation S2 := (rw_stable b' Hr').

Lemma edited_tree s' : d_off s <= p -> q <= es -> d_off s' = d_off s -> node_at b' s' (es + d) -> exists t', holds b' t' /\ sits s' t' F.
Proof. intros Hp Hqe Eo Hn. apply (tree_splice b b' S1 S2 Hstr p q d Hd Hlow Hhigh t s s' es F); try done. apply Hl. Qed.

(** The node up to [p], in the new blob. *)
Lemma edited_front ps1 : reach b o1 ps1 p -> o1 <= p /\ token b' (d_off s) FDT_BEGIN_NODE o1 /\ name_at b' (d_off s) (d_name s) /\ reach b' o1 ps1 p.
Proof.
  intros Hre. destruct Hl as [Hg0 _ Htk Hnm _ Hg1 Hrg]. destruct (reach_at_tag b S1 _ _ _ Hre Hg1) as [_ Hle]. split; [done|].
  destruct (begin_low b b' S1 S2 p Hlow (d_off s) o1 (d_name s) Hg0 Htk Hnm) as [H1 H2]; [lia|lia|]. split_and!; [done|done|].
  apply (reach_low b b' S1 S2 Hstr p Hlow); (done || lia).
Qed.

(** A property put between [p] and [q]. *)
Lemma put_node ps1 ps2 ks nm v : reach b o1 ps1 p -> items b q ps2 ks es -> at_tag q -> token b' p FDT_PROP (q + d) -> prop_at b' (PItem p nm v) ->
  node_at b' (DNode (d_off s) (d_name s) (ps1 ++ PItem p nm v :: (pshift d <$> ps2)) (shift d <$> ks)) (es + d).
Proof.
  intros Hre Hi Hgq Htk Hp. destruct (edited_front ps1 Hre) as (_ & H1 & H2 & H3). exists o1. cbn. split_and!; [done|done|]. eapply reach_items; [done|].
  eapply it_prop; [done|done|done|]. apply (items_high b b' S1 S2 Hstr q d Hd Hhigh); (done || lia).
Qed.

(** Everything between [p] and [q] taken out. *)
Lemma cut_node ps1 ps2 ks : reach b o1 ps1 p -> items b q ps2 ks es -> at_tag q -> q + d = p ->
  node_at b' (DNode (d_off s) (d_name s) (ps1 ++ (pshift d <$> ps2)) (shift d <$> ks)) (es + d).
Proof.
  intros Hre Hi Hgq E. destruct (edited_front ps1 Hre) as (_ & H1 & H2 & H3). exists o1. cbn. split_and!; [done|done|]. eapply reach_items; [done|].
  rewrite <- E. apply (items_high b b' S1 S2 Hstr q d Hd Hhigh); (done || lia).
Qed.

Lemma result_done need (f : dt -> dt -> Prop) ok s' : d + g <= need -> d_off s <= p -> q <= es -> d_off s' = d_off s -> node_at b' s' (es + d) -> f s s' -> result need f ok ok b'.
Proof.
  intros Hneed Hp Hqe Eo Hn Hf. destruct (edited_tree s' Hp Hqe Eo Hn) as (t' & Ht' & Hs'). split; [exact Hr'|apply He| |].
  - intros x n Hx Hn' Hle. apply (ed_low _ _ _ _ _ _ He); lia.
  - left. split; [done|]. split; [unfold used; rewrite (ed_ostr _ _ _ _ _ _ He), (ed_sstr _ _ _ _ _ _ He); lia|]. by exists t', s'.
Qed.
End Edit.

(** *** Properties *)

(** Where a property of the node lies: [n] is its end, [off] the word of its name. *)
Record plies (ps1 : list pitem) (p : pitem) (ps2 : list pitem) (o1 es n off : Z) : Prop := {
  pl_reach : reach b o1 ps1 (p_off p);
  pl_items : items b n ps2 (d_kids s) es;
  pl_tag : at_tag (p_off p);
  pl_tag' : at_tag n;
  pl_end : n = p_off p + 12 + FDT_TAGALIGN (zlen (p_val p));
  pl_range : d_off s + 4 <= p_off p /\ n + 4 <= es;
  pl_word : rdn m (st + p_off p) 4 = Some (to_be 4 FDT_PROP);
  pl_off : rdn m (st + p_off p + 8) 4 = Some (to_be 4 off);
  pl_val : rdn m (st + p_off p + 12) (zlen (p_val p)) = Some (p_val p);
  pl_name : string_at b (s32 (u32 off)) (p_name p);
}.

Lemma prop_lies ps1 p ps2 o1 es : lies o1 es -> d_props s = ps1 ++ p :: ps2 -> exists n off, plies ps1 p ps2 o1 es n off.
Proof.
  intros [_ _ _ _ Hi Hg1 Hrg] E. rewrite E in Hi. destruct (items_to_prop b _ _ _ _ _ _ Hi) as (Hre & n & Htk & Hp & Hi2).
  pose proof (rw_stable b Hr) as S1. pose proof (sb_bound _ S1) as B. destruct (reach_at_tag b S1 _ _ _ Hre Hg1) as [Hgp Hle].
  destruct (token_seg b B _ _ _ Hgp Htk) as (k & Hk & Et & Hseg & En).
  { left. pose proof (token_at_tag b (sb_read _ S1) _ _ _ Hgp Htk ltac:(done)) as Hgn. destruct (items_at_tag b (sb_read _ S1) _ _ _ _ Hi2 Hgn). lia. }
  destruct k as [|nm off val pad| | |]; try done. pose proof (zlen_enc _ Hk) as Lk. cbn [tok_size] in Lk. exists n, off.
  pose proof (token_at_tag b (sb_read _ S1) _ _ _ Hgp Htk ltac:(done)) as Hgn. destruct (items_at_tag b (sb_read _ S1) _ _ _ _ Hi2 Hgn) as [_ ?].
  destruct (prop_bytes b B _ off val pad Hseg) as (F1 & F2 & F3). destruct Hp as (G1 & G2 & G3). rewrite F1 in G2. rewrite <- G2 in G3. rewrite F3 in G3. injection G3 as ->. rewrite F2 in G1.
  cbn [enc] in Hseg. rewrite !seg_app, !zlen_to_be in Hseg. change (Z.of_nat 4) with 4 in Hseg. destruct Hseg as ((_ & _ & W0) & _ & (_ & _ & W8) & _).
  rewrite !zlen_to_be in *. change (Z.of_nat 4) with 4 in *. replace (st + (p_off p + 4 + 4)) with (st + p_off p + 8) in W8 by lia. split; (done || lia).
Qed.

(** The slot for a property between [po] and [q], its header written. *)
Record slot (b2 : region) (po q d off : Z) (ps1 ps2 : list pitem) (nm : list Z) (len o1 es : Z) : Prop := {
  sl_edit : edited b b2 po q d 0;
  sl_reach : reach b o1 ps1 po;
  sl_items : items b q ps2 (d_kids s) es;
  sl_tag : at_tag po;
  sl_tag' : at_tag q;
  sl_le : d_off s + 4 <= po <= q /\ q <= es;
  sl_size : 0 <= len /\ q + d = po + 12 + FDT_TAGALIGN len;
  sl_room : used b + d <= tot;
  sl_word : rdn (r_bytes b2) (st + po) 4 = Some (to_be 4 FDT_PROP);
  sl_len : rdn (r_bytes b2) (st + po + 4) 4 = Some (to_be 4 len);
  sl_off : rdn (r_bytes b2) (st + po + 8) 4 = Some (to_be 4 off);
  sl_name : string_at b (s32 (u32 off)) nm;
}.

Lemma prop_slot_bounds b2 po q d off ps1 ps2 nm len o1 es : lies o1 es -> slot b2 po q d off ps1 ps2 nm len o1 es ->
  d mod 4 = 0 /\ 0 <= po <= q /\ q <= hv b 36 /\ po <= q + d /\ 0 <= d_off s /\ st + q + d <= zlen (r_bytes b2) /\ len <= FDT_TAGALIGN len.
Proof.
  intros Hl Hsl. pose proof (rw_bounds b Hr). pose proof (li_range _ _ Hl). destruct Hsl as [He _ _ [_ Hm1] [_ Hm2] Hle [Hl0 Hsz] Hroom _ _ _ _].
  rewrite (ed_len _ _ _ _ _ _ He). rewrite tagalign_eq in *. pose proof (Z.mod_pos_bound (- len) 4 ltac:(lia)). unfold used in Hroom.
  split; [|split_and!; lia]. replace d with (po + 12 + (len + (- len) mod 4) - q) by lia. clear -Hm1 Hm2 Hl0. Z.to_euclidean_division_equations. lia.
Qed.

(** Writing the (rest of the) value. *)
Lemma take_value b2 po q d off ps1 ps2 nm pre val o1 es need f : lies o1 es -> slot b2 po q d off ps1 ps2 nm (zlen (pre ++ val)) o1 es ->
  rdn (r_bytes b2) (st + po + 12) (zlen pre) = Some pre -> Forall is_byte val -> d <= need ->
  f (erase s) = SNode (d_name s) ((pv <$> ps1) ++ (nm, pre ++ val) :: (pv <$> ps2)) (erase <$> d_kids s) ->
  exists b3, wr (st + po + 12 + zlen pre) val b2 = Some (tt, b3) /\ result need (fun x y => erase y = f (erase x)) 0 0 b3.
Proof.
  intros Hl Hsl Hpre Hval Hneed Hf. pose proof (rw_bounds b Hr). destruct (prop_slot_bounds _ _ _ _ _ _ _ _ _ _ _ Hl Hsl) as (Hd & Hpq & Hq & Hpd & Hs0 & Hz & Hal).
  destruct Hsl as [He Hre Hi Hg1 Hg2 Hle [Hl0 Hsz] Hroom W0 W4 W8 Hn]. pose proof (li_range _ _ Hl) as Hrg. pose proof (zlen_nonneg pre). pose proof (zlen_nonneg val). pose proof (zlen_app pre val) as La.
  destruct (wr_wrote (st + po + 12 + zlen pre) val b2) as (b3 & E3 & Hw); [lia|lia|]. exists b3. split; [done|].
  pose proof (edited_write b b2 Hr po q d 0 He Hpq b3 _ _ Hw Hval ltac:(lia) ltac:(lia)) as He3.
  assert (used b + d + 0 <= tot) as Hroom3 by lia. pose proof (edited_ready b b3 Hr po q d 0 He3 Hpq Hq Hpd ltac:(lia) Hroom3) as Hr3.
  pose proof (ed_hdr _ _ _ _ _ _ He3 8 eq_refl) as Est. pose proof (edited_strings b b3 Hr po q d 0 He3 Hpq Hq Hpd ltac:(lia) Hroom3) as Hstr.
  destruct (prop_there b3 Hr3 po off nm (pre ++ val)) as [Htk Hp]; rewrite ?Est.
  - done.
  - lia.
  - rewrite (ed_size _ _ _ _ _ _ He3). lia.
  - by rewrite (wo_old _ _ _ _ Hw) by lia.
  - by rewrite (wo_old _ _ _ _ Hw) by lia.
  - by rewrite (wo_old _ _ _ _ Hw) by lia.
  - apply rdn_app. split; [by rewrite (wo_old _ _ _ _ Hw) by lia|apply (wo_new _ _ _ _ Hw)].
  - apply Hstr; [by apply sw_range|done].
  - rewrite <- Hsz in Htk. pose proof (put_node b3 po q d 0 He3 Hd Hpq Hq Hpd ltac:(lia) Hroom3 o1 es Hl ps1 ps2 (d_kids s) nm (pre ++ val) Hre Hi Hg2 Htk Hp) as Hnode.
    eapply (result_done b3 po q d 0 He3 Hd Hpq Hq Hpd ltac:(lia) Hroom3 o1 es Hl); [lia|lia|lia| |exact Hnode|]; [done|].
    rewrite Hf. destruct s as [o n ps ks]. cbn [erase d_name d_kids]. f_equal; [|by rewrite erase_shift_all].
    change (fun p : pitem => (p_name p, p_val p)) with pv. by rewrite fmap_app, fmap_cons, pv_shift.
Qed.

(** Making the slot of a property larger or smaller. *)
Lemma open_slot ps1 p ps2 o1 es n off len : lies o1 es -> plies ps1 p ps2 o1 es n off -> 0 <= len < 2 ^ 31 - 4 ->
  let old := FDT_TAGALIGN (zlen (p_val p)) in let new := FDT_TAGALIGN len in
  (tot < used b - old + new /\ fdt_splice_struct_ (st + p_off p + 12) (s32 old) (s32 new) b = Some (- FDT_ERR_NOSPACE, b)) \/
  exists b1 b2, fdt_splice_struct_ (st + p_off p + 12) (s32 old) (s32 new) b = Some (0, b1) /\ wr (st + p_off p + 4) (to_be 4 len) b1 = Some (tt, b2) /\
    slot b2 (p_off p) n (new - old) off ps1 ps2 (p_name p) len o1 es /\
    (forall x k, st + p_off p + 12 <= x -> 0 <= k -> x + k <= st + p_off p + 12 + Z.min old new -> rdn (r_bytes b2) x k = rdn m x k).
Proof.
  intros Hl [Hre Hi Hg1 Hg2 En Hrg W0 W8 Hv Hn] Hlen old new. pose proof (rw_bounds b Hr). pose proof (li_range _ _ Hl). pose proof (zlen_nonneg (p_val p)).
  pose proof (tagalign_eq len) as Ea. pose proof (tagalign_eq (zlen (p_val p))) as Eb. pose proof (Z.mod_pos_bound (- len) 4 ltac:(lia)). pose proof (Z.mod_pos_bound (- zlen (p_val p)) 4 ltac:(lia)).
  fold new in Ea. fold old in Eb, En. rewrite !(sw_small 32) by (unfold is_sw; lia). rewrite <- Z.add_assoc.
  destruct (splice_struct_ok b Hr (p_off p + 12) old new) as [[Hlt E]|(Hroom & b1 & E & He)]; [lia|lia|lia|lia|by left; rewrite E|]. right. exists b1.
  destruct (wr_wrote (st + p_off p + 4) (to_be 4 len) b1) as (b2 & E2 & Hw); [lia|rewrite zlen_to_be, (ed_len _ _ _ _ _ _ He); lia|].
  exists b2. split; [done|]. split; [done|].
  assert (forall x k, 40 <= x -> 0 <= k -> x + k <= st + p_off p + 12 + Z.min old new -> x + k <= st + p_off p + 4 \/ st + p_off p + 8 <= x -> rdn (r_bytes b2) x k = rdn m x k) as Hlow.
  { intros x k Hx Hk Hle Hd. rewrite (wo_old _ _ _ _ Hw) by (rewrite ?zlen_to_be; lia). apply (ed_low _ _ _ _ _ _ He); lia. }
  split; [|intros x k Hx Hk Hle; apply Hlow; lia].
  replace (p_off p + 12 + old) with n in He by lia. split; try done; try lia.
  - apply (edited_write b b1 Hr (p_off p) n (new - old) 0) with (w := st + p_off p + 4) (l := to_be 4 len); [eapply edited_weaken; [exact He|lia]|lia|done|apply to_be_bytes|lia|rewrite zlen_to_be; lia].
  - rewrite Hlow by lia. done.
  - pose proof (wo_new _ _ _ _ Hw) as Hnew. by rewrite zlen_to_be in Hnew.
  - rewrite Hlow by lia. done.
Qed.
End Node.

(** ** Adding a property *)

Lemma grown_lies b (Hr : rw_ready b) b1 g s o1 es : grown b b1 g -> 0 <= g -> used b + g <= hv b 4 -> lies b s o1 es -> lies b1 s o1 es.
Proof.
  intros He Hg Hroom [Hg0 Hn Htk Hnm Hi Hg1 Hrg]. pose proof (rw_bounds b Hr). pose proof (grown_ready b Hr b1 g He Hg Hroom) as Hr1.
  assert (forall x l, x + zlen l <= hv b 36 -> seg b x l -> seg b1 x l) as Hlow by (apply (edited_seg_low b b1 Hr _ _ _ _ He); lia).
  assert (strings_le b b1) as Hstr by (apply (edited_strings b b1 Hr _ _ _ _ He); lia). pose proof (rw_stable b Hr) as S1. pose proof (rw_stable b1 Hr1) as S2.
  destruct (begin_low b b1 S1 S2 _ Hlow _ o1 (d_name s) Hg0 Htk Hnm) as [T1 T2]; [lia|lia|].
  assert (items b1 o1 (d_props s) (d_kids s) es) as Hi1 by (apply (items_low b b1 S1 S2 Hstr _ Hlow); (done || lia)).
  split; try done; [by exists o1|]. rewrite (ed_size _ _ _ _ _ _ He). lia.
Qed.

Lemma result_grown b (Hr : rw_ready b) b1 g t s F need f b' : grown b b1 g -> 0 <= g -> result b1 t s F need f 0 0 b' -> result b t s F (g + need) f 0 0 b'.
Proof.
  intros He Hg [H1 H2 H3 H4]. pose proof (rw_bounds b Hr). pose proof (ed_hdr _ _ _ _ _ _ He 8 eq_refl) as E8. split.
  - done.
  - intros k Hk. rewrite H2 by done. by apply He.
  - intros x n Hx Hn Hle. rewrite H3 by (rewrite ?E8; done). apply (ed_low _ _ _ _ _ _ He); lia.
  - destruct H4 as [(_ & Hu & Ht)|[? _]]; [|done]. left. split; [done|]. split; [|done]. unfold used in *. rewrite (ed_ostr _ _ _ _ _ _ He), (ed_sstr _ _ _ _ _ _ He) in Hu. lia.
Qed.

(** The slot of a property in front of the others. *)
Lemma new_slot b (Hr : rw_ready b) s o1 es off nm len : lies b s o1 es -> string_at b (s32 (u32 off)) nm -> 0 <= len < 2 ^ 30 ->
  let need := 12 + FDT_TAGALIGN len in let prop := hv b 8 + o1 in
  (hv b 4 < used b + need /\ fdt_splice_struct_ prop 0 (s32 need) b = Some (- FDT_ERR_NOSPACE, b)) \/
  exists b1 b2 b3 b4, fdt_splice_struct_ prop 0 (s32 need) b = Some (0, b1) /\ wr prop (to_be 4 FDT_PROP) b1 = Some (tt, b2) /\
    wr (prop + 8) (to_be 4 off) b2 = Some (tt, b3) /\ wr (prop + 4) (to_be 4 len) b3 = Some (tt, b4) /\ slot b s b4 o1 o1 need off [] (d_props s) nm len o1 es.
Proof.
  intros Hl Hn Hlen need prop. pose proof (rw_bounds b Hr). pose proof (li_range _ _ _ _ Hl) as Hrg.
  pose proof (tagalign_eq len) as Ea. pose proof (Z.mod_pos_bound (- len) 4 ltac:(lia)). rewrite (sw_small 32) by (unfold is_sw; lia).
  destruct (splice_struct_ok b Hr o1 0 need) as [[Hlt E]|(Hroom & b1 & E & He)]; [lia|lia|lia|lia|left; split; [lia|done]|]. right. exists b1.
  rewrite Z.min_l, !Z.add_0_r, Z.sub_0_r in He by lia. pose proof (ed_len _ _ _ _ _ _ He) as L1.
  destruct (wr_wrote prop (to_be 4 FDT_PROP) b1) as (b2 & E2 & Hw2); [lia|rewrite zlen_to_be; unfold used in *; lia|]. pose proof (wo_len _ _ _ _ Hw2) as L2.
  destruct (wr_wrote (prop + 8) (to_be 4 off) b2) as (b3 & E3 & Hw3); [lia|rewrite zlen_to_be; unfold used in *; lia|]. pose proof (wo_len _ _ _ _ Hw3) as L3.
  destruct (wr_wrote (prop + 4) (to_be 4 len) b3) as (b4 & E4 & Hw4); [lia|rewrite zlen_to_be; unfold used in *; lia|].
  exists b2, b3, b4. split_and!; try done. pose proof (wo_new _ _ _ _ Hw2) as N2. pose proof (wo_new _ _ _ _ Hw3) as N3. pose proof (wo_new _ _ _ _ Hw4) as N4.
  rewrite !zlen_to_be in *. change (Z.of_nat 4) with 4 in *. split; try apply Hl; try done; try lia.
  - eapply (edited_write b b3 Hr); [|lia|exact Hw4|apply to_be_bytes|lia|rewrite zlen_to_be; lia]. eapply (edited_write b b2 Hr); [|lia|exact Hw3|apply to_be_bytes|lia|rewrite zlen_to_be; lia].
    eapply (edited_write b b1 Hr); [exact He|lia|exact Hw2|apply to_be_bytes|lia|rewrite zlen_to_be; lia].
  - constructor.
  - rewrite (wo_old _ _ _ _ Hw4), (wo_old _ _ _ _ Hw3) by (rewrite ?zlen_to_be; lia). done.
  - rewrite (wo_old _ _ _ _ Hw4) by (rewrite ?zlen_to_be; lia). done.
Qed.

Lemma rd_offset_ptr c o : rw_ready c -> rd (fun b => fdt_offset_ptr_ b o) c = Some (hv c 8 + o, c).
Proof. intros Hc. unfold rd, fdt_offset_ptr_, fdt_off_dt_struct. by rewrite (field_ok c (rb_ok _ (rw_read _ Hc))) by lia. Qed.

Section Ops.
  Context (b : region) (Hr : rw_ready b) (t s : dt) (F : list frame) (Ht : holds b t) (Hs : sits s t F).
  Local Abbreviation tot := (hv b 4).
  Local Abbreviation st := (hv b 8).

(** [fdt_add_property_] opens a slot, with the name found in the strings or added
    to them, or there is no room and an added name is taken back. *)
Lemma add_property_ok name len o1 es : text name -> zlen name < 2 ^ 30 -> 0 <= len < 2 ^ 30 -> lies b s o1 es ->
  exists rc pp b', fdt_add_property_ (d_off s) name len b = Some ((rc, pp), b') /\
    ((rc = - FDT_ERR_NOSPACE /\ grown b b' 0 /\ tot < used b + (zlen name + 1 + (12 + FDT_TAGALIGN len))) \/
     (rc = 0 /\ pp = Some (st + o1) /\ exists b1 g off, 0 <= g <= zlen name + 1 /\ used b + g <= tot /\ grown b b1 g /\ lies b1 s o1 es /\
        slot b1 s b' o1 o1 (12 + FDT_TAGALIGN len) off [] (d_props s) name len o1 es)).
Proof.
  intros Hn Hnl Hlen Hl. pose proof (rw_bounds b Hr) as Hbd. pose proof (zlen_nonneg name). pose proof (tagalign_nonneg len ltac:(lia)). pose proof (li_range _ _ _ _ Hl) as Hrg.
  unfold fdt_add_property_, mbind, M_bind. unfold rd at 1. rewrite (token_check b (rw_read _ Hr) _ _ (proj1 (li_tag _ _ _ _ Hl)) (li_token _ _ _ _ Hl) (proj2 (li_tag _ _ _ _ Hl))).
  cbn [mbind option_bind]. destruct (Z.ltb_spec o1 0); [lia|]. destruct (find_add_string_ok b Hr name Hn Hnl) as (r & b1 & -> & Ha).
  destruct Ha as [off Ho Hstr|Hfull|b1 Hroom Hg Hstr].
  - destruct (Z.ltb_spec off 0); [lia|]. rewrite (rd_offset_ptr b o1 Hr). assert (s32 (u32 off) = off) as Eo by (by rewrite uw_small, sw_small by (unfold is_uw, is_sw; lia)).
    rewrite <- Eo in Hstr. destruct (new_slot b Hr s o1 es off name len Hl Hstr Hlen) as [[Hlt ->]|(c1 & c2 & c3 & c4 & -> & E2 & E3 & E4 & Hsl)].
    + do 3 eexists. split; [done|]. left. split_and!; [done|by apply grown_refl|lia].
    + cbn [negb Z.eqb]. rewrite E2, E3, E4. do 3 eexists. split; [done|]. right. split_and!; [done|done|]. exists b, 0, off. split_and!; try done; [lia|unfold used; lia|by apply grown_refl].
  - do 3 eexists. split; [done|]. left. split_and!; [done|by apply grown_refl|lia].
  - destruct (Z.ltb_spec (hv b 32) 0); [lia|]. pose proof (grown_ready b Hr b1 _ Hg ltac:(lia) Hroom) as Hr1. rewrite (rd_offset_ptr b1 o1 Hr1).
    pose proof (grown_lies b Hr b1 _ s o1 es Hg ltac:(lia) Hroom Hl) as Hl1. assert (s32 (u32 (hv b 32)) = hv b 32) as Eo by (by rewrite uw_small, sw_small by (unfold is_uw, is_sw; lia)).
    rewrite <- Eo in Hstr. pose proof (ed_hdr _ _ _ _ _ _ Hg 4 eq_refl) as E4'.
    assert (used b1 = used b + (zlen name + 1)) as Eu by (unfold used; rewrite (ed_ostr _ _ _ _ _ _ Hg), (ed_sstr _ _ _ _ _ _ Hg); lia).
    destruct (new_slot b1 Hr1 s o1 es (hv b 32) name len Hl1 Hstr Hlen) as [[Hlt ->]|(c1 & c2 & c3 & c4 & -> & E2 & E3 & E4 & Hsl)].
    + change (negb (- FDT_ERR_NOSPACE =? 0)) with true. cbv match beta. destruct (del_last_string_ok b Hr name b1 Hnl Hroom Hg) as (b2 & -> & Hg2). do 3 eexists. split; [done|]. left. split_and!; [done|done|lia].
    + cbn [negb Z.eqb]. rewrite E2, E3, E4. do 3 eexists. split; [done|]. right. rewrite (ed_hdr _ _ _ _ _ _ Hg 8 eq_refl). split_and!; [done|done|].
      exists b1, (zlen name + 1), (hv b 32). split_and!; (done || lia).
Qed.

Lemma tagalign_bound x : 0 <= x -> 0 <= x /\ x <= FDT_TAGALIGN x <= x + 3.
Proof. intros Hx. rewrite tagalign_eq. pose proof (Z.mod_pos_bound (- x) 4 ltac:(lia)). lia. Qed.

Lemma wr_nil p c : 0 <= p <= zlen (r_bytes c) -> wr p [] c = Some (tt, c).
Proof. intros Hp. destruct c as [base m]. cbn [r_bytes] in Hp. unfold wr. cbn [r_bytes]. rewrite wrn_Some by (rewrite ?zlen_nil; lia). cbn. rewrite Z.add_0_r. by rewrite take_drop. Qed.

(** The erased tree with a changed property. *)
Lemma erase_changed name val f p ps1 ps2 v : d_props s = ps1 ++ p :: ps2 -> p_name p = name -> has_prop name (pv <$> d_props s) = true ->
  upd_prop name f (pv <$> d_props s) = (pv <$> ps1) ++ (name, v) :: (pv <$> ps2) ->
  change_prop name val f (erase s) = SNode (d_name s) ((pv <$> ps1) ++ (p_name p, v) :: (pv <$> ps2)) (erase <$> d_kids s).
Proof.
  intros Ep En Hh Hu. destruct s as [o n ps ks]. cbn [d_props d_name d_kids erase change_prop] in *. change (fun p : pitem => (p_name p, p_val p)) with pv. rewrite Hh, Hu. by rewrite En.
Qed.

Lemma erase_added name val f : has_prop name (pv <$> d_props s) = false ->
  change_prop name val f (erase s) = SNode (d_name s) ((name, val) :: (pv <$> d_props s)) (erase <$> d_kids s).
Proof. intros Hh. destruct s as [o n ps ks]. cbn [d_props d_name d_kids erase change_prop] in *. change (fun p : pitem => (p_name p, p_val p)) with pv. by rewrite Hh. Qed.

Lemma get_prop name o1 es : lies b s o1 es -> rd (fun b => fdt_get_property b (d_off s) name) b =
  Some (match find_prop name (d_props s) with Some p => (Some (st + p_off p), zlen (p_val p)) | None => (None, - FDT_ERR_NOTFOUND) end, b).
Proof.
  intros Hl. destruct (getprop_tree b (rw_read _ Hr) name s es (li_tag _ _ _ _ Hl) (li_node _ _ _ _ Hl)) as [_ E]. unfold rd. by rewrite E.
Qed.

(** The value of an added property. *)
Lemma add_value name val f o1 es b1 g off b' : 0 <= g <= zlen name + 1 -> used b + g <= tot -> grown b b1 g -> lies b1 s o1 es ->
  slot b1 s b' o1 o1 (12 + FDT_TAGALIGN (zlen val)) off [] (d_props s) name (zlen val) o1 es -> Forall is_byte val ->
  f (erase s) = SNode (d_name s) ((name, val) :: (pv <$> d_props s)) (erase <$> d_kids s) ->
  exists b3, 0 <= st + o1 + 12 <= zlen (r_bytes b') /\ wr (st + o1 + 12) val b' = Some (tt, b3) /\ result b t s F (prop_need (name, val)) (fun x y => erase y = f (erase x)) 0 0 b3.
Proof.
  intros Hg Hroom Hgr Hl1 Hsl Hv Hf. pose proof (grown_ready b Hr b1 g Hgr ltac:(lia) Hroom) as Hr1. pose proof (ed_hdr _ _ _ _ _ _ Hgr 8 eq_refl) as E8.
  destruct (prop_slot_bounds b1 Hr1 s _ _ _ _ _ _ _ _ _ _ _ Hl1 Hsl) as (_ & ? & ? & ? & ? & Hz & _). pose proof (rw_bounds b1 Hr1). pose proof (tagalign_bound _ (zlen_nonneg val)).
  destruct (take_value b1 Hr1 t s F (grown_tree b Hr b1 g t Hgr ltac:(lia) Hroom Ht) Hs b' o1 o1 _ off [] (d_props s) name [] val o1 es (12 + FDT_TAGALIGN (zlen val)) f Hl1 Hsl) as (b3 & E3 & Hres).
  - rewrite zlen_nil. by rewrite rdn_Some by lia.
  - done.
  - lia.
  - done.
  - rewrite zlen_nil, Z.add_0_r, E8 in E3. exists b3. split; [lia|]. split; [done|]. apply (result_grown b Hr b1 g) in Hres; [|done|lia].
    destruct Hres as [R1 R2 R3 R4]. split; try done. destruct R4 as [(_ & Hu & Hex)|[? _]]; [|done]. left. split_and!; [done|unfold prop_need; cbn [fst snd]; lia|done].
Qed.

(** [fdt_setprop_placeholder] makes room for a value; whatever value of that length is
    written there, it is the property's. *)
Lemma placeholder_ok name len : text name -> zlen name < 2 ^ 30 -> 0 <= len < 2 ^ 30 -> exists rc pp b', fdt_setprop_placeholder (d_off s) name len b = Some ((rc, pp), b') /\
  ((rc = - FDT_ERR_NOSPACE /\ forall f, result b t s F (zlen name + 1 + (12 + FDT_TAGALIGN len)) f 0 rc b') \/
   (rc = 0 /\ exists p, pp = Some p /\ 0 <= p /\ p + len <= zlen (r_bytes b') /\ Forall is_byte (r_bytes b') /\ forall val, zlen val = len -> Forall is_byte val ->
      exists b3, wr p val b' = Some (tt, b3) /\ result b t s F (prop_need (name, val)) (fun x y => erase y = set_prop name val (erase x)) 0 0 b3)).
Proof.
  intros Hn Hnl Hlen. destruct (node_lies b Hr t s F Ht Hs) as (o1 & es & Hl). pose proof (zlen_nonneg name). pose proof (tagalign_bound len ltac:(lia)).
  pose proof (rw_bounds b Hr) as Hbd. unfold fdt_setprop_placeholder. rewrite (rw_probe b Hr). unfold fdt_resize_property_, mbind, M_bind. rewrite (get_prop name o1 es Hl).
  pose proof (find_prop_split name (d_props s)) as Hfp. destruct (find_prop name (d_props s)) as [p|].
  - destruct Hfp as (ps1 & ps2 & Ep & En & Hh & Hu & _). destruct (prop_lies b Hr s ps1 p ps2 o1 es Hl Ep) as (n & off & Hp). pose proof (tagalign_bound _ (zlen_nonneg (p_val p))).
    destruct (open_slot b Hr s ps1 p ps2 o1 es n off len Hl Hp ltac:(lia)) as [[Hlt ->]|(b1 & b2 & -> & E2 & Hsl & Hold)].
    + cbn. do 3 eexists. split; [done|]. left. split; [done|]. intros f. apply (result_full b Hr); [done|by apply grown_refl|lia].
    + cbn [negb Z.eqb]. rewrite E2. unfold mret, M_ret in *. cbn [fst]. change (0 =? - FDT_ERR_NOTFOUND) with false. cbv match beta. do 3 eexists. split; [done|]. right. split; [done|]. eexists. split; [done|].
      destruct (prop_slot_bounds b Hr s _ _ _ _ _ _ _ _ _ _ _ Hl Hsl) as (_ & ? & ? & ? & ? & Hz & _). pose proof (sl_size _ _ _ _ _ _ _ _ _ _ _ _ _ Hsl) as [_ Hsz].
      split_and!; [lia|lia|apply (ed_bytes _ _ _ _ _ _ (sl_edit _ _ _ _ _ _ _ _ _ _ _ _ _ Hsl))|]. intros val Lv Hv.
      destruct (take_value b Hr t s F Ht Hs b2 (p_off p) n (FDT_TAGALIGN len - FDT_TAGALIGN (zlen (p_val p))) off ps1 ps2 (p_name p) [] val o1 es (prop_need (name, val)) (set_prop name val) Hl ltac:(by cbn [app]; rewrite Lv)) as (b3 & E3 & Hres).
      * rewrite zlen_nil. by rewrite rdn_Some by lia.
      * done.
      * unfold prop_need. cbn [fst snd]. rewrite Lv. lia.
      * apply erase_changed with (p := p); [done|done|done|by apply Hu].
      * rewrite zlen_nil, Z.add_0_r in E3. by exists b3.
  - unfold mret, M_ret in *. cbn [fst]. rewrite Z.eqb_refl. destruct (add_property_ok name len o1 es Hn Hnl Hlen Hl) as (rc & pp & b' & -> & [(-> & Hg & Hlt)|(-> & -> & b1 & g & off & Hg & Hroom & Hgr & Hl1 & Hsl)]).
    + cbn. do 3 eexists. split; [done|]. left. split; [done|]. intros f. apply (result_full b Hr); [done|done|lia].
    + do 3 eexists. split; [done|]. right. split; [done|]. eexists. split; [done|]. pose proof (grown_ready b Hr b1 g Hgr ltac:(lia) Hroom) as Hr1. pose proof (ed_hdr _ _ _ _ _ _ Hgr 8 eq_refl) as E8.
      destruct (prop_slot_bounds b1 Hr1 s _ _ _ _ _ _ _ _ _ _ _ Hl1 Hsl) as (_ & ? & ? & ? & ? & Hz & _). pose proof (rw_bounds b1 Hr1).
      split_and!; [lia|lia|apply (ed_bytes _ _ _ _ _ _ (sl_edit _ _ _ _ _ _ _ _ _ _ _ _ _ Hsl))|]. intros val Lv Hv. rewrite <- Lv in Hsl.
      destruct (add_value name val (set_prop name val) o1 es b1 g off b' Hg Hroom Hgr Hl1 Hsl Hv ltac:(by apply erase_added)) as (b3 & Hin & E3 & Hres). by exists b3.
Qed.

Lemma setprop_ok name val : text name -> zlen name < 2 ^ 30 -> Forall is_byte val -> zlen val < 2 ^ 30 ->
  exists rc b', fdt_setprop (d_off s) name val b = Some (rc, b') /\ result b t s F (prop_need (name, val)) (fun x y => erase y = set_prop name val (erase x)) 0 rc b'.
Proof.
  intros Hn Hnl Hv Hvl. pose proof (zlen_nonneg val). unfold fdt_setprop, mbind, M_bind. destruct (placeholder_ok name (zlen val) Hn Hnl ltac:(lia)) as (rc & pp & b1 & -> & [(-> & Hres)|(-> & p & -> & Hp & Hpz & _ & Hw)]).
  - cbn. do 2 eexists. split; [done|]. apply Hres.
  - destruct (Hw val eq_refl Hv) as (b3 & E & Hres). exists 0, b3. split; [|done]. destruct (Z.eqb_spec (zlen val) 0) as [E0|]; cbn [negb]; [|by rewrite E]. destruct val; [|rewrite zlen_cons in E0; pose proof (zlen_nonneg val); lia]. rewrite wr_nil in E by lia. by injection E as <-.
Qed.

Lemma appendprop_ok name val : text name -> zlen name < 2 ^ 30 -> Forall is_byte val -> zlen val < 2 ^ 30 -> used b + zlen val < 2 ^ 31 - 4 ->
  exists rc b', fdt_appendprop (d_off s) name val b = Some (rc, b') /\ result b t s F (prop_need (name, val)) (fun x y => erase y = append_prop name val (erase x)) 0 rc b'.
Proof.
  intros Hn Hnl Hv Hvl Hint. destruct (node_lies b Hr t s F Ht Hs) as (o1 & es & Hl). pose proof (zlen_nonneg name). pose proof (tagalign_bound _ (zlen_nonneg val)).
  pose proof (rw_bounds b Hr) as Hbd. unfold fdt_appendprop. rewrite (rw_probe b Hr). unfold mbind, M_bind. rewrite (get_prop name o1 es Hl).
  pose proof (find_prop_split name (d_props s)) as Hfp. destruct (find_prop name (d_props s)) as [p|].
  - destruct Hfp as (ps1 & ps2 & Ep & En & Hh & Hu & _). destruct (prop_lies b Hr s ps1 p ps2 o1 es Hl Ep) as (n & off & Hp). pose proof (tagalign_bound _ (zlen_nonneg (p_val p))).
    pose proof (pl_end _ _ _ _ _ _ _ _ _ Hp) as Hend. pose proof (pl_range _ _ _ _ _ _ _ _ _ Hp). pose proof (li_range _ _ _ _ Hl). pose proof (zlen_app (p_val p) val) as La.
    rewrite (sw_small 32 (zlen val + _)) by (unfold is_sw, used in *; lia). replace (zlen val + zlen (p_val p)) with (zlen (p_val p ++ val)) by lia.
    assert (FDT_TAGALIGN (zlen (p_val p)) <= FDT_TAGALIGN (zlen (p_val p ++ val)) <= FDT_TAGALIGN (zlen (p_val p)) + FDT_TAGALIGN (zlen val)) as Hal.
    { rewrite La, !tagalign_eq. clear -H0 H1. Z.to_euclidean_division_equations. lia. }
    destruct (open_slot b Hr s ps1 p ps2 o1 es n off (zlen (p_val p ++ val)) Hl Hp) as [[Hlt ->]|(b1 & b2 & -> & E2 & Hsl & Hold)].
    + unfold used in Hint. lia.
    + do 2 eexists. split; [done|]. apply (result_full b Hr); [done|by apply grown_refl|]. unfold prop_need. cbn [fst snd]. lia.
    + cbn [negb Z.eqb]. rewrite E2.
      destruct (take_value b Hr t s F Ht Hs b2 (p_off p) n _ off ps1 ps2 (p_name p) (p_val p) val o1 es (prop_need (name, val)) (append_prop name val) Hl Hsl) as (b3 & E3 & Hres).
      * rewrite Hold by lia. apply Hp.
      * done.
      * unfold prop_need. cbn [fst snd]. lia.
      * apply erase_changed with (p := p); [done|done|done|by apply Hu].
      * rewrite E3. by do 2 eexists.
  - destruct (add_property_ok name (zlen val) o1 es Hn Hnl ltac:(lia) Hl) as (rc & pp & b' & -> & [(-> & Hg & Hlt)|(-> & -> & b1 & g & off & Hg & Hroom & Hgr & Hl1 & Hsl)]).
    + do 2 eexists. split; [done|]. apply (result_full b Hr); [done|done|]. unfold prop_need. cbn [fst snd]. lia.
    + destruct (add_value name val (append_prop name val) o1 es b1 g off b' Hg Hroom Hgr Hl1 Hsl Hv ltac:(by apply erase_added)) as (b3 & Hin & E3 & Hres). rewrite E3. by do 2 eexists.
Qed.

(** A property is always removed: there is room for less. *)
Lemma delprop_ok name : exists rc b', fdt_delprop (d_off s) name b = Some (rc, b') /\
  if has_prop name (pv <$> d_props s) then rc = 0 /\ result b t s F 0 (fun x y => erase y = del_prop name (erase x)) 0 rc b' else rc = - FDT_ERR_NOTFOUND /\ b' = b.
Proof.
  destruct (node_lies b Hr t s F Ht Hs) as (o1 & es & Hl). pose proof (rw_bounds b Hr) as Hbd. unfold fdt_delprop. rewrite (rw_probe b Hr). unfold mbind, M_bind. rewrite (get_prop name o1 es Hl).
  pose proof (find_prop_split name (d_props s)) as Hfp. destruct (find_prop name (d_props s)) as [p|]; [|rewrite Hfp; by do 2 eexists].
  destruct Hfp as (ps1 & ps2 & Ep & En & Hh & _ & Hrm). destruct (prop_lies b Hr s ps1 p ps2 o1 es Hl Ep) as (n & off & Hp). rewrite Hh. pose proof (tagalign_bound _ (zlen_nonneg (p_val p))).
  pose proof (pl_end _ _ _ _ _ _ _ _ _ Hp) as Hend. pose proof (pl_range _ _ _ _ _ _ _ _ _ Hp). pose proof (li_range _ _ _ _ Hl). rewrite (sw_small 32) by (unfold is_sw; lia).
  destruct (splice_struct_ok b Hr (p_off p) (12 + FDT_TAGALIGN (zlen (p_val p))) 0) as [[Hlt _]|(Hroom & b' & -> & He)]; [lia|lia|lia|lia|unfold used in Hlt; lia|]. do 2 eexists. split; [done|]. split; [done|].
  rewrite Z.min_r, Z.add_0_r in He by lia. replace (p_off p + (12 + FDT_TAGALIGN (zlen (p_val p)))) with n in He by lia. set (d := 0 - _) in He.
  assert (d mod 4 = 0) as Hd. { unfold d. rewrite tagalign_eq. Z.to_euclidean_division_equations. lia. }
  assert (n + d = p_off p) as Hnd by lia. assert (used b + d + 0 <= tot) as Hrm' by lia.
  pose proof (cut_node b Hr s b' (p_off p) n d 0 He Hd ltac:(lia) ltac:(lia) ltac:(lia) ltac:(lia) Hrm' o1 es Hl ps1 ps2 (d_kids s) (pl_reach _ _ _ _ _ _ _ _ _ Hp) (pl_items _ _ _ _ _ _ _ _ _ Hp) (pl_tag' _ _ _ _ _ _ _ _ _ Hp) Hnd) as Hnode.
  eapply (result_done b Hr t s F Ht Hs b' (p_off p) n d 0 He Hd ltac:(lia) ltac:(lia) ltac:(lia) ltac:(lia) Hrm' o1 es Hl); [lia|lia|lia| |exact Hnode|]; [done|].
  destruct s as [o nm ps ks]. cbn [erase d_name d_kids d_props del_prop] in *. change (fun p : pitem => (p_name p, p_val p)) with pv. by rewrite Hrm, erase_shift_all, fmap_app, pv_shift.
Qed.
End Ops.
