(* ===== verification/FdtRwNodes.v ===== *)
(** The functions of fdt_rw.c that add, remove and rename nodes, on the tree of a
    blob. *)
From S2P Require Import Prelude KDefs Bytes Fdt FdtRo FdtSafe FdtRoSafe FdtProps FdtHelper FdtCheck FdtTree FdtPath FdtSw FdtSwProps FdtSeg FdtMove FdtEdit FdtSwTree FdtRw FdtSplice FdtRwProps.

(** ** The beginning and the end of a node *)

Lemma begin_there b (Hr : rw_ready b) o name : at_tag o -> 0 <= o -> o + 4 + FDT_TAGALIGN (zlen name + 1) <= hv b 36 -> 0 ∉ name ->
  rdn (r_bytes b) (hv b 8 + o) 4 = Some (to_be 4 FDT_BEGIN_NODE) -> rdn (r_bytes b) (hv b 8 + o + 4) (zlen name + 1) = Some (name ++ [0]) ->
  token b o FDT_BEGIN_NODE (o + 4 + FDT_TAGALIGN (zlen name + 1)) /\ name_at b o name.
Proof.
  intros Hg Ho Hle Hn E0 E4. pose proof (rw_bounds b Hr). pose proof (sb_bound _ (rw_stable b Hr)) as B. pose proof (zlen_nonneg name).
  pose proof (Forall_rdn _ _ _ _ _ (bo_bytes _ (bd_ok _ B)) E4) as [Hb _]%Forall_app. pose proof (tagalign_eq (zlen name + 1)) as Ea. pose proof (Z.mod_pos_bound (- (zlen name + 1)) 4 ltac:(lia)).
  destruct (seg_some b B (o + 4 + (zlen name + 1)) ((- (zlen name + 1)) mod 4)) as (pad & Lp & Hpad & Hpb); [lia|lia|lia|]. set (k := KBegin name pad).
  assert (tok_wf k) as Hk by done. assert (seg b (o + 4) (name ++ [0])) as Hs4 by (unfold seg; rewrite zlen_nul, (Z.add_assoc (hv b 8)); split_and!; (done || lia)).
  assert (seg b o (enc k)) as Hseg.
  { cbn [k enc]. rewrite (seg_app b o), (seg_app b (o + _)), !zlen_to_be, zlen_nul. change (Z.of_nat 4) with 4. split_and!; [|done|done].
    unfold seg. rewrite zlen_to_be. change (Z.of_nat 4) with 4. split_and!; (done || lia). }
  pose proof (seg_token b B o k (proj2 Hg) Hseg Hk) as Htk. rewrite (zlen_enc _ Hk) in Htk. cbn [tok_size tag_of k] in Htk. rewrite Z.add_assoc in Htk. split; [done|].
  unfold name_at. rewrite <- Z.add_assoc. by apply (seg_cstr b (o + 4) name []).
Qed.

Lemma end_there b (Hr : rw_ready b) o : at_tag o -> 0 <= o -> o + 4 <= hv b 36 -> rdn (r_bytes b) (hv b 8 + o) 4 = Some (to_be 4 FDT_END_NODE) -> token b o FDT_END_NODE (o + 4).
Proof.
  intros Hg Ho Hle E0. pose proof (sb_bound _ (rw_stable b Hr)) as B. apply (seg_token b B o KEnd (proj2 Hg)); [|done]. unfold seg. cbn [enc]. rewrite zlen_to_be. done.
Qed.

(** Where the name of a node ends. *)
Lemma name_end b (Hr : rw_ready b) s o1 es : lies b s o1 es -> o1 = d_off s + 4 + FDT_TAGALIGN (zlen (d_name s) + 1) /\ rdn (r_bytes b) (hv b 8 + d_off s) 4 = Some (to_be 4 FDT_BEGIN_NODE).
Proof.
  intros Hl. pose proof (li_range _ _ _ _ Hl). pose proof (sb_bound _ (rw_stable b Hr)) as B.
  destruct (token_seg b B _ _ _ (li_tag _ _ _ _ Hl) (li_token _ _ _ _ Hl)) as (k & Hk & Et & Hseg & En); [left; lia|]. destruct k as [nm pad| | | |]; try done.
  rewrite (zlen_enc _ Hk) in En. cbn [tok_size enc] in *. apply seg_app in Hseg as [(_ & _ & W) Hs]. rewrite zlen_to_be in *. change (Z.of_nat 4) with 4 in *. split; [|done].
  rewrite <- app_assoc in Hs. apply (seg_cstr b) in Hs; [|apply Hk]. pose proof (li_name _ _ _ _ Hl) as Hn. unfold name_at in Hn. rewrite Z.add_assoc, Hn in Hs. injection Hs as ->. lia.
Qed.

Lemma rdn_zero m p n i : rdn m p (zlen (replicate n 0)) = Some (replicate n 0) -> (i < n)%nat -> rdn m (p + Z.of_nat i) 1 = Some [0].
Proof.
  intros E Hi. replace n with (i + (1 + (n - i - 1)))%nat in E by lia. rewrite !replicate_add in E. apply rdn_app in E as [_ E]. apply rdn_app in E as [E _].
  unfold zlen in E. rewrite !length_replicate in E. exact E.
Qed.

Section Nodes.
  Context (b : region) (Hr : rw_ready b) (t s : dt) (F : list frame) (Ht : holds b t) (Hs : sits s t F).
  Local Abbreviation tot := (hv b 4).
  Local Abbreviation st := (hv b 8).

Definition name_need (name : list Z) : Z := FDT_TAGALIGN (zlen name + 1).

Lemma set_name_ok name : text name -> zlen name < 2 ^ 30 ->
  exists rc b', fdt_set_name (d_off s) name b = Some (rc, b') /\ result b t s F (name_need name) (fun x y => erase y = rename name (erase x)) 0 rc b'.
Proof.
  intros [Hn Hnb] Hnl. destruct (node_lies b Hr t s F Ht Hs) as (o1 & es & Hl). pose proof (rw_bounds b Hr) as Hbd. pose proof (li_range _ _ _ _ Hl) as Hrg.
  pose proof (tagalign_bound (zlen name + 1) ltac:(pose proof (zlen_nonneg name); lia)). pose proof (zlen_nonneg (d_name s)). pose proof (tagalign_bound (zlen (d_name s) + 1) ltac:(lia)).
  destruct (name_end b Hr s o1 es Hl) as [Eo W0]. unfold fdt_set_name. rewrite (rw_probe b Hr). unfold mbind, M_bind. unfold rd.
  rewrite (get_name_tree b (rw_read _ Hr) _ _ _ (li_tag _ _ _ _ Hl) (li_token _ _ _ _ Hl) (li_name _ _ _ _ Hl)). cbn [mbind option_bind].
  rewrite (sw_small 32 (zlen name)), !(sw_small 32) by (unfold is_sw; lia). set (old := FDT_TAGALIGN (zlen (d_name s) + 1)) in *. set (new := FDT_TAGALIGN (zlen name + 1)) in *. rewrite <- Z.add_assoc.
  destruct (splice_struct_ok b Hr (d_off s + 4) old new) as [[Hlt ->]|(Hroom & b1 & -> & He)]; [lia|lia|lia|lia| |].
  { do 2 eexists. split; [done|]. apply (result_full b Hr); [done|by apply grown_refl|]. unfold name_need. fold new. lia. }
  cbn [negb Z.eqb]. replace (d_off s + 4 + old) with o1 in He by lia. set (d := new - old) in He.
  destruct (wr_wrote (st + (d_off s + 4)) (name ++ [0]) b1) as (b2 & E2 & Hw); [lia|rewrite zlen_nul, (ed_len _ _ _ _ _ _ He); unfold used in *; lia|]. rewrite E2. do 2 eexists. split; [done|].
  assert (d mod 4 = 0) as Hd. { unfold d, new, old. rewrite !tagalign_eq. Z.to_euclidean_division_equations. lia. }
  assert (edited b b2 (d_off s) o1 d 0) as He2.
  { eapply (edited_write b b1 Hr); [eapply edited_weaken; [exact He|lia]|lia|exact Hw|apply Forall_app; split; [done|by repeat constructor]|lia|rewrite zlen_nul; lia]. }
  assert (used b + d + 0 <= tot) as Hrm by lia. pose proof (edited_ready b b2 Hr _ _ _ _ He2 ltac:(lia) ltac:(lia) ltac:(lia) ltac:(lia) Hrm) as Hr2.
  pose proof (ed_hdr _ _ _ _ _ _ He2 8 eq_refl) as E8. destruct (begin_there b2 Hr2 (d_off s) name) as [Htk Hnm]; rewrite ?E8.
  - apply Hl.
  - lia.
  - rewrite (ed_size _ _ _ _ _ _ He2). lia.
  - done.
  - rewrite (wo_old _ _ _ _ Hw), (ed_low _ _ _ _ _ _ He) by lia. done.
  - pose proof (wo_new _ _ _ _ Hw) as N. rewrite zlen_nul in N. by rewrite <- Z.add_assoc.
  - fold new in Htk. replace (d_off s + 4 + new) with (o1 + d) in Htk by lia.
    assert (items b2 (o1 + d) (pshift d <$> d_props s) (shift d <$> d_kids s) (es + d)) as Hi.
    { apply (items_high b b2 (rw_stable b Hr) (rw_stable b2 Hr2) (edited_strings b b2 Hr _ _ _ _ He2 ltac:(lia) ltac:(lia) ltac:(lia) ltac:(lia) Hrm) o1 d Hd); try apply Hl; try lia.
      apply (edited_seg_high b b2 Hr _ _ _ _ He2); lia. }
    eapply (result_done b Hr t s F Ht Hs b2 (d_off s) o1 d 0 He2 Hd ltac:(lia) ltac:(lia) ltac:(lia) ltac:(lia) Hrm o1 es Hl) with (s' := DNode (d_off s) name (pshift d <$> d_props s) (shift d <$> d_kids s)).
    + unfold name_need. fold new. lia.
    + lia.
    + lia.
    + done.
    + by exists (o1 + d).
    + destruct s as [o nm ps ks]. cbn [erase d_name d_kids d_props rename]. change (fun p : pitem => (p_name p, p_val p)) with pv. by rewrite erase_shift_all, pv_shift.
Qed.

(** *** Adding *)

Lemma skip_props_reach o ps x : reach b o ps x -> forall tag n, token b x tag n -> tag <> FDT_PROP -> tag <> FDT_NOP -> at_tag o ->
  forall fuel, x - o < Z.of_nat fuel -> skip_props fuel b o = Some x.
Proof.
  induction 1 as [o|o o1 ps x Htk Hre IH|o o1 p ps x Htk _ _ Hre IH]; intros tag n Hx H1 H2 Hg fuel Hf.
  - destruct fuel as [|fuel]; [lia|]. cbn [skip_props]. destruct Hx as [-> _]. cbn [mbind option_bind]. destruct (Z.eqb_spec tag FDT_PROP); [done|]. by destruct (Z.eqb_spec tag FDT_NOP).
  - destruct (token_next b (rw_read _ Hr) _ _ _ (proj1 Hg) Htk ltac:(done)) as (_ & _ & Hlt & _). pose proof (token_at_tag b (rw_read _ Hr) _ _ _ Hg Htk ltac:(done)) as Hg1.
    pose proof (reach_at_tag b (rw_stable b Hr) _ _ _ Hre Hg1) as [_ ?]. destruct fuel as [|fuel]; [lia|]. cbn [skip_props]. destruct Htk as [-> _]. cbn [mbind option_bind]. eapply IH; (done || lia).
  - destruct (token_next b (rw_read _ Hr) _ _ _ (proj1 Hg) Htk ltac:(done)) as (_ & _ & Hlt & _). pose proof (token_at_tag b (rw_read _ Hr) _ _ _ Hg Htk ltac:(done)) as Hg1.
    pose proof (reach_at_tag b (rw_stable b Hr) _ _ _ Hre Hg1) as [_ ?]. destruct fuel as [|fuel]; [lia|]. cbn [skip_props]. destruct Htk as [-> _]. cbn [mbind option_bind]. eapply IH; (done || lia).
Qed.

(** The room for an empty node. *)
Definition node_need (name : list Z) : Z := 4 + FDT_TAGALIGN (zlen name + 1) + 4.

(** The four writes of [fdt_add_subnode_namelen] make an empty node at [x]. *)
Lemma new_node name o1 es x ps : text name -> zlen name < 2 ^ 30 -> lies b s o1 es -> reach b o1 ps x -> ps = d_props s -> items b x [] (d_kids s) es -> at_tag x ->
  let need := node_need name in let nh := st + x in
  (tot < used b + need /\ fdt_splice_struct_ nh 0 (s32 need) b = Some (- FDT_ERR_NOSPACE, b)) \/
  exists b1 b2 b3 b4 b5, fdt_splice_struct_ nh 0 (s32 need) b = Some (0, b1) /\ wr nh (to_be 4 FDT_BEGIN_NODE) b1 = Some (tt, b2) /\
    wr (nh + 4) (replicate (Z.to_nat (FDT_TAGALIGN (zlen name + 1))) 0) b2 = Some (tt, b3) /\ wr (nh + 4) name b3 = Some (tt, b4) /\
    wr (nh + s32 need - FDT_TAGSIZE) (to_be 4 FDT_END_NODE) b4 = Some (tt, b5) /\
    result b t s F need (fun y z => erase z = add_kid (SNode name [] []) (erase y) /\ exists k ks, d_kids z = k :: ks /\ d_off k = x) x x b5.
Proof.
  intros [Hn Hnb] Hnl Hl Hre Eps Hi Hgx need nh. pose proof (rw_bounds b Hr) as Hbd. pose proof (li_range _ _ _ _ Hl) as Hrg. pose proof (zlen_nonneg name).
  pose proof (tagalign_bound (zlen name + 1) ltac:(lia)) as Hal. destruct (reach_at_tag b (rw_stable b Hr) _ _ _ Hre (li_tag1 _ _ _ _ Hl)) as [_ Hox].
  destruct (items_at_tag b (rw_read _ Hr) _ _ _ _ Hi Hgx) as [_ Hxe]. unfold node_need in need. set (al := FDT_TAGALIGN (zlen name + 1)) in *.
  rewrite (sw_small 32 need) by (unfold is_sw; lia). unfold FDT_TAGSIZE.
  destruct (splice_struct_ok b Hr x 0 need) as [[Hlt E]|(Hroom & b1 & E & He)]; [lia|lia|lia|lia|left; split; [lia|done]|]. right. exists b1.
  rewrite Z.min_l, !Z.add_0_r, Z.sub_0_r in He by lia. pose proof (ed_len _ _ _ _ _ _ He) as L1. assert (used b + need + 0 <= tot) as Hrm by lia. assert (used b <= tot) by (unfold used; lia).
  assert (zlen (replicate (Z.to_nat al) 0) = al) as Lz by (unfold zlen; rewrite length_replicate; lia).
  destruct (wr_wrote nh (to_be 4 FDT_BEGIN_NODE) b1) as (b2 & E2 & Hw2); [lia|rewrite zlen_to_be; unfold used in *; lia|]. pose proof (wo_len _ _ _ _ Hw2) as L2.
  destruct (wr_wrote (nh + 4) (replicate (Z.to_nat al) 0) b2) as (b3 & E3 & Hw3); [lia|rewrite Lz; unfold used in *; lia|]. pose proof (wo_len _ _ _ _ Hw3) as L3.
  destruct (wr_wrote (nh + 4) name b3) as (b4 & E4 & Hw4); [lia|unfold used in *; lia|]. pose proof (wo_len _ _ _ _ Hw4) as L4.
  destruct (wr_wrote (nh + need - 4) (to_be 4 FDT_END_NODE) b4) as (b5 & E5 & Hw5); [lia|rewrite zlen_to_be; unfold used in *; lia|].
  exists b2, b3, b4, b5. split_and!; try done.
  assert (edited b b5 x x need 0) as He5.
  { eapply (edited_write b b4 Hr); [|lia|exact Hw5|apply to_be_bytes|lia|rewrite zlen_to_be; lia]. eapply (edited_write b b3 Hr); [|lia|exact Hw4|done|lia|lia].
    eapply (edited_write b b2 Hr); [|lia|exact Hw3|by apply Forall_replicate|lia|lia]. eapply (edited_write b b1 Hr); [exact He|lia|exact Hw2|apply to_be_bytes|lia|rewrite zlen_to_be; lia]. }
  pose proof (edited_ready b b5 Hr _ _ _ _ He5 ltac:(lia) ltac:(lia) ltac:(lia) ltac:(lia) Hrm) as Hr5. pose proof (ed_hdr _ _ _ _ _ _ He5 8 eq_refl) as E8. pose proof (ed_size _ _ _ _ _ _ He5) as E36.
  assert (need mod 4 = 0) as Hd. { unfold need, al. rewrite !tagalign_eq. Z.to_euclidean_division_equations. lia. }
  assert (at_tag (x + 4 + al)) as Hge. { split; [unfold is_sw, used in *; lia|]. unfold al. rewrite tagalign_eq. destruct Hgx as [_ Hm]. clear -Hm. Z.to_euclidean_division_equations. lia. }
  pose proof (wo_new _ _ _ _ Hw2) as N2. pose proof (wo_new _ _ _ _ Hw3) as N3. pose proof (wo_new _ _ _ _ Hw4) as N4. pose proof (wo_new _ _ _ _ Hw5) as N5. rewrite !zlen_to_be in *. change (Z.of_nat 4) with 4 in *.
  destruct (begin_there b5 Hr5 x name) as [Htk Hnm]; rewrite ?E8, ?E36; fold al; [done|lia|unfold used in *; lia|done| | |].
  { rewrite (wo_old _ _ _ _ Hw5), (wo_old _ _ _ _ Hw4), (wo_old _ _ _ _ Hw3) by lia. done. }
  { rewrite <- zlen_nul. apply rdn_app. change (zlen [0]) with 1. rewrite !(wo_old _ _ _ _ Hw5) by (rewrite ?zlen_to_be; lia). split; [done|].
    rewrite (wo_old _ _ _ _ Hw4) by lia. unfold zlen at 1. eapply rdn_zero; [exact N3|unfold zlen in *; lia]. }
  assert (token b5 (x + 4 + al) FDT_END_NODE (x + need)) as Hend.
  { replace (x + need) with (x + 4 + al + 4) by lia. apply (end_there b5 Hr5); rewrite ?E8, ?E36; [done|lia|unfold used in *; lia|]. by replace (hv b 8 + (x + 4 + al)) with (nh + need - 4) by lia. }
  destruct (edited_front b Hr s b5 x x need 0 He5 ltac:(lia) ltac:(lia) ltac:(lia) ltac:(lia) Hrm o1 es Hl ps Hre) as (_ & T1 & T2 & T3).
  eapply (result_done b Hr t s F Ht Hs b5 x x need 0 He5 Hd ltac:(lia) ltac:(lia) ltac:(lia) ltac:(lia) Hrm o1 es Hl) with (s' := DNode (d_off s) (d_name s) ps (DNode x name [] [] :: (shift need <$> d_kids s))); [lia|lia|lia|done| |].
  - exists o1. cbn. split_and!; [done|done|]. rewrite <- (app_nil_r ps). eapply reach_items; [done|]. eapply it_kid; [exact Htk|done|by constructor|].
    apply (items_high b b5 (rw_stable b Hr) (rw_stable b5 Hr5) (edited_strings b b5 Hr _ _ _ _ He5 ltac:(lia) ltac:(lia) ltac:(lia) ltac:(lia) Hrm) x need Hd) with (ps := []); [|done|done|lia|lia].
    apply (edited_seg_high b b5 Hr _ _ _ _ He5); lia.
  - split; [|by do 2 eexists]. subst ps. destruct s as [o nm ps' ks]. cbn [erase d_name d_kids d_props add_kid]. rewrite fmap_cons, erase_shift_all. done.
Qed.

(** [fdt_add_subnode]: an empty node in front of the other sub-nodes, unless one of
    them already answers to the name. *)
Lemma add_subnode_ok name : text name -> zlen name < 2 ^ 30 -> exists rc b', fdt_add_subnode (d_off s) name b = Some (rc, b') /\
  match find_kid name (d_kids s) with
  | Some _ => rc = - FDT_ERR_EXISTS /\ b' = b
  | None => exists x, 0 <= x /\ result b t s F (node_need name) (fun y z => erase z = add_kid (SNode name [] []) (erase y) /\ exists k ks, d_kids z = k :: ks /\ d_off k = x) x rc b'
  end.
Proof.
  intros Hn Hnl. destruct (node_lies b Hr t s F Ht Hs) as (o1 & es & Hl). pose proof (rw_bounds b Hr) as Hbd. pose proof (li_range _ _ _ _ Hl) as Hrg. pose proof (rw_read _ Hr) as Hrd.
  unfold fdt_add_subnode, fdt_add_subnode_namelen. rewrite (rw_probe b Hr). unfold mbind, M_bind. unfold rd at 1. rewrite (subnode_offset_tree b Hrd name s es (li_tag _ _ _ _ Hl) (li_node _ _ _ _ Hl)). cbn [mbind option_bind].
  unfold kid_result. destruct (find_kid name (d_kids s)) as [k|] eqn:Ek.
  { apply find_kid_in in Ek. destruct (items_kids b Hrd _ _ _ _ (li_items _ _ _ _ Hl) (li_tag1 _ _ _ _ Hl) k Ek) as (e & _ & _ & _ & Hk0 & _). destruct (Z.leb_spec 0 (d_off k)); [|lia]. by do 2 eexists. }
  change (0 <=? - FDT_ERR_NOTFOUND) with false. rewrite Z.eqb_refl. cbn [negb]. unfold rd at 1. destruct (li_token _ _ _ _ Hl) as [-> _]. cbn [mbind option_bind]. rewrite Z.eqb_refl. cbn [negb].
  destruct (items_to_kids b _ _ _ _ (li_items _ _ _ _ Hl)) as (x & Hre & Hi & tag & n & Hx & Hx1 & Hx2). destruct (reach_at_tag b (rw_stable b Hr) _ _ _ Hre (li_tag1 _ _ _ _ Hl)) as [Hgx Hox].
  destruct (items_at_tag b Hrd _ _ _ _ Hi Hgx) as [_ Hxe]. unfold rd at 1. rewrite (skip_props_reach _ _ _ Hre tag n Hx Hx1 Hx2 (li_tag1 _ _ _ _ Hl)) by (unfold blob_fuel, zlen in *; lia). cbn [mbind option_bind].
  rewrite (rd_offset_ptr b x Hr). destruct (new_node name o1 es x (d_props s) Hn Hnl Hl Hre eq_refl Hi Hgx) as [[Hlt E]|(b1 & b2 & b3 & b4 & b5 & E & E2 & E3 & E4 & E5 & Hres)]; unfold node_need in E; unfold FDT_TAGSIZE in *; rewrite E.
  - do 2 eexists. split; [done|]. exists x. split; [lia|]. apply (result_full b Hr); [done|by apply grown_refl|done].
  - cbn [negb Z.eqb]. rewrite E2, E3, E4. unfold node_need in E5. rewrite E5. do 2 eexists. split; [done|]. exists x. split; [lia|done].
Qed.
End Nodes.

(** ** Removing a node *)

(** [fdt_node_end_offset_] walks over everything below a node. *)
Section NodeEnd.
  Context (b : region) (Hrd : readable b).

Lemma node_end_mono f f' : forall o d r, node_end_loop b f o d = Some r -> (f <= f')%nat -> node_end_loop b f' o d = Some r.
Proof.
  revert f'. induction f as [|f IH]; intros f' o d r H Hf; [done|]. destruct f' as [|f']; [lia|]. cbn [node_end_loop] in *. destruct (_ && _); [|done].
  destruct (fdt_next_node b o (Some d)) as [[o1 d1]|]; [|done]. cbn [mbind option_bind] in *. apply IH; [done|lia].
Qed.

(** From inside a node at depth [d], with [n] rounds of the loop to go. *)
Definition ne_from (n : nat) (o d res : Z) : Prop := exists o1 d1, nn b o d (o1, Some d1) /\ node_end_loop b n o1 d1 = Some res.
Definition ne_after (n : nat) (e d res : Z) : Prop := if d =? 0 then res = e /\ (0 < n)%nat else ne_from n e (d - 1) res.

Lemma ne_skip o tag o1 n d res : token b o tag o1 -> tag = FDT_NOP \/ tag = FDT_PROP -> ne_from n o1 d res -> ne_from n o d res.
Proof. intros Ht Hg (o2 & d2 & Hn & H). exists o2, d2. split; [by eapply nn_skip|done]. Qed.

Lemma ne_mono n n' o d res : (n <= n')%nat -> ne_from n o d res -> ne_from n' o d res.
Proof. intros Hn (o1 & d1 & H1 & H2). exists o1, d1. split; [done|]. by eapply node_end_mono. Qed.

Lemma ne_items o ps ks e : items b o ps ks e -> at_tag o -> forall n d res, 0 <= d -> d + (e - o) < 2 ^ 31 - 1 -> ne_after n e d res ->
  ne_from (n + Z.to_nat (e - o)) o d res.
Proof.
  induction 1 as [o e Ht|o o1 ps ks e Ht Hi IH|o o1 p ps ks e Ht _ _ Hi IH|o o1 o2 nm ps ks ps' ks' e Ht _ Hi1 IH1 Hi2 IH2];
    intros Hg n d res Hd Hb Ha; pose proof (token_at_tag b Hrd _ _ _ Hg Ht ltac:(done)) as Hg1; destruct (token_next b Hrd _ _ _ (proj1 Hg) Ht ltac:(done)) as (_ & H0 & Hlt & _).
  - unfold ne_after in Ha. destruct (Z.eqb_spec d 0) as [->|Hd0].
    + destruct Ha as [-> Hn]. exists e, (-1). split; [by apply nn_out|]. destruct n as [|n]; [lia|]. cbn [node_end_loop Nat.add]. change (0 <=? -1) with false. by rewrite andb_false_r.
    + eapply ne_mono; [|destruct Ha as (o1 & d1 & H1 & H2); exists o1, d1; split; [eapply nn_up; [done|lia|done]|done]]. lia.
  - eapply ne_skip; [done|by left|]. eapply ne_mono; [|apply IH; [done|done|lia|done]]. lia.
  - eapply ne_skip; [done|by right|]. eapply ne_mono; [|apply IH; [done|done|lia|done]]. lia.
  - destruct (items_at_tag b Hrd _ _ _ _ Hi1 Hg1) as [Hg2 Hlt2]. destruct (items_at_tag b Hrd _ _ _ _ Hi2 Hg2) as [_ Hlt3].
    exists o, (d + 1). split; [replace (d + 1) with (s32 (d + 1)) by (apply sw_small; unfold is_sw; lia); by eapply nn_begin|].
    assert (ne_from (n + Z.to_nat (e - o2) + Z.to_nat (o2 - o1)) o1 (d + 1) res) as (o3 & d3 & H1 & H2).
    { apply IH1; [done|lia|lia|]. unfold ne_after. destruct (Z.eqb_spec (d + 1) 0); [lia|]. replace (d + 1 - 1) with d by lia. apply IH2; (done || lia). }
    apply (node_end_mono (S (n + Z.to_nat (e - o2) + Z.to_nat (o2 - o1)))); [|lia]. cbn [node_end_loop]. destruct (Z.leb_spec 0 o); [|lia]. destruct (Z.leb_spec 0 (d + 1)); [|lia]. cbn [andb].
    pose proof (next_node_at b Hrd (DNode o [] [] []) o1 (d + 1) _ Hg Ht H1) as En. cbn [d_off] in En. rewrite En. exact H2.
Qed.

Lemma node_end_tree k e : at_tag (d_off k) -> node_at b k e -> e <= zlen (r_bytes b) -> fdt_node_end_offset_ b (d_off k) = Some e.
Proof.
  intros Hg Hn He. destruct (node_range b Hrd k e Hg Hn) as (o1 & Ht & Hi & Hg1 & _ & H0 & ? & ? & ?).
  assert (ne_from (1 + Z.to_nat (e - o1)) o1 0 e) as (o2 & d2 & N1 & N2) by (apply (ne_items _ _ _ _ Hi Hg1); (lia || (split; [done|lia]))).
  unfold fdt_node_end_offset_. apply (node_end_mono (S (1 + Z.to_nat (e - o1)))); [|unfold blob_fuel, zlen in *; lia]. cbn [node_end_loop]. destruct (Z.leb_spec 0 (d_off k)); [|lia]. cbn [andb Z.leb Z.compare].
  rewrite (next_node_at b Hrd k o1 0 _ Hg Ht N1). exact N2.
Qed.
End NodeEnd.

(** A sub-node cut out. Properties the blob has behind it, which are not part of
    the tree, become part of it when it was the first. *)
Lemma items_cut b b' (Hb : stable b) (Hb' : stable b') (Hstr : strings_le b b') p q d (Hd : d mod 4 = 0)
  (Hlow : forall x l, x + zlen l <= p -> seg b x l -> seg b' x l) (Hhigh : forall x l, q <= x -> seg b x l -> seg b' (x + d) l)
  o ps k1 k k2 e : items b o ps (k1 ++ k :: k2) e -> at_tag o -> 0 <= o -> d_off k = p -> node_at b k q -> q + d = p ->
  exists extra, items b' o (ps ++ extra) (k1 ++ (shift d <$> k2)) (e + d) /\ (k1 <> [] -> extra = []).
Proof.
  intros Hi. remember (k1 ++ k :: k2) as ks eqn:E. intros Hg H0 Ep Hk Hq. revert k1 E Hg H0. pose proof (sb_read _ Hb) as R.
  induction Hi as [o e Ht|o o1 ps ks e Ht Hi IH|o o1 r ps ks e Ht Hpo Hpr Hi IH|o o1 o2 n ps ks ps' ks' e Ht Hn Hi1 _ Hi2 IH]; intros k1 E Hg H0; [by destruct k1|..];
    pose proof (token_at_tag b R _ _ _ Hg Ht ltac:(done)) as Hg1; destruct (token_next b R _ _ _ (proj1 Hg) Ht ltac:(done)) as (_ & _ & Hlt & _).
  - subst ks. destruct (items_kids b R _ _ _ _ Hi Hg1 k) as (e1 & _ & _ & Hle & _); [rewrite elem_of_app, elem_of_cons; auto|].
    pose proof (items_end_in b Hb _ _ _ _ Hi Hg1). destruct (items_at_tag b R _ _ _ _ Hi Hg1) as [_ ?]. destruct (IH k1 eq_refl Hg1 ltac:(lia)) as (ex & Hi' & Hex).
    exists ex. split; [|done]. eapply it_nop; [|exact Hi']. apply (token_low b b' Hb Hb' p Hlow o _ o1); (done || lia).
  - subst ks o. destruct (items_kids b R _ _ _ _ Hi Hg1 k) as (e1 & _ & _ & Hle & _); [rewrite elem_of_app, elem_of_cons; auto|].
    pose proof (items_end_in b Hb _ _ _ _ Hi Hg1). destruct (items_at_tag b R _ _ _ _ Hi Hg1) as [_ ?]. destruct (IH k1 eq_refl Hg1 ltac:(lia)) as (ex & Hi' & Hex).
    exists ex. split; [|done]. destruct (prop_low b b' Hb Hb' Hstr p Hlow r o1 Hg Ht Hpr) as [Ht' Hp']; [lia|lia|]. cbn [app]. by eapply it_prop.
  - destruct (items_at_tag b R _ _ _ _ Hi1 Hg1) as [Hg2 Hlt2]. destruct k1 as [|x k1]; cbn [app] in E; injection E as E1 E2; subst.
    + assert (o2 = q) as -> by (eapply (node_end_fun b); [|done]; by exists o1). exists (pshift d <$> ps'). split; [|done]. cbn [app d_off] in *. rewrite <- Hq at 1.
      apply (items_high b b' Hb Hb' Hstr q d Hd Hhigh); (done || lia).
    + destruct (items_kids b R _ _ _ _ Hi2 Hg2 k) as (e1 & _ & _ & Hle & _); [rewrite elem_of_app, elem_of_cons; auto|]. destruct (IH k1 eq_refl Hg2 ltac:(lia)) as (ex & Hi' & Hex).
      pose proof (items_end_in b Hb _ _ _ _ Hi1 Hg1). destruct (begin_low b b' Hb Hb' _ Hlow o o1 n Hg Ht Hn) as [Ht' Hn']; [lia|lia|].
      exists []. split; [|done]. cbn [app]. eapply (it_kid b' o o1 o2); [done|done| |exact Hi']. apply (items_low b b' Hb Hb' Hstr _ Hlow); (done || lia).
Qed.

(** The sub-nodes around a removed one. *)
Definition without_kid (k1 k2 : list stree) (extra : list (list Z * list Z)) (t : stree) : stree := let 'SNode n ps _ := t in SNode n (ps ++ extra) (k1 ++ k2).

Lemma del_node_ok b (Hr : rw_ready b) t s F (Ht : holds b t) (Hs : sits s t F) k1 k k2 : d_kids s = k1 ++ k :: k2 ->
  exists b', fdt_del_node (d_off k) b = Some (0, b') /\
    result b t s F 0 (fun x y => exists extra, erase y = without_kid (erase <$> k1) (erase <$> k2) extra (erase x) /\ (k1 <> [] -> extra = [])) 0 0 b'.
Proof.
  intros Ek. destruct (node_lies b Hr t s F Ht Hs) as (o1 & es & Hl). pose proof (rw_bounds b Hr) as Hbd. pose proof (li_range _ _ _ _ Hl) as Hrg. pose proof (rw_read _ Hr) as Hrd. pose proof (rw_stable b Hr) as S1.
  destruct (items_kids b Hrd _ _ _ _ (li_items _ _ _ _ Hl) (li_tag1 _ _ _ _ Hl) k) as (ek & Hk & Hgk & Hle & Hk0 & Hke & Hee); [rewrite Ek, elem_of_app, elem_of_cons; auto|].
  destruct (node_range b Hrd k ek Hgk Hk) as (_ & _ & _ & _ & Hge & _).
  unfold fdt_del_node. rewrite (rw_probe b Hr). unfold mbind, M_bind. unfold rd at 1. rewrite (node_end_tree b Hrd k ek Hgk Hk) by lia. cbn [mbind option_bind]. destruct (Z.ltb_spec ek 0); [lia|].
  rewrite (rd_offset_ptr b (d_off k) Hr), (sw_small 32) by (unfold is_sw; lia).
  destruct (splice_struct_ok b Hr (d_off k) (ek - d_off k) 0) as [[Hlt _]|(Hroom & b' & -> & He)]; [lia|lia|lia|lia|unfold used in Hlt; lia|]. exists b'. split; [done|].
  rewrite Z.min_r, Z.add_0_r in He by lia. replace (d_off k + (ek - d_off k)) with ek in He by lia. set (d := 0 - _) in He.
  assert (d mod 4 = 0) as Hd. { unfold d. destruct Hgk as [_ Hm1]. destruct Hge as [_ Hm2]. clear -Hm1 Hm2. Z.to_euclidean_division_equations. lia. }
  assert (used b + d + 0 <= hv b 4) as Hrm by lia. pose proof (edited_ready b b' Hr _ _ _ _ He ltac:(lia) ltac:(lia) ltac:(lia) ltac:(lia) Hrm) as Hr'.
  pose proof (edited_seg_low b b' Hr _ _ _ _ He ltac:(lia) ltac:(lia)) as Hlow. pose proof (edited_seg_high b b' Hr _ _ _ _ He ltac:(lia) ltac:(lia)) as Hhigh.
  pose proof (edited_strings b b' Hr _ _ _ _ He ltac:(lia) ltac:(lia) ltac:(lia) ltac:(lia) Hrm) as Hstr. pose proof (rw_stable b' Hr') as S2.
  pose proof (li_items _ _ _ _ Hl) as Hi. rewrite Ek in Hi.
  destruct (items_cut b b' S1 S2 Hstr (d_off k) ek d Hd Hlow Hhigh o1 _ k1 k k2 es Hi (li_tag1 _ _ _ _ Hl) ltac:(lia) eq_refl Hk ltac:(lia)) as (extra & Hi' & Hex).
  destruct (begin_low b b' S1 S2 _ Hlow _ o1 _ (li_tag _ _ _ _ Hl) (li_token _ _ _ _ Hl) (li_name _ _ _ _ Hl)) as [T1 T2]; [lia|lia|].
  eapply (result_done b Hr t s F Ht Hs b' (d_off k) ek d 0 He Hd ltac:(lia) ltac:(lia) ltac:(lia) ltac:(lia) Hrm o1 es Hl) with (s' := DNode (d_off s) (d_name s) (d_props s ++ extra) (k1 ++ (shift d <$> k2))); [lia|lia|lia|done|by exists o1|].
  exists (pv <$> extra). split; [|intros Hne; by rewrite (Hex Hne)]. destruct s as [o nm ps ks]. cbn [erase d_name d_props without_kid].
  change (fun p : pitem => (p_name p, p_val p)) with pv. by rewrite !fmap_app, erase_shift_all.
Qed.
