(* ===== verification/FdtScript.v ===== *)
(** Programs that change a device tree: sequences of calls that look a node up by
    its path and change it, and what they do to the tree. *)
From S2P Require Import Prelude KDefs Bytes Fdt FdtRo FdtSafe FdtRoSafe FdtProps FdtHelper FdtCheck FdtTree FdtPath FdtSw FdtSwProps FdtSeg FdtMove FdtEdit FdtSwTree FdtRw FdtSplice FdtRwProps FdtRwNodes.

(** ** Changes of a node *)
Inductive edit :=
  | ESet (name val : list Z)
  | EAppend (name val : list Z)
  | EDelProp (name : list Z)
  | EAdd (name : list Z)
  | ERename (name : list Z).

(** The call for each; a new node's offset counts as success. *)
Definition call (off : Z) (e : edit) : M region Z :=
  match e with
  | ESet name val => fdt_setprop off name val
  | EAppend name val => fdt_appendprop off name val
  | EDelProp name => fdt_delprop off name
  | EAdd name => rc ← fdt_add_subnode off name; mret (Z.min rc 0)
  | ERename name => fdt_set_name off name
  end.

Definition call_at (path : list Z) (e : edit) : M region Z :=
  off ← rd (fun b => fdt_path_offset b 1 path); if off <? 0 then mret off else call off e.

Fixpoint calls (es : list (list Z * edit)) : M region Z :=
  match es with [] => mret 0 | (path, e) :: es => and_then (call_at path e) (calls es) end.

(** The same on trees, or an error code. *)
Definition s_name (t : stree) : list Z := let 'SNode n _ _ := t in n.

Definition change (e : edit) (t : stree) : stree + Z :=
  let 'SNode _ ps ks := t in
  match e with
  | ESet name val => inl (set_prop name val t)
  | EAppend name val => inl (append_prop name val t)
  | EDelProp name => if has_prop name ps then inl (del_prop name t) else inr (- FDT_ERR_NOTFOUND)
  | EAdd name => if existsb (fun k => name_matches (s_name k) name) ks then inr (- FDT_ERR_EXISTS) else inl (add_kid (SNode name [] []) t)
  | ERename name => inl (rename name t)
  end.

(** The change of the first sub-node a name stands for. *)
Fixpoint change_kid (name : list Z) (f : stree -> stree + Z) (ks : list stree) : list stree + Z :=
  match ks with
  | [] => inr (- FDT_ERR_NOTFOUND)
  | k :: ks =>
      if name_matches (s_name k) name then match f k with inl k' => inl (k' :: ks) | inr err => inr err end
      else match change_kid name f ks with inl ks' => inl (k :: ks') | inr err => inr err end
  end.

Fixpoint change_path (path : list (list Z)) (f : stree -> stree + Z) (t : stree) : stree + Z :=
  match path with
  | [] => f t
  | name :: path =>
      let 'SNode n ps ks := t in
      match change_kid name (change_path path f) ks with inl ks' => inl (SNode n ps ks') | inr err => inr err end
  end.

Definition change_at (path : list Z) (e : edit) : stree -> stree + Z := change_path (split_path [] path) (change e).

Fixpoint changes (es : list (list Z * edit)) (t : stree) : stree + Z :=
  match es with
  | [] => inl t
  | (path, e) :: es => match change_at path e t with inl t' => changes es t' | inr err => inr err end
  end.

(** Arguments the calls are made for, and the room a call takes at most. *)
Definition edit_fine (e : edit) : Prop :=
  match e with
  | ESet name val | EAppend name val => text name /\ zlen name < 2 ^ 30 /\ Forall is_byte val /\ zlen val < 2 ^ 30
  | EDelProp name => True
  | EAdd name | ERename name => text name /\ zlen name < 2 ^ 30
  end.
Definition edit_need (e : edit) : Z :=
  match e with
  | ESet name val | EAppend name val => prop_need (name, val)
  | EDelProp _ => 0
  | EAdd name => node_need name
  | ERename name => name_need name
  end.

(** ** Paths and contexts *)

Lemma s_name_erase k : s_name (erase k) = d_name k.
Proof. by destruct k. Qed.

Lemma find_kid_change name ks : match find_kid name ks with
  | Some k => exists k1 k2, ks = k1 ++ k :: k2 /\ forall f,
      change_kid name f (erase <$> ks) = match f (erase k) with inl u => inl ((erase <$> k1) ++ u :: (erase <$> k2)) | inr err => inr err end
  | None => forall f, change_kid name f (erase <$> ks) = inr (- FDT_ERR_NOTFOUND)
  end.
Proof.
  induction ks as [|k ks IH]; [done|]. unfold find_kid in *. cbn [List.find]. rewrite fmap_cons. cbn [change_kid]. rewrite s_name_erase.
  destruct (name_matches (d_name k) name); [by exists [], ks|]. destruct (List.find _ ks) as [k'|].
  - destruct IH as (k1 & k2 & -> & E). exists (k :: k1), k2. split; [done|]. intros f. rewrite E. by destruct (f (erase k')).
  - intros f. by rewrite IH.
Qed.

Lemma find_kid_exists name (ks : list dt) : existsb (fun k => name_matches (s_name k) name) (erase <$> ks) = match find_kid name ks with Some _ => true | None => false end.
Proof.
  induction ks as [|k ks IH]; [done|]. unfold find_kid in *. rewrite fmap_cons. cbn [existsb List.find]. rewrite s_name_erase. by destruct (name_matches (d_name k) name).
Qed.

Lemma change_erase e s : change e (erase s) =
  match e with
  | ESet name val => inl (set_prop name val (erase s))
  | EAppend name val => inl (append_prop name val (erase s))
  | EDelProp name => if has_prop name (pv <$> d_props s) then inl (del_prop name (erase s)) else inr (- FDT_ERR_NOTFOUND)
  | EAdd name => match find_kid name (d_kids s) with Some _ => inr (- FDT_ERR_EXISTS) | None => inl (add_kid (SNode name [] []) (erase s)) end
  | ERename name => inl (rename name (erase s))
  end.
Proof. destruct s as [o n ps ks], e as [| | |name|]; try done. cbn [change erase d_kids]. rewrite find_kid_exists. by destruct (find_kid name ks). Qed.

Lemma find_path_change path f : forall t, match find_path t path with
  | Some s => exists F, sits s t F /\ change_path path f (erase t) = match f (erase s) with inl u => inl (plug F u) | inr err => inr err end
  | None => change_path path f (erase t) = inr (- FDT_ERR_NOTFOUND)
  end.
Proof.
  induction path as [|name path IH]; intros t; cbn [find_path change_path].
  - exists []. split; [constructor|]. by destruct (f (erase t)).
  - destruct t as [o n ps ks]. cbn [d_kids erase]. pose proof (find_kid_change name ks) as Hk. destruct (find_kid name ks) as [k|]; cbn [mbind option_bind]; [|by rewrite Hk].
    destruct Hk as (k1 & k2 & -> & Hk). rewrite Hk. specialize (IH k). destruct (find_path k path) as [s|]; [|by rewrite IH].
    destruct IH as (F & Hs & ->). eexists. split; [by constructor|]. destruct (f (erase s)); [|done]. unfold plug. by rewrite fold_left_app.
Qed.

(** ** One call *)
Section Call.
  Context (b : region) (Hr : rw_ready b) (t : dt) (Ht : holds b t).

(** The outcome of a call on the tree: it is done, refused, or does not fit. *)
Definition outcome (need : Z) (res : stree + Z) (rc : Z) (b' : region) : Prop :=
  rw_ready b' /\ hv b' 4 = hv b 4 /\ exists t', holds b' t' /\
  match res with
  | inl u => (rc = 0 /\ erase t' = u /\ used b' <= used b + need) \/ (rc = - FDT_ERR_NOSPACE /\ erase t' = erase t /\ hv b 4 < used b + need)
  | inr err => rc = err /\ erase t' = erase t
  end.

Lemma result_outcome s F need f ok rc b' g u : result b t s F need f ok rc b' -> g ok = 0 -> g (- FDT_ERR_NOSPACE) = - FDT_ERR_NOSPACE ->
  (forall s', f s s' -> erase s' = u) -> outcome need (inl (plug F u)) (g rc) b'.
Proof.
  intros [R1 R2 _ R4] H0 H3 Hf. split; [done|]. split; [by apply R2|]. destruct R4 as [(-> & Hu & t' & s' & Ht' & Hs' & _ & Hs2)|(-> & Hlt & _ & Ht')].
  - exists t'. split; [done|]. left. split; [done|]. split; [|done]. by rewrite (erase_plug _ _ _ Hs'), (Hf _ Hs2).
  - exists t. split; [done|]. by right.
Qed.

Lemma call_ok s F e : sits s t F -> edit_fine e -> used b + edit_need e < 2 ^ 31 - 4 -> exists rc b', call (d_off s) e b = Some (rc, b') /\
  outcome (edit_need e) (match change e (erase s) with inl u => inl (plug F u) | inr err => inr err end) rc b'.
Proof.
  intros Hs Hf Hint. assert (forall err, outcome (edit_need e) (inr err) err b) as Hsame by (intros err; split; [done|split; [done|by exists t]]).
  rewrite change_erase. destruct e as [name val|name val|name|name|name]; cbn [call edit_fine edit_need] in *.
  - destruct Hf as (H1 & H2 & H3 & H4). destruct (setprop_ok b Hr t s F Ht Hs name val H1 H2 H3 H4) as (rc & b' & E & Hres). exists rc, b'. split; [done|].
    by eapply (result_outcome s F _ _ _ _ _ id).
  - destruct Hf as (H1 & H2 & H3 & H4). destruct (appendprop_ok b Hr t s F Ht Hs name val H1 H2 H3 H4) as (rc & b' & E & Hres).
    { unfold prop_need in Hint. cbn [fst snd] in Hint. pose proof (zlen_nonneg name). pose proof (tagalign_bound _ (zlen_nonneg val)). lia. }
    exists rc, b'. split; [done|]. by eapply (result_outcome s F _ _ _ _ _ id).
  - destruct (delprop_ok b Hr t s F Ht Hs name) as (rc & b' & E & Hres). exists rc, b'. split; [done|]. destruct (has_prop name (pv <$> d_props s)).
    + destruct Hres as [_ Hres]. by eapply (result_outcome s F _ _ _ _ _ id).
    + by destruct Hres as [-> ->].
  - destruct Hf as (H1 & H2). destruct (add_subnode_ok b Hr t s F Ht Hs name H1 H2) as (rc & b' & E & Hres). unfold mbind, M_bind. rewrite E. do 2 eexists. split; [done|].
    destruct (find_kid name (d_kids s)); [by destruct Hres as [-> ->]|].
    destruct Hres as (x & Hx & Hres). eapply (result_outcome s F _ _ _ _ _ (fun rc => Z.min rc 0)); [exact Hres|lia|done|]. by intros s' [Hs' _].
  - destruct Hf as (H1 & H2). destruct (set_name_ok b Hr t s F Ht Hs name H1 H2) as (rc & b' & E & Hres). exists rc, b'. split; [done|]. by eapply (result_outcome s F _ _ _ _ _ id).
Qed.

Lemma call_at_ok path e : hd 0 path = 47 -> edit_fine e -> used b + edit_need e < 2 ^ 31 - 4 -> exists rc b', call_at path e b = Some (rc, b') /\
  outcome (edit_need e) (change_at path e (erase t)) rc b'.
Proof.
  intros Hp Hf Hint. unfold call_at, mbind, M_bind. unfold rd at 1. rewrite (path_offset_tree b (rw_read _ Hr) t path 0 Ht Hp). cbn [mbind option_bind]. unfold path_result, change_at.
  pose proof (find_path_change (split_path [] path) (change e) t) as Hc. destruct (find_path t (split_path [] path)) as [s|].
  - destruct Hc as (F & Hs & ->). destruct (node_lies b Hr t s F Ht Hs) as (o1 & es & Hl). pose proof (li_range _ _ _ _ Hl). destruct (Z.ltb_spec (d_off s) 0); [lia|]. by apply call_ok.
  - rewrite Hc. do 2 eexists. split; [done|]. split; [done|]. split; [done|]. by exists t.
Qed.
End Call.

(** ** Programs *)
Definition call_fine (x : list Z * edit) : Prop := hd 0 x.1 = 47 /\ edit_fine x.2.
Definition calls_need : list (list Z * edit) -> Z := total_of (fun x => edit_need x.2).

Lemma edit_need_nonneg e : 0 <= edit_need e.
Proof.
  destruct e as [n v|n v| |n|n]; cbn [edit_need]; unfold prop_need, node_need, name_need; cbn [fst snd]; try pose proof (zlen_nonneg n); try pose proof (zlen_nonneg v);
    try pose proof (tagalign_bound (zlen v) ltac:(lia)); try pose proof (tagalign_bound (zlen n + 1) ltac:(lia)); lia.
Qed.

Lemma calls_need_nonneg es : 0 <= calls_need es.
Proof. induction es as [|[path e] es IH]; [done|]. unfold calls_need, total_of in *. cbn [foldr snd]. pose proof (edit_need_nonneg e). lia. Qed.

Lemma change_path_err path e : forall t err, change_path path (change e) t = inr err -> err < 0.
Proof.
  induction path as [|name path IH]; intros [n ps ks] err; cbn [change_path].
  - destruct e; cbn [change]; try done; case_match; try done; by intros [= <-].
  - destruct (change_kid name (change_path path (change e)) ks) eqn:E; [done|]. intros [= <-].
    induction ks as [|k ks IHk]; cbn [change_kid] in E; [by injection E as <-|]. destruct (name_matches (s_name k) name).
    + destruct (change_path path (change e) k) eqn:E1; [done|]. injection E as <-. by eapply IH.
    + destruct (change_kid name (change_path path (change e)) ks) eqn:E1; [done|]. injection E as <-. by apply IHk.
Qed.

(** What a program of calls does to a blob with the tree [t]. *)
Definition performed (b : region) (t : dt) (es : list (list Z * edit)) (rc : Z) (b' : region) : Prop :=
  exists t' don rest, es = don ++ rest /\ rw_ready b' /\ holds b' t' /\ changes don (erase t) = inl (erase t') /\
    match rest with
    | [] => rc = 0
    | (path, e) :: _ => (rc = - FDT_ERR_NOSPACE /\ hv b 4 < used b + calls_need es) \/ change_at path e (erase t') = inr rc
    end.

Lemma calls_ok es : forall b t, rw_ready b -> holds b t -> Forall call_fine es -> used b + calls_need es < 2 ^ 31 - 4 ->
  exists rc b', calls es b = Some (rc, b') /\ performed b t es rc b'.
Proof.
  induction es as [|[path e] es IH]; intros b t Hr Ht Hes Hint.
  { do 2 eexists. split; [done|]. by exists t, [], []. }
  apply Forall_cons in Hes as [[Hp Hf] Hes]. cbn [fst snd] in *. unfold calls_need, total_of in Hint. cbn [foldr snd] in Hint. fold (total_of (fun x : list Z * edit => edit_need x.2) es) in Hint.
  fold (calls_need es) in Hint. pose proof (calls_need_nonneg es). pose proof (edit_need_nonneg e). cbn [calls]. unfold and_then, mbind, M_bind.
  assert (calls_need ((path, e) :: es) = edit_need e + calls_need es) as En by done.
  destruct (call_at_ok b Hr t Ht path e Hp Hf ltac:(lia)) as (rc & b1 & -> & Hr1 & E4 & t1 & Ht1 & Ho).
  destruct (change_at path e (erase t)) as [u|err] eqn:Ec.
  - destruct Ho as [(-> & Eu & Hu)|(-> & Et & Hlt)].
    + cbn [negb Z.eqb]. destruct (IH b1 t1 Hr1 Ht1 Hes ltac:(lia)) as (rc & b' & E & t' & don & rest & -> & Hr' & Ht' & Hch & Hrest). do 2 eexists. split; [exact E|].
      exists t', ((path, e) :: don), rest. split_and!; [done|done|done|cbn [changes]; rewrite Ec, <- Eu; exact Hch|]. destruct rest as [|[p' e'] rest]; [done|].
      destruct Hrest as [[-> Hlt]|Herr]; [left; split; [done|lia]|by right].
    + do 2 eexists. split; [done|]. exists t1, [], ((path, e) :: es). split_and!; [done|done|done|by rewrite Et|]. left. split; [done|lia].
  - destruct Ho as [-> Et]. pose proof (change_path_err _ _ _ _ Ec). destruct (Z.eqb_spec err 0); [lia|]. cbn [negb]. do 2 eexists. split; [done|].
    exists t1, [], ((path, e) :: es). split_and!; [done|done|done|by rewrite Et|]. right. by rewrite Et.
Qed.

(** C10: A program that looks nodes up by their paths and sets, appends to and removes
    properties, adds and renames nodes always returns. Every call up to the first
    one that fails has changed the tree as the program says, and the failing call
    has left the tree as it was: either the program asks for something the tree
    does not allow (a path or property that is not there, a node that is), or the
    buffer is too small for the program. *)
Theorem fdt_edits_correct b t es : rw_ready b -> holds b t -> Forall call_fine es -> used b + calls_need es < 2 ^ 31 - 4 ->
  exists rc b', calls es b = Some (rc, b') /\ exists t' don rest, es = don ++ rest /\ rw_ready b' /\ holds b' t' /\ changes don (erase t) = inl (erase t') /\
    match rest with
    | [] => rc = 0
    | (path, e) :: _ => (rc = - FDT_ERR_NOSPACE /\ hv b 4 < used b + calls_need es) \/ change_at path e (erase t') = inr rc
    end.
Proof. intros Hr Ht Hes Hint. exact (calls_ok es b t Hr Ht Hes Hint). Qed.

(** The value of the first property with a name. *)
Fixpoint prop_value (name : list Z) (ps : list (list Z * list Z)) : option (list Z) :=
  match ps with [] => None | (n, v) :: ps => if bool_decide (n = name) then Some v else prop_value name ps end.

Lemma prop_value_find name ps : prop_value name (pv <$> ps) = p_val <$> find_prop name ps.
Proof. induction ps as [|p ps IH]; [done|]. unfold find_prop in *. rewrite fmap_cons. cbn [pv prop_value List.find]. by case_bool_decide. Qed.

Lemma prop_value_set name val n ps ks n' ps' ks' : SNode n' ps' ks' = set_prop name val (SNode n ps ks) -> prop_value name ps' = Some val.
Proof.
  intros [= -> -> ->]. unfold has_prop. destruct (existsb _ ps) eqn:E; [|cbn [prop_value]; by rewrite bool_decide_eq_true_2].
  induction ps as [|[m v] ps IH]; [done|]. cbn [existsb upd_prop fst] in *. case_bool_decide as Em; cbn [prop_value]; [by rewrite bool_decide_eq_true_2|]. rewrite bool_decide_eq_false_2 by done. by apply IH.
Qed.

(** After [fdt_setprop] on a node of the tree, [fdt_getprop] at the same offset
    finds the new value, byte for byte; every other node of the path to it is where
    it was, and nothing else in the tree has changed. When the call does not succeed
    there was no room for it, and the tree, the header and the reservations are as
    before. *)
Theorem fdt_setprop_roundtrip b t s F name val : rw_ready b -> holds b t -> sits s t F -> text name -> zlen name < 2 ^ 30 -> Forall is_byte val -> zlen val < 2 ^ 30 ->
  exists rc b', fdt_setprop (d_off s) name val b = Some (rc, b') /\ rw_ready b' /\
    (forall x n, 40 <= x -> 0 <= n -> x + n <= hv b 8 -> rdn (r_bytes b') x n = rdn (r_bytes b) x n) /\
    ((rc = 0 /\ exists t' d, holds b' t' /\ erase t' = plug F (set_prop name val (erase s)) /\
        fdt_getprop b' (d_off s) name = Some (Some d, zlen val) /\ rdn (r_bytes b') d (zlen val) = Some val) \/
     (rc = - FDT_ERR_NOSPACE /\ hv b 4 < used b + prop_need (name, val) /\ used b' = used b /\ holds b' t)).
Proof.
  intros Hr Ht Hs H1 H2 H3 H4. destruct (setprop_ok b Hr t s F Ht Hs name val H1 H2 H3 H4) as (rc & b' & E & [R1 R2 R3 R4]). exists rc, b'. split_and!; [done|done|done|].
  destruct R4 as [(-> & _ & t' & s' & Ht' & Hs' & Eo & Es)|(-> & Hlt & Hu & Ht')]; [|by right]. left. split; [done|].
  pose proof (getprop_in b' t' s' name Ht' (sits_within _ _ _ Hs')) as Hg. assert (prop_value name (pv <$> d_props s') = Some val) as Hv.
  { destruct s as [o n ps ks], s' as [o' n' ps' ks']. cbn [erase d_props] in *. by eapply prop_value_set. }
  rewrite prop_value_find in Hv. destruct (find_prop name (d_props s')) as [p|]; [|done]. injection Hv as Ev. rewrite Ev, Eo in Hg. destruct Hg as (d & G1 & _ & G3).
  exists t', (d + 12). split_and!; [done| |done|done]. by rewrite (erase_plug _ _ _ Hs'), Es.
Qed.

(** [fdt_del_node] always removes the node, with everything below it. The other
    sub-nodes of its parent and the rest of the tree stay, with one exception: if
    the blob has properties of the parent behind its first sub-node, where no
    function of the library finds them, and that sub-node is removed, they become
    properties of the parent. *)
Theorem fdt_del_node_correct b t s F k1 k k2 : rw_ready b -> holds b t -> sits s t F -> d_kids s = k1 ++ k :: k2 ->
  exists b' t' extra, fdt_del_node (d_off k) b = Some (0, b') /\ rw_ready b' /\ holds b' t' /\
    erase t' = plug F (without_kid (erase <$> k1) (erase <$> k2) extra (erase s)) /\ (k1 <> [] -> extra = []).
Proof.
  intros Hr Ht Hs Ek. destruct (del_node_ok b Hr t s F Ht Hs k1 k k2 Ek) as (b' & E & [R1 _ _ R4]). destruct R4 as [(_ & _ & t' & s' & Ht' & Hs' & _ & extra & Es & Hex)|[? _]]; [|done].
  exists b', t', extra. split_and!; try done. by rewrite (erase_plug _ _ _ Hs'), Es.
Qed.

(** *** A sample blob *)

(** A tree of two nodes in a buffer of 320 bytes, as the sequential-write functions
    leave it, opened for changes. *)
Definition room_tree : stree :=
  SNode [] [(byte_list "model", byte_list "abydos" ++ [0])]
    [SNode (byte_list "soc@1") [(byte_list "reg", [0; 0; 0; 8])] []; SNode (byte_list "memory") [] []].
Definition room_blob : region := Eval vm_compute in
  match and_then (write_tree 320 0 [] room_tree) (fdt_open_into 0 0 320) (Region 0 (replicate 320 170)) with Some (0, b) => b | _ => Region 0 [] end.
Definition room_dt : dt := Eval vm_compute in default (DNode 0 [] [] []) (the_tree room_blob).

Lemma bytes_check s : forallb (fun x => (0 <=? x) && (x <? 256)) s = true -> Forall is_byte s.
Proof. intros E. rewrite forallb_forall in E. apply Forall_forall. intros x Hx%list_elem_of_In%E. unfold is_byte. lia. Qed.

Lemma text_check s : forallb (fun x => (0 <? x) && (x <? 256)) s = true -> text s.
Proof.
  intros E. rewrite forallb_forall in E. split; [intros H%list_elem_of_In%E; discriminate H|]. apply Forall_forall. intros x Hx%list_elem_of_In%E. unfold is_byte. lia.
Qed.

Lemma room_ready : rw_ready room_blob.
Proof.
  split; [|vm_compute; congruence..]. split; [|vm_compute; congruence..]. split; [|vm_compute; congruence..]. apply bytes_check. vm_compute. reflexivity.
Qed.

Lemma room_holds : holds room_blob room_dt.
Proof. apply the_tree_holds; [exact (rw_read _ room_ready)|vm_compute; reflexivity]. Qed.

Definition room_calls : list (list Z * edit) :=
  [(byte_list "/soc", ESet (byte_list "reg") [0; 0; 0; 9; 0; 0]); (byte_list "/memory", EAdd (byte_list "bank@0"));
   (byte_list "/memory/bank", EAppend (byte_list "reg") [1; 2]); (byte_list "/", EDelProp (byte_list "compatible"))].

Lemma fdt_edits_witness : exists t', erase t' = SNode [] [(byte_list "model", byte_list "abydos" ++ [0])]
    [SNode (byte_list "soc@1") [(byte_list "reg", [0; 0; 0; 9; 0; 0])] []; SNode (byte_list "memory") [] [SNode (byte_list "bank@0") [(byte_list "reg", [1; 2])] []]] /\
  exists b', calls room_calls room_blob = Some (- FDT_ERR_NOTFOUND, b') /\ holds b' t'.
Proof.
  destruct (fdt_edits_correct room_blob room_dt room_calls room_ready room_holds) as (rc & b' & E & t' & don & rest & Ees & _ & Ht' & Hch & Hrest).
  - repeat apply Forall_cons_2; try apply Forall_nil_2; (split; [reflexivity|cbn [edit_fine snd]; try done; split_and!; (reflexivity || (apply text_check; reflexivity) || (apply bytes_check; reflexivity))]).
  - vm_compute. reflexivity.
  - assert (fst <$> calls room_calls room_blob = Some (- FDT_ERR_NOTFOUND)) as E1 by (vm_compute; reflexivity). rewrite E in E1. injection E1 as E1. cbn [fst] in E1. subst rc.
    remember (erase t') as u eqn:Eu. assert (don = take 3 room_calls) as ->.
    { clear Eu. destruct rest as [|[path e] rest]; [discriminate Hrest|]. destruct Hrest as [[Hno _]|Hrest]; [discriminate Hno|].
      destruct don as [|? [|? [|? [|? [|? ?]]]]]; injection Ees; intros; subst; try reflexivity; vm_compute in Hch; first [discriminate Hch|injection Hch as <-; vm_compute in Hrest; discriminate Hrest]. }
    vm_compute in Hch. injection Hch as Hch. exists t'. split; [rewrite <- Eu, <- Hch; reflexivity|]. exists b'. split; [exact E|exact Ht'].
Defined.

Lemma fdt_setprop_witness : exists b' d, fdt_setprop 0 (byte_list "model") [7; 8; 9] room_blob = Some (0, b') /\ fdt_getprop b' 0 (byte_list "model") = Some (Some d, 3) /\ rdn (r_bytes b') d 3 = Some [7; 8; 9].
Proof.
  destruct (fdt_setprop_roundtrip room_blob room_dt room_dt [] (byte_list "model") [7; 8; 9] room_ready room_holds) as (rc & b' & E & _ & _ & Hc).
  - constructor.
  - apply text_check. reflexivity.
  - reflexivity.
  - apply bytes_check. reflexivity.
  - reflexivity.
  - destruct Hc as [(-> & t' & d & _ & _ & G1 & G2)|(_ & Hlt & _)]; [|vm_compute in Hlt; discriminate Hlt]. exists b', d. split_and!; [exact E|exact G1|exact G2].
Defined.

Lemma fdt_del_node_witness : exists b' t', fdt_del_node 28 room_blob = Some (0, b') /\ holds b' t'.
Proof.
  destruct (fdt_del_node_correct room_blob room_dt room_dt [] [] (DNode 28 (byte_list "soc@1") (d_props (hd room_dt (d_kids room_dt))) []) (tail (d_kids room_dt)) room_ready room_holds) as (b' & t' & extra & E & _ & Ht' & _).
  - constructor.
  - reflexivity.
  - exists b', t'. split; [exact E|exact Ht'].
Defined.

(** *** What is not checked *)

(** A blob with its strings before its structure block. *)
Definition misordered_blob : region := Eval vm_compute in
  Region 0 ((to_be 4 FDT_MAGIC ++ to_be 4 84 ++ to_be 4 68 ++ to_be 4 64 ++ to_be 4 48 ++ to_be 4 17 ++ to_be 4 16 ++ to_be 4 7 ++ to_be 4 4 ++ to_be 4 16)
    ++ replicate 24 0 ++ [97; 98; 99; 0] ++ (to_be 4 FDT_BEGIN_NODE ++ [0; 0; 0; 0] ++ to_be 4 FDT_END_NODE ++ to_be 4 FDT_END) ++ replicate 84 0).

(** A negative number of a reservation is accepted, and the end of the header is
    removed with the eight bytes behind it; a blob opened in its own buffer when its
    blocks are in another order loses the number of the boot processor. *)
Example fdt_rw_unchecked :
  hv room_blob 36 = 84 /\ (fun r => (r.1, hv r.2 36)) <$> fdt_del_mem_rsv (-1) room_blob = Some (0, 0) /\
  hv misordered_blob 28 = 7 /\ (fun r => (r.1, hv r.2 28, erase <$> the_tree r.2)) <$> fdt_open_into 0 0 168 misordered_blob = Some (0, 0, Some (SNode [] [] [])).
Proof. split_and!; vm_compute; reflexivity. Qed.
