(* ===== verification/FdtWhole.v ===== *)
(** Functions of fdt_rw.c on a whole blob: reservations are added and removed, the
    blob is opened for changes and packed again; the tree stays the same wherever
    its blocks are moved. *)
From S2P Require Import Prelude KDefs Bytes Fdt FdtRo FdtSafe FdtRoSafe FdtProps FdtHelper FdtCheck FdtTree FdtPath FdtSw FdtSwProps FdtSeg FdtRsv FdtSwTree FdtSwRound FdtMove FdtEdit FdtRw FdtSplice FdtRwProps FdtRwNodes FdtScript.

(** ** Blocks at other places *)

(** [b'] has the structure block and the strings of [b], in the usual order. *)
Record relaid (b b' : region) : Prop := {
  rl_base : r_base b' = r_base b;
  rl_bytes : Forall is_byte (r_bytes b');
  rl_magic : hv b' 0 = hv b 0;
  rl_ver : hv b' 20 = 17;
  rl_comp : hv b' 24 = hv b 24;
  rl_size : hv b' 36 = hv b 36;
  rl_strs : hv b' 32 = hv b 32;
  rl_order : 40 <= hv b' 16 /\ hv b' 16 + 16 <= hv b' 8 /\ hv b' 8 + hv b' 36 <= hv b' 12 /\ hv b' 12 + hv b' 32 <= hv b' 4 /\ hv b' 4 <= zlen (r_bytes b') /\ hv b' 4 < INT_MAX;
  rl_struct : rdn (r_bytes b') (hv b' 8) (hv b 36) = rdn (r_bytes b) (hv b 8) (hv b 36);
  rl_string : rdn (r_bytes b') (hv b' 12) (hv b 32) = rdn (r_bytes b) (hv b 12) (hv b 32);
}.

Lemma rdn_part m m' p p' n x k : 0 <= n -> 0 <= p -> p + n <= zlen m -> rdn m' p' n = rdn m p n -> 0 <= x -> 0 <= k -> x + k <= n -> rdn m' (p' + x) k = rdn m (p + x) k.
Proof.
  intros Hn Hp Hm E Hx Hk Hxk. destruct (rdn m p n) as [l|] eqn:El; [|by rewrite rdn_Some in El by lia]. pose proof (rdn_inv _ _ _ _ El) as (_ & _ & _ & L & _).
  destruct (list_around l x k) as (l1 & l2 & l3 & -> & L1 & L2); [lia..|]. rewrite <- L in E, El. apply rdn_app in E as [_ E]. apply rdn_app in E as [E _]. apply rdn_app in El as [_ El]. apply rdn_app in El as [El _]. rewrite L1, L2 in *. congruence.
Qed.

Section Relaid.
  Context (b b' : region) (Hr : rw_ready b) (H : relaid b b').

Lemma relaid_ready : rw_ready b'.
Proof.
  pose proof (rl_order _ _ H) as (O1 & O2 & O3 & O4 & O5 & O6). pose proof (rw_bounds b Hr). destruct H as [? ? Hm Hv Hc Hs Hst _ _ _]. pose proof (rw_read _ Hr) as R. pose proof (rb_magic _ R). pose proof (rb_comp _ R).
  split; [|lia..]. split; [|rewrite rl_base0; apply R|lia..]. split; [done|lia|lia|lia].
Qed.

(** The blocks are all that a tree needs. *)
Lemma relaid_holds t : holds b t -> holds b' t.
Proof.
  intros Ht. pose proof (rw_bounds b Hr). pose proof (rw_bounds b' relaid_ready). pose proof (rl_size _ _ H) as E36. pose proof (rl_strs _ _ H) as E32. apply (same_blocks b b' (rw_stable b Hr) (rw_stable b' relaid_ready)); [| |done].
  - intros o s Ho (S1 & S2 & S3 & S4)%(string_at_rdn b Hr); [|done]. apply (string_at_rdn b' relaid_ready); [done|]. pose proof (zlen_nonneg s). split_and!; [done|lia|done|].
    rewrite <- S4. apply (rdn_part _ _ _ _ (hv b 32)); (lia || apply H).
  - intros x l Hx (S1 & S2 & S3). pose proof (zlen_nonneg l). split_and!; [done|lia|]. rewrite <- S3. apply (rdn_part _ _ _ _ (hv b 36)); (lia || apply H).
Qed.
End Relaid.

(** ** Reservations *)

(** The reservations end before the structure block. *)
Definition reserved (b : region) (l : list (Z * Z)) : Prop := reserves b l /\ hv b 16 + zlen (map_of l) <= hv b 8.

(** The header fields this leaves alone. *)
Definition fixed_field (k : Z) : bool := existsb (Z.eqb k) [0; 4; 16; 20; 24; 32; 36].

(** What is behind [q] has been moved by [d], with the two blocks there. *)
Record shifted (b b' : region) (p q d : Z) : Prop := {
  sh_base : r_base b' = r_base b;
  sh_len : zlen (r_bytes b') = zlen (r_bytes b);
  sh_bytes : Forall is_byte (r_bytes b');
  sh_hdr k : fixed_field k = true -> hv b' k = hv b k;
  sh_struct : hv b' 8 = hv b 8 + d;
  sh_string : hv b' 12 = hv b 12 + d;
  sh_low x n : 40 <= x -> 0 <= n -> x + n <= p -> rdn (r_bytes b') x n = rdn (r_bytes b) x n;
  sh_high x n : q <= x -> 0 <= n -> x + n <= used b -> rdn (r_bytes b') (x + d) n = rdn (r_bytes b) x n;
}.

Section Reserved.
  Context (b : region) (Hr : rw_ready b) (t : dt) (Ht : holds b t) (l : list (Z * Z)) (Hl : reserved b l).
  Local Abbreviation m := (r_bytes b).
  Local Abbreviation tot := (hv b 4).
  Local Abbreviation R := (rw_read _ Hr).

Lemma splice_mem_rsv_ok p oldn newn : 40 <= p -> 0 <= oldn <= 1 -> 0 <= newn <= 1 -> p + 16 * oldn <= hv b 8 ->
  (tot < used b + 16 * (newn - oldn) /\ fdt_splice_mem_rsv_ p oldn newn b = Some (- FDT_ERR_NOSPACE, b)) \/
  (used b + 16 * (newn - oldn) <= tot /\ exists b', fdt_splice_mem_rsv_ p oldn newn b = Some (0, b') /\ shifted b b' (p + 16 * Z.min oldn newn) (p + 16 * oldn) (16 * (newn - oldn))).
Proof.
  intros Hp Ho Hn Hs. pose proof (rw_bounds b Hr) as Hbd. assert (p + 16 * oldn <= used b) as Hu by (unfold used; lia). unfold fdt_splice_mem_rsv_, mbind, M_bind.
  rewrite (sw_small 32 (oldn * 16)), (sw_small 32 (newn * 16)), (sw_small 32 ((newn - oldn) * 16)) by (unfold is_sw; lia).
  destruct (splice_ok b Hr p (oldn * 16) (newn * 16)) as [[Hlt ->]|(Hle & w & b1 & El & -> & Hw)]; [lia|lia|lia|lia|left; split; [lia|done]|].
  right. split; [lia|]. cbn [negb Z.eqb]. pose proof (wo_len _ _ _ _ Hw) as L1. pose proof (bo_bytes _ (rb_ok _ R)) as Hbs. pose proof (Forall_rdn _ _ _ _ _ Hbs El) as Hlb.
  assert (forall x, 0 <= x <= 36 -> hv b1 x = hv b x) as H1 by (intros; apply (wrote_hv _ _ _ _ _ Hw); lia). rewrite (rd_field _ 8) by (done || lia).
  destruct (set_field fdt_set_off_dt_struct b1 8 (u32 (hv b1 8 + (newn - oldn) * 16))) as (b2 & -> & Hw2 & F2 & H2); [done|lia|lia|]. pose proof (wo_len _ _ _ _ Hw2) as L2. rewrite (rd_field _ 12) by (done || lia).
  destruct (set_field fdt_set_off_dt_strings b2 12 (u32 (hv b2 12 + (newn - oldn) * 16))) as (b3 & -> & Hw3 & F3 & H3); [done|lia|lia|]. exists b3. split; [done|].
  rewrite (H1 8), !(uw_small 32 (hv b 8 + _)) in F2 by (unfold is_uw, used in *; lia). rewrite (H2 12), (H1 12), !(uw_small 32 (hv b 12 + _)) in F3 by (unfold is_uw, used in *; lia). split.
  - by rewrite (wo_base _ _ _ _ Hw3), (wo_base _ _ _ _ Hw2), (wo_base _ _ _ _ Hw).
  - pose proof (wo_len _ _ _ _ Hw3). lia.
  - apply (wo_bytes _ _ _ _ Hw3), (wo_bytes _ _ _ _ Hw2), (wo_bytes _ _ _ _ Hw); try apply to_be_bytes; done.
  - intros k (y & Hy & ->%Z.eqb_eq)%existsb_exists. cbn in Hy. rewrite H3, H2, H1 by lia. done.
  - rewrite H3, F2 by lia. lia.
  - rewrite F3. lia.
  - intros x n Hx Hn' Hle'. rewrite (wo_old _ _ _ _ Hw3), (wo_old _ _ _ _ Hw2), (wo_old _ _ _ _ Hw) by (rewrite ?zlen_to_be; lia). done.
  - intros x n Hx Hn' Hle'. rewrite (wo_old _ _ _ _ Hw3), (wo_old _ _ _ _ Hw2) by (rewrite ?zlen_to_be; lia). replace (16 * (newn - oldn)) with (newn * 16 - oldn * 16) by lia. eapply (moved_high b Hr); try done; lia.
Qed.

(** Both blocks come along. *)
Lemma shifted_relaid b' p q d : shifted b b' p q d -> hv b 16 + 16 <= hv b 8 + d -> used b + d <= tot -> q <= hv b 8 -> relaid b b'.
Proof.
  intros H Hd Hu Hq. pose proof (rw_bounds b Hr). pose proof (rw_ver _ Hr). pose proof (sh_struct _ _ _ _ _ H) as E8. pose proof (sh_string _ _ _ _ _ H) as E12. pose proof (sh_len _ _ _ _ _ H). unfold used, INT_MAX in *.
  pose proof (sh_hdr _ _ _ _ _ H 0 eq_refl). pose proof (sh_hdr _ _ _ _ _ H 4 eq_refl). pose proof (sh_hdr _ _ _ _ _ H 16 eq_refl). pose proof (sh_hdr _ _ _ _ _ H 20 eq_refl).
  pose proof (sh_hdr _ _ _ _ _ H 24 eq_refl). pose proof (sh_hdr _ _ _ _ _ H 32 eq_refl). pose proof (sh_hdr _ _ _ _ _ H 36 eq_refl).
  split; [apply H|apply H|lia|lia|lia|lia|lia|unfold INT_MAX; lia| |].
  - rewrite E8. apply (sh_high _ _ _ _ _ H); unfold used; lia.
  - rewrite E12. apply (sh_high _ _ _ _ _ H); unfold used; lia.
Qed.

(** The outcome: done, or no room and nothing has changed. *)
Definition rsv_result (need : Z) (l' : list (Z * Z)) (rc : Z) (b' : region) : Prop :=
  (rc = 0 /\ rw_ready b' /\ holds b' t /\ reserved b' l' /\ hv b' 4 = tot /\ used b' = used b + 16 * (zlen l' - zlen l)) \/
  (rc = - FDT_ERR_NOSPACE /\ b' = b /\ tot < used b + need).

Lemma rsv_bounds i : (i <= length l)%nat -> 40 <= hv b 16 + 16 * Z.of_nat i /\ hv b 16 + 16 * Z.of_nat i + 16 <= hv b 8 /\ hv b 8 <= used b /\ used b <= tot.
Proof. intros Hi. destruct Hl as [Hrs Hb]. pose proof (rw_bounds b Hr). rewrite zlen_map_of in Hb. unfold used, zlen in *. lia. Qed.

Lemma rsv_parts l1 l2 : l = l1 ++ l2 -> rdn m (hv b 16) (16 * zlen l1) = Some (l1 ≫= enc_rsv) /\ rdn m (hv b 16 + 16 * zlen l1) (zlen (map_of l2)) = Some (map_of l2).
Proof.
  intros E. destruct Hl as [[_ Hb _] _]. assert (map_of l = (l1 ≫= enc_rsv) ++ map_of l2) as Em by (unfold map_of; by rewrite E, <- app_assoc, bind_app). rewrite Em in Hb. apply rdn_app in Hb as [H1 H2]. by rewrite zlen_enc_rsv in *.
Qed.

Lemma add_mem_rsv_ok a s : rsv_fine (a, s) -> exists rc b', fdt_add_mem_rsv a s b = Some (rc, b') /\ rsv_result 16 (l ++ [(a, s)]) rc b'.
Proof.
  intros Hf. pose proof (rsv_bounds (length l) ltac:(lia)) as Hbd. fold (zlen l) in Hbd. unfold fdt_add_mem_rsv. rewrite (rw_probe b Hr). unfold mbind, M_bind. unfold rd at 1. rewrite (rsv_count b R l (proj1 Hl)). cbn [mbind option_bind].
  unfold rd at 1, fdt_mem_rsv_, fdt_off_mem_rsvmap. rewrite (field_ok b (rb_ok _ R)) by lia. cbn [mbind option_bind]. set (re := hv b 16 + 16 * zlen l) in *.
  destruct (splice_mem_rsv_ok re 0 1) as [[Hlt ->]|(Hle & b1 & -> & Hsh)]; [lia|lia|lia|lia|do 2 eexists; split; [done|right; split_and!; [done|done|lia]]|]. cbn [negb Z.eqb]. replace (re + 16 * Z.min 0 1) with re in Hsh by lia. replace (re + 16 * 0) with re in Hsh by lia. change (16 * (1 - 0)) with 16 in *.
  pose proof (rw_bounds b Hr) as Hrb. pose proof (sh_len _ _ _ _ _ Hsh) as L1. destruct (wr_wrote re (to_be 8 a) b1) as (b2 & -> & W2); [lia|rewrite zlen_to_be; lia|]. pose proof (wo_len _ _ _ _ W2) as L2.
  destruct (wr_wrote (re + 8) (to_be 8 s) b2) as (b3 & -> & W3); [lia|rewrite zlen_to_be; lia|]. pose proof (wo_len _ _ _ _ W3) as L3. exists 0, b3. split; [done|]. left.
  assert (forall x n, 0 <= n -> x + n <= re \/ re + 16 <= x -> rdn (r_bytes b3) x n = rdn (r_bytes b1) x n) as Hold by (intros x n Hn Hx; rewrite (wo_old _ _ _ _ W3), (wo_old _ _ _ _ W2) by (rewrite ?zlen_to_be; lia); done).
  assert (forall k, 0 <= k <= 36 -> hv b3 k = hv b1 k) as Hhv by (intros k Hk; apply hv_rdn; [lia|lia|apply Hold; lia]).
  pose proof (shifted_relaid b1 _ _ _ Hsh ltac:(lia) ltac:(lia) ltac:(lia)) as [? ? ? ? ? ? ? ? ? ?]. pose proof (sh_struct _ _ _ _ _ Hsh) as E8. pose proof (sh_string _ _ _ _ _ Hsh) as E12. pose proof (sh_hdr _ _ _ _ _ Hsh 16 eq_refl) as E16. pose proof (sh_hdr _ _ _ _ _ Hsh 4 eq_refl) as E4.
  assert (relaid b b3) as Hrl.
  { split; rewrite ?Hhv, ?L3, ?L2 by lia; try done; try lia.
    - by rewrite (wo_base _ _ _ _ W3), (wo_base _ _ _ _ W2).
    - apply (wo_bytes _ _ _ _ W3), (wo_bytes _ _ _ _ W2); [apply to_be_bytes..|done].
    - rewrite Hold by lia. done.
    - rewrite Hold by lia. done. }
  pose proof (relaid_ready b b3 Hr Hrl) as Hr3. split_and!; [done|done|by apply (relaid_holds b b3 Hr Hrl)| |by rewrite Hhv by lia|].
  2: { unfold used. rewrite !Hhv by lia. rewrite E12. pose proof (sh_hdr _ _ _ _ _ Hsh 32 eq_refl) as ->. rewrite zlen_app. change (zlen [(a, s)]) with 1. lia. }
  destruct Hl as [[Hfine Hb Hin] Hend]. assert (map_of (l ++ [(a, s)]) = (l ≫= enc_rsv) ++ to_be 8 a ++ to_be 8 s ++ enc_rsv (0, 0)) as Em by (unfold map_of; rewrite !bind_app; cbn [mbind list_bind]; unfold enc_rsv at 2; by rewrite !app_nil_r, <- !app_assoc).
  assert (zlen (map_of (l ++ [(a, s)])) = zlen (map_of l) + 16) as Lm by (rewrite !zlen_map_of, zlen_app; change (zlen [(a, s)]) with 1; lia). split; [|rewrite !Hhv, E16, E8, Lm by lia; lia]. split.
  - apply Forall_app. split; [done|by constructor].
  - rewrite !Hhv, E16 by lia. rewrite Em. destruct (rsv_parts l [] ltac:(by rewrite app_nil_r)) as [P1 P2]. fold re in P2.
    pose proof (zlen_nonneg l). apply rdn_app. rewrite zlen_enc_rsv. split; [rewrite Hold, (sh_low _ _ _ _ _ Hsh) by lia; exact P1|]. fold re. apply rdn_app. rewrite !zlen_to_be. change (Z.of_nat 8) with 8. split.
    { rewrite (wo_old _ _ _ _ W3) by lia. pose proof (wo_new _ _ _ _ W2) as Wn. by rewrite zlen_to_be in Wn. }
    apply rdn_app. rewrite !zlen_to_be. change (Z.of_nat 8) with 8. split; [pose proof (wo_new _ _ _ _ W3) as Wn; by rewrite zlen_to_be in Wn|]. replace (re + 8 + 8) with (re + 16) by lia. change (zlen (enc_rsv (0, 0))) with 16.
    rewrite Hold by lia. rewrite (sh_high _ _ _ _ _ Hsh) by lia. exact P2.
  - rewrite !Hhv, E16, E4, Lm by lia. lia.
Qed.

Lemma del_mem_rsv_end n : zlen l <= n -> fdt_del_mem_rsv n b = Some (- FDT_ERR_NOTFOUND, b).
Proof.
  intros Hn. unfold fdt_del_mem_rsv. unfold mbind, M_bind. unfold rd at 1, fdt_mem_rsv_, fdt_off_mem_rsvmap. rewrite (field_ok b (rb_ok _ R)) by lia. cbn [mbind option_bind]. rewrite (rw_probe b Hr).
  unfold rd at 1. rewrite (rsv_count b R l (proj1 Hl)). cbn [mbind option_bind]. by destruct (Z.leb_spec (zlen l) n); [|lia].
Qed.

Lemma del_mem_rsv_ok l1 e l2 : l = l1 ++ e :: l2 -> exists b', fdt_del_mem_rsv (zlen l1) b = Some (0, b') /\ rsv_result 0 (l1 ++ l2) 0 b'.
Proof.
  intros El. pose proof (zlen_nonneg l1). pose proof (zlen_nonneg l2). assert (zlen l = zlen l1 + 1 + zlen l2) as Ll by (rewrite El, zlen_app, zlen_cons; lia). pose proof (rsv_bounds (length l1) ltac:(unfold zlen in *; lia)) as Hbd. fold (zlen l1) in Hbd.
  unfold fdt_del_mem_rsv. unfold mbind, M_bind. unfold rd at 1, fdt_mem_rsv_, fdt_off_mem_rsvmap. rewrite (field_ok b (rb_ok _ R)) by lia. cbn [mbind option_bind]. rewrite (rw_probe b Hr).
  unfold rd at 1. rewrite (rsv_count b R l (proj1 Hl)). cbn [mbind option_bind]. destruct (Z.leb_spec (zlen l) (zlen l1)); [lia|]. set (re := hv b 16 + 16 * zlen l1) in *.
  destruct (splice_mem_rsv_ok re 1 0) as [[Hlt _]|(Hle & b' & E & Hsh)]; [lia|lia|lia|lia|lia|]. rewrite E. exists b'. split; [done|]. left. replace (re + 16 * Z.min 1 0) with re in Hsh by lia. replace (re + 16 * 1) with (re + 16) in Hsh by lia. change (16 * (0 - 1)) with (-16) in *.
  destruct Hl as [[Hfine Hb Hin] Hend]. rewrite zlen_map_of in Hend. pose proof (shifted_relaid b' _ _ _ Hsh ltac:(lia) ltac:(lia) ltac:(lia)) as Hrl. pose proof (relaid_ready b b' Hr Hrl) as Hr'. pose proof (sh_struct _ _ _ _ _ Hsh) as E8. pose proof (sh_string _ _ _ _ _ Hsh) as E12. pose proof (sh_hdr _ _ _ _ _ Hsh 16 eq_refl) as E16. pose proof (sh_hdr _ _ _ _ _ Hsh 4 eq_refl) as E4.
  split_and!; [done|done|by apply (relaid_holds b b' Hr Hrl)| |done|unfold used; rewrite E12; pose proof (sh_hdr _ _ _ _ _ Hsh 32 eq_refl) as ->; rewrite zlen_app; lia].
  assert (zlen (map_of (l1 ++ l2)) = 16 * (zlen l1 + zlen l2 + 1)) as Lm by (by rewrite zlen_map_of, zlen_app). split; [|rewrite E16, E8, Lm; lia]. split.
  - rewrite El, Forall_app, Forall_cons in Hfine. apply Forall_app. tauto.
  - rewrite E16. assert (map_of (l1 ++ l2) = (l1 ≫= enc_rsv) ++ map_of l2) as -> by (unfold map_of; by rewrite <- app_assoc, bind_app). destruct (rsv_parts l1 (e :: l2) El) as [P1 _]. destruct (rsv_parts (l1 ++ [e]) l2 ltac:(by rewrite <- app_assoc)) as [_ P2].
    rewrite zlen_app in P2. change (zlen [e]) with 1 in P2. pose proof (rw_bounds b Hr). apply rdn_app. rewrite zlen_enc_rsv. split; [rewrite (sh_low _ _ _ _ _ Hsh) by lia; exact P1|]. fold re. replace (hv b 16 + 16 * (zlen l1 + 1)) with (re + 16) in P2 by lia.
    rewrite zlen_map_of in *. rewrite <- P2. replace re with (re + 16 + -16) at 1 by lia. apply (sh_high _ _ _ _ _ Hsh); lia.
  - rewrite E16, E4, Lm. lia.
Qed.
End Reserved.

(** C23: On a blob ready for editing (version 17, blocks in order) that holds a tree
    and a list of reservations of positive size, [fdt_add_mem_rsv] of a 64-bit
    address and a positive 64-bit size appends the reservation, and
    [fdt_del_mem_rsv] with a number from 0 up to the length removes the one with
    the number; [fdt_num_mem_rsv] and [fdt_get_mem_rsv] then report the new
    list, and the tree stays as it was though its blocks have moved. Adding fails
    only when there is no room for another entry, removing such a number never;
    a number from the length on is refused with -FDT_ERR_NOTFOUND; after a failure
    nothing has changed. Not covered: a size of 0, which is taken for the end of the
    list, and negative numbers, which the code does not check. *)
Theorem fdt_mem_rsv_correct b t l : rw_ready b -> holds b t -> reserved b l ->
  let is_list l' b' := rw_ready b' /\ holds b' t /\ reserved b' l' /\ fdt_num_mem_rsv b' = Some (zlen l') /\
    (forall i a s, l' !! i = Some (a, s) -> fdt_get_mem_rsv b' (Z.of_nat i) = Some (0, Some (a, s))) in
  (forall a s, rsv_fine (a, s) -> exists rc b', fdt_add_mem_rsv a s b = Some (rc, b') /\
    ((rc = 0 /\ is_list (l ++ [(a, s)]) b') \/ (rc = - FDT_ERR_NOSPACE /\ b' = b /\ hv b 4 < used b + 16))) /\
  (forall l1 x l2, l = l1 ++ x :: l2 -> exists b', fdt_del_mem_rsv (zlen l1) b = Some (0, b') /\ is_list (l1 ++ l2) b') /\
  (forall n, zlen l <= n -> fdt_del_mem_rsv n b = Some (- FDT_ERR_NOTFOUND, b)).
Proof.
  intros Hr Ht Hl is_list. assert (forall l' b', rw_ready b' -> holds b' t -> reserved b' l' -> is_list l' b') as Hlist.
  { intros l' b' H1 H2 H3. pose proof (rw_read _ H1) as R. split_and!; [done|done|done|by apply (rsv_count b' R l' (proj1 H3))|]. intros i a s Hi. by apply (rsv_get b' R l' (proj1 H3)). }
  split_and!; [| |by apply (del_mem_rsv_end b Hr l Hl)].
  - intros a s He. destruct (add_mem_rsv_ok b Hr t Ht l Hl a s He) as (rc & b' & E & [(-> & H1 & H2 & H3 & _)|(-> & -> & Hlt)]); do 2 eexists; (split; [exact E|]); [left; split; [done|by apply Hlist]|by right].
  - intros l1 x l2 El. destruct (del_mem_rsv_ok b Hr t Ht l Hl l1 x l2 El) as (b' & E & [(_ & H1 & H2 & H3 & _)|(? & _)]); [|done]. exists b'. split; [exact E|]. by apply Hlist.
Qed.

(** ** Packing *)

(** A header field is set, or the memory behind the header. *)
Lemma at_field f b k v : (forall v, f v = wr k (to_be 4 v)) -> 0 <= k <= 36 -> 40 <= zlen (r_bytes b) -> is_uw 32 v -> exists b',
  at_ptr 0 (f v) b = Some (tt, b') /\ wrote b b' k (to_be 4 v) /\ hv b' k = v /\ (forall x, 0 <= x <= 36 -> x + 4 <= k \/ k + 4 <= x -> hv b' x = hv b x) /\
  (forall x n, 40 <= x -> 0 <= n -> rdn (r_bytes b') x n = rdn (r_bytes b) x n).
Proof.
  intros E Hk Hl Hv. destruct (set_field f b k v E ltac:(lia) ltac:(lia)) as (b' & E' & Hw & F & H). exists b'. split_and!; [apply at_ptr_0; [exact E'|apply Hw]|done|by rewrite F, uw_small|intros x Hx Hd; apply H; lia|].
  intros x n Hx Hn. apply (wo_old _ _ _ _ Hw); [done|rewrite zlen_to_be; lia].
Qed.

Lemma at_read f b k : (forall b, f b = fdt32_ld (r_bytes b) k) -> 0 <= k <= 36 -> 40 <= zlen (r_bytes b) -> at_ptr 0 (rd f) b = Some (hv b k, b).
Proof. intros E Hk Hl. apply at_ptr_0; [|done]. apply (rd_field f k b E); lia. Qed.

Lemma memmove_ok b dst src n l : rdn (r_bytes b) src n = Some l -> 40 <= dst -> dst + n <= zlen (r_bytes b) -> exists b',
  memmove dst src n b = Some (tt, b') /\ wrote b b' dst l /\ zlen l = n /\ (forall x, 0 <= x <= 36 -> hv b' x = hv b x).
Proof.
  intros E Hd Hl. pose proof (rdn_inv _ _ _ _ E) as (_ & Hn & _ & L & _). unfold memmove. rewrite E. cbn [mbind option_bind]. destruct (wr_wrote dst l b) as (b' & E' & Hw); [lia|lia|]. exists b'. split_and!; [done|done|lia|].
  intros x Hx. apply (wrote_hv _ _ _ _ _ Hw); lia.
Qed.

Section Pack.
  Context (b : region) (Hr : rw_ready b) (l : list (Z * Z)) (Hl : reserved b l).
  Local Abbreviation m := (r_bytes b).
  Local Abbreviation ms := (zlen (map_of l)).
  Local Abbreviation so := (40 + ms).
  Local Abbreviation to := (40 + ms + hv b 36).

(** The blocks one after the other, each moved down before the next one. *)
Lemma packblocks_ok : exists b', fdt_packblocks_ 0 0 ms (hv b 36) (hv b 32) b = Some (tt, b') /\ r_base b' = r_base b /\ zlen (r_bytes b') = zlen m /\ Forall is_byte (r_bytes b') /\
  (forall k, existsb (Z.eqb k) [0; 4; 20; 24; 28; 32; 36] = true -> hv b' k = hv b k) /\ hv b' 16 = 40 /\ hv b' 8 = so /\ hv b' 12 = to /\
  rdn (r_bytes b') 40 ms = Some (map_of l) /\ rdn (r_bytes b') so (hv b 36) = rdn m (hv b 8) (hv b 36) /\ rdn (r_bytes b') to (hv b 32) = rdn m (hv b 12) (hv b 32).
Proof.
  destruct Hl as [[_ HR _] Hend]. pose proof (rw_bounds b Hr) as Hbd. pose proof (zlen_nonneg (map_of l)). pose proof (bo_bytes _ (rb_ok _ (rw_read _ Hr))) as Hbs.
  destruct (rdn m (hv b 8) (hv b 36)) as [S|] eqn:ES; [|by rewrite rdn_Some in ES by lia]. destruct (rdn m (hv b 12) (hv b 32)) as [T|] eqn:ET; [|by rewrite rdn_Some in ET by lia].
  unfold fdt_packblocks_, mbind, M_bind. change rw_hdrsize with 40. rewrite !Z.add_0_l. rewrite (sw_small 32 so), (sw_small 32 to) by (unfold is_sw; lia). rewrite (at_read _ b 16) by (done || lia). rewrite Z.add_0_l.
  destruct (memmove_ok b 40 (hv b 16) ms (map_of l) HR ltac:(lia) ltac:(lia)) as (b1 & -> & W1 & _ & H1). pose proof (wo_len _ _ _ _ W1) as L1.
  destruct (at_field fdt_set_off_mem_rsvmap b1 16 40) as (b2 & -> & W2 & F2 & H2 & D2); [done|lia|lia|done|]. pose proof (wo_len _ _ _ _ W2) as L2. rewrite (at_read _ b2 8) by (done || lia). rewrite Z.add_0_l, (H2 8), (H1 8) by lia.
  destruct (memmove_ok b2 so (hv b 8) (hv b 36) S) as (b3 & -> & W3 & LS & H3); [rewrite D2, (wo_old _ _ _ _ W1) by lia; exact ES|lia|lia|]. pose proof (wo_len _ _ _ _ W3) as L3.
  destruct (at_field fdt_set_off_dt_struct b3 8 so) as (b4 & -> & W4 & F4 & H4 & D4); [done|lia|lia|unfold is_uw; lia|]. pose proof (wo_len _ _ _ _ W4) as L4.
  destruct (at_field fdt_set_size_dt_struct b4 36 (hv b 36)) as (b5 & -> & W5 & F5 & H5 & D5); [done|lia|lia|unfold is_uw; lia|]. pose proof (wo_len _ _ _ _ W5) as L5.
  rewrite (at_read _ b5 12) by (done || lia). rewrite Z.add_0_l, (H5 12), (H4 12), (H3 12), (H2 12), (H1 12) by lia.
  destruct (memmove_ok b5 to (hv b 12) (hv b 32) T) as (b6 & -> & W6 & LT & H6); [rewrite D5, D4, (wo_old _ _ _ _ W3), D2, (wo_old _ _ _ _ W1) by lia; exact ET|lia|lia|]. pose proof (wo_len _ _ _ _ W6) as L6.
  destruct (at_field fdt_set_off_dt_strings b6 12 to) as (b7 & -> & W7 & F7 & H7 & D7); [done|lia|lia|unfold is_uw; lia|]. pose proof (wo_len _ _ _ _ W7) as L7. rewrite (at_read _ b7 32) by (done || lia). rewrite (H7 32), (H6 32), (H5 32), (H4 32), (H3 32), (H2 32), (H1 32) by lia.
  destruct (at_field fdt_set_size_dt_strings b7 32 (hv b 32)) as (b8 & -> & W8 & F8 & H8 & D8); [done|lia|lia|unfold is_uw; lia|]. exists b8. split; [done|]. pose proof (wo_len _ _ _ _ W8) as L8. split_and!.
  - by rewrite (wo_base _ _ _ _ W8), (wo_base _ _ _ _ W7), (wo_base _ _ _ _ W6), (wo_base _ _ _ _ W5), (wo_base _ _ _ _ W4), (wo_base _ _ _ _ W3), (wo_base _ _ _ _ W2), (wo_base _ _ _ _ W1).
  - lia.
  - apply (wo_bytes _ _ _ _ W8), (wo_bytes _ _ _ _ W7), (wo_bytes _ _ _ _ W6), (wo_bytes _ _ _ _ W5), (wo_bytes _ _ _ _ W4), (wo_bytes _ _ _ _ W3), (wo_bytes _ _ _ _ W2), (wo_bytes _ _ _ _ W1); try apply to_be_bytes; try apply enc_rsv_bytes; try done; by eapply Forall_rdn.
  - intros k (y & Hy & ->%Z.eqb_eq)%existsb_exists. cbn in Hy. destruct (Z.eq_dec y 32) as [->|]; [done|]. rewrite H8, H7, H6 by lia. destruct (Z.eq_dec y 36) as [->|]; [done|]. rewrite H5, H4, H3, H2, H1 by lia. done.
  - rewrite H8, H7, H6, H5, H4, H3, F2 by lia. done.
  - rewrite H8, H7, H6, H5, F4 by lia. done.
  - rewrite H8, F7 by lia. done.
  - rewrite D8, D7, (wo_old _ _ _ _ W6), D5, D4, (wo_old _ _ _ _ W3), D2 by lia. apply W1.
  - rewrite D8, D7, (wo_old _ _ _ _ W6), D5, D4 by lia. rewrite <- LS. apply W3.
  - rewrite D8, D7 by lia. rewrite <- LT. apply W6.
Qed.

(** C22: [fdt_pack] moves the blocks together and leaves a blob that ends where its
    last block ends: the tree, the reservations and the number of the boot
    processor stay, and the new size is what header, reservations, structure block
    and strings take, which is at most the size before. *)
Theorem fdt_pack_correct t : holds b t -> exists b', fdt_pack b = Some (0, b') /\ rw_ready b' /\ holds b' t /\ reserved b' l /\
  hv b' 4 = 40 + zlen (map_of l) + hv b 36 + hv b 32 /\ used b' = hv b' 4 /\ hv b' 4 <= used b /\ hv b' 28 = hv b 28.
Proof.
  intros Ht. pose proof (rw_read _ Hr) as R. pose proof (rw_bounds b Hr) as Hbd. pose proof (zlen_nonneg (map_of l)). pose proof Hl as [Hrs Hend]. destruct packblocks_ok as (b1 & E1 & B1 & L1 & Y1 & K1 & F16 & F8 & F12 & DR & DS & DT).
  unfold fdt_pack. rewrite (rw_probe b Hr). unfold mbind, M_bind. unfold rd at 1. rewrite (rsv_count b R l Hrs). cbn [mbind option_bind]. replace ((zlen l + 1) * 16) with ms by (rewrite zlen_map_of; lia). rewrite (rw_rd b Hr _ 36), (rw_rd b Hr _ 32) by (done || lia).
  rewrite (sw_small 32 ms), (sw_small 32 (hv b 36)), (sw_small 32 (hv b 32)), E1 by (unfold is_sw; lia).
  assert (rd fdt_data_size_ b1 = Some (to + hv b 32, b1)) as ->.
  { unfold rd, fdt_data_size_, fdt_off_dt_strings, fdt_size_dt_strings. pose proof (rd_field fdt_off_dt_strings 12 b1 ltac:(done) ltac:(lia) ltac:(lia)) as G1. pose proof (rd_field fdt_size_dt_strings 32 b1 ltac:(done) ltac:(lia) ltac:(lia)) as G2.
    unfold rd, fdt_off_dt_strings, fdt_size_dt_strings in G1, G2. destruct (fdt32_ld (r_bytes b1) 12) as [v|]; [|done]. destruct (fdt32_ld (r_bytes b1) 32) as [w|]; [|done]. injection G1 as ->. injection G2 as ->. cbn [mbind option_bind]. rewrite F12, (K1 32 eq_refl), uw_small by (unfold is_uw; lia). done. }
  destruct (set_field fdt_set_totalsize b1 4 (to + hv b 32)) as (b2 & -> & W2 & F2 & H2); [done|lia|lia|]. rewrite uw_small in F2 by (unfold is_uw; lia). pose proof (wo_len _ _ _ _ W2) as L2.
  assert (forall k, 0 <= k <= 36 -> k <> 4 -> k + 4 <= 4 \/ 8 <= k -> hv b2 k = hv b1 k) as H2' by (intros; apply H2; lia).
  assert (forall x n, 40 <= x -> 0 <= n -> rdn (r_bytes b2) x n = rdn (r_bytes b1) x n) as D2 by (intros x n Hx Hn; apply (wo_old _ _ _ _ W2); [done|rewrite zlen_to_be; lia]).
  pose proof (K1 0 eq_refl). pose proof (K1 20 eq_refl). pose proof (K1 24 eq_refl). pose proof (K1 28 eq_refl). pose proof (K1 32 eq_refl). pose proof (K1 36 eq_refl). pose proof (rw_ver _ Hr). assert (16 <= ms) by (rewrite zlen_map_of; pose proof (zlen_nonneg l); lia).
  assert (relaid b b2) as Hrl.
  { split; rewrite ?H2' by lia; rewrite ?F2; try lia.
    - by rewrite (wo_base _ _ _ _ W2).
    - apply (wo_bytes _ _ _ _ W2); [apply to_be_bytes|done].
    - unfold INT_MAX. lia.
    - rewrite F8, D2 by lia. done.
    - rewrite F12, D2 by lia. done. }
  exists b2. split; [done|]. pose proof (relaid_ready b b2 Hr Hrl) as Hr2. split_and!; [done|by apply (relaid_holds b b2 Hr Hrl)| |lia|unfold used; rewrite !H2' by lia; lia|unfold used; lia|rewrite H2' by lia; done].
  split; [|rewrite !H2' by lia; lia]. split; [apply Hrs|rewrite H2', F16, D2 by lia; done|rewrite H2', F2, F16 by lia; lia].
Qed.
End Pack.

(** ** Opening *)
Section Open.
  Context (b : region) (Hr : rw_ready b) (l : list (Z * Z)) (Hl : reserved b l).
  Local Abbreviation ms := (zlen (map_of l)).

Lemma in_order : at_ptr 0 (rd (fun c => fdt_blocks_misordered_ c ms (hv b 36))) b = Some (false, b).
Proof.
  pose proof (rw_bounds b Hr) as Hbd. destruct Hl as [_ Hend]. pose proof (zlen_nonneg (map_of l)). apply at_ptr_0; [|done]. unfold rd, fdt_blocks_misordered_, or_else, fdt_off_mem_rsvmap, fdt_off_dt_struct, fdt_off_dt_strings, fdt_size_dt_strings, fdt_totalsize.
  rewrite !(field_ok b (rb_ok _ (rw_read _ Hr))) by lia. cbn [mbind option_bind]. change rw_hdrsize with 40. rewrite !uw_small by (unfold is_uw; lia). destruct (Z.ltb_spec (hv b 16) 40); [lia|]. cbn [mbind option_bind].
  destruct (Z.ltb_spec (hv b 8) (hv b 16 + ms)); [lia|]. cbn [mbind option_bind]. destruct (Z.ltb_spec (hv b 12) (hv b 8 + hv b 36)); [lia|]. cbn [mbind option_bind]. by destruct (Z.ltb_spec (hv b 4) (hv b 12 + hv b 32)); [lia|].
Qed.

(** In its own buffer, a blob gets the size of the buffer. *)
Lemma open_into_ok t size : holds b t -> size <= zlen (r_bytes b) -> size < INT_MAX ->
  (size < hv b 4 /\ fdt_open_into 0 0 size b = Some (- FDT_ERR_NOSPACE, b)) \/
  (hv b 4 <= size /\ exists b', fdt_open_into 0 0 size b = Some (0, b') /\ rw_ready b' /\ holds b' t /\ reserved b' l /\ hv b' 4 = size /\ used b' = used b).
Proof.
  intros Ht Hs Hint. unfold INT_MAX in Hint. pose proof (rw_read _ Hr) as R. pose proof (rw_bounds b Hr) as Hbd. pose proof Hl as [Hrs Hend]. pose proof (zlen_nonneg (map_of l)). pose proof (rw_ver _ Hr) as Hver.
  unfold fdt_open_into, mbind, M_bind. rewrite (at_read _ b 4) by (done || lia). assert (at_ptr 0 (rd fdt_ro_probe_) b = Some (hv b 4, b)) as Epr by (apply at_ptr_0; [unfold rd; by rewrite (probe_tot b R)|done]). rewrite Epr. destruct (Z.ltb_spec (hv b 4) 0); [lia|].
  rewrite (at_ptr_0 (rd fdt_num_mem_rsv) b (zlen l) b) by (done || unfold rd; by rewrite (rsv_count b R l Hrs)). replace ((zlen l + 1) * 16) with ms by (rewrite zlen_map_of; lia). rewrite (sw_small 32 ms) by (unfold is_sw; lia).
  rewrite (at_read _ b 20) by (done || lia). rewrite Hver. change (17 <=? 17) with true. cbv iota beta. rewrite (at_read _ b 36) by (done || lia). rewrite (sw_small 32 (hv b 36)) by (unfold is_sw; lia). unfold mret, M_ret. change (17 =? 16) with false. cbn [andb]. rewrite in_order. cbn [negb].
  unfold fdt_move_within, mbind, M_bind. destruct (Z.ltb_spec size 0); [left; split; [lia|done]|]. rewrite Epr. destruct (Z.ltb_spec (hv b 4) 0); [lia|]. rewrite (at_read _ b 4) by (done || lia). rewrite (uw_small 32 size) by (unfold is_uw; lia).
  destruct (Z.ltb_spec size (hv b 4)); [left; split; [lia|done]|]. right. split; [done|]. rewrite memmove_same by lia. cbn [negb Z.eqb]. unfold mret, M_ret. cbn [negb Z.eqb].
  destruct (at_field fdt_set_version b 20 17) as (b1 & -> & W1 & F1 & K1 & D1); [done|lia|lia|done|]. pose proof (wo_len _ _ _ _ W1) as L1.
  destruct (at_field fdt_set_size_dt_struct b1 36 (hv b 36)) as (b2 & -> & W2 & F2 & K2 & D2); [done|lia|lia|unfold is_uw; lia|]. pose proof (wo_len _ _ _ _ W2) as L2.
  destruct (at_field fdt_set_totalsize b2 4 size) as (b3 & -> & W3 & F3 & K3 & D3); [done|lia|lia|unfold is_uw; lia|]. pose proof (wo_len _ _ _ _ W3) as L3. exists b3. split; [done|].
  assert (forall k, 0 <= k <= 36 -> k + 4 <= 4 \/ 8 <= k /\ k + 4 <= 20 \/ 24 <= k /\ k + 4 <= 36 -> hv b3 k = hv b k) as H123 by (intros k Hk Hd; rewrite K3, K2, K1 by lia; done).
  assert (forall x n, 40 <= x -> 0 <= n -> rdn (r_bytes b3) x n = rdn (r_bytes b) x n) as D123 by (intros x n Hx Hn; rewrite D3, D2, D1 by lia; done). assert (hv b3 36 = hv b 36) as E36 by (rewrite K3, F2 by lia; done). assert (hv b3 20 = 17) as E20 by (rewrite K3, K2, F1 by lia; done).
  pose proof (H123 0 ltac:(lia) ltac:(lia)). pose proof (H123 8 ltac:(lia) ltac:(lia)) as E8. pose proof (H123 12 ltac:(lia) ltac:(lia)) as E12. pose proof (H123 16 ltac:(lia) ltac:(lia)). pose proof (H123 24 ltac:(lia) ltac:(lia)). pose proof (H123 32 ltac:(lia) ltac:(lia)).
  assert (relaid b b3) as Hrl.
  { split; try (unfold INT_MAX; lia).
    - by rewrite (wo_base _ _ _ _ W3), (wo_base _ _ _ _ W2), (wo_base _ _ _ _ W1).
    - apply (wo_bytes _ _ _ _ W3), (wo_bytes _ _ _ _ W2), (wo_bytes _ _ _ _ W1); try apply to_be_bytes. apply (bo_bytes _ (rb_ok _ R)).
    - rewrite E8, D123 by lia. done.
    - rewrite E12, D123 by lia. done. }
  split_and!; [by apply (relaid_ready b b3 Hr)|by apply (relaid_holds b b3 Hr)| |done|unfold used; rewrite !H123 by lia; done]. destruct Hrs as [Hfine Hb Hin].
  split; [|rewrite !H123 by lia; done]. split; [done|rewrite H123, D123 by lia; done|rewrite H123, F3 by lia; lia].
Qed.
End Open.

(** A finished blob is one that can be changed. *)
Lemma finished_ready total b rsv t : finished total b rsv t -> rw_ready b /\ reserved b rsv.
Proof.
  intros (((t' & Ht' & _) & _) & (H20 & H16 & H8 & H12 & H4) & Hrs & Hz). pose proof (zlen_nonneg rsv). pose proof (zlen_map_of rsv) as Lm. pose proof (proj1 Ht') as R.
  split; [split; [done|done|lia..]|]. split; [done|lia].
Qed.

Lemma and_then_assoc f g h s : and_then (and_then f g) h s = and_then f (and_then g h) s.
Proof. unfold and_then, mbind, M_bind. destruct (f s) as [[rc s1]|]; [|done]. destruct (negb (rc =? 0)) eqn:E; [|done]. unfold mret, M_ret. by rewrite E. Qed.

Lemma and_then_ret g s : and_then (mret 0) g s = g s.
Proof. done. Qed.

Lemma and_then_ext f g g' s : (forall s, g s = g' s) -> and_then f g s = and_then f g' s.
Proof. intros H. unfold and_then, mbind, M_bind. destruct (f s) as [[rc s1]|]; [|done]. by destruct (negb (rc =? 0)). Qed.

(** [fdt_create_empty_tree] makes a tree of one node without properties and
    sub-nodes in the whole buffer, without reservations and ready for changes; it
    fails only for a buffer that cannot hold even that. *)
Theorem fdt_create_empty_tree_correct base m : Z.land base 7 = 0 -> zlen m < INT_MAX -> exists rc b', fdt_create_empty_tree (zlen m) (Region base m) = Some (rc, b') /\
  ((rc = 0 /\ rw_ready b' /\ reserved b' [] /\ hv b' 4 = zlen m /\ exists t, holds b' t /\ erase t = SNode [] [] []) \/ (rc = - FDT_ERR_NOSPACE /\ zlen m < 80)).
Proof.
  intros Ha Hm. assert (tree_fine (SNode [] [] [])) as Hf. { cbn [tree_fine foldr]. unfold text. split_and!; try done; try constructor; by inversion 1. }
  destruct (write_tree_ok base m 0 [] (SNode [] [] []) Ha Hm ltac:(by left) ltac:(constructor) Hf) as (rc & b & E & Hc).
  assert (fdt_create_empty_tree (zlen m) (Region base m) = and_then (write_tree (zlen m) 0 [] (SNode [] [] [])) (fdt_open_into 0 0 (zlen m)) (Region base m)) as ->.
  { unfold fdt_create_empty_tree, write_tree. rewrite and_then_assoc. apply and_then_ext. intros s1. rewrite and_then_assoc. cbn [all_of fmap list_fmap]. rewrite and_then_ret, and_then_assoc. apply and_then_ext. intros s2.
    rewrite and_then_assoc. cbn [write_node all_of fmap list_fmap]. rewrite and_then_assoc. apply and_then_ext. intros s3. by rewrite and_then_assoc, and_then_ret, and_then_assoc, and_then_ret. }
  unfold and_then, mbind, M_bind. rewrite E. destruct Hc as [[-> Hfin]|[-> Hlt]].
  - cbn [negb Z.eqb]. destruct (finished_ready _ _ _ _ Hfin) as [Hr Hrs]. destruct Hfin as (((t & Ht & Et) & _) & _ & _ & Hz). destruct (open_into_ok b Hr [] Hrs t (zlen m) Ht ltac:(lia) Hm) as [[Hlt _]|(_ & b' & -> & Hr' & Ht' & Hrs' & H4 & _)].
    + pose proof (rw_bounds b Hr). lia.
    + do 2 eexists. split; [done|]. left. split_and!; try done. by exists t.
  - cbn [negb Z.eqb]. do 2 eexists. split; [done|]. right. split; [done|]. revert Hlt. vm_compute. done.
Qed.

(** *** A sample with a reservation *)
Definition rsv_blob : region := Eval vm_compute in
  match and_then (write_tree 360 0 [(4096, 256)] room_tree) (fdt_open_into 0 0 360) (Region 0 (replicate 360 170)) with Some (0, b) => b | _ => Region 0 [] end.
Definition rsv_dt : dt := Eval vm_compute in default (DNode 0 [] [] []) (the_tree rsv_blob).

Lemma rsv_ready : rw_ready rsv_blob.
Proof. split; [|vm_compute; congruence..]. split; [|vm_compute; congruence..]. split; [|vm_compute; congruence..]. apply bytes_check. vm_compute. reflexivity. Qed.
Lemma rsv_holds : holds rsv_blob rsv_dt.
Proof. apply the_tree_holds; [exact (rw_read _ rsv_ready)|vm_compute; reflexivity]. Qed.
Lemma rsv_reserved : reserved rsv_blob [(4096, 256)].
Proof. split; [|vm_compute; congruence]. split; [by repeat constructor|vm_compute; reflexivity|vm_compute; congruence]. Qed.

Lemma fdt_mem_rsv_witness : exists b', fdt_add_mem_rsv 8192 512 rsv_blob = Some (0, b') /\ fdt_num_mem_rsv b' = Some 2 /\ holds b' rsv_dt.
Proof.
  destruct (fdt_mem_rsv_correct rsv_blob rsv_dt [(4096, 256)] rsv_ready rsv_holds rsv_reserved) as (Hadd & _). destruct (Hadd 8192 512) as (rc & b' & E & Hc); [by split|].
  destruct Hc as [(-> & _ & Ht & _ & Hn & _)|(_ & _ & Hlt)]; [|vm_compute in Hlt; discriminate Hlt]. exists b'. split; [exact E|]. split; [exact Hn|exact Ht].
Defined.

Lemma fdt_pack_witness : exists b', fdt_pack rsv_blob = Some (0, b') /\ holds b' rsv_dt /\ hv b' 4 = 166.
Proof.
  destruct (fdt_pack_correct rsv_blob rsv_ready [(4096, 256)] rsv_reserved rsv_dt rsv_holds) as (b' & E & _ & Ht & _ & H4 & _). exists b'. split; [exact E|]. split; [exact Ht|]. rewrite H4. vm_compute. reflexivity.
Defined.

Lemma fdt_create_empty_tree_witness : exists b', fdt_create_empty_tree 100 (Region 0 (replicate 100 7)) = Some (0, b') /\ rw_ready b'.
Proof.
  destruct (fdt_create_empty_tree_correct 0 (replicate 100 7)) as (rc & b' & E & Hc); [reflexivity|reflexivity|]. change (zlen (replicate 100 7)) with 100 in *. destruct Hc as [(-> & Hr & _)|(_ & Hlt)]; [|discriminate Hlt]. exists b'. split; [exact E|exact Hr].
Defined.
