(* ===== verification/FdtOverlay.v ===== *)
(** Applying a device-tree overlay: src/deps/libfdt/fdt_overlay.c.

    The state is the pair of the base tree's memory and the overlay's. The
    argument [fuel] bounds the recursion through aliases in paths, as in
    FdtRo.v; the recursion over nodes carries a fuel of its own. *)
From S2P Require Import Prelude KDefs Bytes Fdt FdtRo FdtCheck FdtSw FdtRw.

Definition on_fdt {A} (f : M region A) : M (region * region) A := fun s =>
  match f s.1 with Some (a, b) => Some (a, (b, s.2)) | None => None end.
Definition on_fdto {A} (f : M region A) : M (region * region) A := fun s =>
  match f s.2 with Some (a, b) => Some (a, (s.1, b)) | None => None end.

(** A function of fdt_wip.c as a computation. *)
Definition inplace (f : region -> option (Z * list Z)) : M region Z := fun b =>
  r ← f b; Some (r.1, Region (r_base b) r.2).

(** ** Loops

    [fdt_for_each_subnode] and [fdt_for_each_property_offset] over the blob
    [view s]; the body is left with [return] when it returns other than 0. *)
Section Loops.
  Context {St : Type} (view : St -> region) (body : Z -> M St Z).

Fixpoint each_subnode (fuel : nat) (node : Z) : M St Z :=
  match fuel with
  | O => fault
  | S fuel =>
      if node <? 0 then mret 0
      else
        ret ← body node;
        if negb (ret =? 0) then mret ret
        else
          s ← get;
          next ← lift (fdt_next_subnode (view s) node);
          each_subnode fuel next
  end.
Definition for_each_subnode (parent : Z) : M St Z :=
  s ← get;
  node ← lift (fdt_first_subnode (view s) parent);
  each_subnode (blob_fuel (view s)) node.

Fixpoint each_property (fuel : nat) (property : Z) : M St Z :=
  match fuel with
  | O => fault
  | S fuel =>
      if property <? 0 then mret 0
      else
        ret ← body property;
        if negb (ret =? 0) then mret ret
        else
          s ← get;
          next ← lift (fdt_next_property_offset (view s) property);
          each_property fuel next
  end.
Definition for_each_property_offset (node : Z) : M St Z :=
  s ← get;
  property ← lift (fdt_first_property_offset (view s) node);
  each_property (blob_fuel (view s)) property.
End Loops.

(** ** Targets *)
Definition overlay_get_target_phandle (fdto : region) (fragment : Z) : option Z :=
  r ← fdt_getprop fdto fragment (byte_list "target");
  match r with
  | (None, _) => Some 0
  | (Some val, len) =>
      if negb (len =? 4) then Some (u32 (-1))
      else fdt32_ld (r_bytes fdto) val
  end.

(** The offset or an error, and [*pathp]: the path in the overlay, or NULL. *)
Definition fdt_overlay_target_offset (fuel : nat) (fdt fdto : region) (fragment_offset : Z) : option (Z * option Z) :=
  phandle ← overlay_get_target_phandle fdto fragment_offset;
  if phandle =? u32 (-1) then Some (- FDT_ERR_BADPHANDLE, None)
  else
    r ← (if phandle =? 0 then
           r ← fdt_getprop fdto fragment_offset (byte_list "target-path");
           match r with
           | (Some path, path_len) =>
               p ← cstr (r_bytes fdto) path;
               ret ← fdt_path_offset fdt fuel p;
               Some (ret, Some path, path_len)
           | (None, path_len) => Some (path_len, None, path_len)
           end
         else
           ret ← fdt_node_offset_by_phandle fdt phandle;
           Some (ret, None, 0));
    let '(ret, path, path_len) := (r : Z * option Z * Z) in
    let ret := if (ret <? 0) && (path_len =? - FDT_ERR_NOTFOUND) then - FDT_ERR_BADOVERLAY else ret in
    if ret <? 0 then Some (ret, None) else Some (ret, path).

(** ** Phandles of the overlay *)
Definition overlay_phandle_add_offset (node : Z) (name : list Z) (delta : Z) : M region Z :=
  r ← rd (fun b => r ← fdt_getprop b node name;
                   match r with
                   | (None, len) => Some (inr len)
                   | (Some val, len) =>
                       if negb (len =? 4) then Some (inr (- FDT_ERR_BADPHANDLE))
                       else inl <$> fdt32_ld (r_bytes b) val
                   end);
  match (r : Z + Z) with
  | inr err => mret err
  | inl adj_val =>
      if u32 (adj_val + delta) <? adj_val then mret (- FDT_ERR_NOPHANDLES)
      else
        let adj_val := u32 (adj_val + delta) in
        if adj_val =? u32 (-1) then mret (- FDT_ERR_NOPHANDLES)
        else inplace (fun b => fdt_setprop_inplace_u32 b node name adj_val)
  end.

Fixpoint overlay_adjust_node_phandles (fuel : nat) (node delta : Z) : M region Z :=
  match fuel with
  | O => fault
  | S fuel =>
      ret ← overlay_phandle_add_offset node (byte_list "phandle") delta;
      if negb (ret =? 0) && negb (ret =? - FDT_ERR_NOTFOUND) then mret ret
      else
        ret ← overlay_phandle_add_offset node (byte_list "linux,phandle") delta;
        if negb (ret =? 0) && negb (ret =? - FDT_ERR_NOTFOUND) then mret ret
        else for_each_subnode id (fun child => overlay_adjust_node_phandles fuel child delta) node
  end.

Definition overlay_adjust_local_phandles (delta : Z) : M region Z :=
  b ← get; overlay_adjust_node_phandles (blob_fuel b) 0 delta.

(** The [for] over the offsets a fixup property lists; [name] points into the
    strings of the overlay. *)
Fixpoint fixup_loop (n : nat) (fixup_val tree_val tree_node name delta : Z) : M region Z :=
  match n with
  | O => mret 0
  | S n =>
      poffset ← rd (fun b => fdt32_ld (r_bytes b) fixup_val);
      adj_val ← rd (fun b => fdt32_ld (r_bytes b) (tree_val + poffset));
      s ← rd (fun b => cstr (r_bytes b) name);
      ret ← inplace (fun b => fdt_setprop_inplace_namelen_partial b tree_node s poffset (to_be 4 (u32 (adj_val + delta))));
      if ret =? - FDT_ERR_NOSPACE then mret (- FDT_ERR_BADOVERLAY)
      else if negb (ret =? 0) then mret ret
      else fixup_loop n (fixup_val + 4) tree_val tree_node name delta
  end.

(** Pointers to the name and the value of the property at an offset, and the
    length of the value; or the error. *)
Definition prop_ptrs (b : region) (property : Z) : option ((Z * Z * Z) + Z) :=
  r ← fdt_getprop_by_offset b property true;
  match r with
  | (Some val, Some name, len) => Some (inl (name, val, len))
  | (_, _, len) => Some (inr len)
  end.
(** The same with the name as a string. *)
Definition named_prop (b : region) (property : Z) : option ((list Z * Z * Z) + Z) :=
  r ← prop_ptrs b property;
  match r with
  | inl (name, val, len) => n ← cstr (r_bytes b) name; Some (inl (n, val, len))
  | inr len => Some (inr len)
  end.

Definition update_reference (tree_node fixup_prop delta : Z) : M region Z :=
  r ← rd (fun b => prop_ptrs b fixup_prop);
  match (r : (Z * Z * Z) + Z) with
  | inr fixup_len => mret fixup_len
  | inl (name, fixup_val, fixup_len) =>
      if negb (u64 fixup_len mod 4 =? 0) then mret (- FDT_ERR_BADOVERLAY)
      else
        t ← rd (fun b => s ← cstr (r_bytes b) name; fdt_getprop b tree_node s);
        match (t : option Z * Z) with
        | (None, tree_len) => mret (if tree_len =? - FDT_ERR_NOTFOUND then - FDT_ERR_BADOVERLAY else tree_len)
        | (Some tree_val, _) => fixup_loop (Z.to_nat (fixup_len / 4)) fixup_val tree_val tree_node name delta
        end
  end.

(** The name of a node as a string; a NULL pointer is not expected. *)
Definition node_name (b : region) (node : Z) : option (list Z) :=
  r ← fdt_get_name b node;
  match r with (Some p, _) => cstr (r_bytes b) p | (None, _) => None end.

Fixpoint overlay_update_local_node_references (fuel : nat) (tree_node fixup_node delta : Z) : M region Z :=
  match fuel with
  | O => fault
  | S fuel =>
      ret ← for_each_property_offset id (fun fixup_prop => update_reference tree_node fixup_prop delta) fixup_node;
      if negb (ret =? 0) then mret ret
      else
        for_each_subnode id (fun fixup_child =>
          name ← rd (fun b => node_name b fixup_child);
          tree_child ← rd (fun b => fdt_subnode_offset b tree_node name);
          if tree_child =? - FDT_ERR_NOTFOUND then mret (- FDT_ERR_BADOVERLAY)
          else if tree_child <? 0 then mret tree_child
          else overlay_update_local_node_references fuel tree_child fixup_child delta) fixup_node
  end.

Definition overlay_update_local_references (depth : nat) (delta : Z) : M region Z :=
  fixups ← rd (fun b => fdt_path_offset b depth (byte_list "/__local_fixups__"));
  if fixups <? 0 then mret (if fixups =? - FDT_ERR_NOTFOUND then 0 else fixups)
  else b ← get; overlay_update_local_node_references (blob_fuel b) 0 fixups delta.

(** ** References into the base tree *)

(** [strtoul(s, &endptr, 10)] on a string: the value and the characters read. *)
Definition is_space (c : Z) : bool := (c =? 32) || ((9 <=? c) && (c <=? 13)).
Definition is_digit (c : Z) : bool := (48 <=? c) && (c <=? 57).
Fixpoint take_spaces (l : list Z) : Z * list Z :=
  match l with
  | c :: l' => if is_space c then let '(n, r) := take_spaces l' in (n + 1, r) else (0, l)
  | [] => (0, [])
  end.
Fixpoint take_digits (acc : Z) (l : list Z) : Z * Z :=
  match l with
  | c :: l' => if is_digit c then let '(v, n) := take_digits (acc * 10 + (c - 48)) l' in (v, n + 1) else (acc, 0)
  | [] => (acc, 0)
  end.
Definition strtoul10 (s : list Z) : Z * Z :=
  let '(n, l) := take_spaces s in
  let '(neg, k, l) := match l with 45 :: l' => (true, 1, l') | 43 :: l' => (false, 1, l') | _ => (false, 0, l) end in
  let '(v, d) := take_digits 0 l in
  if d =? 0 then (0, 0)
  else (if 2 ^ 64 <=? v then 2 ^ 64 - 1 else if (neg : bool) then u64 (- v) else v, n + k + d).

(** [path] is the overlay's memory from the path on; [label] points into the
    overlay. *)
Definition overlay_fixup_one_phandle (fuel : nat) (symbols_off : Z) (path : list Z) (path_len : Z) (name : list Z)
    (poffset label : Z) : M (region * region) Z :=
  if symbols_off <? 0 then mret symbols_off
  else
    label ← on_fdto (rd (fun b => cstr (r_bytes b) label));
    r ← on_fdt (rd (fun b => fdt_getprop b symbols_off label));
    match (r : option Z * Z) with
    | (None, prop_len) => mret prop_len
    | (Some symbol_path, _) =>
        symbol_off ← on_fdt (rd (fun b => p ← cstr (r_bytes b) symbol_path; fdt_path_offset b fuel p));
        if symbol_off <? 0 then mret symbol_off
        else
          phandle ← on_fdt (rd (fun b => fdt_get_phandle b symbol_off));
          if phandle =? 0 then mret (- FDT_ERR_NOTFOUND)
          else
            fixup_off ← on_fdto (rd (fun b => fdt_path_offset_namelen b fuel path path_len));
            if fixup_off =? - FDT_ERR_NOTFOUND then mret (- FDT_ERR_BADOVERLAY)
            else if fixup_off <? 0 then mret fixup_off
            else on_fdto (inplace (fun b => fdt_setprop_inplace_namelen_partial b fixup_off name poffset (to_be 4 phandle)))
    end.

(** One entry "path:name:offset" of a fixup, given by where it starts and its
    length: its parts, or the error. *)
Definition fixup_entry (m : list Z) (fixup_str fixup_len : Z) : option ((Z * list Z * Z) + Z) :=
  sep ← memchr m fixup_str 58 fixup_len;
  match sep with
  | None => Some (inr (- FDT_ERR_BADOVERLAY))
  | Some sep =>
      let path_len := u32 (sep - fixup_str) in
      if path_len =? u32 (fixup_len - 1) then Some (inr (- FDT_ERR_BADOVERLAY))
      else
        let fixup_len := u32 (fixup_len - (path_len + 1)) in
        let name := sep + 1 in
        sep ← memchr m name 58 fixup_len;
        match sep with
        | None => Some (inr (- FDT_ERR_BADOVERLAY))
        | Some sep =>
            let name_len := u32 (sep - name) in
            if name_len =? 0 then Some (inr (- FDT_ERR_BADOVERLAY))
            else
              s ← cstr m (sep + 1);
              let '(v, used) := strtoul10 s in
              if negb (used =? zlen s) || (used <=? 0) then Some (inr (- FDT_ERR_BADOVERLAY))
              else n ← rdn m name name_len; Some (inl (path_len, n, s32 v))
        end
  end.

Fixpoint fixup_phandle_loop (loop fuel : nat) (symbols_off value len label : Z) : M (region * region) Z :=
  match loop with
  | O => fault
  | S loop =>
      s ← get;
      let m := r_bytes s.2 in
      fixup_end ← lift (memchr m value 0 len);
      match fixup_end with
      | None => mret (- FDT_ERR_BADOVERLAY)
      | Some fixup_end =>
          let fixup_len := u32 (fixup_end - value) in
          let len := s32 (len - (fixup_len + 1)) in
          e ← lift (fixup_entry m value fixup_len);
          match (e : (Z * list Z * Z) + Z) with
          | inr err => mret err
          | inl (path_len, name, poffset) =>
              ret ← overlay_fixup_one_phandle fuel symbols_off (drop (Z.to_nat value) m) path_len name poffset label;
              if negb (ret =? 0) then mret ret
              else if 0 <? len then fixup_phandle_loop loop fuel symbols_off (value + (fixup_len + 1)) len label
              else mret 0
          end
      end
  end.

Definition overlay_fixup_phandle (fuel : nat) (symbols_off property : Z) : M (region * region) Z :=
  r ← on_fdto (rd (fun b => prop_ptrs b property));
  match (r : (Z * Z * Z) + Z) with
  | inr len => mret (if len =? - FDT_ERR_NOTFOUND then - FDT_ERR_INTERNAL else len)
  | inl (label, value, len) => fixup_phandle_loop (S (Z.to_nat len)) fuel symbols_off value len label
  end.

Definition overlay_fixup_phandles (fuel : nat) : M (region * region) Z :=
  fixups_off ← on_fdto (rd (fun b => fdt_path_offset b fuel (byte_list "/__fixups__")));
  if fixups_off =? - FDT_ERR_NOTFOUND then mret 0
  else if fixups_off <? 0 then mret fixups_off
  else
    symbols_off ← on_fdt (rd (fun b => fdt_path_offset b fuel (byte_list "/__symbols__")));
    if (symbols_off <? 0) && negb (symbols_off =? - FDT_ERR_NOTFOUND) then mret symbols_off
    else for_each_property_offset snd (overlay_fixup_phandle fuel symbols_off) fixups_off.

(** ** Merging *)
Definition apply_property (target property : Z) : M (region * region) Z :=
  r ← on_fdto (rd (fun b => named_prop b property));
  match (r : (list Z * Z * Z) + Z) with
  | inr prop_len => mret (if prop_len =? - FDT_ERR_NOTFOUND then - FDT_ERR_INTERNAL else prop_len)
  | inl (name, prop, prop_len) =>
      if prop_len <? 0 then mret prop_len
      else
        val ← on_fdto (rd (fun b => rdn (r_bytes b) prop prop_len));
        on_fdt (fdt_setprop target name val)
  end.

Definition merge_node (target : Z) (name : list Z) : M region Z :=
  nnode ← fdt_add_subnode target name;
  if nnode =? - FDT_ERR_EXISTS then
    nnode ← rd (fun b => fdt_subnode_offset b target name);
    mret (if nnode =? - FDT_ERR_NOTFOUND then - FDT_ERR_INTERNAL else nnode)
  else mret nnode.

Fixpoint overlay_apply_node (fuel : nat) (target node : Z) : M (region * region) Z :=
  match fuel with
  | O => fault
  | S fuel =>
      ret ← for_each_property_offset snd (apply_property target) node;
      if negb (ret =? 0) then mret ret
      else
        for_each_subnode snd (fun subnode =>
          name ← on_fdto (rd (fun b => node_name b subnode));
          nnode ← on_fdt (merge_node target name);
          if nnode <? 0 then mret nnode
          else overlay_apply_node fuel nnode subnode) node
  end.

Definition overlay_merge (fuel : nat) : M (region * region) Z :=
  for_each_subnode snd (fun fragment =>
    overlay ← on_fdto (rd (fun b => fdt_subnode_offset b fragment (byte_list "__overlay__")));
    if overlay =? - FDT_ERR_NOTFOUND then mret 0
    else if overlay <? 0 then mret overlay
    else
      s ← get;
      t ← lift (fdt_overlay_target_offset fuel s.1 s.2 fragment);
      let target := (t : Z * option Z).1 in
      if target <? 0 then mret target
      else overlay_apply_node (blob_fuel s.2) target overlay) 0.

(** ** Symbols *)
Fixpoint path_len_loop (fuel : nat) (b : region) (nodeoffset len : Z) : option Z :=
  match fuel with
  | O => None
  | S fuel =>
      r ← fdt_get_name b nodeoffset;
      match r with
      | (None, namelen) => Some namelen
      | (Some _, namelen) =>
          if namelen =? 0 then Some (if len =? 0 then 1 else len)
          else
            nodeoffset ← fdt_parent_offset b nodeoffset;
            if nodeoffset <? 0 then Some nodeoffset else path_len_loop fuel b nodeoffset (s32 (len + (namelen + 1)))
      end
  end.
Definition get_path_len (b : region) (nodeoffset : Z) : option Z :=
  err ← fdt_ro_probe_ b;
  if err <? 0 then Some err else path_len_loop (blob_fuel b) b nodeoffset 0.

(** What a symbol's path names: an error, nothing in the merged tree, or the
    name of a fragment and the path below its target. *)
Inductive symbol := SymBad (err : Z) | SymSkip | SymIn (frag_name rel_path : list Z).

Definition overlay_symbol (m : list Z) (path path_len : Z) : option symbol :=
  nul ← (if path_len <? 1 then Some None else memchr m path 0 path_len);
  if negb (bool_decide (nul = Some (path + path_len - 1))) then Some (SymBad (- FDT_ERR_BADVALUE))
  else
    l ← rdn m path (path_len - 1);
    match l with
    | 47 :: l =>
        match List.find (fun i => bool_decide (l !! i = Some 47)) (seq 0 (length l)) with
        | None => Some SymSkip
        | Some i =>
            let frag_name := take i l in
            let s := drop i l in
            let ov := byte_list "/__overlay__/" in
            (* e - s counts the NUL *)
            if (zlen ov <? zlen s + 1) && bool_decide (take (length ov) s = ov) then
              Some (SymIn frag_name (drop (length ov) s))
            else if (zlen s + 1 =? zlen ov) && bool_decide (s = byte_list "/__overlay__") then
              Some (SymIn frag_name [])
            else Some SymSkip
        end
    | _ => Some (SymBad (- FDT_ERR_BADVALUE))
    end.

(** The value of a symbol: the path of the target, then the relative path.
    [fdt_get_path] writes to the property's value, which the walk over the tree
    does not read. *)
Definition write_symbol (p len target : Z) (target_path : option (list Z)) (rel_path : list Z) : M region Z :=
  ret ← (if 1 <? len then
           match target_path with
           | None =>
               r ← rd (fun b => buf ← rdn (r_bytes b) p (len + 1); fdt_get_path b target buf (len + 1));
               let '(ret, buf) := (r : Z * list Z) in
               wr p buf ≫= fun _ => mret ret
           | Some path => wr p (path ++ [0]) ≫= fun _ => mret 0
           end
         else mret 0);
  if ret <? 0 then mret ret
  else
    let len := if 1 <? len then len else len - 1 in
    wr (p + len) [47] ≫= fun _ =>
    wr (p + len + 1) rel_path ≫= fun _ =>
    wr (p + len + 1 + zlen rel_path) [0] ≫= fun _ =>
    mret 0.

Definition update_symbol (fuel : nat) (root_sym prop : Z) : M (region * region) Z :=
  r ← on_fdto (rd (fun b => named_prop b prop));
  match (r : (list Z * Z * Z) + Z) with
  | inr path_len => mret path_len
  | inl (name, path, path_len) =>
      sym ← on_fdto (rd (fun b => overlay_symbol (r_bytes b) path path_len));
      match sym with
      | SymBad err => mret err
      | SymSkip => mret 0
      | SymIn frag_name rel_path =>
          fragment ← on_fdto (rd (fun b => fdt_subnode_offset_namelen b 0 frag_name));
          if fragment <? 0 then mret (- FDT_ERR_BADOVERLAY)
          else
            ret ← on_fdto (rd (fun b => fdt_subnode_offset b fragment (byte_list "__overlay__")));
            if ret <? 0 then mret (- FDT_ERR_BADOVERLAY)
            else
              s ← get;
              t ← lift (fdt_overlay_target_offset fuel s.1 s.2 fragment);
              let '(target, target_path) := (t : Z * option Z) in
              if target <? 0 then mret target
              else
                path ← lift (match target_path with
                             | Some tp => Some <$> cstr (r_bytes s.2) tp
                             | None => Some None
                             end);
                len ← lift (match path with Some p => Some (zlen p) | None => get_path_len s.1 target end);
                if len <? 0 then mret len
                else
                  r ← on_fdt (fdt_setprop_placeholder root_sym name (s32 (len + b2z (1 <? len) + zlen rel_path + 1)));
                  match (r : Z * option Z) with
                  | (0, Some p) =>
                      t ← (match path with
                           | Some _ => mret (target, path)
                           | None =>
                               s ← get;
                               t ← lift (fdt_overlay_target_offset fuel s.1 s.2 fragment);
                               path ← lift (match (t : Z * option Z).2 with
                                            | Some tp => Some <$> cstr (r_bytes s.2) tp
                                            | None => Some None
                                            end);
                               mret (t.1, path)
                           end);
                      let '(target, path) := (t : Z * option (list Z)) in
                      if target <? 0 then mret target
                      else on_fdt (write_symbol p len target path rel_path)
                  | (ret, _) => mret ret
                  end
      end
  end.

Definition overlay_symbol_update (fuel : nat) : M (region * region) Z :=
  ov_sym ← on_fdto (rd (fun b => fdt_subnode_offset b 0 (byte_list "__symbols__")));
  if ov_sym <? 0 then mret 0
  else
    root_sym ← on_fdt (rd (fun b => fdt_subnode_offset b 0 (byte_list "__symbols__")));
    root_sym ← (if root_sym =? - FDT_ERR_NOTFOUND then on_fdt (fdt_add_subnode 0 (byte_list "__symbols__")) else mret root_sym);
    if root_sym <? 0 then mret root_sym
    else for_each_property_offset snd (update_symbol fuel root_sym) ov_sym.

(** ** The whole *)

(** The steps after the probes, up to the first error. *)
Fixpoint until_error {St} (l : list (M St Z)) : M St Z :=
  match l with
  | [] => mret 0
  | f :: l => ret ← f; if negb (ret =? 0) then mret ret else until_error l
  end.

Definition fdt_overlay_apply (fuel : nat) : M (region * region) Z :=
  err ← on_fdt (rd fdt_ro_probe_);
  if err <? 0 then mret err
  else
    err ← on_fdto (rd fdt_ro_probe_);
    if err <? 0 then mret err
    else
      r ← on_fdt (rd fdt_find_max_phandle);
      let '(ret, delta) := (r : Z * Z) in
      ret ← until_error [mret ret; on_fdto (overlay_adjust_local_phandles delta);
                         on_fdto (overlay_update_local_references fuel delta);
                         overlay_fixup_phandles fuel; overlay_merge fuel; overlay_symbol_update fuel];
      on_fdto (fdt_set_magic (u32 (-1))) ≫= fun _ =>
      if ret =? 0 then mret 0
      else on_fdt (fdt_set_magic (u32 (-1))) ≫= fun _ => mret ret.
