(* ===== verification/FdtMerge.v ===== *)
(** Merging an overlay: the loops of fdt_overlay.c go through the properties and
    sub-nodes of the overlay's tree, and [overlay_apply_node] merges the trees. *)
From S2P Require Import Prelude KDefs Bytes Fdt FdtRo FdtSafe FdtRoSafe FdtProps FdtHelper FdtCheck FdtTree FdtPath FdtSw FdtSwProps FdtSeg FdtMove FdtEdit FdtSwTree FdtRw FdtSplice FdtRwProps FdtRwNodes FdtScript FdtOverlay.

(** ** Loops over a tree *)

(** The body of a loop run on a list, until it returns other than 0. *)
Fixpoint run_all {St} (body : Z -> M St Z) (l : list Z) : M St Z :=
  match l with
  | [] => mret 0
  | x :: l => ret ← body x; if negb (ret =? 0) then mret ret else run_all body l
  end.

Section Loop.
  Context {St : Type} (view : St -> region) (body : Z -> M St Z) (o : region) (Ho : readable o).
  (** The body leaves the blob alone. *)
  Context (Hbody : forall x s rc s', view s = o -> body x s = Some (rc, s') -> view s' = o).

Lemma each_property_tree x ps ks e : items o x ps ks e -> at_tag x -> forall fuel s, (length ps < fuel)%nat -> view s = o ->
  each_property view body fuel (first_off ps) s = run_all body (p_off <$> ps) s.
Proof.
  induction 1 as [x e Ht|x x1 ps ks e Ht Hi IH|x x1 p ps ks e Ht Hpo Hp Hi IH|x x1 x2 n ps ks ps' ks' e Ht _ Hi1 IH1 Hi2 IH2];
    intros Hg fuel s Hf Hv; pose proof (token_at_tag o Ho _ _ _ Hg Ht ltac:(done)) as Hg1; (destruct fuel as [|fuel]; [cbn in Hf; lia|]).
  - done.
  - by apply IH.
  - subst x. destruct (token_next o Ho _ _ _ (proj1 Hg) Ht ltac:(done)) as (_ & H0 & Hlt & _). cbn [first_off each_property]. rewrite fmap_cons. cbn [run_all].
    destruct (Z.ltb_spec (p_off p) 0); [lia|]. unfold mbind, M_bind. destruct (body (p_off p) s) as [[rc s']|] eqn:Eb; [|done]. destruct (negb (rc =? 0)); [done|].
    pose proof (Hbody _ _ _ _ Hv Eb) as Hv'. unfold get, lift. rewrite Hv'. unfold fdt_next_property_offset. rewrite (token_check_prop o Ho _ _ (proj1 Hg) Ht (proj2 Hg)). cbn [mbind option_bind].
    destruct (Z.ltb_spec x1 0); [lia|]. rewrite (nextprop_tree o Ho _ _ _ _ Hi Hg1). apply IH; [done|cbn in Hf; lia|done].
  - done.
Qed.

(** Properties take room. *)
Lemma props_increase x ps ks e : items o x ps ks e -> at_tag x -> 4 * zlen ps <= e - x.
Proof.
  induction 1 as [x e Ht|x x1 ps ks e Ht Hi IH|x x1 p ps ks e Ht Hpo Hp Hi IH|x x1 x2 n ps ks ps' ks' e Ht _ Hi1 IH1 Hi2 IH2];
    intros Hg; pose proof (token_at_tag o Ho _ _ _ Hg Ht ltac:(done)) as Hg1; destruct (token_next o Ho _ _ _ (proj1 Hg) Ht ltac:(done)) as (_ & H0 & Hlt & _); unfold zlen in *; cbn [length].
  - lia.
  - specialize (IH Hg1). lia.
  - specialize (IH Hg1). lia.
  - destruct (items_at_tag o Ho _ _ _ _ Hi1 Hg1) as [Hg2 ?]. destruct (items_at_tag o Ho _ _ _ _ Hi2 Hg2) as [_ ?]. lia.
Qed.

Lemma for_each_property_run v e s : at_tag (d_off v) -> node_at o v e -> view s = o ->
  for_each_property_offset view body (d_off v) s = run_all body (p_off <$> d_props v) s.
Proof.
  intros Hg Hn Hv. destruct (node_range o Ho v e Hg Hn) as (o1 & Ht & Hi & Hg1 & _ & H0 & ? & ? & ?). unfold for_each_property_offset, mbind, M_bind, get, lift. rewrite Hv.
  unfold fdt_first_property_offset. rewrite (token_check o Ho _ _ (proj1 Hg) Ht (proj2 Hg)). cbn [mbind option_bind]. destruct (Z.ltb_spec o1 0); [lia|]. rewrite (nextprop_tree o Ho _ _ _ _ Hi Hg1).
  apply (each_property_tree _ _ _ _ Hi Hg1); [|done]. pose proof (props_increase _ _ _ _ Hi Hg1). pose proof (node_end_bound o Ho v e Hg Hn). pose proof (bo_size _ (rb_ok _ Ho)). unfold blob_fuel, zlen in *. lia.
Qed.

Lemma each_subnode_tree v e : at_tag (d_off v) -> node_at o v e -> forall rest k fuel s, kid_then k (d_kids v) rest -> (length rest + 1 < fuel)%nat -> view s = o ->
  each_subnode view body fuel (d_off k) s = run_all body (d_off k :: (d_off <$> rest)) s.
Proof.
  intros Hg Hn. destruct (node_range o Ho v e Hg Hn) as (o1 & Ht & Hi & Hg1 & _).
  induction rest as [|k' rest IH]; intros k fuel s Hk Hf Hv; (destruct fuel as [|fuel]; [cbn in Hf; lia|]); cbn [each_subnode run_all];
    destruct (items_kids o Ho _ _ _ _ Hi Hg1 k (kid_then_in _ _ _ Hk)) as (ek & _ & _ & _ & Hk0 & _);
    (destruct (Z.ltb_spec (d_off k) 0); [lia|]); unfold mbind, M_bind; (destruct (body (d_off k) s) as [[rc s']|] eqn:Eb; [|done]); (destruct (negb (rc =? 0)); [done|]);
    pose proof (Hbody _ _ _ _ Hv Eb) as Hv'; unfold get, lift; rewrite Hv', (next_subnode_tree o Ho v e k _ Hg Hn Hk).
  - destruct fuel as [|fuel]; [cbn in Hf; lia|]. done.
  - apply (IH k'); [by eapply kid_then_next|cbn in Hf; lia|done].
Qed.

Lemma for_each_subnode_run v e s : at_tag (d_off v) -> node_at o v e -> view s = o ->
  for_each_subnode view body (d_off v) s = run_all body (d_off <$> d_kids v) s.
Proof.
  intros Hg Hn Hv. destruct (node_range o Ho v e Hg Hn) as (o1 & Ht & Hi & Hg1 & _ & H0 & ? & ? & ?). unfold for_each_subnode, mbind, M_bind, get, lift. rewrite Hv.
  rewrite (first_subnode_tree o Ho v e Hg Hn); [|intros k Hk; by destruct (items_kids o Ho _ _ _ _ Hi Hg1 k Hk) as (? & _ & _ & _ & ? & _)].
  pose proof (kids_increase o Ho _ _ _ _ Hi Hg1). pose proof (node_end_bound o Ho v e Hg Hn). pose proof (bo_size _ (rb_ok _ Ho)).
  destruct (d_kids v) as [|k ks] eqn:Ek; [by unfold blob_fuel|]. rewrite (each_subnode_tree v e Hg Hn ks k); [done|rewrite Ek; constructor| |done].
  unfold blob_fuel, zlen in *. cbn [length] in *. lia.
Qed.
End Loop.

(** ** Computations that leave the overlay alone *)
Definition quiet {A} (f : M (region * region) A) : Prop := forall s a s', f s = Some (a, s') -> s'.2 = s.2.

Lemma quiet_ret {A} (a : A) : quiet (mret a).
Proof. by intros s ? ? [= <- <-]. Qed.
Lemma quiet_bind {A B} (f : M (region * region) A) (g : A -> M (region * region) B) : quiet f -> (forall a, quiet (g a)) -> quiet (f ≫= g).
Proof. intros Hf Hg s a s'. unfold mbind, M_bind. destruct (f s) as [[x s1]|] eqn:E; [|done]. intros E'. rewrite (Hg _ _ _ _ E'). by eapply Hf. Qed.
Lemma quiet_fdt {A} (f : M region A) : quiet (on_fdt f).
Proof. intros s a s'. unfold on_fdt. destruct (f s.1) as [[x b]|]; [|done]. by intros [= <- <-]. Qed.
Lemma quiet_read {A} (f : region -> option A) : quiet (on_fdto (rd f)).
Proof. intros s a s'. unfold on_fdto, rd. destruct (f s.2) as [x|]; [|done]. by intros [= <- <-]. Qed.
Lemma quiet_get : quiet get.
Proof. by intros s ? ? [= <- <-]. Qed.
Lemma quiet_lift {A} (x : option A) : quiet (lift x).
Proof. intros s a s'. unfold lift. destruct x; [|done]. by intros [= <- <-]. Qed.
Lemma quiet_fault {A} : quiet (@fault _ A).
Proof. by intros s a s'. Qed.

Create HintDb quiet discriminated.
#[export] Hint Resolve quiet_ret quiet_bind quiet_fdt quiet_read quiet_get quiet_lift quiet_fault : quiet.
Ltac quiet := repeat (intros; cbv zeta; first [progress auto with quiet|simple apply quiet_bind|match goal with |- quiet (match ?x with _ => _ end) => destruct x end]).

Lemma quiet_each_property view body fuel : (forall x, quiet (body x)) -> forall x, quiet (each_property view body fuel x).
Proof. intros Hb. induction fuel as [|fuel IH]; cbn [each_property]; quiet. Qed.
Lemma quiet_each_subnode view body fuel : (forall x, quiet (body x)) -> forall x, quiet (each_subnode view body fuel x).
Proof. intros Hb. induction fuel as [|fuel IH]; cbn [each_subnode]; quiet. Qed.
#[export] Hint Resolve quiet_each_property quiet_each_subnode : quiet.

Lemma quiet_props view body n : (forall x, quiet (body x)) -> quiet (for_each_property_offset view body n).
Proof. intros Hb. unfold for_each_property_offset. quiet. Qed.
Lemma quiet_nodes view body n : (forall x, quiet (body x)) -> quiet (for_each_subnode view body n).
Proof. intros Hb. unfold for_each_subnode. quiet. Qed.
#[export] Hint Resolve quiet_props quiet_nodes : quiet.

Lemma apply_property_quiet target x : quiet (apply_property target x).
Proof. unfold apply_property. quiet. Qed.

Lemma apply_node_quiet fuel : forall target node, quiet (overlay_apply_node fuel target node).
Proof.
  induction fuel as [|fuel IH]; intros target node; cbn [overlay_apply_node]; [apply quiet_fault|]. apply quiet_bind; [apply quiet_props, apply_property_quiet|]. intros ret.
  destruct (negb (ret =? 0)); [apply quiet_ret|]. apply quiet_nodes. quiet.
Qed.
#[export] Hint Resolve apply_property_quiet apply_node_quiet : quiet.

(** ** Merging trees *)

(** Changes the first sub-node a name stands for, or a new one in front. *)
Definition into_kid (name : list Z) (f : stree -> stree) (t : stree) : stree :=
  let 'SNode n ps ks := t in
  SNode n ps (match change_kid name (fun k => inl (f k)) ks with inl ks' => ks' | inr _ => f (SNode name [] []) :: ks end).

Definition merge_props (ps : list (list Z * list Z)) (t : stree) : stree := fold_left (fun t p => set_prop p.1 p.2 t) ps t.

(** The properties of the overlay's node are set, its sub-nodes merged into those
    with the same names. *)
Fixpoint merge (v t : stree) : stree :=
  let 'SNode _ ps ks := v in fold_left (fun t k => into_kid (s_name k) (merge k) t) ks (merge_props ps t).

Definition merge_need (v : stree) : Z := let 'SNode _ ps ks := v in total_of prop_need ps + total_of tree_need ks.

Lemma tree_need_split k : tree_need k = node_need (s_name k) + merge_need k.
Proof. destruct k as [n ps ks]. cbn [tree_need s_name merge_need]. unfold node_need. lia. Qed.

(** ** Reading the overlay *)
Section Overlay.
  Context (o : region) (Ho : stable o) (Hsz : hv o 4 < 2 ^ 30).
  Local Abbreviation R := (sb_read _ Ho).
  Local Abbreviation B := (sb_bound _ Ho).

Lemma cstr_text p s : cstr (r_bytes o) p = Some s -> text s.
Proof.
  unfold cstr. destruct (p <? 0); [done|]. intros [H0 [r E]]%to_nul_inv. split; [done|]. pose proof (bo_bytes _ (rb_ok _ R)) as Hb. apply (Forall_drop _ (Z.to_nat p)) in Hb. rewrite E in Hb.
  by apply Forall_app in Hb as [? _].
Qed.

Lemma located_prop v e p : at_tag (d_off v) -> node_at o v e -> p ∈ d_props v ->
  (exists val, named_prop o (p_off p) = Some (inl (p_name p, val, zlen (p_val p))) /\ rdn (r_bytes o) val (zlen (p_val p)) = Some (p_val p)) /\
  text (p_name p) /\ zlen (p_name p) < hv o 4 /\ Forall is_byte (p_val p) /\ zlen (p_val p) < hv o 4.
Proof.
  intros Hg Hn Hin. destruct (node_range o R v e Hg Hn) as (o1 & _ & Hi & Hg1 & _). destruct (items_prop o R _ _ _ _ p Hi Hg1 Hin) as (x & Hgp & Htk & Hp).
  destruct (property_tree o R p x Hgp Htk Hp) as [Ep E8]. pose proof Hp as ((q & Es & Hc) & Hl & Hv). pose proof (rdn_inv _ _ _ _ Hv) as (_ & _ & Hb & _ & _).
  destruct (token_next o R _ _ _ (proj1 Hgp) Htk ltac:(done)) as (_ & _ & _ & _ & Hta). destruct (ta_prop _ _ _ _ Hta eq_refl) as (_ & Hbd & _). destruct (ta_bound _ _ _ _ Hta) as [Hst _]. cbn zeta in *. rewrite Hl in Hbd.
  pose proof (ta_start _ _ _ _ Hta). pose proof (zlen_nonneg (p_val p)). split.
  - unfold named_prop, prop_ptrs, fdt_getprop_by_offset. rewrite Ep. cbn [mbind option_bind]. rewrite E8. cbn [mbind option_bind]. rewrite Es. cbn [mbind option_bind].
    unfold prop_data. destruct (version_16 o R) as (ver & Ever & Hver). rewrite Ever. cbn [mbind option_bind]. rewrite Hver. cbn [andb mbind option_bind]. rewrite Hc. cbn [mbind option_bind]. by eexists.
  - destruct (get_string_ok o (rb_ok _ R) (s32 (hv o (hv o 8 + p_off p + 8))) (sw_range 32 _ ltac:(lia))) as (q' & n & Es' & Hq). rewrite Es in Es'. injection Es' as <- <-.
    destruct Hq as (s & Hq0 & _ & _ & Hq1). split_and!; [by eapply cstr_text|lia|eapply Forall_rdn; [apply (bo_bytes _ (rb_ok _ R))|done]|lia].
Qed.

Lemma overlay_prop v e p : at_tag (d_off v) -> node_at o v e -> p ∈ d_props v ->
  (exists val, named_prop o (p_off p) = Some (inl (p_name p, val, zlen (p_val p))) /\ rdn (r_bytes o) val (zlen (p_val p)) = Some (p_val p)) /\
  text (p_name p) /\ zlen (p_name p) < 2 ^ 30 /\ Forall is_byte (p_val p) /\ zlen (p_val p) < 2 ^ 30.
Proof. intros Hg Hn Hin. destruct (located_prop v e p Hg Hn Hin) as (H1 & H2 & H3 & H4 & H5). split_and!; (done || lia). Qed.

Lemma overlay_name v e : at_tag (d_off v) -> node_at o v e -> node_name o (d_off v) = Some (d_name v) /\ text (d_name v) /\ zlen (d_name v) < 2 ^ 30.
Proof.
  intros Hg Hn. pose proof Hn as (o1 & Ht & Hnm & _). unfold node_name. rewrite (get_name_tree o R _ _ _ Hg Ht Hnm). cbn [mbind option_bind]. split; [done|]. split; [by eapply cstr_text|].
  destruct (token_next o R _ _ _ (proj1 Hg) Ht ltac:(done)) as (_ & H0 & Hlt & _ & Hta). destruct (next_tag_inv o B _ _ _ (proj1 Hg) Ht) as (x & _ & _ & Hx & _ & _ & [(_ & s & Es & ->)|[[? _]|[[?|[?|?]] _]]]); try done.
  unfold name_at in Hnm. rewrite Hnm in Es. injection Es as <-. pose proof (bd_struct _ B). pose proof (field_range o (bd_ok _ B) 8 ltac:(lia)). lia.
Qed.

(** ** Properties *)

(** The state of the base tree while a node is merged into it. *)
Definition at_node (F : list frame) (off tot bound : Z) (x : stree) (b : region) : Prop :=
  rw_ready b /\ hv b 4 = tot /\ used b <= bound /\ exists t s, holds b t /\ sits s t F /\ d_off s = off /\ erase s = x.

(** Either all is done, or the base tree became too large. *)
Definition merged (F : list frame) (off tot bound : Z) (x : stree) (rc : Z) (b : region) : Prop :=
  (rc = 0 /\ at_node F off tot bound x b) \/ (rc = - FDT_ERR_NOSPACE /\ tot < bound /\ rw_ready b /\ exists t, holds b t).

Lemma apply_property_ok F off tot bound x b v e p : at_tag (d_off v) -> node_at o v e -> p ∈ d_props v -> at_node F off tot bound x b ->
  exists rc b', apply_property off (p_off p) (b, o) = Some (rc, (b', o)) /\ merged F off tot (bound + prop_need (pv p)) (set_prop (p_name p) (p_val p) x) rc b'.
Proof.
  intros Hg Hn Hin (Hr & Htot & Hu & t & s & Ht & Hs & <- & <-). destruct (overlay_prop v e p Hg Hn Hin) as ((val & Ep & Ev) & H1 & H2 & H3 & H4).
  unfold apply_property, mbind, M_bind. unfold on_fdto at 1, rd at 1. cbn [fst snd]. rewrite Ep. cbn [mbind option_bind]. pose proof (zlen_nonneg (p_val p)). destruct (Z.ltb_spec (zlen (p_val p)) 0); [lia|].
  unfold on_fdto at 1, rd at 1. cbn [fst snd]. rewrite Ev. cbn [mbind option_bind]. unfold on_fdt. cbn [fst snd].
  destruct (setprop_ok b Hr t s F Ht Hs (p_name p) (p_val p) H1 H2 H3 H4) as (rc & b' & -> & [R1 R2 _ R4]). do 2 eexists. split; [done|]. unfold pv.
  destruct R4 as [(-> & Hu' & t' & s' & Ht' & Hs' & Eo & Es)|(-> & Hlt & _ & Ht')].
  - left. split; [done|]. split; [done|]. split; [by rewrite <- Htot; apply R2|]. split; [lia|]. by exists t', s'.
  - right. split_and!; [done|lia|done|by exists t].
Qed.

Lemma apply_props_ok F off tot v e ps : at_tag (d_off v) -> node_at o v e -> (forall p, p ∈ ps -> p ∈ d_props v) -> forall bound x b, at_node F off tot bound x b ->
  exists rc b', run_all (apply_property off) (p_off <$> ps) (b, o) = Some (rc, (b', o)) /\ merged F off tot (bound + total_of prop_need (pv <$> ps)) (merge_props (pv <$> ps) x) rc b'.
Proof.
  intros Hg Hn. induction ps as [|p ps IH]; intros Hin bound x b Hb.
  { do 2 eexists. split; [done|]. left. split; [done|]. unfold total_of. cbn [foldr fmap list_fmap]. by rewrite Z.add_0_r. }
  rewrite !fmap_cons. cbn [run_all]. unfold mbind, M_bind. destruct (apply_property_ok F off tot bound x b v e p Hg Hn ltac:(apply Hin; by left) Hb) as (rc & b1 & -> & Hm).
  assert (total_of prop_need (pv p :: (pv <$> ps)) = prop_need (pv p) + total_of prop_need (pv <$> ps)) as -> by done. unfold merge_props. cbn [fold_left fst snd pv].
  assert (0 <= total_of prop_need (pv <$> ps)) as Hpos.
  { clear. induction ps as [|p ps IH]; [done|]. rewrite fmap_cons. unfold total_of in *. cbn [foldr]. unfold prop_need at 1, pv at 1 2. cbn [fst snd]. pose proof (zlen_nonneg (p_name p)). pose proof (tagalign_bound _ (zlen_nonneg (p_val p))). lia. }
  destruct Hm as [[-> Hb1]|(-> & Hlt & Hr1 & Ht1)].
  - cbn [negb Z.eqb]. destruct (IH ltac:(intros q Hq; apply Hin; by right) _ _ _ Hb1) as (rc & b' & E & Hm). exists rc, b'. split; [done|]. by rewrite Z.add_assoc.
  - do 2 eexists. split; [done|]. right. split_and!; [done|lia|done|done].
Qed.

(** ** Nodes *)

Lemma at_node_up f F k tot bound z b : at_node (f :: F) k tot bound z b -> at_node F (f_off f) tot bound (plug1 z f) b.
Proof.
  intros (Hr & Htot & Hu & t & s & Ht & Hs & _ & <-). split_and!; [done|done|done|]. destruct (sits_parent s t f F Hs) as (p & k1 & k2 & Hp & Eo & En & Eps & Ek & El & Er).
  exists t, p. split_and!; [done|done|done|]. destruct p as [po pn pps pks]. cbn [d_off d_name d_props d_kids] in *. subst pks. unfold plug1. cbn [erase].
  rewrite <- En, <- Eps, <- El, <- Er, fmap_app. done.
Qed.

Lemma at_node_more F off tot bound bound' x b : at_node F off tot bound x b -> bound <= bound' -> at_node F off tot bound' x b.
Proof. intros (Hr & Htot & Hu & H) Hle. split_and!; [done|done|lia|done]. Qed.

(** The sub-node of the base tree to merge into, found or added. *)
Lemma merge_node_ok F off tot bound x b name : text name -> zlen name < 2 ^ 30 -> at_node F off tot bound x b -> exists rc b', merge_node off name b = Some (rc, b') /\
  ((0 <= rc /\ exists f y, at_node (f :: F) rc tot (bound + node_need name) y b' /\ f_off f = off /\ forall h, into_kid name h x = plug1 (h y) f) \/
   (rc = - FDT_ERR_NOSPACE /\ tot < bound + node_need name /\ rw_ready b' /\ exists t, holds b' t)).
Proof.
  intros Hn Hnl (Hr & Htot & Hu & t & s & Ht & Hs & <- & <-). destruct (node_lies b Hr t s F Ht Hs) as (o1 & es & Hl). pose proof (tagalign_bound (zlen name + 1) ltac:(pose proof (zlen_nonneg name); lia)).
  destruct (add_subnode_ok b Hr t s F Ht Hs name Hn Hnl) as (rc & b' & E & Hres). unfold merge_node, mbind, M_bind. rewrite E.
  assert (exists n, forall h, into_kid name h (erase s) = SNode n (pv <$> d_props s) (match change_kid name (fun k => inl (h k)) (erase <$> d_kids s) with inl ks' => ks' | inr _ => h (SNode name [] []) :: (erase <$> d_kids s) end) /\ n = d_name s) as [n Hinto]
    by (destruct s as [o' n ps ks]; by exists n).
  pose proof (find_kid_change name (d_kids s)) as Hk. destruct (find_kid name (d_kids s)) as [k|] eqn:Ek.
  - destruct Hres as [-> ->]. rewrite Z.eqb_refl. unfold rd, fdt_subnode_offset. rewrite (subnode_offset_tree b (rw_read _ Hr) name s es (li_tag _ _ _ _ Hl) (li_node _ _ _ _ Hl)). unfold kid_result. rewrite Ek. cbn [mbind option_bind].
    destruct (items_kids b (rw_read _ Hr) _ _ _ _ (li_items _ _ _ _ Hl) (li_tag1 _ _ _ _ Hl) k (find_kid_in _ _ _ Ek)) as (ek & _ & _ & _ & Hk0 & _). change (- FDT_ERR_NOTFOUND) with (-1). destruct (Z.eqb_spec (d_off k) (-1)); [lia|].
    do 2 eexists. split; [done|]. left. split; [done|]. destruct Hk as (k1 & k2 & Ekids & Hk). exists (Frame (d_off s) (d_name s) (pv <$> d_props s) (erase <$> k1) (erase <$> k2)), (erase k).
    split_and!; [|done|].
    + split_and!; [done|done|unfold node_need; lia|]. exists t, k. split_and!; [done|by apply sits_child|done|done].
    + intros h. destruct (Hinto h) as [-> ->]. unfold plug1. cbn [f_name f_props f_left f_right]. by rewrite Hk.
  - destruct Hres as (y & Hy & [R1 R2 _ R4]). assert (hv b' 4 = tot) as Htot' by (rewrite <- Htot; by apply R2).
    destruct R4 as [(-> & Hu' & t' & s' & Ht' & Hs' & Eo & Es & k & ks & Eks & Ek')|(-> & Hlt & _ & Ht')].
    + change (- FDT_ERR_EXISTS) with (-2). destruct (Z.eqb_spec y (-2)); [lia|]. do 2 eexists. split; [done|]. left. split; [done|].
      exists (Frame (d_off s') (d_name s') (pv <$> d_props s') (erase <$> []) (erase <$> ks)), (erase k). split_and!; [|done|].
      * split_and!; [done|done|lia|]. exists t', k. split_and!; [done| |done|done]. by apply (sits_child s' t' F [] k ks).
      * intros h. destruct (Hinto h) as [-> ->]. rewrite Hk. unfold plug1. cbn [f_name f_props f_left f_right]. rewrite fmap_nil, app_nil_l.
        destruct s as [o2 n2 ps2 ks2], s' as [o3 n3 ps3 ks3]. cbn [erase d_name d_props d_kids add_kid] in *. change (fun p : pitem => (p_name p, p_val p)) with pv in Es. subst ks3. rewrite fmap_cons in Es. injection Es as -> -> E1 E2. by rewrite E1, E2.
    + change (- FDT_ERR_NOSPACE =? - FDT_ERR_EXISTS) with false. do 2 eexists. split; [done|]. right. split_and!; [done|lia|done|by exists t].
Qed.

Lemma need_pos v : 0 <= merge_need (erase v) /\ 0 <= tree_need (erase v).
Proof.
  induction v as [x n ps ks IH] using dt_ind'. rewrite tree_need_split. cbn [erase s_name merge_need]. unfold node_need. pose proof (tagalign_bound (zlen n + 1) ltac:(pose proof (zlen_nonneg n); lia)).
  change (fun p : pitem => (p_name p, p_val p)) with pv. assert (0 <= total_of prop_need (pv <$> ps)).
  { clear. induction ps as [|p ps IH]; [done|]. rewrite fmap_cons. unfold total_of in *. cbn [foldr]. unfold prop_need at 1, pv at 1 2. cbn [fst snd]. pose proof (zlen_nonneg (p_name p)). pose proof (tagalign_bound _ (zlen_nonneg (p_val p))). lia. }
  assert (0 <= total_of tree_need (erase <$> ks)); [|lia]. clear -IH. induction IH as [|k ks [_ Hk] _ IHk]; [done|]. rewrite fmap_cons. unfold total_of in *. cbn [foldr]. lia.
Qed.

(** What merging the node [v] of the overlay does, with enough fuel. *)
Definition merges (v : dt) : Prop := forall e fuel F off tot bound x b, at_tag (d_off v) -> node_at o v e -> e - d_off v < Z.of_nat fuel -> at_node F off tot bound x b ->
  exists rc b', overlay_apply_node fuel off (d_off v) (b, o) = Some (rc, (b', o)) /\ merged F off tot (bound + merge_need (erase v)) (merge (erase v) x) rc b'.

Lemma apply_kids_ok v e fuel F off tot ks : at_tag (d_off v) -> node_at o v e -> (forall k, k ∈ ks -> k ∈ d_kids v) -> Forall merges ks -> e - d_off v < Z.of_nat fuel + 1 ->
  forall bound x b, at_node F off tot bound x b -> exists rc b',
    run_all (fun subnode => name ← on_fdto (rd (fun b => node_name b subnode)); nnode ← on_fdt (merge_node off name);
      if nnode <? 0 then mret nnode else overlay_apply_node fuel nnode subnode) (d_off <$> ks) (b, o) = Some (rc, (b', o)) /\
    merged F off tot (bound + total_of tree_need (erase <$> ks)) (fold_left (fun t k => into_kid (s_name k) (merge k) t) (erase <$> ks) x) rc b'.
Proof.
  intros Hg Hn Hin Hks Hfu. induction Hks as [|k ks Hk Hks IH]; intros bound x b Hb.
  { do 2 eexists. split; [done|]. left. split; [done|]. unfold total_of. cbn [foldr fmap list_fmap]. by rewrite Z.add_0_r. }
  destruct (node_range o R v e Hg Hn) as (o1 & _ & Hi & Hg1 & _ & ? & ? & ? & _). destruct (items_kids o R _ _ _ _ Hi Hg1 k ltac:(apply Hin; by left)) as (ek & Hkn & Hkg & Hle & _ & _ & Hke).
  destruct (overlay_name k ek Hkg Hkn) as (Enm & Htx & Hlen). rewrite !fmap_cons. cbn [run_all fold_left]. rewrite s_name_erase.
  assert (total_of tree_need (erase k :: (erase <$> ks)) = tree_need (erase k) + total_of tree_need (erase <$> ks)) as -> by done.
  assert (0 <= total_of tree_need (erase <$> ks)) as Hpos by (clear; induction ks as [|k ks IH]; [done|]; rewrite fmap_cons; unfold total_of in *; cbn [foldr]; destruct (need_pos k); lia).
  destruct (need_pos k) as [Hp1 _]. rewrite tree_need_split, s_name_erase. unfold mbind at 1, M_bind at 1. unfold mbind at 1, M_bind at 1. unfold on_fdto at 1, rd at 1. cbn [fst snd]. rewrite Enm. cbn [mbind option_bind].
  unfold mbind at 1, M_bind at 1. unfold on_fdt at 1. cbn [fst snd]. destruct (merge_node_ok F off tot bound x b (d_name k) Htx Hlen Hb) as (rc & b1 & -> & [(Hrc & f & y & Hb1 & Ef & Hinto)|(-> & Hlt & Hr1 & Ht1)]).
  - destruct (Z.ltb_spec rc 0); [lia|]. destruct (Hk ek fuel (f :: F) rc tot _ y b1 Hkg Hkn ltac:(lia) Hb1) as (rc2 & b2 & -> & [[-> Hb2]|(-> & Hlt & Hr2 & Ht2)]).
    + cbn [negb Z.eqb]. apply at_node_up in Hb2. rewrite Ef, <- Hinto in Hb2. destruct (IH ltac:(intros q Hq; apply Hin; by right) _ _ _ Hb2) as (rc3 & b3 & E3 & Hm). exists rc3, b3. split; [exact E3|]. by rewrite !Z.add_assoc in *.
    + do 2 eexists. split; [done|]. right. split_and!; [done|lia|done|done].
  - change (- FDT_ERR_NOSPACE <? 0) with true. cbv match beta. do 2 eexists. split; [done|]. right. split_and!; [done|lia|done|done].
Qed.

Lemma apply_node_ok v : merges v.
Proof.
  induction v as [vo vn vps vks IH] using dt_ind'. intros e fuel F off tot bound x b Hg Hn Hfu Hb. destruct fuel as [|fuel]; [destruct (node_range o R _ e Hg Hn) as (o1 & _ & _ & _ & _ & ? & ? & ? & _); lia|].
  set (v := DNode vo vn vps vks) in *. cbn [overlay_apply_node]. unfold mbind at 1, M_bind at 1.
  rewrite (for_each_property_run snd (apply_property off) o R) with (e := e); [|intros y s rc s' Hv E; rewrite <- Hv; by eapply apply_property_quiet|done|done|done].
  destruct (apply_props_ok F off tot v e vps Hg Hn ltac:(done) bound x b Hb) as (rc & b1 & E1 & Hm). cbn [v d_props]. rewrite E1.
  assert (merge_need (erase v) = total_of prop_need (pv <$> vps) + total_of tree_need (erase <$> vks)) as -> by done.
  assert (0 <= total_of tree_need (erase <$> vks)) as Hpos by (clear; induction vks as [|k ks IH]; [done|]; rewrite fmap_cons; unfold total_of in *; cbn [foldr]; destruct (need_pos k); lia).
  destruct Hm as [[-> Hb1]|(-> & Hlt & Hr1 & Ht1)]; [|do 2 eexists; split; [done|]; right; split_and!; [done|lia|done|done]].
  cbn [negb Z.eqb]. rewrite (for_each_subnode_run snd _ o R) with (e := e); [|intros y s rc s' Hv E; rewrite <- Hv; revert E; assert (forall body : M (region * region) Z, quiet body -> body s = Some (rc, s') -> s'.2 = s.2) as Hq by (intros body Hq Hbd; by eapply Hq); apply Hq; quiet|done|done|done].
  destruct (apply_kids_ok v e fuel F off tot vks Hg Hn ltac:(done) IH ltac:(lia) _ _ _ Hb1) as (rc & b2 & E2 & Hm). exists rc, b2. split; [exact E2|]. by rewrite Z.add_assoc.
Qed.
End Overlay.
