(* ===== verification/FdtInplace.v ===== *)
(** Changes in place on the tree of a blob: the value of a property is replaced by
    one of the same length, every node and property stays where it is. *)
From S2P Require Import Prelude KDefs Bytes Fdt FdtRo FdtSafe FdtRoSafe FdtProps FdtHelper FdtCheck FdtTree FdtPath FdtWalk FdtSw FdtSwProps FdtSeg FdtMove FdtEdit FdtSwTree FdtRw FdtSplice FdtRwProps FdtOverlay FdtMerge.

(** ** Located contexts *)

(** An ancestor with its place and its other sub-nodes, and a path of them, the
    nearest first. *)
Record lframe := LFrame { lf_off : Z; lf_name : list Z; lf_props : list pitem; lf_left : list dt; lf_right : list dt }.
Definition fill1 (x : dt) (f : lframe) : dt := DNode (lf_off f) (lf_name f) (lf_props f) (lf_left f ++ x :: lf_right f).
Definition fill (C : list lframe) (x : dt) : dt := fold_left fill1 C x.

Lemma fill_within C : forall x, within x (fill C x).
Proof.
  induction C as [|f C IH]; intros x; [constructor|]. specialize (IH (fill1 x f)). change (fill (f :: C) x) with (fill C (fill1 x f)). revert IH. generalize (fill C (fill1 x f)). intros t Ht.
  induction Ht as [|k t Hk _ IH]; [|by eapply within_kid]. eapply within_kid; [|constructor]. cbn [fill1 d_kids]. rewrite elem_of_app, elem_of_cons. auto.
Qed.

Section Fill.
  Context (b b' : region) (Hb : stable b) (Hb' : stable b') (Hstr : strings_le b b') (p q : Z).
  Context (Hlow : forall x l, x + zlen l <= p -> seg b x l -> seg b' x l) (Hhigh : forall x l, q <= x -> seg b x l -> seg b' (x + 0) l).
  Local Abbreviation R := (sb_read _ Hb).

Lemma holds_fill C : forall s s' es, d_off s' = d_off s -> d_off s <= p -> node_at b s es -> q <= es -> node_at b' s' es -> holds b (fill C s) -> holds b' (fill C s').
Proof.
  induction C as [|f C IH]; intros s s' es Eo Hp Hs Hq Hs' Ht.
  - cbn [fill fold_left] in *. destruct (tree_splice b b' Hb Hb' Hstr p q 0 eq_refl Hlow Hhigh s s s' es [] Ht) as (t' & Ht' & Hsit); [constructor|done|done|done|done|by rewrite Z.add_0_r|].
    inversion Hsit as [|? ? ? ? ? ? G ? E1 E2]; subst; [done|by destruct G].
  - change (fill (f :: C) s) with (fill C (fill1 s f)) in Ht. change (fill (f :: C) s') with (fill C (fill1 s' f)). pose proof Ht as (_ & H0 & e & _ & Hn & _). assert (at_tag (d_off (fill C (fill1 s f)))) as Hg by (by rewrite H0).
    destruct (within_at b R _ e _ Hg Hn (fill_within C (fill1 s f))) as (ef & Hgf & Hnf). destruct (node_range b R _ ef Hgf Hnf) as (o1 & Ht1 & Hi & Hg1 & _ & ? & ? & ? & _). cbn [fill1 d_kids d_props d_off] in *.
    destruct (items_kids b R _ _ _ _ Hi Hg1 s) as (es' & Hs2 & Hgs & Hle & _ & _ & Hee); [rewrite elem_of_app, elem_of_cons; auto|]. assert (es' = es) as -> by (by eapply node_end_fun).
    apply (IH (fill1 s f) (fill1 s' f) ef); [done|cbn; lia|done|lia| |done]. pose proof Hnf as (_ & _ & Hnm & _). pose proof (items_end_in b Hb _ _ _ _ Hi Hg1).
    destruct (begin_low b b' Hb Hb' p Hlow (lf_off f) o1 (lf_name f) Hgf Ht1 Hnm) as [T1 T2]; [lia|lia|]. exists o1. cbn [fill1 d_kids d_props d_off d_name]. split_and!; [done|done|].
    pose proof (items_kid b b' Hb Hb' Hstr p q 0 eq_refl Hlow Hhigh o1 (lf_props f) (lf_left f) s (lf_right f) ef es s' Hi Hg1 ltac:(lia) Hs Hp Hq Eo ltac:(by rewrite Z.add_0_r)) as Hi'. by rewrite shift_0_all, Z.add_0_r in Hi'.
Qed.
End Fill.

(** ** One value *)

(** [val] put into [v] at [idx]. *)
Definition put_at (idx : Z) (val v : list Z) : list Z := take (Z.to_nat idx) v ++ val ++ drop (Z.to_nat idx + length val) v.

Lemma zlen_put_at idx val v : 0 <= idx -> idx + zlen val <= zlen v -> zlen (put_at idx val v) = zlen v.
Proof. intros H1 H2. unfold put_at, zlen in *. rewrite !length_app, length_take, length_drop. lia. Qed.

(** The first property with a name gets a new value. *)
Fixpoint upd_val (name : list Z) (f : list Z -> list Z) (ps : list pitem) : list pitem :=
  match ps with
  | [] => []
  | p :: ps => if bool_decide (p_name p = name) then PItem (p_off p) (p_name p) (f (p_val p)) :: ps else p :: upd_val name f ps
  end.
Definition with_val (name : list Z) (f : list Z -> list Z) (s : dt) : dt := let 'DNode o n ps ks := s in DNode o n (upd_val name f ps) ks.

Lemma upd_val_split name f ps p : find_prop name ps = Some p -> exists ps1 ps2, ps = ps1 ++ p :: ps2 /\ p_name p = name /\ upd_val name f ps = ps1 ++ PItem (p_off p) name (f (p_val p)) :: ps2.
Proof.
  induction ps as [|x ps IH]; [done|]. unfold find_prop in *. cbn [List.find upd_val]. case_bool_decide as E.
  - intros [= ->]. exists [], ps. by subst name.
  - intros H. destruct (IH H) as (ps1 & ps2 & -> & En & ->). by exists (x :: ps1), ps2.
Qed.

(** The blocks of the blob, and the strings, stay where they are. *)
Record touched (b b' : region) : Prop := {
  to_total : hv b' 4 = hv b 4;
  to_struct : hv b' 8 = hv b 8;
  to_strings : hv b' 12 = hv b 12;
  to_strs : strings_le b b';
}.

#[export] Instance touched_refl : Reflexive touched.
Proof. intros b. split; try done. by intros o s _ H. Qed.
#[export] Instance touched_trans : Transitive touched.
Proof. intros x y z [] []. split; try congruence. intros o s Ho H. auto. Qed.

Section Value.
  Context (b : region) (Hr : rw_ready b) (C : list lframe) (s : dt) (Ht : holds b (fill C s)).

Lemma fill_lies : exists o1 es, lies b s o1 es.
Proof. destruct (within_sits s (fill C s) (fill_within C s)) as [F HF]. by apply (node_lies b Hr (fill C s) s F). Qed.

(** Writing into the value of a property. *)
Lemma write_value name p idx val : find_prop name (d_props s) = Some p -> 0 <= idx -> idx + zlen val <= zlen (p_val p) -> Forall is_byte val ->
  exists b', wr (hv b 8 + p_off p + 12 + idx) val b = Some (tt, b') /\ rw_ready b' /\ holds b' (fill C (with_val name (put_at idx val) s)) /\ touched b b'.
Proof.
  intros Hf Hi0 Hi1 Hv. destruct fill_lies as (o1 & es & Hl). destruct (upd_val_split name (put_at idx val) _ p Hf) as (ps1 & ps2 & Eps & En & Eu). destruct (prop_lies b Hr s ps1 p ps2 o1 es Hl Eps) as (n & off & Hp).
  pose proof (rw_bounds b Hr) as Hbd. destruct Hp as [Hre Hi Hg1 Hg2 Eend Hrg W0 W8 Hval Hnm]. pose proof (li_range _ _ _ _ Hl) as Hlr. pose proof (zlen_nonneg val). pose proof (tagalign_bound _ (zlen_nonneg (p_val p))).
  destruct (wr_wrote (hv b 8 + p_off p + 12 + idx) val b) as (b' & E & Hw); [lia|lia|]. exists b'. split; [done|].
  assert (edited b b' (p_off p) n 0 0) as He.
  { eapply (edited_write b b Hr); [|lia|exact Hw|done|lia|lia]. pose proof (grown_refl b Hr) as G. destruct G as [? ? ? ? ? ? ? Gl Gh]. split; try done; intros x k; intros; rewrite ?Z.add_0_r; done. }
  assert (used b + 0 + 0 <= hv b 4) as Hrm by (unfold used; lia). pose proof (edited_ready b b' Hr _ _ _ _ He ltac:(lia) ltac:(lia) ltac:(lia) ltac:(lia) Hrm) as Hr'.
  pose proof (edited_seg_low b b' Hr _ _ _ _ He ltac:(lia) ltac:(lia)) as Hlow. pose proof (edited_seg_high b b' Hr _ _ _ _ He ltac:(lia) ltac:(lia)) as Hhigh.
  pose proof (edited_strings b b' Hr _ _ _ _ He ltac:(lia) ltac:(lia) ltac:(lia) ltac:(lia) Hrm) as Hstr. pose proof (ed_hdr _ _ _ _ _ _ He 8 eq_refl) as E8.
  split; [done|]. split; [|split; [by apply (ed_hdr _ _ _ _ _ _ He 4)|done|pose proof (ed_ostr _ _ _ _ _ _ He); lia|done]].
  assert (hv b (hv b 8 + p_off p + 4) = zlen (p_val p)) as W4.
  { destruct (items_prop b (rw_read _ Hr) _ _ _ _ p (li_items _ _ _ _ Hl) (li_tag1 _ _ _ _ Hl)) as (y & _ & _ & _ & Hlen & _); [rewrite Eps, elem_of_app, elem_of_cons; auto|done]. }
  assert (rdn (r_bytes b) (hv b 8 + p_off p + 4) 4 = Some (to_be 4 (zlen (p_val p)))) as W4'.
  { rewrite <- W4. rewrite rdn_Some by lia. f_equal. unfold hv at 2. symmetry. apply to_be_be; [unfold zlen; rewrite length_take, length_drop; unfold zlen in *; lia|apply Forall_take, Forall_drop, (bo_bytes _ (rb_ok _ (rw_read _ Hr)))]. }
  destruct (prop_there b' Hr' (p_off p) off name (put_at idx val (p_val p))) as [Htk Hpr]; rewrite ?E8, ?zlen_put_at by lia; [done|lia|rewrite (ed_size _ _ _ _ _ _ He); lia| | | | | |].
  - by rewrite (wo_old _ _ _ _ Hw) by lia.
  - by rewrite (wo_old _ _ _ _ Hw) by lia.
  - by rewrite (wo_old _ _ _ _ Hw) by lia.
  - rewrite <- (zlen_put_at idx val) by lia. unfold put_at. assert (p_val p = take (Z.to_nat idx) (p_val p) ++ take (length val) (drop (Z.to_nat idx) (p_val p)) ++ drop (Z.to_nat idx + length val) (p_val p)) as Esp.
    { rewrite <- drop_drop, take_drop, take_drop. done. }
    rewrite Esp in Hval. apply rdn_app in Hval as [V1 V2]. apply rdn_app in V2 as [V2 V3].
    assert (zlen (take (Z.to_nat idx) (p_val p)) = idx) as L1 by (unfold zlen in *; rewrite length_take; lia).
    assert (zlen (take (length val) (drop (Z.to_nat idx) (p_val p))) = zlen val) as L2 by (unfold zlen in *; rewrite length_take, length_drop; lia). rewrite L1, L2 in *.
    apply rdn_app. rewrite L1. split; [by rewrite (wo_old _ _ _ _ Hw) by lia|]. apply rdn_app. split; [apply (wo_new _ _ _ _ Hw)|]. by rewrite (wo_old _ _ _ _ Hw) by (pose proof (zlen_nonneg (drop (Z.to_nat idx + length val) (p_val p))); lia).
  - apply Hstr; [by apply sw_range|]. by rewrite <- En.
  - rewrite zlen_put_at, <- Eend in Htk by lia. apply (holds_fill b b' (rw_stable b Hr) (rw_stable b' Hr') Hstr (p_off p) n Hlow Hhigh C s _ es); [by destruct s|lia|apply Hl|lia| |done].
    pose proof (put_node b Hr s b' (p_off p) n 0 0 He eq_refl ltac:(lia) ltac:(lia) ltac:(lia) ltac:(lia) Hrm o1 es Hl ps1 ps2 (d_kids s) name _ Hre Hi Hg2 ltac:(by rewrite Z.add_0_r) Hpr) as Hnode.
    rewrite pshift_0, shift_0_all, Z.add_0_r in Hnode. destruct s as [so sn sps sks]. cbn [with_val d_off d_name d_props d_kids] in *. by rewrite Eu.
Qed.
End Value.

(** ** Raising the phandles *)

(** The phandle in a property raised by [delta]; it must stay a valid one. *)
Definition add_phandle (name : list Z) (delta : Z) (s : dt) : dt + Z :=
  match find_prop name (d_props s) with
  | None => inr (- FDT_ERR_NOTFOUND)
  | Some p =>
      if negb (zlen (p_val p) =? 4) then inr (- FDT_ERR_BADPHANDLE)
      else if (2 ^ 32 - 1 <=? be (p_val p) + delta) then inr (- FDT_ERR_NOPHANDLES)
      else inl (with_val name (fun _ => to_be 4 (be (p_val p) + delta)) s)
  end.
Definition add_phandle_if (name : list Z) (delta : Z) (s : dt) : dt + Z :=
  match add_phandle name delta s with inr err => if err =? - FDT_ERR_NOTFOUND then inl s else inr err | r => r end.
Definition adjust_own (delta : Z) (s : dt) : dt + Z :=
  match add_phandle_if (byte_list "phandle") delta s with inl s1 => add_phandle_if (byte_list "linux,phandle") delta s1 | inr err => inr err end.

Section MapErr.
  Context {A : Type} (f : A -> A + Z).
Fixpoint map_err (l : list A) : list A + Z :=
  match l with
  | [] => inl []
  | x :: l => match f x with inr err => inr err | inl x' => match map_err l with inl l' => inl (x' :: l') | inr err => inr err end end
  end.
End MapErr.

(** All of a tree. *)
Fixpoint adjust (delta : Z) (t : dt) : dt + Z :=
  let 'DNode o n ps ks := t in
  match adjust_own delta (DNode o n ps []) with
  | inr err => inr err
  | inl s => match map_err (adjust delta) ks with inl ks' => inl (DNode o n (d_props s) ks') | inr err => inr err end
  end.

Fixpoint height (t : dt) : nat := let 'DNode _ _ _ ks := t in S (list_max (height <$> ks)).

Section Adjust.
  Context (delta : Z) (Hdelta : is_uw 32 delta).

Lemma with_val_ext name f g s : (forall p, find_prop name (d_props s) = Some p -> f (p_val p) = g (p_val p)) -> with_val name f s = with_val name g s.
Proof.
  destruct s as [o n ps ks]. cbn [with_val d_props]. intros H. f_equal. unfold find_prop in H. induction ps as [|p ps IH]; [done|]. cbn [upd_val List.find] in *. case_bool_decide; [by rewrite H|]. f_equal. by apply IH.
Qed.

Lemma add_phandle_ok b (Hr : rw_ready b) C s name : holds b (fill C s) -> exists rc b', overlay_phandle_add_offset (d_off s) name delta b = Some (rc, b') /\ rw_ready b' /\ touched b b' /\
  match add_phandle name delta s with inl s' => rc = 0 /\ holds b' (fill C s') | inr err => rc = err /\ b' = b end.
Proof.
  intros Ht. pose proof (getprop_in b (fill C s) s name Ht (fill_within C s)) as Hg. unfold overlay_phandle_add_offset, add_phandle, mbind, M_bind. unfold rd. destruct (find_prop name (d_props s)) as [p|] eqn:Ep.
  - destruct Hg as (d & Eg & Egp & Ev). rewrite Eg. cbn [mbind option_bind]. destruct (Z.eqb_spec (zlen (p_val p)) 4) as [E4|N4]; cbn [negb]; [|by do 2 eexists].
    rewrite E4 in Ev. unfold fdt32_ld, rd_be. rewrite Ev. cbn [fmap option_fmap option_map mbind option_bind]. unfold is_uw in Hdelta.
    pose proof (be_range (p_val p) (Forall_rdn _ _ _ _ _ (bo_bytes _ (rb_ok _ (rw_read _ Hr))) Ev)) as Hbe. rewrite E4 in Hbe. change (256 ^ 4) with (2 ^ 32) in Hbe. set (v := be (p_val p)) in *.
    destruct (Z.leb_spec (2 ^ 32 - 1) (v + delta)) as [Hov|Hok].
    + destruct (Z.eq_dec (v + delta) (2 ^ 32 - 1)) as [Eq|Ne].
      * rewrite Eq. change (u32 (2 ^ 32 - 1)) with (2 ^ 32 - 1). change (u32 (-1)) with (2 ^ 32 - 1). rewrite Z.eqb_refl. destruct (_ <? _); by do 2 eexists.
      * assert (u32 (v + delta) = v + delta - 2 ^ 32) as ->. { unfold uw. symmetry. apply (Z.mod_unique_pos _ _ 1); lia. } destruct (Z.ltb_spec (v + delta - 2 ^ 32) v); [|lia]. by do 2 eexists.
    + rewrite (uw_small 32) by (unfold is_uw; lia). destruct (Z.ltb_spec (v + delta) v); [lia|]. change (u32 (-1)) with (2 ^ 32 - 1). destruct (Z.eqb_spec (v + delta) (2 ^ 32 - 1)); [lia|].
      unfold inplace, fdt_setprop_inplace_u32, fdt_setprop_inplace, fdt_setprop_inplace_namelen_partial. rewrite Eg. cbn [mbind option_bind]. rewrite zlen_to_be, E4. cbn [negb Z.eqb Z.of_nat Pos.of_succ_nat Pos.succ Pos.eqb].
      unfold fdt_getprop in Eg. rewrite Eg. cbn [mbind option_bind]. rewrite E4. cbn [Z.add]. change (u32 4 <? u32 4) with false.
      destruct fill_lies with (b := b) (C := C) (s := s) as (o1 & es & Hl); [done|done|]. destruct (getprop_tree b (rw_read _ Hr) name s es (li_tag _ _ _ _ Hl) (li_node _ _ _ _ Hl)) as [_ Egp']. rewrite Ep, Egp in Egp'. injection Egp' as ->.
      destruct (write_value b Hr C s Ht name p 0 (to_be 4 (v + delta)) Ep ltac:(lia) ltac:(rewrite zlen_to_be; lia) ltac:(apply to_be_bytes)) as (b' & E & Hr' & Ht' & Eh). unfold wr in E.
      destruct (wrn (r_bytes b) (hv b 8 + p_off p + 12 + 0) (to_be 4 (v + delta))) as [m'|]; [|done]. cbn [mbind option_bind fst snd] in *. injection E as <-. do 2 eexists. split; [done|]. split_and!; [done|done|done|].
      erewrite with_val_ext; [exact Ht'|]. intros p' Ep'. rewrite Ep in Ep'. injection Ep' as <-. unfold put_at. change (Z.to_nat 0) with 0%nat. rewrite take_0, drop_ge, app_nil_r; [done|].
      pose proof (zlen_to_be 4 (v + delta)). unfold zlen in *. lia.
  - destruct Hg as [-> _]. by do 2 eexists.
Qed.

(** The result of a step on the node in the hole. *)
Definition stepped (b : region) (C : list lframe) (res : dt + Z) (rc : Z) (b' : region) : Prop :=
  rw_ready b' /\ touched b b' /\ match res with inl s' => rc = 0 /\ holds b' (fill C s') | inr err => rc = err /\ rc < 0 /\ exists t, holds b' t end.

Lemma add_phandle_neg name s err : add_phandle name delta s = inr err -> err < 0.
Proof. unfold add_phandle. destruct (find_prop _ _); [|by intros [= <-]]. destruct (negb _); [by intros [= <-]|]. by destruct (_ <=? _); [intros [= <-]|]. Qed.

(** A step that may find no property. *)
Lemma add_phandle_step b (Hr : rw_ready b) C s name : holds b (fill C s) -> exists rc b', overlay_phandle_add_offset (d_off s) name delta b = Some (rc, b') /\ rw_ready b' /\ touched b b' /\
  match add_phandle_if name delta s with
  | inl s' => negb (rc =? 0) && negb (rc =? - FDT_ERR_NOTFOUND) = false /\ holds b' (fill C s') /\ d_off s' = d_off s
  | inr err => negb (rc =? 0) && negb (rc =? - FDT_ERR_NOTFOUND) = true /\ rc = err /\ rc < 0 /\ holds b' (fill C s)
  end.
Proof.
  intros Ht. destruct (add_phandle_ok b Hr C s name Ht) as (rc & b' & E & Hr' & Eh & Hm). exists rc, b'. split_and!; [done|done|done|]. unfold add_phandle_if. pose proof (add_phandle_neg name s) as Hneg.
  destruct (add_phandle name delta s) as [s'|err] eqn:Ea.
  - destruct Hm as [-> Hh]. split_and!; [done|done|]. unfold add_phandle in Ea. destruct (find_prop _ _); [|done]. destruct (negb _); [done|]. destruct (_ <=? _); [done|]. injection Ea as <-. by destruct s.
  - destruct Hm as [-> ->]. specialize (Hneg err eq_refl). destruct (Z.eqb_spec err (- FDT_ERR_NOTFOUND)); [by rewrite andb_false_r|]. destruct (Z.eqb_spec err 0); [lia|]. done.
Qed.

(** The kids of the node, from the first that is not yet done on. *)
Lemma adjust_kids_ok fuel C so sn ps rest : Forall (fun k => forall b C, rw_ready b -> holds b (fill C k) -> (height k <= fuel)%nat -> exists rc b', overlay_adjust_node_phandles fuel (d_off k) delta b = Some (rc, b') /\ stepped b C (adjust delta k) rc b') rest ->
  (forall k, k ∈ rest -> (height k <= fuel)%nat) -> forall don b n, rw_ready b -> holds b (fill C (DNode so sn ps (don ++ rest))) -> (length rest < n)%nat ->
  exists rc b', each_subnode id (fun child => overlay_adjust_node_phandles fuel child delta) n (off_or_end rest) b = Some (rc, b') /\
    stepped b C (match map_err (adjust delta) rest with inl ks' => inl (DNode so sn ps (don ++ ks')) | inr err => inr err end) rc b'.
Proof.
  induction 1 as [|k rest Hk _ IH]; intros Hh don b n Hr Ht Hn; (destruct n as [|n]; [cbn in Hn; lia|]); cbn [each_subnode off_or_end map_err].
  { change (- FDT_ERR_NOTFOUND <? 0) with true. do 2 eexists. split; [done|]. by split_and!. }
  change (DNode so sn ps (don ++ k :: rest)) with (fill1 k (LFrame so sn ps don rest)) in Ht. change (fill C (fill1 k ?f)) with (fill (f :: C) k) in Ht.
  pose proof (node_off_pos b (rw_read _ Hr) _ k Ht (within_preorder _ _ (fill_within _ k))). destruct (Z.ltb_spec (d_off k) 0); [lia|]. unfold mbind, M_bind.
  destruct (Hk b _ Hr Ht ltac:(apply Hh; by left)) as (rc & b1 & -> & Hr1 & Eh & Hm). destruct (adjust delta k) as [k'|err] eqn:Ea.
  - destruct Hm as [-> Ht1]. cbn [negb Z.eqb]. change (holds b1 (fill C (DNode so sn ps (don ++ k' :: rest)))) in Ht1. unfold get, lift, id.
    destruct (fill_lies b1 Hr1 C _ Ht1) as (o1 & es & Hl). assert (d_off k' = d_off k) as Eo.
    { destruct k as [ko kn kps kks]. cbn [adjust] in Ea. destruct (adjust_own _ _); [|done]. destruct (map_err _ kks); [|done]. by injection Ea as <-. }
    rewrite <- Eo. rewrite (next_subnode_tree b1 (rw_read _ Hr1) _ es k' rest (li_tag _ _ _ _ Hl) (li_node _ _ _ _ Hl)); [|cbn [d_kids]; clear; induction don; by constructor].
    replace (don ++ k' :: rest) with ((don ++ [k']) ++ rest) in Ht1 by (by rewrite <- app_assoc). destruct (IH ltac:(intros x Hx; apply Hh; by right) (don ++ [k']) b1 n Hr1 Ht1 ltac:(cbn in Hn; lia)) as (rc & b2 & E & Hr2 & Eh2 & Hm2).
    exists rc, b2. split; [exact E|]. split; [done|]. split; [by etrans|]. destruct (map_err (adjust delta) rest); [|done]. by rewrite <- app_assoc in Hm2.
  - destruct Hm as (-> & Hneg & Hex). destruct (Z.eqb_spec err 0); [lia|]. cbn [negb]. do 2 eexists. split; [done|]. by split_and!.
Qed.

Lemma adjust_ok v : forall fuel b C, rw_ready b -> holds b (fill C v) -> (height v <= fuel)%nat -> exists rc b', overlay_adjust_node_phandles fuel (d_off v) delta b = Some (rc, b') /\ stepped b C (adjust delta v) rc b'.
Proof.
  induction v as [vo vn vps vks IH] using dt_ind'. intros fuel b C Hr Ht Hf. cbn [height] in Hf. destruct fuel as [|fuel]; [lia|]. cbn [overlay_adjust_node_phandles adjust d_off]. unfold mbind, M_bind. unfold adjust_own.
  assert (forall name s, add_phandle_if name delta s = match add_phandle_if name delta (DNode (d_off s) (d_name s) (d_props s) []) with inl s' => inl (DNode (d_off s) (d_name s) (d_props s') (d_kids s)) | inr err => inr err end) as Hkids.
  { intros name [o n ps ks]. unfold add_phandle_if, add_phandle. cbn [d_off d_name d_props d_kids]. destruct (find_prop _ _); [|done]. destruct (negb _); [done|]. by destruct (_ <=? _). }
  destruct (add_phandle_step b Hr C _ (byte_list "phandle") Ht) as (rc & b1 & E1 & Hr1 & Eh1 & Hm1). cbn [d_off] in E1. rewrite E1. rewrite Hkids in Hm1. cbn [d_off d_name d_props d_kids] in Hm1.
  destruct (add_phandle_if (byte_list "phandle") delta (DNode vo vn vps [])) as [s1|err] eqn:A1.
  2: { destruct Hm1 as (-> & -> & Hneg & Hh). do 2 eexists. split; [done|]. split_and!; [done|done|done|done|by eexists]. }
  destruct Hm1 as (-> & Ht1 & _). destruct (add_phandle_step b1 Hr1 C _ (byte_list "linux,phandle") Ht1) as (rc2 & b2 & E2 & Hr2 & Eh2 & Hm2). cbn [d_off] in E2. rewrite E2. rewrite Hkids in Hm2. cbn [d_off d_name d_props d_kids] in Hm2.
  assert (exists n ps, s1 = DNode vo n ps [] /\ n = vn) as (n1 & ps1 & -> & ->).
  { unfold add_phandle_if, add_phandle in A1. cbn [d_props] in A1. destruct (find_prop _ vps); [|injection A1 as <-; by do 2 eexists]. destruct (negb _); [done|]. destruct (_ <=? _); [done|]. injection A1 as <-. by do 2 eexists. }
  cbn [d_props] in *. destruct (add_phandle_if (byte_list "linux,phandle") delta (DNode vo vn ps1 [])) as [s2|err].
  2: { destruct Hm2 as (-> & -> & Hneg & Hh). do 2 eexists. split; [done|]. split_and!; [done|by etrans|done|done|by eexists]. }
  destruct Hm2 as (-> & Ht2 & _). unfold for_each_subnode, mbind, M_bind, get, lift, id. destruct (fill_lies b2 Hr2 C _ Ht2) as (o1 & es & Hl). pose proof (rw_read _ Hr2) as Hrd.
  pose proof (first_subnode_tree b2 Hrd _ es (li_tag _ _ _ _ Hl) (li_node _ _ _ _ Hl)) as Ef. cbn [d_off d_kids] in Ef. rewrite Ef.
  2: { intros k Hk. by destruct (items_kids b2 Hrd _ _ _ _ (li_items _ _ _ _ Hl) (li_tag1 _ _ _ _ Hl) k Hk) as (? & _ & _ & _ & ? & _). }
  change (match vks with k :: _ => d_off k | [] => - FDT_ERR_NOTFOUND end) with (off_or_end vks).
  assert (forall k, k ∈ vks -> (height k <= fuel)%nat) as Hhk.
  { intros k Hk. assert (list_max (height <$> vks) <= fuel)%nat as Hmax by lia. rewrite list_max_le in Hmax. rewrite Forall_forall in Hmax. apply Hmax. by apply list_elem_of_fmap_2. }
  destruct (adjust_kids_ok fuel C vo vn (d_props s2) vks ltac:(eapply Forall_impl; [exact IH|]; intros k Hk; exact (Hk fuel)) Hhk [] b2 (blob_fuel b2) Hr2 Ht2) as (rc3 & b3 & E3 & Hr3 & Eh3 & Hm3).
  { pose proof (kids_increase b2 Hrd _ _ _ _ (li_items _ _ _ _ Hl) (li_tag1 _ _ _ _ Hl)) as Hki. pose proof (li_range _ _ _ _ Hl). pose proof (rw_bounds b2 Hr2). cbn [d_kids] in Hki. unfold blob_fuel, zlen in *. lia. }
  exists rc3, b3. split; [exact E3|]. split; [done|]. split; [etrans; [exact Eh1|by etrans]|exact Hm3].
Qed.

(** Nodes take room, so that the fuel of [overlay_adjust_local_phandles] is enough. *)
Lemma height_bound b (Hb : readable b) v : forall e, at_tag (d_off v) -> node_at b v e -> Z.of_nat (height v) <= e - d_off v.
Proof.
  induction v as [vo vn vps vks IH] using dt_ind'. intros e Hg Hn. destruct (node_range b Hb _ e Hg Hn) as (o1 & _ & Hi & Hg1 & _ & ? & ? & ? & _). cbn [d_off d_kids height] in *.
  assert (list_max (height <$> vks) <= Z.to_nat (e - o1))%nat as Hmax; [|lia]. apply list_max_le, Forall_fmap, Forall_forall. intros k Hk. rewrite Forall_forall in IH.
  destruct (items_kids b Hb _ _ _ _ Hi Hg1 k Hk) as (ek & Hkn & Hkg & ? & ? & ? & ?). pose proof (IH k Hk ek Hkg Hkn). cbn. lia.
Qed.
End Adjust.

Lemma adjust_local_ok b delta u : is_uw 32 delta -> rw_ready b -> holds b u -> exists rc b', overlay_adjust_local_phandles delta b = Some (rc, b') /\ stepped b [] (adjust delta u) rc b'.
Proof.
  intros Hd Hr Hu. unfold overlay_adjust_local_phandles, mbind, M_bind, get. pose proof Hu as (_ & H0 & e & _ & Hn & _). rewrite <- H0. apply adjust_ok; [done|done|done|].
  assert (at_tag (d_off u)) as Hg by (by rewrite H0). pose proof (height_bound b (rw_read _ Hr) u e Hg Hn). destruct (node_range b (rw_read _ Hr) u e Hg Hn) as (o1 & _ & Hi & Hg1 & _).
  pose proof (items_end_in b (rw_stable b Hr) _ _ _ _ Hi Hg1). pose proof (rw_bounds b Hr). unfold blob_fuel, zlen in *. lia.
Qed.
