(* ===== verification/FdtOverlayProps.v ===== *)
(** Applying an overlay: the targets of its fragments, the fragments one after the
    other, and [fdt_overlay_apply] with what becomes of the two blobs. *)
From S2P Require Import Prelude KDefs Bytes Fdt FdtRo FdtSafe FdtRoSafe FdtProps FdtHelper FdtCheck FdtTree FdtPath FdtWalk FdtSw FdtSwProps FdtSeg FdtMove FdtEdit FdtSwTree FdtRw FdtSplice FdtRwProps FdtRwNodes FdtScript FdtOverlay FdtMerge FdtInplace.

(** ** Targets *)

(** The node of the base tree a fragment is for: the first with the phandle of
    "target", or the one at "target-path". *)
Definition target_at_path (g t : dt) : dt + Z :=
  match find_prop (byte_list "target-path") (d_props g) with
  | None => inr (- FDT_ERR_BADOVERLAY)
  | Some p =>
      match find_path t (split_path [] (default [] (to_nul (p_val p)))) with Some s => inl s | None => inr (- FDT_ERR_NOTFOUND) end
  end.
Definition find_target (g t : dt) : dt + Z :=
  match find_prop (byte_list "target") (d_props g) with
  | None => target_at_path g t
  | Some p =>
      if negb (zlen (p_val p) =? 4) then inr (- FDT_ERR_BADPHANDLE)
      else
        let ph := be (p_val p) in
        if ph =? u32 (-1) then inr (- FDT_ERR_BADPHANDLE)
        else if ph =? 0 then target_at_path g t
        else match List.find (fun k => node_phandle k =? ph) (preorder t) with Some s => inl s | None => inr (- FDT_ERR_NOTFOUND) end
  end.

(** The path a target is named by, unless it is named by its phandle. *)
Definition path_string (g : dt) : option (list Z) := p ← find_prop (byte_list "target-path") (d_props g); to_nul (p_val p).
Definition target_text (g : dt) : option (list Z) :=
  match find_prop (byte_list "target") (d_props g) with None => path_string g | Some p => if be (p_val p) =? 0 then path_string g else None end.

(** A target path is a string, and absolute. *)
Definition frag_fine (g : dt) : Prop :=
  forall p, find_prop (byte_list "target-path") (d_props g) = Some p -> exists s, to_nul (p_val p) = Some s /\ hd 0 s = 47.

Lemma to_nul_longer l r s : to_nul l = Some s -> to_nul (l ++ r) = Some s.
Proof. intros [H0 [l' ->]]%to_nul_inv. rewrite <- app_assoc. cbn [app]. by apply to_nul_app. Qed.

Lemma cstr_value m p v s : rdn m p (zlen v) = Some v -> to_nul v = Some s -> cstr m p = Some s.
Proof. intros [r [Hp E]]%rdn_from Hs. unfold cstr. destruct (Z.ltb_spec p 0); [lia|]. rewrite E. by apply to_nul_longer. Qed.

Section Target.
  Context (b o : region) (Hb : readable b) (Ho : readable o) (t u g : dt) (Ht : holds b t) (Hu : holds o u) (Hg : within g u) (Hf : frag_fine g).

Lemma target_path_ok fuel : exists path len ret,
  (r ← fdt_getprop o (d_off g) (byte_list "target-path");
   match r with
   | (Some path, path_len) => p ← cstr (r_bytes o) path; ret ← fdt_path_offset b (S fuel) p; Some (ret, Some path, path_len)
   | (None, path_len) => Some (path_len, None, path_len)
   end) = Some (ret, path, len) /\
  match target_at_path g t with
  | inl s => ret = d_off s /\ exists q x, path = Some q /\ path_string g = Some x /\ cstr (r_bytes o) q = Some x
  | inr err => ret < 0 /\ (if len =? - FDT_ERR_NOTFOUND then - FDT_ERR_BADOVERLAY else ret) = err
  end.
Proof.
  pose proof (getprop_in o u g (byte_list "target-path") Hu Hg) as Hp. unfold target_at_path, path_string. specialize (Hf). unfold frag_fine in Hf. destruct (find_prop (byte_list "target-path") (d_props g)) as [p|].
  - destruct Hp as (d & -> & _ & Ev). destruct (Hf p eq_refl) as (s & Es & Hs). cbn [mbind option_bind]. rewrite (cstr_value _ _ _ _ Ev Es). cbn [mbind option_bind]. rewrite (path_offset_tree b Hb t s fuel Ht Hs). cbn [mbind option_bind].
    do 3 eexists. split; [done|]. cbn [mbind option_bind]. rewrite Es. change (default [] (Some s)) with s. unfold path_result. destruct (find_path t (split_path [] s)); [split; [done|]; do 2 eexists; split_and!; [done|done|by apply (cstr_value _ _ _ _ Ev)]|]. split; [done|]. pose proof (zlen_nonneg (p_val p)). change (- FDT_ERR_NOTFOUND) with (-1). by destruct (Z.eqb_spec (zlen (p_val p)) (-1)); [lia|].
  - destruct Hp as [-> _]. do 3 eexists. split; [done|]. done.
Qed.

Lemma find_target_within s : find_target g t = inl s -> within s t.
Proof.
  assert (forall s, target_at_path g t = inl s -> within s t) as Hpath.
  { unfold target_at_path. intros s'. destruct (find_prop _ _); [|done]. destruct (find_path _ _) eqn:E; [|done]. intros [= ->]. by eapply find_path_within. }
  unfold find_target. destruct (find_prop _ _); [|by apply Hpath]. destruct (negb _); [done|]. destruct (_ =? u32 (-1)); [done|]. destruct (_ =? 0); [by apply Hpath|].
  destruct (List.find _ _) eqn:E; [|done]. intros [= ->]. apply List.find_some in E as [E _]. by apply preorder_within, list_elem_of_In.
Qed.

Lemma target_offset_ok fuel : exists path, fdt_overlay_target_offset (S fuel) b o (d_off g) = Some (match find_target g t with inl s => d_off s | inr err => err end, path) /\
  match find_target g t with
  | inl s => 0 <= d_off s /\ match target_text g with Some x => exists q, path = Some q /\ cstr (r_bytes o) q = Some x | None => path = None end
  | inr err => err < 0
  end.
Proof.
  assert (forall s, find_target g t = inl s -> 0 <= d_off s) as Hpos by (intros s Hs; by apply (node_off_pos b Hb t s Ht), within_preorder, find_target_within).
  unfold fdt_overlay_target_offset, overlay_get_target_phandle. destruct (target_path_ok fuel) as (path & len & ret & Epath & Hret).
  assert (forall s, target_at_path g t = inl s -> find_target g t = inl s -> 0 <= d_off s) as Hpos' by (intros s _; apply Hpos).
  assert (find_target g t = target_at_path g t -> target_text g = path_string g -> exists path0, (let '(ret, path, path_len) := (ret, path, len) : Z * option Z * Z in
    let ret := if (ret <? 0) && (path_len =? - FDT_ERR_NOTFOUND) then - FDT_ERR_BADOVERLAY else ret in if ret <? 0 then Some (ret, None) else Some (ret, path)) =
    Some (match target_at_path g t with inl s => d_off s | inr err => err end, path0) /\ match target_at_path g t with inl s => 0 <= d_off s /\ match target_text g with Some x => exists q, path0 = Some q /\ cstr (r_bytes o) q = Some x | None => path0 = None end | inr err => err < 0 end) as Hby.
  { intros Ef ->. rewrite Ef in Hpos. destruct (target_at_path g t) as [s|err].
    - specialize (Hpos s eq_refl). destruct Hret as (-> & q & x & -> & -> & Hq). destruct (Z.ltb_spec (d_off s) 0); [lia|]. cbn [andb]. destruct (Z.ltb_spec (d_off s) 0); [lia|]. eexists. split; [done|]. split; [done|]. by exists q.
    - destruct Hret as [Hneg <-]. destruct (Z.ltb_spec ret 0); [|lia]. cbn [andb]. destruct (len =? - FDT_ERR_NOTFOUND); [by exists None|]. destruct (Z.ltb_spec ret 0); [|lia]. by exists None. }
  pose proof (getprop_in o u g (byte_list "target") Hu Hg) as Hp. unfold find_target, target_text in *. destruct (find_prop (byte_list "target") (d_props g)) as [p|].
  - destruct Hp as (d & -> & _ & Ev). cbn [mbind option_bind]. destruct (Z.eqb_spec (zlen (p_val p)) 4) as [E4|N4]; cbn [negb] in *; [|by exists None].
    rewrite E4 in Ev. unfold fdt32_ld, rd_be. rewrite Ev. cbn [fmap option_fmap option_map mbind option_bind]. destruct (be (p_val p) =? u32 (-1)) eqn:E1; [by exists None|]. destruct (be (p_val p) =? 0) eqn:E0.
    + rewrite Epath. cbn [mbind option_bind]. by apply Hby.
    + apply Z.eqb_neq in E0, E1. rewrite (by_phandle_tree b Hb t _ Ht E0 E1). cbn [mbind option_bind]. unfold found. change (0 =? - FDT_ERR_NOTFOUND) with false. rewrite andb_false_r.
      destruct (List.find _ (preorder t)) as [s|]; [|by exists None]. specialize (Hpos s eq_refl). destruct (Z.ltb_spec (d_off s) 0); [lia|]. exists None. by split_and!.
  - destruct Hp as [-> _]. cbn [mbind option_bind]. change (0 =? u32 (-1)) with false. rewrite Z.eqb_refl, Epath. cbn [mbind option_bind]. by apply Hby.
Qed.
End Target.

(** ** All fragments *)

Definition overlay_of (g : dt) : option dt := find_kid (byte_list "__overlay__") (d_kids g).

(** The fragments merged one after the other: each into its target in the tree the
    ones before it have left; a node without "__overlay__" is passed over. *)
Inductive fragments : list dt -> dt -> dt -> Prop :=
  | fr_nil t : fragments [] t t
  | fr_skip g gs t t' : overlay_of g = None -> fragments gs t t' -> fragments (g :: gs) t t'
  | fr_merge g gs v s F t t1 t' : overlay_of g = Some v -> find_target g t = inl s -> sits s t F -> erase t1 = plug F (merge (erase v) (erase s)) ->
      fragments gs t1 t' -> fragments (g :: gs) t t'.

Definition frag_need (g : dt) : Z := match overlay_of g with Some v => merge_need (erase v) | None => 0 end.

Section Merge.
  Context (o : region) (Ho : stable o) (Hsz : hv o 4 < 2 ^ 30) (u : dt) (Hu : holds o u).
  Local Abbreviation R := (sb_read _ Ho).

(** The body of the loop over the fragments. *)
Definition fragment_body (fuel : nat) (fragment : Z) : M (region * region) Z :=
  overlay ← on_fdto (rd (fun b => fdt_subnode_offset b fragment (byte_list "__overlay__")));
  if overlay =? - FDT_ERR_NOTFOUND then mret 0
  else if overlay <? 0 then mret overlay
  else
    s ← get;
    t ← lift (fdt_overlay_target_offset fuel s.1 s.2 fragment);
    let target := (t : Z * option Z).1 in
    if target <? 0 then mret target
    else overlay_apply_node (blob_fuel s.2) target overlay.

(** What a run over fragments leaves behind. *)
Definition fragments_run (tot bound : Z) (gs : list dt) (t : dt) (rc : Z) (b' : region) : Prop :=
  rw_ready b' /\ exists t', holds b' t' /\
  ((rc = 0 /\ hv b' 4 = tot /\ used b' <= bound /\ fragments gs t t') \/ (rc = - FDT_ERR_NOSPACE /\ tot < bound) \/
   (exists don g rest, gs = don ++ g :: rest /\ fragments don t t' /\ is_Some (overlay_of g) /\ find_target g t' = inr rc)).

Lemma fragment_ok fuel g eg b t : at_tag (d_off g) -> node_at o g eg -> within g u -> frag_fine g -> rw_ready b -> holds b t ->
  exists rc b', fragment_body (S fuel) (d_off g) (b, o) = Some (rc, (b', o)) /\ rw_ready b' /\ exists t', holds b' t' /\
    ((rc = 0 /\ hv b' 4 = hv b 4 /\ used b' <= used b + frag_need g /\ (forall gs t2, fragments gs t' t2 -> fragments (g :: gs) t t2)) \/
     (rc = - FDT_ERR_NOSPACE /\ hv b 4 < used b + frag_need g) \/ (t' = t /\ is_Some (overlay_of g) /\ find_target g t = inr rc /\ rc < 0)).
Proof.
  intros Hgg Hgn Hgw Hff Hr Ht. unfold fragment_body, mbind, M_bind. unfold on_fdto at 1, rd at 1, fdt_subnode_offset. cbn [fst snd].
  rewrite (subnode_offset_tree o R _ g eg Hgg Hgn). cbn [mbind option_bind]. unfold kid_result. fold (overlay_of g). unfold frag_need. destruct (overlay_of g) as [v|] eqn:Eov.
  2: { rewrite Z.eqb_refl. do 2 eexists. split; [done|]. split; [done|]. exists t. split; [done|]. left. split_and!; [done|done|lia|]. intros gs t2 Hfr. by apply fr_skip. }
  destruct (node_range o R g eg Hgg Hgn) as (o1 & _ & Hi & Hg1 & _). destruct (items_kids o R _ _ _ _ Hi Hg1 v (find_kid_in _ _ _ Eov)) as (ev & Hvn & Hvg & _ & Hv0 & _).
  change (- FDT_ERR_NOTFOUND) with (-1). destruct (Z.eqb_spec (d_off v) (-1)); [lia|]. destruct (Z.ltb_spec (d_off v) 0); [lia|]. unfold get, lift. cbn [fst snd].
  destruct (target_offset_ok b o (rw_read _ Hr) t u g Ht Hu Hgw Hff fuel) as (path & -> & Hpos). cbn [fst]. destruct (find_target g t) as [s|err] eqn:Etg.
  - destruct Hpos as [Hpos _]. destruct (Z.ltb_spec (d_off s) 0); [lia|]. destruct (within_sits s t (find_target_within t g s Etg)) as [F HF].
    destruct (apply_node_ok o Ho Hsz v ev (blob_fuel o) F (d_off s) (hv b 4) (used b) (erase s) b Hvg Hvn) as (rc & b' & -> & Hm).
    { pose proof (node_end_bound o R v ev Hvg Hvn). pose proof (bo_size _ (rb_ok _ R)). pose proof (bo_hdr _ (rb_ok _ R)). destruct (node_range o R v ev Hvg Hvn) as (x & Htv & _ & Hgx & _ & ? & ? & ? & _).
      pose proof (items_end_in o Ho _ _ _ _ Hi Hg1). destruct (items_kids o R _ _ _ _ Hi Hg1 v (find_kid_in _ _ _ Eov)) as (ev' & Hvn' & _ & _ & _ & _ & Hlt). assert (ev' = ev) as -> by (by eapply node_end_fun).
      pose proof (bd_struct _ (sb_bound _ Ho)). pose proof (field_range o (rb_ok _ R) 8 ltac:(lia)). unfold blob_fuel, zlen in *. lia. }
    { split_and!; [done|done|lia|]. by exists t, s. }
    do 2 eexists. split; [done|]. destruct Hm as [[-> (Hr' & Htot & Hu' & t' & s' & Ht' & Hs' & _ & Es)]|(-> & Hlt & Hr' & t' & Ht')].
    + split; [done|]. exists t'. split; [done|]. left. split_and!; [done|done|lia|]. intros gs t2 Hfr. eapply fr_merge; [done|done|done| |done]. by rewrite (erase_plug _ _ _ Hs'), Es.
    + split; [done|]. exists t'. split; [done|]. right. left. split; [done|lia].
  - destruct (Z.ltb_spec err 0); [|lia]. do 2 eexists. split; [done|]. split; [done|]. exists t. split; [done|]. right. right. split_and!; [done|by eexists|done|done].
Qed.

Lemma frag_need_pos g : 0 <= frag_need g.
Proof. unfold frag_need. destruct (overlay_of g) as [v|]; [apply (need_pos v)|done]. Qed.

Lemma fragment_quiet fuel x : quiet (fragment_body fuel x).
Proof. unfold fragment_body. quiet. Qed.

Lemma fragments_ok fuel e gs : at_tag (d_off u) -> node_at o u e -> (forall g, g ∈ gs -> g ∈ d_kids u) -> Forall frag_fine gs -> forall b t bound, rw_ready b -> holds b t -> used b <= bound ->
  exists rc b', run_all (fragment_body (S fuel)) (d_off <$> gs) (b, o) = Some (rc, (b', o)) /\ fragments_run (hv b 4) (bound + total_of frag_need gs) gs t rc b'.
Proof.
  intros Hg Hn Hin Hff. destruct (node_range o R u e Hg Hn) as (o1 & _ & Hi & Hg1 & _).
  induction Hff as [|g gs Hf Hff IH]; intros b t bound Hr Ht Hb.
  { do 2 eexists. split; [done|]. split; [done|]. exists t. split; [done|]. left. split_and!; [done|done|unfold total_of; cbn [foldr]; lia|constructor]. }
  destruct (items_kids o R _ _ _ _ Hi Hg1 g ltac:(apply Hin; by left)) as (eg & Hgn & Hgg & _). assert (within g u) as Hgw by (eapply within_kid; [apply Hin; by left|constructor]).
  assert (total_of frag_need (g :: gs) = frag_need g + total_of frag_need gs) as -> by done. assert (0 <= total_of frag_need gs) as Hpos by (clear; induction gs as [|x gs IH]; [done|]; unfold total_of in *; cbn [foldr]; pose proof (frag_need_pos x); lia).
  rewrite fmap_cons. cbn [run_all]. unfold mbind, M_bind. destruct (fragment_ok fuel g eg b t Hgg Hgn Hgw Hf Hr Ht) as (rc & b1 & -> & Hr1 & t1 & Ht1 & [(-> & E4 & Hu1 & Hfr)|[(-> & Hlt)|(-> & Hov & Htg & Hneg)]]).
  - cbn [negb Z.eqb]. destruct (IH ltac:(intros x Hx; apply Hin; by right) b1 t1 (bound + frag_need g) Hr1 Ht1 ltac:(lia)) as (rc & b' & E & Hr' & t' & Ht' & Hrun). exists rc, b'. split; [exact E|]. split; [done|]. exists t'. split; [done|].
    rewrite E4 in Hrun. destruct Hrun as [(-> & H4 & Hub & Hf2)|[(-> & Hlt)|(don & g' & rest & -> & Hf2 & Hov & Htg)]].
    + left. split_and!; [done|done|lia|by apply Hfr].
    + right. left. split; [done|lia].
    + right. right. exists (g :: don), g', rest. split_and!; [done|by apply Hfr|done|done].
  - do 2 eexists. split; [done|]. split; [done|]. exists t1. split; [done|]. right. left. split; [done|lia].
  - destruct (Z.eqb_spec rc 0); [lia|]. cbn [negb]. do 2 eexists. split; [done|]. split; [done|]. exists t. split; [done|]. right. right. exists [], g, gs. split_and!; [done|constructor|done|done].
Qed.

Lemma overlay_merge_ok fuel b t : Forall frag_fine (d_kids u) -> rw_ready b -> holds b t ->
  exists rc b', overlay_merge (S fuel) (b, o) = Some (rc, (b', o)) /\ fragments_run (hv b 4) (used b + total_of frag_need (d_kids u)) (d_kids u) t rc b'.
Proof.
  intros Hff Hr Ht. destruct Hu as (_ & H0 & e & _ & Hn & _). assert (at_tag (d_off u)) as Hg by (by rewrite H0).
  destruct (fragments_ok fuel e (d_kids u) Hg Hn ltac:(done) Hff b t (used b) Hr Ht ltac:(lia)) as (rc & b' & E & Hrun). exists rc, b'. split; [|done]. rewrite <- E. change (for_each_subnode snd (fragment_body (S fuel)) 0 (b, o) = run_all (fragment_body (S fuel)) (d_off <$> d_kids u) (b, o)). rewrite <- H0.
  apply (for_each_subnode_run snd (fragment_body (S fuel)) o R) with (e := e); [|done|done|done]. intros x s rc' s' Hv Eb. rewrite <- Hv. by eapply fragment_quiet.
Qed.
End Merge.

(** ** Phandles *)

(** What [adjust] does to a node: its phandles are raised, and nothing else. *)
Definition raised (delta : Z) (k k' : dt) : Prop :=
  d_off k' = d_off k /\ d_name k' = d_name k /\
  (forall name, name = byte_list "phandle" \/ name = byte_list "linux,phandle" -> cell_prop name k' = Z.add delta <$> cell_prop name k) /\
  (forall name, name <> byte_list "phandle" -> name <> byte_list "linux,phandle" -> p_val <$> find_prop name (d_props k') = p_val <$> find_prop name (d_props k)).

Lemma find_upd_val name f ps n : p_val <$> find_prop n (upd_val name f ps) = if bool_decide (n = name) then f <$> (p_val <$> find_prop n ps) else p_val <$> find_prop n ps.
Proof.
  unfold find_prop. induction ps as [|p ps IH]; cbn [upd_val List.find]; [by case_bool_decide|]. destruct (decide (p_name p = name)) as [E|E].
  - rewrite (bool_decide_eq_true_2 (p_name p = name)) by done. cbn [List.find p_name]. destruct (decide (n = name)) as [->|Hn].
    + rewrite (bool_decide_eq_true_2 (p_name p = name)), (bool_decide_eq_true_2 (name = name)) by done. done.
    + rewrite (bool_decide_eq_false_2 (p_name p = n)), (bool_decide_eq_false_2 (n = name)) by congruence. done.
  - rewrite (bool_decide_eq_false_2 (p_name p = name)) by done. cbn [List.find]. destruct (decide (p_name p = n)) as [E2|E2].
    + rewrite (bool_decide_eq_true_2 (p_name p = n)), (bool_decide_eq_false_2 (n = name)) by congruence. done.
    + rewrite (bool_decide_eq_false_2 (p_name p = n)) by done. exact IH.
Qed.

Lemma cell_prop_val name t : cell_prop name t = (v ← p_val <$> find_prop name (d_props t); if zlen v =? 4 then Some (be v) else None).
Proof. unfold cell_prop. by destruct (find_prop name (d_props t)). Qed.

(** One of the two properties. *)
Lemma add_phandle_raised name delta s s' : is_uw 32 delta -> Forall (fun p => Forall is_byte (p_val p)) (d_props s) -> add_phandle_if name delta s = inl s' ->
  d_off s' = d_off s /\ d_name s' = d_name s /\ d_kids s' = d_kids s /\ Forall (fun p => Forall is_byte (p_val p)) (d_props s') /\
  forall n, cell_prop n s' = (if bool_decide (n = name) then Z.add delta <$> cell_prop n s else cell_prop n s) /\ (n <> name -> p_val <$> find_prop n (d_props s') = p_val <$> find_prop n (d_props s)).
Proof.
  intros Hd Hbs. unfold add_phandle_if, add_phandle. destruct (find_prop name (d_props s)) as [p|] eqn:Ep.
  - destruct (Z.eqb_spec (zlen (p_val p)) 4) as [E4|N4]; cbn [negb]; [|done]. destruct (Z.leb_spec (2 ^ 32 - 1) (be (p_val p) + delta)); [done|]. intros [= <-]. destruct s as [o n ps ks]. cbn [with_val d_off d_name d_kids d_props] in *.
    assert (Forall is_byte (p_val p)) as Hpb by (apply List.find_some in Ep as [Hin _]; rewrite Forall_forall in Hbs; apply Hbs; by apply list_elem_of_In).
    pose proof (be_range _ Hpb) as Hr. rewrite E4 in Hr. change (256 ^ 4) with (2 ^ 32) in Hr. unfold is_uw in Hd. split_and!; [done|done|done| |].
    + clear -Hbs. induction Hbs as [|q ps Hq Hps IH]; cbn [upd_val]; [constructor|]. case_bool_decide; constructor; [apply to_be_bytes|done|done|done].
    + intros m. split; [|intros Hne; rewrite find_upd_val; by rewrite bool_decide_eq_false_2]. rewrite !cell_prop_val. cbn [d_props]. rewrite find_upd_val. case_bool_decide as Em; [|done]. subst m. rewrite Ep. cbn [fmap option_fmap option_map mbind option_bind].
      rewrite zlen_to_be, E4. cbn [Z.eqb Z.of_nat Pos.of_succ_nat Pos.succ Pos.eqb fmap option_fmap option_map]. f_equal. rewrite be_to_be4, uw_small by (unfold is_uw; lia). lia.
  - rewrite Z.eqb_refl. intros [= <-]. split_and!; try done. intros m. split; [|done]. case_bool_decide as Em; [|done]. subst m. unfold cell_prop. by rewrite Ep.
Qed.

Definition bytes_tree (t : dt) : Prop := forall k, k ∈ preorder t -> Forall (fun p => Forall is_byte (p_val p)) (d_props k).

Lemma adjust_raised delta : is_uw 32 delta -> forall u u', bytes_tree u -> adjust delta u = inl u' -> Forall2 (raised delta) (preorder u) (preorder u') /\ Forall2 (raised delta) (d_kids u) (d_kids u').
Proof.
  intros Hd u. induction u as [o n ps ks IH] using dt_ind'. intros u' Hb. cbn [adjust]. unfold adjust_own.
  destruct (add_phandle_if (byte_list "phandle") delta (DNode o n ps [])) as [s1|] eqn:A1; [|done]. destruct (add_phandle_if (byte_list "linux,phandle") delta s1) as [s2|] eqn:A2; [|done].
  destruct (map_err (adjust delta) ks) as [ks'|] eqn:Ek; [|done]. intros [= <-].
  assert (Forall (fun p => Forall is_byte (p_val p)) ps) as Hps by (apply (Hb (DNode o n ps ks)); left).
  destruct (add_phandle_raised _ _ (DNode o n ps []) _ Hd Hps A1) as (O1 & N1 & K1 & B1 & P1). destruct (add_phandle_raised _ _ s1 _ Hd B1 A2) as (O2 & N2 & K2 & B2 & P2).
  assert (raised delta (DNode o n ps ks) (DNode o n (d_props s2) ks')) as Hroot.
  { assert (forall name, cell_prop name (DNode o n (d_props s2) ks') = cell_prop name s2) as C2 by done. assert (forall name, cell_prop name (DNode o n ps ks) = cell_prop name (DNode o n ps [])) as C1 by done.
    split_and!; [done|done| |].
    - intros name Hname. rewrite C2, C1, (proj1 (P2 name)), (proj1 (P1 name)). destruct Hname as [-> | ->]; case_bool_decide; try done; case_bool_decide; done.
    - intros name H1 H2. cbn [d_props]. rewrite (proj2 (P2 name) H2). by apply (P1 name). }
  assert (Forall2 (raised delta) (ks ≫= preorder) (ks' ≫= preorder) /\ Forall2 (raised delta) ks ks') as [Hk1 Hk2].
  { assert (forall k, k ∈ ks -> bytes_tree k) as Hbk by (intros k Hk x Hx; apply Hb; right; apply list_elem_of_bind; by exists k). clear -IH Ek Hbk. revert ks' Ek. induction IH as [|k ks Hk _ IHk]; intros ks' Ek; cbn [map_err] in Ek; [injection Ek as <-; by split; constructor|].
    destruct (adjust delta k) as [k'|] eqn:Ea; [|done]. destruct (map_err (adjust delta) ks) as [l'|] eqn:El; [|done]. injection Ek as <-. destruct (IHk ltac:(intros x Hx; apply Hbk; by right) l' eq_refl) as [I1 I2].
    destruct (Hk k' ltac:(apply Hbk; by left) eq_refl) as [J1 J2]. rewrite !bind_cons. split; [by apply Forall2_app|]. constructor; [|done]. destruct k as [ko kn kp kk], k' as [ko' kn' kp' kk']. by inversion J1; subst. }
  split; [|done]. cbn [preorder]. by constructor.
Qed.

(** ** Every node *)

Lemma holds_bytes o u : holds o u -> bytes_tree u.
Proof.
  intros (Hr & H0 & e & _ & Hn & _) k Hk. assert (at_tag (d_off u)) as Hg by (by rewrite H0). destruct (within_at o Hr u e k Hg Hn (preorder_within _ _ Hk)) as (ek & Hkg & Hkn).
  destruct (node_range o Hr k ek Hkg Hkn) as (o1 & _ & Hi & Hg1 & _). apply Forall_forall. intros p Hp. destruct (items_prop o Hr _ _ _ _ p Hi Hg1 Hp) as (x & _ & _ & _ & _ & Hv). eapply Forall_rdn; [apply (bo_bytes _ (rb_ok _ Hr))|exact Hv].
Qed.

Lemma cell_range name k v : Forall (fun p => Forall is_byte (p_val p)) (d_props k) -> cell_prop name k = Some v -> is_uw 32 v.
Proof.
  intros Hb. unfold cell_prop. destruct (find_prop name (d_props k)) as [p|] eqn:Ep; [|done]. cbn [mbind option_bind]. destruct (Z.eqb_spec (zlen (p_val p)) 4) as [E4|]; [|done]. intros [= <-].
  apply List.find_some in Ep as [Hin _]. rewrite Forall_forall in Hb. pose proof (be_range _ (Hb p ltac:(by apply list_elem_of_In))) as Hr. rewrite E4 in Hr. change (256 ^ 4) with (2 ^ 32) in Hr. done.
Qed.

Lemma phandle_range k : Forall (fun p => Forall is_byte (p_val p)) (d_props k) -> is_uw 32 (node_phandle k).
Proof.
  intros Hb. unfold node_phandle. destruct (cell_prop (byte_list "phandle") k) as [v|] eqn:E1; [by eapply cell_range|]. destruct (cell_prop (byte_list "linux,phandle") k) as [v|] eqn:E2; [by eapply cell_range|]. done.
Qed.

Lemma max_phandle_le l : forall mx, mx <= max_phandle l mx /\ forall k, k ∈ l -> node_phandle k <= max_phandle l mx.
Proof.
  induction l as [|x l IH]; intros mx; [split; [done|]; intros k Hk; by apply elem_of_nil in Hk|]. unfold max_phandle in *. cbn [fold_left]. destruct (IH (Z.max mx (node_phandle x))) as [I1 I2]. split; [lia|].
  intros k [->|Hk]%elem_of_cons; [lia|by apply I2].
Qed.

Lemma max_phandle_range l : (forall k, k ∈ l -> is_uw 32 (node_phandle k)) -> forall mx, is_uw 32 mx -> is_uw 32 (max_phandle l mx).
Proof.
  induction l as [|x l IH]; intros Hl mx Hm; [done|]. unfold max_phandle in *. cbn [fold_left]. apply IH; [intros k Hk; apply Hl; by right|]. pose proof (Hl x ltac:(by left)). unfold is_uw in *. lia.
Qed.

Lemma tree_max_range b t : holds b t -> is_uw 32 (max_phandle (preorder t) 0).
Proof. intros Ht. apply max_phandle_range; [|done]. intros k Hk. by apply phandle_range, (holds_bytes b t Ht). Qed.

(** A node with a phandle has a new one above the offset. *)
Lemma raised_phandle delta k k' : raised delta k k' -> node_phandle k <> 0 -> node_phandle k' = node_phandle k + delta.
Proof.
  intros (_ & _ & Hp & _) H0. unfold node_phandle in *. rewrite !Hp by tauto. destruct (cell_prop (byte_list "phandle") k); cbn [fmap option_fmap option_map default]; [lia|]. destruct (cell_prop (byte_list "linux,phandle") k); cbn [fmap option_fmap option_map default from_option] in *; [unfold id; lia|done].
Qed.

(** What makes [adjust] fail. *)
Definition bad_phandle (delta : Z) (k : dt) (err : Z) : Prop :=
  exists name p, (name = byte_list "phandle" \/ name = byte_list "linux,phandle") /\ find_prop name (d_props k) = Some p /\
  ((err = - FDT_ERR_BADPHANDLE /\ zlen (p_val p) <> 4) \/ (err = - FDT_ERR_NOPHANDLES /\ zlen (p_val p) = 4 /\ 2 ^ 32 - 1 <= be (p_val p) + delta)).

Lemma add_phandle_bad name delta s err : add_phandle_if name delta s = inr err -> exists p, find_prop name (d_props s) = Some p /\
  ((err = - FDT_ERR_BADPHANDLE /\ zlen (p_val p) <> 4) \/ (err = - FDT_ERR_NOPHANDLES /\ zlen (p_val p) = 4 /\ 2 ^ 32 - 1 <= be (p_val p) + delta)).
Proof.
  unfold add_phandle_if, add_phandle. destruct (find_prop name (d_props s)) as [p|]; [|by rewrite Z.eqb_refl]. intros H. exists p. split; [done|].
  destruct (Z.eqb_spec (zlen (p_val p)) 4) as [E4|N4]; cbn [negb] in H; [|left; split; [|done]; by injection H as <-]. destruct (Z.leb_spec (2 ^ 32 - 1) (be (p_val p) + delta)); [|done]. right. by injection H as <-.
Qed.

Lemma adjust_bad delta : is_uw 32 delta -> forall u err, bytes_tree u -> adjust delta u = inr err -> exists k, k ∈ preorder u /\ bad_phandle delta k err.
Proof.
  intros Hd u. induction u as [o n ps ks IH] using dt_ind'. intros err Hb. cbn [adjust]. unfold adjust_own.
  assert (Forall (fun p => Forall is_byte (p_val p)) ps) as Hps by (apply (Hb (DNode o n ps ks)); left).
  destruct (add_phandle_if (byte_list "phandle") delta (DNode o n ps [])) as [s1|e1] eqn:A1.
  2: { intros [= <-]. apply add_phandle_bad in A1 as (p & Ep & Hc). exists (DNode o n ps ks). split; [left|]. exists (byte_list "phandle"), p. split_and!; [by left|done|done]. }
  destruct (add_phandle_raised _ _ (DNode o n ps []) _ Hd Hps A1) as (_ & _ & _ & _ & P1).
  destruct (add_phandle_if (byte_list "linux,phandle") delta s1) as [s2|e2] eqn:A2.
  2: { intros [= <-]. apply add_phandle_bad in A2 as (p & Ep & Hc). destruct (P1 (byte_list "linux,phandle")) as [_ Hv]. specialize (Hv ltac:(done)). rewrite Ep in Hv. cbn [d_props] in Hv. destruct (find_prop (byte_list "linux,phandle") ps) as [q|] eqn:Eq; [|done].
    injection Hv as Hv. rewrite Hv in Hc. exists (DNode o n ps ks). split; [left|]. exists (byte_list "linux,phandle"), q. split_and!; [by right|done|done]. }
  destruct (map_err (adjust delta) ks) as [ks'|e] eqn:Ek; [done|]. intros [= <-]. cbn [preorder].
  assert (exists k, k ∈ (ks ≫= preorder) /\ bad_phandle delta k e) as (k & Hk & Hbad); [|exists k; split; [by right|done]].
  assert (forall k, k ∈ ks -> bytes_tree k) as Hbk by (intros k Hk x Hx; apply Hb; right; apply list_elem_of_bind; by exists k). clear -IH Ek Hbk.
  induction IH as [|k ks Hk _ IHk]; cbn [map_err] in Ek; [done|]. rewrite bind_cons. destruct (adjust delta k) as [k'|ek] eqn:Ea.
  - destruct (map_err (adjust delta) ks) as [l'|el] eqn:El; [done|]. destruct (IHk Ek ltac:(intros x Hx; apply Hbk; by right)) as (x & Hx & Hbad). exists x. split; [|done]. apply elem_of_app. by right.
  - injection Ek as <-. destruct (Hk ek ltac:(apply Hbk; by left) eq_refl) as (x & Hx & Hbad). exists x. split; [|done]. apply elem_of_app. by left.
Qed.

(** The first step of [fdt_overlay_apply] keeps the phandles of the overlay apart
    from those of the base tree: with the largest phandle of the base as the offset,
    [overlay_adjust_local_phandles] raises the phandle of every node of the overlay
    and changes nothing else, so that it is above every phandle of the base tree and
    two nodes have the same phandle only if they had it before. It fails only for a phandle property that
    is not a cell, or a phandle that would pass the largest valid one. *)
Theorem overlay_phandles_distinct b t o u : holds b t -> rw_ready o -> holds o u -> exists delta rc o',
  fdt_find_max_phandle b = Some (0, delta) /\ overlay_adjust_local_phandles delta o = Some (rc, o') /\ rw_ready o' /\
  ((rc = 0 /\ exists u', holds o' u' /\ Forall2 (raised delta) (preorder u) (preorder u') /\
      Forall2 (fun k k' => node_phandle k <> 0 -> node_phandle k' = node_phandle k + delta /\ forall x, x ∈ preorder t -> node_phandle x < node_phandle k') (preorder u) (preorder u')) \/
   (rc < 0 /\ exists k, k ∈ preorder u /\ bad_phandle delta k rc)).
Proof.
  intros Ht Hr Hu. set (delta := max_phandle (preorder t) 0). pose proof (tree_max_range b t Ht) as Hd. fold delta in Hd. destruct (adjust_local_ok o delta u Hd Hr Hu) as (rc & o' & E & Hr' & _ & Hm). exists delta, rc, o'.
  split_and!; [exact (find_max_phandle_tree b (proj1 Ht) t Ht)|done|done|]. pose proof (holds_bytes o u Hu) as Hb. destruct (adjust delta u) as [u'|err] eqn:Ea.
  - left. destruct Hm as [-> Hu']. split; [done|]. exists u'. destruct (adjust_raised delta Hd u u' Hb Ea) as [Hra _]. split_and!; [done|done|]. assert (forall k, k ∈ preorder u -> 0 <= node_phandle k) as Hpos by (intros k Hk; by apply (phandle_range k), Hb).
    clear -Hra Hpos. induction Hra as [|k k' l l' Hk Hl IH]; [constructor|]. constructor; [|apply IH; intros x Hx; apply Hpos; by right]. intros H0. rewrite (raised_phandle _ _ _ Hk H0). split; [done|].
    intros x Hx. pose proof (proj2 (max_phandle_le (preorder t) 0) x Hx). pose proof (Hpos k ltac:(by left)). unfold delta. lia.
  - right. destruct Hm as (-> & Hneg & _). split; [done|]. by apply adjust_bad.
Qed.
