(* ===== verification/FdtRefs.v ===== *)
(** References inside an overlay: "__local_fixups__" mirrors the tree and lists, for
    properties of its nodes, where their values hold phandles of the overlay;
    [overlay_update_local_references] raises them with the phandles. *)
From S2P Require Import Prelude KDefs Bytes Fdt FdtRo FdtSafe FdtRoSafe FdtProps FdtHelper FdtCheck FdtTree FdtPath FdtWalk FdtSw FdtSwProps FdtSeg FdtMove FdtEdit FdtSwTree FdtRw FdtSplice FdtRwProps FdtRwNodes FdtScript FdtOverlay FdtMerge FdtInplace.

(** ** The change of the tree *)

(** [None]: an offset is outside the value, which the code reads before it checks;
    [inr]: the error code. *)
Definition res (A : Type) : Type := option (A + Z).
Definition res_bind {A B} (r : res A) (f : A -> res B) : res B :=
  match r with None => None | Some (inr err) => Some (inr err) | Some (inl a) => f a end.

Section FoldErr.
  Context {A S : Type} (f : A -> S -> res S).
Fixpoint fold_err (l : list A) (s : S) : res S :=
  match l with [] => Some (inl s) | x :: l => res_bind (f x s) (fold_err l) end.
End FoldErr.

(** The big-endian words of a value. *)
Fixpoint words (v : list Z) : list Z := match v with a :: b :: c :: d :: v => be [a; b; c; d] :: words v | _ => [] end.

(** The word at [idx] of the value of a property raised by [delta]. *)
Definition raise_cell (delta : Z) (name : list Z) (idx : Z) (s : dt) : res dt :=
  match find_prop name (d_props s) with
  | None => None
  | Some q =>
      if idx + 4 <=? zlen (p_val q) then
        Some (inl (with_val name (put_at idx (to_be 4 (u32 (be (take 4 (drop (Z.to_nat idx) (p_val q))) + delta)))) s))
      else None
  end.

(** A property [p] of a fixup node, for the node [s]. *)
Definition fix_prop (delta : Z) (p : pitem) (s : dt) : res dt :=
  if negb (zlen (p_val p) mod 4 =? 0) then Some (inr (- FDT_ERR_BADOVERLAY))
  else
    match find_prop (p_name p) (d_props s) with
    | None => Some (inr (- FDT_ERR_BADOVERLAY))
    | Some _ => fold_err (raise_cell delta (p_name p)) (words (p_val p)) s
    end.

(** A change of the first sub-node with a name. *)
Fixpoint first_kid (name : list Z) (f : dt -> res dt) (ks : list dt) : res (list dt) :=
  match ks with
  | [] => Some (inr (- FDT_ERR_BADOVERLAY))
  | k :: ks =>
      if name_matches (d_name k) name then res_bind (f k) (fun k' => Some (inl (k' :: ks)))
      else res_bind (first_kid name f ks) (fun ks' => Some (inl (k :: ks')))
  end.
Definition at_kid (name : list Z) (f : dt -> res dt) (s : dt) : res dt :=
  let 'DNode o n ps ks := s in res_bind (first_kid name f ks) (fun ks' => Some (inl (DNode o n ps ks'))).

Fixpoint fix_refs (delta : Z) (f : dt) (s : dt) : res dt :=
  let 'DNode _ _ ps ks := f in
  res_bind (fold_err (fix_prop delta) ps s) (fold_err (fun kf => at_kid (d_name kf) (fix_refs delta kf)) ks).

Lemma first_kid_find name f ks : match find_kid name ks with
  | Some k => exists k1 k2, ks = k1 ++ k :: k2 /\ first_kid name f ks = res_bind (f k) (fun k' => Some (inl (k1 ++ k' :: k2)))
  | None => first_kid name f ks = Some (inr (- FDT_ERR_BADOVERLAY))
  end.
Proof.
  unfold find_kid. induction ks as [|k ks IH]; [done|]. cbn [List.find first_kid]. destruct (name_matches (d_name k) name); [by exists [], ks|]. destruct (List.find _ ks) as [k'|].
  - destruct IH as (k1 & k2 & -> & ->). exists (k :: k1), k2. split; [done|]. destruct (f k') as [[|]|]; done.
  - by rewrite IH.
Qed.

(** ** Pointers to a property *)
Section Pointers.
  Context (o : region) (Hr : rw_ready o).
  Local Abbreviation R := (rw_read _ Hr).

Lemma string_ptr x s : is_sw 32 x -> string_at o x s -> exists n, fdt_get_string o x = Some (Some (hv o 12 + x), n).
Proof.
  intros Hx Hs. pose proof (proj1 (string_at_rdn o Hr x s Hx) Hs) as (H0 & Hl & _). pose proof (zlen_nonneg s). destruct Hs as (q & E & _). exists (zlen s). rewrite E. do 2 f_equal. revert E. unfold fdt_get_string. pose proof (rw_bounds o Hr).
  rewrite (probe_tot o R). cbn [mbind option_bind]. destruct (Z.ltb_spec (hv o 4) 0); [lia|]. unfold fdt_off_dt_strings, fdt_magic, fdt_version, fdt_size_dt_strings. rewrite !(field_ok o (rb_ok _ R)) by lia. rewrite (rb_magic _ R), (rw_ver _ Hr).
  cbn [mbind option_bind]. rewrite Z.eqb_refl. change (17 <=? 17) with true. destruct (Z.ltb_spec x 0); [lia|]. rewrite (uw_small 32 x), (uw_small 32 (x + hv o 12)) by (unfold is_uw; lia).
  destruct (_ <=? x + hv o 12); [done|]. destruct (hv o 32 <=? x); [done|]. cbn [mbind option_bind]. destruct (memchr _ _ _ _) as [[n|]|]; [|done|done]. intros [= <- _]. f_equal. lia.
Qed.

Lemma prop_pointers F e p : at_tag (d_off F) -> node_at o F e -> p ∈ d_props F -> exists x, is_sw 32 x /\ string_at o x (p_name p) /\
  prop_ptrs o (p_off p) = Some (inl (hv o 12 + x, hv o 8 + p_off p + 12, zlen (p_val p))) /\ rdn (r_bytes o) (hv o 8 + p_off p + 12) (zlen (p_val p)) = Some (p_val p).
Proof.
  intros Hg Hn Hin. destruct (node_range o R F e Hg Hn) as (o1 & _ & Hi & Hg1 & _). destruct (items_prop o R _ _ _ _ p Hi Hg1 Hin) as (y & Hgp & Htk & Hp). destruct (property_tree o R p y Hgp Htk Hp) as [Ep E8]. destruct Hp as (Hs & Hl & Hv).
  exists (s32 (hv o (hv o 8 + p_off p + 8))). assert (is_sw 32 (s32 (hv o (hv o 8 + p_off p + 8)))) as Hsw by (apply sw_range; lia). split_and!; [done|done| |done].
  destruct (string_ptr _ _ Hsw Hs) as (n & Es). unfold prop_ptrs, fdt_getprop_by_offset. rewrite Ep. cbn [mbind option_bind]. rewrite E8. cbn [mbind option_bind]. rewrite Es. cbn [mbind option_bind].
  unfold prop_data. destruct (version_16 o R) as (ver & Ever & Hver). rewrite Ever. cbn [mbind option_bind]. by rewrite Hver.
Qed.

Lemma string_cstr x s : is_sw 32 x -> string_at o x s -> cstr (r_bytes o) (hv o 12 + x) = Some s.
Proof.
  intros Hx Hs. apply (string_at_rdn o Hr x s Hx) in Hs as (H0 & _ & Hn & E). pose proof (rw_bounds o Hr). rewrite <- zlen_nul in E. apply rdn_from in E as [r Hf]. rewrite <- app_assoc in Hf. by eapply from_cstr.
Qed.

(** Behind a property comes the next one. *)
Lemma next_property_tree v e ps1 p rest : at_tag (d_off v) -> node_at o v e -> d_props v = ps1 ++ p :: rest -> 0 <= p_off p /\ fdt_next_property_offset o (p_off p) = Some (first_off rest).
Proof.
  intros Hg Hn Eps. destruct (node_range o R v e Hg Hn) as (o1 & _ & Hi & Hg1 & _). rewrite Eps in Hi. destruct (items_to_prop o _ _ _ _ _ _ Hi) as [Hre (o2 & Ht & _ & Hi2)].
  destruct (reach_at_tag o (rw_stable o Hr) _ _ _ Hre Hg1) as [Hgp _]. destruct (token_next o R _ _ _ (proj1 Hgp) Ht ltac:(done)) as (_ & H0 & Hlt & _). split; [done|].
  unfold fdt_next_property_offset. rewrite (token_check_prop o R _ _ (proj1 Hgp) Ht (proj2 Hgp)). cbn [mbind option_bind]. destruct (Z.ltb_spec o2 0); [lia|]. apply (nextprop_tree o R _ _ _ _ Hi2), (token_at_tag o R _ _ _ Hgp Ht); done.
Qed.
End Pointers.

(** ** One value *)
Section Cell.
  Context (o : region) (Hr : rw_ready o) (C : list lframe) (s : dt) (Ht : holds o (fill C s)) (name : list Z) (q : pitem) (Hq : find_prop name (d_props s) = Some q).
  Local Abbreviation R := (rw_read _ Hr).

Lemma value_ptr : fdt_getprop o (d_off s) name = Some (Some (hv o 8 + p_off q + 12), zlen (p_val q)) /\ rdn (r_bytes o) (hv o 8 + p_off q + 12) (zlen (p_val q)) = Some (p_val q) /\ zlen (p_val q) < 2 ^ 32.
Proof.
  destruct (fill_lies o Hr C s Ht) as (o1 & es & Hl). destruct (getprop_tree o R name s es (li_tag _ _ _ _ Hl) (li_node _ _ _ _ Hl)) as [E _]. rewrite Hq in E.
  apply List.find_some in Hq as [Hin _]. destruct (items_prop o R _ _ _ _ q (li_items _ _ _ _ Hl) (li_tag1 _ _ _ _ Hl)) as (y & Hgp & Htk & _ & Hlen & Hv); [by apply list_elem_of_In|]. split_and!; [exact E|done|].
  destruct (token_next o R _ _ _ (proj1 Hgp) Htk ltac:(done)) as (_ & _ & _ & _ & Hta). destruct (ta_prop _ _ _ _ Hta eq_refl) as (Hb & _). cbn zeta in Hb. rewrite Hlen in Hb. unfold INT_MAX in Hb. lia.
Qed.

Lemma inplace_ok idx val : 0 <= idx -> idx + zlen val <= zlen (p_val q) -> Forall is_byte val -> exists o',
  inplace (fun b => fdt_setprop_inplace_namelen_partial b (d_off s) name idx val) o = Some (0, o') /\ rw_ready o' /\ touched o o' /\ holds o' (fill C (with_val name (put_at idx val) s)).
Proof.
  intros H0 Hi Hv. destruct value_ptr as (Eg & _ & Hlt). pose proof (zlen_nonneg val). destruct (write_value o Hr C s Ht name q idx val Hq H0 Hi Hv) as (o' & E & Hr' & Ht' & Hto). exists o'. split_and!; [|done|done|done].
  unfold inplace, fdt_setprop_inplace_namelen_partial. unfold fdt_getprop in Eg. rewrite Eg. cbn [mbind option_bind]. rewrite !uw_small by (unfold is_uw; lia). destruct (Z.ltb_spec (zlen (p_val q)) (zlen val + idx)); [lia|].
  unfold wr in E. destruct (wrn (r_bytes o) (hv o 8 + p_off q + 12 + idx) val) as [m'|]; [|done]. cbn [mbind option_bind fst snd] in *. by injection E as <-.
Qed.

(** Reading a word of the value. *)
Lemma value_cell idx : 0 <= idx -> idx + 4 <= zlen (p_val q) -> fdt32_ld (r_bytes o) (hv o 8 + p_off q + 12 + idx) = Some (be (take 4 (drop (Z.to_nat idx) (p_val q)))).
Proof.
  intros H0 Hi. destruct value_ptr as (_ & Hv & _). assert (p_val q = take (Z.to_nat idx) (p_val q) ++ take 4 (drop (Z.to_nat idx) (p_val q)) ++ drop (Z.to_nat idx + 4) (p_val q)) as E by (rewrite <- drop_drop, take_drop, take_drop; done).
  rewrite E in Hv at 1 2. apply rdn_app in Hv as [_ Hv]. apply rdn_app in Hv as [Hv _]. unfold zlen in *. rewrite length_take, length_take, length_drop in Hv. rewrite !Nat.min_l in Hv by lia. rewrite Z2Nat.id in Hv by lia.
  unfold fdt32_ld, rd_be. change (Z.of_nat 4) with 4 in Hv. by rewrite Hv.
Qed.
End Cell.

(** ** The walk *)
Section Walk.
  Context (delta : Z) (C : list lframe).

(** [F] stays in the tree whatever the properties of [s]. *)
Definition kept (F s : dt) : Prop := forall s', d_kids s' = d_kids s -> within F (fill C s').

(** A step on the node in the hole that keeps its sub-nodes. *)
Definition fixed (o : region) (s s' : dt) (o' : region) : Prop :=
  rw_ready o' /\ touched o o' /\ holds o' (fill C s') /\ d_kids s' = d_kids s /\ d_off s' = d_off s.

Lemma fixed_refl o s : rw_ready o -> holds o (fill C s) -> fixed o s s o.
Proof. intros Hr Ht. split; [done|]. split; [reflexivity|done]. Qed.

Lemma prop_in_kept o F s p : rw_ready o -> holds o (fill C s) -> kept F s -> p ∈ d_props F -> exists e, at_tag (d_off F) /\ node_at o F e /\
  rdn (r_bytes o) (hv o 8 + p_off p + 12) (zlen (p_val p)) = Some (p_val p).
Proof.
  intros Hr Ht Hk Hp. pose proof Ht as (_ & H0 & e & _ & Hn & _). assert (at_tag (d_off (fill C s))) as Hg by (by rewrite H0). destruct (within_at o (rw_read _ Hr) _ e F Hg Hn (Hk s eq_refl)) as (eF & HFg & HFn).
  destruct (prop_pointers o Hr F eF p HFg HFn Hp) as (x & _ & _ & _ & Hv). by exists eF.
Qed.

Lemma with_val_prop name f s q : find_prop name (d_props s) = Some q -> find_prop name (d_props (with_val name f s)) = Some (PItem (p_off q) (p_name q) (f (p_val q))).
Proof.
  destruct s as [o n ps ks]. cbn [with_val d_props]. unfold find_prop. induction ps as [|p ps IH]; [done|]. cbn [List.find upd_val]. destruct (bool_decide (p_name p = name)) eqn:E; cbn [List.find p_name]; rewrite E; [by intros [= ->]|exact IH].
Qed.

Lemma fixup_loop_ok F p x tr st qo : p ∈ d_props F -> is_sw 32 x -> forall k don rest o s q, p_val p = don ++ rest -> zlen rest = 4 * Z.of_nat k ->
  rw_ready o -> holds o (fill C s) -> kept F s -> hv o 8 = st -> hv o 12 = tr -> string_at o x (p_name p) -> find_prop (p_name p) (d_props s) = Some q -> p_off q = qo ->
  forall r, fold_err (raise_cell delta (p_name p)) (words rest) s = Some r -> exists s' o', r = inl s' /\
    fixup_loop k (st + p_off p + 12 + zlen don) (st + qo + 12) (d_off s) (tr + x) delta o = Some (0, o') /\ fixed o s s' o'.
Proof.
  intros Hp Hx. induction k as [|k IH]; intros don rest o s q Ev Hlen Hr Ht Hk E8 E12 Hs Hq Eqo r Hr2.
  { assert (rest = []) as -> by (destruct rest; [done|rewrite zlen_cons in Hlen; pose proof (zlen_nonneg rest); lia]). injection Hr2 as <-. exists s, o. split_and!; [done|done|]. by apply fixed_refl. }
  destruct rest as [|a [|b [|c [|d rest]]]]; try (unfold zlen in Hlen; cbn [length] in Hlen; lia). cbn [words fold_err] in Hr2.
  destruct (prop_in_kept o F s p Hr Ht Hk Hp) as (_ & _ & _ & Hv). pose proof (Forall_rdn _ _ _ _ _ (bo_bytes _ (rb_ok _ (rw_read _ Hr))) Hv) as Hb. rewrite Ev in Hv, Hb. change (a :: b :: c :: d :: rest) with ([a; b; c; d] ++ rest) in *.
  apply rdn_app in Hv as [_ Hv]. apply rdn_app in Hv as [Hv _]. change (zlen [a; b; c; d]) with 4 in Hv. apply Forall_app in Hb as [_ Hb]. apply Forall_app in Hb as [Hb _]. pose proof (be_range _ Hb) as Hbe. set (idx := be [a; b; c; d]) in *.
  unfold raise_cell in Hr2 at 1. rewrite Hq in Hr2. destruct (Z.leb_spec (idx + 4) (zlen (p_val q))) as [Hin|]; [|done]. cbn [res_bind] in Hr2. set (v := to_be 4 _) in Hr2.
  destruct (inplace_ok o Hr C s Ht (p_name p) q Hq idx v ltac:(lia) ltac:(unfold v; rewrite zlen_to_be; lia) ltac:(apply to_be_bytes)) as (o1 & E1 & Hr1 & Hto & Ht1). set (s1 := with_val (p_name p) (put_at idx v) s) in *.
  assert (d_kids s1 = d_kids s /\ d_off s1 = d_off s) as [K1 O1] by (by destruct s).
  destruct (IH (don ++ [a; b; c; d]) rest o1 s1 _ ltac:(by rewrite <- app_assoc) ltac:(rewrite zlen_app in Hlen; change (zlen [a; b; c; d]) with 4 in Hlen; lia) Hr1 Ht1 ltac:(intros s' Hs'; apply Hk; congruence)
    ltac:(by rewrite (to_struct _ _ Hto)) ltac:(by rewrite (to_strings _ _ Hto)) ltac:(by apply (to_strs _ _ Hto)) (with_val_prop _ _ _ _ Hq) Eqo r Hr2) as (s' & o' & -> & E & Hr' & Hto' & Ht' & K' & O').
  exists s', o'. split; [done|]. split; [|split_and!; [done|by etrans|done|congruence|congruence]]. cbn [fixup_loop]. unfold mbind, M_bind. unfold rd at 1. unfold fdt32_ld at 1, rd_be. rewrite E8 in Hv. rewrite Hv. cbn [fmap option_fmap option_map mbind option_bind]. fold idx.
  unfold rd at 1. rewrite <- E8, <- Eqo, (value_cell o Hr C s Ht (p_name p) q Hq idx ltac:(lia) Hin). cbn [mbind option_bind]. unfold rd at 1. rewrite <- E12, (string_cstr o Hr x _ Hx Hs). cbn [mbind option_bind]. fold v. rewrite E1. cbn [negb Z.eqb].
  change (0 =? - FDT_ERR_NOSPACE) with false. cbv iota. rewrite E8, E12, Eqo, <- O1. rewrite zlen_app in E. change (zlen [a; b; c; d]) with 4 in E. rewrite <- E. f_equal. lia.
Qed.

(** What a step leaves behind: the tree changed in place, or an error. *)
Definition updated (o : region) (s : dt) (r : dt + Z) (rc : Z) (o' : region) : Prop :=
  match r with
  | inl s' => rc = 0 /\ fixed o s s' o'
  | inr err => rc = err /\ rc < 0 /\ rw_ready o' /\ touched o o' /\ exists t, holds o' t
  end.

Lemma update_reference_ok F p o s r : p ∈ d_props F -> rw_ready o -> holds o (fill C s) -> kept F s -> fix_prop delta p s = Some r ->
  exists rc o', update_reference (d_off s) (p_off p) delta o = Some (rc, o') /\ updated o s r rc o'.
Proof.
  intros Hp Hr Ht Hk Hf. destruct (prop_in_kept o F s p Hr Ht Hk Hp) as (e & HFg & HFn & _). destruct (prop_pointers o Hr F e p HFg HFn Hp) as (x & Hx & Hs & Eptr & Hv). pose proof (rdn_inv _ _ _ _ Hv) as (H0 & Hb & _).
  assert (zlen (p_val p) < 2 ^ 64) as H64.
  { destruct (node_range o (rw_read _ Hr) F e HFg HFn) as (o1 & _ & Hi & Hg1 & _). destruct (items_prop o (rw_read _ Hr) _ _ _ _ p Hi Hg1 Hp) as (y & Hgp & Htk & _ & Hlen & _).
    destruct (token_next o (rw_read _ Hr) _ _ _ (proj1 Hgp) Htk ltac:(done)) as (_ & _ & _ & _ & Hta). destruct (ta_prop _ _ _ _ Hta eq_refl) as (Hb2 & _). cbn zeta in Hb2. rewrite Hlen in Hb2. unfold INT_MAX in Hb2. lia. }
  pose proof (zlen_nonneg (p_val p)). unfold update_reference, mbind, M_bind. unfold rd at 1. rewrite Eptr. cbn [mbind option_bind]. rewrite uw_small by (unfold is_uw; lia). unfold fix_prop in Hf.
  assert (forall err, err < 0 -> updated o s (inr err) err o) as Hsame by (intros err Herr; split_and!; try done; by eexists).
  destruct (Z.eqb_spec (zlen (p_val p) mod 4) 0) as [E4|]; cbn [negb] in *; [|injection Hf as <-; do 2 eexists; split; [done|by apply Hsame]].
  unfold rd at 1. rewrite (string_cstr o Hr x _ Hx Hs). cbn [mbind option_bind]. destruct (find_prop (p_name p) (d_props s)) as [q|] eqn:Eq.
  - destruct (value_ptr o Hr C s Ht (p_name p) q Eq) as (-> & _). cbn [mbind option_bind]. assert (zlen (p_val p) = 4 * (zlen (p_val p) / 4)) as Ek by (apply Z.div_exact; lia). assert (0 <= zlen (p_val p) / 4) by (apply Z.div_pos; lia).
    destruct (fixup_loop_ok F p x (hv o 12) (hv o 8) (p_off q) Hp Hx (Z.to_nat (zlen (p_val p) / 4)) [] (p_val p) o s q eq_refl ltac:(rewrite Z2Nat.id by done; exact Ek) Hr Ht Hk eq_refl eq_refl Hs Eq eq_refl r Hf) as (s' & o' & -> & E & Hfx).
    change (zlen []) with 0 in E. rewrite Z.add_0_r in E. rewrite E. do 2 eexists. split; [done|]. by split.
  - injection Hf as <-. pose proof (getprop_in o (fill C s) s (p_name p) Ht (fill_within C s)) as Hg. rewrite Eq in Hg. destruct Hg as [-> _]. cbn [mbind option_bind]. do 2 eexists. split; [done|]. by apply Hsame.
Qed.

(** All properties of a fixup node. *)
Lemma update_props_ok F rest : forall don o s n r, d_props F = don ++ rest -> (length rest < n)%nat -> rw_ready o -> holds o (fill C s) -> kept F s -> fold_err (fix_prop delta) rest s = Some r ->
  exists rc o', each_property id (fun x => update_reference (d_off s) x delta) n (first_off rest) o = Some (rc, o') /\ updated o s r rc o'.
Proof.
  induction rest as [|p rest IH]; intros don o s n r EF Hn Hr Ht Hk Hf; (destruct n as [|n]; [cbn in Hn; lia|]); cbn [each_property first_off fold_err] in *.
  { injection Hf as <-. change (- FDT_ERR_NOTFOUND <? 0) with true. do 2 eexists. split; [done|]. split; [done|]. by apply fixed_refl. }
  assert (p ∈ d_props F) as Hp by (rewrite EF; apply elem_of_app; right; by left). destruct (prop_in_kept o F s p Hr Ht Hk Hp) as (e & HFg & HFn & _). destruct (next_property_tree o Hr F e don p rest HFg HFn EF) as [H0 _].
  destruct (Z.ltb_spec (p_off p) 0); [lia|]. unfold mbind, M_bind. destruct (fix_prop delta p s) as [r1|] eqn:E1; [|done]. destruct (update_reference_ok F p o s r1 Hp Hr Ht Hk E1) as (rc & o1 & -> & Hu). destruct r1 as [s1|err]; cbn [res_bind] in Hf.
  - destruct Hu as [-> (Hr1 & Hto & Ht1 & K1 & O1)]. cbn [negb Z.eqb]. assert (kept F s1) as Hk1 by (intros s' Hs'; apply Hk; congruence). destruct (prop_in_kept o1 F s1 p Hr1 Ht1 Hk1 Hp) as (e1 & _ & HFn1 & _). unfold get, lift, id.
    rewrite (proj2 (next_property_tree o1 Hr1 F e1 don p rest HFg HFn1 EF)). destruct (IH (don ++ [p]) o1 s1 n r ltac:(by rewrite <- app_assoc) ltac:(cbn in Hn; lia) Hr1 Ht1 Hk1 Hf) as (rc & o' & E & Hu). rewrite O1 in E. exists rc, o'. split; [exact E|].
    destruct r as [s'|err].
    + destruct Hu as [-> (? & ? & ? & ? & ?)]. split; [done|]. split_and!; try done; [by etrans|congruence|congruence].
    + destruct Hu as (-> & ? & ? & ? & ?). split_and!; try done. by etrans.
  - injection Hf as <-. destruct Hu as (-> & Hneg & Hu). destruct (Z.eqb_spec err 0); [lia|]. cbn [negb]. do 2 eexists. split; [done|]. exact (conj eq_refl (conj Hneg Hu)).
Qed.

Lemma for_each_fixup_ok F o s r : rw_ready o -> holds o (fill C s) -> kept F s -> fold_err (fix_prop delta) (d_props F) s = Some r ->
  exists rc o', for_each_property_offset id (fun x => update_reference (d_off s) x delta) (d_off F) o = Some (rc, o') /\ updated o s r rc o'.
Proof.
  intros Hr Ht Hk Hf. pose proof Ht as (_ & H0 & e & _ & Hn & _). assert (at_tag (d_off (fill C s))) as Hg by (by rewrite H0). pose proof (rw_read _ Hr) as R. destruct (within_at o R _ e F Hg Hn (Hk s eq_refl)) as (eF & HFg & HFn).
  destruct (node_range o R F eF HFg HFn) as (o1 & Htk & Hi & Hg1 & _ & ? & ? & ? & ?). unfold for_each_property_offset, mbind, M_bind, get, lift, id.
  unfold fdt_first_property_offset. rewrite (token_check o R _ _ (proj1 HFg) Htk (proj2 HFg)). cbn [mbind option_bind]. destruct (Z.ltb_spec o1 0); [lia|]. rewrite (nextprop_tree o R _ _ _ _ Hi Hg1).
  apply (update_props_ok F (d_props F) []); [done| |done..]. pose proof (props_increase o R _ _ _ _ Hi Hg1). pose proof (node_end_bound o R F eF HFg HFn). pose proof (bo_size _ (rb_ok _ R)). unfold blob_fuel, zlen in *. lia.
Qed.
End Walk.

(** ** All nodes *)

(** A node and what became of it are at the same place. *)
Definition same_place (k k' : dt) : Prop := d_off k' = d_off k /\ d_name k' = d_name k.

Lemma fold_err_place {A} (f : A -> dt -> res dt) l : (forall x s s', x ∈ l -> f x s = Some (inl s') -> same_place s s') -> forall s s', fold_err f l s = Some (inl s') -> same_place s s'.
Proof.
  induction l as [|x l IH]; intros Hf s s' H; cbn [fold_err] in H; [by injection H as <-|]. destruct (f x s) as [[s1|]|] eqn:E; try done. cbn [res_bind] in H. destruct (Hf x s s1 ltac:(by left) E) as [H1 H2].
  destruct (IH ltac:(intros y a b Hy; apply Hf; by right) s1 s' H). split; congruence.
Qed.

Lemma raise_cell_place delta name idx s s' : raise_cell delta name idx s = Some (inl s') -> same_place s s'.
Proof. unfold raise_cell. destruct (find_prop _ _); [|done]. destruct (_ <=? _); [|done]. intros [= <-]. by destruct s. Qed.

Lemma fix_prop_place delta p s s' : fix_prop delta p s = Some (inl s') -> same_place s s'.
Proof. unfold fix_prop. destruct (negb _); [done|]. destruct (find_prop _ _); [|done]. apply fold_err_place. intros x a b _. apply raise_cell_place. Qed.

Lemma at_kid_place name f s s' : at_kid name f s = Some (inl s') -> same_place s s'.
Proof. destruct s as [o n ps ks]. cbn [at_kid]. destruct (first_kid _ _ _) as [[]|]; try done. by intros [= <-]. Qed.

Lemma fix_refs_place delta F s s' : fix_refs delta F s = Some (inl s') -> same_place s s'.
Proof.
  destruct F as [o n ps ks]. cbn [fix_refs]. destruct (fold_err (fix_prop delta) ps s) as [[s1|]|] eqn:E1; try done. cbn [res_bind]. intros E2.
  destruct (fold_err_place _ _ (fun x a b _ => fix_prop_place delta x a b) _ _ E1) as [H1 H2]. destruct (fold_err_place _ _ (fun x a b _ => at_kid_place (d_name x) (fix_refs delta x) a b) _ _ E2) as [H3 H4]. split; congruence.
Qed.

Lemma find_kid_place name k1 k k' k2 x : same_place k k' -> find_kid name (k1 ++ k' :: k2) = Some x -> exists y, find_kid name (k1 ++ k :: k2) = Some y /\ d_off y = d_off x.
Proof.
  intros [Eo En]. unfold find_kid. induction k1 as [|z k1 IH]; cbn [app List.find].
  - rewrite En. destruct (name_matches (d_name k) name); [|by intros ->; exists x]. intros [= <-]. by exists k.
  - destruct (name_matches (d_name z) name); [by intros [= <-]; exists z|exact IH].
Qed.

(** The fixup node is beside the path to the node at hand, or a sub-node of it that
    its own sub-nodes do not lead to. *)
Definition beside (C : list lframe) (F s : dt) : Prop :=
  (forall x, within F (fill C x)) \/
  (C = [] /\ F ∈ d_kids s /\ forall kf k, kf ∈ d_kids F -> find_kid (d_name kf) (d_kids s) = Some k -> d_off k <> d_off F).

Lemma beside_kept C F s : beside C F s -> kept C F s.
Proof. intros [H|(-> & H & _)] s' Hs'; [apply H|]. cbn [fill fold_left]. eapply within_kid; [rewrite Hs'; exact H|constructor]. Qed.

Lemma beside_props C F s s' : d_kids s' = d_kids s -> beside C F s -> beside C F s'.
Proof. intros E [H|(-> & H1 & H2)]; [by left|]. right. by rewrite E. Qed.

Lemma beside_kid C F so sn ps k1 k k2 : beside C F (DNode so sn ps (k1 ++ k :: k2)) -> (forall x, within F (fill C x)) \/ d_off k <> d_off F ->
  (forall x, within F (fill (LFrame so sn ps k1 k2 :: C) x)) /\ forall k', same_place k k' -> beside C F (DNode so sn ps (k1 ++ k' :: k2)).
Proof.
  intros Hb Hk. change (fill (LFrame so sn ps k1 k2 :: C) ?x) with (fill C (fill1 x (LFrame so sn ps k1 k2))). destruct Hb as [H|(-> & H1 & H2)]; [split; [intros x; apply H|intros k' _; by left]|]. cbn [d_kids] in *. destruct Hk as [Hk|Hk]; [split; [intros x; apply Hk|intros k' _; by left]|].
  assert (F ∈ k1 \/ F ∈ k2) as Hin by (rewrite elem_of_app, elem_of_cons in H1; destruct H1 as [?|[->|?]]; tauto). assert (forall y, F ∈ k1 ++ y :: k2) as Hany by (intros y; rewrite elem_of_app, elem_of_cons; tauto). split.
  - intros x. eapply within_kid; [|constructor]. apply Hany.
  - intros k' Hp. right. split_and!; [done|apply Hany|]. cbn [d_kids]. intros kf y Hkf Hy. destruct (find_kid_place _ _ _ _ _ _ Hp Hy) as (z & Hz & <-). by eapply H2.
Qed.

Section Refs.
  Context (delta : Z).

Definition refs_good (fuel : nat) (F : dt) : Prop := forall C o s r, rw_ready o -> holds o (fill C s) -> beside C F s -> fix_refs delta F s = Some r ->
  exists rc o', overlay_update_local_node_references fuel (d_off s) (d_off F) delta o = Some (rc, o') /\ stepped o C r rc o'.

Definition fixup_body (fuel : nat) (tree_node fixup_child : Z) : M region Z :=
  name ← rd (fun b => node_name b fixup_child);
  tree_child ← rd (fun b => fdt_subnode_offset b tree_node name);
  if tree_child =? - FDT_ERR_NOTFOUND then mret (- FDT_ERR_BADOVERLAY)
  else if tree_child <? 0 then mret tree_child
  else overlay_update_local_node_references fuel tree_child fixup_child delta.

Lemma fixup_kid_ok fuel C o F s kf r : rw_ready o -> holds o (fill C s) -> beside C F s -> kf ∈ d_kids F -> refs_good fuel kf -> at_kid (d_name kf) (fix_refs delta kf) s = Some r ->
  exists rc o', fixup_body fuel (d_off s) (d_off kf) o = Some (rc, o') /\ stepped o C r rc o' /\ (forall s', r = inl s' -> beside C F s').
Proof.
  intros Hr Ht Hb Hkf IH Hf. pose proof (rw_read _ Hr) as R. pose proof Ht as (_ & H0 & e & _ & Hn & _). assert (at_tag (d_off (fill C s))) as Hg by (by rewrite H0). pose proof (beside_kept C F s Hb s eq_refl) as HF.
  destruct (within_at o R _ e F Hg Hn HF) as (eF & HFg & HFn). destruct (node_range o R F eF HFg HFn) as (x & _ & Hi & Hg1 & _). destruct (items_kids o R _ _ _ _ Hi Hg1 kf Hkf) as (ek & Hkn & Hkg & _). pose proof Hkn as (y & Hty & Hnm & _).
  unfold fixup_body, mbind, M_bind. unfold rd at 1, node_name. rewrite (get_name_tree o R _ _ _ Hkg Hty Hnm). cbn [mbind option_bind]. rewrite Hnm. cbn [mbind option_bind].
  destruct (within_at o R _ e s Hg Hn (fill_within C s)) as (es & Hsg & Hsn). unfold rd at 1, fdt_subnode_offset. rewrite (subnode_offset_tree o R (d_name kf) s es Hsg Hsn). cbn [mbind option_bind]. unfold kid_result.
  destruct s as [so sn ps ks]. cbn [d_kids d_off at_kid] in *. pose proof (first_kid_find (d_name kf) (fix_refs delta kf) ks) as Hfind. destruct (find_kid (d_name kf) ks) as [k|] eqn:Ek.
  2: { rewrite Hfind in Hf. injection Hf as <-. rewrite Z.eqb_refl. do 2 eexists. split; [done|]. split; [|done]. split; [done|]. split; [reflexivity|]. split_and!; [done|done|]. by eexists. }
  destruct Hfind as (k1 & k2 & -> & Hfk). rewrite Hfk in Hf. change (fill C (DNode so sn ps (k1 ++ k :: k2))) with (fill (LFrame so sn ps k1 k2 :: C) k) in Ht.
  pose proof (node_off_pos o R _ k Ht (within_preorder _ _ (fill_within _ k))). change (- FDT_ERR_NOTFOUND) with (-1). destruct (Z.eqb_spec (d_off k) (-1)); [lia|]. destruct (Z.ltb_spec (d_off k) 0); [lia|].
  assert ((forall x, within F (fill C x)) \/ d_off k <> d_off F) as Hor by (destruct Hb as [Hb|(_ & _ & Hb)]; [by left|right; by eapply Hb]). destruct (beside_kid C F so sn ps k1 k k2 Hb Hor) as [Hfree Hnext].
  destruct (fix_refs delta kf k) as [rk|] eqn:Erk; [|done]. assert (beside (LFrame so sn ps k1 k2 :: C) kf k) as Hbk.
  { left. intros z. specialize (Hfree z). eapply within_trans; [|exact Hfree]. eapply within_kid; [exact Hkf|constructor]. }
  destruct (IH _ o k rk Hr Ht Hbk Erk) as (rc & o' & -> & Hst). exists rc, o'. split; [done|]. destruct rk as [k'|err]; injection Hf as <-; [|by split].
  split; [exact Hst|]. intros s' [= <-]. by apply Hnext, (fix_refs_place delta kf).
Qed.

Lemma stepped_trans C o s1 o1 r rc o' : stepped o C (inl s1) 0 o1 -> stepped o1 C r rc o' -> stepped o C r rc o'.
Proof. intros (_ & H1 & _) (H2 & H3 & H4). split; [done|]. split; [by etrans|done]. Qed.

Lemma fixup_kids_ok fuel C F rest : forall don o s n r, d_kids F = don ++ rest -> (length rest < n)%nat -> Forall (refs_good fuel) rest -> rw_ready o -> holds o (fill C s) -> beside C F s ->
  fold_err (fun kf => at_kid (d_name kf) (fix_refs delta kf)) rest s = Some r ->
  exists rc o', each_subnode id (fixup_body fuel (d_off s)) n (off_or_end rest) o = Some (rc, o') /\ stepped o C r rc o'.
Proof.
  induction rest as [|kf rest IH]; intros don o s n r EF Hn Hall Hr Ht Hb Hf; (destruct n as [|n]; [cbn in Hn; lia|]); cbn [each_subnode off_or_end fold_err] in *.
  { injection Hf as <-. change (- FDT_ERR_NOTFOUND <? 0) with true. do 2 eexists. split; [done|]. split; [done|]. by split. }
  apply Forall_cons in Hall as [Hkf Hall]. assert (kf ∈ d_kids F) as Hin by (rewrite EF; apply elem_of_app; right; by left). assert (forall o' s', rw_ready o' -> holds o' (fill C s') -> beside C F s' -> exists eF, at_tag (d_off F) /\ node_at o' F eF) as HFat.
  { intros o' s' Hr' Ht' Hb'. pose proof Ht' as (_ & H0 & e & _ & Hn' & _). assert (at_tag (d_off (fill C s'))) as Hg by (by rewrite H0). by apply (within_at o' (rw_read _ Hr') _ e F Hg Hn'), (beside_kept C F s'). }
  destruct (HFat o s Hr Ht Hb) as (eF & HFg & HFn). destruct (node_range o (rw_read _ Hr) F eF HFg HFn) as (x & _ & Hi & Hg1 & _). destruct (items_kids o (rw_read _ Hr) _ _ _ _ Hi Hg1 kf Hin) as (_ & _ & _ & _ & Hpos & _).
  destruct (Z.ltb_spec (d_off kf) 0); [lia|]. unfold mbind, M_bind. destruct (at_kid (d_name kf) (fix_refs delta kf) s) as [r1|] eqn:E1; [|done]. destruct (fixup_kid_ok fuel C o F s kf r1 Hr Ht Hb Hin Hkf E1) as (rc & o1 & -> & Hst & Hb1). destruct r1 as [s1|err]; cbn [res_bind] in Hf.
  - destruct (at_kid_place _ _ _ _ E1) as [O1 _]. pose proof Hst as (Hr1 & _ & -> & Ht1). cbn [negb Z.eqb]. specialize (Hb1 s1 eq_refl). destruct (HFat o1 s1 Hr1 Ht1 Hb1) as (e1 & _ & HFn1). unfold get, lift, id.
    rewrite (next_subnode_tree o1 (rw_read _ Hr1) F e1 kf rest HFg HFn1); [|rewrite EF; clear; induction don; by constructor].
    destruct (IH (don ++ [kf]) o1 s1 n r ltac:(by rewrite <- app_assoc) ltac:(cbn in Hn; lia) Hall Hr1 Ht1 Hb1 Hf) as (rc & o' & E & Hst2). rewrite O1 in E. exists rc, o'. split; [exact E|]. by eapply stepped_trans.
  - injection Hf as <-. destruct Hst as (H1 & H2 & -> & Hneg & H3). destruct (Z.eqb_spec err 0); [lia|]. cbn [negb]. do 2 eexists. split; [done|]. by split_and!.
Qed.

Lemma refs_ok F : forall fuel, (height F <= fuel)%nat -> refs_good fuel F.
Proof.
  induction F as [Fo Fn Fps Fks IH] using dt_ind'. intros fuel Hh C o s r Hr Ht Hb Hf. cbn [height] in Hh. destruct fuel as [|fuel]; [lia|]. cbn [fix_refs] in Hf. cbn [overlay_update_local_node_references]. unfold mbind at 1, M_bind at 1.
  set (F := DNode Fo Fn Fps Fks) in *. change Fo with (d_off F). destruct (fold_err (fix_prop delta) Fps s) as [r1|] eqn:E1; [|done]. destruct (for_each_fixup_ok delta C F o s r1 Hr Ht (beside_kept C F s Hb) E1) as (rc & o1 & -> & Hu). destruct r1 as [s1|err]; cbn [res_bind] in Hf.
  - destruct Hu as [-> (Hr1 & Hto & Ht1 & K1 & O1)]. cbn [negb Z.eqb]. pose proof (beside_props C F s s1 K1 Hb) as Hb1. rewrite <- O1.
    change (exists rc o', for_each_subnode id (fixup_body fuel (d_off s1)) (d_off F) o1 = Some (rc, o') /\ stepped o C r rc o'). unfold for_each_subnode, mbind, M_bind, get, lift, id.
    pose proof (rw_read _ Hr1) as R1. pose proof Ht1 as (_ & H0 & e & _ & Hn & _). assert (at_tag (d_off (fill C s1))) as Hg by (by rewrite H0). destruct (within_at o1 R1 _ e F Hg Hn (beside_kept C F s1 Hb1 s1 eq_refl)) as (eF & HFg & HFn).
    destruct (node_range o1 R1 F eF HFg HFn) as (x & _ & Hi & Hg1 & _ & ? & ? & ? & _). rewrite (first_subnode_tree o1 R1 F eF HFg HFn); [|intros k Hk; by destruct (items_kids o1 R1 _ _ _ _ Hi Hg1 k Hk) as (? & _ & _ & _ & ? & _)].
    change (match d_kids F with k :: _ => d_off k | [] => - FDT_ERR_NOTFOUND end) with (off_or_end Fks).
    assert (Forall (refs_good fuel) Fks) as Hall.
    { assert (list_max (height <$> Fks) <= fuel)%nat as Hmax by lia. rewrite list_max_le, Forall_fmap in Hmax. rewrite Forall_forall in *. intros k Hk. by apply IH, Hmax. }
    destruct (fixup_kids_ok fuel C F Fks [] o1 s1 (blob_fuel o1) r eq_refl) as (rc & o' & E & Hst); [|done..|].
    { pose proof (kids_increase o1 R1 _ _ _ _ Hi Hg1) as Hki. pose proof (node_end_bound o1 R1 F eF HFg HFn). pose proof (bo_size _ (rb_ok _ R1)). cbn [d_kids] in Hki. unfold F in Hki. cbn [d_kids] in Hki. unfold blob_fuel, zlen in *. lia. }
    exists rc, o'. split; [exact E|]. eapply stepped_trans; [|exact Hst]. by split_and!.
  - injection Hf as <-. destruct Hu as (-> & Hneg & H1 & H2 & H3). destruct (Z.eqb_spec err 0); [lia|]. cbn [negb]. do 2 eexists. split; [done|]. by split_and!.
Qed.
End Refs.

(** The fixups do not lead into themselves. *)
Definition apart (u F : dt) : bool :=
  forallb (fun kf => match find_kid (d_name kf) (d_kids u) with Some k => negb (d_off k =? d_off F) | None => true end) (d_kids F).

(** The change of a whole overlay. *)
Definition local_fixups (delta : Z) (u : dt) : res dt :=
  match find_kid (byte_list "__local_fixups__") (d_kids u) with
  | None => Some (inl u)
  | Some F => if apart u F then fix_refs delta F u else None
  end.

Lemma local_references_ok o u delta fuel r : rw_ready o -> holds o u -> local_fixups delta u = Some r ->
  exists rc o', overlay_update_local_references (S fuel) delta o = Some (rc, o') /\ stepped o [] r rc o'.
Proof.
  intros Hr Hu Hf. pose proof (rw_read _ Hr) as R. pose proof Hu as (_ & H0 & e & _ & Hn & _). assert (at_tag (d_off u)) as Hg by (by rewrite H0). unfold overlay_update_local_references, mbind, M_bind. unfold rd at 1.
  rewrite (path_offset_tree o R u (byte_list "/__local_fixups__") fuel Hu eq_refl). cbn [mbind option_bind]. unfold path_result. replace (split_path [] (byte_list "/__local_fixups__")) with [byte_list "__local_fixups__"] by (vm_compute; reflexivity).
  cbn [find_path]. unfold local_fixups in Hf. destruct (find_kid (byte_list "__local_fixups__") (d_kids u)) as [F|] eqn:EF; cbn [mbind option_bind].
  2: { injection Hf as <-. do 2 eexists. split; [done|]. split; [done|]. by split. }
  destruct (apart u F) eqn:Ha; [|done]. pose proof (find_kid_in _ _ _ EF) as Hin. destruct (node_range o R u e Hg Hn) as (x & _ & Hi & Hg1 & _ & ? & ? & ? & _). destruct (items_kids o R _ _ _ _ Hi Hg1 F Hin) as (eF & HFn & HFg & ? & Hpos & ? & ?). destruct (Z.ltb_spec (d_off F) 0); [lia|].
  unfold get. rewrite <- H0. apply (refs_ok delta F (blob_fuel o)); [|done|done| |done].
  - pose proof (height_bound o R F eF HFg HFn). pose proof (node_end_bound o R F eF HFg HFn). pose proof (bo_size _ (rb_ok _ R)). unfold blob_fuel, zlen in *. lia.
  - right. split_and!; [done|done|]. intros kf k Hkf Hk. unfold apart in Ha. rewrite forallb_forall in Ha. specialize (Ha kf ltac:(by apply list_elem_of_In)). rewrite Hk in Ha. by apply negb_true_iff, Z.eqb_neq in Ha.
Qed.
