(* ===== verification/FdtFixups.v ===== *)
(** References of an overlay into the base tree: a property of "__fixups__" has the
    label of a node as its name, which "__symbols__" of the base tree maps to a path, and
    lists the places "path:property:offset" of the overlay that get the phandle. *)
From S2P Require Import Prelude KDefs Bytes Fdt FdtRo FdtSafe FdtRoSafe FdtProps FdtHelper FdtCheck FdtTree FdtPath FdtWalk FdtSw FdtSwProps FdtSeg FdtMove FdtEdit FdtSwTree FdtRw FdtSplice FdtRwProps FdtRwNodes FdtScript FdtOverlay FdtMerge FdtInplace FdtOverlayProps FdtRefs.

(** ** The change of the tree *)

(** A list at the first [c]. *)
Fixpoint cut (c : Z) (l : list Z) : option (list Z * list Z) :=
  match l with
  | [] => None
  | x :: l => if x =? c then Some ([], l) else '(a, b) ← cut c l; Some (x :: a, b)
  end.

(** The strings of a value, and what is left without its NUL. *)
Fixpoint pieces (v : list Z) : list (list Z) * list Z :=
  match v with
  | [] => ([], [])
  | c :: v =>
      match pieces v with
      | (l, r) => if c =? 0 then ([] :: l, r) else match l with [] => ([], c :: r) | x :: l => ((c :: x) :: l, r) end
      end
  end.

(** "path:property:offset" *)
Definition parse_entry (e : list Z) : option (list Z * list Z * Z) :=
  '(path, r) ← cut 58 e;
  if bool_decide (r = []) then None
  else
    '(name, d) ← cut 58 r;
    if bool_decide (name = []) then None
    else let '(v, n) := strtoul10 d in if negb (n =? zlen d) || (n <=? 0) then None else Some (path, name, s32 v).

(** The phandle of the node a label of the base tree is for, or the error; [None] when the symbol is
    not an absolute path. *)
Definition label_phandle (t : dt) (label : list Z) : res Z :=
  match find_kid (byte_list "__symbols__") (d_kids t) with
  | None => Some (inr (- FDT_ERR_NOTFOUND))
  | Some sy =>
      match find_prop label (d_props sy) with
      | None => Some (inr (- FDT_ERR_NOTFOUND))
      | Some q =>
          match to_nul (p_val q) with
          | Some path =>
              if hd 0 path =? 47 then
                match find_path t (split_path [] path) with
                | None => Some (inr (- FDT_ERR_NOTFOUND))
                | Some s => if node_phandle s =? 0 then Some (inr (- FDT_ERR_NOTFOUND)) else Some (inl (node_phandle s))
                end
              else None
          | None => None
          end
      end
  end.

(** A phandle put into a value. *)
Definition set_cell (name : list Z) (off ph : Z) (s : dt) : res dt :=
  match find_prop name (d_props s) with
  | None => Some (inr (- FDT_ERR_NOTFOUND))
  | Some q =>
      if off <? 0 then None
      else if off + 4 <=? zlen (p_val q) then Some (inl (with_val name (put_at off (to_be 4 ph)) s))
      else Some (inr (- FDT_ERR_NOSPACE))
  end.

(** A change of the node at a path. *)
Fixpoint change_node (path : list (list Z)) (f : dt -> res dt) (u : dt) : res dt :=
  match path with [] => f u | name :: path => at_kid name (change_node path f) u end.

(** The path goes to [G], a sub-node of the root, or below it. *)
Definition leads_to (G : dt) (path : list (list Z)) (u : dt) : bool :=
  match path with
  | [] => false
  | name :: _ => match find_kid name (d_kids u) with Some k => d_off k =? d_off G | None => false end
  end.

(** One entry of the property [label] of the fixup node [G]. *)
Definition fix_entry (t G : dt) (label e : list Z) (u : dt) : res dt :=
  match parse_entry e with
  | None => Some (inr (- FDT_ERR_BADOVERLAY))
  | Some (path, name, off) =>
      res_bind (label_phandle t label) (fun ph =>
        if negb (hd 0 path =? 47) || leads_to G (split_path [] path) u then None
        else change_node (split_path [] path) (set_cell name off ph) u)
  end.

(** A property, and the whole node. *)
Definition fix_label (t G : dt) (p : pitem) (u : dt) : res dt :=
  let '(l, r) := pieces (p_val p) in
  res_bind (fold_err (fix_entry t G (p_name p)) l u) (fun u' =>
    if bool_decide (l <> [] /\ r = []) then Some (inl u') else Some (inr (- FDT_ERR_BADOVERLAY))).
Definition fixups (t u : dt) : res dt :=
  match find_kid (byte_list "__fixups__") (d_kids u) with None => Some (inl u) | Some G => fold_err (fix_label t G) (d_props G) u end.

(** ** Strings in memory *)

Lemma cut_spec c l : match cut c l with Some (a, b) => l = a ++ c :: b /\ c ∉ a | None => c ∉ l end.
Proof.
  induction l as [|x l IH]; cbn [cut]; [apply not_elem_of_nil|]. destruct (Z.eqb_spec x c) as [->|Hne]; [split; [done|apply not_elem_of_nil]|].
  destruct (cut c l) as [[a b]|]; cbn [mbind option_bind]; [destruct IH as [-> H]; split; [done|]|]; apply not_elem_of_cons; split; congruence || done.
Qed.

Lemma find_byte_miss c s r : c ∉ s -> find_byte c (length s) (s ++ r) = Some None.
Proof.
  induction s as [|x s IH]; intros Hs; cbn [find_byte app length]; [done|]. apply not_elem_of_cons in Hs as [? Hs]. destruct (Z.eqb_spec x c); [congruence|]. by rewrite IH.
Qed.

(** Searching a byte in a stretch of memory. *)
Lemma memchr_cut m p c l : rdn m p (zlen l) = Some l -> memchr m p c (zlen l) = Some (match cut c l with Some (a, _) => Some (p + zlen a) | None => None end).
Proof.
  intros [r [Hp E]]%rdn_from. unfold memchr. destruct (Z.ltb_spec p 0); [lia|]. rewrite E. pose proof (cut_spec c l) as Hc. unfold zlen at 1. rewrite Nat2Z.id. destruct (cut c l) as [[a b]|].
  - destruct Hc as [-> Ha]. rewrite <- app_assoc. cbn [app]. rewrite find_byte_at by (done || rewrite length_app; cbn; lia). done.
  - by rewrite find_byte_miss.
Qed.

(** ** One entry *)

Lemma fixup_entry_ok m p x : 0 ∉ x -> zlen x < 2 ^ 31 -> rdn m p (zlen (x ++ [0])) = Some (x ++ [0]) ->
  fixup_entry m p (zlen x) = Some (match parse_entry x with None => inr (- FDT_ERR_BADOVERLAY) | Some (path, name, off) => inl (zlen path, name, off) end).
Proof.
  intros H0 Hl E. unfold fixup_entry, parse_entry. pose proof (proj1 (proj1 (rdn_app _ _ _ _) E)) as Ex. rewrite (memchr_cut m p 58 x Ex). cbn [mbind option_bind]. pose proof (cut_spec 58 x) as Hc. destruct (cut 58 x) as [[path r]|]; [|done]. destruct Hc as [-> Hc].
  cbn [mbind option_bind]. rewrite <- app_assoc in E. apply rdn_app in E as [_ E]. change ((58 :: r) ++ [0]) with ([58] ++ (r ++ [0])) in E. apply rdn_app in E as [_ E]. change (zlen [58]) with 1 in E. clear Ex.
  assert (zlen (path ++ 58 :: r) = zlen path + (zlen r + 1)) as L1 by (rewrite zlen_app, zlen_cons; lia). rewrite L1 in *. pose proof (zlen_nonneg path). pose proof (zlen_nonneg r). replace (p + zlen path - p) with (zlen path) by lia. rewrite (uw_small 32 (zlen path)), (uw_small 32 (_ - 1)) by (unfold is_uw; lia).
  destruct (bool_decide (r = [])) eqn:Er.
  { apply bool_decide_eq_true in Er as ->. change (zlen []) with 0. by destruct (Z.eqb_spec (zlen path) (zlen path + (0 + 1) - 1)); [|lia]. }
  apply bool_decide_eq_false in Er. assert (0 < zlen r) by (destruct r; [done|rewrite zlen_cons; pose proof (zlen_nonneg r); lia]). destruct (Z.eqb_spec (zlen path) (zlen path + (zlen r + 1) - 1)); [lia|].
  replace (zlen path + (zlen r + 1) - (zlen path + 1)) with (zlen r) by lia. rewrite (uw_small 32 (zlen r)) by (unfold is_uw; lia). pose proof (proj1 (proj1 (rdn_app _ _ _ _) E)) as Er2.
  rewrite (memchr_cut m (p + zlen path + 1) 58 r Er2). cbn [mbind option_bind]. pose proof (cut_spec 58 r) as Hr. destruct (cut 58 r) as [[name d]|]; [|done]. destruct Hr as [-> Hn]. cbn [mbind option_bind]. clear Er2.
  rewrite <- app_assoc in E. apply rdn_app in E as [En1 E]. change ((58 :: d) ++ [0]) with ([58] ++ (d ++ [0])) in E. apply rdn_app in E as [_ E]. change (zlen [58]) with 1 in E.
  assert (zlen (name ++ 58 :: d) = zlen name + (zlen d + 1)) as L2 by (rewrite zlen_app, zlen_cons; lia). rewrite L2 in *. pose proof (zlen_nonneg name). pose proof (zlen_nonneg d). replace (p + zlen path + 1 + zlen name - (p + zlen path + 1)) with (zlen name) by lia. rewrite (uw_small 32 (zlen name)) by (unfold is_uw; lia).
  destruct (bool_decide (name = [])) eqn:En; [apply bool_decide_eq_true in En as ->; by rewrite Z.eqb_refl|]. apply bool_decide_eq_false in En. destruct (Z.eqb_spec (zlen name) 0); [destruct name as [|c name]; [done|rewrite zlen_cons in *; pose proof (zlen_nonneg name); lia]|].
  assert (cstr m (p + zlen path + 1 + zlen name + 1) = Some d) as ->.
  { apply rdn_from in E as [rr Hf]. rewrite <- app_assoc in Hf. eapply from_cstr; [|exact Hf]. intros Hd. apply H0. apply elem_of_app. right. right. apply elem_of_app. right. by right. }
  cbn [mbind option_bind]. destruct (strtoul10 d) as [v n1]. destruct (negb (n1 =? zlen d) || (n1 <=? 0)); [done|]. by rewrite En1.
Qed.

(** ** Changes along a path *)

Lemma change_node_fill path f : forall u, match find_path u path with
  | Some s => exists C, u = fill C s /\ change_node path f u = res_bind (f s) (fun s' => Some (inl (fill C s'))) /\
      match path with [] => C = [] | name :: _ => exists k k1 k2 C', find_kid name (d_kids u) = Some k /\ d_kids u = k1 ++ k :: k2 /\ C = C' ++ [LFrame (d_off u) (d_name u) (d_props u) k1 k2] end
  | None => change_node path f u = Some (inr (- FDT_ERR_BADOVERLAY))
  end.
Proof.
  induction path as [|name path IH]; intros u; cbn [find_path change_node].
  - exists []. split_and!; [done| |done]. by destruct (f u) as [[]|].
  - destruct u as [o n ps ks]. cbn [d_kids at_kid]. pose proof (first_kid_find name (change_node path f) ks) as Hk. destruct (find_kid name ks) as [k|]; cbn [mbind option_bind]; [|by rewrite Hk].
    destruct Hk as (k1 & k2 & -> & Hk). rewrite Hk. specialize (IH k). destruct (find_path k path) as [s|]; [|by rewrite IH]. destruct IH as (C & -> & -> & _). exists (C ++ [LFrame o n ps k1 k2]).
    assert (forall x, fill (C ++ [LFrame o n ps k1 k2]) x = DNode o n ps (k1 ++ fill C x :: k2)) as Hfill by (intros x; unfold fill; by rewrite fold_left_app). split_and!; [by rewrite Hfill| |by exists (fill C s), k1, k2, C].
    destruct (f s) as [[s'|]|]; [|done..]. cbn [res_bind]. by rewrite Hfill.
Qed.

(** A sub-node of the root stays if the path does not lead to it. *)
Lemma change_node_keeps G path f u u' : leads_to G path u = false -> (forall s s', f s = Some (inl s') -> d_kids s' = d_kids s /\ same_place s s') -> change_node path f u = Some (inl u') -> G ∈ d_kids u -> G ∈ d_kids u' /\ d_off u' = d_off u.
Proof.
  destruct path as [|name path]; intros Hl Hf Hc HG; cbn [change_node] in Hc.
  - destruct (Hf _ _ Hc) as [-> [H _]]. done.
  - destruct u as [o n ps ks]. cbn [at_kid leads_to d_kids] in *. pose proof (first_kid_find name (change_node path f) ks) as Hk. destruct (find_kid name ks) as [k|]; [|by rewrite Hk in Hc]. destruct Hk as (k1 & k2 & -> & Hk). rewrite Hk in Hc.
    destruct (change_node path f k) as [[k'|]|]; [|done..]. injection Hc as <-. cbn [d_kids d_off]. split; [|done]. apply Z.eqb_neq in Hl. rewrite elem_of_app, elem_of_cons in *. destruct HG as [?|[->|?]]; tauto.
Qed.

Lemma set_cell_kids name off ph s s' : set_cell name off ph s = Some (inl s') -> d_kids s' = d_kids s /\ same_place s s'.
Proof. unfold set_cell. destruct (find_prop _ _); [|done]. destruct (off <? 0); [done|]. destruct (_ <=? _); [|done]. intros [= <-]. by destruct s. Qed.

(** Putting a phandle into the value of a property of a node. *)
Lemma set_cell_ok o C s name off ph r : rw_ready o -> holds o (fill C s) -> set_cell name off ph s = Some r -> off < 2 ^ 31 ->
  exists rc o', inplace (fun b => fdt_setprop_inplace_namelen_partial b (d_off s) name off (to_be 4 ph)) o = Some (rc, o') /\ stepped o C r rc o'.
Proof.
  intros Hr Ht Hs Ho. unfold set_cell in Hs. assert (forall err, err < 0 -> stepped o C (inr err) err o) as Hsame by (intros err Hneg; split; [done|]; split; [reflexivity|]; split_and!; [done|done|by eexists]).
  pose proof (getprop_in o (fill C s) s name Ht (fill_within C s)) as Hg. destruct (find_prop name (d_props s)) as [q|] eqn:Eq.
  - destruct (Z.ltb_spec off 0); [done|]. destruct (value_ptr o Hr C s Ht name q Eq) as (Eg & Hv & Hlt). destruct (Z.leb_spec (off + 4) (zlen (p_val q))) as [Hin|Hout]; injection Hs as <-.
    + destruct (inplace_ok o Hr C s Ht name q Eq off (to_be 4 ph) ltac:(lia) ltac:(rewrite zlen_to_be; lia) ltac:(apply to_be_bytes)) as (o' & E & Hr' & Hto & Ht'). exists 0, o'. split; [exact E|]. by split_and!.
    + do 2 eexists. split; [|by apply Hsame]. unfold inplace, fdt_setprop_inplace_namelen_partial. unfold fdt_getprop in Eg. rewrite Eg. cbn [mbind option_bind]. pose proof (zlen_nonneg (p_val q)). rewrite zlen_to_be. change (Z.of_nat 4) with 4. rewrite !uw_small by (unfold is_uw; lia). destruct (Z.ltb_spec (zlen (p_val q)) (4 + off)); [|lia]. by destruct o.
  - injection Hs as <-. destruct Hg as [Eg _]. do 2 eexists. split; [|by apply Hsame]. unfold inplace, fdt_setprop_inplace_namelen_partial. unfold fdt_getprop in Eg. rewrite Eg. by destruct o.
Qed.

(** ** One entry *)
Section Entry.
  Context (b : region) (Hb : readable b) (t : dt) (Ht : holds b t) (fuel : nat).

Definition symbols_at : Z := match find_kid (byte_list "__symbols__") (d_kids t) with Some sy => d_off sy | None => - FDT_ERR_NOTFOUND end.

Lemma one_phandle_ok o u G label lptr path name off rest r : rw_ready o -> holds o u -> cstr (r_bytes o) lptr = Some label -> off < 2 ^ 31 ->
  res_bind (label_phandle t label) (fun ph => if negb (hd 0 path =? 47) || leads_to G (split_path [] path) u then None else change_node (split_path [] path) (set_cell name off ph) u) = Some r ->
  exists rc o', overlay_fixup_one_phandle (S fuel) symbols_at (path ++ rest) (zlen path) name off lptr (b, o) = Some (rc, (b, o')) /\ stepped o [] r rc o'.
Proof.
  intros Hr Hu Hl Ho Hf. pose proof (rw_read _ Hr) as R. assert (forall err, err < 0 -> stepped o [] (inr err) err o) as Hsame by (intros err Hneg; split; [done|]; split; [reflexivity|]; split_and!; [done|done|by eexists]).
  unfold overlay_fixup_one_phandle, symbols_at. unfold label_phandle in Hf. destruct (find_kid (byte_list "__symbols__") (d_kids t)) as [sy|] eqn:Esy.
  2: { injection Hf as <-. do 2 eexists. split; [done|]. by apply Hsame. }
  assert (within sy t) as Hsyw by (eapply within_kid; [by eapply find_kid_in|constructor]). pose proof (node_off_pos b Hb t sy Ht (within_preorder _ _ Hsyw)). destruct (Z.ltb_spec (d_off sy) 0); [lia|].
  unfold mbind, M_bind. unfold on_fdto at 1, rd at 1. cbn [fst snd]. rewrite Hl. cbn [mbind option_bind]. unfold on_fdt at 1, rd at 1. cbn [fst snd]. pose proof (getprop_in b t sy label Ht Hsyw) as Hg.
  destruct (find_prop label (d_props sy)) as [q|]; cbn [res_bind] in Hf.
  2: { injection Hf as <-. destruct Hg as [-> _]. cbn [mbind option_bind]. do 2 eexists. split; [done|]. by apply Hsame. }
  destruct Hg as (d & -> & _ & Ev). cbn [mbind option_bind]. destruct (to_nul (p_val q)) as [sp|] eqn:Esp; [|done]. unfold on_fdt at 1, rd at 1. cbn [fst snd]. rewrite (cstr_value _ _ _ _ Ev Esp). cbn [mbind option_bind].
  destruct (Z.eqb_spec (hd 0 sp) 47) as [Hsp|]; [|done]. rewrite (path_offset_tree b Hb t sp fuel Ht Hsp). cbn [mbind option_bind]. unfold path_result. destruct (find_path t (split_path [] sp)) as [k|] eqn:Ek.
  2: { injection Hf as <-. do 2 eexists. split; [done|]. by apply Hsame. }
  pose proof (find_path_within _ _ _ Ek) as Hkw. pose proof (node_off_pos b Hb t k Ht (within_preorder _ _ Hkw)). destruct (Z.ltb_spec (d_off k) 0); [lia|]. unfold on_fdt at 1, rd at 1. cbn [fst snd]. rewrite (get_phandle_tree b t k Ht Hkw). cbn [mbind option_bind].
  destruct (node_phandle k =? 0); [injection Hf as <-; do 2 eexists; split; [done|by apply Hsame]|]. cbn [res_bind] in Hf. destruct (Z.eqb_spec (hd 0 path) 47) as [Hp|]; [|done]. cbn [negb orb] in Hf. destruct (leads_to G (split_path [] path) u); [done|].
  unfold on_fdto at 1, rd at 1. cbn [fst snd]. rewrite (path_offset_namelen_tree o R u path rest fuel Hu Hp). cbn [mbind option_bind]. unfold path_result. pose proof (change_node_fill (split_path [] path) (set_cell name off (node_phandle k)) u) as Hc.
  destruct (find_path u (split_path [] path)) as [s|] eqn:Es.
  2: { rewrite Hc in Hf. injection Hf as <-. rewrite Z.eqb_refl. do 2 eexists. split; [done|]. by apply Hsame. }
  destruct Hc as (C & Eu & Hc & _). rewrite Hc in Hf. pose proof (node_off_pos o R u s Hu (within_preorder _ _ (find_path_within _ _ _ Es))). change (- FDT_ERR_NOTFOUND) with (-1). destruct (Z.eqb_spec (d_off s) (-1)); [lia|]. destruct (Z.ltb_spec (d_off s) 0); [lia|].
  destruct (set_cell name off (node_phandle k) s) as [rs|] eqn:Ers; [|done]. rewrite Eu in Hu. destruct (set_cell_ok o C s name off (node_phandle k) rs Hr Hu Ers Ho) as (rc & o' & E & Hst). unfold on_fdto. cbn [fst snd]. rewrite E. do 2 eexists. split; [done|].
  destruct rs as [s'|err]; injection Hf as <-; exact Hst.
Qed.

Lemma parse_entry_path e path name off : parse_entry e = Some (path, name, off) -> (exists r, e = path ++ 58 :: r) /\ off < 2 ^ 31.
Proof.
  unfold parse_entry. pose proof (cut_spec 58 e) as Hc. destruct (cut 58 e) as [[a r]|]; [|done]. cbn [mbind option_bind]. case_bool_decide; [done|]. destruct (cut 58 r) as [[a2 r2]|]; [|done]. cbn [mbind option_bind]. case_bool_decide; [done|].
  destruct (strtoul10 r2) as [v n]. destruct (_ || _); [done|]. intros [= <- <- <-]. destruct Hc as [Hc _]. split; [by exists r|]. pose proof (sw_range 32 v ltac:(lia)) as Hs. unfold is_sw in Hs. lia.
Qed.

Lemma pieces_cut v : pieces v = match cut 0 v with Some (x, rest) => (x :: (pieces rest).1, (pieces rest).2) | None => ([], v) end.
Proof.
  induction v as [|c v IH]; [done|]. cbn [pieces cut]. destruct (c =? 0); [by destruct (pieces v)|]. rewrite IH. by destruct (cut 0 v) as [[? ?]|].
Qed.

Lemma pieces_end v : bool_decide ((pieces v).1 <> [] /\ (pieces v).2 = []) = bool_decide ((pieces v).2 = [] /\ v <> []).
Proof.
  apply bool_decide_ext. rewrite pieces_cut. pose proof (cut_spec 0 v) as Hc. destruct (cut 0 v) as [[x rest]|]; cbn [fst snd]; [|split; intros [? ?]; congruence]. destruct Hc as [-> _]. split; intros [? ?]; split; try done. by destruct x.
Qed.

(** The properties of [G], a sub-node of the root. *)
Section Label.
  Context (G : dt) (p : pitem) (Hp : p ∈ d_props G) (Hlen : zlen (p_val p) < 2 ^ 31) (x st tr : Z) (Hx : is_sw 32 x).

(** What the entries of a value do. *)
Definition fix_value (v : list Z) (u : dt) : res dt :=
  res_bind (fold_err (fix_entry t G (p_name p)) (pieces v).1 u) (fun u' => if bool_decide ((pieces v).1 <> [] /\ (pieces v).2 = []) then Some (inl u') else Some (inr (- FDT_ERR_BADOVERLAY))).

Lemma fix_value_cut v u : fix_value v u = match cut 0 v with
  | None => Some (inr (- FDT_ERR_BADOVERLAY))
  | Some (e, rest) => res_bind (fix_entry t G (p_name p) e u) (fun u' => if bool_decide (rest = []) then Some (inl u') else fix_value rest u')
  end.
Proof.
  unfold fix_value. rewrite (pieces_cut v). destruct (cut 0 v) as [[e rest]|]; cbn [fst snd].
  - cbn [fold_err]. destruct (fix_entry t G (p_name p) e u) as [[u'|]|]; [|done..]. cbn [res_bind]. destruct (bool_decide (rest = [])) eqn:Er.
    + apply bool_decide_eq_true in Er as ->. cbn [pieces fst snd fold_err res_bind]. by rewrite bool_decide_eq_true_2.
    + apply bool_decide_eq_false in Er. rewrite pieces_end. destruct (fold_err _ _ u') as [[u2|]|]; [|done..]. cbn [res_bind]. rewrite (bool_decide_ext (e :: (pieces rest).1 <> [] /\ (pieces rest).2 = []) ((pieces rest).2 = [] /\ rest <> [])); [done|]. split; intros [? ?]; by split.
  - cbn [fold_err res_bind]. rewrite bool_decide_eq_false_2; [done|]. by intros [? _].
Qed.

Definition at_root (o : region) (u : dt) : Prop :=
  rw_ready o /\ holds o u /\ G ∈ d_kids u /\ hv o 8 = st /\ hv o 12 = tr /\ string_at o x (p_name p).

Lemma root_kept u : G ∈ d_kids u -> kept [] G u.
Proof. intros HG s' Hs'. cbn [fill fold_left]. eapply within_kid; [rewrite Hs'; exact HG|constructor]. Qed.

Lemma fix_entry_keeps e u u' : fix_entry t G (p_name p) e u = Some (inl u') -> G ∈ d_kids u -> G ∈ d_kids u'.
Proof.
  unfold fix_entry. destruct (parse_entry e) as [[[path name] off]|]; [|done]. destruct (label_phandle t (p_name p)) as [[ph|]|]; [|done..]. cbn [res_bind]. destruct (negb _); [done|]. cbn [orb]. destruct (leads_to G (split_path [] path) u) eqn:El; [done|].
  intros Hc HG. by eapply (change_node_keeps G _ _ u u' El (set_cell_kids name off ph)).
Qed.

Lemma phandle_loop_ok loop : forall don rest o u r, p_val p = don ++ rest -> (length rest < loop)%nat -> at_root o u -> fix_value rest u = Some r ->
  exists rc o', fixup_phandle_loop loop (S fuel) symbols_at (st + p_off p + 12 + zlen don) (zlen rest) (tr + x) (b, o) = Some (rc, (b, o')) /\ stepped o [] r rc o' /\ (forall u', r = inl u' -> G ∈ d_kids u').
Proof.
  induction loop as [|loop IH]; intros don rest o u r Ev Hl (Hr & Hu & HG & E8 & E12 & Hs) Hf; [lia|]. destruct (prop_in_kept [] o G u p Hr Hu (root_kept u HG) Hp) as (_ & _ & _ & Hv). rewrite E8, Ev in Hv.
  apply rdn_app in Hv as [_ Hv]. assert (zlen don + zlen rest < 2 ^ 31) as Hlr by (rewrite Ev, zlen_app in Hlen; done). pose proof (zlen_nonneg don). pose proof (zlen_nonneg rest).
  assert (forall err, err < 0 -> stepped o [] (inr err) err o) as Hsame by (intros err Hneg; split; [done|]; split; [reflexivity|]; split_and!; [done|done|by eexists]).
  cbn [fixup_phandle_loop]. unfold mbind, M_bind, get, lift. cbn [snd]. set (val := st + p_off p + 12 + zlen don) in *. rewrite (memchr_cut _ _ 0 rest Hv). rewrite fix_value_cut in Hf. pose proof (cut_spec 0 rest) as Hc.
  destruct (cut 0 rest) as [[e rest']|]; [|injection Hf as <-; do 2 eexists; split; [done|]; split; [by apply Hsame|done]]. destruct Hc as [-> He0].
  replace (val + zlen e - val) with (zlen e) by lia. rewrite zlen_app, zlen_cons in Hlr. pose proof (zlen_nonneg e). pose proof (zlen_nonneg rest'). rewrite (uw_small 32 (zlen e)) by (unfold is_uw; lia).
  change (0 :: rest') with ([0] ++ rest') in Hv. rewrite app_assoc in Hv. apply rdn_app in Hv as [Hv Hv']. rewrite (fixup_entry_ok _ _ _ He0 ltac:(lia) Hv).
  assert (s32 (zlen (e ++ 0 :: rest') - (zlen e + 1)) = zlen rest') as -> by (rewrite zlen_app, zlen_cons; replace (zlen e + (1 + zlen rest') - (zlen e + 1)) with (zlen rest') by lia; apply sw_small; unfold is_sw; lia).
  destruct (fix_entry t G (p_name p) e u) as [re|] eqn:Efe; [|done]. pose proof Efe as Efe'. unfold fix_entry in Efe. destruct (parse_entry e) as [[[path name] off]|] eqn:Epe.
  2: { injection Efe as <-. injection Hf as <-. do 2 eexists. split; [done|]. split; [by apply Hsame|done]. }
  destruct (parse_entry_path _ _ _ _ Epe) as [[rp Erp] Hoff]. apply rdn_from in Hv as [rm [Hpos Hdrop]]. rewrite Erp, <- !app_assoc in Hdrop. rewrite Hdrop.
  destruct (one_phandle_ok o u G (p_name p) (tr + x) path name off ((58 :: rp) ++ [0] ++ rm) re Hr Hu ltac:(rewrite <- E12; by apply string_cstr) Hoff Efe) as (rc & o1 & E1 & Hst). rewrite E1. destruct re as [u1|err]; cbn [res_bind] in Hf.
  - pose proof Hst as (Hr1 & Hto & -> & Hu1). cbn [negb Z.eqb]. cbn [fill fold_left] in Hu1. pose proof (fix_entry_keeps e u u1 Efe' HG) as HG1. destruct (bool_decide (rest' = [])) eqn:Erest.
    + apply bool_decide_eq_true in Erest as ->. injection Hf as <-. change (zlen []) with 0. cbn [Z.ltb Z.compare]. do 2 eexists. split; [done|]. split; [exact Hst|]. by intros u' [= <-].
    + apply bool_decide_eq_false in Erest. destruct (Z.ltb_spec 0 (zlen rest')); [|destruct rest'; [done|rewrite zlen_cons in *; pose proof (zlen_nonneg rest'); lia]].
      destruct (IH (don ++ e ++ [0]) rest' o1 u1 r ltac:(by rewrite Ev, <- !app_assoc) ltac:(rewrite length_app in Hl; cbn in Hl; lia)) as (rc & o' & E & Hst' & HG').
      { split_and!; [done|done|done|by rewrite (to_struct _ _ Hto)|by rewrite (to_strings _ _ Hto)|by apply (to_strs _ _ Hto)]. }
      { exact Hf. }
      exists rc, o'. split_and!; [|by eapply stepped_trans|done]. rewrite <- E. f_equal. unfold val. rewrite !zlen_app. change (zlen [0]) with 1. lia.
  - injection Hf as <-. destruct Hst as (S1 & S2 & -> & Hneg & S3). destruct (Z.eqb_spec err 0); [lia|]. cbn [negb]. do 2 eexists. split; [done|]. split; [by split_and!|done].
Qed.
End Label.

(** A property, then all of them. *)
Lemma fixup_phandle_ok G p o u r : p ∈ d_props G -> rw_ready o -> holds o u -> G ∈ d_kids u -> fix_label t G p u = Some r ->
  exists rc o', overlay_fixup_phandle (S fuel) symbols_at (p_off p) (b, o) = Some (rc, (b, o')) /\ stepped o [] r rc o' /\ (forall u', r = inl u' -> G ∈ d_kids u').
Proof.
  intros Hp Hr Hu HG Hf. destruct (prop_in_kept [] o G u p Hr Hu (root_kept G u HG) Hp) as (e & HGg & HGn & _). destruct (prop_pointers o Hr G e p HGg HGn Hp) as (x & Hx & Hs & Eptr & Hv).
  assert (zlen (p_val p) < 2 ^ 31) as Hlen.
  { destruct (node_range o (rw_read _ Hr) G e HGg HGn) as (o1 & _ & Hi & Hg1 & _). destruct (items_prop o (rw_read _ Hr) _ _ _ _ p Hi Hg1 Hp) as (y & Hgp & Htk & _ & Hl & _).
    destruct (token_next o (rw_read _ Hr) _ _ _ (proj1 Hgp) Htk ltac:(done)) as (_ & _ & _ & _ & Hta). destruct (ta_prop _ _ _ _ Hta eq_refl) as (Hb2 & _). cbn zeta in Hb2. rewrite Hl in Hb2. unfold INT_MAX in Hb2. lia. }
  unfold overlay_fixup_phandle, mbind, M_bind. unfold on_fdto at 1, rd at 1. cbn [fst snd]. rewrite Eptr. cbn [mbind option_bind].
  destruct (phandle_loop_ok G p Hp Hlen x (hv o 8) (hv o 12) Hx (S (Z.to_nat (zlen (p_val p)))) [] (p_val p) o u r eq_refl ltac:(unfold zlen; lia)) as (rc & o' & E & Hst & HG').
  - by split_and!.
  - revert Hf. unfold fix_label, fix_value. by destruct (pieces (p_val p)).
  - change (zlen []) with 0 in E. rewrite Z.add_0_r in E. rewrite E. by do 2 eexists.
Qed.

Lemma fixup_props_ok G rest : forall don o u n r, d_props G = don ++ rest -> (length rest < n)%nat -> rw_ready o -> holds o u -> G ∈ d_kids u -> fold_err (fix_label t G) rest u = Some r ->
  exists rc o', each_property snd (overlay_fixup_phandle (S fuel) symbols_at) n (first_off rest) (b, o) = Some (rc, (b, o')) /\ stepped o [] r rc o'.
Proof.
  induction rest as [|p rest IH]; intros don o u n r EG Hn Hr Hu HG Hf; (destruct n as [|n]; [cbn in Hn; lia|]); cbn [each_property first_off fold_err] in *.
  { injection Hf as <-. change (- FDT_ERR_NOTFOUND <? 0) with true. do 2 eexists. split; [done|]. split; [done|]. by split. }
  assert (p ∈ d_props G) as Hp by (rewrite EG; apply elem_of_app; right; by left). destruct (prop_in_kept [] o G u p Hr Hu (root_kept G u HG) Hp) as (e & HGg & HGn & _). destruct (next_property_tree o Hr G e don p rest HGg HGn EG) as [H0 _].
  destruct (Z.ltb_spec (p_off p) 0); [lia|]. unfold mbind, M_bind. destruct (fix_label t G p u) as [r1|] eqn:E1; [|done]. destruct (fixup_phandle_ok G p o u r1 Hp Hr Hu HG E1) as (rc & o1 & -> & Hst & HG'). destruct r1 as [u1|err]; cbn [res_bind] in Hf.
  - pose proof Hst as (Hr1 & Hto & -> & Hu1). cbn [fill fold_left] in Hu1. specialize (HG' u1 eq_refl). cbn [negb Z.eqb]. destruct (prop_in_kept [] o1 G u1 p Hr1 Hu1 (root_kept G u1 HG') Hp) as (e1 & _ & HGn1 & _). unfold get, lift. cbn [snd].
    rewrite (proj2 (next_property_tree o1 Hr1 G e1 don p rest HGg HGn1 EG)). destruct (IH (don ++ [p]) o1 u1 n r ltac:(by rewrite <- app_assoc) ltac:(cbn in Hn; lia) Hr1 Hu1 HG' Hf) as (rc & o' & E & Hst2). exists rc, o'. split; [exact E|]. by eapply stepped_trans.
  - injection Hf as <-. destruct Hst as (H1 & H2 & -> & Hneg & H3). destruct (Z.eqb_spec err 0); [lia|]. cbn [negb]. do 2 eexists. split; [done|]. by split_and!.
Qed.

Lemma fixup_phandles_ok o u r : rw_ready o -> holds o u -> fixups t u = Some r -> exists rc o', overlay_fixup_phandles (S fuel) (b, o) = Some (rc, (b, o')) /\ stepped o [] r rc o'.
Proof.
  intros Hr Hu Hf. pose proof (rw_read _ Hr) as R. unfold overlay_fixup_phandles, mbind, M_bind. unfold on_fdto at 1, rd at 1. cbn [fst snd]. rewrite (path_offset_tree o R u (byte_list "/__fixups__") fuel Hu eq_refl). cbn [mbind option_bind]. unfold path_result.
  replace (split_path [] (byte_list "/__fixups__")) with [byte_list "__fixups__"] by (vm_compute; reflexivity). cbn [find_path]. unfold fixups in Hf. destruct (find_kid (byte_list "__fixups__") (d_kids u)) as [G|] eqn:EG; cbn [mbind option_bind].
  2: { injection Hf as <-. rewrite Z.eqb_refl. do 2 eexists. split; [done|]. split; [done|]. by split. }
  pose proof (find_kid_in _ _ _ EG) as Hin. assert (within G u) as HGw by (eapply within_kid; [exact Hin|constructor]). pose proof (node_off_pos o R u G Hu (within_preorder _ _ HGw)). change (- FDT_ERR_NOTFOUND) with (-1). destruct (Z.eqb_spec (d_off G) (-1)); [lia|]. destruct (Z.ltb_spec (d_off G) 0); [lia|].
  unfold on_fdt at 1, rd at 1. cbn [fst snd]. rewrite (path_offset_tree b Hb t (byte_list "/__symbols__") fuel Ht eq_refl). cbn [mbind option_bind]. replace (split_path [] (byte_list "/__symbols__")) with [byte_list "__symbols__"] by (vm_compute; reflexivity).
  assert (path_result t [byte_list "__symbols__"] = symbols_at) as -> by (unfold path_result, symbols_at; cbn [find_path]; by destruct (find_kid _ (d_kids t))).
  assert ((symbols_at <? 0) && negb (symbols_at =? -1) = false) as ->.
  { unfold symbols_at. destruct (find_kid (byte_list "__symbols__") (d_kids t)) as [sy|] eqn:Es; [|done]. assert (within sy t) as Hsw by (eapply within_kid; [by eapply find_kid_in|constructor]). pose proof (node_off_pos b Hb t sy Ht (within_preorder _ _ Hsw)). by destruct (Z.ltb_spec (d_off sy) 0); [lia|]. }
  pose proof Hu as (_ & U0 & e & _ & Hn & _). assert (at_tag (d_off u)) as Hg by (by rewrite U0). destruct (within_at o R u e G Hg Hn HGw) as (eG & HGg & HGn). destruct (node_range o R G eG HGg HGn) as (o1 & Htk & Hi & Hg1 & _ & ? & ? & ? & ?).
  unfold for_each_property_offset, mbind, M_bind, get, lift. cbn [snd]. unfold fdt_first_property_offset. rewrite (token_check o R _ _ (proj1 HGg) Htk (proj2 HGg)). cbn [mbind option_bind]. destruct (Z.ltb_spec o1 0); [lia|]. rewrite (nextprop_tree o R _ _ _ _ Hi Hg1).
  apply (fixup_props_ok G (d_props G) [] o u); [done| |done..]. pose proof (props_increase o R _ _ _ _ Hi Hg1). pose proof (node_end_bound o R G eG HGg HGn). pose proof (bo_size _ (rb_ok _ R)). unfold blob_fuel, zlen in *. lia.
Qed.
End Entry.
