(* ===== verification/FdtSymbols.v ===== *)
(** Symbols of an overlay: "__symbols__" gives labels to nodes of the fragments;
    [overlay_symbol_update] adds them to "__symbols__" of the base tree, with the paths
    the nodes have there. *)
From S2P Require Import Prelude KDefs Bytes Fdt FdtRo FdtSafe FdtRoSafe FdtProps FdtHelper FdtCheck FdtTree FdtPath FdtWalk FdtSw FdtSwProps FdtSeg FdtNames FdtMove FdtEdit FdtSwTree FdtRw FdtSplice FdtRwProps FdtRwNodes FdtScript FdtOverlay FdtMerge FdtInplace FdtOverlayProps FdtRefs FdtFixups.

(** ** The shape of a tree *)

(** Names and phandles are all a target is looked up by. *)
Inductive shape := Shape (name : list Z) (phandle : Z) (kids : list shape).
Definition h_name (h : shape) : list Z := let 'Shape n _ _ := h in n.
Definition h_kids (h : shape) : list shape := let 'Shape _ _ ks := h in ks.

Definition cell_of (name : list Z) (ps : list (list Z * list Z)) : option Z :=
  p ← List.find (fun p => bool_decide (p.1 = name)) ps; if zlen p.2 =? 4 then Some (be p.2) else None.
Definition phandle_of (ps : list (list Z * list Z)) : Z :=
  match cell_of (byte_list "phandle") ps with Some v => v | None => default 0 (cell_of (byte_list "linux,phandle") ps) end.
Fixpoint shape_of (t : stree) : shape := let 'SNode n ps ks := t in Shape n (phandle_of ps) (shape_of <$> ks).

(** Whether a path leads to a node; all nodes with the names on the way to them. *)
Fixpoint leads (h : shape) (path : list (list Z)) : bool :=
  match path with
  | [] => true
  | s :: path => match List.find (fun k => name_matches (h_name k) s) (h_kids h) with Some k => leads k path | None => false end
  end.
Fixpoint ways (h : shape) : list (list (list Z) * Z) :=
  let 'Shape _ ph ks := h in ([], ph) :: (ks ≫= fun k => (fun e => (h_name k :: e.1, e.2)) <$> ways k).

Lemma find_fmap {A B} (f : A -> B) (p : B -> bool) l : List.find p (f <$> l) = f <$> List.find (fun x => p (f x)) l.
Proof. induction l as [|x l IH]; [done|]. rewrite fmap_cons. cbn [List.find]. by destruct (p (f x)). Qed.

Lemma cell_of_prop name t : cell_prop name t = cell_of name (pv <$> d_props t).
Proof. unfold cell_prop, cell_of, find_prop. rewrite find_fmap. by destruct (List.find _ (d_props t)). Qed.
Lemma phandle_of_node t : node_phandle t = phandle_of (pv <$> d_props t).
Proof. unfold node_phandle, phandle_of. by rewrite !cell_of_prop. Qed.

Lemma shape_name t : h_name (shape_of (erase t)) = d_name t.
Proof. by destruct t. Qed.
Lemma shape_kids t : h_kids (shape_of (erase t)) = (fun k => shape_of (erase k)) <$> d_kids t.
Proof. destruct t as [o n ps ks]. cbn [erase shape_of h_kids d_kids]. by rewrite <- list_fmap_compose. Qed.

Lemma leads_find path : forall t, leads (shape_of (erase t)) path = bool_decide (is_Some (find_path t path)).
Proof.
  induction path as [|s path IH]; intros t; cbn [leads find_path]; [by rewrite bool_decide_eq_true_2 by by eexists|]. rewrite shape_kids, find_fmap. unfold find_kid.
  assert (List.find (fun x => name_matches (h_name (shape_of (erase x))) s) (d_kids t) = List.find (fun k => name_matches (d_name k) s) (d_kids t)) as ->.
  { induction (d_kids t) as [|k ks IHk]; [done|]. cbn [List.find]. rewrite shape_name. by destruct (name_matches _ _). }
  destruct (List.find _ (d_kids t)) as [k|]; cbn [fmap option_fmap option_map mbind option_bind]; [apply IH|]. symmetry. apply bool_decide_eq_false_2. by intros [].
Qed.

Lemma ways_preorder t : Forall2 (fun k e => path_to k e.1 t /\ e.2 = node_phandle k) (preorder t) (ways (shape_of (erase t))).
Proof.
  induction t as [o n ps ks IH] using dt_ind'. cbn [preorder erase shape_of ways]. constructor.
  { split; [constructor|]. cbn [snd]. by rewrite phandle_of_node. }
  assert (forall k, k ∈ ks -> k ∈ d_kids (DNode o n ps ks)) as Hin by done. revert Hin. generalize (DNode o n ps ks). intros t Hin. induction IH as [|k ks Hk _ IHk]; [constructor|]. rewrite !fmap_cons, !bind_cons. apply Forall2_app; [|apply IHk; intros x Hx; apply Hin; by right].
  rewrite <- (list_fmap_id (preorder k)). apply Forall2_fmap. eapply Forall2_impl; [exact Hk|]. intros x e [Hx He]. cbn [fst snd]. split; [|done]. rewrite shape_name. apply pt_kid; [apply Hin; by left|done].
Qed.

Lemma ways_find t ph : match List.find (fun k => node_phandle k =? ph) (preorder t) with
  | Some s => exists l, List.find (fun e => e.2 =? ph) (ways (shape_of (erase t))) = Some (l, ph) /\ path_to s l t
  | None => List.find (fun e => e.2 =? ph) (ways (shape_of (erase t))) = None
  end.
Proof.
  induction (ways_preorder t) as [|k [l v] ks es [Hp He] _ IH]; [done|]. cbn [List.find snd fst] in *. rewrite He. destruct (Z.eqb_spec (node_phandle k) ph) as [<-|]; [|done]. by exists l.
Qed.

(** ** Targets by their names *)
Definition path_by_text (g : dt) (h : shape) : list Z + Z :=
  match find_prop (byte_list "target-path") (d_props g) with
  | None => inr (- FDT_ERR_BADOVERLAY)
  | Some p => let s := default [] (to_nul (p_val p)) in if leads h (split_path [] s) then inl s else inr (- FDT_ERR_NOTFOUND)
  end.
Definition target_path (g : dt) (h : shape) : list Z + Z :=
  match find_prop (byte_list "target") (d_props g) with
  | None => path_by_text g h
  | Some p =>
      if negb (zlen (p_val p) =? 4) then inr (- FDT_ERR_BADPHANDLE)
      else
        let ph := be (p_val p) in
        if ph =? u32 (-1) then inr (- FDT_ERR_BADPHANDLE)
        else if ph =? 0 then path_by_text g h
        else match List.find (fun e => e.2 =? ph) (ways h) with Some e => inl (path_text e.1) | None => inr (- FDT_ERR_NOTFOUND) end
  end.

(** The path of a target is the one it was given by, or the one it has. *)
Lemma target_path_find g t : frag_fine g -> match find_target g t with
  | inr err => target_path g (shape_of (erase t)) = inr err
  | inl s => exists x, target_path g (shape_of (erase t)) = inl x /\ match target_text g with Some y => y = x /\ hd 0 x = 47 | None => exists l, path_to s l t /\ x = path_text l end
  end.
Proof.
  intros Hf. assert (match target_at_path g t with inr err => path_by_text g (shape_of (erase t)) = inr err | inl s => exists x, path_by_text g (shape_of (erase t)) = inl x /\ path_string g = Some x /\ hd 0 x = 47 end) as Hpath.
  { unfold target_at_path, path_by_text, path_string. specialize (Hf). unfold frag_fine in Hf. destruct (find_prop _ _) as [p|]; [|done]. destruct (Hf p eq_refl) as (s & Es & Hs). rewrite Es. cbn [mbind option_bind]. change (default [] (Some s)) with s. rewrite leads_find.
    destruct (find_path _ _); [rewrite bool_decide_eq_true_2 by (by eexists); by exists s|]. rewrite bool_decide_eq_false_2; [done|by intros []]. }
  assert (match target_at_path g t with inr err => path_by_text g (shape_of (erase t)) = inr err | inl s => exists x, path_by_text g (shape_of (erase t)) = inl x /\ match path_string g with Some y => y = x /\ hd 0 x = 47 | None => exists l, path_to s l t /\ x = path_text l end end) as Hpath'.
  { destruct (target_at_path g t); [|done]. destruct Hpath as (x & E & -> & Hx). by exists x. }
  unfold find_target, target_path, target_text. destruct (find_prop (byte_list "target") (d_props g)) as [p|]; [|done]. destruct (negb _); [done|]. destruct (_ =? u32 (-1)); [done|]. destruct (be (p_val p) =? 0); [done|].
  pose proof (ways_find t (be (p_val p))) as Hw. destruct (List.find _ (preorder t)) as [s|]; [|by rewrite Hw]. destruct Hw as (l & -> & Hl). eexists. split; [done|]. by exists l.
Qed.

(** ** Symbols and the paths they stand for *)

(** "/fragment/__overlay__" and "/fragment/__overlay__/path" name a node of the merged
    tree; another absolute path does not. *)
Definition symbol_of (v : list Z) : symbol :=
  match cut 0 v with
  | Some (47 :: l, []) =>
      match cut 47 l with
      | None => SymSkip
      | Some (frag, r) =>
          if bool_decide (r = byte_list "__overlay__") then SymIn frag []
          else if bool_decide (take 12 r = byte_list "__overlay__/") then SymIn frag (drop 12 r)
          else SymSkip
      end
  | _ => SymBad (- FDT_ERR_BADVALUE)
  end.

Lemma find_cut c l : forall x, List.find (fun i => bool_decide ((x ++ l) !! i = Some c)) (seq (length x) (length l)) = match cut c l with Some (a, _) => Some (length x + length a)%nat | None => None end.
Proof.
  induction l as [|y l IH]; intros x; [done|]. cbn [length seq List.find cut]. rewrite lookup_app_r, Nat.sub_diag by lia. cbn [lookup list_lookup]. destruct (Z.eqb_spec y c) as [->|Hy].
  - rewrite bool_decide_eq_true_2 by done. cbn. f_equal. lia.
  - rewrite bool_decide_eq_false_2 by congruence. specialize (IH (x ++ [y])). rewrite length_app in IH. cbn [length] in IH. rewrite Nat.add_1_r, <- app_assoc in IH. cbn [app] in IH. rewrite IH. destruct (cut c l) as [[a r]|]; [|done]. cbn [mbind option_bind length]. f_equal. lia.
Qed.

Lemma overlay_symbol_ok m p v : rdn m p (zlen v) = Some v -> overlay_symbol m p (zlen v) = Some (symbol_of v).
Proof.
  intros Ev. unfold overlay_symbol, symbol_of. pose proof (cut_spec 0 v) as Hc. assert ((if zlen v <? 1 then Some None else memchr m p 0 (zlen v)) = Some (match cut 0 v with Some (a, _) => Some (p + zlen a) | None => None end)) as ->.
  { destruct (Z.ltb_spec (zlen v) 1); [|by apply memchr_cut]. destruct v; [done|rewrite zlen_cons in *; pose proof (zlen_nonneg v); lia]. }
  cbn [mbind option_bind]. destruct (cut 0 v) as [[a r]|]; [|by rewrite bool_decide_eq_false_2]. destruct Hc as [-> _]. rewrite zlen_app, zlen_cons. destruct r as [|c r].
  2: { rewrite bool_decide_eq_false_2; [by destruct a as [|[] a]; repeat case_match|]. intros [= E]. rewrite zlen_cons in E. pose proof (zlen_nonneg r). lia. }
  rewrite zlen_nil, bool_decide_eq_true_2 by (f_equal; lia). cbn [negb]. replace (zlen a + (1 + 0) - 1) with (zlen a) by lia. apply rdn_app in Ev as [Ea _]. rewrite Ea. cbn [mbind option_bind].
  destruct a as [|c a]; [done|]. destruct (Z.eq_dec c 47) as [->|Hc]; [|destruct c as [|q|q]; try done; do 6 (destruct q as [q|q|]; try done)]. pose proof (find_cut 47 a []) as Hf. cbn [app length] in Hf. rewrite Hf. clear Hf.
  pose proof (cut_spec 47 a) as Ha. destruct (cut 47 a) as [[frag r]|]; [|done]. destruct Ha as [-> _]. cbn [Nat.add]. rewrite take_app_length, drop_app_length. set (ov := byte_list "/__overlay__/").
  change (length ov) with 13%nat. change (take 13 (47 :: r)) with (47 :: take 12 r). change (drop 13 (47 :: r)) with (drop 12 r). change (zlen ov) with 13. rewrite zlen_cons.
  destruct (decide (r = byte_list "__overlay__")) as [->|Hr]; [vm_compute; reflexivity|].
  rewrite (bool_decide_eq_false_2 (r = _)) by done. destruct (decide (take 12 r = byte_list "__overlay__/")) as [Et|Et].
  - rewrite (bool_decide_eq_true_2 (take 12 r = _)), Et, (bool_decide_eq_true_2 (47 :: _ = ov)) by done. apply (f_equal length) in Et. rewrite length_take in Et. change (length (byte_list "__overlay__/")) with 12%nat in Et. unfold zlen. destruct (Z.ltb_spec 13 (1 + Z.of_nat (length r) + 1)); [done|lia].
  - rewrite (bool_decide_eq_false_2 (take 12 r = _)), (bool_decide_eq_false_2 (47 :: take 12 r = ov)) by (done || (intros [= E]; by apply Et)). rewrite andb_false_r. rewrite (bool_decide_eq_false_2 (47 :: r = _)), andb_false_r; [done|]. intros [= E]. by apply Hr.
Qed.

(** ** The length of a path *)
Section Length.
  Context (b : region) (Hr : rw_ready b) (t : dt) (Ht : holds b t) (Hroot : d_name t = []) (Hpl : plain_tree t).
  Local Abbreviation R := (rw_read _ Hr).
  Local Abbreviation B := (sb_bound _ (rw_stable b Hr)).

Lemma path_snoc s n l : forall u, path_to s (l ++ [n]) u -> exists p, path_to p l u /\ d_name s = n /\ under s p (zlen l) u.
Proof.
  induction l as [|x l IH]; intros u Hp; cbn [app] in Hp; inversion Hp as [|k u' l' Hk Hp' E1 E2]; subst.
  - inversion Hp'; subst. exists u. split_and!; [constructor|done|by constructor].
  - destruct (IH k Hp') as (p & H1 & H2 & H3). exists p. split_and!; [by constructor|done|]. rewrite zlen_cons, Z.add_comm. by eapply under_kid.
Qed.

(** A name lies in the blob between the tags of its node. *)
Lemma name_room k o1 : at_tag (d_off k) -> token b (d_off k) FDT_BEGIN_NODE o1 -> name_at b (d_off k) (d_name k) -> d_off k + 4 + zlen (d_name k) + 1 <= o1.
Proof.
  intros Hg Htk Hnm. destruct (next_tag_inv b B _ _ _ (proj1 Hg) Htk) as (x & H0 & Hx4 & _ & -> & _ & [(_ & s & Es & E)|[[? _]|[[?|[?|?]] _]]]); try done.
  unfold name_at in Hnm. rewrite Hnm in Es. injection Es as <-. pose proof (tagalign_bound (d_off k + x) ltac:(lia)). lia.
Qed.

Lemma path_room s l u : path_to s l u -> forall e o1, at_tag (d_off u) -> node_at b u e -> token b (d_off u) FDT_BEGIN_NODE o1 -> zlen (l ≫= cons 47) + zlen l <= e - o1.
Proof.
  induction 1 as [|k u l Hk _ IH]; intros e o1 Hg Hn Htk; destruct (node_range b R _ e Hg Hn) as (o1' & Htk' & Hi & Hg1 & _ & ? & ? & ? & _); pose proof (token_fun _ _ _ _ _ _ Htk Htk') as [_ <-].
  - change (zlen ([] ≫= cons 47)) with 0. change (zlen ([] : list (list Z))) with 0. lia.
  - destruct (items_kids b R _ _ _ _ Hi Hg1 k Hk) as (ek & Hkn & Hkg & ? & ? & ? & ?). pose proof Hkn as (ok & Hkt & Hka & _). pose proof (IH ek ok Hkg Hkn Hkt). pose proof (name_room k ok Hkg Hkt Hka).
    rewrite bind_cons, zlen_app, !zlen_cons. lia.
Qed.

Lemma path_small s l : path_to s l t -> zlen (l ≫= cons 47) + zlen l + 4 <= hv b 36.
Proof.
  intros Hp. destruct Ht as (_ & H0 & e & _ & Hn & _). assert (at_tag (d_off t)) as Hg by (by rewrite H0). destruct (node_range b R t e Hg Hn) as (o1 & Htk & Hi & Hg1 & _ & ? & ? & ? & _).
  pose proof (path_room s l t Hp e o1 Hg Hn Htk). pose proof (items_end_in b (rw_stable b Hr) _ _ _ _ Hi Hg1). lia.
Qed.

Lemma path_len_loop_ok l : forall s fuel len, path_to s l t -> (length l < fuel)%nat -> 0 <= len -> len + zlen (l ≫= cons 47) < 2 ^ 31 ->
  path_len_loop fuel b (d_off s) len = Some (if len + zlen (l ≫= cons 47) =? 0 then 1 else len + zlen (l ≫= cons 47)).
Proof.
  pose proof Ht as (_ & H0 & e & _ & Hn & _). assert (at_tag (d_off t)) as Hg by (by rewrite H0).
  induction l as [|n l IH] using rev_ind; intros s fuel len Hp Hf Hl Hbd; (destruct fuel as [|fuel]; [lia|]); cbn [path_len_loop].
  - inversion Hp; subst. destruct (node_range b R _ e Hg Hn) as (o1 & Htk & _). pose proof Hn as (_ & _ & Hna & _). rewrite (get_name_tree b R _ _ _ Hg Htk Hna), Hroot. cbn [mbind option_bind Z.eqb zlen length Z.of_nat]. change (zlen ([] ≫= cons 47)) with 0. by rewrite Z.add_0_r.
  - destruct (path_snoc s n l t Hp) as (p & Hpp & Hnm & Hu). pose proof (path_to_plain s _ t Hp Hpl) as Hpn. apply Forall_app in Hpn as [_ Hpn]. apply Forall_inv in Hpn as [Hne _].
    assert (within s t) as Hw by (clear -Hp; induction Hp; [constructor|by eapply within_kid]). destruct (within_at b R t e s Hg Hn Hw) as (es & Hsg & Hsn). destruct (node_range b R s es Hsg Hsn) as (o1 & Htk & _). pose proof Hsn as (_ & _ & Hna & _).
    rewrite (get_name_tree b R _ _ _ Hsg Htk Hna), Hnm. cbn [mbind option_bind]. pose proof (zlen_nonneg n). rewrite bind_app, zlen_app in *. cbn [mbind list_bind] in *. rewrite app_nil_r, zlen_cons in *. pose proof (zlen_nonneg (l ≫= cons 47)).
    destruct (Z.eqb_spec (zlen n) 0) as [E0|_]; [destruct n; [done|rewrite zlen_cons in E0; pose proof (zlen_nonneg n); lia]|]. rewrite (parent_tree b R t e s p (zlen l) H0 Hn Hu). cbn [mbind option_bind].
    destruct (path_to_range b R p l t Hpp e Hg Hn) as (? & _ & _). destruct (Z.ltb_spec (d_off p) 0); [lia|]. rewrite sw_small by (unfold is_sw; lia). rewrite length_app in Hf. cbn [length] in Hf. rewrite (IH p fuel (len + (zlen n + 1)) Hpp) by lia.
    replace (len + (zlen n + 1) + zlen (l ≫= cons 47)) with (len + (zlen (l ≫= cons 47) + (1 + zlen n))) by lia. done.
Qed.

Lemma get_path_len_ok s l : path_to s l t -> get_path_len b (d_off s) = Some (zlen (path_text l)).
Proof.
  intros Hp. pose proof (path_small s l Hp) as Hsm. pose proof (rw_bounds b Hr). unfold get_path_len. rewrite (probe_tot b R). cbn [mbind option_bind]. destruct (Z.ltb_spec (hv b 4) 0); [lia|]. pose proof (zlen_nonneg (l ≫= cons 47)).
  rewrite (path_len_loop_ok l s _ 0 Hp) by (unfold blob_fuel, zlen in *; lia). rewrite Z.add_0_l. destruct l as [|n l]; [done|]. unfold path_text. destruct (Z.eqb_spec (zlen ((n :: l) ≫= cons 47)) 0) as [E|]; [|done]. rewrite bind_cons, zlen_app, zlen_cons in E. pose proof (zlen_nonneg n). pose proof (zlen_nonneg (l ≫= cons 47)). lia.
Qed.
End Length.

(** ** The value of a symbol *)
Definition join (path rel : list Z) : list Z := (if 1 <? zlen path then path ++ [47] else [47]) ++ rel ++ [0].

Lemma zlen_join path rel : 1 <= zlen path -> zlen (join path rel) = zlen path + b2z (1 <? zlen path) + zlen rel + 1.
Proof. intros H. unfold join. destruct (Z.ltb_spec 1 (zlen path)); rewrite !zlen_app; change (zlen [0]) with 1; change (zlen [47]) with 1; cbn [b2z]; lia. Qed.

(** Writing part of the memory. *)
Lemma wr_mid base x w y l : zlen l = zlen w -> wr (zlen x) l (Region base (x ++ w ++ y)) = Some (tt, Region base (x ++ l ++ y)).
Proof. intros E. unfold wr. cbn [r_bytes r_base]. by rewrite wrn_mid. Qed.

Lemma write_symbol_text p path rel target b : 1 <= zlen path -> 0 <= p -> p + zlen (join path rel) <= zlen (r_bytes b) ->
  exists b', wr p (join path rel) b = Some (tt, b') /\ write_symbol p (zlen path) target (Some path) rel b = Some (0, b').
Proof.
  intros Hl Hp Hz. destruct b as [base m]. cbn [r_bytes] in Hz. destruct (list_around m p (zlen (join path rel))) as (x & w & y & -> & Lx & Lw); [done|apply zlen_nonneg|done|]. subst p. eexists. split; [by apply wr_mid|].
  unfold write_symbol, mbind, M_bind. rewrite (zlen_join path rel Hl) in Lw. unfold join. pose proof (zlen_nonneg rel). destruct (Z.ltb_spec 1 (zlen path)) as [H1|H1]; cbn [b2z] in Lw.
  - destruct (list_around w 0 (zlen path + 1)) as (w0 & w1 & w2 & -> & L0 & L1); [lia..|]. destruct w0; [|rewrite zlen_cons in L0; pose proof (zlen_nonneg w0); lia]. cbn [app] in *. rewrite zlen_app in Lw. destruct (list_around w2 0 (zlen rel)) as (w0 & w3 & w4 & -> & L0' & L3); [lia..|].
    destruct w0; [|rewrite zlen_cons in L0'; pose proof (zlen_nonneg w0); lia]. cbn [app] in *. rewrite zlen_app in Lw. rewrite <- !app_assoc. rewrite (wr_mid base x w1 _ (path ++ [0])) by (rewrite zlen_app; change (zlen [0]) with 1; lia). unfold mret, M_ret. cbn [Z.ltb Z.compare].
    rewrite <- !app_assoc. rewrite (app_assoc x path), <- zlen_app. rewrite (wr_mid base (x ++ path) [0] _ [47]) by done. rewrite (app_assoc (x ++ path) [47]). replace (zlen (x ++ path) + 1) with (zlen ((x ++ path) ++ [47])) by (rewrite zlen_app; done).
    rewrite (wr_mid base ((x ++ path) ++ [47]) w3 _ rel) by lia. rewrite (app_assoc ((x ++ path) ++ [47]) rel), <- zlen_app. rewrite (wr_mid base (((x ++ path) ++ [47]) ++ rel) w4 _ [0]) by (change (zlen [0]) with 1; lia). by rewrite <- !app_assoc.
  - unfold mret, M_ret. cbn [Z.ltb Z.compare]. replace (zlen path - 1) with 0 by lia. rewrite Z.add_0_r. destruct w as [|c w]; [rewrite zlen_nil in Lw; lia|]. rewrite zlen_cons in Lw. destruct (list_around w 0 (zlen rel)) as (w0 & w3 & w4 & -> & L0' & L3); [lia..|].
    destruct w0; [|rewrite zlen_cons in L0'; pose proof (zlen_nonneg w0); lia]. cbn [app] in *. rewrite zlen_app in Lw. rewrite <- !app_assoc. change (x ++ c :: w3 ++ w4 ++ y) with (x ++ [c] ++ w3 ++ w4 ++ y). rewrite (wr_mid base x [c] _ [47]) by done.
    rewrite (app_assoc x [47]). replace (zlen x + 1) with (zlen (x ++ [47])) by (rewrite zlen_app; done). rewrite (wr_mid base (x ++ [47]) w3 _ rel) by lia. rewrite (app_assoc (x ++ [47]) rel), <- zlen_app. rewrite (wr_mid base ((x ++ [47]) ++ rel) w4 _ [0]) by (change (zlen [0]) with 1; lia). cbn [app]. by rewrite <- !app_assoc.
Qed.

Lemma write_symbol_found p path rel target b buf : (1 < zlen path -> rdn (r_bytes b) p (zlen path + 1) = Some buf /\ fdt_get_path b target buf (zlen path + 1) = Some (0, path ++ [0])) ->
  write_symbol p (zlen path) target None rel b = write_symbol p (zlen path) target (Some path) rel b.
Proof.
  intros H. unfold write_symbol. destruct (Z.ltb_spec 1 (zlen path)) as [H1|H1]; [|done]. destruct (H H1) as [E1 E2]. unfold mbind at 1 3, M_bind at 1 4. unfold mbind at 1, M_bind at 1. unfold rd. rewrite E1. cbn [mbind option_bind]. by rewrite E2.
Qed.

(** ** Kids by name *)
Lemma find_split {A} (P : A -> bool) l x : List.find P l = Some x -> exists l1 l2, l = l1 ++ x :: l2 /\ P x = true /\ Forall (fun y => P y = false) l1.
Proof.
  induction l as [|y l IH]; [done|]. cbn [List.find]. destruct (P y) eqn:E; [intros [= ->]; exists [], l; split_and!; [done|done|constructor]|]. intros H. destruct (IH H) as (l1 & l2 & -> & Hx & Hl). exists (y :: l1), l2. split_and!; [done|done|by constructor].
Qed.
Lemma find_app {A} (P : A -> bool) l1 x l2 : P x = true -> Forall (fun y => P y = false) l1 -> List.find P (l1 ++ x :: l2) = Some x.
Proof. intros Hx. induction 1 as [|y l1 Hy _ IH]; cbn [app List.find]; [by rewrite Hx|by rewrite Hy]. Qed.

Lemma change_kid_at name f l1 x l2 : name_matches (s_name x) name = true -> Forall (fun y => name_matches (s_name y) name = false) l1 ->
  change_kid name (fun k => inl (f k)) (l1 ++ x :: l2) = inl (l1 ++ f x :: l2).
Proof. intros Hx. induction 1 as [|y l1 Hy _ IH]; cbn [app change_kid]; [by rewrite Hx|by rewrite Hy, IH]. Qed.

Lemma name_matches_refl n : name_matches n n = true.
Proof. unfold name_matches. by rewrite bool_decide_eq_true_2. Qed.

(** Two changes of the same sub-node. *)
Lemma into_kid_twice name f g x : (forall z, s_name (g z) = s_name z) -> into_kid name f (into_kid name g x) = into_kid name (fun z => f (g z)) x.
Proof.
  intros Hg. destruct x as [n ps ks]. cbn [into_kid]. f_equal.
  assert (match change_kid name (fun k => inl (g k)) ks with
    | inl ks' => exists ks2, change_kid name (fun k => inl (f k)) ks' = inl ks2 /\ change_kid name (fun k => inl (f (g k))) ks = inl ks2
    | inr _ => exists err, change_kid name (fun k => inl (f (g k))) ks = inr err end) as H.
  { induction ks as [|k ks IH]; cbn [change_kid]; [by eexists|]. destruct (name_matches (s_name k) name) eqn:E.
    - eexists. cbn [change_kid]. rewrite Hg, E. by split.
    - destruct (change_kid name (fun k => inl (g k)) ks) as [ks'|]; [|by destruct IH as (err & ->); eexists]. destruct IH as (ks2 & E1 & E2). eexists. cbn [change_kid]. rewrite E, E1, E2. by split. }
  destruct (change_kid name (fun k => inl (g k)) ks) as [ks'|].
  - destruct H as (ks2 & -> & ->). done.
  - destruct H as (err & ->). cbn [change_kid]. by rewrite Hg, name_matches_refl.
Qed.

(** The sub-node a name stands for, with its siblings as its context. *)
Lemma kid_frame name t k : find_kid name (d_kids t) = Some k -> exists f, sits k t [f] /\ (forall h, into_kid name h (erase t) = plug1 (h (erase k)) f) /\
  forall t' k', sits k' t' [f] -> d_name k' = d_name k -> find_kid name (d_kids t') = Some k'.
Proof.
  intros H. destruct (find_split _ _ _ H) as (k1 & k2 & E & Hk & H1). eexists. split; [apply (sits_child t t [] k1 k k2); [constructor|exact E]|]. split.
  - intros h. destruct t as [o n ps ks]. cbn [d_kids d_name d_props] in *. subst ks. cbn [erase into_kid]. change (fun p : pitem => (p_name p, p_val p)) with pv. rewrite fmap_app, fmap_cons, change_kid_at; [done|by rewrite s_name_erase|].
    apply Forall_fmap. eapply Forall_impl; [exact H1|]. intros y Hy. cbn. by rewrite s_name_erase.
  - intros t' k' Hs En. destruct (sits_parent _ _ _ _ Hs) as (p & l1 & l2 & Hp & _ & _ & _ & El & Ef & _). inversion Hp as [|? ? ? ? ? ? G ? E1 E2]; subst; [|by destruct G]. rewrite El. unfold find_kid. apply find_app; [by rewrite En|].
    cbn [f_left] in Ef. assert (forall l l' : list dt, erase <$> l = erase <$> l' -> Forall (fun y => name_matches (d_name y) name = false) l' -> Forall (fun y => name_matches (d_name y) name = false) l) as Hn.
    { clear. induction l as [|x l IH]; intros [|x' l'] E; try done. rewrite !fmap_cons in E. injection E as E1 E2. intros [Hx Hl]%Forall_cons. constructor; [|by eapply IH]. by rewrite <- s_name_erase, E1, s_name_erase. }
    by eapply Hn.
Qed.

(** ** Shapes under changes *)

(** Properties other than phandles do not show in the shape. *)
Definition no_phandle (name : list Z) : Prop := name <> byte_list "phandle" /\ name <> byte_list "linux,phandle".

Lemma cell_of_set name val n x : n <> name -> let 'SNode _ ps _ := x in let 'SNode _ ps' _ := set_prop name val x in cell_of n ps' = cell_of n ps.
Proof.
  intros Hn. destruct x as [sn ps ks]. unfold set_prop, change_prop. assert (forall ps, List.find (fun p => bool_decide (p.1 = n)) (upd_prop name (fun _ => val) ps) = List.find (fun p => bool_decide (p.1 = n)) ps) as Hu.
  { clear -Hn. induction ps as [|[m v] ps IH]; [done|]. cbn [upd_prop]. case_bool_decide as E.
    - subst m. cbn [List.find fst]. by rewrite bool_decide_eq_false_2 by congruence.
    - cbn [List.find fst]. by rewrite IH. }
  unfold cell_of. destruct (has_prop name ps); [by rewrite Hu|]. cbn [List.find fst]. by rewrite bool_decide_eq_false_2 by congruence.
Qed.

Lemma shape_set name val x : no_phandle name -> shape_of (set_prop name val x) = shape_of x.
Proof.
  intros [H1 H2]. pose proof (cell_of_set name val (byte_list "phandle") x ltac:(congruence)) as E1. pose proof (cell_of_set name val (byte_list "linux,phandle") x ltac:(congruence)) as E2. destruct x as [n ps ks]. unfold set_prop, change_prop in *. cbn [shape_of]. unfold phandle_of. by rewrite E1, E2.
Qed.
Lemma shape_plug x y f : shape_of x = shape_of y -> shape_of (plug1 x f) = shape_of (plug1 y f).
Proof. intros E. unfold plug1. cbn [shape_of]. by rewrite !fmap_app, !fmap_cons, E. Qed.
Lemma name_set name val x : s_name (set_prop name val x) = s_name x.
Proof. by destruct x. Qed.
Lemma name_merge_props ps : forall x, s_name (merge_props ps x) = s_name x.
Proof. induction ps as [|p ps IH]; intros x; [done|]. unfold merge_props in *. cbn [fold_left]. by rewrite IH, name_set. Qed.

(** Names without slashes. *)
Fixpoint plain_shape (h : shape) : Prop := let 'Shape _ _ ks := h in foldr (fun k P => (plain (h_name k) /\ plain_shape k) /\ P) True ks.
Lemma plain_of_shape t : plain_shape (shape_of (erase t)) <-> plain_tree t.
Proof.
  induction t as [o n ps ks IH] using dt_ind'. cbn [erase shape_of plain_shape plain_tree]. induction IH as [|k ks Hk _ IHk]; [done|]. rewrite !fmap_cons. cbn [foldr]. by rewrite shape_name, Hk, IHk.
Qed.

(** ** One symbol *)
Abbreviation symbols_name := (byte_list "__symbols__").

(** The value a symbol gets in the base tree; [None] when it names nothing there. *)
Definition symbol_value (u : dt) (v : list Z) (h : shape) : option (list Z) + Z :=
  match symbol_of v with
  | SymBad err => inr err
  | SymSkip => inl None
  | SymIn frag rel =>
      match find_kid frag (d_kids u) with
      | None => inr (- FDT_ERR_BADOVERLAY)
      | Some g =>
          match overlay_of g with
          | None => inr (- FDT_ERR_BADOVERLAY)
          | Some _ => match target_path g h with inl path => inl (Some (join path rel)) | inr err => inr err end
          end
      end
  end.

Lemma symbol_rel v frag rel : symbol_of v = SymIn frag rel -> zlen rel + 2 <= zlen v /\ (Forall is_byte v -> Forall is_byte rel).
Proof.
  unfold symbol_of. pose proof (cut_spec 0 v) as Hc. destruct (cut 0 v) as [[a r]|]; [|done]. destruct Hc as [-> _]. destruct a as [|c a]; [done|]. destruct (Z.eq_dec c 47) as [->|Hc]; [|destruct c as [|q|q]; try done; do 6 (destruct q as [q|q|]; try done)].
  destruct r; [|done]. pose proof (cut_spec 47 a) as Ha. destruct (cut 47 a) as [[f r]|]; [|done]. destruct Ha as [-> _]. pose proof (zlen_nonneg f). pose proof (zlen_nonneg r).
  assert (zlen (drop 12 r) <= zlen r) by (unfold zlen; rewrite length_drop; lia). rewrite zlen_app, zlen_cons, zlen_app, zlen_cons. change (zlen [0]) with 1.
  case_bool_decide; [intros [= <- <-]; split; [rewrite zlen_nil; lia|constructor]|]. case_bool_decide; [|done]. intros [= <- <-]. split; [lia|]. rewrite Forall_app, Forall_cons, Forall_app, Forall_cons. intros [(_ & _ & _ & Hr) _]. by apply Forall_drop.
Qed.

Lemma wr_same p n l b : rdn (r_bytes b) p n = Some l -> wr p l b = Some (tt, b).
Proof.
  intros E. pose proof (rdn_inv _ _ _ _ E) as (H1 & H2 & H3 & L & _). destruct b as [base m]. cbn [r_bytes] in *. destruct (list_around m p n) as (x & w & y & -> & Lx & Lw); [done..|]. rewrite <- Lx, <- Lw, rdn_mid in E. injection E as ->. subst p. by apply wr_mid.
Qed.

Section Symbols.
  Context (o : region) (Ho : stable o) (u : dt) (Hu : holds o u) (Hsz : hv o 4 < 2 ^ 29) (Hff : Forall frag_fine (d_kids u)).
  Context (tot : Z) (h : shape) (off : Z) (Htot : tot < 2 ^ 29) (Hroot : h_name h = []) (Hpl : plain_shape h).
  Local Abbreviation R := (sb_read _ Ho).

(** The base tree [x] while symbols are added, of the shape [h]. *)
Definition sym_state (bound : Z) (x : stree) (b : region) : Prop :=
  rw_ready b /\ hv b 4 = tot /\ used b <= bound /\ exists t k, holds b t /\ find_kid symbols_name (d_kids t) = Some k /\ d_off k = off /\ erase t = x /\ shape_of x = h.

(** Writing a property of "__symbols__". *)
Lemma sym_set b t k f name val need b' : rw_ready b -> hv b 4 = tot -> find_kid symbols_name (d_kids t) = Some k -> d_off k = off -> shape_of (erase t) = h -> no_phandle name ->
  sits k t [f] -> (forall h, into_kid symbols_name h (erase t) = plug1 (h (erase k)) f) -> (forall t' k', sits k' t' [f] -> d_name k' = d_name k -> find_kid symbols_name (d_kids t') = Some k') ->
  result b t k [f] need (fun x y => erase y = set_prop name val (erase x)) 0 0 b' -> sym_state (used b + need) (into_kid symbols_name (set_prop name val) (erase t)) b'.
Proof.
  intros Hr H4 Hk Ho' Hsh Hnp Hs Hinto Hfind [R1 R2 _ R4]. destruct R4 as [(_ & Hu' & t' & k' & Ht' & Hs' & Eo & Es)|[? _]]; [|done]. split_and!; [done|by rewrite R2|done|]. exists t', k'.
  assert (d_name k' = d_name k) as En by (by rewrite <- !s_name_erase, Es, name_set). pose proof (erase_plug _ _ _ Hs') as Et'. pose proof (erase_plug _ _ _ Hs) as Et. cbn [plug fold_left] in Et, Et'. rewrite Hinto.
  split_and!; [done|by apply Hfind|congruence|by rewrite Et', Es|]. rewrite <- Hsh, Et. by apply shape_plug, shape_set.
Qed.

(** The target of a fragment, with its path, in a tree of the shape [h]. *)
Lemma find_named b t g fuel : rw_ready b -> holds b t -> shape_of (erase t) = h -> g ∈ d_kids u -> exists path, match target_path g h with
  | inr err => err < 0 /\ fdt_overlay_target_offset (S fuel) b o (d_off g) = Some (err, path)
  | inl x => exists s, 0 <= d_off s /\ fdt_overlay_target_offset (S fuel) b o (d_off g) = Some (d_off s, path) /\
      match target_text g with
      | Some y => y = x /\ hd 0 x = 47 /\ exists q, path = Some q /\ cstr (r_bytes o) q = Some x
      | None => path = None /\ exists l, path_to s l t /\ x = path_text l
      end
  end.
Proof.
  intros Hr Ht Hsh Hg. rewrite Forall_forall in Hff. pose proof (Hff g Hg) as Hf. destruct (target_offset_ok b o (rw_read _ Hr) t u g Ht Hu ltac:(eapply within_kid; [exact Hg|constructor]) Hf fuel) as (path & E & Hp). exists path.
  pose proof (target_path_find g t Hf) as Hn. rewrite Hsh in Hn. destruct (find_target g t) as [s|err]; [|by rewrite Hn]. destruct Hn as (x & -> & Hx). exists s. destruct Hp as [H0 Hp]. split_and!; [done|done|]. destruct (target_text g) as [y|]; [|done]. destruct Hx as [-> Hx]. by split_and!.
Qed.

(** The paths of targets are short. *)
Lemma named_small g x : g ∈ d_kids u -> target_text g = Some x -> zlen x < 2 ^ 29.
Proof.
  intros Hg Hx. assert (path_string g = Some x) as Hs by (unfold target_text in Hx; repeat case_match; done). unfold path_string in Hs. destruct (find_prop _ _) as [p|] eqn:Ep; [|done]. cbn [mbind option_bind] in Hs.
  pose proof Hu as (_ & H0 & e & _ & Hn & _). assert (at_tag (d_off u)) as Hgu by (by rewrite H0). destruct (kid_at o R _ _ _ Hgu Hn Hg) as (eg & Hgn & Hgg & _). apply List.find_some in Ep as [Hin%list_elem_of_In _].
  destruct (located_prop o Ho g eg p Hgg Hgn Hin) as (_ & _ & _ & _ & Hl). apply to_nul_inv in Hs as [_ [r Er]]. rewrite Er, zlen_app, zlen_cons in Hl. pose proof (zlen_nonneg r). lia.
Qed.

(** The path of the target is written when it is looked up again. *)
Lemma write_found b t s l rel p : rw_ready b -> holds b t -> shape_of (erase t) = h -> path_to s l t -> 0 <= p -> p + zlen (join (path_text l) rel) <= zlen (r_bytes b) ->
  write_symbol p (zlen (path_text l)) (d_off s) None rel b = write_symbol p (zlen (path_text l)) (d_off s) (Some (path_text l)) rel b.
Proof.
  intros Hr Ht Hsh Hl Hp Hz. assert (d_name t = []) as Hn by (by rewrite <- shape_name, Hsh). assert (plain_tree t) as Hpt by (by apply plain_of_shape; rewrite Hsh). pose proof (zlen_path_text l (path_to_plain s l t Hl Hpt)) as [Hl1 _].
  set (x := path_text l) in *. assert (exists buf, rdn (r_bytes b) p (zlen x + 1) = Some buf /\ zlen buf = zlen x + 1) as (buf & Eb & Lb).
  { rewrite zlen_join in Hz by lia. pose proof (zlen_nonneg rel). assert (0 <= b2z (1 <? zlen x)) by (destruct (1 <? zlen x); done). rewrite rdn_Some by lia. eexists. split; [done|]. unfold zlen in *. rewrite length_take, length_drop. lia. }
  apply write_symbol_found with (buf := buf). intros _. split; [done|]. destruct (get_path_ok b (rw_read _ Hr) t Ht Hn Hpt s l (zlen x + 1) buf Hl ltac:(lia)) as (ret & buf' & E & Lb' & Hres). fold x in Hres. destruct (Z.leb_spec (zlen x + 1) (zlen x + 1)); [|lia]. destruct Hres as [-> (rest & ->)].
  rewrite Lb, zlen_app, zlen_cons in Lb'. destruct rest; [done|]. rewrite zlen_cons in Lb'. pose proof (zlen_nonneg rest). lia.
Qed.

Lemma value_small x rel : 1 <= zlen x < 2 ^ 29 -> zlen rel + 2 < 2 ^ 29 -> s32 (zlen x + b2z (1 <? zlen x) + zlen rel + 1) = zlen (join x rel) /\ 0 <= zlen (join x rel) < 2 ^ 30.
Proof. intros Hx Hr. rewrite zlen_join by lia. assert (0 <= b2z (1 <? zlen x) <= 1) by (destruct (1 <? zlen x); done). pose proof (zlen_nonneg rel). rewrite sw_small by (unfold is_sw; lia). split; [done|lia]. Qed.

Lemma hd_slash x : hd 0 x = 47 -> 1 <= zlen x.
Proof. destruct x as [|c x]; [done|]. intros _. rewrite zlen_cons. pose proof (zlen_nonneg x). lia. Qed.

Lemma cstr_bytes b p x : rw_ready b \/ stable b -> cstr (r_bytes b) p = Some x -> Forall is_byte x.
Proof.
  intros Hb Hc. assert (Forall is_byte (r_bytes b)) as Hm by (destruct Hb as [H|H]; [apply (bo_bytes _ (rb_ok _ (rw_read _ H)))|apply (bo_bytes _ (rb_ok _ (sb_read _ H)))]).
  unfold cstr in Hc. destruct (p <? 0); [done|]. apply to_nul_inv in Hc as [_ [r E]]. apply (Forall_drop _ (Z.to_nat p)) in Hm. rewrite E in Hm. by apply Forall_app in Hm as [? _].
Qed.

Lemma join_bytes x rel : Forall is_byte x -> Forall is_byte rel -> Forall is_byte (join x rel).
Proof. intros Hx Hr. unfold join. destruct (1 <? zlen x); rewrite !Forall_app; split_and!; try done; by repeat constructor. Qed.

(** Steps of a computation on the two blobs. *)
Lemma bind_step {St A B} (f : M St A) (g : A -> M St B) s a s' : f s = Some (a, s') -> (f ≫= g) s = g a s'.
Proof. intros E. unfold mbind, M_bind. by rewrite E. Qed.
Lemma read_overlay {A} (f : region -> option A) b a : f o = Some a -> on_fdto (rd f) (b, o) = Some (a, (b, o)).
Proof. intros E. unfold on_fdto, rd. cbn [fst snd]. rewrite E. done. Qed.
Lemma lift_step {St A} (x : option A) (s : St) a : x = Some a -> lift x s = Some (a, s).
Proof. by intros ->. Qed.

(** From the target on: the place for the value, and the value. *)
Lemma insert_symbol_ok b t k name g x rel fuel bound : rw_ready b -> hv b 4 = tot -> used b <= bound -> holds b t -> find_kid symbols_name (d_kids t) = Some k -> d_off k = off -> shape_of (erase t) = h ->
  text name -> zlen name < 2 ^ 30 -> no_phandle name -> g ∈ d_kids u -> target_path g h = inl x -> zlen rel + 2 < 2 ^ 29 -> Forall is_byte rel ->
  exists rc b', (s ← get;
     t ← lift (fdt_overlay_target_offset (S fuel) s.1 s.2 (d_off g));
     let '(target, target_path) := (t : Z * option Z) in
     if target <? 0 then mret target
     else
       path ← lift (match target_path with Some tp => Some <$> cstr (r_bytes s.2) tp | None => Some None end);
       len ← lift (match path with Some p => Some (zlen p) | None => get_path_len s.1 target end);
       if len <? 0 then mret len
       else
         r ← on_fdt (fdt_setprop_placeholder off name (s32 (len + b2z (1 <? len) + zlen rel + 1)));
         match (r : Z * option Z) with
         | (0, Some p) =>
             t ← (match path with
                  | Some _ => mret (target, path)
                  | None =>
                      s ← get;
                      t ← lift (fdt_overlay_target_offset (S fuel) s.1 s.2 (d_off g));
                      path ← lift (match (t : Z * option Z).2 with Some tp => Some <$> cstr (r_bytes s.2) tp | None => Some None end);
                      mret (t.1, path)
                  end);
             let '(target, path) := (t : Z * option (list Z)) in
             if target <? 0 then mret target else on_fdt (write_symbol p len target path rel)
         | (ret, _) => mret ret
         end) (b, o) = Some (rc, (b', o)) /\
    ((rc = 0 /\ sym_state (bound + prop_need (name, join x rel)) (into_kid symbols_name (set_prop name (join x rel)) (erase t)) b') \/
     (rc = - FDT_ERR_NOSPACE /\ tot < bound + prop_need (name, join x rel) /\ rw_ready b')).
Proof.
  intros Hr H4 Hbd Ht Hk Hoff Hsh Hnt Hnl Hnp Hg Hx Hrel Hrb. destruct (kid_frame symbols_name t k Hk) as (f & Hs & Hinto & Hfind).
  assert (1 <= zlen x < 2 ^ 29 /\ Forall is_byte x /\ exists s path, 0 <= d_off s /\ fdt_overlay_target_offset (S fuel) b o (d_off g) = Some (d_off s, path) /\
    (match path with Some tp => Some <$> cstr (r_bytes o) tp | None => Some None end) = Some (match target_text g with Some _ => Some x | None => None end) /\
    (match target_text g with Some _ => Some (zlen x) | None => get_path_len b (d_off s) end) = Some (zlen x)) as (Hx1 & Hxb & s & path & Hs0 & Et & Ep & El).
  { destruct (find_named b t g fuel Hr Ht Hsh Hg) as (path & Hn). rewrite Hx in Hn. destruct Hn as (s & Hs0 & Et & Hn). destruct (target_text g) as [y|] eqn:Ey.
    - destruct Hn as (-> & H47 & q & -> & Hq). pose proof (named_small g x Hg Ey). pose proof (hd_slash x H47). split_and!; [lia|lia|eapply cstr_bytes; [by right|exact Hq]|]. exists s, (Some q). split_and!; [done|done|by rewrite Hq|done].
    - destruct Hn as (-> & l & Hl & ->). assert (d_name t = []) as Hn by (by rewrite <- shape_name, Hsh). assert (plain_tree t) as Hpt by (by apply plain_of_shape; rewrite Hsh). pose proof (path_small b Hr t Ht s l Hl). pose proof (rw_bounds b Hr).
      pose proof (zlen_path_text l (path_to_plain s l t Hl Hpt)) as [Hl1 _]. assert (zlen (path_text l) < 2 ^ 29) as Hl2 by (unfold path_text; destruct l; [done|]; pose proof (zlen_nonneg (l :: l0)); unfold used in *; lia). split_and!; [lia|done| |].
      + apply (Forall_impl (fun c => c <> 0 /\ is_byte c)); [|by intros c []]. apply (path_text_text (fun c => c <> 0 /\ is_byte c)); [done|exact (path_to_names b (rw_read _ Hr) t Ht s l Hl)].
      + exists s, None. split_and!; [done|done|done|by apply (get_path_len_ok b Hr t Ht Hn Hpt s l)]. }
  destruct (value_small x rel Hx1 Hrel) as [E32 Hlen]. rewrite (bind_step get _ _ _ _ eq_refl). cbn [fst snd]. rewrite (bind_step _ _ _ _ _ (lift_step _ _ _ Et)). cbv match beta. destruct (Z.ltb_spec (d_off s) 0); [lia|].
  rewrite (bind_step _ _ _ _ _ (lift_step _ _ _ Ep)). assert (match (match target_text g with Some _ => Some x | None => None end) with Some p => Some (zlen p) | None => get_path_len b (d_off s) end = Some (zlen x)) as El' by (by destruct (target_text g)).
  rewrite (bind_step _ _ _ _ _ (lift_step _ _ _ El')). destruct (Z.ltb_spec (zlen x) 0); [lia|]. rewrite E32. destruct (placeholder_ok b Hr t k [f] Ht Hs name (zlen (join x rel)) Hnt Hnl Hlen) as (rc & pp & b1 & Epl & Hpl1). rewrite Hoff in Epl.
  assert (on_fdt (fdt_setprop_placeholder off name (zlen (join x rel))) (b, o) = Some ((rc, pp), (b1, o))) as Epl' by (unfold on_fdt; cbn [fst snd]; by rewrite Epl). rewrite (bind_step _ _ _ _ _ Epl'). destruct Hpl1 as [(-> & Hres)|(-> & p & -> & Hp & Hpz & Hby & Hw)].
  - cbn. do 2 eexists. split; [done|]. right. destruct (Hres (fun _ _ => True)) as [R1 R2 _ [[? _]|(_ & Hlt & _)]]; [done|]. split_and!; [done|unfold prop_need; cbn [fst snd]; lia|done].
  - destruct (Hw (join x rel) eq_refl (join_bytes _ _ Hxb Hrb)) as (b3 & Ew & Hres). assert (exists s', 0 <= d_off s' /\ (match (match target_text g with Some _ => Some x | None => None end) with
        | Some _ => mret (d_off s, match target_text g with Some _ => Some x | None => None end)
        | None =>
            s ← get;
            t ← lift (fdt_overlay_target_offset (S fuel) s.1 s.2 (d_off g));
            path ← lift (match (t : Z * option Z).2 with Some tp => Some <$> cstr (r_bytes s.2) tp | None => Some None end);
            mret (t.1, path)
        end) (b1, o) = Some ((d_off s', match target_text g with Some _ => Some x | None => None end), (b1, o)) /\
        write_symbol p (zlen x) (d_off s') (match target_text g with Some _ => Some x | None => None end) rel b1 = Some (0, b3)) as (s' & Hs0' & Eag & Ewr).
    { destruct (write_symbol_text p x rel (d_off s) b1 ltac:(lia) Hp Hpz) as (b3' & Ew' & Ewt). rewrite Ew in Ew'. injection Ew' as <-. destruct (target_text g) as [y|] eqn:Ey; [by exists s|].
      destruct (rdn (r_bytes b1) p (zlen (join x rel))) as [val|] eqn:Ev; [|by rewrite rdn_Some in Ev by lia]. pose proof (rdn_inv _ _ _ _ Ev) as (_ & _ & _ & Lv & _). destruct (Hw val ltac:(done) ltac:(by eapply Forall_rdn)) as (b1' & Ew1 & Hres1). rewrite (wr_same _ _ _ _ Ev) in Ew1. injection Ew1 as <-.
      destruct (sym_set b t k f name val _ b1 Hr H4 Hk Hoff Hsh Hnp Hs Hinto Hfind Hres1) as (Hr1 & _ & _ & t1 & k1 & Ht1 & _ & _ & Et1 & Hsh1). rewrite <- Et1 in Hsh1.
      destruct (find_named b1 t1 g fuel Hr1 Ht1 Hsh1 Hg) as (path1 & Hn1). rewrite Hx, Ey in Hn1. destruct Hn1 as (s1 & Hs1 & Et1' & -> & l1 & Hl1 & ->). exists s1. split; [done|]. split.
      - rewrite (bind_step get _ _ _ _ eq_refl). cbn [fst snd]. rewrite (bind_step _ _ _ _ _ (lift_step _ _ _ Et1')). done.
      - rewrite (write_found b1 t1 s1 l1 rel p Hr1 Ht1 Hsh1 Hl1 Hp ltac:(lia)). destruct (write_symbol_text p (path_text l1) rel (d_off s1) b1 ltac:(lia) Hp Hpz) as (b3' & Ew' & ->). rewrite Ew in Ew'. by injection Ew' as <-. }
    rewrite (bind_step _ _ _ _ _ Eag). cbv match beta. destruct (Z.ltb_spec (d_off s') 0); [lia|]. unfold on_fdt. cbn [fst snd]. rewrite Ewr. do 2 eexists. split; [done|]. left. split; [done|].
    destruct (sym_set b t k f name (join x rel) _ b3 Hr H4 Hk Hoff Hsh Hnp Hs Hinto Hfind Hres) as (Q1 & Q2 & Q3 & Q4). split_and!; [done|done|lia|done].
Qed.

Lemma symbol_bad v err : symbol_of v = SymBad err -> err < 0.
Proof. unfold symbol_of. intros H. repeat case_match; simplify_eq; done. Qed.

(** What becomes of the base tree by one symbol. *)
Definition sym_step (bound : Z) (x : stree) (b : region) (name : list Z) (r : option (list Z) + Z) (rc : Z) (b' : region) : Prop :=
  match r with
  | inr err => rc = err /\ err < 0 /\ b' = b
  | inl None => rc = 0 /\ b' = b
  | inl (Some v) =>
      (rc = 0 /\ sym_state (bound + prop_need (name, v)) (into_kid symbols_name (set_prop name v) x) b') \/ (rc = - FDT_ERR_NOSPACE /\ tot < bound + prop_need (name, v) /\ rw_ready b')
  end.

Lemma update_symbol_ok y e p bound x b fuel : at_tag (d_off y) -> node_at o y e -> p ∈ d_props y -> no_phandle (p_name p) -> sym_state bound x b ->
  exists rc b', update_symbol (S fuel) off (p_off p) (b, o) = Some (rc, (b', o)) /\ sym_step bound x b (p_name p) (symbol_value u (p_val p) h) rc b'.
Proof.
  intros Hyg Hyn Hin Hnp (Hr & H4 & Hbd & t & k & Ht & Hk & Hoff & <- & Hsh). destruct (located_prop o Ho y e p Hyg Hyn Hin) as ((val & En & Ev) & H1 & H2 & H3 & H5). unfold update_symbol.
  rewrite (bind_step _ _ _ _ _ (read_overlay _ b _ En)). cbv match beta. rewrite (bind_step _ _ _ _ _ (read_overlay _ b _ (overlay_symbol_ok _ _ _ Ev))). unfold symbol_value. destruct (symbol_of (p_val p)) as [err| |frag rel] eqn:Esym.
  - do 2 eexists. split; [done|]. by split_and!; [|eapply symbol_bad|].
  - by do 2 eexists.
  - destruct (symbol_rel _ _ _ Esym) as [Hrl Hrb]. specialize (Hrb H3). pose proof Hu as (_ & H0 & eu & _ & Hun & _). assert (at_tag (d_off u)) as Hug by (by rewrite H0).
    pose proof (subnode_offset_tree o R frag u eu Hug Hun) as Ef. rewrite H0 in Ef. rewrite (bind_step _ _ _ _ _ (read_overlay _ b _ Ef)). unfold kid_result. destruct (find_kid frag (d_kids u)) as [g|] eqn:Eg; [|by do 2 eexists].
    pose proof (find_kid_in _ _ _ Eg) as Hgi. destruct (kid_at o R _ _ _ Hug Hun Hgi) as (eg & Hgn & Hgg & _ & Hg0 & _). destruct (Z.ltb_spec (d_off g) 0); [lia|].
    pose proof (subnode_offset_tree o R (byte_list "__overlay__") g eg Hgg Hgn) as Eo. unfold fdt_subnode_offset at 1. rewrite (bind_step _ _ _ _ _ (read_overlay _ b _ Eo)). unfold kid_result. fold (overlay_of g). destruct (overlay_of g) as [v|] eqn:Eov; [|by do 2 eexists].
    destruct (kid_at o R _ _ _ Hgg Hgn (find_kid_in _ _ _ Eov)) as (ev & _ & _ & _ & Hv0 & _). destruct (Z.ltb_spec (d_off v) 0); [lia|]. destruct (target_path g h) as [x|err] eqn:Ex.
    + destruct (insert_symbol_ok b t k (p_name p) g x rel fuel bound Hr H4 Hbd Ht Hk Hoff Hsh H1 ltac:(lia) Hnp Hgi Ex ltac:(lia) Hrb) as (rc & b' & E & Hres). exists rc, b'. split; [exact E|exact Hres].
    + destruct (find_named b t g fuel Hr Ht Hsh Hgi) as (path & Hn). rewrite Ex in Hn. destruct Hn as [Hneg Et]. rewrite (bind_step get _ _ _ _ eq_refl). cbn [fst snd]. rewrite (bind_step _ _ _ _ _ (lift_step _ _ _ Et)). cbv match beta. destruct (Z.ltb_spec err 0); [|lia]. by do 2 eexists.
Qed.
End Symbols.

(** ** All symbols *)

(** The symbols up to the first that has no value, and its error. *)
Fixpoint symbols (u : dt) (ps : list pitem) (h : shape) : list (list Z * list Z) * Z :=
  match ps with
  | [] => ([], 0)
  | p :: ps =>
      match symbol_value u (p_val p) h with
      | inr err => ([], err)
      | inl None => symbols u ps h
      | inl (Some v) => let '(l, rc) := symbols u ps h in ((p_name p, v) :: l, rc)
      end
  end.

Lemma prop_need_pos p : 0 <= prop_need p.
Proof. unfold prop_need. pose proof (zlen_nonneg p.1). pose proof (tagalign_bound _ (zlen_nonneg p.2)). lia. Qed.
Lemma props_need_pos l : 0 <= total_of prop_need l.
Proof. induction l as [|p l IH]; [done|]. unfold total_of in *. cbn [foldr]. pose proof (prop_need_pos p). lia. Qed.

(** The sub-node is there. *)
Lemma into_kid_found name t k : find_kid name (d_kids t) = Some k -> into_kid name (fun z => z) (erase t) = erase t.
Proof. intros Hk. destruct (kid_frame _ _ _ Hk) as (f & Hs & Hinto & _). rewrite Hinto. symmetry. exact (erase_plug _ _ _ Hs). Qed.
Lemma into_kid_same tot h off bound x b : sym_state tot h off bound x b -> into_kid symbols_name (merge_props []) x = x.
Proof. intros (_ & _ & _ & t & k & _ & Hk & _ & <- & _). exact (into_kid_found _ _ _ Hk). Qed.

(** A tree that has "__symbols__". *)
Definition with_symbols (x : stree) : stree := into_kid symbols_name (fun z => z) x.

Section Update.
  Context (o : region) (Ho : stable o) (u : dt) (Hu : holds o u) (Hsz : hv o 4 < 2 ^ 29) (Hff : Forall frag_fine (d_kids u)).
  Local Abbreviation R := (sb_read _ Ho).

Lemma update_symbols_ok tot h off y e fuel : tot < 2 ^ 29 -> h_name h = [] -> plain_shape h -> at_tag (d_off y) -> node_at o y e -> forall ps bound x b, (forall p, p ∈ ps -> p ∈ d_props y /\ no_phandle (p_name p)) -> sym_state tot h off bound x b ->
  exists rc b', run_all (update_symbol (S fuel) off) (p_off <$> ps) (b, o) = Some (rc, (b', o)) /\ let '(l, err) := symbols u ps h in
    (rc = err /\ err <= 0 /\ sym_state tot h off (bound + total_of prop_need l) (into_kid symbols_name (merge_props l) x) b') \/ (rc = - FDT_ERR_NOSPACE /\ tot < bound + total_of prop_need l /\ rw_ready b').
Proof.
  intros Htot Hroot Hpl Hyg Hyn. induction ps as [|p ps IH]; intros bound x b Hin Hst.
  { do 2 eexists. split; [done|]. cbn [symbols]. left. split_and!; [done|done|]. change (total_of prop_need []) with 0. rewrite Z.add_0_r. by rewrite (into_kid_same tot h off bound x b Hst). }
  destruct (Hin p ltac:(by left)) as [Hp Hnp]. destruct (update_symbol_ok o Ho u Hu Hsz Hff tot h off Htot Hroot Hpl y e p bound x b fuel Hyg Hyn Hp Hnp Hst) as (rc & b1 & E & Hs). rewrite fmap_cons. cbn [run_all]. rewrite (bind_step _ _ _ _ _ E). cbn [symbols].
  assert (forall q, q ∈ ps -> q ∈ d_props y /\ no_phandle (p_name q)) as Hin' by (intros q Hq; apply Hin; by right). destruct (symbol_value u (p_val p) h) as [[v|]|err]; cbn [sym_step] in Hs.
  - pose proof (props_need_pos (symbols u ps h).1) as Hpos. destruct Hs as [(-> & Hst1)|(-> & Hlt & Hr1)].
    + cbn [negb Z.eqb]. destruct (IH _ _ _ Hin' Hst1) as (rc & b' & E' & Hres). exists rc, b'. split; [exact E'|]. destruct (symbols u ps h) as [l err]. assert (total_of prop_need ((p_name p, v) :: l) = prop_need (p_name p, v) + total_of prop_need l) as -> by done. rewrite Z.add_assoc.
      destruct Hres as [(-> & He & Hst2)|Hres]; [left|by right]. split_and!; [done|done|]. rewrite into_kid_twice in Hst2 by (intros; apply name_set). exact Hst2.
    + do 2 eexists. split; [done|]. destruct (symbols u ps h) as [l err]. assert (total_of prop_need ((p_name p, v) :: l) = prop_need (p_name p, v) + total_of prop_need l) as -> by done. cbn [fst] in Hpos. right. split_and!; [done|lia|done].
  - destruct Hs as [-> ->]. cbn [negb Z.eqb]. by apply IH.
  - destruct Hs as (-> & Hneg & ->). destruct (Z.eqb_spec err 0); [lia|]. cbn [negb]. do 2 eexists. split; [done|]. left. split_and!; [done|lia|]. change (total_of prop_need []) with 0. rewrite Z.add_0_r. by rewrite (into_kid_same tot h off bound x b Hst).
Qed.

Lemma with_symbols_plain t : plain_tree t -> plain_shape (shape_of (with_symbols (erase t))).
Proof.
  intros Hp. unfold with_symbols. destruct (find_kid symbols_name (d_kids t)) as [k|] eqn:Ek; [rewrite (into_kid_found _ _ _ Ek); by apply plain_of_shape|]. apply plain_of_shape in Hp. pose proof (find_kid_change symbols_name (d_kids t)) as Hc. rewrite Ek in Hc.
  destruct t as [to tn tps tks]. cbn [erase into_kid d_kids] in *. rewrite Hc. cbn [shape_of plain_shape] in *. rewrite fmap_cons. cbn [foldr]. split; [|done]. split; [|done]. split; [done|]. cbn [shape_of h_name]. rewrite <- (bool_decide_spec (47 ∉ symbols_name)). vm_compute. exact I.
Qed.
Lemma with_symbols_name t : h_name (shape_of (with_symbols (erase t))) = d_name t.
Proof. by destruct t. Qed.

(** "__symbols__" of the base tree is found, or added. *)
Lemma root_symbols_ok b t : rw_ready b -> holds b t -> exists rc b', (root_sym ← on_fdt (rd (fun b => fdt_subnode_offset b 0 symbols_name));
    (if root_sym =? - FDT_ERR_NOTFOUND then on_fdt (fdt_add_subnode 0 symbols_name) else mret root_sym)) (b, o) = Some (rc, (b', o)) /\ rw_ready b' /\
  ((0 <= rc /\ sym_state (hv b 4) (shape_of (with_symbols (erase t))) rc (used b + node_need symbols_name) (with_symbols (erase t)) b') \/ (rc = - FDT_ERR_NOSPACE /\ hv b 4 < used b + node_need symbols_name)).
Proof.
  intros Hr Ht. pose proof Ht as (_ & H0 & e & _ & Hn & _). assert (at_tag (d_off t)) as Hg by (by rewrite H0). pose proof (subnode_offset_tree b (rw_read _ Hr) symbols_name t e Hg Hn) as E. rewrite H0 in E. unfold kid_result in E.
  assert (on_fdt (rd (fun b => fdt_subnode_offset b 0 symbols_name)) (b, o) = Some (match find_kid symbols_name (d_kids t) with Some k => d_off k | None => - FDT_ERR_NOTFOUND end, (b, o))) as E' by (unfold on_fdt, rd, fdt_subnode_offset; cbn [fst snd]; by rewrite E). rewrite (bind_step _ _ _ _ _ E'). unfold with_symbols.
  destruct (find_kid symbols_name (d_kids t)) as [k|] eqn:Ek.
  - destruct (kid_at b (rw_read _ Hr) _ _ _ Hg Hn (find_kid_in _ _ _ Ek)) as (ek & _ & _ & _ & Hk0 & _). change (- FDT_ERR_NOTFOUND) with (-1). destruct (Z.eqb_spec (d_off k) (-1)); [lia|]. do 2 eexists. split; [done|]. split; [done|]. left. split; [done|]. rewrite (into_kid_found _ _ _ Ek).
    split_and!; [done|done|unfold node_need; pose proof (tagalign_bound (zlen symbols_name + 1) ltac:(done)); lia|]. by exists t, k.
  - rewrite Z.eqb_refl. assert (text symbols_name) as Htx by (split; [rewrite <- (bool_decide_spec (0 ∉ symbols_name)); vm_compute; exact I|by repeat constructor]).
    destruct (add_subnode_ok b Hr t t [] Ht ltac:(constructor) symbols_name Htx ltac:(done)) as (rc & b' & Ea & Hres). rewrite H0 in Ea. rewrite Ek in Hres. destruct Hres as (x & Hx & [R1 R2 _ R4]). unfold on_fdt. cbn [fst snd]. rewrite Ea. do 2 eexists. split; [done|]. split; [done|].
    destruct R4 as [(-> & Hu' & t' & s' & Ht' & Hs' & _ & Es & k & ks & Eks & Ekx)|(-> & Hlt & _)]; [left|right; by split]. split; [done|]. inversion Hs' as [|? ? ? ? ? ? G ? E1 E2]; subst; [|by destruct G]. pose proof (find_kid_change symbols_name (d_kids t)) as Hc. rewrite Ek in Hc.
    assert (into_kid symbols_name (fun z => z) (erase t) = erase t') as ->. { rewrite Es. destruct t as [to tn tps tks]. cbn [erase into_kid add_kid d_kids] in *. by rewrite Hc. }
    split_and!; [done|by apply R2|done|]. exists t', k. split_and!; [done| |done|done|done]. rewrite Eks. unfold find_kid. cbn [List.find]. assert (d_name k = symbols_name) as ->; [|by rewrite name_matches_refl].
    destruct t' as [to tn tps tks], t as [to' tn' tps' tks']. cbn [d_kids] in Eks. subst tks. cbn [erase add_kid] in Es. rewrite fmap_cons in Es. injection Es as _ _ Ek' _. by rewrite <- s_name_erase, Ek'.
Qed.

Lemma update_quiet fuel root x : quiet (update_symbol fuel root x).
Proof. unfold update_symbol. quiet. Qed.

(** Without "__symbols__" in the overlay, nothing is done. *)
Lemma no_symbols_ok b fuel : find_kid symbols_name (d_kids u) = None -> overlay_symbol_update (S fuel) (b, o) = Some (0, (b, o)).
Proof.
  intros Ey. pose proof Hu as (_ & H0 & e & _ & Hn & _). assert (at_tag (d_off u)) as Hg by (by rewrite H0). pose proof (subnode_offset_tree o R symbols_name u e Hg Hn) as E. rewrite H0 in E. unfold kid_result in E. rewrite Ey in E.
  unfold overlay_symbol_update, fdt_subnode_offset at 1. by rewrite (bind_step _ _ _ _ _ (read_overlay o _ b _ E)).
Qed.

Lemma symbol_update_ok b t y fuel : rw_ready b -> holds b t -> hv b 4 < 2 ^ 29 -> d_name t = [] -> plain_tree t -> find_kid symbols_name (d_kids u) = Some y -> (forall p, p ∈ d_props y -> no_phandle (p_name p)) ->
  exists rc b', overlay_symbol_update (S fuel) (b, o) = Some (rc, (b', o)) /\ rw_ready b' /\ let '(l, err) := symbols u (d_props y) (shape_of (with_symbols (erase t))) in
    (rc = err /\ err <= 0 /\ exists t', holds b' t' /\ erase t' = into_kid symbols_name (merge_props l) (erase t)) \/ (rc = - FDT_ERR_NOSPACE /\ hv b 4 < used b + node_need symbols_name + total_of prop_need l).
Proof.
  intros Hr Ht Hsb Hroot Hpl Ey Hnp. pose proof Hu as (_ & H0 & e & _ & Hn & _). assert (at_tag (d_off u)) as Hg by (by rewrite H0). pose proof (subnode_offset_tree o R symbols_name u e Hg Hn) as E. rewrite H0 in E. unfold kid_result in E. unfold overlay_symbol_update, fdt_subnode_offset at 1.
  rewrite (bind_step _ _ _ _ _ (read_overlay o _ b _ E)). rewrite Ey. destruct (kid_at o R _ _ _ Hg Hn (find_kid_in _ _ _ Ey)) as (ey & Hyn & Hyg & _ & Hy0 & _). destruct (Z.ltb_spec (d_off y) 0); [lia|].
  destruct (root_symbols_ok b t Hr Ht) as (rc & b1 & Er & Hr1 & Hcase). set (h := shape_of (with_symbols (erase t))) in *.
  match goal with |- exists rc b', (_ ≫= fun root => (_ ≫= ?k)) _ = _ /\ _ => assert (forall x, (root_sym ← on_fdt (rd (fun b => fdt_subnode_offset b 0 symbols_name)); root_sym ← (if root_sym =? - FDT_ERR_NOTFOUND then on_fdt (fdt_add_subnode 0 symbols_name) else mret root_sym); k root_sym) x =
    ((root_sym ← on_fdt (rd (fun b => fdt_subnode_offset b 0 symbols_name)); (if root_sym =? - FDT_ERR_NOTFOUND then on_fdt (fdt_add_subnode 0 symbols_name) else mret root_sym)) ≫= k) x) as Ha end.
  { intros x. unfold mbind, M_bind. by destruct (on_fdt _ x) as [[]|]. }
  rewrite Ha. clear Ha. rewrite (bind_step _ _ _ _ _ Er). pose proof (props_need_pos (symbols u (d_props y) h).1) as Hpos. destruct Hcase as [(Hrc & Hst)|(-> & Hlt)].
  2: { do 2 eexists. split; [done|]. split; [done|]. destruct (symbols u (d_props y) h) as [l err]. cbn [fst] in Hpos. right. split; [done|lia]. }
  destruct (Z.ltb_spec rc 0); [lia|]. rewrite (for_each_property_run snd _ o R) with (e := ey); [|intros x s c s' Hv Eb; rewrite <- Hv; by eapply update_quiet|done|done|done].
  destruct (update_symbols_ok (hv b 4) h rc y ey fuel Hsb ltac:(unfold h; by rewrite with_symbols_name) (with_symbols_plain t Hpl) Hyg Hyn (d_props y) _ _ b1 ltac:(intros p Hp; split; [done|by apply Hnp]) Hst) as (rc2 & b2 & E2 & Hres).
  exists rc2, b2. split; [exact E2|]. destruct (symbols u (d_props y) h) as [l err]. destruct Hres as [(-> & He & Hr2 & _ & _ & t2 & k2 & Ht2 & _ & _ & Et2 & _)|(-> & Hlt & Hr2)]; (split; [done|]); [left|right; by split]. split_and!; [done|done|]. exists t2. split; [done|]. rewrite Et2. unfold with_symbols. by apply into_kid_twice.
Qed.
End Update.

(** ** Names after a merge *)

(** The names below a node have no slashes. *)
Definition splain (x : stree) : Prop := plain_shape (shape_of x).
Lemma splain_kids n ps ks : splain (SNode n ps ks) <-> Forall (fun k => plain (s_name k) /\ splain k) ks.
Proof.
  unfold splain. cbn [shape_of plain_shape]. induction ks as [|k ks IH]; [split; [constructor|done]|]. rewrite fmap_cons. cbn [foldr]. rewrite Forall_cons, IH. by destruct k.
Qed.

Lemma splain_set name val x : splain x -> splain (set_prop name val x).
Proof. destruct x as [n ps ks]. unfold set_prop, change_prop. by rewrite !splain_kids. Qed.
Lemma splain_props ps : forall x, splain x -> splain (merge_props ps x).
Proof. induction ps as [|p ps IH]; intros x Hx; [done|]. unfold merge_props in *. cbn [fold_left]. by apply IH, splain_set. Qed.

Lemma name_into name f x : s_name (into_kid name f x) = s_name x.
Proof. by destruct x. Qed.
Lemma name_merge v x : s_name (merge v x) = s_name x.
Proof.
  destruct v as [n ps ks]. cbn [merge]. rewrite <- (name_merge_props ps x). generalize (merge_props ps x). induction ks as [|k ks IH]; intros y; [done|]. cbn [fold_left]. by rewrite IH, name_into.
Qed.

Lemma splain_into name f x : plain name -> (forall k, splain k -> s_name (f k) = s_name k /\ splain (f k)) -> splain x -> splain (into_kid name f x).
Proof.
  intros Hn Hf. destruct x as [n ps ks]. cbn [into_kid]. rewrite !splain_kids. intros Hx.
  assert (match change_kid name (fun k => inl (f k)) ks with inl ks' => Forall (fun k => plain (s_name k) /\ splain k) ks' | inr _ => True end) as H.
  { induction Hx as [|k ks [Hk1 Hk2] Hks IH]; cbn [change_kid]; [done|]. destruct (name_matches (s_name k) name).
    - destruct (Hf k Hk2) as [E1 E2]. constructor; [by rewrite E1|done].
    - destruct (change_kid name _ ks); [by constructor|done]. }
  destruct (change_kid name _ ks); [done|]. constructor; [|done]. destruct (Hf (SNode name [] [])) as [E1 E2]; [by apply splain_kids|]. by rewrite E1.
Qed.

Lemma splain_merge v : plain_tree v -> forall x, splain x -> splain (merge (erase v) x).
Proof.
  induction v as [o n ps ks IH] using dt_ind'. intros Hv x Hx. pose proof (proj1 (plain_kids _) Hv) as Hk. cbn [d_kids] in Hk. cbn [erase merge]. change (fun p : pitem => (p_name p, p_val p)) with pv.
  apply (splain_props (pv <$> ps)) in Hx. revert Hx. generalize (merge_props (pv <$> ps) x). clear Hv.
  induction IH as [|k ks Hm _ IHk]; intros y Hy; [done|]. rewrite fmap_cons. cbn [fold_left]. destruct (Hk k ltac:(by left)) as [Hk1 Hk2]. rewrite s_name_erase.
  apply IHk; [intros z Hz; apply Hk; by right|]. apply splain_into; [done| |done]. intros z Hz. split; [apply name_merge|by apply Hm].
Qed.

Lemma splain_plug F : forall x y, splain (plug F x) -> s_name y = s_name x -> (splain x -> splain y) -> splain (plug F y) /\ s_name (plug F y) = s_name (plug F x).
Proof.
  induction F as [|f F IH]; intros x y Hx En Hy; [by split; [apply Hy|]|]. change (plug (f :: F) y) with (plug F (plug1 y f)). change (plug (f :: F) x) with (plug F (plug1 x f)) in *. apply (IH (plug1 x f)); [done|done|]. unfold plug1. rewrite !splain_kids, !Forall_app, !Forall_cons. rewrite En. tauto.
Qed.

Lemma fragments_plain gs t t' : fragments gs t t' -> (forall g v, g ∈ gs -> overlay_of g = Some v -> plain_tree v) -> plain_tree t -> plain_tree t' /\ d_name t' = d_name t.
Proof.
  induction 1 as [t|g gs t t' Hov Hfr IH|g gs v s F t t1 t' Hov Htg Hs Et Hfr IH]; intros Hv Ht; [done|apply IH; [|done]; intros; apply (Hv g0); [by right|done]|].
  pose proof Ht as Hp. apply plain_of_shape in Hp. rewrite (erase_plug _ _ _ Hs) in Hp.
  destruct (splain_plug F (erase s) (merge (erase v) (erase s)) Hp (name_merge _ _)) as [H1 H2]; [intros Hx; apply splain_merge; [by apply (Hv g); [left|]|done]|]. rewrite <- Et, <- (erase_plug _ _ _ Hs), !s_name_erase in H2. rewrite <- Et in H1. apply plain_of_shape in H1.
  destruct (IH ltac:(intros g' v' Hg'; apply Hv; by right) H1) as [I1 I2]. split; [done|congruence].
Qed.
