(* ===== verification/FdtApply.v ===== *)
(** [fdt_overlay_apply] as a whole: what becomes of the base tree, of the two blobs,
    and why it fails. *)
From S2P Require Import Prelude KDefs Bytes Fdt FdtRo FdtSafe FdtRoSafe FdtProps FdtHelper FdtCheck FdtTree FdtPath FdtWalk FdtSw FdtSwProps FdtSeg FdtMove FdtEdit FdtSwTree FdtRw FdtSplice FdtRwProps FdtRwNodes FdtScript FdtOverlay FdtMerge FdtInplace FdtOverlayProps FdtRefs FdtFixups FdtNames FdtSymbols.

(** What becomes of the overlay before it is merged: its phandles are raised, then
    the references to them, then those to nodes of the base tree are filled in. *)
Definition prepare (t u : dt) : res dt :=
  let delta := max_phandle (preorder t) 0 in
  res_bind (Some (adjust delta u)) (fun u1 => res_bind (local_fixups delta u1) (fixups t)).

(** Target paths are absolute; where there are symbols, names have no slashes, and no
    symbol has the name of a phandle property. *)
Definition overlay_fine (t u : dt) : Prop := Forall frag_fine (d_kids u) /\ forall y, find_kid symbols_name (d_kids u) = Some y ->
  d_name t = [] /\ plain_tree t /\ plain_tree u /\ forall p, p ∈ d_props y -> no_phandle (p_name p).

(** The symbols of the overlay in the merged tree: their values, with an error. *)
Definition new_symbols (u t : dt) : option (list (list Z * list Z) * Z) :=
  y ← find_kid symbols_name (d_kids u); Some (symbols u (d_props y) (shape_of (with_symbols (erase t)))).
Definition symbols_added (u t t' : dt) : Prop :=
  match new_symbols u t with None => t' = t | Some (l, rc) => rc = 0 /\ erase t' = into_kid symbols_name (merge_props l) (erase t) end.

(** A blob without its magic number is refused by every function. *)
Lemma erase_magic b : rw_ready b -> exists b', fdt_set_magic (u32 (-1)) b = Some (tt, b') /\ fdt_ro_probe_ b' = Some (- FDT_ERR_BADMAGIC).
Proof.
  intros Hr. pose proof (rw_bounds b Hr). destruct (wr_wrote 0 (to_be 4 (u32 (-1))) b ltac:(lia)) as (b' & E & Hw); [rewrite zlen_to_be; lia|]. exists b'. pose proof (wrote_word _ _ _ _ Hw) as E0. split; [exact E|].
  pose proof (wo_len _ _ _ _ Hw) as L. assert (forall k, 0 <= k <= 4 -> fdt32_ld (r_bytes b') k = Some (hv b' k)) as Hf. { intros k Hk. pose proof (rd_field (fun c => fdt32_ld (r_bytes c) k) k b' ltac:(done) ltac:(lia) ltac:(lia)) as Er. unfold rd in Er. destruct (fdt32_ld (r_bytes b') k); [by injection Er as ->|done]. }
  unfold fdt_ro_probe_, fdt_totalsize, fdt_magic. rewrite !Hf by lia. cbn [mbind option_bind]. rewrite (wo_base _ _ _ _ Hw), (rb_align _ (rw_read _ Hr)), E0. done.
Qed.

(** Why an overlay is refused: it does not fit, a fragment has no target in the tree
    as it is then, or a symbol has no value in the merged tree. *)
Definition refused (b : region) (t : dt) (r : dt + Z) (rc : Z) : Prop :=
  match r with
  | inr err => rc = err
  | inl u' =>
      let bound := used b + total_of frag_need (d_kids u') in
      (rc = - FDT_ERR_NOSPACE /\ hv b 4 < bound) \/
      (exists don g rest t1, d_kids u' = don ++ g :: rest /\ fragments don t t1 /\ is_Some (overlay_of g) /\ find_target g t1 = inr rc) \/
      (exists t1 l err, fragments (d_kids u') t t1 /\ new_symbols u' t1 = Some (l, err) /\ (rc = err \/ (rc = - FDT_ERR_NOSPACE /\ hv b 4 < bound + node_need symbols_name + total_of prop_need l)))
  end.

(** The steps up to the first error. *)
Lemma until_cons {St} (f : M St Z) l s : until_error (f :: l) s = match f s with Some (rc, s') => if negb (rc =? 0) then Some (rc, s') else until_error l s' | None => None end.
Proof. cbn [until_error]. unfold mbind, M_bind. destruct (f s) as [[rc s']|]; [|done]. by destruct (negb (rc =? 0)). Qed.

(** A step on the overlay, then the others. *)
Lemma until_step (f : M (region * region) Z) l b o o0 r (k : dt -> res dt) (Q : dt + Z -> Z -> region -> region -> Prop) r' : touched o0 o ->
  (exists rc o', f (b, o) = Some (rc, (b, o')) /\ stepped o [] r rc o') -> res_bind (Some r) k = Some r' ->
  (forall u' o', rw_ready o' -> touched o0 o' -> holds o' u' -> k u' = Some r' -> exists rc b' o2, until_error l (b, o') = Some (rc, (b', o2)) /\ Q r' rc b' o2) ->
  (forall err o', rw_ready o' -> err < 0 -> r' = inr err -> Q r' err b o') ->
  exists rc b' o2, until_error (f :: l) (b, o) = Some (rc, (b', o2)) /\ Q r' rc b' o2.
Proof.
  intros Hto (rc & o' & E & Hr' & Hto' & Hm) Hk Hok Herr. rewrite until_cons, E. destruct r as [u'|err]; cbn [res_bind] in Hk.
  - destruct Hm as [-> Hu']. cbn [negb Z.eqb]. apply (Hok u' o'); [done|by etrans|done|done].
  - injection Hk as <-. destruct Hm as (-> & Hneg & _). destruct (Z.eqb_spec err 0); [lia|]. cbn [negb]. do 3 eexists. split; [done|]. by apply Herr.
Qed.

Definition applied (b : region) (t : dt) (r : dt + Z) (rc : Z) (b' o' : region) : Prop :=
  rw_ready b' /\ rw_ready o' /\ ((rc = 0 /\ exists u' t1 t', r = inl u' /\ holds b' t' /\ fragments (d_kids u') t t1 /\ symbols_added u' t1 t') \/ (rc < 0 /\ refused b t r rc)).

Lemma merge_step b t o u fuel : rw_ready b -> holds b t -> rw_ready o -> holds o u -> hv b 4 < 2 ^ 29 -> hv o 4 < 2 ^ 29 -> overlay_fine t u ->
  exists rc b' o', until_error [overlay_merge (S fuel); overlay_symbol_update (S fuel)] (b, o) = Some (rc, (b', o')) /\ applied b t (inl u) rc b' o'.
Proof.
  intros Hr Ht Hro Hu Hsb Hso [Hff Hsym]. rewrite until_cons. destruct (overlay_merge_ok o (rw_stable o Hro) ltac:(lia) u Hu fuel b t Hff Hr Ht) as (rc & b' & -> & Hr' & t' & Ht' & Hc). destruct Hc as [(-> & H4 & Hub & Hf)|Hc].
  - cbn [negb Z.eqb]. rewrite until_cons. unfold applied, refused, symbols_added, new_symbols. destruct (find_kid symbols_name (d_kids u)) as [y|] eqn:Ey; cbn [mbind option_bind].
    + destruct (Hsym y eq_refl) as (Hn & Hpt & Hpu & Hnp). assert (forall g v, g ∈ d_kids u -> overlay_of g = Some v -> plain_tree v) as Hv.
      { intros g v Hg Hv. destruct (proj1 (plain_kids u) Hpu g Hg) as [_ Hpg]. by destruct (proj1 (plain_kids g) Hpg v (find_kid_in _ _ _ Hv)). }
      destruct (fragments_plain _ _ _ Hf Hv Hpt) as [Hpt' Hn']. destruct (symbol_update_ok o (rw_stable o Hro) u Hu Hso Hff b' t' y fuel Hr' Ht' ltac:(lia) ltac:(congruence) Hpt' Ey Hnp) as (rc & b2 & E & Hr2 & Hres). rewrite E.
      destruct (symbols u (d_props y) (shape_of (with_symbols (erase t')))) as [l err] eqn:El. destruct Hres as [(-> & Hle & t2 & Ht2 & Et2)|(-> & Hlt)].
      * destruct (Z.eqb_spec err 0) as [->|Hne]; cbn [negb]; do 3 eexists; (split; [done|]); split_and!; try done.
        -- left. split; [done|]. exists u, t', t2. split_and!; try done. rewrite ?Ey. cbn [mbind option_bind]. by rewrite ?El.
        -- right. split; [lia|]. right. right. exists t', l, err. split_and!; [done| |by left]. rewrite ?Ey. cbn [mbind option_bind]. by rewrite ?El.
      * change (negb (- FDT_ERR_NOSPACE =? 0)) with true. cbv match. do 3 eexists. split; [done|]. split_and!; [done|done|]. right. split; [done|]. right. right. exists t', l, err. split_and!; [done| |right; split; [done|lia]]. rewrite ?Ey. cbn [mbind option_bind]. by rewrite ?El.
    + rewrite (no_symbols_ok o (rw_stable o Hro) u Hu b' fuel Ey). do 3 eexists. split; [done|]. split_and!; [done|done|]. left. split; [done|]. exists u, t', t'. split_and!; try done. by rewrite Ey.
  - assert (rc < 0) as Hneg.
    { destruct Hc as [(-> & _)|(don & g & rest & Eg & _ & _ & Htg)]; [done|]. assert (g ∈ d_kids u) as Hgi by (rewrite Eg; apply elem_of_app; right; by left). rewrite Forall_forall in Hff.
      destruct (target_offset_ok b' o (rw_read _ Hr') t' u g Ht' Hu ltac:(eapply within_kid; [exact Hgi|constructor]) (Hff g Hgi) fuel) as (path & _ & Hn). by rewrite Htg in Hn. }
    destruct (Z.eqb_spec rc 0); [lia|]. cbn [negb]. do 3 eexists. split; [done|]. split_and!; [done|done|]. right. split; [done|]. destruct Hc as [Hc|(don & g & rest & Hc)]; [by left|right; left]. by exists don, g, rest, t'.
Qed.

Lemma steps_ok b t o u fuel r : rw_ready b -> holds b t -> rw_ready o -> holds o u -> hv b 4 < 2 ^ 29 -> hv o 4 < 2 ^ 29 -> prepare t u = Some r -> (forall u', r = inl u' -> overlay_fine t u') ->
  let delta := max_phandle (preorder t) 0 in
  exists rc b' o', until_error [mret 0; on_fdto (overlay_adjust_local_phandles delta); on_fdto (overlay_update_local_references (S fuel) delta);
      overlay_fixup_phandles (S fuel); overlay_merge (S fuel); overlay_symbol_update (S fuel)] (b, o) = Some (rc, (b', o')) /\ applied b t r rc b' o'.
Proof.
  intros Hr Ht Hro Hu Hsb Hsz Hp Hfine delta. pose proof (tree_max_range b t Ht) as Hd. rewrite until_cons. cbn [mret M_ret negb Z.eqb]. unfold prepare in Hp. fold delta in Hp, Hd.
  assert (forall err o', rw_ready o' -> err < 0 -> r = inr err -> applied b t r err b o') as Herr by (intros err o' Ho' Hneg ->; split_and!; [done|done|by right]).
  eapply until_step; [reflexivity| |exact Hp| |exact Herr].
  { destruct (adjust_local_ok o delta u Hd Hro Hu) as (rc & o' & E & Hst). unfold on_fdto. cbn [fst snd]. rewrite E. by do 2 eexists. }
  intros u1 o1 Hr1 Hto1 Hu1 Hp1. cbn beta in Hp1. destruct (local_fixups delta u1) as [r1|] eqn:El; [|done]. eapply until_step; [exact Hto1| |exact Hp1| |exact Herr].
  { destruct (local_references_ok o1 u1 delta fuel r1 Hr1 Hu1 El) as (rc & o' & E & Hst). unfold on_fdto. cbn [fst snd]. rewrite E. by do 2 eexists. }
  intros u2 o2 Hr2 Hto2 Hu2 Hp2. eapply (until_step _ _ _ _ _ r (fun u => Some (inl u))); [exact Hto2|by apply (fixup_phandles_ok b (proj1 Ht) t Ht fuel o2 u2 r)|by destruct r| |exact Herr].
  intros u3 o3 Hr3 Hto3 Hu3 [= <-]. apply merge_step; try done; [by rewrite (to_total _ _ Hto3)|by apply Hfine].
Qed.


(** *** A sample overlay *)

Definition str (s : string) : list Z := byte_list s ++ [0].
Definition base_tree : stree :=
  SNode [] [] [SNode (byte_list "soc") [(byte_list "phandle", to_be 4 5); (byte_list "status", str "off")] [];
               SNode (byte_list "__symbols__") [(byte_list "bus", str "/soc")] []].
Definition add_tree : stree :=
  SNode [] [] [SNode (byte_list "fragment@0") [(byte_list "target-path", str "/soc")]
                 [SNode (byte_list "__overlay__") [(byte_list "status", str "okay")]
                    [SNode (byte_list "uart@1") [(byte_list "phandle", to_be 4 1); (byte_list "self", to_be 4 1); (byte_list "up", to_be 4 0)] []]];
               SNode (byte_list "fragment@1") [(byte_list "target", to_be 4 0)] [SNode (byte_list "__overlay__") [] [SNode (byte_list "uart") [(byte_list "reg", [1])] []]];
               SNode (byte_list "__fixups__") [(byte_list "bus", str "/fragment@1:target:0" ++ str "/fragment@0/__overlay__/uart:up:0")] [];
               SNode (byte_list "__local_fixups__") []
                 [SNode (byte_list "fragment@0") [] [SNode (byte_list "__overlay__") [] [SNode (byte_list "uart@1") [(byte_list "self", to_be 4 0)] []]]];
               SNode (byte_list "__symbols__") [(byte_list "serial", str "/fragment@0/__overlay__/uart@1"); (byte_list "frag", str "/fragment@0"); (byte_list "again", str "/fragment@1/__overlay__/uart@1")] []].
Definition blob_of (size : Z) (t : stree) : region :=
  match and_then (write_tree size 0 [] t) (fdt_open_into 0 0 size) (Region 0 (replicate (Z.to_nat size) 0)) with Some (0, b) => b | _ => Region 0 [] end.
Definition base_blob : region := Eval vm_compute in blob_of 480 base_tree.
Definition add_blob : region := Eval vm_compute in blob_of 960 add_tree.
Definition base_dt : dt := Eval vm_compute in default (DNode 0 [] [] []) (the_tree base_blob).
Definition add_dt : dt := Eval vm_compute in default (DNode 0 [] [] []) (the_tree add_blob).

(** The overlay as it is merged: the phandle and the reference to it are 6, the
    references to the base tree 5. *)
Definition add_ready_dt : dt := Eval vm_compute in match prepare base_dt add_dt with Some (inl u) => u | _ => add_dt end.

Ltac sample_ready := split; [|vm_compute; congruence..]; split; [|vm_compute; congruence..]; split; [|vm_compute; congruence..]; apply bytes_check; vm_compute; reflexivity.

Ltac plain_sample := vm_compute; repeat split; try done; intros H; repeat (apply elem_of_cons in H as [H|H]; [discriminate H|]); by apply elem_of_nil in H.

Lemma base_ready : rw_ready base_blob.
Proof. sample_ready. Qed.
Lemma add_ready : rw_ready add_blob.
Proof. sample_ready. Qed.
Lemma base_holds : holds base_blob base_dt.
Proof. apply the_tree_holds; [exact (rw_read _ base_ready)|vm_compute; reflexivity]. Qed.
Lemma add_holds : holds add_blob add_dt.
Proof. apply the_tree_holds; [exact (rw_read _ add_ready)|vm_compute; reflexivity]. Qed.

Lemma add_fine : overlay_fine base_dt add_ready_dt.
Proof.
  split; [repeat constructor; intros p Hp; vm_compute in Hp; try discriminate Hp; injection Hp as <-; exists (byte_list "/soc"); split; vm_compute; reflexivity|].
  intros y Hy. vm_compute in Hy. injection Hy as <-. split_and!; [done|by plain_sample|by plain_sample|]. intros p Hp. cbn [d_props] in Hp. split; intros E; repeat (apply elem_of_cons in Hp as [->|Hp]; [discriminate E|]); by apply elem_of_nil in Hp.
Qed.


Lemma overlay_phandles_witness : exists o' u', overlay_adjust_local_phandles 5 add_blob = Some (0, o') /\ holds o' u'.
Proof.
  destruct (overlay_phandles_distinct base_blob base_dt add_blob add_dt base_holds add_ready add_holds) as (delta & rc & o' & Ed & E & _ & Hc).
  assert (fdt_find_max_phandle base_blob = Some (0, 5)) as E5 by (vm_compute; reflexivity). rewrite E5 in Ed. injection Ed as <-.
  assert (fst <$> overlay_adjust_local_phandles 5 add_blob = Some 0) as E1 by (vm_compute; reflexivity). rewrite E in E1. injection E1 as E1. cbn [fst] in E1. subst rc.
  destruct Hc as [(_ & u' & Hu' & _)|[Hneg _]]; [|discriminate Hneg]. exists o', u'. split; [exact E|exact Hu'].
Defined.

(** The tree that comes out. *)
Example overlay_merged : (fun r => (r.1, erase <$> the_tree r.2.1)) <$> fdt_overlay_apply 1 (base_blob, add_blob) =
  Some (0, Some (SNode [] [] [SNode (byte_list "soc") [(byte_list "phandle", to_be 4 5); (byte_list "status", str "okay")]
                                [SNode (byte_list "uart@1") [(byte_list "reg", [1]); (byte_list "up", to_be 4 5); (byte_list "self", to_be 4 6); (byte_list "phandle", to_be 4 6)] []];
                              SNode (byte_list "__symbols__") [(byte_list "again", str "/soc/uart@1"); (byte_list "serial", str "/soc/uart@1"); (byte_list "bus", str "/soc")] []])).
Proof. vm_compute. reflexivity. Qed.

(** An offset of "__local_fixups__" outside the overlay: the value there is read
    before the offset is compared with the length of the property. *)
Definition far_tree (offset : Z) : stree :=
  SNode [] [] [SNode (byte_list "n") [(byte_list "ref", to_be 4 1)] []; SNode (byte_list "__local_fixups__") [] [SNode (byte_list "n") [(byte_list "ref", to_be 4 offset)] []]].
Example fixup_offset_unchecked :
  fst <$> overlay_update_local_references 1 5 (blob_of 300 (far_tree 0)) = Some 0 /\ overlay_update_local_references 1 5 (blob_of 300 (far_tree 1000)) = None.
Proof. split; vm_compute; reflexivity. Qed.

(** A node whose name has a slash misleads [fdt_get_path]: when it takes the last
    name off the path it stops at that slash, and the nodes behind are given a
    path that does not exist. [fdt_check_full] accepts such a name. *)
Definition slash_blob : region := Eval vm_compute in blob_of 120 (SNode [] [] [SNode (byte_list "a/b") [] []; SNode (byte_list "c") [] []]).

Example get_path_slash :
  fdt_check_full slash_blob (zlen (r_bytes slash_blob)) = Some 0 /\ fdt_path_offset slash_blob 1 (byte_list "/c") = Some 20 /\
  (fun p => (p.1, to_nul p.2)) <$> fdt_get_path slash_blob 20 (replicate 16 1) 16 = Some (0, Some (byte_list "/a/c")) /\
  fdt_path_offset slash_blob 1 (byte_list "/a/c") = Some (- FDT_ERR_NOTFOUND).
Proof. vm_compute. split_and!; reflexivity. Qed.

(** With an offset behind the root node, here that of the end tag, [fdt_get_path]
    takes more names off the path than it has and looks for a slash before the
    start of the caller's buffer. *)
Example get_path_behind :
  hv slash_blob 36 = 40 /\ fst <$> fdt_next_node slash_blob 20 (Some 1) = Some 36 /\
  is_Some (fdt_get_path slash_blob 32 (replicate 16 1) 16) /\ fdt_get_path slash_blob 36 (replicate 16 1) 16 = None.
Proof. vm_compute. split_and!; [reflexivity|reflexivity|by eexists|reflexivity]. Qed.
