(* ===== verification/FdtPrint.v ===== *)
(** The printer of device trees in src/kernel/main/fdt_helper.c (DEBUG builds), and
    what it prints for a blob that holds a tree. *)
From S2P Require Import Prelude KDefs Bytes Fdt FdtRo FdtSafe FdtRoSafe FdtProps FdtHelper FdtCheck FdtTree FdtPath FdtSw FdtApply.

(** ** The code *)

(** One call of [printf]. *)
Inductive pout :=
  | PText (s : string)
  | PNode (node : Z) (name : list Z)           (** "#%d: %s\n" *)
  | PString (name value : list Z)              (** "[%s]: [%s]\n" *)
  | PBytes (name : list Z) (size : Z)          (** "[%s]: <bytes>(%d) " *)
  | PByte (v : Z)                              (** "0x%02X " *)
  | PNewline.

(** The static [depth_set] and what has been printed. *)
Definition pstate : Type := list bool * list pout.
Definition emit (l : list pout) : M pstate unit := fun s => Some (tt, (s.1, s.2 ++ l)).
Definition depth_get (i : Z) : M pstate bool := fun s => if i <? 0 then None else x ← s.1 !! Z.to_nat i; Some (x, s).
Definition depth_put (i : Z) (v : bool) : M pstate unit := fun s =>
  if (i <? 0) || (zlen s.1 <=? i) then None else Some (tt, (<[Z.to_nat i := v]> s.1, s.2)).

(** [for (i = 0; i < n; ++i) printf(depth_set[i] ? "|   " : "    ")] *)
Fixpoint bars (n : nat) (i : Z) : M pstate unit :=
  match n with
  | O => mret tt
  | S n => x ← depth_get i; emit [PText (if x : bool then "|   " else "    ")] ≫= fun _ => bars n (i + 1)
  end.

Definition pretty_node (depth : Z) : M pstate unit :=
  if depth =? 0 then mret tt
  else
    bars (Z.to_nat (depth - 1)) 0 ≫= fun _ =>
    x ← depth_get (depth - 1);
    emit [PText (if x : bool then "+-- " else "\-- ")].

Definition pretty_prop (depth : Z) : M pstate unit :=
  bars (Z.to_nat depth) 0 ≫= fun _ =>
  x ← depth_get depth;
  emit [PText (if x : bool then "|  " else "   ")].

Section Print.
  Context (b : region).
  Local Abbreviation m := (r_bytes b).

(** The scan from [value + i] on; [char] is unsigned. *)
Fixpoint str_loop (n : nat) (value i size : Z) : option bool :=
  match n with
  | O => Some true
  | S n =>
      c ← rd8 m (value + i);
      if i =? size - 1 then Some (c =? 0)
      else if ((0 <? c) && (c <? 32)) || (127 <=? c) then Some false
      else str_loop n value (i + 1) size
  end.
Definition is_str (value size : Z) : option bool :=
  zero ← (if 1 <? size then c ← rd8 m value; Some (c =? 0) else Some false);
  if zero : bool then Some false else str_loop (Z.to_nat size) value 0 size.

Fixpoint byte_outs (n : nat) (p : Z) : option (list pout) :=
  match n with O => Some [] | S n => v ← rd8 m p; l ← byte_outs n (p + 1); Some (PByte v :: l) end.

(** The body of the loop over the properties. A property [fdt_getprop_by_offset]
    does not return has no name and no value to print. *)
Definition print_prop (prop depth : Z) : M pstate unit :=
  (if 0 <=? depth then pretty_prop depth else mret tt) ≫= fun _ =>
  r ← lift (fdt_getprop_by_offset b prop true);
  match r with
  | (Some value, Some name, size) =>
      str ← lift (is_str value size);
      name ← lift (cstr m name);
      if str : bool then
        v ← lift (cstr m value);
        emit [PString name v]
      else
        l ← lift (byte_outs (Z.to_nat size) value);
        emit (PBytes name size :: l ++ [PNewline])
  | _ => fault
  end.

Fixpoint print_props (fuel : nat) (prop depth : Z) : M pstate unit :=
  match fuel with
  | O => fault
  | S fuel =>
      if 0 <=? prop then
        print_prop prop depth ≫= fun _ =>
        next ← lift (fdt_next_property_offset b prop);
        print_props fuel next depth
      else mret tt
  end.
Definition print_node_prop (node depth : Z) : M pstate unit :=
  prop ← lift (fdt_first_property_offset b node);
  print_props (blob_fuel b) prop depth.

(** The loop over the sub-nodes; it returns [prev]. *)
Fixpoint print_loop (print : Z -> M pstate unit) (fuel : nat) (child prev : Z) : M pstate Z :=
  match fuel with
  | O => fault
  | S fuel =>
      if 0 <=? child then
        (if 0 <=? prev then print prev else mret tt) ≫= fun _ =>
        next ← lift (fdt_next_subnode b child);
        print_loop print fuel next child
      else mret prev
  end.

Fixpoint fdt_print_node (fuel : nat) (node depth : Z) : M pstate unit :=
  match fuel with
  | O => fault
  | S fuel =>
      pretty_node depth ≫= fun _ =>
      r ← lift (fdt_get_name b node);
      match fst r with
      | None => fault
      | Some name =>
          name ← lift (cstr m name);
          emit [PNode node name] ≫= fun _ =>
          first ← lift (fdt_first_subnode b node);
          depth_put depth (0 <=? first) ≫= fun _ =>
          print_node_prop node depth ≫= fun _ =>
          more ← depth_get depth;
          if more : bool then
            child ← lift (fdt_first_subnode b node);
            prev ← print_loop (fun prev => fdt_print_node fuel prev (depth + 1)) (blob_fuel b) child (-1);
            depth_put depth false ≫= fun _ =>
            fdt_print_node fuel prev (depth + 1)
          else mret tt
      end
  end.
End Print.

(** ** What is printed *)

(** A value that is taken for a string: it ends with a NUL, does not begin with
    one unless it is nothing else, and has only printable characters and NULs. *)
Definition printable (c : Z) : bool := negb (((0 <? c) && (c <? 32)) || (127 <=? c)).
Fixpoint text_value (v : list Z) : bool :=
  match v with [] => true | [c] => c =? 0 | c :: v => printable c && text_value v end.
Definition shown_as_string (v : list Z) : bool :=
  match v with 0 :: _ :: _ => false | _ => text_value v end.

Definition show_value (p : pitem) : list pout :=
  if shown_as_string (p_val p) then [PString (p_name p) (default [] (to_nul (p_val p)))]
  else PBytes (p_name p) (zlen (p_val p)) :: (PByte <$> p_val p) ++ [PNewline].

(** The lines in front of a node or a property; [pre] says for each ancestor
    whether more of its sub-nodes follow. *)
Definition bar (x : bool) : pout := PText (if x then "|   " else "    ").
Definition node_lead (pre : list bool) : list pout :=
  match last pre with
  | None => []
  | Some x => (bar <$> removelast pre) ++ [PText (if x then "+-- " else "\-- ")]
  end.
Definition prop_lead (pre : list bool) (kids : bool) : list pout := (bar <$> pre) ++ [PText (if kids then "|  " else "   ")].

Fixpoint show (pre : list bool) (t : dt) : list pout :=
  match t with
  | DNode off name props kids =>
      node_lead pre ++ [PNode off name] ++
      (props ≫= fun p => prop_lead pre (negb (bool_decide (kids = []))) ++ show_value p) ++
      (fix go (ks : list dt) : list pout :=
         match ks with
         | [] => []
         | k :: ks => show (pre ++ [negb (bool_decide (ks = []))]) k ++ go ks
         end) kids
  end.

(** The sub-nodes; only the last one has no other behind it. *)
Fixpoint show_kids (pre : list bool) (ks : list dt) : list pout :=
  match ks with [] => [] | k :: ks => show (pre ++ [negb (bool_decide (ks = []))]) k ++ show_kids pre ks end.

Lemma show_unfold pre t : show pre t = node_lead pre ++ [PNode (d_off t) (d_name t)] ++
  (d_props t ≫= fun p => prop_lead pre (negb (bool_decide (d_kids t = []))) ++ show_value p) ++ show_kids pre (d_kids t).
Proof. destruct t as [o n ps ks]. cbn [show d_off d_name d_props d_kids]. do 3 f_equal. induction ks as [|k ks IH]; [done|]. cbn [show_kids]. by rewrite IH. Qed.

(** How deep a tree is. *)
#[local] Arguments Z.max : simpl never.
Fixpoint height (t : dt) : Z := match t with DNode _ _ _ ks => foldr (fun k h => Z.max (1 + height k) h) 0 ks end.

(** ** Properties *)

Lemma bars_ok l : forall i r ds out, 0 <= i -> drop (Z.to_nat i) ds = l ++ r ->
  bars (length l) i (ds, out) = Some (tt, (ds, out ++ (bar <$> l))).
Proof.
  induction l as [|x l IH]; intros i r ds out Hi Hd; cbn [bars length]; [cbn; by rewrite app_nil_r|].
  unfold mbind at 1, M_bind at 1, depth_get at 1. destruct (Z.ltb_spec i 0); [lia|]. cbn [fst].
  assert (ds !! Z.to_nat i = Some x) as -> by (rewrite <- (Nat.add_0_r (Z.to_nat i)), <- lookup_drop, Hd; done). cbn [mbind option_bind].
  unfold mbind, M_bind, emit. cbn [fst snd]. rewrite (IH (i + 1) r); [|lia|].
  - by rewrite <- app_assoc.
  - replace (Z.to_nat (i + 1)) with (S (Z.to_nat i)) by lia. by rewrite <- Nat.add_1_r, <- drop_drop, Hd.
Qed.

Lemma depth_get_ok pre x r out : depth_get (zlen pre) (pre ++ x :: r, out) = Some (x, (pre ++ x :: r, out)).
Proof.
  unfold depth_get. pose proof (zlen_nonneg pre). destruct (Z.ltb_spec (zlen pre) 0); [lia|]. cbn [fst]. unfold zlen. rewrite Nat2Z.id, lookup_app_r, Nat.sub_diag by lia. done.
Qed.

Lemma depth_put_ok pre x r out v : depth_put (zlen pre) v (pre ++ x :: r, out) = Some (tt, (pre ++ v :: r, out)).
Proof.
  unfold depth_put. pose proof (zlen_nonneg pre). pose proof (zlen_nonneg r). destruct (Z.ltb_spec (zlen pre) 0); [lia|]. cbn [fst snd]. rewrite zlen_app, zlen_cons.
  destruct (Z.leb_spec (zlen pre + (1 + zlen r)) (zlen pre)); [lia|]. cbn [orb]. unfold zlen. rewrite Nat2Z.id, insert_app_r_alt, Nat.sub_diag by lia. done.
Qed.

Lemma pretty_node_ok pre r out : pretty_node (zlen pre) (pre ++ r, out) = Some (tt, (pre ++ r, out ++ node_lead pre)).
Proof.
  unfold pretty_node. destruct pre as [|x pre _] using rev_ind; [cbn; by rewrite app_nil_r|]. rewrite zlen_app. change (zlen [x]) with 1. pose proof (zlen_nonneg pre).
  destruct (Z.eqb_spec (zlen pre + 1) 0); [lia|]. replace (zlen pre + 1 - 1) with (zlen pre) by lia. unfold mbind at 1, M_bind at 1.
  assert (Z.to_nat (zlen pre) = length pre) as -> by (unfold zlen; lia). rewrite <- app_assoc. rewrite (bars_ok pre 0 ([x] ++ r)) by done.
  unfold mbind at 1, M_bind at 1. change ([x] ++ r) with (x :: r). rewrite depth_get_ok. unfold emit, node_lead. cbn [fst snd]. rewrite last_snoc, removelast_last, <- app_assoc. done.
Qed.

Lemma pretty_prop_ok pre x r out : pretty_prop (zlen pre) (pre ++ x :: r, out) = Some (tt, (pre ++ x :: r, out ++ prop_lead pre x)).
Proof.
  unfold pretty_prop, mbind at 1, M_bind at 1. assert (Z.to_nat (zlen pre) = length pre) as -> by (unfold zlen; lia). rewrite (bars_ok pre 0 (x :: r)) by done.
  unfold mbind at 1, M_bind at 1. rewrite depth_get_ok. unfold emit, prop_lead. cbn [fst snd]. by rewrite <- app_assoc.
Qed.

Section PrintTree.
  Context (b : region) (Hr : readable b).
  Local Abbreviation m := (r_bytes b).
  Local Abbreviation st := (hv b 8).
  Local Abbreviation Hok := (rb_ok _ Hr).

(** The bytes of a value, one by one. *)
Definition bytes_at (p : Z) (v : list Z) : Prop := forall i c, v !! i = Some c -> rd8 m (p + Z.of_nat i) = Some c.

Lemma rdn_bytes p v : rdn m p (zlen v) = Some v -> bytes_at p v.
Proof.
  intros E. apply rdn_inv in E as (H0 & _ & Hb & _ & Hv). intros i c Hi. unfold rd8. destruct (Z.ltb_spec (p + Z.of_nat i) 0); [lia|].
  pose proof (lookup_lt_Some _ _ _ Hi). revert Hi. rewrite Hv at 1. unfold zlen. rewrite Nat2Z.id, lookup_take_lt, lookup_drop by done. by replace (Z.to_nat (p + Z.of_nat i)) with (Z.to_nat p + i)%nat by lia.
Qed.

Lemma bytes_at_tail p c v : bytes_at p (c :: v) -> rd8 m p = Some c /\ bytes_at (p + 1) v.
Proof.
  intros H. split; [by rewrite <- (H 0%nat c eq_refl), Z.add_0_r|]. intros i x Hi. rewrite <- (H (S i) x Hi). f_equal. lia.
Qed.

Lemma str_loop_ok p (v : list Z) : forall l i, bytes_at (p + i) l -> zlen v = i + zlen l -> l <> [] -> str_loop b (length l) p i (zlen v) = Some (text_value l).
Proof.
  induction l as [|c l IH]; intros i Hb Hlen Hne; [done|]. destruct (bytes_at_tail _ _ _ Hb) as [Hc Ht]. cbn [str_loop length]. rewrite Hc. cbn [mbind option_bind].
  rewrite zlen_cons in Hlen. destruct l as [|c2 l].
  - change (zlen (@nil Z)) with 0 in Hlen. destruct (Z.eqb_spec i (zlen v - 1)); [done|lia].
  - rewrite zlen_cons in Hlen. pose proof (zlen_nonneg l). destruct (Z.eqb_spec i (zlen v - 1)); [lia|]. cbn [text_value]. unfold printable. destruct (_ || _); [done|].
    cbn [negb andb]. apply IH; [by replace (p + (i + 1)) with (p + i + 1) by lia|rewrite zlen_cons; lia|done].
Qed.

Lemma is_str_ok p v : bytes_at p v -> is_str b p (zlen v) = Some (shown_as_string v).
Proof.
  intros Hb. unfold is_str. destruct v as [|c v]; [done|]. destruct (bytes_at_tail _ _ _ Hb) as [Hc _]. pose proof (zlen_nonneg v).
  assert (str_loop b (Z.to_nat (zlen (c :: v))) p 0 (zlen (c :: v)) = Some (text_value (c :: v))) as E.
  { rewrite <- (str_loop_ok p (c :: v) (c :: v) 0); [unfold zlen; by rewrite Nat2Z.id|by rewrite Z.add_0_r|lia|done]. }
  destruct (Z.ltb_spec 1 (zlen (c :: v))) as [H1|H1].
  - rewrite Hc. cbn [mbind option_bind]. destruct v as [|c2 v]; [rewrite zlen_cons in H1; change (zlen (@nil Z)) with 0 in H1; lia|]. destruct (Z.eqb_spec c 0) as [-> |Hne]; [done|]. rewrite E. by destruct c.
  - cbn [mbind option_bind]. destruct v as [|c2 v]; [|rewrite !zlen_cons in H1; pose proof (zlen_nonneg v); lia]. rewrite E. by destruct c.
Qed.

Lemma byte_outs_ok v : forall p, bytes_at p v -> byte_outs b (length v) p = Some (PByte <$> v).
Proof.
  induction v as [|c v IH]; intros p Hb; [done|]. destruct (bytes_at_tail _ _ _ Hb) as [Hc Ht]. cbn [byte_outs length]. rewrite Hc. cbn [mbind option_bind]. by rewrite (IH _ Ht).
Qed.

(** A value that ends with a NUL reads as a string. *)
Lemma text_cstr v : forall p, bytes_at p v -> v <> [] -> text_value v = true -> cstr m p = Some (default [] (to_nul v)) /\ is_Some (to_nul v).
Proof.
  induction v as [|c v IH]; intros p Hb Hne Ht; [done|]. destruct (bytes_at_tail _ _ _ Hb) as [Hc Hb']. rewrite (cstr_step _ _ _ Hc). cbn [to_nul]. destruct (Z.eqb_spec c 0) as [-> |Hc0]; [split; [done|by eexists]|].
  destruct v as [|c2 v]; [cbn in Ht; apply Z.eqb_eq in Ht; lia|]. cbn [text_value] in Ht. apply andb_prop in Ht as [_ Ht].
  destruct (IH _ Hb' ltac:(done) Ht) as [-> [s Hs]]. rewrite Hs. split; [done|by eexists].
Qed.

(** An empty value is followed by a tag, whose first byte is 0. *)
Lemma empty_next o o1 : at_tag o -> token b o FDT_PROP o1 -> hv b (st + o + 4) = 0 -> o1 = o + 12.
Proof.
  intros [Hs Hm] [Et H1] H0. destruct (token_next b Hr o FDT_PROP o1 Hs (conj Et H1) ltac:(done)) as (_ & Ho & _ & _ & Hta). destruct (ta_bound _ _ _ _ Hta) as [Hst Hb].
  destruct (ta_prop _ _ _ _ Hta eq_refl) as (_ & Hp & _). cbn zeta in Hp. rewrite H0 in Hp. pose proof (bo_int _ Hok). pose proof (bo_size _ Hok). unfold INT_MAX in *.
  assert (forall x, 0 <= x <= 12 -> s32 (o + x) = o + x) as Hs32 by (intros; apply sw_small; [lia|unfold is_sw; change (2 ^ (32 - 1)) with (2 ^ 31); lia]).
  assert (forall x, 0 <= x <= 12 -> is_sw 32 (o + x)) as Hsw by (intros; unfold is_sw; change (2 ^ (32 - 1)) with (2 ^ 31); lia).
  revert Et. unfold fdt_next_tag. change FDT_TAGSIZE with 4. rewrite (offset_ptr_eq b Hok o 4) by (done || (unfold is_uw; lia)).
  destruct (ptr_ok b o 4); [|done]. cbn [mbind option_bind]. destruct (ld_ok b Hok (st + o)) as [-> _]; [lia|lia|]. cbn [mbind option_bind]. rewrite (ta_tag _ _ _ _ Hta).
  change (FDT_PROP =? FDT_BEGIN_NODE) with false. change (FDT_PROP =? FDT_PROP) with true. cbv match zeta.
  rewrite (Hs32 4), (offset_ptr_eq b Hok (o + 4) 4) by (lia || (apply Hsw; lia) || (unfold is_uw; lia)). destruct (ptr_ok b (o + 4) 4); [|done]. cbn [mbind option_bind].
  destruct (ld_ok b Hok (st + (o + 4))) as [-> _]; [lia|lia|]. replace (st + (o + 4)) with (st + o + 4) by lia. rewrite H0. cbn [mbind option_bind]. destruct (_ || _); [done|].
  destruct (version_16 b Hr) as (v & -> & Hver). cbn [mbind option_bind]. rewrite Hver. cbn [andb]. change (12 - 4 + 0) with 8. replace (o + 4 + 8) with (o + 12) by lia. rewrite Hs32 by lia.
  rewrite (offset_ptr_eq b Hok) by (done || (apply uw_range; lia)). destruct (ptr_ok b o _); [|done]. cbn [mbind option_bind]. rewrite tagalign_eq.
  assert ((- (o + 12)) mod 4 = 0) as -> by (clear - Hm; Z.to_euclidean_division_equations; lia). rewrite Z.add_0_r, Hs32 by lia. by intros [= <-].
Qed.

Lemma tag_nul o tag o1 : is_sw 32 o -> token b o tag o1 -> tag <> FDT_END -> cstr m (st + o) = Some [].
Proof.
  intros Ho Ht Hne. destruct (token_next b Hr o tag o1 Ho Ht Hne) as (_ & H0 & _ & _ & Hta). destruct (ta_bound _ _ _ _ Hta) as [Hst Hb]. pose proof (bo_size _ Hok).
  pose proof (ta_tag _ _ _ _ Hta) as E. change (hv b (st + o)) with (be (take 4 (drop (Z.to_nat (st + o)) m))) in E.
  assert (tag < 256) as Hlt by (destruct (ta_kind _ _ _ _ Hta) as [-> |[-> |[-> | ->]]]; reflexivity). rewrite <- E in Hlt.
  pose proof (bo_bytes _ Hok) as Hby. unfold cstr. destruct (Z.ltb_spec (st + o) 0); [lia|].
  assert (Forall is_byte (drop (Z.to_nat (st + o)) m)) as Hd by (by apply Forall_drop).
  assert (4 <= length (drop (Z.to_nat (st + o)) m))%nat as Hl by (rewrite length_drop; unfold zlen in *; lia).
  clear - Hlt Hd Hl. revert Hlt Hd Hl. generalize (drop (Z.to_nat (st + o)) m). intros [|c0 [|c1 [|c2 [|c3 r]]]] Hlt Hd Hl; cbn [length] in Hl; try lia. cbn [to_nul].
  repeat match goal with H : Forall is_byte (_ :: _) |- _ => apply Forall_cons in H as [? H] end. unfold is_byte in *.
  unfold be in Hlt. cbn [take fold_left] in Hlt. rewrite take_0 in Hlt. cbn [fold_left] in Hlt. destruct (Z.eqb_spec c0 0); [done|]. lia.
Qed.

(** One property. *)
Lemma print_prop_ok p o1 ps ks e pre x r out : at_tag (p_off p) -> token b (p_off p) FDT_PROP o1 -> prop_at b p -> items b o1 ps ks e ->
  print_prop b (p_off p) (zlen pre) (pre ++ x :: r, out) = Some (tt, (pre ++ x :: r, out ++ prop_lead pre x ++ show_value p)).
Proof.
  intros Hg Ht Hp Hi. destruct (property_tree b Hr p o1 Hg Ht Hp) as [Ep E8]. destruct Hp as ((q & Es & Hq) & Hl & Hv).
  unfold print_prop. destruct (Z.leb_spec 0 (zlen pre)); [|pose proof (zlen_nonneg pre); lia]. unfold mbind at 1, M_bind at 1. rewrite pretty_prop_ok.
  assert (fdt_getprop_by_offset b (p_off p) true = Some (Some (st + p_off p + 12), Some q, zlen (p_val p))) as ->.
  { unfold fdt_getprop_by_offset. rewrite Ep. cbn [mbind option_bind]. rewrite E8. cbn [mbind option_bind]. rewrite Es. cbn [mbind option_bind].
    unfold prop_data. destruct (version_16 b Hr) as (ver & -> & Hver). cbn [mbind option_bind]. by rewrite Hver. }
  pose proof (rdn_bytes _ _ Hv) as Hb. unfold mbind, M_bind, lift. rewrite (is_str_ok _ _ Hb), Hq. unfold show_value, emit. cbn [fst snd].
  destruct (shown_as_string (p_val p)) eqn:Est.
  - assert (cstr m (st + p_off p + 12) = Some (default [] (to_nul (p_val p)))) as ->; [|cbn [fst snd]; by rewrite <- app_assoc].
    destruct (p_val p) as [|c v] eqn:Ev.
    + change (zlen (@nil Z)) with 0 in Hl. pose proof (empty_next _ _ Hg Ht Hl) as ->. pose proof (token_at_tag b Hr _ _ _ Hg Ht ltac:(done)) as [Hs1 _].
      replace (st + p_off p + 12) with (st + (p_off p + 12)) by lia. by inversion Hi; subst; eapply tag_nul.
    + apply text_cstr; [done|done|]. unfold shown_as_string in Est. destruct c; destruct v; done.
  - assert (Z.to_nat (zlen (p_val p)) = length (p_val p)) as -> by (unfold zlen; lia). rewrite (byte_outs_ok _ _ Hb). cbn [fst snd]. by rewrite <- app_assoc.
Qed.

(** The properties of a node. *)
Lemma print_props_ok o ps ks e : items b o ps ks e -> at_tag o -> forall fuel pre x r out, (length ps < fuel)%nat ->
  print_props b fuel (first_off ps) (zlen pre) (pre ++ x :: r, out) =
    Some (tt, (pre ++ x :: r, out ++ (ps ≫= fun p => prop_lead pre x ++ show_value p))).
Proof.
  intros Hi. induction Hi as [o o' Ht|o o1 ps ks o' Ht Hi IH|o o1 p ps ks o' Ht Hpo Hp Hi IH|o o1 o2 n ps ks ps' ks' o' Ht Hn Hi1 _ Hi2 _];
    intros Hg fuel pre x r out Hf; pose proof (token_at_tag b Hr _ _ _ Hg Ht ltac:(done)) as Hg1.
  - destruct fuel as [|fuel]; [lia|]. cbn. by rewrite app_nil_r.
  - apply IH; done.
  - destruct fuel as [|fuel]; [cbn in Hf; lia|]. cbn [print_props first_off]. destruct (token_next b Hr _ _ _ (proj1 Hg) Ht ltac:(done)) as (_ & H0 & Hlt & _).
    subst o. destruct (Z.leb_spec 0 (p_off p)); [|lia]. unfold mbind at 1, M_bind at 1. rewrite (print_prop_ok p o1 ps ks o' pre x r out) by done.
    assert (fdt_next_property_offset b (p_off p) = Some (first_off ps)) as ->.
    { unfold fdt_next_property_offset. rewrite (token_check_prop b Hr _ _ (proj1 Hg) Ht (proj2 Hg)). cbn [mbind option_bind]. destruct (Z.ltb_spec o1 0); [lia|]. by apply (nextprop_tree b Hr _ _ _ _ Hi). }
    unfold mbind at 1, M_bind at 1, lift. rewrite (IH Hg1 fuel) by (cbn in Hf; lia). cbn [mbind list_bind]. by rewrite <- !app_assoc.
  - destruct fuel as [|fuel]; [lia|]. cbn. by rewrite app_nil_r.
Qed.

Lemma items_props_len o ps ks e : items b o ps ks e -> at_tag o -> 4 * zlen ps <= e - o.
Proof.
  induction 1 as [o o' Ht|o o1 ps ks o' Ht Hi IH|o o1 p ps ks o' Ht _ _ Hi IH|o o1 o2 n ps ks ps' ks' o' Ht Hnm Hi1 IH1 Hi2 IH2];
    intros Hg; destruct (token_next b Hr _ _ _ (proj1 Hg) Ht ltac:(done)) as (_ & H0 & Hlt & _);
    pose proof (token_at_tag b Hr _ _ _ Hg Ht ltac:(done)) as Hg1.
  - change (zlen (@nil pitem)) with 0. lia.
  - specialize (IH Hg1). lia.
  - specialize (IH Hg1). rewrite zlen_cons. lia.
  - destruct (items_at_tag b Hr _ _ _ _ Hi1 Hg1) as [Hg2 Hlt2]. destruct (items_at_tag b Hr _ _ _ _ Hi2 Hg2) as [_ Hlt3]. change (zlen (@nil pitem)) with 0. lia.
Qed.

Lemma print_node_prop_ok t e pre x r out : at_tag (d_off t) -> node_at b t e ->
  print_node_prop b (d_off t) (zlen pre) (pre ++ x :: r, out) =
    Some (tt, (pre ++ x :: r, out ++ (d_props t ≫= fun p => prop_lead pre x ++ show_value p))).
Proof.
  intros Hg Hn. destruct (node_range b Hr t e Hg Hn) as (o1 & Ht & Hi & Hg1 & _ & ? & ? & ? & _). unfold print_node_prop, mbind at 1, M_bind at 1, lift at 1.
  assert (fdt_first_property_offset b (d_off t) = Some (first_off (d_props t))) as ->.
  { unfold fdt_first_property_offset. rewrite (token_check b Hr _ _ (proj1 Hg) Ht (proj2 Hg)). cbn [mbind option_bind]. destruct (Z.ltb_spec o1 0); [lia|]. by apply (nextprop_tree b Hr _ _ _ _ Hi). }
  apply (print_props_ok o1 _ _ e Hi Hg1). pose proof (items_props_len _ _ _ _ Hi Hg1). pose proof (node_end_bound b Hr t e Hg Hn). pose proof (bo_size _ Hok). unfold blob_fuel, zlen in *. lia.
Qed.

Lemma height_kid t k : k ∈ d_kids t -> 1 + height k <= height t.
Proof.
  destruct t as [o n ps ks]. cbn [d_kids height]. induction ks as [|k' ks IH]; [by intros ?%elem_of_nil|]. cbn [foldr]. intros [-> |Hk]%elem_of_cons; [lia|]. specialize (IH Hk). lia.
Qed.

(** The loop over the sub-nodes prints all but the last one, which it returns. *)
Lemma print_loop_ok t e print pre (room : Z) : at_tag (d_off t) -> node_at b t e ->
  (forall k r out, k ∈ d_kids t -> room <= zlen r -> exists r', print (d_off k) (pre ++ true :: r, out) = Some (tt, (pre ++ true :: r', out ++ show (pre ++ [true]) k)) /\ length r' = length r) ->
  forall rest k fuel r out, kid_then k (d_kids t) rest -> (length rest < fuel)%nat -> room <= zlen r ->
  exists l r', last (k :: rest) = Some l /\ l ∈ d_kids t /\ length r' = length r /\
    print_loop b print fuel (match rest with k' :: _ => d_off k' | [] => - FDT_ERR_NOTFOUND end) (d_off k) (pre ++ true :: r, out) =
      Some (d_off l, (pre ++ true :: r', out ++ (removelast (k :: rest) ≫= show (pre ++ [true])))).
Proof.
  intros Hg Hn Hpr. induction rest as [|k' rest IH]; intros k fuel r out Hk Hf Hroom; (destruct fuel as [|fuel]; [lia|]); cbn [print_loop].
  - exists k, r. split_and!; [done|by apply kid_then_in in Hk|done|]. change (0 <=? - FDT_ERR_NOTFOUND) with false. cbn. by rewrite app_nil_r.
  - pose proof (kid_then_in _ _ _ Hk) as Hin. pose proof (kid_then_next _ _ _ _ Hk) as Hk'. destruct (kid_at b Hr _ _ _ Hg Hn Hin) as (_ & _ & _ & _ & H0 & _).
    destruct (kid_at b Hr _ _ _ Hg Hn (kid_then_in _ _ _ Hk')) as (_ & _ & _ & _ & H0' & _). destruct (Z.leb_spec 0 (d_off k')); [|lia]. destruct (Z.leb_spec 0 (d_off k)); [|lia].
    destruct (Hpr k r out Hin Hroom) as (r1 & E1 & L1). unfold mbind at 1, M_bind at 1. rewrite E1. unfold mbind at 1, M_bind at 1, lift.
    rewrite (next_subnode_tree b Hr t e k' _ Hg Hn Hk'). destruct (IH k' fuel r1 (out ++ show (pre ++ [true]) k) Hk' ltac:(cbn in Hf; lia) ltac:(unfold zlen in *; lia)) as (l & r2 & El & Hl & L2 & E2).
    exists l, r2. split_and!; [done|done|lia|]. rewrite E2. change (removelast (k :: k' :: rest)) with (k :: removelast (k' :: rest)). cbn [mbind list_bind]. by rewrite <- app_assoc.
Qed.

Lemma print_loop_start t e print k rest f s : at_tag (d_off t) -> node_at b t e -> kid_then k (d_kids t) rest -> 0 <= d_off k ->
  print_loop b print (S f) (d_off k) (-1) s = print_loop b print f (match rest with k' :: _ => d_off k' | [] => - FDT_ERR_NOTFOUND end) (d_off k) s.
Proof.
  intros Hg Hn Hk H0. cbn [print_loop]. destruct (Z.leb_spec 0 (d_off k)); [|lia]. change (0 <=? -1) with false. cbv match.
  unfold mbind, M_bind, mret, M_ret, lift. by rewrite (next_subnode_tree b Hr t e k _ Hg Hn Hk).
Qed.

Lemma show_kids_last pre k : forall ks l, last (k :: ks) = Some l ->
  show_kids pre (k :: ks) = (removelast (k :: ks) ≫= show (pre ++ [true])) ++ show (pre ++ [false]) l.
Proof.
  intros ks. revert k. induction ks as [|k' ks IH]; intros k l El; [cbn in El |- *; injection El as ->; by rewrite app_nil_r|].
  cbn [show_kids]. rewrite bool_decide_eq_false_2 by done. cbn [negb]. change (last (k :: k' :: ks)) with (last (k' :: ks)) in El.
  pose proof (IH k' l El) as E. cbn [show_kids] in E. rewrite E. change (removelast (k :: k' :: ks)) with (k :: removelast (k' :: ks)). cbn [mbind list_bind]. by rewrite <- app_assoc.
Qed.

Lemma print_node_ok : forall t e fuel pre r out, at_tag (d_off t) -> node_at b t e -> e - d_off t < 4 * Z.of_nat fuel -> 1 + height t <= zlen r ->
  exists r', fdt_print_node b fuel (d_off t) (zlen pre) (pre ++ r, out) = Some (tt, (pre ++ r', out ++ show pre t)) /\ length r' = length r.
Proof.
  induction t as [o n ps ks IH] using dt_ind'. intros e fuel pre r out Hg Hn Hf Hh. set (t := DNode o n ps ks) in *. rewrite show_unfold.
  destruct (node_range b Hr t e Hg Hn) as (o1 & Ht & Hi & Hg1 & _ & H0 & ? & ? & ?). destruct Hn as (o1' & Ht' & Hnm & Hi'). assert (node_at b t e) as Hn by (by exists o1').
  destruct fuel as [|fuel]; [lia|]. cbn [fdt_print_node]. unfold mbind at 1, M_bind at 1. rewrite pretty_node_ok. unfold mbind at 1, M_bind at 1, lift at 1.
  rewrite (get_name_tree b Hr (d_off t) o1 (d_name t) Hg Ht Hnm). cbn [fst]. unfold mbind at 1, M_bind at 1, lift at 1. unfold name_at in Hnm. rewrite Hnm.
  unfold mbind at 1, M_bind at 1, emit at 1. cbn [fst snd]. unfold mbind at 1, M_bind at 1, lift at 1.
  assert (forall k, k ∈ d_kids t -> 0 <= d_off k) as Hk0 by (intros k Hk; by destruct (kid_at b Hr _ _ _ Hg Hn Hk) as (? & _ & _ & _ & ? & _)).
  rewrite (first_subnode_tree b Hr t e Hg Hn Hk0). assert (0 <= height t) as Hh0 by (clear; destruct t as [? ? ? l]; cbn [height]; induction l; cbn [foldr]; lia).
  destruct r as [|x r]; [change (zlen (@nil bool)) with 0 in Hh; lia|]. unfold mbind at 1, M_bind at 1. rewrite depth_put_ok. unfold mbind at 1, M_bind at 1.
  rewrite (print_node_prop_ok t e) by done. unfold mbind at 1, M_bind at 1. rewrite depth_get_ok.
  destruct (d_kids t) as [|k rest] eqn:Ek.
  { change (0 <=? - FDT_ERR_NOTFOUND) with false. cbv match. exists (false :: r). split; [|done]. rewrite bool_decide_eq_true_2 by done. cbn [show_kids negb]. rewrite app_nil_r, <- !app_assoc. done. }
  assert (k ∈ d_kids t) as Hk by (rewrite Ek; by left). destruct (Z.leb_spec 0 (d_off k)); [|specialize (Hk0 k ltac:(by left)); lia].
  unfold mbind at 1, M_bind at 1, lift at 1. unfold mbind at 1, M_bind at 1. rewrite zlen_cons in Hh.
  assert (forall k v r out, k ∈ d_kids t -> height t <= zlen r -> exists r', fdt_print_node b fuel (d_off k) (zlen pre + 1) (pre ++ v :: r, out) =
    Some (tt, (pre ++ v :: r', out ++ show (pre ++ [v]) k)) /\ length r' = length r) as Hpr.
  { intros k' v r' out' Hk' Hr'. destruct (kid_at b Hr _ _ _ Hg Hn Hk') as (e' & Hn' & Hg' & ? & ? & ? & ?). pose proof (height_kid t k' Hk').
    rewrite Forall_forall in IH. destruct (IH k' Hk' e' fuel (pre ++ [v]) r' out' Hg' Hn' ltac:(lia) ltac:(lia)) as (r2 & E2 & L2). exists r2. split; [|done].
    rewrite zlen_app, <- !app_assoc in E2. exact E2. }
  assert (length rest + 1 < blob_fuel b)%nat as Hlen.
  { pose proof (kids_increase b Hr _ _ _ _ Hi Hg1) as Hlen. rewrite zlen_cons in Hlen. pose proof (node_end_bound b Hr t e Hg Hn). pose proof (bo_size _ Hok). unfold blob_fuel, zlen in *. lia. }
  assert (kid_then k (d_kids t) rest) as Hkt by (rewrite Ek; constructor).
  destruct (blob_fuel b) as [|f]; [lia|]. rewrite (print_loop_start t e _ k rest f _ Hg Hn Hkt) by done.
  set (out1 := ((out ++ node_lead pre) ++ [PNode (d_off t) (d_name t)]) ++ (d_props t ≫= fun p => prop_lead pre true ++ show_value p)).
  destruct (print_loop_ok t e (fun prev => fdt_print_node b fuel prev (zlen pre + 1)) pre (height t) Hg Hn) with (rest := rest) (k := k) (fuel := f) (r := r) (out := out1)
    as (l & r1 & El & Hl & L1 & E1); [intros k' r' out' Hk' Hr'; by apply Hpr|done|lia|lia|].
  rewrite E1. unfold mbind at 1, M_bind at 1. rewrite depth_put_ok. destruct (Hpr l false r1 (out1 ++ (removelast (k :: rest) ≫= show (pre ++ [true]))) Hl ltac:(unfold zlen in *; lia)) as (r2 & E2 & L2).
  rewrite E2. exists (false :: r2). split; [|cbn; lia]. do 3 f_equal. rewrite (show_kids_last pre k rest l El). unfold out1. rewrite bool_decide_eq_false_2 by done. cbn [negb]. by rewrite <- !app_assoc.
Qed.
End PrintTree.

(** Printing a node of a tree that is less than 32 levels deep stays inside
    [depth_set] and prints the node, its properties and its sub-nodes in the
    order of the tree, every line behind the bars of the ancestors that have
    more to come; the value of a property is a string, its first one when there
    are several, or its bytes. *)
Theorem fdt_print_node_correct b t s ds out : holds b t -> within s t -> length ds = 32%nat -> height s < 32 ->
  exists ds', fdt_print_node b (blob_fuel b) (d_off s) 0 (ds, out) = Some (tt, (ds', out ++ show [] s)) /\ length ds' = 32%nat.
Proof.
  intros (Hr & H0 & o' & _ & Hn & _) Hw Hl Hh. assert (at_tag (d_off t)) as Hg by (rewrite H0; done). destruct (within_at b Hr t o' s Hg Hn Hw) as (e & Hsg & Hsn).
  pose proof (node_end_bound b Hr s e Hsg Hsn). pose proof (bo_size _ (rb_ok _ Hr)). pose proof (bo_hdr _ (rb_ok _ Hr)). destruct (node_range b Hr s e Hsg Hsn) as (_ & _ & _ & _ & _ & ? & _).
  destruct (print_node_ok b Hr s e (blob_fuel b) [] ds out Hsg Hsn) as (r' & E & Lr); [unfold blob_fuel, zlen in *; lia|unfold zlen; lia|].
  exists r'. split; [exact E|lia].
Qed.

(** A sample, and a tree for which [depth_set] is too short. *)
Definition small_blob : region := Eval vm_compute in
  blob_of 160 (SNode [] [(byte_list "model", str "x")] [SNode (byte_list "a") [(byte_list "reg", [0; 200])] [SNode (byte_list "b") [] []]; SNode (byte_list "c") [] []]).
Example small_printed : (fun r => r.2.2) <$> fdt_print_node small_blob (blob_fuel small_blob) 0 0 (replicate 32 false, []) = Some
  [PNode 0 []; PText "|  "; PString (byte_list "model") (byte_list "x");
   PText "+-- "; PNode 24 (byte_list "a"); PText "|   "; PText "|  "; PBytes (byte_list "reg") 2; PByte 0; PByte 200; PNewline;
   PText "|   "; PText "\-- "; PNode 48 (byte_list "b");
   PText "\-- "; PNode 64 (byte_list "c")].
Proof. vm_compute. reflexivity. Qed.

Fixpoint chain (n : nat) : stree := SNode (byte_list "n") [] (match n with O => [] | S n => [chain n] end).
Example deep_tree_overflows :
  (fun r => length r.2.2) <$> fdt_print_node (blob_of 640 (chain 31)) 100 0 0 (replicate 32 false, []) = Some 528%nat /\
  fdt_print_node (blob_of 640 (chain 32)) 100 0 0 (replicate 32 false, []) = None.
Proof. split; vm_compute; reflexivity. Qed.
