(* ===== verification/Elf.v ===== *)
(** The ELF reader and loader, src/deps/libelf (src/elf.c, src/elf32.c,
    src/elf64.c and the inline accessors of include/elf/elf.h, elf32.h and
    elf64.h).  The layouts of the ELF structures are those of the ELF
    specification (the system's <elf.h>); the target is little-endian with
    64-bit pointers.  [None] is a read outside the file. *)
From S2P Require Import Prelude Bytes.

Record elf_t := Elf {
  elfFile : list Z;
  elfSize : Z;
  elfClass : Z;
}.
Inductive elf_addr_type := VIRTUAL | PHYSICAL.

Definition ELFMAG : list Z := [127; 69; 76; 70].
Definition EI_CLASS : Z := 4.
Definition ELFCLASS32 : Z := 1.
Definition ELFCLASS64 : Z := 2.
Definition SHT_STRTAB : Z := 3.

(** A field: its offset in the structure and its size. *)
Definition field : Type := Z * Z.
Record layout := Layout {
  l_class : Z;       (** value of e_ident[EI_CLASS] *)
  l_bits : Z;        (** width of offsets and addresses *)
  l_ehdr : Z; l_phdr : Z; l_shdr : Z;   (** structure sizes *)
  e_entry : field; e_phoff : field; e_shoff : field; e_phentsize : field; e_phnum : field;
  e_shentsize : field; e_shnum : field; e_shstrndx : field;
  p_type : field; p_offset : field; p_vaddr : field; p_paddr : field; p_filesz : field;
  p_memsz : field; p_flags : field; p_align : field;
  sh_name : field; sh_type : field; sh_flags : field; sh_addr : field; sh_offset : field;
  sh_size : field; sh_link : field; sh_info : field; sh_addralign : field; sh_entsize : field;
}.

Definition elf32_layout : layout := {|
  l_class := ELFCLASS32; l_bits := 32; l_ehdr := 52; l_phdr := 32; l_shdr := 40;
  e_entry := (24, 4); e_phoff := (28, 4); e_shoff := (32, 4); e_phentsize := (42, 2); e_phnum := (44, 2);
  e_shentsize := (46, 2); e_shnum := (48, 2); e_shstrndx := (50, 2);
  p_type := (0, 4); p_offset := (4, 4); p_vaddr := (8, 4); p_paddr := (12, 4); p_filesz := (16, 4);
  p_memsz := (20, 4); p_flags := (24, 4); p_align := (28, 4);
  sh_name := (0, 4); sh_type := (4, 4); sh_flags := (8, 4); sh_addr := (12, 4); sh_offset := (16, 4);
  sh_size := (20, 4); sh_link := (24, 4); sh_info := (28, 4); sh_addralign := (32, 4); sh_entsize := (36, 4);
|}.
Definition elf64_layout : layout := {|
  l_class := ELFCLASS64; l_bits := 64; l_ehdr := 64; l_phdr := 56; l_shdr := 64;
  e_entry := (24, 8); e_phoff := (32, 8); e_shoff := (40, 8); e_phentsize := (54, 2); e_phnum := (56, 2);
  e_shentsize := (58, 2); e_shnum := (60, 2); e_shstrndx := (62, 2);
  p_type := (0, 4); p_flags := (4, 4); p_offset := (8, 8); p_vaddr := (16, 8); p_paddr := (24, 8);
  p_filesz := (32, 8); p_memsz := (40, 8); p_align := (48, 8);
  sh_name := (0, 4); sh_type := (4, 4); sh_flags := (8, 8); sh_addr := (16, 8); sh_offset := (24, 8);
  sh_size := (32, 8); sh_link := (40, 4); sh_info := (44, 4); sh_addralign := (48, 8); sh_entsize := (56, 8);
|}.

(** ** The functions that exist once per class *)
Section Class.
  Variable L : layout.

(** [elfNN_getHeader] copies the whole header; then a field of the copy. *)
Definition header_field (elf : elf_t) (f : field) : option Z :=
  h ← rdn (elfFile elf) 0 (l_ehdr L);
  rd_le f.2 h f.1.

Definition getProgramHeaderTable (elf : elf_t) : option Z := header_field elf (e_phoff L).
Definition getSectionTable (elf : elf_t) : option Z := header_field elf (e_shoff L).

(** [elfNN_getProgramHeaderTable(elf)[i].f] and the same for sections. *)
Definition phdr_field (elf : elf_t) (i : Z) (f : field) : option Z :=
  t ← getProgramHeaderTable elf; rd_le f.2 (elfFile elf) (t + i * l_phdr L + f.1).
Definition shdr_field (elf : elf_t) (i : Z) (f : field) : option Z :=
  t ← getSectionTable elf; rd_le f.2 (elfFile elf) (t + i * l_shdr L + f.1).
End Class.

Definition elf_check_magic (file : list Z) : option Z :=
  e ← memeq file 0 ELFMAG; Some (if (e : bool) then 0 else -1).

(** [elfNN_checkFile]: 0 and the class, or -1. *)
Definition checkFile (L : layout) (elf : elf_t) : option (Z * elf_t) :=
  if elfSize elf <? l_ehdr L then Some (-1, elf)
  else
    mg ← elf_check_magic (elfFile elf);
    if mg <? 0 then Some (-1, elf)
    else
      cls ← rd8 (elfFile elf) EI_CLASS;
      if negb (cls =? l_class L) then Some (-1, elf)
      else
        phentsize ← rd_le (e_phentsize L).2 (elfFile elf) (e_phentsize L).1;
        if negb (phentsize =? l_phdr L) then Some (-1, elf)
        else
          shentsize ← rd_le (e_shentsize L).2 (elfFile elf) (e_shentsize L).1;
          if negb (shentsize =? l_shdr L) then Some (-1, elf)
          else
            shstrndx ← rd_le (e_shstrndx L).2 (elfFile elf) (e_shstrndx L).1;
            shnum ← rd_le (e_shnum L).2 (elfFile elf) (e_shnum L).1;
            if shnum <=? shstrndx then Some (-1, elf)
            else Some (0, Elf (elfFile elf) (elfSize elf) cls).

(** [elfNN_checkProgramHeaderTable] and [elfNN_checkSectionTable]: the table's
    end, computed in the width of the class, lies in the file. *)
Definition checkTable (L : layout) (elf : elf_t) (off entsize num : field) : option Z :=
  o ← rd_le off.2 (elfFile elf) off.1;
  es ← rd_le entsize.2 (elfFile elf) entsize.1;
  n ← rd_le num.2 (elfFile elf) num.1;
  let fin := uw (l_bits L) (o + es * n) in
  Some (if (elfSize elf <? fin) || (fin <? o) then -1 else 0).
Definition checkProgramHeaderTable (L : layout) (elf : elf_t) : option Z :=
  checkTable L elf (e_phoff L) (e_phentsize L) (e_phnum L).
Definition checkSectionTable (L : layout) (elf : elf_t) : option Z :=
  checkTable L elf (e_shoff L) (e_shentsize L) (e_shnum L).

Definition elf32_checkFile := checkFile elf32_layout.
Definition elf64_checkFile := checkFile elf64_layout.
Definition elf32_checkProgramHeaderTable := checkProgramHeaderTable elf32_layout.
Definition elf64_checkProgramHeaderTable := checkProgramHeaderTable elf64_layout.
Definition elf32_checkSectionTable := checkSectionTable elf32_layout.
Definition elf64_checkSectionTable := checkSectionTable elf64_layout.

(** ** Dispatch on the class *)
Definition elf_isElf32 (elf : elf_t) : bool := elfClass elf =? ELFCLASS32.
Definition elf_isElf64 (elf : elf_t) : bool := elfClass elf =? ELFCLASS64.
Definition layout_of (elf : elf_t) : layout := if elf_isElf32 elf then elf32_layout else elf64_layout.

Definition elf_checkFile (elf : elf_t) : option (Z * elf_t) :=
  r ← elf32_checkFile elf;
  if r.1 =? 0 then Some (0, r.2)
  else
    r ← elf64_checkFile elf;
    if r.1 =? 0 then Some (0, r.2) else Some (-1, elf).

Definition elf_checkProgramHeaderTable (elf : elf_t) : option Z :=
  if elf_isElf32 elf then elf32_checkProgramHeaderTable elf else elf64_checkProgramHeaderTable elf.
Definition elf_checkSectionTable (elf : elf_t) : option Z :=
  if elf_isElf32 elf then elf32_checkSectionTable elf else elf64_checkSectionTable elf.

(** Status and, on success, the structure ([elfClass] starts as 0). *)
Definition elf_newFile_maybe_unsafe (file : list Z) (size : Z) (check_pht check_st : bool)
    : option (Z * option elf_t) :=
  r ← elf_checkFile (Elf file size 0);
  let '(status, elf) := r in
  if status <? 0 then Some (status, None)
  else
    status ← (if check_pht then elf_checkProgramHeaderTable elf else Some status);
    if status <? 0 then Some (status, None)
    else
      status ← (if check_st then elf_checkSectionTable elf else Some status);
      if status <? 0 then Some (status, None) else Some (status, Some elf).

Definition elf_newFile (file : list Z) (size : Z) : option (Z * option elf_t) :=
  elf_newFile_maybe_unsafe file size true true.

(** ** The inline accessors of elf32.h and elf64.h *)
Definition elf32_getEntryPoint (elf : elf_t) := header_field elf32_layout elf (e_entry elf32_layout).
Definition elf32_getNumProgramHeaders (elf : elf_t) := header_field elf32_layout elf (e_phnum elf32_layout).
Definition elf32_getNumSections (elf : elf_t) := header_field elf32_layout elf (e_shnum elf32_layout).
Definition elf32_getSectionStringTableIndex (elf : elf_t) := header_field elf32_layout elf (e_shstrndx elf32_layout).
Definition elf32_getSectionNameOffset (elf : elf_t) (i : Z) := shdr_field elf32_layout elf i (sh_name elf32_layout).
Definition elf32_getSectionType (elf : elf_t) (i : Z) := shdr_field elf32_layout elf i (sh_type elf32_layout).
Definition elf32_getSectionFlags (elf : elf_t) (i : Z) := shdr_field elf32_layout elf i (sh_flags elf32_layout).
Definition elf32_getSectionAddr (elf : elf_t) (i : Z) := shdr_field elf32_layout elf i (sh_addr elf32_layout).
Definition elf32_getSectionOffset (elf : elf_t) (i : Z) := shdr_field elf32_layout elf i (sh_offset elf32_layout).
Definition elf32_getSectionSize (elf : elf_t) (i : Z) := shdr_field elf32_layout elf i (sh_size elf32_layout).
Definition elf32_getSectionLink (elf : elf_t) (i : Z) := shdr_field elf32_layout elf i (sh_link elf32_layout).
Definition elf32_getSectionInfo (elf : elf_t) (i : Z) := shdr_field elf32_layout elf i (sh_info elf32_layout).
Definition elf32_getSectionAddrAlign (elf : elf_t) (i : Z) := shdr_field elf32_layout elf i (sh_addralign elf32_layout).
Definition elf32_getSectionEntrySize (elf : elf_t) (i : Z) := shdr_field elf32_layout elf i (sh_entsize elf32_layout).
Definition elf32_getProgramHeaderType (elf : elf_t) (i : Z) := phdr_field elf32_layout elf i (p_type elf32_layout).
Definition elf32_getProgramHeaderOffset (elf : elf_t) (i : Z) := phdr_field elf32_layout elf i (p_offset elf32_layout).
Definition elf32_getProgramHeaderVaddr (elf : elf_t) (i : Z) := phdr_field elf32_layout elf i (p_vaddr elf32_layout).
Definition elf32_getProgramHeaderPaddr (elf : elf_t) (i : Z) := phdr_field elf32_layout elf i (p_paddr elf32_layout).
Definition elf32_getProgramHeaderFileSize (elf : elf_t) (i : Z) := phdr_field elf32_layout elf i (p_filesz elf32_layout).
Definition elf32_getProgramHeaderMemorySize (elf : elf_t) (i : Z) := phdr_field elf32_layout elf i (p_memsz elf32_layout).
Definition elf32_getProgramHeaderFlags (elf : elf_t) (i : Z) := phdr_field elf32_layout elf i (p_flags elf32_layout).
Definition elf32_getProgramHeaderAlign (elf : elf_t) (i : Z) := phdr_field elf32_layout elf i (p_align elf32_layout).

Definition elf64_getEntryPoint (elf : elf_t) := header_field elf64_layout elf (e_entry elf64_layout).
Definition elf64_getNumProgramHeaders (elf : elf_t) := header_field elf64_layout elf (e_phnum elf64_layout).
Definition elf64_getNumSections (elf : elf_t) := header_field elf64_layout elf (e_shnum elf64_layout).
Definition elf64_getSectionStringTableIndex (elf : elf_t) := header_field elf64_layout elf (e_shstrndx elf64_layout).
Definition elf64_getSectionNameOffset (elf : elf_t) (i : Z) := shdr_field elf64_layout elf i (sh_name elf64_layout).
Definition elf64_getSectionType (elf : elf_t) (i : Z) := shdr_field elf64_layout elf i (sh_type elf64_layout).
Definition elf64_getSectionFlags (elf : elf_t) (i : Z) := shdr_field elf64_layout elf i (sh_flags elf64_layout).
Definition elf64_getSectionAddr (elf : elf_t) (i : Z) := shdr_field elf64_layout elf i (sh_addr elf64_layout).
Definition elf64_getSectionOffset (elf : elf_t) (i : Z) := shdr_field elf64_layout elf i (sh_offset elf64_layout).
Definition elf64_getSectionSize (elf : elf_t) (i : Z) := shdr_field elf64_layout elf i (sh_size elf64_layout).
Definition elf64_getSectionLink (elf : elf_t) (i : Z) := shdr_field elf64_layout elf i (sh_link elf64_layout).
Definition elf64_getSectionInfo (elf : elf_t) (i : Z) := shdr_field elf64_layout elf i (sh_info elf64_layout).
Definition elf64_getSectionAddrAlign (elf : elf_t) (i : Z) := shdr_field elf64_layout elf i (sh_addralign elf64_layout).
Definition elf64_getSectionEntrySize (elf : elf_t) (i : Z) := shdr_field elf64_layout elf i (sh_entsize elf64_layout).
Definition elf64_getProgramHeaderType (elf : elf_t) (i : Z) := phdr_field elf64_layout elf i (p_type elf64_layout).
Definition elf64_getProgramHeaderOffset (elf : elf_t) (i : Z) := phdr_field elf64_layout elf i (p_offset elf64_layout).
Definition elf64_getProgramHeaderVaddr (elf : elf_t) (i : Z) := phdr_field elf64_layout elf i (p_vaddr elf64_layout).
Definition elf64_getProgramHeaderPaddr (elf : elf_t) (i : Z) := phdr_field elf64_layout elf i (p_paddr elf64_layout).
Definition elf64_getProgramHeaderFileSize (elf : elf_t) (i : Z) := phdr_field elf64_layout elf i (p_filesz elf64_layout).
Definition elf64_getProgramHeaderMemorySize (elf : elf_t) (i : Z) := phdr_field elf64_layout elf i (p_memsz elf64_layout).
Definition elf64_getProgramHeaderFlags (elf : elf_t) (i : Z) := phdr_field elf64_layout elf i (p_flags elf64_layout).
Definition elf64_getProgramHeaderAlign (elf : elf_t) (i : Z) := phdr_field elf64_layout elf i (p_align elf64_layout).

(** ** The accessors of elf.c, which dispatch on the class *)
Definition elf_getEntryPoint (elf : elf_t) : option Z :=
  if elf_isElf32 elf then elf32_getEntryPoint elf else elf64_getEntryPoint elf.
Definition elf_getNumProgramHeaders (elf : elf_t) : option Z :=
  if elf_isElf32 elf then elf32_getNumProgramHeaders elf else elf64_getNumProgramHeaders elf.
Definition elf_getNumSections (elf : elf_t) : option Z :=
  if elf_isElf32 elf then elf32_getNumSections elf else elf64_getNumSections elf.
Definition elf_getSectionStringTableIndex (elf : elf_t) : option Z :=
  if elf_isElf32 elf then elf32_getSectionStringTableIndex elf else elf64_getSectionStringTableIndex elf.
Definition elf_getSectionNameOffset (elf : elf_t) (i : Z) : option Z :=
  if elf_isElf32 elf then elf32_getSectionNameOffset elf i else elf64_getSectionNameOffset elf i.
Definition elf_getSectionType (elf : elf_t) (i : Z) : option Z :=
  if elf_isElf32 elf then elf32_getSectionType elf i else elf64_getSectionType elf i.
Definition elf_getSectionFlags (elf : elf_t) (i : Z) : option Z :=
  if elf_isElf32 elf then elf32_getSectionFlags elf i else elf64_getSectionFlags elf i.
Definition elf_getSectionAddr (elf : elf_t) (i : Z) : option Z :=
  if elf_isElf32 elf then elf32_getSectionAddr elf i else elf64_getSectionAddr elf i.
Definition elf_getSectionOffset (elf : elf_t) (i : Z) : option Z :=
  if elf_isElf32 elf then elf32_getSectionOffset elf i else elf64_getSectionOffset elf i.
Definition elf_getSectionSize (elf : elf_t) (i : Z) : option Z :=
  if elf_isElf32 elf then elf32_getSectionSize elf i else elf64_getSectionSize elf i.
Definition elf_getSectionLink (elf : elf_t) (i : Z) : option Z :=
  if elf_isElf32 elf then elf32_getSectionLink elf i else elf64_getSectionLink elf i.
Definition elf_getSectionInfo (elf : elf_t) (i : Z) : option Z :=
  if elf_isElf32 elf then elf32_getSectionInfo elf i else elf64_getSectionInfo elf i.
Definition elf_getSectionAddrAlign (elf : elf_t) (i : Z) : option Z :=
  if elf_isElf32 elf then elf32_getSectionAddrAlign elf i else elf64_getSectionAddrAlign elf i.
Definition elf_getSectionEntrySize (elf : elf_t) (i : Z) : option Z :=
  if elf_isElf32 elf then elf32_getSectionEntrySize elf i else elf64_getSectionEntrySize elf i.
Definition elf_getProgramHeaderType (elf : elf_t) (i : Z) : option Z :=
  if elf_isElf32 elf then elf32_getProgramHeaderType elf i else elf64_getProgramHeaderType elf i.
Definition elf_getProgramHeaderOffset (elf : elf_t) (i : Z) : option Z :=
  if elf_isElf32 elf then elf32_getProgramHeaderOffset elf i else elf64_getProgramHeaderOffset elf i.
Definition elf_getProgramHeaderVaddr (elf : elf_t) (i : Z) : option Z :=
  if elf_isElf32 elf then elf32_getProgramHeaderVaddr elf i else elf64_getProgramHeaderVaddr elf i.
Definition elf_getProgramHeaderPaddr (elf : elf_t) (i : Z) : option Z :=
  if elf_isElf32 elf then elf32_getProgramHeaderPaddr elf i else elf64_getProgramHeaderPaddr elf i.
Definition elf_getProgramHeaderFileSize (elf : elf_t) (i : Z) : option Z :=
  if elf_isElf32 elf then elf32_getProgramHeaderFileSize elf i else elf64_getProgramHeaderFileSize elf i.
Definition elf_getProgramHeaderMemorySize (elf : elf_t) (i : Z) : option Z :=
  if elf_isElf32 elf then elf32_getProgramHeaderMemorySize elf i else elf64_getProgramHeaderMemorySize elf i.
Definition elf_getProgramHeaderFlags (elf : elf_t) (i : Z) : option Z :=
  if elf_isElf32 elf then elf32_getProgramHeaderFlags elf i else elf64_getProgramHeaderFlags elf i.
Definition elf_getProgramHeaderAlign (elf : elf_t) (i : Z) : option Z :=
  if elf_isElf32 elf then elf32_getProgramHeaderAlign elf i else elf64_getProgramHeaderAlign elf i.

(** ** Sections; a pointer into the file is an offset, [Some None] is NULL *)
Definition elf_getSection (elf : elf_t) (i : Z) : option (option Z) :=
  n ← elf_getNumSections elf;
  if (i =? 0) || (n <=? i) then Some None
  else
    section_offset ← elf_getSectionOffset elf i;
    section_size ← elf_getSectionSize elf i;
    if section_size =? 0 then Some None
    else
      let section_end := u64 (section_offset + section_size) in
      if (elfSize elf <? section_end) || (section_end <? section_offset) then Some None
      else Some (Some section_offset).

Definition elf_getStringTable (elf : elf_t) (string_segment : Z) : option (option Z) :=
  string_table ← elf_getSection elf string_segment;
  match string_table with
  | None => Some None
  | Some string_table =>
      ty ← elf_getSectionType elf string_segment;
      if negb (ty =? SHT_STRTAB) then Some None
      else
        size ← elf_getSectionSize elf string_segment;
        last ← rd8 (elfFile elf) (string_table + u64 (size - 1));
        if negb (last =? 0) then Some None else Some (Some string_table)
  end.

Definition elf_getSectionStringTable (elf : elf_t) : option (option Z) :=
  index ← elf_getSectionStringTableIndex elf; elf_getStringTable elf index.

(** A section's name: in the file, or the literal for a corrupted one. *)
Inductive name_ptr := InFile (p : Z) | Corrupted.
Definition corrupted_name : list Z := byte_list "<corrupted>".

Definition elf_getSectionName (elf : elf_t) (i : Z) : option name_ptr :=
  str_table_idx ← elf_getSectionStringTableIndex elf;
  str_table ← elf_getStringTable elf str_table_idx;
  offset ← elf_getSectionNameOffset elf i;
  size ← elf_getSectionSize elf str_table_idx;
  match str_table with
  | Some t => if size <? offset then Some Corrupted else Some (InFile (t + offset))
  | None => Some Corrupted
  end.

(** Whether the section name is [str]. *)
Definition name_eq (elf : elf_t) (str : list Z) (n : name_ptr) : option bool :=
  match n with
  | InFile p => strcmp_eq str (elfFile elf) p
  | Corrupted => Some (bool_decide (str = corrupted_name))
  end.

(** The section called [str], with its index. *)
Fixpoint section_named_loop (n : nat) (elf : elf_t) (str : list Z) (i : Z) : option (option Z * option Z) :=
  match n with
  | O => Some (None, None)
  | S n =>
      name ← elf_getSectionName elf i;
      e ← name_eq elf str name;
      if (e : bool) then (fun s => (s, Some i)) <$> elf_getSection elf i
      else section_named_loop n elf str (i + 1)
  end.
Definition elf_getSectionNamed (elf : elf_t) (str : list Z) : option (option Z * option Z) :=
  numSections ← elf_getNumSections elf;
  section_named_loop (Z.to_nat numSections) elf str 0.

(** ** Segments *)
Definition elf_getProgramSegment (elf : elf_t) (ph : Z) : option (option Z) :=
  offset ← elf_getProgramHeaderOffset elf ph;
  file_size ← elf_getProgramHeaderFileSize elf ph;
  let segment_end := u64 (offset + file_size) in
  if (elfSize elf <? segment_end) || (segment_end <? offset) then Some None else Some (Some offset).

Definition segment_addr (ty : elf_addr_type) (elf : elf_t) (i : Z) : option Z :=
  match ty with
  | PHYSICAL => elf_getProgramHeaderPaddr elf i
  | VIRTUAL => elf_getProgramHeaderVaddr elf i
  end.

Fixpoint bounds_loop (n : nat) (elf : elf_t) (ty : elf_addr_type) (i mem_min mem_max : Z) : option (Z * Z) :=
  match n with
  | O => Some (mem_min, mem_max)
  | S n =>
      memsz ← elf_getProgramHeaderMemorySize elf i;
      if memsz =? 0 then bounds_loop n elf ty (i + 1) mem_min mem_max
      else
        sect_min ← segment_addr ty elf i;
        let sect_max := u64 (sect_min + memsz) in
        bounds_loop n elf ty (i + 1)
          (if sect_min <? mem_min then sect_min else mem_min)
          (if mem_max <? sect_max then sect_max else mem_max)
  end.
Definition elf_getMemoryBounds (elf : elf_t) (ty : elf_addr_type) : option (Z * Z) :=
  n ← elf_getNumProgramHeaders elf;
  bounds_loop (Z.to_nat n) elf ty 0 (2 ^ 64 - 1) 0.

Definition elf_vaddrInProgramHeader (elf : elf_t) (ph vaddr : Z) : option Z :=
  mn ← elf_getProgramHeaderVaddr elf ph;
  memsz ← elf_getProgramHeaderMemorySize elf ph;
  let mx := u64 (mn + memsz) in
  Some (b2z ((mn <=? vaddr) && (vaddr <? mx))).

Definition elf_vtopProgramHeader (elf : elf_t) (ph vaddr : Z) : option Z :=
  phys ← elf_getProgramHeaderPaddr elf ph;
  virt ← elf_getProgramHeaderVaddr elf ph;
  Some (u64 (vaddr - virt + phys)).

(** ** Loading: memory is the map from addresses to bytes

    Addresses are 64 bits wide: a copy over the end of the address space goes on
    at 0. *)
Fixpoint write_bytes (mem : gmap Z Z) (a : Z) (l : list Z) : gmap Z Z :=
  match l with
  | [] => mem
  | x :: l => write_bytes (<[u64 a := x]> mem) (u64 (a + 1)) l
  end.

(** One turn of the loop of [elf_loadFile].  A segment whose memory size is
    smaller than its file size makes the [memset] length wrap around, more than
    any object holds: undefined. *)
Definition load_segment (elf : elf_t) (ty : elf_addr_type) (i : Z) (mem : gmap Z Z) : option (gmap Z Z) :=
  dest ← segment_addr ty elf i;
  len ← elf_getProgramHeaderFileSize elf i;
  offset ← elf_getProgramHeaderOffset elf i;
  bytes ← rdn (elfFile elf) offset len;
  memsz ← elf_getProgramHeaderMemorySize elf i;
  if memsz <? len then None
  else Some (write_bytes (write_bytes mem dest bytes) (u64 (dest + len)) (replicate (Z.to_nat (memsz - len)) 0)).

Fixpoint load_loop (n : nat) (elf : elf_t) (ty : elf_addr_type) (i : Z) (mem : gmap Z Z) : option (gmap Z Z) :=
  match n with
  | O => Some mem
  | S n => mem ← load_segment elf ty i mem; load_loop n elf ty (i + 1) mem
  end.
Definition elf_loadFile (elf : elf_t) (ty : elf_addr_type) (mem : gmap Z Z) : option (Z * gmap Z Z) :=
  n ← elf_getNumProgramHeaders elf;
  mem ← load_loop (Z.to_nat n) elf ty 0 mem;
  Some (1, mem).
