(* ===== verification/ElfProps.v ===== *)
(** The ELF reader never leaves the file it accepted, and the loader builds the
    memory image the program headers describe. *)
From S2P Require Import Prelude Bytes Elf.

(** ** The accessors, by the layout of the file's class *)
Section Accessors.
  Implicit Types elf : elf_t.
Local Ltac by_class elf := unfold layout_of; by destruct (elf_isElf32 elf).
Lemma getEntryPoint_eq elf : elf_getEntryPoint elf = header_field (layout_of elf) elf (e_entry (layout_of elf)).
Proof. unfold elf_getEntryPoint. by_class elf. Qed.
Lemma getNumProgramHeaders_eq elf : elf_getNumProgramHeaders elf = header_field (layout_of elf) elf (e_phnum (layout_of elf)).
Proof. unfold elf_getNumProgramHeaders. by_class elf. Qed.
Lemma getNumSections_eq elf : elf_getNumSections elf = header_field (layout_of elf) elf (e_shnum (layout_of elf)).
Proof. unfold elf_getNumSections. by_class elf. Qed.
Lemma getSectionStringTableIndex_eq elf : elf_getSectionStringTableIndex elf = header_field (layout_of elf) elf (e_shstrndx (layout_of elf)).
Proof. unfold elf_getSectionStringTableIndex. by_class elf. Qed.
Lemma getSectionNameOffset_eq elf i : elf_getSectionNameOffset elf i = shdr_field (layout_of elf) elf i (sh_name (layout_of elf)).
Proof. unfold elf_getSectionNameOffset. by_class elf. Qed.
Lemma getSectionType_eq elf i : elf_getSectionType elf i = shdr_field (layout_of elf) elf i (sh_type (layout_of elf)).
Proof. unfold elf_getSectionType. by_class elf. Qed.
Lemma getSectionFlags_eq elf i : elf_getSectionFlags elf i = shdr_field (layout_of elf) elf i (sh_flags (layout_of elf)).
Proof. unfold elf_getSectionFlags. by_class elf. Qed.
Lemma getSectionAddr_eq elf i : elf_getSectionAddr elf i = shdr_field (layout_of elf) elf i (sh_addr (layout_of elf)).
Proof. unfold elf_getSectionAddr. by_class elf. Qed.
Lemma getSectionOffset_eq elf i : elf_getSectionOffset elf i = shdr_field (layout_of elf) elf i (sh_offset (layout_of elf)).
Proof. unfold elf_getSectionOffset. by_class elf. Qed.
Lemma getSectionSize_eq elf i : elf_getSectionSize elf i = shdr_field (layout_of elf) elf i (sh_size (layout_of elf)).
Proof. unfold elf_getSectionSize. by_class elf. Qed.
Lemma getSectionLink_eq elf i : elf_getSectionLink elf i = shdr_field (layout_of elf) elf i (sh_link (layout_of elf)).
Proof. unfold elf_getSectionLink. by_class elf. Qed.
Lemma getSectionInfo_eq elf i : elf_getSectionInfo elf i = shdr_field (layout_of elf) elf i (sh_info (layout_of elf)).
Proof. unfold elf_getSectionInfo. by_class elf. Qed.
Lemma getSectionAddrAlign_eq elf i : elf_getSectionAddrAlign elf i = shdr_field (layout_of elf) elf i (sh_addralign (layout_of elf)).
Proof. unfold elf_getSectionAddrAlign. by_class elf. Qed.
Lemma getSectionEntrySize_eq elf i : elf_getSectionEntrySize elf i = shdr_field (layout_of elf) elf i (sh_entsize (layout_of elf)).
Proof. unfold elf_getSectionEntrySize. by_class elf. Qed.
Lemma getProgramHeaderType_eq elf i : elf_getProgramHeaderType elf i = phdr_field (layout_of elf) elf i (p_type (layout_of elf)).
Proof. unfold elf_getProgramHeaderType. by_class elf. Qed.
Lemma getProgramHeaderOffset_eq elf i : elf_getProgramHeaderOffset elf i = phdr_field (layout_of elf) elf i (p_offset (layout_of elf)).
Proof. unfold elf_getProgramHeaderOffset. by_class elf. Qed.
Lemma getProgramHeaderVaddr_eq elf i : elf_getProgramHeaderVaddr elf i = phdr_field (layout_of elf) elf i (p_vaddr (layout_of elf)).
Proof. unfold elf_getProgramHeaderVaddr. by_class elf. Qed.
Lemma getProgramHeaderPaddr_eq elf i : elf_getProgramHeaderPaddr elf i = phdr_field (layout_of elf) elf i (p_paddr (layout_of elf)).
Proof. unfold elf_getProgramHeaderPaddr. by_class elf. Qed.
Lemma getProgramHeaderFileSize_eq elf i : elf_getProgramHeaderFileSize elf i = phdr_field (layout_of elf) elf i (p_filesz (layout_of elf)).
Proof. unfold elf_getProgramHeaderFileSize. by_class elf. Qed.
Lemma getProgramHeaderMemorySize_eq elf i : elf_getProgramHeaderMemorySize elf i = phdr_field (layout_of elf) elf i (p_memsz (layout_of elf)).
Proof. unfold elf_getProgramHeaderMemorySize. by_class elf. Qed.
Lemma getProgramHeaderFlags_eq elf i : elf_getProgramHeaderFlags elf i = phdr_field (layout_of elf) elf i (p_flags (layout_of elf)).
Proof. unfold elf_getProgramHeaderFlags. by_class elf. Qed.
Lemma getProgramHeaderAlign_eq elf i : elf_getProgramHeaderAlign elf i = phdr_field (layout_of elf) elf i (p_align (layout_of elf)).
Proof. unfold elf_getProgramHeaderAlign. by_class elf. Qed.
End Accessors.

Create Rewrite HintDb elf.
#[export] Hint Rewrite getEntryPoint_eq getNumProgramHeaders_eq getNumSections_eq getSectionStringTableIndex_eq getSectionNameOffset_eq getSectionType_eq getSectionFlags_eq getSectionAddr_eq getSectionOffset_eq getSectionSize_eq getSectionLink_eq getSectionInfo_eq getSectionAddrAlign_eq getSectionEntrySize_eq getProgramHeaderType_eq getProgramHeaderOffset_eq getProgramHeaderVaddr_eq getProgramHeaderPaddr_eq getProgramHeaderFileSize_eq getProgramHeaderMemorySize_eq getProgramHeaderFlags_eq getProgramHeaderAlign_eq : elf.

(** Membership in an explicit list of fields. *)
Ltac in_list := rewrite ?elem_of_cons, ?elem_of_nil in *; tauto.

(** ** Fields *)

Lemma le_range l : Forall is_byte l -> 0 <= le l < 256 ^ zlen l.
Proof.
  induction 1 as [|x l Hx Hl IH]; [done|]. cbn [le fold_right]. fold (le l). rewrite zlen_cons.
  rewrite Z.pow_add_r by (pose proof (zlen_nonneg l); lia). change (256 ^ 1) with 256. unfold is_byte in Hx. nia.
Qed.

Lemma rd_le_ok m k p : Forall is_byte m -> 0 <= k -> 0 <= p -> p + k <= zlen m ->
  exists v, rd_le k m p = Some v /\ 0 <= v < 256 ^ k.
Proof.
  intros Hm Hk Hp Hb. unfold rd_le. rewrite rdn_Some by lia. eexists. split; [done|].
  assert (zlen (take (Z.to_nat k) (drop (Z.to_nat p) m)) = k) as E.
  { unfold zlen in *. rewrite length_take, length_drop. lia. }
  rewrite <- E at 3. apply le_range. by apply Forall_take, Forall_drop.
Qed.

(** A field fits into a structure of [size] bytes. *)
Definition fits_in (size : Z) (f : field) : Prop := 0 <= f.1 /\ 0 < f.2 <= 8 /\ f.1 + f.2 <= size.

Lemma header_field_eq L elf f : 0 <= l_ehdr L <= zlen (elfFile elf) -> fits_in (l_ehdr L) f ->
  header_field L elf f = rd_le f.2 (elfFile elf) f.1.
Proof.
  intros HL (H0 & H1 & H2). unfold header_field. rewrite rdn_Some by lia. cbn [mbind option_bind drop Z.to_nat].
  unfold rd_le. rewrite !rdn_Some; try lia.
  - f_equal. f_equal. change (drop (Z.to_nat 0) (elfFile elf)) with (elfFile elf).
    rewrite skipn_firstn_comm, take_take. f_equal. lia.
  - change (drop (Z.to_nat 0) (elfFile elf)) with (elfFile elf). unfold zlen in *. rewrite length_take. lia.
Qed.

(** The two layouts are well-formed. *)
Record layout_ok (L : layout) : Prop := {
  lo_bits : l_bits L = 32 \/ l_bits L = 64;
  lo_sizes : 16 <= l_ehdr L <= 64 /\ 0 < l_phdr L <= 64 /\ 0 < l_shdr L <= 64;
  lo_ehdr : Forall (fits_in (l_ehdr L)) [e_entry L; e_phoff L; e_shoff L; e_phentsize L; e_phnum L;
              e_shentsize L; e_shnum L; e_shstrndx L];
  lo_phdr : Forall (fits_in (l_phdr L)) [p_type L; p_offset L; p_vaddr L; p_paddr L; p_filesz L;
              p_memsz L; p_flags L; p_align L];
  lo_shdr : Forall (fits_in (l_shdr L)) [sh_name L; sh_type L; sh_flags L; sh_addr L; sh_offset L;
              sh_size L; sh_link L; sh_info L; sh_addralign L; sh_entsize L];
  lo_words : (e_phoff L).2 * 8 = l_bits L /\ (e_shoff L).2 * 8 = l_bits L /\
             (e_phentsize L).2 = 2 /\ (e_phnum L).2 = 2 /\ (e_shentsize L).2 = 2 /\ (e_shnum L).2 = 2 /\
             (e_shstrndx L).2 = 2;
}.

Lemma elf32_layout_ok : layout_ok elf32_layout.
Proof. split; [by left|..]; repeat constructor; cbn; lia. Qed.
Lemma elf64_layout_ok : layout_ok elf64_layout.
Proof. split; [by right|..]; repeat constructor; cbn; lia. Qed.
Lemma layout_of_ok elf : layout_ok (layout_of elf).
Proof. unfold layout_of. destruct (elf_isElf32 elf); [apply elf32_layout_ok|apply elf64_layout_ok]. Qed.

Definition file_val (elf : elf_t) (f : field) : Z :=
  le (take (Z.to_nat f.2) (drop (Z.to_nat f.1) (elfFile elf))).

(** ** Accepted files *)
Record elf_valid (elf : elf_t) : Prop := {
  ev_bytes : Forall is_byte (elfFile elf);
  ev_size : elfSize elf <= zlen (elfFile elf) /\ elfSize elf < 2 ^ 64;
  ev_hdr : l_ehdr (layout_of elf) <= elfSize elf;
  ev_pht : 0 <= file_val elf (e_phoff (layout_of elf)) /\
    file_val elf (e_phoff (layout_of elf)) + l_phdr (layout_of elf) * file_val elf (e_phnum (layout_of elf)) <= elfSize elf;
  ev_sht : 0 <= file_val elf (e_shoff (layout_of elf)) /\
    file_val elf (e_shoff (layout_of elf)) + l_shdr (layout_of elf) * file_val elf (e_shnum (layout_of elf)) <= elfSize elf;
  ev_strndx : 0 <= file_val elf (e_shstrndx (layout_of elf)) < file_val elf (e_shnum (layout_of elf));
}.

Section Valid.
  Context (elf : elf_t) (Hv : elf_valid elf).
  Local Abbreviation L := (layout_of elf).

Lemma header_ok f : f ∈ [e_entry L; e_phoff L; e_shoff L; e_phentsize L; e_phnum L; e_shentsize L; e_shnum L; e_shstrndx L] ->
  header_field L elf f = Some (file_val elf f) /\ 0 <= file_val elf f.
Proof.
  intros Hf. pose proof (layout_of_ok elf) as Lok. pose proof (ev_hdr _ Hv). destruct (ev_size _ Hv).
  destruct (lo_sizes _ Lok) as (Hs & _).
  pose proof (proj1 (Forall_forall _ _) (lo_ehdr _ Lok) f Hf) as Hfit. destruct Hfit as (? & ? & ?) eqn:Ef.
  rewrite header_field_eq by (done || lia).
  destruct (rd_le_ok (elfFile elf) f.2 f.1 (ev_bytes _ Hv)) as (v & E & Hr); [lia|lia|lia|].
  rewrite E. unfold rd_le in E. rewrite rdn_Some in E by lia. injection E as <-. split; [done|]. unfold file_val. lia.
Qed.

Lemma phnum_eq : elf_getNumProgramHeaders elf = Some (file_val elf (e_phnum L)) /\ 0 <= file_val elf (e_phnum L).
Proof. rewrite getNumProgramHeaders_eq. apply header_ok. in_list. Qed.
Lemma shnum_eq : elf_getNumSections elf = Some (file_val elf (e_shnum L)) /\ 0 <= file_val elf (e_shnum L).
Proof. rewrite getNumSections_eq. apply header_ok. in_list. Qed.
Lemma strndx_eq : elf_getSectionStringTableIndex elf = Some (file_val elf (e_shstrndx L)).
Proof. rewrite getSectionStringTableIndex_eq. apply header_ok. in_list. Qed.

(** Fields of the table entries. *)
Lemma phdr_ok i f : 0 <= i < file_val elf (e_phnum L) -> fits_in (l_phdr L) f ->
  exists v, phdr_field L elf i f = Some v /\ 0 <= v < 256 ^ f.2.
Proof.
  intros Hi (F0 & F1 & F2). unfold phdr_field, getProgramHeaderTable.
  destruct (header_ok (e_phoff L)) as [-> H0]; [in_list|]. cbn [mbind option_bind].
  pose proof (ev_pht _ Hv). destruct (ev_size _ Hv). destruct (lo_sizes _ (layout_of_ok elf)) as (_ & ? & _).
  apply rd_le_ok; [apply Hv|lia|nia|nia].
Qed.

Lemma shdr_ok i f : 0 <= i < file_val elf (e_shnum L) -> fits_in (l_shdr L) f ->
  exists v, shdr_field L elf i f = Some v /\ 0 <= v < 256 ^ f.2.
Proof.
  intros Hi (F0 & F1 & F2). unfold shdr_field, getSectionTable.
  destruct (header_ok (e_shoff L)) as [-> H0]; [in_list|]. cbn [mbind option_bind].
  pose proof (ev_sht _ Hv). destruct (ev_size _ Hv). destruct (lo_sizes _ (layout_of_ok elf)) as (_ & _ & ?).
  apply rd_le_ok; [apply Hv|lia|nia|nia].
Qed.
End Valid.

(** ** Checking a file *)
Section Check.
  Context (file : list Z) (size : Z) (Hb : Forall is_byte file) (Hs : 0 <= size <= zlen file) (H64 : size < 2 ^ 64).

Lemma ehdr_read L elf f : layout_ok L -> elfFile elf = file -> l_ehdr L <= size ->
  f ∈ [e_entry L; e_phoff L; e_shoff L; e_phentsize L; e_phnum L; e_shentsize L; e_shnum L; e_shstrndx L] ->
  rd_le f.2 (elfFile elf) f.1 = Some (file_val elf f) /\ 0 <= file_val elf f < 256 ^ f.2.
Proof.
  intros Lok Ef HL Hf. pose proof (proj1 (Forall_forall _ _) (lo_ehdr _ Lok) f Hf) as (F0 & F1 & F2).
  destruct (rd_le_ok file f.2 f.1 Hb) as (v & E & Hr); [lia|lia|lia|]. rewrite Ef, E.
  unfold file_val. rewrite Ef. unfold rd_le in E. rewrite rdn_Some in E by lia. injection E as <-. done.
Qed.

Lemma checkFile_ok L elf : layout_ok L -> elfFile elf = file -> elfSize elf = size ->
  exists st elf', checkFile L elf = Some (st, elf') /\
    ((st = -1 /\ elf' = elf) \/
     (st = 0 /\ elf' = Elf file size (l_class L) /\ l_ehdr L <= size /\
      file_val elf (e_phentsize L) = l_phdr L /\ file_val elf (e_shentsize L) = l_shdr L /\
      0 <= file_val elf (e_shstrndx L) < file_val elf (e_shnum L))).
Proof.
  intros Lok Ef Es. unfold checkFile. rewrite Es, Ef. pose proof (lo_sizes _ Lok) as (Hsz & _).
  assert (REJ : exists st elf', Some (-1, elf) = Some (st, elf') /\
    ((st = -1 /\ elf' = elf) \/
     (st = 0 /\ elf' = Elf file size (l_class L) /\ l_ehdr L <= size /\
      file_val elf (e_phentsize L) = l_phdr L /\ file_val elf (e_shentsize L) = l_shdr L /\
      0 <= file_val elf (e_shstrndx L) < file_val elf (e_shnum L)))) by (do 2 eexists; split; [done|by left]).
  destruct (Z.ltb_spec size (l_ehdr L)) as [|Hge]; [exact REJ|].
  assert (Hread : forall f, f ∈ [e_entry L; e_phoff L; e_shoff L; e_phentsize L; e_phnum L; e_shentsize L; e_shnum L; e_shstrndx L] ->
    rd_le f.2 file f.1 = Some (file_val elf f) /\ 0 <= file_val elf f < 256 ^ f.2).
  { intros f Hf. rewrite <- Ef at 1. by apply (ehdr_read L). }
  unfold elf_check_magic, memeq. rewrite rdn_Some by (unfold ELFMAG, zlen in *; cbn [length]; lia).
  cbn [mbind option_bind]. case_bool_decide; cbn [Z.ltb Z.compare]; [|exact REJ].
  destruct (proj2 (rd8_is_Some file EI_CLASS)) as [cls ->]; [unfold EI_CLASS; lia|]. cbn [mbind option_bind].
  destruct (Z.eqb_spec cls (l_class L)) as [->|]; cbn [negb]; [|exact REJ].
  destruct (Hread (e_phentsize L)) as [-> _]; [in_list|]. cbn [mbind option_bind].
  destruct (Z.eqb_spec (file_val elf (e_phentsize L)) (l_phdr L)); cbn [negb]; [|exact REJ].
  destruct (Hread (e_shentsize L)) as [-> _]; [in_list|]. cbn [mbind option_bind].
  destruct (Z.eqb_spec (file_val elf (e_shentsize L)) (l_shdr L)); cbn [negb]; [|exact REJ].
  destruct (Hread (e_shstrndx L)) as [-> ?]; [in_list|]. cbn [mbind option_bind].
  destruct (Hread (e_shnum L)) as [-> ?]; [in_list|]. cbn [mbind option_bind].
  destruct (Z.leb_spec (file_val elf (e_shnum L)) (file_val elf (e_shstrndx L))); [exact REJ|].
  do 2 eexists. split; [done|]. right. split_and!; try done; lia.
Qed.

(** A table check passes only when the whole table lies in the file. *)
Lemma checkTable_ok L elf off es num : layout_ok L -> elfFile elf = file -> elfSize elf = size -> l_ehdr L <= size ->
  off ∈ [e_phoff L; e_shoff L] -> es ∈ [e_phentsize L; e_shentsize L] -> num ∈ [e_phnum L; e_shnum L] ->
  file_val elf es <= 64 ->
  exists st, checkTable L elf off es num = Some st /\
    (st = -1 \/ (st = 0 /\ 0 <= file_val elf off /\ 0 <= file_val elf num /\
       file_val elf off + file_val elf es * file_val elf num <= size)).
Proof.
  intros Lok Ef Es HL Ho He Hn Hes. unfold checkTable.
  destruct (lo_words _ Lok) as (W1 & W2 & W3 & W4 & W5 & W6 & _).
  destruct (ehdr_read L elf off Lok Ef HL) as [-> Ro]; [in_list|]. cbn [mbind option_bind].
  destruct (ehdr_read L elf es Lok Ef HL) as [-> Re]; [in_list|]. cbn [mbind option_bind].
  destruct (ehdr_read L elf num Lok Ef HL) as [-> Rn]; [in_list|]. cbn [mbind option_bind].
  assert (Hoff : file_val elf off < 2 ^ l_bits L).
  { assert (off.2 * 8 = l_bits L) as W by (apply elem_of_cons in Ho as [->|Ho]; [done|]; by apply list_elem_of_singleton in Ho as ->).
    rewrite <- W, Z.mul_comm, Z.pow_mul_r; [apply Ro|lia|]. destruct (lo_bits _ Lok); lia. }
  assert (file_val elf num < 65536).
  { assert (num.2 = 2) as W by (apply elem_of_cons in Hn as [->|Hn]; [done|]; by apply list_elem_of_singleton in Hn as ->).
    rewrite W in Rn. apply Rn. }
  rewrite Es. set (o := file_val elf off) in *. set (k := file_val elf es) in *. set (n := file_val elf num) in *.
  assert (0 <= k * n < 2 ^ 23) as Hkn by nia.
  assert (2 ^ 23 < 2 ^ l_bits L) by (apply Z.pow_lt_mono_r; destruct (lo_bits _ Lok); lia).
  eexists. split; [done|]. unfold uw. destruct (Z.ltb_spec (o + k * n) (2 ^ l_bits L)).
  - rewrite Z.mod_small by lia. destruct (Z.ltb_spec size (o + k * n)); cbn [orb]; [by left|].
    destruct (Z.ltb_spec (o + k * n) o); [by left|]. right. split_and!; try done; lia.
  - rewrite <- (Z.mod_add _ (-1)) by lia. rewrite Z.mod_small by lia.
    destruct (Z.ltb_spec (o + k * n + -1 * 2 ^ l_bits L) o); [|lia]. rewrite orb_true_r. by left.
Qed.

Lemma newFile_ok : exists st r, elf_newFile file size = Some (st, r) /\
  match r with
  | Some elf => st = 0 /\ elfFile elf = file /\ elfSize elf = size /\ elf_valid elf
  | None => st = -1
  end.
Proof.
  unfold elf_newFile, elf_newFile_maybe_unsafe, elf_checkFile.
  assert (TAB : forall L elf, layout_ok L -> layout_of elf = L -> elfFile elf = file -> elfSize elf = size ->
    l_ehdr L <= size -> file_val elf (e_phentsize L) = l_phdr L -> file_val elf (e_shentsize L) = l_shdr L ->
    0 <= file_val elf (e_shstrndx L) < file_val elf (e_shnum L) ->
    exists st r, (status ← elf_checkProgramHeaderTable elf;
      if status <? 0 then Some (status, None)
      else status ← elf_checkSectionTable elf; if status <? 0 then Some (status, None) else Some (status, Some elf))
      = Some (st, r) /\
    match r with
    | Some elf => st = 0 /\ elfFile elf = file /\ elfSize elf = size /\ elf_valid elf
    | None => st = -1
    end).
  { intros L elf Lok <- Ef Es HL Hp Hsh Hx. destruct (lo_sizes _ Lok) as (_ & ? & ?).
    assert (elf_checkProgramHeaderTable elf = checkProgramHeaderTable (layout_of elf) elf) as ->
      by (unfold elf_checkProgramHeaderTable, layout_of; by destruct (elf_isElf32 elf)).
    assert (elf_checkSectionTable elf = checkSectionTable (layout_of elf) elf) as ->
      by (unfold elf_checkSectionTable, layout_of; by destruct (elf_isElf32 elf)).
    unfold checkProgramHeaderTable, checkSectionTable.
    destruct (checkTable_ok (layout_of elf) elf (e_phoff (layout_of elf)) (e_phentsize (layout_of elf)) (e_phnum (layout_of elf)) Lok Ef Es HL)
      as (s1 & -> & H1); [in_list|in_list|in_list|lia|]. cbn [mbind option_bind].
    destruct H1 as [->|(-> & A1 & A2 & A3)]; [by do 2 eexists|]. cbn [Z.ltb Z.compare].
    destruct (checkTable_ok (layout_of elf) elf (e_shoff (layout_of elf)) (e_shentsize (layout_of elf)) (e_shnum (layout_of elf)) Lok Ef Es HL)
      as (s2 & -> & H2); [in_list|in_list|in_list|lia|]. cbn [mbind option_bind].
    destruct H2 as [->|(-> & B1 & B2 & B3)]; [by do 2 eexists|]. cbn [Z.ltb Z.compare].
    do 2 eexists. split; [done|]. split_and!; try done. split; rewrite ?Ef, ?Es; try done; try lia. }
  unfold elf32_checkFile, elf64_checkFile.
  destruct (checkFile_ok elf32_layout (Elf file size 0) elf32_layout_ok eq_refl eq_refl) as (s1 & e1 & -> & H1).
  cbn [mbind option_bind fst snd]. destruct H1 as [[-> ->]|(-> & -> & HL & K1 & K2 & K3)].
  - cbn [Z.eqb].
    destruct (checkFile_ok elf64_layout (Elf file size 0) elf64_layout_ok eq_refl eq_refl) as (s2 & e2 & -> & H2).
    cbn [mbind option_bind fst snd]. destruct H2 as [[-> ->]|(-> & -> & HL & K1 & K2 & K3)]; [by do 2 eexists|].
    cbn [Z.eqb mbind option_bind Z.ltb Z.compare].
    by apply (TAB elf64_layout); first apply elf64_layout_ok.
  - cbn [Z.eqb mbind option_bind Z.ltb Z.compare].
    by apply (TAB elf32_layout); first apply elf32_layout_ok.
Qed.
End Check.

Section Access.
  Context (elf : elf_t) (Hv : elf_valid elf).
  Local Abbreviation L := (layout_of elf).

Lemma sh_field_ok i f :
  f ∈ [sh_name L; sh_type L; sh_flags L; sh_addr L; sh_offset L; sh_size L; sh_link L; sh_info L; sh_addralign L; sh_entsize L] ->
  0 <= i < file_val elf (e_shnum L) -> exists v, shdr_field L elf i f = Some v /\ 0 <= v < 2 ^ 64.
Proof.
  intros Hf Hi. pose proof (proj1 (Forall_forall _ _) (lo_shdr _ (layout_of_ok elf)) f Hf) as Hfit.
  destruct (shdr_ok elf Hv i f Hi Hfit) as (v & E & Hr). exists v. split; [done|]. split; [lia|].
  destruct Hfit as (_ & ? & _). assert (256 ^ f.2 <= 256 ^ 8) by (apply Z.pow_le_mono_r; lia). lia.
Qed.

Lemma ph_field_ok i f :
  f ∈ [p_type L; p_offset L; p_vaddr L; p_paddr L; p_filesz L; p_memsz L; p_flags L; p_align L] ->
  0 <= i < file_val elf (e_phnum L) -> exists v, phdr_field L elf i f = Some v /\ 0 <= v < 2 ^ 64.
Proof.
  intros Hf Hi. pose proof (proj1 (Forall_forall _ _) (lo_phdr _ (layout_of_ok elf)) f Hf) as Hfit.
  destruct (phdr_ok elf Hv i f Hi Hfit) as (v & E & Hr). exists v. split; [done|]. split; [lia|].
  destruct Hfit as (_ & ? & _). assert (256 ^ f.2 <= 256 ^ 8) by (apply Z.pow_le_mono_r; lia). lia.
Qed.

Lemma getSection_ok i : 0 <= i -> exists r, elf_getSection elf i = Some r /\
  match r with
  | Some p => exists n, elf_getSectionSize elf i = Some n /\ 0 < n /\ 0 <= p /\ p + n <= elfSize elf /\
                i < file_val elf (e_shnum L)
  | None => True
  end.
Proof.
  intros Hi. unfold elf_getSection. destruct (shnum_eq elf Hv) as [-> _]. cbn [mbind option_bind].
  destruct (Z.eqb_spec i 0) as [|Hi0]; cbn [orb]; [by eexists|].
  destruct (Z.leb_spec (file_val elf (e_shnum L)) i); [by eexists|]. autorewrite with elf.
  destruct (sh_field_ok i (sh_offset L)) as (o & -> & Ho); [in_list|lia|]. cbn [mbind option_bind].
  destruct (sh_field_ok i (sh_size L)) as (n & En & Hn); [in_list|lia|]. rewrite En. cbn [mbind option_bind].
  destruct (Z.eqb_spec n 0) as [|Hn0]; [by eexists|]. unfold uw. destruct (ev_size _ Hv).
  destruct (Z.ltb_spec (o + n) (2 ^ 64)).
  - rewrite Z.mod_small by lia. destruct (Z.ltb_spec (elfSize elf) (o + n)); cbn [orb]; [by eexists|].
    destruct (Z.ltb_spec (o + n) o); [lia|]. eexists. split; [done|]. exists n. split_and!; try done; lia.
  - rewrite <- (Z.mod_add _ (-1)) by lia. rewrite Z.mod_small by lia.
    destruct (Z.ltb_spec (o + n + -1 * 2 ^ 64) o); [|lia]. rewrite orb_true_r. by eexists.
Qed.

Lemma getStringTable_ok i : 0 <= i -> exists r, elf_getStringTable elf i = Some r /\
  match r with
  | Some p => exists n, elf_getSectionSize elf i = Some n /\ 0 < n /\ 0 <= p /\ p + n <= elfSize elf /\
                rd8 (elfFile elf) (p + n - 1) = Some 0
  | None => True
  end.
Proof.
  intros Hi. unfold elf_getStringTable. destruct (getSection_ok i Hi) as (r & -> & Hr). cbn [mbind option_bind].
  destruct r as [p|]; [|by eexists]. destruct Hr as (n & En & Hn & Hp & Hpn & Hlt). autorewrite with elf in *.
  destruct (sh_field_ok i (sh_type L)) as (ty & -> & _); [in_list|lia|]. cbn [mbind option_bind].
  destruct (negb (ty =? SHT_STRTAB)); [by eexists|]. rewrite En. cbn [mbind option_bind].
  destruct (ev_size _ Hv). rewrite uw_small by (unfold is_uw; lia).
  destruct (proj2 (rd8_is_Some (elfFile elf) (p + (n - 1))) ltac:(lia)) as [c Ec]. rewrite Ec. cbn [mbind option_bind].
  destruct (Z.eqb_spec c 0) as [->|]; cbn [negb]; [|by eexists]. eexists. split; [done|]. exists n.
  split_and!; try done. by replace (p + n - 1) with (p + (n - 1)) by lia.
Qed.

Lemma getProgramSegment_ok i : 0 <= i < file_val elf (e_phnum L) -> exists r, elf_getProgramSegment elf i = Some r /\
  match r with
  | Some p => exists n, elf_getProgramHeaderFileSize elf i = Some n /\ 0 <= p /\ p + n <= elfSize elf
  | None => True
  end.
Proof.
  intros Hi. unfold elf_getProgramSegment. autorewrite with elf.
  destruct (ph_field_ok i (p_offset L)) as (o & -> & Ho); [in_list|lia|]. cbn [mbind option_bind].
  destruct (ph_field_ok i (p_filesz L)) as (n & -> & Hn); [in_list|lia|]. cbn [mbind option_bind].
  unfold uw. destruct (ev_size _ Hv). destruct (Z.ltb_spec (o + n) (2 ^ 64)).
  - rewrite Z.mod_small by lia. destruct (Z.ltb_spec (elfSize elf) (o + n)); cbn [orb]; [by eexists|].
    destruct (Z.ltb_spec (o + n) o); [lia|]. eexists. split; [done|]. exists n. split_and!; try done; lia.
  - rewrite <- (Z.mod_add _ (-1)) by lia. rewrite Z.mod_small by lia.
    destruct (Z.ltb_spec (o + n + -1 * 2 ^ 64) o); [|lia]. rewrite orb_true_r. by eexists.
Qed.
End Access.

(** A string table that was returned for section [i] lies in the first [size] bytes
    and ends with a NUL. *)
Definition table_in (elf : elf_t) (size i : Z) (r : option (option Z)) : Prop :=
  exists n t, elf_getSectionSize elf i = Some n /\ r = Some t /\
    match t with Some p => 0 <= p /\ 0 < n /\ p + n <= size /\ rd8 (elfFile elf) (p + n - 1) = Some 0 | None => True end.

Lemma string_table_in elf i : elf_valid elf -> 0 <= i < file_val elf (e_shnum (layout_of elf)) -> table_in elf (elfSize elf) i (elf_getStringTable elf i).
Proof.
  intros Hv Hi. destruct (sh_field_ok elf Hv i (sh_size (layout_of elf))) as (n & En & _); [in_list|done|].
  destruct (getStringTable_ok elf Hv i) as (t & Et & Ht); [lia|]. exists n, t. rewrite getSectionSize_eq in *. split; [done|]. split; [done|].
  destruct t as [p|]; [|done]. destruct Ht as (n' & En' & ? & ? & ? & ?). rewrite En in En'. injection En' as <-. split_and!; (done || lia).
Qed.

(** The name of a section: the pointer is in the file or just behind it. *)
Lemma section_name_in elf i : elf_valid elf -> 0 <= i < file_val elf (e_shnum (layout_of elf)) ->
  exists nm, elf_getSectionName elf i = Some nm /\ match nm with InFile q => 0 <= q <= elfSize elf | Corrupted => True end.
Proof.
  intros Hv Hi. unfold elf_getSectionName. rewrite (strndx_eq elf Hv). cbn [mbind option_bind].
  destruct (string_table_in elf _ Hv (ev_strndx _ Hv)) as (n & t & En & Et & Ht). rewrite Et. cbn [mbind option_bind]. rewrite getSectionNameOffset_eq.
  destruct (sh_field_ok elf Hv i (sh_name (layout_of elf))) as (o & -> & Ho); [in_list|done|]. cbn [mbind option_bind]. rewrite En. cbn [mbind option_bind].
  destruct t as [p|]; [|by eexists]. destruct (Z.ltb_spec n o); [by eexists|]. eexists. split; [done|]. destruct Ht as (? & ? & ? & _); lia.
Qed.

(** C34: [elf_newFile] decides every byte string without reading outside it. In
    a file it accepts every field of every section and program header, and every
    section, string table (by index, and the one of the section names) and
    segment that is returned lies inside the file, with the size the header
    gives; a string table ends with a NUL. The name of a section is the literal
    for a corrupted one or points into the file, or, since the code allows one
    byte too many, just behind it. *)
Theorem elf_newFile_safe file size : Forall is_byte file -> 0 <= size <= zlen file -> size < 2 ^ 64 ->
  exists st r, elf_newFile file size = Some (st, r) /\
  match r with
  | None => st = -1
  | Some elf => st = 0 /\ exists shnum phnum,
      elf_getNumSections elf = Some shnum /\ elf_getNumProgramHeaders elf = Some phnum /\
      is_Some (elf_getEntryPoint elf) /\
      (exists i, elf_getSectionStringTableIndex elf = Some i /\ table_in elf size i (elf_getSectionStringTable elf)) /\
      (forall i, 0 <= i < shnum ->
         is_Some (elf_getSectionNameOffset elf i) /\ is_Some (elf_getSectionType elf i) /\
         is_Some (elf_getSectionFlags elf i) /\ is_Some (elf_getSectionAddr elf i) /\
         is_Some (elf_getSectionOffset elf i) /\ is_Some (elf_getSectionLink elf i) /\
         is_Some (elf_getSectionInfo elf i) /\ is_Some (elf_getSectionAddrAlign elf i) /\
         is_Some (elf_getSectionEntrySize elf i) /\ table_in elf size i (elf_getStringTable elf i) /\
         (exists nm, elf_getSectionName elf i = Some nm /\ match nm with InFile q => 0 <= q <= size | Corrupted => True end) /\
         exists n r, elf_getSectionSize elf i = Some n /\ elf_getSection elf i = Some r /\
           match r with Some p => 0 <= p /\ p + n <= size | None => True end) /\
      (forall i, 0 <= i < phnum ->
         is_Some (elf_getProgramHeaderType elf i) /\ is_Some (elf_getProgramHeaderOffset elf i) /\
         is_Some (elf_getProgramHeaderVaddr elf i) /\ is_Some (elf_getProgramHeaderPaddr elf i) /\
         is_Some (elf_getProgramHeaderMemorySize elf i) /\ is_Some (elf_getProgramHeaderFlags elf i) /\
         is_Some (elf_getProgramHeaderAlign elf i) /\
         exists n r, elf_getProgramHeaderFileSize elf i = Some n /\ elf_getProgramSegment elf i = Some r /\
           match r with Some p => 0 <= p /\ p + n <= size | None => True end)
  end.
Proof.
  intros Hb Hs H64. destruct (newFile_ok file size Hb Hs H64) as (st & r & E & Hr). exists st, r. split; [exact E|].
  destruct r as [elf|]; [|exact Hr]. destruct Hr as (-> & Ef & Es & Hv). split; [done|].
  exists (file_val elf (e_shnum (layout_of elf))), (file_val elf (e_phnum (layout_of elf))).
  split; [by apply shnum_eq|]. split; [by apply phnum_eq|]. split; [|split; [|split]].
  - rewrite getEntryPoint_eq. destruct (header_ok elf Hv (e_entry (layout_of elf))) as [-> _]; [in_list|]. by eexists.
  - eexists. split; [by apply strndx_eq|]. unfold elf_getSectionStringTable. rewrite (strndx_eq elf Hv), <- Es. cbn [mbind option_bind].
    apply string_table_in; [done|]. by apply ev_strndx.
  - intros i Hi. destruct (getSection_ok elf Hv i) as (r & Er & Hr); [lia|].
    pose proof (string_table_in elf i Hv Hi) as Htab. pose proof (section_name_in elf i Hv Hi) as Hnm. rewrite Es in Htab, Hnm. autorewrite with elf.
    assert (SH : forall f, f ∈ [sh_name (layout_of elf); sh_type (layout_of elf); sh_flags (layout_of elf); sh_addr (layout_of elf);
      sh_offset (layout_of elf); sh_size (layout_of elf); sh_link (layout_of elf); sh_info (layout_of elf);
      sh_addralign (layout_of elf); sh_entsize (layout_of elf)] -> is_Some (shdr_field (layout_of elf) elf i f)).
    { intros f Hf. destruct (sh_field_ok elf Hv i f Hf Hi) as (v & -> & _). by eexists. }
    split_and!; try (apply SH; in_list); [done|done|].
    destruct (sh_field_ok elf Hv i (sh_size (layout_of elf))) as (n & En & _); [in_list|done|].
    exists n, r. split; [done|]. split; [done|]. destruct r as [p|]; [|done]. destruct Hr as (n' & En' & ? & ? & ? & _).
    rewrite getSectionSize_eq, En in En'. injection En' as ->. lia.
  - intros i Hi. destruct (getProgramSegment_ok elf Hv i Hi) as (r & Er & Hr). autorewrite with elf.
    assert (PH : forall f, f ∈ [p_type (layout_of elf); p_offset (layout_of elf); p_vaddr (layout_of elf); p_paddr (layout_of elf);
      p_filesz (layout_of elf); p_memsz (layout_of elf); p_flags (layout_of elf); p_align (layout_of elf)] ->
      is_Some (phdr_field (layout_of elf) elf i f)).
    { intros f Hf. destruct (ph_field_ok elf Hv i f Hf Hi) as (v & -> & _). by eexists. }
    split_and!; try (apply PH; in_list).
    destruct (ph_field_ok elf Hv i (p_filesz (layout_of elf))) as (n & En & _); [in_list|done|].
    exists n, r. split; [done|]. split; [done|]. destruct r as [p|]; [|done]. destruct Hr as (n' & En' & ? & ?).
    rewrite getProgramHeaderFileSize_eq, En in En'. injection En' as ->. lia.
Qed.

(** ** Loading *)

Lemma lookup_write_bytes l : forall mem a x, 0 <= a -> a + zlen l <= 2 ^ 64 ->
  write_bytes mem (u64 a) l !! x = if (a <=? x) && (x <? a + zlen l) then l !! Z.to_nat (x - a) else mem !! x.
Proof.
  induction l as [|y l IH]; intros mem a x Ha Hl; cbn [write_bytes].
  - rewrite zlen_nil. zcase; try lia; done.
  - rewrite zlen_cons in *. pose proof (zlen_nonneg l). rewrite (uw_small 64 a), uw_small by (unfold is_uw; lia). rewrite IH by lia.
    destruct (Z.eq_dec x a) as [->|Hne].
    + rewrite lookup_insert_eq. replace (a - a) with 0 by lia. zcase; try lia; done.
    + rewrite lookup_insert_ne by done. zcase; try lia; cbn [andb]; try done.
      replace (Z.to_nat (x - a)) with (S (Z.to_nat (x - (a + 1)))) by lia. done.
Qed.

(** The segments of a file, as the program headers describe them: the i-th is
    loaded at [D i] from the [FS i] bytes at [O i] and takes [MS i] bytes. *)
Record segments (elf : elf_t) (ty : elf_addr_type) (n : Z) (D O FS MS : Z -> Z) : Prop := {
  sg_num : elf_getNumProgramHeaders elf = Some n;
  sg_dest i : 0 <= i < n -> segment_addr ty elf i = Some (D i);
  sg_off i : 0 <= i < n -> elf_getProgramHeaderOffset elf i = Some (O i);
  sg_fs i : 0 <= i < n -> elf_getProgramHeaderFileSize elf i = Some (FS i);
  sg_ms i : 0 <= i < n -> elf_getProgramHeaderMemorySize elf i = Some (MS i);
}.

(** The byte of segment [i] at distance [k] from its start. *)
Definition segment_byte (elf : elf_t) (O FS : Z -> Z) (i k : Z) : option Z :=
  if k <? FS i then rd8 (elfFile elf) (O i + k) else Some 0.

Section Load.
  Context (elf : elf_t) (ty : elf_addr_type) (n : Z) (D O FS MS : Z -> Z).
  Context (Hseg : segments elf ty n D O FS MS).
  Context (Hin : forall i, 0 <= i < n -> 0 <= O i /\ 0 <= FS i <= MS i /\ O i + FS i <= zlen (elfFile elf)).
  Context (Hmem : forall i, 0 <= i < n -> 0 <= D i /\ D i + MS i <= 2 ^ 64).

Lemma load_segment_ok i mem : 0 <= i < n -> exists mem', load_segment elf ty i mem = Some mem' /\
  (forall k, 0 <= k < MS i -> mem' !! (D i + k) = segment_byte elf O FS i k) /\
  (forall a, ~ D i <= a < D i + MS i -> mem' !! a = mem !! a).
Proof.
  intros Hi. destruct (Hin i Hi) as (HO & HF & HB). destruct (Hmem i Hi) as [HD HM]. unfold load_segment.
  rewrite (sg_dest _ _ _ _ _ _ _ Hseg i Hi), (sg_fs _ _ _ _ _ _ _ Hseg i Hi), (sg_off _ _ _ _ _ _ _ Hseg i Hi). cbn [mbind option_bind].
  destruct (rdn (elfFile elf) (O i) (FS i)) as [bytes|] eqn:Er; [|by rewrite rdn_Some in Er by lia]. cbn [mbind option_bind].
  rewrite (sg_ms _ _ _ _ _ _ _ Hseg i Hi). cbn [mbind option_bind].
  destruct (Z.ltb_spec (MS i) (FS i)); [lia|]. eexists. split; [done|].
  apply rdn_inv in Er as (_ & _ & _ & Hlen & Eb).
  assert (Hz : zlen (replicate (Z.to_nat (MS i - FS i)) 0) = MS i - FS i) by (unfold zlen; rewrite length_replicate; lia).
  assert (W : forall m, write_bytes m (D i) bytes = write_bytes m (u64 (D i)) bytes).
  { intros m. destruct bytes as [|x bytes]; [done|]. rewrite zlen_cons in Hlen. pose proof (zlen_nonneg bytes). by rewrite (uw_small 64) by (unfold is_uw; lia). }
  rewrite W. split.
  - intros k Hk. rewrite lookup_write_bytes, Hz by lia. unfold segment_byte. destruct (Z.ltb_spec k (FS i)).
    + destruct (Z.leb_spec (D i + FS i) (D i + k)); [lia|]. cbn [andb]. rewrite lookup_write_bytes, Hlen by lia.
      destruct (Z.leb_spec (D i) (D i + k)); [|lia]. destruct (Z.ltb_spec (D i + k) (D i + FS i)); [|lia]. cbn [andb].
      replace (D i + k - D i) with k by lia. rewrite Eb. rewrite lookup_take_lt by lia. rewrite lookup_drop.
      unfold rd8. destruct (Z.ltb_spec (O i + k) 0); [lia|]. f_equal. lia.
    + destruct (Z.leb_spec (D i + FS i) (D i + k)); [|lia]. destruct (Z.ltb_spec (D i + k) (D i + FS i + (MS i - FS i))); [|lia].
      cbn [andb]. apply lookup_replicate_2. lia.
  - intros a Ha. rewrite !lookup_write_bytes, Hz, Hlen by lia. zcase; try lia; cbn [andb]; done.
Qed.

Context (Hdisj : forall i j, 0 <= i < n -> 0 <= j < n -> i <> j -> D i + MS i <= D j \/ D j + MS j <= D i).

Lemma load_loop_ok m : forall i mem, 0 <= i -> i + Z.of_nat m = n ->
  exists mem', load_loop m elf ty i mem = Some mem' /\
    (forall j k, i <= j < n -> 0 <= k < MS j -> mem' !! (D j + k) = segment_byte elf O FS j k) /\
    (forall a, (forall j, i <= j < n -> ~ D j <= a < D j + MS j) -> mem' !! a = mem !! a).
Proof.
  induction m as [|m IH]; intros i mem Hi Hn; cbn [load_loop].
  - exists mem. split; [done|]. split; [intros; lia|done].
  - destruct (load_segment_ok i mem) as (mem1 & -> & H1 & H2); [lia|]. cbn [mbind option_bind].
    destruct (IH (i + 1) mem1) as (mem2 & -> & H3 & H4); [lia|lia|]. exists mem2. split; [done|]. split.
    + intros j k Hj Hk. destruct (Z.eq_dec j i) as [->|].
      * rewrite H4; [by apply H1|]. intros j' Hj'. destruct (Hdisj i j'); lia.
      * apply H3; lia.
    + intros a Ha. rewrite H4 by (intros j Hj; apply Ha; lia). apply H2, Ha. lia.
Qed.
End Load.

(** C9: [elf_loadFile] builds the memory image the program headers describe:
    each segment's bytes come from the file, the rest of its memory is zero,
    and nothing else changes. The segments must lie inside the file, be no
    larger there than in memory, not overlap, and end below 2 ^ 64 (beyond, the
    code goes on at address 0). *)
Theorem elf_loadFile_correct elf ty n D O FS MS mem :
  segments elf ty n D O FS MS -> 0 <= n ->
  (forall i, 0 <= i < n -> 0 <= O i /\ 0 <= FS i <= MS i /\ O i + FS i <= zlen (elfFile elf)) ->
  (forall i, 0 <= i < n -> 0 <= D i /\ D i + MS i <= 2 ^ 64) ->
  (forall i j, 0 <= i < n -> 0 <= j < n -> i <> j -> D i + MS i <= D j \/ D j + MS j <= D i) ->
  exists mem', elf_loadFile elf ty mem = Some (1, mem') /\
    (forall i k, 0 <= i < n -> 0 <= k < MS i -> mem' !! (D i + k) = segment_byte elf O FS i k) /\
    (forall a, (forall i, 0 <= i < n -> ~ D i <= a < D i + MS i) -> mem' !! a = mem !! a).
Proof.
  intros Hseg Hn Hin Hmem Hdisj. unfold elf_loadFile. rewrite (sg_num _ _ _ _ _ _ _ Hseg). cbn [mbind option_bind].
  destruct (load_loop_ok elf ty n D O FS MS Hseg Hin Hmem Hdisj (Z.to_nat n) 0 mem) as (mem' & -> & H1 & H2); [lia|lia|].
  by exists mem'.
Qed.

(** [elf_getMemoryBounds] returns the least start and the greatest end of
    the segments that occupy memory (no address range wrapping around). *)
Theorem elf_getMemoryBounds_correct elf ty n D O FS MS :
  segments elf ty n D O FS MS -> 0 <= n ->
  (forall i, 0 <= i < n -> 0 <= D i /\ 0 <= MS i /\ D i + MS i < 2 ^ 64) ->
  exists mn mx, elf_getMemoryBounds elf ty = Some (mn, mx) /\
    (forall i, 0 <= i < n -> 0 < MS i -> mn <= D i /\ D i + MS i <= mx) /\
    ((exists i, 0 <= i < n /\ 0 < MS i) ->
       (exists i, 0 <= i < n /\ 0 < MS i /\ mn = D i) /\ (exists i, 0 <= i < n /\ 0 < MS i /\ mx = D i + MS i)).
Proof.
  intros Hseg Hn Hr. unfold elf_getMemoryBounds. rewrite (sg_num _ _ _ _ _ _ _ Hseg). cbn [mbind option_bind].
  assert (G : forall m i a c, 0 <= i -> i + Z.of_nat m = n -> 0 <= c ->
    exists mn mx, bounds_loop m elf ty i a c = Some (mn, mx) /\ mn <= a /\ c <= mx /\
      (forall j, i <= j < n -> 0 < MS j -> mn <= D j /\ D j + MS j <= mx) /\
      (mn = a \/ exists j, i <= j < n /\ 0 < MS j /\ mn = D j) /\
      (mx = c \/ exists j, i <= j < n /\ 0 < MS j /\ mx = D j + MS j)).
  { induction m as [|m IH]; intros i a c Hi Hm Hc; cbn [bounds_loop].
    - exists a, c. split_and!; try done; try (by left). intros; lia.
    - rewrite (sg_ms _ _ _ _ _ _ _ Hseg i) by lia. cbn [mbind option_bind]. destruct (Hr i ltac:(lia)) as (? & ? & ?).
      destruct (Z.eqb_spec (MS i) 0) as [|HMi].
      + destruct (IH (i + 1) a c) as (mn & mx & -> & ? & ? & B3 & B4 & B5); [lia|lia|lia|].
        exists mn, mx. split_and!; try done.
        * intros j Hj HM. apply B3; [|done]. destruct (Z.eq_dec j i) as [->|]; lia.
        * destruct B4 as [|(j & ? & ?)]; [by left|right; exists j; split; [lia|done]].
        * destruct B5 as [|(j & ? & ?)]; [by left|right; exists j; split; [lia|done]].
      + rewrite (sg_dest _ _ _ _ _ _ _ Hseg i) by lia. cbn [mbind option_bind]. rewrite uw_small by (unfold is_uw; lia).
        set (a' := if D i <? a then D i else a). set (c' := if c <? D i + MS i then D i + MS i else c).
        assert (a' <= D i /\ a' <= a /\ (a' = D i \/ a' = a)) as (? & ? & Ha) by (subst a'; zcase; lia).
        assert (D i + MS i <= c' /\ c <= c' /\ (c' = D i + MS i \/ c' = c)) as (? & ? & Hc') by (subst c'; zcase; lia).
        destruct (IH (i + 1) a' c') as (mn & mx & -> & ? & ? & B3 & B4 & B5); [lia|lia|lia|].
        exists mn, mx. split_and!; try done; try lia.
        * intros j Hj HM. destruct (Z.eq_dec j i) as [->|]; [lia|]. apply B3; lia.
        * destruct B4 as [->|(j & ? & ?)]; [|right; exists j; split; [lia|done]].
          destruct Ha as [->| ->]; [right; exists i; lia|by left].
        * destruct B5 as [->|(j & ? & ?)]; [|right; exists j; split; [lia|done]].
          destruct Hc' as [->| ->]; [right; exists i; lia|by left]. }
  destruct (G (Z.to_nat n) 0 (2 ^ 64 - 1) 0) as (mn & mx & -> & ? & ? & B3 & B4 & B5); [lia|lia|lia|].
  exists mn, mx. split; [done|]. split; [done|]. intros (i & Hi & HM). destruct (B3 i Hi HM). destruct (Hr i Hi) as (? & ? & ?). split.
  - destruct B4 as [->|(j & ? & ? & ->)]; [lia|]. by exists j.
  - destruct B5 as [->|(j & ? & ? & ->)]; [lia|]. by exists j.
Qed.

(** [elf_getSectionName] accepts a name offset equal to the size of the
    string table ([offset > size] instead of [>=]): the pointer it returns is
    one past the table, and when the table ends the file, comparing that name
    with any string reads outside the file. *)
Theorem elf_getSectionName_off_by_one elf idx t size i str :
  elf_getSectionStringTableIndex elf = Some idx -> elf_getStringTable elf idx = Some (Some t) ->
  elf_getSectionSize elf idx = Some size -> elf_getSectionNameOffset elf i = Some size ->
  t + size = zlen (elfFile elf) ->
  exists p, elf_getSectionName elf i = Some p /\ name_eq elf str p = None.
Proof.
  intros E1 E2 E3 E4 E5. exists (InFile (t + size)). split.
  - unfold elf_getSectionName. rewrite E1. cbn [mbind option_bind]. rewrite E2, E3, E4. cbn [mbind option_bind].
    destruct (Z.ltb_spec size size); [lia|done].
  - cbn [name_eq]. assert (rd8 (elfFile elf) (t + size) = None) as Er.
    { destruct (rd8 _ _) eqn:E; [|done]. assert (is_Some (rd8 (elfFile elf) (t + size))) as H by (by eexists).
      apply rd8_is_Some in H. lia. }
    destruct str; cbn [strcmp_eq]; by rewrite Er.
Qed.

(** ** A small executable *)
Definition sample_elf (name_off : Z) : list Z :=
  ELFMAG ++ [2; 1; 1] ++ replicate 9 0 ++ to_le 2 2 ++ to_le 2 243 ++ to_le 4 1 ++ to_le 8 0x1000 ++
  to_le 8 64 ++ to_le 8 120 ++ to_le 4 0 ++ to_le 2 64 ++ to_le 2 56 ++ to_le 2 1 ++ to_le 2 64 ++ to_le 2 2 ++ to_le 2 1 ++
  to_le 4 1 ++ to_le 4 5 ++ to_le 8 248 ++ to_le 8 0x1000 ++ to_le 8 0x2000 ++ to_le 8 4 ++ to_le 8 6 ++ to_le 8 1 ++
  replicate 64 0 ++
  to_le 4 name_off ++ to_le 4 3 ++ to_le 8 0 ++ to_le 8 0 ++ to_le 8 248 ++ to_le 8 11 ++ to_le 4 0 ++ to_le 4 0 ++
  to_le 8 1 ++ to_le 8 0 ++
  [0] ++ byte_list ".shstrtab" ++ [0].

Lemma elf_newFile_witness : exists r, elf_newFile (sample_elf 1) 259 = Some (0, Some r).
Proof.
  destruct (elf_newFile_safe (sample_elf 1) 259) as (st & r & E & H).
  - apply (bool_decide_unpack (Forall (fun b => 0 <= b < 256) _)). by vm_compute.
  - by vm_compute.
  - lia.
  - destruct r as [elf|]; [|exfalso; subst st; vm_compute in E; discriminate E].
    destruct H as [-> _]. exists elf. exact E.
Defined.

Definition sample_file : elf_t := Elf (sample_elf 1) 259 ELFCLASS64.

Lemma sample_segments : segments sample_file PHYSICAL 1 (fun _ => 0x2000) (fun _ => 248) (fun _ => 4) (fun _ => 6).
Proof. split; [by vm_compute|..]; intros i Hi; replace i with 0 by lia; by vm_compute. Qed.

Lemma elf_loadFile_witness : exists mem', elf_loadFile sample_file PHYSICAL ∅ = Some (1, mem') /\
  mem' !! 0x2001 = Some 46 /\ mem' !! 0x2005 = Some 0.
Proof.
  destruct (elf_loadFile_correct sample_file PHYSICAL 1 (fun _ => 0x2000) (fun _ => 248) (fun _ => 4) (fun _ => 6) ∅
              sample_segments) as (mem' & E & H1 & _).
  - lia.
  - intros i Hi. by vm_compute.
  - intros i Hi. lia.
  - intros i j Hi Hj Hne. lia.
  - exists mem'. split; [exact E|]. split; [apply (H1 0 1); lia|apply (H1 0 5); lia].
Defined.

Lemma elf_getMemoryBounds_witness : exists mn mx, elf_getMemoryBounds sample_file PHYSICAL = Some (mn, mx) /\ mn <= 0x2000.
Proof.
  destruct (elf_getMemoryBounds_correct sample_file PHYSICAL 1 (fun _ => 0x2000) (fun _ => 248) (fun _ => 4) (fun _ => 6)
              sample_segments) as (mn & mx & E & H1 & _).
  - lia.
  - intros i Hi. lia.
  - exists mn, mx. split; [exact E|]. apply (H1 0); lia.
Defined.

Lemma elf_getSectionName_witness : exists p,
  elf_getSectionName (Elf (sample_elf 11) 259 ELFCLASS64) 1 = Some p /\
  name_eq (Elf (sample_elf 11) 259 ELFCLASS64) (byte_list ".text") p = None.
Proof.
  apply (elf_getSectionName_off_by_one (Elf (sample_elf 11) 259 ELFCLASS64) 1 248 11 1 (byte_list ".text"));
    by vm_compute.
Defined.
