(* ===== verification/LowerEnv.v ===== *)
(** The C run-time support of src/kernel/main/lowerenv.c: the program break the
    C library's allocator grows ([_sbrk]) and the sequence of [k_boot]. *)
From S2P Require Import Prelude KDefs Bytes Fdt.

(** ** The program break *)

(** [heap_end] is 0 (NULL) before the first call; the linker places [end]. *)
Record brk_state := Brk { heap_end : Z; k_heap_max : Z }.
Definition brk_init : brk_state := Brk 0 0.

Definition _sbrk (end_ incr : Z) (s : brk_state) : Z * brk_state :=
  let prev_heap_end := if heap_end s =? 0 then end_ else heap_end s in
  let heap_end := u64 (prev_heap_end + incr) in
  let used := u64 (s64 (heap_end - end_)) in
  (prev_heap_end, Brk heap_end (if k_heap_max s <? used then used else k_heap_max s)).

(** A run of calls: what each returned. *)
Fixpoint sbrk_run (end_ : Z) (incrs : list Z) (s : brk_state) : list Z * brk_state :=
  match incrs with
  | [] => ([], s)
  | i :: incrs => let '(p, s) := _sbrk end_ i s in let '(l, s) := sbrk_run end_ incrs s in (p :: l, s)
  end.

(** ** [k_boot] *)

(** The calls [k_boot] and [k_cleanup] make into the rest of the kernel. *)
Inductive call :=
  | CRegisterFrame | CInit (i : nat) | CBootSysdev (hartid : Z) | CBootPerip
  | CCxaFinalize | CFini (i : nat).

(** What the outside answers: the allocator, the status and the boot stack of
    [k_boot_sysdev], the status of [k_boot_perip]; [be_init] and [be_fini] are
    the lengths of the linker's arrays of constructors and destructors. *)
Record boot_env := BootEnv {
  be_malloc : Z -> Z;
  be_sysdev : Z -> Z * Z;
  be_perip : Z;
  be_init : nat;
  be_fini : nat;
}.

(** [error], [value] (when it is set), the copy of the device tree and the calls. *)
Definition k_boot (env : boot_env) (hartid : Z) (fdt : region) : option (Z * option Z * option region * list call) :=
  size ← fdt_totalsize fdt;
  let k_fdt := be_malloc env size in
  if k_fdt =? 0 then Some (K_ENOMEM, None, None, [])
  else
    bytes ← rdn (r_bytes fdt) 0 size;
    let copy := Some (Region k_fdt bytes) in
    let calls := CRegisterFrame :: (CInit <$> seq 0 (be_init env)) ++ [CBootSysdev hartid] in
    let '(error, this_stack) := be_sysdev env hartid in
    if negb (error =? 0) then Some (error, None, copy, calls)
    else
      let calls := calls ++ [CBootPerip] in
      let error := be_perip env in
      if negb (error =? 0) then Some (error, None, copy, calls)
      else Some (error, Some this_stack, copy, calls).

Definition k_cleanup (env : boot_env) : list call := CCxaFinalize :: (CFini <$> seq 0 (be_fini env)).

(** The copy of the device tree ends with its last byte: nothing behind it
    belongs to the kernel. *)
Lemma k_boot_copy env hartid fdt error value r calls size : fdt_totalsize fdt = Some size -> 0 <= size ->
  k_boot env hartid fdt = Some (error, value, Some r, calls) -> zlen (r_bytes r) = size.
Proof.
  intros Es H0. unfold k_boot. rewrite Es. cbn [mbind option_bind]. destruct (_ =? 0); [done|].
  destruct (rdn (r_bytes fdt) 0 size) as [l|] eqn:El; [|done]. cbn [mbind option_bind].
  assert (zlen l = size) as Hl.
  { by apply rdn_inv in El as (_ & _ & _ & Hl & _). }
  destruct (be_sysdev env hartid) as [e st]. destruct (negb (e =? 0)); [by intros [= _ _ <- _]|].
  destruct (negb _); by intros [= _ _ <- _].
Qed.

(** ** The break only moves by what is asked for *)

Definition zsum (l : list Z) : Z := foldr Z.add 0 l.

Lemma zsum_nonneg l : Forall (fun i => 0 <= i) l -> 0 <= zsum l.
Proof. induction 1; cbn; [done|]. fold (zsum l). lia. Qed.

Lemma sbrk_step end_ i s : 0 < end_ -> 0 <= i ->
  let cur := if heap_end s =? 0 then end_ else heap_end s in
  end_ <= cur -> cur + i < end_ + 2 ^ 63 -> cur + i < 2 ^ 64 ->
  _sbrk end_ i s = (cur, Brk (cur + i) (Z.max (k_heap_max s) (cur + i - end_))).
Proof.
  intros He Hi cur Hc H63 H64. unfold _sbrk. fold cur. rewrite (uw_small 64 (cur + i)) by (unfold is_uw; lia).
  rewrite sw_small by (unfold is_sw; lia). rewrite uw_small by (unfold is_uw; lia). do 2 f_equal.
  destruct (Z.ltb_spec (k_heap_max s) (cur + i - end_)); lia.
Qed.

(** While the heap only grows, [_sbrk] hands out adjacent blocks starting at
    [end]: each call returns the break the calls before it left, so blocks
    never overlap, and [k_heap_max] is the number of bytes handed out. There
    is no limit: no call fails. *)
Theorem sbrk_grows end_ incrs : 0 < end_ -> Forall (fun i => 0 <= i) incrs ->
  zsum incrs < 2 ^ 63 -> end_ + zsum incrs < 2 ^ 64 ->
  exists l s, sbrk_run end_ incrs brk_init = (l, s) /\ length l = length incrs /\
    (forall k p, l !! k = Some p -> p = end_ + zsum (take k incrs)) /\
    k_heap_max s = zsum incrs.
Proof.
  intros He Hi H63 H64.
  assert (G : forall incrs s, Forall (fun i => 0 <= i) incrs ->
    let cur := if heap_end s =? 0 then end_ else heap_end s in
    end_ <= cur -> k_heap_max s = cur - end_ ->
    cur + zsum incrs < end_ + 2 ^ 63 -> cur + zsum incrs < 2 ^ 64 ->
    exists l s', sbrk_run end_ incrs s = (l, s') /\ length l = length incrs /\
      (forall k p, l !! k = Some p -> p = cur + zsum (take k incrs)) /\
      k_heap_max s' = cur - end_ + zsum incrs).
  { clear incrs Hi H63 H64. induction incrs as [|i incrs IH]; intros s Hi cur Hc Hm H63 H64.
    { exists [], s. split_and!; [done|done|done|]. cbn. lia. }
    apply Forall_cons in Hi as [Hi His]. cbn [zsum foldr] in *. fold (zsum incrs) in *. pose proof (zsum_nonneg _ His). cbn [sbrk_run]. rewrite sbrk_step by (fold cur; lia).
    fold cur. destruct (IH (Brk (cur + i) (Z.max (k_heap_max s) (cur + i - end_))) His) as (l & s' & E & Hl & Hk & Hm').
    all: cbn [heap_end k_heap_max]; destruct (Z.eqb_spec (cur + i) 0); try lia.
    exists (cur :: l), s'. rewrite E. split_and!; [done|cbn; lia| |].
    - intros [|k] p Hp; cbn in Hp; [injection Hp as <-; cbn; lia|]. apply Hk in Hp. cbn [heap_end] in Hp.
      destruct (Z.eqb_spec (cur + i) 0); [lia|]. change (zsum (take (S k) (i :: incrs))) with (i + zsum (take k incrs)). lia.
    - cbn [heap_end] in Hm'. destruct (Z.eqb_spec (cur + i) 0); [lia|]. lia. }
  destruct (G incrs brk_init) as (l & s & E & Hl & Hk & Hm); try done; cbn; try lia.
  exists l, s. split_and!; [done|done|exact Hk|]. cbn in Hm. lia.
Qed.

Lemma sbrk_grows_witness : exists s, sbrk_run 0x80300000 [4096; 64; 8192] brk_init = ([0x80300000; 0x80301000; 0x80301040], s) /\
  k_heap_max s = 12352.
Proof.
  destruct (sbrk_grows 0x80300000 [4096; 64; 8192]) as (l & s & E & _ & _ & Hm).
  - lia.
  - repeat constructor; lia.
  - vm_compute. reflexivity.
  - vm_compute. reflexivity.
  - exists s. split; [|rewrite Hm; vm_compute; reflexivity].
    assert (l = [0x80300000; 0x80301000; 0x80301040]) as <- by (revert E; vm_compute; congruence). exact E.
Defined.
