(* ===== verification/DrvMgr.v ===== *)
(** The driver manager: src/kernel/main/k_drvif.cpp and src/kernel/inc/k_drvif.h.
    It keeps the list of registered drivers and, for every device-tree node a
    driver has been installed on, the driver, its answer to [probe] and the
    device handle. [probe] goes through the device tree; on a blob that holds a
    tree it is a pre-order traversal, and it ends on any blob. *)
From S2P Require Import Prelude KDefs Bytes Fdt FdtRo FdtSafe FdtRoSafe FdtTree FdtPath.

(** ** k_drvif.h *)

Definition DRV_CAP_NONE : Z := 0.
Definition DRV_CAP_THIS : Z := 1.
Definition DRV_CAP_COVER : Z := 2.

(** [dev_type_t] *)
Definition DEV_TYPE_NONE : Z := 0.
Definition DEV_TYPE_SYS : Z := 1.
Definition DEV_TYPE_PERIP : Z := 0x80.
Definition DEV_TYPE_CHAR : Z := 0x81.
Definition DEV_TYPE_BLOCK : Z := 0x82.

(** The static members of [DriverManager]; [D] stands for [DriverBase *]. *)
Record manager (D : Type) := Manager {
  _drvlist : list D;
  _devhdl : gmap Z (D * Z * Z);
}.
Arguments Manager {D}. Arguments _drvlist {D}. Arguments _devhdl {D}.

(** The virtual functions of [DriverBase]. [S] is the state of the kernel the
    drivers work on, the manager included ([GenericRoot] calls back into it).
    [drv_probe] gets the name and the first string of "compatible"; the latter
    is [None] when no NUL ends it. *)
Record DriverBase (D S : Type) := {
  getDeviceType : D -> Z;
  drv_probe : D -> list Z -> option (list Z) -> option Z;
  addDevice : D -> Z -> M S Z;
  mgr_of : S -> manager D;
  set_mgr : manager D -> S -> S;
}.
Arguments getDeviceType {D S}. Arguments drv_probe {D S}. Arguments addDevice {D S}.
Arguments mgr_of {D S}. Arguments set_mgr {D S}.

Section Manager.
  Context {D K : Type} `{EqDecision D} (ops : DriverBase D K) (b : region).
  Local Abbreviation m := (r_bytes b).

Definition with_devhdl (f : gmap Z (D * Z * Z) -> gmap Z (D * Z * Z)) (s : K) : K :=
  let g := mgr_of ops s in set_mgr ops (Manager (_drvlist g) (f (_devhdl g))) s.
Definition with_drvlist (f : list D -> list D) (s : K) : K :=
  let g := mgr_of ops s in set_mgr ops (Manager (f (_drvlist g)) (_devhdl g)) s.

Definition addDriver (drv : D) : M K unit := modify (with_drvlist (fun l => l ++ [drv])).

Fixpoint erase_first (drv : D) (l : list D) : list D :=
  match l with
  | [] => []
  | d :: l => if decide (d = drv) then l else d :: erase_first drv l
  end.
Definition removeDriver (drv : D) : M K unit := modify (with_drvlist (erase_first drv)).

(** [std::map::insert] leaves an entry that is already there. *)
Definition devhdl_insert (node : Z) (v : D * Z * Z) (g : gmap Z (D * Z * Z)) : gmap Z (D * Z * Z) :=
  match g !! node with Some _ => g | None => <[node := v]> g end.

Definition markInstalled (node handler : Z) (drv : D) (drv_cap : Z) : M K Z :=
  r ← lift (fdt_get_name b node);
  match fst r with
  | None => mret (-1)
  | Some _ => modify (with_devhdl (devhdl_insert node (drv, drv_cap, handler))) ≫= fun _ => mret 0
  end.

Fixpoint first_probe (ok : D -> bool) (name : list Z) (compatible : option (list Z)) (l : list D) : option (option (D * Z)) :=
  match l with
  | [] => Some None
  | d :: l =>
      if ok d then
        rc ← drv_probe ops d name compatible;
        if 0 <? rc then Some (Some (d, rc)) else first_probe ok name compatible l
      else first_probe ok name compatible l
  end.

Definition getDriverByProbe (name compatible : list Z) : M K (option D) :=
  s ← get;
  r ← lift (first_probe (fun _ => true) name (Some compatible) (_drvlist (mgr_of ops s)));
  mret (fst <$> r).

(** Whether a driver takes part when devices of a type are probed. *)
Definition type_selected (type dt : Z) : bool :=
  ((type =? DEV_TYPE_PERIP) && (type <? dt)) || ((type =? DEV_TYPE_NONE) && (type <? dt)) || (type =? dt).

Definition _try (node type : Z) : M K Z :=
  s ← get;
  match _devhdl (mgr_of ops s) !! node with
  | Some (_, rc, _) => mret rc
  | None =>
      r ← lift (fdt_get_name b node);
      match fst r with
      | None => mret (-1)
      | Some node_name =>
          name ← lift (cstr m node_name);
          prop ← lift (fdt_get_property b node (byte_list "compatible"));
          let compatible := match fst prop with Some p => cstr m (p + 12) | None => Some [] end in
          found ← lift (first_probe (fun d => type_selected type (getDeviceType ops d)) name compatible
                          (_drvlist (mgr_of ops s)));
          match found with
          | None => mret 0
          | Some (drv, rc) =>
              _ ← lift compatible; (* printed *)
              hdl ← addDevice ops drv node;
              (if 0 <=? hdl then modify (with_devhdl (devhdl_insert node (drv, rc, hdl))) else mret tt) ≫= fun _ =>
              mret rc
          end
      end
  end.

(** The [fdt_for_each_subnode] loop of [probe], which looks at the next sub-node
    before it probes the previous one. *)
Section Loop.
  Context (probe : Z -> M K Z).
Fixpoint probe_loop (fuel : nat) (child prev : Z) : M K Z :=
  match fuel with
  | O => fault
  | S fuel =>
      if 0 <=? child then
        (if 0 <=? prev then probe prev else mret 0) ≫= fun _ =>
        next ← lift (fdt_next_subnode b child);
        probe_loop fuel next child
      else probe prev
  end.
End Loop.

Fixpoint probe (fuel : nat) (type node : Z) : M K Z :=
  match fuel with
  | O => fault
  | S fuel =>
      tret ← _try node type;
      if tret <? 0 then mret (-1)
      else if 1 <? tret then mret 0
      else
        first ← lift (fdt_first_subnode b node);
        (if 0 <=? first then
           child ← lift (fdt_first_subnode b node);
           probe_loop (probe fuel type) (blob_fuel b) child (-1)
         else mret 0) ≫= fun _ =>
        mret 0
  end.

(** Handle and driver; the depth bounds the recursion through aliases. *)
Definition getDrvByPath (depth : nat) (path : list Z) : M K (Z * option D) :=
  rc ← lift (fdt_path_offset b depth path);
  if rc <? 0 then mret (K_ENODEV, None)
  else
    s ← get;
    match _devhdl (mgr_of ops s) !! rc with
    | None => mret (K_ENODEV, None)
    | Some (drv, _, hdl) => mret (hdl, Some drv)
    end.

(** ** The traversal of a tree *)

(** What [probe] means on a tree: try the node; if a driver covers it or it
    cannot be named, stop; otherwise go on with its sub-nodes in order. *)
Fixpoint visit (type : Z) (t : dt) : M K Z :=
  tret ← _try (d_off t) type;
  if tret <? 0 then mret (-1)
  else if 1 <? tret then mret 0
  else
    (fix kids (ks : list dt) : M K unit :=
       match ks with
       | [] => mret tt
       | k :: ks => visit type k ≫= fun _ => kids ks
       end) (d_kids t) ≫= fun _ =>
    mret 0.
End Manager.

Section Traversal.
  Context {D K : Type} `{EqDecision D} (ops : DriverBase D K) (b : region) (Hr : readable b).
  Local Abbreviation Hok := (rb_ok _ Hr).

Section VisitAll.
  Context (type : Z).
Fixpoint visit_all (ks : list dt) : M K unit :=
  match ks with
  | [] => mret tt
  | k :: ks => visit ops b type k ≫= fun _ => visit_all ks
  end.
End VisitAll.

Lemma visit_unfold type t : visit ops b type t =
  (tret ← _try ops b (d_off t) type;
   if tret <? 0 then mret (-1) else if 1 <? tret then mret 0
   else visit_all type (d_kids t) ≫= fun _ => mret 0).
Proof. destruct t as [o n ps ks]. reflexivity. Qed.

Lemma bind_some {A B} (a : A) (f : A -> M K B) s : (x ← lift (Some a); f x) s = f a s.
Proof. done. Qed.

Lemma visit_all_app type l1 l2 : forall s,
  snd <$> visit_all type (l1 ++ l2) s = (s' ← snd <$> visit_all type l1 s; snd <$> visit_all type l2 s').
Proof.
  induction l1 as [|k l1 IH]; intros s; [done|]. cbn [visit_all app]. unfold mbind at 1 3, M_bind at 1 2.
  destruct (visit ops b type k s) as [[r s1]|]; [|done]. apply IH.
Qed.

Lemma visit_one type k s : snd <$> visit_all type [k] s = snd <$> visit ops b type k s.
Proof. cbn [visit_all]. unfold mbind, M_bind. by destruct (visit ops b type k s) as [[]|]. Qed.

(** The sub-node at hand and those behind it are probed in order; [before] is the
    one the loop still has to probe. *)
Lemma probe_loop_visit type t e (pr : Z -> M K Z) : at_tag (d_off t) -> node_at b t e ->
  (forall k s, k ∈ d_kids t -> pr (d_off k) s = visit ops b type k s) ->
  forall rest k before fuel s, kid_then k (d_kids t) rest -> (length rest + 1 < fuel)%nat ->
  (forall p, before = Some p -> p ∈ d_kids t) ->
  snd <$> probe_loop b pr fuel (d_off k) (from_option d_off (-1) before) s =
  snd <$> visit_all type (option_list before ++ k :: rest) s.
Proof.
  intros Hg Hn Hpr. induction rest as [|k' rest IH]; intros k before fuel s Hk Hf Hb; (destruct fuel as [|fuel]; [lia|]);
    cbn [probe_loop]; pose proof (kid_then_in _ _ _ Hk) as Hin;
    destruct (kid_at b Hr _ _ _ Hg Hn Hin) as (e' & _ & _ & _ & H0 & _);
    (destruct (Z.leb_spec 0 (d_off k)); [|lia]); rewrite visit_all_app.
  all: set (first := if 0 <=? _ then _ else _);
    (assert (snd <$> first s = snd <$> visit_all type (option_list before) s) as <-;
     [subst first; destruct before as [p|]; [|done]; change (option_list (Some p)) with [p]; cbn [from_option]; specialize (Hb p eq_refl);
      destruct (kid_at b Hr _ _ _ Hg Hn Hb) as (_ & _ & _ & _ & Hp0 & _); (destruct (Z.leb_spec 0 (d_off p)); [|lia]);
      by rewrite visit_one, Hpr|]).
  all: unfold mbind at 1, M_bind at 1; destruct (first s) as [[r1 s1]|]; [|done]; cbn [fmap option_fmap option_map snd mbind option_bind];
    rewrite (next_subnode_tree b Hr t e k _ Hg Hn Hk), bind_some.
  - destruct fuel as [|fuel]; [lia|]. cbn [probe_loop]. change (0 <=? - FDT_ERR_NOTFOUND) with false. cbv iota. by rewrite (Hpr k s1 Hin), visit_one.
  - cbn [length] in Hf. apply (IH k' (Some k) fuel s1 (kid_then_next _ _ _ _ Hk)); [lia|]. by intros p [= <-].
Qed.

Lemma probe_visit_node type : forall t e fuel s, at_tag (d_off t) -> node_at b t e -> e - d_off t < 4 * Z.of_nat fuel ->
  probe ops b fuel type (d_off t) s = visit ops b type t s.
Proof.
  induction t as [o n ps ks IH] using dt_ind'. intros e fuel s Hg Hn Hf. set (t := DNode o n ps ks) in *.
  destruct (node_range b Hr t e Hg Hn) as (o1 & _ & Hi & Hg1 & _ & ? & ? & ? & _).
  destruct fuel as [|fuel]; [lia|]. cbn [probe]. rewrite visit_unfold. unfold mbind, M_bind.
  destruct (_try ops b (d_off t) type s) as [[r s1]|]; [|done]. destruct (r <? 0); [done|]. destruct (1 <? r); [done|].
  rewrite (first_subnode_tree b Hr t e Hg Hn).
  2:{ intros k Hk. by destruct (kid_at b Hr _ _ _ Hg Hn Hk) as (? & _ & _ & _ & ? & _). }
  cbn [lift]. destruct (d_kids t) as [|k rest] eqn:Ek; [done|].
  assert (k ∈ d_kids t) as Hk by (rewrite Ek; by left). destruct (kid_at b Hr _ _ _ Hg Hn Hk) as (_ & _ & _ & _ & Hk0 & _).
  destruct (Z.leb_spec 0 (d_off k)); [|lia].
  assert (forall k s, k ∈ d_kids t -> probe ops b fuel type (d_off k) s = visit ops b type k s) as Hpr.
  { intros k' s' Hk'. destruct (kid_at b Hr _ _ _ Hg Hn Hk') as (e' & Hn' & Hg' & ? & ? & ? & ?).
    rewrite Forall_forall in IH. apply (IH k' Hk' e'); [done|done|lia]. }
  pose proof (probe_loop_visit type t e (probe ops b fuel type) Hg Hn Hpr rest k None (blob_fuel b) s1) as HL.
  rewrite Ek in HL. specialize (HL ltac:(constructor)).
  assert (length rest + 1 < blob_fuel b)%nat as Hlen.
  { pose proof (kids_increase b Hr _ _ _ _ Hi Hg1) as Hlen. rewrite zlen_cons in Hlen.
    pose proof (node_end_bound b Hr t e Hg Hn). pose proof (bo_size _ Hok). unfold blob_fuel, zlen in *. lia. }
  specialize (HL Hlen ltac:(done)). change (option_list None ++ k :: rest) with (k :: rest) in HL. cbn [from_option] in HL.
  destruct (probe_loop b (probe ops b fuel type) (blob_fuel b) (d_off k) (-1) s1) as [[r2 s2]|],
    (visit_all type (k :: rest) s1) as [[r3 s3]|]; cbn in HL; by simplify_eq.
Qed.
End Traversal.

(** C13: [DriverManager::probe] on a blob that holds a tree is the pre-order traversal
    of the tree, below the node it is called on. *)
Theorem probe_is_preorder {D K} `{EqDecision D} (ops : DriverBase D K) b t s type k :
  holds b t -> within s t ->
  probe ops b (blob_fuel b) type (d_off s) k = visit ops b type s k.
Proof.
  intros (Hr & H0 & o' & _ & Hn & _) Hw. assert (at_tag (d_off t)) as Hg by (rewrite H0; done).
  destruct (within_at b Hr t o' s Hg Hn Hw) as (e & Hsg & Hsn). eapply probe_visit_node; [done|done|done|].
  pose proof (node_end_bound b Hr s e Hsg Hsn). pose proof (bo_size _ (rb_ok _ Hr)). pose proof (bo_hdr _ (rb_ok _ Hr)).
  destruct (node_range b Hr s e Hsg Hsn) as (_ & _ & _ & _ & _ & ? & _). unfold blob_fuel, zlen in *. lia.
Qed.

(** ** Termination on any blob *)

Section Total.
  Context {D K : Type} `{EqDecision D} (ops : DriverBase D K) (b : region) (Hok : blob_ok b).
  Local Abbreviation m := (r_bytes b).
  Local Abbreviation tot := (hv b 4).

Lemma next_subnode_loop_inc fuel : forall o d r, is_sw 32 o -> 0 <= o -> next_subnode_loop b fuel o d = Some r -> 0 <= r ->
  o + 4 <= r <= tot + 3.
Proof.
  induction fuel as [|fuel IH]; intros o d r Ho H0 E Hr; [done|]. cbn [next_subnode_loop] in E.
  destruct (next_node_ok b Hok o (Some d) Ho) as (o1 & d1 & E1 & Ho1 & _ & Hb). rewrite E1 in E. cbn [mbind option_bind] in E.
  destruct (Z.ltb_spec o1 0); [injection E as <-; done|]. cbn [orb] in E. destruct (_ <? 1); [injection E as <-; done|].
  destruct (1 <? _); [|injection E as <-; lia]. apply IH in E; [lia|done|lia|done].
Qed.

Lemma next_subnode_inc o : is_sw 32 o -> 0 <= o -> exists r, fdt_next_subnode b o = Some r /\ is_sw 32 r /\ (0 <= r -> o + 4 <= r <= tot + 3).
Proof.
  intros Ho H0. destruct (next_subnode_ok b Hok o Ho) as [r E]. exists r. split; [done|].
  assert (0 <= r -> o + 4 <= r <= tot + 3) as H by (by apply (next_subnode_loop_inc (blob_fuel b) o 1)). split; [|done].
  unfold fdt_next_subnode in E. revert E. generalize (blob_fuel b) as f, 1 as d. clear H. intros f. revert o Ho H0.
  induction f as [|f IH]; intros o Ho H0 d E; [done|]. cbn [next_subnode_loop] in E.
  destruct (next_node_ok b Hok o (Some d) Ho) as (o1 & d1 & E1 & Ho1 & _ & Hb). rewrite E1 in E. cbn [mbind option_bind] in E.
  destruct (Z.ltb_spec o1 0); [injection E as <-; by vm_compute|]. cbn [orb] in E. destruct (_ <? 1); [injection E as <-; by vm_compute|].
  destruct (1 <? _); [|injection E as <-; done]. by eapply (IH o1).
Qed.

Lemma first_subnode_inc o : is_sw 32 o -> 0 <= o -> exists r, fdt_first_subnode b o = Some r /\ is_sw 32 r /\ (0 <= r -> o + 4 <= r <= tot + 3).
Proof.
  intros Ho H0. unfold fdt_first_subnode. destruct (next_node_ok b Hok o (Some 0) Ho) as (r & d & -> & Hr & _ & Hb).
  cbn [mbind option_bind]. destruct (_ || _); eexists; (split; [done|]).
  - split; [by vm_compute|]. intros Hn. by vm_compute in Hn.
  - split; [done|lia].
Qed.

(** A NUL behind the blob ends every string that starts in it. *)
Lemma cstr_nul p : rd8 m tot = Some 0 -> 0 <= p <= tot -> is_Some (cstr m p).
Proof.
  intros Hz [H0 Hp]. unfold cstr. destruct (Z.ltb_spec p 0); [lia|]. unfold rd8 in Hz. destruct (Z.ltb_spec tot 0); [done|].
  replace (Z.to_nat tot) with (Z.to_nat p + Z.to_nat (tot - p))%nat in Hz by lia. rewrite <- lookup_drop in Hz.
  revert Hz. generalize (Z.to_nat (tot - p)) as i, (drop (Z.to_nat p) m) as l. clear.
  intros i l. revert i. induction l as [|c l IH]; intros i Hi; [done|]. cbn. destruct (Z.eqb_spec c 0); [by eexists|].
  destruct i as [|i]; [cbn in Hi; congruence|]. destruct (IH i Hi) as [s ->]. by eexists.
Qed.

Context (Hnul : rd8 m tot = Some 0).
Context (Hprobe : forall d name compatible, is_Some (drv_probe ops d name (Some compatible))).
Context (Hadd : forall d node s, is_sw 32 node -> 0 <= node -> is_Some (addDevice ops d node s)).

Lemma first_probe_total ok name c l : is_Some (first_probe ops ok name (Some c) l).
Proof.
  induction l as [|d l IH]; cbn [first_probe]; [by eexists|]. destruct (ok d); [|done].
  destruct (Hprobe d name c) as [rc ->]. cbn [mbind option_bind]. destruct (0 <? rc); [by eexists|done].
Qed.

Lemma try_total node type s : is_sw 32 node -> 0 <= node -> is_Some (_try ops b node type s).
Proof.
  intros Ho H0. unfold _try, mbind, M_bind, get. destruct (_devhdl _ !! node) as [[[]]|]; [by eexists|].
  destruct (get_name_ok b Hok node Ho) as (p & n & -> & Hp). cbn [lift fst]. destruct p as [p|]; [|by eexists].
  destruct Hp as (nm & -> & _). cbn [lift].
  assert (exists q l, fdt_get_property b node (byte_list "compatible") = Some (q, l) /\
    match q with Some q => 0 <= q + 12 <= tot | None => True end) as (q & l & -> & Hq).
  { unfold fdt_get_property, fdt_get_property_namelen, fdt_version. rewrite (field_ok b Hok) by lia. cbn [mbind option_bind].
    destruct (_ <? 16); [by do 2 eexists|].
    destruct (get_property_namelen_ok b Hok node (byte_list "compatible") Ho) as (q & l & po & -> & Hq). do 2 eexists.
    split; [done|]. destruct q as [q|]; [|done]. destruct Hq as (-> & _ & next & Hta).
    destruct (ta_prop _ _ _ _ Hta eq_refl) as (? & ? & _). pose proof (ta_bound _ _ _ _ Hta). pose proof (ta_start _ _ _ _ Hta). cbn zeta in *. lia. }
  cbn [lift fst]. assert (exists c, match q with Some p => cstr m (p + 12) | None => Some [] end = Some c) as [c ->].
  { destruct q as [q|]; [|by eexists]. destruct (cstr_nul (q + 12) Hnul Hq) as [c ->]. by exists c. }
  destruct (first_probe_total (fun d => type_selected type (getDeviceType ops d)) nm c (_drvlist (mgr_of ops s))) as [f ->]. cbn [lift].
  destruct f as [[drv rc]|]; [|by eexists]. cbn [lift]. destruct (Hadd drv node s Ho H0) as [[hdl s1] ->].
  destruct (0 <=? hdl); by eexists.
Qed.

Lemma probe_loop_total (pr : Z -> M K Z) node fuel :
  (forall c s, is_sw 32 c -> node + 4 <= c <= tot + 3 -> is_Some (pr c s)) ->
  forall child prev s, is_sw 32 child -> is_sw 32 prev -> (0 <= child -> node + 4 <= child <= tot + 3) ->
    (0 <= prev -> node + 4 <= prev <= tot + 3) -> (0 <= child \/ 0 <= prev) -> Z.max 0 (tot + 8 - child) < 4 * Z.of_nat fuel \/ (child < 0 /\ (0 < fuel)%nat) ->
    is_Some (probe_loop b pr fuel child prev s).
Proof.
  intros Hpr. induction fuel as [|fuel IH]; intros child prev s Hc Hp Hcr Hpv Hone Hf; [lia|]. cbn [probe_loop].
  destruct (Z.leb_spec 0 child) as [Hc0|Hc0]; [|apply Hpr; [done|lia]].
  unfold mbind, M_bind. assert (is_Some ((if 0 <=? prev then pr prev else mret 0) s)) as [[r1 s1] ->].
  { destruct (Z.leb_spec 0 prev); [apply Hpr; [done|lia]|by eexists]. }
  destruct (next_subnode_inc child Hc Hc0) as (next & -> & Hn & Hnr). cbn [lift]. apply IH; [done|done|lia|lia|lia|]. lia.
Qed.

Lemma probe_total type fuel : forall node s, is_sw 32 node -> 0 <= node -> Z.max 0 (tot + 4 - node) < 4 * Z.of_nat fuel ->
  is_Some (probe ops b fuel type node s).
Proof.
  induction fuel as [|fuel IH]; intros node s Ho H0 Hf; [lia|]. cbn [probe]. unfold mbind, M_bind.
  destruct (try_total node type s Ho H0) as [[r s1] ->]. destruct (r <? 0); [by eexists|]. destruct (1 <? r); [by eexists|].
  destruct (first_subnode_inc node Ho H0) as (c & -> & Hc & Hcr). cbn [lift].
  destruct (Z.leb_spec 0 c); [|by eexists].
  assert (is_Some (probe_loop b (probe ops b fuel type) (blob_fuel b) c (-1) s1)) as [[r2 s2] ->]; [|by eexists].
  apply (probe_loop_total _ node); [|done|done|lia|lia|lia|].
  - intros c' s' Hc' Hr'. apply IH; [done|lia|]. lia.
  - left. pose proof (bo_size _ Hok). unfold blob_fuel, zlen in *. lia.
Qed.
End Total.

(** [DriverManager::probe] always returns: on a blob of any content that is
    followed by a NUL (so that every "compatible" string ends), with drivers
    whose [probe] and [addDevice] return, the recursion ends and nothing is
    read outside the buffer. *)
Theorem probe_terminates {D K} `{EqDecision D} (ops : DriverBase D K) b type node s :
  blob_ok b -> rd8 (r_bytes b) (hv b 4) = Some 0 ->
  (forall d name compatible, is_Some (drv_probe ops d name (Some compatible))) ->
  (forall d node s, is_sw 32 node -> 0 <= node -> is_Some (addDevice ops d node s)) ->
  is_sw 32 node -> 0 <= node ->
  exists rc s', probe ops b (blob_fuel b) type node s = Some (rc, s').
Proof.
  intros Hok Hz Hp Ha Ho H0. destruct (probe_total ops b Hok Hz Hp Ha type (blob_fuel b) node s Ho H0) as [[rc s'] E].
  - pose proof (bo_size _ Hok). pose proof (bo_hdr _ Hok). unfold blob_fuel, zlen in *. lia.
  - by exists rc, s'.
Qed.

(** ** What probing installs *)

(** The contract of the drivers towards the manager: a driver's [addDevice] keeps
    the drivers and the installed devices, and marks further nodes with
    DRV_CAP_NONE or DRV_CAP_THIS only. *)
Class DriverSpec {D K} (ops : DriverBase D K) : Prop := {
  mgr_set : forall g s, mgr_of ops (set_mgr ops g s) = g;
  add_keeps : forall d node s r s', addDevice ops d node s = Some (r, s') ->
    _drvlist (mgr_of ops s') = _drvlist (mgr_of ops s) /\
    _devhdl (mgr_of ops s) ⊆ _devhdl (mgr_of ops s') /\
    forall n v, _devhdl (mgr_of ops s') !! n = Some v -> _devhdl (mgr_of ops s) !! n = Some v \/ 0 <= v.1.2 <= 1;
}.

Section Installs.
  Context {D K : Type} `{EqDecision D} (ops : DriverBase D K) `{!DriverSpec ops} (b : region) (type : Z) (l : list D).
  Local Abbreviation m := (r_bytes b).
  Local Abbreviation dev k := (_devhdl (mgr_of ops k)).

(** The driver the manager chooses for a node, from the drivers [l]. *)
Definition choice (node : Z) : option (option (D * Z)) :=
  r ← fdt_get_name b node;
  p ← fst r;
  name ← cstr m p;
  prop ← fdt_get_property b node (byte_list "compatible");
  first_probe ops (fun d => type_selected type (getDeviceType ops d)) name
    (match fst prop with Some p => cstr m (p + 12) | None => Some [] end) l.

(** The sub-nodes of a node are looked at unless a driver covers it. *)
Definition passes (node : Z) : Prop :=
  exists c, choice node = Some c /\ forall d rc, c = Some (d, rc) -> rc <= DRV_CAP_THIS.

Inductive reached (s : dt) : dt -> Prop :=
  | reached_here : reached s s
  | reached_kid k t : passes (d_off t) -> k ∈ d_kids t -> reached s k -> reached s t.

(** A driver takes the device whatever the state. *)
Definition accepts (d : D) (node : Z) : Prop :=
  forall s r s', addDevice ops d node s = Some (r, s') -> 0 <= r.

(** The drivers are [l], and an entry that covers its node was chosen for it. *)
Definition consistent (k : K) : Prop :=
  _drvlist (mgr_of ops k) = l /\
  forall n v, dev k !! n = Some v -> 0 <= v.1.2 <= 1 \/ (exists d, choice n = Some (Some (d, v.1.2)) /\ 0 < v.1.2).

Lemma first_probe_pos ok name c l' d rc : first_probe ops ok name c l' = Some (Some (d, rc)) -> 0 < rc.
Proof.
  induction l' as [|d' l' IH]; cbn [first_probe]; [done|]. destruct (ok d'); [|done].
  destruct (drv_probe ops d' name c) as [r|]; [|done]. cbn [mbind option_bind]. destruct (Z.ltb_spec 0 r); [|done]. by intros [= <- <-].
Qed.

Lemma choice_pos n d rc : choice n = Some (Some (d, rc)) -> 0 < rc.
Proof.
  unfold choice. destruct (fdt_get_name b n) as [[[p|] len]|]; [|done|done]. cbn [mbind option_bind fst].
  destruct (cstr m p); [|done]. cbn [mbind option_bind]. destruct (fdt_get_property b n _); [|done]. cbn [mbind option_bind].
  apply first_probe_pos.
Qed.

Lemma passes_le n d rc : passes n -> choice n = Some (Some (d, rc)) -> rc <= 1.
Proof. intros (c & Ec & Hp) E. rewrite E in Ec. injection Ec as <-. by eapply Hp. Qed.

(** One call of [_try]. *)
Lemma try_spec n k r k' : consistent k -> _try ops b n type k = Some (r, k') ->
  consistent k' /\ dev k ⊆ dev k' /\ (passes n -> 0 <= r <= 1) /\
  (forall d rc, choice n = Some (Some (d, rc)) -> accepts d n -> is_Some (dev k' !! n)).
Proof.
  intros [Hl Hc]. unfold _try, mbind, M_bind, get. destruct (dev k !! n) as [[[d0 rc0] h0]|] eqn:En.
  { intros [= <- <-]. split_and!; [done|done| |]; [|intros; by rewrite En].
    intros Hp. destruct (Hc n _ En) as [H|(d & Ed & H)]; [exact H|]. pose proof (passes_le _ _ _ Hp Ed). cbn in *. lia. }
  destruct (fdt_get_name b n) as [[[p|] len]|] eqn:Ename; [| |done]; cbn [lift fst].
  2:{ intros [= <- <-]. split_and!; [done|done| |]; [intros (c & Ec & _)|intros d rc Ec]; unfold choice in Ec; rewrite Ename in Ec; done. }
  destruct (cstr m p) as [name|] eqn:Es; [|done]. cbn [lift].
  destruct (fdt_get_property b n (byte_list "compatible")) as [prop|] eqn:Eprop; [|done]. cbn [lift].
  assert (choice n = first_probe ops (fun d => type_selected type (getDeviceType ops d)) name
    (match fst prop with Some p => cstr m (p + 12) | None => Some [] end) l) as Ech.
  { unfold choice. rewrite Ename. cbn [mbind option_bind fst]. rewrite Es. cbn [mbind option_bind]. by rewrite Eprop. }
  rewrite Hl, <- Ech. destruct (choice n) as [[[d rc]|]|] eqn:Ec; [| |done]; cbn [lift].
  2:{ intros [= <- <-]. split_and!; (done || lia). }
  destruct (match fst prop with Some p => cstr m (p + 12) | None => Some [] end); [|done]. cbn [lift].
  destruct (addDevice ops d n k) as [[hdl k1]|] eqn:Ea; [|done]. destruct (add_keeps _ _ _ _ _ Ea) as (Hl1 & Hsub & Hnew).
  pose proof (first_probe_pos _ _ _ _ _ _ (eq_sym Ech)) as Hrc.
  assert (consistent k1) as Hc1.
  { split; [congruence|]. intros n' v Hv. destruct (Hnew n' v Hv) as [H|H]; [by apply Hc|by left]. }
  destruct (Z.leb_spec 0 hdl) as [Hh|Hh]; cbn.
  - intros [= <- <-]. unfold consistent, with_devhdl. rewrite mgr_set. cbn [_drvlist _devhdl]. unfold devhdl_insert.
    destruct (dev k1 !! n) as [v1|] eqn:E1.
    + split_and!; [congruence|apply Hc1|done| |].
      * intros Hp. pose proof (passes_le _ _ _ Hp Ec). lia.
      * intros. by rewrite E1.
    + split_and!; [congruence| | | |].
      * intros n' v. rewrite lookup_insert. case_decide as En'; [subst n'|apply Hc1].
        intros [= <-]. right. by exists d.
      * etrans; [exact Hsub|]. by apply insert_subseteq.
      * intros Hp. pose proof (passes_le _ _ _ Hp Ec). lia.
      * intros. rewrite lookup_insert_eq. by eexists.
  - intros [= <- <-]. split_and!; [exact Hc1|exact Hsub| |].
    + intros Hp. pose proof (passes_le _ _ _ Hp Ec). lia.
    + intros d' rc' Hc' Hacc. injection Hc' as <- <-. specialize (Hacc _ _ _ Ea). lia.
Qed.

(** The traversal keeps what is installed. *)
Lemma visit_keeps t : forall k r k', consistent k -> visit ops b type t k = Some (r, k') ->
  consistent k' /\ dev k ⊆ dev k'.
Proof.
  induction t as [o n ps ks IH] using dt_ind'. intros k r k' Hc. rewrite visit_unfold. cbn [d_off d_kids]. unfold mbind, M_bind at 1.
  destruct (_try ops b o type k) as [[r1 k1]|] eqn:Et; [|done]. destruct (try_spec _ _ _ _ Hc Et) as (Hc1 & Hs1 & _).
  destruct (r1 <? 0); [by intros [= _ <-]|]. destruct (1 <? r1); [by intros [= _ <-]|].
  assert (forall k1 u k2, consistent k1 -> visit_all ops b type ks k1 = Some (u, k2) -> consistent k2 /\ dev k1 ⊆ dev k2) as HA.
  { clear -IH. induction IH as [|t ks Ht _ IHks]; intros k1 u k2 Hc1; cbn [visit_all]; [by intros [= _ <-]|].
    unfold mbind, M_bind. destruct (visit ops b type t k1) as [[r3 k3]|] eqn:Ev; [|done]. intros E.
    destruct (Ht _ _ _ Hc1 Ev) as [Hc3 Hs3]. destruct (IHks _ _ _ Hc3 E) as [Hc2 Hs2]. split; [done|by etrans]. }
  unfold M_bind. destruct (visit_all ops b type ks k1) as [[u k2]|] eqn:Ev; [|done]. intros [= _ <-].
  destruct (HA _ _ _ Hc1 Ev) as [Hc2 Hs2]. split; [done|by etrans].
Qed.

Lemma visit_all_keeps ks : forall k u k', consistent k -> visit_all ops b type ks k = Some (u, k') ->
  consistent k' /\ dev k ⊆ dev k'.
Proof.
  induction ks as [|t ks IH]; intros k u k' Hc; cbn [visit_all]; [by intros [= _ <-]|].
  unfold mbind, M_bind. destruct (visit ops b type t k) as [[r3 k3]|] eqn:Ev; [|done]. intros E.
  destruct (visit_keeps _ _ _ _ Hc Ev) as [Hc3 Hs3]. destruct (IH _ _ _ Hc3 E) as [Hc2 Hs2]. split; [done|by etrans].
Qed.

(** A node that is reached and whose driver takes it is installed. *)
Lemma visit_installs s d rc t : reached s t -> choice (d_off s) = Some (Some (d, rc)) -> accepts d (d_off s) ->
  forall k r k', consistent k -> visit ops b type t k = Some (r, k') -> is_Some (dev k' !! d_off s).
Proof.
  intros Hre Hch Hacc. induction Hre as [|c t Hp Hin _ IH]; intros k r k' Hc; rewrite visit_unfold; unfold mbind, M_bind at 1.
  - destruct (_try ops b (d_off s) type k) as [[r1 k1]|] eqn:Et; [|done]. destruct (try_spec _ _ _ _ Hc Et) as (Hc1 & _ & _ & Hin).
    destruct (Hin _ _ Hch Hacc) as [v Hv]. destruct (r1 <? 0); [intros [= _ <-]; by exists v|].
    destruct (1 <? r1); [intros [= _ <-]; by exists v|]. unfold M_bind.
    destruct (visit_all ops b type (d_kids s) k1) as [[u k2]|] eqn:Ev; [|done]. intros [= _ <-].
    destruct (visit_all_keeps _ _ _ _ Hc1 Ev) as [_ Hsub]. exists v. by eapply lookup_weaken.
  - destruct (_try ops b (d_off t) type k) as [[r1 k1]|] eqn:Et; [|done]. destruct (try_spec _ _ _ _ Hc Et) as (Hc1 & _ & Hr & _).
    specialize (Hr Hp). destruct (Z.ltb_spec r1 0); [lia|]. destruct (Z.ltb_spec 1 r1); [lia|]. unfold M_bind.
    destruct (visit_all ops b type (d_kids t) k1) as [[u k2]|] eqn:Ev; [|done]. intros [= _ <-].
    apply list_elem_of_split in Hin as (l1 & l2 & El). rewrite El in Ev.
    assert (G : forall l1 k1 u, consistent k1 -> visit_all ops b type (l1 ++ c :: l2) k1 = Some (u, k2) -> is_Some (dev k2 !! d_off s)).
    { clear -IH DriverSpec0. induction l1 as [|x l1 IHl]; intros k1 u Hc1; cbn [app visit_all]; unfold mbind, M_bind.
      - destruct (visit ops b type c k1) as [[r3 k3]|] eqn:Ev; [|done]. destruct (IH _ _ _ Hc1 Ev) as [v Hv]. intros E.
        destruct (visit_keeps _ _ _ _ Hc1 Ev) as [Hc3 _]. destruct (visit_all_keeps _ _ _ _ Hc3 E) as [_ Hsub].
        exists v. by eapply lookup_weaken.
      - destruct (visit ops b type x k1) as [[r3 k3]|] eqn:Ev; [|done]. intros E.
        destruct (visit_keeps _ _ _ _ Hc1 Ev) as [Hc3 _]. by eapply IHl. }
    by eapply G.
Qed.
End Installs.

(** C26: Probing installs every device it reaches. Starting with no device installed,
    on a blob that holds a tree: a node none of whose ancestors is covered by a
    driver, for which some registered driver of the probed type answers, and
    which that driver accepts, has a handle afterwards; the drivers and all
    handles given before stay. *)
Theorem probe_installs {D K} `{EqDecision D} (ops : DriverBase D K) `{!DriverSpec ops} b t type s d rc k r k' :
  holds b t -> reached ops b type (_drvlist (mgr_of ops k)) s t ->
  choice ops b type (_drvlist (mgr_of ops k)) (d_off s) = Some (Some (d, rc)) -> accepts ops d (d_off s) ->
  (forall n v, _devhdl (mgr_of ops k) !! n = Some v -> 0 <= v.1.2 <= 1) ->
  probe ops b (blob_fuel b) type (d_off t) k = Some (r, k') ->
  is_Some (_devhdl (mgr_of ops k') !! d_off s) /\ _drvlist (mgr_of ops k') = _drvlist (mgr_of ops k) /\
  _devhdl (mgr_of ops k) ⊆ _devhdl (mgr_of ops k').
Proof.
  intros (Hr & H0 & o' & _ & Hn & _) Hre Hch Hacc Hc E. assert (at_tag (d_off t)) as Hg by (rewrite H0; done).
  rewrite (probe_visit_node ops b Hr type t o') in E; [|done|done|].
  - assert (consistent ops b type (_drvlist (mgr_of ops k)) k) as Hco by (split; [done|]; intros n v Hv; left; by eapply Hc).
    destruct (visit_keeps ops b type _ t k r k' Hco E) as [[Hl _] Hsub]. split_and!; [|done|done]. by eapply visit_installs.
  - pose proof (node_end_bound b Hr t o' Hg Hn). pose proof (bo_size _ (rb_ok _ Hr)). pose proof (bo_hdr _ (rb_ok _ Hr)).
    unfold blob_fuel, zlen in *. lia.
Qed.

(** ** Invariants of probing *)

(** What every installation keeps, on any blob, [probe] keeps. *)
Section Invariant.
  Context {D K : Type} `{EqDecision D} (ops : DriverBase D K) (b : region) (type : Z) (I : K -> Prop).
  Local Abbreviation m := (r_bytes b).
  Context (Hadd : forall node s d rc r s', I s -> choice ops b type (_drvlist (mgr_of ops s)) node = Some (Some (d, rc)) ->
    addDevice ops d node s = Some (r, s') -> I s' /\ (0 <= r -> I (with_devhdl ops (devhdl_insert node (d, rc, r)) s'))).

Lemma try_inv node s r s' : I s -> _try ops b node type s = Some (r, s') -> I s'.
Proof.
  intros Hi. unfold _try, mbind, M_bind, get. destruct (_ !! node) as [[[]]|]; [by intros [= _ <-]|].
  destruct (fdt_get_name b node) as [[[p|] len]|] eqn:Ename; [|by intros [= _ <-]|done]. cbn [lift fst].
  destruct (cstr m p) as [name|] eqn:Es; [|done]. cbn [lift].
  destruct (fdt_get_property b node (byte_list "compatible")) as [prop|] eqn:Eprop; [|done]. cbn [lift].
  destruct (first_probe ops _ name _ _) as [[[d rc]|]|] eqn:Ef; [|by intros [= _ <-]|done]. cbn [lift].
  assert (choice ops b type (_drvlist (mgr_of ops s)) node = Some (Some (d, rc))) as Hc.
  { unfold choice. rewrite Ename. cbn [mbind option_bind fst]. rewrite Es. cbn [mbind option_bind]. rewrite Eprop. exact Ef. }
  destruct (match fst prop with Some p => cstr m (p + 12) | None => Some [] end); [|done]. cbn [lift].
  destruct (addDevice ops d node s) as [[h s1]|] eqn:Ea; [|done]. destruct (Hadd _ _ _ _ _ _ Hi Hc Ea) as [H1 H2].
  destruct (Z.leb_spec 0 h); cbn; intros [= _ <-]; [by apply H2|done].
Qed.

Lemma probe_loop_inv (pr : Z -> M K Z) fuel : (forall n s r s', I s -> pr n s = Some (r, s') -> I s') ->
  forall child prev s r s', I s -> probe_loop b pr fuel child prev s = Some (r, s') -> I s'.
Proof.
  intros Hpr. induction fuel as [|fuel IH]; intros child prev s r s' Hi; [done|]. cbn [probe_loop].
  destruct (0 <=? child); [|by apply Hpr]. unfold mbind, M_bind.
  destruct ((if 0 <=? prev then pr prev else mret 0) s) as [[r1 s1]|] eqn:E1; [|done].
  assert (I s1) as H1 by (destruct (0 <=? prev); [by eapply Hpr|by injection E1 as _ <-]).
  destruct (fdt_next_subnode b child) as [next|]; [|done]. cbn [lift]. by apply IH.
Qed.

Lemma probe_inv fuel : forall node s r s', I s -> probe ops b fuel type node s = Some (r, s') -> I s'.
Proof.
  induction fuel as [|fuel IH]; intros node s r s' Hi; [done|]. cbn [probe]. unfold mbind, M_bind.
  destruct (_try ops b node type s) as [[r1 s1]|] eqn:Et; [|done]. pose proof (try_inv _ _ _ _ Hi Et) as H1.
  destruct (r1 <? 0); [by intros [= _ <-]|]. destruct (1 <? r1); [by intros [= _ <-]|].
  destruct (fdt_first_subnode b node) as [c|]; [|done]. cbn [lift]. destruct (0 <=? c); [|by intros [= _ <-]].
  destruct (probe_loop b _ _ c (-1) s1) as [[r2 s2]|] eqn:El; [|done]. intros [= _ <-].
  eapply probe_loop_inv; [|exact H1|exact El]. exact IH.
Qed.
End Invariant.
