(* ===== verification/Sched.v ===== *)
(** The round-robin scheduler's task tables:
    src/kernel/driver/scheduler/roundrobin.cpp and [SysScheduler] of
    src/kernel/inc/k_sysdev.h. *)
From S2P Require Import Prelude KDefs Bytes.

(** [SysScheduler::task_t] *)
Record task_t := Task { priority : Z; start : Z }.

Module RoundRobin.
(** [taskgroup_t] and the members of [RoundRobinScheduler]. *)
Record taskgroup_t := Group { next_task_id : Z; tasks : gmap Z task_t }.
Record t := Sched { _hdl_count : Z; _taskgroups : gmap Z taskgroup_t }.

Definition init : t := Sched 0 ∅.
Definition new_group : taskgroup_t := Group 1 ∅.

Definition probe (name compatible : list Z) : Z :=
  if bool_decide (name = byte_list "scheduler-rr") && bool_decide (compatible = byte_list "sys,scheduler") then 1 else 0.

Definition addDevice (s : t) : Z * t :=
  (_hdl_count s, Sched (s64 (_hdl_count s + 1)) (<[_hdl_count s := new_group]> (_taskgroups s))).

Definition removeDevice (handler : Z) (s : t) : t := Sched (_hdl_count s) (delete handler (_taskgroups s)).

(** The search for an unused identifier, from [id] on. *)
Fixpoint free_id (fuel : nat) (ts : gmap Z task_t) (id : Z) : option Z :=
  match fuel with
  | O => None
  | S fuel => match ts !! id with Some _ => free_id fuel ts (u32 (id + 1)) | None => Some id end
  end.

Definition addTask (hdl : Z) (task : task_t) (s : t) : option (Z * t) :=
  match _taskgroups s !! hdl with
  | None => Some (0, s)
  | Some tg =>
      if Z.of_nat (size (tasks tg)) =? 2 ^ 32 - 1 then Some (0, s)
      else
        id ← free_id (S (size (tasks tg))) (tasks tg) (next_task_id tg);
        Some (id, Sched (_hdl_count s) (<[hdl := Group (u32 (id + 1)) (<[id := task]> (tasks tg))]> (_taskgroups s)))
  end.

Definition removeTask (hdl task_id : Z) (s : t) : Z * t :=
  match _taskgroups s !! hdl with
  | None => (K_EINVAL, s)
  | Some tg =>
      match tasks tg !! task_id with
      | None => (K_EALREADY, s)
      | Some _ => (0, Sched (_hdl_count s) (<[hdl := Group (next_task_id tg) (delete task_id (tasks tg))]> (_taskgroups s)))
      end
  end.

(** ** Properties *)

(** Identifiers are 32-bit values, and a group is never fuller than the check of
    [addTask] allows. *)
Definition group_ok (tg : taskgroup_t) : Prop :=
  is_uw 32 (next_task_id tg) /\ (forall id, is_Some (tasks tg !! id) -> is_uw 32 id) /\
  Z.of_nat (size (tasks tg)) <= 2 ^ 32 - 1.
Definition sched_ok (s : t) : Prop := map_Forall (fun _ tg => group_ok tg) (_taskgroups s).

(** The identifiers the search goes through. *)
Definition ids (n : nat) (id : Z) : list Z := (fun i => u32 (id + Z.of_nat i)) <$> seq 0 n.

Lemma free_id_full fuel ts : forall id, is_uw 32 id -> free_id fuel ts id = None -> Forall (fun i => is_Some (ts !! i)) (ids fuel id).
Proof.
  induction fuel as [|fuel IH]; intros id Hid E; [constructor|]. cbn [free_id] in E. unfold ids. cbn [seq].
  rewrite fmap_cons. destruct (ts !! id) as [tk|] eqn:El; [|done]. constructor.
  - rewrite Z.add_0_r, uw_small by done. by rewrite El.
  - specialize (IH (u32 (id + 1)) (uw_range 32 _ ltac:(lia)) E). unfold ids in IH. rewrite <- fmap_S_seq, <- list_fmap_compose.
    rewrite Forall_fmap in *. eapply Forall_impl; [exact IH|]. intros i Hi. cbn in *.
    unfold uw in *. rewrite Z.add_mod_idemp_l in Hi by lia. by replace (id + Z.of_nat (S i)) with (id + 1 + Z.of_nat i) by lia.
Qed.

Lemma ids_NoDup n id : Z.of_nat n <= 2 ^ 32 -> NoDup (ids n id).
Proof.
  intros Hn. unfold ids. apply NoDup_fmap_2_strong; [|apply NoDup_seq].
  intros i j Hi Hj E. apply elem_of_seq in Hi, Hj. unfold uw in E.
  assert ((Z.of_nat i - Z.of_nat j) mod 2 ^ 32 = 0) as Hm.
  { replace (Z.of_nat i - Z.of_nat j) with ((id + Z.of_nat i) - (id + Z.of_nat j)) by lia. rewrite Zminus_mod, E, Z.sub_diag. done. }
  apply Z.mod_divide in Hm; [|lia]. destruct Hm as [c Hc].
  assert (c = 0) by nia. lia.
Qed.

(** A table with room has a free identifier among the first [size + 1] tried. *)
Lemma free_id_total ts id : is_uw 32 id -> Z.of_nat (size ts) < 2 ^ 32 ->
  exists i, free_id (S (size ts)) ts id = Some i /\ ts !! i = None /\ is_uw 32 i.
Proof.
  intros Hid Hsz. destruct (free_id (S (size ts)) ts id) as [i|] eqn:E.
  - exists i. split; [done|]. revert id Hid E. generalize (S (size ts)) as f. induction f as [|f IH]; intros id Hid E; [done|].
    cbn [free_id] in E. destruct (ts !! id) eqn:El; [|by injection E as <-]. eapply IH; [|done]. apply uw_range. lia.
  - exfalso. apply free_id_full in E; [|done]. pose proof (ids_NoDup (S (size ts)) id ltac:(lia)) as Hnd.
    assert (list_to_set (ids (S (size ts)) id) ⊆ dom ts) as Hsub.
    { intros x Hx. rewrite elem_of_list_to_set in Hx. rewrite Forall_forall in E. by apply elem_of_dom, E. }
    apply subseteq_size in Hsub. rewrite size_list_to_set, size_dom in Hsub by done.
    unfold ids in Hsub. rewrite length_fmap, length_seq in Hsub. lia.
Qed.

(** [addTask] gives a task an unused identifier: while the group has room the
    search ends, the task is entered under an identifier no other task of the
    group has, everything else stays, and removing it again restores the
    group's tasks. A missing or full group is reported with 0 and nothing
    changes. The invariant of the tables is kept. *)
Theorem addTask_correct s hdl task : sched_ok s ->
  exists id s', addTask hdl task s = Some (id, s') /\ sched_ok s' /\
    match _taskgroups s !! hdl with
    | Some tg =>
        if decide (Z.of_nat (size (tasks tg)) < 2 ^ 32 - 1) then
          tasks tg !! id = None /\ is_uw 32 id /\
          _taskgroups s' = <[hdl := Group (u32 (id + 1)) (<[id := task]> (tasks tg))]> (_taskgroups s) /\
          exists s'', removeTask hdl id s' = (0, s'') /\ tasks <$> _taskgroups s'' !! hdl = Some (tasks tg)
        else id = 0 /\ s' = s
    | None => id = 0 /\ s' = s
    end.
Proof.
  intros Hok. unfold addTask. destruct (_taskgroups s !! hdl) as [tg|] eqn:Eg; [|by exists 0, s].
  destruct (Hok hdl tg Eg) as (Hn & Hids & Hsz).
  destruct (Z.eqb_spec (Z.of_nat (size (tasks tg))) (2 ^ 32 - 1)) as [Hf|Hf].
  { exists 0, s. split; [done|]. split; [done|]. case_decide; [lia|done]. }
  destruct (free_id_total (tasks tg) (next_task_id tg) Hn ltac:(lia)) as (id & -> & Hfree & Hid). cbn [mbind option_bind].
  eexists id, _. split; [done|]. split.
  - intros h tg'. cbn [_taskgroups]. rewrite lookup_insert. case_decide; [|apply Hok]. intros [= <-]. split_and!; cbn [next_task_id tasks].
    + apply uw_range. lia.
    + intros i. rewrite lookup_insert. case_decide; [by subst|apply Hids].
    + rewrite map_size_insert_None by done. lia.
  - case_decide; [|lia]. split_and!; [done|done|done|]. unfold removeTask. cbn [_taskgroups _hdl_count].
    rewrite lookup_insert_eq. cbn [tasks]. rewrite lookup_insert_eq. eexists. split; [done|]. cbn [_taskgroups next_task_id].
    rewrite lookup_insert_eq. cbn. by rewrite delete_insert_id.
Qed.

(** The identifier 0, which reports an error, is also given to a task: once the
    counter has wrapped around. *)
Lemma addTask_zero task : exists s s', sched_ok s /\ addTask 0 task s = Some (0, s') /\
  tasks <$> _taskgroups s' !! 0 = Some {[ 0 := task; 2 ^ 32 - 1 := task ]}.
Proof.
  exists (Sched 1 {[ 0 := Group (2 ^ 32 - 1) {[ 2 ^ 32 - 1 := task ]} ]}). eexists.
  split; [|split; [vm_compute; reflexivity|vm_compute; reflexivity]].
  apply map_Forall_singleton. split_and!; [done| |vm_compute; congruence]. cbn [tasks].
  intros id. rewrite lookup_singleton. case_decide; [by subst|by intros []].
Qed.

(** The operations that take something away, and [addDevice], keep the invariant. *)
Lemma sched_ops_ok s hdl id : sched_ok s ->
  sched_ok init /\ sched_ok (addDevice s).2 /\ sched_ok (removeDevice hdl s) /\ sched_ok (removeTask hdl id s).2.
Proof.
  intros Hok. split_and!.
  - by apply map_Forall_empty.
  - apply map_Forall_insert_2; [|done]. split_and!; [done|by intros ? []|done].
  - by apply map_Forall_delete.
  - unfold removeTask. destruct (_taskgroups s !! hdl) as [tg|] eqn:Eg; [|done]. destruct (tasks tg !! id) as [tk|] eqn:Et; [|done].
    destruct (Hok hdl tg Eg) as (Hn & Hids & Hsz). apply map_Forall_insert_2; [|done]. split_and!; cbn [next_task_id tasks]; [done| |].
    + intros i. rewrite lookup_delete. case_decide; [by intros []|apply Hids].
    + rewrite map_size_delete_Some by (by eexists). lia.
Qed.

Definition sample : t := (addDevice init).2.

Lemma addTask_witness : exists s', addTask 0 (Task 5 0x1000) sample = Some (1, s') /\
  tasks <$> _taskgroups s' !! 0 = Some {[ 1 := Task 5 0x1000 ]}.
Proof.
  destruct (addTask_correct sample 0 (Task 5 0x1000)) as (id & s' & E & _ & H).
  - apply (sched_ops_ok init 0 0). by apply map_Forall_empty.
  - assert (id = 1) as -> by (revert E; vm_compute; congruence). exists s'. split; [exact E|].
    revert E. vm_compute. by intros [= <-].
Defined.
End RoundRobin.
