(* ===== verification/Uart.v ===== *)
(** The UART driver: src/kernel/driver/virt/uart8250.cpp on the MMIO accessors of
    src/kernel/inc/sbi/riscv_io.h. The device behind the registers is a
    parameter; what the transmit and receive paths need of it is the class
    [Uart16550]. *)
From S2P Require Import Prelude KDefs Bytes Fdt FdtRo FdtSafe FdtRoSafe FdtProps FdtHelper.

(** ** Register offsets and bits *)
Definition UART_RBR_OFFSET : Z := 0.
Definition UART_THR_OFFSET : Z := 0.
Definition UART_DLL_OFFSET : Z := 0.
Definition UART_IER_OFFSET : Z := 1.
Definition UART_DLM_OFFSET : Z := 1.
Definition UART_FCR_OFFSET : Z := 2.
Definition UART_LCR_OFFSET : Z := 3.
Definition UART_MCR_OFFSET : Z := 4.
Definition UART_LSR_OFFSET : Z := 5.
Definition UART_SCR_OFFSET : Z := 7.
Definition UART_LSR_THRE : Z := 0x20.
Definition UART_LSR_DR : Z := 0x01.

(** The bus: a load or a store of [width] bytes at an address, over the state of
    the hardware. *)
Record Mmio (H : Type) := {
  mm_load : Z -> Z -> H -> Z * H;
  mm_store : Z -> Z -> Z -> H -> H;
}.
Arguments mm_load {H}. Arguments mm_store {H}.

Section Io.
  Context {H : Type} (io : Mmio H).

(** [readb], [readw], [readl]: the loaded value in an unsigned type. *)
Definition readb (addr : Z) (h : H) : Z * H := let '(v, h) := mm_load io 1 addr h in (u8 v, h).
Definition readw (addr : Z) (h : H) : Z * H := let '(v, h) := mm_load io 2 addr h in (u16 v, h).
Definition readl (addr : Z) (h : H) : Z * H := let '(v, h) := mm_load io 4 addr h in (u32 v, h).
Definition writeb (val addr : Z) (h : H) : H := mm_store io 1 addr (u8 val) h.
Definition writew (val addr : Z) (h : H) : H := mm_store io 2 addr (u16 val) h.
Definition writel (val addr : Z) (h : H) : H := mm_store io 4 addr (u32 val) h.
End Io.

(** [uart8250_t] *)
Record uart8250_t := Uart {
  ubase : Z; freq : Z; baud : Z; reg_width : Z; reg_shift : Z; opened : bool;
}.

Module Uart8250.
(** The driver object and the hardware. *)
Record t (H : Type) := Drv { hdl_count : Z; hdl : gmap Z uart8250_t; hw : H }.
Arguments Drv {H}. Arguments hdl_count {H}. Arguments hdl {H}. Arguments hw {H}.

Section Driver.
  Context {H : Type} (io : Mmio H).

Definition on_hw (f : H -> H) (s : t H) : t H := Drv (hdl_count s) (hdl s) (f (hw s)).

(** Shifting a 32-bit value by 32 or more is undefined. *)
Definition reg_offset (u : uart8250_t) (num : Z) : option Z :=
  if reg_shift u <? 32 then Some (u32 (Z.shiftl num (reg_shift u))) else None.

Definition get_reg (u : uart8250_t) (num : Z) : M (t H) Z := fun s =>
  offset ← reg_offset u num;
  let addr := u64 (ubase u + offset) in
  let '(v, h) := (if reg_width u =? 1 then readb io addr (hw s)
                  else if reg_width u =? 2 then readw io addr (hw s)
                  else readl io addr (hw s)) in
  Some (v, on_hw (fun _ => h) s).

Definition set_reg (u : uart8250_t) (num val : Z) : M (t H) unit := fun s =>
  offset ← reg_offset u num;
  let addr := u64 (ubase u + offset) in
  Some (tt, on_hw (if reg_width u =? 1 then writeb io val addr
                   else if reg_width u =? 2 then writew io val addr
                   else writel io val addr) s).

Definition probe (compatible : option (list Z)) : option Z :=
  c ← compatible;
  Some (if bool_decide (c = byte_list "ns16550") || bool_decide (c = byte_list "ns16550a") ||
           bool_decide (c = byte_list "snps,dw-apb-uart") then 1 else 0).

(** The first cell of a property, or a default when there is none. *)
Definition cell_or (b : region) (node : Z) (name : list Z) (dflt : Z) : option Z :=
  r ← fdt_getprop b node name;
  match r with
  | (Some val, len) => if 0 <? len then fdt32_ld (r_bytes b) val else Some dflt
  | (None, _) => Some dflt
  end.

(** The baud divisor, in 32-bit arithmetic; a zero divisor faults. *)
Definition divisor (freq baud : Z) : option Z :=
  if baud =? 0 then Some 0
  else if u32 (16 * baud) =? 0 then None
  else Some (u16 (u32 (freq + u32 (8 * baud)) / u32 (16 * baud))).

(** [junk] is what the uninitialised variables hold. *)
Definition addDevice (b : region) (junk node : Z) : M (t H) Z :=
  r ← lift (fdt_get_node_addr_size b node 0 junk junk);
  let '(rc, base, regsize) := r in
  if (rc <? 0) || (base =? 0) || (regsize =? 0) then mret K_ENODEV
  else
    freq ← lift (cell_or b node (byte_list "clock-frequency") 0);
    baud ← lift (cell_or b node (byte_list "current-speed") 115200);
    shift ← lift (cell_or b node (byte_list "reg-shift") 0);
    width ← lift (cell_or b node (byte_list "reg-io-width") 1);
    roff ← lift (cell_or b node (byte_list "reg-offset") 0);
    let u := Uart (u64 (base + roff + 0xFFFFFFC000000000)) freq baud width shift false in
    bdiv ← lift (divisor freq baud);
    set_reg u UART_IER_OFFSET 0x00 ≫= fun _ =>
    set_reg u UART_LCR_OFFSET 0x80 ≫= fun _ =>
    (if bdiv =? 0 then mret tt
     else set_reg u UART_DLL_OFFSET (Z.land bdiv 0xff) ≫= fun _ =>
          set_reg u UART_DLM_OFFSET (Z.land (Z.shiftr bdiv 8) 0xff)) ≫= fun _ =>
    set_reg u UART_LCR_OFFSET 0x03 ≫= fun _ =>
    set_reg u UART_FCR_OFFSET 0x01 ≫= fun _ =>
    set_reg u UART_MCR_OFFSET 0x00 ≫= fun _ =>
    get_reg u UART_LSR_OFFSET ≫= fun _ =>
    get_reg u UART_RBR_OFFSET ≫= fun _ =>
    set_reg u UART_SCR_OFFSET 0x00 ≫= fun _ =>
    s ← get;
    let n := s32 (hdl_count s + 1) in
    put (Drv n (match hdl s !! n with Some _ => hdl s | None => <[n := u]> (hdl s) end) (hw s)) ≫= fun _ =>
    mret n.

Definition set_opened (handler : Z) (u : uart8250_t) (o : bool) (s : t H) : t H :=
  Drv (hdl_count s) (<[handler := Uart (ubase u) (freq u) (baud u) (reg_width u) (reg_shift u) o]> (hdl s)) (hw s).

Definition open (handler : Z) : M (t H) Z := fun s =>
  match hdl s !! handler with
  | None => Some (K_ENODEV, s)
  | Some u => if opened u then Some (K_EALREADY, s) else Some (0, set_opened handler u true s)
  end.

Definition close (handler : Z) : M (t H) Z := fun s =>
  match hdl s !! handler with
  | None => Some (K_ENODEV, s)
  | Some u => if opened u then Some (0, set_opened handler u false s) else Some (K_EALREADY, s)
  end.

(** The loop of [read]: [n] more characters into [buf] from index [i] on. *)
Fixpoint read_loop (u : uart8250_t) (n : nat) (i : Z) (buf : list Z) : M (t H) (Z * list Z) :=
  match n with
  | O => mret (i, buf)
  | S n =>
      lsr ← get_reg u UART_LSR_OFFSET;
      if Z.land lsr UART_LSR_DR =? 0 then mret (i, buf)
      else
        c ← get_reg u UART_RBR_OFFSET;
        buf ← lift (wrn buf i [u8 c]);
        read_loop u n (i + 1) buf
  end.
Definition read (handler : Z) (buf : list Z) (len : Z) : M (t H) (Z * list Z) := fun s =>
  match hdl s !! handler with
  | None => Some ((K_ENODEV, buf), s)
  | Some u => if len <=? 0 then Some ((len, buf), s) else read_loop u (Z.to_nat len) 0 buf s
  end.

(** [while ((get_reg(uart, UART_LSR_OFFSET) & UART_LSR_THRE) == 0);] *)
Fixpoint wait_thre (fuel : nat) (u : uart8250_t) : M (t H) unit :=
  match fuel with
  | O => fault
  | S fuel =>
      lsr ← get_reg u UART_LSR_OFFSET;
      if Z.land lsr UART_LSR_THRE =? 0 then wait_thre fuel u else mret tt
  end.
Fixpoint write_loop (fuel : nat) (u : uart8250_t) (l : list Z) : M (t H) unit :=
  match l with
  | [] => mret tt
  | c :: l =>
      wait_thre fuel u ≫= fun _ =>
      set_reg u UART_THR_OFFSET c ≫= fun _ =>
      write_loop fuel u l
  end.

(** [fuel] bounds the polls for one character. *)
Definition write (fuel : nat) (handler : Z) (buf : list Z) (len : Z) : M (t H) Z := fun s =>
  match hdl s !! handler with
  | None => Some (K_ENODEV, s)
  | Some u =>
      l ← (if len <=? 0 then Some [] else rdn buf 0 len);
      x ← write_loop fuel u l s;
      Some (len, snd x)
  end.

Definition ioctl (handler cmd : Z) : M (t H) Z := mret 0.
End Driver.
End Uart8250.

(** ** What the driver relies on: a 16550-compatible UART *)

(** A device on the bus: register [n] is at [base + n * stride] and is accessed with
    loads and stores of [width] bytes, of which the low eight bits count. [sent]
    is what went out on the line, [queue] what was received and not yet read,
    [busy] how many polls of the line-status register it takes until the
    transmitter accepts the next character, at most [bound]. Characters may
    arrive at any time. *)
Class Uart16550 {H} (io : Mmio H) (base stride width : Z) (sent queue : H -> list Z) (busy : H -> nat) (bound : nat) : Prop := {
  lsr_poll : forall h v h', mm_load io width (base + 5 * stride) h = (v, h') ->
    Z.testbit v 5 = (busy h =? 0)%nat /\ Z.testbit v 0 = negb (bool_decide (queue h = [])) /\
    busy h' = pred (busy h) /\ sent h' = sent h /\ exists arr, queue h' = queue h ++ arr;
  thr_send : forall v h, busy h = 0%nat ->
    let h' := mm_store io width base v h in
    sent h' = sent h ++ [v mod 256] /\ (busy h' <= bound)%nat /\ exists arr, queue h' = queue h ++ arr;
  rbr_take : forall h v h' c q, mm_load io width base h = (v, h') ->
    queue h = c :: q -> v mod 256 = c /\ sent h' = sent h /\ exists arr, queue h' = q ++ arr;
}.

(** A driver's description of the device that is right about it: eight registers
    inside the address space, the width and the distance as the bus has them. *)
Record wired (u : uart8250_t) (base stride width : Z) : Prop := {
  wi_base : ubase u = base /\ 0 <= base /\ base + 8 * stride <= 2 ^ 64;
  wi_stride : 0 <= reg_shift u < 29 /\ stride = 2 ^ reg_shift u;
  wi_width : width = if reg_width u =? 1 then 1 else if reg_width u =? 2 then 2 else 4;
}.

Module UartProps.
Import Uart8250.
Section Props.
  Context {H : Type} (io : Mmio H) (u : uart8250_t) (base stride width : Z) (sent queue : H -> list Z) (busy : H -> nat) (bound : nat).
  Context `{HU : !Uart16550 io base stride width sent queue busy bound} (Hu : wired u base stride width).

(** Where the driver looks for a register. *)
Lemma reg_address num : 0 <= num < 8 -> exists o, reg_offset u num = Some o /\ u64 (ubase u + o) = base + num * stride.
Proof.
  intros Hn. destruct (wi_base _ _ _ _ Hu) as (-> & H0 & H1), (wi_stride _ _ _ _ Hu) as [Hs Hd]. unfold reg_offset.
  destruct (Z.ltb_spec (reg_shift u) 32); [|lia]. eexists. split; [done|]. rewrite Z.shiftl_mul_pow2 by lia. rewrite <- Hd.
  assert (0 < stride < 2 ^ 29) by (rewrite Hd; split; [lia|apply Z.pow_lt_mono_r; lia]). assert (0 <= num * stride <= 7 * stride) by nia.
  rewrite (uw_small 32) by (unfold is_uw; lia). apply uw_small. unfold is_uw. lia.
Qed.

(** The bits of a value the narrower accesses keep. *)
Lemma uw_testbit w v i : 0 <= i < w -> Z.testbit (uw w v) i = Z.testbit v i.
Proof. intros Hi. unfold uw. apply Z.mod_pow2_bits_low. lia. Qed.
Lemma uw_byte w v : 8 <= w -> uw w v mod 256 = v mod 256.
Proof.
  intros Hw. unfold uw. change 256 with (2 ^ 8). apply Z.bits_inj'. intros i Hi. destruct (Z.ltb_spec i 8).
  - rewrite !Z.mod_pow2_bits_low by lia. done.
  - rewrite !Z.mod_pow2_bits_high by lia. done.
Qed.

Lemma get_reg_bus num s : 0 <= num < 8 -> exists w v h', 8 <= w /\ mm_load io width (base + num * stride) (hw s) = (v, h') /\
  get_reg io u num s = Some (uw w v, on_hw (fun _ => h') s).
Proof.
  intros Hn. destruct (reg_address num Hn) as (o & Eo & Ea). unfold get_reg. rewrite Eo. cbn [mbind option_bind]. rewrite Ea, (wi_width _ _ _ _ Hu).
  unfold readb, readw, readl. destruct (reg_width u =? 1); [|destruct (reg_width u =? 2)];
    destruct (mm_load io _ _ (hw s)) as [v h'] eqn:E; [exists 8|exists 16|exists 32]; exists v, h'; split_and!; (done || lia).
Qed.

Lemma set_reg_bus num c s : 0 <= num < 8 -> exists w, 8 <= w /\
  set_reg io u num c s = Some (tt, on_hw (mm_store io width (base + num * stride) (uw w c)) s).
Proof.
  intros Hn. destruct (reg_address num Hn) as (o & Eo & Ea). unfold set_reg. rewrite Eo. cbn [mbind option_bind]. rewrite Ea, (wi_width _ _ _ _ Hu).
  destruct (reg_width u =? 1); [|destruct (reg_width u =? 2)]; [exists 8|exists 16|exists 32]; (split; [lia|done]).
Qed.

Lemma mask_bit v k : 0 <= k -> (Z.land v (2 ^ k) =? 0) = negb (Z.testbit v k).
Proof.
  intros Hk. destruct (Z.testbit v k) eqn:E; cbn [negb].
  - apply Z.eqb_neq. intros E0. assert (Z.testbit (Z.land v (2 ^ k)) k = false) as E1 by (rewrite E0; apply Z.bits_0).
    rewrite Z.land_spec, E, Z.pow2_bits_true in E1 by lia. done.
  - apply Z.eqb_eq. apply Z.bits_inj'. intros i Hi. rewrite Z.land_spec, Z.bits_0. destruct (Z.eq_dec i k) as [->|]; [by rewrite E|].
    rewrite Z.pow2_bits_false by lia. by rewrite andb_false_r.
Qed.

(** A poll of the line status, a character out, a character in. *)
Lemma poll_ok s : exists v s', get_reg io u UART_LSR_OFFSET s = Some (v, s') /\ hdl s' = hdl s /\ hdl_count s' = hdl_count s /\
  (Z.land v UART_LSR_THRE =? 0) = negb (busy (hw s) =? 0)%nat /\ (Z.land v UART_LSR_DR =? 0) = bool_decide (queue (hw s) = []) /\
  busy (hw s') = pred (busy (hw s)) /\ sent (hw s') = sent (hw s) /\ exists arr, queue (hw s') = queue (hw s) ++ arr.
Proof.
  destruct (get_reg_bus UART_LSR_OFFSET s ltac:(unfold UART_LSR_OFFSET; lia)) as (w & v & h' & Hw & El & ->).
  destruct (lsr_poll _ _ _ El) as (B5 & B0 & Hb & Hs & Hq). do 2 eexists. split; [done|]. split; [done|]. split; [done|].
  change UART_LSR_THRE with (2 ^ 5). change UART_LSR_DR with (2 ^ 0). rewrite !mask_bit, !uw_testbit, B5, B0 by lia. rewrite negb_involutive. done.
Qed.

Lemma put_ok c s : busy (hw s) = 0%nat -> exists s', set_reg io u UART_THR_OFFSET c s = Some (tt, s') /\ hdl s' = hdl s /\ hdl_count s' = hdl_count s /\
  sent (hw s') = sent (hw s) ++ [u8 c] /\ (busy (hw s') <= bound)%nat.
Proof.
  intros Hb. destruct (set_reg_bus UART_THR_OFFSET c s ltac:(unfold UART_THR_OFFSET; lia)) as (w & Hw & ->).
  eexists. split; [done|]. split; [done|]. split; [done|]. cbn [hw on_hw]. change (UART_THR_OFFSET * stride) with 0. rewrite Z.add_0_r.
  destruct (thr_send (uw w c) (hw s) Hb) as (Hs & Hb' & _). split; [|done]. rewrite Hs. by rewrite uw_byte.
Qed.

Lemma take_ok s c q : queue (hw s) = c :: q -> exists v s', get_reg io u UART_RBR_OFFSET s = Some (v, s') /\ hdl s' = hdl s /\
  u8 v = c /\ sent (hw s') = sent (hw s) /\ exists arr, queue (hw s') = q ++ arr.
Proof.
  intros Eq. destruct (get_reg_bus UART_RBR_OFFSET s ltac:(unfold UART_RBR_OFFSET; lia)) as (w & v & h' & Hw & El & ->).
  change (UART_RBR_OFFSET * stride) with 0 in El. rewrite Z.add_0_r in El. destruct (rbr_take _ _ _ _ _ El Eq) as (Hv & Hs & Hq).
  do 2 eexists. split; [done|]. split; [done|]. split; [|done]. change (u8 (uw w v)) with (uw w v mod 256). by rewrite uw_byte.
Qed.

(** The poll loop ends as soon as the transmitter is ready. *)
Lemma wait_thre_ok : forall fuel s, (busy (hw s) < fuel)%nat ->
  exists s', wait_thre io fuel u s = Some (tt, s') /\ busy (hw s') = 0%nat /\ sent (hw s') = sent (hw s) /\
    hdl s' = hdl s /\ hdl_count s' = hdl_count s.
Proof.
  induction fuel as [|fuel IH]; intros s Hf; [lia|]. cbn [wait_thre]. unfold mbind, M_bind.
  destruct (poll_ok s) as (v & s1 & E & Hh & Hc & Ht & _ & Hb & Hs & _). rewrite E, Ht.
  destruct (Nat.eqb_spec (busy (hw s)) 0) as [Hz|Hz]; cbn [negb].
  - exists s1. split_and!; [done|lia|done|done|done].
  - destruct (IH s1 ltac:(lia)) as (s2 & E2 & ? & ? & ? & ?). exists s2. split_and!; (done || congruence).
Qed.

Lemma write_loop_ok fuel : (bound < fuel)%nat -> forall l s, (busy (hw s) < fuel)%nat ->
  exists s', write_loop io fuel u l s = Some (tt, s') /\ sent (hw s') = sent (hw s) ++ (u8 <$> l) /\
    hdl s' = hdl s /\ hdl_count s' = hdl_count s /\ (busy (hw s') < fuel)%nat.
Proof.
  intros Hbd. induction l as [|c l IH]; intros s Hf; cbn [write_loop].
  { exists s. split_and!; try done. cbn. by rewrite app_nil_r. }
  unfold mbind, M_bind. destruct (wait_thre_ok fuel s Hf) as (s1 & -> & Hb1 & Hs1 & Hh1 & Hc1).
  destruct (put_ok c s1 Hb1) as (s2 & E2 & Hh2 & Hc2 & Hs2 & Hb2). rewrite E2. destruct (IH s2 ltac:(lia)) as (s3 & E3 & Hs3 & Hh3 & Hc3 & Hb3).
  exists s3. split_and!; [done| |congruence|congruence|done]. rewrite Hs3, Hs2, Hs1, fmap_cons, <- app_assoc. done.
Qed.

(** The receive loop hands over the queue, in order and without loss. *)
Lemma read_loop_ok : forall n i buf s, 0 <= i -> i + Z.of_nat n <= zlen buf ->
  exists k got s' arr, read_loop io u n i buf s = Some ((i + zlen got, take (Z.to_nat i) buf ++ got ++ drop (Z.to_nat (i + zlen got)) buf), s') /\
    zlen got = k /\ k <= Z.of_nat n /\ got ++ queue (hw s') = queue (hw s) ++ arr /\ sent (hw s') = sent (hw s) /\ hdl s' = hdl s /\
    (queue (hw s) <> [] -> (0 < n)%nat -> 0 < k).
Proof.
  induction n as [|n IH]; intros i buf s Hi Hb; cbn [read_loop].
  { exists 0, [], s, []. rewrite zlen_nil, app_nil_r, Z.add_0_r. cbn [app]. rewrite take_drop. split_and!; (done || lia). }
  unfold mbind, M_bind. destruct (poll_ok s) as (v & s1 & E & Hh & Hc & _ & Hd & _ & Hs & arr1 & Hq1). rewrite E, Hd. case_bool_decide as Hqe.
  { exists 0, [], s1, arr1. rewrite zlen_nil, Z.add_0_r. cbn [app]. rewrite take_drop. split_and!; (done || lia). }
  destruct (queue (hw s)) as [|x q] eqn:Eq; [done|]. rewrite <- app_comm_cons in Hq1.
  destruct (take_ok s1 x _ Hq1) as (c & s2 & E2 & Hh2 & Hx & Hs2 & arr2 & Hq2). rewrite E2, Hx.
  assert (wrn buf i [x] = Some (take (Z.to_nat i) buf ++ [x] ++ drop (Z.to_nat i + 1) buf)) as Ew.
  { unfold wrn. change (zlen [x]) with 1. destruct (Z.leb_spec 0 i); [|lia]. destruct (Z.leb_spec (i + 1) (zlen buf)); [done|lia]. }
  rewrite Ew. cbn [lift]. set (buf' := take (Z.to_nat i) buf ++ [x] ++ drop (Z.to_nat i + 1) buf).
  assert (length (take (Z.to_nat i) buf) = Z.to_nat i) as Hlt by (rewrite length_take; unfold zlen in Hb; lia).
  assert (zlen buf' = zlen buf) as Hl'.
  { unfold buf', zlen in *. rewrite !length_app, length_drop, Hlt. cbn [length]. lia. }
  destruct (IH (i + 1) buf' s2 ltac:(lia) ltac:(lia)) as (k & got & s3 & arr3 & E3 & Hk & Hkn & Hq3 & Hs3 & Hh3 & _).
  exists (k + 1), (x :: got), s3, (arr1 ++ arr2 ++ arr3). rewrite zlen_cons. pose proof (zlen_nonneg got).
  replace (i + (1 + zlen got)) with (i + 1 + zlen got) by lia. split_and!; try (done || lia || congruence).
  - rewrite E3. do 3 f_equal.
    assert (take (Z.to_nat (i + 1)) buf' = take (Z.to_nat i) buf ++ [x]) as ->.
    { unfold buf'. rewrite app_assoc. replace (Z.to_nat (i + 1)) with (length (take (Z.to_nat i) buf ++ [x])) by (rewrite length_app, Hlt; cbn [length]; lia).
      apply take_app_length. }
    assert (drop (Z.to_nat (i + 1 + zlen got)) buf' = drop (Z.to_nat (i + 1 + zlen got)) buf) as ->.
    { unfold buf'. rewrite app_assoc, drop_app_ge by (rewrite length_app, Hlt; cbn [length]; lia).
      rewrite drop_drop, length_app, Hlt. cbn [length]. f_equal. lia. }
    by rewrite <- app_assoc.
  - cbn [app]. rewrite Hq3, Hq2. rewrite <- !app_assoc. done.
Qed.
End Props.

(** C31: The transmit path makes progress and loses nothing: on a 16550-compatible
    device that is ready again after at most [bound] polls, and whose base
    address, register distance and access width on the bus are those of the
    handle, [write] of [len] bytes (at most what the buffer holds, and not
    negative) returns [len], and it has put exactly those bytes on the line, in order. *)
Theorem uart_write_sends {H} (io : Mmio H) u base stride width sent queue busy bound
    `{!Uart16550 io base stride width sent queue busy bound} fuel handler buf len s :
  wired u base stride width ->
  hdl s !! handler = Some u -> Forall is_byte buf -> 0 <= len <= zlen buf -> (bound < fuel)%nat -> (busy (hw s) < fuel)%nat ->
  exists s', write io fuel handler buf len s = Some (len, s') /\
    sent (hw s') = sent (hw s) ++ take (Z.to_nat len) buf /\ hdl s' = hdl s.
Proof.
  intros Hu Hh Hby Hl Hb Hf. unfold write. rewrite Hh.
  assert ((if len <=? 0 then Some [] else rdn buf 0 len) = Some (take (Z.to_nat len) buf)) as ->.
  { destruct (Z.leb_spec len 0); [by replace len with 0 by lia|]. rewrite rdn_Some by lia. done. }
  cbn [mbind option_bind].
  destruct (write_loop_ok io u base stride width sent queue busy bound Hu fuel Hb (take (Z.to_nat len) buf) s Hf) as (s' & -> & Hs & Hh' & _).
  exists s'. split; [done|]. split; [|done]. rewrite Hs. f_equal. rewrite <- (list_fmap_id (take _ buf)) at 2.
  apply list_fmap_ext. intros i x Hx. apply uw_small. 
  apply (Forall_take _ (Z.to_nat len)) in Hby. by apply (Forall_lookup_1 _ _ _ _ Hby Hx).
Qed.

(** The receive path is a queue: [read] returns at once with the number of
    characters it took, stores them at the start of the buffer and leaves the
    rest of it alone; what it took and what is still queued is what was queued
    before followed by what arrived, and it takes something if something was
    there. *)
Theorem uart_read_takes {H} (io : Mmio H) u base stride width sent queue busy bound
    `{!Uart16550 io base stride width sent queue busy bound} handler buf len s :
  wired u base stride width ->
  hdl s !! handler = Some u -> 0 <= len <= zlen buf ->
  exists got s' arr, read io handler buf len s = Some ((zlen got, got ++ drop (length got) buf), s') /\
    zlen got <= len /\ got ++ queue (hw s') = queue (hw s) ++ arr /\ sent (hw s') = sent (hw s) /\
    (queue (hw s) <> [] -> 0 < len -> got <> []).
Proof.
  intros Hu Hh Hl. unfold read. rewrite Hh. destruct (Z.leb_spec len 0) as [Hz|Hz].
  { exists [], s, []. replace len with 0 by lia. rewrite app_nil_r. split_and!; (done || lia). }
  destruct (read_loop_ok io u base stride width sent queue busy bound Hu (Z.to_nat len) 0 buf s) as (k & got & s' & arr & E & Hk & Hkn & Hq & Hs & _ & Hpos); [lia|lia|].
  exists got, s', arr. rewrite E. replace (Z.to_nat (0 + zlen got)) with (length got) by (unfold zlen; lia).
  split_and!; [done|lia|done|done|]. intros Hne _ ->. rewrite zlen_nil in Hk. specialize (Hpos Hne ltac:(lia)). lia.
Qed.

(** *** A device *)

(** A transmitter that is busy for two polls after each character, with its
    registers [stride] bytes apart. *)
Record sim := Sim { sim_sent : list Z; sim_queue : list Z; sim_busy : nat }.
Definition sim_base : Z := 0xFFFFFFC010000000.
Definition sim_bus (stride : Z) : Mmio sim := {|
  mm_load := fun _ a h =>
    if a =? sim_base + 5 * stride then
      ((if (sim_busy h =? 0)%nat then 0x20 else 0) + (if bool_decide (sim_queue h = []) then 0 else 1),
       Sim (sim_sent h) (sim_queue h) (pred (sim_busy h)))
    else match sim_queue h with c :: q => (c, Sim (sim_sent h) q (sim_busy h)) | [] => (0, h) end;
  mm_store := fun _ a v h => if a =? sim_base then Sim (sim_sent h ++ [u8 v]) (sim_queue h) 2 else h;
|}.
Definition sim_io : Mmio sim := sim_bus 1.
Definition sim_q (h : sim) : list Z := u8 <$> sim_queue h.

#[export] Instance sim_16550 stride width (Hs : TCEq (0 <? stride) true) : Uart16550 (sim_bus stride) sim_base stride width sim_sent sim_q sim_busy 2.
Proof.
  apply TCEq_eq, Z.ltb_lt in Hs. split.
  - intros h v h'. cbn [mm_load sim_bus]. rewrite Z.eqb_refl. intros [= <- <-]. unfold sim_q. cbn [sim_busy sim_sent sim_queue].
    destruct (sim_busy h) as [|n], (sim_queue h) as [|c q]; split_and!; try done; exists []; by rewrite ?app_nil_r.
  - intros v h _. cbn [mm_store sim_bus]. rewrite Z.eqb_refl. split_and!; [done|cbn; lia|]. exists []. by rewrite app_nil_r.
  - intros h v h' c q. cbn [mm_load sim_bus]. destruct (Z.eqb_spec sim_base (sim_base + 5 * stride)); [lia|]. unfold sim_q.
    destruct (sim_queue h) as [|x l]; [done|]. intros [= <- <-]. cbn. intros [= <- <-]. split_and!; [done|done|]. exists []. cbn. by rewrite app_nil_r.
Qed.

(** The handle of one with 32-bit registers four bytes apart. *)
Definition sim_uart : uart8250_t := Uart sim_base 0 115200 4 2 false.
Lemma sim_wired : wired sim_uart sim_base 4 4.
Proof. split; [vm_compute; repeat split; congruence|vm_compute; repeat split; congruence|reflexivity]. Qed.

Definition sim_state : t sim := Drv 0 {[ 0 := sim_uart ]} (Sim [] [65; 66] 1).

Lemma uart_write_witness : exists s', write (sim_bus 4) 3 0 [72; 105; 33] 2 sim_state = Some (2, s') /\ sim_sent (hw s') = [72; 105].
Proof.
  destruct (uart_write_sends (sim_bus 4) sim_uart sim_base 4 4 sim_sent sim_q sim_busy 2 3 0 [72; 105; 33] 2 sim_state) as (s' & E & Hs & _).
  - exact sim_wired.
  - reflexivity.
  - repeat constructor; vm_compute; congruence.
  - vm_compute. split; congruence.
  - lia.
  - vm_compute. lia.
  - exists s'. split; [exact E|exact Hs].
Defined.

Lemma uart_read_witness : exists got s', read (sim_bus 4) 0 [0; 0; 0] 3 sim_state = Some ((zlen got, got ++ drop (length got) [0; 0; 0]), s') /\ got <> [].
Proof.
  destruct (uart_read_takes (sim_bus 4) sim_uart sim_base 4 4 sim_sent sim_q sim_busy 2 0 [0; 0; 0] 3 sim_state) as (got & s' & arr & E & _ & _ & _ & Hne).
  - exact sim_wired.
  - reflexivity.
  - vm_compute. split; congruence.
  - exists got, s'. split; [exact E|]. apply Hne; [vm_compute; congruence|lia].
Defined.

(** A device is open for one user at a time: [open] succeeds on a closed device
    only, [close] on an open one only, and each touches nothing else. *)
Lemma uart_open_close {H} handler u (s : t H) : hdl s !! handler = Some u ->
  (open handler s = if opened u then Some (K_EALREADY, s) else Some (0, set_opened handler u true s)) /\
  (forall s', open handler s = Some (0, s') -> open handler s' = Some (K_EALREADY, s') /\
     exists s'', close handler s' = Some (0, s'') /\ opened <$> hdl s'' !! handler = Some false).
Proof.
  intros Hh. unfold open, close. rewrite Hh. split; [by destruct (opened u)|]. destruct (opened u); [done|]. intros s' [= <-].
  unfold set_opened. cbn [hdl]. rewrite lookup_insert_eq. cbn [opened]. split; [done|]. eexists. split; [done|]. cbn [hdl].
  by rewrite lookup_insert_eq.
Qed.
End UartProps.
