(* ===== verification/SysDrv.v ===== *)
(** The drivers for the root node, the memory and the processors:
    src/kernel/driver/sysroot.cpp, sysmem.cpp, syscpu.cpp and the classes they
    implement (src/kernel/inc/k_sysdev.h). Messages they print are left out. An
    exception nothing catches ends the kernel and is a fault here. *)
From S2P Require Import Prelude KDefs Bytes Fdt FdtRo FdtSafe FdtRoSafe FdtProps FdtHelper FdtTree FdtPath DrvMgr.

Definition K_CONFIG_DEFAULT_SCHEDULER : list Z := byte_list "scheduler-rr".

(** ** [std::string] *)

(** [find]: the position of the first occurrence. *)
Fixpoint str_find (pat s : list Z) : option nat :=
  if bool_decide (take (length pat) s = pat) then Some O
  else match s with [] => None | _ :: s => S <$> str_find pat s end.

(** [substr]: at most [n] characters from [pos] on. *)
Definition substr (s : list Z) (pos : nat) (n : Z) : list Z :=
  let r := drop pos s in if zlen r <=? n then r else take (Z.to_nat n) r.

(** [std::to_string] of a [size_t]: at most twenty digits. *)
Fixpoint decimal (fuel : nat) (n : Z) : list Z :=
  match fuel with
  | O => []
  | S fuel => if n <? 10 then [48 + n] else decimal fuel (n / 10) ++ [48 + n mod 10]
  end.
Definition to_string (n : Z) : list Z := decimal 20 n.

Definition npos : Z := 2 ^ 64 - 1.

Section PropValue.
  Context (b : region).
(** [std::string(prop->data)] of a property that may be missing. *)
Definition prop_string (node : Z) (name : list Z) : option (option (list Z)) :=
  prop ← fdt_get_property b node name;
  match fst prop with
  | None => Some None
  | Some p => s ← cstr (r_bytes b) (p + 12); Some (Some s)
  end.

(** A number in one or two cells; 0 for any other length. *)
Definition prop_number (p len : Z) : option Z :=
  if len =? 4 then fdt32_ld (r_bytes b) (p + 12)
  else if len =? 8 then fdt64_ld (r_bytes b) (p + 12)
  else Some 0.
End PropValue.

(** ** The root node and /chosen *)
Module GenericRoot.
(** [SysRoot]'s members. *)
Record t (D : Type) := Root {
  _compatible : list Z; _model : list Z; _stdout_path : list Z; _bootargs : list Z; _initrd_path : list Z;
  _scheduler : option D;
}.
Arguments Root {D}. Arguments _compatible {D}. Arguments _model {D}. Arguments _stdout_path {D}.
Arguments _bootargs {D}. Arguments _initrd_path {D}. Arguments _scheduler {D}.

Definition init {D} : t D := Root [] [] [] [] [] None.
Definition set_compatible {D} (v : list Z) (r : t D) : t D := Root v (_model r) (_stdout_path r) (_bootargs r) (_initrd_path r) (_scheduler r).
Definition set_model {D} (v : list Z) (r : t D) : t D := Root (_compatible r) v (_stdout_path r) (_bootargs r) (_initrd_path r) (_scheduler r).
Definition set_stdout_path {D} (v : list Z) (r : t D) : t D := Root (_compatible r) (_model r) v (_bootargs r) (_initrd_path r) (_scheduler r).
Definition set_bootargs {D} (v : list Z) (r : t D) : t D := Root (_compatible r) (_model r) (_stdout_path r) v (_initrd_path r) (_scheduler r).
Definition set_initrd_path {D} (v : list Z) (r : t D) : t D := Root (_compatible r) (_model r) (_stdout_path r) (_bootargs r) v (_scheduler r).
Definition set_scheduler {D} (v : option D) (r : t D) : t D := Root (_compatible r) (_model r) (_stdout_path r) (_bootargs r) (_initrd_path r) v.

Definition getDeviceType : Z := DEV_TYPE_SYS.
Definition probe (name : list Z) : Z := if bool_decide (name = []) then DRV_CAP_THIS else DRV_CAP_NONE.

(** The argument of "-use-scheduler-" in the boot arguments. *)
Definition scheduler_arg (args : list Z) : option (list Z) :=
  match str_find (byte_list "-use-scheduler-") args with
  | None => None
  | Some st =>
      let st := (st + 15)%nat in
      let e := match str_find [32] (drop st args) with Some k => Z.of_nat (st + k) | None => npos end in
      if Z.of_nat st <? e then Some (substr args st (e - Z.of_nat st)) else None
  end.

(** The device path of the initial RAM disk: address in the kernel's space and
    length, from the property values. *)
Definition initrd_string (t e : Z) : option (list Z) :=
  if negb (t =? 0) && negb (e =? 0) && (t <? e) then
    let t := Z.lor t 0xFFFFFFC000000000 in
    let e := Z.lor e 0xFFFFFFC000000000 in
    Some (to_string t ++ [44] ++ to_string (u64 (e - t)))
  else None.

Section Driver.
  Context {D K : Type} (ops : DriverBase D K) (self : K -> t D) (set_self : t D -> K -> K) (this : D) (b : region).
Definition upd (f : t D -> t D) : M K unit := modify (fun s => set_self (f (self s)) s).

Definition read_initrd (rc : Z) : M K unit :=
  prop ← lift (fdt_get_property b rc (byte_list "linux,initrd-start"));
  match prop with
  | (None, _) => mret tt
  | (Some p, len) =>
      t ← lift (prop_number b p len);
      prop ← lift (fdt_get_property b rc (byte_list "linux,initrd-end"));
      e ← (match prop with (None, _) => mret 0 | (Some p, len) => lift (prop_number b p len) end);
      match initrd_string t e with Some s => upd (set_initrd_path s) | None => mret tt end
  end.

Definition read_bootargs (rc : Z) : M K unit :=
  args ← lift (prop_string b rc (byte_list "bootargs"));
  match args with
  | None => mret tt
  | Some args =>
      upd (set_bootargs args) ≫= fun _ =>
      match scheduler_arg args with
      | None => mret tt
      | Some name =>
          d ← getDriverByProbe ops (byte_list "scheduler-" ++ name) (byte_list "sys,scheduler");
          match d with Some d => upd (set_scheduler (Some d)) | None => mret tt end
      end
  end.

(** Whether a scheduler is set afterwards. *)
Definition default_scheduler : M K bool :=
  s ← get;
  match _scheduler (self s) with
  | Some _ => mret true
  | None =>
      d ← getDriverByProbe ops K_CONFIG_DEFAULT_SCHEDULER (byte_list "sys,scheduler");
      match d with Some d => upd (set_scheduler (Some d)) ≫= fun _ => mret true | None => mret false end
  end.

Definition addDevice (node : Z) : M K Z :=
  if node =? 0 then
    c ← lift (prop_string b node (byte_list "compatible"));
    upd (set_compatible (default (byte_list "Generic") c)) ≫= fun _ =>
    md ← lift (prop_string b node (byte_list "model"));
    upd (set_model (default (byte_list "Generic") md)) ≫= fun _ =>
    rc ← lift (fdt_path_offset b 1 (byte_list "/chosen"));
    if 0 <=? rc then
      so ← lift (prop_string b rc (byte_list "stdout-path"));
      (match so with Some s => upd (set_stdout_path s) | None => mret tt end) ≫= fun _ =>
      read_initrd rc ≫= fun _ =>
      read_bootargs rc ≫= fun _ =>
      ok ← default_scheduler;
      if (ok : bool) then
        markInstalled ops b rc 0 this DRV_CAP_THIS ≫= fun _ =>
        mret 0
      else mret K_EINVAL
    else mret K_ENODEV
  else mret K_ENODEV.

(** It throws. *)
Definition removeDevice (handler : Z) : M K unit := fault.
End Driver.
End GenericRoot.

(** ** Memory *)
Module GenericMem.
(** [SysMem]'s members and the driver's own flag. *)
Record t := Mem { _mem_rsv : list (Z * Z); _mem_avail : list (Z * Z); _fdt_rsv_mem_parsed : bool }.
Definition init : t := Mem [] [] false.

Definition getDeviceType : Z := DEV_TYPE_SYS.
Definition probe (name : list Z) : Z :=
  if negb (bool_decide (str_find (byte_list "memory") name = Some O)) && negb (bool_decide (name = byte_list "reserved-memory"))
  then DRV_CAP_NONE else DRV_CAP_COVER.

Definition push_rsv (x : Z * Z) : M t unit :=
  modify (fun s => Mem (_mem_rsv s ++ [x]) (_mem_avail s) (_fdt_rsv_mem_parsed s)).
Definition push_avail (x : Z * Z) : M t unit :=
  modify (fun s => Mem (_mem_rsv s) (_mem_avail s ++ [x]) (_fdt_rsv_mem_parsed s)).

Section Driver.
  Context (b : region).
(** [for (int i = 0; i < n; ++i)] over the reservation map; [v] is what [address]
    and [size] hold. *)
Fixpoint rsv_loop (n : nat) (i : Z) (v : Z * Z) : M t (Z * Z) :=
  match n with
  | O => mret v
  | S n =>
      r ← lift (fdt_get_mem_rsv b i);
      match r with
      | (rc, x) =>
          let v := default v x in
          (if rc =? 0 then push_rsv v else mret tt) ≫= fun _ =>
          rsv_loop n (i + 1) v
      end
  end.

(** The sub-nodes of /reserved-memory, from [subnode] on. *)
Fixpoint reserved_loop (fuel : nat) (subnode : Z) (v : Z * Z) : M t unit :=
  match fuel with
  | O => fault
  | S fuel =>
      if 0 <=? subnode then
        r ← lift (fdt_get_node_addr_size b subnode 0 (fst v) (snd v));
        let '(rc, address, size) := r in
        (if 0 <=? rc then push_rsv (address, size) else mret tt) ≫= fun _ =>
        next ← lift (fdt_next_subnode b subnode);
        reserved_loop fuel next (address, size)
      else mret tt
  end.

(** The entries of a memory node, from the [i]-th on. *)
Fixpoint avail_loop (fuel : nat) (node i : Z) (v : Z * Z) : M t unit :=
  match fuel with
  | O => fault
  | S fuel =>
      r ← lift (fdt_get_node_addr_size b node i (fst v) (snd v));
      let '(rc, address, size) := r in
      if 0 <=? rc then
        push_avail (address, size) ≫= fun _ =>
        avail_loop fuel node (i + 1) (address, size)
      else mret tt
  end.

(** [junk] is what the uninitialised variables hold. *)
Definition addDevice (junk : Z * Z) (node : Z) : M t Z :=
  s ← get;
  v ← (if _fdt_rsv_mem_parsed s then mret junk
       else
         n ← lift (fdt_num_mem_rsv b);
         v ← rsv_loop (Z.to_nat n) 0 junk;
         modify (fun s => Mem (_mem_rsv s) (_mem_avail s) true) ≫= fun _ => mret v);
  r ← lift (fdt_get_name b node);
  match fst r with
  | None => fault
  | Some p =>
      name ← lift (cstr (r_bytes b) p);
      (if bool_decide (name = byte_list "reserved-memory") then
         nodeoffset ← lift (fdt_subnode_offset b 0 (byte_list "reserved-memory"));
         if 0 <=? nodeoffset then
           subnode ← lift (fdt_first_subnode b nodeoffset);
           reserved_loop (blob_fuel b) subnode v
         else mret tt
       else avail_loop (blob_fuel b) node 0 v) ≫= fun _ =>
      mret 0
  end.
End Driver.

Definition removeDevice (handler : Z) : M t unit := mret tt.
Definition addReservedMem (addr size : Z) : M t unit := push_rsv (addr, size).
End GenericMem.

(** ** Processors *)
Module GenericCPU.
(** [SysCPU::cpu_t] and the members. *)
Record cpu_t := Cpu { hid : Z; state : bool; xlen : Z; mmu : Z; extension : list Z }.
Record t := Cpus { timebase_freq : Z; _cpus : list cpu_t; _hdlcount : Z }.
Definition init : t := Cpus 0 [] 0.

Definition getDeviceType : Z := DEV_TYPE_SYS.
Definition probe (name : list Z) (compatible : option (list Z)) : option Z :=
  if bool_decide (name = byte_list "cpus") then Some DRV_CAP_THIS
  else if bool_decide (name = byte_list "cpu-map") then Some DRV_CAP_COVER
  else
    c ← compatible;
    Some (if bool_decide (c = byte_list "riscv") then DRV_CAP_COVER else DRV_CAP_NONE).

Definition has (pat s : list Z) : bool := bool_decide (is_Some (str_find pat s)).
Definition mmu_type (s : list Z) : option Z :=
  if has (byte_list "sv32") s then Some 32
  else if has (byte_list "sv39") s then Some 39
  else if has (byte_list "sv48") s then Some 48
  else if has (byte_list "sv57") s then Some 57
  else None.

Section Driver.
  Context (b : region).
  Local Abbreviation m := (r_bytes b).

(** The CPU a node describes, or the code that is returned; [junk] is what
    [cpu.hid] holds before. *)
Definition cpu_node (junk node : Z) : option (Z + cpu_t) :=
  r ← fdt_get_node_addr b node 0 junk;
  let '(rc, hid) := r in
  if rc <? 0 then Some (inl rc)
  else
    state ← fdt_node_is_enabled b node;
    r ← fdt_getprop b node (byte_list "riscv,isa");
    match r with
    | (None, _) => Some (inl K_EINVAL)
    | (Some isa, len) =>
        if len <? 5 then Some (inl K_EINVAL)
        else
          c0 ← rd8 m isa;
          if negb (c0 =? 114) then Some (inl K_EINVAL)
          else
            c1 ← rd8 m (isa + 1);
            if negb (c1 =? 118) then Some (inl K_EINVAL)
            else
              c2 ← rd8 m (isa + 2);
              match (if c2 =? 51 then Some 32 else if c2 =? 54 then Some 64 else None) with
              | None => Some (inl K_EINVAL)
              | Some xlen =>
                  s ← cstr m isa;
                  if zlen s <? 4 then None (* std::out_of_range *)
                  else
                    let extension := substr s 4 (len - 4) in
                    r ← fdt_getprop b node (byte_list "mmu-type");
                    match r with
                    | (Some p, len) =>
                        if len <? 0 then Some (inl K_EINVAL)
                        else
                          mmutype ← rdn m p len;
                          Some (match mmu_type mmutype with
                                | Some mmu => inr (Cpu hid state xlen mmu extension)
                                | None => inl K_EINVAL
                                end)
                    | (None, len) => if len <? 0 then Some (inl K_EINVAL) else None
                    end
              end
    end.

Definition addDevice (junk node : Z) : M t Z :=
  r ← lift (fdt_get_name b node);
  match fst r with
  | None => mret K_EINVAL
  | Some p =>
      name ← lift (cstr m p);
      if bool_decide (name = byte_list "cpus") then
        r ← lift (fdt_getprop b node (byte_list "timebase-frequency"));
        (match r with
         | (Some v, len) =>
             if 0 <? len then
               f ← lift (fdt32_ld m v);
               modify (fun s => Cpus f (_cpus s) (_hdlcount s))
             else mret tt
         | (None, len) => if 0 <? len then fault else mret tt
         end) ≫= fun _ =>
        mret 0xFFFF
      else if bool_decide (name = byte_list "cpu-map") then mret 0xFFF0
      else
        r ← lift (cpu_node junk node);
        match r with
        | inl rc => mret rc
        | inr cpu =>
            s ← get;
            put (Cpus (timebase_freq s) (_cpus s ++ [cpu]) (s64 (_hdlcount s + 1))) ≫= fun _ =>
            mret (_hdlcount s)
        end
  end.
End Driver.

Definition removeDevice (handler : Z) : M t unit := mret tt.
End GenericCPU.
