(* ===== verification/SysProps.v ===== *)
(** What the system drivers read from a device tree: the memory of a memory node
    and of the reservations, the processors, and the initial RAM disk, whose
    device path the CPIO file system parses back. *)
From S2P Require Import Prelude KDefs Bytes Fdt FdtRo FdtSafe FdtRoSafe FdtProps FdtHelper FdtTree FdtPath FdtWalk FdtReg CpioFs DrvMgr SysDrv.

(** ** Numbers in device paths *)

Definition digit (c : Z) : Prop := 48 <= c <= 57.
Definition dec_val (acc : Z) (l : list Z) : Z := fold_left (fun a c => a * 10 + (c - 48)) l acc.

Lemma decimal_digits fuel : forall n, 0 <= n -> Forall digit (decimal fuel n).
Proof.
  induction fuel as [|fuel IH]; intros n Hn; cbn [decimal]; [constructor|].
  destruct (Z.ltb_spec n 10); [repeat constructor; unfold digit; lia|].
  pose proof (Z.mod_pos_bound n 10 ltac:(lia)). apply Forall_app. split; [apply IH, Z.div_pos; lia|]. repeat constructor; lia.
Qed.

Lemma decimal_val fuel : forall n, 0 <= n < 10 ^ Z.of_nat fuel -> dec_val 0 (decimal fuel n) = n.
Proof.
  induction fuel as [|fuel IH]; intros n Hn; [cbn in *; lia|]. cbn [decimal].
  destruct (Z.ltb_spec n 10); [cbn; lia|]. unfold dec_val in *. rewrite fold_left_app. cbn [fold_left].
  rewrite Nat2Z.inj_succ, Z.pow_succ_r in Hn by lia. rewrite IH.
  - pose proof (Z.div_mod n 10 ltac:(lia)). lia.
  - split; [apply Z.div_pos; lia|apply Z.div_lt_upper_bound; lia].
Qed.

Lemma decimal_nonempty fuel n : decimal (S fuel) n <> [].
Proof. cbn [decimal]. destruct (n <? 10); [done|]. by destruct (decimal fuel (n / 10)). Qed.

Lemma digit_of_dec c : digit c -> CPIOFS.digit_of 10 c = Some (c - 48).
Proof.
  unfold digit, CPIOFS.digit_of. intros Hc. unfold Cpio.hex_digit.
  assert (c = 48 \/ c = 49 \/ c = 50 \/ c = 51 \/ c = 52 \/ c = 53 \/ c = 54 \/ c = 55 \/ c = 56 \/ c = 57) as H by lia.
  by repeat (destruct H as [->|H]); [..|subst].
Qed.

Lemma dec_val_mono l : forall acc, 0 <= acc -> Forall digit l -> acc <= dec_val acc l.
Proof.
  unfold dec_val. induction l as [|c l IH]; intros acc Ha Hl; cbn [fold_left]; [lia|]. inversion Hl; subst. unfold digit in *.
  etrans; [|apply IH; [lia|done]]. lia.
Qed.

Lemma scan_digits_dec l rest : forall acc, 0 <= acc -> Forall digit l -> dec_val acc l < 2 ^ 64 ->
  match rest with c :: _ => CPIOFS.digit_of 10 c = None | [] => True end ->
  CPIOFS.scan_digits 10 acc (l ++ rest) = (dec_val acc l, rest).
Proof.
  induction l as [|c l IH]; intros acc Ha Hl Hb Hrest; cbn [app dec_val fold_left].
  - destruct rest as [|c rest]; [done|]. cbn [CPIOFS.scan_digits]. by rewrite Hrest.
  - inversion Hl as [|? ? Hc Hl']; subst. cbn [CPIOFS.scan_digits]. rewrite digit_of_dec by done. unfold digit in Hc.
    unfold dec_val in Hb. cbn [fold_left] in Hb. fold (dec_val (acc * 10 + (c - 48)) l) in Hb |- *.
    pose proof (dec_val_mono l (acc * 10 + (c - 48)) ltac:(lia) Hl'). rewrite Z.min_r by lia. apply IH; (done || lia).
Qed.

Lemma scan_number_dec l rest : l <> [] -> Forall digit l -> dec_val 0 l < 2 ^ 64 ->
  match rest with c :: _ => CPIOFS.digit_of 10 c = None | [] => True end ->
  CPIOFS.scan_number 10 (l ++ rest) = Some (dec_val 0 l, rest).
Proof.
  intros Hne Hl Hb Hrest. destruct l as [|c l]; [done|]. inversion Hl as [|? ? Hc _]; subst. unfold CPIOFS.scan_number.
  assert (CPIOFS.skip_space ((c :: l) ++ rest) = (c :: l) ++ rest) as ->.
  { cbn [app CPIOFS.skip_space]. unfold digit in Hc. destruct (Z.eqb_spec c 32), (Z.leb_spec 9 c), (Z.leb_spec c 13); (done || lia). }
  assert (G : (if bool_decide (is_Some (CPIOFS.digit_of 10 c)) then Some (CPIOFS.scan_digits 10 0 ((c :: l) ++ rest)) else None) =
    Some (dec_val 0 (c :: l), rest)).
  { rewrite digit_of_dec, bool_decide_eq_true_2 by (done || by eexists). f_equal. by apply scan_digits_dec. }
  unfold digit in Hc. cbn [app] in *. change (10 =? 16) with false. cbn [andb].
  assert (c = 48 \/ c = 49 \/ c = 50 \/ c = 51 \/ c = 52 \/ c = 53 \/ c = 54 \/ c = 55 \/ c = 56 \/ c = 57) as H by lia.
  repeat (destruct H as [->|H]); [..|subst c]; destruct (l ++ rest) as [|? [|? ?]]; exact G.
Qed.

(** The path [GenericRoot] prints is the one the CPIO file system reads. *)
Lemma initrd_path_parses t n : is_uw 64 t -> is_uw 64 n ->
  CPIOFS.parse_device (to_string t ++ [44] ++ to_string n) = Some (t, n).
Proof.
  unfold is_uw, to_string. intros Ht Hn. assert (forall x, 0 <= x < 2 ^ 64 -> dec_val 0 (decimal 20 x) = x) as V.
  { intros x Hx. apply decimal_val. split; [lia|]. etrans; [apply Hx|]. vm_compute. reflexivity. }
  unfold CPIOFS.parse_device, CPIOFS.scan_pair.
  rewrite scan_number_dec; [|apply decimal_nonempty|apply decimal_digits; lia|rewrite V by done; lia|done].
  cbn [mbind option_bind fst snd app]. rewrite <- (app_nil_r (decimal 20 n)), scan_number_dec;
    [|apply decimal_nonempty|apply decimal_digits; lia|rewrite V by done; lia|done].
  cbn [mbind option_bind fst snd]. by rewrite !V.
Qed.

(** ** Memory *)
Module MemProps.
Import GenericMem.

(** The entries of the reservation map the loop takes over. *)
Fixpoint rsv_entries (b : region) (n : nat) (i : Z) : list (Z * Z) :=
  match n with
  | O => []
  | S n => match fdt_get_mem_rsv b i with Some (0, Some x) => x :: rsv_entries b n (i + 1) | _ => rsv_entries b n (i + 1) end
  end.

Lemma rsv_loop_spec b : blob_ok b -> 16 <= hv b 4 -> forall n i v s, 0 <= i -> i + Z.of_nat n < 2 ^ 28 ->
  exists v', rsv_loop b n i v s = Some (v', Mem (_mem_rsv s ++ rsv_entries b n i) (_mem_avail s) (_fdt_rsv_mem_parsed s)).
Proof.
  intros Hok H16. induction n as [|n IH]; intros i v s Hi Hn; cbn [rsv_loop].
  { exists v. change (rsv_entries b 0 i) with (@nil (Z * Z)). rewrite app_nil_r. by destruct s. }
  unfold mbind, M_bind. destruct (get_mem_rsv_ok b Hok i H16 ltac:(lia)) as [[rc x] E]. cbn [rsv_entries]. rewrite E. cbn [lift].
  assert (Hx : rc = 0 -> is_Some x).
  { intros ->. revert E. unfold fdt_get_mem_rsv. destruct (probe_ok b Hok) as (e & -> & _). cbn [mbind option_bind].
    destruct (Z.ltb_spec e 0); [intros [= -> <-]; lia|]. destruct (fdt_mem_rsv b i) as [[p|]|]; [|done|done]. cbn [mbind option_bind].
    destruct (fdt64_ld _ p); [|done]. cbn [mbind option_bind]. destruct (fdt64_ld _ (p + 8)); [|done]. intros [= <-]. by eexists. }
  destruct (Z.eqb_spec rc 0) as [->|Hrc].
  - destruct (Hx eq_refl) as [y ->]. unfold push_rsv, modify.
    destruct (IH (i + 1) y (Mem (_mem_rsv s ++ [y]) (_mem_avail s) (_fdt_rsv_mem_parsed s)) ltac:(lia) ltac:(lia)) as [v' E'].
    exists v'. change (default v (Some y)) with y. rewrite E'. cbn [_mem_rsv _mem_avail _fdt_rsv_mem_parsed]. by rewrite <- app_assoc.
  - destruct (IH (i + 1) (default v x) s ltac:(lia) ltac:(lia)) as [v' E']. exists v'. cbn [mret M_ret]. rewrite E'. by destruct rc.
Qed.

Lemma num_mem_rsv_bound b n : blob_ok b -> 16 <= hv b 4 -> fdt_num_mem_rsv b = Some n -> n < 2 ^ 28 - 1.
Proof.
  intros Hok H16. unfold fdt_num_mem_rsv. pose proof (bo_int _ Hok) as Hi. unfold INT_MAX in Hi.
  assert (G : forall fuel i, 0 <= i -> 16 * i <= hv b 4 -> num_mem_rsv_loop b fuel i = Some n -> n <= hv b 4 / 16 /\ n <= 2 ^ 27).
  { induction fuel as [|fuel IH]; intros i H0 Hle; [done|]. cbn [num_mem_rsv_loop].
    destruct (mem_rsv_ok b Hok i H16) as (r & -> & Hr); [lia|]. cbn [mbind option_bind].
    assert (hv b 4 / 16 <= 2 ^ 27) by (apply Z.div_le_upper_bound; lia).
    assert (0 <= hv b 4 / 16) by (apply Z.div_pos; lia).
    destruct r as [p|]; [|intros [= <-]; unfold FDT_ERR_TRUNCATED; lia].
    destruct (fdt64_ld _ (p + 8)) as [sz|]; [|done]. cbn [mbind option_bind].
    destruct (sz =? 0). { intros [= <-]. assert (i <= hv b 4 / 16) by (apply Z.div_le_lower_bound; lia). lia. }
    pose proof (field_range b Hok 16 ltac:(lia)). rewrite sw_small by (unfold is_sw; lia). apply IH; lia. }
  intros E. apply G in E; lia.
Qed.

(** The first call takes over the reservation map, later calls do not. *)
Definition rsv_first (b : region) (s : t) : list (Z * Z) :=
  if _fdt_rsv_mem_parsed s then [] else match fdt_num_mem_rsv b with Some n => rsv_entries b (Z.to_nat n) 0 | None => [] end.

Lemma rsv_part_spec b junk s : blob_ok b -> 16 <= hv b 4 ->
  exists v, (if _fdt_rsv_mem_parsed s then mret junk
       else
         n ← lift (fdt_num_mem_rsv b);
         v ← rsv_loop b (Z.to_nat n) 0 junk;
         modify (fun s => Mem (_mem_rsv s) (_mem_avail s) true) ≫= fun _ => mret v) s =
    Some (v, Mem (_mem_rsv s ++ rsv_first b s) (_mem_avail s) true).
Proof.
  intros Hok H16. unfold rsv_first. destruct (_fdt_rsv_mem_parsed s) eqn:Ep.
  { exists junk. rewrite app_nil_r. destruct s; cbn in *; by subst. }
  destruct (num_mem_rsv_ok b Hok H16) as [n En]. rewrite En. pose proof (num_mem_rsv_bound b n Hok H16 En).
  destruct (rsv_loop_spec b Hok H16 (Z.to_nat n) 0 junk s ltac:(lia) ltac:(lia)) as [v E].
  exists v. unfold mbind, M_bind. cbn [lift]. rewrite E. done.
Qed.

(** What [fdt_get_node_addr_size] does for one node: there is a number of cells
    per entry and a number of cells in "reg", or it always fails. *)
Lemma node_addr_size_shape b node : blob_ok b -> hv b 4 + 48 <= zlen (r_bytes b) -> is_sw 32 node ->
  (forall i a s, exists rc, fdt_get_node_addr_size b node i a s = Some (rc, a, s) /\ rc < 0) \/
  (exists c n, 1 <= c <= 8 /\ 0 <= 4 * n <= hv b 4 /\ forall i a s, 0 <= i -> i * c < 2 ^ 31 ->
    exists rc a' s', fdt_get_node_addr_size b node i a s = Some (rc, a', s') /\ (if i * c <? n then rc = 0 else rc < 0)).
Proof.
  intros Hok Hs Ho. unfold fdt_get_node_addr_size, node_addr_size.
  destruct (Z.ltb_spec node 0) as [Hn|Hn]; [left; intros; by eexists|]. cbn [orb].
  destruct (parent_before b Hok node) as (parent & Epar & Hp & Hp3 & _). rewrite Epar. cbn [mbind option_bind].
  destruct (Z.ltb_spec parent 0). { left. intros i a s. destruct (i <? 0); by eexists. }
  destruct (address_cells_ok b Hok parent Hp) as (ca & Eca & Hca). rewrite Eca. cbn [mbind option_bind].
  destruct (Z.ltb_spec ca 1). { left. intros i a s. destruct (i <? 0); by eexists. }
  destruct (size_cells_ok b Hok parent Hp) as (cs & Ecs & Hcs). rewrite Ecs. cbn [mbind option_bind].
  destruct (Z.ltb_spec cs 0). { left. intros i a s. destruct (i <? 0); by eexists. }
  pose proof (getprop_ok b Hok node (byte_list "reg") Ho) as (p & len & Eg & Hd). fold (fdt_getprop b node (byte_list "reg")) in Eg.
  rewrite Eg. cbn [mbind option_bind]. destruct p as [d|]; [|left; intros i a s; destruct (i <? 0); by eexists].
  right. exists (ca + cs), (len / 4). unfold INT_MAX in Hd. change (2 ^ 31 - 1) with 2147483647 in Hd.
  assert (0 <= len / 4 <= len) as Hl by (split; [apply Z.div_pos; lia|apply Z.div_le_upper_bound; lia]).
  pose proof (Z.mul_div_le len 4 ltac:(lia)). split; [lia|]. split; [lia|]. intros i a s Hi Hic. change (2 ^ 31) with 2147483648 in Hic.
  destruct (Z.ltb_spec i 0); [lia|]. assert (0 <= i * (ca + cs)) by nia.
  rewrite sw_small by (unfold is_sw; change (2 ^ (32 - 1)) with 2147483648; lia).
  rewrite !(uw_small 64) by (unfold is_uw; change (2 ^ 64) with 18446744073709551616; lia).
  destruct (Z.leb_spec (len / 4) (i * (ca + cs))).
  { do 3 eexists. split; [done|]. destruct (Z.ltb_spec (i * (ca + cs)) (len / 4)); [lia|done]. }
  destruct (rd_cells_ok b Hok (Z.to_nat ca) (d + 4 * (i * (ca + cs)))) as [x ->]; [lia|lia|]. cbn [mbind option_bind].
  destruct (translate_loop_ok b Hok (blob_fuel b) x parent a) as [y ->]; [done|done|unfold blob_fuel, zlen in *; lia|]. cbn [mbind option_bind].
  destruct (rd_cells_ok b Hok (Z.to_nat cs) (d + 4 * (i * (ca + cs)) + 4 * ca)) as [z ->]; [lia|lia|]. cbn [mbind option_bind].
  do 3 eexists. split; [done|]. destruct (Z.ltb_spec (i * (ca + cs)) (len / 4)); [done|lia].
Qed.

Lemma avail_loop_total b node fuel : blob_ok b -> hv b 4 + 48 <= zlen (r_bytes b) -> is_sw 32 node -> (length (r_bytes b) < fuel)%nat ->
  forall v s, is_Some (avail_loop b fuel node 0 v s).
Proof.
  intros Hok Hs Ho Hf v s. destruct (node_addr_size_shape b node Hok Hs Ho) as [Hno|(c & n & Hc & Hn & Hyes)].
  - destruct fuel as [|fuel]; [lia|]. cbn [avail_loop]. unfold mbind, M_bind. destruct (Hno 0 v.1 v.2) as (rc & -> & Hrc). cbn [lift].
    destruct (Z.leb_spec 0 rc); [lia|]. by eexists.
  - pose proof (bo_int _ Hok) as Hint. unfold INT_MAX in Hint.
    assert (G : forall fuel i v s, 0 <= i -> (i = 0 \/ (i - 1) * c < n) -> n + 1 - i < Z.of_nat fuel -> is_Some (avail_loop b fuel node i v s)).
    { clear fuel Hf v s. induction fuel as [|fuel IH]; intros i v s Hi Hprev Hf; [nia|]. cbn [avail_loop]. unfold mbind, M_bind.
      destruct (Hyes i v.1 v.2 Hi) as (rc & a & s0 & -> & Hrc); [nia|]. cbn [lift]. destruct (Z.leb_spec 0 rc) as [H0|H0]; [|by eexists].
      destruct (Z.ltb_spec (i * c) n); [|lia]. unfold push_avail, modify. apply IH; [lia|right; nia|nia]. }
    apply G; [lia|by left|]. pose proof (bo_size _ Hok). unfold zlen in *. lia.
Qed.

Lemma reserved_loop_total b fuel : blob_ok b -> hv b 4 + 48 <= zlen (r_bytes b) -> forall node v s, is_sw 32 node ->
  (0 < fuel)%nat -> (0 <= node -> Z.max 4 (hv b 4 + 12 - node) < 4 * Z.of_nat fuel) ->
  is_Some (reserved_loop b fuel node v s).
Proof.
  intros Hok Hs. induction fuel as [|fuel IH]; intros node v s Ho H1 Hf; [lia|]. cbn [reserved_loop].
  destruct (Z.leb_spec 0 node) as [H0|H0]; [|by eexists]. unfold mbind, M_bind, fdt_get_node_addr_size.
  destruct (node_addr_size_ok b Hok true node 0 v.1 v.2 Hs Ho) as [[[rc a] sz] ->]. cbn [lift].
  destruct (next_subnode_inc b Hok node Ho H0) as (next & En & Hn & Hnr).
  destruct (0 <=? rc); unfold push_rsv, modify, mret, M_ret; rewrite En; cbn [lift]; apply IH; (done || lia).
Qed.
(** The loops leave the flag alone. *)
Definition ensures_parsed (f : M t unit) : Prop := forall s u s', f s = Some (u, s') -> _fdt_rsv_mem_parsed s' = _fdt_rsv_mem_parsed s.

Lemma avail_loop_parsed b fuel node : forall i v, ensures_parsed (avail_loop b fuel node i v).
Proof.
  induction fuel as [|fuel IH]; intros i v s u s'; [done|]. cbn [avail_loop]. unfold mbind, M_bind.
  destruct (fdt_get_node_addr_size b node i _ _) as [[[rc a] sz]|]; [|done]. cbn [lift]. destruct (0 <=? rc); [|by intros [= _ <-]].
  intros E. by apply IH in E.
Qed.

Lemma reserved_loop_parsed b fuel : forall node v, ensures_parsed (reserved_loop b fuel node v).
Proof.
  induction fuel as [|fuel IH]; intros node v s u s'; [done|]. cbn [reserved_loop]. destruct (0 <=? node); [|by intros [= _ <-]].
  unfold mbind, M_bind. destruct (fdt_get_node_addr_size b node 0 _ _) as [[[rc a] sz]|]; [|done]. cbn [lift].
  destruct (0 <=? rc); unfold push_rsv, modify, mret, M_ret; (destruct (fdt_next_subnode b node); [|done]); cbn [lift]; intros E; by apply IH in E.
Qed.
End MemProps.

(** [GenericMem::addDevice] returns on a blob of any content with 48 bytes
    behind it: neither the reservation map, nor the sub-nodes of
    /reserved-memory, nor the entries of "reg" keep it in a loop, and nothing
    outside the buffer is read. It takes over the reservation map the first
    time, and only then. *)
Theorem mem_addDevice_terminates b junk node s :
  blob_ok b -> hv b 4 + 48 <= zlen (r_bytes b) -> 16 <= hv b 4 -> is_sw 32 node ->
  (exists p len, fdt_get_name b node = Some (Some p, len)) ->
  exists s', GenericMem.addDevice b junk node s = Some (0, s') /\ GenericMem._fdt_rsv_mem_parsed s' = true.
Proof.
  intros Hok Hs H16 Ho (p & len & En). unfold GenericMem.addDevice, mbind at 1, M_bind at 1, get.
  destruct (MemProps.rsv_part_spec b junk s Hok H16) as [v Ev]. unfold mbind at 1, M_bind at 1. rewrite Ev.
  set (s1 := GenericMem.Mem _ _ true). unfold mbind, M_bind. rewrite En. cbn [lift fst].
  destruct (get_name_ok b Hok node Ho) as (p' & n' & E' & Hp'). rewrite En in E'. injection E' as <- <-.
  destruct Hp' as (name & -> & _). cbn [lift]. pose proof (bo_size _ Hok). pose proof (bo_hdr _ Hok).
  assert (forall f : M GenericMem.t unit, is_Some (f s1) -> MemProps.ensures_parsed f -> exists s', match f s1 with
    | Some (_, s2) => (mret 0 : M GenericMem.t Z) s2 | None => None end = Some (0, s') /\ GenericMem._fdt_rsv_mem_parsed s' = true) as G.
  { intros f [[u s2] E] Hp. rewrite E. exists s2. split; [done|]. by apply (Hp s1 u s2 E). }
  case_bool_decide; [|apply G; [apply MemProps.avail_loop_total; (done || unfold blob_fuel; lia)|apply MemProps.avail_loop_parsed]].
  destruct (subnode_offset_ok b Hok 0 (byte_list "reserved-memory") ltac:(done)) as (o & Eo & Hosw). unfold fdt_subnode_offset. rewrite Eo. cbn [lift].
  destruct (Z.leb_spec 0 o) as [Ho0|Ho0]; [|by exists s1].
  destruct (first_subnode_inc b Hok o Hosw Ho0) as (c & Ec & Hc & Hcr). rewrite Ec. cbn [lift].
  apply G; [|apply MemProps.reserved_loop_parsed]. apply MemProps.reserved_loop_total; [done|done|done|..]; unfold blob_fuel, zlen in *; lia.
Qed.

(** ** The memory of a tree *)
Section MemTree.
  Context (b : region) (t : dt) (Ht : holds b t).
  Context (s p : dt) (q : pitem) (Hp : within p t) (Hin : s ∈ d_kids p).
  Context (Hid : forall q, within p q -> within q t -> identity_bus q) (Hq : find_prop (byte_list "reg") (d_props s) = Some q).
  Local Abbreviation ca := (tree_address_cells p).
  Local Abbreviation cs := (tree_size_cells p).

(** The entries of "reg" from the [i]-th on. *)
Definition reg_entries (ca cs : Z) (val : list Z) (i : Z) (n : nat) : list (Z * Z) :=
  (fun j => (reg_addr ca cs (i + Z.of_nat j) val, reg_size ca cs (i + Z.of_nat j) val)) <$> seq 0 n.

Lemma reg_entries_S val i n : reg_entries ca cs val i (S n) = (reg_addr ca cs i val, reg_size ca cs i val) :: reg_entries ca cs val (i + 1) n.
Proof.
  unfold reg_entries. rewrite <- cons_seq, <- fmap_S_seq, fmap_cons, <- list_fmap_compose, Z.add_0_r. f_equal.
  apply list_fmap_ext. intros _ j _. cbn. by replace (i + Z.of_nat (S j)) with (i + 1 + Z.of_nat j) by lia.
Qed.

Lemma avail_loop_tree n : forall fuel i v m, 0 <= i -> (n < fuel)%nat -> zlen (p_val q) = 4 * (i + Z.of_nat n) * (ca + cs) ->
  GenericMem.avail_loop b fuel (d_off s) i v m =
    Some (tt, GenericMem.Mem (GenericMem._mem_rsv m) (GenericMem._mem_avail m ++ reg_entries ca cs (p_val q) i n) (GenericMem._fdt_rsv_mem_parsed m)).
Proof.
  destruct (Hid p ltac:(constructor) Hp) as (Hca & Hcs & _).
  induction n as [|n IH]; intros fuel i v m Hi Hf Hlen; (destruct fuel as [|fuel]; [lia|]); cbn [GenericMem.avail_loop];
    unfold mbind, M_bind, fdt_get_node_addr_size.
  - rewrite (node_addr_size_end b t Ht s p q) by (done || lia). cbn. unfold reg_entries. cbn [seq]. rewrite app_nil_r. by destruct m.
  - rewrite (node_addr_size_in b t Ht s p q) by (done || nia). cbn [lift]. change (0 <=? 0) with true. cbn iota.
    unfold GenericMem.push_avail, modify. rewrite IH by (lia || nia). cbn [GenericMem._mem_rsv GenericMem._mem_avail GenericMem._fdt_rsv_mem_parsed].
    by rewrite reg_entries_S, <- app_assoc.
Qed.
End MemTree.

(** C27: The memory of a memory node. When a blob holds a tree, the buses above
    the node map addresses to themselves and its "reg" consists of [n] whole
    entries, [GenericMem::addDevice] adds exactly these entries, in order, to
    the available memory, and the reservation map to the reserved memory if
    this is the first call. *)
Theorem mem_addDevice_decodes b t s p q n junk m :
  let ca := tree_address_cells p in let cs := tree_size_cells p in
  holds b t -> within p t -> s ∈ d_kids p -> (forall q, within p q -> within q t -> identity_bus q) ->
  find_prop (byte_list "reg") (d_props s) = Some q -> zlen (p_val q) = 4 * Z.of_nat n * (ca + cs) ->
  d_name s <> byte_list "reserved-memory" -> 16 <= hv b 4 ->
  GenericMem.addDevice b junk (d_off s) m =
    Some (0, GenericMem.Mem (GenericMem._mem_rsv m ++ MemProps.rsv_first b m)
                            (GenericMem._mem_avail m ++ reg_entries ca cs (p_val q) 0 n) true).
Proof.
  intros ca cs Ht Hp Hin Hid Hq Hlen Hname H16. pose proof (rb_ok _ (proj1 Ht)) as Hok.
  unfold GenericMem.addDevice, mbind at 1, M_bind at 1, get.
  destruct (MemProps.rsv_part_spec b junk m Hok H16) as [v Ev]. unfold mbind at 1, M_bind at 1. rewrite Ev.
  assert (within s t) as Hs by (eapply within_trans; [eapply within_kid; [exact Hin|constructor]|done]).
  destruct (nodes_in b t s [] Ht Hs) as ((a & En & Ea) & _). unfold mbind, M_bind. rewrite En. cbn [lift fst]. rewrite Ea. cbn [lift].
  rewrite bool_decide_eq_false_2 by done. rewrite (avail_loop_tree b t Ht s p q Hp Hin Hid Hq n); [done|lia| |by fold ca cs].
  assert (1 <= ca /\ 0 <= cs) as [? ?] by (destruct (Hid p ltac:(constructor) Hp) as (? & ? & _); done).
  pose proof (getprop_in b t s (byte_list "reg") Ht Hs) as Hg. rewrite Hq in Hg. destruct Hg as (d & _ & _ & Hr).
  apply rdn_inv in Hr as (? & _ & Hle & _). assert (Z.of_nat n <= 4 * Z.of_nat n * (ca + cs)) by nia. unfold blob_fuel, zlen in *. lia.
Qed.

(** ** Processors *)

(** A property value that ends with its NUL is the C string before it. *)
Lemma rdn_cstr m p s : rdn m p (zlen (s ++ [0])) = Some (s ++ [0]) -> 0 ∉ s -> cstr m p = Some s.
Proof.
  intros E Hs. apply rdn_inv in E as (H0 & _ & _ & _ & E). unfold cstr. destruct (Z.ltb_spec p 0); [lia|].
  rewrite <- (take_drop (Z.to_nat (zlen (s ++ [0]))) (drop (Z.to_nat p) m)), <- E, <- app_assoc. cbn [app].
  by apply to_nul_app.
Qed.

(** C28: A processor of the tree. For a node that is not "cpus" or "cpu-map", with
    identity buses above it, whose "reg" has an entry, whose "riscv,isa" is a
    string of at least four characters that starts with rv32 or rv64 (only its
    third character is looked at) and whose "mmu-type" names a translation mode,
    [GenericCPU::addDevice] appends the processor with the hart number, the
    width, the mode, the rest of the ISA string and its status, and returns the
    next handle. *)
Theorem cpu_addDevice_decodes b t s p q isa mv c2 en mmu junk c :
  let ca := tree_address_cells p in let cs := tree_size_cells p in
  holds b t -> within p t -> s ∈ d_kids p -> (forall q, within p q -> within q t -> identity_bus q) ->
  d_name s <> byte_list "cpus" -> d_name s <> byte_list "cpu-map" ->
  find_prop (byte_list "reg") (d_props s) = Some q -> 4 * (ca + cs) <= zlen (p_val q) ->
  p_val <$> find_prop (byte_list "riscv,isa") (d_props s) = Some (isa ++ [0]) -> 0 ∉ isa -> 4 <= zlen isa ->
  take 3 isa = byte_list "rv" ++ [c2] -> (c2 = 51 \/ c2 = 54) ->
  p_val <$> find_prop (byte_list "mmu-type") (d_props s) = Some mv -> GenericCPU.mmu_type mv = Some mmu ->
  fdt_node_is_enabled b (d_off s) = Some en ->
  GenericCPU.addDevice b junk (d_off s) c =
    Some (GenericCPU._hdlcount c,
      GenericCPU.Cpus (GenericCPU.timebase_freq c)
        (GenericCPU._cpus c ++ [GenericCPU.Cpu (reg_addr ca cs 0 (p_val q)) en (if c2 =? 51 then 32 else 64) mmu (drop 4 isa)])
        (s64 (GenericCPU._hdlcount c + 1))).
Proof.
  intros ca cs Ht Hp Hin Hid Hn1 Hn2 Hq Hlen Hisa Hnul H4 Htake Hc2 Hmv Hmmu Hen.
  assert (within s t) as Hs by (eapply within_trans; [eapply within_kid; [exact Hin|constructor]|done]).
  destruct (nodes_in b t s [] Ht Hs) as ((a & En & Ea) & _). unfold GenericCPU.addDevice, mbind, M_bind. rewrite En. cbn [lift fst].
  rewrite Ea. cbn [lift]. rewrite !bool_decide_eq_false_2 by done.
  assert (GenericCPU.cpu_node b junk (d_off s) =
    Some (inr (GenericCPU.Cpu (reg_addr ca cs 0 (p_val q)) en (if c2 =? 51 then 32 else 64) mmu (drop 4 isa)))) as ->; [|done].
  unfold GenericCPU.cpu_node, fdt_get_node_addr. rewrite (node_addr_size_in b t Ht s p q) by (done || (fold ca cs; lia)).
  cbn [mbind option_bind fst]. change (0 <? 0) with false. cbn iota. rewrite Hen. cbn [mbind option_bind].
  pose proof (getprop_in b t s (byte_list "riscv,isa") Ht Hs) as Hg.
  destruct (find_prop (byte_list "riscv,isa") (d_props s)) as [pi|]; [|done]. injection Hisa as Hisa. rewrite Hisa in Hg.
  destruct Hg as (d & -> & _ & Hv). cbn [mbind option_bind]. pose proof (rdn_cstr _ _ _ Hv Hnul) as Hcs.
  rewrite zlen_app. change (zlen [0]) with 1. destruct (Z.ltb_spec (zlen isa + 1) 5); [lia|].
  assert (forall i x, isa !! Z.to_nat i = Some x -> 0 <= i -> rd8 (r_bytes b) (d + 12 + i) = Some x) as Hb.
  { intros i x Hx Hi. destruct (name_byte b (d + 12) isa i Hcs) as [-> _]; [|by rewrite Hx].
    apply lookup_lt_Some in Hx. unfold zlen. lia. }
  change (byte_list "rv" ++ [c2]) with [114; 118; c2] in Htake. destruct isa as [|x0 [|x1 [|x2 isa]]]; try done. injection Htake as -> -> ->.
  pose proof (Hb 0 _ eq_refl ltac:(lia)) as B0. rewrite Z.add_0_r in B0. rewrite B0, (Hb 1 _ eq_refl), (Hb 2 _ eq_refl) by lia.
  cbn [mbind option_bind Z.eqb Pos.eqb negb].
  assert ((if c2 =? 51 then Some 32 else if c2 =? 54 then Some 64 else None) = Some (if c2 =? 51 then 32 else 64)) as ->.
  { destruct Hc2 as [->| ->]; done. }
  rewrite Hcs. cbn [mbind option_bind]. destruct (Z.ltb_spec (zlen (114 :: 118 :: c2 :: isa)) 4); [unfold zlen in *; cbn [length] in *; lia|].
  assert (substr (114 :: 118 :: c2 :: isa) 4 (zlen (114 :: 118 :: c2 :: isa) + 1 - 4) = drop 4 (114 :: 118 :: c2 :: isa)) as ->.
  { unfold substr. rewrite (proj2 (Z.leb_le _ _)); [done|]. unfold zlen in *. rewrite length_drop. cbn [length] in *. lia. }
  pose proof (getprop_in b t s (byte_list "mmu-type") Ht Hs) as Hm.
  destruct (find_prop (byte_list "mmu-type") (d_props s)) as [pm|]; [|done]. injection Hmv as Hmv. rewrite Hmv in Hm.
  destruct Hm as (d' & -> & _ & Hv'). cbn [mbind option_bind]. pose proof (zlen_nonneg mv). destruct (Z.ltb_spec (zlen mv) 0); [lia|].
  rewrite Hv'. cbn [mbind option_bind]. by rewrite Hmmu.
Qed.
