(* ===== verification/KernelDev.v ===== *)
(** The kernel's drivers together: the objects the drivers' [drv_register]
    functions create, the order in which they are registered (the constructor
    priorities of src/kernel/inc/k_defs.h), and what probing the system devices
    leaves behind. *)
From S2P Require Import Prelude KDefs Bytes Fdt FdtRo FdtSafe FdtRoSafe FdtProps FdtHelper FdtTree FdtPath FdtReg.
From S2P Require Import DrvMgr Sched Uart SysDrv CpioFs SysProps.

(** The static driver objects. *)
Inductive drv := DRoot | DMem | DCPU | DSched | DUart.
#[export] Instance drv_eq_dec : EqDecision drv.
Proof. solve_decision. Defined.

(** The driver manager and the state of every driver; [H] is the hardware. *)
Record kdev (H : Type) := KDev {
  k_mgr : manager drv;
  k_root : GenericRoot.t drv;
  k_mem : GenericMem.t;
  k_cpu : GenericCPU.t;
  k_sched : RoundRobin.t;
  k_uart : Uart8250.t H;
}.
Arguments KDev {H}. Arguments k_mgr {H}. Arguments k_root {H}. Arguments k_mem {H}. Arguments k_cpu {H}.
Arguments k_sched {H}. Arguments k_uart {H}.

(** A driver's operation on its own part of the state. *)
Definition zoom {S T A} (g : S -> T) (p : T -> S -> S) (f : M T A) : M S A := fun s =>
  match f (g s) with Some (a, t) => Some (a, p t s) | None => None end.

Section Kernel.
  Context {H : Type} (io : Mmio H) (b : region) (junk : Z).

Definition set_k_mgr (g : manager drv) (s : kdev H) : kdev H := KDev g (k_root s) (k_mem s) (k_cpu s) (k_sched s) (k_uart s).
Definition set_k_root r (s : kdev H) : kdev H := KDev (k_mgr s) r (k_mem s) (k_cpu s) (k_sched s) (k_uart s).
Definition set_k_mem x (s : kdev H) : kdev H := KDev (k_mgr s) (k_root s) x (k_cpu s) (k_sched s) (k_uart s).
Definition set_k_cpu x (s : kdev H) : kdev H := KDev (k_mgr s) (k_root s) (k_mem s) x (k_sched s) (k_uart s).
Definition set_k_sched x (s : kdev H) : kdev H := KDev (k_mgr s) (k_root s) (k_mem s) (k_cpu s) x (k_uart s).
Definition set_k_uart x (s : kdev H) : kdev H := KDev (k_mgr s) (k_root s) (k_mem s) (k_cpu s) (k_sched s) x.

Definition k_type (d : drv) : Z := match d with DUart => DEV_TYPE_CHAR | _ => DEV_TYPE_SYS end.
Definition k_probe (d : drv) (name : list Z) (compatible : option (list Z)) : option Z :=
  match d with
  | DRoot => Some (GenericRoot.probe name)
  | DMem => Some (GenericMem.probe name)
  | DCPU => GenericCPU.probe name compatible
  | DSched => if bool_decide (name = byte_list "scheduler-rr") then c ← compatible; Some (RoundRobin.probe name c) else Some 0
  | DUart => Uart8250.probe compatible
  end.

(** What the drivers see of the manager while [addDevice] runs: they call its
    lookup by name and its marking function, neither of which adds devices. *)
Definition base_ops : DriverBase drv (kdev H) := {|
  getDeviceType := k_type; drv_probe := k_probe; addDevice := fun _ _ => fault; mgr_of := k_mgr; set_mgr := set_k_mgr |}.

Definition k_addDevice (d : drv) (node : Z) : M (kdev H) Z :=
  match d with
  | DRoot => GenericRoot.addDevice base_ops k_root set_k_root DRoot b node
  | DMem => zoom k_mem set_k_mem (GenericMem.addDevice b (junk, junk) node)
  | DCPU => zoom k_cpu set_k_cpu (GenericCPU.addDevice b junk node)
  | DSched => fun s => let '(h, t) := RoundRobin.addDevice (k_sched s) in Some (h, set_k_sched t s)
  | DUart => zoom k_uart set_k_uart (Uart8250.addDevice io b junk node)
  end.

Definition kops : DriverBase drv (kdev H) := {|
  getDeviceType := k_type; drv_probe := k_probe; addDevice := k_addDevice; mgr_of := k_mgr; set_mgr := set_k_mgr |}.

(** The registered drivers, in the order of the constructors. *)
Definition k_drivers : list drv := [DRoot; DMem; DCPU; DSched; DUart].
Definition register_drivers : M (kdev H) unit :=
  addDriver kops DRoot ≫= fun _ => addDriver kops DMem ≫= fun _ => addDriver kops DCPU ≫= fun _ =>
  addDriver kops DSched ≫= fun _ => addDriver kops DUart.

Definition k_init (h : H) : kdev H :=
  KDev (Manager [] ∅) GenericRoot.init GenericMem.init GenericCPU.init RoundRobin.init (Uart8250.Drv 0 ∅ h).

Lemma register_drivers_spec h : exists s, register_drivers (k_init h) = Some (tt, s) /\ _drvlist (k_mgr s) = k_drivers /\ _devhdl (k_mgr s) = ∅.
Proof. eexists. split_and!; reflexivity. Qed.

(** ** The drivers keep the manager's contract *)

(** A relation between the states before and after a computation. *)
Definition ensures {A} (R : kdev H -> kdev H -> Prop) (f : M (kdev H) A) : Prop :=
  forall s a s', f s = Some (a, s') -> R s s'.

Section Ensures.
  Context (R : kdev H -> kdev H -> Prop) `{!PreOrder R}.
Lemma ensures_ret {A} (a : A) : ensures R (mret a).
Proof. intros s a' s' [= _ <-]. done. Qed.
Lemma ensures_lift {A} (o : option A) : ensures R (lift o).
Proof. intros s a' s'. destruct o; [|done]. by intros [= _ <-]. Qed.
Lemma ensures_get : ensures R get.
Proof. intros s a' s' [= _ <-]. done. Qed.
Lemma ensures_fault {A} : ensures R (fault (A := A)).
Proof. by intros s a' s'. Qed.
Lemma ensures_bind {A B} (f : M (kdev H) A) (g : A -> M (kdev H) B) :
  ensures R f -> (forall a, ensures R (g a)) -> ensures R (f ≫= g).
Proof.
  intros Hf Hg s x s' E. unfold mbind, M_bind in E. destruct (f s) as [[a s1]|] eqn:Ef; [|done].
  etrans; [by eapply Hf|by eapply Hg].
Qed.
Lemma ensures_modify f : (forall s, R s (f s)) -> ensures R (modify f).
Proof. intros Hf s a s' [= _ <-]. apply Hf. Qed.
End Ensures.
End Kernel.

Create HintDb ensures.
#[export] Hint Resolve ensures_ret ensures_lift ensures_get ensures_fault : ensures.
#[export] Hint Extern 0 (PreOrder _) => apply _ : ensures.

(** Go through a computation. *)
Ltac ensures_step :=
  first [ progress auto with ensures
        | apply ensures_bind; [apply _| |intros]
        | match goal with |- ensures _ (match ?x with _ => _ end) => destruct x end ].
Ltac ensures_tac := repeat ensures_step.

Section Contract.
  Context {H : Type} (io : Mmio H) (b : region) (junk : Z).

Lemma ensures_zoom {T A} (R : kdev H -> kdev H -> Prop) (g : kdev H -> T) p (f : M T A) :
  (forall t s, R s (p t s)) -> ensures R (zoom g p f).
Proof. intros Hp s a s'. unfold zoom. destruct (f (g s)) as [[a' t]|]; [|done]. intros [= _ <-]. apply Hp. Qed.

Definition keeps (s s' : kdev H) : Prop :=
  _drvlist (k_mgr s') = _drvlist (k_mgr s) /\ _devhdl (k_mgr s) ⊆ _devhdl (k_mgr s') /\
  forall n v, _devhdl (k_mgr s') !! n = Some v -> _devhdl (k_mgr s) !! n = Some v \/ 0 <= v.1.2 <= 1.

#[local] Instance keeps_preorder : PreOrder keeps.
Proof.
  split; [intros s; split_and!; [done|done|by left]|].
  intros s1 s2 s3 (L1 & S1 & N1) (L2 & S2 & N2). split_and!; [congruence|by etrans|].
  intros n v Hv. destruct (N2 n v Hv) as [E|E]; [by apply N1|by right].
Qed.

Lemma keeps_same_mgr s s' : k_mgr s' = k_mgr s -> keeps s s'.
Proof. intros E. unfold keeps. rewrite E. split_and!; [done|done|by left]. Qed.

Lemma devhdl_insert_sub {D} n (v : D * Z * Z) g : g ⊆ devhdl_insert n v g.
Proof. unfold devhdl_insert. destruct (g !! n) eqn:E; [done|]. by apply insert_subseteq. Qed.

Lemma devhdl_insert_new {D} n (v : D * Z * Z) g n' v' : devhdl_insert n v g !! n' = Some v' -> g !! n' = Some v' \/ (n' = n /\ v' = v).
Proof.
  unfold devhdl_insert. destruct (g !! n) eqn:E; [by left|]. rewrite lookup_insert. case_decide; [subst|by left].
  intros [= <-]. by right.
Qed.

Lemma mark_keeps n h d : ensures keeps (markInstalled (base_ops (H := H)) b n h d DRV_CAP_THIS).
Proof.
  unfold markInstalled. ensures_tac. apply ensures_modify. intros s. unfold with_devhdl. split_and!; [done|apply devhdl_insert_sub|].
  intros n' v Hv. apply devhdl_insert_new in Hv as [E|[-> ->]]; [by left|]. right. by cbn.
Qed.

Lemma upd_keeps f : ensures keeps (GenericRoot.upd (k_root (H := H)) set_k_root f).
Proof. apply ensures_modify. intros s. by apply keeps_same_mgr. Qed.

Lemma by_probe_keeps n c : ensures keeps (getDriverByProbe (base_ops (H := H)) n c).
Proof. unfold getDriverByProbe. ensures_tac. Qed.

#[local] Hint Resolve mark_keeps upd_keeps by_probe_keeps : ensures.

#[export] Instance kops_spec : DriverSpec (kops io b junk).
Proof.
  split; [done|]. intros d node s r s' E. assert (ensures keeps (k_addDevice io b junk d node)) as K; [|by apply (K s r s')].
  clear. destruct d; cbn [k_addDevice].
  - unfold GenericRoot.addDevice, GenericRoot.read_initrd, GenericRoot.read_bootargs, GenericRoot.default_scheduler. ensures_tac.
  - apply ensures_zoom. intros. by apply keeps_same_mgr.
  - apply ensures_zoom. intros. by apply keeps_same_mgr.
  - intros s a s'. destruct (RoundRobin.addDevice (k_sched s)). intros [= _ <-]. by apply keeps_same_mgr.
  - apply ensures_zoom. intros. by apply keeps_same_mgr.
Qed.

(** The memory driver takes every node. *)
Lemma mem_accepts node : accepts (kops io b junk) DMem node.
Proof.
  intros s r s'. cbn [kops addDevice k_addDevice]. unfold zoom.
  destruct (GenericMem.addDevice b (junk, junk) node (k_mem s)) as [[a m]|] eqn:Em; [|done]. intros [= <- _].
  revert Em. unfold GenericMem.addDevice, mbind, M_bind. repeat case_match; try done; by intros [= <- _].
Qed.
End Contract.

(** ** Which driver a node can have *)

Section Typed.
  Context {H : Type} (io : Mmio H) (b : region) (junk : Z).
  Local Abbreviation m := (r_bytes b).

(** The name of a node. *)
Definition node_name (n : Z) : option (list Z) := r ← fdt_get_name b n; p ← fst r; cstr m p.

(** The driver [d] belongs on the node [n]. *)
Definition belongs (n : Z) (d : drv) : Prop :=
  match d with
  | DRoot => node_name n = Some [] \/ fdt_path_offset b 1 (byte_list "/chosen") = Some n
  | DMem => exists name, node_name n = Some name /\ 0 < GenericMem.probe name
  | DCPU => exists name, node_name n = Some name /\ name <> [] /\ GenericMem.probe name = 0
  | DSched => node_name n = Some (byte_list "scheduler-rr")
  | DUart => False
  end.

Record typed (s : kdev H) : Prop := {
  ty_drivers : _drvlist (k_mgr s) = k_drivers;
  ty_devices : forall n v, _devhdl (k_mgr s) !! n = Some v -> belongs n v.1.1 /\ 0 <= v.2;
  ty_scheduler : forall d, GenericRoot._scheduler (k_root s) = Some d -> d = DSched;
}.

Lemma choice_belongs n d rc : choice (kops io b junk) b DEV_TYPE_SYS k_drivers n = Some (Some (d, rc)) -> belongs n d.
Proof.
  unfold choice, belongs, node_name. destruct (fdt_get_name b n) as [[[p|] len]|]; [|done|done]. cbn [mbind option_bind fst].
  destruct (cstr m p) as [name|]; [|done]. cbn [mbind option_bind]. destruct (fdt_get_property b n _) as [prop|]; [|done].
  cbn [mbind option_bind]. set (c := match fst prop with Some p => _ | None => _ end). clearbody c. cbn [first_probe k_drivers getDeviceType kops k_type].
  change (type_selected DEV_TYPE_SYS DEV_TYPE_SYS) with true. change (type_selected DEV_TYPE_SYS DEV_TYPE_CHAR) with false.
  cbn iota. cbn [drv_probe kops k_probe mbind option_bind]. unfold GenericRoot.probe. case_bool_decide as Hn; [by intros [= <- _]; left; subst|].
  change (0 <? DRV_CAP_NONE) with false. cbn iota. destruct (Z.ltb_spec 0 (GenericMem.probe name)) as [Hm|Hm]; [intros [= <- _]; by exists name|].
  destruct (GenericCPU.probe name c) as [rc0|]; [|done]. cbn [mbind option_bind].
  destruct (Z.ltb_spec 0 rc0).
  { intros [= <- _]. exists name. split_and!; [done|done|]. unfold GenericMem.probe in *. by destruct (_ && _). }
  case_bool_decide as Hs; [subst name|done]. destruct c as [c|]; [|done]. cbn [mbind option_bind].
  destruct (0 <? RoundRobin.probe _ c); [|done]. by intros [= <- _].
Qed.

(** Only the scheduler answers to the compatible string of schedulers. *)
Lemma scheduler_probe d name rc : k_probe d (byte_list "scheduler-" ++ name) (Some (byte_list "sys,scheduler")) = Some rc ->
  0 < rc -> d = DSched.
Proof.
  destruct d; [| | |done|]; intros E Hrc; exfalso; revert E; cbn [k_probe].
  - unfold GenericRoot.probe. rewrite bool_decide_eq_false_2 by done. intros [= <-]. by vm_compute in Hrc.
  - unfold GenericMem.probe. rewrite (bool_decide_eq_false_2 (_ = byte_list "reserved-memory")) by done.
    rewrite bool_decide_eq_false_2; [intros [= <-]; by vm_compute in Hrc|]. cbn. by destruct (str_find _ _).
  - unfold GenericCPU.probe. rewrite !bool_decide_eq_false_2 by done. cbn [mbind option_bind].
    rewrite bool_decide_eq_false_2 by done. intros [= <-]. by vm_compute in Hrc.
  - unfold Uart8250.probe. cbn [mbind option_bind]. rewrite !bool_decide_eq_false_2 by done. intros [= <-]. by vm_compute in Hrc.
Qed.

Lemma first_probe_answer ops ok name c l d rc : first_probe (D := drv) (K := kdev H) ops ok name c l = Some (Some (d, rc)) ->
  drv_probe ops d name c = Some rc /\ 0 < rc.
Proof.
  induction l as [|d' l IH]; cbn [first_probe]; [done|]. destruct (ok d'); [|done].
  destruct (drv_probe ops d' name c) as [r|] eqn:E; [|done]. cbn [mbind option_bind]. destruct (Z.ltb_spec 0 r); [|done]. by intros [= <- <-].
Qed.

Lemma by_probe_scheduler name s d s' :
  getDriverByProbe (base_ops (H := H)) (byte_list "scheduler-" ++ name) (byte_list "sys,scheduler") s = Some (Some d, s') -> d = DSched /\ s' = s.
Proof.
  unfold getDriverByProbe, mbind, M_bind, get. destruct (first_probe _ _ _ _ _) as [[[d' rc]|]|] eqn:E; [|done|done].
  cbn. intros [= <- <-]. split; [|done]. apply first_probe_answer in E as [E Hrc]. by eapply scheduler_probe.
Qed.

(** Installing keeps the invariant. *)
Definition typed_to (s s' : kdev H) : Prop := typed s -> typed s'.
#[local] Instance typed_preorder : PreOrder typed_to.
Proof. split; [intros s Hs; exact Hs|]. intros s1 s2 s3 H1 H2 Hs. by apply H2, H1. Qed.

Lemma typed_same s s' : k_mgr s' = k_mgr s -> GenericRoot._scheduler (k_root s') = GenericRoot._scheduler (k_root s) -> typed_to s s'.
Proof. intros E1 E2 [Hl Hd Hs]. split; [by rewrite E1|by rewrite E1|by rewrite E2]. Qed.

Lemma upd_typed f : (forall r, GenericRoot._scheduler (f r) = GenericRoot._scheduler r) ->
  ensures typed_to (GenericRoot.upd (k_root (H := H)) set_k_root f).
Proof. intros Hf. apply ensures_modify. intros s. apply typed_same; [done|apply Hf]. Qed.

Lemma by_probe_typed {A} name (f : option drv -> M (kdev H) A) : ensures typed_to (f None) -> ensures typed_to (f (Some DSched)) ->
  ensures typed_to (getDriverByProbe base_ops (byte_list "scheduler-" ++ name) (byte_list "sys,scheduler") ≫= f).
Proof.
  intros Hn Hs s a s' E. unfold mbind, M_bind in E. destruct (getDriverByProbe _ _ _ s) as [[[d|] s1]|] eqn:E1; [| |done].
  - apply by_probe_scheduler in E1 as [-> ->]. by eapply Hs.
  - assert (s1 = s) as ->; [|by eapply Hn]. revert E1. unfold getDriverByProbe, mbind, M_bind, get.
    destruct (first_probe _ _ _ _ _) as [[]|]; [|by intros [= <-]|done]. done.
Qed.

Lemma set_scheduler_typed : ensures typed_to (GenericRoot.upd (k_root (H := H)) set_k_root (GenericRoot.set_scheduler (Some DSched))).
Proof. apply ensures_modify. intros s [Hl Hd Hs]. split; [done|done|]. by intros d [= <-]. Qed.

#[local] Hint Resolve upd_typed set_scheduler_typed : ensures.

Lemma mark_typed n h : belongs n DRoot -> 0 <= h -> ensures typed_to (markInstalled (base_ops (H := H)) b n h DRoot DRV_CAP_THIS).
Proof.
  intros Hb Hh. unfold markInstalled. ensures_tac. apply ensures_modify. intros s [Hl Hd Hs]. split; [done| |done].
  intros n' v Hv. apply devhdl_insert_new in Hv as [E|[-> ->]]; [by apply Hd|done].
Qed.

Lemma root_typed node : ensures typed_to (k_addDevice io b junk DRoot node).
Proof.
  cbn [k_addDevice]. unfold GenericRoot.addDevice. destruct (node =? 0); [|ensures_tac].
  apply ensures_bind; [apply _|ensures_tac|intros c]. apply ensures_bind; [apply _|ensures_tac|intros _].
  apply ensures_bind; [apply _|ensures_tac|intros md]. apply ensures_bind; [apply _|ensures_tac|intros _].
  intros s a s' E. unfold mbind, M_bind in E. destruct (fdt_path_offset b 1 (byte_list "/chosen")) as [rc|] eqn:Ec; [|done].
  cbn [lift] in E. revert s a s' E. change (ensures typed_to (if 0 <=? rc then
      so ← lift (prop_string b rc (byte_list "stdout-path"));
      (match so with Some s => GenericRoot.upd (k_root (H := H)) set_k_root (GenericRoot.set_stdout_path s) | None => mret tt end) ≫= fun _ =>
      GenericRoot.read_initrd k_root set_k_root b rc ≫= fun _ =>
      GenericRoot.read_bootargs base_ops k_root set_k_root b rc ≫= fun _ =>
      ok ← GenericRoot.default_scheduler base_ops k_root set_k_root;
      if (ok : bool) then markInstalled base_ops b rc 0 DRoot DRV_CAP_THIS ≫= fun _ => mret 0 else mret K_EINVAL
    else mret K_ENODEV)).
  destruct (0 <=? rc); [|ensures_tac]. assert (belongs rc DRoot) as Hb by (by right). pose proof (mark_typed rc 0 Hb ltac:(lia)) as Hm.
  unfold GenericRoot.read_initrd, GenericRoot.read_bootargs, GenericRoot.default_scheduler.
  change K_CONFIG_DEFAULT_SCHEDULER with (byte_list "scheduler-" ++ byte_list "rr").
  repeat first [apply by_probe_typed | ensures_step].
Qed.
Lemma probe_typed fuel node s r s' : typed s -> DrvMgr.probe (kops io b junk) b fuel DEV_TYPE_SYS node s = Some (r, s') -> typed s'.
Proof.
  apply (probe_inv (kops io b junk) b DEV_TYPE_SYS typed). clear. intros node s d rc r s' Hs Hc Ea.
  assert (typed s') as Hs'.
  { destruct d; [exact (root_typed node s r s' Ea Hs)|..]; cbn [kops addDevice k_addDevice] in Ea.
    1,2,4: revert Ea; unfold zoom; case_match; [|done]; case_match; intros [= _ <-]; by apply (typed_same s).
    destruct (RoundRobin.addDevice (k_sched s)); injection Ea as _ <-. by apply (typed_same s). }
  split; [done|]. intros Hr. cbn [kops mgr_of] in Hc. rewrite (ty_drivers s Hs) in Hc. apply choice_belongs in Hc.
  destruct Hs' as [Hl Hd Hsch]. split; [done| |done]. intros n v Hv. cbn in Hv.
  apply devhdl_insert_new in Hv as [E|[-> ->]]; [by apply Hd|done].
Qed.

(** ** The system devices of a tree *)
Context (t : dt) (Ht : holds b t) (Hroot : d_name t = []).

Lemma node_name_in s : within s t -> node_name (d_off s) = Some (d_name s).
Proof.
  intros Hw. destruct (nodes_in b t s [] Ht Hw) as ((p & En & Ep) & _). unfold node_name. rewrite En. cbn [mbind option_bind fst].
  by rewrite Ep.
Qed.

Lemma name_matches_take name s : name_matches name s = true -> take (length s) name = s.
Proof.
  unfold name_matches. rewrite orb_true_iff, !andb_true_iff, !bool_decide_eq_true. intros [->|[[E _] _]]; [apply take_ge; lia|done].
Qed.

Lemma top_node comp k : find_path t [comp] = Some k -> within k t /\ take (length comp) (d_name k) = comp.
Proof.
  cbn [find_path]. destruct (find_kid comp (d_kids t)) as [k'|] eqn:E; [|done]. cbn [mbind option_bind]. intros [= ->].
  split; [eapply within_kid; [by eapply find_kid_in|constructor]|]. apply List.find_some in E as [_ E]. by apply name_matches_take.
Qed.

Lemma str_find_head pat s : str_find pat s = Some O <-> take (length pat) s = pat.
Proof.
  destruct s as [|c s]; cbn [str_find]; (case_bool_decide as E; [done|]); split; try done.
  by destruct (str_find pat s).
Qed.

Lemma mem_probe_prefix name : take 6 name = byte_list "memory" -> GenericMem.probe name = DRV_CAP_COVER.
Proof. intros E. unfold GenericMem.probe. rewrite (proj2 (str_find_head (byte_list "memory") name) E). done. Qed.

Lemma mem_probe_other name : take 6 name <> byte_list "memory" -> name <> byte_list "reserved-memory" -> GenericMem.probe name = 0.
Proof.
  intros H1 H2. unfold GenericMem.probe. rewrite (bool_decide_eq_false_2 (name = _)) by done.
  rewrite bool_decide_eq_false_2; [done|]. by rewrite str_find_head.
Qed.

(** The root's driver is on the root. *)
Lemma typed_root s v : typed s -> _devhdl (k_mgr s) !! 0 = Some v -> v.1.1 = DRoot.
Proof.
  intros [_ Hd _] Hv. destruct (Hd _ _ Hv) as [Hb _]. clear Hd. rename Hb into Hd. assert (node_name 0 = Some []) as En.
  { destruct Ht as (_ & H0 & _). rewrite <- H0, <- Hroot. apply node_name_in. constructor. }
  destruct (v.1.1); [done|..]; exfalso; cbn in Hd.
  - destruct Hd as (name & E & Hp). rewrite En in E. injection E as <-. by vm_compute in Hp.
  - destruct Hd as (name & E & Hp & _). rewrite En in E. by injection E as <-.
  - by rewrite En in Hd.
  - done.
Qed.

(** A node found by a path of one component has the memory driver or the
    processors' driver, as its name says. *)
Lemma typed_child s comp k v : typed s -> find_path t [comp] = Some k -> _devhdl (k_mgr s) !! d_off k = Some v ->
  (comp = byte_list "memory" -> v.1.1 = DMem) /\ (comp = byte_list "cpus" -> v.1.1 = DCPU).
Proof.
  intros [_ Hd _] Hk Hv. destruct (Hd _ _ Hv) as [Hb _]. clear Hd. rename Hb into Hd. destruct (top_node _ _ Hk) as [Hw Hname].
  pose proof (node_name_in k Hw) as En.
  assert (comp = byte_list "memory" \/ comp = byte_list "cpus" -> v.1.1 <> DRoot /\ v.1.1 <> DSched /\ v.1.1 <> DUart) as Hno.
  { intros Hc. split_and!; intros E; rewrite E in Hd; cbn [belongs] in Hd; [|rewrite En in Hd; injection Hd as Hd; rewrite Hd in Hname; destruct Hc; subst comp; done|done].
    destruct Hd as [Hd|Hd]; [rewrite En in Hd; injection Hd as Hd; rewrite Hd in Hname; destruct Hc; subst comp; done|].
    rewrite (path_offset_tree b (proj1 Ht) t (byte_list "/chosen") 0 Ht eq_refl) in Hd. unfold path_result in Hd.
    change (split_path [] (byte_list "/chosen")) with [byte_list "chosen"] in Hd.
    destruct (find_path t [byte_list "chosen"]) as [k'|] eqn:Ek'.
    - destruct (top_node _ _ Ek') as [Hw' Hname']. injection Hd as Ho. pose proof (node_name_in k' Hw') as En'. rewrite Ho, En in En'.
      injection En' as En'. rewrite En' in Hname. clear -Hname Hname' Hc. destruct (d_name k') as [|? [|? ?]]; destruct Hc; subst comp; vm_compute in Hname, Hname'; congruence.
    - destruct (off_sw b t Ht k Hw) as [_ ?]. injection Hd as Hd. unfold FDT_ERR_NOTFOUND in Hd. lia. }
  split; intros ->; destruct Hno as (? & ? & ?); [by left| |by right|]; destruct (v.1.1); try done; exfalso; cbn [belongs] in Hd;
    destruct Hd as (name & E & Hp); rewrite En in E; injection E as <-.
  - destruct Hp as [_ Hp]. by rewrite mem_probe_prefix in Hp.
  - rewrite mem_probe_other in Hp; [lia| |]; intros E; [|by rewrite E in Hname].
    assert (take 4 (take 6 (d_name k)) = take 4 (d_name k)) as E4 by (by rewrite take_take). rewrite E in E4. change (length (byte_list "cpus")) with 4%nat in Hname.
    by rewrite Hname in E4.
Qed.
End Typed.
