(* ===== verification/RootProps.v ===== *)
(** What [GenericRoot::addDevice] (src/kernel/driver/sysroot.cpp) does on the
    root of a tree: the scheduler it chooses, the node it marks and the device
    path of the initial RAM disk, which the CPIO file system parses back. *)
From S2P Require Import Prelude KDefs Bytes Fdt FdtRo FdtSafe FdtRoSafe FdtProps FdtHelper FdtTree FdtPath FdtWalk FdtReg.
From S2P Require Import CpioFs DrvMgr Sched Uart SysDrv SysProps KernelDev.

(** Total correctness: [f] returns, and [Q] holds of what it returns. *)
Definition wp {S A} (f : M S A) (Q : A -> S -> Prop) (s : S) : Prop :=
  match f s with Some (a, s') => Q a s' | None => False end.

Section Wp.
  Context {S A B : Type}.
Lemma wp_bind (f : M S A) (g : A -> M S B) Q s : wp f (fun a s' => wp (g a) Q s') s -> wp (f ≫= g) Q s.
Proof. unfold wp, mbind, M_bind. by destruct (f s) as [[]|]. Qed.
Lemma wp_lift (o : option A) (Q : A -> S -> Prop) s : (exists a, o = Some a /\ Q a s) -> wp (lift o) Q s.
Proof. intros (a & -> & H). exact H. Qed.
Lemma wp_mono (f : M S A) (Q Q' : A -> S -> Prop) s : wp f Q s -> (forall a s', Q a s' -> Q' a s') -> wp f Q' s.
Proof. unfold wp. destruct (f s) as [[]|]; [|done]. auto. Qed.
Lemma wp_inv (f : M S A) (Q : A -> S -> Prop) s : wp f Q s -> exists a s', f s = Some (a, s') /\ Q a s'.
Proof. unfold wp. destruct (f s) as [[a s']|]; [|done]. intros H. by exists a, s'. Qed.
End Wp.

(** The number in a property of one or two cells, big endian. Without the
    property, and for any other length, it is 0. *)
Definition cells_value (p : pitem) : Z :=
  if zlen (p_val p) =? 4 then be (p_val p) else if zlen (p_val p) =? 8 then be (p_val p) else 0.
Definition node_value (s : dt) (name : string) : Z := from_option cells_value 0 (find_prop (byte_list name) (d_props s)).

Section Root.
  Context {H : Type} (io : Mmio H) (b : region) (junk : Z) (t : dt) (Ht : holds b t) (Hnul : rd8 (r_bytes b) (hv b 4) = Some 0).
  Local Abbreviation m := (r_bytes b).
  Local Abbreviation Hok := (rb_ok _ (proj1 Ht)).
  Local Abbreviation K := (kdev H).

(** The strings of a node can be read. *)
Lemma prop_string_total s name : within s t -> exists x, prop_string b (d_off s) name = Some x.
Proof.
  intros Hw. unfold prop_string. pose proof (getprop_in b t s name Ht Hw) as Hg.
  destruct (find_prop name (d_props s)) as [p|]; [|destruct Hg as [_ ->]; by eexists].
  destruct Hg as (d & Eg & -> & Hv). cbn [mbind option_bind fst].
  destruct (off_sw b t Ht s Hw) as [Ho _]. destruct (getprop_ok b Hok (d_off s) name Ho) as (p0 & l & E & Hd).
  unfold fdt_getprop in Eg. rewrite E in Eg. injection Eg as -> ->.
  destruct (cstr_nul b (d + 12) Hnul) as [x ->]; [lia|]. by eexists.
Qed.

(** A property that is missing, or is there with its bytes readable. *)
Lemma prop_value s name : within s t ->
  match find_prop name (d_props s) with
  | None => exists e, fdt_get_property b (d_off s) name = Some (None, e)
  | Some p => exists d, fdt_get_property b (d_off s) name = Some (Some d, zlen (p_val p)) /\ prop_number b d (zlen (p_val p)) = Some (cells_value p)
  end.
Proof.
  intros Hw. pose proof (getprop_in b t s name Ht Hw) as Hg. destruct (find_prop name (d_props s)) as [p|]; [|destruct Hg as [_ ->]; by eexists].
  destruct Hg as (d & _ & E & Hv). exists d. split; [done|]. unfold prop_number, cells_value, fdt32_ld, fdt64_ld, rd_be.
  destruct (Z.eqb_spec (zlen (p_val p)) 4) as [E4|]; [rewrite E4 in Hv; by rewrite Hv|].
  destruct (Z.eqb_spec (zlen (p_val p)) 8) as [E8|]; [rewrite E8 in Hv; by rewrite Hv|done].
Qed.

(** The manager has the kernel's drivers and only the scheduler was chosen as
    scheduler. *)
Definition ready (path : list Z) (s : K) : Prop :=
  _drvlist (k_mgr s) = k_drivers /\ (forall d, GenericRoot._scheduler (k_root s) = Some d -> d = DSched) /\
  GenericRoot._initrd_path (k_root s) = path.

Lemma wp_upd (f : GenericRoot.t drv -> GenericRoot.t drv) (Q : unit -> K -> Prop) s :
  Q tt (set_k_root (f (k_root s)) s) -> wp (GenericRoot.upd k_root set_k_root f) Q s.
Proof. done. Qed.

Lemma probe_answers d name c : is_Some (drv_probe (base_ops (H := H)) d name (Some c)).
Proof.
  cbn [drv_probe base_ops]. destruct d; cbn [k_probe]; try by eexists.
  - unfold GenericCPU.probe. case_bool_decide; [by eexists|]. case_bool_decide; by eexists.
  - case_bool_decide; by eexists.
Qed.

Lemma wp_by_probe path name s (Q : option drv -> K -> Prop) : ready path s -> Q None s -> Q (Some DSched) s ->
  wp (getDriverByProbe base_ops (byte_list "scheduler-" ++ name) (byte_list "sys,scheduler")) Q s.
Proof.
  intros (Hl & _) Hn Hs. unfold wp. destruct (getDriverByProbe _ _ _ s) as [[[d|] s']|] eqn:E.
  - apply by_probe_scheduler in E as [-> ->]. exact Hs.
  - revert E. unfold getDriverByProbe, mbind, M_bind, get. destruct (first_probe _ _ _ _ _) as [[]|]; [done| |done]. by intros [= <-].
  - exfalso. revert E. unfold getDriverByProbe, mbind, M_bind, get. cbn [mgr_of base_ops].
    destruct (first_probe_total (base_ops (H := H)) probe_answers (fun _ => true) (byte_list "scheduler-" ++ name) (byte_list "sys,scheduler")
      (_drvlist (k_mgr s))) as [x ->]. done.
Qed.

(** The default scheduler is there. *)
Lemma default_by_probe s : _drvlist (k_mgr s) = k_drivers ->
  getDriverByProbe (base_ops (H := H)) K_CONFIG_DEFAULT_SCHEDULER (byte_list "sys,scheduler") s = Some (Some DSched, s).
Proof. intros Hl. unfold getDriverByProbe, mbind, M_bind, get. cbn [mgr_of base_ops]. rewrite Hl. reflexivity. Qed.

Lemma initrd_string_parses st en : 0 < st < en -> en < 2 ^ 38 ->
  exists str, GenericRoot.initrd_string st en = Some str /\ CPIOFS.parse_device str = Some (K_VADDR_BASE + st, en - st).
Proof.
  intros [H0 H1] H2. unfold GenericRoot.initrd_string. destruct (Z.eqb_spec st 0); [lia|]. destruct (Z.eqb_spec en 0); [lia|].
  destruct (Z.ltb_spec st en); [|lia]. cbn [negb andb]. eexists. split; [done|].
  change (2 ^ 38) with 274877906944 in H2. change K_VADDR_BASE with 0xFFFFFFC000000000.
  assert (forall x, 0 <= x < 274877906944 -> Z.lor x 0xFFFFFFC000000000 = 0xFFFFFFC000000000 + x) as L.
  { intros x Hx. rewrite Z.lor_comm, <- Z.lxor_lor, <- Z.add_nocarry_lxor; [done| |];
      (change 0xFFFFFFC000000000 with (Z.shiftl (Z.ones 26) 38); apply Z.bits_inj'; intros i Hi; rewrite Z.land_spec, Z.bits_0, Z.shiftl_spec by lia;
       destruct (Z.ltb_spec i 38); [rewrite Z.testbit_neg_r by lia; done|rewrite (testbit_high x 38 i) by lia; apply andb_false_r]). }
  rewrite !L by lia. replace (0xFFFFFFC000000000 + en - (0xFFFFFFC000000000 + st)) with (en - st) by lia.
  rewrite uw_small by (unfold is_uw; change (2 ^ 64) with 18446744073709551616; lia).
  apply initrd_path_parses; unfold is_uw; change (2 ^ 64) with 18446744073709551616; lia.
Qed.

Lemma wp_strings_upd (name : list Z) s (f : option (list Z) -> M K unit) path : within s t ->
  (forall x k, ready path k -> wp (f x) (fun _ => ready path) k) ->
  forall k, ready path k -> wp (x ← lift (prop_string b (d_off s) name); f x) (fun _ => ready path) k.
Proof.
  intros Hw Hf k Hk. apply wp_bind, wp_lift. destruct (prop_string_total s name Hw) as [x E]. exists x. split; [done|]. by apply Hf.
Qed.

Lemma wp_upd_ready f path path' k : ready path k -> (forall r, GenericRoot._scheduler (f r) = GenericRoot._scheduler r) ->
  (forall r, GenericRoot._initrd_path r = path -> GenericRoot._initrd_path (f r) = path') ->
  wp (GenericRoot.upd k_root set_k_root f) (fun _ => ready path') k.
Proof. intros (Hl & Hs & Hp) Hf1 Hf2. apply wp_upd. split_and!; [done| |by apply Hf2]. intros d. cbn. rewrite Hf1. apply Hs. Qed.

Lemma wp_set_scheduler path k : ready path k ->
  wp (GenericRoot.upd k_root set_k_root (GenericRoot.set_scheduler (Some DSched)))
    (fun _ k' => ready path k' /\ GenericRoot._scheduler (k_root k') = Some DSched) k.
Proof. intros (Hl & Hs & Hp). apply wp_upd. unfold ready. cbn. split_and!; [exact Hl|by intros d [= <-]|exact Hp|done]. Qed.

Lemma wp_read_initrd s path k : within s t -> ready path k ->
  wp (GenericRoot.read_initrd k_root set_k_root b (d_off s))
    (fun _ => ready (default path (GenericRoot.initrd_string (node_value s "linux,initrd-start") (node_value s "linux,initrd-end")))) k.
Proof.
  intros Hw Hk. unfold GenericRoot.read_initrd, node_value. pose proof (prop_value s (byte_list "linux,initrd-start") Hw) as H1.
  destruct (find_prop (byte_list "linux,initrd-start") _) as [ps|]; cbn [from_option].
  2: { destruct H1 as [e E]. apply wp_bind, wp_lift. eexists. split; [exact E|]. exact Hk. }
  destruct H1 as (d1 & E1 & N1). apply wp_bind, wp_lift. eexists. split; [exact E1|]. apply wp_bind, wp_lift. eexists. split; [exact N1|].
  pose proof (prop_value s (byte_list "linux,initrd-end") Hw) as H2. apply wp_bind.
  assert (forall st e, wp (match GenericRoot.initrd_string st e with Some str => GenericRoot.upd k_root set_k_root (GenericRoot.set_initrd_path str) | None => mret tt end)
    (fun _ => ready (default path (GenericRoot.initrd_string st e))) k) as Hset.
  { intros st e. destruct (GenericRoot.initrd_string st e); [by apply (wp_upd_ready _ path _)|exact Hk]. }
  destruct (find_prop (byte_list "linux,initrd-end") _) as [pe|]; cbn [from_option].
  - destruct H2 as (d2 & E2 & N2). apply wp_lift. eexists. split; [exact E2|]. apply wp_bind, wp_lift. eexists. split; [exact N2|]. apply Hset.
  - destruct H2 as [e E2]. apply wp_lift. eexists. split; [exact E2|]. apply wp_bind. apply Hset.
Qed.

Lemma wp_read_bootargs s path k : within s t -> ready path k ->
  wp (GenericRoot.read_bootargs base_ops k_root set_k_root b (d_off s)) (fun _ => ready path) k.
Proof.
  intros Hw Hk. apply wp_bind, wp_lift. destruct (prop_string_total s (byte_list "bootargs") Hw) as [x E]. exists x. split; [done|].
  destruct x as [args|]; [|done]. apply wp_bind. eapply wp_mono; [by apply (wp_upd_ready _ path path)|]. intros ? k1 Hk1.
  destruct (GenericRoot.scheduler_arg args) as [name|]; [|done]. apply wp_bind. apply (wp_by_probe path); [done|done|].
  apply (wp_mono _ _ _ _ (wp_set_scheduler path k1 Hk1)). by intros ? k2 [? _].
Qed.

Lemma wp_default_scheduler path k : ready path k ->
  wp (GenericRoot.default_scheduler base_ops k_root set_k_root)
    (fun ok k' => ok = true /\ ready path k' /\ GenericRoot._scheduler (k_root k') = Some DSched) k.
Proof.
  intros Hk. pose proof Hk as (Hl & Hs & _). apply wp_bind. unfold wp at 1, get.
  destruct (GenericRoot._scheduler (k_root k)) as [d|] eqn:Ed.
  { unfold wp, mret, M_ret. split_and!; [done|done|]. by rewrite Ed, (Hs d eq_refl). }
  apply wp_bind. unfold wp at 1. rewrite (default_by_probe k Hl). apply wp_bind. apply (wp_mono _ _ _ _ (wp_set_scheduler path k Hk)).
  intros ? k' [? ?]. done.
Qed.
(** The root node: what is left to do after /chosen was found, and without it. *)
Lemma wp_chosen chosen path k : within chosen t -> ready path k ->
  wp (so ← lift (prop_string b (d_off chosen) (byte_list "stdout-path"));
      (match so with Some s => GenericRoot.upd k_root set_k_root (GenericRoot.set_stdout_path s) | None => mret tt end) ≫= fun _ =>
      GenericRoot.read_initrd k_root set_k_root b (d_off chosen) ≫= fun _ =>
      GenericRoot.read_bootargs base_ops k_root set_k_root b (d_off chosen) ≫= fun _ =>
      ok ← GenericRoot.default_scheduler base_ops k_root set_k_root;
      if (ok : bool) then markInstalled base_ops b (d_off chosen) 0 DRoot DRV_CAP_THIS ≫= fun _ => mret 0 else mret K_EINVAL)
    (fun r k' => r = 0 /\ ready (default path (GenericRoot.initrd_string (node_value chosen "linux,initrd-start") (node_value chosen "linux,initrd-end"))) k' /\
      GenericRoot._scheduler (k_root k') = Some DSched /\ is_Some (_devhdl (k_mgr k') !! d_off chosen)) k.
Proof.
  intros Hw Hk. set (str := default path _). destruct (prop_string_total chosen (byte_list "stdout-path") Hw) as [so Eso].
  apply wp_bind, wp_lift. exists so. split; [done|]. apply wp_bind.
  apply (wp_mono _ (fun _ => ready path)). { destruct so; [by apply (wp_upd_ready _ path path)|done]. }
  intros ? k3 Hk3. apply wp_bind. eapply wp_mono; [by apply (wp_read_initrd chosen path)|]. fold str. intros ? k4 Hk4.
  apply wp_bind. eapply wp_mono; [by apply (wp_read_bootargs chosen str)|]. intros ? k5 Hk5.
  apply wp_bind. eapply wp_mono; [by apply (wp_default_scheduler str)|]. intros ok k6 (-> & Hk6 & Hs6).
  apply wp_bind. unfold markInstalled. destruct (nodes_in b t chosen [] Ht Hw) as ((na & En & _) & _).
  apply wp_bind, wp_lift. eexists. split; [exact En|]. cbn [fst].
  unfold wp, mbind, M_bind, modify, mret, M_ret. split_and!; [done|done|done|]. cbn. unfold devhdl_insert.
  destruct (_devhdl (k_mgr k6) !! d_off chosen) eqn:E; [by rewrite E|]. rewrite lookup_insert_eq. by eexists.
Qed.

Lemma add_root_ok k : _drvlist (k_mgr k) = k_drivers -> GenericRoot._scheduler (k_root k) = None ->
  wp (k_addDevice io b junk DRoot 0) (fun r k' =>
    match find_path t [byte_list "chosen"] with
    | None => r = K_ENODEV
    | Some chosen => r = 0 /\ ready (default (GenericRoot._initrd_path (k_root k))
        (GenericRoot.initrd_string (node_value chosen "linux,initrd-start") (node_value chosen "linux,initrd-end"))) k' /\
        GenericRoot._scheduler (k_root k') = Some DSched /\ is_Some (_devhdl (k_mgr k') !! d_off chosen)
    end) k.
Proof.
  intros Hl Hs. assert (d_off t = 0) as Ht0 by apply Ht. assert (within t t) as Hwt by constructor.
  set (p0 := GenericRoot._initrd_path (k_root k)). assert (ready p0 k) as Hk by (split_and!; [done|by rewrite Hs|done]).
  cbn [k_addDevice]. unfold GenericRoot.addDevice. change (0 =? 0) with true. cbn iota.
  destruct (prop_string_total t (byte_list "compatible") Hwt) as [c Ec]. rewrite Ht0 in Ec.
  destruct (prop_string_total t (byte_list "model") Hwt) as [md Em]. rewrite Ht0 in Em.
  apply wp_bind, wp_lift. exists c. split; [done|]. apply wp_bind. eapply wp_mono; [by apply (wp_upd_ready _ p0 p0)|]. intros ? k1 Hk1.
  apply wp_bind, wp_lift. exists md. split; [done|]. apply wp_bind. eapply wp_mono; [by apply (wp_upd_ready _ p0 p0)|]. intros ? k2 Hk2.
  apply wp_bind, wp_lift. rewrite (path_offset_tree b (proj1 Ht) t (byte_list "/chosen") 0 Ht eq_refl). unfold path_result.
  change (split_path [] (byte_list "/chosen")) with [byte_list "chosen"].
  destruct (find_path t [byte_list "chosen"]) as [chosen|] eqn:Hch; (eexists; split; [reflexivity|]); [|done].
  pose proof (find_path_within _ _ _ Hch) as Hw. destruct (off_sw b t Ht chosen Hw) as [_ [Ho0 _]].
  destruct (Z.leb_spec 0 (d_off chosen)); [|lia]. by apply wp_chosen.
Qed.

(** Values of properties are not negative, and an empty range names no disk. *)
Lemma node_value_nonneg s name : within s t -> 0 <= node_value s name.
Proof.
  intros Hw. unfold node_value. pose proof (getprop_in b t s (byte_list name) Ht Hw) as Hg. destruct (find_prop _ _) as [p|]; [|done].
  destruct Hg as (d & _ & _ & Hv). pose proof (be_range _ (Forall_rdn _ _ _ _ _ (bo_bytes _ Hok) Hv)) as [Hb _].
  cbn [from_option]. unfold cells_value. by repeat case_match.
Qed.

Lemma initrd_string_none st en : 0 <= st -> ~ (0 < st < en) -> GenericRoot.initrd_string st en = None.
Proof.
  intros H0 H1. unfold GenericRoot.initrd_string. destruct (Z.eqb_spec st 0); [done|]. destruct (Z.eqb_spec en 0); [done|].
  destruct (Z.ltb_spec st en); [lia|done].
Qed.
End Root.

(** C29: The root node. On a blob that holds a tree and is followed by a NUL, with
    the kernel's drivers registered and no scheduler chosen yet,
    [GenericRoot::addDevice] returns for the root K_ENODEV when the tree has no
    /chosen, and 0 when it has: then the scheduler is the round-robin driver
    whatever the boot arguments say and /chosen is marked as installed. The values
    of "linux,initrd-start" and "linux,initrd-end" are those of one or two cells, 0
    when the property is missing or has another length. When 0 < start < end <
    2^38 the device path it prints is parsed by the CPIO file system as the
    address of the range in the direct map and its length; when not
    0 < start < end the path stays as it was. *)
Theorem root_addDevice_correct {H} (io : Mmio H) b t junk k :
  holds b t -> rd8 (r_bytes b) (hv b 4) = Some 0 -> _drvlist (k_mgr k) = k_drivers -> GenericRoot._scheduler (k_root k) = None ->
  match find_path t [byte_list "chosen"] with
  | None => exists k', k_addDevice io b junk DRoot 0 k = Some (K_ENODEV, k')
  | Some chosen =>
      let st := node_value chosen "linux,initrd-start" in let en := node_value chosen "linux,initrd-end" in
      exists k', k_addDevice io b junk DRoot 0 k = Some (0, k') /\ GenericRoot._scheduler (k_root k') = Some DSched /\
        is_Some (_devhdl (k_mgr k') !! d_off chosen) /\
        (0 < st < en -> en < 2 ^ 38 -> CPIOFS.parse_device (GenericRoot._initrd_path (k_root k')) = Some (K_VADDR_BASE + st, en - st)) /\
        (~ (0 < st < en) -> GenericRoot._initrd_path (k_root k') = GenericRoot._initrd_path (k_root k))
  end.
Proof.
  intros Ht Hnul Hl Hs. pose proof (add_root_ok io b junk t Ht Hnul k Hl Hs) as G.
  destruct (find_path t [byte_list "chosen"]) as [chosen|] eqn:Hch.
  - pose proof (find_path_within _ _ _ Hch) as Hw. cbv zeta. apply wp_inv in G as (r & k' & E & -> & (_ & _ & Hp) & Hs' & Hd). exists k'. split_and!; [done|done|done| |]; rewrite Hp.
    + intros H0 H1. destruct (initrd_string_parses _ _ H0 H1) as (str & -> & Hparse). exact Hparse.
    + intros Hn. rewrite initrd_string_none; [done|by apply (node_value_nonneg b t Ht)|done].
  - apply wp_inv in G as (r & k' & E & ->). by exists k'.
Qed.
