(* ===== verification/Sbi.v ===== *)
(** The wrappers around the SBI calls, src/kernel/inc/k_sbif.hpp, with the
    extension and function numbers of src/kernel/inc/sbi/sbi_ecall_interface.h.
    The firmware behind [sbi_ecall] is a parameter: it gets the extension, the
    function and the six arguments, and answers with [error] and [value]. *)
From S2P Require Import Prelude KDefs Bytes.

Definition SBI_EXT_BASE : Z := 0x10.
Definition SBI_EXT_TIME : Z := 0x54494D45.
Definition SBI_EXT_IPI : Z := 0x735049.
Definition SBI_EXT_RFENCE : Z := 0x52464E43.
Definition SBI_EXT_HSM : Z := 0x48534D.
Definition SBI_EXT_SRST : Z := 0x53525354.
Definition SBI_EXT_BASE_GET_SPEC_VERSION : Z := 0.
Definition SBI_EXT_BASE_GET_IMP_ID : Z := 1.
Definition SBI_EXT_BASE_GET_IMP_VERSION : Z := 2.
Definition SBI_EXT_BASE_PROBE_EXT : Z := 3.
Definition SBI_EXT_BASE_GET_MVENDORID : Z := 4.
Definition SBI_EXT_BASE_GET_MARCHID : Z := 5.
Definition SBI_EXT_BASE_GET_MIMPID : Z := 6.
Definition SBI_EXT_TIME_SET_TIMER : Z := 0.
Definition SBI_EXT_IPI_SEND_IPI : Z := 0.
Definition SBI_EXT_RFENCE_REMOTE_FENCE_I : Z := 0.
Definition SBI_EXT_RFENCE_REMOTE_SFENCE_VMA : Z := 1.
Definition SBI_EXT_RFENCE_REMOTE_SFENCE_VMA_ASID : Z := 2.
Definition SBI_EXT_HSM_HART_START : Z := 0.
Definition SBI_EXT_HSM_HART_STOP : Z := 1.
Definition SBI_EXT_HSM_HART_GET_STATUS : Z := 2.
Definition SBI_EXT_HSM_HART_SUSPEND : Z := 3.
Definition SBI_HSM_STATE_STARTED : Z := 0.
Definition SBI_HSM_STATE_STOPPED : Z := 1.
Definition SBI_EXT_SRST_RESET : Z := 0.
Definition SBI_EXT_DBCN_CONSOLE_WRITE : Z := 0.
Definition SBI_EXT_DBCN_CONSOLE_READ : Z := 1.

(** [struct sbiret] *)
Record sbiret := SbiRet { error : Z; value : Z }.

Section Sbif.
  Context {S : Type} (sbi_ecall : Z -> Z -> list Z -> M S sbiret).

(** Arguments that are not given are 0. *)
Definition pad (args : list Z) : list Z := take 6 (args ++ replicate 6 0).
Definition callSBI (ext fid : Z) (args : list Z) : M S sbiret := sbi_ecall ext fid (pad args).
Definition call_value (ext fid : Z) (args : list Z) : M S Z := r ← callSBI ext fid args; mret (value r).
Definition call_error (ext fid : Z) (args : list Z) : M S Z := r ← callSBI ext fid args; mret (error r).

(** [impl_helper<EXTID>::available] *)
Definition available (EXTID : Z) : M S Z := call_value SBI_EXT_BASE SBI_EXT_BASE_PROBE_EXT [EXTID].

Definition getSpecVersion : M S Z :=
  r ← callSBI SBI_EXT_BASE SBI_EXT_BASE_GET_SPEC_VERSION []; mret (Z.land (value r) 0x7FFFFFFF).
Definition getImplID : M S Z := call_value SBI_EXT_BASE SBI_EXT_BASE_GET_IMP_ID [].
Definition getImplVer : M S Z := call_value SBI_EXT_BASE SBI_EXT_BASE_GET_IMP_VERSION [].
(** The argument is not passed on. *)
Definition probeExtension (extid : Z) : M S Z := call_value SBI_EXT_BASE SBI_EXT_BASE_PROBE_EXT [].
Definition getVID : M S Z := call_value SBI_EXT_BASE SBI_EXT_BASE_GET_MVENDORID [].
Definition getAID : M S Z := call_value SBI_EXT_BASE SBI_EXT_BASE_GET_MARCHID [].
Definition getMacImplID : M S Z := call_value SBI_EXT_BASE SBI_EXT_BASE_GET_MIMPID [].

Definition impls : list string :=
  ["BBL"; "OpenSBI"; "Xvisor"; "KVM"; "RustSBI"; "Diosix"; "Coffer"; "XenProject"; "PolarFire"]%string.
(** [None] is a read outside the array. *)
Definition getImplName (id : Z) : option string :=
  if (0 <=? id) && (id <? 9) then impls !! Z.to_nat id else Some ""%string.

(** [str] is the address of the string [s]. *)
Definition puts (str : Z) (s : list Z) : M S Z := call_error SBI_EXT_DBCN SBI_EXT_DBCN_CONSOLE_WRITE [zlen s; str].
Definition gets (str mlen : Z) : M S Z :=
  r ← callSBI SBI_EXT_DBCN SBI_EXT_DBCN_CONSOLE_READ [mlen; str];
  mret (if error r =? SBI_SUCCESS then value r else error r).

Definition setTimer (sv : Z) : M S Z := call_error SBI_EXT_TIME SBI_EXT_TIME_SET_TIMER [sv].
Definition clearTimer : M S Z := call_error SBI_EXT_TIME SBI_EXT_TIME_SET_TIMER [Z.shiftr (2 ^ 64 - 1) 8].
Definition sendIPI (hart_mask hartid_base : Z) : M S unit :=
  callSBI SBI_EXT_IPI SBI_EXT_IPI_SEND_IPI [hart_mask; hartid_base] ≫= fun _ => mret tt.

Definition getHartState (hartid : Z) : M S Z :=
  r ← callSBI SBI_EXT_HSM SBI_EXT_HSM_HART_GET_STATUS [hartid];
  mret (if negb (error r =? 0) then error r else value r).
Definition startHart (hartid start_addr arg : Z) : M S Z := call_error SBI_EXT_HSM SBI_EXT_HSM_HART_START [hartid; start_addr; arg].
Definition stopHart : M S Z := call_error SBI_EXT_HSM SBI_EXT_HSM_HART_STOP [].
Definition suspendHart (suspend_type resume_addr arg : Z) : M S Z :=
  call_error SBI_EXT_HSM SBI_EXT_HSM_HART_SUSPEND [suspend_type; resume_addr; arg].

(** [ResetType] and [ResetReason] *)
Inductive ResetType := Shutdown | ColdReboot | WarmReboot.
Inductive ResetReason := NoReason | SystemFailure.
Definition reset_type_num (t : ResetType) : Z := match t with Shutdown => 0 | ColdReboot => 1 | WarmReboot => 2 end.
Definition reset_reason_num (r : ResetReason) : Z := match r with NoReason => 0 | SystemFailure => 1 end.
Definition reset (t : ResetType) (r : ResetReason) : M S Z :=
  call_error SBI_EXT_SRST SBI_EXT_SRST_RESET [reset_type_num t; reset_reason_num r].

Definition fenceI (hart_mask hartid_base : Z) : M S Z :=
  call_error SBI_EXT_RFENCE SBI_EXT_RFENCE_REMOTE_FENCE_I [hart_mask; hartid_base].
Definition sfenceVMA (hart_mask hartid_base start_addr size : Z) : M S Z :=
  call_error SBI_EXT_RFENCE SBI_EXT_RFENCE_REMOTE_SFENCE_VMA [hart_mask; hartid_base; start_addr; size].
Definition sfenceVMA_asid (hart_mask hartid_base start_addr size asid : Z) : M S Z :=
  call_error SBI_EXT_RFENCE SBI_EXT_RFENCE_REMOTE_SFENCE_VMA_ASID [hart_mask; hartid_base; start_addr; size; asid].
End Sbif.

Definition err_str : list string :=
  ["SBI_SUCCESS"; "SBI_ERR_FAILED"; "SBI_ERR_NOT_SUPPORTED"; "SBI_ERR_INVALID_PARAM"; "SBI_ERR_DENIED";
   "SBI_ERR_INVALID_ADDRESS"; "SBI_ERR_ALREADY_AVAILABLE"; "SBI_ERR_ALREADY_STARTED"; "SBI_ERR_ALREADY_STOPPED";
   "SBI_ERR_NO_SHMEM"]%string.
Definition getErrorStr (err : Z) : option string :=
  if 0 <=? err then err_str !! 0%nat
  else if (err <? 0) && (-10 <? err) then err_str !! Z.to_nat (- err)
  else Some "SBI_ERR_UNKNOWN"%string.

(** ** Properties *)

(** The tables are never read outside. *)
Lemma sbi_names_total x : is_Some (getErrorStr x) /\ is_Some (getImplName x).
Proof.
  unfold getErrorStr, getImplName. split; zcase; cbn [andb]; try (by eexists); apply lookup_lt_is_Some; cbn; lia.
Qed.

(** [probeExtension] asks about the same extension whatever its argument is. *)
Lemma probeExtension_ignores {S} (ecall : Z -> Z -> list Z -> M S sbiret) e1 e2 : probeExtension ecall e1 = probeExtension ecall e2.
Proof. done. Qed.
