(* ===== verification/Boot.v ===== *)
(** The boot of the first hart: [k_boot_sysdev] and [k_boot_perip] of
    src/kernel/main/k_boot.cpp, on the drivers, the page tables and the file
    systems of the other files. Messages are left out, and with them the SBI
    calls whose answers are only printed. A pointer to a driver that is used
    as a class the driver does not have is a fault. *)
From S2P Require Import Prelude KDefs Bytes Fdt FdtRo FdtSafe FdtRoSafe FdtProps FdtHelper FdtTree FdtPath FdtWalk FdtReg.
From S2P Require Import DrvMgr Sched Uart SysDrv SysProps KernelDev Mmu MmuSpec MmuMap MmuProps Vmm Lock.
From S2P Require Import Vfs KernelFs Sbi.

(** The kernel's global variables of k_boot.cpp, with the machine and the
    drivers. *)
Record kernel (H heap : Type) := Kernel {
  kn_dev : kdev H;
  kn_mach : mstate heap;
  kn_vfs : vfs (T := fsobj);
  k_stage : Z;
  k_cpuclock : Z;
  k_stack_base : Z;
  sysmmu : option (rv64mmu * vmm);
  k_stdout_func : option (drv * Z);
  k_stdout_switched : bool;
}.
Arguments Kernel {H heap}. Arguments kn_dev {H heap}. Arguments kn_mach {H heap}. Arguments kn_vfs {H heap}.
Arguments k_stage {H heap}. Arguments k_cpuclock {H heap}. Arguments k_stack_base {H heap}. Arguments sysmmu {H heap}.
Arguments k_stdout_func {H heap}. Arguments k_stdout_switched {H heap}.

Section Boot.
  Context {H heap : Type} (io : Mmio H) (b : region) (junk : Z).
  Context (memalign : Z -> Z -> heap -> Z * heap) (warl : Z -> Z -> Z).
  (** The firmware's answer to [getVID]. *)
  Context (vid : Z).
  Local Abbreviation K := (kernel H heap).
  Local Abbreviation ops := (kops io b junk).

Definition set_dev d (s : K) : K := Kernel d (kn_mach s) (kn_vfs s) (k_stage s) (k_cpuclock s) (k_stack_base s) (sysmmu s) (k_stdout_func s) (k_stdout_switched s).
Definition set_mach m (s : K) : K := Kernel (kn_dev s) m (kn_vfs s) (k_stage s) (k_cpuclock s) (k_stack_base s) (sysmmu s) (k_stdout_func s) (k_stdout_switched s).
Definition set_vfs v (s : K) : K := Kernel (kn_dev s) (kn_mach s) v (k_stage s) (k_cpuclock s) (k_stack_base s) (sysmmu s) (k_stdout_func s) (k_stdout_switched s).
Definition set_stage x (s : K) : K := Kernel (kn_dev s) (kn_mach s) (kn_vfs s) x (k_cpuclock s) (k_stack_base s) (sysmmu s) (k_stdout_func s) (k_stdout_switched s).
Definition set_cpuclock x (s : K) : K := Kernel (kn_dev s) (kn_mach s) (kn_vfs s) (k_stage s) x (k_stack_base s) (sysmmu s) (k_stdout_func s) (k_stdout_switched s).
Definition set_stack x (s : K) : K := Kernel (kn_dev s) (kn_mach s) (kn_vfs s) (k_stage s) (k_cpuclock s) x (sysmmu s) (k_stdout_func s) (k_stdout_switched s).
Definition set_sysmmu x (s : K) : K := Kernel (kn_dev s) (kn_mach s) (kn_vfs s) (k_stage s) (k_cpuclock s) (k_stack_base s) x (k_stdout_func s) (k_stdout_switched s).
Definition set_stdout x (s : K) : K := Kernel (kn_dev s) (kn_mach s) (kn_vfs s) (k_stage s) (k_cpuclock s) (k_stack_base s) (sysmmu s) x true.

Definition dev_op {A} (f : M (kdev H) A) : M K A := zoom kn_dev set_dev f.

(** [getDrvByPath] into a pointer of the class [d] has; 0 or the error code. *)
Definition find_driver (d : drv) (path : list Z) : M K Z :=
  r ← dev_op (getDrvByPath ops b 1 path);
  if fst r <? 0 then mret (fst r)
  else if bool_decide (snd r = Some d) then mret 0 else fault.

(** The stacks of the harts: below [K_START_STACK_ADDR] if they fit in 512 KiB,
    else allocated. *)
Definition setup_stacks (ncpu : Z) : M K Z :=
  let boot_stack_size := u64 (ncpu * K_CONFIG_STACK_SIZE) in
  if boot_stack_size <? 512 * 1024 then
    modify (set_stack K_START_STACK_ADDR) ≫= fun _ => mret 0
  else
    s ← get;
    let '(p, h) := memalign 4096 boot_stack_size (ms_heap (kn_mach s)) in
    let m := kn_mach s in
    put (set_mach (MState (ms_mem m) (ms_low m) (ms_satp m) h) s) ≫= fun _ =>
    if p =? 0 then modify (set_stack 0) ≫= fun _ => mret K_ENOMEM
    else modify (set_stack (u64 (p + boot_stack_size))) ≫= fun _ => mret 0.

(** Return code and [*boothart_stack]; the product is one of two [int]s. *)
Definition k_boot_sysdev (hartid : Z) : M K (Z * option Z) :=
  modify (set_stage K_BOOT) ≫= fun _ =>
  dev_op (DrvMgr.probe ops b (blob_fuel b) DEV_TYPE_SYS 0) ≫= fun _ =>
  rc ← find_driver DRoot (byte_list "/");
  if rc <? 0 then mret (K_ENOSPC, None)
  else
    rc ← find_driver DCPU (byte_list "/cpus");
    if rc <? 0 then mret (K_ENOSPC, None)
    else
      s ← get;
      let syscpu := k_cpu (kn_dev s) in
      let f := GenericCPU.timebase_freq syscpu in
      modify (set_cpuclock (if f =? 0 then K_CONFIG_CPU_DEFAULT_CLOCK else f)) ≫= fun _ =>
      rc ← find_driver DMem (byte_list "/memory");
      if rc <? 0 then mret (K_ENOSPC, None)
      else
        let cpus := GenericCPU._cpus syscpu in
        r ← zoom kn_mach set_mach (setup_mmu memalign warl (GenericCPU.mmu <$> cpus) vid junk);
        let '(rc, o) := r in
        modify (set_sysmmu o) ≫= fun _ =>
        if negb (rc =? 0) then mret (rc, None)
        else
          rc ← setup_stacks (zlen cpus);
          if negb (rc =? 0) then mret (rc, None)
          else
            s ← get;
            mret (0, Some (u64 (k_stack_base s - s32 (hartid * K_CONFIG_STACK_SIZE)))).

(** [depth] bounds the recursion through aliases in the console's path. *)
Definition k_boot_perip (depth : nat) : M K Z :=
  modify (set_stage K_BOOT_PERIP) ≫= fun _ =>
  dev_op (DrvMgr.probe ops b (blob_fuel b) DEV_TYPE_PERIP 0) ≫= fun _ =>
  s ← get;
  let sysroot := k_root (kn_dev s) in
  let path := GenericRoot._stdout_path sysroot in
  (if bool_decide (path = []) then mret tt
   else
     r ← dev_op (getDrvByPath ops b depth path);
     match r with
     | (hdl, Some uart) => if hdl <? 0 then mret tt else modify (set_stdout (Some (uart, hdl)))
     | (_, None) => mret tt
     end) ≫= fun _ =>
  let rootfs := GenericRoot._initrd_path sysroot in
  if bool_decide (rootfs = []) then mret 0
  else
    rc ← zoom kn_vfs set_vfs (mount_rootfs rootfs);
    if rc <? 0 then mret rc else mret 0.

(** The console function set by [k_boot_perip]: the virtual function [write] of
    [DriverChar], which only the UART driver has. *)
Definition k_stdout (fuel : nat) (buf : list Z) (size : Z) : M K Z :=
  s ← get;
  match k_stdout_func s with
  | Some (DUart, hdl) => dev_op (zoom k_uart set_k_uart (Uart8250.write io fuel hdl buf size))
  | _ => fault
  end.
End Boot.

(** ** [k_boot_sysdev] *)
Section BootProps.
  Context {H heap : Type} (io : Mmio H) (b : region) (t : dt) (junk : Z).
  Context (memalign : Z -> Z -> heap -> Z * heap) (warl : Z -> Z -> Z) (vid : Z).
  Context (Ht : holds b t) (Hroot : d_name t = []).
  Local Abbreviation ops := (kops io b junk).

(** A device is installed on the node of a path. *)
Definition installed (s : kdev H) (path : list (list Z)) : bool :=
  match find_path t path with
  | Some k => bool_decide (is_Some (_devhdl (k_mgr s) !! d_off k))
  | None => false
  end.

Lemma find_driver_spec d comp path (s : kernel H heap) : hd 0 path = 47 -> split_path [] path = comp ->
  (forall k v, find_path t comp = Some k -> _devhdl (k_mgr (kn_dev s)) !! d_off k = Some v -> v.1.1 = d /\ 0 <= v.2) ->
  exists rc, find_driver io b junk d path s = Some (rc, s) /\ (rc <? 0) = negb (installed (kn_dev s) comp).
Proof.
  intros Hp Hs Hd. unfold find_driver, dev_op, zoom, mbind, M_bind, getDrvByPath.
  rewrite (path_offset_tree b (proj1 Ht) t path 0 Ht Hp), Hs. unfold path_result, installed, mbind, M_bind. cbn [lift].
  destruct s as [dv mc vf st ck sb mm so sw]. cbn [kn_dev] in *.
  destruct (find_path t comp) as [k|] eqn:Ek; [|by eexists].
  pose proof (find_path_within _ _ _ Ek) as Hw.
  destruct (off_sw b t Ht k Hw) as [_ [H0 _]]. destruct (Z.ltb_spec (d_off k) 0); [lia|]. cbn [get kops mgr_of].
  destruct (_devhdl (k_mgr dv) !! d_off k) as [[[d' rc] hd]|] eqn:Ev; cbn.
  - destruct (Hd k _ eq_refl Ev) as [Hd1 Hd2]. cbn in Hd1, Hd2. subst d'. destruct (Z.ltb_spec hd 0); [lia|].
    rewrite bool_decide_eq_true_2 by done. eexists. split; [done|]. done.
  - by eexists.
Qed.
Lemma root_path (s : kdev H) v : typed b s -> find_path t [] = Some t -> _devhdl (k_mgr s) !! d_off t = Some v -> v.1.1 = DRoot /\ 0 <= v.2.
Proof.
  intros Hs _ Hv. split; [|by apply (ty_devices _ _ Hs _ _ Hv)]. destruct Ht as (_ & H0 & _). rewrite H0 in Hv.
  by eapply (typed_root b t Ht Hroot).
Qed.

Lemma setup_mmu_invalid (m : mstate heap) cpus : ~ valid_sz (smallest_mmu cpus) ->
  exists rc, setup_mmu memalign warl cpus vid junk m = Some ((rc, None), m) /\ rc <> 0.
Proof.
  intros Hn. unfold setup_mmu. destruct (_ || _); [by eexists|]. unfold valid_sz in Hn.
  destruct (Z.eqb_spec (smallest_mmu cpus) 39); [tauto|]. destruct (Z.eqb_spec (smallest_mmu cpus) 48); [tauto|].
  destruct (Z.eqb_spec (smallest_mmu cpus) 57); [tauto|]. by eexists.
Qed.
End BootProps.

(** C2: The boot of the system devices. Assume a blob that holds a tree
    (with an empty root name), drivers in a state like the one registration
    leaves ([typed]), an allocator with room for 17
    page tables, and a satp register that reads back what is written for each
    of Sv39, Sv48 and Sv57. When probing returns, [k_boot_sysdev] returns too,
    and the drivers it finds at "/", "/cpus" and "/memory" are of the classes it
    uses them as. Its code is [K_ENOSPC] when one of the three nodes has no
    driver, and otherwise not 0 when the smallest MMU of the processors is not
    one of Sv39, Sv48 and Sv57. When it is one of them and there are fewer than
    64 processors, the code is 0: the clock is the tree's or the default, satp
    points to the direct map of the low 4 GiB and nothing else, and the hart's
    stack ends [hartid] stack sizes (a product of two [int]s) below the kernel. *)
Theorem k_boot_sysdev_correct {H heap} (io : Mmio H) b t junk (memalign : Z -> Z -> heap -> Z * heap) owns room
    `{!MemalignSpec memalign owns room} warl vid hartid s r d1 :
  holds b t -> d_name t = [] -> typed b (kn_dev s) -> is_uw 64 junk -> room (ms_heap (kn_mach s)) 17%nat ->
  (forall sz old v, valid_sz sz -> getf v 60 4 = mmutype sz -> warl old v = v) ->
  DrvMgr.probe (kops io b junk) b (blob_fuel b) DEV_TYPE_SYS 0 (kn_dev s) = Some (r, d1) ->
  let cpus := GenericCPU._cpus (k_cpu d1) in
  let sz := smallest_mmu (GenericCPU.mmu <$> cpus) in
  exists rc st s', k_boot_sysdev io b junk memalign warl vid hartid s = Some ((rc, st), s') /\ kn_dev s' = d1 /\
    if installed t d1 [] && installed t d1 [byte_list "cpus"] && installed t d1 [byte_list "memory"] then
      (~ valid_sz sz -> rc <> 0) /\
      (valid_sz sz -> zlen cpus < 64 ->
        rc = 0 /\ st = Some (u64 (K_START_STACK_ADDR - s32 (hartid * K_CONFIG_STACK_SIZE))) /\
        k_cpuclock s' = (let f := GenericCPU.timebase_freq (k_cpu d1) in if f =? 0 then K_CONFIG_CPU_DEFAULT_CLOCK else f) /\
        getf (ms_satp (kn_mach s')) 60 4 = mmutype sz /\
        forall va, translate sz (ms_mem (kn_mach s')) (4096 * getf (ms_satp (kn_mach s')) 0 44) va =
          if (K_VADDR_BASE <=? va) && (va <? K_VADDR_BASE + 2 ^ 32) then Some (va - K_VADDR_BASE, 23) else None)
    else rc = K_ENOSPC.
Proof.
  intros Ht Hroot Hty Hj Hroom Hwarl Ep cpus sz. pose proof (probe_typed io b junk _ _ _ _ _ Hty Ep) as Hty1.
  set (s1 := set_dev d1 (set_stage K_BOOT s)).
  assert (Hchild : forall comp k v, find_path t [comp] = Some k -> _devhdl (k_mgr d1) !! d_off k = Some v ->
    (comp = byte_list "memory" -> v.1.1 = DMem /\ 0 <= v.2) /\ (comp = byte_list "cpus" -> v.1.1 = DCPU /\ 0 <= v.2)).
  { intros comp k v Hk Hv. destruct (typed_child b t Ht d1 comp k v Hty1 Hk Hv) as [H1 H2].
    destruct (ty_devices _ _ Hty1 _ _ Hv) as [_ Hh]. split; intros E; (split; [by auto|done]). }
  destruct (find_driver_spec io b t junk Ht DRoot [] (byte_list "/") s1 eq_refl eq_refl) as (rc1 & E1 & I1).
  { intros k v [= <-]. by apply (root_path b t Ht Hroot). }
  unfold k_boot_sysdev, modify, mbind, M_bind. unfold dev_op at 1, zoom at 1. cbn [kn_dev set_stage]. rewrite Ep. fold s1.
  rewrite E1, I1. cbn [kn_dev s1 set_dev]. destruct (installed t d1 []); cbn [negb andb]; [|by do 3 eexists].
  destruct (find_driver_spec io b t junk Ht DCPU [byte_list "cpus"] (byte_list "/cpus") s1 eq_refl eq_refl) as (rc2 & E2 & I2).
  { intros k v Hk Hv. by apply (Hchild _ k v Hk Hv). }
  rewrite E2, I2. cbn [kn_dev s1 set_dev]. destruct (installed t d1 [byte_list "cpus"]); cbn [negb andb]; [|by do 3 eexists].
  unfold get. set (s2 := set_cpuclock _ s1).
  destruct (find_driver_spec io b t junk Ht DMem [byte_list "memory"] (byte_list "/memory") s2 eq_refl eq_refl) as (rc3 & E3 & I3).
  { intros k v Hk Hv. by apply (Hchild _ k v Hk Hv). }
  rewrite E3, I3. cbn [kn_dev s2 s1 set_dev set_cpuclock]. destruct (installed t d1 [byte_list "memory"]); cbn [negb andb]; [|by do 3 eexists].
  unfold zoom. fold cpus. destruct (decide (valid_sz sz)) as [Hsz|Hsz].
  - destruct (boot_direct_map memalign owns room warl (GenericCPU.mmu <$> cpus) vid junk (kn_mach s) Hsz Hj Hroom) as (o & v & m' & E & _ & Hmode & Htr).
    { intros old v. by apply Hwarl. }
    cbn [kn_mach s2 s1 set_dev set_cpuclock set_stage]. rewrite E. cbn [Z.eqb negb]. unfold setup_stacks.
    pose proof (zlen_nonneg cpus) as Hn0. destruct (Z.ltb_spec (u64 (zlen cpus * K_CONFIG_STACK_SIZE)) (512 * 1024)) as [_|Hge].
    + unfold modify, mbind, M_bind, mret, M_ret. do 3 eexists. split; [reflexivity|]. split; [reflexivity|]. split; [done|]. intros _ _. split_and!; [done|done|done|exact Hmode|exact Htr].
    + unfold modify, mbind, M_bind, mret, M_ret, get, put. destruct (memalign 4096 _ _) as [p h]. assert (~ zlen cpus < 64) as Hbig.
      { intros Hn. rewrite uw_small in Hge by (unfold is_uw; change K_CONFIG_STACK_SIZE with 8192; lia). change K_CONFIG_STACK_SIZE with 8192 in Hge. lia. }
      destruct (p =? 0); (do 3 eexists; split; [reflexivity|]; split; [reflexivity|]; split; [done|]; intros _ Hn; lia).
  - destruct (setup_mmu_invalid junk memalign warl vid (kn_mach s) (GenericCPU.mmu <$> cpus) Hsz) as (rc & E & Hrc).
    cbn [kn_mach s2 s1 set_dev set_cpuclock set_stage]. rewrite E. destruct (Z.eqb_spec rc 0); [done|]. cbn [negb].
    do 3 eexists. split; [reflexivity|]. split; [reflexivity|]. split; [done|]. done.
Qed.
