(* ===== verification/BootSample.v ===== *)
(** A device tree of a small board, and the kernel booting on it: the concrete
    inputs of the theorems on the drivers and on the boot. *)
From S2P Require Import Prelude KDefs Bytes Fdt FdtRo FdtSafe FdtRoSafe FdtProps FdtHelper FdtTree FdtPath FdtReg.
From S2P Require Import CpioFs DrvMgr Sched Uart SysDrv SysProps KernelDev RootProps Mmu MmuSpec MmuMap MmuProps.
From S2P Require Import Vmm Lock Vfs KernelFs Sbi Boot.

(** ** The tree *)
Definition prop_names : list string :=
  ["#address-cells"; "#size-cells"; "reg"; "compatible"; "model"; "stdout-path"; "linux,initrd-start"; "linux,initrd-end";
   "bootargs"; "timebase-frequency"; "riscv,isa"; "mmu-type"; "clock-frequency"]%string.
Fixpoint off_in (l : list string) (name : string) : Z :=
  match l with
  | [] => 0
  | s :: l => if String.eqb s name then 0 else zlen (byte_list s) + 1 + off_in l name
  end.
Definition tk (name : string) (val : list Z) : list Z := tk_prop (off_in prop_names name) val.
Definition txt (s : string) : list Z := byte_list s ++ [0].

(** A board whose console is at the path [console]. *)
Definition mk_board (console : string) : region := Region 0x1000 (mk_fdt
  (tk_begin [] ++ tk "#address-cells" (cells [1]) ++ tk "#size-cells" (cells [1]) ++ tk "model" (txt "board") ++
   tk_begin (byte_list "chosen") ++ tk "stdout-path" (txt console) ++ tk "linux,initrd-start" (cells [0x84000000]) ++
     tk "linux,initrd-end" (cells [0x84001000]) ++ tk "bootargs" (txt "-use-scheduler-none") ++ tk_end_node ++
   tk_begin (byte_list "cpus") ++ tk "#address-cells" (cells [1]) ++ tk "#size-cells" (cells [0]) ++
     tk "timebase-frequency" (cells [10000]) ++
     tk_begin (byte_list "cpu@0") ++ tk "reg" (cells [0]) ++ tk "compatible" (txt "riscv") ++
       tk "riscv,isa" (txt "rv64imac") ++ tk "mmu-type" (txt "riscv,sv39") ++ tk_end_node ++
     tk_end_node ++
   tk_begin (byte_list "memory@80000000") ++ tk "reg" (cells [0x80000000; 0x8000000; 0x90000000; 0x1000]) ++ tk_end_node ++
   tk_begin (byte_list "uart@10000000") ++ tk "compatible" (txt "ns16550a") ++ tk "reg" (cells [0x10000000; 0x100]) ++
     tk "clock-frequency" (cells [3686400]) ++ tk_end_node ++
   tk_end_node ++ tk_end)
  (prop_names ≫= txt) ++ replicate 48 0).

Definition board : region := mk_board "/uart@10000000".

Lemma board_ok : blob_ok board.
Proof. concrete_blob_ok. Qed.
Lemma board_readable : readable board.
Proof. split; [exact board_ok|vm_compute; congruence..]. Qed.

Definition board_tree : dt := Eval vm_compute in default (DNode 0 [] [] []) (the_tree board).
Definition board_node (path : list (list Z)) : dt := default board_tree (find_path board_tree path).
Lemma board_holds : holds board board_tree.
Proof. apply the_tree_holds; [exact board_readable|vm_compute; reflexivity]. Qed.

(** ** The drivers *)
Definition hw0 : UartProps.sim := UartProps.Sim [] [] 0.
Definition dev0 : kdev UartProps.sim :=
  match register_drivers UartProps.sim_io board 0 (k_init hw0) with Some (_, s) => s | None => k_init hw0 end.
Definition board_ops : DriverBase drv (kdev UartProps.sim) := kops UartProps.sim_io board 0.

Definition board_probe : option (Z * kdev UartProps.sim) := probe board_ops board (blob_fuel board) DEV_TYPE_SYS 0 dev0.
Definition dev1 : kdev UartProps.sim := default dev0 (snd <$> board_probe).

Lemma board_probe_eq : board_probe = Some (0, dev1).
Proof. vm_compute. reflexivity. Qed.

Lemma probe_is_preorder_witness : probe board_ops board (blob_fuel board) DEV_TYPE_SYS 0 dev0 = visit board_ops board DEV_TYPE_SYS board_tree dev0.
Proof. apply (probe_is_preorder board_ops board board_tree board_tree DEV_TYPE_SYS dev0 board_holds). apply within_here. Defined.

(** A manager with one driver that takes the node "soc" and keeps no state. *)
Definition soc_ops : DriverBase unit (manager unit) := {|
  getDeviceType := fun _ => DEV_TYPE_SYS;
  drv_probe := fun _ name _ => Some (if bool_decide (name = byte_list "soc") then DRV_CAP_COVER else DRV_CAP_NONE);
  addDevice := fun _ _ => mret 7;
  mgr_of := id; set_mgr := fun g _ => g |}.

Lemma probe_terminates_witness : exists rc s', probe soc_ops soc_blob (blob_fuel soc_blob) DEV_TYPE_SYS 0 (Manager [tt] ∅) = Some (rc, s').
Proof.
  apply (probe_terminates soc_ops soc_blob DEV_TYPE_SYS 0 (Manager [tt] ∅) soc_blob_ok).
  - vm_compute. reflexivity.
  - intros d name compatible. eexists. reflexivity.
  - intros d node s _ _. eexists. reflexivity.
  - split; vm_compute; congruence.
  - lia.
Defined.

(** ** The nodes of the board *)
Definition board_memory : dt := Eval vm_compute in board_node [byte_list "memory"].
Definition board_cpus : dt := Eval vm_compute in board_node [byte_list "cpus"].
Definition board_cpu : dt := Eval vm_compute in board_node [byte_list "cpus"; byte_list "cpu"].
Definition board_chosen : dt := Eval vm_compute in board_node [byte_list "chosen"].

Lemma board_memory_kid : board_memory ∈ d_kids board_tree.
Proof. right. right. left. Qed.
Lemma board_cpus_kid : board_cpus ∈ d_kids board_tree.
Proof. right. left. Qed.
Lemma board_cpu_kid : board_cpu ∈ d_kids board_cpus.
Proof. left. Qed.

(** Deciding statements over all nodes of a tree. *)
Fixpoint all_nodes (t : dt) : list dt := match t with DNode _ _ _ ks => t :: (ks ≫= all_nodes) end.
Lemma all_nodes_within s t : within s t -> s ∈ all_nodes t.
Proof.
  induction 1 as [|k t Hk _ IH]; [destruct s; left|]. destruct t as [o n ps ks]. cbn in *. right.
  apply list_elem_of_bind. by exists k.
Qed.

Definition identity_bus_b (s : dt) : bool :=
  (1 <=? tree_address_cells s) && (0 <=? tree_size_cells s) &&
  match find_prop (byte_list "ranges") (d_props s) with Some p => bool_decide (p_val p = []) | None => true end.
Lemma identity_bus_b_ok s : identity_bus_b s = true -> identity_bus s.
Proof.
  unfold identity_bus_b, identity_bus. rewrite !andb_true_iff, !Z.leb_le. intros [[? ?] Hr]. split_and!; [done|done|].
  destruct (find_prop _ _); [|done]. by apply bool_decide_eq_true in Hr.
Qed.

Lemma board_buses q : within q board_tree -> identity_bus_b q = true.
Proof.
  intros Hq. apply all_nodes_within in Hq. assert (Forall (fun q => identity_bus_b q = true) (all_nodes board_tree)) as HF.
  { apply (bool_decide_unpack _). vm_compute. exact I. }
  rewrite Forall_forall in HF. by apply HF.
Qed.
Lemma board_identity p q : within p q -> within q board_tree -> identity_bus q.
Proof. intros _ Hq. by apply identity_bus_b_ok, board_buses. Qed.

(** ** Witnesses *)
Lemma board_mem_reached : reached board_ops board DEV_TYPE_SYS k_drivers board_memory board_tree.
Proof.
  eapply reached_kid; [|exact board_memory_kid|apply reached_here]. exists (Some (DRoot, DRV_CAP_THIS)). split; [vm_compute; reflexivity|].
  intros d rc E. injection E as <- <-. vm_compute. congruence.
Qed.

Lemma probe_installs_witness : is_Some (_devhdl (mgr_of board_ops dev1) !! d_off board_memory).
Proof.
  destruct (probe_installs board_ops board board_tree DEV_TYPE_SYS board_memory DMem DRV_CAP_COVER dev0 0 dev1 board_holds) as [Hi _].
  - exact board_mem_reached.
  - vm_compute. reflexivity.
  - apply mem_accepts.
  - intros n v Hv. exfalso. revert Hv. change (_devhdl (mgr_of board_ops dev0)) with (∅ : gmap Z (drv * Z * Z)). by rewrite lookup_empty.
  - exact board_probe_eq.
  - exact Hi.
Defined.

Lemma mem_addDevice_terminates_witness : exists s', GenericMem.addDevice board (0, 0) 332 GenericMem.init = Some (0, s').
Proof.
  destruct (mem_addDevice_terminates board (0, 0) 332 GenericMem.init board_ok) as (s' & E & _).
  - vm_compute. congruence.
  - vm_compute. congruence.
  - split; vm_compute; congruence.
  - do 2 eexists. vm_compute. reflexivity.
  - exists s'. exact E.
Defined.

Lemma mem_addDevice_decodes_witness : GenericMem.addDevice board (0, 0) 332 GenericMem.init =
  Some (0, GenericMem.Mem [] [(0x80000000, 0x8000000); (0x90000000, 0x1000)] true).
Proof.
  apply (mem_addDevice_decodes board board_tree board_memory board_tree
    (PItem 352 (byte_list "reg") (cells [0x80000000; 0x8000000; 0x90000000; 0x1000])) 2 (0, 0) GenericMem.init board_holds).
  - apply within_here.
  - exact board_memory_kid.
  - apply board_identity.
  - vm_compute. reflexivity.
  - vm_compute. reflexivity.
  - vm_compute. congruence.
  - vm_compute. congruence.
Defined.

Lemma cpu_addDevice_decodes_witness : GenericCPU.addDevice board 0 228 GenericCPU.init =
  Some (0, GenericCPU.Cpus 0 [GenericCPU.Cpu 0 true 64 39 (byte_list "imac")] 1).
Proof.
  apply (cpu_addDevice_decodes board board_tree board_cpu board_cpus (PItem 240 (byte_list "reg") (cells [0]))
    (byte_list "rv64imac") (txt "riscv,sv39") 54 true 39 0 GenericCPU.init board_holds).
  - eapply within_kid; [exact board_cpus_kid|apply within_here].
  - exact board_cpu_kid.
  - apply board_identity.
  - vm_compute. congruence.
  - vm_compute. congruence.
  - vm_compute. reflexivity.
  - vm_compute. congruence.
  - vm_compute. reflexivity.
  - apply (bool_decide_unpack _). vm_compute. exact I.
  - vm_compute. congruence.
  - reflexivity.
  - right. reflexivity.
  - vm_compute. reflexivity.
  - vm_compute. reflexivity.
  - vm_compute. reflexivity.
Defined.

Lemma root_addDevice_witness : exists k', k_addDevice UartProps.sim_io board 0 DRoot 0 dev0 = Some (0, k') /\
  CPIOFS.parse_device (GenericRoot._initrd_path (k_root k')) = Some (0xFFFFFFC084000000, 0x1000).
Proof.
  pose proof (root_addDevice_correct UartProps.sim_io board board_tree 0 dev0 board_holds ltac:(vm_compute; reflexivity) ltac:(vm_compute; reflexivity) ltac:(vm_compute; reflexivity)) as G.
  assert (find_path board_tree [byte_list "chosen"] = Some board_chosen) as E by (vm_compute; reflexivity). rewrite E in G.
  destruct G as (k' & Ek & _ & _ & Hp & _). exists k'. split; [exact Ek|].
  assert (node_value board_chosen "linux,initrd-start" = 0x84000000) as E1 by (vm_compute; reflexivity).
  assert (node_value board_chosen "linux,initrd-end" = 0x84001000) as E2 by (vm_compute; reflexivity).
  rewrite E1, E2 in Hp. apply Hp; [lia|vm_compute; reflexivity].
Defined.

Lemma dev0_typed : typed board dev0.
Proof.
  split; [reflexivity| |].
  - intros n v. change (_devhdl (k_mgr dev0)) with (∅ : gmap Z (drv * Z * Z)). by rewrite lookup_empty.
  - intros d. vm_compute. congruence.
Qed.

Definition kernel0 : kernel UartProps.sim Z := Kernel dev0 Bump.init vfs_init K_BEFORE_BOOT 0 0 None None false.

Lemma k_boot_sysdev_witness : exists s', k_boot_sysdev UartProps.sim_io board 0 Bump.memalign (fun _ v => v) 0 0 kernel0 =
    Some ((0, Some K_START_STACK_ADDR), s') /\ k_cpuclock s' = 10000.
Proof.
  destruct (k_boot_sysdev_correct UartProps.sim_io board board_tree 0 Bump.memalign Bump.owns Bump.room (fun _ v => v) 0 0 kernel0 0 dev1 board_holds)
    as (rc & st & s' & E & _ & HR).
  - reflexivity.
  - exact dev0_typed.
  - split; vm_compute; congruence.
  - vm_compute. split; [discriminate|]. split; [reflexivity|discriminate].
  - reflexivity.
  - exact board_probe_eq.
  - assert (installed board_tree dev1 [] && installed board_tree dev1 [byte_list "cpus"] && installed board_tree dev1 [byte_list "memory"] = true) as Hi
      by (vm_compute; reflexivity).
    rewrite Hi in HR. destruct HR as [_ HR]. destruct HR as (-> & -> & Hc & _); [vm_compute; left; reflexivity|vm_compute; reflexivity|].
    exists s'. split; [exact E|]. rewrite Hc. vm_compute. reflexivity.
Defined.

(** ** The console *)

(** The peripherals after the system devices, without the page tables. *)
Definition boot_console (b : region) : option (Z * kernel UartProps.sim Z) :=
  d0 ← register_drivers UartProps.sim_io b 0 (k_init hw0);
  d1 ← DrvMgr.probe (kops UartProps.sim_io b 0) b (blob_fuel b) DEV_TYPE_SYS 0 (snd d0);
  k_boot_perip UartProps.sim_io b 0 1 (Kernel (snd d1) Bump.init vfs_init K_BOOT 0 0 None None false).

(** The console of a board whose "stdout-path" names its UART is that UART: what
    is written goes out there. When the path names a device of another class,
    [k_boot_perip] takes its driver for a character device all the same, and
    the first write calls a function the driver does not have. *)
Theorem stdout_class_unchecked :
  (exists k, snd <$> boot_console board = Some k /\ k_stdout_func k = Some (DUart, 1) /\
     exists k', k_stdout UartProps.sim_io 8 (byte_list "Hi") 2 k = Some (2, k') /\
       Some (byte_list "Hi") = (fun l => drop (length l - 2) l) <$> Some (UartProps.sim_sent (Uart8250.hw (k_uart (kn_dev k'))))) /\
  (exists k, snd <$> boot_console (mk_board "/memory") = Some k /\ k_stdout_func k = Some (DMem, 0) /\
     forall fuel buf size, k_stdout UartProps.sim_io fuel buf size k = None).
Proof.
  split.
  - eexists. split; [vm_compute; reflexivity|]. split; [vm_compute; reflexivity|]. eexists. split; vm_compute; reflexivity.
  - eexists. split; [vm_compute; reflexivity|]. split; [vm_compute; reflexivity|]. reflexivity.
Qed.
