(* ===== verification/Harts.v ===== *)
(** The harts: [k_boot_harts] and [k_before_cleanup] of
    src/kernel/main/k_boot.cpp on the first hart, [k_pre_main] and [k_after_main]
    of src/kernel/main/k_main.cpp on every hart, in the order in which
    src/kernel/main/prepC.S calls them, as interleaved steps: one step per
    access to [k_hart_state] or [k_stage], or per answer of the firmware. Each
    hart has its own copy of the thread-local [hartid]. *)
From stdpp Require Import relations functions.
From S2P Require Import Prelude KDefs Lock.

(** Where a hart is between its start and its stop. *)
Inductive hart_pc :=
  | HOff      (** stopped, not started yet *)
  | HEntry    (** started, before the test of its state *)
  | HTimer    (** its state was 1; before the test of the timer *)
  | HFailed   (** the timer could not be set; before the store of 3 *)
  | HReady    (** before the store of 2 *)
  | HSpin     (** waits for K_MULTICORE *)
  | HMain     (** in [k_main] *)
  | HAfter    (** in [k_after_main], before the store of 3 *)
  | HGone.    (** returned from [k_pre_main] with an error, or from [k_after_main] *)

(** Where the first hart is; [rest] are the hart numbers still to be handled. *)
Inductive boot_pc :=
  | BHarts (rest : list Z)              (** the loop of [k_boot_harts] *)
  | BPreset (i : Z) (rest : list Z)     (** the state is 1; before [startHart] *)
  | BFailed (i : Z) (rest : list Z)     (** [startHart] failed; before the store of 0 *)
  | BWait (i : Z) (rest : list Z)       (** waits for the hart *)
  | BTimeout (i : Z) (rest : list Z)    (** gave up; before the store of 0 *)
  | BStage                              (** its own state is 1; before the store of K_MULTICORE *)
  | BRun (pc : hart_pc)                 (** runs [k_pre_main], [k_main], [k_after_main] *)
  | BScan (i : Z)                       (** the loop of [k_before_cleanup], at index [i] *)
  | BEnd.                               (** after the store of K_CLEARUP *)

#[export] Instance hart_pc_eq_dec : EqDecision hart_pc.
Proof. solve_decision. Defined.
#[export] Instance boot_pc_eq_dec : EqDecision boot_pc.
Proof. solve_decision. Defined.

Record hstate := HState {
  k_hart_state : Z -> Z;
  stage : Z;
  first : boot_pc;
  hart : Z -> hart_pc;
  hartid : Z -> Z;    (** the thread-local variable on each hart *)
}.

Section Harts.
  (** The number of the first hart and the numbers the device tree gives. *)
  Context (boot_hartid : Z) (cpus : list Z).
  (** The firmware: which harts it reports as stopped before the kernel has started
      them, which it agrees to start, and on which the timer can be set. *)
  Context (stopped starts timer : Z -> bool).

Definition harts_init : hstate := HState (fun _ => 0) K_BOOT_HARTS (BHarts cpus) (fun _ => HOff) (fun _ => 0).

(** [k_pre_main(h)]: [x] is the hart's state, [st] the stage; the last argument is
    what it stores into [k_hart_state], with the index. The hart sets its
    [hartid] on the way to [HReady]. *)
Inductive pre_main_step (h x st : Z) : hart_pc -> hart_pc -> option (Z * Z) -> Prop :=
  | p_go : x = 1 -> pre_main_step h x st HEntry HTimer None
  | p_unwanted : x <> 1 -> pre_main_step h x st HEntry HGone None
  | p_timer_ok : timer h = true -> pre_main_step h x st HTimer HReady None
  | p_timer_bad : timer h = false -> pre_main_step h x st HTimer HFailed None
  | p_failed : pre_main_step h x st HFailed HGone (Some (h, 3))
  | p_ready : pre_main_step h x st HReady HSpin (Some (h, 2))
  | p_multicore : st = K_MULTICORE -> pre_main_step h x st HSpin HMain None.

(** [k_main] returns, and [k_after_main], which uses the thread-local [hartid]. *)
Inductive after_main_step (id : Z) : hart_pc -> hart_pc -> option (Z * Z) -> Prop :=
  | a_return : after_main_step id HMain HAfter None
  | a_after : after_main_step id HAfter HGone (Some (id, 3)).

Definition hart_step (h x id st : Z) (p p' : hart_pc) (w : option (Z * Z)) : Prop :=
  pre_main_step h x st p p' w \/ after_main_step id p p' w.

Definition store (w : option (Z * Z)) (f : Z -> Z) : Z -> Z := match w with Some (i, v) => <[i := v]> f | None => f end.
(** [::hartid = hartid] *)
Definition set_id (h : Z) (p' : hart_pc) (f : Z -> Z) : Z -> Z := match p' with HReady => <[h := h]> f | _ => f end.

(** [k_boot_harts]. A hart that the kernel has not started is stopped as the
    firmware says; one that has returned stops some time later, and its
    thread-local data is cleared when it is started again. An index outside
    the array is not handled. [late] says whether the wait for a hart may run
    out of time. *)
Inductive boot_harts_step (late : bool) (s : hstate) : hstate -> Prop :=
  | b_skip i rest : first s = BHarts (i :: rest) -> i = boot_hartid \/ stopped i = false \/ hart s i <> HOff ->
      boot_harts_step late s (HState (k_hart_state s) (stage s) (BHarts rest) (hart s) (hartid s))
      (** the first hart itself, an invalid hart, or one that is not stopped *)
  | b_preset i rest : first s = BHarts (i :: rest) -> i <> boot_hartid -> stopped i = true -> hart s i = HOff \/ hart s i = HGone ->
      0 <= i < K_CONFIG_MAX_PROCESSORS ->
      boot_harts_step late s (HState (<[i := 1]> (k_hart_state s)) (stage s) (BPreset i rest) (hart s) (hartid s))
  | b_start i rest : first s = BPreset i rest -> starts i = true ->
      boot_harts_step late s (HState (k_hart_state s) (stage s) (BWait i rest) (<[i := HEntry]> (hart s)) (<[i := 0]> (hartid s)))
  | b_start_fails i rest : first s = BPreset i rest -> starts i = false ->
      boot_harts_step late s (HState (k_hart_state s) (stage s) (BFailed i rest) (hart s) (hartid s))
  | b_failed i rest : first s = BFailed i rest ->
      boot_harts_step late s (HState (<[i := 0]> (k_hart_state s)) (stage s) (BHarts rest) (hart s) (hartid s))
  | b_up i rest : first s = BWait i rest -> 2 <= k_hart_state s i ->
      boot_harts_step late s (HState (k_hart_state s) (stage s) (BHarts rest) (hart s) (hartid s))
  | b_late i rest : late = true -> first s = BWait i rest -> k_hart_state s i < 2 ->
      boot_harts_step late s (HState (k_hart_state s) (stage s) (BTimeout i rest) (hart s) (hartid s))
  | b_timeout i rest : first s = BTimeout i rest ->
      boot_harts_step late s (HState (<[i := 0]> (k_hart_state s)) (stage s) (BHarts rest) (hart s) (hartid s))
  | b_mark : first s = BHarts [] ->
      boot_harts_step late s (HState (<[boot_hartid := 1]> (k_hart_state s)) (stage s) BStage (hart s) (hartid s))
  | b_multicore : first s = BStage ->
      boot_harts_step late s (HState (k_hart_state s) K_MULTICORE (BRun HEntry) (hart s) (hartid s)).

(** [k_before_cleanup], which the first hart runs: it leaves out the number its
    thread-local [hartid] holds. *)
Inductive before_cleanup_step (s : hstate) : hstate -> Prop :=
  | c_skip : first s = BRun HGone -> stage s <> K_MULTICORE ->
      before_cleanup_step s (HState (k_hart_state s) K_CLEARUP BEnd (hart s) (hartid s))
  | c_begin : first s = BRun HGone -> stage s = K_MULTICORE -> before_cleanup_step s (HState (k_hart_state s) (stage s) (BScan 0) (hart s) (hartid s))
  | c_busy i : first s = BScan i -> i < K_CONFIG_MAX_PROCESSORS -> i <> hartid s boot_hartid -> k_hart_state s i = 1 \/ k_hart_state s i = 2 ->
      before_cleanup_step s (HState (k_hart_state s) (stage s) (BScan 0) (hart s) (hartid s))
  | c_next i : first s = BScan i -> i < K_CONFIG_MAX_PROCESSORS -> i = hartid s boot_hartid \/ (k_hart_state s i <> 1 /\ k_hart_state s i <> 2) ->
      before_cleanup_step s (HState (k_hart_state s) (stage s) (BScan (i + 1)) (hart s) (hartid s))
  | c_end i : first s = BScan i -> K_CONFIG_MAX_PROCESSORS <= i ->
      before_cleanup_step s (HState (k_hart_state s) K_CLEARUP BEnd (hart s) (hartid s)).

Inductive step (late : bool) (s : hstate) : hstate -> Prop :=
  | st_boot s' : boot_harts_step late s s' -> step late s s'
  | st_cleanup s' : before_cleanup_step s s' -> step late s s'
  | st_first p p' w : first s = BRun p -> hart_step boot_hartid (k_hart_state s boot_hartid) (hartid s boot_hartid) (stage s) p p' w ->
      step late s (HState (store w (k_hart_state s)) (stage s) (BRun p') (hart s) (set_id boot_hartid p' (hartid s)))
  | st_hart h p' w : h <> boot_hartid -> hart_step h (k_hart_state s h) (hartid s h) (stage s) (hart s h) p' w ->
      step late s (HState (store w (k_hart_state s)) (stage s) (first s) (<[h := p']> (hart s)) (set_id h p' (hartid s))).

(** ** The invariant, when no wait runs out of time *)

(** What the state of another hart tells about it; [pre] says whether the first
    hart is about to start it. *)
Definition hart_ok (pre : bool) (x : Z) (p : hart_pc) : Prop :=
  match p with
  | HOff => x = if pre then 1 else 0
  | HEntry | HTimer | HReady | HFailed => x = 1 /\ pre = false
  | HSpin | HMain | HAfter => x = 2 /\ pre = false
  | HGone => if pre then x = 1 else x = 3 \/ x = 0
  end.

(** Between the store to [hartid] and the end. *)
Definition named (p : hart_pc) : bool := match p with HReady | HSpin | HMain | HAfter => true | _ => false end.

Definition starting (b : boot_pc) (h : Z) : bool :=
  match b with BPreset i _ | BFailed i _ => bool_decide (h = i) | _ => false end.
Definition rest_of (b : boot_pc) : list Z :=
  match b with BHarts r | BPreset _ r | BFailed _ r | BWait _ r | BTimeout _ r => r | _ => [] end.

Definition idle (p : hart_pc) : Prop := p = HOff \/ p = HGone.
Definition in_range (i : Z) : Prop := 0 <= i < K_CONFIG_MAX_PROCESSORS.

(** The first hart from its [k_pre_main] on: its state, and that it has its number
    unless its timer could not be set. *)
Definition first_ok (s : hstate) : Prop :=
  let x := k_hart_state s boot_hartid in let n := hartid s boot_hartid in
  match first s with
  | BStage => x = 1
  | BRun HGone | BScan _ | BEnd => x = 3 /\ (n = boot_hartid \/ (n = 0 /\ timer boot_hartid = false))
  | BRun p => hart_ok false x p /\ p <> HOff /\ (named p = true -> n = boot_hartid) /\ (named p = false -> n = 0) /\ (p = HFailed -> timer boot_hartid = false)
  | _ => True
  end.

Record hinv (s : hstate) : Prop := {
  hi_harts : forall h, h <> boot_hartid -> hart_ok (starting (first s) h) (k_hart_state s h) (hart s h);
  hi_ids : forall h, h <> boot_hartid -> named (hart s h) = true -> hartid s h = h;
  hi_pre : forall i rest, first s = BPreset i rest \/ first s = BFailed i rest -> i <> boot_hartid /\ idle (hart s i) /\ in_range i;
  hi_wait : forall i rest, first s = BWait i rest -> i <> boot_hartid /\ hart s i <> HOff /\ 1 <= k_hart_state s i;
  hi_late : forall i rest, first s <> BTimeout i rest;
  hi_scan : forall i, first s = BScan i -> forall h, 0 <= h < i -> h <> boot_hartid -> h <> hartid s boot_hartid -> idle (hart s h);
  hi_end : first s = BEnd -> forall h, in_range h -> h <> boot_hartid -> h <> hartid s boot_hartid -> idle (hart s h);
  hi_stage : match first s with BRun _ | BScan _ => stage s = K_MULTICORE | BEnd => stage s = K_CLEARUP | _ => stage s = K_BOOT_HARTS end;
  hi_first : first_ok s;
  hi_zero : match first s with BHarts _ | BPreset _ _ | BFailed _ _ | BWait _ _ | BTimeout _ _ | BStage => hartid s boot_hartid = 0 | _ => True end;
  hi_main : forall h, hart s h = HMain \/ hart s h = HAfter -> stage s = K_MULTICORE \/ stage s = K_CLEARUP;
  hi_far : forall h, hart s h <> HOff -> in_range h;
  hi_rest : exists l, cpus = l ++ rest_of (first s);
}.

Lemma hinv_init : hinv harts_init.
Proof. split; try done; [by intros i rest [|]|by intros h [|]|by exists []]. Qed.

Lemma insert_hart (f : Z -> hart_pc) h p h' : <[h := p]> f h' = if decide (h' = h) then p else f h'.
Proof. destruct (decide (h' = h)) as [->|]; [by rewrite fn_lookup_insert|by rewrite fn_lookup_insert_ne]. Qed.
Lemma insert_state (f : Z -> Z) h x h' : <[h := x]> f h' = if decide (h' = h) then x else f h'.
Proof. destruct (decide (h' = h)) as [->|]; [by rewrite fn_lookup_insert|by rewrite fn_lookup_insert_ne]. Qed.
Lemma set_id_ne h h' p f : h' <> h -> set_id h p f h' = f h'.
Proof. intros Hn. destruct p; try done. cbn. by rewrite fn_lookup_insert_ne. Qed.
Lemma set_id_ready h p f : named p = true -> f h = h -> set_id h p f h = h.
Proof. intros _ E. destruct p; try done. cbn. by rewrite fn_lookup_insert. Qed.

(** One step of a hart keeps its part of the invariant, and stores only into its own
    state. *)
Lemma hart_ok_step h x id st p p' w : hart_ok false x p -> (named p = true -> id = h) -> hart_step h x id st p p' w ->
  hart_ok false (match w with Some (_, v) => v | None => x end) p' /\ p <> HOff /\ p' <> HOff /\ (idle p -> idle p') /\
  match w with Some (i, v) => i = h /\ 1 <= v | None => True end /\ (named p' = true -> p' = HReady \/ named p = true) /\ p <> HGone.
Proof.
  unfold idle. intros Hok Hid [Hs|Hs]; inversion Hs; subst; cbn in *; split_and!; try done; try lia; try tauto; try (intros [?|?]; done); try (by apply Hid); auto.
Qed.

Lemma idle_no_step h x id st p p' w : idle p -> ~ hart_step h x id st p p' w.
Proof. intros [->| ->] [Hs|Hs]; inversion Hs. Qed.

Lemma rest_tail i rest : (exists l, cpus = l ++ i :: rest) -> exists l, cpus = l ++ rest.
Proof. intros [l ->]. exists (l ++ [i]). by rewrite <- app_assoc. Qed.

(** The moves of the first hart in [k_boot_harts]. *)
Lemma hinv_boot s s' : hinv s -> boot_harts_step false s s' -> hinv s'.
Proof.
  intros [Hh Hids Hp Hw Hl Hsc He Hst Hfi Hz Hmain Hf Hre] Hstep.
  inversion Hstep as [i rest E Hs|i rest E Hi Hs Hoff Hr|i rest E Hs|i rest E Hs|i rest E|i rest E Hx|i rest ? E|i rest E|E|E]; subst; try done;
    unfold first_ok in *; rewrite E in *; try (by exfalso; eapply Hl);
    try (destruct (Hp i rest ltac:(auto)) as (Hib & Hio & Hir)); split; unfold first_ok; cbn [first hart k_hart_state stage hartid rest_of]; try done; try (by intros ? ? [|]);
    try (by apply (rest_tail i));
    try (intros h Hhb; specialize (Hh h Hhb); cbn [starting] in Hh |- * ).
  - rewrite insert_state. destruct (decide (h = i)) as [->|Hne]; [rewrite bool_decide_eq_true_2 by done; by destruct Hoff as [-> | ->]|by rewrite bool_decide_eq_false_2].
  - intros j r [[= <- <-]|[=]]. done.
  - rewrite insert_hart. destruct (decide (h = i)) as [->|Hne].
    + rewrite bool_decide_eq_true_2 in Hh by done. by destruct Hio as [E1|E1]; rewrite E1 in Hh.
    + by rewrite bool_decide_eq_false_2 in Hh.
  - rewrite insert_hart, insert_state. destruct (decide (h = i)) as [->|Hne]; [done|by apply Hids].
  - intros j r [= <- <-]. split; [done|]. rewrite fn_lookup_insert. split; [done|]. specialize (Hh i Hib). cbn in Hh. rewrite bool_decide_eq_true_2 in Hh by done.
    destruct Hio as [E1|E1]; rewrite E1 in Hh; cbn in Hh; lia.
  - by rewrite insert_state, decide_False.
  - intros h. rewrite insert_hart. destruct (decide (h = i)) as [->|Hne]; [by intros [|]|apply Hmain].
  - intros h. rewrite insert_hart. destruct (decide (h = i)) as [->|Hne]; [done|apply Hf].
  - intros j r [[=]|[= <- <-]]. done.
  - rewrite insert_state. destruct (decide (h = i)) as [->|Hne]; [|by rewrite bool_decide_eq_false_2 in Hh].
    destruct Hio as [E1|E1]; rewrite E1; [done|by right].
  - rewrite insert_state. by destruct (decide (h = boot_hartid)).
  - by rewrite fn_lookup_insert.
  - by left.
Qed.

Lemma hart_ok_idle x p : hart_ok false x p -> (x <> 1 /\ x <> 2) <-> idle p.
Proof. unfold idle. destruct p; cbn; intros Hok; split; intros Hx; try lia; try tauto; destruct Hx; done. Qed.

Lemma hinv_cleanup s s' : hinv s -> before_cleanup_step s s' -> hinv s'.
Proof.
  intros [Hh Hids Hp Hw Hl Hsc He Hst Hfi Hz Hmain Hf Hre] Hstep.
  inversion Hstep as [E Hs|E Hs|i E Hi Hb Hx|i E Hi Hx|i E Hi]; subst; unfold first_ok in *; rewrite E in *; try done;
    split; unfold first_ok; cbn [first hart k_hart_state stage hartid rest_of]; try done; try (by intros ? ? [|]).
  - intros i [= <-] h Hr. lia.
  - intros j [= <-] h Hr. lia.
  - intros j [= <-] h Hr Hne Hnn. destruct (Z.eq_dec h i) as [->|]; [|apply (Hsc i eq_refl h); [lia|done|done]].
    apply (hart_ok_idle _ _ (Hh i Hne)). destruct Hx as [?|?]; done.
  - intros _ h Hr Hne. unfold in_range in Hr. apply (Hsc i eq_refl h); [lia|done].
  - by right.
Qed.

Lemma hinv_first s p p' w : hinv s -> first s = BRun p -> hart_step boot_hartid (k_hart_state s boot_hartid) (hartid s boot_hartid) (stage s) p p' w ->
  hinv (HState (store w (k_hart_state s)) (stage s) (BRun p') (hart s) (set_id boot_hartid p' (hartid s))).
Proof.
  intros [Hh Hids Hp Hw Hl Hsc He Hst Hfi Hz Hmain Hf Hre] E Hs. unfold first_ok in *. rewrite E in *.
  assert (p <> HGone) as Hpg by (intros ->; eapply idle_no_step; [by right|exact Hs]).
  assert (hart_ok false (k_hart_state s boot_hartid) p /\ p <> HOff /\ (named p = true -> hartid s boot_hartid = boot_hartid) /\
    (named p = false -> hartid s boot_hartid = 0) /\ (p = HFailed -> timer boot_hartid = false)) as (Hok & _ & Hn & Hn0 & Hfail) by (by destruct p). clear Hfi.
  destruct (hart_ok_step _ _ _ _ _ _ _ Hok Hn Hs) as (Hok' & _ & Hoff & _ & Hw' & _ & _).
  assert (forall h, h <> boot_hartid -> store w (k_hart_state s) h = k_hart_state s h) as Hst'.
  { intros h Hne. destruct w as [[i v]|]; [|done]. destruct Hw' as [-> _]. cbn. by rewrite fn_lookup_insert_ne. }
  assert (store w (k_hart_state s) boot_hartid = match w with Some (_, v) => v | None => k_hart_state s boot_hartid end) as Hsb.
  { destruct w as [[i v]|]; [|done]. destruct Hw' as [-> _]. cbn. by rewrite fn_lookup_insert. }
  split; unfold first_ok; cbn [first hart k_hart_state stage hartid rest_of]; try done; try (by intros ? ? [|]).
  - intros h Hne. rewrite Hst' by done. by apply Hh.
  - intros h Hne Hnm. rewrite set_id_ne by done. by apply Hids.
  - rewrite Hsb. destruct Hs as [Hs|Hs]; inversion Hs; subst; cbn in Hok, Hok', Hn, Hn0, Hfail |- *; try (exfalso; lia); rewrite ?fn_lookup_insert; split_and!; try done; try lia; try tauto; auto.
Qed.

Lemma hinv_step s s' : hinv s -> step false s s' -> hinv s'.
Proof.
  intros Hs Hstep. inversion Hstep as [s1 Hb|s1 Hc|p p' w E Hh|h p' w Hne Hh]; subst; [by eapply hinv_boot|by eapply hinv_cleanup|by eapply hinv_first|].
  destruct Hs as [Hok Hids Hp Hw Hl Hsc He Hst Hfi Hz Hmain Hf Hre]. pose proof (Hok h Hne) as Hh0.
  assert (starting (first s) h = false) as Hst0.
  { destruct (starting (first s) h) eqn:Es; [|done]. exfalso. destruct (first s) as [|i r|i r| | | | | |] eqn:E; try done;
      apply bool_decide_eq_true in Es; subst i; (destruct (Hp h r ltac:(auto)) as (_ & Ho & _)); by eapply idle_no_step. }
  rewrite Hst0 in Hh0. destruct (hart_ok_step _ _ _ _ _ _ _ Hh0 (Hids h Hne) Hh) as (Hok' & Hoff & Hoff' & Hid & Hw' & Hnm & _).
  assert (forall h', h' <> h -> store w (k_hart_state s) h' = k_hart_state s h') as Hst'.
  { intros h' Hn. destruct w as [[i v]|]; [|done]. destruct Hw' as [-> _]. cbn. by rewrite fn_lookup_insert_ne. }
  assert (store w (k_hart_state s) h = match w with Some (_, v) => v | None => k_hart_state s h end) as Hsb.
  { destruct w as [[i v]|]; [|done]. destruct Hw' as [-> _]. cbn. by rewrite fn_lookup_insert. }
  split; unfold first_ok in *; cbn [first hart k_hart_state stage hartid]; rewrite ?Hst', ?set_id_ne by done; try done.
  - intros h' Hne'. rewrite insert_hart. destruct (decide (h' = h)) as [->|]; [by rewrite Hsb, Hst0|]. rewrite Hst' by done. by apply Hok.
  - intros h' Hne'. rewrite insert_hart. destruct (decide (h' = h)) as [->|]; [|rewrite set_id_ne by done; by apply Hids].
    intros Hnm'. destruct (Hnm Hnm') as [->|Hnp]; [cbn; by rewrite fn_lookup_insert|]. apply set_id_ready; [done|]. by apply Hids.
  - intros i r Hi. destruct (Hp i r Hi) as (? & Ho & ?). rewrite insert_hart. destruct (decide (i = h)) as [->|]; [|done].
    exfalso. by eapply idle_no_step.
  - intros i r Hi. destruct (Hw i r Hi) as (? & Ho & Hx). rewrite insert_hart. destruct (decide (i = h)) as [->|]; [|by rewrite Hst'].
    split_and!; [done|done|]. rewrite Hsb. destruct w as [[j v]|]; lia.
  - intros i Ei h' Hr Hne' Hnn. rewrite insert_hart. destruct (decide (h' = h)) as [->|]; [apply Hid|]; by eapply Hsc.
  - intros Ei h' Hr Hne' Hnn. rewrite insert_hart. destruct (decide (h' = h)) as [->|]; [apply Hid|]; by eapply He.
  - intros h'. rewrite insert_hart. destruct (decide (h' = h)) as [->|]; [|apply Hmain].
    intros Hm. destruct Hh as [Hh|Hh]; inversion Hh; subst; destruct Hm; try done; [by left|apply (Hmain h); by left].
  - intros h'. rewrite insert_hart. destruct (decide (h' = h)) as [->|]; [|apply Hf]. intros _. by apply Hf.
Qed.

Lemma hinv_reach s : rtc (step false) harts_init s -> hinv s.
Proof.
  assert (forall x y, rtc (step false) x y -> hinv x -> hinv y) as G; [|intros Hr; by eapply G, hinv_init].
  induction 1 as [|x y z Hxy _ IH]; [done|]. intros Hx. by eapply IH, hinv_step.
Qed.

(** What the invariant says about the end. *)
Lemma end_idle s h : hinv s -> stage s = K_CLEARUP -> in_range h -> h <> boot_hartid -> timer boot_hartid = true \/ h <> 0 -> idle (hart s h).
Proof.
  intros Hs Hc Hb Hne Ht. pose proof (hi_stage _ Hs) as Hst. pose proof (hi_first _ Hs) as Hfi. rewrite Hc in Hst. unfold first_ok in Hfi.
  destruct (first s) eqn:E; try done. apply (hi_end _ Hs E); [done|done|]. destruct Hfi as [_ [->|[-> Htf]]]; [done|].
  destruct Ht; [congruence|done].
Qed.

(** ** Every reachable state can still finish *)

Definition hart_left (p : hart_pc) : nat :=
  match p with HOff => 8 | HEntry => 7 | HTimer => 6 | HReady => 5 | HSpin => 4 | HFailed => 3 | HMain => 3 | HAfter => 2 | HGone => 0 end.
Definition boot_left (b : boot_pc) : nat :=
  match b with
  | BHarts rest => 90 + 20 * length rest
  | BPreset _ rest => 109 + 20 * length rest
  | BFailed _ rest | BWait _ rest | BTimeout _ rest => 100 + 20 * length rest
  | BStage => 89
  | BRun p => 80 + hart_left p
  | BScan i => 2 + Z.to_nat (K_CONFIG_MAX_PROCESSORS - i)
  | BEnd => 0
  end.
Fixpoint sum_from (f : Z -> hart_pc) (k : Z) (n : nat) : nat :=
  match n with O => 0 | S n => hart_left (f k) + sum_from f (k + 1) n end.
Definition left_over (s : hstate) : nat := boot_left (first s) + sum_from (hart s) 0 64.

Lemma sum_insert_out f h p n : forall k, h < k -> sum_from (<[h := p]> f) k n = sum_from f k n.
Proof. induction n as [|n IH]; intros k Hk; cbn [sum_from]; [done|]. rewrite insert_hart, IH by lia. by destruct (decide (k = h)); [lia|]. Qed.

Lemma sum_insert f h p n : forall k, k <= h < k + Z.of_nat n ->
  (sum_from (<[h := p]> f) k n + hart_left (f h) = sum_from f k n + hart_left p)%nat.
Proof.
  induction n as [|n IH]; intros k Hk; cbn [sum_from]; [lia|]. rewrite insert_hart. destruct (decide (k = h)) as [->|].
  - rewrite sum_insert_out by lia. lia.
  - specialize (IH (k + 1) ltac:(lia)). lia.
Qed.

(** A hart that is not idle can move, once the others may run or before it waits
    for that. *)
Lemma hart_moves h x id st p : hart_ok false x p -> ~ idle p -> st = K_MULTICORE \/ p <> HSpin ->
  exists p' w, hart_step h x id st p p' w /\ (hart_left p' < hart_left p)%nat.
Proof.
  unfold idle. intros Hok Hi Hst. destruct p; try (exfalso; tauto).
  - exists HTimer, None. split; [left; constructor; apply Hok|cbn; lia].
  - destruct (timer h) eqn:Et; [exists HReady, None|exists HFailed, None]; (split; [left; by constructor|cbn; lia]).
  - exists HGone, (Some (h, 3)). split; [left; constructor|cbn; lia].
  - exists HSpin, (Some (h, 2)). split; [left; constructor|cbn; lia].
  - exists HMain, None. split; [left; constructor; by destruct Hst|cbn; lia].
  - exists HAfter, None. split; [right; constructor|cbn; lia].
  - exists HGone, (Some (id, 3)). split; [right; constructor|cbn; lia].
Qed.

Lemma other_moves s h : hinv s -> h <> boot_hartid -> starting (first s) h = false -> ~ idle (hart s h) -> stage s = K_MULTICORE \/ hart s h <> HSpin ->
  exists s', step false s s' /\ (left_over s' < left_over s)%nat.
Proof.
  intros Hs Hne Hst Hi Hsp. pose proof (hi_harts _ Hs h Hne) as Hok. rewrite Hst in Hok.
  destruct (hart_moves h _ (hartid s h) (stage s) _ Hok Hi Hsp) as (p' & w & Hstep & Hlt). eexists. split; [by apply st_hart|].
  unfold left_over. cbn [first hart]. pose proof (hi_far _ Hs h) as Hr. unfold in_range, K_CONFIG_MAX_PROCESSORS in Hr. unfold idle in Hi.
  assert (hart s h <> HOff) by tauto. specialize (Hr ltac:(done)). pose proof (sum_insert (hart s) h p' 64 0 ltac:(lia)). lia.
Qed.

Lemma first_moves s p : hinv s -> first s = BRun p -> exists s', step false s s' /\ (left_over s' < left_over s)%nat.
Proof.
  intros Hs E. pose proof (hi_stage _ Hs) as Hst. pose proof (hi_first _ Hs) as Hfi. unfold first_ok in Hfi. rewrite E in Hst, Hfi.
  destruct (decide (p = HGone)) as [->|Hg].
  { eexists. split; [by apply st_cleanup, c_begin|]. unfold left_over. cbn [first hart]. rewrite E. vm_compute boot_left. lia. }
  assert (hart_ok false (k_hart_state s boot_hartid) p /\ p <> HOff) as [Hok Hoff] by (destruct p; tauto).
  destruct (hart_moves boot_hartid _ (hartid s boot_hartid) (stage s) p Hok) as (p' & w & Hstep & Hlt); [by intros [|]|by left|].
  eexists. split; [by eapply st_first|]. unfold left_over. cbn [first hart]. rewrite E. cbn [boot_left]. lia.
Qed.

Context (Hcpus : Forall (fun i => stopped i = true -> i <> boot_hartid -> in_range i) cpus).

Lemma progress s : hinv s -> first s <> BEnd -> exists s', step false s s' /\ (left_over s' < left_over s)%nat.
Proof.
  intros Hs Hne. pose proof (hi_stage _ Hs) as Hst. destruct (first s) as [[|i rest]|i rest|i rest|i rest|i rest| |p|i|] eqn:E; try done.
  - eexists. split; [by apply st_boot, b_mark|]. unfold left_over. rewrite E. cbn [first hart boot_left length]. lia.
  - destruct (decide (i = boot_hartid \/ stopped i = false \/ hart s i <> HOff)) as [Hk|Hk].
    + eexists. split; [by eapply st_boot, b_skip|]. unfold left_over. rewrite E. cbn [first hart boot_left length]. lia.
    + assert (i <> boot_hartid /\ stopped i = true /\ hart s i = HOff) as (H1 & H2 & H3).
      { split; [tauto|]. split; [destruct (stopped i); tauto|]. destruct (decide (hart s i = HOff)); tauto. }
      destruct (hi_rest _ Hs) as [l Hl]. rewrite E in Hl. cbn in Hl. rewrite Hl in Hcpus. apply Forall_app in Hcpus as [_ Hc]. apply Forall_cons in Hc as [Hc _].
      eexists. split; [eapply st_boot, b_preset; [done|done|done|by left|by apply Hc]|]. unfold left_over. rewrite E. cbn [first hart boot_left length]. lia.
  - destruct (hi_pre _ Hs i rest ltac:(auto)) as (Hib & Hio & Hir). destruct (starts i) eqn:Es.
    + eexists. split; [by eapply st_boot, b_start|]. unfold left_over. rewrite E. cbn [first hart boot_left]. unfold in_range, K_CONFIG_MAX_PROCESSORS in Hir.
      pose proof (sum_insert (hart s) i HEntry 64 0 ltac:(lia)). cbn [hart_left] in *. lia.
    + eexists. split; [by eapply st_boot, b_start_fails|]. unfold left_over. rewrite E. cbn [first hart boot_left]. lia.
  - eexists. split; [by eapply st_boot, b_failed|]. unfold left_over. rewrite E. cbn [first hart boot_left]. lia.
  - destruct (hi_wait _ Hs i rest E) as (Hib & Hio & Hx1). destruct (Z.leb_spec 2 (k_hart_state s i)) as [Hx|Hx].
    + eexists. split; [by eapply st_boot, b_up|]. unfold left_over. rewrite E. cbn [first hart boot_left]. lia.
    + pose proof (hi_harts _ Hs i Hib) as Hok. rewrite E in Hok. cbn [starting] in Hok.
      apply (other_moves s i Hs Hib); [by rewrite E| |].
      * intros [?|Hg]; [done|]. rewrite Hg in Hok. cbn in Hok. lia.
      * right. intros Hg. rewrite Hg in Hok. cbn in Hok. lia.
  - by exfalso; eapply (hi_late _ Hs).
  - eexists. split; [by apply st_boot, b_multicore|]. unfold left_over. rewrite E. cbn [first hart boot_left hart_left]. lia.
  - by eapply first_moves.
  - destruct (Z.leb_spec K_CONFIG_MAX_PROCESSORS i) as [Hge|Hlt].
    { eexists. split; [by eapply st_cleanup, c_end|]. unfold left_over. rewrite E. cbn [first hart boot_left]. lia. }
    destruct (decide (i = hartid s boot_hartid \/ (k_hart_state s i <> 1 /\ k_hart_state s i <> 2))) as [Hx|Hx].
    + eexists. split; [by eapply st_cleanup, c_next|]. unfold left_over. rewrite E. cbn [first hart boot_left]. lia.
    + assert (i <> boot_hartid) as Hib.
      { intros ->. pose proof (hi_first _ Hs) as Hfi. unfold first_ok in Hfi. rewrite E in Hfi. destruct Hfi as [Hb _]. rewrite Hb in Hx. lia. }
      pose proof (hi_harts _ Hs i Hib) as Hok. rewrite E in Hok. cbn [starting] in Hok.
      apply (other_moves s i Hs Hib); [by rewrite E| |by left]. intros Hi. apply (hart_ok_idle _ _ Hok) in Hi. tauto.
Qed.

Lemma finish s : hinv s -> exists s', rtc (step false) s s' /\ first s' = BEnd.
Proof.
  remember (left_over s) as n eqn:En. revert s En. induction n as [n IH] using lt_wf_ind. intros s -> Hs.
  destruct (decide (first s = BEnd)) as [E|E]; [by exists s|].
  destruct (progress s Hs E) as (s1 & H1 & Hlt). destruct (IH _ Hlt s1 eq_refl (hinv_step _ _ Hs H1)) as (s2 & H2 & E2).
  exists s2. split; [by eapply rtc_l|done].
Qed.
End Harts.

(** C14: The harts and the end of the kernel. Whatever the firmware answers, in every
    interleaving in which no wait for a hart runs out of time: a hart other than
    the first is in [k_main] only while the stage is K_MULTICORE, and when the
    first hart leaves [k_before_cleanup] the hart has returned or was never
    started, so that nothing runs during the clean-up. This holds for every
    other hart when the timer of the first hart could be set, and for every one
    but hart 0 when it could not: then the first hart has no number of its own,
    and takes hart 0 for itself. *)
Theorem harts_cleanup_safe boot_hartid cpus stopped starts timer s h :
  rtc (step boot_hartid stopped starts timer false) (harts_init cpus) s -> h <> boot_hartid -> timer boot_hartid = true \/ h <> 0 ->
  (hart s h = HMain -> stage s = K_MULTICORE) /\
  (stage s = K_CLEARUP -> 0 <= h < K_CONFIG_MAX_PROCESSORS -> idle (hart s h)).
Proof.
  intros Hr Hne Ht. pose proof (hinv_reach _ _ _ _ _ _ Hr) as Hs.
  split; [|intros Hc Hb; by apply (end_idle _ _ _ s h Hs)]. intros Hm.
  destruct (hi_main _ _ _ _ Hs h (or_introl Hm)) as [?|Hc]; [done|].
  destruct (end_idle _ _ _ s h Hs Hc (hi_far _ _ _ _ Hs h ltac:(by rewrite Hm)) Hne Ht) as [E|E]; by rewrite E in Hm.
Qed.

(** C15: No deadlock between the harts. Whatever the firmware answers (which harts
    are stopped, start, and can set their timers), if the numbers of the harts
    it reports as stopped are below the size of the table: from every state that
    can be reached without a wait running out of time, the harts can be
    scheduled so that the kernel comes to its end: the wait of [k_boot_harts]
    for a hart, the wait of [k_pre_main] for the stage and the wait of
    [k_before_cleanup] for the harts can all be ended. The other harts (but
    hart 0, should the first hart's timer fail) have then returned. *)
Theorem harts_can_finish boot_hartid cpus stopped starts timer s :
  Forall (fun i => stopped i = true -> i <> boot_hartid -> 0 <= i < K_CONFIG_MAX_PROCESSORS) cpus ->
  rtc (step boot_hartid stopped starts timer false) (harts_init cpus) s ->
  exists s', rtc (step boot_hartid stopped starts timer false) s s' /\ stage s' = K_CLEARUP /\
    forall h, 0 <= h < K_CONFIG_MAX_PROCESSORS -> h <> boot_hartid -> timer boot_hartid = true \/ h <> 0 -> idle (hart s' h).
Proof.
  intros Hc Hr. pose proof (hinv_reach _ _ _ _ _ _ Hr) as Hs. destruct (finish _ _ _ starts _ Hc s Hs) as (s' & Hr' & E). exists s'. split; [done|].
  assert (hinv boot_hartid cpus timer s') as Hs' by (eapply hinv_reach; by etrans).
  pose proof (hi_stage _ _ _ _ Hs') as Hst. rewrite E in Hst. split; [done|]. intros h Hb Hne Ht. by apply (end_idle _ _ _ s' h Hs').
Qed.

(** A run of two harts, started with one. *)
Abbreviation all_harts := (fun _ : Z => true).
Abbreviation step0 := (step 0 all_harts all_harts all_harts false).
Definition run1 : hstate := HState (<[1 := 1]> (fun _ => 0)) K_BOOT_HARTS (BPreset 1 []) (fun _ => HOff) (fun _ => 0).
Lemma run1_reach : rtc step0 (harts_init [0; 1]) run1.
Proof.
  eapply rtc_l; [eapply st_boot, (b_skip _ _ _ _ _ 0 [1]); [done|by left]|].
  eapply rtc_l; [eapply st_boot, (b_preset _ _ _ _ _ 1 []); [done|done|done|by left|done]|]. apply rtc_refl.
Qed.
Lemma run1_cpus : Forall (fun i => true = true -> i <> 0 -> 0 <= i < K_CONFIG_MAX_PROCESSORS) [0; 1].
Proof. unfold K_CONFIG_MAX_PROCESSORS. repeat constructor; lia. Qed.

Lemma run1_ends : exists s, rtc step0 (harts_init [0; 1]) s /\ stage s = K_CLEARUP.
Proof.
  pose proof (hinv_reach 0 [0; 1] all_harts all_harts all_harts run1 run1_reach) as Hi.
  destruct (finish 0 [0; 1] all_harts all_harts all_harts run1_cpus run1 Hi) as (s & Hr & E). exists s.
  assert (rtc step0 (harts_init [0; 1]) s) as Hr' by (etrans; [exact run1_reach|exact Hr]). split; [done|].
  pose proof (hi_stage _ _ _ _ (hinv_reach _ _ _ _ _ _ Hr')) as Hst. by rewrite E in Hst.
Qed.

Lemma harts_cleanup_witness : exists s, stage s = K_CLEARUP /\ idle (hart s 1).
Proof.
  destruct run1_ends as (s & Hr & Hs). exists s. split; [exact Hs|].
  apply (harts_cleanup_safe 0 [0; 1] all_harts all_harts all_harts s 1 Hr); [lia|by left|exact Hs|vm_compute; split; congruence].
Defined.

Lemma harts_can_finish_witness : exists s', rtc step0 run1 s' /\ stage s' = K_CLEARUP.
Proof. destruct (harts_can_finish 0 [0; 1] all_harts all_harts all_harts run1 run1_cpus run1_reach) as (s' & Hr & Hs & _). exists s'. split; [exact Hr|exact Hs]. Defined.

(** The scan of [k_before_cleanup] when no hart it looks at is running. *)
Lemma scan_ends bh stopped starts timer late hs f g : (forall i, 0 <= i < 64 -> i = g bh \/ (hs i <> 1 /\ hs i <> 2)) -> forall n, Z.of_nat n <= 64 ->
  rtc (step bh stopped starts timer late) (HState hs K_MULTICORE (BScan (64 - Z.of_nat n)) f g) (HState hs K_CLEARUP BEnd f g).
Proof.
  intros Hi. induction n as [|n IH]; intros Hn.
  - eapply rtc_l; [by eapply st_cleanup, (c_end _ _ 64)|done].
  - eapply rtc_l; [eapply st_cleanup, (c_next _ _ (64 - Z.of_nat (S n))); [done|unfold K_CONFIG_MAX_PROCESSORS; lia|apply Hi; lia]|].
    cbn [k_hart_state stage hart hartid]. replace (64 - Z.of_nat (S n) + 1) with (64 - Z.of_nat n) by lia. apply IH. lia.
Qed.

Ltac next := cbn [k_hart_state stage first hart hartid store set_id]; eapply rtc_l.

(** When the wait for a hart runs out of time the first hart resets the hart's
    state to 0, and this store can fall behind the hart's own store of 2: the
    hart then goes on, [k_before_cleanup] does not wait for it, and the kernel
    is torn down while it is in [k_main]. *)
Theorem timeout_race : exists s, rtc (step 0 all_harts all_harts (fun h => negb (h =? 0)) true) (harts_init [0; 1]) s /\ stage s = K_CLEARUP /\ hart s 1 = HMain.
Proof.
  eexists. split.
  - next; [eapply st_boot, (b_skip _ _ _ _ _ 0 [1]); [done|by left]|].
    next; [eapply st_boot, (b_preset _ _ _ _ _ 1 []); [done|done|done|by left|done]|]. next; [by eapply st_boot, (b_start _ _ _ _ _ 1 [])|].
    next; [by apply (st_hart _ _ _ _ _ _ 1 HTimer None); [|left; constructor]|].
    next; [by apply (st_hart _ _ _ _ _ _ 1 HReady None); [|left; constructor]|].
    next; [by eapply st_boot, (b_late _ _ _ _ _ 1 [])|].
    next; [by apply (st_hart _ _ _ _ _ _ 1 HSpin (Some (1, 2))); [|left; constructor]|].
    next; [by eapply st_boot, (b_timeout _ _ _ _ _ 1 [])|]. next; [by eapply st_boot, b_mark|]. next; [by eapply st_boot, b_multicore|].
    next; [by apply (st_hart _ _ _ _ _ _ 1 HMain None); [|left; constructor]|].
    next; [by apply (st_first _ _ _ _ _ _ HEntry HTimer None); [|left; constructor]|].
    next; [by apply (st_first _ _ _ _ _ _ HTimer HFailed None); [|left; constructor]|].
    next; [by apply (st_first _ _ _ _ _ _ HFailed HGone (Some (0, 3))); [|left; constructor]|].
    next; [by eapply st_cleanup, c_begin|]. cbn [k_hart_state stage first hart hartid store set_id].
    apply (scan_ends 0 all_harts all_harts (fun h => negb (h =? 0)) true _ _ _) with (n := 64%nat); [|done].
    intros i Hi. destruct (Z.eq_dec i 0) as [->|]; [by left|right]. rewrite !insert_state. unfold harts_init; cbn [k_hart_state]. repeat case_decide; lia.
  - split; reflexivity.
Qed.

(** A first hart other than hart 0 whose timer cannot be set takes hart 0 for
    itself: it tears the kernel down while hart 0 is in [k_main]. *)
Theorem failed_timer_skips_hart0 :
  exists s, rtc (step 1 all_harts all_harts (fun h => negb (h =? 1)) false) (harts_init [0; 1]) s /\ stage s = K_CLEARUP /\ hart s 0 = HMain.
Proof.
  eexists. split.
  - next; [eapply st_boot, (b_preset _ _ _ _ _ 0 [1]); [done|done|done|by left|done]|]. next; [by eapply st_boot, (b_start _ _ _ _ _ 0 [1])|].
    next; [by apply (st_hart _ _ _ _ _ _ 0 HTimer None); [|left; constructor]|].
    next; [by apply (st_hart _ _ _ _ _ _ 0 HReady None); [|left; constructor]|].
    next; [by apply (st_hart _ _ _ _ _ _ 0 HSpin (Some (0, 2))); [|left; constructor]|].
    next; [by eapply st_boot, (b_up _ _ _ _ _ 0 [1])|]. next; [eapply st_boot, (b_skip _ _ _ _ _ 1 []); [done|by left]|].
    next; [by eapply st_boot, b_mark|]. next; [by eapply st_boot, b_multicore|].
    next; [by apply (st_hart _ _ _ _ _ _ 0 HMain None); [|left; constructor]|].
    next; [by apply (st_first _ _ _ _ _ _ HEntry HTimer None); [|left; constructor]|].
    next; [by apply (st_first _ _ _ _ _ _ HTimer HFailed None); [|left; constructor]|].
    next; [by apply (st_first _ _ _ _ _ _ HFailed HGone (Some (1, 3))); [|left; constructor]|].
    next; [by eapply st_cleanup, c_begin|]. cbn [k_hart_state stage first hart hartid store set_id].
    apply (scan_ends 1 all_harts all_harts (fun h => negb (h =? 1)) false _ _ _) with (n := 64%nat); [|done].
    intros i Hi. destruct (Z.eq_dec i 0) as [->|]; [left; reflexivity|right]. rewrite !insert_state. unfold harts_init; cbn [k_hart_state]. repeat case_decide; lia.
  - split; reflexivity.
Qed.
