(* ===== verification/Traps.v ===== *)
(** Traps: the assembly of src/kernel/main/k_isr.cpp that saves and restores the
    interrupted program around the handlers, the dispatch of exceptions and
    interrupts, and the handlers' effect on the machine. The context structures
    are those of src/kernel/inc/k_umode.h. *)
From stdpp Require Import functions.
From S2P Require Import Prelude KDefs Bytes Sbi.

(** ** The machine *)
Inductive reg :=
  | ra | sp | gp | tp | t0 | t1 | t2 | t3 | t4 | t5 | t6
  | a0 | a1 | a2 | a3 | a4 | a5 | a6 | a7
  | s0 | s1 | s2 | s3 | s4 | s5 | s6 | s7 | s8 | s9 | s10 | s11.
#[export] Instance reg_eq_dec : EqDecision reg.
Proof. solve_decision. Defined.

Inductive csr := SSCRATCH | SEPC | SCAUSE | SSTATUS | SIP | SIE.
#[export] Instance csr_eq_dec : EqDecision csr.
Proof. solve_decision. Defined.

(** Registers, memory in 64-bit words by address, and control registers. *)
Record mach := Mach { rg : reg -> Z; mw : Z -> Z; cs : csr -> Z }.

Definition REG_SIZE : Z := 8.
Definition SAVE_SPACE : Z := 32.

(** The instructions the macros use; loads and stores are relative to [sp]. *)
Inductive instr :=
  | Sd (rs : reg) (off : Z)
  | Ld (rd : reg) (off : Z)
  | Addi (rd rs : reg) (imm : Z)
  | Mv (rd rs : reg)
  | Li (rd : reg) (v : Z)
  | And (rd x y : reg)
  | Sub (rd x y : reg)
  | Srai (rd rs : reg) (n : Z)
  | Slli (rd rs : reg) (n : Z)
  | Csrrw (rd : reg) (c : csr) (rs : reg)
  | Csrr (rd : reg) (c : csr)
  | Csrw (c : csr) (rs : reg)
  | SkipNez (r : reg) (i : instr)    (** [bnez r, 1f; i; 1:] *)
  | SkipEqz (r : reg) (i : instr).   (** [beqz r, 1f; i; 1:] *)

Definition set_reg (r : reg) (v : Z) (m : mach) : mach := Mach (<[r := v]> (rg m)) (mw m) (cs m).
Definition set_csr (c : csr) (v : Z) (m : mach) : mach := Mach (rg m) (mw m) (<[c := v]> (cs m)).

Fixpoint step (i : instr) (m : mach) : mach :=
  match i with
  | Sd rs off => Mach (rg m) (<[u64 (rg m sp + off) := rg m rs]> (mw m)) (cs m)
  | Ld rd off => set_reg rd (mw m (u64 (rg m sp + off))) m
  | Addi rd rs imm => set_reg rd (u64 (rg m rs + imm)) m
  | Mv rd rs => set_reg rd (rg m rs) m
  | Li rd v => set_reg rd v m
  | And rd x y => set_reg rd (Z.land (rg m x) (rg m y)) m
  | Sub rd x y => set_reg rd (u64 (rg m x - rg m y)) m
  | Srai rd rs n => set_reg rd (u64 (Z.shiftr (s64 (rg m rs)) n)) m
  | Slli rd rs n => set_reg rd (u64 (Z.shiftl (rg m rs) n)) m
  | Csrrw rd c rs => set_reg rd (cs m c) (set_csr c (rg m rs) m)
  | Csrr rd c => set_reg rd (cs m c) m
  | Csrw c rs => set_csr c (rg m rs) m
  | SkipNez r i => if rg m r =? 0 then step i m else m
  | SkipEqz r i => if rg m r =? 0 then m else step i m
  end.
Definition exec (l : list instr) (m : mach) : mach := fold_left (fun m i => step i m) l m.

(** ** The macros *)

(** Stores and loads of consecutive slots. *)
Fixpoint sd_from (n : Z) (l : list reg) : list instr :=
  match l with [] => [] | r :: l => Sd r (n * REG_SIZE) :: sd_from (n + 1) l end.
Fixpoint ld_from (n : Z) (l : list reg) : list instr :=
  match l with [] => [] | r :: l => Ld r (n * REG_SIZE) :: ld_from (n + 1) l end.

(** The registers of [saved_context_t] behind [ra], [gp] and [tp], and those
    [umode_basic_ctx_t] adds. *)
Definition head_regs : list reg := [ra; gp; tp].
Definition normal_regs : list reg := [t0; t1; t2; t3; t4; t5; t6; a0; a1; a2; a3; a4; a5; a6; a7].
Definition additional_regs : list reg := [s0; s1; s2; s3; s4; s5; s6; s7; s8; s9; s10; s11].

Definition K_ISR_SWITCH_SP : list instr := [Csrrw sp SSCRATCH sp; SkipNez sp (Csrrw sp SSCRATCH sp)].

Section Macros.
  (** The linker's symbols [_tls_len] and [__global_pointer$]. *)
  Context (tls_len global_pointer : Z).

Definition K_ISR_SAVE_RECALC_PTRS : list instr :=
  [Mv tp sp; Li gp (K_CONFIG_KERNEL_STACK_SIZE - 1); And gp gp sp; Srai tp tp K_CONFIG_STACK_SIZE_N;
   SkipEqz gp (Addi tp tp 1); Slli tp tp K_CONFIG_STACK_SIZE_N; Li gp tls_len; Sub tp tp gp; Li gp global_pointer].

Definition K_ISR_SAVE_CONTEXT_NORMAL : list instr :=
  Addi sp sp (- (SAVE_SPACE * REG_SIZE)) :: sd_from 0 head_regs ++ sd_from 3 normal_regs ++ K_ISR_SAVE_RECALC_PTRS.
Definition K_ISR_SAVE_CONTEXT_ADDITIONAL : list instr :=
  Addi sp sp (- (SAVE_SPACE * REG_SIZE)) :: sd_from 0 head_regs ++ sd_from 3 normal_regs ++ sd_from 18 additional_regs ++
  K_ISR_SAVE_RECALC_PTRS.
Definition K_ISR_RESTORE_CONTEXT_NORMAL : list instr :=
  ld_from 0 head_regs ++ ld_from 3 normal_regs ++ [Addi sp sp (SAVE_SPACE * REG_SIZE)].
Definition K_ISR_RESTORE_CONTEXT_ADDITIONAL : list instr :=
  [Ld tp (31 * REG_SIZE); Csrw SEPC tp; Ld tp (30 * REG_SIZE); Csrw SSCRATCH tp] ++
  ld_from 0 head_regs ++ ld_from 3 normal_regs ++ ld_from 18 additional_regs ++ [Addi sp sp (SAVE_SPACE * REG_SIZE)].

(** [K_ISR_ENTRY_IMPL(mode, name, func)], up to [sret]; [func] is the C function. *)
Definition K_ISR_ENTRY_IMPL (save restore : list instr) (func : mach -> mach) (m : mach) : mach :=
  exec K_ISR_SWITCH_SP (exec restore (func (step (Mv a0 sp) (exec save (exec K_ISR_SWITCH_SP m))))).

(** The entries of the interrupts. *)
Definition k_softirq_entry := K_ISR_ENTRY_IMPL K_ISR_SAVE_CONTEXT_NORMAL K_ISR_RESTORE_CONTEXT_NORMAL.
Definition k_timer_entry := K_ISR_ENTRY_IMPL K_ISR_SAVE_CONTEXT_ADDITIONAL K_ISR_RESTORE_CONTEXT_ADDITIONAL.
Definition k_extirq_entry := K_ISR_ENTRY_IMPL K_ISR_SAVE_CONTEXT_NORMAL K_ISR_RESTORE_CONTEXT_NORMAL.

(** ** Exceptions *)
Inductive handler := k_other_exception | k_esr_break | k_esr_ecall.
Inductive context_kind := Normal | Full.

(** [k_exception_entry]: where it goes for a cause; [None] is [_start_hang]. *)
Definition exc_table : list (handler * context_kind) :=
  [(k_other_exception, Normal); (k_other_exception, Normal); (k_other_exception, Normal); (k_esr_break, Normal);
   (k_other_exception, Normal); (k_other_exception, Normal); (k_other_exception, Normal); (k_other_exception, Normal);
   (k_esr_ecall, Full); (k_other_exception, Normal); (k_other_exception, Normal); (k_other_exception, Normal);
   (k_other_exception, Normal); (k_other_exception, Normal); (k_other_exception, Normal); (k_other_exception, Normal)].
Definition exc_dispatch (scause : Z) : option (handler * context_kind) :=
  if s64 scause <? 0 then None else if 16 <=? scause then None else exc_table !! Z.to_nat scause.

(** The saves before the jump, at the labels 4 and 5, and the restores at 10 and 11. *)
Definition exc_head : list instr := [Sd ra (- ((SAVE_SPACE - 0) * REG_SIZE)); Sd gp (- ((SAVE_SPACE - 1) * REG_SIZE)); Sd tp (- ((SAVE_SPACE - 2) * REG_SIZE))].
Definition exc_save_normal : list instr := Addi sp sp (- (SAVE_SPACE * REG_SIZE)) :: sd_from 3 normal_regs ++ K_ISR_SAVE_RECALC_PTRS.
Definition exc_save_full : list instr :=
  Addi sp sp (- (SAVE_SPACE * REG_SIZE)) :: sd_from 3 normal_regs ++ sd_from 18 additional_regs ++
  [Sd sp (30 * REG_SIZE); Csrr tp SEPC; Sd tp (31 * REG_SIZE)] ++ K_ISR_SAVE_RECALC_PTRS.

(** An exception up to [sret]; [None] is the hang, or a handler that does not
    return. The registers the dispatch itself uses ([gp], [tp], and [ra] for its
    calls) have been saved. *)
Definition k_exception_entry (func : handler -> mach -> option mach) (m : mach) : option mach :=
  let m := exec K_ISR_SWITCH_SP m in
  let m := exec exc_head m in
  match exc_dispatch (cs m SCAUSE) with
  | None => None
  | Some (h, Normal) =>
      m ← func h (step (Mv a0 sp) (exec exc_save_normal m)); Some (exec K_ISR_SWITCH_SP (exec K_ISR_RESTORE_CONTEXT_NORMAL m))
  | Some (h, Full) =>
      m ← func h (step (Mv a0 sp) (exec exc_save_full m)); Some (exec K_ISR_SWITCH_SP (exec K_ISR_RESTORE_CONTEXT_ADDITIONAL m))
  end.
End Macros.

(** ** The vector table *)
Inductive entry := k_exception | k_softirq | k_timer | k_extirq | start_hang.
Definition _exctable : list entry :=
  [k_exception; k_softirq; start_hang; start_hang; start_hang; k_timer; k_extirq; start_hang] ++ replicate 8 start_hang.
(** Vectored mode: interrupts go to the entry of their number, exceptions to the
    first one. *)
Definition vector (interrupt : bool) (code : Z) : option entry := if interrupt then _exctable !! Z.to_nat code else _exctable !! 0%nat.

(** ** The handlers *)
Definition SIP_SSIP : Z := 2.
Definition SSTATUS_SPP : Z := 0x100.

(** What the handlers do to the control registers and to the context, which is at
    [a0]. Messages are left out, and the flag [k_halt], which nothing reads.
    [k_local_resume] is NULL or where to go on. *)
Definition isr_softirq (k_local_resume : Z) (m : mach) : mach :=
  let m := set_csr SIP (Z.ldiff (cs m SIP) SIP_SSIP) m in
  if k_local_resume =? 0 then m
  else
    set_csr SSCRATCH 0 (set_csr SIE (Z.ldiff (cs m SIE) SIP_SSIP)
      (set_csr SSTATUS (Z.lor (cs m SSTATUS) SSTATUS_SPP) (set_csr SEPC k_local_resume m))).

Definition ctx_pc (m : mach) : Z := u64 (rg m a0 + 31 * REG_SIZE).
Definition esr_ecall (m : mach) : mach := Mach (rg m) (<[ctx_pc m := u64 (mw m (ctx_pc m) + 4)]> (mw m)) (cs m).

Definition isr_extirq (m : mach) : mach := m.
(** [conti] is the local variable a debugger may set; nothing else does. *)
Definition esr_break (conti : bool) (m : mach) : option mach := if conti then Some (set_csr SEPC (u64 (cs m SEPC + 2)) m) else None.
Definition other_exception (m : mach) : option mach := None.
Definition exc_handler (conti : bool) (h : handler) (m : mach) : option mach :=
  match h with k_esr_ecall => Some (esr_ecall m) | k_esr_break => esr_break conti m | k_other_exception => other_exception m end.

(** [_DUMP_CTX(ctx)]: the values printed, with the names they are printed under. *)
Definition ctx_index (r : reg) : Z := default 0 (Z.of_nat ∘ fst <$> list_find (r =.) (head_regs ++ normal_regs)).
Definition _DUMP_CTX (m : mach) : list (reg * Z) :=
  ((fun r => (r, mw m (u64 (rg m a0 + ctx_index r * REG_SIZE)))) <$> [a0; a1; a2; a3; a4; a5; a6; a7; t0; t1; t2; t3; t4; t5; t6; ra; gp; tp]) ++
  [(sp, if cs m SSCRATCH =? 0 then u64 (rg m a0 - 18 * REG_SIZE) else cs m SSCRATCH)].

(** [k_isr_timer]: it sets the next tick, or stops all harts after ten seconds. *)
Definition k_isr_timer {S} (sbi_ecall : Z -> Z -> list Z -> M S sbiret) (time k_cpuclock : Z) : M S unit :=
  if u64 (10 * k_cpuclock) <? time then
    sendIPI sbi_ecall (2 ^ 64 - 1) 0 ≫= fun _ => clearTimer sbi_ecall ≫= fun _ => mret tt
  else setTimer sbi_ecall (u64 (time + k_cpuclock)) ≫= fun _ => mret tt.

(** ** Properties *)

(** The calling convention: what a C function keeps. [keeps_ctx] says that it
    does not write to the context it is given. *)
Definition callee_saved : list reg := [sp; gp; tp; s0; s1; s2; s3; s4; s5; s6; s7; s8; s9; s10; s11].
Definition slot (b i : Z) : Z := u64 (b + i * REG_SIZE).

Record c_function (f : mach -> mach) : Prop := {
  cf_saved : forall m r, r ∈ callee_saved -> rg (f m) r = rg m r;
  cf_ctx : forall m i, 0 <= i < SAVE_SPACE -> mw (f m) (slot (rg m sp) i) = mw m (slot (rg m sp) i);
  cf_scratch : forall m, cs (f m) SSCRATCH = cs m SSCRATCH;
}.

Lemma ctx_slot_inj b i j : 0 <= i < 32 -> 0 <= j < 32 -> slot b i = slot b j -> i = j.
Proof.
  unfold slot, uw, REG_SIZE. intros Hi Hj E. assert ((b + i * 8 - (b + j * 8)) mod 2 ^ 64 = 0) as Hm by (rewrite Zminus_mod, E, Z.sub_diag; done).
  apply Z.mod_divide in Hm; [|lia]. destruct Hm as [k Hk]. assert (k = 0) by nia. lia.
Qed.

Lemma exec_app l1 l2 m : exec (l1 ++ l2) m = exec l2 (exec l1 m).
Proof. apply fold_left_app. Qed.

Lemma exec_cons i l m : exec (i :: l) m = exec l (step i m).
Proof. reflexivity. Qed.

(** Consecutive stores. *)
Lemma exec_sd l : forall n m, 0 <= n -> n + zlen l <= 32 ->
  rg (exec (sd_from n l) m) = rg m /\ cs (exec (sd_from n l) m) = cs m /\
  forall i, 0 <= i < 32 -> mw (exec (sd_from n l) m) (slot (rg m sp) i) =
    if (n <=? i) && (i <? n + zlen l) then default 0 (rg m <$> l !! Z.to_nat (i - n)) else mw m (slot (rg m sp) i).
Proof.
  induction l as [|r l IH]; intros n m Hn Hl; cbn [sd_from exec fold_left].
  { split_and!; [done|done|]. intros i Hi. change (zlen (@nil reg)) with 0. destruct (Z.leb_spec n i), (Z.ltb_spec i (n + 0)); (done || lia). }
  rewrite zlen_cons in Hl |- *. fold (exec (sd_from (n + 1) l) (step (Sd r (n * REG_SIZE)) m)).
  destruct (IH (n + 1) (step (Sd r (n * REG_SIZE)) m) ltac:(lia) ltac:(lia)) as (E1 & E2 & E3). cbn [step rg cs] in E1, E2, E3.
  split_and!; [done|done|]. intros i Hi. rewrite E3 by done. cbn [mw step]. fold (slot (rg m sp) n). pose proof (zlen_nonneg l).
  destruct (Z.eq_dec i n) as [->|Hne].
  - destruct (Z.leb_spec (n + 1) n); [lia|]. cbn [andb]. rewrite fn_lookup_insert.
    destruct (Z.leb_spec n n); [|lia]. destruct (Z.ltb_spec n (n + (1 + zlen l))); [|lia]. cbn [andb]. by rewrite Z.sub_diag.
  - rewrite fn_lookup_insert_ne by (intros E; apply ctx_slot_inj in E; lia).
    destruct (Z.leb_spec (n + 1) i), (Z.leb_spec n i), (Z.ltb_spec i (n + 1 + zlen l)), (Z.ltb_spec i (n + (1 + zlen l))); try lia; try done. cbn [andb].
    by replace (Z.to_nat (i - n)) with (S (Z.to_nat (i - (n + 1)))) by lia.
Qed.

(** Consecutive loads. *)
Lemma exec_ld l : forall n m, sp ∉ l -> NoDup l ->
  mw (exec (ld_from n l) m) = mw m /\ cs (exec (ld_from n l) m) = cs m /\
  (forall r, r ∉ l -> rg (exec (ld_from n l) m) r = rg m r) /\
  forall i r, l !! i = Some r -> rg (exec (ld_from n l) m) r = mw m (slot (rg m sp) (n + Z.of_nat i)).
Proof.
  induction l as [|x l IH]; intros n m Hsp Hnd; cbn [ld_from exec fold_left]; [split_and!; done|].
  apply not_elem_of_cons in Hsp as [Hx Hsp]. apply NoDup_cons in Hnd as [Hxl Hnd].
  fold (exec (ld_from (n + 1) l) (step (Ld x (n * REG_SIZE)) m)). set (m1 := step (Ld x (n * REG_SIZE)) m).
  assert (forall r, rg m1 r = if decide (r = x) then mw m (slot (rg m sp) n) else rg m r) as Hr.
  { intros r. unfold m1. cbn. destruct (decide (r = x)) as [->|]; [by rewrite fn_lookup_insert|by rewrite fn_lookup_insert_ne]. }
  destruct (IH (n + 1) m1 Hsp Hnd) as (E1 & E2 & E3 & E4). split_and!; [done|done|..].
  - intros r Hn. apply not_elem_of_cons in Hn as [Hne Hn]. rewrite E3, Hr by done. by destruct (decide (r = x)).
  - intros [|i] r Hi; cbn in Hi.
    + injection Hi as ->. rewrite E3, Hr by done. destruct (decide (r = r)); [|done]. by rewrite Z.add_0_r.
    + rewrite (E4 i r Hi), Hr. destruct (decide (sp = x)); [done|]. change (mw m1) with (mw m). f_equal. f_equal. lia.
Qed.

(** A sequence that leaves memory, the control registers and all registers but
    [l] alone. *)
Definition only (l : list reg) (m m' : mach) : Prop :=
  mw m' = mw m /\ cs m' = cs m /\ forall r, r ∉ l -> rg m' r = rg m r.

Lemma only_set l r v m m' : r ∈ l -> only l m m' -> only l m (set_reg r v m').
Proof.
  intros Hr (E1 & E2 & E3). split_and!; [done|done|]. intros x Hx. cbn. rewrite fn_lookup_insert_ne; [by apply E3|]. by intros ->.
Qed.

(** What the recomputed pointers are. *)
Definition recalc_tp (tls b : Z) : Z :=
  u64 (u64 (Z.shiftl (let x := u64 (Z.shiftr (s64 b) K_CONFIG_STACK_SIZE_N) in
                      if Z.land (K_CONFIG_KERNEL_STACK_SIZE - 1) b =? 0 then x else u64 (x + 1)) K_CONFIG_STACK_SIZE_N) - tls).

Lemma recalc_exec tls g m :
  only [tp; gp] m (exec (K_ISR_SAVE_RECALC_PTRS tls g) m) /\
  rg (exec (K_ISR_SAVE_RECALC_PTRS tls g) m) tp = recalc_tp tls (rg m sp) /\ rg (exec (K_ISR_SAVE_RECALC_PTRS tls g) m) gp = g.
Proof.
  unfold K_ISR_SAVE_RECALC_PTRS, exec, recalc_tp. cbn [fold_left step set_reg rg mw cs].
  repeat (rewrite fn_lookup_insert || rewrite fn_lookup_insert_ne by done).
  destruct (Z.land (K_CONFIG_KERNEL_STACK_SIZE - 1) (rg m sp) =? 0); cbn [step set_reg rg mw cs];
    repeat (rewrite fn_lookup_insert || rewrite fn_lookup_insert_ne by done); (split; [split_and!; [done|done|]|done]);
    intros r Hr; rewrite !not_elem_of_cons in Hr; destruct Hr as (H1 & H2 & _); cbn [rg set_reg]; by rewrite !fn_lookup_insert_ne by congruence.
Qed.

(** On a stack whose top is a multiple of the stack size and that has been used
    but not overrun, [tp] becomes the top less the thread-local data. *)
Lemma recalc_tp_top tls top b : 0 <= tls -> top mod K_CONFIG_STACK_SIZE = 0 -> K_CONFIG_STACK_SIZE <= top < 2 ^ 64 ->
  top - K_CONFIG_STACK_SIZE < b < top -> recalc_tp tls b = u64 (top - tls).
Proof.
  intros Htls Ha Ht Hb. unfold recalc_tp. change K_CONFIG_STACK_SIZE with 8192 in *. change K_CONFIG_STACK_SIZE_N with 13.
  change (K_CONFIG_KERNEL_STACK_SIZE - 1) with (Z.ones 19). change (2 ^ 64) with 18446744073709551616 in Ht.
  assert (Z.land (Z.ones 19) b <> 0) as Hl.
  { rewrite Z.land_comm, Z.land_ones by lia. intros E. change (2 ^ 19) with (8192 * 64) in E.
    assert (b mod 8192 = 0) as Hb0.
    { rewrite Z.rem_mul_r in E by lia. pose proof (Z.mod_pos_bound b 8192 ltac:(lia)). pose proof (Z.mod_pos_bound (b / 8192) 64 ltac:(lia)). lia. }
    apply Z.mod_divide in Hb0 as [x Hx]; [|lia]. apply Z.mod_divide in Ha as [y Hy]; [|lia]. nia. }
  destruct (Z.eqb_spec (Z.land (Z.ones 19) b) 0); [done|]. apply Z.mod_divide in Ha as [y Hy]; [|lia].
  rewrite Z.shiftr_div_pow2, Z.shiftl_mul_pow2 by lia. change (2 ^ 13) with 8192.
  assert (s64 b / 8192 = y - 1 - (if b <? 2 ^ 63 then 0 else 2 ^ 51)) as Ed.
  { unfold sw. rewrite uw_small by (unfold is_uw; change (2 ^ 64) with 18446744073709551616; lia). change (2 ^ (64 - 1)) with (2 ^ 63).
    change (2 ^ 63) with 9223372036854775808. change (2 ^ 64) with 18446744073709551616. change (2 ^ 51) with 2251799813685248.
    destruct (Z.ltb_spec b 9223372036854775808); symmetry; apply (Z.div_unique_pos _ _ _ (b - 8192 * (y - 1))); lia. }
  rewrite Ed. unfold uw. rewrite Zplus_mod_idemp_l, Zmult_mod_idemp_l, Zminus_mod_idemp_l.
  replace (y - 1 - (if b <? 2 ^ 63 then 0 else 2 ^ 51) + 1) with (y - (if b <? 2 ^ 63 then 0 else 2 ^ 51)) by lia.
  destruct (b <? 2 ^ 63); [f_equal; lia|].
  replace ((y - 2 ^ 51) * 8192 - tls) with (top - tls + -1 * 2 ^ 64) by (change (2 ^ 64) with (2 ^ 51 * 8192); lia). apply Z_mod_plus_full.
Qed.

Lemma switch_user m : cs m SSCRATCH <> 0 ->
  let m' := exec K_ISR_SWITCH_SP m in
  mw m' = mw m /\ rg m' sp = cs m SSCRATCH /\ (forall r, r <> sp -> rg m' r = rg m r) /\
  cs m' SSCRATCH = rg m sp /\ (forall c, c <> SSCRATCH -> cs m' c = cs m c).
Proof.
  intros Hs. unfold K_ISR_SWITCH_SP, exec. cbn [fold_left step set_reg set_csr rg mw cs]. rewrite fn_lookup_insert.
  destruct (Z.eqb_spec (cs m SSCRATCH) 0); [done|]. cbn [rg mw cs set_reg set_csr]. rewrite !fn_lookup_insert. split_and!; [done..| |done|]; intros; by rewrite fn_lookup_insert_ne.
Qed.

Lemma switch_super m : cs m SSCRATCH = 0 ->
  let m' := exec K_ISR_SWITCH_SP m in
  mw m' = mw m /\ (forall r, rg m' r = rg m r) /\ (forall c, cs m' c = cs m c).
Proof.
  intros Hs. unfold K_ISR_SWITCH_SP, exec. cbn [fold_left step set_reg set_csr rg mw cs]. rewrite fn_lookup_insert, Hs.
  change (0 =? 0) with true. cbn [rg mw cs set_reg set_csr]. rewrite !fn_lookup_insert. split_and!; [done|..].
  - intros r. destruct (decide (r = sp)) as [->|]; [by rewrite fn_lookup_insert|]. by rewrite !fn_lookup_insert_ne.
  - intros c. destruct (decide (c = SSCRATCH)) as [->|]; [by rewrite fn_lookup_insert, Hs|]. by rewrite !fn_lookup_insert_ne.
Qed.

(** The registers a normal context holds. *)
Definition ctx_regs : list reg := head_regs ++ normal_regs.
Lemma ctx_regs_nodup : NoDup ctx_regs /\ sp ∉ ctx_regs.
Proof. split; apply (bool_decide_unpack _); vm_compute; exact I. Qed.

Lemma ctx_stores : sd_from 0 head_regs ++ sd_from 3 normal_regs = sd_from 0 ctx_regs.
Proof. reflexivity. Qed.
Lemma ctx_loads : ld_from 0 head_regs ++ ld_from 3 normal_regs = ld_from 0 ctx_regs.
Proof. reflexivity. Qed.

(** The state in which the handler is called. *)
Definition at_call (m m' : mach) (b : Z) : Prop :=
  rg m' a0 = b /\ rg m' sp = b /\ cs m' = cs m /\
  (forall r, r ∉ [sp; gp; tp; a0] -> rg m' r = rg m r) /\
  (forall i r, ctx_regs !! i = Some r -> mw m' (slot b (Z.of_nat i)) = rg m r).

Lemma save_normal_spec tls g m :
  let b := u64 (rg m sp - 256) in
  let m' := step (Mv a0 sp) (exec (K_ISR_SAVE_CONTEXT_NORMAL tls g) m) in
  at_call m m' b /\ rg m' tp = recalc_tp tls b /\ rg m' gp = g.
Proof.
  intros b m'. unfold m', K_ISR_SAVE_CONTEXT_NORMAL. rewrite exec_cons. set (m1 := step (Addi sp sp (- (SAVE_SPACE * REG_SIZE))) m).
  assert (rg m1 sp = b) as Hb by (unfold m1; cbn; by rewrite fn_lookup_insert).
  assert (forall r, r <> sp -> rg m1 r = rg m r) as Hm1 by (intros; unfold m1; cbn; by rewrite fn_lookup_insert_ne).
  assert (cs m1 = cs m) as Hc1 by done. clearbody m1.
  rewrite app_assoc, ctx_stores, exec_app.
  destruct (exec_sd ctx_regs 0 m1 ltac:(lia) ltac:(vm_compute; congruence)) as (E1 & E2 & E3).
  generalize dependent (exec (sd_from 0 ctx_regs) m1). intros m2 E1 E2 E3.
  destruct (recalc_exec tls g m2) as ((F1 & F2 & F3) & F4 & F5). generalize dependent (exec (K_ISR_SAVE_RECALC_PTRS tls g) m2). intros m3 F1 F2 F3 F4 F5.
  assert (rg m3 sp = b) as Hb3 by (rewrite F3 by (apply (bool_decide_unpack _); vm_compute; exact I); by rewrite E1).
  split; [split_and!|split].
  - cbn [step set_reg rg mw cs]. by rewrite fn_lookup_insert.
  - cbn [step set_reg rg mw cs]. rewrite fn_lookup_insert_ne by done. done.
  - cbn [step set_reg rg mw cs]. by rewrite F2, E2, Hc1.
  - intros r Hr. rewrite !not_elem_of_cons in Hr. destruct Hr as (? & ? & ? & ? & _). cbn [step set_reg rg mw cs]. rewrite fn_lookup_insert_ne by done.
    rewrite F3 by (rewrite !not_elem_of_cons; split_and!; [done|done|apply not_elem_of_nil]). rewrite E1. by apply Hm1.
  - intros i r Hi. cbn [step set_reg mw]. rewrite F1. pose proof (lookup_lt_Some _ _ _ Hi) as Hlt. rewrite <- Hb, E3 by (cbn in Hlt; lia).
    destruct (Z.leb_spec 0 (Z.of_nat i)); [|lia]. unfold zlen. destruct (Z.ltb_spec (Z.of_nat i) (0 + Z.of_nat (length ctx_regs))); [|lia].
    cbn [andb]. rewrite Z.sub_0_r, Nat2Z.id, Hi. cbn. apply Hm1. intros ->. apply (proj2 ctx_regs_nodup). by eapply list_elem_of_lookup_2.
  - cbn [step set_reg rg mw cs]. rewrite fn_lookup_insert_ne by done. by rewrite F4, E1, Hb.
  - cbn [step set_reg rg mw cs]. rewrite fn_lookup_insert_ne by done. done.
Qed.

Lemma restore_normal_spec m :
  let m' := exec K_ISR_RESTORE_CONTEXT_NORMAL m in
  mw m' = mw m /\ cs m' = cs m /\ rg m' sp = u64 (rg m sp + 256) /\
  (forall i r, ctx_regs !! i = Some r -> rg m' r = mw m (slot (rg m sp) (Z.of_nat i))) /\
  (forall r, r ∉ ctx_regs -> r <> sp -> rg m' r = rg m r).
Proof.
  unfold K_ISR_RESTORE_CONTEXT_NORMAL. rewrite app_assoc, ctx_loads, exec_app. destruct ctx_regs_nodup as [Hnd Hsp].
  destruct (exec_ld ctx_regs 0 m Hsp Hnd) as (E1 & E2 & E3 & E4). generalize dependent (exec (ld_from 0 ctx_regs) m). intros m2 E1 E2 E3 E4.
  rewrite exec_cons. cbn [exec fold_left step set_reg rg mw cs]. split_and!; [done|done|..].
  - rewrite fn_lookup_insert. by rewrite E3.
  - intros i r Hi. rewrite fn_lookup_insert_ne; [by apply E4|]. intros <-. apply Hsp. by eapply list_elem_of_lookup_2.
  - intros r Hr Hne. rewrite fn_lookup_insert_ne by done. by apply E3.
Qed.

(** Every register is in the context, kept by the C functions, or [sp]. *)
Ltac by_decide := apply (bool_decide_unpack _); vm_compute; exact I.
Lemma reg_cases r : r ∈ ctx_regs \/ r = sp \/ r ∈ additional_regs.
Proof. destruct r; first [left; by_decide | right; left; reflexivity | right; right; by_decide]. Qed.
Lemma additional_kept r : r ∈ additional_regs -> r ∈ callee_saved /\ r ∉ [sp; gp; tp; a0].
Proof. destruct r; intros Hr; first [split; by_decide | exfalso; revert Hr; by_decide]. Qed.

(** The call of a C function and the restore undo the save, whatever happened to
    the registers the convention does not keep. *)
Lemma body_normal f m0 m b : c_function f -> at_call m0 m b -> b = u64 (rg m0 sp - 256) -> is_uw 64 (rg m0 sp) ->
  let m' := exec K_ISR_RESTORE_CONTEXT_NORMAL (f m) in
  (forall r, rg m' r = rg m0 r) /\ cs m' SSCRATCH = cs m0 SSCRATCH.
Proof.
  intros Hf (Ha & Hsp & Hcs & Hr & Hctx) Hb Hw. destruct (restore_normal_spec (f m)) as (_ & R2 & R3 & R4 & R5). cbn zeta.
  assert (rg (f m) sp = b) as Hfs by (rewrite (cf_saved _ Hf) by (by left); done).
  split; [|by rewrite R2, (cf_scratch _ Hf), Hcs].
  intros r. destruct (decide (r ∈ ctx_regs)) as [Hin|Hnot].
  - apply list_elem_of_lookup_1 in Hin as [i Hi]. rewrite (R4 i r Hi), Hfs, <- Hsp. pose proof (lookup_lt_Some _ _ _ Hi) as Hlt.
    rewrite (cf_ctx _ Hf) by (split; [lia|change SAVE_SPACE with 32; change (length ctx_regs) with 18%nat in Hlt; lia]). rewrite Hsp. by apply Hctx.
  - destruct (decide (r = sp)) as [->|Hne].
    + rewrite R3, Hfs, Hb. unfold uw. rewrite Zplus_mod_idemp_l. replace (rg m0 sp - 256 + 256) with (rg m0 sp) by lia. by apply Z.mod_small.
    + destruct (reg_cases r) as [?|[?|Hadd]]; [done|done|]. destruct (additional_kept r Hadd) as [Hk Hn].
      rewrite R5, (cf_saved _ Hf) by done. by apply Hr.
Qed.

(** The whole path of an interrupt with a normal context. *)
Lemma isr_normal_ok tls g f m :
  c_function f -> (forall r, is_uw 64 (rg m r)) -> is_uw 64 (cs m SSCRATCH) -> (cs m SSCRATCH <> 0 -> rg m sp <> 0) ->
  let m' := K_ISR_ENTRY_IMPL (K_ISR_SAVE_CONTEXT_NORMAL tls g) K_ISR_RESTORE_CONTEXT_NORMAL f m in
  let kernel_sp := if cs m SSCRATCH =? 0 then rg m sp else cs m SSCRATCH in
  (forall r, rg m' r = rg m r) /\ cs m' SSCRATCH = cs m SSCRATCH /\
  exists mc, m' = exec K_ISR_SWITCH_SP (exec K_ISR_RESTORE_CONTEXT_NORMAL (f mc)) /\
    rg mc a0 = u64 (kernel_sp - 256) /\ rg mc tp = recalc_tp tls (u64 (kernel_sp - 256)) /\ rg mc gp = g /\
    forall i r, ctx_regs !! i = Some r -> mw mc (slot (rg mc a0) (Z.of_nat i)) = rg m r.
Proof.
  intros Hf Hw Hws Hus m' ksp. unfold m', K_ISR_ENTRY_IMPL. set (m1 := exec K_ISR_SWITCH_SP m).
  assert (rg m1 sp = ksp /\ is_uw 64 ksp /\ (forall r, r <> sp -> rg m1 r = rg m r) /\
    cs m1 SSCRATCH = if cs m SSCRATCH =? 0 then 0 else rg m sp) as (Hsp & Hku & Hr1 & Hcs1).
  { unfold ksp, m1. destruct (Z.eqb_spec (cs m SSCRATCH) 0) as [E|E].
    - destruct (switch_super m E) as (_ & S1 & S2). split_and!; [done|apply Hw|by intros; rewrite S1|by rewrite S2].
    - destruct (switch_user m E) as (_ & S1 & S2 & S3 & _). done. }
  clearbody m1. destruct (save_normal_spec tls g m1) as (Hcall & Htp & Hgp). rewrite Hsp in Hcall, Htp.
  generalize dependent (step (Mv a0 sp) (exec (K_ISR_SAVE_CONTEXT_NORMAL tls g) m1)). intros mc Hcall Htp Hgp.
  destruct (body_normal f m1 mc _ Hf Hcall ltac:(by rewrite Hsp) ltac:(by rewrite Hsp)) as (B1 & B2). cbn zeta in B1, B2.
  destruct Hcall as (Ha & _ & _ & _ & Hctx). split; [|split].
  3:{ exists mc. split_and!; [done|done|done|done|]. intros i r Hi. rewrite Ha, (Hctx i r Hi). apply Hr1.
      intros ->. apply (proj2 ctx_regs_nodup). by eapply list_elem_of_lookup_2. }
  all: generalize dependent (exec K_ISR_RESTORE_CONTEXT_NORMAL (f mc)); intros m2 B1 B2; rewrite Hcs1 in B2; subst ksp;
    destruct (Z.eqb_spec (cs m SSCRATCH) 0) as [E|E].
  - intros r. destruct (switch_super m2 B2) as (_ & S1 & _). rewrite S1, B1. destruct (decide (r = sp)) as [->|]; [done|by apply Hr1].
  - intros r. destruct (switch_user m2) as (_ & S1 & S2 & _); [rewrite B2; by apply Hus|].
    destruct (decide (r = sp)) as [->|]; [by rewrite S1|]. rewrite S2, B1 by done. by apply Hr1.
  - destruct (switch_super m2 B2) as (_ & _ & S2). by rewrite S2, B2.
  - destruct (switch_user m2) as (_ & _ & _ & S3 & _); [rewrite B2; by apply Hus|]. by rewrite S3, B1.
Qed.

(** C30: An interrupt is transparent. When the handler keeps the calling convention
    and leaves the saved context and sscratch alone, the entries built with
    [K_ISR_ENTRY_IMPL(NORMAL, ...)] give every register back as it was, [sp]
    and sscratch included, for an interrupt in supervisor mode and for one in
    user mode (where sscratch holds the kernel's stack and the program's [sp]
    is not 0). The handler is called with the address of the context in [a0],
    256 bytes below the kernel's stack pointer, and the context holds the
    interrupted program's registers. *)
Theorem isr_normal_transparent tls g f m :
  c_function f -> (forall r, is_uw 64 (rg m r)) -> is_uw 64 (cs m SSCRATCH) -> (cs m SSCRATCH <> 0 -> rg m sp <> 0) ->
  let m' := K_ISR_ENTRY_IMPL (K_ISR_SAVE_CONTEXT_NORMAL tls g) K_ISR_RESTORE_CONTEXT_NORMAL f m in
  let kernel_sp := if cs m SSCRATCH =? 0 then rg m sp else cs m SSCRATCH in
  (forall r, rg m' r = rg m r) /\ cs m' SSCRATCH = cs m SSCRATCH /\
  exists mc, m' = exec K_ISR_SWITCH_SP (exec K_ISR_RESTORE_CONTEXT_NORMAL (f mc)) /\
    rg mc a0 = u64 (kernel_sp - 256) /\ rg mc tp = recalc_tp tls (u64 (kernel_sp - 256)) /\ rg mc gp = g /\
    forall i r, ctx_regs !! i = Some r -> mw mc (slot (rg mc a0) (Z.of_nat i)) = rg m r.
Proof. apply isr_normal_ok. Qed.

(** A handler that touches neither the context nor the registers. *)
Lemma softirq_c_function : c_function (isr_softirq 0).
Proof. split; [done|done|]. intros m. unfold isr_softirq. cbn. by rewrite fn_lookup_insert_ne. Qed.

(** A program in user mode at 0x1000 with its stack at [usp]; the kernel's stack
    is at 0x80200000. *)
Definition umode (usp cause : Z) : mach :=
  Mach (fun r => if decide (r = sp) then usp else 7) (fun _ => 0)
       (fun c => match c with SSCRATCH => 0x80200000 | SEPC => 0x1000 | SCAUSE => cause | _ => 0 end).

Lemma isr_normal_witness : rg (k_softirq_entry 64 0x80300000 (isr_softirq 0) (umode 0x4000 0)) sp = 0x4000.
Proof.
  apply (isr_normal_transparent 64 0x80300000 (isr_softirq 0) (umode 0x4000 0)).
  - exact softirq_c_function.
  - intros r. cbn. destruct (decide (r = sp)); split; vm_compute; congruence.
  - split; vm_compute; congruence.
  - intros _. vm_compute. congruence.
Defined.

(** ** Where the entries do not do what they should *)

Lemma exec_only_ld l n m : sp ∉ l -> NoDup l -> cs (exec (ld_from n l) m) = cs m.
Proof. intros Hsp Hnd. by destruct (exec_ld l n m Hsp Hnd) as (_ & ? & _). Qed.

(** The timer's entry saves no program counter, but its exit loads one: an
    interrupt by the timer ends at the address the word below the top of the
    stack happened to hold, whatever was interrupted. *)
Theorem timer_entry_loses_sepc tls g f m : c_function f ->
  let kernel_sp := if cs m SSCRATCH =? 0 then rg m sp else cs m SSCRATCH in
  cs (k_timer_entry tls g f m) SEPC = mw m (slot (u64 (kernel_sp - 256)) 31).
Proof.
  intros Hf ksp. unfold k_timer_entry, K_ISR_ENTRY_IMPL. set (m1 := exec K_ISR_SWITCH_SP m).
  assert (rg m1 sp = ksp /\ mw m1 = mw m) as [Hsp Hmw].
  { unfold ksp, m1. destruct (Z.eqb_spec (cs m SSCRATCH) 0) as [E|E].
    - by destruct (switch_super m E) as (? & -> & _).
    - by destruct (switch_user m E) as (? & ? & _). }
  clearbody m1. unfold K_ISR_SAVE_CONTEXT_ADDITIONAL. rewrite exec_cons. set (m2 := step (Addi sp sp _) m1).
  assert (rg m2 sp = u64 (ksp - 256) /\ mw m2 = mw m) as [Hsp2 Hmw2] by (unfold m2; cbn [step set_reg rg mw]; rewrite fn_lookup_insert, Hsp; done).
  clearbody m2. set (all_regs := ctx_regs ++ additional_regs).
  assert (sd_from 0 head_regs ++ sd_from 3 normal_regs ++ sd_from 18 additional_regs ++ K_ISR_SAVE_RECALC_PTRS tls g =
    sd_from 0 all_regs ++ K_ISR_SAVE_RECALC_PTRS tls g) as -> by reflexivity. rewrite exec_app.
  destruct (exec_sd all_regs 0 m2 ltac:(lia) ltac:(vm_compute; congruence)) as (E1 & _ & E3). specialize (E3 31 ltac:(lia)).
  generalize dependent (exec (sd_from 0 all_regs) m2). intros m3 E1 E3. change (zlen all_regs) with 30 in E3. cbn [Z.leb Z.ltb Z.compare andb Z.add Pos.compare Pos.compare_cont] in E3.
  destruct (recalc_exec tls g m3) as ((F1 & _ & F3) & _). generalize dependent (exec (K_ISR_SAVE_RECALC_PTRS tls g) m3). intros m4 F1 F3.
  assert (rg m4 sp = u64 (ksp - 256)) as Hsp4 by (rewrite F3 by by_decide; by rewrite E1).
  set (m5 := step (Mv a0 sp) m4). assert (rg m5 sp = u64 (ksp - 256) /\ mw m5 (slot (u64 (ksp - 256)) 31) = mw m (slot (u64 (ksp - 256)) 31)) as [Hsp5 Hmw5].
  { unfold m5. cbn [step set_reg rg mw]. rewrite fn_lookup_insert_ne by done. split; [done|]. rewrite F1, <- Hmw2, <- Hsp2. done. }
  clearbody m5. assert (forall x, cs (exec K_ISR_SWITCH_SP x) SEPC = cs x SEPC) as Hsw.
  { intros x. destruct (Z.eq_dec (cs x SSCRATCH) 0) as [E|E]; [by destruct (switch_super x E) as (_ & _ & ->)|].
    destruct (switch_user x E) as (_ & _ & _ & _ & S). by apply S. }
  rewrite Hsw. unfold K_ISR_RESTORE_CONTEXT_ADDITIONAL. rewrite !exec_app. cbn [exec fold_left].
  cbn [step set_reg cs]. rewrite !exec_only_ld by by_decide. cbn [exec fold_left step set_reg set_csr rg mw cs].
  rewrite fn_lookup_insert_ne, !fn_lookup_insert by done. rewrite <- Hmw5, <- Hsp5.
  rewrite <- (cf_ctx _ Hf m5 31) by (split; vm_compute; congruence). unfold slot. by rewrite (cf_saved _ Hf m5 sp) by by_decide.
Qed.

Lemma timer_entry_witness : cs (k_timer_entry 64 0 (fun m => m) (umode 0x4000 0)) SEPC = 0.
Proof. apply (timer_entry_loses_sepc 64 0 (fun m => m) (umode 0x4000 0)). split; done. Defined.

(** The other ways in which a trap does not return as it should. After an
    [ecall] the program counter has moved behind the instruction, but the stack
    pointer given back is the kernel's: the entry stores its own [sp] in the
    context. A program whose [sp] is 0 gets the kernel's stack pointer, and
    sscratch is left 0, as if the kernel itself had been interrupted. And
    external interrupts, whose number is 9, end in [_start_hang]: their entry
    is in place 6. *)
Theorem trap_entries_wrong :
  (exists m, k_exception_entry 64 0 (exc_handler false) (umode 0x4000 8) = Some m /\
     cs m SEPC = 0x1004 /\ rg m sp = 0x801FFF00 /\ rg m a0 = 7 /\ cs m SSCRATCH = 0x80200000) /\
  (let m := k_softirq_entry 64 0 (isr_softirq 0) (umode 0 0) in rg m sp = 0x80200000 /\ cs m SSCRATCH = 0) /\
  vector true 9 = Some start_hang /\ vector true 6 = Some k_extirq.
Proof.
  split; [eexists; split; [reflexivity|]; split_and!; vm_compute; reflexivity|]. split; [cbn zeta; split; vm_compute; reflexivity|]. split; reflexivity.
Qed.

(** [k_exception_entry] knows the sixteen causes below 16 and nothing else. *)
Lemma exc_dispatch_spec c : is_uw 64 c ->
  exc_dispatch c = if 16 <=? c then None else Some (if c =? 8 then (k_esr_ecall, Full) else if c =? 3 then (k_esr_break, Normal) else (k_other_exception, Normal)).
Proof.
  intros Hc. unfold exc_dispatch. destruct (Z.leb_spec 16 c) as [H16|H16].
  - by destruct (s64 c <? 0).
  - destruct Hc as [H0 _]. rewrite sw_small by (unfold is_sw; change (2 ^ (64 - 1)) with 9223372036854775808; lia). destruct (Z.ltb_spec c 0); [lia|].
    assert (c = 0 \/ c = 1 \/ c = 2 \/ c = 3 \/ c = 4 \/ c = 5 \/ c = 6 \/ c = 7 \/ c = 8 \/ c = 9 \/ c = 10 \/ c = 11 \/ c = 12 \/ c = 13 \/ c = 14 \/ c = 15) as Hc by lia.
    by repeat (destruct Hc as [->|Hc]); [..|subst].
Qed.

(** The stores before and behind the jump are those of an interrupt. *)
Lemma exc_head_ok m :
  step (Addi sp sp (- (SAVE_SPACE * REG_SIZE))) (exec exc_head m) = exec (sd_from 0 head_regs) (step (Addi sp sp (- (SAVE_SPACE * REG_SIZE))) m).
Proof.
  assert (forall i, u64 (u64 (rg m sp + - (SAVE_SPACE * REG_SIZE)) + i * REG_SIZE) = u64 (rg m sp + - ((SAVE_SPACE - i) * REG_SIZE))) as E.
  { intros i. unfold uw. rewrite Zplus_mod_idemp_l. f_equal. unfold SAVE_SPACE, REG_SIZE. lia. }
  unfold exc_head, head_regs, exec. cbn [fold_left sd_from]. cbn [step set_reg rg mw cs]. unfold set_reg. cbn [rg mw cs].
  rewrite fn_lookup_insert, !fn_lookup_insert_ne by done. change (0 + 1 + 1) with 2. change (0 + 1) with 1. by rewrite !E.
Qed.

Lemma exc_save tls g m : exec (exc_save_normal tls g) (exec exc_head m) = exec (K_ISR_SAVE_CONTEXT_NORMAL tls g) m.
Proof.
  unfold exc_save_normal, K_ISR_SAVE_CONTEXT_NORMAL. generalize (sd_from 3 normal_regs ++ K_ISR_SAVE_RECALC_PTRS tls g). intros R.
  by rewrite !(exec_cons (Addi _ _ _)), exec_app, exc_head_ok.
Qed.

Lemma exc_cause m : cs (exec exc_head (exec K_ISR_SWITCH_SP m)) SCAUSE = cs m SCAUSE.
Proof.
  change (cs (exec K_ISR_SWITCH_SP m) SCAUSE = cs m SCAUSE). destruct (Z.eq_dec (cs m SSCRATCH) 0) as [E|E].
  - by destruct (switch_super m E) as (_ & _ & ->).
  - by destruct (switch_user m E) as (_ & _ & _ & _ & ->).
Qed.

(** Causes other than a system call: the path of an interrupt around the handler. *)
Lemma exc_normal tls g func f m h : exc_dispatch (cs m SCAUSE) = Some (h, Normal) -> func h = (fun m => Some (f m)) ->
  k_exception_entry tls g func m = Some (K_ISR_ENTRY_IMPL (K_ISR_SAVE_CONTEXT_NORMAL tls g) K_ISR_RESTORE_CONTEXT_NORMAL f m).
Proof.
  intros Hd Hf. unfold k_exception_entry. rewrite exc_cause, Hd, exc_save, Hf. unfold K_ISR_ENTRY_IMPL.
  generalize (step (Mv a0 sp) (exec (K_ISR_SAVE_CONTEXT_NORMAL tls g) (exec K_ISR_SWITCH_SP m))). intros x. exact eq_refl.
Qed.

Lemma exc_stops tls g func m h : exc_dispatch (cs m SCAUSE) = Some (h, Normal) -> func h = (fun _ => None) -> k_exception_entry tls g func m = None.
Proof. intros Hd Hf. unfold k_exception_entry. by rewrite exc_cause, Hd, exc_save, Hf. Qed.

(** The breakpoint's handler that goes on. *)
Definition break_next (m : mach) : mach := set_csr SEPC (u64 (cs m SEPC + 2)) m.
Lemma break_c_function : c_function break_next.
Proof. split; [done|done|]. intros m. unfold break_next. cbn. by rewrite fn_lookup_insert_ne. Qed.

Lemma switch_sepc m : cs (exec K_ISR_SWITCH_SP m) SEPC = cs m SEPC.
Proof.
  destruct (Z.eq_dec (cs m SSCRATCH) 0) as [E|E]; [by destruct (switch_super m E) as (_ & _ & ->)|].
  destruct (switch_user m E) as (_ & _ & _ & _ & S). by apply S.
Qed.

Lemma normal_sepc tls g f m : (forall x, cs x SEPC = cs m SEPC -> cs (f x) SEPC = cs (f m) SEPC) ->
  cs (K_ISR_ENTRY_IMPL (K_ISR_SAVE_CONTEXT_NORMAL tls g) K_ISR_RESTORE_CONTEXT_NORMAL f m) SEPC = cs (f m) SEPC.
Proof.
  intros Hf. unfold K_ISR_ENTRY_IMPL. rewrite switch_sepc. destruct (save_normal_spec tls g (exec K_ISR_SWITCH_SP m)) as ((_ & _ & Hcs & _) & _).
  generalize dependent (step (Mv a0 sp) (exec (K_ISR_SAVE_CONTEXT_NORMAL tls g) (exec K_ISR_SWITCH_SP m))). intros x Hcs.
  destruct (restore_normal_spec (f x)) as (_ & -> & _). apply Hf. by rewrite Hcs, switch_sepc.
Qed.

(** Every exception but a system call stops the hart; a breakpoint that a debugger
    continues goes on two bytes further, with all registers as they were. *)
Theorem exceptions_stop tls g conti m :
  is_uw 64 (cs m SCAUSE) -> cs m SCAUSE <> 8 -> (forall r, is_uw 64 (rg m r)) -> is_uw 64 (cs m SSCRATCH) -> (cs m SSCRATCH <> 0 -> rg m sp <> 0) ->
  match k_exception_entry tls g (exc_handler conti) m with
  | None => conti = false \/ cs m SCAUSE <> 3
  | Some m' => conti = true /\ cs m SCAUSE = 3 /\ (forall r, rg m' r = rg m r) /\ cs m' SSCRATCH = cs m SSCRATCH /\ cs m' SEPC = u64 (cs m SEPC + 2)
  end.
Proof.
  intros Hc H8 Hw Hs Hus. pose proof (exc_dispatch_spec (cs m SCAUSE) Hc) as Hd. destruct (Z.leb_spec 16 (cs m SCAUSE)).
  { unfold k_exception_entry. rewrite exc_cause, Hd. right. lia. }
  destruct (Z.eqb_spec (cs m SCAUSE) 8); [done|]. destruct (Z.eqb_spec (cs m SCAUSE) 3) as [E3|E3].
  2:{ rewrite (exc_stops _ _ _ _ _ Hd eq_refl). by right. }
  destruct conti; [|rewrite (exc_stops _ _ _ _ _ Hd eq_refl); by left].
  rewrite (exc_normal _ _ _ break_next _ _ Hd eq_refl). destruct (isr_normal_ok tls g break_next m break_c_function Hw Hs Hus) as (R1 & R2 & _).
  split_and!; [done|done|done|done|]. rewrite normal_sepc; [cbn; by rewrite fn_lookup_insert|].
  intros x Hx. cbn. by rewrite !fn_lookup_insert, Hx.
Qed.

(** The dump of an exception in the kernel: the registers are those the
    interrupted code had, but the stack pointer is printed 144 bytes below the
    context instead of 256 bytes above it. *)
Theorem dump_wrong_sp :
  let m := Mach (fun r => if decide (r = sp) then 0x80200000 else 7) (fun _ => 0) (fun c => match c with SCAUSE => 2 | _ => 0 end) in
  let mc := step (Mv a0 sp) (exec (exc_save_normal 64 0) (exec exc_head (exec K_ISR_SWITCH_SP m))) in
  rg m sp = 0x80200000 /\ (sp, 0x801FFE70) ∈ _DUMP_CTX mc /\ Forall (fun '(r, v) => r = sp \/ v = rg m r) (_DUMP_CTX mc).
Proof.
  cbn zeta. split; [reflexivity|]. split; [by_decide|]. vm_compute. repeat (constructor; [first [by right|by left]|]). constructor.
Qed.
