(* ===== verification/UMode.v ===== *)
(** The floating-point context of src/kernel/inc/k_umode.h: [umode_float_ctx_t]
    with [save] and [restore], on a register file whose width [FLEN] is the
    hart's and need not be the template's. *)
From S2P Require Import Prelude.

(** The hart's floating-point registers and status. *)
Record fpu := Fpu { freg : list Z; CSR_FCSR : Z }.
(** The structure: 32-bit words, and the saved status. *)
Record umode_float_ctx_t := FloatCtx { f : list Z; fcsr : Z }.

(** The words of a structure with the template argument [flen], as declared. *)
Definition f_len (flen : Z) : nat := Z.to_nat (32 * Z.shiftr flen 5).

Section Float.
  (** The width of the hart's registers in bits. *)
  Context (FLEN : Z).

(** One of [fsw], [fsd], [fsq]: [2 ^ ls] words at index [j]; [None] is a store
    behind the array. *)
Definition fs (ls : nat) (v : Z) (j : nat) (l : list Z) : option (list Z) :=
  if decide (j + 2 ^ ls <= length l)%nat
  then Some (take j l ++ ((fun k => u32 (Z.shiftr v (32 * Z.of_nat k))) <$> seq 0 (2 ^ ls)) ++ drop (j + 2 ^ ls) l)
  else None.

(** [flw], [fld], [flq]: a value narrower than the register is extended with ones. *)
Fixpoint words (l : list Z) : Z := match l with [] => 0 | w :: l => w + 2 ^ 32 * words l end.
Definition box (len v : Z) : Z := if len <? FLEN then v + (2 ^ FLEN - 2 ^ len) else v.
Definition fl (ls : nat) (j : nat) (l : list Z) : option Z :=
  if decide (j + 2 ^ ls <= length l)%nat then Some (box (32 * 2 ^ Z.of_nat ls) (words (take (2 ^ ls) (drop j l)))) else None.

(** [_umode_ls_ops] on the eight registers from [start]. *)
Definition fs_ops (ls start : nat) (r : fpu) (l : list Z) : option (list Z) :=
  foldr (fun i k l => v ← freg r !! i; l ← fs ls v (i * 2 ^ ls) l; k l) Some (seq start 8) l.
Definition fl_ops (ls start : nat) (l : list Z) (r : list Z) : option (list Z) :=
  foldr (fun i k r => v ← fl ls (i * 2 ^ ls) l; k (<[i := v]> r)) Some (seq start 8) r.

Definition _f_save (ls : nat) (r : fpu) (c : umode_float_ctx_t) : option umode_float_ctx_t :=
  l ← fs_ops ls 0 r (f c); l ← fs_ops ls 8 r l; l ← fs_ops ls 16 r l; l ← fs_ops ls 24 r l; Some (FloatCtx l (u32 (CSR_FCSR r))).
Definition _f_load (ls : nat) (c : umode_float_ctx_t) (r : fpu) : option fpu :=
  g ← fl_ops ls 0 (f c) (freg r); g ← fl_ops ls 8 (f c) g; g ← fl_ops ls 16 (f c) g; g ← fl_ops ls 24 (f c) g; Some (Fpu g (fcsr c)).

Definition save (flen : Z) (r : fpu) (c : umode_float_ctx_t) : option umode_float_ctx_t :=
  if flen =? 32 then _f_save 0 r c else if flen =? 64 then _f_save 1 r c else if flen =? 128 then _f_save 2 r c else Some c.
Definition restore (flen : Z) (c : umode_float_ctx_t) (r : fpu) : option fpu :=
  if flen =? 32 then _f_load 0 c r else if flen =? 64 then _f_load 1 c r else if flen =? 128 then _f_load 2 c r else Some r.

(** ** Properties *)

(** The words of a register. *)
Definition split (ls : nat) (v : Z) : list Z := (fun k => u32 (Z.shiftr v (32 * Z.of_nat k))) <$> seq 0 (2 ^ ls).

Lemma split_length ls v : length (split ls v) = (2 ^ ls)%nat.
Proof. unfold split. by rewrite length_fmap, length_seq. Qed.

Lemma words_split n : forall v, words ((fun k => u32 (Z.shiftr v (32 * Z.of_nat k))) <$> seq 0 n) = v mod 2 ^ (32 * Z.of_nat n).
Proof.
  induction n as [|n IH]; intros v; [cbn; by rewrite Z.mod_1_r|]. cbn [seq fmap list_fmap words].
  change (32 * Z.of_nat 0) with 0. rewrite Z.shiftr_0_r. specialize (IH (Z.shiftr v 32)). rewrite <- fmap_S_seq, <- list_fmap_compose.
  rewrite (list_fmap_ext _ (fun k => u32 (Z.shiftr (Z.shiftr v 32) (32 * Z.of_nat k)))).
  2:{ intros _ k _. cbn [compose]. rewrite Z.shiftr_shiftr by lia. do 2 f_equal. lia. }
  rewrite IH, Z.shiftr_div_pow2 by lia. replace (32 * Z.of_nat (S n)) with (32 + 32 * Z.of_nat n) by lia. rewrite Z.pow_add_r by lia.
  rewrite (Z.rem_mul_r v) by lia. done.
Qed.

(** After the stores of the registers below [n] the array begins with their words. *)
Lemma fs_prefix ls v n l p : length p = (n * 2 ^ ls)%nat -> (length p + 2 ^ ls <= length l)%nat -> p `prefix_of` l ->
  exists l', fs ls v (n * 2 ^ ls) l = Some l' /\ length l' = length l /\ (p ++ split ls v) `prefix_of` l'.
Proof.
  intros Hp Hl [q ->]. unfold fs. rewrite decide_True by lia. eexists. split; [done|]. fold (split ls v). rewrite <- Hp.
  rewrite length_app in Hl. rewrite !length_app, length_take, length_drop, split_length, length_app. split; [clear -Hl; lia|].
  rewrite take_app_length. exists (drop (length p + 2 ^ ls) (p ++ q)). by rewrite app_assoc.
Qed.

(** The words of a list of registers. *)
Definition image (ls : nat) (vs : list Z) : list Z := vs ≫= split ls.
Lemma image_length ls vs : length (image ls vs) = (length vs * 2 ^ ls)%nat.
Proof. unfold image. induction vs as [|v vs IH]; [done|]. rewrite bind_cons, length_app, split_length, IH. done. Qed.

Lemma stores_prefix ls r n : forall i l, (i + n <= length (freg r))%nat -> length l = (length (freg r) * 2 ^ ls)%nat -> image ls (take i (freg r)) `prefix_of` l ->
  exists l', foldr (fun i k l => v ← freg r !! i; l ← fs ls v (i * 2 ^ ls) l; k l) Some (seq i n) l = Some l' /\
    length l' = length l /\ image ls (take (i + n) (freg r)) `prefix_of` l'.
Proof.
  induction n as [|n IH]; intros i l Hi Hl Hp; [exists l; rewrite Nat.add_0_r; done|]. cbn [seq foldr].
  destruct (lookup_lt_is_Some_2 (freg r) i ltac:(lia)) as [v Hv]. rewrite Hv. cbn [mbind option_bind].
  assert (length (image ls (take i (freg r))) = (i * 2 ^ ls)%nat) as Hlen by (rewrite image_length, length_take; f_equal; lia).
  destruct (fs_prefix ls v i l _ Hlen ltac:(rewrite Hlen, Hl; nia) Hp) as (l1 & -> & Hl1 & Hp1). cbn [mbind option_bind].
  assert (image ls (take (S i) (freg r)) = image ls (take i (freg r)) ++ split ls v) as E.
  { rewrite (take_S_r _ _ _ Hv). unfold image. rewrite bind_app. cbn. by rewrite app_nil_r. }
  destruct (IH (S i) l1 ltac:(lia) ltac:(lia) ltac:(by rewrite E)) as (l2 & E2 & Hl2 & Hp2).
  exists l2. split_and!; [done|lia|]. by rewrite <- Nat.add_succ_comm.
Qed.

(** Reading one register's words back. *)
Lemma fl_image ls vs i v : vs !! i = Some v -> fl ls (i * 2 ^ ls) (image ls vs) = Some (box (32 * 2 ^ Z.of_nat ls) (v mod 2 ^ (32 * 2 ^ Z.of_nat ls))).
Proof.
  intros Hv. pose proof (lookup_lt_Some _ _ _ Hv). unfold fl. rewrite decide_True by (rewrite image_length; nia). do 2 f_equal.
  rewrite <- (take_drop_middle _ _ _ Hv). unfold image. rewrite bind_app. cbn [mbind list_bind].
  assert (length (take i vs ≫= split ls) = (i * 2 ^ ls)%nat) as Hlen by (change (take i vs ≫= split ls) with (image ls (take i vs)); rewrite image_length, length_take; f_equal; lia).
  rewrite <- Hlen, drop_app_length, <- (split_length ls v), take_app_length. unfold split at 1. rewrite words_split. do 2 f_equal. by rewrite Nat2Z.inj_pow.
Qed.

Lemma loads_image ls vs n : forall i g, (i + n <= length vs)%nat -> length g = length vs ->
  exists g', foldr (fun i k r => v ← fl ls (i * 2 ^ ls) (image ls vs); k (<[i := v]> r)) Some (seq i n) g = Some g' /\ length g' = length g /\
    forall j, g' !! j = if decide (i <= j < i + n)%nat then (fun v => box (32 * 2 ^ Z.of_nat ls) (v mod 2 ^ (32 * 2 ^ Z.of_nat ls))) <$> vs !! j else g !! j.
Proof.
  induction n as [|n IH]; intros i g Hi Hg; [exists g; split_and!; [done|done|]; intros j; by rewrite decide_False by lia|]. cbn [seq foldr].
  destruct (lookup_lt_is_Some_2 vs i ltac:(lia)) as [v Hv]. rewrite (fl_image _ _ _ _ Hv). cbn [mbind option_bind].
  destruct (IH (S i) (<[i := box (32 * 2 ^ Z.of_nat ls) (v mod 2 ^ (32 * 2 ^ Z.of_nat ls))]> g) ltac:(lia) ltac:(by rewrite length_insert)) as (g' & E & Hl & Hj).
  exists g'. split_and!; [done|by rewrite Hl, length_insert|]. intros j. rewrite Hj. destruct (decide (j = i)) as [->|Hne].
  - rewrite decide_False, decide_True by lia. rewrite list_lookup_insert_eq by lia. by rewrite Hv.
  - rewrite list_lookup_insert_ne by done. destruct (decide (i <= j < i + S n)%nat), (decide (S i <= j < S i + n)%nat); (done || lia).
Qed.

Lemma f_save_image ls r c : length (freg r) = 32%nat -> length (f c) = (32 * 2 ^ ls)%nat -> _f_save ls r c = Some (FloatCtx (image ls (freg r)) (u32 (CSR_FCSR r))).
Proof.
  intros Hr Hc. unfold _f_save, fs_ops.
  destruct (stores_prefix ls r 8 0 (f c) ltac:(lia) ltac:(lia) ltac:(apply prefix_nil)) as (l1 & -> & L1 & P1). cbn [mbind option_bind].
  destruct (stores_prefix ls r 8 8 l1 ltac:(lia) ltac:(lia) P1) as (l2 & -> & L2 & P2). cbn [mbind option_bind].
  destruct (stores_prefix ls r 8 16 l2 ltac:(lia) ltac:(lia) P2) as (l3 & -> & L3 & P3). cbn [mbind option_bind].
  destruct (stores_prefix ls r 8 24 l3 ltac:(lia) ltac:(lia) P3) as (l4 & -> & L4 & P4). cbn [mbind option_bind].
  rewrite take_ge in P4 by (rewrite Hr; lia). do 2 f_equal. symmetry. destruct P4 as [q ->].
  rewrite length_app, image_length in L4. assert (q = []) as -> by (apply nil_length_inv; nia). by rewrite app_nil_r.
Qed.

Lemma f_load_image ls vs s r : length vs = 32%nat -> length (freg r) = 32%nat ->
  _f_load ls (FloatCtx (image ls vs) s) r = Some (Fpu ((fun v => box (32 * 2 ^ Z.of_nat ls) (v mod 2 ^ (32 * 2 ^ Z.of_nat ls))) <$> vs) s).
Proof.
  intros Hv Hr. unfold _f_load, fl_ops. cbn [f fcsr].
  destruct (loads_image ls vs 8 0 (freg r) ltac:(lia) ltac:(lia)) as (g1 & -> & L1 & P1). cbn [mbind option_bind].
  destruct (loads_image ls vs 8 8 g1 ltac:(lia) ltac:(lia)) as (g2 & -> & L2 & P2). cbn [mbind option_bind].
  destruct (loads_image ls vs 8 16 g2 ltac:(lia) ltac:(lia)) as (g3 & -> & L3 & P3). cbn [mbind option_bind].
  destruct (loads_image ls vs 8 24 g3 ltac:(lia) ltac:(lia)) as (g4 & -> & L4 & P4). cbn [mbind option_bind].
  do 2 f_equal. apply list_eq. intros j. rewrite list_lookup_fmap, P4, P3, P2, P1. repeat case_decide; try done; try lia.
  rewrite !lookup_ge_None_2 by lia. done.
Qed.

(** The three widths for which there is code, with the shift of the index. *)
Definition float_widths : list (Z * nat) := [(32, 0%nat); (64, 1%nat); (128, 2%nat)].
Lemma flen_cases flen ls : In (flen, ls) float_widths ->
  flen = 32 * 2 ^ Z.of_nat ls /\ f_len flen = (32 * 2 ^ ls)%nat /\
  (forall r c, save flen r c = _f_save ls r c) /\ (forall c r, restore flen c r = _f_load ls c r).
Proof. intros [[= <- <-]|[[= <- <-]|[[= <- <-]|[]]]]; split_and!; reflexivity. Qed.

(** Saving stays inside the structure whatever it held, and restoring on any
    register file gives every register's low [flen] bits back, extended with
    ones to the hart's width, and the status. *)
Theorem float_ctx_roundtrip flen ls r c r' :
  In (flen, ls) float_widths -> length (f c) = f_len flen -> length (freg r) = 32%nat -> length (freg r') = 32%nat ->
  exists c', save flen r c = Some c' /\ length (f c') = f_len flen /\
    restore flen c' r' = Some (Fpu ((fun v => box flen (v mod 2 ^ flen)) <$> freg r) (u32 (CSR_FCSR r))).
Proof.
  intros Hin Hc Hr Hr'. destruct (flen_cases _ _ Hin) as (E & El & Es & Er). rewrite El in Hc. rewrite Es, (f_save_image ls) by done.
  eexists. split; [done|]. split; [cbn; by rewrite image_length, Hr, El|]. by rewrite Er, f_load_image, E.
Qed.

(** On a hart of the same width the round trip is exact. *)
Theorem float_ctx_exact ls r c r' :
  In (FLEN, ls) float_widths -> length (f c) = f_len FLEN -> length (freg r) = 32%nat -> length (freg r') = 32%nat ->
  Forall (is_uw FLEN) (freg r) -> is_uw 32 (CSR_FCSR r) -> (c' ← save FLEN r c; restore FLEN c' r') = Some r.
Proof.
  intros Hin Hc Hr Hr' Hw Hs. destruct (float_ctx_roundtrip FLEN ls r c r' Hin Hc Hr Hr') as (c' & -> & _ & E). cbn [mbind option_bind].
  rewrite E. destruct r as [g s]. cbn [freg CSR_FCSR] in *. rewrite uw_small by done. do 2 f_equal. unfold box. rewrite Z.ltb_irrefl.
  rewrite <- (list_fmap_id g) at 2. apply Forall_fmap_ext_1. eapply (Forall_impl _ _ _ Hw). intros v Hv. by apply Z.mod_small.
Qed.
End Float.

(** A register file of 64 bits, and an empty structure. *)
Definition sample_fpu : fpu := Fpu ((fun i => 2 ^ 63 + Z.of_nat i) <$> seq 0 32) 3.
Lemma float_ctx_exact_witness :
  (c' ← save 64 sample_fpu (FloatCtx (replicate 64 0) 0); restore 64 64 c' (Fpu (replicate 32 0) 0)) = Some sample_fpu.
Proof.
  apply (float_ctx_exact 64 1); [right; left; reflexivity|reflexivity..| |split; [vm_compute; congruence|vm_compute; reflexivity]].
  apply Forall_fmap, Forall_forall. intros i Hi. apply elem_of_seq in Hi. unfold is_uw, compose. change (2 ^ 64) with (2 * 2 ^ 63). change (2 ^ 63) with 9223372036854775808. lia.
Defined.
