(* ===== verification/CxxAbi.v ===== *)
(** The C++ run time of k_cxxabi.cpp: the table of the destructors of the
    static objects ([__cxa_atexit]) and their execution ([__cxa_finalize]).

    A destructor is code outside this file: the parameter [destructor] gives
    what the function at an address does with the object it is called with,
    as a change of the rest of the system, [W].  A destructor that registers
    or finalizes others is outside the model.  An index outside of
    [__atexit_funcs] is [None]. *)

From S2P Require Import Prelude.

(** * Data *)

Definition ATEXIT_MAX_FUNCS : Z := 1024.

Record atexit_func_entry_t := AtexitFunc {
  destructor_func : Z; obj_ptr : Z; dso_handle : Z }.

#[global] Instance atexit_func_entry_eq : EqDecision atexit_func_entry_t.
Proof. solve_decision. Defined.

Record cxa := Cxa {
  __atexit_funcs : list atexit_func_entry_t;
  __atexit_func_count : Z }.

Definition cxa_init : cxa :=
  Cxa (replicate (Z.to_nat ATEXIT_MAX_FUNCS) (AtexitFunc 0 0 0)) 0.

Definition set_funcs (l : list atexit_func_entry_t) (s : cxa) : cxa :=
  Cxa l (__atexit_func_count s).

(** * Operations *)

Definition __dso_handle : Z := 0.

(** A failed registration returns -1. *)
Definition __cxa_atexit (f objptr dso : Z) (s : cxa) : Z * cxa :=
  if ATEXIT_MAX_FUNCS <=? __atexit_func_count s then (-1, s)
  else (0, Cxa (<[Z.to_nat (__atexit_func_count s) := AtexitFunc f objptr dso]>
                  (__atexit_funcs s))
               (u32 (__atexit_func_count s + 1))).

(** The registrations the static constructors do one after the other; their
    results are not looked at. *)
Definition cxa_register (rs : list atexit_func_entry_t) (s : cxa) : cxa :=
  fold_left (fun s r => snd (__cxa_atexit (destructor_func r) (obj_ptr r) (dso_handle r) s)) rs s.

Section Finalize.
Context {W : Type} (destructor : Z -> Z -> W -> W).

Definition run_entry (e : atexit_func_entry_t) (w : W) : W :=
  destructor (destructor_func e) (obj_ptr e) w.

(** [while (i--)] of the call with a null pointer. *)
Fixpoint finalize_all (i : nat) (s : cxa) (w : W) : option (cxa * W) :=
  match i with
  | O => Some (s, w)
  | S i =>
      e ← __atexit_funcs s !! i;
      finalize_all i s (if destructor_func e =? 0 then w else run_entry e w)
  end.

(** [while (i--)] of the call with a function. *)
Fixpoint finalize_func (f : Z) (i : nat) (s : cxa) (w : W) : option (cxa * W) :=
  match i with
  | O => Some (s, w)
  | S i =>
      e ← __atexit_funcs s !! i;
      if destructor_func e =? f
      then finalize_func f i
             (set_funcs (<[i := AtexitFunc 0 (obj_ptr e) (dso_handle e)]> (__atexit_funcs s)) s)
             (run_entry e w)
      else finalize_func f i s w
  end.

Definition __cxa_finalize (f : Z) (s : cxa) (w : W) : option (cxa * W) :=
  let i := Z.to_nat (__atexit_func_count s) in
  if f =? 0 then finalize_all i s w else finalize_func f i s w.

(** * The table as a list *)

(** The entries behind the count are the zeroed rest of the array. *)
Definition holds (l : list atexit_func_entry_t) (s : cxa) : Prop :=
  (length l <= 1024)%nat /\
  s = Cxa (l ++ replicate (1024 - length l) (AtexitFunc 0 0 0)) (Z.of_nat (length l)).

Lemma holds_init : holds [] cxa_init.
Proof. split; [cbn; lia | done]. Qed.

Lemma atexit_holds l s f o d :
  holds l s ->
  if decide (length l < 1024)%nat
  then fst (__cxa_atexit f o d s) = 0 /\ holds (l ++ [AtexitFunc f o d]) (snd (__cxa_atexit f o d s))
  else __cxa_atexit f o d s = (-1, s).
Proof.
  intros [Hl ->]. unfold __cxa_atexit, ATEXIT_MAX_FUNCS. cbn [__atexit_func_count __atexit_funcs].
  case_decide; destruct (Z.leb_spec 1024 (Z.of_nat (length l))); try lia; [|done].
  cbn. split; [done|]. unfold holds. rewrite length_app. cbn. split; [lia|].
  rewrite Nat2Z.id, uw_small by (unfold is_uw; lia). f_equal; [|lia].
  rewrite insert_app_r_alt by lia. rewrite Nat.sub_diag, <- app_assoc.
  replace (1024 - length l)%nat with (S (1024 - (length l + 1))) by lia. done.
Qed.

Lemma register_holds rs l s :
  holds l s -> (length l + length rs <= 1024)%nat -> holds (l ++ rs) (cxa_register rs s).
Proof.
  revert l s. induction rs as [|[f o d] rs IH]; intros l s H Hn; cbn in *; [by rewrite app_nil_r|].
  pose proof (atexit_holds l s f o d H) as Ha. rewrite decide_True in Ha by lia.
  rewrite cons_middle, app_assoc. apply IH; [apply Ha|]. rewrite length_app. cbn. lia.
Qed.

(** * What the loops do *)

(** Run the destructors of [l], the last entry first: the innermost
    application of [foldr] is the one of the last entry. *)
Definition run_lifo (l : list atexit_func_entry_t) (w : W) : W := foldr run_entry w l.

Definition has_func (f : Z) (e : atexit_func_entry_t) : Prop := destructor_func e = f.

#[local] Instance has_func_dec f e : Decision (has_func f e).
Proof. unfold has_func. apply _. Defined.

(** The entry after a call of [__cxa_finalize f]. *)
Definition unset (f : Z) (e : atexit_func_entry_t) : atexit_func_entry_t :=
  if destructor_func e =? f then AtexitFunc 0 (obj_ptr e) (dso_handle e) else e.

Lemma finalize_all_run l r n w :
  finalize_all (length l) (Cxa (l ++ r) n) w =
  Some (Cxa (l ++ r) n, run_lifo (filter (fun e => ~ has_func 0 e) l) w).
Proof.
  revert r w. induction l as [|e l IH] using rev_ind; intros r w; [done|].
  rewrite length_app, Nat.add_comm, filter_app. cbn [finalize_all length Nat.add __atexit_funcs].
  rewrite <- app_assoc. cbn [app]. rewrite list_lookup_middle by done. cbn [mbind option_bind].
  rewrite IH. unfold run_lifo. rewrite foldr_app. do 3 f_equal.
  destruct (Z.eqb_spec (destructor_func e) 0).
  - by rewrite filter_cons_False by (unfold has_func; tauto).
  - by rewrite filter_cons_True by done.
Qed.

Lemma finalize_func_run f l r n w :
  finalize_func f (length l) (Cxa (l ++ r) n) w =
  Some (Cxa ((unset f <$> l) ++ r) n, run_lifo (filter (has_func f) l) w).
Proof.
  revert r w. induction l as [|e l IH] using rev_ind; intros r w; [done|].
  rewrite length_app, Nat.add_comm, filter_app. cbn [finalize_func length Nat.add __atexit_funcs].
  rewrite <- app_assoc. cbn [app]. rewrite list_lookup_middle by done. cbn [mbind option_bind].
  rewrite fmap_app. cbn [fmap list_fmap]. unfold unset at 2. rewrite <- app_assoc. cbn [app].
  unfold run_lifo. rewrite foldr_app. destruct (Z.eqb_spec (destructor_func e) f).
  - rewrite filter_cons_True by done. unfold set_funcs. cbn [__atexit_func_count].
    rewrite insert_app_r_alt, Nat.sub_diag by lia. cbn. by rewrite IH.
  - rewrite filter_cons_False by done. by rewrite IH.
Qed.

Lemma finalize_all_holds l s w :
  holds l s ->
  __cxa_finalize 0 s w = Some (s, run_lifo (filter (fun e => ~ has_func 0 e) l) w).
Proof.
  intros [_ ->]. unfold __cxa_finalize. cbn [Z.eqb __atexit_func_count]. rewrite Nat2Z.id.
  apply finalize_all_run.
Qed.

Lemma finalize_func_holds f l s w :
  f <> 0 -> holds l s ->
  exists s', __cxa_finalize f s w = Some (s', run_lifo (filter (has_func f) l) w) /\
    holds (unset f <$> l) s'.
Proof.
  intros Hf [Hl ->]. unfold __cxa_finalize. cbn [__atexit_func_count].
  rewrite (proj2 (Z.eqb_neq f 0) Hf), Nat2Z.id, finalize_func_run.
  eexists. split; [done|]. unfold holds. rewrite length_fmap. done.
Qed.

Lemma unset_idem f (l : list atexit_func_entry_t) : f <> 0 -> unset f <$> (unset f <$> l) = unset f <$> l.
Proof.
  intros Hf. rewrite <- list_fmap_compose. apply list_fmap_ext. intros _ e _. cbn. unfold unset.
  destruct (Z.eqb_spec (destructor_func e) f); cbn; by case_match; simplify_eq; lia || done.
Qed.

Lemma filter_unset_same f (l : list atexit_func_entry_t) : f <> 0 -> filter (has_func f) (unset f <$> l) = [].
Proof.
  intros Hf. induction l as [|e l IH]; [done|]. cbn [fmap list_fmap].
  rewrite filter_cons_False; [done|]. unfold unset, has_func.
  destruct (Z.eqb_spec (destructor_func e) f); cbn; lia.
Qed.

Lemma filter_unset_rest f l :
  f <> 0 -> Forall (fun e => ~ has_func 0 e) l ->
  filter (fun e => ~ has_func 0 e) (unset f <$> l) = filter (fun e => ~ has_func f e) l.
Proof.
  intros Hf. induction 1 as [|e l He _ IH]; [done|]. cbn [fmap list_fmap]. unfold unset at 1.
  destruct (Z.eqb_spec (destructor_func e) f).
  - rewrite 2 filter_cons_False; unfold has_func; cbn; tauto.
  - rewrite 2 filter_cons_True by done. by rewrite IH.
Qed.

Lemma filter_called l :
  Forall (fun e => destructor_func e <> 0) l -> filter (fun e => ~ has_func 0 e) l = l.
Proof. induction 1; [done|]. rewrite filter_cons_True by done. by f_equal. Qed.

(** * Theorems *)

(** After any registrations that fit the table, [__cxa_finalize(NULL)]
    runs every destructor once with its object, the last registered first.
    [__cxa_finalize(f)] runs the destructors with that address, also the last
    first; a second call runs nothing and leaves the table as it is, and a
    final [__cxa_finalize(NULL)] runs exactly the others.  When the table is
    full a further registration returns -1 and changes nothing. *)
Theorem cxa_finalize_correct rs w :
  (length rs <= 1024)%nat -> Forall (fun e => destructor_func e <> 0) rs ->
  let s := cxa_register rs cxa_init in
  __cxa_finalize 0 s w = Some (s, run_lifo rs w) /\
  (forall f, f <> 0 -> exists s',
    __cxa_finalize f s w = Some (s', run_lifo (filter (has_func f) rs) w) /\
    (forall w', __cxa_finalize f s' w' = Some (s', w')) /\
    (forall w', __cxa_finalize 0 s' w' =
       Some (s', run_lifo (filter (fun e => ~ has_func f e) rs) w'))) /\
  (forall f o d, length rs = 1024%nat -> __cxa_atexit f o d s = (-1, s)).
Proof.
  intros Hn Hf s. assert (H : holds rs s) by (apply (register_holds rs []); [apply holds_init|done]).
  clearbody s. split_and!.
  - rewrite (finalize_all_holds rs) by done. by rewrite filter_called.
  - intros f Hf0. destruct (finalize_func_holds f rs s w Hf0 H) as (s' & E & H').
    exists s'. split_and!; [done|intros w'..].
    + destruct (finalize_func_holds f _ s' w' Hf0 H') as (s'' & E2 & H'').
      rewrite E2, filter_unset_same by done. do 2 f_equal.
      rewrite unset_idem in H'' by done. by destruct H' as [_ ->], H'' as [_ ->].
    + by rewrite (finalize_all_holds _ _ _ H'), filter_unset_rest.
  - intros f o d Hl. pose proof (atexit_holds rs s f o d H) as Ha. by rewrite decide_False in Ha by lia.
Qed.

(** [__cxa_finalize(NULL)] does not unset the entries it has called, though
    the comment in its loop relies on that: a second call runs every
    destructor again. *)
Theorem cxa_finalize_again rs w :
  (length rs <= 1024)%nat -> Forall (fun e => destructor_func e <> 0) rs ->
  let s := cxa_register rs cxa_init in
  (__cxa_finalize 0 s w ≫= fun '(s1, w1) => __cxa_finalize 0 s1 w1)
    = Some (s, run_lifo rs (run_lifo rs w)).
Proof.
  intros Hn Hf s. assert (H : holds rs s) by (apply (register_holds rs []); [apply holds_init|done]).
  rewrite (finalize_all_holds rs) by done. cbn [mbind option_bind].
  rewrite (finalize_all_holds rs) by done. by rewrite filter_called.
Qed.

End Finalize.

(** Three static objects, two of them of one class; the trace of the calls. *)
Definition cxa_sample : list atexit_func_entry_t :=
  [AtexitFunc 0x100 1 0; AtexitFunc 0x200 2 0; AtexitFunc 0x100 3 0].

Lemma cxa_finalize_witness :
  let s := cxa_register cxa_sample cxa_init in
  option_map snd (__cxa_finalize (fun f o w => w ++ [(f, o)]) 0 s [])
    = Some [(0x100, 3); (0x200, 2); (0x100, 1)] /\
  (exists s', __cxa_finalize (fun f o w => w ++ [(f, o)]) 0x100 s []
    = Some (s', [(0x100, 3); (0x100, 1)])).
Proof.
  destruct (cxa_finalize_correct (fun f o w => w ++ [(f, o)]) cxa_sample []) as (E & F & _);
    [cbn; lia | repeat constructor; cbn; lia |].
  split; [by rewrite E|]. destruct (F 0x100) as (s' & E' & _); [lia|]. exists s'. by rewrite E'.
Defined.
