(* ===== verification/Entry.v ===== *)
(** The assembly that runs before and around the kernel's C code:
    src/kernel/main/preloader.S (the first instructions of a hart, the boot page
    table) and src/kernel/main/prepC.S (BSS, stacks, thread-local data and the
    order of the calls into C), on a small RISC-V machine whose fetches, loads
    and stores go through the page table that satp selects. *)
From stdpp Require Import functions.
From S2P Require Import Prelude KDefs Bytes Mmu MmuSpec Traps.

(** ** The machine *)

(** A source operand: [zero] or a register. *)
Inductive src := zero | R (r : reg).
Coercion R : reg >-> src.

Inductive ecsr := CSR_SATP | CSR_STVEC | CSR_SIE | CSR_SIP | CSR_SSCRATCH.
#[export] Instance ecsr_eq_dec : EqDecision ecsr.
Proof. solve_decision. Defined.

(** The labels of the code, the symbols of data (in preloader.S and from the
    linker script kernel.ldS) and the C functions. *)
Inductive label :=
  | _entry | _jump_start | _entry_hart | _setup_pgtbl | _find_pgtbl_loop | _find_pgtbl_next | _load_pgtbl | _set_mmu | _entry_hang
  | _start | _bss_zero | _boot | _start_warm | _kernel_exit | _start_hang | _start_hart | _exit_hart
  | _setup_hart | _process_tbss | _tbss_zero | _process_tdata | _tdata_copy | _fini_setup_hart.
#[export] Instance label_eq_dec : EqDecision label.
Proof. solve_decision. Defined.

Inductive dsym :=
  | _hart_lottery | _start_addr | _mmutest | _default_pgtbl | _startup_pgtbl | _entry_pgtbl_start | _entry_pgtbl_end
  | __global_pointer | _bss_start | _bss_end | _tbss_start | _tbss_end | _tdata_start | _tdata_end.

Inductive cfn := C_k_boot | C_k_boot_harts | C_k_pre_main | C_k_main | C_k_after_main | C_k_before_cleanup | C_k_cleanup.

Inductive instr :=
  | LlaL (rd : reg) (l : label)
  | Lla (rd : reg) (s : dsym)
  | Li (rd : reg) (v : Z)
  | Mv (rd : reg) (rs : src)
  | Addi (rd rs : reg) (imm : Z)
  | Sub (rd x y : reg)
  | And (rd x y : reg)
  | Or (rd x y : reg)
  | Slli (rd rs : reg) (n : Z)
  | Srli (rd rs : reg) (n : Z)
  | REG_L (rd : reg) (off : Z) (rs : reg)
  | REG_S (rs : src) (off : Z) (rb : reg)
  | AmoaddW (rd rs rb : reg)
  | Csrw (c : ecsr) (rs : src)
  | Fence                              (** [fence.i], [sfence.vma] *)
  | Ecall
  | Wfi
  | Beq (x y : reg) (l : label)
  | Bne (x : reg) (y : src) (l : label)
  | Blt (x y : reg) (l : label)
  | J (l : label)
  | Jr (r : reg)
  | Call (l : label)
  | CallC (f : cfn)
  | Ret.

Inductive line := L (l : label) | I (i : instr).

(** ** The code *)

Definition MAGIC : Z := 0xb00797b1.

(** preloader.S *)
Definition preloader : list line := [
  L _entry;
    I (Lla a3 _hart_lottery); I (Li a2 1); I (AmoaddW a3 a2 a3); I (Bne a3 zero _entry_hang);
    I (Mv s0 a0); I (Mv s1 a1);
    I (LlaL a3 _entry_hang); I (Csrw CSR_STVEC a3);
    I (Call _setup_pgtbl);
  L _jump_start;
    I (Lla a0 _start_addr); I (REG_L a0 0 a0); I (Jr a0);
  L _entry_hart;
    I (Mv s0 a0); I (Mv s1 a1);
    I (LlaL a3 _entry_hang); I (Csrw CSR_STVEC a3);
    I (Lla a5 _startup_pgtbl); I (Call _set_mmu);
    I (REG_L a1 (-8) a1); I (Jr a1);
  L _setup_pgtbl;
    I (Li a7 0x10); I (Li a6 4); I Ecall; I (Bne a0 zero _entry_hang); I (Mv s2 a1);
    I (Li a6 5); I Ecall; I (Bne a0 zero _entry_hang); I (Mv s3 a1);
    I (Li a6 6); I Ecall; I (Bne a0 zero _entry_hang); I (Mv s4 a1);
    I (Lla a0 _entry_pgtbl_start); I (Lla a1 _entry_pgtbl_end); I (Lla a4 _default_pgtbl);
  L _find_pgtbl_loop;
    I (Beq a0 a1 _load_pgtbl);
    I (REG_L a2 0 a0); I (Li a3 0xffffffff); I (And a2 a2 a3); I (Li a3 MAGIC); I (Bne a2 a3 _find_pgtbl_next);
    I (REG_L a2 8 a0); I (Bne a2 s2 _find_pgtbl_next);
    I (REG_L a2 16 a0); I (Bne a2 s3 _find_pgtbl_next);
    I (REG_L a2 24 a0); I (Bne a2 s4 _find_pgtbl_next);
    I (Addi a4 a0 32); I (J _load_pgtbl);
  L _find_pgtbl_next;
    I (Addi a0 a0 64); I (J _find_pgtbl_loop);
  L _load_pgtbl;
    I (Lla a5 _startup_pgtbl); I (Addi a5 a5 1024);
    I (REG_L a3 0 a4); I (REG_S a3 (-1024) a5); I (REG_S a3 1024 a5);
    I (REG_L a3 8 a4); I (REG_S a3 (8 - 1024) a5); I (REG_S a3 (8 + 1024) a5);
    I (REG_L a3 16 a4); I (REG_S a3 (16 - 1024) a5); I (REG_S a3 (16 + 1024) a5);
    I (REG_L a3 24 a4); I (REG_S a3 (24 - 1024) a5); I (REG_S a3 (24 + 1024) a5);
  L _set_mmu;
    I (Srli a5 a5 12); I (Li a4 8); I (Slli a4 a4 60); I (Or a5 a4 a5); I (Csrw CSR_SATP a5); I Fence; I Fence; I Fence;
    I (Lla t0 _mmutest); I (Li t1 1); I (AmoaddW t2 t1 t0);
    I (Li t2 0xFFFFFFC0); I (Slli t2 t2 32); I (Or t0 t0 t2); I (AmoaddW t2 t1 t0);
    I Ret;
  L _entry_hang;
    I Wfi; I (J _entry_hang)].

(** prepC.S; [__SIZEOF_POINTER__] is 8. *)
Definition prepC : list line := [
  L _start;
    I (Lla gp __global_pointer); I (Lla a4 _bss_start); I (Lla a5 _bss_end);
  L _bss_zero;
    I (REG_S zero 0 a4); I (Addi a4 a4 8); I (Blt a4 a5 _bss_zero);
  L _boot;
    I (Csrw CSR_SIE zero); I (Csrw CSR_SIP zero); I (LlaL a3 _start_hang); I (Csrw CSR_STVEC a3);
    I (Li sp K_START_STACK_ADDR);
    I (Mv a0 s0); I (Mv a1 s1); I (CallC C_k_boot);
    I (Bne a0 zero _kernel_exit);
    I (Call _setup_hart);
    I (Mv a0 s0); I (CallC C_k_boot_harts);
  L _start_warm;
    I (Mv a0 s0); I (CallC C_k_pre_main); I (Bne a0 zero _kernel_exit);
    I (CallC C_k_main); I (CallC C_k_after_main);
  L _kernel_exit;
    I (Mv s2 a0); I (CallC C_k_before_cleanup); I (Mv a0 s2);
    I (Li sp K_START_STACK_ADDR); I (Mv tp zero);
    I (CallC C_k_cleanup); I (J _start_hang);
  L _start_hang;
    I Wfi; I (J _start_hang);
  L _start_hart;
    I (REG_L a2 (-16) s1); I (Csrw CSR_SATP a2); I Fence; I Fence; I Fence;
    I (Lla gp __global_pointer);
    I (Mv a1 s1); I (Call _setup_hart);
    I (Mv a0 s0); I (CallC C_k_pre_main); I (Bne a0 zero _exit_hart);
    I (CallC C_k_main); I (CallC C_k_after_main);
  L _exit_hart;
    I (Li a7 0x48534D); I (Li a6 1); I Ecall; I (J _start_hang);
  L _setup_hart;
    I (Csrw CSR_SIE zero); I (Csrw CSR_SIP zero); I (Mv sp a1);
  L _process_tbss;
    I (Lla a4 _tbss_start); I (Lla a5 _tbss_end); I (Beq a4 a5 _process_tdata);
    I (Sub a2 a5 a4); I (Sub sp sp a2); I (Mv tp sp); I (Mv a3 tp);
  L _tbss_zero;
    I (REG_S zero 0 a3); I (Addi a3 a3 8); I (Addi a4 a4 8); I (Blt a4 a5 _tbss_zero);
  L _process_tdata;
    I (Lla a3 _tdata_start); I (Lla a2 _tdata_end); I (Beq a3 a2 _fini_setup_hart);
    I (Sub a2 a2 a3); I (Sub sp sp a2); I (Mv tp sp);
    I (Lla a4 _tdata_end); I (Mv a5 tp);
  L _tdata_copy;
    I (REG_L a2 0 a3); I (REG_S a2 0 a5); I (Addi a3 a3 8); I (Addi a5 a5 8); I (Blt a3 a4 _tdata_copy);
  L _fini_setup_hart;
    I (Csrw CSR_SSCRATCH zero); I Ret].

(** The instructions in order, and the place of a label among them. *)
Fixpoint instrs (l : list line) : list instr :=
  match l with [] => [] | L _ :: l => instrs l | I i :: l => i :: instrs l end.
Fixpoint label_from (n : nat) (l : list line) (x : label) : nat :=
  match l with
  | [] => n
  | L y :: l => if decide (x = y) then n else label_from n l x
  | I _ :: l => label_from (S n) l x
  end.
Definition text : list line := preloader ++ prepC.
Definition code : list instr := Eval vm_compute in instrs text.
Definition pos (x : label) : nat := label_from 0 text x.

(** The vendor tables of preloader.S: four words of key, four entries; and the
    entries used when no key fits. *)
Definition default_pgtbl : list Z := [0xef; 0x100000EF; 0x200000EF; 0x300000EF].
Record vendor := Vendor { v_magic : Z; v_vendorid : Z; v_archid : Z; v_impid : Z; v_entries : list Z }.
Definition pgtbl_c906 : vendor :=
  Vendor MAGIC 0x5b7 0 0 [0xef; 0x100000EF; Z.lor 0x200000EF (Z.shiftl 0x180 54); Z.lor 0x300000EF (Z.shiftl 0x180 54)].

(** ** Execution *)

(** A hart; physical memory, in words of eight bytes by address, is beside it. *)
Record hart := Hart { h_pc : nat; h_reg : reg -> Z; h_csr : ecsr -> Z }.
Definition val (h : hart) (x : src) : Z := match x with zero => 0 | R r => h_reg h r end.
Definition put_reg (r : reg) (v : Z) (h : hart) : hart := Hart (h_pc h) (<[r := v]> (h_reg h)) (h_csr h).
Definition put_csr (c : ecsr) (v : Z) (h : hart) : hart := Hart (h_pc h) (h_reg h) (<[c := v]> (h_csr h)).
Definition goto (n : nat) (h : hart) : hart := Hart n (h_reg h) (h_csr h).
Definition next (h : hart) : hart := goto (S (h_pc h)) h.

(** Translation under a value of satp, with the R, W, X, U and G bits. *)
Definition satp_root (satp : Z) : Z := 4096 * getf satp 0 44.
Definition xlate (m : gmap Z Z) (satp va : Z) : option (Z * Z) :=
  let mode := getf satp 60 4 in
  if mode =? 0 then Some (va, 7)
  else if mode =? 8 then translate 39 m (satp_root satp) va
  else if mode =? 9 then translate 48 m (satp_root satp) va
  else if mode =? 10 then translate 57 m (satp_root satp) va
  else None.

(** An access in supervisor mode: the bit asked for is set, and U is not. *)
Inductive access := ARead | AWrite | AExec.
Definition allowed (k : access) (flags : Z) : bool :=
  Z.testbit flags (match k with ARead => 0 | AWrite => 1 | AExec => 2 end) && negb (Z.testbit flags 3).
Definition reach (k : access) (m : gmap Z Z) (h : hart) (va : Z) : option Z :=
  match xlate m (h_csr h CSR_SATP) va with
  | Some (pa, flags) => if allowed k flags then Some pa else None
  | None => None
  end.

Section Run.
  (** Where the linker places the instructions and the symbols; the firmware's
      answer to a call ([None]: the hart is stopped); what a C function does
      ([None]: it does not return). *)
  Context (place : nat -> Z) (addr : dsym -> Z).
  Context (sbi : Z -> Z -> option (Z * Z)).
  Context (c_call : cfn -> gmap Z Z -> hart -> option (gmap Z Z * (reg -> Z) * (ecsr -> Z))).

(** The code of the kernel is linked at [K_VADDR_BASE] above where it is loaded,
    the first part at the address where it is loaded. *)
Definition load_addr (a : Z) : Z := if a <? K_VADDR_BASE then a else a - K_VADDR_BASE.
Definition find_pc (a : Z) : option nat := fst <$> list_find (fun i => place i = a) (seq 0 (length code)).
Definition jump (a : Z) (m : gmap Z Z) (h : hart) : option (gmap Z Z * hart) :=
  match find_pc a with Some n => Some (m, goto n h) | None => None end.

(** A fault goes to stvec. *)
Definition trap (m : gmap Z Z) (h : hart) : option (gmap Z Z * hart) := jump (h_csr h CSR_STVEC) m h.

Definition load (va : Z) (m : gmap Z Z) (h : hart) (k : Z -> option (gmap Z Z * hart)) : option (gmap Z Z * hart) :=
  if negb (va mod 8 =? 0) then trap m h
  else match reach ARead m h va with None => trap m h | Some pa => match m !! pa with Some v => k v | None => None end end.
Definition store (va v : Z) (m : gmap Z Z) (h : hart) : option (gmap Z Z * hart) :=
  if negb (va mod 8 =? 0) then trap m h
  else match reach AWrite m h va with
       | None => trap m h
       | Some pa => match m !! pa with Some _ => Some (<[pa := v]> m, next h) | None => None end
       end.
(** [amoadd.w] on the lower half of a word. *)
Definition amoadd (rd : reg) (va v : Z) (m : gmap Z Z) (h : hart) : option (gmap Z Z * hart) :=
  if negb (va mod 8 =? 0) then None
  else match reach ARead m h va, reach AWrite m h va with
       | Some pa, Some _ =>
           match m !! pa with
           | Some w => Some (<[pa := setf w 0 32 (u32 (w + v))]> m, next (put_reg rd (u64 (s32 w)) h))
           | None => None
           end
       | _, _ => trap m h
       end.

Definition branch (b : bool) (l : label) (m : gmap Z Z) (h : hart) : option (gmap Z Z * hart) :=
  Some (m, if b then goto (pos l) h else next h).

Definition do_instr (i : instr) (m : gmap Z Z) (h : hart) : option (gmap Z Z * hart) :=
  let set rd v := Some (m, next (put_reg rd v h)) in
  let r := h_reg h in
  match i with
  | LlaL rd l => set rd (place (pos l))
  | Lla rd s => set rd (addr s)
  | Li rd v => set rd v
  | Mv rd rs => set rd (val h rs)
  | Addi rd rs imm => set rd (u64 (r rs + imm))
  | Sub rd x y => set rd (u64 (r x - r y))
  | And rd x y => set rd (Z.land (r x) (r y))
  | Or rd x y => set rd (Z.lor (r x) (r y))
  | Slli rd rs n => set rd (u64 (Z.shiftl (r rs) n))
  | Srli rd rs n => set rd (Z.shiftr (r rs) n)
  | REG_L rd off rs => load (u64 (r rs + off)) m h (fun v => set rd v)
  | REG_S rs off rb => store (u64 (r rb + off)) (val h rs) m h
  | AmoaddW rd rs rb => amoadd rd (r rb) (r rs) m h
  | Csrw c rs => Some (m, next (put_csr c (val h rs) h))
  | Fence => Some (m, next h)
  | Ecall => match sbi (r a7) (r a6) with Some (e, v) => Some (m, next (put_reg a1 v (put_reg a0 e h))) | None => None end
  | Wfi => Some (m, next h)
  | Beq x y l => branch (r x =? r y) l m h
  | Bne x y l => branch (negb (r x =? val h y)) l m h
  | Blt x y l => branch (s64 (r x) <? s64 (r y)) l m h
  | J l => Some (m, goto (pos l) h)
  | Jr x => jump (r x) m h
  | Call l => Some (m, goto (pos l) (put_reg ra (place (S (h_pc h))) h))
  | CallC f =>
      match c_call f m (put_reg ra (place (S (h_pc h))) h) with
      | Some (m', r', c') => Some (m', Hart (S (h_pc h)) r' c')
      | None => None
      end
  | Ret => jump (r ra) m h
  end.

(** One instruction. Its fetch must lead to where it was loaded. *)
Definition fetch_ok (m : gmap Z Z) (h : hart) : bool :=
  match reach AExec m h (place (h_pc h)) with Some pa => pa =? load_addr (place (h_pc h)) | None => false end.
Definition step (s : gmap Z Z * hart) : option (gmap Z Z * hart) :=
  let '(m, h) := s in
  if fetch_ok m h then match code !! h_pc h with Some i => do_instr i m h | None => None end
  else trap m h.

(** The arguments the C functions have. *)
Definition c_args (f : cfn) (r : reg -> Z) : list Z :=
  match f with
  | C_k_boot => [r a0; r a1]
  | C_k_boot_harts | C_k_pre_main | C_k_after_main | C_k_cleanup => [r a0]
  | C_k_main | C_k_before_cleanup => []
  end.
(** A call: the function, its arguments, the stack pointer and the thread
    pointer it starts with, and what it leaves in [a0] and [a1]. *)
Record event := Event { e_fn : cfn; e_args : list Z; e_sp : Z; e_tp : Z; e_ret : Z * Z }.
Definition call_of (s s' : gmap Z Z * hart) : list event :=
  let '(m, h) := s in
  if fetch_ok m h then
    match code !! h_pc h with
    | Some (CallC f) => [Event f (c_args f (h_reg h)) (h_reg h sp) (h_reg h tp) (h_reg s'.2 a0, h_reg s'.2 a1)]
    | _ => []
    end
  else [].

(** Runs, with the calls they make. *)
Inductive trace : gmap Z Z * hart -> list event -> gmap Z Z * hart -> Prop :=
  | trace_refl s : trace s [] s
  | trace_step s s' s'' l : step s = Some s' -> trace s' l s'' -> trace s (call_of s s' ++ l) s''.
End Run.
