(* ===== verification/EntryBoot.v ===== *)
(** What the first instructions of a hart do (the machine and the code are in
    Entry.v): rules for runs and their calls, the boot page table, the lottery,
    the choice of a vendor table, and the jump to the kernel's address space. *)
From stdpp Require Import functions.
From S2P Require Import Prelude KDefs Bytes Mmu MmuSpec Traps Entry.

(** ** Reasoning about runs *)

Section Runs.
  Context (place : nat -> Z) (addr : dsym -> Z).
  Context (sbi : Z -> Z -> option (Z * Z)).
  Context (c_call : cfn -> gmap Z Z -> hart -> option (gmap Z Z * (reg -> Z) * (ecsr -> Z))).
  Abbreviation step := (step place addr sbi c_call).
  Abbreviation trace := (trace place addr sbi c_call).
  Abbreviation do_instr := (do_instr place addr sbi c_call).

(** The run makes the calls [l] and leads to a state that satisfies [P]; [runs]
    is without calls. *)
Definition traced (l : list event) (s : gmap Z Z * hart) (P : gmap Z Z -> hart -> Prop) : Prop :=
  exists m' h', trace s l (m', h') /\ P m' h'.
Definition runs (s : gmap Z Z * hart) (P : gmap Z Z -> hart -> Prop) : Prop := traced [] s P.

Lemma trace_app s1 l1 s2 l2 s3 : trace s1 l1 s2 -> trace s2 l2 s3 -> trace s1 (l1 ++ l2) s3.
Proof. induction 1; [done|]. intros H3. rewrite <- app_assoc. econstructor; eauto. Qed.

Lemma runs_now (P : gmap Z Z -> hart -> Prop) m h : P m h -> runs (m, h) P.
Proof. intros H. exists m, h. split; [constructor|done]. Qed.

Definition is_call (i : instr) : bool := match i with CallC _ => true | _ => false end.

Lemma traced_instr l m h i m' h' P : fetch_ok place m h = true -> code !! h_pc h = Some i -> is_call i = false -> do_instr i m h = Some (m', h') ->
  traced l (m', h') P -> traced l (m, h) P.
Proof.
  intros Hf Hi Hc Hd (m2 & h2 & Hs & HP). exists m2, h2. split; [|done]. assert (call_of place (m, h) (m', h') = []) as E.
  { cbn. rewrite Hf, Hi. by destruct i. }
  change l with ([] ++ l). rewrite <- E. econstructor; [|exact Hs]. cbn. by rewrite Hf, Hi.
Qed.

Lemma runs_instr m h i m' h' P : fetch_ok place m h = true -> code !! h_pc h = Some i -> is_call i = false -> do_instr i m h = Some (m', h') ->
  runs (m', h') P -> runs (m, h) P.
Proof. apply traced_instr. Qed.

Lemma traced_call l f m h m' r' c' P : fetch_ok place m h = true -> code !! h_pc h = Some (CallC f) ->
  c_call f m (put_reg ra (place (S (h_pc h))) h) = Some (m', r', c') -> traced l (m', Hart (S (h_pc h)) r' c') P ->
  traced (Event f (c_args f (h_reg h)) (h_reg h sp) (h_reg h tp) (r' a0, r' a1) :: l) (m, h) P.
Proof.
  intros Hf Hi Hd (m2 & h2 & Hs & HP). exists m2, h2. split; [|done].
  assert (call_of place (m, h) (m', Hart (S (h_pc h)) r' c') = [Event f (c_args f (h_reg h)) (h_reg h sp) (h_reg h tp) (r' a0, r' a1)]) as E by (cbn; by rewrite Hf, Hi).
  change (?x :: l) with ([x] ++ l). rewrite <- E. econstructor; [|exact Hs]. cbn -[put_reg]. rewrite Hf, Hi. cbn -[put_reg]. by rewrite Hd.
Qed.

Lemma traced_bind l1 l2 s P Q : traced l1 s P -> (forall m h, P m h -> traced l2 (m, h) Q) -> traced (l1 ++ l2) s Q.
Proof. intros (m & h & Hs & HP) H. destruct (H m h HP) as (m2 & h2 & Hs2 & HQ). exists m2, h2. split; [by eapply trace_app|done]. Qed.

Lemma runs_bind s P Q : runs s P -> (forall m h, P m h -> runs (m, h) Q) -> runs s Q.
Proof. apply (traced_bind []). Qed.

Lemma runs_mono s (P Q : gmap Z Z -> hart -> Prop) : runs s P -> (forall m h, P m h -> Q m h) -> runs s Q.
Proof. intros H HPQ. eapply runs_bind; [exact H|]. intros m h HP. by apply runs_now, HPQ. Qed.

(** The run makes a list of calls that satisfies [L]. *)
Definition traces (L : list event -> Prop) (s : gmap Z Z * hart) (P : gmap Z Z -> hart -> Prop) : Prop := exists l, L l /\ traced l s P.

Lemma traces_now (L : list event -> Prop) (P : gmap Z Z -> hart -> Prop) m h : L [] -> P m h -> traces L (m, h) P.
Proof. intros HL HP. exists []. split; [done|by apply runs_now]. Qed.

Lemma traces_instr L m h i m' h' P : fetch_ok place m h = true -> code !! h_pc h = Some i -> is_call i = false -> do_instr i m h = Some (m', h') ->
  traces L (m', h') P -> traces L (m, h) P.
Proof. intros Hf Hi Hc Hd (l & HL & H). exists l. split; [done|by eapply traced_instr]. Qed.

Lemma traces_call L f m h m' r' c' P : fetch_ok place m h = true -> code !! h_pc h = Some (CallC f) ->
  c_call f m (put_reg ra (place (S (h_pc h))) h) = Some (m', r', c') ->
  traces (fun l => L (Event f (c_args f (h_reg h)) (h_reg h sp) (h_reg h tp) (r' a0, r' a1) :: l)) (m', Hart (S (h_pc h)) r' c') P -> traces L (m, h) P.
Proof. intros Hf Hi Hd (l & HL & H). eexists. split; [exact HL|by eapply traced_call]. Qed.

Lemma traces_mono (L L' : list event -> Prop) s P : traces L s P -> (forall l, L l -> L' l) -> traces L' s P.
Proof. intros (l & HL & H) HLL. exists l. split; [by apply HLL|done]. Qed.

Lemma runs_traces L s P Q : runs s P -> (forall m h, P m h -> traces L (m, h) Q) -> traces L s Q.
Proof.
  intros (m & h & Hs & HP) H. destruct (H m h HP) as (l & HL & m2 & h2 & Hs2 & HQ). exists l. split; [done|]. exists m2, h2. split; [by apply (trace_app _ [] _ l _ Hs)|done].
Qed.

Lemma load_runs va m h pa v k s : va mod 8 = 0 -> reach ARead m h va = Some pa -> m !! pa = Some v -> k v = s -> load place va m h k = s.
Proof. intros Ha Hr Hm <-. unfold load. by rewrite Ha, Hr, Hm. Qed.

Lemma store_runs va v m h pa : va mod 8 = 0 -> reach AWrite m h va = Some pa -> is_Some (m !! pa) ->
  store place va v m h = Some (<[pa := v]> m, next h).
Proof. intros Ha Hr [w Hm]. unfold store. by rewrite Ha, Hr, Hm. Qed.

Lemma amoadd_runs rd va v m h pa w : va mod 8 = 0 -> reach ARead m h va = Some pa -> reach AWrite m h va = Some pa -> m !! pa = Some w ->
  amoadd place rd va v m h = Some (<[pa := setf w 0 32 (u32 (w + v))]> m, next (put_reg rd (u64 (s32 w)) h)).
Proof. intros Ha H1 H2 Hm. unfold amoadd. by rewrite Ha, H1, H2, Hm. Qed.

(** Jumps to an address the linker gave to an instruction. *)
Lemma find_pc_place n : (n < length code)%nat -> (forall i j, (i < length code)%nat -> (j < length code)%nat -> place i = place j -> i = j) ->
  find_pc place (place n) = Some n.
Proof.
  intros Hn Hinj. unfold find_pc. assert (list_find (fun i => place i = place n) (seq 0 (length code)) = Some (n, n)) as ->; [|done].
  apply list_find_Some. split_and!; [by apply lookup_seq_lt|done|]. intros j x Hj Hjn E. apply lookup_seq in Hj as [-> Hj]. cbn in E. apply Hinj in E; lia.
Qed.

(** A fetch or an access before translation is turned on. *)
Definition bare (h : hart) : Prop := getf (h_csr h CSR_SATP) 60 4 = 0.

Lemma reach_bare k m h va : bare h -> reach k m h va = Some va.
Proof. intros Hb. unfold reach, xlate. rewrite Hb. by destruct k. Qed.

Lemma fetch_bare m h : bare h -> place (h_pc h) < K_VADDR_BASE -> fetch_ok place m h = true.
Proof.
  intros Hb Hp. unfold fetch_ok, load_addr. rewrite reach_bare by done. destruct (Z.ltb_spec (place (h_pc h)) K_VADDR_BASE); [|lia]. apply Z.eqb_refl.
Qed.

(** Registers outside of [l] are kept. *)
Definition keeps (l : list reg) (r r' : reg -> Z) : Prop := forall x, x ∉ l -> r' x = r x.

Lemma regs_keeps_refl l r : keeps l r r.
Proof. done. Qed.
Lemma regs_keeps_trans l r1 r2 r3 : keeps l r1 r2 -> keeps l r2 r3 -> keeps l r1 r3.
Proof. intros H1 H2 x Hx. by rewrite H2, H1. Qed.
Lemma keeps_set l r r' x v : x ∈ l -> keeps l r r' -> keeps l r (<[x := v]> r').
Proof. intros Hx H y Hy. rewrite fn_lookup_insert_ne; [by apply H|]. by intros ->. Qed.
Lemma keeps_weaken l l' r r' : forallb (fun x => bool_decide (x ∈ l')) l = true -> keeps l r r' -> keeps l' r r'.
Proof.
  intros Hl H x Hx. apply H. intros Hxl. apply Hx. rewrite forallb_forall in Hl. apply (bool_decide_eq_true _), Hl. by apply list_elem_of_In.
Qed.
End Runs.

(** Symbolic execution: [regs] computes what registers hold, [labels] where
    labels are, [apart] whether a register is in a list, [kept] proves that registers are kept, [exec_with f] runs one
    instruction that is fetched by [f]. *)
Ltac regs := repeat first [rewrite fn_lookup_insert | rewrite fn_lookup_insert_ne by done].
Ltac labels := repeat match goal with |- context [pos ?l] => let n := eval vm_compute in (pos l) in change (pos l) with n end.
Ltac apart := apply (bool_decide_unpack _); vm_compute; exact Logic.I.
Ltac kept := repeat first [apply regs_keeps_refl | apply keeps_set; [apart|]].
Ltac unfold_state := cbv beta iota zeta delta [do_instr val next goto put_reg put_csr h_pc h_reg h_csr branch negb andb].
Ltac tidy :=
  match goal with
  | |- runs ?p ?a ?b ?c ?s ?P =>
      let s := eval cbv beta iota zeta delta [next goto put_reg put_csr h_pc h_reg h_csr negb andb] in s in change (runs p a b c s P)
  | |- traces ?p ?a ?b ?c ?l ?s ?P =>
      let s := eval cbv beta iota zeta delta [next goto put_reg put_csr h_pc h_reg h_csr negb andb] in s in change (traces p a b c l s P)
  | |- _ => cbn [h_pc h_reg h_csr]
  end.
Ltac exec_with f :=
  first [eapply runs_instr | eapply traces_instr]; [f | reflexivity | reflexivity | unfold_state; regs; try reflexivity | tidy; labels].

(** ** The boot page table *)

(** An entry that maps gigabyte [i] to itself for the kernel: valid, readable,
    writable, executable, not for user mode, accessed and dirty. *)
Definition giga_ok (i e : Z) : bool :=
  (getf e 0 5 =? 15) && (getf e 6 2 =? 3) && (getf e 10 44 =? i * 2 ^ 18).
Definition entries_ok (es : list Z) : bool :=
  match es with [e0; e1; e2; e3] => giga_ok 0 e0 && giga_ok 1 e1 && giga_ok 2 e2 && giga_ok 3 e3 | _ => false end.

(** The tables of preloader.S do so. *)
Example pgtbls_ok : entries_ok default_pgtbl && entries_ok (v_entries pgtbl_c906) = true.
Proof. reflexivity. Qed.

(** The table at [t]: the four entries at the bottom and in the middle. *)
Definition table_at (m : gmap Z Z) (t : Z) (es : list Z) : Prop :=
  forall i e, es !! i = Some e -> m !! (t + 8 * Z.of_nat i) = Some e /\ m !! (t + 2048 + 8 * Z.of_nat i) = Some e.

Lemma entries_get es (i : nat) : entries_ok es = true -> (i < 4)%nat -> exists e, es !! i = Some e /\ giga_ok (Z.of_nat i) e = true.
Proof.
  destruct es as [|e0 [|e1 [|e2 [|e3 [|]]]]]; try done. cbn. intros H Hi. apply andb_prop in H as [H H3]. apply andb_prop in H as [H H2]. apply andb_prop in H as [H0 H1].
  destruct i as [|[|[|[|i]]]]; [by eexists..|lia].
Qed.

Lemma getf_split e lo n lo' n' : 0 <= lo -> 0 <= n -> lo <= lo' -> 0 <= n' -> lo' + n' <= lo + n -> getf e lo' n' = getf (getf e lo n) (lo' - lo) n'.
Proof.
  intros. bitwise; cbn; f_equal; lia.
Qed.

(** What the walk makes of such an entry. *)
Lemma giga_decode i e va : giga_ok i e = true -> 0 <= i ->
  is_ptr e = false /\ exists f, decode 2 e va = Some (i * 2 ^ 30 + va mod 2 ^ 30, f) /\ forall k, allowed k f = true.
Proof.
  unfold giga_ok. intros H Hi. apply andb_prop in H as [H H3]. apply andb_prop in H as [H1 _]. apply Z.eqb_eq in H1, H3.
  assert (forall j, 0 <= j < 5 -> getf e j 1 = getf 15 j 1) as Hb.
  { intros j Hj. rewrite (getf_split e 0 5 j 1), H1 by lia. f_equal. lia. }
  unfold is_ptr, decode, pte_v, pte_r, pte_w, pte_x, hw_pa. rewrite !Hb by lia. split; [done|].
  rewrite (getf_split e 10 44 10 (9 * Z.of_nat 2)), H3 by lia.
  assert (getf (i * 2 ^ 18) (10 - 10) (9 * Z.of_nat 2) = 0) as ->.
  { rewrite getf_alt by lia. change (9 * Z.of_nat 2) with 18. rewrite Z.div_1_r. by apply Z.mod_mul. }
  exists (getf e 1 5). split.
  { change (getf 15 0 1) with 1. change (getf 15 1 1) with 1. change (getf 15 2 1) with 1. change (getf 15 3 1) with 1.
    change (1 =? 0) with false. change (0 =? 0) with true. change (1 =? 1) with true. cbn [orb andb negb]. change (vshift 2) with 30. do 2 f_equal. lia. }
  intros k. unfold allowed.
  assert (forall j, 0 <= j < 4 -> Z.testbit (getf e 1 5) j = Z.testbit 15 (j + 1)) as Ht.
  { intros j Hj. rewrite testbit_getf by lia. rewrite <- H1, testbit_getf by lia. destruct (Z.ltb_spec j 5), (Z.ltb_spec (j + 1) 5); try lia. cbn. f_equal. lia. }
  destruct k; by rewrite !Ht.
Qed.

(** Both windows of the table lead to the first four gigabytes. *)
Lemma table_walk m t es base va : entries_ok es = true -> table_at m t es -> 0 <= va < K_WINDOW -> base = 0 \/ base = K_VADDR_BASE ->
  exists f, translate 39 m t (base + va) = Some (va, f) /\ forall k, allowed k f = true.
Proof.
  intros Hes Ht Hva Hb. change K_WINDOW with (4 * 2 ^ 30) in Hva. set (i := va / 2 ^ 30).
  assert (0 <= i < 4) as Hi by (unfold i; split; [apply Z.div_pos; lia|apply Z.div_lt_upper_bound; lia]).
  destruct (entries_get es (Z.to_nat i) Hes ltac:(lia)) as (e & He & Hg). rewrite Z2Nat.id in Hg by lia.
  destruct (Ht _ _ He) as [M1 M2]. rewrite Z2Nat.id in M1, M2 by lia.
  assert (canonical 39 (base + va) = true) as Hc by (unfold canonical; destruct Hb as [-> | ->]; [zcase|zcase]; try lia; change K_VADDR_BASE with (2 ^ 64 - 2 ^ 38) in *; lia).
  assert (m !! (t + 8 * vpn 2 (base + va)) = Some e) as Hm.
  { rewrite vpn_alt. change (vshift 2) with 30. destruct Hb as [-> | ->].
    - rewrite Z.add_0_l. fold i. by rewrite Z.mod_small by lia.
    - change K_VADDR_BASE with ((2 ^ 34 - 2 ^ 8) * 2 ^ 30). rewrite Z.div_add_l by lia. fold i.
      replace ((2 ^ 34 - 2 ^ 8 + i) mod 512) with (256 + i) by (apply (Z.mod_unique_pos _ _ (2 ^ 25 - 1)); lia).
      by replace (t + 8 * (256 + i)) with (t + 2048 + 8 * i) by lia. }
  assert ((base + va) mod 2 ^ 30 = va mod 2 ^ 30) as Hmod.
  { destruct Hb as [-> | ->]; [done|]. change K_VADDR_BASE with ((2 ^ 34 - 2 ^ 8) * 2 ^ 30). by rewrite Z.add_comm, Z_mod_plus_full. }
  destruct (giga_decode i e (base + va) Hg ltac:(lia)) as [Hp (f & Hd & Hf)]. exists f. split; [|done].
  unfold translate. rewrite Hc. change (max_level 39) with 2%nat. cbn [walk]. rewrite Hm, Hp, Hd, Hmod. do 2 f_equal. unfold i.
  rewrite (Z.div_mod va (2 ^ 30)) at 3 by lia. lia.
Qed.

(** The value of satp the code writes selects the table, also when it computes
    it from an address inside of it. *)
Definition boot_satp (a : Z) : Z := Z.lor (u64 (Z.shiftl 8 60)) (Z.shiftr a 12).
Lemma boot_satp_spec t a : t mod 4096 = 0 -> 0 <= t < K_WINDOW -> t <= a < t + 4096 ->
  getf (boot_satp a) 60 4 = 8 /\ satp_root (boot_satp a) = t.
Proof.
  intros Ht Hr Ha. unfold boot_satp, satp_root. rewrite Z.shiftr_div_pow2 by lia. change (2 ^ 12) with 4096. change K_WINDOW with (2 ^ 20 * 4096) in Hr.
  apply Z.mod_divide in Ht as [q Hq]; [|lia]. assert (a / 4096 = q) as -> by (symmetry; apply (Z.div_unique_pos _ _ _ (a - t)); lia).
  change (u64 (Z.shiftl 8 60)) with (Z.shiftl 8 60). assert (0 <= q < 2 ^ 20) as Hq2 by lia. split.
  - apply Z.bits_inj'. intros i Hi. rewrite testbit_getf, Z.lor_spec, Z.shiftl_spec by lia. rewrite (testbit_high q 20) by lia. rewrite orb_false_r.
    replace (i + 60 - 60) with i by lia. destruct (Z.ltb_spec i 4); [done|]. symmetry. apply (testbit_high 8 4); lia.
  - enough (getf (Z.lor (Z.shiftl 8 60) q) 0 44 = q) as -> by lia.
    apply Z.bits_inj'. intros i Hi. rewrite testbit_getf, Z.lor_spec, Z.shiftl_spec by lia. rewrite Z.add_0_r.
    destruct (Z.ltb_spec i 44); [|symmetry; apply (testbit_high q 20); lia]. by rewrite Z.testbit_neg_r by lia.
Qed.

(** ** The first hart *)

(** Consecutive words. *)
Definition words_at (m : gmap Z Z) (a : Z) (l : list Z) : Prop := forall i v, l !! i = Some v -> m !! (a + 8 * Z.of_nat i) = Some v.

(** The vendor tables, one behind the other, and the one that is chosen. *)
Definition vendor_words (v : vendor) : list Z := [v_magic v; v_vendorid v; v_archid v; v_impid v] ++ v_entries v.
Fixpoint vendors_at (m : gmap Z Z) (a : Z) (vs : list vendor) : Prop :=
  match vs with [] => True | v :: vs => words_at m a (vendor_words v) /\ vendors_at m (a + 64) vs end.
Definition vendor_match (vid aid iid : Z) (v : vendor) : bool :=
  (Z.land (v_magic v) 0xffffffff =? MAGIC) && (v_vendorid v =? vid) && (v_archid v =? aid) && (v_impid v =? iid).
Fixpoint choose (vid aid iid : Z) (vs : list vendor) : list Z :=
  match vs with [] => default_pgtbl | v :: vs => if vendor_match vid aid iid v then v_entries v else choose vid aid iid vs end.

(** What the linker does with the two files: .entry is linked where it is loaded,
    below 4 GiB, its data in the order of preloader.S and the vendor tables
    behind; .startup is linked [K_VADDR_BASE] above. *)
Record layout (place : nat -> Z) (addr : dsym -> Z) (vs : list vendor) : Prop := {
  l_inj i j : (i < length code)%nat -> (j < length code)%nat -> place i = place j -> i = j;
  l_low i : (i < pos _start)%nat -> 0 <= place i < K_WINDOW;
  l_high i : (pos _start <= i < length code)%nat -> K_VADDR_BASE <= place i < K_VADDR_BASE + K_WINDOW;
  l_lottery : 0 <= addr _hart_lottery /\ addr _hart_lottery mod 8 = 0;
  l_start_addr : addr _start_addr = addr _hart_lottery + 8;
  l_mmutest : addr _mmutest = addr _hart_lottery + 16;
  l_default : addr _default_pgtbl = addr _hart_lottery + 24;
  l_startup : addr _default_pgtbl + 32 <= addr _startup_pgtbl /\ addr _startup_pgtbl mod 4096 = 0;
  l_vendors : addr _startup_pgtbl + 4096 <= addr _entry_pgtbl_start /\ addr _entry_pgtbl_start mod 64 = 0;
  l_end : addr _entry_pgtbl_end = addr _entry_pgtbl_start + 64 * zlen vs /\ addr _entry_pgtbl_end < K_WINDOW;
}.

(** The image in memory before a hart runs; [w] is the word of the lottery. *)
Record image (place : nat -> Z) (addr : dsym -> Z) (vs : list vendor) (w : Z) (m : gmap Z Z) : Prop := {
  im_lottery : m !! addr _hart_lottery = Some w;
  im_start : m !! addr _start_addr = Some (place (pos _start));
  im_mmutest : is_Some (m !! addr _mmutest);
  im_default : words_at m (addr _default_pgtbl) default_pgtbl;
  im_table i : 0 <= i < 512 -> is_Some (m !! (addr _startup_pgtbl + 8 * i));
  im_vendors : vendors_at m (addr _entry_pgtbl_start) vs;
}.

Section Preloader.
  Context (place : nat -> Z) (addr : dsym -> Z) (vs : list vendor).
  Context (sbi : Z -> Z -> option (Z * Z)).
  Context (c_call : cfn -> gmap Z Z -> hart -> option (gmap Z Z * (reg -> Z) * (ecsr -> Z))).
  Context (Hl : layout place addr vs).
  Abbreviation runs := (runs place addr sbi c_call).

Lemma find_low n : (n < length code)%nat -> find_pc place (place n) = Some n.
Proof. intros Hn. apply find_pc_place; [done|]. apply Hl. Qed.

Lemma fetch_low m h : bare h -> (h_pc h < pos _start)%nat -> fetch_ok place m h = true.
Proof. intros Hb Hp. apply fetch_bare; [done|]. pose proof (l_low _ _ _ Hl _ Hp). change K_WINDOW with (2 ^ 32) in *. change K_VADDR_BASE with (2 ^ 64 - 2 ^ 38). lia. Qed.

(** A data word of preloader.S behind the lottery. *)
Lemma layout_words : addr _start_addr mod 8 = 0 /\ addr _mmutest mod 8 = 0 /\ addr _default_pgtbl mod 8 = 0 /\ addr _entry_pgtbl_start mod 8 = 0 /\ addr _startup_pgtbl mod 8 = 0.
Proof.
  destruct (l_lottery _ _ _ Hl) as [_ H0]. rewrite (l_start_addr _ _ _ Hl), (l_mmutest _ _ _ Hl), (l_default _ _ _ Hl).
  destruct (l_startup _ _ _ Hl) as [_ H1]. destruct (l_vendors _ _ _ Hl) as [_ H2].
  apply Z.mod_divide in H0 as [a Ha]; [|lia]. apply Z.mod_divide in H1 as [b Hb]; [|lia]. apply Z.mod_divide in H2 as [d Hd]; [|lia].
  rewrite Ha, Hb, Hd. split_and!; apply Z.mod_divide; try lia; [exists (a + 1)|exists (a + 2)|exists (a + 3)|exists (d * 8)|exists (b * 512)]; lia.
Qed.

Lemma lottery_zero w : (u64 (s32 w) =? 0) = (u32 w =? 0).
Proof.
  unfold sw. pose proof (uw_range 32 w ltac:(lia)) as Hr. unfold is_uw in Hr. set (x := u32 w) in *. change (2 ^ (32 - 1)) with (2 ^ 31).
  apply Bool.eq_iff_eq_true. rewrite !Z.eqb_eq. unfold uw. destruct (Z.ltb_spec x (2 ^ 31)).
  - by rewrite Z.mod_small by lia.
  - split; [|lia]. intros E. apply Z.mod_divide in E as [q Hq]; [|lia]. change (2 ^ 64) with (2 ^ 32 * 2 ^ 32) in Hq. nia.
Qed.

(** The start: one hart finds 0 in the lottery. *)
Lemma entry_block m r c w : bare (Hart 0 r c) -> m !! addr _hart_lottery = Some w ->
  runs (m, Hart (pos _entry) r c) (fun m' h' =>
    m' = <[addr _hart_lottery := setf w 0 32 (u32 (w + 1))]> m /\
    if u32 w =? 0 then
      h_pc h' = pos _setup_pgtbl /\ h_csr h' = <[CSR_STVEC := place (pos _entry_hang)]> c /\ keeps [ra; s0; s1; a2; a3] r (h_reg h') /\
      h_reg h' s0 = r a0 /\ h_reg h' s1 = r a1 /\ h_reg h' ra = place (pos _jump_start)
    else h_pc h' = pos _entry_hang /\ h_csr h' = c).
Proof.
  intros Hb Hw. destruct (l_lottery _ _ _ Hl) as [_ Hal]. labels.
  assert (forall n r', bare (Hart n r' c)) as Hb' by done.
  do 2 exec_with ltac:(apply fetch_low; [done|vm_compute; lia]).
  exec_with ltac:(apply fetch_low; [done|vm_compute; lia]).
  { apply (amoadd_runs _ _ _ _ _ _ (addr _hart_lottery) w); [done|by apply reach_bare..|done]. }
  tidy.
  exec_with ltac:(apply fetch_low; [done|vm_compute; lia]).
  rewrite lottery_zero. destruct (u32 w =? 0) eqn:E; cbn [negb]; labels; [|by apply runs_now].
  do 5 exec_with ltac:(apply fetch_low; [done|vm_compute; lia]).
  apply runs_now. tidy. regs. split_and!; [done..| |done|done|done]. kept.
Qed.
Ltac low := exec_with ltac:(apply fetch_low; [done|vm_compute; lia]).

(** The identity of the machine, as the firmware tells it. *)
Lemma ids_block m r c e4 e5 e6 vid aid iid : bare (Hart 0 r c) ->
  sbi 0x10 4 = Some (e4, vid) -> sbi 0x10 5 = Some (e5, aid) -> sbi 0x10 6 = Some (e6, iid) ->
  runs (m, Hart (pos _setup_pgtbl) r c) (fun m' h' =>
    m' = m /\ h_csr h' = c /\ keeps [a0; a1; a4; a6; a7; s2; s3; s4] r (h_reg h') /\
    if (e4 =? 0) && (e5 =? 0) && (e6 =? 0) then
      h_pc h' = pos _find_pgtbl_loop /\ h_reg h' s2 = vid /\ h_reg h' s3 = aid /\ h_reg h' s4 = iid /\
      h_reg h' a0 = addr _entry_pgtbl_start /\ h_reg h' a1 = addr _entry_pgtbl_end /\ h_reg h' a4 = addr _default_pgtbl
    else h_pc h' = pos _entry_hang).
Proof.
  intros Hb H4 H5 H6. labels. assert (forall n r', bare (Hart n r' c)) as Hb' by done.
  do 2 low. low. { by rewrite H4. } tidy. low. destruct (e4 =? 0); cbn [negb andb]; [|apply runs_now; split_and!; [done..| |done]; kept].
  do 2 low. low. { by rewrite H5. } tidy. low. destruct (e5 =? 0); cbn [negb andb]; [|apply runs_now; split_and!; [done..| |done]; kept].
  do 2 low. low. { by rewrite H6. } tidy. low. destruct (e6 =? 0); cbn [negb andb]; [|apply runs_now; split_and!; [done..| |done]; kept].
  do 4 low. apply runs_now. tidy. regs. split_and!; try done. kept.
Qed.

(** Loading one of several words. *)
Lemma u64_add x off : 0 <= x + off < 2 ^ 64 -> u64 (x + off) = x + off.
Proof. apply uw_small. Qed.

Lemma mod8_add x k : x mod 8 = 0 -> (x + 8 * k) mod 8 = 0.
Proof. intros H. by rewrite (Z.mul_comm 8), Z_mod_plus_full. Qed.

Lemma bare_load m h base l (i : nat) v off k s : bare h -> words_at m base l -> base mod 8 = 0 -> 0 <= base -> base + off < K_WINDOW + 64 ->
  off = 8 * Z.of_nat i -> l !! i = Some v -> k v = s -> load place (u64 (base + off)) m h k = s.
Proof.
  intros Hb Hw H8 H0 H1 -> Hi Hk. rewrite u64_add by (change (K_WINDOW + 64) with (2 ^ 32 + 64) in H1; lia). eapply load_runs; [by apply mod8_add|by apply reach_bare|by apply Hw|done].
Qed.

(** The search through the vendor tables. *)
Lemma find_block m c vid aid iid : forall l a r, bare (Hart 0 r c) ->
  vendors_at m a l -> Forall (fun v => length (v_entries v) = 4%nat) l -> words_at m (addr _default_pgtbl) default_pgtbl ->
  0 <= a -> a mod 8 = 0 -> a + 64 * zlen l < K_WINDOW ->
  r a0 = a -> r a1 = a + 64 * zlen l -> r a4 = addr _default_pgtbl -> r s2 = vid -> r s3 = aid -> r s4 = iid ->
  runs (m, Hart (pos _find_pgtbl_loop) r c) (fun m' h' =>
    m' = m /\ h_csr h' = c /\ h_pc h' = pos _load_pgtbl /\ keeps [a0; a2; a3; a4] r (h_reg h') /\
    words_at m (h_reg h' a4) (choose vid aid iid l) /\
    (h_reg h' a4 = addr _default_pgtbl \/ a <= h_reg h' a4 < a + 64 * zlen l /\ h_reg h' a4 mod 8 = 0)).
Proof.
  induction l as [|v l IH]; intros a r Hb Hv Hlen Hd Ha0 Ha8 Hend R0 R1 R4 R2 R3 R5; labels; assert (forall n r', bare (Hart n r' c)) as Hb' by done.
  { low. rewrite R0, R1. change (zlen (@nil vendor)) with 0. replace (a =? a + 64 * 0) with true by (symmetry; apply Z.eqb_eq; lia).
    apply runs_now. tidy. cbn [choose]. rewrite R4. split_and!; [done..| |done|by left]. kept. }
  destruct Hv as [Hv Hvs]. apply Forall_cons in Hlen as [Hlv Hlen]. rewrite zlen_cons in Hend, R1. pose proof (zlen_nonneg l).
  assert (forall w, keeps [a0; a2; a3; a4] r w -> w a0 = a -> w a4 = addr _default_pgtbl -> choose vid aid iid (v :: l) = choose vid aid iid l ->
    runs (m, Hart (pos _find_pgtbl_next) w c) (fun m' h' => m' = m /\ h_csr h' = c /\ h_pc h' = pos _load_pgtbl /\
    keeps [a0; a2; a3; a4] r (h_reg h') /\ words_at m (h_reg h' a4) (choose vid aid iid (v :: l)) /\
    (h_reg h' a4 = addr _default_pgtbl \/ a <= h_reg h' a4 < a + 64 * zlen (v :: l) /\ h_reg h' a4 mod 8 = 0))) as Hnext.
  { intros w Kw W0 W4 ->. labels. do 2 low. rewrite W0, u64_add by (change K_WINDOW with (2 ^ 32) in Hend; lia).
    eapply runs_mono; [apply (IH (a + 64)); regs; try done; try lia|].
    - apply (mod8_add a 8), Ha8.
    - rewrite (Kw a1) by apart. lia.
    - by rewrite (Kw s2) by apart.
    - by rewrite (Kw s3) by apart.
    - by rewrite (Kw s4) by apart.
    - intros m' h' (-> & -> & -> & K & Hw & Hr). rewrite zlen_cons. split_and!; [done..| |done|destruct Hr as [|[? ?]]; [by left|right; split; [lia|done]]].
      eapply regs_keeps_trans; [exact Kw|]. eapply regs_keeps_trans; [|exact K]. kept. }
  low. rewrite R0, R1. destruct (Z.eqb_spec a (a + 64 * (1 + zlen l))); [lia|]. tidy.
  cbn [choose] in Hnext |- *. unfold vendor_match, MAGIC in Hnext |- *.
  low. { rewrite R0. apply (bare_load _ _ _ _ 0%nat (v_magic v) _ _ _ (Hb' _ _) Hv); (done || lia). } tidy. do 4 low.
  destruct (Z.land (v_magic v) 0xffffffff =? 0xb00797b1); tidy; [|apply Hnext; regs; [kept|done..]].
  low. { rewrite R0. apply (bare_load _ _ _ _ 1%nat (v_vendorid v) _ _ _ (Hb' _ _) Hv); (done || lia). } tidy.
  low. rewrite R2. destruct (v_vendorid v =? vid); tidy; [|apply Hnext; regs; [kept|done..]].
  low. { rewrite R0. apply (bare_load _ _ _ _ 2%nat (v_archid v) _ _ _ (Hb' _ _) Hv); (done || lia). } tidy.
  low. rewrite R3. destruct (v_archid v =? aid); tidy; [|apply Hnext; regs; [kept|done..]].
  low. { rewrite R0. apply (bare_load _ _ _ _ 3%nat (v_impid v) _ _ _ (Hb' _ _) Hv); (done || lia). } tidy.
  low. rewrite R5. destruct (v_impid v =? iid); tidy; [|apply Hnext; regs; [kept|done..]].
  do 2 low. apply runs_now. tidy. regs. rewrite R0, u64_add by (change K_WINDOW with (2 ^ 32) in Hend; lia). rewrite zlen_cons. cbn [andb].
  split_and!; [done..|kept| |right; split; [lia|by apply (mod8_add a 4)]].
  intros i x Hx. replace (a + 32 + 8 * Z.of_nat i) with (a + 8 * Z.of_nat (4 + i)) by lia. by apply Hv.
Qed.
(** Filling the table. *)
Abbreviation tbl := (addr _startup_pgtbl).
Definition in_table (a : Z) : Prop := tbl <= a < tbl + 4096.

Lemma tbl_range : 0 <= tbl /\ tbl mod 8 = 0 /\ tbl + 4096 < K_WINDOW.
Proof.
  destruct (l_lottery _ _ _ Hl) as [? _], (l_startup _ _ _ Hl) as [? _], (l_vendors _ _ _ Hl) as [? _], (l_end _ _ _ Hl) as [? ?].
  pose proof (l_default _ _ _ Hl). pose proof (zlen_nonneg vs). split_and!; [lia|apply layout_words|lia].
Qed.

Lemma words_at_store m d l p v : words_at m d l -> in_table p -> d + 8 * zlen l <= tbl \/ tbl + 4096 <= d -> words_at (<[p := v]> m) d l.
Proof.
  intros Hw Hp Hd i x Hx. rewrite lookup_insert_ne; [by apply Hw|]. pose proof (lookup_lt_Some _ _ _ Hx). unfold in_table, zlen in *. lia.
Qed.

(** One entry, to both of its places; [m0] is the memory before. *)
Definition filled (m0 : gmap Z Z) (es : list Z) (n : nat) (m : gmap Z Z) : Prop :=
  (forall a, ~ in_table a -> m !! a = m0 !! a) /\ (forall a, is_Some (m0 !! a) -> is_Some (m !! a)) /\ table_at m tbl (take n es).

Lemma filled_step m0 es n m e : filled m0 es n m -> (n < 4)%nat -> es !! n = Some e ->
  filled m0 es (S n) (<[tbl + 2048 + 8 * Z.of_nat n := e]> (<[tbl + 8 * Z.of_nat n := e]> m)).
Proof.
  intros (F1 & F2 & F3) Hn He. unfold filled, in_table in *. split_and!.
  - intros a Ha. rewrite !lookup_insert_ne by lia. by apply F1.
  - intros a Ha. apply lookup_insert_is_Some'. right. apply lookup_insert_is_Some'. right. by apply F2.
  - intros i x Hx. apply lookup_take_Some in Hx as [Hx Hi]. destruct (decide (i = n)) as [->|Hne].
    + rewrite He in Hx. injection Hx as <-. rewrite lookup_insert_eq. rewrite lookup_insert_ne, lookup_insert_eq by lia. done.
    + rewrite !lookup_insert_ne by lia. apply F3, lookup_take_Some. split; [done|lia].
Qed.

(** Words that are not in the table. *)
Lemma filled_words m0 es n m d l : filled m0 es n m -> words_at m0 d l -> d + 8 * zlen l <= tbl \/ tbl + 4096 <= d -> words_at m d l.
Proof.
  intros (F1 & _) Hw Hd i x Hx. rewrite F1; [by apply Hw|]. pose proof (lookup_lt_Some _ _ _ Hx). unfold in_table, zlen in *. lia.
Qed.

(** The three instructions for one entry. *)
Lemma entry_copy m0 es m r c n (i : nat) e d P : bare (Hart 0 r c) -> filled m0 es i m -> (i < 4)%nat -> es !! i = Some e ->
  words_at m0 d es -> d + 8 * zlen es <= tbl \/ tbl + 4096 <= d -> d mod 8 = 0 -> 0 <= d < K_WINDOW ->
  (forall i, 0 <= i < 512 -> is_Some (m0 !! (tbl + 8 * i))) ->
  (S (S n) < pos _start)%nat -> r a4 = d -> r a5 = tbl + 1024 ->
  code !! n = Some (REG_L a3 (8 * Z.of_nat i) a4) -> code !! S n = Some (REG_S a3 (8 * Z.of_nat i - 1024) a5) ->
  code !! S (S n) = Some (REG_S a3 (8 * Z.of_nat i + 1024) a5) ->
  (forall m', filled m0 es (S i) m' -> runs (m', Hart (S (S (S n))) (<[a3 := e]> r) c) P) -> runs (m, Hart n r c) P.
Proof.
  intros Hb Hf Hi He Hw Hd H8 Hr Hx Hn R4 R5 C1 C2 C3 HP. destruct tbl_range as (T0 & T8 & T1). change K_WINDOW with (2 ^ 32) in *.
  pose proof (filled_step _ _ _ _ _ Hf Hi He) as Hf'. pose proof (proj1 (proj2 Hf)) as Hs. set (k := Z.of_nat i) in *.
  eapply runs_instr; [apply fetch_low; [done|unfold h_pc; lia]|exact C1|reflexivity| |].
  { cbn [do_instr h_reg]. rewrite R4. apply (bare_load _ _ _ es i e); [done|by eapply filled_words|done|lia| |done|done|reflexivity]. change K_WINDOW with (2 ^ 32). lia. }
  tidy. eapply runs_instr; [apply fetch_low; [done|unfold h_pc; lia]|exact C2|reflexivity| |].
  { unfold_state. regs. rewrite R5, u64_add by lia. replace (tbl + 1024 + (8 * k - 1024)) with (tbl + 8 * k) by lia.
    apply store_runs; [by apply mod8_add|by apply reach_bare|apply Hs, Hx; lia]. }
  tidy. eapply runs_instr; [apply fetch_low; [done|unfold h_pc; lia]|exact C3|reflexivity| |].
  { unfold_state. regs. rewrite R5, u64_add by lia. replace (tbl + 1024 + (8 * k + 1024)) with (tbl + 2048 + 8 * k) by lia.
    apply store_runs; [by apply mod8_add, (mod8_add _ 256)|by apply reach_bare|].
    apply lookup_insert_is_Some'. right. apply Hs. replace (tbl + 2048 + 8 * k) with (tbl + 8 * (256 + k)) by lia. apply Hx. lia. }
  tidy. by apply HP.
Qed.

Lemma load_block m r c es d : bare (Hart 0 r c) -> length es = 4%nat ->
  words_at m d es -> d + 32 <= tbl \/ tbl + 4096 <= d -> d mod 8 = 0 -> 0 <= d < K_WINDOW ->
  (forall i, 0 <= i < 512 -> is_Some (m !! (tbl + 8 * i))) -> r a4 = d ->
  runs (m, Hart (pos _load_pgtbl) r c) (fun m' h' =>
    filled m es 4 m' /\ h_csr h' = c /\ h_pc h' = pos _set_mmu /\ keeps [a3; a5] r (h_reg h') /\ h_reg h' a5 = tbl + 1024).
Proof.
  intros Hb Hes Hw Hd H8 Hr Hx R4. destruct es as [|e0 [|e1 [|e2 [|e3 [|]]]]]; try done. set (es := [e0; e1; e2; e3]) in *.
  change 32 with (8 * zlen es) in Hd. labels. do 2 low. destruct tbl_range as (T0 & T8 & T1). rewrite u64_add by (change K_WINDOW with (2 ^ 32) in T1; lia).
  assert (filled m es 0 m) as Hf by (split_and!; [done|done|]; intros i x Hi; by destruct i).
  assert (forall n r', bare (Hart n r' c)) as Hb' by done.
  eapply (entry_copy m es m _ _ _ 0 e0 d); [done|exact Hf|lia|done|exact Hw|exact Hd|exact H8|exact Hr|exact Hx|vm_compute; lia|by regs|by regs|done..|]. clear Hf. intros m1 Hf.
  eapply (entry_copy m es m1 _ _ _ 1 e1 d); [done|exact Hf|lia|done|exact Hw|exact Hd|exact H8|exact Hr|exact Hx|vm_compute; lia|by regs|by regs|done..|]. clear Hf. intros m2 Hf.
  eapply (entry_copy m es m2 _ _ _ 2 e2 d); [done|exact Hf|lia|done|exact Hw|exact Hd|exact H8|exact Hr|exact Hx|vm_compute; lia|by regs|by regs|done..|]. clear Hf. intros m3 Hf.
  eapply (entry_copy m es m3 _ _ _ 3 e3 d); [done|exact Hf|lia|done|exact Hw|exact Hd|exact H8|exact Hr|exact Hx|vm_compute; lia|by regs|by regs|done..|]. clear Hf. intros m4 Hf.
  apply runs_now. tidy. regs. split_and!; [done..| |done]. kept.
Qed.

(** ** Translation turned on *)

Definition booted (es : list Z) (m : gmap Z Z) (h : hart) : Prop :=
  exists x, h_csr h CSR_SATP = boot_satp x /\ in_table x /\ table_at m tbl es.

Lemma reach_boot es k m h base va : entries_ok es = true -> booted es m h -> 0 <= va < K_WINDOW -> base = 0 \/ base = K_VADDR_BASE -> reach k m h (base + va) = Some va.
Proof.
  intros Hes (x & Hs & Hx & Ht) Hva Hb. destruct tbl_range as (T0 & _ & T1). destruct (boot_satp_spec tbl x) as [E1 E2]; [apply (l_startup _ _ _ Hl)|lia|done|].
  destruct (table_walk m tbl es base va Hes Ht Hva Hb) as (f & Hf & Ha). unfold reach, xlate. rewrite Hs, E1, E2.
  change (8 =? 0) with false. change (8 =? 8) with true. cbv match. by rewrite Hf, Ha.
Qed.

Lemma reach_boot_low es k m h va : entries_ok es = true -> booted es m h -> 0 <= va < K_WINDOW -> reach k m h va = Some va.
Proof. intros Hes Hb Hva. rewrite <- (reach_boot es k m h 0 va) at 1; auto. Qed.

Lemma fetch_boot es m h : entries_ok es = true -> booted es m h -> (h_pc h < length code)%nat -> fetch_ok place m h = true.
Proof.
  intros Hes Hb Hp. unfold fetch_ok, load_addr. destruct (decide (h_pc h < pos _start)%nat) as [Hlt|Hge].
  - pose proof (l_low _ _ _ Hl _ Hlt) as Hr. rewrite (reach_boot_low es) by done. change K_WINDOW with (2 ^ 32) in Hr.
    destruct (Z.ltb_spec (place (h_pc h)) K_VADDR_BASE) as [|Hv]; [apply Z.eqb_refl|]. change K_VADDR_BASE with (2 ^ 64 - 2 ^ 38) in Hv. lia.
  - pose proof (l_high _ _ _ Hl (h_pc h) ltac:(lia)) as Hr. replace (place (h_pc h)) with (K_VADDR_BASE + (place (h_pc h) - K_VADDR_BASE)) at 1 by lia.
    rewrite (reach_boot es) by (auto; lia). destruct (Z.ltb_spec (place (h_pc h)) K_VADDR_BASE); [lia|]. apply Z.eqb_refl.
Qed.

Lemma table_at_store m es p v : table_at m tbl es -> length es = 4%nat -> ~ in_table p -> table_at (<[p := v]> m) tbl es.
Proof.
  intros Ht Hlen Hp i e He. pose proof (lookup_lt_Some _ _ _ He). unfold in_table in Hp. rewrite !lookup_insert_ne by lia. by apply Ht.
Qed.

Lemma lor_base a : 0 <= a < K_WINDOW -> Z.lor a K_VADDR_BASE = K_VADDR_BASE + a.
Proof.
  intros Ha. assert (Z.land a K_VADDR_BASE = 0) as H0.
  { apply Z.bits_inj'. intros i Hi. rewrite Z.land_spec, Z.bits_0. change K_VADDR_BASE with (Z.shiftl 0xFFFFFFC0 32).
    destruct (Z.ltb_spec i 32); [rewrite Z.shiftl_spec_low by done; apply andb_false_r|]. by rewrite (testbit_high a 32) by done. }
  rewrite <- Z.lxor_lor, <- Z.add_nocarry_lxor by done. lia.
Qed.

Lemma mmutest_range : 0 <= addr _mmutest < K_WINDOW /\ ~ in_table (addr _mmutest) /\ addr _mmutest mod 8 = 0.
Proof.
  destruct tbl_range as (? & ? & ?), (l_lottery _ _ _ Hl) as [? _], (l_startup _ _ _ Hl) as [? _].
  pose proof (l_default _ _ _ Hl). pose proof (l_mmutest _ _ _ Hl). unfold in_table. split_and!; [lia|lia|lia|apply layout_words].
Qed.

(** Whatever is in the registers, translation is on when satp selects the table. *)
Lemma booted_set es m c x : in_table x -> table_at m tbl es -> forall n r, booted es m (Hart n r (<[CSR_SATP := boot_satp x]> c)).
Proof. intros Hx Ht n r. exists x. split_and!; [|done..]. cbn. by rewrite fn_lookup_insert. Qed.

Lemma set_mmu_block es m r c w n : entries_ok es = true -> bare (Hart 0 r c) -> table_at m tbl es -> in_table (r a5) ->
  m !! addr _mmutest = Some w -> r ra = place n -> (n < length code)%nat ->
  runs (m, Hart (pos _set_mmu) r c) (fun m' h' =>
    h_pc h' = n /\ h_csr h' = <[CSR_SATP := boot_satp (r a5)]> c /\ keeps [a4; a5; t0; t1; t2] r (h_reg h') /\
    table_at m' tbl es /\ (forall a, a <> addr _mmutest -> m' !! a = m !! a) /\ is_Some (m' !! addr _mmutest)).
Proof.
  intros Hes Hb Ht Ha5 Hw Hra Hn. assert (forall n r', bare (Hart n r' c)) as Hb' by done. labels.
  assert (length es = 4%nat) as Hlen by (by destruct es as [|? [|? [|? [|? [|]]]]]).
  destruct mmutest_range as (M0 & M1 & M8). pose proof (booted_set es) as Hbt.
  do 5 low. fold (boot_satp (r a5)).
  do 5 exec_with ltac:(apply (fetch_boot es); [done|by apply Hbt|vm_compute; lia]).
  exec_with ltac:(apply (fetch_boot es); [done|by apply Hbt|vm_compute; lia]).
  { eapply amoadd_runs; [done|apply (reach_boot_low es)|apply (reach_boot_low es)|exact Hw]; (done || by apply Hbt). } tidy.
  pose proof (fun v => table_at_store m es _ v Ht Hlen M1) as Ht1.
  do 3 exec_with ltac:(apply (fetch_boot es); [done|by apply Hbt|vm_compute; lia]).
  change (u64 (Z.shiftl 4294967232 32)) with K_VADDR_BASE. rewrite lor_base by done.
  exec_with ltac:(apply (fetch_boot es); [done|by apply Hbt|vm_compute; lia]).
  { eapply amoadd_runs; [|apply (reach_boot es)|apply (reach_boot es)|apply lookup_insert_eq]; try done; try (by apply Hbt); try (by right).
    rewrite Z.add_comm. by apply (mod8_add _ (2 ^ 61 - 2 ^ 35)). }
  tidy. rewrite insert_insert_eq. pose proof (fun v => table_at_store m es _ v Ht Hlen M1) as Ht2.
  exec_with ltac:(apply (fetch_boot es); [done|by apply Hbt|vm_compute; lia]).
  { unfold jump. rewrite Hra, find_low by done. reflexivity. } tidy.
  apply runs_now. tidy. split_and!; [done|done| |apply Ht2| |by rewrite lookup_insert_eq]; [kept|].
  intros a Ha. by rewrite lookup_insert_ne.
Qed.

(** A hart that hangs stays where it is. *)
Definition hangs (m : gmap Z Z) (h : hart) : Prop :=
  forall l m' h', trace place addr sbi c_call (m, h) l (m', h') ->
    l = [] /\ m' = m /\ h_reg h' = h_reg h /\ h_csr h' = h_csr h /\ (h_pc h' = pos _entry_hang \/ h_pc h' = S (pos _entry_hang)).

Lemma hang_forever m r c : bare (Hart 0 r c) -> hangs m (Hart (pos _entry_hang) r c).
Proof.
  intros Hb l m' h' Hs. assert (forall s l s', trace place addr sbi c_call s l s' -> forall n, s = (m, Hart n r c) ->
    n = pos _entry_hang \/ n = S (pos _entry_hang) -> l = [] /\ exists n', s' = (m, Hart n' r c) /\ (n' = pos _entry_hang \/ n' = S (pos _entry_hang))) as Hinv.
  { induction 1 as [s|s1 s2 s3 l' H12 _ IH]; intros n -> Hn; [split; [done|by exists n]|].
    assert (fetch_ok place m (Hart n r c) = true) as Hf by (apply fetch_low; [done|destruct Hn as [-> | ->]; vm_compute; lia]).
    cbn [step call_of] in H12 |- *. rewrite Hf in H12 |- *. destruct Hn as [-> | ->]; vm_compute in H12; injection H12 as <-; (eapply IH; [reflexivity|auto]). }
  destruct (Hinv _ _ _ Hs _ eq_refl (or_introl eq_refl)) as (-> & n' & [= -> ->] & Hn'). done.
Qed.

(** The rest of [_jump_start]. *)
Lemma jump_block es m r c : entries_ok es = true -> booted es m (Hart 0 r c) -> m !! addr _start_addr = Some (place (pos _start)) ->
  runs (m, Hart (pos _jump_start) r c) (fun m' h' => m' = m /\ h_pc h' = pos _start /\ h_csr h' = c /\ keeps [a0] r (h_reg h')).
Proof.
  intros Hes Hb Hm. assert (forall n r', booted es m (Hart n r' c)) as Hb' by done. labels.
  exec_with ltac:(apply (fetch_boot es); [done|done|vm_compute; lia]).
  exec_with ltac:(apply (fetch_boot es); [done|done|vm_compute; lia]).
  { pose proof layout_words as (S8 & _). destruct (l_lottery _ _ _ Hl) as [? _], mmutest_range as ([? ?] & _).
    pose proof (l_start_addr _ _ _ Hl). pose proof (l_mmutest _ _ _ Hl). rewrite u64_add by (change K_WINDOW with (2 ^ 32) in *; lia). rewrite Z.add_0_r.
    eapply load_runs; [done|apply (reach_boot_low es); [done|done|lia]|exact Hm|reflexivity]. }
  tidy. exec_with ltac:(apply (fetch_boot es); [done|done|vm_compute; lia]).
  { unfold jump. rewrite find_low by (vm_compute; lia). reflexivity. }
  tidy. apply runs_now. tidy. split_and!; [done..|]. kept.
Qed.

(** Words that neither the lottery nor the table hold. *)
Lemma choose_ok vid aid iid l : Forall (fun v => entries_ok (v_entries v) = true) l -> entries_ok (choose vid aid iid l) = true.
Proof. induction 1; cbn; [done|]. by destruct (vendor_match _ _ _ _). Qed.

Lemma entries_len es : entries_ok es = true -> length es = 4%nat.
Proof. by destruct es as [|? [|? [|? [|? [|]]]]]. Qed.

Lemma vendors_at_store m v p : p < addr _entry_pgtbl_start -> forall l a, addr _entry_pgtbl_start <= a -> vendors_at m a l -> vendors_at (<[p := v]> m) a l.
Proof.
  intros Hp. induction l as [|x l IH]; intros a Ha; cbn; [done|]. intros [Hw Hr]. split; [|apply IH; [lia|done]].
  intros i y Hy. rewrite lookup_insert_ne by lia. by apply Hw.
Qed.

(** From [_setup_pgtbl] to [_start], or to the end. *)
Lemma setup_block m r c e4 e5 e6 vid aid iid w : image place addr vs w m -> Forall (fun v => entries_ok (v_entries v) = true) vs ->
  bare (Hart 0 r c) -> r ra = place (pos _jump_start) ->
  sbi 0x10 4 = Some (e4, vid) -> sbi 0x10 5 = Some (e5, aid) -> sbi 0x10 6 = Some (e6, iid) ->
  runs (m, Hart (pos _setup_pgtbl) r c) (fun m' h' =>
    (forall a, ~ in_table a -> a <> addr _mmutest -> m' !! a = m !! a) /\
    if (e4 =? 0) && (e5 =? 0) && (e6 =? 0) then
      h_pc h' = pos _start /\ h_reg h' s0 = r s0 /\ h_reg h' s1 = r s1 /\ h_csr h' = <[CSR_SATP := boot_satp (tbl + 1024)]> c /\
      booted (choose vid aid iid vs) m' h'
    else m' = m /\ h_pc h' = pos _entry_hang /\ h_csr h' = c).
Proof.
  intros Him Hvs Hb Hra H4 H5 H6. eapply runs_bind; [by eapply (ids_block m r c e4 e5 e6)|].
  intros m1 [p1 r1 c1] (-> & Ec & K1 & H1). cbn in Ec, K1, H1. subst c1.
  destruct ((e4 =? 0) && (e5 =? 0) && (e6 =? 0)); [|subst p1; by apply runs_now].
  destruct H1 as (-> & S2 & S3 & S4 & A0 & A1 & A4). pose proof (choose_ok vid aid iid vs Hvs) as Hes. set (es := choose vid aid iid vs) in *.
  destruct (l_vendors _ _ _ Hl) as [Lv _], (l_end _ _ _ Hl) as [Le Le2], (l_startup _ _ _ Hl) as [Ls _], (l_lottery _ _ _ Hl) as [L0 _].
  pose proof (zlen_nonneg vs). pose proof (l_default _ _ _ Hl) as Ld. pose proof (l_start_addr _ _ _ Hl) as Lsa. pose proof layout_words as (_ & _ & D8 & V8 & _).
  eapply runs_bind; [eapply (find_block m c vid aid iid vs (addr _entry_pgtbl_start) r1); try done; try apply Him; try lia|].
  { eapply Forall_impl; [exact Hvs|]. intros v. apply entries_len. }
  fold es. intros m2 [p2 r2 c2] (-> & Ec & Ep & K2 & Hw & Hd). cbn in Ec, Ep, K2, Hw, Hd. subst c2 p2.
  eapply runs_bind; [apply (load_block m r2 c es (r2 a4)); [done|by apply entries_len|done| | | |apply Him|done]|].
  { destruct Hd as [-> |[? _]]; lia. } { by destruct Hd as [-> |[_ ?]]. } { destruct Hd as [-> |[? _]]; lia. }
  intros m3 [p3 r3 c3] (Hf & Ec & Ep & K3 & A5). cbn in Ec, Ep, K3, A5. subst c3 p3.
  destruct Hf as (F1 & F2 & F3). rewrite take_ge in F3 by (by rewrite (entries_len es Hes)).
  destruct (F2 (addr _mmutest) (im_mmutest _ _ _ _ _ Him)) as [w3 Hw3].
  assert (r3 ra = place (pos _jump_start) /\ r3 s0 = r s0 /\ r3 s1 = r s1) as (Era & Es0 & Es1).
  { rewrite <- Hra. split_and!; rewrite K3, K2, K1 by apart; done. }
  eapply runs_bind; [apply (set_mmu_block es m3 r3 c w3 (pos _jump_start)); try done; [rewrite A5; unfold in_table; lia|vm_compute; lia]|].
  intros m4 [p4 r4 c4] (Ep & Ec & K4 & Ht & F4 & _). cbn in Ep, Ec, K4. subst p4 c4. rewrite A5.
  assert (booted es m4 (Hart 0 r4 (<[CSR_SATP := boot_satp (tbl + 1024)]> c))) as Hbt by (apply booted_set; [unfold in_table; lia|done]).
  assert (m4 !! addr _start_addr = Some (place (pos _start))) as Hst.
  { rewrite F4 by (rewrite Lsa, (l_mmutest _ _ _ Hl); lia). rewrite F1 by (unfold in_table; lia). apply Him. }
  eapply runs_bind; [by apply (jump_block es m4 r4 _ Hes Hbt)|].
  intros m5 [p5 r5 c5] (-> & Ep & Ec & K5). cbn in Ep, Ec, K5. subst p5 c5. apply runs_now. cbn. split_and!; [|done|..|done|exact Hbt].
  - intros a Ha Hm. by rewrite F4, F1.
  - rewrite K5, K4 by apart. done.
  - rewrite K5, K4 by apart. done.
Qed.
(** From [_entry] to [_start], or to the end. *)
Lemma preloader_block m r c e4 e5 e6 vid aid iid w : image place addr vs w m -> Forall (fun v => entries_ok (v_entries v) = true) vs -> bare (Hart 0 r c) ->
  sbi 0x10 4 = Some (e4, vid) -> sbi 0x10 5 = Some (e5, aid) -> sbi 0x10 6 = Some (e6, iid) ->
  runs (m, Hart (pos _entry) r c) (fun m' h' =>
    m' !! addr _hart_lottery = Some (setf w 0 32 (u32 (w + 1))) /\
    (forall a, ~ in_table a -> a <> addr _mmutest -> a <> addr _hart_lottery -> m' !! a = m !! a) /\
    if (u32 w =? 0) && ((e4 =? 0) && (e5 =? 0) && (e6 =? 0)) then
      h_pc h' = pos _start /\ h_reg h' s0 = r a0 /\ h_reg h' s1 = r a1 /\ h_csr h' CSR_STVEC = place (pos _entry_hang) /\
      h_csr h' CSR_SATP = boot_satp (tbl + 1024) /\ booted (choose vid aid iid vs) m' h'
    else h_pc h' = pos _entry_hang /\ bare h').
Proof.
  intros Him Hvs Hb H4 H5 H6. destruct (l_vendors _ _ _ Hl) as [Lv _], (l_startup _ _ _ Hl) as [Ls _]. pose proof (l_default _ _ _ Hl) as Ld.
  pose proof (l_start_addr _ _ _ Hl) as La. pose proof (l_mmutest _ _ _ Hl) as Lm.
  eapply runs_bind; [apply (entry_block m r c w Hb); apply Him|].
  intros m1 [p1 r1 c1] [-> H1]. cbn in H1. destruct (u32 w =? 0); cbn [andb].
  2: { destruct H1 as [-> ->]. apply runs_now. split_and!; [apply lookup_insert_eq|intros; by rewrite lookup_insert_ne|done|done]. }
  destruct H1 as (-> & -> & K1 & S0 & S1 & Hra). set (w1 := setf w 0 32 (u32 (w + 1))). set (c1 := <[CSR_STVEC := place (pos _entry_hang)]> c).
  assert (bare (Hart 0 r1 c1)) as Hb1 by (unfold bare, c1; cbn; by rewrite fn_lookup_insert_ne).
  assert (image place addr vs w1 (<[addr _hart_lottery := w1]> m)) as Him1.
  { destruct Him as [I1 I2 I3 I4 I5 I6]. split.
    - apply lookup_insert_eq.
    - by rewrite lookup_insert_ne by lia.
    - by rewrite lookup_insert_ne by lia.
    - intros i x Hx. rewrite lookup_insert_ne by lia. by apply I4.
    - intros i Hi. rewrite lookup_insert_ne by lia. by apply I5.
    - apply (vendors_at_store m w1 (addr _hart_lottery)); [lia|done|done]. }
  eapply runs_mono; [by apply (setup_block _ r1 c1 e4 e5 e6 vid aid iid w1)|].
  intros m2 [p2 r2 c2] [F H2]. cbn in H2. split; [|split].
  { rewrite F; [apply lookup_insert_eq|unfold in_table; lia|lia]. } { intros a Ha Hm Hlo. rewrite F by done. by rewrite lookup_insert_ne. }
  destruct ((e4 =? 0) && (e5 =? 0) && (e6 =? 0)).
  - destruct H2 as (-> & E0 & E1 & -> & Hbt). cbn [h_pc h_reg h_csr]. split_and!; [done|by rewrite E0|by rewrite E1| | |done].
    + unfold c1. rewrite fn_lookup_insert_ne by done. by rewrite fn_lookup_insert.
    + by rewrite fn_lookup_insert.
  - destruct H2 as (-> & -> & ->). by split.
Qed.
End Preloader.

(** C16: The first instructions of a hart. When the kernel image is in memory and
    translation is off, a hart that enters at [_entry] takes part in the lottery.
    If it is not the first one, or if the firmware does not tell the identity of
    the machine, it hangs: it never leaves [_entry_hang] and never changes
    memory again. Otherwise it reaches [_start] at its link address with the hart
    number and the device tree in [s0] and [s1] and faults going to
    [_entry_hang], and translation is on: each of the first 4 GiB of addresses,
    and the address [K_VADDR_BASE] above it, leads to the same physical address
    for reads, writes and fetches. This holds for any list of vendor tables
    whose entries map their gigabyte to itself, as those of preloader.S do; only
    the lottery, the test word and the table have changed. *)
Theorem preloader_correct place addr vs sbi c_call m r c w e4 e5 e6 vid aid iid :
  layout place addr vs -> image place addr vs w m -> Forall (fun v => entries_ok (v_entries v) = true) vs -> getf (c CSR_SATP) 60 4 = 0 ->
  sbi 0x10 4 = Some (e4, vid) -> sbi 0x10 5 = Some (e5, aid) -> sbi 0x10 6 = Some (e6, iid) ->
  runs place addr sbi c_call (m, Hart (pos _entry) r c) (fun m' h' =>
    m' !! addr _hart_lottery = Some (setf w 0 32 (u32 (w + 1))) /\
    (forall a, ~ in_table addr a -> a <> addr _mmutest -> a <> addr _hart_lottery -> m' !! a = m !! a) /\
    if (u32 w =? 0) && ((e4 =? 0) && (e5 =? 0) && (e6 =? 0)) then
      h_pc h' = pos _start /\ h_reg h' s0 = r a0 /\ h_reg h' s1 = r a1 /\ h_csr h' CSR_STVEC = place (pos _entry_hang) /\
      h_csr h' CSR_SATP = boot_satp (addr _startup_pgtbl + 1024) /\ table_at m' (addr _startup_pgtbl) (choose vid aid iid vs) /\
      forall va k, 0 <= va < K_WINDOW -> reach k m' h' va = Some va /\ reach k m' h' (K_VADDR_BASE + va) = Some va
    else h_pc h' = pos _entry_hang /\ hangs place addr sbi c_call m' h').
Proof.
  intros Hl Him Hvs Hb H4 H5 H6. eapply runs_mono; [by apply (preloader_block place addr vs sbi c_call Hl m r c e4 e5 e6 vid aid iid w)|].
  intros m' h' (E1 & E2 & E3). split_and!; [done|done|]. destruct (_ && _).
  - destruct E3 as (-> & -> & -> & -> & -> & Hbt). split_and!; [done..|by destruct Hbt as (? & _ & _ & ?)|].
    pose proof (choose_ok vid aid iid vs Hvs) as Hes. intros va k Hva.
    split; [by apply (reach_boot_low place addr vs Hl _ k m' _ va Hes Hbt)|apply (reach_boot place addr vs Hl _ k m' _ _ va Hes Hbt Hva); auto].
  - destruct h' as [p' r' c'], E3 as [Ep Hb']. cbn in Ep. subst p'. split; [done|]. by apply (hang_forever place addr vs).
Qed.
