(* ===== verification/EntryC.v ===== *)
(** What prepC.S does (the machine and the code are in Entry.v): it clears BSS,
    gives every hart its stack, its thread-local data and a clean state of
    interrupts, calls the parts of the kernel in order, and takes the hart down
    again. The harts the kernel starts enter at [_entry_hart] of preloader.S. *)
From stdpp Require Import functions.
From S2P Require Import Prelude KDefs Bytes Mmu MmuSpec Traps Entry EntryBoot.

(** ** Address spaces in which the kernel can run *)

(** The first 4 GiB are mapped at [K_VADDR_BASE], and stay so as long as the words
    [T] of the tables are not changed. *)
Definition kspace (T : Z -> Prop) (m : gmap Z Z) (satp : Z) : Prop :=
  forall m', (forall a, T a -> m' !! a = m !! a) ->
  forall va k, 0 <= va < K_WINDOW -> exists f, xlate m' satp (K_VADDR_BASE + va) = Some (va, f) /\ allowed k f = true.

Lemma kspace_change T m m' satp : kspace T m satp -> (forall a, T a -> m' !! a = m !! a) -> kspace T m' satp.
Proof. intros H E m2 E2. apply H. intros a Ha. by rewrite E2, E. Qed.

Lemma kspace_reach T m h va k : kspace T m (h_csr h CSR_SATP) -> 0 <= va < K_WINDOW -> reach k m h (K_VADDR_BASE + va) = Some va.
Proof. intros H Hva. destruct (H m ltac:(done) va k Hva) as (f & E & Ha). unfold reach. by rewrite E, Ha. Qed.

(** The words a walk reads; an address space keeps its meaning while those of all
    the walks are unchanged. *)
Fixpoint walk_words (m : gmap Z Z) (k : nat) (t va : Z) : list Z :=
  (t + 8 * vpn k va) ::
  match m !! (t + 8 * vpn k va), k with
  | Some w, S k' => if is_ptr w then walk_words m k' (hw_pa w) va else []
  | _, _ => []
  end.

Lemma walk_same m m' va : forall k t, (forall a, a ∈ walk_words m k t va -> m' !! a = m !! a) -> walk m' k t va = walk m k t va.
Proof.
  induction k as [|k IH]; intros t H; cbn [walk walk_words] in *.
  - by rewrite (H _ (list_elem_of_here _ _)).
  - rewrite (H _ (list_elem_of_here _ _)). destruct (m !! (t + 8 * vpn (S k) va)) as [w|]; [|done]. destruct (is_ptr w); [|done].
    apply IH. intros a Ha. apply H. by right.
Qed.

Definition table_words (sz : Z) (m : gmap Z Z) (satp a : Z) : Prop :=
  exists va, 0 <= va < K_WINDOW /\ a ∈ walk_words m (max_level sz) (satp_root satp) (K_VADDR_BASE + va).

(** The direct map that [k_boot_sysdev] sets up is such an address space. *)
Lemma direct_map_kspace sz m satp : valid_sz sz -> getf satp 60 4 = mmutype sz ->
  (forall va, translate sz m (4096 * getf satp 0 44) va =
     if (K_VADDR_BASE <=? va) && (va <? K_VADDR_BASE + 2 ^ 32) then Some (va - K_VADDR_BASE, 23) else None) ->
  kspace (table_words sz m satp) m satp.
Proof.
  intros Hsz Hmode Ht m' Hm' va k Hva. exists 23. split; [|by destruct k].
  assert (xlate m' satp (K_VADDR_BASE + va) = translate sz m' (satp_root satp) (K_VADDR_BASE + va)) as ->.
  { unfold xlate. rewrite Hmode. by destruct Hsz as [-> |[-> | ->]]. }
  specialize (Ht (K_VADDR_BASE + va)). change K_WINDOW with (2 ^ 32) in Hva.
  destruct (Z.leb_spec K_VADDR_BASE (K_VADDR_BASE + va)); [|lia]. destruct (Z.ltb_spec (K_VADDR_BASE + va) (K_VADDR_BASE + 2 ^ 32)); [|lia].
  cbn [andb] in Ht. replace (K_VADDR_BASE + va - K_VADDR_BASE) with va in Ht by lia. rewrite <- Ht.
  unfold translate, satp_root. rewrite (walk_same m m'); [done|]. intros a Ha. apply Hm'. by exists va.
Qed.

(** So is the boot table. *)
Lemma boot_kspace place addr vs es m a : layout place addr vs -> entries_ok es = true -> table_at m (addr _startup_pgtbl) es -> in_table addr a ->
  kspace (in_table addr) m (boot_satp a).
Proof.
  intros Hl Hes Ht Ha m' Hm' va k Hva. destruct (tbl_range place addr vs Hl) as (T0 & _ & T1).
  destruct (boot_satp_spec (addr _startup_pgtbl) a) as [E1 E2]; [apply (l_startup _ _ _ Hl)|lia|done|].
  assert (table_at m' (addr _startup_pgtbl) es) as Ht'.
  { intros i e He. pose proof (lookup_lt_Some _ _ _ He) as Hi. rewrite (entries_len es Hes) in Hi. rewrite !Hm' by (unfold in_table; lia). by apply Ht. }
  destruct (table_walk m' (addr _startup_pgtbl) es K_VADDR_BASE va Hes Ht' Hva ltac:(by right)) as (f & Hf & Hall). exists f. split; [|done].
  unfold xlate. rewrite E1, E2. change (8 =? 0) with false. change (8 =? 8) with true. exact Hf.
Qed.

(** ** Filling memory *)

Fixpoint fill (p : Z) (l : list Z) (m : gmap Z Z) : gmap Z Z :=
  match l with [] => m | v :: l => fill (p + 8) l (<[p := v]> m) end.

Lemma fill_out l : forall p m a, ~ (p <= a < p + 8 * zlen l) -> fill p l m !! a = m !! a.
Proof.
  induction l as [|v l IH]; intros p m a Ha; cbn; [done|]. rewrite zlen_cons in Ha. pose proof (zlen_nonneg l).
  rewrite IH by lia. apply lookup_insert_ne. lia.
Qed.

Lemma fill_in l : forall p m i v, l !! i = Some v -> fill p l m !! (p + 8 * Z.of_nat i) = Some v.
Proof.
  induction l as [|x l IH]; intros p m i v Hi; [done|]. destruct i as [|i]; cbn in Hi |- *.
  - injection Hi as ->. rewrite fill_out by lia. rewrite Z.add_0_r. apply lookup_insert_eq.
  - replace (p + 8 * Z.of_nat (S i)) with (p + 8 + 8 * Z.of_nat i) by lia. by apply IH.
Qed.

Lemma fill_mid l : forall p m a, (forall i, (i < length l)%nat -> a <> p + 8 * Z.of_nat i) -> fill p l m !! a = m !! a.
Proof.
  induction l as [|v l IH]; intros p m a Ha; cbn; [done|]. rewrite IH.
  - apply lookup_insert_ne. specialize (Ha 0%nat). cbn in Ha. lia.
  - intros i Hi. specialize (Ha (S i)). cbn in Ha. lia.
Qed.

Lemma fill_app l1 : forall p l2 m, fill p (l1 ++ l2) m = fill (p + 8 * zlen l1) l2 (fill p l1 m).
Proof.
  induction l1 as [|v l1 IH]; intros p l2 m; cbn [app fill]; [by rewrite Z.add_0_r|]. rewrite IH, zlen_cons. f_equal. lia.
Qed.

(** Fills of disjoint ranges commute. *)
Lemma fill_insert l : forall p q v m, ~ (p <= q < p + 8 * zlen l) -> fill p l (<[q := v]> m) = <[q := v]> (fill p l m).
Proof.
  induction l as [|x l IH]; intros p q v m Hq; cbn; [done|]. rewrite zlen_cons in Hq. pose proof (zlen_nonneg l).
  rewrite insert_insert_ne by lia. apply IH. lia.
Qed.

Lemma fill_comm l1 : forall l2 p q m, p + 8 * zlen l1 <= q -> fill q l2 (fill p l1 m) = fill p l1 (fill q l2 m).
Proof.
  induction l1 as [|x l1 IH]; intros l2 p q m Hq; cbn; [done|]. rewrite zlen_cons in Hq. pose proof (zlen_nonneg l1).
  rewrite IH by lia. f_equal. apply fill_insert. lia.
Qed.

(** ** The sections the linker describes *)

(** Physical addresses, and lengths in words. *)
Record sections := Sections { x_bss : Z; x_bss_n : nat; x_tdata : Z; x_tdata_n : nat; x_tbss : Z; x_tbss_n : nat }.
Definition tls_len (x : sections) : Z := 8 * (Z.of_nat (x_tdata_n x) + Z.of_nat (x_tbss_n x)).
Definition section_at (start stop : Z) (p : Z) (n : nat) : Prop :=
  start = K_VADDR_BASE + p /\ stop = K_VADDR_BASE + p + 8 * Z.of_nat n /\ 0 <= p /\ p + 8 * Z.of_nat n <= K_WINDOW /\ p mod 8 = 0.
Record linked (addr : dsym -> Z) (x : sections) : Prop := {
  ln_bss : section_at (addr _bss_start) (addr _bss_end) (x_bss x) (x_bss_n x);
  ln_tdata : section_at (addr _tdata_start) (addr _tdata_end) (x_tdata x) (x_tdata_n x);
  ln_tbss : section_at (addr _tbss_start) (addr _tbss_end) (x_tbss x) (x_tbss_n x);
}.

(** Memory that can be written without changing the address space. *)
Definition writable (T : Z -> Prop) (m : gmap Z Z) (p : Z) (n : nat) : Prop :=
  forall i, (i < n)%nat -> is_Some (m !! (p + 8 * Z.of_nat i)) /\ ~ T (p + 8 * Z.of_nat i).

Lemma fill_some l : forall p m a, is_Some (m !! a) -> is_Some (fill p l m !! a).
Proof. induction l as [|v l IH]; intros p m a Ha; cbn; [done|]. apply IH, lookup_insert_is_Some'. by right. Qed.

Lemma writable_fill T m p n q l : writable T m p n -> writable T (fill q l m) p n.
Proof. intros H i Hi. destruct (H i Hi) as [Hs Ht]. split; [by apply fill_some|done]. Qed.

Lemma writable_sub T m p n k j : writable T m p n -> (k + j <= n)%nat -> writable T m (p + 8 * Z.of_nat k) j.
Proof. intros H Hk i Hi. replace (p + 8 * Z.of_nat k + 8 * Z.of_nat i) with (p + 8 * Z.of_nat (k + i)) by lia. apply H. lia. Qed.

Lemma fill_kspace T m satp p l : kspace T m satp -> writable T m p (length l) -> kspace T (fill p l m) satp.
Proof. intros Hk Hw. eapply kspace_change; [exact Hk|]. intros a Ha. apply fill_mid. intros i Hi ->. by apply (Hw i Hi). Qed.

Lemma words_at_fill m d l p l' : words_at m d l -> d + 8 * zlen l <= p \/ p + 8 * zlen l' <= d -> words_at (fill p l' m) d l.
Proof. intros Hw Hd i v Hi. pose proof (lookup_lt_Some _ _ _ Hi). rewrite fill_out; [by apply Hw|]. unfold zlen in *. lia. Qed.

(** Addresses of the kernel compare, as signed numbers, like the physical ones. *)
Lemma s64_high a : 0 <= a <= K_WINDOW -> s64 (K_VADDR_BASE + a) = a - 2 ^ 38.
Proof.
  intros Ha. change K_WINDOW with (2 ^ 32) in Ha. unfold sw. rewrite uw_small by (unfold is_uw; change K_VADDR_BASE with (2 ^ 64 - 2 ^ 38); lia).
  change K_VADDR_BASE with (2 ^ 64 - 2 ^ 38). destruct (Z.ltb_spec (2 ^ 64 - 2 ^ 38 + a) (2 ^ (64 - 1))); lia.
Qed.

Lemma u64_high a off : 0 <= a + off <= K_WINDOW -> u64 (K_VADDR_BASE + a + off) = K_VADDR_BASE + (a + off).
Proof.
  intros Ha. rewrite <- Z.add_assoc. change K_WINDOW with (2 ^ 32) in Ha. apply uw_small. unfold is_uw. change K_VADDR_BASE with (2 ^ 64 - 2 ^ 38). lia.
Qed.

Lemma mod8_high a : a mod 8 = 0 -> (K_VADDR_BASE + a) mod 8 = 0.
Proof. intros H. rewrite Z.add_comm. by apply (mod8_add a (2 ^ 61 - 2 ^ 35)). Qed.

Section Startup.
  Context (place : nat -> Z) (addr : dsym -> Z) (vs : list vendor).
  Context (sbi : Z -> Z -> option (Z * Z)).
  Context (c_call : cfn -> gmap Z Z -> hart -> option (gmap Z Z * (reg -> Z) * (ecsr -> Z))).
  Context (Hl : layout place addr vs).
  Abbreviation runs := (runs place addr sbi c_call).

Lemma fetch_high T m h : kspace T m (h_csr h CSR_SATP) -> (pos _start <= h_pc h < length code)%nat -> fetch_ok place m h = true.
Proof.
  intros Hk Hp. pose proof (l_high _ _ _ Hl _ Hp) as Hr. unfold fetch_ok, load_addr.
  replace (place (h_pc h)) with (K_VADDR_BASE + (place (h_pc h) - K_VADDR_BASE)) at 1 by lia. rewrite (kspace_reach T) by (auto; lia).
  destruct (Z.ltb_spec (place (h_pc h)) K_VADDR_BASE); [lia|]. apply Z.eqb_refl.
Qed.

Lemma high_store T m h a off v : kspace T m (h_csr h CSR_SATP) -> (a + off) mod 8 = 0 -> 0 <= a + off < K_WINDOW -> is_Some (m !! (a + off)) ->
  store place (u64 (K_VADDR_BASE + a + off)) v m h = Some (<[a + off := v]> m, next h).
Proof. intros Hk H8 Hr Hs. rewrite u64_high by lia. apply store_runs; [by apply mod8_high|by apply (kspace_reach T)|done]. Qed.

Lemma high_load T m h a off v k s : kspace T m (h_csr h CSR_SATP) -> (a + off) mod 8 = 0 -> 0 <= a + off < K_WINDOW -> m !! (a + off) = Some v -> k v = s ->
  load place (u64 (K_VADDR_BASE + a + off)) m h k = s.
Proof. intros Hk H8 Hr Hs Hv. rewrite u64_high by lia. eapply load_runs; [by apply mod8_high|by apply (kspace_reach T)|done|done]. Qed.

Ltac high T := exec_with ltac:(apply (fetch_high T); [done|cbn [h_pc]; split; (vm_compute; lia)]).

(** The loop that clears BSS. *)
Lemma bss_loop T n : forall m r c p, kspace T m (c CSR_SATP) -> writable T m p (S n) -> p mod 8 = 0 -> 0 <= p -> p + 8 * Z.of_nat (S n) <= K_WINDOW ->
  r a4 = K_VADDR_BASE + p -> r a5 = K_VADDR_BASE + (p + 8 * Z.of_nat (S n)) ->
  runs (m, Hart (pos _bss_zero) r c) (fun m' h' =>
    h_pc h' = pos _boot /\ h_csr h' = c /\ keeps [a4] r (h_reg h') /\ m' = fill p (replicate (S n) 0) m).
Proof.
  induction n as [|n IH]; intros m r c p Hk Hw H8 H0 Hp R4 R5; labels.
  all: pose proof (fill_kspace T m _ p [0] Hk ltac:(intros i Hi; apply Hw; cbn in Hi; lia)) as Hk1; cbn [fill] in Hk1.
  all: destruct (Hw 0%nat ltac:(lia)) as [Hs _].
  all: high T; [rewrite R4; apply (high_store T m); [done|by rewrite Z.add_0_r|lia|done]|]; tidy; rewrite Z.add_0_r; do 2 high T.
  - rewrite R4, R5, u64_high, !s64_high by lia. replace (_ <? _) with false by (symmetry; apply Z.ltb_ge; lia). tidy.
    apply runs_now. tidy. split_and!; [done..| |done]. kept.
  - rewrite R4, R5, u64_high, !s64_high by lia. replace (_ <? _) with true by (symmetry; apply Z.ltb_lt; lia). tidy.
    eapply runs_mono; [apply (IH _ _ c (p + 8)); regs|].
    + done.
    + apply (writable_sub T _ p (S (S n)) 1); [by apply (writable_fill _ _ _ _ p [0])|lia].
    + by apply (mod8_add p 1).
    + lia.
    + lia.
    + done.
    + rewrite R5. f_equal. lia.
    + intros m' h' (E1 & E2 & K & ->). split_and!; [done..| |done]. eapply regs_keeps_trans; [|exact K]. kept.
Qed.

(** The loop that clears the thread-local part of BSS, at [q] on the stack; [a4]
    only counts. *)
Lemma tbss_loop T n : forall m r c p q, kspace T m (c CSR_SATP) -> writable T m q (S n) -> q mod 8 = 0 -> 0 <= q -> q + 8 * Z.of_nat (S n) <= K_WINDOW ->
  0 <= p -> p + 8 * Z.of_nat (S n) <= K_WINDOW -> r a3 = K_VADDR_BASE + q -> r a4 = K_VADDR_BASE + p -> r a5 = K_VADDR_BASE + (p + 8 * Z.of_nat (S n)) ->
  runs (m, Hart (pos _tbss_zero) r c) (fun m' h' =>
    h_pc h' = pos _process_tdata /\ h_csr h' = c /\ keeps [a3; a4] r (h_reg h') /\ m' = fill q (replicate (S n) 0) m).
Proof.
  induction n as [|n IH]; intros m r c p q Hk Hw H8 H0 Hq H1 Hp R3 R4 R5; labels.
  all: pose proof (fill_kspace T m _ q [0] Hk ltac:(intros i Hi; apply Hw; cbn in Hi; lia)) as Hk1; cbn [fill] in Hk1.
  all: destruct (Hw 0%nat ltac:(lia)) as [Hs _].
  all: high T; [rewrite R3; apply (high_store T m); [done|by rewrite Z.add_0_r|lia|done]|]; tidy; rewrite Z.add_0_r; do 3 high T.
  - rewrite R4, R5, (u64_high p), !s64_high by lia. replace (_ <? _) with false by (symmetry; apply Z.ltb_ge; lia). tidy.
    apply runs_now. tidy. split_and!; [done..| |done]. kept.
  - rewrite R4, R5, (u64_high p), !s64_high by lia. replace (_ <? _) with true by (symmetry; apply Z.ltb_lt; lia). tidy.
    eapply runs_mono; [apply (IH _ _ c (p + 8) (q + 8)); regs|].
    + done.
    + apply (writable_sub T _ q (S (S n)) 1); [by apply (writable_fill _ _ _ _ q [0])|lia].
    + by apply (mod8_add q 1).
    + lia.
    + lia.
    + lia.
    + lia.
    + rewrite R3, u64_high by lia. done.
    + done.
    + rewrite R5. f_equal. lia.
    + intros m' h' (E1 & E2 & K & ->). split_and!; [done..| |done]. eapply regs_keeps_trans; [|exact K]. kept.
Qed.

(** The loop that copies the initial values of the thread-local data. *)
Lemma tdata_loop T l : forall v m r c p q, kspace T m (c CSR_SATP) -> writable T m q (S (length l)) -> words_at m p (v :: l) ->
  p + 8 * zlen (v :: l) <= q \/ q + 8 * zlen (v :: l) <= p ->
  p mod 8 = 0 -> q mod 8 = 0 -> 0 <= q -> q + 8 * zlen (v :: l) <= K_WINDOW -> 0 <= p -> p + 8 * zlen (v :: l) <= K_WINDOW ->
  r a3 = K_VADDR_BASE + p -> r a4 = K_VADDR_BASE + (p + 8 * zlen (v :: l)) -> r a5 = K_VADDR_BASE + q ->
  runs (m, Hart (pos _tdata_copy) r c) (fun m' h' =>
    h_pc h' = pos _fini_setup_hart /\ h_csr h' = c /\ keeps [a2; a3; a5] r (h_reg h') /\ m' = fill q (v :: l) m).
Proof.
  induction l as [|v' l IH]; intros v m r c p q Hk Hw Hv Hd P8 Q8 H0 Hq H1 Hp R3 R4 R5; labels; rewrite !zlen_cons in *.
  1: change (zlen (@nil Z)) with 0 in *. 2: pose proof (zlen_nonneg l).
  all: pose proof (fill_kspace T m _ q [v] Hk ltac:(intros i Hi; apply Hw; cbn in Hi |- *; lia)) as Hk1; cbn [fill] in Hk1.
  all: destruct (Hw 0%nat ltac:(lia)) as [Hs _]; pose proof (Hv 0%nat v eq_refl) as Hv0.
  all: high T; [rewrite R3; eapply (high_load T m); [done|by rewrite Z.add_0_r|lia|exact Hv0|reflexivity]|]; tidy.
  all: high T; [rewrite R5; apply (high_store T m); [done|by rewrite Z.add_0_r|lia|done]|]; tidy; rewrite Z.add_0_r; do 3 high T.
  all: rewrite R3, R4, (u64_high p), !s64_high by lia.
  - replace (_ <? _) with false by (symmetry; apply Z.ltb_ge; lia). tidy. apply runs_now. tidy. split_and!; [done..| |done]. kept.
  - replace (_ <? _) with true by (symmetry; apply Z.ltb_lt; lia). tidy.
    eapply runs_mono; [apply (IH v' _ _ c (p + 8) (q + 8)); regs; rewrite ?zlen_cons|].
    + done.
    + apply (writable_sub T _ q (S (S (length l))) 1); [by apply (writable_fill _ _ _ _ q [v])|lia].
    + intros i x Hx. replace (p + 8 + 8 * Z.of_nat i) with (p + 8 * Z.of_nat (S i)) by lia.
      apply (words_at_fill m p (v :: v' :: l) q [v] Hv); [rewrite !zlen_cons; change (zlen (@nil Z)) with 0; lia|done].
    + lia.
    + by apply (mod8_add p 1).
    + by apply (mod8_add q 1).
    + lia.
    + lia.
    + lia.
    + lia.
    + done.
    + rewrite R4. f_equal. lia.
    + rewrite R5, u64_high by lia. done.
    + intros m' h' (E1 & E2 & K & ->). split_and!; [done..| |done]. eapply regs_keeps_trans; [|exact K]. kept.
Qed.

  Context (x : sections) (Hx : linked addr x).

Lemma sub_high a b : 0 <= a - b -> u64 (K_VADDR_BASE + a - (K_VADDR_BASE + b)) = u64 (a - b).
Proof. intros _. f_equal. lia. Qed.

Lemma below_high a n : 0 <= a - n -> a <= K_WINDOW -> 0 <= n -> u64 (K_VADDR_BASE + a - n) = K_VADDR_BASE + (a - n).
Proof. intros H1 H2 H3. change (K_VADDR_BASE + a - n) with (K_VADDR_BASE + a + - n). by rewrite u64_high by lia. Qed.

(** [_process_tbss]: the stack pointer is [top]. *)
Lemma tbss_block T m r c top : kspace T m (c CSR_SATP) ->
  let n := x_tbss_n x in let b := top - 8 * Z.of_nat n in
  writable T m b n -> top mod 8 = 0 -> 0 <= b -> top <= K_WINDOW -> r sp = K_VADDR_BASE + top ->
  runs (m, Hart (pos _process_tbss) r c) (fun m' h' =>
    h_pc h' = pos _process_tdata /\ h_csr h' = c /\ keeps [sp; tp; a2; a3; a4; a5] r (h_reg h') /\ m' = fill b (replicate n 0) m /\
    h_reg h' sp = K_VADDR_BASE + b /\ (h_reg h' tp = if decide (n = 0%nat) then r tp else K_VADDR_BASE + b)).
Proof.
  intros Hk n b Hw H8 H0 Ht Rsp. destruct (ln_tbss _ _ Hx) as (E1 & E2 & P0 & P1 & P8). fold n in E2, P1. labels. do 3 high T. rewrite E1, E2.
  destruct n as [|n'] eqn:En.
  { replace (_ =? _) with true by (symmetry; apply Z.eqb_eq; lia). tidy. apply runs_now. tidy. regs. rewrite Rsp. unfold b.
    split_and!; [done..|kept|done|f_equal; lia|done]. }
  replace (_ =? _) with false by (symmetry; apply Z.eqb_neq; lia). tidy. do 4 high T.
  replace (K_VADDR_BASE + x_tbss x + 8 * Z.of_nat (S n') - (K_VADDR_BASE + x_tbss x)) with (8 * Z.of_nat (S n')) by lia.
  rewrite (uw_small 64 (8 * _)) by (unfold is_uw; change K_WINDOW with (2 ^ 32) in P1; lia). rewrite Rsp, below_high by lia. fold b.
  eapply runs_mono; [apply (tbss_loop T n' m _ c (x_tbss x) b); regs; try done; try lia|].
  { unfold b. change (top - 8 * Z.of_nat (S n')) with (top + - (8 * Z.of_nat (S n'))). rewrite <- Z.mul_opp_r. by apply mod8_add. }
  intros m' h' (Ep & Ec & K & ->). split_and!; [done|done| |done|..].
  - eapply regs_keeps_trans; [|eapply keeps_weaken; [|exact K]; reflexivity]. kept.
  - rewrite K by apart. by regs.
  - rewrite K by apart. by regs.
Qed.

(** [_process_tdata] and the end of [_setup_hart]. *)
Lemma tdata_block T m r c top l n : kspace T m (c CSR_SATP) -> length l = x_tdata_n x ->
  let b := top - 8 * zlen l in
  writable T m b (length l) -> words_at m (x_tdata x) l -> x_tdata x + 8 * zlen l <= b \/ top <= x_tdata x ->
  top mod 8 = 0 -> 0 <= b -> top <= K_WINDOW -> r sp = K_VADDR_BASE + top -> r ra = place n -> (n < length code)%nat ->
  runs (m, Hart (pos _process_tdata) r c) (fun m' h' =>
    h_pc h' = n /\ h_csr h' = <[CSR_SSCRATCH := 0]> c /\ keeps [sp; tp; a2; a3; a4; a5] r (h_reg h') /\ m' = fill b l m /\
    h_reg h' sp = K_VADDR_BASE + b /\ (h_reg h' tp = if decide (x_tdata_n x = 0%nat) then r tp else K_VADDR_BASE + b)).
Proof.
  intros Hk Hlen b Hw Hv Hd H8 H0 Ht Rsp Rra Hn. destruct (ln_tdata _ _ Hx) as (E1 & E2 & P0 & P1 & P8). rewrite <- Hlen in E2, P1 |- *.
  assert (forall m' r', kspace T m' (c CSR_SATP) -> r' ra = place n -> runs (m', Hart (pos _fini_setup_hart) r' c) (fun m'' h'' =>
    h_pc h'' = n /\ h_csr h'' = <[CSR_SSCRATCH := 0]> c /\ h_reg h'' = r' /\ m'' = m')) as Hend.
  { intros m' r' Hk' Hra'. labels. high T.
    exec_with ltac:(apply (fetch_high T); [cbn; by rewrite fn_lookup_insert_ne|cbn [h_pc]; split; (vm_compute; lia)]).
    { unfold jump. rewrite Hra', (find_low place addr vs) by done. reflexivity. } tidy. by apply runs_now. }
  labels. do 3 high T. rewrite E1, E2. destruct l as [|v l'] eqn:El.
  { replace (_ =? _) with true by (symmetry; apply Z.eqb_eq; cbn; lia). tidy. eapply runs_mono; [apply Hend; [done|by regs]|].
    intros m' h' (-> & -> & -> & ->). regs. rewrite Rsp. unfold b. split_and!; [done..|kept|done|f_equal; change (zlen (@nil Z)) with 0; lia|done]. }
  replace (_ =? _) with false by (symmetry; apply Z.eqb_neq; cbn; lia). tidy. do 5 high T.
  replace (K_VADDR_BASE + x_tdata x + 8 * Z.of_nat (length (v :: l')) - (K_VADDR_BASE + x_tdata x)) with (8 * zlen (v :: l')) by (unfold zlen; lia).
  fold (zlen (v :: l')) in P1. rewrite (uw_small 64 (8 * _)) by (unfold is_uw; pose proof (zlen_nonneg (v :: l')); change K_WINDOW with (2 ^ 32) in P1; lia).
  pose proof (zlen_nonneg (v :: l')). rewrite Rsp, below_high by lia. fold b.
  eapply runs_bind; [apply (tdata_loop T l' v m _ c (x_tdata x) b); regs; try done; try (unfold b; lia)|].
  { unfold b. change (top - 8 * zlen (v :: l')) with (top + - (8 * zlen (v :: l'))). rewrite <- Z.mul_opp_r. by apply mod8_add. }
  { rewrite E2. unfold zlen. lia. }
  intros m' [p' r' c'] (Ep & Ec & K & ->). cbn in Ep, Ec, K. subst p' c'.
  eapply runs_mono; [apply Hend; [by apply fill_kspace|rewrite K by apart; by regs]|].
  intros m'' h'' (-> & -> & -> & ->). split_and!; [done|done| |done|..].
  - eapply regs_keeps_trans; [|eapply keeps_weaken; [|exact K]; reflexivity]. kept.
  - rewrite K by apart. by regs.
  - rewrite K by apart. by regs.
Qed.

(** A stack that ends at [top] has room for the thread-local data, whose initial
    values are [l]. *)
Record tls_room (T : Z -> Prop) (m : gmap Z Z) (top : Z) (l : list Z) : Prop := {
  tr_len : length l = x_tdata_n x;
  tr_data : words_at m (x_tdata x) l;
  tr_room : writable T m (top - tls_len x) (x_tdata_n x + x_tbss_n x);
  tr_top : top mod 8 = 0 /\ tls_len x <= top <= K_WINDOW;
  tr_apart : x_tdata x + 8 * zlen l <= top - tls_len x \/ top <= x_tdata x;
}.

(** The thread-local data of a hart: the initial values, and zeros behind. *)
Definition tls_image (l : list Z) : list Z := l ++ replicate (x_tbss_n x) 0.

Lemma tls_image_len l : length l = x_tdata_n x -> 8 * zlen (tls_image l) = tls_len x.
Proof. intros H. unfold tls_image, zlen, tls_len. rewrite length_app, length_replicate, H. lia. Qed.

Lemma setup_hart_block T m r c top l n : kspace T m (c CSR_SATP) -> tls_room T m top l -> r a1 = K_VADDR_BASE + top ->
  r ra = place n -> (n < length code)%nat ->
  runs (m, Hart (pos _setup_hart) r c) (fun m' h' =>
    h_pc h' = n /\ h_csr h' = <[CSR_SSCRATCH := 0]> (<[CSR_SIP := 0]> (<[CSR_SIE := 0]> c)) /\ keeps [sp; tp; a2; a3; a4; a5] r (h_reg h') /\
    m' = fill (top - tls_len x) (tls_image l) m /\ kspace T m' (c CSR_SATP) /\
    h_reg h' sp = K_VADDR_BASE + (top - tls_len x) /\ (h_reg h' tp = if decide (tls_len x = 0) then r tp else K_VADDR_BASE + (top - tls_len x))).
Proof.
  intros Hk [Tl Td Tr [T8 Tt] Ta] Ra1 Rra Hn. pose proof (tls_image_len l Tl) as Hi. set (nd := x_tdata_n x) in *. set (nb := x_tbss_n x) in *.
  assert (tls_len x = 8 * Z.of_nat nd + 8 * Z.of_nat nb) as Et by (unfold tls_len; fold nd nb; lia).
  assert (zlen l = Z.of_nat nd) as El by (unfold zlen; by rewrite Tl). labels. high T.
  set (c1 := <[CSR_SIP := 0]> (<[CSR_SIE := 0]> c)). assert (kspace T m (c1 CSR_SATP)) as Hk1 by (unfold c1; by rewrite !fn_lookup_insert_ne).
  exec_with ltac:(apply (fetch_high T); [cbn; by rewrite fn_lookup_insert_ne|cbn [h_pc]; split; (vm_compute; lia)]). fold c1. high T.
  set (b := top - 8 * Z.of_nat nb). assert (writable T m b nb) as Wb.
  { unfold b. replace (top - 8 * Z.of_nat nb) with (top - tls_len x + 8 * Z.of_nat nd) by lia. eapply writable_sub; [exact Tr|lia]. }
  eapply runs_bind; [apply (tbss_block T m _ c1 top Hk1); fold nb b; regs; try done; lia|]. fold nb b.
  intros m1 [p1 r1 c1'] (Ep & Ec & K1 & -> & Rsp & Rtp). cbn in Ep, Ec, K1, Rsp, Rtp. subst p1 c1'. revert Rtp. regs. intros Rtp.
  assert (b - 8 * zlen l = top - tls_len x) as Eb by (unfold b; lia).
  eapply runs_mono; [apply (tdata_block T _ r1 c1 b l n)|].
  - apply fill_kspace; [done|]. by rewrite length_replicate.
  - done.
  - rewrite Eb, Tl. apply writable_fill. replace (top - tls_len x) with (top - tls_len x + 8 * Z.of_nat 0) by lia. eapply writable_sub; [exact Tr|lia].
  - apply words_at_fill; [done|]. unfold zlen at 2. rewrite length_replicate. unfold b. lia.
  - rewrite Eb. unfold b. lia.
  - unfold b. rewrite <- Z.add_opp_r, <- Z.mul_opp_r. by apply mod8_add.
  - rewrite Eb. lia.
  - unfold b. lia.
  - done.
  - rewrite K1 by apart. by regs.
  - done.
  - rewrite Eb. intros m' h' (-> & -> & K2 & -> & -> & ->). assert (fill (top - tls_len x) l (fill b (replicate nb 0) m) = fill (top - tls_len x) (tls_image l) m) as ->.
    { unfold tls_image. rewrite fill_app. fold nb. replace (top - tls_len x + 8 * zlen l) with b by lia. symmetry. apply fill_comm. lia. }
    split_and!; [done|done| |done| |done|].
    + eapply regs_keeps_trans; [|exact K2]. eapply regs_keeps_trans; [|exact K1]. kept.
    + apply fill_kspace; [done|]. unfold tls_image. rewrite length_app, length_replicate, Tl. done.
    + rewrite Rtp. fold nd. repeat case_decide; try lia; f_equal; lia.
Qed.

(** ** The calls *)

Definition mapped (m : gmap Z Z) (c : ecsr -> Z) : Prop := exists T, kspace T m (c CSR_SATP).

(** What the C code promises: a function that is called in an address space with
    the kernel's window returns in one, keeps the registers the calling
    convention says, and [k_boot], when it succeeds, returns a stack. *)
Record c_code : Prop := {
  k_returns f m h : mapped m (h_csr h) -> exists m' r' c', c_call f m h = Some (m', r', c') /\ mapped m' c' /\
    (forall y, y ∈ callee_saved -> r' y = h_reg h y);
  k_stack m h m' r' c' : c_call C_k_boot m h = Some (m', r', c') -> r' a0 = 0 ->
    exists T top l, r' a1 = K_VADDR_BASE + top /\ kspace T m' (c' CSR_SATP) /\ tls_room T m' top l;
}.

Abbreviation traces := (traces place addr sbi c_call).
  Context (Hc : c_code).

Lemma call_block L f m r c n P : mapped m c -> code !! n = Some (CallC f) -> (pos _start <= n < length code)%nat ->
  (forall m' r' c', c_call f m (Hart n (<[ra := place (S n)]> r) c) = Some (m', r', c') -> mapped m' c' -> (forall y, y ∈ callee_saved -> r' y = r y) ->
    traces (fun l => L (Event f (c_args f r) (r sp) (r tp) (r' a0, r' a1) :: l)) (m', Hart (S n) r' c') P) ->
  traces L (m, Hart n r c) P.
Proof.
  intros [T HT] Hn Hr H. destruct (k_returns Hc f m (Hart n (<[ra := place (S n)]> r) c)) as (m' & r' & c' & E & Hm & Hs); [by exists T|].
  eapply traces_call; [by apply (fetch_high T)|exact Hn|exact E|]. apply H; [done|done|].
  intros y Hy. rewrite Hs by done. cbn. rewrite fn_lookup_insert_ne; [done|]. intros <-. revert Hy. apart.
Qed.

(** [_kernel_exit]: the status that is in [a0] reaches [k_cleanup]. *)
Definition exit_calls (status sp0 tp0 : Z) (l : list event) : Prop :=
  exists e1 e2, l = [Event C_k_before_cleanup [] sp0 tp0 e1; Event C_k_cleanup [status] K_START_STACK_ADDR 0 e2].

Ltac at_call := eapply call_block; [eexists; eassumption|reflexivity|split; (vm_compute; lia)|cbn [c_args]].

Lemma exit_block m r c : mapped m c ->
  traces (exit_calls (r a0) (r sp) (r tp)) (m, Hart (pos _kernel_exit) r c) (fun m' h' => h_pc h' = pos _start_hang /\ mapped m' (h_csr h')).
Proof.
  intros [T HT]. labels. high T. at_call. intros m1 r1 c1 E1 [T1 HT1] S1. do 3 high T1. at_call. intros m2 r2 c2 E2 [T2 HT2] S2. high T2.
  apply traces_now; [|split; [done|by exists T2]]. regs. eexists _, _. do 3 f_equal. rewrite S1 by apart. by regs.
Qed.

(** What every hart does after it is set up: with an error from [k_pre_main] it
    goes on to [k_exit], otherwise after [k_main] and [k_after_main]. *)
Definition main_calls (hart sp0 tp0 : Z) (k_exit : Z -> list event -> Prop) (l : list event) : Prop :=
  exists e l1, l = Event C_k_pre_main [hart] sp0 tp0 e :: l1 /\
    if e.1 =? 0 then exists e1 e2 l2, l1 = Event C_k_main [] sp0 tp0 e1 :: Event C_k_after_main [e1.1] sp0 tp0 e2 :: l2 /\ k_exit e2.1 l2
    else k_exit e.1 l1.

Lemma warm_block m r c : mapped m c ->
  traces (main_calls (r s0) (r sp) (r tp) (fun e => exit_calls e (r sp) (r tp))) (m, Hart (pos _start_warm) r c)
    (fun m' h' => h_pc h' = pos _start_hang /\ mapped m' (h_csr h')).
Proof.
  intros [T HT]. labels. high T. at_call. intros m1 r1 c1 E1 [T1 HT1] S1. regs. high T1. destruct (r1 a0 =? 0) eqn:E; tidy.
  - at_call. intros m2 r2 c2 E2 [T2 HT2] S2. at_call. intros m3 r3 c3 E3 [T3 HT3] S3.
    assert (forall y, y ∈ [sp; tp] -> r3 y = r y) as K.
    { intros y Hy. rewrite S3, S2, S1 by (revert Hy; rewrite !elem_of_cons, elem_of_nil; intros [-> |[-> |[]]]; apart).
      revert Hy. rewrite !elem_of_cons, elem_of_nil. intros [-> |[-> |[]]]; by regs. }
    eapply traces_mono; [apply exit_block; by exists T3|]. rewrite (K sp), (K tp) by apart. intros l Hex. do 2 eexists. split; [done|]. cbn [fst snd]. rewrite E.
    exists (r2 a0, r2 a1), (r3 a0, r3 a1), l. split; [|exact Hex]. rewrite (S2 sp), (S2 tp), (S1 sp), (S1 tp) by apart. by regs.
  - eapply traces_mono; [apply exit_block; by exists T1|]. rewrite (S1 sp), (S1 tp) by apart. regs. intros l Hex. do 2 eexists. split; [done|]. cbn [fst snd]. by rewrite E.
Qed.

(** Up to the first call: BSS is clear. *)
Lemma start_block T m r c : kspace T m (c CSR_SATP) -> (0 < x_bss_n x)%nat -> writable T m (x_bss x) (x_bss_n x) ->
  runs (m, Hart (pos _start) r c) (fun m' h' =>
    code !! h_pc h' = Some (CallC C_k_boot) /\ h_pc h' = (pos _boot + 7)%nat /\ m' = fill (x_bss x) (replicate (x_bss_n x) 0) m /\ kspace T m' (c CSR_SATP) /\
    h_csr h' = <[CSR_STVEC := place (pos _start_hang)]> (<[CSR_SIP := 0]> (<[CSR_SIE := 0]> c)) /\
    keeps [gp; sp; a0; a1; a3; a4; a5] r (h_reg h') /\ h_reg h' gp = addr __global_pointer /\ h_reg h' sp = K_START_STACK_ADDR /\
    h_reg h' a0 = r s0 /\ h_reg h' a1 = r s1).
Proof.
  intros Hk Hn Hw. destruct (ln_bss _ _ Hx) as (E1 & E2 & P0 & P1 & P8). destruct (x_bss_n x) as [|n] eqn:En; [lia|]. labels. do 3 high T. rewrite E1, E2.
  eapply runs_bind; [apply (bss_loop T n m _ c (x_bss x)); regs; try done; lia|].
  intros m1 [p1 r1 c1] (Ep & Ec & K & ->). cbn in Ep, Ec, K. subst p1 c1. set (m1 := fill _ _ m).
  assert (kspace T m1 (c CSR_SATP)) as Hk1 by (apply fill_kspace; [done|by rewrite length_replicate]). labels.
  assert (forall v, kspace T m1 ((<[CSR_SIE := v]> c) CSR_SATP)) as Hk2 by (intros v; by rewrite fn_lookup_insert_ne).
  assert (forall v w, kspace T m1 ((<[CSR_SIP := w]> (<[CSR_SIE := v]> c)) CSR_SATP)) as Hk3 by (intros v w; by rewrite !fn_lookup_insert_ne).
  assert (forall u v w, kspace T m1 ((<[CSR_STVEC := u]> (<[CSR_SIP := w]> (<[CSR_SIE := v]> c))) CSR_SATP)) as Hk4 by (intros u v w; by rewrite !fn_lookup_insert_ne).
  high T. do 3 high T. do 3 high T. apply runs_now. tidy. regs. split_and!; try done.
  - eapply regs_keeps_trans; [|eapply regs_keeps_trans; [eapply keeps_weaken; [|exact K]; reflexivity|]]; kept.
  - rewrite K by apart. by regs.
  - rewrite K by apart. by regs.
  - rewrite K by apart. by regs.
Qed.

(** The calls of the first hart, [hart] and [fdt] being what it was started with,
    and [tp0] its thread pointer until [k_boot] has returned the stack, whose end
    is the second word of its result. *)
Definition boot_calls (hart fdt tp0 : Z) (l : list event) : Prop :=
  exists e l1, l = Event C_k_boot [hart; fdt] K_START_STACK_ADDR tp0 e :: l1 /\
    if e.1 =? 0 then
      exists e1 l2, let b := e.2 - tls_len x in let tp1 := if decide (tls_len x = 0) then tp0 else b in
        l1 = Event C_k_boot_harts [hart] b tp1 e1 :: l2 /\ main_calls hart b tp1 (fun s => exit_calls s b tp1) l2
    else exit_calls e.1 K_START_STACK_ADDR tp0 l1.

Lemma boot_block T m r c : kspace T m (c CSR_SATP) -> (0 < x_bss_n x)%nat -> writable T m (x_bss x) (x_bss_n x) ->
  traces (boot_calls (r s0) (r s1) (r tp)) (m, Hart (pos _start) r c) (fun m' h' => h_pc h' = pos _start_hang /\ mapped m' (h_csr h')).
Proof.
  intros Hk Hn Hw. eapply runs_traces; [by apply (start_block T)|].
  intros m1 [p1 r1 c1] (_ & Ep & -> & Hk1 & Ec & K & _ & Rsp & Ra0 & Ra1). cbn in Ep, Ec, K, Rsp, Ra0, Ra1. subst p1.
  assert (kspace T (fill (x_bss x) (replicate (x_bss_n x) 0) m) (c1 CSR_SATP)) as Hk2 by (rewrite Ec; by rewrite !fn_lookup_insert_ne).
  labels. at_call. intros m2 r2 c2 E2 [T2 HT2] S2. high T2. destruct (r2 a0 =? 0) eqn:E; tidy.
  2: { eapply traces_mono; [apply exit_block; by exists T2|]. rewrite (S2 sp), (S2 tp) by apart. rewrite Rsp, Ra0, Ra1, (K tp) by apart. intros l Hex. do 2 eexists. split; [done|]. cbn [fst snd]. by rewrite E. }
  apply Z.eqb_eq in E as E0. destruct (k_stack Hc _ _ _ _ _ E2 E0) as (T3 & top & l & R1 & HT3 & Hroom). high T2.
  eapply runs_traces; [apply (setup_hart_block T3 m2 _ c2 top l); [done|done|by regs|by regs|vm_compute; lia]|].
  intros m4 [p4 r4 c4] (Ep & Ec4 & K4 & -> & HT4 & Rsp4 & Rtp4). cbn in Ep, Ec4, K4, Rsp4, Rtp4. subst p4.
  assert (c4 CSR_SATP = c2 CSR_SATP) as Es by (rewrite Ec4; by rewrite !fn_lookup_insert_ne). rewrite <- Es in HT4.
  high T3. at_call. intros m5 r5 c5 E5 Hm5 S5. regs. match goal with |- context [Hart ?n r5 c5] => change n with (pos _start_warm) end.
  eapply traces_mono; [by apply warm_block|]. intros l2 Hwm. do 2 eexists. split; [rewrite Rsp, Ra0, Ra1, (K tp) by apart; reflexivity|]. cbn [fst snd]. rewrite E.
  revert Hwm. rewrite (S5 s0), (S5 sp), (S5 tp) by apart. regs. rewrite Rsp4, Rtp4, (K4 s0) by apart. regs. rewrite (S2 s0), (S2 tp), (K s0), (K tp) by apart. intros Hwm.
  cbn [fst snd]. do 2 eexists. rewrite R1. replace (K_VADDR_BASE + top - tls_len x) with (K_VADDR_BASE + (top - tls_len x)) by lia. split; [reflexivity|exact Hwm].
Qed.

(** From the first instruction on: the hart that wins the lottery makes the calls
    of [boot_calls], with what the firmware gave it in [a0] and [a1]; one that
    does not makes none. *)
Lemma entry_calls m r c w vid aid iid :
  image place addr vs w m -> Forall (fun v => entries_ok (v_entries v) = true) vs -> bare (Hart 0 r c) ->
  sbi 0x10 4 = Some (0, vid) -> sbi 0x10 5 = Some (0, aid) -> sbi 0x10 6 = Some (0, iid) ->
  (0 < x_bss_n x)%nat -> writable (in_table addr) m (x_bss x) (x_bss_n x) ->
  (forall i, (i < x_bss_n x)%nat -> x_bss x + 8 * Z.of_nat i <> addr _mmutest /\ x_bss x + 8 * Z.of_nat i <> addr _hart_lottery) ->
  traces (fun l => if u32 w =? 0 then exists tp0, boot_calls (r a0) (r a1) tp0 l else l = []) (m, Hart (pos _entry) r c)
    (fun _ h' => h_pc h' = if u32 w =? 0 then pos _start_hang else pos _entry_hang).
Proof.
  intros Him Hvs Hb H4 H5 H6 Hn Hw Hd.
  eapply runs_traces; [by apply (preloader_block place addr vs sbi c_call Hl m r c 0 0 0 vid aid iid w)|].
  intros m1 [p1 r1 c1] (E1 & F & H1). change ((0 =? 0) && (0 =? 0) && (0 =? 0)) with true in H1. rewrite andb_true_r in H1.
  destruct (u32 w =? 0); [|destruct H1 as [Hp _]; by apply traces_now].
  destruct H1 as (Ep & S0 & S1 & _ & Es & (y & _ & _ & Ht)). cbn in Ep, S0, S1, Es. subst p1.
  assert (kspace (in_table addr) m1 (c1 CSR_SATP)) as Hk.
  { rewrite Es. eapply (boot_kspace place addr vs (choose vid aid iid vs)); [done|by apply choose_ok|done|unfold in_table; lia]. }
  assert (writable (in_table addr) m1 (x_bss x) (x_bss_n x)) as Hw1.
  { intros i Hi. destruct (Hw i Hi) as [Hs Ht']. destruct (Hd i Hi). split; [by rewrite F|done]. }
  destruct (boot_block _ m1 r1 c1 Hk Hn Hw1) as (l & HL & m2 & h2 & Htr & Hp & _). exists l. split; [exists (r1 tp); by rewrite <- S0, <- S1|]. by exists m2, h2.
Qed.

(** ** The other harts *)

(** What [k_boot_harts] leaves for a hart: below the end of its stack the address
    of [_start_hart] and satp; the boot table is still there. *)
Record hart_ready (T : Z -> Prop) (es : list Z) (m : gmap Z Z) (satp top : Z) (l : list Z) : Prop := {
  hr_entries : entries_ok es = true;
  hr_table : table_at m (addr _startup_pgtbl) es;
  hr_mmutest : is_Some (m !! addr _mmutest);
  hr_start : m !! (top - 8) = Some (place (pos _start_hart));
  hr_satp : m !! (top - 16) = Some satp;
  hr_space : kspace T m satp;
  hr_tls : tls_room T m top l;
  hr_top : 16 <= top;
  hr_apart : ~ T (addr _mmutest) /\ addr _mmutest <> top - 8 /\ addr _mmutest <> top - 16 /\
    ~ (x_tdata x <= addr _mmutest < x_tdata x + 8 * zlen l);
}.

Lemma ready_change T es m m' satp top l : hart_ready T es m satp top l -> table_at m' (addr _startup_pgtbl) es ->
  (forall a, a <> addr _mmutest -> m' !! a = m !! a) -> is_Some (m' !! addr _mmutest) -> hart_ready T es m' satp top l.
Proof.
  intros [Ee Et Em Es Ep Ek [L D R TT A] E16 (A1 & A2 & A3 & A4)] Ht F Hm. split; try done.
  - by rewrite F.
  - by rewrite F.
  - eapply kspace_change; [exact Ek|]. intros a Ha. apply F. by intros ->.
  - split; try done.
    + intros i v Hi. rewrite F; [by apply D|]. pose proof (lookup_lt_Some _ _ _ Hi). unfold zlen in A4. lia.
    + intros i Hi. destruct (R i Hi) as [Hs Hn]. split; [|done].
      destruct (decide (top - tls_len x + 8 * Z.of_nat i = addr _mmutest)) as [-> |Hne]; [done|by rewrite F].
Qed.

(** From [_entry_hart] to [_start_hart]. *)
Lemma entry_hart_block T es m r c satp top l : bare (Hart 0 r c) -> hart_ready T es m satp top l -> r a1 = K_VADDR_BASE + top ->
  runs (m, Hart (pos _entry_hart) r c) (fun m' h' =>
    h_pc h' = pos _start_hart /\ hart_ready T es m' satp top l /\ booted addr es m' h' /\ h_csr h' CSR_STVEC = place (pos _entry_hang) /\
    h_reg h' s0 = r a0 /\ h_reg h' s1 = r a1).
Proof.
  intros Hb Hr R1. pose proof Hr as [Ee Et [w Em] _ _ _ [_ _ _ [T8 Tt] _] E16 _]. labels.
  assert (forall n r', bare (Hart n r' c)) as Hb' by done. set (c1 := <[CSR_STVEC := place (pos _entry_hang)]> c).
  assert (forall n r', bare (Hart n r' c1)) as Hb1 by (intros; unfold bare, c1; cbn; by rewrite fn_lookup_insert_ne).
  do 4 exec_with ltac:(apply (fetch_low place addr vs); [done|done|vm_compute; lia]). fold c1.
  do 2 exec_with ltac:(apply (fetch_low place addr vs); [done|done|vm_compute; lia]). destruct (tbl_range place addr vs Hl) as (B0 & B8 & B1).
  eapply runs_bind; [eapply (set_mmu_block place addr vs sbi c_call Hl es m _ c1 w); [done|done|done| |exact Em|regs; reflexivity|vm_compute; lia]|].
  { regs. unfold in_table. lia. }
  intros m1 [p1 r1 c2] (Ep & Ec & K & Ht & F & Hm). cbn in Ep, Ec, K. revert Ec. regs. intros Ec. subst p1.
  pose proof (ready_change _ _ _ _ _ _ _ Hr Ht F Hm) as Hr1. pose proof Hr1 as [_ _ _ Es _ _ _ _ _].
  assert (forall n r', booted addr es m1 (Hart n r' c2)) as Hbt by (subst c2; apply booted_set; [unfold in_table; lia|done]).
  assert (r1 a1 = K_VADDR_BASE + top) as Ra1 by (rewrite K by apart; by regs).
  exec_with ltac:(apply (fetch_boot place addr vs Hl es); [done|done|vm_compute; lia]).
  { rewrite Ra1, u64_high by lia. eapply load_runs; [apply mod8_high, (mod8_add top (-1)), T8|apply (reach_boot place addr vs Hl es); [done|done|lia|by right]|exact Es|reflexivity]. }
  tidy. exec_with ltac:(apply (fetch_boot place addr vs Hl es); [done|done|vm_compute; lia]).
  { unfold jump. rewrite (find_low place addr vs) by (done || (vm_compute; lia)). reflexivity. }
  tidy. apply runs_now. tidy. split_and!; [done|done|done| |..].
  - subst c2. rewrite fn_lookup_insert_ne by done. unfold c1. by rewrite fn_lookup_insert.
  - regs. rewrite K by apart. by regs.
  - regs. rewrite K by apart. by regs.
Qed.

(** From [_start_hart] to the call that stops the hart. *)
Lemma start_hart_block T es m r c satp top l : booted addr es m (Hart 0 r c) -> hart_ready T es m satp top l -> r s1 = K_VADDR_BASE + top ->
  let b := K_VADDR_BASE + (top - tls_len x) in
  traces (main_calls (r s0) b (if decide (tls_len x = 0) then r tp else b) (fun _ l => l = [])) (m, Hart (pos _start_hart) r c) (fun m' h' =>
    code !! h_pc h' = Some Ecall /\ h_reg h' a7 = 0x48534D /\ h_reg h' a6 = 1).
Proof.
  intros Hb Hr Rs1 b. pose proof Hr as [Ee Et _ _ Ep Ek Htls E16 _]. pose proof Htls as [_ _ _ [T8 Tt] _].
  assert (forall n r', booted addr es m (Hart n r' c)) as Hb' by done. labels.
  exec_with ltac:(apply (fetch_boot place addr vs Hl es); [done|done|vm_compute; lia]).
  { rewrite Rs1, u64_high by lia. eapply load_runs; [apply mod8_high, (mod8_add top (-2)), T8|apply (reach_boot place addr vs Hl es); [done|done|lia|by right]|exact Ep|reflexivity]. }
  tidy. exec_with ltac:(apply (fetch_boot place addr vs Hl es); [done|done|vm_compute; lia]). set (c1 := <[CSR_SATP := satp]> c).
  assert (kspace T m (c1 CSR_SATP)) as Hk by (unfold c1; by rewrite fn_lookup_insert). do 6 high T.
  eapply runs_traces; [apply (setup_hart_block T m _ c1 top l); [done|done|by regs|regs; reflexivity|vm_compute; lia]|].
  intros m2 [p2 r2 c2] (Epc & Ec & K & -> & Hk2 & Rsp & Rtp). cbn in Epc, Ec, K, Rsp, Rtp. subst p2. revert Rtp. regs. intros Rtp. fold b in Rsp, Rtp.
  assert (kspace T (fill (top - tls_len x) (tls_image l) m) (c2 CSR_SATP)) as Hk3 by (rewrite Ec; by rewrite !fn_lookup_insert_ne).
  high T. at_call. intros m3 r3 c3 E3 [T3 HT3] S3. regs. high T3. rewrite Rsp, Rtp, (K s0) by apart. regs. destruct (r3 a0 =? 0) eqn:E; tidy.
  - at_call. intros m4 r4 c4 E4 [T4 HT4] S4. at_call. intros m5 r5 c5 E5 [T5 HT5] S5. do 2 high T5. apply traces_now; [|tidy; by regs].
    do 2 eexists. split; [reflexivity|]. cbn [fst snd]. rewrite E. exists (r4 a0, r4 a1), (r5 a0, r5 a1), []. split; [|done].
    rewrite (S4 sp), (S4 tp), (S3 sp), (S3 tp) by apart. regs. by rewrite Rsp, Rtp.
  - do 2 high T3. apply traces_now; [|tidy; by regs]. do 2 eexists. split; [reflexivity|]. cbn [fst snd]. by rewrite E.
Qed.
End Startup.

(** C17: The first hart in prepC.S. It enters at [_start] in an address space with
    the kernel's window, [s0] and [s1] holding its number and the device tree.
    Without a call it reaches that of [k_boot]: BSS is clear and nothing else has
    changed, interrupts are off, faults go to [_start_hang], [gp] and [sp] are set
    and the arguments are the number and the tree. When the C functions return
    in an address space with the kernel's window and keep the calling convention,
    and [k_boot], when it succeeds, returns a stack with room for the thread-local
    data, the calls of the whole run are those of [boot_calls]: [k_boot] on the
    boot stack; when it succeeds, [k_boot_harts] and [k_pre_main] with the number
    of the hart, on the stack whose end [k_boot] returned, below the thread-local
    data and with [tp] at them; when that succeeds,
    [k_main] and [k_after_main] with what it returned; in every case
    [k_before_cleanup] on the same stack and then [k_cleanup] with the status of
    the last step, on the boot stack and with [tp] 0; and then it hangs. *)
Theorem start_correct place addr vs sbi c_call x T m r c :
  layout place addr vs -> linked addr x -> c_code c_call x -> kspace T m (c CSR_SATP) ->
  (0 < x_bss_n x)%nat -> writable T m (x_bss x) (x_bss_n x) ->
  runs place addr sbi c_call (m, Hart (pos _start) r c) (fun m' h' =>
    code !! h_pc h' = Some (CallC C_k_boot) /\
    (forall i, (i < x_bss_n x)%nat -> m' !! (x_bss x + 8 * Z.of_nat i) = Some 0) /\
    (forall a, ~ (x_bss x <= a < x_bss x + 8 * Z.of_nat (x_bss_n x)) -> m' !! a = m !! a) /\
    h_csr h' CSR_SIE = 0 /\ h_csr h' CSR_SIP = 0 /\ h_csr h' CSR_STVEC = place (pos _start_hang) /\ h_csr h' CSR_SATP = c CSR_SATP /\
    h_reg h' gp = addr __global_pointer /\ h_reg h' sp = K_START_STACK_ADDR /\ h_reg h' a0 = r s0 /\ h_reg h' a1 = r s1) /\
  traces place addr sbi c_call (boot_calls x (r s0) (r s1) (r tp)) (m, Hart (pos _start) r c) (fun m' h' => h_pc h' = pos _start_hang).
Proof.
  intros Hl Hx Hc Hk Hn Hw. split.
  - eapply runs_mono; [by apply (start_block place addr vs sbi c_call Hl x Hx T)|].
    intros m' h' (E1 & _ & -> & _ & -> & _ & E2 & E3 & E4 & E5). split_and!; try done.
    + intros i Hi. apply fill_in. by apply lookup_replicate.
    + intros a Ha. apply fill_out. unfold zlen. by rewrite length_replicate.
  - destruct (boot_block place addr vs sbi c_call Hl x Hx Hc T m r c Hk Hn Hw) as (l & HL & m' & h' & Ht & HP & _).
    exists l. split; [done|]. by exists m', h'.
Qed.

(** C18: The other harts. A hart that the firmware starts at [_entry_hart], with
    translation off, its number in [a0] and the end of its stack in [a1], turns
    the boot table on, fetches from below the end of the stack where to go on and
    the kernel's satp, and runs with that: when the C functions return and keep
    the calling convention, its calls are [k_pre_main] with its number and, when
    that succeeds, [k_main] and [k_after_main], all below the thread-local data
    on its own stack and with [tp] at them; then it asks the firmware to stop it.
    If its stack ends at a multiple of the stack size, [tp] is what a trap on
    that stack recomputes. *)
Theorem hart_correct place addr vs sbi c_call x T es m r c satp top l :
  layout place addr vs -> linked addr x -> c_code c_call x -> getf (c CSR_SATP) 60 4 = 0 ->
  hart_ready place addr x T es m satp top l -> r a1 = K_VADDR_BASE + top ->
  let b := K_VADDR_BASE + (top - tls_len x) in
  traces place addr sbi c_call
    (fun el => exists tp0, main_calls (r a0) b (if decide (tls_len x = 0) then tp0 else b) (fun _ l => l = []) el) (m, Hart (pos _entry_hart) r c)
    (fun m' h' => code !! h_pc h' = Some Ecall /\ h_reg h' a7 = 0x48534D /\ h_reg h' a6 = 1) /\
  (top mod K_CONFIG_STACK_SIZE = 0 -> K_CONFIG_STACK_SIZE <= top -> forall s, K_VADDR_BASE + top - K_CONFIG_STACK_SIZE < s < K_VADDR_BASE + top -> recalc_tp (tls_len x) s = b).
Proof.
  intros Hl Hx Hc Hb Hr R1 b. pose proof Hr as [_ _ _ _ _ _ [_ _ _ [_ Tt] _] _ _]. split.
  - eapply runs_traces; [by apply (entry_hart_block place addr vs sbi c_call Hl x T es m r c satp top l)|].
    intros m1 [p1 r1 c1] (Ep & Hr1 & Hb1 & _ & E0 & E1). cbn in Ep, E0, E1. subst p1.
    eapply traces_mono; [apply (start_hart_block place addr vs sbi c_call Hl x Hx Hc T es m1 r1 c1 satp top l); [done|done|by rewrite E1]|].
    rewrite E0. intros el Hel. by exists (r1 tp).
  - intros Ha Hs s Hss. change K_WINDOW with (2 ^ 32) in Tt. assert (0 <= tls_len x) by (unfold tls_len; lia).
    rewrite (recalc_tp_top _ (K_VADDR_BASE + top)); [|done| | |done].
    + change (K_VADDR_BASE + top - tls_len x) with (K_VADDR_BASE + top + - tls_len x). rewrite u64_high by (change K_WINDOW with (2 ^ 32); lia). done.
    + change K_CONFIG_STACK_SIZE with 8192 in *. rewrite Z.add_comm. change K_VADDR_BASE with ((2 ^ 51 - 2 ^ 25) * 8192). by rewrite Z_mod_plus_full.
    + change K_VADDR_BASE with (2 ^ 64 - 2 ^ 38). change K_CONFIG_STACK_SIZE with 8192 in *. lia.
Qed.
