(* ===== verification/EntrySample.v ===== *)
(** A machine on which the assembly of Entry.v runs: an image with the vendor
    table of preloader.S, a stack below it, and C functions that return at once. *)
From stdpp Require Import functions.
From S2P Require Import Prelude KDefs Bytes Mmu MmuSpec Traps Entry EntryBoot EntryC.

Definition s_place (i : nat) : Z := if (i <? pos _start)%nat then 0x80200000 + 4 * Z.of_nat i else K_VADDR_BASE + 0x80203000 + 4 * Z.of_nat i.
Definition s_addr (s : dsym) : Z :=
  match s with
  | _hart_lottery => 0x80200800 | _start_addr => 0x80200808 | _mmutest => 0x80200810 | _default_pgtbl => 0x80200818
  | _startup_pgtbl => 0x80201000 | _entry_pgtbl_start => 0x80202000 | _entry_pgtbl_end => 0x80202040
  | __global_pointer => K_VADDR_BASE + 0x80210800
  | _bss_start => K_VADDR_BASE + 0x80210000 | _bss_end => K_VADDR_BASE + 0x80210018
  | _tdata_start => K_VADDR_BASE + 0x80210018 | _tdata_end => K_VADDR_BASE + 0x80210028
  | _tbss_start => K_VADDR_BASE + 0x80210028 | _tbss_end => K_VADDR_BASE + 0x80210030
  end.
Definition s_sections : sections := Sections 0x80210000 3 0x80210018 2 0x80210028 1.

Definition s_words (p : Z) (l : list Z) : list (Z * Z) := imap (fun i v => (p + 8 * Z.of_nat i, v)) l.
(** The image; [w] is the word of the lottery. BSS is dirty. *)
Definition s_mem (w : Z) : gmap Z Z := list_to_map (
  s_words 0x80200800 ([w; s_place (pos _start); 0] ++ default_pgtbl) ++ s_words 0x80201000 (replicate 512 0) ++
  s_words 0x80202000 (vendor_words pgtbl_c906) ++ s_words 0x80210000 [1; 2; 3; 17; 19; 0]).
(** With the stack of hart 1, as [k_boot_harts] leaves it, and the boot table. *)
Definition s_stack : Z := 0x801FE000.
Definition s_ready : gmap Z Z :=
  list_to_map (s_words (s_stack - 24) [5; boot_satp 0x80201400; s_place (pos _start_hart)] ++ s_words 0x80201000 default_pgtbl ++ s_words 0x80201800 default_pgtbl) ∪ s_mem 1.

Definition s_csr : ecsr -> Z := fun _ => 0.
Definition s_sbi (ext fid : Z) : option (Z * Z) := if ext =? 0x10 then Some (0, if fid =? 4 then 0x5b7 else 0) else None.
(** [k_boot] returns the stack of hart 1 when it runs in the memory above, after
    BSS was cleared, and fails otherwise. *)
Definition s_booted : gmap Z Z := fill 0x80210000 (replicate 3 0) s_ready.
Definition s_c_call (f : cfn) (m : gmap Z Z) (h : hart) : option (gmap Z Z * (reg -> Z) * (ecsr -> Z)) :=
  let ok := match f with C_k_boot => bool_decide (m = s_booted) && (h_csr h CSR_SATP =? boot_satp 0x80201400) | _ => true end in
  Some (m, <[a0 := if ok then 0 else 1]> (<[a1 := K_VADDR_BASE + s_stack]> (h_reg h)), h_csr h).

Lemma s_place_low i : (i < 84)%nat -> s_place i = 0x80200000 + 4 * Z.of_nat i.
Proof. intros Hi. unfold s_place. change (pos _start) with 84%nat. destruct (Nat.ltb_spec i 84); [done|lia]. Qed.
Lemma s_place_high i : (84 <= i)%nat -> s_place i = K_VADDR_BASE + 0x80203000 + 4 * Z.of_nat i.
Proof. intros Hi. unfold s_place. change (pos _start) with 84%nat. destruct (Nat.ltb_spec i 84); [lia|done]. Qed.

Lemma s_layout : layout s_place s_addr [pgtbl_c906].
Proof.
  assert (pos _start = 84%nat) as Es by reflexivity. assert (length code = 162%nat) as El by reflexivity.
  split; rewrite ?Es, ?El; change K_WINDOW with (2 ^ 32).
  - intros i j Hi Hj. destruct (decide (i < 84)%nat); [rewrite (s_place_low i) by lia|rewrite (s_place_high i) by lia];
      (destruct (decide (j < 84)%nat); [rewrite (s_place_low j) by lia|rewrite (s_place_high j) by lia]); change K_VADDR_BASE with (2 ^ 64 - 2 ^ 38); lia.
  - intros i Hi. rewrite s_place_low by done. lia.
  - intros i Hi. rewrite s_place_high by lia. lia.
  - split; [done|reflexivity].
  - reflexivity.
  - reflexivity.
  - reflexivity.
  - split; [done|reflexivity].
  - split; [done|reflexivity].
  - split; reflexivity.
Qed.

Lemma s_linked : linked s_addr s_sections.
Proof. split; (split_and!; [reflexivity|reflexivity|done|done|reflexivity]). Qed.

(** Checking words of a concrete memory. *)
Definition has_words (m : gmap Z Z) (p : Z) (l : list Z) : bool := forallb (fun '(a, v) => bool_decide (m !! a = Some v)) (s_words p l).
Lemma has_words_at m p l : has_words m p l = true -> words_at m p l.
Proof.
  unfold has_words. rewrite forallb_forall. intros H i v Hi. apply (bool_decide_eq_true _). apply (H (p + 8 * Z.of_nat i, v)).
  apply list_elem_of_In. unfold s_words. apply elem_of_lookup_imap. by exists i, v.
Qed.
Definition has_some (m : gmap Z Z) (p : Z) (n : nat) : bool := forallb (fun i => bool_decide (is_Some (m !! (p + 8 * Z.of_nat i)))) (seq 0 n).
Lemma has_some_at m p n i : has_some m p n = true -> (i < n)%nat -> is_Some (m !! (p + 8 * Z.of_nat i)).
Proof. unfold has_some. rewrite forallb_forall. intros H Hi. apply (bool_decide_eq_true _), H, in_seq. lia. Qed.

Lemma s_image w : image s_place s_addr [pgtbl_c906] w (s_mem w).
Proof.
  split.
  - reflexivity.
  - reflexivity.
  - by eexists.
  - apply has_words_at. vm_compute. reflexivity.
  - intros i Hi. rewrite <- (Z2Nat.id i) by lia. apply (has_some_at _ _ 512); [vm_compute; reflexivity|lia].
  - split; [|done]. apply has_words_at. vm_compute. reflexivity.
Qed.

Lemma preloader_witness : runs s_place s_addr s_sbi s_c_call (s_mem 0, Hart (pos _entry) (fun _ => 7) s_csr) (fun m' h' =>
  h_pc h' = pos _start /\ h_reg h' s0 = 7 /\ table_at m' 0x80201000 (v_entries pgtbl_c906)).
Proof.
  eapply runs_mono.
  - apply (preloader_correct s_place s_addr [pgtbl_c906] s_sbi s_c_call (s_mem 0) (fun _ => 7) s_csr 0 0 0 0 0x5b7 0 0).
    + exact s_layout.
    + exact (s_image 0).
    + by repeat constructor.
    + reflexivity.
    + reflexivity.
    + reflexivity.
    + reflexivity.
  - cbn beta. intros m h (_ & _ & H). change (u32 0 =? 0) with true in H. cbn [andb] in H. destruct H as (E1 & E2 & _ & _ & _ & E3 & _).
    split_and!; [exact E1|exact E2|exact E3].
Defined.

Lemma s_table m : has_words m 0x80201000 default_pgtbl && has_words m 0x80201800 default_pgtbl = true -> table_at m (s_addr _startup_pgtbl) default_pgtbl.
Proof. intros [H1 H2]%andb_prop i e He. split; [by apply (has_words_at _ _ _ H1)|by apply (has_words_at _ _ _ H2)]. Qed.

Lemma s_space m : has_words m 0x80201000 default_pgtbl && has_words m 0x80201800 default_pgtbl = true -> kspace (in_table s_addr) m (boot_satp 0x80201400).
Proof. intros H. apply (boot_kspace s_place s_addr [pgtbl_c906] default_pgtbl); [exact s_layout|reflexivity|by apply s_table|by unfold in_table]. Qed.

Lemma s_writable m p n : has_some m p n = true -> p + 8 * Z.of_nat n <= 0x80201000 \/ 0x80202000 <= p -> writable (in_table s_addr) m p n.
Proof. intros H Hp i Hi. split; [by apply (has_some_at _ _ n)|]. unfold in_table. cbn [s_addr]. lia. Qed.

Lemma s_tls m : has_words m 0x80210018 [17; 19] && has_some m (s_stack - 24) 3 = true -> tls_room s_sections (in_table s_addr) m s_stack [17; 19].
Proof.
  intros [H1 H2]%andb_prop. split; [reflexivity|by apply has_words_at| |split; [reflexivity|done]|by right].
  change (s_stack - tls_len s_sections) with (s_stack - 24). apply s_writable; [done|by left].
Qed.

Lemma s_kernel : c_code s_c_call s_sections.
Proof.
  split.
  - intros f m h Hm. do 3 eexists. split; [reflexivity|]. split; [done|]. intros y Hy. cbn.
    rewrite !fn_lookup_insert_ne; [done|intros <-; revert Hy; apart..].
  - intros m h m' r' c' [= <- <- <-]. rewrite fn_lookup_insert. destruct (bool_decide (m = s_booted)) eqn:E; [|done].
    apply bool_decide_eq_true in E. subst m. destruct (Z.eqb_spec (h_csr h CSR_SATP) (boot_satp 0x80201400)) as [-> |]; [|done]. intros _.
    exists (in_table s_addr), s_stack, [17; 19]. split; [reflexivity|]. split; [apply s_space; vm_compute; reflexivity|apply s_tls; vm_compute; reflexivity].
Qed.

Definition s_on : ecsr -> Z := <[CSR_SATP := boot_satp 0x80201400]> s_csr.

Lemma start_witness : traces s_place s_addr s_sbi s_c_call (boot_calls s_sections 7 7 7) (s_ready, Hart (pos _start) (fun _ => 7) s_on) (fun m' h' => h_pc h' = pos _start_hang).
Proof.
  apply (start_correct s_place s_addr [pgtbl_c906] s_sbi s_c_call s_sections (in_table s_addr) s_ready (fun _ => 7) s_on).
  - exact s_layout.
  - exact s_linked.
  - exact s_kernel.
  - apply s_space. vm_compute. reflexivity.
  - cbn. lia.
  - apply s_writable; [vm_compute; reflexivity|by right].
Defined.

Definition s_regs : reg -> Z := <[a0 := 1]> (fun _ => K_VADDR_BASE + s_stack).

Lemma hart_witness : traces s_place s_addr s_sbi s_c_call
  (fun el => exists tp0, main_calls (s_regs a0) (K_VADDR_BASE + (s_stack - tls_len s_sections))
    (if decide (tls_len s_sections = 0) then tp0 else K_VADDR_BASE + (s_stack - tls_len s_sections)) (fun _ l => l = []) el)
  (s_ready, Hart (pos _entry_hart) s_regs s_csr) (fun m' h' => code !! h_pc h' = Some Ecall /\ h_reg h' a7 = 0x48534D /\ h_reg h' a6 = 1).
Proof.
  apply (hart_correct s_place s_addr [pgtbl_c906] s_sbi s_c_call s_sections (in_table s_addr) default_pgtbl s_ready
    s_regs s_csr (boot_satp 0x80201400) s_stack [17; 19]).
  - exact s_layout.
  - exact s_linked.
  - exact s_kernel.
  - reflexivity.
  - split.
    + reflexivity.
    + apply s_table. vm_compute. reflexivity.
    + apply (has_some_at _ 0x80200810 1 0); [vm_compute; reflexivity|lia].
    + vm_compute. reflexivity.
    + vm_compute. reflexivity.
    + apply s_space. vm_compute. reflexivity.
    + apply s_tls. vm_compute. reflexivity.
    + done.
    + unfold in_table. cbn. change (zlen [17; 19]) with 2. change s_stack with 0x801FE000. split_and!; lia.
  - reflexivity.
Defined.
